(* ===== verification/_CoqProject ===== *)
-Q . S2P
Prelude.v
JsString.v
JsValue.v
JsNumber.v
JsMap.v
JsDate.v
Cookies.v
AuthStore.v
ApiClient.v
Sse.v
ApiErrors.v
Http.v
Routes.v
QueryCache.v
QueryKeys.v
Hotspot.v
Ppp.v
Device.v
Billing.v
VoucherApi.v
Admin.v
PortalApi.v
Hooks.v
Contract.v
Coherence.v
Invalidation.v
TableUrl.v
Voucher.v
Presets.v
Html.v
Traffic.v
Pages.v
MobileNav.v
Nav.v
Prefs.v
Ui.v
DialogStores.v
Actions.v
Wire.v
Forms.v
FormsBusiness.v
FormsRouter.v
FormsPreset.v
ViewModels.v
FormContracts.v
FormEffects.v
FormRuns.v
Log.v
Format.v
Sales.v
Reports.v
VoucherForm.v
Portal.v
Settings.v
Notify.v
Account.v
DataTable.v
HotspotTables.v
ListTables.v
DateInput.v
DateRange.v
Register.v
FormFields.v
FormFieldsRouter.v
Shell.v
Reveal.v
Combobox.v
PageFields.v
Overview.v
ConfigDrawer.v
PortalPages.v
DeviceTabs.v
NotifyPages.v
StaffDialogs.v
