(* ===== verification/Prelude.v ===== *)
(** * rosmon web client: a verification library

    rosmon manages MikroTik routers: a Go backend and, under [web/src], a TypeScript single
    page application.  The library models the application's own logic, the code between
    React's rendering and the libraries: how it keeps a session, how it talks to the
    backend, what it caches and when it throws the cache away, how it follows live
    streams, and what it computes (vouchers, presets, printed pages, rates, page bars).

    ** How the program fits together

    A page calls a hook of its feature's [api/queries.ts].  A query hook gives TanStack
    Query a key of [lib/api/query-keys.ts], an [enabled] flag and a function of
    [api/service.ts]; a mutation hook gives it a service function and an [onSuccess] that
    invalidates or overwrites cached keys.  A service function sends one request through
    [lib/api/client.ts], which adds the access token of [stores/auth-store.ts] and, on a
    401, refreshes it once for all waiting requests; the store keeps its tokens in a cookie
    and in localStorage.  The backend answers in envelopes that [lib/api/unwrap.ts] opens
    and [lib/api/errors.ts] reads when they are errors.  Streams ([lib/api/sse.ts]) push
    frames to the hooks that show live data.  The customer portal has a client and a store
    of its own.

    ** The files (all sources are under [src/web/src] unless a path says otherwise)

    Language and browser, no source file:
    - Prelude: [result] (a call that may throw), reachability of step relations, tactics
      ([b2p], [zcases], [perm_nat]), the hint database [js].
    - JsString, JsValue, JsNumber, JsMap, JsDate: the standard-library functions the client
      calls on strings, untyped values and JSON, numbers, [Map] and [Date] (the Gregorian
      calendar by days, both directions proved inverse).

    Session and transport:
    - Cookies ([lib/cookies.ts]): the cookie jar as a finite map.
    - AuthStore ([stores/auth-store.ts, portal-auth-store.ts]): Modules [Auth] and [Portal],
      each setter a function on the browser's storage and the store.
    - ApiClient ([lib/api/client.ts, portal-client.ts]): Module [Client] is a step relation,
      one step per event-loop task; Module [PortalClient] the 401 handling of the portal.
    - ApiErrors ([lib/api/types.ts, unwrap.ts, errors.ts], [lib/handle-server-error.ts]).
    - Sse ([lib/api/sse.ts]): the connection's life cycle as a step relation, and the
      event names of the stream hooks against those of the backend.

    Services, hooks and cache:
    - Http: requests with URLs as templates of literal and interpolated segments.
    - Routes ([src/api/routes.go, src/api/handler]): method and path of every route.
    - QueryCache: the interface [QueryMatching] to the query library (prefix matching, as
      its documentation states it), with an instance, and the cache operations.
    - QueryKeys ([lib/api/query-keys.ts]).
    - Hotspot, Ppp, Device, Billing, VoucherApi, Admin, PortalApi
      ([features/*/api/service.ts, queries.ts]): one Module per feature directory, one
      definition per service function and per hook.
    - Hooks: the sum of all of them (81 query hooks, 100 mutation hooks, and the service
      functions pages call directly), so that a theorem can speak of every hook.
    - Contract, Coherence, Invalidation: the theorems about all hooks.

    Computations:
    - TableUrl ([hooks/use-table-url-state.ts]): table state in the URL.
    - Voucher ([features/voucher/generate/data]): the batch generator over a stream of
      random draws, CSV.
    - Presets ([features/voucher/print], [stores/quick-print-presets-meta-store.ts]).
    - Html ([features/voucher/print-render/templates]): the printed document.
    - Traffic ([features/traffic]): the accumulator behind the live grid.
    - Pages ([lib/utils.ts]): page bar and initials.
    - ViewModels ([features/hotspot/_shared], the tables' [view-model.ts]): rows as the
      tables show them, built from the backend's response records ([src/api/dto]).
    - Log ([features/log]): reading, filtering and bounding the lines of the log page.
    - Format ([lib/format.ts] and the features' [_shared/format.ts]).

    Pages, dialogs and forms:
    - Nav ([routes], [components/layout], [main.tsx]): routes with their guards as a
      navigation function, the role-filtered sidebar, the landing page after login, the
      retry rule of the query client.
    - MobileNav ([context/mobile-nav-store.tsx], [components/layout/mobile-bottom-nav.tsx]),
      Prefs ([context/*-provider.tsx], the appearance form): stored preferences.
    - Ui: a handler is a program ([prog]) of awaited mutations, toasts and closings, run
      against the server's answers ([exec]).
    - DialogStores ([features/*/store]): one Module per store, its setters merging into the
      previous state as zustand's [set] does, each an instance of the class of dialog
      stores; Module [RowDialogs] the provider-based dialogs with the timer
      that clears the row.
    - Actions: confirmation dialogs, row menus, sync buttons and device tabs as programs.
    - Reveal ([components/password-reveal-dialog.tsx]): a step relation on the dialog, the
      requests on the wire and the server's password.
    - Account ([features/settings/{account,profile,display}]).
    - Shell ([components/layout], [components/command-menu.tsx], the user menus): the router
      switcher, sidebar groups, shortcuts, sign-out.
    - Combobox, DateInput, DateRange ([components/input-combobox.tsx, ui/date-input.tsx,
      date-range-picker.tsx]): the inputs with a state of their own, as state machines.
    - ConfigDrawer ([components/config-drawer.tsx], the appearance page): the controls over
      Prefs.
    - Wire ([src/api/dto]): the request structs with their binding tags and the interface
      [GinBinding] to gin's decoder.
    - Forms (the idioms, and the interface [Zod]), FormsBusiness, FormsRouter, FormsPreset:
      one Module per form with its values, schema, default values, payload and submission.
    - FormContracts, FormEffects, FormRuns: the theorems about all forms.
    - FormFields, FormFieldsRouter, PageFields: what each form has on the screen (fields,
      choices, labels, what can be changed), and the relation between that and its request.

    Tables and whole pages:
    - DataTable ([components/data-table]): toolbar, filters, page bar and bulk bar over the
      interface [ReactTable]; HotspotTables, ListTables: the columns and bulk actions of
      every table built from them.
    - Sales, Reports ([features/voucher/sales], [features/report]): the sales list with its
      URL, and the day, month and year computed from the backend's answers.
    - VoucherForm ([features/voucher/generate], quick print): requests, batches, print jobs.
    - Overview ([features/{dashboard,voucher,hotspot}/index.tsx]): the cards and the
      backend's totals behind them.
    - Settings, Notify, NotifyPages ([features/settings], [features/notification-center,
      whatsapp]): the table of settings with the server's seeds and masking, event routing, the pairing of
      a phone.
    - DeviceTabs ([features/system], [features/network]): the tabs over one router, and the
      dialogs that add an entry, as machines around handlers that wait.
    - Portal, PortalPages ([features/customer-portal]): the customer's pages; Module
      [Portal.Detail] is the invoice page's form as a step function, PortalPages the
      screens and the password sheet.
    - Register ([features/public-register]): the form of visitors.
    - StaffDialogs ([features/registrations/dialogs], the dialog of an invoice, the table of
      a day): the dialogs that decide on a registration as a machine, an invoice's actions
      beside the backend's cancellation.

    ** What the theorems show

    - The refresh protocol: at most one refresh call is on the wire, no request is lost or
      answered twice, the number of refreshes is bounded by that of requests, a successful
      refresh replays the queue with the new token, a failed one rejects it; an empty token
      in the answer is the one way to lose requests.
    - Sessions: the decoder inverts the encoding of a token's claims, a staff token never
      opens the portal, what a store holds is what a reload reads, a reset leaves an
      anonymous session; cookies behave as a map.
    - Streams: one connection or one pending reconnect at a time, none after clean-up, the
      back-off is capped; which streams deliver frames and which cannot.
    - The contract with the backend: every request reaches a registered route, with
      thirteen exceptions that are listed and always fail.
    - The cache: queries fire only with complete URLs, equal keys mean equal requests,
      a mutation leaves no fresh copy of what it changed; the exceptions are listed, and
      are theorems too.
    - Errors: an envelope's code, message and details are what the readers return, and the
      toast shows the same text.
    - Pages: a navigation enters exactly what the guards admit, the sidebar shows exactly
      that as long as [/auth/me] and the store have the same role, a login never lands on a
      closed door; every dialog store refines one specification (mode and payload of the
      last [open], merged into whatever was left before), so that confirming a dialog acts
      on what it was last opened with; preferences and the mobile bar survive a reload.
    - Actions and forms: success toasts only after every sent request was accepted,
      deletions only after the typed confirmation, one request per selected id; a form sends
      at most one request (the binding form one per chosen host) and stays open when it is
      refused; what it sends binds the backend's struct, within limits the theorems name and
      with the exceptions they list; an edit that changes nothing sends the record's own
      values, but for a limit of 0 users and the lock of a hotspot profile.
    - Rows: which columns show the backend's values, which cannot.
    - Screens: a request is made of what its form shows and lets one change
      ([requests_on_screen]; the exceptions are theorems); the revealed password is the
      server's, unless an answer was overtaken ([revealed_password_current]); the active
      router is one the backend lists; overview cards against the backend's totals.
    - Tables: the rows shown are those of the query the toolbar shows; bulk actions take the
      rows at the ticked positions, which is not always what was ticked.
    - Portal: a proof of payment is recorded only for an uploaded file, one at a time, with
      the texts of the click; the form's controls are exactly those that do something;
      what the pages say is owed, and when they are wrong ([all_paid_claims]).
    - Settings: what is saved is what the form shows next, secrets do not leave the server.
    - Inputs: the picker's main range stays in order (its comparison need not), a combobox shows its owner's value, the
      drawer marks the stored choice.
    - Computations: round trips (URL state, presets, profile forms, CSV, escaping), batches
      as the form asks, rates that carry exactly the counted bits, a printed page whose
      markup no data can change, a page bar without gaps.

    ** Bounds and fuel

    - [json_val] (JsValue) starts with more than twice the text's length: of two nested
      calls at least one has consumed a character.  [Z_to_string] has fuel for the number
      of digits ([fuel_log2]).  The fuel of [Voucher.batch_loop] is the code's own
      bound [maxIter], minus the iterations done.
    - Numbers are integers or exact rationals; laws that need it ask for less than 2^53.
      The 32-bit hash of Presets is kept at its width.
    - Strings are UTF-8 bytes; character-wise functions are exact on ASCII text.

    ** What is not modelled

    React rendering, layout and styling, and the wrappers under [components/ui] that only
    style a library's component: they keep no state of the program's.  zod beyond the checks
    the forms use, gin beyond binding, axios, TanStack Query, Router and Table and the
    browser beyond the interfaces above: third-party code, of which the theorems assume what
    the named interfaces state.  Time (cookie expiry; timers fire in any order).  The Go
    backend beyond its routes, response records, request structs, settings table and sales
    totals: it is the other side of the client's contract.  The starter template's pages
    that no router feature uses (tasks, users1, chats, landing page, component showcase) and
    the demonstration data: nothing of the program depends on them.  The route tree and
    other generated files, tests and vendored code. *)
From stdpp Require Export base gmap strings list option numbers relations.
From Stdlib Require Export ZArith Ascii Lia.

#[global] Open Scope string_scope.
#[global] Open Scope Z_scope.
#[global] Open Scope list_scope.

(** ** Notations of the library, in a scope of their own *)

Declare Scope js_scope.
Delimit Scope js_scope with js.

(** A call that may throw: [Ok] is a normal return, [Throw] an exception. *)
Inductive result (E A : Type) : Type :=
| Ok (a : A)
| Throw (e : E).
Arguments Ok {E A} a.
Arguments Throw {E A} e.

#[export] Instance result_ret {E} : MRet (result E) := fun _ a => Ok a.
#[export] Instance result_bind {E} : MBind (result E) := fun _ _ k r =>
  match r with
  | Ok a => k a
  | Throw e => Throw e
  end.

(** JavaScript's [a ?? b] and [a || b] on an optional value. *)
Notation "a ?? b" := (default b a) (at level 60, right associativity) : js_scope.

#[global] Open Scope js_scope.

(** ** Tactics *)

(** Case analysis on the first [match] or [if] in the goal or in a hypothesis. *)
Ltac split_matches :=
  repeat (case_match; simplify_eq/=).

(** Turns boolean comparisons of the code into propositions. *)
Ltac b2p :=
  repeat match goal with
  | H : (_ && _)%bool = true |- _ => apply andb_true_iff in H as [? ?]
  | H : (_ && _)%bool = false |- _ => apply andb_false_iff in H
  | H : (_ || _)%bool = false |- _ => apply orb_false_iff in H as [? ?]
  | H : (_ || _)%bool = true |- _ => apply orb_true_iff in H
  | H : negb _ = true |- _ => apply negb_true_iff in H
  | H : negb _ = false |- _ => apply negb_false_iff in H
  | H : (_ <? _)%Z = true |- _ => apply Z.ltb_lt in H
  | H : (_ <? _)%Z = false |- _ => apply Z.ltb_ge in H
  | H : (_ <=? _)%Z = true |- _ => apply Z.leb_le in H
  | H : (_ <=? _)%Z = false |- _ => apply Z.leb_gt in H
  | H : (_ =? _)%Z = true |- _ => apply Z.eqb_eq in H
  | H : (_ =? _)%Z = false |- _ => apply Z.eqb_neq in H
  | H : (_ <? _)%nat = true |- _ => apply Nat.ltb_lt in H
  | H : (_ <? _)%nat = false |- _ => apply Nat.ltb_ge in H
  | H : (_ <=? _)%nat = true |- _ => apply Nat.leb_le in H
  | H : (_ <=? _)%nat = false |- _ => apply Nat.leb_gt in H
  | H : (_ =? _)%nat = true |- _ => apply Nat.eqb_eq in H
  | H : (_ =? _)%nat = false |- _ => apply Nat.eqb_neq in H
  | H : String.eqb _ _ = true |- _ => apply String.eqb_eq in H
  | H : String.eqb _ _ = false |- _ => apply String.eqb_neq in H
  | H : Ascii.eqb _ _ = true |- _ => apply Ascii.eqb_eq in H
  | H : Ascii.eqb _ _ = false |- _ => apply Ascii.eqb_neq in H
  | H : bool_decide _ = true |- _ => apply bool_decide_eq_true in H
  | H : bool_decide _ = false |- _ => apply bool_decide_eq_false in H
  end.

(** Facts about the data the components share, for [auto with js] and [autorewrite with js];
    the files add theirs. *)
Create HintDb js discriminated.

(** Splits the goal's comparisons and closes what arithmetic closes. *)
Ltac zcases :=
  repeat case_match; b2p; simplify_eq/=; try lia.

(** Linear arithmetic with divisions and remainders by constants. *)
Ltac euclid := Z.to_euclidean_division_equations; lia.

(** ** Reachability and invariants of a step relation *)

Section Reachability.
Context {S : Type} (init : S -> Prop) (step : S -> S -> Prop).

Definition reachable (s : S) : Prop := exists s0, init s0 /\ rtc step s0 s.

Lemma reachable_invariant (P : S -> Prop) :
  (forall s, init s -> P s) ->
  (forall s s', P s -> step s s' -> P s') ->
  forall s, reachable s -> P s.
Proof.
  intros Hi Hs s (s0 & H0 & Hr). apply Hi in H0.
  induction Hr; eauto.
Qed.

Lemma reachable_step s s' : reachable s -> step s s' -> reachable s'.
Proof. intros (s0 & H0 & Hr) Hs. exists s0. split; [done|]. by eapply rtc_r. Qed.
End Reachability.

(** ** Lists *)

Section Lists.
Context {A : Type}.

(** [xs.slice(-n)] for a positive [n]: the last [n] elements. *)
Definition last_n (n : nat) (xs : list A) : list A := drop (length xs - n) xs.

Lemma last_n_length n xs : length (last_n n xs) = Nat.min n (length xs).
Proof. unfold last_n. rewrite length_drop. lia. Qed.

Lemma last_n_app1 n xs x : (0 < n)%nat -> last (last_n n (xs ++ [x])) = Some x.
Proof.
  intros Hn. unfold last_n. rewrite length_app. simpl.
  rewrite drop_app_le by lia. by rewrite last_snoc.
Qed.

Lemma last_n_suffix n xs : last_n n xs `suffix_of` xs.
Proof. unfold last_n. exists (take (length xs - n) xs). by rewrite take_drop. Qed.
End Lists.

(** Inclusive integer ranges: [for (let i = a; i <= b; i++)]. *)
Definition zrange (a b : Z) : list Z := seqZ a (b - a + 1).

Lemma elem_of_zrange a b x : x ∈ zrange a b <-> a <= x <= b.
Proof. unfold zrange. rewrite elem_of_seqZ. lia. Qed.


#[export] Hint Rewrite @last_n_length elem_of_zrange : js.
#[export] Hint Resolve last_n_suffix : js.

(** A decidable property of an integer range, settled by evaluation. *)
Lemma range_check (p : Z -> bool) lo n :
  forallb p (seqZ lo n) = true -> forall x, lo <= x < lo + n -> p x = true.
Proof.
  intros H x Hx. rewrite forallb_forall in H. apply H.
  apply list_elem_of_In, elem_of_seqZ. lia.
Qed.

(** The same for long ranges: the counter is binary, so a step is cheap. *)
Fixpoint forall_from (p : Z -> bool) (n : nat) (x : Z) : bool :=
  match n with
  | O => true
  | S n' => p x && forall_from p n' (x + 1)
  end.

Lemma forall_from_spec p n lo : forall_from p n lo = true -> forall x, lo <= x < lo + Z.of_nat n -> p x = true.
Proof.
  revert lo. induction n as [|n IH]; intros lo; cbn [forall_from]; [lia|].
  intros [Hp H]%andb_true_iff x Hx. destruct (Z.eq_dec x lo) as [->|]; [done|].
  apply (IH (lo + 1) H). lia.
Qed.

(** Permutations of lists of natural numbers, by counting. *)
Ltac perm_nat :=
  apply (Permutation_count_occ Nat.eq_dec); intros ?;
  repeat match goal with
  | H : _ ≡ₚ _ |- context [count_occ Nat.eq_dec _ ?x] =>
      pose proof (proj1 (Permutation_count_occ Nat.eq_dec _ _) H x); clear H
  end;
  cbn [fmap list_fmap] in *;
  repeat (rewrite ?count_occ_app in *; cbn [count_occ] in *);
  repeat case_match; lia.
