(* ===== verification/JsString.v ===== *)
(** * JavaScript strings and the string functions the client calls

    A JavaScript string is represented by the sequence of bytes of its UTF-8
    encoding, as a Rocq [string].  Functions that act on single characters
    ([trim], [toLowerCase], [padStart], [slice]) are the JavaScript ones on ASCII
    text, which is what the modelled code passes to them; [split], [includes],
    [startsWith], [concat] and [encodeURIComponent] agree with JavaScript on every
    string, because UTF-8 is self-synchronising and because
    [encodeURIComponent] works on the UTF-8 bytes.  The file is a model of the
    language's standard library; it models no file under [src/]. *)
From S2P Require Import Prelude.

(** ** Characters *)

Definition code (c : ascii) : Z := Z.of_nat (nat_of_ascii c).

Definition in_range (lo hi : Z) (c : ascii) : bool := (lo <=? code c) && (code c <=? hi).

Definition is_digit (c : ascii) : bool := in_range 48 57 c.
Definition is_lower (c : ascii) : bool := in_range 97 122 c.
Definition is_upper (c : ascii) : bool := in_range 65 90 c.
Definition is_space (c : ascii) : bool := in_range 9 13 c || (code c =? 32).

Definition char_of (n : Z) : ascii := ascii_of_nat (Z.to_nat n).

Definition lower_char (c : ascii) : ascii := if is_upper c then char_of (code c + 32) else c.
Definition upper_char (c : ascii) : ascii := if is_lower c then char_of (code c - 32) else c.

Definition digit_char (d : Z) : ascii := char_of (48 + d).

(** ** Strings *)

Fixpoint str_map (f : ascii -> ascii) (s : string) : string :=
  match s with
  | "" => ""
  | String c s' => String (f c) (str_map f s')
  end.

Definition toLowerCase : string -> string := str_map lower_char.
Definition toUpperCase : string -> string := str_map upper_char.

Fixpoint str_forall (p : ascii -> bool) (s : string) : bool :=
  match s with
  | "" => true
  | String c s' => p c && str_forall p s'
  end.

Fixpoint trimStart (s : string) : string :=
  match s with
  | "" => ""
  | String c s' => if is_space c then trimStart s' else s
  end.

Definition trimEnd (s : string) : string := String.rev (trimStart (String.rev s)).

Definition trim (s : string) : string := trimEnd (trimStart s).

Definition startsWith (p s : string) : bool := String.prefix p s.

Fixpoint includes (p s : string) : bool :=
  String.prefix p s ||
  match s with
  | "" => false
  | String _ s' => includes p s'
  end.

(** [s.slice(0, n)] and [s.slice(n)] for [n >= 0]. *)
Fixpoint str_take (n : nat) (s : string) : string :=
  match n, s with
  | S n', String c s' => String c (str_take n' s')
  | _, _ => ""
  end.

Fixpoint str_drop (n : nat) (s : string) : string :=
  match n, s with
  | O, _ => s
  | S n', String _ s' => str_drop n' s'
  | S _, "" => ""
  end.

(** [s.slice(0, -n)] and [s.slice(-n)] for [n > 0]. *)
Definition slice_to_neg (n : nat) (s : string) : string := str_take (String.length s - n) s.
Definition slice_from_neg (n : nat) (s : string) : string := str_drop (String.length s - n) s.

Definition endsWith (p s : string) : bool := String.eqb (slice_from_neg (String.length p) s) p.

(** [s.split(sep)] for a non-empty separator; [skip] counts the characters of a
    matched separator still to be passed over. *)
Definition cons_head (x : string) (l : list string) : list string :=
  match l with
  | [] => [x]
  | y :: l' => (x +:+ y) :: l'
  end.

Fixpoint split_go (sep : string) (skip : nat) (s : string) : list string :=
  match s with
  | "" => [""]
  | String c s' =>
      match skip with
      | S k => split_go sep k s'
      | O =>
          if String.prefix sep s then "" :: split_go sep (String.length sep - 1) s'
          else cons_head (String c "") (split_go sep O s')
      end
  end.

Definition split (sep s : string) : list string := split_go sep O s.

(** [xs.join(sep)]. *)
Fixpoint join (sep : string) (l : list string) : string :=
  match l with
  | [] => ""
  | [x] => x
  | x :: l' => x +:+ sep +:+ join sep l'
  end.

(** [s.replaceAll(c, r)] / [s.replace(/c/g, r)] for one character [c]. *)
Fixpoint replace_char (c : ascii) (r : string) (s : string) : string :=
  match s with
  | "" => ""
  | String d s' => (if Ascii.eqb c d then r else String d "") +:+ replace_char c r s'
  end.

Fixpoint repeat_char (c : ascii) (n : nat) : string :=
  match n with
  | O => ""
  | S n' => String c (repeat_char c n')
  end.

Definition padStart (n : nat) (c : ascii) (s : string) : string :=
  repeat_char c (n - String.length s) +:+ s.

(** [s[i]]; [None] is [undefined]. *)
Definition charAt (s : string) (i : nat) : option ascii := String.get i s.

(** ** Decimal numbers *)

(** The digits of [n >= 0], in front of [acc]. *)
Fixpoint digits (fuel : nat) (n : Z) (acc : string) : string :=
  match fuel with
  | O => acc
  | S f =>
      let acc' := String (digit_char (n mod 10)) acc in
      if n / 10 =? 0 then acc' else digits f (n / 10) acc'
  end.

(** [String(n)] for an integer. *)
Definition Z_to_string (n : Z) : string :=
  if n <? 0 then String "-" (digits (S (Z.to_nat (Z.log2 (- n)))) (- n) "")
  else digits (S (Z.to_nat (Z.log2 n))) n "".

(** The value of the longest run of digits at the front of [s]. *)
Fixpoint digits_val (acc : Z) (s : string) : Z :=
  match s with
  | "" => acc
  | String c s' => if is_digit c then digits_val (acc * 10 + (code c - 48)) s' else acc
  end.

Definition starts_digit (s : string) : bool :=
  match s with
  | "" => false
  | String c _ => is_digit c
  end.

(** [Number.parseInt(s, 10)]; [None] is [NaN]. *)
Definition parseInt10 (s : string) : option Z :=
  let s := trimStart s in
  match s with
  | "" => None
  | String c s' =>
      if Ascii.eqb c "-" then (if starts_digit s' then Some (- digits_val 0 s') else None)
      else if Ascii.eqb c "+" then (if starts_digit s' then Some (digits_val 0 s') else None)
      else if is_digit c then Some (digits_val 0 s) else None
  end.

(** [encodeURIComponent(s)]. *)
Definition uri_unreserved (c : ascii) : bool :=
  is_digit c || is_lower c || is_upper c ||
  existsb (Ascii.eqb c) ["-"; "_"; "."; "!"; "~"; "*"; "'"; "("; ")"]%char.

Definition hex_upper (d : Z) : ascii := if d <? 10 then char_of (48 + d) else char_of (55 + d).

Definition encode_char (c : ascii) : string :=
  if uri_unreserved c then String c ""
  else String "%" (String (hex_upper (code c / 16)) (String (hex_upper (code c mod 16)) "")).

Fixpoint encodeURIComponent (s : string) : string :=
  match s with
  | "" => ""
  | String c s' => encode_char c +:+ encodeURIComponent s'
  end.

(** ** Lemmas on concatenation and prefixes *)

#[global] Arguments String.append !_ _ / : simpl nomatch.
#[global] Arguments String.rev : simpl never.

Lemma app_str_nil_r s : s +:+ "" = s.
Proof. induction s; simpl; congruence. Qed.

Lemma app_str_assoc a b c : a +:+ (b +:+ c) = (a +:+ b) +:+ c.
Proof. induction a; simpl; congruence. Qed.

Lemma length_app_str a b : String.length (a +:+ b) = (String.length a + String.length b)%nat.
Proof. induction a; simpl; congruence. Qed.

Lemma app_str_inj_l a b c : a +:+ b = a +:+ c -> b = c.
Proof. induction a; simpl; [done|]. intros [= H]. auto. Qed.

Lemma app_str_inj_len a b c d : String.length a = String.length c -> a +:+ b = c +:+ d -> a = c /\ b = d.
Proof.
  revert c. induction a as [|x a IH]; intros [|y c]; cbn; try done.
  intros [= Hl] [= -> H]. by destruct (IH _ Hl H) as [-> ->].
Qed.

Lemma app_str_inj_r a b c : a +:+ c = b +:+ c -> a = b.
Proof.
  intros H. apply (app_str_inj_len a c b c); [|done].
  apply (f_equal String.length) in H. rewrite !length_app_str in H. lia.
Qed.

Lemma prefix_app p t : String.prefix p (p +:+ t) = true.
Proof.
  induction p as [|c p IH]; simpl; [by destruct t|].
  by destruct (ascii_dec c c) as [_|[]].
Qed.

Lemma prefix_spec p s : String.prefix p s = true <-> exists t, s = p +:+ t.
Proof.
  split; [|intros [t ->]; apply prefix_app].
  revert s. induction p as [|c p IH]; intros [|d s]; simpl; try done; eauto.
  destruct (ascii_dec c d) as [->|]; [|done].
  intros [t ->]%IH. by exists t.
Qed.

Lemma prefix_app_long p x t :
  (String.length p <= String.length x)%nat ->
  String.prefix p (x +:+ t) = String.prefix p x.
Proof.
  revert x. induction p as [|c p IH]; intros x; [by destruct x, t|].
  destruct x as [|d x]; simpl; intros; [lia|].
  destruct (ascii_dec c d); [|done]. apply IH. lia.
Qed.

Lemma str_take_app x y : str_take (String.length x) (x +:+ y) = x.
Proof. induction x; simpl; [by destruct y|congruence]. Qed.

Lemma str_drop_app x y : str_drop (String.length x) (x +:+ y) = y.
Proof. induction x; simpl; [by destruct y|done]. Qed.

Lemma slice_to_neg_app x y : slice_to_neg (String.length y) (x +:+ y) = x.
Proof.
  unfold slice_to_neg. rewrite length_app_str, Nat.add_sub. apply str_take_app.
Qed.

Lemma slice_from_neg_app x y : slice_from_neg (String.length y) (x +:+ y) = y.
Proof.
  unfold slice_from_neg. rewrite length_app_str, Nat.add_sub. apply str_drop_app.
Qed.

Lemma endsWith_app p x : endsWith p (x +:+ p) = true.
Proof. unfold endsWith. rewrite slice_from_neg_app. apply String.eqb_refl. Qed.

Lemma str_map_app f a b : str_map f (a +:+ b) = str_map f a +:+ str_map f b.
Proof. induction a; simpl; congruence. Qed.

Lemma str_forall_app p a b : str_forall p (a +:+ b) = str_forall p a && str_forall p b.
Proof. induction a; simpl; [done|]. rewrite IHa. by destruct (p a). Qed.

Lemma str_forall_impl (p q : ascii -> bool) s :
  (forall c, p c = true -> q c = true) -> str_forall p s = true -> str_forall q s = true.
Proof.
  intros Hpq. induction s; simpl; [done|]. intros H; b2p.
  rewrite Hpq, IHs; done.
Qed.

Lemma str_map_id f s : str_forall (fun c => Ascii.eqb (f c) c) s = true -> str_map f s = s.
Proof. induction s; simpl; [done|]. intros H; b2p. rewrite IHs by done. congruence. Qed.

(** Closes a goal about one character by going through all 256 of them. *)
Ltac all_chars c := destruct c as [[] [] [] [] [] [] [] []]; vm_compute; try done.

Lemma toLowerCase_idem s : toLowerCase (toLowerCase s) = toLowerCase s.
Proof.
  unfold toLowerCase. induction s as [|c s IH]; simpl; [done|]. rewrite IH. f_equal.
  all_chars c.
Qed.

(** ** Trimming *)

Lemma rev_app_eq s acc : String.rev_app s acc = String.rev s +:+ acc.
Proof.
  unfold String.rev. revert acc. induction s as [|c s IH]; intros acc; simpl; [done|].
  rewrite IH, (IH (String c "")). by rewrite <- app_str_assoc.
Qed.

Lemma rev_cons c s : String.rev (String c s) = String.rev s +:+ String c "".
Proof. unfold String.rev at 1. simpl. by rewrite rev_app_eq. Qed.

Lemma rev_app_str a b : String.rev (a +:+ b) = String.rev b +:+ String.rev a.
Proof.
  induction a as [|c a IH]; simpl; [by rewrite app_str_nil_r|].
  by rewrite !rev_cons, IH, app_str_assoc.
Qed.

Lemma rev_rev s : String.rev (String.rev s) = s.
Proof.
  induction s as [|c s IH]; [done|]. rewrite rev_cons, rev_app_str, IH. done.
Qed.

Lemma str_forall_rev p s : str_forall p (String.rev s) = str_forall p s.
Proof.
  induction s as [|c s IH]; [done|]. rewrite rev_cons, str_forall_app, IH. cbn.
  rewrite andb_true_r. apply andb_comm.
Qed.

(** Text whose first and last characters are no white space. *)
Definition first_char (s : string) : option ascii :=
  match s with
  | "" => None
  | String c _ => Some c
  end.

Definition tight (s : string) : bool :=
  match first_char s, first_char (String.rev s) with
  | Some c, Some d => negb (is_space c) && negb (is_space d)
  | _, _ => true
  end.

Lemma trimStart_id s : from_option (fun c => negb (is_space c)) true (first_char s) = true ->
  trimStart s = s.
Proof. destruct s; simpl; [done|]. intros ->%negb_true_iff. done. Qed.

Lemma trim_tight s : tight s = true -> trim s = s.
Proof.
  unfold tight, trim, trimEnd. intros H.
  destruct s as [|c s]; [done|]. cbn [first_char] in H.
  destruct (first_char (String.rev (String c s))) as [d|] eqn:E.
  - b2p. rewrite (trimStart_id (String c s)) by (simpl; by apply negb_true_iff).
    rewrite trimStart_id; [apply rev_rev|]. rewrite E. simpl. by apply negb_true_iff.
  - rewrite rev_cons in E. by destruct (String.rev s).
Qed.

Lemma trim_nospace s : str_forall (fun c => negb (is_space c)) s = true -> trim s = s.
Proof.
  intros H. apply trim_tight. unfold tight.
  assert (Hr : str_forall (fun c => negb (is_space c)) (String.rev s) = true).
  { clear -H. induction s as [|c s IH]; [done|]. simpl in H. b2p.
    rewrite rev_cons, str_forall_app, IH by done. simpl.
    match goal with Hc : is_space c = false |- _ => by rewrite Hc end. }
  destruct s as [|c s]; [done|]. cbn [first_char].
  destruct (String.rev (String c s)) as [|d r]; [done|]. simpl in *. b2p.
  repeat match goal with Hc : is_space _ = false |- _ => rewrite Hc end. done.
Qed.

(** ** Splitting *)

Lemma split_go_skip sep x y : split_go sep (String.length x) (x +:+ y) = split sep y.
Proof. induction x; simpl; done. Qed.

Lemma split_nonnil sep k s : split_go sep k s <> [].
Proof.
  revert k. induction s as [|c s IH]; intros k; simpl; [done|].
  destruct k; [|apply IH]. destruct (match sep with "" => _ | _ => _ end); [done|].
  unfold cons_head. destruct (split_go sep 0 s) eqn:E; [by apply IH in E|done].
Qed.

Lemma cons_head_nil l : l <> [] -> cons_head "" l = l.
Proof. destruct l; done. Qed.

Lemma cons_head_app x y l : cons_head x (cons_head y l) = cons_head (x +:+ y) l.
Proof. destruct l; simpl; [done|]. by rewrite app_str_assoc. Qed.

Lemma split_sep sep y : sep <> "" -> split sep (sep +:+ y) = "" :: split sep y.
Proof.
  intros Hne. destruct sep as [|c sep]; [done|].
  unfold split. change (String c sep +:+ y) with (String c (sep +:+ y)).
  cbn [split_go]. change (String c (sep +:+ y)) with (String c sep +:+ y).
  rewrite prefix_app. f_equal. simpl. rewrite Nat.sub_0_r. apply split_go_skip.
Qed.

(** Text free of the separator's first character is passed over. *)
Lemma split_free c sep x y :
  str_forall (fun d => negb (Ascii.eqb d c)) x = true ->
  split (String c sep) (x +:+ y) = cons_head x (split (String c sep) y).
Proof.
  unfold split. induction x as [|d x IH]; simpl; intros H.
  - by rewrite cons_head_nil by apply split_nonnil.
  - b2p. destruct (ascii_dec c d) as [->|]; [congruence|].
    rewrite IH by done. apply cons_head_app.
Qed.

Lemma split_free_all c sep x :
  str_forall (fun d => negb (Ascii.eqb d c)) x = true -> split (String c sep) x = [x].
Proof.
  intros H. rewrite <- (app_str_nil_r x) at 1. rewrite split_free by done.
  simpl. by rewrite app_str_nil_r.
Qed.

(** Splitting at a one-character separator undoes joining with it. *)
Lemma split_join c (l : list string) :
  l <> [] ->
  Forall (fun x => str_forall (fun d => negb (Ascii.eqb d c)) x = true) l ->
  split (String c "") (join (String c "") l) = l.
Proof.
  intros Hne HF. induction HF as [|x l Hx HF IH]; [done|].
  destruct l as [|y l].
  - simpl. by apply split_free_all.
  - change (join (String c "") (x :: y :: l)) with
      (x +:+ (String c "" +:+ join (String c "") (y :: l))).
    rewrite split_free, split_sep, IH by done. simpl. by rewrite app_str_nil_r.
Qed.

(** ** Decimal numbers *)

Lemma code_digit d : 0 <= d < 10 -> code (digit_char d) = 48 + d /\ is_digit (digit_char d) = true.
Proof.
  intros H. assert (d ∈ seqZ 0 10) as Hin by (apply elem_of_seqZ; lia).
  vm_compute in Hin. repeat (apply elem_of_cons in Hin as [->|Hin]; [by vm_compute|]).
  by apply not_elem_of_nil in Hin.
Qed.

Lemma digits_val_app a x t :
  str_forall is_digit x = true -> digits_val a (x +:+ t) = digits_val (digits_val a x) t.
Proof.
  revert a. induction x as [|c x IH]; intros a; simpl; [done|].
  intros H; b2p. rewrite H. by apply IH.
Qed.

Lemma digits_val_stop a t : starts_digit t = false -> digits_val a t = a.
Proof. destruct t as [|c t]; simpl; [done|]. by intros ->. Qed.

(** [digits] prepends a non-empty run of digits whose value is the number. *)
Lemma digits_spec fuel n acc :
  0 <= n < 10 ^ Z.of_nat fuel -> (0 < fuel)%nat ->
  exists ds, digits fuel n acc = ds +:+ acc /\ starts_digit ds = true /\
    str_forall is_digit ds = true /\ digits_val 0 ds = n.
Proof.
  revert n acc. induction fuel as [|f IH]; intros n acc Hn Hf; [lia|].
  pose proof (Z.div_mod n 10 ltac:(lia)) as Hdm.
  pose proof (Z.mod_pos_bound n 10 ltac:(lia)) as Hm.
  destruct (code_digit (n mod 10) Hm) as [Hc Hd].
  cbn [digits]. destruct (n / 10 =? 0) eqn:E; b2p.
  - exists (String (digit_char (n mod 10)) ""). simpl. rewrite Hd, Hc. split_and!; [done..|lia].
  - rewrite Nat2Z.inj_succ, Z.pow_succ_r in Hn by lia.
    assert (0 < f)%nat as Hf' by (destruct f; [simpl in Hn; lia|lia]).
    assert (0 <= n / 10 < 10 ^ Z.of_nat f) as Hq.
    { split; [apply Z.div_pos; lia|]. apply Z.div_lt_upper_bound; lia. }
    destruct (IH (n / 10) (String (digit_char (n mod 10)) acc) Hq Hf') as (ds & -> & Hne & Hall & Hv).
    exists (ds +:+ String (digit_char (n mod 10)) ""). split_and!.
    + by rewrite <- app_str_assoc.
    + by destruct ds.
    + rewrite str_forall_app, Hall. simpl. by rewrite Hd.
    + rewrite digits_val_app, Hv by done. simpl. rewrite Hd, Hc. lia.
Qed.

Lemma fuel_log2 n : 0 <= n -> 0 <= n < 10 ^ Z.of_nat (S (Z.to_nat (Z.log2 n))).
Proof.
  intros Hn. split; [done|]. rewrite Nat2Z.inj_succ, Z2Nat.id by apply Z.log2_nonneg.
  destruct (decide (n = 0)) as [->|]; [done|].
  apply Z.lt_le_trans with (2 ^ Z.succ (Z.log2 n)); [apply Z.log2_spec; lia|].
  apply Z.pow_le_mono_l. lia.
Qed.

(** The decimal text of a natural number: digits only, not empty, of that value. *)
Lemma Z_to_string_nonneg n : 0 <= n ->
  starts_digit (Z_to_string n) = true /\
  str_forall is_digit (Z_to_string n) = true /\ digits_val 0 (Z_to_string n) = n.
Proof.
  intros Hn. unfold Z_to_string. destruct (n <? 0) eqn:E; b2p; [lia|].
  destruct (digits_spec _ n "" (fuel_log2 n Hn) ltac:(lia)) as (ds & -> & H).
  by rewrite app_str_nil_r.
Qed.

Lemma digit_not_space c :
  is_digit c = true ->
  is_space c = false /\ (c =? "-")%char = false /\ (c =? "+")%char = false.
Proof. all_chars c. Qed.

(** [parseInt] reads back what [String] printed, up to the first non-digit. *)
Lemma parseInt10_Z_to_string n t :
  0 <= n -> starts_digit t = false -> parseInt10 (Z_to_string n +:+ t) = Some n.
Proof.
  intros Hn Ht. destruct (Z_to_string_nonneg n Hn) as (Hs & Hall & Hv).
  unfold parseInt10. destruct (Z_to_string n) as [|c ds] eqn:E; [done|]. simpl in Hs.
  destruct (digit_not_space c Hs) as (Hsp & Hm & Hp).
  simpl. rewrite Hsp, Hm, Hp, Hs. f_equal.
  change (String c (ds +:+ t)) with (String c ds +:+ t).
  rewrite digits_val_app by done. rewrite digits_val_stop by done. exact Hv.
Qed.

(** Joining with a one-character separator undoes splitting at it. *)
Lemma join_split c s : join (String c "") (split (String c "") s) = s.
Proof.
  unfold split. induction s as [|d s IH]; [done|]. cbn [split_go].
  assert (forall y l, l <> [] -> join (String c "") (cons_head y l) = y +:+ join (String c "") l) as Hc.
  { intros y [|x [|z l]] Hl; simpl; [done..|]. by rewrite <- !app_str_assoc. }
  simpl. destruct (ascii_dec c d) as [->|].
  - destruct (split_go (String d "") 0 s) eqn:E; [by apply split_nonnil in E|].
    assert (String.prefix "" s = true) as -> by (by destruct s).
    rewrite <- IH at 1. done.
  - rewrite Hc by apply split_nonnil. by rewrite IH.
Qed.

Lemma prefix_cut c a b t :
  str_forall (fun d => negb (d =? c)%char) a = true ->
  str_forall (fun d => negb (d =? c)%char) b = true ->
  String.prefix (a +:+ String c "") (b +:+ String c t) = true -> a = b.
Proof.
  revert b. induction a as [|x a IH]; intros [|y b]; simpl; intros Ha Hb H; b2p.
  - done.
  - destruct (ascii_dec c y); [congruence|done].
  - destruct (ascii_dec x c); [congruence|done].
  - destruct (ascii_dec x y) as [->|]; [|done]. f_equal. auto.
Qed.

Lemma split_char_cut c x t :
  str_forall (fun d => negb (d =? c)%char) x = true ->
  split (String c "") (x +:+ String c t) = x :: split (String c "") t.
Proof.
  intros H. rewrite split_free by done.
  change (String c t) with (String c "" +:+ t). rewrite split_sep by done.
  simpl. by rewrite app_str_nil_r.
Qed.

Lemma Z_to_string_no c n :
  0 <= n -> is_digit c = false ->
  str_forall (fun d => negb (d =? c)%char) (Z_to_string n) = true.
Proof.
  intros Hn Hc. destruct (Z_to_string_nonneg n Hn) as (_ & H & _).
  revert H. apply str_forall_impl. intros d Hd. destruct (d =? c)%char eqn:E; [|done].
  b2p. congruence.
Qed.

Lemma trim_Z_to_string n : 0 <= n -> trim (Z_to_string n) = Z_to_string n.
Proof.
  intros Hn. apply trim_nospace. destruct (Z_to_string_nonneg n Hn) as (_ & H & _).
  revert H. apply str_forall_impl. intros d Hd. by destruct (digit_not_space d Hd) as (-> & _).
Qed.

Lemma parseInt10_of n : 0 <= n -> parseInt10 (Z_to_string n) = Some n.
Proof.
  intros Hn. rewrite <- (app_str_nil_r (Z_to_string n)). by apply parseInt10_Z_to_string.
Qed.

(** No leading zero: only the number zero starts with ["0"]. *)
Lemma digits_first fuel n acc :
  0 < n < 10 ^ Z.of_nat fuel -> first_char (digits fuel n acc) <> Some "0"%char.
Proof.
  revert n acc. induction fuel as [|f IH]; intros n acc Hn; [simpl in Hn; lia|].
  cbn [digits]. rewrite Nat2Z.inj_succ, Z.pow_succ_r in Hn by lia.
  destruct (n / 10 =? 0) eqn:E; b2p.
  - simpl. intros [= H]. destruct (code_digit (n mod 10)) as [Hc _]; [euclid|].
    rewrite H in Hc. vm_compute (code "0") in Hc. euclid.
  - apply IH. euclid.
Qed.

Lemma Z_to_string_first n : 0 < n -> first_char (Z_to_string n) <> Some "0"%char.
Proof.
  intros Hn. unfold Z_to_string. destruct (n <? 0) eqn:E; b2p; [lia|].
  apply digits_first. pose proof (fuel_log2 n). lia.
Qed.

Lemma Z_to_string_neg n : n < 0 -> Z_to_string n = String "-" (Z_to_string (- n)).
Proof.
  intros Hn. unfold Z_to_string.
  destruct (n <? 0) eqn:E; b2p; [|lia]. destruct (- n <? 0) eqn:E'; b2p; [lia|done].
Qed.

Lemma Z_to_string_inj n m : Z_to_string n = Z_to_string m -> n = m.
Proof.
  intros H. assert (forall k, 0 <= k -> forall s, Z_to_string k <> String "-" s) as Hd.
  { intros k Hk s Hs. destruct (Z_to_string_nonneg k Hk) as (Hf & _). by rewrite Hs in Hf. }
  destruct (decide (0 <= n)), (decide (0 <= m)).
  - destruct (Z_to_string_nonneg n) as (_ & _ & <-); [lia|].
    destruct (Z_to_string_nonneg m) as (_ & _ & <-); [lia|]. by rewrite H.
  - rewrite (Z_to_string_neg m) in H by lia. by apply Hd in H.
  - rewrite (Z_to_string_neg n) in H by lia. by apply eq_sym, Hd in H.
  - rewrite (Z_to_string_neg n), (Z_to_string_neg m) in H by lia. injection H as H.
    destruct (Z_to_string_nonneg (- n)) as (_ & _ & Hn); [lia|].
    destruct (Z_to_string_nonneg (- m)) as (_ & _ & Hm); [lia|]. rewrite H in Hn. lia.
Qed.

(** ** Automation *)

#[export] Hint Rewrite str_map_app str_forall_app length_app_str app_str_nil_r
  str_take_app str_drop_app slice_to_neg_app slice_from_neg_app : js.
#[export] Hint Resolve endsWith_app prefix_app trim_tight trim_Z_to_string parseInt10_of
  toLowerCase_idem rev_rev : js.
