(* ===== verification/JsValue.v ===== *)
(** * JavaScript values, JSON and base64

    Values of type [unknown] in the client are [jval]s.  The file models what the
    client uses of the language's standard library: [JSON.parse],
    [JSON.stringify] on strings, [atob], object property reads and the coercion of
    a value to a boolean.  Integers are [JNum]; a number literal that is no integer
    is kept as its text ([JFrac]).  It models no file under [src/]. *)
From S2P Require Import Prelude JsString.

Inductive jval : Type :=
| JUndef
| JNull
| JBool (b : bool)
| JNum (n : Z)
| JFrac (s : string)
| JStr (s : string)
| JArr (l : list jval)
| JObj (fs : list (string * jval)).

(** ** Decidable equality *)

Fixpoint jval_eqb (a b : jval) {struct a} : bool :=
  match a, b with
  | JUndef, JUndef | JNull, JNull => true
  | JBool x, JBool y => Bool.eqb x y
  | JNum x, JNum y => x =? y
  | JFrac x, JFrac y | JStr x, JStr y => String.eqb x y
  | JArr l, JArr m =>
      (fix go (l m : list jval) : bool :=
         match l, m with
         | [], [] => true
         | x :: l', y :: m' => jval_eqb x y && go l' m'
         | _, _ => false
         end) l m
  | JObj l, JObj m =>
      (fix go (l m : list (string * jval)) : bool :=
         match l, m with
         | [], [] => true
         | (k, x) :: l', (k', y) :: m' => String.eqb k k' && jval_eqb x y && go l' m'
         | _, _ => false
         end) l m
  | _, _ => false
  end.

Section JvalInd.
Variable P : jval -> Prop.
Hypothesis HU : P JUndef.
Hypothesis HN : P JNull.
Hypothesis HB : forall b, P (JBool b).
Hypothesis HZ : forall n, P (JNum n).
Hypothesis HF : forall s, P (JFrac s).
Hypothesis HS : forall s, P (JStr s).
Hypothesis HA : forall l, Forall P l -> P (JArr l).
Hypothesis HO : forall fs, Forall (fun f => P f.2) fs -> P (JObj fs).

Fixpoint jval_rect' (v : jval) : P v :=
  match v with
  | JUndef => HU
  | JNull => HN
  | JBool b => HB b
  | JNum n => HZ n
  | JFrac s => HF s
  | JStr s => HS s
  | JArr l => HA l ((fix go l := match l return Forall P l with
                       | [] => Forall_nil_2 P
                       | x :: l' => Forall_cons_2 P x l' (jval_rect' x) (go l')
                       end) l)
  | JObj fs => HO fs ((fix go l := match l return Forall (fun f => P f.2) l with
                       | [] => Forall_nil_2 _
                       | x :: l' => Forall_cons_2 _ x l' (jval_rect' x.2) (go l')
                       end) fs)
  end.
End JvalInd.

Lemma jval_eqb_eq a b : jval_eqb a b = true <-> a = b.
Proof.
  revert b. induction a as [| | | | | |l IH|fs IH] using jval_rect'; intros c;
    destruct c as [| |b'|n'|s'|s'|m|m]; simpl; try (split; (discriminate || congruence)).
  - by rewrite eqb_true_iff; split; [intros ->|intros [=]].
  - by rewrite Z.eqb_eq; split; [intros ->|intros [=]].
  - by rewrite String.eqb_eq; split; [intros ->|intros [=]].
  - by rewrite String.eqb_eq; split; [intros ->|intros [=]].
  - revert m. induction IH as [|x l Hx _ IH]; intros [|y m]; try (split; congruence).
    rewrite andb_true_iff, Hx, IH. split; [intros [-> [= ->]]; done|intros [=]; subst; done].
  - revert m. induction IH as [|[k x] l Hx _ IH]; intros [|[k' y] m]; try (split; congruence).
    rewrite !andb_true_iff, String.eqb_eq, Hx, IH.
    split; [intros [[-> Hy] [= ->]]; simpl in Hy; by subst|intros [=]; subst; done].
Qed.

Lemma jval_eqb_refl v : jval_eqb v v = true.
Proof. by apply jval_eqb_eq. Qed.

#[export] Instance jval_eq_dec : EqDecision jval.
Proof.
  intros a b. destruct (jval_eqb a b) eqn:E.
  - left. by apply jval_eqb_eq.
  - right. intros ->. by rewrite (proj2 (jval_eqb_eq b b) eq_refl) in E.
Defined.

(** ** Reading values *)

(** [fs[k]] on the fields of an object; the last write of a key wins. *)
Fixpoint field (k : string) (fs : list (string * jval)) : jval :=
  match fs with
  | [] => JUndef
  | (k', v) :: fs' =>
      if String.eqb k k' then (match field k fs' with JUndef => v | w => w end) else field k fs'
  end.

Definition get (k : string) (v : jval) : jval :=
  match v with
  | JObj fs => field k fs
  | _ => JUndef
  end.

(** Whether the mantissa of a number literal has a digit other than 0. *)
Fixpoint nonzero_literal (s : string) : bool :=
  match s with
  | "" => false
  | String c s' =>
      if Ascii.eqb c "e" || Ascii.eqb c "E" then false
      else in_range 49 57 c || nonzero_literal s'
  end.

(** Coercion to a boolean, as [if (v)], [!v] and [v && w] do. *)
Definition truthy (v : jval) : bool :=
  match v with
  | JUndef | JNull => false
  | JBool b => b
  | JNum n => negb (n =? 0)
  | JStr s => negb (String.eqb s "")
  | JFrac s => nonzero_literal s
  | JArr _ | JObj _ => true
  end.

(** ** JSON.stringify of a string, and JSON.parse *)

Definition hex_lower (d : Z) : ascii := if d <? 10 then char_of (48 + d) else char_of (87 + d).

Definition backslash : ascii := "\".
Definition dquote : ascii := char_of 34.

Definition json_escape (c : ascii) : string :=
  if Ascii.eqb c dquote then String backslash (String dquote "")
  else if Ascii.eqb c backslash then String backslash (String backslash "")
  else if code c =? 8 then "\b"
  else if code c =? 9 then "\t"
  else if code c =? 10 then "\n"
  else if code c =? 12 then "\f"
  else if code c =? 13 then "\r"
  else if code c <? 32 then
    "\u00" +:+ String (hex_lower (code c / 16)) (String (hex_lower (code c mod 16)) "")
  else String c "".

Fixpoint json_escape_str (s : string) : string :=
  match s with
  | "" => ""
  | String c s' => json_escape c +:+ json_escape_str s'
  end.

Definition json_quote (s : string) : string :=
  String dquote (json_escape_str s +:+ String dquote "").

Definition hex_val (c : ascii) : option Z :=
  if is_digit c then Some (code c - 48)
  else if in_range 97 102 c then Some (code c - 87)
  else if in_range 65 70 c then Some (code c - 55)
  else None.

(** The UTF-8 bytes of a code point of the basic multilingual plane. *)
Definition utf8 (n : Z) : string :=
  if n <? 128 then String (char_of n) ""
  else if n <? 2048 then
    String (char_of (192 + n / 64)) (String (char_of (128 + n mod 64)) "")
  else String (char_of (224 + n / 4096))
         (String (char_of (128 + (n / 64) mod 64)) (String (char_of (128 + n mod 64)) "")).

Definition unescape (c : ascii) : option ascii :=
  if Ascii.eqb c dquote || Ascii.eqb c backslash || Ascii.eqb c "/" then Some c
  else if Ascii.eqb c "b" then Some (char_of 8)
  else if Ascii.eqb c "t" then Some (char_of 9)
  else if Ascii.eqb c "n" then Some (char_of 10)
  else if Ascii.eqb c "f" then Some (char_of 12)
  else if Ascii.eqb c "r" then Some (char_of 13)
  else None.

(** The body of a string literal up to its closing quote, and the text after it. *)
Fixpoint json_str (s : string) : option (string * string) :=
  match s with
  | "" => None
  | String c s1 =>
      if Ascii.eqb c dquote then Some ("", s1)
      else if Ascii.eqb c backslash then
        match s1 with
        | "" => None
        | String e s2 =>
            if Ascii.eqb e "u" then
              match s2 with
              | String a (String b (String d (String f s3))) =>
                  h1 ← hex_val a; h2 ← hex_val b; h3 ← hex_val d; h4 ← hex_val f;
                  r ← json_str s3;
                  Some (utf8 (((h1 * 16 + h2) * 16 + h3) * 16 + h4) +:+ r.1, r.2)
              | _ => None
              end
            else
              x ← unescape e; r ← json_str s2; Some (String x r.1, r.2)
        end
      else if code c <? 32 then None
      else r ← json_str s1; Some (String c r.1, r.2)
  end.

Definition json_ws (c : ascii) : bool :=
  (code c =? 32) || (code c =? 9) || (code c =? 10) || (code c =? 13).

Fixpoint skip_ws (s : string) : string :=
  match s with
  | "" => ""
  | String c s' => if json_ws c then skip_ws s' else s
  end.

(** The longest prefix whose characters satisfy [p], and the rest. *)
Fixpoint span (p : ascii -> bool) (s : string) : string * string :=
  match s with
  | "" => ("", "")
  | String c s' => if p c then (let r := span p s' in (String c r.1, r.2)) else ("", s)
  end.

Definition number_char (c : ascii) : bool :=
  is_digit c || existsb (Ascii.eqb c) ["-"; "+"; "."; "e"; "E"]%char.

(** A number literal: integers by value, other literals by their text. *)
Definition json_number (t : string) : option jval :=
  let (sg, u) := match t with
                 | String c t' => if Ascii.eqb c "-" then (-1, t') else (1, t)
                 | "" => (1, t)
                 end in
  let (ip, rest) := span is_digit u in
  if String.eqb ip "" then None
  else if (1 <? Z.of_nat (String.length ip)) && startsWith "0" ip then None
  else if String.eqb rest "" then Some (JNum (sg * digits_val 0 ip))
  else Some (JFrac t).

(** One value at the front of the text; the fuel bounds the nesting and the length. *)
Fixpoint json_val (fuel : nat) (s : string) : option (jval * string) :=
  match fuel with
  | O => None
  | S n =>
      match skip_ws s with
      | "" => None
      | String c s1 =>
          if Ascii.eqb c dquote then r ← json_str s1; Some (JStr r.1, r.2)
          else if Ascii.eqb c "[" then
            (match skip_ws s1 with
             | String d s2 =>
                 if Ascii.eqb d "]" then Some (JArr [], s2)
                 else r ← json_elems n (String d s2); Some (JArr r.1, r.2)
             | "" => None
             end)
          else if Ascii.eqb c "{" then
            (match skip_ws s1 with
             | String d s2 =>
                 if Ascii.eqb d "}" then Some (JObj [], s2)
                 else r ← json_fields n (String d s2); Some (JObj r.1, r.2)
             | "" => None
             end)
          else if String.prefix "true" (String c s1) then Some (JBool true, str_drop 3 s1)
          else if String.prefix "false" (String c s1) then Some (JBool false, str_drop 4 s1)
          else if String.prefix "null" (String c s1) then Some (JNull, str_drop 3 s1)
          else
            let (t, rest) := span number_char (String c s1) in
            v ← json_number t; Some (v, rest)
      end
  end
with json_elems (fuel : nat) (s : string) : option (list jval * string) :=
  match fuel with
  | O => None
  | S n =>
      r ← json_val n s;
      match skip_ws r.2 with
      | String d s2 =>
          if Ascii.eqb d "]" then Some ([r.1], s2)
          else if Ascii.eqb d "," then q ← json_elems n s2; Some (r.1 :: q.1, q.2)
          else None
      | "" => None
      end
  end
with json_fields (fuel : nat) (s : string) : option (list (string * jval) * string) :=
  match fuel with
  | O => None
  | S n =>
      match skip_ws s with
      | String c s1 =>
          if Ascii.eqb c dquote then
            k ← json_str s1;
            match skip_ws k.2 with
            | String d s2 =>
                if Ascii.eqb d ":" then
                  r ← json_val n s2;
                  match skip_ws r.2 with
                  | String e s3 =>
                      if Ascii.eqb e "}" then Some ([(k.1, r.1)], s3)
                      else if Ascii.eqb e "," then
                        q ← json_fields n s3; Some ((k.1, r.1) :: q.1, q.2)
                      else None
                  | "" => None
                  end
                else None
            | "" => None
            end
          else None
      | "" => None
      end
  end.

(** [JSON.parse]; [None] is the [SyntaxError] it throws. *)
Definition json_parse (s : string) : option jval :=
  r ← json_val (S (String.length s) * 2) s;
  if String.eqb (skip_ws r.2) "" then Some r.1 else None.

(** ** atob *)

Definition b64_val (c : ascii) : option Z :=
  if is_upper c then Some (code c - 65)
  else if is_lower c then Some (code c - 71)
  else if is_digit c then Some (code c + 4)
  else if Ascii.eqb c "+" then Some 62
  else if Ascii.eqb c "/" then Some 63
  else None.

(** The bytes of a sequence of sextets; left-over bits are dropped. *)
Fixpoint b64_bytes (l : list Z) : option (list Z) :=
  match l with
  | [] => Some []
  | [_] => None
  | [a; b] => Some [a * 4 + b / 16]
  | [a; b; c] => Some [a * 4 + b / 16; (b mod 16) * 16 + c / 4]
  | a :: b :: c :: d :: l' =>
      r ← b64_bytes l';
      Some (a * 4 + b / 16 :: (b mod 16) * 16 + c / 4 :: (c mod 4) * 64 + d :: r)
  end.

Fixpoint latin1_utf8 (l : list Z) : string :=
  match l with
  | [] => ""
  | n :: l' => utf8 n +:+ latin1_utf8 l'
  end.

Fixpoint strip_ws (s : string) : string :=
  match s with
  | "" => ""
  | String c s' => if (is_space c && negb (code c =? 11)) then strip_ws s' else String c (strip_ws s')
  end.

Definition strip_padding (s : string) : string :=
  if (Z.of_nat (String.length s) mod 4 =? 0) then
    if endsWith "==" s then slice_to_neg 2 s
    else if endsWith "=" s then slice_to_neg 1 s else s
  else s.

(** [atob(s)]: a string of one character per byte; [None] is its exception. *)
Definition atob (s : string) : option string :=
  l ← mapM b64_val (String.list_ascii_of_string (strip_padding (strip_ws s)));
  r ← b64_bytes l;
  Some (latin1_utf8 r).

Example json_parse_obj :
  json_parse (replace_char "'" (String dquote "")
    "{ 'uid': 7, 'usr':'budi', 'l':[1,-2,true,null,1.5] }") =
  Some (JObj [("uid", JNum 7); ("usr", JStr "budi");
              ("l", JArr [JNum 1; JNum (-2); JBool true; JNull; JFrac "1.5"])]).
Proof. vm_compute. reflexivity. Qed.

Example atob_ex : atob "aGVsbG8=" = Some "hello" /\ atob "aGVsbG8" = Some "hello" /\ atob "aGVsb" = None.
Proof. vm_compute. done. Qed.

(** ** Round trip of JSON string literals *)

Lemma json_str_escape c t :
  json_str (json_escape c +:+ t) = (r ← json_str t; Some (String c r.1, r.2)).
Proof. destruct c as [[] [] [] [] [] [] [] []]; reflexivity. Qed.

Lemma json_str_quote s t :
  json_str (json_escape_str s +:+ String dquote t) = Some (s, t).
Proof.
  induction s as [|c s IH]; [done|]. cbn [json_escape_str].
  rewrite <- app_str_assoc, json_str_escape, IH. done.
Qed.

Lemma json_val_quote n s t : json_val (S n) (json_quote s +:+ t) = Some (JStr s, t).
Proof.
  unfold json_quote. cbn -[json_str]. rewrite <- app_str_assoc. simpl.
  by rewrite json_str_quote.
Qed.

Lemma json_parse_quote s : json_parse (json_quote s) = Some (JStr s).
Proof.
  unfold json_parse. rewrite <- (app_str_nil_r (json_quote s)) at 2.
  simpl Nat.mul. by rewrite json_val_quote.
Qed.

(** ** Round trip of base64url *)

(** The encoding the tokens arrive in (RFC 4648, section 5, without padding). *)
Fixpoint b64_sextets (l : list Z) : list Z :=
  match l with
  | [] => []
  | [a] => [a / 4; (a mod 4) * 16]
  | [a; b] => [a / 4; (a mod 4) * 16 + b / 16; (b mod 16) * 4]
  | a :: b :: c :: l' =>
      a / 4 :: (a mod 4) * 16 + b / 16 :: (b mod 16) * 4 + c / 64 :: c mod 64 :: b64_sextets l'
  end.

Definition b64url_char (n : Z) : ascii :=
  if n <? 26 then char_of (n + 65)
  else if n <? 52 then char_of (n + 71)
  else if n <? 62 then char_of (n - 4)
  else if n =? 62 then "-"%char else "_"%char.

Definition str_codes (s : string) : list Z := code <$> String.list_ascii_of_string s.

Definition b64url (s : string) : string :=
  String.string_of_list_ascii (b64url_char <$> b64_sextets (str_codes s)).

Definition byte (n : Z) : Prop := 0 <= n < 256.

Lemma list_ind3 {A} (P : list A -> Prop) :
  P [] -> (forall a, P [a]) -> (forall a b, P [a; b]) ->
  (forall a b c l, P l -> P (a :: b :: c :: l)) -> forall l, P l.
Proof.
  intros H0 H1 H2 H3 l.
  cut (P l /\ (forall a, P (a :: l)) /\ (forall a b, P (a :: b :: l))); [by intros [? _]|].
  induction l as [|x l (IH0 & IH1 & IH2)]; split_and!; auto.
Qed.

Lemma b64_bytes_sextets l : Forall byte l -> b64_bytes (b64_sextets l) = Some l.
Proof.
  unfold byte. induction l as [|a|a b|a b c l IH] using list_ind3; intros HF;
    rewrite ?Forall_cons in HF; destruct_and?.
  - done.
  - simpl. do 2 f_equal. euclid.
  - simpl. do 2 f_equal; [|f_equal]; euclid.
  - cbn [b64_sextets b64_bytes]. rewrite IH by done. simpl.
    do 2 f_equal; [|f_equal; [|f_equal]]; euclid.
Qed.

Lemma b64_sextets_range l : Forall byte l -> Forall (fun n => 0 <= n < 64) (b64_sextets l).
Proof.
  unfold byte. induction l as [|a|a b|a b c l IH] using list_ind3; intros HF;
    rewrite ?Forall_cons in HF; destruct_and?; simpl; repeat constructor; auto;
    euclid.
Qed.

(** The two replacements that turn base64url into base64. *)
Definition unurl (s : string) : string := replace_char "_" "/" (replace_char "-" "+" s).

Definition b64_char (n : Z) : ascii :=
  if n =? 62 then "+"%char else if n =? 63 then "/"%char else b64url_char n.

Definition b64_char_ok (n : Z) : bool :=
  String.eqb (unurl (String (b64url_char n) "")) (String (b64_char n) "") &&
  bool_decide (b64_val (b64_char n) = Some n) &&
  negb (is_space (b64_char n)) && negb (Ascii.eqb (b64_char n) "=") &&
  negb (Ascii.eqb (b64url_char n) ".").

Lemma b64_char_okP n : 0 <= n < 64 ->
  unurl (String (b64url_char n) "") = String (b64_char n) "" /\
  b64_val (b64_char n) = Some n /\ is_space (b64_char n) = false /\
  (b64_char n =? "=")%char = false /\ (b64url_char n =? ".")%char = false.
Proof.
  intros Hn. assert (b64_char_ok n = true) as H.
  { apply (range_check b64_char_ok 0 64); [by vm_compute|lia]. }
  unfold b64_char_ok in H. b2p. rewrite <- !Ascii.eqb_neq in *. auto 10.
Qed.

Lemma replace_char_app c r a b :
  replace_char c r (a +:+ b) = replace_char c r a +:+ replace_char c r b.
Proof. induction a; simpl; [done|]. by rewrite IHa, app_str_assoc. Qed.

Lemma unurl_app a b : unurl (a +:+ b) = unurl a +:+ unurl b.
Proof. unfold unurl. by rewrite !replace_char_app. Qed.

Section Sextets.
Variable l : list Z.
Hypothesis Hl : Forall (fun n => 0 <= n < 64) l.

Lemma unurl_chars :
  unurl (String.string_of_list_ascii (b64url_char <$> l)) =
  String.string_of_list_ascii (b64_char <$> l).
Proof.
  induction Hl as [|n l' Hn Hl' IH]; [done|]. cbn [fmap list_fmap String.string_of_list_ascii].
  change (String (b64url_char n) ?s) with (String (b64url_char n) "" +:+ s).
  rewrite unurl_app, IH by done. by rewrite (proj1 (b64_char_okP n Hn)).
Qed.

Lemma strip_ws_chars :
  strip_ws (String.string_of_list_ascii (b64_char <$> l)) =
  String.string_of_list_ascii (b64_char <$> l).
Proof.
  induction Hl as [|n l' Hn Hl' IH]; [done|].
  cbn [fmap list_fmap String.string_of_list_ascii strip_ws]. rewrite IH by done.
  by destruct (b64_char_okP n Hn) as (_ & _ & -> & _).
Qed.

Lemma no_padding_chars :
  str_forall (fun c => negb (c =? "=")%char) (String.string_of_list_ascii (b64_char <$> l)) = true.
Proof.
  induction Hl as [|n l' Hn Hl' IH]; [done|].
  cbn [fmap list_fmap String.string_of_list_ascii str_forall]. rewrite IH by done.
  by destruct (b64_char_okP n Hn) as (_ & _ & _ & -> & _).
Qed.

Lemma no_dot_chars :
  str_forall (fun c => negb (c =? ".")%char) (String.string_of_list_ascii (b64url_char <$> l)) = true.
Proof.
  induction Hl as [|n l' Hn Hl' IH]; [done|].
  cbn [fmap list_fmap String.string_of_list_ascii str_forall]. rewrite IH by done.
  by destruct (b64_char_okP n Hn) as (_ & _ & _ & _ & ->).
Qed.

Lemma mapM_b64_val : mapM b64_val (b64_char <$> l) = Some l.
Proof.
  induction Hl as [|n l' Hn Hl' IH]; [done|].
  cbn [fmap list_fmap mapM]. change (list_fmap _ _ b64_char l') with (b64_char <$> l').
  rewrite IH by done. by rewrite (proj1 (proj2 (b64_char_okP n Hn))).
Qed.
End Sextets.

Lemma str_drop_forall p n s : str_forall p s = true -> str_forall p (str_drop n s) = true.
Proof.
  revert s. induction n as [|n IH]; intros [|c s]; simpl; try done. intros H; b2p. auto.
Qed.

Lemma endsWith_free c p s :
  str_forall (fun d => negb (d =? c)%char) s = true ->
  str_forall (fun d => negb (d =? c)%char) p = false -> endsWith p s = false.
Proof.
  intros Hs Hp. unfold endsWith. apply String.eqb_neq. intros E.
  rewrite <- E in Hp. unfold slice_from_neg in Hp. by rewrite str_drop_forall in Hp.
Qed.

Definition ascii_text (s : string) : bool := str_forall (fun c => code c <? 128) s.

Lemma utf8_code c : code c < 128 -> utf8 (code c) = String c "".
Proof. all_chars c. Qed.

Lemma latin1_codes s : ascii_text s = true -> latin1_utf8 (str_codes s) = s.
Proof.
  unfold ascii_text. induction s as [|c s IH]; [done|]. cbn [str_forall]. intros H; b2p.
  change (str_codes (String c s)) with (code c :: str_codes s). cbn [latin1_utf8].
  by rewrite utf8_code, IH by done.
Qed.

Lemma str_codes_byte s : Forall byte (str_codes s).
Proof.
  unfold str_codes. induction s as [|c s IH]; simpl; constructor; [|done].
  unfold byte, code. pose proof (nat_ascii_bounded c). lia.
Qed.

Lemma atob_b64url s : ascii_text s = true -> atob (unurl (b64url s)) = Some s.
Proof.
  intros Hs. unfold atob, b64url.
  pose proof (b64_sextets_range _ (str_codes_byte s)) as Hr.
  rewrite unurl_chars, strip_ws_chars by done. unfold strip_padding.
  rewrite !(endsWith_free "=") by (done || by apply no_padding_chars).
  assert (forall (b : bool) (x : string), (if b then x else x) = x) as -> by (by intros []).
  rewrite String.list_ascii_of_string_of_list_ascii.
  rewrite mapM_b64_val by done. simpl.
  rewrite b64_bytes_sextets by apply str_codes_byte. simpl.
  by rewrite latin1_codes.
Qed.

Lemma b64url_nodot s : str_forall (fun c => negb (c =? ".")%char) (b64url s) = true.
Proof. apply no_dot_chars, b64_sextets_range, str_codes_byte. Qed.

(** ** Reading back the decimal text of a number *)

Lemma span_app p x t :
  str_forall p x = true -> from_option p false (first_char t) = false -> span p (x +:+ t) = (x, t).
Proof.
  intros Hx Ht. induction x as [|c x IH]; simpl in *.
  - destruct t as [|c t]; simpl in *; [done|]. by rewrite Ht.
  - b2p. rewrite H, IH by done. done.
Qed.

Lemma json_number_Z n : 0 <= n -> json_number (Z_to_string n) = Some (JNum n).
Proof.
  intros Hn. destruct (Z_to_string_nonneg n Hn) as (Hs & Hd & Hv).
  pose proof (Z_to_string_first n) as Hf. unfold json_number.
  destruct (Z_to_string n) as [|c ds] eqn:E; [done|]. simpl in Hs.
  destruct (digit_not_space c Hs) as (_ & -> & _).
  rewrite <- (app_str_nil_r (String c ds)), span_app by done.
  rewrite app_str_nil_r. cbn [String.eqb].
  destruct (startsWith "0" (String c ds)) eqn:E0.
  - destruct (decide (n = 0)) as [->|].
    + vm_compute in E. by injection E as <- <-.
    + exfalso. apply Hf; [lia|]. apply prefix_spec in E0 as [t [= -> _]]. done.
  - rewrite andb_false_r. rewrite Hv. by destruct n.
Qed.

Lemma digit_start c :
  is_digit c = true ->
  (c =? dquote)%char = false /\ (c =? "[")%char = false /\ (c =? "{")%char = false /\
  json_ws c = false /\ number_char c = true /\
  c <> "t"%char /\ c <> "f"%char /\ c <> "n"%char.
Proof. all_chars c. Qed.

Lemma json_val_Z k n t :
  0 <= n -> from_option number_char false (first_char t) = false ->
  json_val (S k) (Z_to_string n +:+ t) = Some (JNum n, t).
Proof.
  intros Hn Ht. destruct (Z_to_string_nonneg n Hn) as (Hs & Hd & _).
  assert (span number_char (Z_to_string n +:+ t) = (Z_to_string n, t)) as Hsp.
  { apply span_app; [|done]. revert Hd. apply str_forall_impl. intros c Hc. by apply digit_start. }
  pose proof (json_number_Z n Hn) as Hj.
  destruct (Z_to_string n) as [|c ds]; [done|]. simpl in Hs.
  destruct (digit_start c Hs) as (H1 & H2 & H3 & H4 & _ & H5 & H6 & H7).
  cbn [json_val String.append skip_ws]. rewrite H4, H1, H2, H3.
  cbn [String.prefix].
  destruct (ascii_dec "t" c); [congruence|]. destruct (ascii_dec "f" c); [congruence|].
  destruct (ascii_dec "n" c); [congruence|].
  change (String c (ds +:+ t)) with (String c ds +:+ t). rewrite Hsp, Hj. done.
Qed.
