(* ===== verification/JsNumber.v ===== *)
(** * JavaScript numbers

    [Number(x)] and arithmetic on the numbers the client computes with, as exact
    rationals ([Qc]); the rounding of doubles is not modelled.  [None] is [NaN].
    Decimal literals are read in full (sign, fraction, exponent); the hexadecimal,
    octal, binary and [Infinity] literals [Number] also knows, which no backend
    field holds, read as [NaN].  It models no file under [src/]. *)
From S2P Require Import Prelude JsString JsValue.
From Stdlib Require Export QArith Qcanon.
#[global] Open Scope Z_scope.

Definition Qc_of (z : Z) : Qc := Q2Qc (inject_Z z).

(** [m * 10^k]. *)
Definition scale10 (m k : Z) : Qc :=
  if 0 <=? k then Qc_of (m * 10 ^ k) else Q2Qc (m # Z.to_pos (10 ^ (- k))).

Definition read_sign (s : string) : Z * string :=
  match s with
  | String c r =>
      if Ascii.eqb c "-" then (-1, r) else if Ascii.eqb c "+" then (1, r) else (1, s)
  | "" => (1, s)
  end.

Definition read_exponent (s : string) : option Z :=
  match s with
  | "" => Some 0
  | String c r =>
      if Ascii.eqb c "e" || Ascii.eqb c "E" then
        let '(sg, r) := read_sign r in
        if starts_digit r && String.eqb (span is_digit r).2 ""
        then Some (sg * digits_val 0 r) else None
      else None
  end.

Definition decimal (s : string) : option Qc :=
  let '(sg, s) := read_sign s in
  let '(ip, s) := span is_digit s in
  let '(fp, s) := match s with
                  | String c r => if Ascii.eqb c "." then span is_digit r else ("", s)
                  | "" => ("", s)
                  end in
  if String.eqb (ip +:+ fp) "" then None
  else match read_exponent s with
       | Some e => Some (scale10 (sg * digits_val 0 (ip +:+ fp))
                                 (e - Z.of_nat (String.length fp)))
       | None => None
       end.

Definition Number_str (s : string) : option Qc :=
  let t := trim s in if String.eqb t "" then Some (Qc_of 0) else decimal t.

Fixpoint Number (v : jval) : option Qc :=
  match v with
  | JUndef => None
  | JNull => Some (Qc_of 0)
  | JBool b => Some (Qc_of (if b then 1 else 0))
  | JNum z => Some (Qc_of z)
  | JFrac s => decimal s
  | JStr s => Number_str s
  | JArr [] => Some (Qc_of 0)
  | JArr [x] =>
      match x with
      | JUndef | JNull => Some (Qc_of 0)
      | JBool _ => None
      | _ => Number x
      end
  | JArr _ => None
  | JObj _ => None
  end.

(** [Number(x) || 0]. *)
Definition Number_or_0 (v : jval) : Qc := Number v ?? Qc_of 0.

(** [v === 0]. *)
Definition is_zero (v : jval) : bool :=
  match v with
  | JNum n => n =? 0
  | JFrac s => negb (nonzero_literal s)
  | _ => false
  end.

(** [Number(s)] as a value that JSON can carry; [NaN] is kept as the literal's text. *)
Definition Number_val (s : string) : jval :=
  match Number_str s with
  | Some q => if Pos.eqb (Qden (this q)) 1 then JNum (Qnum (this q)) else JFrac (trim s)
  | None => JFrac "NaN"
  end.

(** [String(v)]; a number that is no integer prints as the text it was read from. *)
Fixpoint js_String (v : jval) : string :=
  match v with
  | JUndef => "undefined"
  | JNull => "null"
  | JBool b => if b then "true" else "false"
  | JNum n => Z_to_string n
  | JFrac s => s
  | JStr s => s
  | JArr l => join "," (map (fun x => match x with JUndef | JNull => "" | _ => js_String x end) l)
  | JObj _ => "[object Object]"
  end.

Example Number_examples :
  (this <$> Number_str " 204 ") = Some (204 # 1)%Q /\ (this <$> Number_str "2.04e2") = Some (204 # 1)%Q /\
  (this <$> Number_str "-1.5") = Some (-3 # 2)%Q /\ Number_str "1,5" = None.
Proof. repeat split. Qed.

Lemma span_digits n : 0 <= n -> span is_digit (Z_to_string n) = (Z_to_string n, "").
Proof.
  intros Hn. rewrite <- (app_str_nil_r (Z_to_string n)) at 1. apply span_app; [|done].
  by apply (Z_to_string_nonneg n Hn).
Qed.

Lemma decimal_Z_to_string n : 0 <= n -> decimal (Z_to_string n) = Some (Qc_of n).
Proof.
  intros Hn. pose proof (span_digits n Hn) as Hsp.
  destruct (Z_to_string_nonneg n Hn) as (Hs & _ & Hv).
  unfold decimal, read_sign. destruct (Z_to_string n) as [|c ds] eqn:E; [done|]. simpl in Hs.
  destruct (digit_not_space c Hs) as (_ & -> & ->). rewrite Hsp, app_str_nil_r, Hv.
  cbn [String.eqb read_exponent String.length Z.of_nat]. unfold scale10.
  replace (0 <=? 0 - 0) with true by done. f_equal. f_equal. lia.
Qed.

(** [Number] reads back what [String] printed. *)
Lemma Number_Z_to_string n : 0 <= n -> Number_str (Z_to_string n) = Some (Qc_of n).
Proof.
  intros Hn. unfold Number_str. rewrite trim_Z_to_string, decimal_Z_to_string by done.
  destruct (Z_to_string_nonneg n Hn) as (Hs & _). by destruct (Z_to_string n).
Qed.

Lemma Number_val_Z n : 0 <= n -> Number_val (Z_to_string n) = JNum n.
Proof.
  intros Hn. unfold Number_val. rewrite Number_Z_to_string by done.
  cbn [Qc_of Q2Qc this]. rewrite Qred_identity; [done|]. apply Z.gcd_1_r.
Qed.
