(* ===== verification/JsMap.v ===== *)
(** * JavaScript's [Map]

    A [Map] keeps its entries in the order in which their keys were first inserted: an
    association list without duplicate keys, whose [set] overwrites in place or appends.
    It models no file under [src/]. *)
From S2P Require Import Prelude.

Section Map.
Context {K A : Type} `{EqDecision K}.

Definition js_map : Type := list (K * A).

Fixpoint map_get (k : K) (m : js_map) : option A :=
  match m with
  | [] => None
  | (k', a) :: m' => if decide (k = k') then Some a else map_get k m'
  end.

Fixpoint map_set (k : K) (a : A) (m : js_map) : js_map :=
  match m with
  | [] => [(k, a)]
  | (k', a') :: m' => if decide (k = k') then (k', a) :: m' else (k', a') :: map_set k a m'
  end.

Definition map_values (m : js_map) : list A := m.*2.

Lemma map_get_set_eq k a m : map_get k (map_set k a m) = Some a.
Proof.
  induction m as [|[k' a'] m IH]; cbn; [by rewrite decide_True|].
  destruct (decide (k = k')) as [->|Hne]; cbn; [by rewrite decide_True|by rewrite decide_False].
Qed.

Lemma map_get_set_ne k k' a m : k <> k' -> map_get k' (map_set k a m) = map_get k' m.
Proof.
  intros Hne. induction m as [|[k2 a2] m IH]; cbn; [by rewrite decide_False|].
  destruct (decide (k = k2)) as [->|Hk]; cbn; [by rewrite !decide_False by done|].
  by destruct (decide (k' = k2)).
Qed.

Lemma map_get_None k m : map_get k m = None <-> k ∉ m.*1.
Proof.
  induction m as [|[k' a'] m IH]; cbn; [by split; [intros _; apply not_elem_of_nil|]|].
  rewrite not_elem_of_cons. destruct (decide (k = k')); [split; [done|by intros [? _]]|].
  rewrite IH. tauto.
Qed.

Lemma map_get_Some_in k a m : map_get k m = Some a -> (k, a) ∈ m.
Proof.
  induction m as [|[k' a'] m IH]; cbn; [done|].
  destruct (decide (k = k')) as [->|_]; [by intros [= ->]; left|by right; apply IH].
Qed.

(** A known key keeps its place, a new one goes to the end. *)
Lemma map_set_keys k a m :
  (map_set k a m).*1 = if decide (k ∈ m.*1) then m.*1 else m.*1 ++ [k].
Proof.
  induction m as [|[k' a'] m IH]; cbn; [done|].
  destruct (decide (k = k')) as [->|Hne]; cbn; [by rewrite decide_True by left|].
  rewrite IH. destruct (decide (k ∈ m.*1)) as [Hin|Hin].
  - by rewrite decide_True by (by right).
  - rewrite decide_False; [done|]. by rewrite not_elem_of_cons.
Qed.

Lemma map_set_NoDup k a m : NoDup m.*1 -> NoDup (map_set k a m).*1.
Proof.
  rewrite map_set_keys. destruct (decide _) as [|Hin]; [done|]. intros H.
  apply NoDup_app. split_and!; [done| |apply NoDup_singleton].
  intros x Hx ->%list_elem_of_singleton. done.
Qed.

Lemma map_set_Forall (P : K * A -> Prop) k a m :
  Forall P m -> P (k, a) -> Forall P (map_set k a m).
Proof.
  intros Hm Ha. induction Hm as [|[k' a'] m Hx Hm IH]; cbn; [by constructor|].
  destruct (decide (k = k')) as [->|]; by constructor.
Qed.
End Map.
Arguments js_map K A : clear implicits.
