(* ===== verification/JsDate.v ===== *)
(** * Dates and the local clock

    What the client uses of [Date].  A date is its local time in milliseconds since the
    start of 1970, so the getters and the setters are arithmetic; which moment a local time
    is (the time zone) is a parameter where the code needs it.  Days and civil dates are
    converted by the usual era arithmetic; that it is the Gregorian calendar is
    [civil_of_days], [days_of_civil]. *)
From S2P Require Import Prelude JsString JsNumber.

(** ** Days and civil dates *)

(** Days since the epoch of a civil date, [month] from 0; months and days may overflow. *)
Definition days_from_civil (y m d : Z) : Z :=
  let y := if m <=? 2 then y - 1 else y in
  let era := y / 400 in
  let yoe := y mod 400 in
  let doy := (153 * (if m <=? 2 then m + 9 else m - 3) + 2) / 5 + d - 1 in
  era * 146097 + (yoe * 365 + yoe / 4 - yoe / 100 + doy) - 719468.
Definition MakeDay (year month date : Z) : Z :=
  days_from_civil (year + month / 12) (month mod 12 + 1) 1 + date - 1.

(** [new Date(y, m, d, h, mi, s)] before the time zone: years 0 to 99 mean 1900 to 1999. *)
Definition local_time (y m d h mi s : Z) : Z :=
  let y := if (0 <=? y) && (y <=? 99) then 1900 + y else y in
  1000 * (86400 * MakeDay y m d + 3600 * h + 60 * mi + s).

(** The civil date of a day, [month] from 0. *)
Definition civil_from_days (days : Z) : Z * Z * Z :=
  let z := days + 719468 in
  let era := z / 146097 in
  let doe := z mod 146097 in
  let yoe := (doe - doe / 1460 + doe / 36524 - doe / 146096) / 365 in
  let doy := doe - (365 * yoe + yoe / 4 - yoe / 100) in
  let mp := (5 * doy + 2) / 153 in
  let d := doy - (153 * mp + 2) / 5 + 1 in
  let m := if mp <? 10 then mp + 3 else mp - 9 in
  (yoe + era * 400 + (if m <=? 2 then 1 else 0), m - 1, d).

Definition year_of (local : Z) : Z := (civil_from_days (local / 86400000)).1.1.

(** [d.setFullYear(y)] on the local time of [d]. *)
Definition setFullYear (y local : Z) : Z :=
  let '(_, m, d) := civil_from_days (local / 86400000) in
  86400000 * MakeDay y m d + local mod 86400000.

(** ** Getters and constructors *)

Definition civil (local : Z) : Z * Z * Z := civil_from_days (local / 86400000).
Definition getFullYear (local : Z) : Z := (civil local).1.1.
Definition getMonth (local : Z) : Z := (civil local).1.2.
Definition getDate (local : Z) : Z := (civil local).2.

(** [new Date(y, m, d)]. *)
Definition new_Date (y m d : Z) : Z := local_time y m d 0 0 0.

(** ** The calendar *)

Lemma days_from_civil_400 y m d k : days_from_civil (y + 400 * k) m d = days_from_civil y m d + 146097 * k.
Proof.
  unfold days_from_civil.
  assert (forall a, (a + 400 * k) / 400 = a / 400 + k /\ (a + 400 * k) mod 400 = a mod 400) as Hd.
  { intros a. rewrite (Z.mul_comm 400 k). by rewrite Z.div_add, Z.mod_add. }
  destruct (m <=? 2).
  - replace (y + 400 * k - 1) with (y - 1 + 400 * k) by lia. destruct (Hd (y - 1)) as [-> ->]. lia.
  - destruct (Hd y) as [-> ->]. lia.
Qed.

Lemma civil_from_days_400 days k : civil_from_days (days + 146097 * k) =
  let '(y, m, d) := civil_from_days days in (y + 400 * k, m, d).
Proof.
  unfold civil_from_days. replace (days + 146097 * k + 719468) with (days + 719468 + k * 146097) by lia.
  rewrite Z.div_add, Z.mod_add by done. cbv zeta. f_equal. f_equal. lia.
Qed.

Definition leap (y : Z) : bool := (y mod 4 =? 0) && (negb (y mod 100 =? 0) || (y mod 400 =? 0)).
Definition month_length (y m : Z) : Z :=
  if m =? 1 then (if leap y then 29 else 28)
  else if existsb (Z.eqb m) [3; 5; 8; 10] then 30 else 31.


(** Dates that exist, [m] from 0. *)
Definition valid_civil (y m d : Z) : bool := (0 <=? m) && (m <? 12) && (1 <=? d) && (d <=? month_length y m).

Lemma leap_400 y k : leap (y + 400 * k) = leap y.
Proof.
  unfold leap.
  assert ((y + 400 * k) mod 4 = y mod 4 /\ (y + 400 * k) mod 100 = y mod 100 /\ (y + 400 * k) mod 400 = y mod 400)
    as (-> & -> & ->); [|done].
  repeat split; Z.to_euclidean_division_equations; lia.
Qed.

Lemma month_length_400 y m k : month_length (y + 400 * k) m = month_length y m.
Proof. unfold month_length. by rewrite leap_400. Qed.

(** The era of 400 years starts on the first of March; [era_start y] is the day of the era
    its year [y] starts on, [era_length y] its number of days. *)
Definition era_start (y : Z) : Z := 365 * y + y / 4 - y / 100.
Definition era_length (y : Z) : Z := if leap (y + 1) then 366 else 365.
Definition era_quot (doe : Z) : Z := doe - doe / 1460 + doe / 36524 - doe / 146096.

Lemma era_ends : forall_from (fun y =>
  (era_quot (era_start y) / 365 =? y) && (era_quot (era_start y + era_length y - 1) / 365 =? y) &&
  ((era_start (y + 1) =? era_start y + era_length y) || (y =? 399)) &&
  (0 <=? era_start y) && (era_start y + era_length y <=? 146097)) 400 0 = true.
Proof. vm_compute. reflexivity. Qed.

Lemma era_quot_mono a b : 0 <= a <= b -> b < 146097 -> era_quot a <= era_quot b.
Proof. intros H Hb. unfold era_quot. euclid. Qed.

Lemma era_year y doy : 0 <= y < 400 -> 0 <= doy < era_length y ->
  era_quot (era_start y + doy) / 365 = y /\ 0 <= era_start y + doy < 146097.
Proof.
  intros Hy Hd. pose proof (forall_from_spec _ _ _ era_ends y ltac:(lia)) as H. cbv beta in H. b2p.
  set (a := era_start y) in *. set (l := era_length y) in *.
  pose proof (era_quot_mono a (a + doy) ltac:(lia) ltac:(lia)) as Hlo.
  pose proof (era_quot_mono (a + doy) (a + l - 1) ltac:(lia) ltac:(lia)) as Hhi.
  split; [|lia]. apply Z.le_antisymm.
  - apply (Z.div_le_mono _ _ 365) in Hhi; lia.
  - apply (Z.div_le_mono _ _ 365) in Hlo; lia.
Qed.

(** Every day of the era lies in one of its years. *)
Lemma era_day doe : 0 <= doe < 146097 -> exists y doy,
  0 <= y < 400 /\ 0 <= doy < era_length y /\ doe = era_start y + doy.
Proof.
  intros Hd.
  assert (forall n : nat, (n <= 400)%nat -> doe < (if (n =? 400)%nat then 146097 else era_start (Z.of_nat n)) ->
    exists y doy, 0 <= y < 400 /\ 0 <= doy < era_length y /\ doe = era_start y + doy) as H.
  { induction n as [|n IH]; intros Hn Hlt; [change (doe < 0) in Hlt; lia|].
    destruct (Z.lt_ge_cases doe (era_start (Z.of_nat n))) as [Hl|Hl].
    - apply IH; [lia|]. destruct (Nat.eqb_spec n 400); [lia|done].
    - pose proof (forall_from_spec _ _ _ era_ends (Z.of_nat n) ltac:(lia)) as H. cbv beta in H. b2p.
      exists (Z.of_nat n), (doe - era_start (Z.of_nat n)). split_and!; try lia.
      destruct (Nat.eqb_spec (S n) 400) as [E|E].
      + assert (n = 399%nat) as -> by lia. change (doe < 146097) in Hlt. change (doe - 145731 < 366). lia.
      + replace (Z.of_nat (S n)) with (Z.of_nat n + 1) in Hlt by lia.
        match goal with H : _ \/ _ |- _ => destruct H end; b2p; lia. }
  apply (H 400%nat); [lia|]. cbn. lia.
Qed.

(** Months and days within a year that starts in March. *)
Definition month_part (doy : Z) : Z * Z :=
  let mp := (5 * doy + 2) / 153 in (if mp <? 10 then mp + 3 else mp - 9, doy - (153 * mp + 2) / 5 + 1).
Definition year_day (m d : Z) : Z := (153 * (if m <=? 2 then m + 9 else m - 3) + 2) / 5 + d - 1.

Lemma month_parts : forall_from (fun doy =>
  let '(m, d) := month_part doy in
  (1 <=? m) && (m <=? 12) && (1 <=? d) && (year_day m d =? doy) &&
  ((m =? 2) && (d <=? doy - 336) && (337 <=? doy) || negb (m =? 2) && (d <=? month_length 1 (m - 1)))) 366 0 = true.
Proof. vm_compute. reflexivity. Qed.

Lemma year_days : forall_from (fun m => forall_from (fun d =>
  let doy := year_day (m + 1) d in
  let '(m', d') := month_part doy in
  (m' =? m + 1) && (d' =? d) && (0 <=? doy) && ((doy <? 365) || ((m =? 1) && (d =? 29) && (doy =? 365))))
    (Z.to_nat (month_length 0 m)) 1) 12 0 = true.
Proof. vm_compute. reflexivity. Qed.

Lemma civil_from_era era y doy : 0 <= y < 400 -> 0 <= doy < era_length y ->
  civil_from_days (era * 146097 + (era_start y + doy) - 719468) =
    let '(m, d) := month_part doy in (y + era * 400 + (if m <=? 2 then 1 else 0), m - 1, d).
Proof.
  intros Hy Hd. destruct (era_year y doy Hy Hd) as [Hq Hr]. unfold civil_from_days.
  replace (era * 146097 + (era_start y + doy) - 719468 + 719468) with (era_start y + doy + era * 146097) by lia.
  rewrite Z.div_add, Z.mod_add, (Z.div_small (era_start y + doy)), (Z.mod_small (era_start y + doy)) by lia.
  change (era_start y + doy - (era_start y + doy) / 1460 + (era_start y + doy) / 36524 - (era_start y + doy) / 146096)
    with (era_quot (era_start y + doy)).
  rewrite Hq. cbv zeta. change (365 * y + y / 4 - y / 100) with (era_start y).
  replace (era_start y + doy - era_start y) with doy by lia. reflexivity.
Qed.

(** A day's civil date exists and is that day. *)
Lemma civil_of_days n :
  let '(y, m, d) := civil_from_days n in valid_civil y m d = true /\ days_from_civil y (m + 1) d = n.
Proof.
  destruct (era_day ((n + 719468) mod 146097)) as (y & doy & Hy & Hd & E); [apply Z.mod_pos_bound; lia|].
  assert (exists era, n = era * 146097 + (era_start y + doy) - 719468) as [era ->]
    by (exists ((n + 719468) / 146097); euclid). clear E.
  rewrite civil_from_era by done.
  assert (doy < 366) as Hdoy by (unfold era_length in Hd; case_match; lia).
  pose proof (forall_from_spec _ _ _ month_parts doy ltac:(lia)) as H. cbv beta in H.
  destruct (month_part doy) as [m d]. b2p. split.
  - unfold valid_civil. rewrite !andb_true_iff, !Z.leb_le, Z.ltb_lt. split_and!; try lia.
    match goal with H : _ \/ _ |- _ => destruct H end; b2p.
    + subst m. unfold month_length, era_length in *. change (2 - 1 =? 1) with true. cbn [Z.leb Z.compare Pos.compare Pos.compare_cont].
      replace (y + era * 400 + 1) with (y + 1 + 400 * era) by lia. rewrite leap_400. case_match; lia.
    + unfold month_length in *. destruct (m - 1 =? 1) eqn:Em; [b2p; lia|done].
  - unfold days_from_civil.
    replace (m - 1 + 1) with m by lia.
    replace (if m <=? 2 then y + era * 400 + (if m <=? 2 then 1 else 0) - 1 else y + era * 400 + (if m <=? 2 then 1 else 0))
      with (y + era * 400) by (case_match; lia).
    rewrite Z.div_add, Z.mod_add, (Z.div_small y), (Z.mod_small y) by lia.
    change (365 * y + y / 4 - y / 100) with (era_start y).
    match goal with H : year_day m d = doy |- _ => unfold year_day in H end.
    unfold era_start. lia.
Qed.

(** A date that exists is the civil date of its day. *)
Lemma days_of_civil y m d : valid_civil y m d = true -> civil_from_days (days_from_civil y (m + 1) d) = (y, m, d).
Proof.
  intros Hv. unfold valid_civil in Hv. b2p.
  set (y' := if m + 1 <=? 2 then y - 1 else y).
  assert (d <= month_length 0 m) as Hm0.
  { unfold month_length in *. change (leap 0) with true. repeat case_match; lia. }
  pose proof (forall_from_spec _ _ _ year_days m ltac:(lia)) as H4. cbv beta in H4.
  apply forall_from_spec with (x := d) in H4; [|lia]. cbv beta zeta in H4.
  assert (days_from_civil y (m + 1) d = y' / 400 * 146097 + (era_start (y' mod 400) + year_day (m + 1) d) - 719468) as ->.
  { unfold days_from_civil, era_start, year_day. fold y'. lia. }
  destruct (month_part (year_day (m + 1) d)) as [m' d'] eqn:Em. b2p. subst m' d'.
  rewrite civil_from_era, Em.
  - replace (m + 1 - 1) with m by lia. f_equal. f_equal. subst y'. case_match; b2p; euclid.
  - apply Z.mod_pos_bound. lia.
  - split; [done|]. unfold era_length. match goal with H : _ \/ _ |- _ => destruct H as [H|H] end; b2p; [case_match; lia|].
    subst m d. assert (leap (y' mod 400 + 1) = true) as ->; [|lia].
    rewrite <- (leap_400 _ (y' / 400)). replace (y' mod 400 + 1 + 400 * (y' / 400)) with y by (change y' with (y - 1); euclid).
    unfold month_length in *. cbn in *. by destruct (leap y); [|lia].
Qed.

(** [MakeDay] with a month of the year: [d] counts days from the first of the month. *)
Lemma MakeDay_days y m d : 0 <= m < 12 -> MakeDay y m d = days_from_civil y (m + 1) d.
Proof.
  intros Hm. unfold MakeDay. rewrite Z.div_small, Z.mod_small by lia.
  unfold days_from_civil. rewrite Z.add_0_r. lia.
Qed.

Lemma new_Date_civil y m d : 100 <= y -> valid_civil y m d = true -> civil (new_Date y m d) = (y, m, d).
Proof.
  intros Hy Hv. unfold civil, new_Date, local_time. destruct ((0 <=? y) && (y <=? 99)) eqn:E; [b2p; lia|].
  replace (1000 * _) with (MakeDay y m d * 86400000) by lia. rewrite Z.div_mul by done.
  rewrite MakeDay_days by (unfold valid_civil in Hv; b2p; lia). by apply days_of_civil.
Qed.

Lemma civil_new_Date local : let '(y, m, d) := civil local in 100 <= y -> new_Date y m d = local / 86400000 * 86400000.
Proof.
  unfold civil. pose proof (civil_of_days (local / 86400000)) as H. destruct (civil_from_days _) as [[y m] d].
  destruct H as [Hv Hd]. intros Hy. unfold new_Date, local_time.
  destruct ((0 <=? y) && (y <=? 99)) eqn:E; [b2p; lia|].
  rewrite MakeDay_days by (unfold valid_civil in Hv; b2p; lia). lia.
Qed.
