(* ===== verification/Cookies.v ===== *)
(** * Cookies ([web/src/lib/cookies.ts])

    [document.cookie] is a jar of name/value pairs: reading it joins the pairs with
    ["; "], assigning to it stores or removes one pair, as RFC 6265 describes
    ([cookie_assign]).  The passing of time is not modelled: a cookie with a positive
    [max-age] stays.  A missing [document] (no browser) is [None].  The three
    functions of the file follow the source line by line; the theorems show that
    together they implement a finite map, on jars of distinct names. *)
From S2P Require Import Prelude JsString.

(** ** The browser's jar *)

Abbreviation jar := (list (string * string)).

Definition cookie_pair (nv : string * string) : string := nv.1 +:+ "=" +:+ nv.2.

(** The value [document.cookie] reads. *)
Definition cookie_string (j : jar) : string := join "; " (cookie_pair <$> j).

Fixpoint jar_set (n v : string) (j : jar) : jar :=
  match j with
  | [] => [(n, v)]
  | (n', v') :: j' => if String.eqb n n' then (n, v) :: j' else (n', v') :: jar_set n v j'
  end.

Definition jar_remove (n : string) (j : jar) : jar := filter (fun nv => nv.1 <> n) j.

Fixpoint jar_lookup (n : string) (j : jar) : option string :=
  match j with
  | [] => None
  | (n', v) :: j' => if String.eqb n n' then Some v else jar_lookup n j'
  end.

(** The text before and after the first ["="]. *)
Definition cut_eq (s : string) : string * string :=
  match split "=" s with
  | [] => ("", "")
  | [x] => ("", x)
  | x :: l => (x, join "=" l)
  end.

(** [max-age], when one of the attributes gives it. *)
Definition max_age_attr (attrs : list string) : option Z :=
  last (omap (fun a => let nv := cut_eq a in
    if String.eqb (toLowerCase (trim nv.1)) "max-age" then parseInt10 (trim nv.2) else None) attrs).

(** Assigning a text to [document.cookie]. *)
Definition cookie_assign (text : string) (j : jar) : jar :=
  match split ";" text with
  | [] => j
  | nv :: attrs =>
      let (n, v) := cut_eq nv in
      match max_age_attr attrs with
      | Some m => if m <=? 0 then jar_remove (trim n) j else jar_set (trim n) (trim v) j
      | None => jar_set (trim n) (trim v) j
      end
  end.

(** ** The functions of cookies.ts *)

Definition DEFAULT_MAX_AGE : Z := 60 * 60 * 24 * 7.

Definition getCookie (name : string) (document : option jar) : option string :=
  match document with
  | None => None
  | Some j =>
      let value := "; " +:+ cookie_string j in
      let parts := split ("; " +:+ name +:+ "=") value in
      if (length parts =? 2)%nat
      then cookieValue ← last parts; head (split ";" cookieValue)
      else None
  end.

Definition setCookie (name value : string) (maxAge : Z) (document : option jar) : option jar :=
  match document with
  | None => None
  | Some j =>
      Some (cookie_assign (name +:+ "=" +:+ value +:+ "; path=/; max-age=" +:+ Z_to_string maxAge) j)
  end.

Definition removeCookie (name : string) (document : option jar) : option jar :=
  match document with
  | None => None
  | Some j => Some (cookie_assign (name +:+ "=; path=/; max-age=0") j)
  end.

(** ** Well-formed names, values and jars *)

(** A cookie name: no white space, no [";"], no ["="]. *)
Definition name_char (c : ascii) : bool :=
  negb (is_space c) && negb (c =? ";")%char && negb (c =? "=")%char.

Definition wf_name (n : string) : bool := str_forall name_char n.

(** A cookie value: no [";"], no white space at its ends. *)
Definition no_semi (c : ascii) : bool := negb (c =? ";")%char.
Definition wf_value (v : string) : bool := str_forall no_semi v && tight v.

Definition wf_pair (nv : string * string) : bool := wf_name nv.1 && wf_value nv.2.

Definition wf_jar (j : jar) : Prop :=
  NoDup j.*1 /\ Forall (fun nv => wf_pair nv = true) j.

(** ** The jar is a finite map *)

Lemma jar_lookup_set n n' v j :
  jar_lookup n (jar_set n' v j) = if String.eqb n n' then Some v else jar_lookup n j.
Proof.
  induction j as [|[m w] j IH]; simpl; [done|].
  destruct (String.eqb n' m) eqn:E; simpl; [|rewrite IH]; b2p; simplify_eq;
    by repeat case_match; b2p; simplify_eq.
Qed.

Lemma jar_lookup_remove n n' j :
  jar_lookup n (jar_remove n' j) = if String.eqb n n' then None else jar_lookup n j.
Proof.
  unfold jar_remove. induction j as [|[m w] j IH]; [by case_match|].
  rewrite filter_cons. simpl. case_decide; simpl; rewrite IH;
    by repeat case_match; b2p; simplify_eq.
Qed.

Lemma jar_lookup_None n j : jar_lookup n j = None <-> n ∉ j.*1.
Proof.
  induction j as [|[m w] j IH]; simpl; [split; [intros _; apply not_elem_of_nil|done]|].
  rewrite not_elem_of_cons. destruct (String.eqb n m) eqn:E; b2p; naive_solver.
Qed.

Lemma jar_set_keys n v j m : m ∈ (jar_set n v j).*1 -> m = n \/ m ∈ j.*1.
Proof.
  induction j as [|[k w] j IH]; simpl; [set_solver|].
  destruct (String.eqb n k) eqn:E; b2p; simplify_eq/=; set_solver.
Qed.

Lemma wf_jar_set n v j : wf_pair (n, v) = true -> wf_jar j -> wf_jar (jar_set n v j).
Proof.
  intros Hw [Hn HF]. split.
  - clear HF. induction j as [|[k w] j IH]; simpl; [apply NoDup_singleton|].
    apply NoDup_cons in Hn as [Hk Hn].
    destruct (String.eqb n k) eqn:E; b2p; simplify_eq/=; apply NoDup_cons; [done|].
    split; [|auto]. intros [->|?]%jar_set_keys; done.
  - clear Hn. induction HF as [|[k w] j Hk HF IH]; simpl; [by constructor|].
    case_match; constructor; done.
Qed.

Lemma jar_remove_keys n j m : m ∈ (jar_remove n j).*1 -> m ∈ j.*1.
Proof.
  intros (nv & -> & [_ Hin]%list_elem_of_filter)%list_elem_of_fmap.
  by apply list_elem_of_fmap_2.
Qed.

Lemma wf_jar_remove n j : wf_jar j -> wf_jar (jar_remove n j).
Proof.
  intros [Hn HF]. split.
  - clear HF. induction j as [|[k w] j IH]; [constructor|].
    rewrite fmap_cons, NoDup_cons in Hn. destruct Hn as [Hk Hn].
    unfold jar_remove in *. rewrite filter_cons.
    case_decide; [|auto]. rewrite fmap_cons, NoDup_cons. split; [|auto].
    intros Hin. by apply Hk, (jar_remove_keys n).
  - apply Forall_forall. intros x [_ Hx]%list_elem_of_filter.
    by apply (proj1 (Forall_forall _ _) HF).
Qed.

(** ** Reading *)

Lemma name_no_semi n : wf_name n = true -> str_forall no_semi n = true.
Proof. apply str_forall_impl. unfold name_char, no_semi. intros c H; b2p. apply negb_true_iff, Ascii.eqb_neq; done. Qed.

Lemma name_no_eq n : wf_name n = true -> str_forall (fun c => negb (c =? "=")%char) n = true.
Proof. apply str_forall_impl. unfold name_char. intros c H; b2p. apply negb_true_iff, Ascii.eqb_neq; done. Qed.

Lemma name_trim n : wf_name n = true -> trim n = n.
Proof.
  intros H. apply trim_nospace. revert H. apply str_forall_impl. unfold name_char.
  intros c H; b2p. by apply negb_true_iff.
Qed.

(** The pairs, each after a ["; "]. *)
Fixpoint blocks (j : jar) : string :=
  match j with
  | [] => ""
  | nv :: j' => "; " +:+ cookie_pair nv +:+ blocks j'
  end.

Lemma cookie_string_blocks nv j : "; " +:+ cookie_string (nv :: j) = blocks (nv :: j).
Proof.
  revert nv. induction j as [|nv' j IH]; intros nv; simpl.
  - by rewrite app_str_nil_r.
  - specialize (IH nv'). unfold cookie_string in *. simpl in *. by rewrite <- IH.
Qed.

Section Reading.
Variable name : string.
Hypothesis Hname : wf_name name = true.

Lemma split_block_other n v rest :
  wf_pair (n, v) = true -> name <> n ->
  split ("; " +:+ name +:+ "=") ("; " +:+ cookie_pair (n, v) +:+ rest) =
  cons_head ("; " +:+ cookie_pair (n, v)) (split ("; " +:+ name +:+ "=") rest).
Proof.
  unfold wf_pair, wf_value, cookie_pair. simpl. intros Hw Hne. b2p.
  assert (String.prefix (name +:+ "=") (n +:+ String "=" (v +:+ rest)) = false) as Hp.
  { destruct (String.prefix _ _) eqn:E; [|done]. destruct Hne.
    eapply prefix_cut; [..|exact E]; by apply name_no_eq. }
  rewrite <- !app_str_assoc. simpl. unfold split. cbn [split_go]. simpl.
  rewrite Hp.
  change (cons_head " " (split_go (String ";" (String " " (name +:+ "="))) 0
    (n +:+ String "=" (v +:+ rest)))) with (cons_head " " (split (String ";" (String " " (name +:+ "=")))
    (n +:+ String "=" (v +:+ rest)))).
  change (n +:+ String "=" (v +:+ rest)) with (n +:+ ("=" +:+ (v +:+ rest))).
  rewrite (app_str_assoc "=" v rest), app_str_assoc, split_free, !cons_head_app; [done|].
  change (str_forall no_semi (n +:+ ("=" +:+ v)) = true).
  rewrite !str_forall_app, (name_no_semi n) by done. done.
Qed.

Lemma split_block_same v rest :
  wf_value v = true ->
  split ("; " +:+ name +:+ "=") ("; " +:+ cookie_pair (name, v) +:+ rest) =
  "" :: cons_head v (split ("; " +:+ name +:+ "=") rest).
Proof.
  unfold wf_value, cookie_pair. simpl. intros Hw. b2p.
  rewrite <- (app_str_assoc name). simpl.
  change (String ";" (String " " (name +:+ String "=" (v +:+ rest))))
    with (String ";" (String " " (name +:+ ("=" +:+ (v +:+ rest))))).
  rewrite (app_str_assoc name).
  change (String ";" (String " " ((name +:+ "=") +:+ (v +:+ rest))))
    with ((String ";" (String " " (name +:+ "="))) +:+ (v +:+ rest)).
  rewrite split_sep by done. f_equal. by apply split_free.
Qed.

Lemma split_blocks_absent j :
  wf_jar j -> name ∉ j.*1 -> split ("; " +:+ name +:+ "=") (blocks j) = [blocks j].
Proof.
  intros [_ HF] Hn. induction HF as [|[n v] j Hw HF IH]; [done|].
  simpl in Hn. apply not_elem_of_cons in Hn as [Hne Hn]. cbn [blocks].
  rewrite split_block_other, IH by done. cbn [cons_head]. by rewrite <- app_str_assoc.
Qed.

Lemma split_blocks_present j v :
  wf_jar j -> jar_lookup name j = Some v ->
  exists pre j', split ("; " +:+ name +:+ "=") (blocks j) = [pre; v +:+ blocks j'].
Proof.
  induction j as [|[n w] j IH]; [done|]. intros [Hd HF] Hl. cbn [blocks jar_lookup] in *.
  rewrite fmap_cons, NoDup_cons in Hd. destruct Hd as [Hk Hd]. apply Forall_cons in HF as [Hw HF].
  destruct (String.eqb name n) eqn:E; b2p.
  - subst n. injection Hl as ->. exists "", j. rewrite split_block_same by (unfold wf_pair in Hw; by b2p).
    by rewrite split_blocks_absent.
  - destruct (IH (conj Hd HF) Hl) as (pre & j' & IH').
    exists ("; " +:+ cookie_pair (n, w) +:+ pre), j'.
    rewrite split_block_other, IH' by done. cbn [cons_head]. by rewrite app_str_assoc.
Qed.

Lemma head_split_blocks v j :
  str_forall no_semi v = true -> head (split ";" (v +:+ blocks j)) = Some v.
Proof.
  intros Hv. rewrite split_free by done. destruct j as [|nv j]; simpl.
  - by rewrite app_str_nil_r.
  - by rewrite app_str_nil_r.
Qed.

Lemma jar_lookup_wf j v : wf_jar j -> jar_lookup name j = Some v -> wf_value v = true.
Proof.
  intros [_ HF]. induction HF as [|[n w] j Hw HF IH]; simpl; [done|].
  case_match; [|done]. intros [= ->]. unfold wf_pair in Hw. by b2p.
Qed.

Lemma getCookie_lookup j : wf_jar j -> getCookie name (Some j) = jar_lookup name j.
Proof.
  intros Hj. unfold getCookie. destruct j as [|nv j].
  - unfold cookie_string. simpl. unfold split. cbn [split_go]. simpl.
    by destruct name.
  - rewrite cookie_string_blocks. destruct (jar_lookup name (nv :: j)) as [v|] eqn:E.
    + destruct (split_blocks_present _ _ Hj E) as (pre & j' & ->). simpl.
      apply head_split_blocks. apply jar_lookup_wf in E; [|done]. unfold wf_value in E. by b2p.
    + rewrite split_blocks_absent; [done..|]. by apply jar_lookup_None.
Qed.
End Reading.

(** ** Writing *)

Lemma cut_eq_app n v : str_forall (fun c => negb (c =? "=")%char) n = true ->
  cut_eq (n +:+ "=" +:+ v) = (n, v).
Proof.
  intros Hn. unfold cut_eq. simpl. rewrite split_char_cut by done.
  destruct (split "=" v) as [|x l] eqn:E; [by apply split_nonnil in E|].
  rewrite <- E. by rewrite join_split.
Qed.

Lemma split_assignment nv m :
  str_forall no_semi nv = true -> 0 <= m ->
  split ";" (nv +:+ "; path=/; max-age=" +:+ Z_to_string m) =
  [nv; " path=/"; " max-age=" +:+ Z_to_string m].
Proof.
  intros Hnv Hm. cbn [String.append]. rewrite split_char_cut by done. f_equal.
  match goal with |- split _ ?x = _ =>
    change x with (" path=/" +:+ String ";" (" max-age=" +:+ Z_to_string m)) end.
  rewrite split_char_cut by done. f_equal. apply split_free_all.
  simpl. by rewrite Z_to_string_no.
Qed.

Lemma max_age_assignment m : 0 <= m ->
  max_age_attr [" path=/"; " max-age=" +:+ Z_to_string m] = Some m.
Proof.
  intros Hm. unfold max_age_attr. cbn [omap list_omap].
  change (cut_eq " path=/") with (" path", "/"). cbn [fst snd].
  change (String.eqb (toLowerCase (trim " path")) "max-age") with false. cbn iota.
  change (" max-age=" +:+ Z_to_string m) with (" max-age" +:+ "=" +:+ Z_to_string m).
  rewrite cut_eq_app by done. cbn [fst snd].
  change (String.eqb (toLowerCase (trim " max-age")) "max-age") with true. cbn iota.
  rewrite trim_Z_to_string, parseInt10_of by done. done.
Qed.

Lemma cookie_assign_text n v m j :
  wf_pair (n, v) = true -> 0 <= m ->
  cookie_assign (n +:+ "=" +:+ v +:+ "; path=/; max-age=" +:+ Z_to_string m) j =
  if m <=? 0 then jar_remove n j else jar_set n v j.
Proof.
  unfold wf_pair, wf_value. cbn [fst snd]. intros Hw Hm. b2p. unfold cookie_assign.
  replace (n +:+ "=" +:+ v +:+ "; path=/; max-age=" +:+ Z_to_string m)
    with ((n +:+ "=" +:+ v) +:+ "; path=/; max-age=" +:+ Z_to_string m)
    by (by rewrite <- !app_str_assoc).
  rewrite split_assignment; [|by rewrite !str_forall_app, name_no_semi by done|done].
  rewrite cut_eq_app by (by apply name_no_eq). rewrite max_age_assignment by done.
  by rewrite name_trim, trim_tight by done.
Qed.

Lemma setCookie_jar n v m j :
  wf_pair (n, v) = true -> 0 < m -> setCookie n v m (Some j) = Some (jar_set n v j).
Proof.
  intros Hw Hm. unfold setCookie. rewrite cookie_assign_text by (done || lia).
  by destruct (m <=? 0) eqn:E; b2p; [lia|].
Qed.

Lemma removeCookie_jar n j :
  wf_name n = true -> removeCookie n (Some j) = Some (jar_remove n j).
Proof.
  intros Hn. unfold removeCookie.
  change (n +:+ "=; path=/; max-age=0")
    with (n +:+ "=" +:+ "" +:+ "; path=/; max-age=" +:+ Z_to_string 0).
  by rewrite cookie_assign_text by (unfold wf_pair; simpl; by rewrite ?Hn).
Qed.

(** ** The cookie functions implement a finite map *)

(** [setCookie] with a positive [max-age] stores exactly one entry of the jar: on a
    jar of distinct names, reading the written name gives the written value, reading any
    other name gives what it gave before, and the jar keeps its well-formedness, so the
    law applies to the next write.  The name must have no white space, [";"] or ["="],
    the value no [";"] and no white space at its ends. *)
Theorem setCookie_getCookie n v m j :
  wf_jar j -> wf_name n = true -> wf_value v = true -> 0 < m ->
  exists j', setCookie n v m (Some j) = Some j' /\ wf_jar j' /\
    forall n', wf_name n' = true ->
      getCookie n' (Some j') = if String.eqb n' n then Some v else getCookie n' (Some j).
Proof.
  intros Hj Hn Hv Hm. assert (wf_pair (n, v) = true) as Hw by (unfold wf_pair; simpl; by rewrite Hn, Hv).
  exists (jar_set n v j). rewrite setCookie_jar by done. split_and!; [done|by apply wf_jar_set|].
  intros n' Hn'. rewrite !getCookie_lookup by (done || by apply wf_jar_set).
  apply jar_lookup_set.
Qed.

(** [removeCookie] removes exactly one entry of the jar: the name is absent afterwards,
    every other name reads as before, and the jar stays well-formed. *)
Theorem removeCookie_getCookie n j :
  wf_jar j -> wf_name n = true ->
  exists j', removeCookie n (Some j) = Some j' /\ wf_jar j' /\
    forall n', wf_name n' = true ->
      getCookie n' (Some j') = if String.eqb n' n then None else getCookie n' (Some j).
Proof.
  intros Hj Hn. exists (jar_remove n j). rewrite removeCookie_jar by done.
  split_and!; [done|by apply wf_jar_remove|].
  intros n' Hn'. rewrite !getCookie_lookup by (done || by apply wf_jar_remove).
  apply jar_lookup_remove.
Qed.

Lemma wf_jar_two : wf_jar [("dir", "rtl"); ("font", "inter")].
Proof. split; [|by repeat constructor]. by apply (bool_decide_unpack (NoDup ["dir"; "font"])). Qed.

Lemma setCookie_getCookie_witness :
  exists j', setCookie "dir" "ltr" 60 (Some [("dir", "rtl"); ("font", "inter")]) = Some j' /\
    wf_jar j' /\ getCookie "dir" (Some j') = Some "ltr" /\ getCookie "font" (Some j') = Some "inter".
Proof.
  destruct (setCookie_getCookie "dir" "ltr" 60 [("dir", "rtl"); ("font", "inter")] wf_jar_two
    eq_refl eq_refl eq_refl) as (j' & H1 & H2 & H3).
  exists j'. split; [exact H1|]. split; [exact H2|].
  split; [exact (H3 "dir" eq_refl)|exact (H3 "font" eq_refl)].
Defined.

Lemma removeCookie_getCookie_witness :
  exists j', removeCookie "dir" (Some [("dir", "rtl"); ("font", "inter")]) = Some j' /\
    wf_jar j' /\ getCookie "dir" (Some j') = None /\ getCookie "font" (Some j') = Some "inter".
Proof.
  destruct (removeCookie_getCookie "dir" [("dir", "rtl"); ("font", "inter")] wf_jar_two eq_refl)
    as (j' & H1 & H2 & H3).
  exists j'. split; [exact H1|]. split; [exact H2|].
  split; [exact (H3 "dir" eq_refl)|exact (H3 "font" eq_refl)].
Defined.
