(* ===== verification/AuthStore.v ===== *)
(** * The two session stores ([web/src/stores/auth-store.ts, portal-auth-store.ts])

    A store is its in-memory record together with the browser storage it writes
    through: the cookie jar and [localStorage].  Every setter of the source is one
    function on that pair; [init] is the initialiser that runs when the page loads.
    The access token is a [jval]: [JSON.parse] of a cookie text may give any value.

    The theorems: the token decoder inverts the base64url/JSON encoding of a token's
    claims; what the setters persist is what a reload reads back, for any sequence of
    setters; [reset] leaves an anonymous session that a reload keeps anonymous. *)
From S2P Require Import Prelude JsString JsValue Cookies.

(** ** Browser storage *)

Record browser : Type := Browser {
  cookies : list (string * string);
  localStorage : gmap string string;
}.

Definition with_cookies (f : option (list (string * string)) -> option (list (string * string)))
  (b : browser) : browser :=
  Browser (default (cookies b) (f (Some (cookies b)))) (localStorage b).

Definition setItem (k v : string) (b : browser) : browser :=
  Browser (cookies b) (<[k := v]> (localStorage b)).

Definition removeItem (k : string) (b : browser) : browser :=
  Browser (cookies b) (delete k (localStorage b)).

(** ** Decoding a token

    [token.split('.')[1]], then [atob] of the base64url text and [JSON.parse]; an
    exception anywhere is [null]. *)
Definition token_claims (token : jval) : option jval :=
  match token with
  | JStr s =>
      match split "." s !! 1%nat with
      | None => None
      | Some payload =>
          if String.eqb payload "" then None
          else json ← atob (unurl payload); json_parse json
      end
  | _ => None
  end.

(** [x ?? d]. *)
Definition nullish (x d : jval) : jval :=
  match x with
  | JUndef | JNull => d
  | _ => x
  end.

Module Auth.

Definition ACCESS_TOKEN : string := "roskit-access-token".
Definition REFRESH_TOKEN_KEY : string := "roskit-refresh-token".

Record AuthUser : Type := { id : jval; username : jval; role : jval }.

Definition decodeUserFromToken (token : jval) : option AuthUser :=
  match token_claims token with
  | None | Some JNull => None
  | Some claims =>
      if negb (truthy (get "usr" claims)) || negb (truthy (get "rol" claims)) then None
      else Some {| id := nullish (get "uid" claims) (JNum 0);
                   username := get "usr" claims; role := get "rol" claims |}
  end.

Record AuthState : Type := AuthSt {
  user : option AuthUser;
  accessToken : jval;
  refreshToken : string;
}.

(** The initialiser; [None] is the exception of [JSON.parse]. *)
Definition init (b : browser) : option AuthState :=
  initToken ← (match getCookie ACCESS_TOKEN (Some (cookies b)) with
               | None => Some (JStr "")
               | Some cookieState =>
                   if String.eqb cookieState "" then Some (JStr "") else json_parse cookieState
               end);
  let storedRefresh := default "" (localStorage b !! REFRESH_TOKEN_KEY) in
  Some {| user := if truthy initToken then decodeUserFromToken initToken else None;
          accessToken := initToken;
          refreshToken := storedRefresh |}.

(** The setters, as actions on the browser storage and the state. *)
Definition setUser (u : option AuthUser) (b : browser) (s : AuthState) : browser * AuthState :=
  (b, AuthSt u (accessToken s) (refreshToken s)).

Definition setAccessToken (token : string) (b : browser) (s : AuthState) : browser * AuthState :=
  (with_cookies (setCookie ACCESS_TOKEN (json_quote token) DEFAULT_MAX_AGE) b,
   AuthSt (user s) (JStr token) (refreshToken s)).

Definition setRefreshToken (token : string) (b : browser) (s : AuthState) : browser * AuthState :=
  (setItem REFRESH_TOKEN_KEY token b, AuthSt (user s) (accessToken s) token).

Definition resetAccessToken (b : browser) (s : AuthState) : browser * AuthState :=
  (with_cookies (removeCookie ACCESS_TOKEN) b, AuthSt (user s) (JStr "") (refreshToken s)).

Definition resetRefreshToken (b : browser) (s : AuthState) : browser * AuthState :=
  (removeItem REFRESH_TOKEN_KEY b, AuthSt (user s) (accessToken s) "").

Definition reset (b : browser) (s : AuthState) : browser * AuthState :=
  (removeItem REFRESH_TOKEN_KEY (with_cookies (removeCookie ACCESS_TOKEN) b),
   AuthSt None (JStr "") "").

(** A call of one of the setters. *)
Inductive action : Type :=
| SetUser (u : option AuthUser)
| SetAccessToken (token : string)
| SetRefreshToken (token : string)
| ResetAccessToken
| ResetRefreshToken
| Reset.

Definition apply (a : action) (bs : browser * AuthState) : browser * AuthState :=
  match a with
  | SetUser u => setUser u bs.1 bs.2
  | SetAccessToken t => setAccessToken t bs.1 bs.2
  | SetRefreshToken t => setRefreshToken t bs.1 bs.2
  | ResetAccessToken => resetAccessToken bs.1 bs.2
  | ResetRefreshToken => resetRefreshToken bs.1 bs.2
  | Reset => reset bs.1 bs.2
  end.

Definition run (l : list action) (bs : browser * AuthState) : browser * AuthState :=
  foldl (fun bs a => apply a bs) bs l.

End Auth.

Module Portal.

Definition PORTAL_TOKEN_KEY : string := "rosmon-portal-token".

Record PortalUser : Type := { id : jval; phone : jval }.

Definition decodePortalUser (token : string) : option PortalUser :=
  match token_claims (JStr token) with
  | None | Some JNull => None
  | Some claims =>
      if negb (bool_decide (get "typ" claims = JStr "customer_access")) ||
         negb (truthy (get "cid" claims)) || negb (truthy (get "phn" claims)) then None
      else Some {| id := get "cid" claims; phone := get "phn" claims |}
  end.

Record PortalAuthState : Type := PortalSt {
  customerToken : string;
  customerUser : option PortalUser;
}.

Definition init (b : browser) : PortalAuthState :=
  let stored := default "" (localStorage b !! PORTAL_TOKEN_KEY) in
  {| customerToken := stored;
     customerUser := if String.eqb stored "" then None else decodePortalUser stored |}.

Definition setToken (token : string) (b : browser) (s : PortalAuthState)
  : browser * PortalAuthState :=
  (setItem PORTAL_TOKEN_KEY token b, PortalSt token (decodePortalUser token)).

Definition reset (b : browser) (s : PortalAuthState) : browser * PortalAuthState :=
  (removeItem PORTAL_TOKEN_KEY b, PortalSt "" None).

End Portal.

(** ** Tokens built by the backend: header, claims and signature, base64url *)

(** A flat JSON object of strings and non-negative integers. *)
Inductive claim : Type :=
| CStr (s : string)
| CNum (n : Z).

Definition claim_val (c : claim) : jval :=
  match c with
  | CStr s => JStr s
  | CNum n => JNum n
  end.

Definition claim_text (c : claim) : string :=
  match c with
  | CStr s => json_quote s
  | CNum n => Z_to_string n
  end.

Definition field_text (kc : string * claim) : string :=
  json_quote kc.1 +:+ ":" +:+ claim_text kc.2.

Definition object_text (l : list (string * claim)) : string :=
  "{" +:+ join "," (field_text <$> l) +:+ "}".

Definition jwt (header : string) (claims : list (string * claim)) (signature : string) : string :=
  join "." [header; b64url (object_text claims); signature].

(** ** Claims *)

Definition claim_ok (c : claim) : Prop :=
  match c with
  | CStr _ => True
  | CNum n => 0 <= n
  end.

Definition claims_val (l : list (string * claim)) : jval :=
  JObj ((fun kc => (kc.1, claim_val kc.2)) <$> l).

Lemma json_val_claim k c t :
  claim_ok c -> from_option number_char false (first_char t) = false ->
  json_val (S k) (claim_text c +:+ t) = Some (claim_val c, t).
Proof. destruct c as [s|n]; intros Hc Ht; [apply json_val_quote|by apply json_val_Z]. Qed.

Lemma json_fields_claims k l t :
  Forall (fun kc => claim_ok kc.2) l -> l <> [] -> (length l < k)%nat ->
  json_fields k (join "," (field_text <$> l) +:+ String "}" t) =
  Some ((fun kc => (kc.1, claim_val kc.2)) <$> l, t).
Proof.
  intros HF. revert k. induction HF as [|[key c] l Hc HF IH]; intros k Hne Hk; [done|].
  destruct k as [|k]; [simpl in Hk; lia|].
  assert (forall rest, from_option number_char false (first_char rest) = false ->
    json_fields (S k) (field_text (key, c) +:+ rest) =
      match skip_ws rest with
      | String e s3 =>
          if Ascii.eqb e "}" then Some ([(key, claim_val c)], s3)
          else if Ascii.eqb e "," then
            q ← json_fields k s3; Some ((key, claim_val c) :: q.1, q.2)
          else None
      | "" => None
      end) as Hstep.
  { intros rest Hrest. unfold field_text. cbn [fst snd]. rewrite <- !app_str_assoc.
    unfold json_quote at 1. cbn [json_fields String.append]. rewrite <- app_str_assoc.
    change (skip_ws (String dquote ?x)) with (String dquote x).
    cbn iota. change (dquote =? dquote)%char with true. cbn iota.
    change (String dquote "" +:+ ?x) with (String dquote x). rewrite json_str_quote.
    destruct k as [|k]; [simpl in Hk; lia|].
    cbn [mbind option_bind fst snd]. change (skip_ws (String ":" ?x)) with (String ":" x).
    cbn iota. change (":" =? ":")%char with true. cbn iota.
    rewrite json_val_claim by done. done. }
  destruct l as [|kc' l].
  - cbn [fmap list_fmap join]. rewrite Hstep by done. done.
  - change (join "," (field_text <$> (key, c) :: kc' :: l))
      with (field_text (key, c) +:+ ("," +:+ join "," (field_text <$> kc' :: l))).
    rewrite <- app_str_assoc, Hstep by done.
    rewrite <- app_str_assoc. change (skip_ws ("," +:+ ?x)) with (String "," x).
    cbn iota. change ("," =? "}")%char with false. change ("," =? ",")%char with true.
    cbn iota. rewrite IH by (done || simpl in *; lia). done.
Qed.

Lemma length_fields l :
  (length l <= String.length (join "," (field_text <$> l)))%nat.
Proof.
  induction l as [|kc l IH]; [simpl; lia|]. destruct l as [|kc' l].
  - unfold field_text, json_quote. simpl. lia.
  - change (join "," (field_text <$> kc :: kc' :: l))
      with (field_text kc +:+ ("," +:+ join "," (field_text <$> kc' :: l))).
    rewrite !length_app_str. simpl in *. lia.
Qed.

Lemma json_parse_object l :
  Forall (fun kc => claim_ok kc.2) l -> l <> [] ->
  json_parse (object_text l) = Some (claims_val l).
Proof.
  intros HF Hne. unfold json_parse, object_text.
  pose proof (length_fields l) as Hlen.
  assert (exists d s, join "," (field_text <$> l) +:+ "}" = String dquote s /\ d = dquote) as (_ & s & Hs & ->).
  { exists dquote. destruct l as [|kc [|kc' l]]; [done|..];
      unfold field_text, json_quote; cbn; by eexists. }
  change ("{" +:+ ?x) with (String "{" x).
  assert ((S (String.length (String "{" (join "," (field_text <$> l) +:+ "}"))) * 2)%nat =
    S (S (String.length (join "," (field_text <$> l) +:+ "}")) * 2 + 1)) as -> by (cbn; lia).
  cbn [json_val].
  change (skip_ws (String "{" ?x)) with (String "{" x). cbn iota.
  change ("{" =? dquote)%char with false. change ("{" =? "[")%char with false.
  change ("{" =? "{")%char with true. cbn iota.
  rewrite Hs at 1. change (skip_ws (String dquote ?x)) with (String dquote x). cbn iota.
  change (dquote =? "}")%char with false. cbn iota. rewrite <- Hs.
  rewrite json_fields_claims; [done..|]. rewrite length_app_str. lia.
Qed.

Lemma json_ascii_quote s : ascii_text s = true -> ascii_text (json_quote s) = true.
Proof.
  unfold ascii_text, json_quote. cbn. rewrite str_forall_app. simpl. intros H.
  rewrite andb_true_r. induction s as [|c s IH]; [done|]. cbn [json_escape_str str_forall] in *.
  b2p. rewrite str_forall_app, IH by done.
  match goal with Hc : code c < 128 |- _ => revert Hc end. clear. all_chars c.
Qed.

Definition claim_ascii (kc : string * claim) : bool :=
  ascii_text kc.1 && match kc.2 with CStr s => ascii_text s | CNum _ => true end.

Lemma ascii_object l :
  Forall (fun kc => claim_ok kc.2) l -> Forall (fun kc => claim_ascii kc = true) l ->
  ascii_text (object_text l) = true.
Proof.
  assert (forall a b, ascii_text (a +:+ b) = ascii_text a && ascii_text b) as Happ
    by apply str_forall_app.
  assert (forall kc, claim_ok kc.2 -> claim_ascii kc = true -> ascii_text (field_text kc) = true) as Hf.
  { intros [k [s|n]]; unfold claim_ascii, field_text; cbn [fst snd]; intros Hok H; b2p;
      rewrite !Happ, json_ascii_quote by done; cbn [claim_text];
      rewrite ?json_ascii_quote by done; [done|].
    destruct (Z_to_string_nonneg n Hok) as (_ & Hd & _). apply (str_forall_impl is_digit); [|done].
    intros c. clear. all_chars c. }
  intros H1 H2. unfold object_text. rewrite !Happ.
  replace (ascii_text (join "," (field_text <$> l))) with true; [done|]. symmetry.
  induction l as [|kc l IH]; [done|]. inversion_clear H1. inversion_clear H2.
  destruct l as [|kc' l]; [by apply Hf|].
  change (join "," (field_text <$> kc :: kc' :: l))
    with (field_text kc +:+ ("," +:+ join "," (field_text <$> kc' :: l))).
  by rewrite !Happ, IH, Hf by done.
Qed.

(** The claims of a token are the claims it was built from. *)
Lemma token_claims_jwt h l sg :
  str_forall (fun c => negb (c =? ".")%char) h = true ->
  l <> [] -> Forall (fun kc => claim_ok kc.2) l -> Forall (fun kc => claim_ascii kc = true) l ->
  token_claims (JStr (jwt h l sg)) = Some (claims_val l).
Proof.
  intros Hh Hne Hok Hasc. unfold token_claims, jwt.
  change (join "." [h; ?p; sg]) with (h +:+ String "." (p +:+ String "." sg)).
  rewrite split_char_cut by done. rewrite split_char_cut by apply b64url_nodot.
  cbn [lookup list_lookup].
  pose proof (atob_b64url _ (ascii_object l Hok Hasc)) as Ha.
  destruct (String.eqb (b64url (object_text l)) "") eqn:E; b2p.
  - rewrite E in Ha. by vm_compute in Ha.
  - rewrite Ha. cbn. by apply json_parse_object.
Qed.

(** ** What the setters persist *)

Lemma wf_access : wf_name Auth.ACCESS_TOKEN = true.
Proof. by vm_compute. Qed.

Lemma wf_value_quote t : str_forall no_semi t = true -> wf_value (json_quote t) = true.
Proof.
  intros Ht. unfold wf_value, tight, json_quote. cbn [first_char].
  change (String dquote (json_escape_str t +:+ String dquote ""))
    with ((String dquote (json_escape_str t)) +:+ String dquote "").
  rewrite rev_app_str. change (String.rev (String dquote "")) with (String dquote "").
  cbn [String.append first_char]. rewrite andb_true_r.
  cbn [str_forall]. rewrite str_forall_app. cbn [str_forall].
  replace (str_forall no_semi (json_escape_str t)) with true; [done|]. symmetry.
  induction t as [|c t IH]; [done|]. cbn [json_escape_str str_forall] in *. b2p.
  rewrite str_forall_app, IH by done.
  match goal with Hc : no_semi c = true |- _ => revert Hc end. clear. all_chars c.
Qed.

Module AuthLaws.
Import Auth.

(** The browser holds what the state says: the next page load reads it back. *)
Definition persisted (b : browser) (s : AuthState) : Prop :=
  wf_jar (cookies b) /\
  (exists s', init b = Some s' /\ accessToken s' = accessToken s /\ refreshToken s' = refreshToken s).

Lemma init_cookie b v :
  wf_jar (cookies b) -> jar_lookup ACCESS_TOKEN (cookies b) = v ->
  init b = initToken ← (match v with
                        | None => Some (JStr "")
                        | Some t => if String.eqb t "" then Some (JStr "") else json_parse t
                        end);
           Some (AuthSt (if truthy initToken then decodeUserFromToken initToken else None)
             initToken (default "" (localStorage b !! REFRESH_TOKEN_KEY))).
Proof. intros Hj Hv. unfold init. by rewrite getCookie_lookup, Hv by (done || apply wf_access). Qed.

Lemma with_cookies_set t b : str_forall no_semi t = true ->
  with_cookies (setCookie ACCESS_TOKEN (json_quote t) DEFAULT_MAX_AGE) b =
  Browser (jar_set ACCESS_TOKEN (json_quote t) (cookies b)) (localStorage b).
Proof.
  intros Ht. unfold with_cookies. rewrite setCookie_jar; [done| |done].
  unfold wf_pair. cbn [fst snd]. by rewrite wf_access, wf_value_quote.
Qed.

Lemma with_cookies_remove b :
  with_cookies (removeCookie ACCESS_TOKEN) b =
  Browser (jar_remove ACCESS_TOKEN (cookies b)) (localStorage b).
Proof. unfold with_cookies. by rewrite removeCookie_jar by apply wf_access. Qed.

Definition action_ok (a : action) : bool :=
  match a with
  | SetAccessToken t => str_forall no_semi t
  | _ => true
  end.

Lemma init_set t b : str_forall no_semi t = true -> wf_jar (cookies b) ->
  init (Browser (jar_set ACCESS_TOKEN (json_quote t) (cookies b)) (localStorage b)) =
  Some (AuthSt (if String.eqb t "" then None else decodeUserFromToken (JStr t)) (JStr t)
    (default "" (localStorage b !! REFRESH_TOKEN_KEY))).
Proof.
  intros Ht Hj. erewrite init_cookie; cbn [cookies].
  2: { apply wf_jar_set; [|done]. unfold wf_pair. cbn [fst snd]. by rewrite wf_access, wf_value_quote. }
  2: { by rewrite jar_lookup_set, String.eqb_refl. }
  cbn [String.eqb json_quote]. unfold json_quote.
  change (String dquote ?x =? "")%string with false. cbn iota.
  fold (json_quote t). rewrite json_parse_quote. cbn. by destruct t.
Qed.

Lemma init_remove b : wf_jar (cookies b) ->
  init (Browser (jar_remove ACCESS_TOKEN (cookies b)) (localStorage b)) =
  Some (AuthSt None (JStr "") (default "" (localStorage b !! REFRESH_TOKEN_KEY))).
Proof.
  intros Hj. erewrite init_cookie; [|by apply wf_jar_remove|cbn [cookies]].
  2: { by rewrite jar_lookup_remove, String.eqb_refl. }
  done.
Qed.

Lemma init_refresh ck ls1 ls2 s1 :
  init (Browser ck ls1) = Some s1 ->
  init (Browser ck ls2) =
    Some (AuthSt (user s1) (accessToken s1) (default "" (ls2 !! REFRESH_TOKEN_KEY))).
Proof.
  unfold init. cbn [cookies localStorage].
  destruct (match getCookie _ _ with None => _ | Some _ => _ end); [|done].
  cbn. by intros [= <-].
Qed.

Lemma apply_persisted a b s :
  action_ok a = true -> persisted b s -> persisted (apply a (b, s)).1 (apply a (b, s)).2.
Proof.
  intros Ha [Hj (s0 & Hi & Hacc & Href)]. destruct a as [u|t|t| | |]; cbn [apply fst snd].
  - split; [done|]. by exists s0.
  - unfold setAccessToken. cbn [fst snd action_ok] in *. rewrite with_cookies_set by done.
    split; [|eexists; rewrite init_set by done; split_and!; [done|done|]].
    + cbn. apply wf_jar_set; [|done]. unfold wf_pair. cbn [fst snd].
      by rewrite wf_access, wf_value_quote.
    + cbn. rewrite <- Href. unfold init in Hi.
      destruct (match getCookie _ _ with None => _ | Some _ => _ end); [|done]. by injection Hi as <-.
  - split; [done|]. destruct b as [ck ls].
    unfold setRefreshToken, setItem. cbn [fst snd cookies localStorage].
    eexists. split; [by eapply init_refresh|]. cbn [accessToken refreshToken].
    by rewrite lookup_insert_eq.
  - unfold resetAccessToken. cbn [fst snd]. rewrite with_cookies_remove.
    split; [by apply wf_jar_remove|]. eexists. rewrite init_remove by done.
    split_and!; [done..|]. cbn. rewrite <- Href. unfold init in Hi.
    destruct (match getCookie _ _ with None => _ | Some _ => _ end); [|done]. by injection Hi as <-.
  - split; [done|]. destruct b as [ck ls].
    unfold resetRefreshToken, removeItem. cbn [fst snd cookies localStorage].
    eexists. split; [by eapply init_refresh|]. cbn [accessToken refreshToken].
    by rewrite lookup_delete_eq.
  - unfold reset. cbn [fst snd]. rewrite with_cookies_remove.
    unfold removeItem. cbn [fst snd cookies localStorage].
    split; [by apply wf_jar_remove|]. eexists. split.
    + eapply init_refresh. apply init_remove. done.
    + cbn [accessToken refreshToken]. by rewrite lookup_delete_eq.
Qed.

Lemma run_persisted l b s :
  forallb action_ok l = true -> persisted b s -> persisted (run l (b, s)).1 (run l (b, s)).2.
Proof.
  unfold run. revert b s. induction l as [|a l IH]; intros b s Hl Hp; [done|].
  cbn [forallb foldl] in *. b2p.
  pose proof (apply_persisted a b s ltac:(done) Hp) as Hp'.
  destruct (apply a (b, s)) as [b' s']. by apply IH.
Qed.

(** C13: whatever sequence of setters runs after the page has loaded, a reload reads back
    exactly the access token and the refresh token of the in-memory state: the cookie
    (written with [JSON.stringify], read with [JSON.parse]) and [localStorage] never
    disagree with the store.  Access tokens must contain no [";"] (tokens are base64url). *)
Theorem reload_reads_back l b s :
  wf_jar (cookies b) -> init b = Some s -> forallb action_ok l = true ->
  let r := run l (b, s) in
  exists s', init r.1 = Some s' /\ accessToken s' = accessToken r.2 /\
    refreshToken s' = refreshToken r.2.
Proof.
  intros Hj Hi Hl. apply run_persisted; [done|]. split; [done|]. by exists s.
Qed.

(** After [reset] the session is anonymous (no user, empty tokens), stays anonymous on
    the next page load, and every other cookie and every other [localStorage] key reads as
    before. *)
Theorem reset_anonymous b s :
  wf_jar (cookies b) ->
  let r := reset b s in
  let anonymous := {| user := None; accessToken := JStr ""; refreshToken := "" |} in
  r.2 = anonymous /\ init r.1 = Some anonymous /\
  (forall n, wf_name n = true -> n <> ACCESS_TOKEN ->
     getCookie n (Some (cookies r.1)) = getCookie n (Some (cookies b))) /\
  (forall k, k <> REFRESH_TOKEN_KEY -> localStorage r.1 !! k = localStorage b !! k).
Proof.
  intros Hj. unfold reset. rewrite with_cookies_remove.
  unfold removeItem. cbn [fst snd cookies localStorage]. split_and!; [done|..].
  - erewrite init_refresh by (by apply init_remove). cbn [user accessToken].
    by rewrite lookup_delete_eq.
  - intros n Hn Hne. rewrite !getCookie_lookup by (done || by apply wf_jar_remove).
    rewrite jar_lookup_remove. by destruct (String.eqb n ACCESS_TOKEN) eqn:E; b2p.
  - intros k Hk. by rewrite lookup_delete_ne.
Qed.

(** [decodeUserFromToken] inverts the encoding of a token: for a JWT of any header and
    signature whose claims carry a non-empty user name and role, it returns exactly the
    user id, name and role of the claims, and [null] when either is empty or missing. *)
Theorem decodeUser_jwt h l sg :
  str_forall (fun c => negb (c =? ".")%char) h = true ->
  l <> [] -> Forall (fun kc => claim_ok kc.2) l -> Forall (fun kc => claim_ascii kc = true) l ->
  decodeUserFromToken (JStr (jwt h l sg)) =
    if truthy (get "usr" (claims_val l)) && truthy (get "rol" (claims_val l))
    then Some {| id := nullish (get "uid" (claims_val l)) (JNum 0);
                 username := get "usr" (claims_val l); role := get "rol" (claims_val l) |}
    else None.
Proof.
  intros Hh Hne Hok Hasc. unfold decodeUserFromToken.
  rewrite token_claims_jwt by done. cbn iota. unfold claims_val.
  by destruct (truthy (get "usr" _)), (truthy (get "rol" _)).
Qed.

Definition sample_claims : list (string * claim) :=
  [("uid", CNum 12); ("usr", CStr "alice"); ("rol", CStr "admin"); ("typ", CStr "access");
   ("exp", CNum 1767225600)].

Lemma sample_claims_ok :
  Forall (fun kc => claim_ok kc.2) sample_claims /\
  Forall (fun kc => claim_ascii kc = true) sample_claims.
Proof. split; repeat constructor; simpl; lia. Qed.

Lemma decodeUser_jwt_witness :
  decodeUserFromToken (JStr (jwt "eyJhbGciOiJIUzI1NiJ9" sample_claims "c2ln")) =
  Some {| id := JNum 12; username := JStr "alice"; role := JStr "admin" |}.
Proof.
  exact (decodeUser_jwt "eyJhbGciOiJIUzI1NiJ9" sample_claims "c2ln" eq_refl
    ltac:(discriminate) (proj1 sample_claims_ok) (proj2 sample_claims_ok)).
Defined.

Definition empty_browser : browser := Browser [("dir", "ltr")] ∅.

Lemma wf_jar_dir : wf_jar (cookies empty_browser).
Proof. split; [|by repeat constructor]. by apply (bool_decide_unpack (NoDup ["dir"])). Qed.

Lemma reload_reads_back_witness :
  exists s', init (run [SetAccessToken "aa.bb.cc"; SetRefreshToken "r1"; ResetRefreshToken]
      (empty_browser, AuthSt None (JStr "") "")).1 = Some s' /\
    accessToken s' = JStr "aa.bb.cc" /\ refreshToken s' = "".
Proof.
  exact (reload_reads_back [SetAccessToken "aa.bb.cc"; SetRefreshToken "r1"; ResetRefreshToken]
    empty_browser (AuthSt None (JStr "") "") wf_jar_dir eq_refl eq_refl).
Defined.

Lemma reset_anonymous_witness :
  init (reset empty_browser (AuthSt None (JStr "t") "r")).1 = Some (AuthSt None (JStr "") "").
Proof. exact (proj1 (proj2 (reset_anonymous empty_browser (AuthSt None (JStr "t") "r") wf_jar_dir))). Defined.

End AuthLaws.

Module PortalLaws.
Import Portal.

Inductive action : Type :=
| SetToken (token : string)
| Reset.

Definition apply (a : action) (bs : browser * PortalAuthState) : browser * PortalAuthState :=
  match a with
  | SetToken t => setToken t bs.1 bs.2
  | Reset => reset bs.1 bs.2
  end.

Lemma init_setToken t b s : init (setToken t b s).1 = (setToken t b s).2.
Proof.
  unfold init, setToken, setItem. cbn [fst snd localStorage]. rewrite lookup_insert_eq.
  by destruct t.
Qed.

Lemma init_reset b s : init (reset b s).1 = (reset b s).2.
Proof. unfold init, reset, removeItem. cbn [fst snd localStorage]. by rewrite lookup_delete_eq. Qed.

(** The portal store equals what a page load computes from [localStorage], after the
    initial load and after every sequence of logins and logouts: token and decoded customer
    never disagree with what is stored. *)
Theorem portal_reload l b :
  let r := foldl (fun bs a => apply a bs) (b, init b) l in init r.1 = r.2.
Proof.
  cbn zeta. assert (forall bs, init bs.1 = bs.2 ->
    let r := foldl (fun bs a => apply a bs) bs l in init r.1 = r.2) as H; [|by apply H].
  induction l as [|a l IH]; intros bs Hbs; [done|]. cbn [foldl]. apply IH.
  destruct a; [apply init_setToken|apply init_reset].
Qed.

Lemma portal_user_spec cl u :
  (if negb (bool_decide (get "typ" cl = JStr "customer_access")) ||
      negb (truthy (get "cid" cl)) || negb (truthy (get "phn" cl)) then None
   else Some {| id := get "cid" cl; phone := get "phn" cl |}) = Some u <->
  get "typ" cl = JStr "customer_access" /\ truthy (id u) = true /\ truthy (phone u) = true /\
    id u = get "cid" cl /\ phone u = get "phn" cl.
Proof.
  case_bool_decide as Ht; cbn [negb orb]; [|naive_solver].
  destruct (truthy (get "cid" cl)) eqn:E1; cbn [negb orb]; [|naive_solver congruence].
  destruct (truthy (get "phn" cl)) eqn:E2; cbn [negb orb]; [|naive_solver congruence].
  split; [intros [= <-]; by split_and!|].
  intros (_ & _ & _ & H1 & H2). destruct u as [i p]. cbn [id phone] in *. by subst.
Qed.

(** A token opens the customer portal only when its claims say so: [decodePortalUser]
    of a JWT gives a user exactly when [typ] is ["customer_access"] and customer id and
    phone are present, and the user has that id and phone.  A staff access token
    ([typ] = ["access"]) never yields a portal user. *)
Theorem decodePortal_jwt h l sg u :
  str_forall (fun c => negb (c =? ".")%char) h = true ->
  l <> [] -> Forall (fun kc => claim_ok kc.2) l -> Forall (fun kc => claim_ascii kc = true) l ->
  decodePortalUser (jwt h l sg) = Some u <->
    get "typ" (claims_val l) = JStr "customer_access" /\
    truthy (id u) = true /\ truthy (phone u) = true /\
    id u = get "cid" (claims_val l) /\ phone u = get "phn" (claims_val l).
Proof.
  intros Hh Hne Hok Hasc. unfold decodePortalUser.
  rewrite token_claims_jwt by done. cbn iota.
  assert (claims_val l <> JNull) as HN by done.
  destruct (claims_val l); [..|]; try apply portal_user_spec; done.
Qed.

Definition customer_claims : list (string * claim) :=
  [("cid", CNum 5); ("phn", CStr "0812"); ("typ", CStr "customer_access")].

Lemma customer_claims_ok :
  Forall (fun kc => claim_ok kc.2) customer_claims /\
  Forall (fun kc => claim_ascii kc = true) customer_claims.
Proof. split; repeat constructor; simpl; lia. Qed.

Lemma decodePortal_jwt_witness :
  decodePortalUser (jwt "eyJ9" customer_claims "c2ln") =
    Some {| id := JNum 5; phone := JStr "0812" |}.
Proof.
  apply (decodePortal_jwt "eyJ9" customer_claims "c2ln"); [reflexivity|discriminate|..].
  - exact (proj1 customer_claims_ok).
  - exact (proj2 customer_claims_ok).
  - vm_compute. done.
Defined.

End PortalLaws.
