(* ===== verification/ApiClient.v ===== *)
(** * The API clients and the token-refresh protocol
      ([web/src/lib/api/client.ts, portal-client.ts])

    Module [Client] is a state machine: the module-level variables [isRefreshing] and
    [failedQueue] of client.ts, the session of the auth store, and the requests that
    are on the wire.  One step is one task of the JavaScript event loop: the
    application sends a request, a response or an error arrives, the refresh call
    succeeds or fails, or the application changes the session.  Between two [await]s
    the code runs without interruption, so a handler is one function on states:
    [on_error] is the response interceptor up to its [await], [refresh_ok] and
    [refresh_failed] are what follows it.

    The wire ([inflight], [refreshes]) and three ghost fields ([settled], [hung],
    [started]) are the model's: they record what became of every request, so that the
    theorems can state that none is lost and that refreshes are bounded. *)
From S2P Require Import Prelude JsString JsValue Cookies AuthStore.

(** [rawBase.replace(/\/+$/, '')] followed by [/api/v1]. *)
Fixpoint drop_slashes (s : string) : string :=
  match s with
  | String "/" s' => drop_slashes s'
  | _ => s
  end.

Definition baseURL (VITE_API_URL : option string) : string :=
  let rawBase := VITE_API_URL ?? "http://localhost:8080" in
  String.rev (drop_slashes (String.rev rawBase)) +:+ "/api/v1".

Module Client.

(** The part of an axios request configuration the interceptors use. *)
Record request : Type := Req {
  rid : nat;
  url : option string;
  retry : bool;
}.

Inductive error : Type :=
| HttpError (status : option Z)
| NoRefreshToken
| RefreshError.

Inductive outcome : Type :=
| Resolved
| Rejected (e : error).

Record state : Type := St {
  session : browser * Auth.AuthState;
  isRefreshing : bool;
  failedQueue : list request;
  inflight : list (request * option jval);
  refreshes : list request;
  settled : list (request * outcome);
  hung : list request;
  issued : list nat;
  started : nat;
}.

Definition set_session f st := St (f (session st)) (isRefreshing st) (failedQueue st)
  (inflight st) (refreshes st) (settled st) (hung st) (issued st) (started st).
Definition set_refreshing b st := St (session st) b (failedQueue st)
  (inflight st) (refreshes st) (settled st) (hung st) (issued st) (started st).
Definition set_queue q st := St (session st) (isRefreshing st) q
  (inflight st) (refreshes st) (settled st) (hung st) (issued st) (started st).
Definition set_inflight l st := St (session st) (isRefreshing st) (failedQueue st)
  l (refreshes st) (settled st) (hung st) (issued st) (started st).
Definition set_refreshes l st := St (session st) (isRefreshing st) (failedQueue st)
  (inflight st) l (settled st) (hung st) (issued st) (started st).
Definition settle rs o st := St (session st) (isRefreshing st) (failedQueue st)
  (inflight st) (refreshes st) (((fun r => (r, o)) <$> rs) ++ settled st) (hung st) (issued st) (started st).
Definition hang rs st := St (session st) (isRefreshing st) (failedQueue st)
  (inflight st) (refreshes st) (settled st) (rs ++ hung st) (issued st) (started st).
Definition issue i st := St (session st) (isRefreshing st) (failedQueue st)
  (inflight st) (refreshes st) (settled st) (hung st) (i :: issued st) (started st).
Definition start_refresh r st := St (session st) (isRefreshing st) (failedQueue st)
  (inflight st) (r :: refreshes st) (settled st) (hung st) (issued st) (S (started st)).

(** The request interceptor: the [Authorization] header, when the session has a token. *)
Definition request_header (s : browser * Auth.AuthState) : option jval :=
  let token := Auth.accessToken s.2 in if truthy token then Some token else None.

(** [apiClient(config)]: the request goes out with the header of that moment. *)
Definition send (r : request) (st : state) : state :=
  set_inflight (inflight st ++ [(r, request_header (session st))]) st.

(** [processQueue(error, token)]: every waiting request is rejected, or sent again with
    the new token, or (no error and an empty token) left without an answer. *)
Definition processQueue (e : option error) (token : string) (st : state) : state :=
  let q := failedQueue st in
  set_queue []
    (match e with
     | Some e => settle q (Rejected e) st
     | None => if String.eqb token "" then hang q st
               else foldl (fun st r => send r st) st q
     end).

Definition mark_retry (r : request) : request := Req (rid r) (url r) true.

(** The [catch] block and the [finally] block after it. *)
Definition refresh_failed (r : request) (e : error) (st : state) : state :=
  set_refreshing false
    (settle [r] (Rejected e)
      (set_session (fun s => Auth.reset s.1 s.2) (processQueue (Some e) "" st))).

(** The rest of the [try] block, the refresh call having returned both tokens. *)
Definition refresh_ok (r : request) (access_token refresh_token : string) (st : state) : state :=
  let st := set_session (fun s => let s := Auth.setAccessToken access_token s.1 s.2 in
                                  Auth.setRefreshToken refresh_token s.1 s.2) st in
  set_refreshing false (processQueue None access_token (send r st)).

(** The error branch of the response interceptor, up to the call of [/auth/refresh]. *)
Definition on_error (r : request) (status : option Z) (st : state) : state :=
  if negb (bool_decide (status = Some 401)) || retry r ||
     (match url r with Some u => includes "/auth/refresh" u | None => false end)
  then settle [r] (Rejected (HttpError status)) st
  else if isRefreshing st then set_queue (failedQueue st ++ [r]) st
  else
    let r := mark_retry r in
    let st := set_refreshing true st in
    if String.eqb (Auth.refreshToken (session st).2) "" then refresh_failed r NoRefreshToken st
    else start_refresh r st.

(** ** Steps: one task of the event loop *)

Section Steps.
(** What the backend may answer as [access_token]. *)
Variable token_ok : string -> Prop.

Inductive step : state -> state -> Prop :=
| step_send st i u : i ∉ issued st -> step st (send (Req i u false) (issue i st))
| step_response st l1 r h l2 : inflight st = l1 ++ (r, h) :: l2 ->
    step st (settle [r] Resolved (set_inflight (l1 ++ l2) st))
| step_error st l1 r h l2 status : inflight st = l1 ++ (r, h) :: l2 ->
    step st (on_error r status (set_inflight (l1 ++ l2) st))
| step_refresh_ok st l1 r l2 access refresh : refreshes st = l1 ++ r :: l2 -> token_ok access ->
    step st (refresh_ok r access refresh (set_refreshes (l1 ++ l2) st))
| step_refresh_failed st l1 r l2 : refreshes st = l1 ++ r :: l2 ->
    step st (refresh_failed r RefreshError (set_refreshes (l1 ++ l2) st))
| step_session st a : step st (set_session (Auth.apply a) st).
End Steps.

Definition initial (st : state) : Prop :=
  exists s, st = St s false [] [] [] [] [] [] 0.

(** The requests the model knows of, in every place a request can be. *)
Definition places (st : state) : list request :=
  (inflight st).*1 ++ failedQueue st ++ refreshes st ++ (settled st).*1 ++ hung st.

(** A backend that keeps its contract answers no empty access token. *)
Definition nonempty (t : string) : Prop := t <> "".

End Client.

Module PortalClient.

Record state : Type := St {
  session : browser * Portal.PortalAuthState;
  redirecting : bool;
  redirects : list string;
}.

Definition request_header (st : state) : option string :=
  let token := Portal.customerToken (session st).2 in
  if String.eqb token "" then None else Some ("Bearer " +:+ token).

Definition on_error (status : option Z) (st : state) : state :=
  if bool_decide (status = Some 401) && negb (redirecting st) then
    St (Portal.reset (session st).1 (session st).2) true (redirects st ++ ["/portal/login"])
  else st.

End PortalClient.

(** ** Where the requests are *)

Module ClientLaws.
Import Client.

Definition ids (st : state) : list nat := rid <$> places st.

Lemma foldl_send q st :
  foldl (fun st r => send r st) st q =
  set_inflight (inflight st ++ ((fun r => (r, request_header (session st))) <$> q)) st.
Proof.
  revert st. induction q as [|r q IH]; intros st; cbn [foldl fmap list_fmap].
  - rewrite app_nil_r. by destruct st.
  - rewrite IH. unfold send. destruct st. cbn. by rewrite <- app_assoc.
Qed.

Lemma fst_sent (h : option jval) (q : list request) : ((fun r => (r, h)) <$> q).*1 = q.
Proof. induction q; cbn; f_equal; done. Qed.

Lemma fst_settled (o : outcome) (q : list request) : ((fun r => (r, o)) <$> q).*1 = q.
Proof. induction q; cbn; f_equal; done. Qed.

Ltac places_tac :=
  unfold ids, places; cbn;
  repeat (rewrite ?fmap_app, ?fst_sent, ?fst_settled; cbn); perm_nat.

Lemma ids_processQueue e t st : ids (processQueue e t st) ≡ₚ ids st.
Proof.
  unfold processQueue. destruct e as [e|]; [destruct st; places_tac|].
  destruct (String.eqb t ""); [destruct st; places_tac|].
  rewrite foldl_send. destruct st; places_tac.
Qed.

Lemma ids_refresh_failed r e st : ids (refresh_failed r e st) ≡ₚ rid r :: ids st.
Proof.
  rewrite <- (ids_processQueue (Some e) "" st). unfold refresh_failed. destruct st; places_tac.
Qed.

Lemma ids_refresh_ok r a t st : ids (refresh_ok r a t st) ≡ₚ rid r :: ids st.
Proof.
  unfold refresh_ok. unfold ids at 1.
  set (st1 := set_session _ st).
  assert (places (set_refreshing false (processQueue None a (send r st1))) =
    places (processQueue None a (send r st1))) as -> by done.
  fold (ids (processQueue None a (send r st1))). rewrite ids_processQueue.
  subst st1. destruct st; places_tac.
Qed.

Lemma ids_on_error r status st : ids (on_error r status st) ≡ₚ rid r :: ids st.
Proof.
  unfold on_error. destruct (negb _ || _ || _); [destruct st; places_tac|].
  destruct (isRefreshing st); [destruct st; places_tac|].
  destruct (String.eqb _ ""); [rewrite ids_refresh_failed|]; destruct st; places_tac.
Qed.

Lemma ids_take_inflight st l1 r h l2 : inflight st = l1 ++ (r, h) :: l2 ->
  ids st ≡ₚ rid r :: ids (set_inflight (l1 ++ l2) st).
Proof. destruct st. cbn. intros ->. places_tac. Qed.

Lemma ids_take_refresh st l1 r l2 : refreshes st = l1 ++ r :: l2 ->
  ids st ≡ₚ rid r :: ids (set_refreshes (l1 ++ l2) st).
Proof. destruct st. cbn. intros ->. places_tac. Qed.

Lemma issued_processQueue e t st : issued (processQueue e t st) = issued st.
Proof.
  unfold processQueue. destruct e, st; [done|]. cbn. case_match; [done|]. by rewrite foldl_send.
Qed.

Lemma issued_refresh_ok r a t st : issued (refresh_ok r a t st) = issued st.
Proof. etransitivity; [apply (issued_processQueue None a)|]. by destruct st. Qed.

Lemma issued_refresh_failed r e st : issued (refresh_failed r e st) = issued st.
Proof. etransitivity; [apply (issued_processQueue (Some e) "")|]. by destruct st. Qed.

Lemma issued_on_error r status st : issued (on_error r status st) = issued st.
Proof.
  unfold on_error. repeat case_match; rewrite ?issued_refresh_failed; by destruct st.
Qed.

(** Every issued request is in exactly one place. *)
Definition conserved (st : state) : Prop := NoDup (issued st) /\ ids st ≡ₚ issued st.

Lemma step_conserved ok st st' : conserved st -> step ok st st' -> conserved st'.
Proof.
  intros [Hn Hp] Hs. destruct Hs as [st i u Hi|st l1 r h l2 H|st l1 r h l2 s H|st l1 r l2 a t H _|st l1 r l2 H|st a].
  - split; [by apply NoDup_cons|]. cbn. rewrite <- Hp. destruct st; places_tac.
  - split; [done|]. cbn. rewrite <- Hp, (ids_take_inflight st) by done. destruct st; places_tac.
  - unfold conserved. rewrite ids_on_error, issued_on_error.
    split; [done|]. cbn. by rewrite <- Hp, (ids_take_inflight st) by done.
  - unfold conserved. rewrite ids_refresh_ok, issued_refresh_ok.
    split; [done|]. cbn. by rewrite <- Hp, (ids_take_refresh st) by done.
  - unfold conserved. rewrite ids_refresh_failed, issued_refresh_failed. split; [done|]. cbn. by rewrite <- Hp, (ids_take_refresh st) by done.
  - by destruct st.
Qed.

(** ** Single flight: the refresh in progress and the requests that wait for it *)

Definition single_flight (st : state) : Prop :=
  (isRefreshing st = true <-> length (refreshes st) = 1%nat) /\
  (length (refreshes st) <= 1)%nat /\
  (isRefreshing st = false -> failedQueue st = []).

Lemma queue_processQueue e t st : failedQueue (processQueue e t st) = [].
Proof. by unfold processQueue. Qed.

Lemma refreshes_processQueue e t st : refreshes (processQueue e t st) = refreshes st.
Proof.
  unfold processQueue. destruct e, st; [done|]. cbn. case_match; [done|]. by rewrite foldl_send.
Qed.

Lemma refreshes_refresh_ok r a t st : refreshes (refresh_ok r a t st) = refreshes st.
Proof. etransitivity; [apply (refreshes_processQueue None a)|]. by destruct st. Qed.

Lemma refreshes_refresh_failed r e st : refreshes (refresh_failed r e st) = refreshes st.
Proof. etransitivity; [apply (refreshes_processQueue (Some e) "")|]. by destruct st. Qed.

Lemma single_flight_idle st :
  refreshes st = [] -> isRefreshing st = false -> failedQueue st = [] -> single_flight st.
Proof. unfold single_flight. intros -> -> ->. cbn. split_and!; [split; intros; lia || done|lia|done]. Qed.

Lemma on_error_single_flight r status st : single_flight st -> single_flight (on_error r status st).
Proof.
  intros Hs. unfold on_error. destruct (negb _ || _ || _); [by destruct st|].
  destruct (isRefreshing st) eqn:E.
  - destruct Hs as (H1 & H2 & _). destruct st; cbn in *. subst. split_and!; done.
  - assert (refreshes st = []) as Hr.
    { destruct Hs as ([_ H1] & H2 & _). destruct (refreshes st) as [|x [|y l]]; cbn in *; [done| |lia].
      by rewrite H1 in E. }
    destruct Hs as (_ & _ & Hq). specialize (Hq E). case_match.
    + apply single_flight_idle; [|done|done]. rewrite refreshes_refresh_failed. by destruct st.
    + destruct st; cbn in *; subst. split_and!; cbn; [done|lia|done].
Qed.

Lemma step_single_flight ok st st' : single_flight st -> step ok st st' -> single_flight st'.
Proof.
  intros Hs Hstep.
  assert (forall l1 r l2, refreshes st = l1 ++ r :: l2 -> l1 ++ l2 = []) as Hone.
  { intros l1 r l2 H. destruct Hs as (_ & Hl & _). rewrite H, length_app in Hl. cbn in Hl.
    destruct l1, l2; cbn in *; done || lia. }
  destruct Hstep as [st i u Hi|st l1 r h l2 H|st l1 r h l2 s H|st l1 r l2 a t H _|st l1 r l2 H|st a].
  - by destruct st.
  - by destruct st.
  - apply on_error_single_flight. by destruct st.
  - apply single_flight_idle; [|done|done]. rewrite refreshes_refresh_ok. by eapply Hone.
  - apply single_flight_idle; [|done|done]. rewrite refreshes_refresh_failed. by eapply Hone.
  - by destruct st.
Qed.

(** ** Requests left without an answer *)

Lemma hung_processQueue e t st : t <> "" \/ e <> None -> hung (processQueue e t st) = hung st.
Proof.
  unfold processQueue. destruct e; [by destruct st|]. intros [Ht|]; [|done].
  destruct (String.eqb t "") eqn:E; b2p; [done|]. rewrite foldl_send. by destruct st.
Qed.

Lemma hung_refresh_ok r a t st : a <> "" -> hung (refresh_ok r a t st) = hung st.
Proof. intros Ha. etransitivity; [apply (hung_processQueue None a); auto|]. by destruct st. Qed.

Lemma hung_refresh_failed r e st : hung (refresh_failed r e st) = hung st.
Proof. etransitivity; [apply (hung_processQueue (Some e) ""); by right|]. by destruct st. Qed.

Lemma step_no_hang st st' : hung st = [] -> step nonempty st st' -> hung st' = [].
Proof.
  intros Hh Hs. destruct Hs as [st i u Hi|st l1 r h l2 H|st l1 r h l2 s H|st l1 r l2 a t H Ha|st l1 r l2 H|st a].
  - by destruct st.
  - by destruct st.
  - unfold on_error. repeat case_match; rewrite ?hung_refresh_failed; by destruct st.
  - rewrite hung_refresh_ok by done. by destruct st.
  - rewrite hung_refresh_failed. by destruct st.
  - by destruct st.
Qed.

(** ** Refreshes are bounded: each one marks a request that was not marked before *)

Fixpoint marks (l : list request) : nat :=
  match l with
  | [] => 0
  | r :: l' => ((if retry r then 1 else 0) + marks l')%nat
  end.

Lemma marks_app l m : marks (l ++ m) = (marks l + marks m)%nat.
Proof. induction l; cbn; lia. Qed.

Lemma marks_length l : (marks l <= length l)%nat.
Proof. induction l; cbn; [lia|case_match; lia]. Qed.

Ltac marks_tac :=
  unfold places in *; cbn in *;
  repeat (rewrite ?fmap_app, ?fst_sent, ?fst_settled, ?marks_app in *; cbn in *); lia.

Lemma marks_processQueue e t st : marks (places (processQueue e t st)) = marks (places st).
Proof.
  unfold processQueue. destruct e as [e|]; [destruct st; marks_tac|].
  destruct (String.eqb t ""); [destruct st; marks_tac|].
  rewrite foldl_send. destruct st; marks_tac.
Qed.

Lemma marks_refresh_failed r e st :
  marks (places (refresh_failed r e st)) = ((if retry r then 1 else 0) + marks (places st))%nat.
Proof.
  rewrite <- (marks_processQueue (Some e) "" st). unfold refresh_failed. destruct st; marks_tac.
Qed.

Lemma marks_refresh_ok r a t st :
  marks (places (refresh_ok r a t st)) = ((if retry r then 1 else 0) + marks (places st))%nat.
Proof.
  unfold refresh_ok. etransitivity; [apply (marks_processQueue None a)|]. destruct st; marks_tac.
Qed.

Lemma started_processQueue e t st : started (processQueue e t st) = started st.
Proof.
  unfold processQueue. destruct e, st; [done|]. cbn. case_match; [done|]. by rewrite foldl_send.
Qed.

Lemma started_refresh_failed r e st : started (refresh_failed r e st) = started st.
Proof. etransitivity; [apply (started_processQueue (Some e) "")|]. by destruct st. Qed.

Lemma started_refresh_ok r a t st : started (refresh_ok r a t st) = started st.
Proof. etransitivity; [apply (started_processQueue None a)|]. by destruct st. Qed.

Lemma on_error_marks r status st :
  (started st <= (if retry r then 1 else 0) + marks (places st))%nat ->
  (started (on_error r status st) <= marks (places (on_error r status st)))%nat.
Proof.
  intros H. unfold on_error. destruct (negb _ || _ || _) eqn:E; [destruct st; marks_tac|].
  destruct (isRefreshing st); [destruct st; marks_tac|].
  assert (retry r = false) as Hr by (by destruct (negb _), (retry r)). rewrite Hr in H.
  destruct (String.eqb _ "").
  - rewrite started_refresh_failed, marks_refresh_failed. destruct st; marks_tac.
  - destruct st; marks_tac.
Qed.

Lemma step_marks ok st st' :
  (started st <= marks (places st))%nat -> step ok st st' -> (started st' <= marks (places st'))%nat.
Proof.
  intros Hm Hs.
  assert (forall l1 r h l2, inflight st = l1 ++ (r, h) :: l2 -> marks (places st) =
    ((if retry r then 1 else 0) + marks (places (set_inflight (l1 ++ l2) st)))%nat) as Hi.
  { intros l1 r h l2. destruct st. cbn. intros ->. marks_tac. }
  assert (forall l1 r l2, refreshes st = l1 ++ r :: l2 -> marks (places st) =
    ((if retry r then 1 else 0) + marks (places (set_refreshes (l1 ++ l2) st)))%nat) as Hr.
  { intros l1 r l2. destruct st. cbn. intros ->. marks_tac. }
  destruct Hs as [st i u H|st l1 r h l2 H|st l1 r h l2 s H|st l1 r l2 a t H _|st l1 r l2 H|st a].
  - destruct st; marks_tac.
  - rewrite (Hi _ _ _ _ H) in Hm. destruct st; marks_tac.
  - apply on_error_marks. by rewrite (Hi _ _ _ _ H) in Hm.
  - rewrite started_refresh_ok, marks_refresh_ok. by rewrite (Hr _ _ _ H) in Hm.
  - rewrite started_refresh_failed, marks_refresh_failed. by rewrite (Hr _ _ _ H) in Hm.
  - by destruct st.
Qed.

(** ** Reachable states *)

Definition reached (ok : string -> Prop) (st : state) : Prop := reachable initial (step ok) st.

Lemma reached_conserved ok st : reached ok st -> conserved st.
Proof.
  apply reachable_invariant; [|intros; by eapply step_conserved].
  intros s [x ->]. split; [constructor|done].
Qed.

Lemma reached_marks ok st : reached ok st -> (started st <= marks (places st))%nat.
Proof.
  apply (reachable_invariant _ _ (fun st => (started st <= marks (places st))%nat));
    [by intros s [x ->]|apply step_marks].
Qed.

Lemma reached_single_flight ok st : reached ok st -> single_flight st.
Proof.
  apply reachable_invariant; [|apply step_single_flight].
  intros s [x ->]. by apply single_flight_idle.
Qed.

(** C1: the token refresh is single-flight.  In every reachable state at most one
    [/auth/refresh] call is on the wire, [isRefreshing] is true exactly while one is, and a
    request waits in [failedQueue] only while one is: no request waits for a refresh that
    is not running.  This holds whatever the backend answers and whatever the application
    does to the session meanwhile. *)
Theorem refresh_single_flight st :
  reached (fun _ => True) st ->
  (length (refreshes st) <= 1)%nat /\
  (isRefreshing st = true <-> length (refreshes st) = 1%nat) /\
  (failedQueue st <> [] -> length (refreshes st) = 1%nat).
Proof.
  intros (H1 & H2 & H3)%reached_single_flight. split_and!; [done|done|].
  intros Hq. apply H1. destruct (isRefreshing st); [done|]. by destruct Hq; apply H3.
Qed.

(** C2: no request is lost and none is answered twice.  With a backend whose refresh never
    returns an empty access token, every request the application issued is at any time in
    exactly one place: on the wire, in [failedQueue], leading the refresh, or settled; and
    when nothing is on the wire any more, every issued request has been settled. *)
Theorem no_request_lost st :
  reached nonempty st ->
  NoDup (issued st) /\
  rid <$> ((inflight st).*1 ++ failedQueue st ++ refreshes st ++ (settled st).*1) ≡ₚ issued st /\
  (inflight st = [] -> refreshes st = [] -> rid <$> (settled st).*1 ≡ₚ issued st).
Proof.
  intros Hr. pose proof (reached_conserved _ _ Hr) as [Hn Hp].
  assert (hung st = []) as Hh.
  { revert Hr. apply (reachable_invariant _ _ (fun st => hung st = []));
      [by intros s [x ->]|apply step_no_hang]. }
  pose proof (reached_single_flight _ _ Hr) as (H1 & _ & H3).
  unfold ids, places in Hp. rewrite Hh, app_nil_r in Hp. split_and!; [done|done|].
  intros Hi Hf. rewrite Hi, Hf in Hp. rewrite Hf in H1. rewrite <- Hp.
  rewrite H3; [done|]. destruct (isRefreshing st); [|done]. by destruct H1 as [H1 _]; specialize (H1 eq_refl).
Qed.

(** C33: the client cannot loop on refreshes: in every reachable state the number of
    [/auth/refresh] calls made so far is at most the number of requests the application
    issued, because each call marks one request [_retry] and a marked request that fails
    again is rejected. *)
Theorem refreshes_bounded st :
  reached (fun _ => True) st -> (started st <= length (issued st))%nat.
Proof.
  intros Hr. pose proof (reached_marks _ _ Hr) as Hm.
  pose proof (reached_conserved _ _ Hr) as [_ Hp].
  apply Permutation_length in Hp. unfold ids in Hp. rewrite length_fmap in Hp.
  pose proof (marks_length (places st)). lia.
Qed.

(** ** The two ends of a refresh *)

(** A successful refresh replays the leader and then every waiting request in arrival
    order, each with the new access token in its [Authorization] header; the session holds
    the new tokens (the user is kept), the queue is empty and the next 401 may refresh
    again. *)
Theorem refresh_ok_replays r t rt st :
  t <> "" ->
  let st' := refresh_ok r t rt st in
  inflight st' = inflight st ++ ((fun q => (q, Some (JStr t))) <$> r :: failedQueue st) /\
  failedQueue st' = [] /\ isRefreshing st' = false /\ settled st' = settled st /\
  Auth.accessToken (session st').2 = JStr t /\ Auth.refreshToken (session st').2 = rt /\
  Auth.user (session st').2 = Auth.user (session st).2.
Proof.
  intros Ht. cbn zeta. unfold refresh_ok, processQueue.
  destruct (String.eqb t "") eqn:E; b2p; [done|]. rewrite foldl_send.
  assert (truthy (JStr t) = true) as Htr by (cbn; by apply negb_true_iff, String.eqb_neq).
  destruct st as [[b a] ? ? ? ? ? ? ? ?]. cbn in *.
  unfold request_header. cbn. rewrite Htr. split_and!; try done.
  by rewrite <- app_assoc.
Qed.

(** A failed refresh (or a missing refresh token) rejects the leader and every waiting
    request with the same error, empties the queue, logs the session out, and leaves the
    client able to refresh again; requests on the wire are not touched. *)
Theorem refresh_failed_rejects r e st :
  let st' := refresh_failed r e st in
  settled st' = (r, Rejected e) :: ((fun q => (q, Rejected e)) <$> failedQueue st) ++ settled st /\
  failedQueue st' = [] /\ isRefreshing st' = false /\ inflight st' = inflight st /\
  session st' = Auth.reset (session st).1 (session st).2.
Proof. by destruct st. Qed.

(** When the backend answers a refresh with an empty access token, the requests waiting
    in [failedQueue] are dropped without being resolved or rejected: there is a reachable
    state in which nothing is on the wire, nothing waits, and an issued request was never
    settled. *)
Theorem empty_token_loses_requests :
  exists st, reached (fun _ => True) st /\
    inflight st = [] /\ refreshes st = [] /\ failedQueue st = [] /\
    exists i, i ∈ issued st /\ i ∉ rid <$> (settled st).*1.
Proof.
  set (s0 := (Browser [] {[Auth.REFRESH_TOKEN_KEY := "r"]}, Auth.AuthSt None (JStr "a") "r")).
  set (q1 := Req 1 (Some "/users") false). set (q2 := Req 2 (Some "/routers") false).
  set (st0 := St s0 false [] [] [] [] [] [] 0).
  set (st2 := send q2 (issue 2 (send q1 (issue 1 st0)))).
  set (st3 := on_error q1 (Some 401) (set_inflight [(q2, Some (JStr "a"))] st2)).
  set (st4 := on_error q2 (Some 401) (set_inflight [] st3)).
  set (st5 := refresh_ok (mark_retry q1) "" "r2" (set_refreshes [] st4)).
  set (st6 := settle [mark_retry q1] Resolved (set_inflight [] st5)).
  exists st6. split; [|split_and!; [reflexivity..|]].
  - exists st0. split; [by exists s0|].
    eapply rtc_l; [apply (step_send _ st0 1 (Some "/users")); by apply not_elem_of_nil|].
    eapply rtc_l; [apply (step_send _ _ 2 (Some "/routers")); cbn; set_solver|].
    eapply rtc_l; [by apply (step_error _ st2 [] q1 (Some (JStr "a")) [(q2, Some (JStr "a"))] (Some 401))|].
    eapply rtc_l; [by apply (step_error _ st3 [] q2 (Some (JStr "a")) [] (Some 401))|].
    eapply rtc_l; [by apply (step_refresh_ok _ st4 [] (mark_retry q1) [] "" "r2")|].
    eapply rtc_l; [by apply (step_response _ st5 [] (mark_retry q1) None [])|].
    apply rtc_refl.
  - exists 2%nat. split; cbn; set_solver.
Qed.

(** ** A concrete run: two requests meet a 401, the first leads the refresh *)

Definition demo_session : browser * Auth.AuthState :=
  (Browser [] {[Auth.REFRESH_TOKEN_KEY := "r"]}, Auth.AuthSt None (JStr "a") "r").
Definition demo_q1 : request := Req 1 (Some "/users") false.
Definition demo_q2 : request := Req 2 (Some "/routers") false.

Definition demo0 : state := St demo_session false [] [] [] [] [] [] 0.
Definition demo1 : state := send demo_q1 (issue 1 demo0).
Definition demo2 : state := send demo_q2 (issue 2 demo1).
Definition demo3 : state :=
  on_error demo_q1 (Some 401) (set_inflight [(demo_q2, Some (JStr "a"))] demo2).
Definition demo : state := on_error demo_q2 (Some 401) (set_inflight [] demo3).

Lemma demo_reached ok : reached ok demo.
Proof.
  assert (reached ok demo0) as H0 by (exists demo0; split; [by exists demo_session|apply rtc_refl]).
  assert (reached ok demo1) as H1.
  { eapply reachable_step; [exact H0|]. apply (step_send _ demo0 1 (Some "/users")).
    by apply not_elem_of_nil. }
  assert (reached ok demo2) as H2.
  { eapply reachable_step; [exact H1|]. apply (step_send _ demo1 2 (Some "/routers")).
    cbn. set_solver. }
  assert (reached ok demo3) as H3.
  { eapply reachable_step; [exact H2|].
    by apply (step_error _ demo2 [] demo_q1 (Some (JStr "a")) [(demo_q2, Some (JStr "a"))] (Some 401)). }
  eapply reachable_step; [exact H3|].
  by apply (step_error _ demo3 [] demo_q2 (Some (JStr "a")) [] (Some 401)).
Qed.

Lemma refresh_single_flight_witness :
  failedQueue demo = [demo_q2] /\ length (refreshes demo) = 1%nat.
Proof.
  split; [reflexivity|].
  apply (proj2 (proj2 (refresh_single_flight demo (demo_reached _)))). discriminate.
Defined.

Lemma no_request_lost_witness :
  rid <$> ((inflight demo).*1 ++ failedQueue demo ++ refreshes demo ++ (settled demo).*1) ≡ₚ [2; 1]%nat.
Proof. exact (proj1 (proj2 (no_request_lost demo (demo_reached _)))). Defined.

Lemma refreshes_bounded_witness : started demo = 1%nat /\ (started demo <= 2)%nat.
Proof. split; [reflexivity|]. exact (refreshes_bounded demo (demo_reached _)). Defined.

Lemma refresh_ok_replays_witness :
  inflight (refresh_ok (mark_retry demo_q1) "new" "r2" (set_refreshes [] demo)) =
  [(mark_retry demo_q1, Some (JStr "new")); (demo_q2, Some (JStr "new"))].
Proof.
  exact (proj1 (refresh_ok_replays (mark_retry demo_q1) "new" "r2" (set_refreshes [] demo)
    ltac:(discriminate))).
Defined.
End ClientLaws.

(** ** The portal client *)

Module PortalClientLaws.
Import PortalClient.

Lemma on_error_redirecting r st : redirecting st = true -> on_error r st = st.
Proof. unfold on_error. intros ->. by rewrite andb_false_r. Qed.

Lemma on_error_other r st : r <> Some 401 -> on_error r st = st.
Proof. intros Hr. unfold on_error. by rewrite bool_decide_false by done. Qed.

Lemma foldl_redirecting l st :
  redirecting st = true -> foldl (fun st r => on_error r st) st l = st.
Proof.
  intros Hst. induction l as [|r l IH]; [done|]. cbn [foldl].
  by rewrite on_error_redirecting.
Qed.

(** Over any sequence of responses the portal client redirects to the login page at
    most once, and it does so exactly when one of them is a 401; from then on the customer
    token is gone from the store and from [localStorage], so no later request carries it. *)
Theorem portal_redirects_once s (l : list (option Z)) :
  let st := foldl (fun st r => on_error r st) (St s false []) l in
  if bool_decide (Some 401 ∈ l)
  then redirects st = ["/portal/login"] /\ request_header st = None /\
       localStorage (session st).1 !! Portal.PORTAL_TOKEN_KEY = None
  else st = St s false [].
Proof.
  cbn zeta. induction l as [|r l IH]; [done|]. cbn [foldl].
  destruct (decide (r = Some 401)) as [->|Hr].
  - rewrite bool_decide_true by (by left).
    rewrite foldl_redirecting by done. destruct s as [b a]. split_and!; [done..|].
    apply lookup_delete_eq.
  - rewrite on_error_other by done.
    rewrite (bool_decide_ext (Some 401 ∈ r :: l) (Some 401 ∈ l)); [done|].
    rewrite elem_of_cons. split; [intros [?|?]; [congruence|done]|by right].
Qed.
End PortalClientLaws.
