(* ===== verification/Sse.v ===== *)
(** * Server-sent events ([web/src/lib/api/sse.ts]) and the live-stream hooks

    [useSSE] is modelled for one run of its effect, from the mount (or a change of
    [path]) to the clean-up function: the closure variables [cancelled], [attempt],
    [es], [reconnectTimer], the React state [status] and [error], and the two things
    the browser keeps for it, the event sources that are not closed ([live]) and the
    timers that are pending ([timers]).  A step is one browser event.  Frames reach
    [onEvent] through [handle]: JSON text that does not parse is dropped. *)
From S2P Require Import Prelude JsString JsValue ApiClient.

Inductive SSEStatus : Type := idle | connecting | open_ | closed.

#[export] Instance SSEStatus_eq_dec : EqDecision SSEStatus.
Proof. solve_decision. Defined.

(** ** The URL of a connection *)

Definition sse_token (getToken : option string) (accessToken : string) : string :=
  getToken ?? accessToken.

Definition sse_url (VITE_API_URL : option string) (path token : string) : string :=
  let sep := if includes "?" path then "&" else "?" in
  baseURL VITE_API_URL +:+ path +:+ sep +:+ "access_token=" +:+ encodeURIComponent token.

(** ** The effect *)

Record state : Type := St {
  status : SSEStatus;
  error : option string;
  cancelled : bool;
  attempt : nat;
  es : option nat;
  reconnectTimer : option nat;
  live : list nat;
  timers : list (nat * Z);
  next : nat;
  calls : list jval;
}.

Definition set_status s st := St s (error st) (cancelled st) (attempt st) (es st)
  (reconnectTimer st) (live st) (timers st) (next st) (calls st).
Definition set_error e st := St (status st) e (cancelled st) (attempt st) (es st)
  (reconnectTimer st) (live st) (timers st) (next st) (calls st).
Definition set_cancelled c st := St (status st) (error st) c (attempt st) (es st)
  (reconnectTimer st) (live st) (timers st) (next st) (calls st).
Definition set_attempt n st := St (status st) (error st) (cancelled st) n (es st)
  (reconnectTimer st) (live st) (timers st) (next st) (calls st).
Definition emit l st := St (status st) (error st) (cancelled st) (attempt st) (es st)
  (reconnectTimer st) (live st) (timers st) (next st) (calls st ++ l).

(** [es = new EventSource(url)], [es?.close(); es = null]. *)
Definition new_source st := St (status st) (error st) (cancelled st) (attempt st) (Some (next st))
  (reconnectTimer st) (next st :: live st) (timers st) (S (next st)) (calls st).
Definition close_source st := St (status st) (error st) (cancelled st) (attempt st) None
  (reconnectTimer st)
  (match es st with Some e => filter (fun x => x <> e) (live st) | None => live st end)
  (timers st) (next st) (calls st).

(** [reconnectTimer = setTimeout(connect, delay)], [clearTimeout(reconnectTimer)]. *)
Definition set_timeout d st := St (status st) (error st) (cancelled st) (attempt st) (es st)
  (Some (next st)) (live st) ((next st, d) :: timers st) (S (next st)) (calls st).
Definition clear_timeout st := St (status st) (error st) (cancelled st) (attempt st) (es st)
  (reconnectTimer st) (live st)
  (match reconnectTimer st with
   | Some t => filter (fun x => x.1 <> t) (timers st) | None => timers st end)
  (next st) (calls st).
Definition drop_timer t st := St (status st) (error st) (cancelled st) (attempt st) (es st)
  (reconnectTimer st) (live st) (filter (fun x => x.1 <> t) (timers st)) (next st) (calls st).

Definition connect (st : state) : state :=
  if cancelled st then st else new_source (set_status connecting st).

Definition onopen (st : state) : state :=
  if cancelled st then st
  else set_error None (set_status open_ (set_attempt 0 st)).

(** [handle]: one call of [onEvent] per well-formed frame. *)
Definition handle (data : string) (st : state) : state :=
  if cancelled st then st
  else match json_parse data with
       | Some parsed => emit [parsed] st
       | None => st
       end.

Definition reconnect_delay (attempt : nat) (maxBackoffMs : Z) : Z :=
  Z.min (1000 * 2 ^ Z.of_nat attempt) maxBackoffMs.

Definition onerror (maxBackoffMs : Z) (st : state) : state :=
  if cancelled st then st
  else
    let st := set_error (Some "SSE connection lost") (set_status closed (close_source st)) in
    let delay := reconnect_delay (attempt st) maxBackoffMs in
    set_timeout delay (set_attempt (S (attempt st)) st).

Definition cleanup (st : state) : state :=
  close_source (clear_timeout (set_cancelled true st)).

(** The start of the effect: no URL parks the hook, otherwise it connects. *)
Definition mounted (path : option string) (st : state) : option state :=
  match path with
  | None | Some "" => None
  | Some _ => Some (connect (St (status st) (error st) false 0 None None [] [] (next st) (calls st)))
  end.

Definition parked (st : state) : state := set_error None (set_status idle st).

(** The listeners a frame named [name] is given to: [onmessage], and the listener of
    each declared name (a name declared twice is one listener). *)
Definition listeners (events : list string) (name : string) : nat :=
  ((if String.eqb name "message" then 1 else 0) +
   (if bool_decide (name ∈ events) then 1 else 0))%nat.

Definition on_frame (events : list string) (name data : string) (st : state) : state :=
  Nat.iter (listeners events name) (handle data) st.

Section Steps.
Variable events : list string.
Variable maxBackoffMs : Z.

Inductive step : state -> state -> Prop :=
| s_open st e : e ∈ live st -> step st (onopen st)
| s_frame st e name data : e ∈ live st -> step st (on_frame events name data st)
| s_error st e : e ∈ live st -> step st (onerror maxBackoffMs st)
| s_timer st t d : (t, d) ∈ timers st -> step st (connect (drop_timer t st))
| s_cleanup st : cancelled st = false -> step st (cleanup st).

Definition started_from (st : state) : Prop :=
  exists p st0, p <> "" /\ mounted (Some p) st0 = Some st.

Definition reached (st : state) : Prop := reachable started_from step st.

(** ** The connection invariant *)

Definition wf (st : state) : Prop :=
  if cancelled st then live st = [] /\ timers st = [] /\ es st = None
  else (exists e, es st = Some e /\ live st = [e] /\ timers st = [] /\ (e < next st)%nat /\
          (status st = connecting \/ status st = open_)) \/
       (exists t, es st = None /\ live st = [] /\
          timers st = [(t, reconnect_delay (pred (attempt st)) maxBackoffMs)] /\
          reconnectTimer st = Some t /\ (0 < attempt st)%nat /\ status st = closed).
End Steps.

(** ** Streams of the client and the event names the backend gives their frames *)

Inductive stream : Type :=
| HotspotUsers
| HotspotActive
| PPPActive
| LogStream
| InterfaceStats
| QueueParentStats
| QueueStats
| InterfaceTraffic (iface : string).

(** The [path] each hook passes to [useSSE]; [None] parks it. *)
Definition stream_path (routerId : Z) (s : stream) : option string :=
  let dev := "/devices/" +:+ Z_to_string routerId in
  match s with
  | HotspotUsers => if 0 <? routerId then Some (dev +:+ "/stream/hotspot/users") else None
  | HotspotActive => if 0 <? routerId then Some (dev +:+ "/stream/hotspot/active") else None
  | PPPActive => if 0 <? routerId then Some (dev +:+ "/stream/ppp/active") else None
  | LogStream => if 0 <? routerId then Some (dev +:+ "/stream/log") else None
  | InterfaceStats => if 0 <? routerId
      then Some (dev +:+ "/stream/network/interfaces/stats?interval=1s&type=ether") else None
  | QueueParentStats => if 0 <? routerId
      then Some (dev +:+ "/stream/network/queues/parents/stats?interval=1s") else None
  | QueueStats => if 0 <? routerId
      then Some (dev +:+ "/stream/network/queues/stats?interval=1s") else None
  | InterfaceTraffic iface =>
      if (0 <? routerId) && (0 <? Z.of_nat (String.length iface))
      then Some (dev +:+ "/stream/network/interfaces/" +:+ iface +:+ "/traffic") else None
  end.

(** The [events] option each hook passes. *)
Definition declared_events (s : stream) : list string :=
  match s with
  | HotspotUsers | HotspotActive | PPPActive => []
  | LogStream => ["log"]
  | InterfaceStats | QueueParentStats | QueueStats => ["stats"]
  | InterfaceTraffic _ => ["traffic"]
  end.

(** The [event:] field the backend writes ([sse.Event.Type]). *)
Definition backend_event (s : stream) : string :=
  match s with
  | HotspotUsers | HotspotActive | PPPActive => "change"
  | LogStream => "log"
  | InterfaceStats | QueueParentStats | QueueStats => "stats"
  | InterfaceTraffic _ => "traffic"
  end.

(** ** Proofs *)

Lemma filter_self (e : nat) : filter (fun x => x <> e) [e] = [].
Proof. rewrite filter_cons_False by tauto. apply filter_nil. Qed.

Lemma filter_self_timer (t : nat) (d : Z) : filter (fun x => x.1 <> t) [(t, d)] = [].
Proof. rewrite filter_cons_False by (cbn; tauto). apply filter_nil. Qed.

Section Laws.
Variable events : list string.
Variable maxBackoffMs : Z.

Lemma handle_same data st :
  status (handle data st) = status st /\ es (handle data st) = es st /\
  live (handle data st) = live st /\ timers (handle data st) = timers st /\
  cancelled (handle data st) = cancelled st /\ attempt (handle data st) = attempt st /\
  reconnectTimer (handle data st) = reconnectTimer st /\ next (handle data st) = next st.
Proof. unfold handle. by repeat case_match. Qed.

Lemma handle_wf data st : wf maxBackoffMs st -> wf maxBackoffMs (handle data st).
Proof.
  destruct (handle_same data st) as (H1 & H2 & H3 & H4 & H5 & H6 & H7 & H8).
  unfold wf. by rewrite H1, H2, H3, H4, H5, H6, H7, H8.
Qed.

Lemma connect_wf st :
  cancelled st = false -> live st = [] -> timers st = [] -> wf maxBackoffMs (connect st).
Proof.
  intros Hc Hl Ht. unfold connect, wf. rewrite Hc. destruct st; cbn in *; subst.
  left. eexists. split_and!; auto.
Qed.

Lemma onerror_wf st : cancelled st = false -> timers st = [] ->
  (exists e, es st = Some e /\ live st = [e]) -> wf maxBackoffMs (onerror maxBackoffMs st).
Proof.
  intros Hc Ht (e & He & Hl). unfold onerror. rewrite Hc. unfold wf.
  destruct st; cbn -[filter] in *; subst. rewrite filter_self.
  right. eexists. split_and!; [reflexivity..|lia|done].
Qed.

Lemma cleanup_wf st : cancelled st = false -> wf maxBackoffMs st -> wf maxBackoffMs (cleanup st).
Proof.
  unfold wf. intros Hc. rewrite Hc. destruct st; cbn -[filter] in *; subst.
  intros [(e & -> & -> & -> & _)|(t & -> & -> & -> & -> & _)]; cbn -[filter].
  - rewrite filter_self. by repeat case_match.
  - by rewrite filter_self_timer.
Qed.

Lemma step_wf st st' : wf maxBackoffMs st -> step events maxBackoffMs st st' -> wf maxBackoffMs st'.
Proof.
  intros Hw Hs. destruct Hs as [st e He|st e name data He|st e He|st t d Ht|st Hc].
  - unfold onopen. unfold wf in *. destruct (cancelled st) eqn:Hc; [by rewrite Hc|].
    destruct Hw as [(e' & H1 & H2 & H3 & H4 & _)|(t & _ & H2 & _)].
    + destruct st; cbn in *; subst. left. eexists. split_and!; auto.
    + rewrite H2 in He. by apply not_elem_of_nil in He.
  - unfold on_frame. induction (listeners events name); [done|]. by apply handle_wf.
  - unfold wf in Hw. destruct (cancelled st) eqn:Hc.
    + destruct Hw as (H & _). rewrite H in He. by apply not_elem_of_nil in He.
    + destruct Hw as [(e' & H1 & H2 & H3 & _)|(t & _ & H2 & _)].
      * apply onerror_wf; eauto.
      * rewrite H2 in He. by apply not_elem_of_nil in He.
  - unfold wf in Hw. destruct (cancelled st) eqn:Hc.
    + destruct Hw as (_ & H & _). rewrite H in Ht. by apply not_elem_of_nil in Ht.
    + destruct Hw as [(e' & _ & _ & H3 & _)|(t' & _ & H2 & H3 & _)].
      * rewrite H3 in Ht. by apply not_elem_of_nil in Ht.
      * rewrite H3 in Ht. apply list_elem_of_singleton in Ht. injection Ht as -> ->.
        apply connect_wf; [by destruct st|by destruct st|].
        destruct st; cbn -[filter] in *; subst. by rewrite filter_self_timer.
  - by apply cleanup_wf.
Qed.

Lemma reached_wf st : reached events maxBackoffMs st -> wf maxBackoffMs st.
Proof.
  apply reachable_invariant; [|apply step_wf].
  intros s (p & st0 & Hp & Hm). unfold mounted in Hm.
  destruct p; [done|]. injection Hm as <-. by apply connect_wf.
Qed.

(** C6: the hook holds at most one connection, and reconnecting never stops.  In every
    reachable state before the clean-up exactly one of two things is pending: one open
    event source (status connecting or open), or one reconnect timer (status closed).
    After the clean-up neither is, and no browser event can reach the hook any more. *)
Theorem sse_one_connection st :
  reached events maxBackoffMs st ->
  if cancelled st
  then live st = [] /\ timers st = [] /\ forall st', ~ step events maxBackoffMs st st'
  else (length (live st) + length (timers st) = 1)%nat /\
       (status st = closed <-> live st = []) /\
       (status st <> closed -> status st = connecting \/ status st = open_).
Proof.
  intros Hw%reached_wf. unfold wf in Hw. destruct (cancelled st) eqn:Hc.
  - destruct Hw as (Hl & Ht & _). split_and!; [done..|]. intros st' Hs.
    destruct Hs as [st e He|st e name data He|st e He|st t d H|st H];
      [rewrite Hl in *|rewrite Hl in *|rewrite Hl in *|rewrite Ht in *|congruence];
      by eapply not_elem_of_nil.
  - destruct Hw as [(e & _ & -> & -> & _ & Hs)|(t & _ & -> & -> & _ & _ & ->)]; cbn.
    + split_and!; [done| |tauto]. split; [|done]. destruct Hs as [H|H]; rewrite H; done.
    + split_and!; [done|done|]. done.
Qed.

(** The reconnect delay is the capped exponential backoff: a pending timer waits
    [min(1000 * 2^k, maxBackoffMs)] milliseconds, where [k + 1] is the number of failures
    since the connection was last open; the delay is never above [maxBackoffMs] and, for
    a cap of at least one second, never below one second. *)
Theorem reconnect_backoff st t d :
  reached events maxBackoffMs st -> (t, d) ∈ timers st ->
  (0 < attempt st)%nat /\
  d = Z.min (1000 * 2 ^ Z.of_nat (attempt st - 1)) maxBackoffMs /\
  d <= maxBackoffMs /\ (1000 <= maxBackoffMs -> 1000 <= d).
Proof.
  intros Hw%reached_wf Hin. unfold wf in Hw. destruct (cancelled st).
  - destruct Hw as (_ & H & _). rewrite H in Hin. by apply not_elem_of_nil in Hin.
  - destruct Hw as [(e & _ & _ & H & _)|(t' & _ & _ & H & _ & Ha & _)]; rewrite H in Hin.
    + by apply not_elem_of_nil in Hin.
    + apply list_elem_of_singleton in Hin. injection Hin as -> ->.
      unfold reconnect_delay. rewrite <- Nat.sub_1_r.
      pose proof (Z.pow_pos_nonneg 2 (Z.of_nat (attempt st - 1))). split_and!; lia.
Qed.
End Laws.

Lemma listeners_streams s :
  listeners (declared_events s) (backend_event s) =
  match s with HotspotUsers | HotspotActive | PPPActive => 0%nat | _ => 1%nat end.
Proof. by destruct s. Qed.

(** C20: the live log, traffic and statistics hooks get every well-formed frame of their
    stream exactly once, but the hooks of the hotspot-user, hotspot-active and PPP-active
    streams get none: the backend names those frames ["change"], the hooks declare no
    named event, and an undeclared name is not given to [onmessage].  The lists these
    hooks mean to refresh on every event are never refreshed by the stream. *)
Theorem stream_delivery s data v st :
  cancelled st = false -> json_parse data = Some v ->
  calls (on_frame (declared_events s) (backend_event s) data st) =
  calls st ++ match s with HotspotUsers | HotspotActive | PPPActive => [] | _ => [v] end.
Proof.
  intros Hc Hp. unfold on_frame. rewrite listeners_streams.
  destruct s; cbn; rewrite ?app_nil_r; try done; unfold handle; by rewrite Hc, Hp.
Qed.

(** ** Concrete runs *)

Definition blank : state := St idle None false 0 None None [] [] 0 [].
Definition demo_open : state := connect blank.
Definition demo_failed : state := onerror 30000 demo_open.

Lemma demo_open_reached : reached [] 30000 demo_open.
Proof. exists demo_open. split; [by exists "/devices/1/stream/log", blank|apply rtc_refl]. Qed.

Lemma demo_failed_reached : reached [] 30000 demo_failed.
Proof.
  eapply reachable_step; [apply demo_open_reached|].
  apply (s_error [] 30000 demo_open 0). by left.
Qed.

Lemma sse_one_connection_witness :
  (length (live demo_failed) + length (timers demo_failed) = 1)%nat.
Proof. exact (proj1 (sse_one_connection [] 30000 demo_failed demo_failed_reached)). Defined.

Lemma reconnect_backoff_witness : timers demo_failed = [(1%nat, 1000)] /\ 1000 <= 30000.
Proof.
  split; [reflexivity|].
  exact (proj1 (proj2 (proj2 (reconnect_backoff [] 30000 demo_failed 1%nat 1000
    demo_failed_reached ltac:(by left))))).
Defined.

Lemma stream_delivery_witness :
  calls (on_frame (declared_events HotspotUsers) (backend_event HotspotUsers) "{}" demo_open) = [] /\
  calls (on_frame (declared_events LogStream) (backend_event LogStream) "{}" demo_open) = [JObj []].
Proof.
  split.
  - exact (stream_delivery HotspotUsers "{}" (JObj []) demo_open eq_refl eq_refl).
  - exact (stream_delivery LogStream "{}" (JObj []) demo_open eq_refl eq_refl).
Defined.
