(* ===== verification/ApiErrors.v ===== *)
(** * Response envelopes and errors ([web/src/lib/api/{types,unwrap,errors}.ts],
    [web/src/lib/handle-server-error.ts])

    What a failed call throws is a [jserror]: an error of axios, with the response body
    when the server answered, another [Error], or any other thrown value.  The three
    readers of [errors.ts], the toast of [handleServerError] and [unwrap] are the
    functions below; [jval]s stand for the untyped bodies. *)
From S2P Require Import Prelude JsString JsValue JsNumber.

Inductive jserror : Type :=
| AxiosErr (message : string) (response_data : option jval) (status : option Z)
| NativeErr (message : string)
| OtherErr (v : jval).

Definition isAxiosError (e : jserror) : bool :=
  match e with AxiosErr _ _ _ => true | _ => false end.

(** [error.response?.data as Envelope | undefined]. *)
Definition envelope (e : jserror) : jval :=
  match e with AxiosErr _ (Some d) _ => d | _ => JUndef end.

Definition parseAPIError (e : jserror) : jval :=
  let env_message := get "message" (get "error" (envelope e)) in
  match e with
  | AxiosErr message _ _ =>
      if truthy env_message then env_message else JStr message
  | NativeErr message => JStr message
  | OtherErr _ => JStr "Unknown error"
  end.

Definition getAPIErrorCode (e : jserror) : jval :=
  if isAxiosError e then get "code" (get "error" (envelope e)) else JUndef.

Definition getAPIErrorDetails (e : jserror) : jval :=
  if isAxiosError e then get "details" (get "error" (envelope e)) else JUndef.

(** [unwrap]: an envelope with null or missing [data] throws its error message. *)
Definition unwrap (env : jval) : result jval jval :=
  match get "data" env with
  | JUndef | JNull =>
      Throw (match get "message" (get "error" env) with
             | JUndef | JNull => JStr "Empty response payload"
             | m => m
             end)
  | d => Ok d
  end.

(** [typeof v === 'string' && v.length > 0]. *)
Definition nonempty_string (v : jval) : option string :=
  match v with
  | JStr s => if String.eqb s "" then None else Some s
  | _ => None
  end.

(** ['status' in error && Number(error.status) === 204]. *)
Definition status_204 (e : jserror) : bool :=
  match e with
  | AxiosErr _ _ (Some s) => s =? 204
  | OtherErr (JObj fs) =>
      match Number (field "status" fs) with
      | Some q => bool_decide (q = Qc_of 204)
      | None => false
      end
  | _ => false
  end.

(** The text of the toast. *)
Definition handleServerError (e : jserror) : string :=
  let errMsg := if status_204 e then "No content." else "Something went wrong!" in
  match e with
  | AxiosErr message _ _ =>
      match nonempty_string (get "message" (get "error" (envelope e))) with
      | Some m => m
      | None =>
          match nonempty_string (get "title" (envelope e)) with
          | Some t => t
          | None => if String.eqb message "" then errMsg else message
          end
      end
  | _ => errMsg
  end.

(** ** The envelopes the backend writes *)

Definition ok_envelope (data : jval) : jval := JObj [("data", data); ("error", JNull)].

Definition error_envelope (code message : string) (details : option jval) : jval :=
  JObj [("data", JNull);
        ("error", JObj ([("code", JStr code); ("message", JStr message)] ++
                        match details with Some d => [("details", d)] | None => [] end))].

(** A backend failure is read the same way everywhere: the message, the code and the
    details come out of the envelope unchanged, whatever axios itself says, and the
    toast shows the same message as the inline error text. *)
Theorem error_envelope_read axios_message code message details status :
  message <> "" ->
  let e := AxiosErr axios_message (Some (error_envelope code message details)) status in
  parseAPIError e = JStr message /\ handleServerError e = message /\
  getAPIErrorCode e = JStr code /\
  getAPIErrorDetails e = details ?? JUndef.
Proof.
  intros Hm e. subst e. unfold parseAPIError, handleServerError, getAPIErrorCode, getAPIErrorDetails.
  destruct details as [d|]; cbn;
    apply String.eqb_neq in Hm; rewrite ?Hm; cbn; rewrite ?Hm; split_and!; try done.
Qed.

Lemma error_envelope_read_witness :
  parseAPIError (AxiosErr "Request failed with status code 409"
    (Some (error_envelope "conflict" "name already used" None)) (Some 409)) = JStr "name already used".
Proof.
  exact (proj1 (error_envelope_read "Request failed with status code 409" "conflict"
    "name already used" None (Some 409) ltac:(done))).
Defined.

(** The two readers of a failure agree: for every axios error whose body carries a
    string message or none, and no [title], the toast text is the inline text, except
    that an empty text is replaced by a fixed phrase; other errors get the fixed phrase. *)
Theorem toast_agrees e :
  (forall m, get "message" (get "error" (envelope e)) = m -> truthy m = true ->
     exists s, m = JStr s) ->
  nonempty_string (get "title" (envelope e)) = None ->
  JStr (handleServerError e) =
  if isAxiosError e && truthy (parseAPIError e) then parseAPIError e
  else JStr (if status_204 e then "No content." else "Something went wrong!").
Proof.
  intros Hm Ht. destruct e as [msg d st|msg|v]; [|done..].
  specialize (Hm _ eq_refl). unfold handleServerError, parseAPIError. rewrite Ht.
  cbn [isAxiosError andb]. set (m := get "message" (get "error" (envelope _))) in *.
  destruct (truthy m) eqn:Hr.
  - destruct (Hm eq_refl) as [s ->]. rewrite Hr. cbn in *. b2p. by rewrite (proj2 (String.eqb_neq _ _) Hr).
  - assert (nonempty_string m = None) as ->.
    { destruct m; try done. cbn in *. b2p. by rewrite Hr. }
    cbn. by destruct (String.eqb msg "").
Qed.

Lemma toast_agrees_witness :
  handleServerError (AxiosErr "Network Error" None None) = "Network Error".
Proof.
  enough (JStr (handleServerError (AxiosErr "Network Error" None None)) = JStr "Network Error")
    by congruence.
  refine (eq_trans (toast_agrees (AxiosErr "Network Error" None None) _ eq_refl) eq_refl).
  intros m <- H. discriminate H.
Defined.

(** [unwrap] gives back the payload of every success envelope, and throws, with the
    backend's message or the generic one, exactly when the payload is null or missing;
    what it returns is never null. *)
Theorem unwrap_spec env :
  match unwrap env with
  | Ok d => get "data" env = d /\ d <> JNull /\ d <> JUndef
  | Throw m => (get "data" env = JNull \/ get "data" env = JUndef) /\
      (m = get "message" (get "error" env) \/
       m = JStr "Empty response payload" /\
       (get "message" (get "error" env) = JNull \/ get "message" (get "error" env) = JUndef)) /\
      m <> JNull /\ m <> JUndef
  end.
Proof.
  unfold unwrap. destruct (get "data" env) eqn:E; try done;
    destruct (get "message" (get "error" env)) eqn:E'; split_and!; auto.
Qed.
