(* ===== verification/Http.v ===== *)
(** * Requests of the service modules ([web/src/features/*/api/service.ts])

    A service function builds one request and reads its response.  [call] is that pair:
    the request as it is handed to axios, and the reader of the response body
    ([unwrap(res.data)] and what follows it), which may throw.  A URL is kept as the
    template literal that builds it: [Lit] segments are written in the template, [Var]
    segments are interpolated.  Axios itself, which joins the URL to [baseURL] and
    serialises [params] and the body, is not modelled. *)
From S2P Require Import Prelude JsString JsValue ApiErrors.

Inductive method : Type := GET | POST | PUT | PATCH | DELETE.

#[export] Instance method_eq_dec : EqDecision method.
Proof. solve_decision. Defined.

(** The axios instance a function calls: [apiClient], [portalApiClient], or one of the
    bare instances of the public pages, which send no token. *)
Inductive client : Type := Api | PortalApi | PublicApi.

Inductive seg : Type :=
| Lit (s : string)
| Var (s : string).

Definition seg_text (g : seg) : string := match g with Lit s | Var s => s end.

Abbreviation path := (list seg).

(** The URL text a template produces. *)
Fixpoint url (p : path) : string :=
  match p with
  | [] => ""
  | g :: p' => "/" +:+ seg_text g +:+ url p'
  end.

(** [${id}] for a number, [${encodeURIComponent(id)}] for a string. *)
Definition num (n : Z) : seg := Var (Z_to_string n).
Definition enc (s : string) : seg := Var (encodeURIComponent s).

Record request : Type := Req {
  r_client : client;
  r_method : method;
  r_path : path;
  r_params : jval;
  r_body : jval;
}.

(** What the reader of a response may throw: an [Error] of [unwrap], or the [TypeError]
    of a property or method the payload does not have. *)
Record call : Type := Call {
  c_req : request;
  c_read : jval -> result jval jval;
}.

(** [return unwrap(res.data)], [return unwrap(res.data).k], no reader, [return res.data]. *)
Definition unwrapped : jval -> result jval jval := unwrap.
Definition unwrap_field (k : string) (body : jval) : result jval jval :=
  v ← unwrap body; Ok (get k v).
Definition ignored (_ : jval) : result jval jval := Ok JUndef.
Definition raw (body : jval) : result jval jval := Ok body.

(** [JSON] arguments the services build. *)
Definition opt_str (o : option string) : jval := match o with Some s => JStr s | None => JUndef end.
Definition obj (fs : list (string * jval)) : jval := JObj fs.

(** [x ? { k: x } : undefined] for an optional string. *)
Definition params_if (k : string) (o : option string) : jval :=
  match o with
  | Some s => if String.eqb s "" then JUndef else obj [(k, JStr s)]
  | None => JUndef
  end.

Definition api_get (p : path) (params : jval) (rd : jval -> result jval jval) : call :=
  Call (Req Api GET p params JUndef) rd.
Definition api_post (p : path) (body : jval) (rd : jval -> result jval jval) : call :=
  Call (Req Api POST p JUndef body) rd.
Definition api_put (p : path) (body : jval) (rd : jval -> result jval jval) : call :=
  Call (Req Api PUT p JUndef body) rd.
Definition api_patch (p : path) (body : jval) (rd : jval -> result jval jval) : call :=
  Call (Req Api PATCH p JUndef body) rd.
Definition api_delete (p : path) (rd : jval -> result jval jval) : call :=
  Call (Req Api DELETE p JUndef JUndef) rd.

(** [/devices/${rid}/...]. *)
Definition device (rid : Z) (rest : path) : path := Lit "devices" :: num rid :: rest.

(** ** Segments *)

Definition slash_free (s : string) : bool := str_forall (fun c => negb (Ascii.eqb c "/")) s.

(** A segment that a router can tell from its neighbours: not empty, no slash. *)
Definition seg_ok (g : seg) : bool :=
  negb (String.eqb (seg_text g) "") && slash_free (seg_text g).

Lemma encode_char_ok c :
  slash_free (encode_char c) = true /\ encode_char c <> "".
Proof. all_chars c. Qed.

Lemma seg_ok_enc s : s <> "" -> seg_ok (enc s) = true.
Proof.
  intros Hs. unfold seg_ok. apply andb_true_iff. split.
  - destruct s as [|c s]; [done|]. cbn -[encode_char].
    destruct (encode_char_ok c) as [_ H]. by destruct (encode_char c).
  - clear Hs. cbn. induction s as [|c s IH]; [done|]. cbn -[encode_char]. unfold slash_free in *.
    rewrite str_forall_app, IH, andb_true_r. apply (encode_char_ok c).
Qed.

Lemma seg_ok_num n : seg_ok (num n) = true.
Proof.
  assert (forall k, 0 <= k -> Z_to_string k <> "" /\ slash_free (Z_to_string k) = true) as Hk.
  { intros k Hk. destruct (Z_to_string_nonneg k Hk) as (Hf & _).
    split; [intros E; by rewrite E in Hf|by apply Z_to_string_no]. }
  unfold seg_ok. cbn [num seg_text]. apply andb_true_iff.
  destruct (decide (0 <= n)) as [Hn|Hn].
  - destruct (Hk n Hn) as [H1 H2]. split; [|done]. by apply negb_true_iff, String.eqb_neq.
  - rewrite Z_to_string_neg by lia. split; [done|]. apply (Hk (- n)). lia.
Qed.

(** A URL whose segments are all slash-free splits back into them. *)
Lemma split_url p : Forall (fun g => seg_ok g = true) p -> split "/" (url p) = "" :: map seg_text p.
Proof.
  induction 1 as [|g p Hg Hp IH]; [done|]. unfold seg_ok in Hg. b2p.
  change (url (g :: p)) with ("/" +:+ (seg_text g +:+ url p)).
  rewrite split_sep, split_free, IH by done. cbn [cons_head map]. by rewrite app_str_nil_r.
Qed.
