(* ===== verification/Routes.v ===== *)
(** * The routes of the backend ([api/routes.go], [api/handler/*.go])

    The table of method and path patterns the Go server registers under [/api/v1], one
    list per handler file, as data for the contract with the client's requests.  A
    pattern segment [L s] is literal, [P] is a parameter ([:id]).  The routes that are
    registered only when an optional store is configured are in the table; role checks
    are not modelled. *)
From S2P Require Import Prelude JsString Http.

Inductive pseg : Type := L (s : string) | P.

Abbreviation route := (method * list pseg)%type.

(** The group [/devices/:device_id]. *)
Definition dev (p : list pseg) : list pseg := L "devices" :: P :: p.

Definition routes_auth : list route :=
  [(POST, [L "auth"; L "login"]);
   (POST, [L "auth"; L "refresh"]);
   (POST, [L "auth"; L "logout"]);
   (GET, [L "auth"; L "me"]);
   (PUT, [L "auth"; L "me"])].

Definition routes_users : list route :=
  [(GET, [L "auth"; L "users"]);
   (POST, [L "auth"; L "users"]);
   (POST, [L "auth"; L "users"; L "batch-delete"]);
   (GET, [L "auth"; L "users"; P]);
   (PUT, [L "auth"; L "users"; P]);
   (DELETE, [L "auth"; L "users"; P])].

Definition routes_devices : list route :=
  [(GET, [L "devices"]);
   (GET, [L "devices"; P]);
   (POST, [L "devices"]);
   (PUT, [L "devices"; P]);
   (DELETE, [L "devices"; P])].

Definition routes_system_info : list route :=
  [(GET, dev [L "system"; L "identity"]);
   (GET, dev [L "system"; L "resource"]);
   (GET, dev [L "system"; L "routerboard"]);
   (GET, dev [L "system"; L "clock"]);
   (GET, dev [L "system"; L "license"])].

Definition routes_system_logging : list route :=
  [(GET, dev [L "system"; L "logging"; L "by-prefix"; P]);
   (POST, dev [L "system"; L "logging"; L "hotspot-disk"])].

Definition routes_system_script : list route :=
  [(GET, dev [L "system"; L "scripts"]);
   (GET, dev [L "system"; L "scripts"; P]);
   (POST, dev [L "system"; L "scripts"]);
   (PUT, dev [L "system"; L "scripts"; P]);
   (DELETE, dev [L "system"; L "scripts"; P])].

Definition routes_system_scheduler : list route :=
  [(GET, dev [L "system"; L "schedulers"]);
   (GET, dev [L "system"; L "schedulers"; L "count"]);
   (POST, dev [L "system"; L "schedulers"]);
   (PUT, dev [L "system"; L "schedulers"; P]);
   (DELETE, dev [L "system"; L "schedulers"; P])].

Definition routes_log : list route :=
  [(GET, dev [L "log"])].

Definition routes_ping : list route :=
  [(GET, dev [L "ping"])].

Definition routes_system_control : list route :=
  [(POST, dev [L "system"; L "reboot"]);
   (POST, dev [L "system"; L "shutdown"])].

Definition routes_hotspot_user : list route :=
  [(GET, dev [L "hotspot"; L "users"]);
   (GET, dev [L "hotspot"; L "users"; L "count"]);
   (GET, dev [L "hotspot"; L "users"; L "by-name"; P]);
   (GET, dev [L "hotspot"; L "users"; P]);
   (POST, dev [L "hotspot"; L "users"]);
   (PUT, dev [L "hotspot"; L "users"; P]);
   (PATCH, dev [L "hotspot"; L "users"; P; L "disabled"]);
   (PATCH, dev [L "hotspot"; L "users"; P; L "expiry"]);
   (PATCH, dev [L "hotspot"; L "users"; P; L "mac"]);
   (POST, dev [L "hotspot"; L "users"; P; L "reset-counters"]);
   (POST, dev [L "hotspot"; L "users"; P; L "reset-usage"]);
   (DELETE, dev [L "hotspot"; L "users"; P]);
   (POST, dev [L "hotspot"; L "users"; L "bulk-delete"]);
   (GET, dev [L "hotspot"; L "users"; P; L "password"])].

Definition routes_hotspot_profile : list route :=
  [(GET, dev [L "hotspot"; L "profiles"]);
   (GET, dev [L "hotspot"; L "profiles"; L "by-name"; P]);
   (GET, dev [L "hotspot"; L "profiles"; P]);
   (POST, dev [L "hotspot"; L "profiles"]);
   (PUT, dev [L "hotspot"; L "profiles"; P]);
   (DELETE, dev [L "hotspot"; L "profiles"; P])].

Definition routes_hotspot_server : list route :=
  [(GET, dev [L "hotspot"; L "servers"])].

Definition routes_hotspot_active : list route :=
  [(GET, dev [L "hotspot"; L "active"]);
   (GET, dev [L "hotspot"; L "active"; L "count"]);
   (GET, dev [L "hotspot"; L "active"; P]);
   (DELETE, dev [L "hotspot"; L "active"; P])].

Definition routes_hotspot_host : list route :=
  [(GET, dev [L "hotspot"; L "hosts"]);
   (DELETE, dev [L "hotspot"; L "hosts"; P])].

Definition routes_hotspot_cookie : list route :=
  [(GET, dev [L "hotspot"; L "cookies"]);
   (GET, dev [L "hotspot"; L "cookies"; L "count"]);
   (DELETE, dev [L "hotspot"; L "cookies"; P])].

Definition routes_hotspot_binding : list route :=
  [(GET, dev [L "hotspot"; L "bindings"]);
   (GET, dev [L "hotspot"; L "bindings"; L "count"]);
   (GET, dev [L "hotspot"; L "bindings"; P]);
   (PATCH, dev [L "hotspot"; L "bindings"; P; L "type"]);
   (PATCH, dev [L "hotspot"; L "bindings"; P; L "disabled"]);
   (DELETE, dev [L "hotspot"; L "bindings"; P])].

Definition routes_hotspot_voucher : list route :=
  [(POST, dev [L "hotspot"; L "vouchers"; L "generate"])].

Definition routes_network_interface : list route :=
  [(GET, dev [L "network"; L "interfaces"])].

Definition routes_network_pool : list route :=
  [(GET, dev [L "network"; L "pools"]);
   (GET, dev [L "network"; L "pools"; L "by-name"; P]);
   (POST, dev [L "network"; L "pools"]);
   (PUT, dev [L "network"; L "pools"; P]);
   (DELETE, dev [L "network"; L "pools"; P])].

Definition routes_network_arp : list route :=
  [(GET, dev [L "network"; L "arp"]);
   (DELETE, dev [L "network"; L "arp"; P])].

Definition routes_network_dhcp : list route :=
  [(GET, dev [L "network"; L "dhcp-leases"]);
   (GET, dev [L "network"; L "dhcp-leases"; L "count"]);
   (DELETE, dev [L "network"; L "dhcp-leases"; P])].

Definition routes_network_queue : list route :=
  [(GET, dev [L "network"; L "queues"]);
   (DELETE, dev [L "network"; L "queues"; P])].

Definition routes_ppp_secret : list route :=
  [(GET, dev [L "ppp"; L "secrets"]);
   (GET, dev [L "ppp"; L "secrets"; L "by-name"; P]);
   (POST, dev [L "ppp"; L "secrets"]);
   (POST, dev [L "ppp"; L "secrets"; L "batch-delete"]);
   (POST, dev [L "ppp"; L "secrets"; L "bulk-delete"]);
   (PUT, dev [L "ppp"; L "secrets"; P]);
   (PATCH, dev [L "ppp"; L "secrets"; P; L "disabled"]);
   (DELETE, dev [L "ppp"; L "secrets"; P]);
   (GET, dev [L "ppp"; L "secrets"; P; L "password"])].

Definition routes_ppp_profile : list route :=
  [(GET, dev [L "ppp"; L "profiles"]);
   (GET, dev [L "ppp"; L "profiles"; L "by-name"; P]);
   (POST, dev [L "ppp"; L "profiles"]);
   (PUT, dev [L "ppp"; L "profiles"; P]);
   (DELETE, dev [L "ppp"; L "profiles"; P])].

Definition routes_ppp_active : list route :=
  [(GET, dev [L "ppp"; L "active"]);
   (DELETE, dev [L "ppp"; L "active"; P])].

Definition routes_stream : list route :=
  [(GET, dev [L "stream"; L "hotspot"; L "active"]);
   (GET, dev [L "stream"; L "hotspot"; L "users"]);
   (GET, dev [L "stream"; L "hotspot"; L "inactive"]);
   (GET, dev [L "stream"; L "ppp"; L "active"]);
   (GET, dev [L "stream"; L "ppp"; L "secrets"]);
   (GET, dev [L "stream"; L "ppp"; L "inactive"]);
   (GET, dev [L "stream"; L "log"]);
   (GET, dev [L "stream"; L "system"; L "resource"]);
   (GET, dev [L "stream"; L "network"; L "interfaces"; P; L "traffic"]);
   (GET, dev [L "stream"; L "network"; L "interfaces"; L "stats"]);
   (GET, dev [L "stream"; L "network"; L "queues"; L "stats"]);
   (GET, dev [L "stream"; L "network"; L "queues"; L "stats"; P]);
   (GET, dev [L "stream"; L "network"; L "queues"; L "parents"; L "stats"]);
   (GET, dev [L "stream"; L "system"; L "routerboard"]);
   (GET, dev [L "stream"; L "ping"])].

Definition routes_history : list route :=
  [(GET, dev [L "history"; L "resource"]);
   (GET, dev [L "history"; L "interfaces"]);
   (GET, dev [L "history"; L "hotspot"; L "users"]);
   (GET, dev [L "history"; L "hotspot"; L "active"]);
   (GET, dev [L "history"; L "ppp"; L "active"]);
   (GET, dev [L "history"; L "queues"])].

Definition routes_report : list route :=
  [(GET, dev [L "reports"; L "selling"]);
   (GET, dev [L "reports"; L "selling"; L "today"]);
   (GET, dev [L "reports"; L "selling"; L "summary"]);
   (GET, dev [L "reports"; L "selling.csv"]);
   (GET, dev [L "reports"; L "daily"]);
   (GET, dev [L "reports"; L "monthly"]);
   (GET, dev [L "reports"; L "resume"]);
   (GET, dev [L "reports"; L "summary"]);
   (GET, dev [L "reports"; L "sales"]);
   (POST, dev [L "reports"; L "sales"]);
   (POST, dev [L "reports"; L "import"])].

Definition routes_report_financial : list route :=
  [(GET, [L "reports"; L "financial"]);
   (GET, [L "reports"; L "aging"]);
   (GET, [L "reports"; L "churn"]);
   (GET, [L "reports"; L "dashboard"])].

Definition routes_profile_config : list route :=
  [(GET, dev [L "hotspot"; L "profile-configs"]);
   (GET, dev [L "hotspot"; L "profile-configs"; P]);
   (POST, dev [L "hotspot"; L "profile-configs"; L "sync"]);
   (PUT, dev [L "hotspot"; L "profile-configs"; P]);
   (DELETE, dev [L "hotspot"; L "profile-configs"; P])].

Definition routes_ppp_profiles : list route :=
  [(GET, dev [L "ppp-profiles"]);
   (GET, dev [L "ppp-profiles"; P]);
   (POST, dev [L "ppp-profiles"]);
   (POST, dev [L "ppp-profiles"; L "sync"]);
   (PUT, dev [L "ppp-profiles"; P]);
   (DELETE, dev [L "ppp-profiles"; P])].

Definition routes_hotspot_profiles : list route :=
  [(GET, dev [L "hotspot-profiles"]);
   (GET, dev [L "hotspot-profiles"; P]);
   (POST, dev [L "hotspot-profiles"]);
   (POST, dev [L "hotspot-profiles"; L "sync"]);
   (PUT, dev [L "hotspot-profiles"; P]);
   (DELETE, dev [L "hotspot-profiles"; P])].

Definition routes_quick_print : list route :=
  [(GET, dev [L "quick-print"]);
   (GET, dev [L "quick-print"; P]);
   (POST, dev [L "quick-print"]);
   (PUT, dev [L "quick-print"; P]);
   (DELETE, dev [L "quick-print"; P])].

Definition routes_customers : list route :=
  [(GET, [L "customers"]);
   (GET, [L "customers"; P]);
   (POST, [L "customers"]);
   (POST, [L "customers"; L "batch-delete"]);
   (PUT, [L "customers"; P]);
   (DELETE, [L "customers"; P]);
   (POST, [L "customers"; P; L "portal-password"]);
   (GET, [L "customers"; P; L "portal-password"]);
   (POST, [L "customers"; P; L "portal-password"; L "reset"])].

Definition routes_subscriptions : list route :=
  [(GET, [L "subscriptions"]);
   (GET, [L "subscriptions"; P]);
   (POST, [L "subscriptions"]);
   (POST, [L "subscriptions"; L "batch-delete"]);
   (PUT, [L "subscriptions"; P]);
   (PATCH, [L "subscriptions"; P; L "status"]);
   (POST, [L "subscriptions"; P; L "reconcile"]);
   (DELETE, [L "subscriptions"; P]);
   (GET, [L "subscriptions"; P; L "password"])].

Definition routes_settings : list route :=
  [(GET, [L "settings"]);
   (PUT, [L "settings"; P]);
   (POST, [L "settings"; L "payment-gateway"; L "test"])].

Definition routes_invoices : list route :=
  [(GET, [L "invoices"]);
   (GET, [L "invoices"; P]);
   (POST, [L "invoices"; L "generate"]);
   (POST, [L "invoices"; P; L "cancel"])].

Definition routes_payments : list route :=
  [(GET, [L "payments"]);
   (GET, [L "payments"; L "stream"]);
   (GET, [L "payments"; P]);
   (POST, [L "payments"]);
   (POST, [L "payments"; L "collect"]);
   (POST, [L "payments"; P; L "confirm"]);
   (POST, [L "payments"; P; L "reject"])].

Definition routes_audit_logs : list route :=
  [(GET, [L "audit-logs"])].

Definition routes_message_templates : list route :=
  [(GET, [L "message-templates"]);
   (GET, [L "message-templates"; P]);
   (PUT, [L "message-templates"; P])].

Definition routes_notifications : list route :=
  [(GET, [L "notifications"])].

Definition routes_whatsapp : list route :=
  [(GET, [L "whatsapp"; L "status"]);
   (GET, [L "whatsapp"; L "qr"]);
   (POST, [L "whatsapp"; L "pair-phone"]);
   (POST, [L "whatsapp"; L "logout"]);
   (POST, [L "whatsapp"; L "test"]);
   (GET, [L "whatsapp"; L "contacts"]);
   (GET, [L "whatsapp"; L "groups"]);
   (POST, [L "telegram"; L "test"])].

Definition routes_notification_events : list route :=
  [(GET, [L "notification-events"]);
   (PUT, [L "notification-events"; P])].

Definition routes_registration : list route :=
  [(POST, [L "public"; L "registrations"]);
   (GET, [L "registrations"]);
   (GET, [L "registrations"; P]);
   (POST, [L "registrations"; P; L "approve"]);
   (POST, [L "registrations"; P; L "reject"]);
   (POST, [L "registrations"; P; L "cancel"]);
   (PUT, [L "registrations"; P; L "assign"]);
   (POST, [L "registrations"; P; L "complete-install"])].

Definition routes_packages : list route :=
  [(GET, [L "public"; L "packages"])].

Definition routes_customer_auth : list route :=
  [(POST, [L "customer"; L "login"])].

Definition routes_customer_portal : list route :=
  [(GET, [L "customer"; L "me"]);
   (GET, [L "customer"; L "subscriptions"]);
   (GET, [L "customer"; L "subscriptions"; P; L "status"]);
   (GET, [L "customer"; L "invoices"]);
   (GET, [L "customer"; L "invoices"; P]);
   (POST, [L "customer"; L "invoices"; P; L "pay"]);
   (GET, [L "customer"; L "payments"]);
   (POST, [L "customer"; L "change-password"]);
   (GET, [L "customer"; L "payment-gateway"; L "status"])].

Definition routes_hook_login : list route :=
  [(POST, [L "hook"; L "hotspot"; L "login"; P])].

Definition routes_webhook_xendit : list route :=
  [(POST, [L "public"; L "webhooks"; L "xendit"])].

Definition routes_tickets : list route :=
  [(GET, [L "tickets"]);
   (GET, [L "tickets"; P]);
   (POST, [L "tickets"]);
   (PATCH, [L "tickets"; P; L "status"]);
   (POST, [L "tickets"; P; L "assign"]);
   (POST, [L "tickets"; P; L "resolve"]);
   (DELETE, [L "tickets"; P]);
   (GET, [L "customer"; L "tickets"]);
   (POST, [L "customer"; L "tickets"])].

Definition routes_device_subscriptions : list route :=
  [(GET, dev [L "subscriptions"])].

Definition routes_upload : list route :=
  [(POST, [L "customer"; L "upload"])].

Definition api_routes : list route :=
  routes_auth ++ routes_users ++ routes_devices ++
  routes_system_info ++ routes_system_logging ++ routes_system_script ++
  routes_system_scheduler ++ routes_log ++ routes_ping ++
  routes_system_control ++ routes_hotspot_user ++ routes_hotspot_profile ++
  routes_hotspot_server ++ routes_hotspot_active ++ routes_hotspot_host ++
  routes_hotspot_cookie ++ routes_hotspot_binding ++ routes_hotspot_voucher ++
  routes_network_interface ++ routes_network_pool ++ routes_network_arp ++
  routes_network_dhcp ++ routes_network_queue ++ routes_ppp_secret ++
  routes_ppp_profile ++ routes_ppp_active ++ routes_stream ++
  routes_history ++ routes_report ++ routes_report_financial ++
  routes_profile_config ++ routes_ppp_profiles ++ routes_hotspot_profiles ++
  routes_quick_print ++ routes_customers ++ routes_subscriptions ++
  routes_settings ++ routes_invoices ++ routes_payments ++
  routes_audit_logs ++ routes_message_templates ++ routes_notifications ++
  routes_whatsapp ++ routes_notification_events ++ routes_registration ++
  routes_packages ++ routes_customer_auth ++ routes_customer_portal ++
  routes_hook_login ++ routes_webhook_xendit ++ routes_tickets ++
  routes_device_subscriptions ++ routes_upload.

(** A pattern covers a path: as many segments, literals equal, parameters not empty. *)
Fixpoint pattern_matches (p : list pseg) (segs : list string) : bool :=
  match p, segs with
  | [], [] => true
  | L s :: p', x :: segs' => String.eqb s x && pattern_matches p' segs'
  | P :: p', x :: segs' => negb (String.eqb x "") && pattern_matches p' segs'
  | _, _ => false
  end.

Definition route_matches (m : method) (segs : list string) (r : route) : bool :=
  bool_decide (r.1 = m) && pattern_matches r.2 segs.

(** The backend has a handler for the request: a registered pattern covers the segments
    of its URL. *)
Definition served (m : method) (u : string) : bool :=
  match split "/" u with
  | "" :: segs => existsb (route_matches m segs) api_routes
  | _ => false
  end.
