(* ===== verification/QueryCache.v ===== *)
(** * The query cache the hooks work on

    TanStack Query is a library of the program, so what the hooks rely on is an
    interface: [QueryMatching] states the documented prefix matching of query filters.
    A [query] is what a hook hands to [useQuery] (key, request, [enabled]), a [mutation]
    what it hands to [useMutation] (request, and the cache operations of [onSuccess]).
    The cache itself is the list of its entries, with the operations the hooks call. *)
From S2P Require Import Prelude JsString JsValue Http.

Abbreviation key := (list jval).

Definition scalar (v : jval) : bool :=
  match v with JNull | JBool _ | JNum _ | JStr _ => true | _ => false end.

Definition scalar_key (k : key) : bool := forallb scalar k.

(** [k] is an initial part of [q]. *)
Fixpoint key_prefix (k q : key) : bool :=
  match k, q with
  | [], _ => true
  | x :: k', y :: q' => jval_eqb x y && key_prefix k' q'
  | _ :: _, [] => false
  end.

(** Which queries a filter [{ queryKey: k }] selects: for a key of strings, numbers and
    [null]s, the queries whose key starts with [k]. *)
Class QueryMatching : Type := {
  matches : key -> key -> bool;
  matches_scalar : forall k q, scalar_key k = true -> matches k q = key_prefix k q;
}.

#[export] Instance prefix_matching : QueryMatching :=
  {| matches := key_prefix; matches_scalar := fun _ _ _ => eq_refl |}.

(** ** What the hooks hand to the library *)

Record query : Type := Query {
  q_key : key;
  q_call : call;
  q_enabled : bool;
}.

Inductive cache_op : Type :=
| Invalidate (k : key)
| SetData (k : key) (v : jval)
| Remove (k : key).

Record mutation (V : Type) : Type := Mutation {
  mutationFn : V -> call;
  onSuccess : jval -> V -> list cache_op;
}.
Arguments Mutation {V}.
Arguments mutationFn {V}.
Arguments onSuccess {V}.

Definition useQuery (k : key) (c : call) (enabled : bool) : query := Query k c enabled.

(** An [onSuccess] that uses neither the data nor the variables. *)
Definition invalidates {V} (ks : list key) : jval -> V -> list cache_op :=
  fun _ _ => Invalidate <$> ks.

(** ** The cache *)

Record entry : Type := Entry { e_key : key; e_data : jval; e_stale : bool }.

Section Cache.
Context `{QueryMatching}.

Definition apply_op (op : cache_op) (c : list entry) : list entry :=
  match op with
  | Invalidate k =>
      (fun e => if matches k (e_key e) then Entry (e_key e) (e_data e) true else e) <$> c
  | SetData k v =>
      if existsb (fun e => bool_decide (e_key e = k)) c
      then (fun e => if bool_decide (e_key e = k) then Entry k v false else e) <$> c
      else c ++ [Entry k v false]
  | Remove k => filter (fun e => matches k (e_key e) = false) c
  end.

Definition apply_ops (ops : list cache_op) (c : list entry) : list entry :=
  fold_left (fun c op => apply_op op c) ops c.

(** Some operation of the list makes the old data of key [k] unusable. *)
Definition refreshes (ops : list cache_op) (k : key) : bool :=
  existsb (fun op => match op with
                     | Invalidate f | Remove f => matches f k
                     | SetData _ _ => false
                     end) ops.

Lemma apply_op_old op c k v :
  Entry k v false ∈ apply_op op c ->
  Entry k v false ∈ c /\ refreshes [op] k = false \/ op = SetData k v.
Proof.
  destruct op as [f|f w|f]; cbn.
  - intros (e & He & Hin)%list_elem_of_fmap. left.
    destruct (matches f (e_key e)) eqn:E; [discriminate|]. subst e. cbn in E. by rewrite E.
  - destruct (existsb _ c).
    + intros (e & He & Hin)%list_elem_of_fmap. case_bool_decide; [|subst e; auto].
      injection He as -> ->. by right.
    + intros [?|Hin%list_elem_of_singleton]%elem_of_app; [auto|]. injection Hin as -> ->. by right.
  - intros [Hm Hin]%list_elem_of_filter. left. split; [done|]. cbn in Hm. by rewrite Hm.
Qed.

(** After the operations, an entry that is still fresh is one that no operation selects
    and that was fresh before, or one that was written by [setQueryData]. *)
Lemma apply_ops_fresh ops c k v :
  Entry k v false ∈ apply_ops ops c ->
  Entry k v false ∈ c /\ refreshes ops k = false \/ SetData k v ∈ ops.
Proof.
  revert c. induction ops as [|op ops IH]; intros c Hin; [by left|].
  cbn [apply_ops fold_left] in Hin. apply IH in Hin as [[Hin Hr]|Hin]; [|right; by constructor].
  apply apply_op_old in Hin as [[Hin Hr']| ->]; [|right; by constructor].
  left. split; [done|]. unfold refreshes in *. cbn in *. rewrite orb_false_r in Hr'. by rewrite Hr', Hr.
Qed.

(** What no operation selects or writes stays as it was. *)
Lemma apply_ops_kept ops c k v :
  refreshes ops k = false -> (forall w, SetData k w ∉ ops) ->
  Entry k v false ∈ c -> Entry k v false ∈ apply_ops ops c.
Proof.
  revert c. induction ops as [|op ops IH]; intros c Hr Hs Hin; [done|].
  cbn in Hr. b2p. cbn [apply_ops fold_left]. apply IH; [done|intros w Hw; apply (Hs w); by right|].
  destruct op as [f|f w|f]; cbn.
  - apply list_elem_of_fmap. exists (Entry k v false). cbn.
    match goal with Hm : matches f k = false |- _ => by rewrite Hm end.
  - assert (f <> k) as Hf by (intros ->; apply (Hs w); by left).
    destruct (existsb _ c); [|apply elem_of_app; by left].
    apply list_elem_of_fmap. exists (Entry k v false). cbn. split; [|done].
    by rewrite bool_decide_eq_false_2.
  - apply list_elem_of_filter. done.
Qed.

Lemma refreshes_invalidates ks k :
  forallb scalar_key ks = true ->
  refreshes (Invalidate <$> ks) k = existsb (fun f => key_prefix f k) ks.
Proof.
  intros Hs. unfold refreshes. induction ks as [|f ks IH]; [done|]. cbn in *. b2p.
  by rewrite matches_scalar, IH.
Qed.
End Cache.

Lemma key_prefix_app k q : key_prefix k (k ++ q) = true.
Proof. induction k as [|x k IH]; [done|]. cbn. by rewrite jval_eqb_refl. Qed.

(** One cache key never starts with a different scalar key of the same length. *)
Lemma key_prefix_spec k q : key_prefix k q = true <-> exists r, q = k ++ r.
Proof.
  split; [|intros [r ->]; apply key_prefix_app].
  revert q. induction k as [|x k IH]; intros [|y q]; cbn; try done; [by exists []|by eexists|].
  intros [Hx%jval_eqb_eq Hk]%andb_true_iff. subst y. destruct (IH q Hk) as [r ->]. by exists r.
Qed.
