(* ===== verification/QueryKeys.v ===== *)
(** * Query keys ([web/src/lib/api/query-keys.ts])

    One definition per member of [qk].  A filters argument is the [jval] of the object,
    [JUndef] when it is omitted; optional strings are [option string]. *)
From S2P Require Import Prelude JsString JsValue QueryCache.

(** [filters ?? {}] and [x ?? null]. *)
Definition or_empty (filters : jval) : jval :=
  match filters with JUndef | JNull => JObj [] | v => v end.
Definition or_null (o : option string) : jval :=
  match o with Some s => JStr s | None => JNull end.

Module qk.
Definition currentUser : key := [JStr "auth"; JStr "me"].
Definition userStatus (router : string) (mac : string) : key :=
  [JStr "status"; JStr router; JStr mac].
Definition settings : key := [JStr "settings"].
Definition settingsLogo : key := [JStr "settings"; JStr "logo"].
Definition users (filters : jval) : key := [JStr "users"; or_empty filters].
Definition user (id : string) : key := [JStr "users"; JStr id].
Definition routers : key := [JStr "routers"].
Definition router (rid : Z) : key := [JStr "routers"; JNum rid].
Definition hotspotUsers (rid : Z) (filters : jval) : key :=
  [JStr "hotspot"; JStr "users"; JNum rid; or_empty filters].
Definition hotspotUser (rid : Z) (uid : string) : key :=
  [JStr "hotspot"; JStr "users"; JNum rid; JStr uid].
Definition hotspotUserCount (rid : Z) (profile : option string) : key :=
  [JStr "hotspot"; JStr "users"; JStr "count"; JNum rid; or_null profile].
Definition hotspotProfiles (rid : Z) : key := [JStr "hotspot"; JStr "profiles"; JNum rid].
Definition hotspotProfile (rid : Z) (pid : string) : key :=
  [JStr "hotspot"; JStr "profiles"; JNum rid; JStr pid].
Definition hotspotActive (rid : Z) : key := [JStr "hotspot"; JStr "active"; JNum rid].
Definition hotspotInactive (rid : Z) : key := [JStr "hotspot"; JStr "inactive"; JNum rid].
Definition hotspotInactiveCount (rid : Z) : key :=
  [JStr "hotspot"; JStr "inactive"; JStr "count"; JNum rid].
Definition hotspotHosts (rid : Z) : key := [JStr "hotspot"; JStr "hosts"; JNum rid].
Definition hotspotServers (rid : Z) : key := [JStr "hotspot"; JStr "servers"; JNum rid].
Definition hotspotCookies (rid : Z) : key := [JStr "hotspot"; JStr "cookies"; JNum rid].
Definition hotspotBindings (rid : Z) : key := [JStr "hotspot"; JStr "bindings"; JNum rid].
Definition pppSecrets (rid : Z) : key := [JStr "ppp"; JStr "secrets"; JNum rid].
Definition pppActive (rid : Z) : key := [JStr "ppp"; JStr "active"; JNum rid].
Definition pppInactive (rid : Z) : key := [JStr "ppp"; JStr "inactive"; JNum rid].
Definition pppInactiveCount (rid : Z) : key :=
  [JStr "ppp"; JStr "inactive"; JStr "count"; JNum rid].
Definition pppProfiles (rid : Z) : key := [JStr "ppp"; JStr "profiles"; JNum rid].
Definition networkInterfaces (rid : Z) : key := [JStr "network"; JStr "interfaces"; JNum rid].
Definition interfaceTraffic (rid : Z) (iface : string) : key :=
  [JStr "network"; JStr "traffic"; JNum rid; JStr iface].
Definition networkPools (rid : Z) : key := [JStr "network"; JStr "pools"; JNum rid].
Definition networkQueues (rid : Z) : key := [JStr "network"; JStr "queues"; JNum rid].
Definition natRules (rid : Z) : key := [JStr "network"; JStr "nat"; JNum rid].
Definition dhcpLeases (rid : Z) : key := [JStr "network"; JStr "dhcp"; JStr "leases"; JNum rid].
Definition systemResource (rid : Z) : key := [JStr "system"; JStr "resource"; JNum rid].
Definition systemResourceHistory (rid : Z) : key :=
  [JStr "system"; JStr "resource"; JStr "history"; JNum rid].
Definition systemLog (rid : Z) : key := [JStr "system"; JStr "log"; JNum rid].
Definition systemClock (rid : Z) : key := [JStr "system"; JStr "clock"; JNum rid].
Definition systemIdentity (rid : Z) : key := [JStr "system"; JStr "identity"; JNum rid].
Definition routerboard (rid : Z) : key := [JStr "system"; JStr "routerboard"; JNum rid].
Definition expireMonitor (rid : Z) : key := [JStr "system"; JStr "expire-monitor"; JNum rid].
Definition schedulers (rid : Z) : key := [JStr "system"; JStr "schedulers"; JNum rid].
Definition scripts (rid : Z) : key := [JStr "system"; JStr "scripts"; JNum rid].
Definition systemDashboard (rid : Z) : key := [JStr "system"; JStr "dashboard"; JNum rid].
Definition adminUsers : key := [JStr "admin"; JStr "users"].
Definition adminUser (id : Z) : key := [JStr "admin"; JStr "users"; JNum id].
Definition voucherPrintData (rid : Z) (gencode : string) : key :=
  [JStr "voucher"; JStr "print-data"; JNum rid; JStr gencode].
Definition voucherSession (rid : Z) (gencode : string) : key :=
  [JStr "voucher"; JStr "session"; JNum rid; JStr gencode].
Definition salesList (rid : Z) (params : jval) : key :=
  [JStr "voucher"; JStr "sales"; JNum rid; or_empty params].
Definition templates (filters : jval) : key := [JStr "templates"; or_empty filters].
Definition template (id : string) : key := [JStr "templates"; JStr id].
Definition reportDaily (rid : Z) (date : string) (filters : jval) : key :=
  [JStr "report"; JStr "daily"; JNum rid; JStr date; or_empty filters].
Definition reportMonthly (rid : Z) (year : Z) (month : Z) : key :=
  [JStr "report"; JStr "monthly"; JNum rid; JNum year; JNum month].
Definition reportResume (rid : Z) (year : Z) : key :=
  [JStr "report"; JStr "resume"; JNum rid; JNum year].
Definition reportSummary (rid : Z) : key := [JStr "report"; JStr "summary"; JNum rid].
Definition interfaceHistory (rid : Z) (range : string) : key :=
  [JStr "history"; JStr "interfaces"; JNum rid; JStr range].
Definition queueHistory (rid : Z) (range : string) : key :=
  [JStr "history"; JStr "queues"; JNum rid; JStr range].
Definition quickPrintPackages (rid : Z) : key := [JStr "quick-print"; JStr "packages"; JNum rid].
Definition quickPrintPackage (rid : Z) (name : string) : key :=
  [JStr "quick-print"; JStr "packages"; JNum rid; JStr name].
Definition hotspotProfilesDB (rid : Z) (filters : jval) : key :=
  [JStr "hotspot"; JStr "profiles-db"; JNum rid; or_empty filters].
Definition hotspotProfileDB (rid : Z) (id : Z) : key :=
  [JStr "hotspot"; JStr "profiles-db"; JNum rid; JNum id].
Definition profileConfigs (rid : Z) : key := [JStr "hotspot"; JStr "profile-configs"; JNum rid].
Definition profileConfig (rid : Z) (name : string) : key :=
  [JStr "hotspot"; JStr "profile-configs"; JNum rid; JStr name].
Definition pppProfile (rid : Z) (pid : string) : key :=
  [JStr "ppp"; JStr "profiles"; JNum rid; JStr pid].
Definition pppProfilesDB (rid : Z) : key := [JStr "ppp"; JStr "profiles-db"; JNum rid].
Definition pppProfileDB (rid : Z) (id : Z) : key :=
  [JStr "ppp"; JStr "profiles-db"; JNum rid; JNum id].
Definition networkArp (rid : Z) (mac : option string) : key :=
  [JStr "network"; JStr "arp"; JNum rid; or_null mac].
Definition poolByName (rid : Z) (name : string) : key :=
  [JStr "network"; JStr "pools"; JNum rid; JStr name].
Definition systemLicense (rid : Z) : key := [JStr "system"; JStr "license"; JNum rid].
Definition customers (filters : jval) : key := [JStr "customers"; or_empty filters].
Definition customer (id : Z) : key := [JStr "customers"; JNum id].
Definition subscriptions (filters : jval) : key := [JStr "subscriptions"; or_empty filters].
Definition subscription (id : Z) : key := [JStr "subscriptions"; JNum id].
Definition subscriptionsByDevice (deviceId : Z) : key :=
  [JStr "subscriptions"; JStr "device"; JNum deviceId].
Definition reportSelling (rid : Z) (filters : jval) : key :=
  [JStr "report"; JStr "selling"; JNum rid; or_empty filters].
Definition reportSellingToday (rid : Z) : key :=
  [JStr "report"; JStr "selling"; JStr "today"; JNum rid].
Definition reportSellingSummary (rid : Z) (filters : jval) : key :=
  [JStr "report"; JStr "selling"; JStr "summary"; JNum rid; or_empty filters].
Definition messageTemplates : key := [JStr "message-templates"].
Definition messageTemplate (slug : string) : key := [JStr "message-templates"; JStr slug].
Definition auditLogs (filters : jval) : key := [JStr "audit-logs"; or_empty filters].
Definition notificationsLog (filters : jval) : key := [JStr "notifications"; or_empty filters].
Definition whatsappStatus : key := [JStr "whatsapp"; JStr "status"].
Definition whatsappQR : key := [JStr "whatsapp"; JStr "qr"].
Definition whatsappContacts : key := [JStr "whatsapp"; JStr "contacts"].
Definition whatsappGroups : key := [JStr "whatsapp"; JStr "groups"].
Definition notifEvents : key := [JStr "notification-events"].
Definition registrations (filters : jval) : key := [JStr "registrations"; or_empty filters].
Definition registration (id : Z) : key := [JStr "registrations"; JNum id].
Definition publicPackages (serviceType : option string) : key :=
  [JStr "public-packages"; JStr (serviceType ?? "all")].
Definition invoices (filters : jval) : key := [JStr "invoices"; or_empty filters].
Definition invoice (id : Z) : key := [JStr "invoices"; JNum id].
Definition invoicePayments (invoiceId : Z) : key :=
  [JStr "invoices"; JNum invoiceId; JStr "payments"].
Definition payments (filters : jval) : key := [JStr "payments"; or_empty filters].
Definition payment (id : Z) : key := [JStr "payments"; JNum id].
Definition portalMe : key := [JStr "portal"; JStr "me"].
Definition portalSubscriptions : key := [JStr "portal"; JStr "subscriptions"].
Definition portalSubscription (id : Z) : key := [JStr "portal"; JStr "subscriptions"; JNum id].
Definition portalInvoices (filters : jval) : key :=
  [JStr "portal"; JStr "invoices"; or_empty filters].
Definition portalInvoice (id : Z) : key := [JStr "portal"; JStr "invoices"; JNum id].
Definition portalPayments : key := [JStr "portal"; JStr "payments"].
End qk.
