(* ===== verification/Hotspot.v ===== *)
(** * Hotspot services and hooks ([web/src/features/hotspot/*/api])

    One Module per feature directory: the functions of [service.ts] and the hooks of
    [queries.ts].  A payload, filter or record is the [jval] of the object. *)
From S2P Require Import Prelude JsString JsValue JsNumber ApiErrors Http QueryCache QueryKeys.

Module HotspotActive.
Definition base (rid : Z) : path := device rid [Lit "hotspot"; Lit "active"].

Definition listHotspotActive (routerId : Z) : call := api_get (base routerId) JUndef unwrapped.
Definition removeHotspotActive (routerId : Z) (id : string) : call :=
  api_delete (base routerId ++ [enc id]) ignored.
Definition disconnectHotspotUser (routerId : Z) (id : string) : call :=
  api_post (base routerId ++ [enc id; Lit "disconnect"]) JUndef ignored.

Definition activePrefix (routerId : Z) : key := [JStr "hotspot"; JStr "active"; JNum routerId].
Definition cookiesPrefix (routerId : Z) : key := [JStr "hotspot"; JStr "cookies"; JNum routerId].

Definition useHotspotActive (routerId : Z) : query :=
  useQuery (qk.hotspotActive routerId) (listHotspotActive routerId) (0 <? routerId).
Definition useRemoveHotspotActive (routerId : Z) : mutation string :=
  Mutation (removeHotspotActive routerId) (invalidates [activePrefix routerId]).
Definition useDisconnectHotspotUser (routerId : Z) : mutation string :=
  Mutation (disconnectHotspotUser routerId)
    (invalidates [activePrefix routerId; cookiesPrefix routerId]).
End HotspotActive.

Module HotspotBilling.
Definition base (rid : Z) : path := device rid [Lit "hotspot-profiles"].

Definition listHotspotDbProfiles (routerId : Z) (filters : jval) : call :=
  api_get (base routerId) filters unwrapped.
Definition createHotspotDbProfile (routerId : Z) (payload : jval) : call :=
  api_post (base routerId) payload unwrapped.
Definition updateHotspotDbProfile (routerId id : Z) (payload : jval) : call :=
  api_put (base routerId ++ [num id]) payload unwrapped.
Definition removeHotspotDbProfile (routerId id : Z) : call :=
  api_delete (base routerId ++ [num id]) ignored.
Definition syncHotspotDbProfiles (routerId : Z) (role : option string) : call :=
  Call (Req Api POST (base routerId ++ [Lit "sync"]) (params_if "role" role) JUndef) unwrapped.

Definition dbPrefix (rid : Z) : key := [JStr "hotspot"; JStr "profiles-db"; JNum rid].

Definition useHotspotDbProfiles (routerId : Z) (filters : jval) : query :=
  useQuery (qk.hotspotProfilesDB routerId filters) (listHotspotDbProfiles routerId filters)
    (0 <? routerId).
Definition useCreateHotspotDbProfile (routerId : Z) : mutation jval :=
  Mutation (createHotspotDbProfile routerId) (invalidates [dbPrefix routerId]).
Definition useUpdateHotspotDbProfile (routerId : Z) : mutation (Z * jval) :=
  Mutation (fun '(id, payload) => updateHotspotDbProfile routerId id payload)
    (invalidates [dbPrefix routerId]).
Definition useRemoveHotspotDbProfile (routerId : Z) : mutation Z :=
  Mutation (removeHotspotDbProfile routerId) (invalidates [dbPrefix routerId]).
Definition useSyncHotspotDbProfiles (routerId : Z) : mutation (option string) :=
  Mutation (syncHotspotDbProfiles routerId) (invalidates [dbPrefix routerId]).
End HotspotBilling.

Module HotspotBindings.
Definition base (rid : Z) : path := device rid [Lit "hotspot"; Lit "bindings"].

Definition listIPBindings (routerId : Z) : call := api_get (base routerId) JUndef unwrapped.
Definition addIPBinding (routerId : Z) (payload : jval) : call :=
  api_post (base routerId) payload unwrapped.
Definition updateIPBinding (routerId : Z) (id : string) (patch : jval) : call :=
  api_put (base routerId ++ [enc id]) patch ignored.
Definition removeIPBinding (routerId : Z) (id : string) : call :=
  api_delete (base routerId ++ [enc id]) ignored.
Definition enableIPBinding (routerId : Z) (id : string) : call :=
  api_post (base routerId ++ [enc id; Lit "enable"]) JUndef ignored.
Definition disableIPBinding (routerId : Z) (id : string) : call :=
  api_post (base routerId ++ [enc id; Lit "disable"]) JUndef ignored.

Definition bindingsPrefix (routerId : Z) : key :=
  [JStr "hotspot"; JStr "bindings"; JNum routerId].

Definition useHotspotBindings (routerId : Z) : query :=
  useQuery (qk.hotspotBindings routerId) (listIPBindings routerId) (0 <? routerId).
Definition useAddIPBinding (routerId : Z) : mutation jval :=
  Mutation (addIPBinding routerId) (invalidates [bindingsPrefix routerId]).
Definition useUpdateIPBinding (routerId : Z) : mutation (string * jval) :=
  Mutation (fun '(id, patch) => updateIPBinding routerId id patch)
    (invalidates [bindingsPrefix routerId]).
Definition useRemoveIPBinding (routerId : Z) : mutation string :=
  Mutation (removeIPBinding routerId) (invalidates [bindingsPrefix routerId]).
Definition useEnableIPBinding (routerId : Z) : mutation string :=
  Mutation (enableIPBinding routerId) (invalidates [bindingsPrefix routerId]).
Definition useDisableIPBinding (routerId : Z) : mutation string :=
  Mutation (disableIPBinding routerId) (invalidates [bindingsPrefix routerId]).
End HotspotBindings.

Module HotspotCookies.
Definition base (rid : Z) : path := device rid [Lit "hotspot"; Lit "cookies"].

Definition listHotspotCookies (routerId : Z) : call := api_get (base routerId) JUndef unwrapped.
Definition removeHotspotCookie (routerId : Z) (id : string) : call :=
  api_delete (base routerId ++ [enc id]) ignored.

Definition cookiesPrefix (routerId : Z) : key := [JStr "hotspot"; JStr "cookies"; JNum routerId].

Definition useHotspotCookies (routerId : Z) : query :=
  useQuery (qk.hotspotCookies routerId) (listHotspotCookies routerId) (0 <? routerId).
Definition useRemoveHotspotCookie (routerId : Z) : mutation string :=
  Mutation (removeHotspotCookie routerId) (invalidates [cookiesPrefix routerId]).
End HotspotCookies.

Module HotspotHosts.
Definition base (rid : Z) : path := device rid [Lit "hotspot"; Lit "hosts"].

Definition listHotspotHosts (routerId : Z) : call := api_get (base routerId) JUndef unwrapped.
Definition removeHotspotHost (routerId : Z) (id : string) : call :=
  api_delete (base routerId ++ [enc id]) ignored.

Definition hostsPrefix (routerId : Z) : key := [JStr "hotspot"; JStr "hosts"; JNum routerId].

Definition useHotspotHosts (routerId : Z) : query :=
  useQuery (qk.hotspotHosts routerId) (listHotspotHosts routerId) (0 <? routerId).
Definition useRemoveHotspotHost (routerId : Z) : mutation string :=
  Mutation (removeHotspotHost routerId) (invalidates [hostsPrefix routerId]).
End HotspotHosts.

Module HotspotInactive.
Definition base (rid : Z) : path := device rid [Lit "hotspot"; Lit "inactive"].

Definition listInactiveHotspotUsers (routerId : Z) : call :=
  api_get (base routerId) JUndef unwrapped.
Definition getInactiveHotspotUserCount (routerId : Z) : call :=
  api_get (base routerId ++ [Lit "count"]) JUndef (unwrap_field "count").

Definition useHotspotInactive (routerId : Z) : query :=
  useQuery (qk.hotspotInactive routerId) (listInactiveHotspotUsers routerId) (0 <? routerId).
Definition useHotspotInactiveCount (routerId : Z) : query :=
  useQuery (qk.hotspotInactiveCount routerId) (getInactiveHotspotUserCount routerId)
    (0 <? routerId).
End HotspotInactive.

Module HotspotServers.
Definition base (rid : Z) : path := device rid [Lit "hotspot"; Lit "servers"].

Definition listHotspotServers (routerId : Z) : call := api_get (base routerId) JUndef unwrapped.

Definition useHotspotServers (routerId : Z) : query :=
  useQuery (qk.hotspotServers routerId) (listHotspotServers routerId) (0 <? routerId).
End HotspotServers.

Module HotspotUsers.
Definition base (rid : Z) : path := device rid [Lit "hotspot"; Lit "users"].

Definition listHotspotUsers (routerId : Z) (filters : jval) : call :=
  api_get (base routerId) filters unwrapped.
Definition getHotspotUserCount (routerId : Z) (profile : option string) : call :=
  api_get (base routerId ++ [Lit "count"]) (params_if "profile" profile) (unwrap_field "count").
Definition exportHotspotUsersCSV (routerId : Z) (profile : option string) : call :=
  api_get (base routerId ++ [Lit "export"]) (params_if "profile" profile) raw.
Definition getHotspotUser (routerId : Z) (id : string) : call :=
  api_get (base routerId ++ [enc id]) JUndef unwrapped.
Definition addHotspotUser (routerId : Z) (payload : jval) : call :=
  api_post (base routerId) payload unwrapped.
Definition updateHotspotUser (routerId : Z) (id : string) (patch : jval) : call :=
  api_put (base routerId ++ [enc id]) patch ignored.
Definition removeHotspotUser (routerId : Z) (id : string) : call :=
  api_delete (base routerId ++ [enc id]) ignored.
Definition resetHotspotUserCounters (routerId : Z) (id : string) : call :=
  api_post (base routerId ++ [enc id; Lit "reset-counters"]) JUndef ignored.
Definition revealHotspotUserPassword (routerId : Z) (id : string) : call :=
  api_get (base routerId ++ [enc id; Lit "password"]) JUndef (unwrap_field "password").

Definition usersPrefix (routerId : Z) : key := [JStr "hotspot"; JStr "users"; JNum routerId].

Definition useHotspotUsers (routerId : Z) (filters : jval) : query :=
  useQuery (qk.hotspotUsers routerId filters) (listHotspotUsers routerId filters) (0 <? routerId).
Definition useHotspotUserCount (routerId : Z) (profile : option string) : query :=
  useQuery (qk.hotspotUserCount routerId profile) (getHotspotUserCount routerId profile)
    (0 <? routerId).
Definition useHotspotUser (routerId : Z) (id : string) : query :=
  useQuery (qk.hotspotUser routerId id) (getHotspotUser routerId id)
    ((0 <? routerId) && (0 <? Z.of_nat (String.length id))).
Definition useAddHotspotUser (routerId : Z) : mutation jval :=
  Mutation (addHotspotUser routerId) (invalidates [usersPrefix routerId]).
Definition useUpdateHotspotUser (routerId : Z) : mutation (string * jval) :=
  Mutation (fun '(id, patch) => updateHotspotUser routerId id patch)
    (invalidates [usersPrefix routerId]).
Definition useRemoveHotspotUser (routerId : Z) : mutation string :=
  Mutation (removeHotspotUser routerId) (invalidates [usersPrefix routerId]).
Definition useResetHotspotUserCounters (routerId : Z) : mutation string :=
  Mutation (resetHotspotUserCounters routerId)
    (fun _ id => [Invalidate (qk.hotspotUser routerId id); Invalidate (usersPrefix routerId)]).
End HotspotUsers.

Module HotspotProfiles.
Definition base (rid : Z) : path := device rid [Lit "hotspot-profiles"].

(** A property read of a value that may be [undefined] or [null]. *)
Definition prop (k : string) (v : jval) : result jval jval :=
  match v with
  | JUndef | JNull => Throw (JStr "TypeError")
  | _ => Ok (get k v)
  end.

Definition not_null (v : jval) : bool := match v with JUndef | JNull => false | _ => true end.

(** The row the list shows for one profile of the backend. *)
Definition profile_row (p : jval) : result jval jval :=
  if not_null p then
    Ok (obj [("id", JStr (js_String (get "id" p)));
             ("name", get "name" p);
             ("address_pool", get "address_pool" p);
             ("rate_limit", get "rate_limit" p);
             ("shared_users", if is_zero (get "shared_users" p) then JStr "unlimited"
                              else JStr (js_String (get "shared_users" p)));
             ("status_autorefresh", get "status_autorefresh" p);
             ("on_login", get "on_login" p);
             ("on_logout", get "on_logout" p);
             ("parent_queue", get "parent_queue" p);
             ("exp_mode", get "expiry_mode" p);
             ("price", if not_null (get "price" p) then JStr (js_String (get "price" p)) else JUndef);
             ("selling_price", if not_null (get "sell_price" p)
                               then JStr (js_String (get "sell_price" p)) else JUndef);
             ("validity", get "validity" p);
             ("no_expiry", JBool (bool_decide (get "expiry_mode" p = JStr "0")));
             ("lock_user", JStr (if truthy (get "lock_mac" p) then "enable" else "disable"))])
  else Throw (JStr "TypeError").

Fixpoint map_rows (l : list jval) : result jval (list jval) :=
  match l with
  | [] => Ok []
  | p :: l' => r ← profile_row p; rs ← map_rows l'; Ok (r :: rs)
  end.

Definition listHotspotProfiles (routerId : Z) : call :=
  api_get (base routerId) JUndef (fun body =>
    data ← unwrap body;
    match data with
    | JArr l => rs ← map_rows l; Ok (JArr rs)
    | _ => Throw (JStr "TypeError")
    end).

Definition getHotspotProfile (routerId : Z) (id : string) : call :=
  api_get (base routerId ++ [enc id]) JUndef unwrapped.

Definition shared_users_field (params : jval) : jval :=
  match get "shared_users" params with
  | JStr s => if String.eqb s "unlimited" then JNum 0
              else if String.eqb s "" then JUndef else Number_val s
  | _ => JUndef
  end.

Definition lock_mac_field (params : jval) : jval :=
  if bool_decide (get "lock_user" params = JStr "enable") then JBool true
  else if bool_decide (get "lock_user" params = JStr "disable") then JBool false
  else JUndef.

Definition profile_payload (role params : jval) : jval :=
  obj [("name", get "name" params);
       ("role", role);
       ("rate_limit", get "rate_limit" params);
       ("address_pool", get "address_pool" params);
       ("shared_users", shared_users_field params);
       ("parent_queue", get "parent_queue" params);
       ("price_monthly", get "price" params);
       ("price", get "price" params);
       ("sell_price", get "selling_price" params);
       ("validity", get "validity" params);
       ("expiry_mode", get "expire_mode" params);
       ("lock_mac", lock_mac_field params)].

Definition addHotspotProfile (routerId : Z) (params : jval) : call :=
  let role := match get "role" params with JUndef | JNull => JStr "voucher" | r => r end in
  api_post (base routerId) (profile_payload role params) (fun body =>
    data ← unwrap body;
    id ← prop "id" (get "profile" data);
    Ok (obj [("id", JStr (js_String id))])).

Definition updateHotspotProfile (routerId : Z) (id : string) (params : jval) : call :=
  api_put (base routerId ++ [enc id]) (profile_payload (get "role" params) params) ignored.
Definition removeHotspotProfile (routerId : Z) (id : string) : call :=
  api_delete (base routerId ++ [enc id]) ignored.
Definition syncHotspotProfiles (routerId : Z) : call :=
  api_post (device routerId [Lit "hotspot-profiles"; Lit "sync"]) JUndef unwrapped.

Definition profilesPrefix (routerId : Z) : key :=
  [JStr "hotspot"; JStr "profiles"; JNum routerId].

Definition useHotspotProfiles (routerId : Z) : query :=
  useQuery (qk.hotspotProfiles routerId) (listHotspotProfiles routerId) (0 <? routerId).
Definition useHotspotProfile (routerId : Z) (id : string) : query :=
  useQuery (qk.hotspotProfile routerId id) (getHotspotProfile routerId id)
    ((0 <? routerId) && (0 <? Z.of_nat (String.length id))).
Definition useAddHotspotProfile (routerId : Z) : mutation jval :=
  Mutation (addHotspotProfile routerId) (invalidates [profilesPrefix routerId]).
Definition useUpdateHotspotProfile (routerId : Z) : mutation (string * jval) :=
  Mutation (fun '(id, params) => updateHotspotProfile routerId id params)
    (invalidates [profilesPrefix routerId]).
Definition useRemoveHotspotProfile (routerId : Z) : mutation string :=
  Mutation (removeHotspotProfile routerId) (invalidates [profilesPrefix routerId]).
Definition useSyncHotspotProfiles (routerId : Z) : mutation unit :=
  Mutation (fun _ => syncHotspotProfiles routerId) (invalidates [profilesPrefix routerId]).
End HotspotProfiles.

(** ** Round trip of the profile form *)

Module HotspotProfilesLaws.
Import HotspotProfiles.

(** The field the payload holds for the limit typed in the form. *)
Definition shared_users_value (limit : string) : jval :=
  if String.eqb limit "unlimited" then JNum 0
  else if String.eqb limit "" then JUndef else Number_val limit.

Lemma profile_row_fields p : not_null p = true -> exists row, profile_row p = Ok row /\
  get "id" row = JStr (js_String (get "id" p)) /\
  get "shared_users" row = JStr (if is_zero (get "shared_users" p) then "unlimited"
                                 else js_String (get "shared_users" p)) /\
  get "price" row = (if not_null (get "price" p) then JStr (js_String (get "price" p)) else JUndef) /\
  get "selling_price" row =
    (if not_null (get "sell_price" p) then JStr (js_String (get "sell_price" p)) else JUndef) /\
  get "lock_user" row = JStr (if truthy (get "lock_mac" p) then "enable" else "disable") /\
  get "exp_mode" row = get "expiry_mode" p /\
  Forall (fun k => get k row = get k p)
    ["name"; "rate_limit"; "address_pool"; "parent_queue"; "validity"].
Proof.
  intros Hn. unfold profile_row. rewrite Hn. eexists. split; [reflexivity|].
  split_and!; try reflexivity.
  - cbn. by destruct (is_zero _).
  - by repeat constructor.
Qed.

Lemma payload_fields role params :
  let b := profile_payload role params in
  get "shared_users" b = shared_users_field params /\ get "price" b = get "price" params /\
  get "sell_price" b = get "selling_price" params /\ get "lock_mac" b = lock_mac_field params /\
  get "expiry_mode" b = get "expire_mode" params /\
  Forall (fun k => get k b = get k params)
    ["name"; "rate_limit"; "address_pool"; "parent_queue"; "validity"].
Proof. cbn zeta. split_and!; try reflexivity. by repeat constructor. Qed.

Lemma shared_users_shown limit :
  limit = "unlimited" \/ (exists n, 0 < n /\ limit = Z_to_string n) ->
  (if is_zero (shared_users_value limit) then "unlimited"
   else js_String (shared_users_value limit)) = limit.
Proof.
  intros [-> |(n & Hn & ->)]; [reflexivity|].
  destruct (Z_to_string_nonneg n) as (Hs & _ & _); [lia|].
  unfold shared_users_value. rewrite Number_val_Z by lia.
  destruct (Z_to_string n) as [|c s] eqn:E; [done|]. simpl in Hs.
  assert ((String c s =? "unlimited")%string = false) as ->.
  { apply String.eqb_neq. intros [= -> _]. done. }
  cbn [String.eqb is_zero js_String]. destruct (n =? 0) eqn:E0; b2p; [lia|]. done.
Qed.

(** A hotspot profile saved from the form and listed again shows what was typed: the
    backend stores the payload's fields under their names ([saved] extends the payload),
    so the list row has the form's name, rate limit, pool, queue, validity, expiry mode
    and lock, the prices as text, and the same user limit, with ["unlimited"] and every
    positive number coming back as typed. *)
Theorem profile_form_roundtrip params id limit price sell lock :
  get "shared_users" params = JStr limit ->
  (limit = "unlimited" \/ exists n, 0 < n /\ limit = Z_to_string n) ->
  get "price" params = JNum price -> get "selling_price" params = JNum sell ->
  get "lock_user" params = JStr lock -> lock = "enable" \/ lock = "disable" ->
  forall saved, (forall k, k <> "id" ->
      get k saved = get k (r_body (c_req (updateHotspotProfile 1 id params)))) ->
    get "id" saved = JStr id ->
  exists row, profile_row saved = Ok row /\
    get "id" row = JStr id /\ get "shared_users" row = JStr limit /\
    get "price" row = JStr (Z_to_string price) /\
    get "selling_price" row = JStr (Z_to_string sell) /\
    get "lock_user" row = JStr lock /\
    get "exp_mode" row = get "expire_mode" params /\
    Forall (fun k => get k row = get k params)
      ["name"; "rate_limit"; "address_pool"; "parent_queue"; "validity"].
Proof.
  intros Hs Hl Hp Hse Hk Hlock saved Hsv Hid.
  destruct (profile_row_fields saved) as (row & Hrow & R1 & R2 & R3 & R4 & R5 & R6 & R7);
    [by destruct saved|].
  destruct (payload_fields (get "role" params) params) as (P1 & P2 & P3 & P4 & P5 & P6).
  cbn [updateHotspotProfile api_put c_req r_body] in Hsv.
  exists row. rewrite R1, R2, R3, R4, R5, R6, Hid, !Hsv, P1, P2, P3, P4, P5, Hp, Hse by done.
  split_and!; try done.
  - unfold shared_users_field. rewrite Hs. f_equal. by apply shared_users_shown.
  - unfold lock_mac_field. rewrite Hk. by destruct Hlock as [-> | ->].
  - rewrite !Forall_cons in R7, P6 |- *. destruct R7 as (-> & -> & -> & -> & -> & _), P6 as (Q1 & Q2 & Q3 & Q4 & Q5 & _).
    by rewrite !Hsv, Q1, Q2, Q3, Q4, Q5 by done.
Qed.

Definition demo_params : jval :=
  obj [("name", JStr "1d"); ("shared_users", JStr "3"); ("price", JNum 5000);
       ("selling_price", JNum 6000); ("lock_user", JStr "disable"); ("expire_mode", JStr "rem")].
Definition demo_saved : jval :=
  match r_body (c_req (updateHotspotProfile 1 "7" demo_params)) with
  | JObj fs => JObj (("id", JStr "7") :: fs)
  | v => v
  end.

Lemma profile_form_roundtrip_witness :
  exists row, profile_row demo_saved = Ok row /\ get "shared_users" row = JStr "3".
Proof.
  destruct (profile_form_roundtrip demo_params "7" "3" 5000 6000 "disable" eq_refl
    (or_intror (ex_intro _ 3 (conj eq_refl eq_refl))) eq_refl eq_refl eq_refl (or_intror eq_refl)
    demo_saved) as (row & Hrow & _ & Hs & _).
  - intros k Hk. unfold demo_saved. cbn [updateHotspotProfile api_put c_req r_body profile_payload obj get].
    cbn [field]. destruct (String.eqb k "id") eqn:E; [|reflexivity]. b2p. contradiction.
  - reflexivity.
  - exists row. split; [exact Hrow|exact Hs].
Defined.
End HotspotProfilesLaws.
