(* ===== verification/Ppp.v ===== *)
(** * PPP services and hooks ([web/src/features/ppp/*/api])

    One Module per feature directory: the functions of [service.ts] and the hooks of
    [queries.ts]. *)
From S2P Require Import Prelude JsString JsValue ApiErrors Http QueryCache QueryKeys.

Module PPPActive.
Definition base (rid : Z) : path := device rid [Lit "ppp"; Lit "active"].

Definition listPPPActive (routerId : Z) : call := api_get (base routerId) JUndef unwrapped.
Definition disconnectPPPActive (routerId : Z) (id : string) : call :=
  api_delete (base routerId ++ [enc id]) ignored.

Definition activePrefix (routerId : Z) : key := [JStr "ppp"; JStr "active"; JNum routerId].

Definition usePPPActive (routerId : Z) : query :=
  useQuery (qk.pppActive routerId) (listPPPActive routerId) (0 <? routerId).
Definition useDisconnectPPPActive (routerId : Z) : mutation string :=
  Mutation (disconnectPPPActive routerId) (invalidates [activePrefix routerId]).
End PPPActive.

Module PPPBilling.
Definition base (rid : Z) : path := device rid [Lit "ppp-profiles"].

Definition listPPPDbProfiles (routerId : Z) : call := api_get (base routerId) JUndef unwrapped.
Definition createPPPDbProfile (routerId : Z) (payload : jval) : call :=
  api_post (base routerId) payload unwrapped.
Definition updatePPPDbProfile (routerId id : Z) (payload : jval) : call :=
  api_put (base routerId ++ [num id]) payload unwrapped.
Definition removePPPDbProfile (routerId id : Z) : call :=
  api_delete (base routerId ++ [num id]) ignored.
Definition syncPPPDbProfiles (routerId : Z) : call :=
  api_post (base routerId ++ [Lit "sync"]) JUndef unwrapped.

Definition dbPrefix (routerId : Z) : key := [JStr "ppp"; JStr "profiles-db"; JNum routerId].

Definition usePPPDbProfiles (routerId : Z) : query :=
  useQuery (qk.pppProfilesDB routerId) (listPPPDbProfiles routerId) (0 <? routerId).
Definition useCreatePPPDbProfile (routerId : Z) : mutation jval :=
  Mutation (createPPPDbProfile routerId) (invalidates [dbPrefix routerId]).
Definition useUpdatePPPDbProfile (routerId : Z) : mutation (Z * jval) :=
  Mutation (fun '(id, payload) => updatePPPDbProfile routerId id payload)
    (invalidates [dbPrefix routerId]).
Definition useRemovePPPDbProfile (routerId : Z) : mutation Z :=
  Mutation (removePPPDbProfile routerId) (invalidates [dbPrefix routerId]).
Definition useSyncPPPDbProfiles (routerId : Z) : mutation unit :=
  Mutation (fun _ => syncPPPDbProfiles routerId) (invalidates [dbPrefix routerId]).
End PPPBilling.

Module PPPProfiles.
Definition base (rid : Z) : path := device rid [Lit "ppp"; Lit "profiles"].

Definition listPPPProfiles (routerId : Z) : call := api_get (base routerId) JUndef unwrapped.
Definition addPPPProfile (routerId : Z) (payload : jval) : call :=
  api_post (base routerId) payload unwrapped.
Definition updatePPPProfile (routerId : Z) (id : string) (patch : jval) : call :=
  api_put (base routerId ++ [enc id]) patch ignored.
Definition removePPPProfile (routerId : Z) (id : string) : call :=
  api_delete (base routerId ++ [enc id]) ignored.

Definition profilesPrefix (routerId : Z) : key := [JStr "ppp"; JStr "profiles"; JNum routerId].

Definition usePPPProfiles (routerId : Z) : query :=
  useQuery (qk.pppProfiles routerId) (listPPPProfiles routerId) (0 <? routerId).
Definition useAddPPPProfile (routerId : Z) : mutation jval :=
  Mutation (addPPPProfile routerId) (invalidates [profilesPrefix routerId]).
Definition useUpdatePPPProfile (routerId : Z) : mutation (string * jval) :=
  Mutation (fun '(id, patch) => updatePPPProfile routerId id patch)
    (invalidates [profilesPrefix routerId]).
Definition useRemovePPPProfile (routerId : Z) : mutation string :=
  Mutation (removePPPProfile routerId) (invalidates [profilesPrefix routerId]).
End PPPProfiles.

Module PPPSecrets.
Definition base (rid : Z) : path := device rid [Lit "ppp"; Lit "secrets"].

Definition listPPPSecrets (routerId : Z) : call := api_get (base routerId) JUndef unwrapped.
Definition addPPPSecret (routerId : Z) (payload : jval) : call :=
  api_post (base routerId) payload unwrapped.
Definition updatePPPSecret (routerId : Z) (id : string) (patch : jval) : call :=
  api_put (base routerId ++ [enc id]) patch ignored.
Definition setPPPSecretDisabled (routerId : Z) (id : string) (disabled : bool) : call :=
  api_patch (base routerId ++ [enc id; Lit "disabled"])
    (obj [("disabled", JBool disabled)]) ignored.
Definition removePPPSecret (routerId : Z) (id : string) : call :=
  api_delete (base routerId ++ [enc id]) ignored.
Definition batchRemovePPPSecrets (routerId : Z) (ids : list string) : call :=
  api_post (base routerId ++ [Lit "batch-delete"])
    (obj [("ids", JArr (JStr <$> ids))]) (unwrap_field "deleted").
Definition revealPPPSecretPassword (routerId : Z) (id : string) : call :=
  api_get (base routerId ++ [enc id; Lit "password"]) JUndef (unwrap_field "password").

Definition secretsPrefix (routerId : Z) : key := [JStr "ppp"; JStr "secrets"; JNum routerId].

Definition usePPPSecrets (routerId : Z) : query :=
  useQuery (qk.pppSecrets routerId) (listPPPSecrets routerId) (0 <? routerId).
Definition useAddPPPSecret (routerId : Z) : mutation jval :=
  Mutation (addPPPSecret routerId) (invalidates [secretsPrefix routerId]).
Definition useUpdatePPPSecret (routerId : Z) : mutation (string * jval) :=
  Mutation (fun '(id, patch) => updatePPPSecret routerId id patch)
    (invalidates [secretsPrefix routerId]).
Definition useSetPPPSecretDisabled (routerId : Z) : mutation (string * bool) :=
  Mutation (fun '(id, disabled) => setPPPSecretDisabled routerId id disabled)
    (invalidates [secretsPrefix routerId]).
Definition useRemovePPPSecret (routerId : Z) : mutation string :=
  Mutation (removePPPSecret routerId) (invalidates [secretsPrefix routerId]).
Definition useBatchRemovePPPSecrets (routerId : Z) : mutation (list string) :=
  Mutation (batchRemovePPPSecrets routerId) (invalidates [secretsPrefix routerId]).
End PPPSecrets.
