(* ===== verification/Device.v ===== *)
(** * Device services and hooks: network, traffic, system, log
    ([web/src/features/{network,traffic,system,log,reports}/api])

    One Module per feature directory: the functions of [service.ts] and the REST hooks
    of [queries.ts] (the stream hooks are in Sse and Traffic). *)
From S2P Require Import Prelude JsString JsValue ApiErrors Http QueryCache QueryKeys.

Module Network.
Definition base (rid : Z) : path := device rid [Lit "network"].

Definition listPools (routerId : Z) : call :=
  api_get (base routerId ++ [Lit "pools"]) JUndef unwrapped.
Definition createPool (routerId : Z) (payload : jval) : call :=
  api_post (base routerId ++ [Lit "pools"]) payload ignored.
Definition deletePool (routerId : Z) (id : string) : call :=
  api_delete (base routerId ++ [Lit "pools"; enc id]) ignored.
Definition listQueues (routerId : Z) : call :=
  api_get (base routerId ++ [Lit "queues"]) (obj [("dynamic", JStr "false")]) unwrapped.
Definition deleteQueue (routerId : Z) (id : string) : call :=
  api_delete (base routerId ++ [Lit "queues"; enc id]) ignored.
Definition listDHCPLeases (routerId : Z) : call :=
  api_get (base routerId ++ [Lit "dhcp-leases"]) JUndef unwrapped.
Definition deleteDHCPLease (routerId : Z) (id : string) : call :=
  api_delete (base routerId ++ [Lit "dhcp-leases"; enc id]) ignored.
Definition arpByMac (routerId : Z) (mac : string) : call :=
  api_get (base routerId ++ [Lit "arp"]) (obj [("mac", JStr mac)]) unwrapped.

Definition usePools (routerId : Z) : query :=
  useQuery (qk.networkPools routerId) (listPools routerId) (0 <? routerId).
Definition useCreatePool (routerId : Z) : mutation jval :=
  Mutation (createPool routerId) (invalidates [qk.networkPools routerId]).
Definition useDeletePool (routerId : Z) : mutation string :=
  Mutation (deletePool routerId) (invalidates [qk.networkPools routerId]).
Definition useQueues (routerId : Z) : query :=
  useQuery (qk.networkQueues routerId) (listQueues routerId) (0 <? routerId).
Definition useDeleteQueue (routerId : Z) : mutation string :=
  Mutation (deleteQueue routerId) (invalidates [qk.networkQueues routerId]).
Definition useDHCPLeases (routerId : Z) : query :=
  useQuery (qk.dhcpLeases routerId) (listDHCPLeases routerId) (0 <? routerId).
Definition useDeleteDHCPLease (routerId : Z) : mutation string :=
  Mutation (deleteDHCPLease routerId) (invalidates [qk.dhcpLeases routerId]).
Definition useArpByMac (routerId : Z) (mac : string) : query :=
  useQuery (qk.networkArp routerId (Some mac)) (arpByMac routerId mac)
    ((0 <? routerId) && (0 <? Z.of_nat (String.length (trim mac)))).
End Network.

Module TrafficApi.
Definition base (rid : Z) : path := device rid [Lit "network"].
Definition historyBase (rid : Z) : path := device rid [Lit "history"].

Record HistoryRange : Type := Range { from : string; to : string; interval : string }.

Definition range_params (range : HistoryRange) : jval :=
  obj [("from", JStr (from range)); ("to", JStr (to range)); ("interval", JStr (interval range))].

Definition getInterfaceHistory (routerId : Z) (range : HistoryRange) : call :=
  api_get (historyBase routerId ++ [Lit "interfaces"]) (range_params range) unwrapped.
Definition getQueueHistory (routerId : Z) (range : HistoryRange) : call :=
  api_get (historyBase routerId ++ [Lit "queues"]) (range_params range) unwrapped.
Definition listInterfaces (routerId : Z) : call :=
  api_get (base routerId ++ [Lit "interfaces"]) JUndef unwrapped.
Definition getInterfaceTraffic (routerId : Z) (iface : string) : call :=
  api_get (base routerId ++ [Lit "traffic"; enc iface]) JUndef unwrapped.
Definition listQueues (routerId : Z) : call :=
  api_get (base routerId ++ [Lit "queues"]) JUndef unwrapped.
Definition listNATRules (routerId : Z) : call :=
  api_get (base routerId ++ [Lit "nat"]) JUndef unwrapped.
Definition listDHCPLeases (routerId : Z) : call :=
  api_get (base routerId ++ [Lit "dhcp"; Lit "leases"]) JUndef unwrapped.
Definition listIPPools (routerId : Z) : call :=
  api_get (base routerId ++ [Lit "pools"]) JUndef unwrapped.

Definition useInterfaces (routerId : Z) : query :=
  useQuery (qk.networkInterfaces routerId) (listInterfaces routerId) (0 <? routerId).
Definition useQueues (routerId : Z) : query :=
  useQuery (qk.networkQueues routerId) (listQueues routerId) (0 <? routerId).

Definition rangeKey (r : option HistoryRange) : string :=
  match r with
  | Some r => from r +:+ "|" +:+ to r +:+ "|" +:+ interval r
  | None => ""
  end.

(** [range!] is only reached when the query is enabled, that is with a range. *)
Definition useInterfaceHistory (routerId : Z) (range : option HistoryRange) : query :=
  useQuery (qk.interfaceHistory routerId (rangeKey range))
    (getInterfaceHistory routerId (range ?? Range "" "" ""))
    ((0 <? routerId) && bool_decide (is_Some range)).
Definition useQueueHistory (routerId : Z) (range : option HistoryRange) : query :=
  useQuery (qk.queueHistory routerId (rangeKey range))
    (getQueueHistory routerId (range ?? Range "" "" ""))
    ((0 <? routerId) && bool_decide (is_Some range)).
End TrafficApi.

Module System.
Definition base (rid : Z) : path := device rid [Lit "system"].

Definition getIdentity (rid : Z) : call := api_get (base rid ++ [Lit "identity"]) JUndef unwrapped.
Definition getResource (rid : Z) : call := api_get (base rid ++ [Lit "resource"]) JUndef unwrapped.
Definition getRouterboard (rid : Z) : call :=
  api_get (base rid ++ [Lit "routerboard"]) JUndef unwrapped.
Definition getClock (rid : Z) : call := api_get (base rid ++ [Lit "clock"]) JUndef unwrapped.
Definition getLicense (rid : Z) : call := api_get (base rid ++ [Lit "license"]) JUndef unwrapped.
Definition reboot (rid : Z) : call := api_post (base rid ++ [Lit "reboot"]) JUndef ignored.
Definition shutdown (rid : Z) : call := api_post (base rid ++ [Lit "shutdown"]) JUndef ignored.
Definition listScripts (rid : Z) : call := api_get (base rid ++ [Lit "scripts"]) JUndef unwrapped.
Definition createScript (rid : Z) (payload : jval) : call :=
  api_post (base rid ++ [Lit "scripts"]) payload ignored.
Definition deleteScript (rid : Z) (id : string) : call :=
  api_delete (base rid ++ [Lit "scripts"; enc id]) ignored.
Definition listSchedulers (rid : Z) : call :=
  api_get (base rid ++ [Lit "schedulers"]) JUndef unwrapped.
Definition createScheduler (rid : Z) (payload : jval) : call :=
  api_post (base rid ++ [Lit "schedulers"]) payload ignored.
Definition deleteScheduler (rid : Z) (id : string) : call :=
  api_delete (base rid ++ [Lit "schedulers"; enc id]) ignored.

Definition useSystemIdentity (rid : Z) : query :=
  useQuery (qk.systemIdentity rid) (getIdentity rid) (0 <? rid).
Definition useSystemResource (rid : Z) : query :=
  useQuery (qk.systemResource rid) (getResource rid) (0 <? rid).
Definition useSystemRouterboard (rid : Z) : query :=
  useQuery (qk.routerboard rid) (getRouterboard rid) (0 <? rid).
Definition useSystemClock (rid : Z) : query :=
  useQuery (qk.systemClock rid) (getClock rid) (0 <? rid).
Definition useSystemLicense (rid : Z) : query :=
  useQuery (qk.systemLicense rid) (getLicense rid) (0 <? rid).
Definition useReboot (rid : Z) : mutation unit := Mutation (fun _ => reboot rid) (invalidates []).
Definition useShutdown (rid : Z) : mutation unit :=
  Mutation (fun _ => shutdown rid) (invalidates []).
Definition useScripts (rid : Z) : query := useQuery (qk.scripts rid) (listScripts rid) (0 <? rid).
Definition useCreateScript (rid : Z) : mutation jval :=
  Mutation (createScript rid) (invalidates [qk.scripts rid]).
Definition useDeleteScript (rid : Z) : mutation string :=
  Mutation (deleteScript rid) (invalidates [qk.scripts rid]).
Definition useSchedulers (rid : Z) : query :=
  useQuery (qk.schedulers rid) (listSchedulers rid) (0 <? rid).
Definition useCreateScheduler (rid : Z) : mutation jval :=
  Mutation (createScheduler rid) (invalidates [qk.schedulers rid]).
Definition useDeleteScheduler (rid : Z) : mutation string :=
  Mutation (deleteScheduler rid) (invalidates [qk.schedulers rid]).
End System.

Module LogApi.
Definition listLogEntries (routerId : Z) : call :=
  api_get (device routerId [Lit "log"]) JUndef unwrapped.
Definition useLogBacklog (routerId : Z) : query :=
  useQuery [JStr "log"; JStr "backlog"; JNum routerId] (listLogEntries routerId) (0 <? routerId).
End LogApi.

Module Reports.
Definition base (rid : Z) : path := device rid [Lit "reports"; Lit "selling"].

Definition getSellingToday (rid : Z) : call :=
  api_get (base rid ++ [Lit "today"]) JUndef unwrapped.
Definition getSellingSummary (rid : Z) (month : option string) : call :=
  api_get (base rid ++ [Lit "summary"])
    (obj [("month", opt_str month); ("include_transactions", JBool true)]) unwrapped.
Definition getSelling (rid : Z) (month : option string) : call :=
  api_get (base rid) (obj [("month", opt_str month)]) unwrapped.

Definition useSellingToday (rid : Z) : query :=
  useQuery (qk.reportSellingToday rid) (getSellingToday rid) (0 <? rid).
Definition useSellingSummary (rid : Z) (month : option string) : query :=
  useQuery (qk.reportSellingSummary rid (obj [("month", opt_str month)]))
    (getSellingSummary rid month) (0 <? rid).
Definition useSelling (rid : Z) (month : option string) : query :=
  useQuery (qk.reportSelling rid (obj [("month", opt_str month)])) (getSelling rid month) (0 <? rid).
End Reports.
