(* ===== verification/Billing.v ===== *)
(** * Business services and hooks ([web/src/features/{customers,subscriptions,
    registrations,invoices,payments}/api])

    One Module per feature directory: the functions of [service.ts] and the hooks of
    [queries.ts]. *)
From S2P Require Import Prelude JsString JsValue ApiErrors Http QueryCache QueryKeys.

Module Customers.
Definition base : path := [Lit "customers"].

Definition listCustomers (filters : jval) : call := api_get base filters unwrapped.
Definition createCustomer (payload : jval) : call := api_post base payload unwrapped.
Definition updateCustomer (id : Z) (payload : jval) : call :=
  api_put (base ++ [num id]) payload unwrapped.
Definition removeCustomer (id : Z) : call := api_delete (base ++ [num id]) ignored.
Definition batchRemoveCustomers (ids : list Z) : call :=
  api_post (base ++ [Lit "batch-delete"]) (obj [("ids", JArr (JNum <$> ids))])
    (unwrap_field "deleted").
Definition revealPortalPassword (id : Z) : call :=
  api_get (base ++ [num id; Lit "portal-password"]) JUndef (unwrap_field "password").
Definition resetPortalPassword (id : Z) : call :=
  api_post (base ++ [num id; Lit "portal-password"; Lit "reset"]) JUndef (unwrap_field "password").

Definition useCustomers (filters : jval) : query :=
  useQuery (qk.customers filters) (listCustomers filters) true.
Definition useCreateCustomer : mutation jval :=
  Mutation createCustomer (invalidates [[JStr "customers"]]).
Definition useUpdateCustomer : mutation (Z * jval) :=
  Mutation (fun '(id, payload) => updateCustomer id payload) (invalidates [[JStr "customers"]]).
Definition useRemoveCustomer : mutation Z :=
  Mutation removeCustomer (invalidates [[JStr "customers"]]).
Definition useBatchRemoveCustomers : mutation (list Z) :=
  Mutation batchRemoveCustomers (invalidates [[JStr "customers"]]).
End Customers.

Module Subscriptions.
Definition base : path := [Lit "subscriptions"].

Definition listSubscriptions (filters : jval) : call := api_get base filters unwrapped.
Definition createSubscription (payload : jval) : call := api_post base payload unwrapped.
Definition updateSubscription (id : Z) (payload : jval) : call :=
  api_put (base ++ [num id]) payload unwrapped.
Definition patchSubscriptionStatus (id : Z) (status : string) : call :=
  api_patch (base ++ [num id; Lit "status"]) (obj [("status", JStr status)]) unwrapped.
Definition reconcileSubscription (id : Z) : call :=
  api_post (base ++ [num id; Lit "reconcile"]) JUndef unwrapped.
Definition removeSubscription (id : Z) : call := api_delete (base ++ [num id]) ignored.
Definition batchRemoveSubscriptions (ids : list Z) : call :=
  api_post (base ++ [Lit "batch-delete"]) (obj [("ids", JArr (JNum <$> ids))])
    (unwrap_field "deleted").
Definition revealSubscriptionPassword (id : Z) : call :=
  api_get (base ++ [num id; Lit "password"]) JUndef (unwrap_field "password").
Definition listSubscriptionsByDevice (deviceId : Z) : call :=
  api_get (device deviceId [Lit "subscriptions"]) JUndef unwrapped.

Definition useSubscriptions (filters : jval) : query :=
  useQuery (qk.subscriptions filters) (listSubscriptions filters) true.
Definition useCreateSubscription : mutation jval :=
  Mutation createSubscription (invalidates [[JStr "subscriptions"]]).
Definition useUpdateSubscription : mutation (Z * jval) :=
  Mutation (fun '(id, payload) => updateSubscription id payload)
    (invalidates [[JStr "subscriptions"]]).
Definition usePatchSubscriptionStatus : mutation (Z * string) :=
  Mutation (fun '(id, status) => patchSubscriptionStatus id status)
    (invalidates [[JStr "subscriptions"]]).
Definition useReconcileSubscription : mutation Z :=
  Mutation reconcileSubscription (invalidates [[JStr "subscriptions"]]).
Definition useRemoveSubscription : mutation Z :=
  Mutation removeSubscription (invalidates [[JStr "subscriptions"]]).
Definition useBatchRemoveSubscriptions : mutation (list Z) :=
  Mutation batchRemoveSubscriptions (invalidates [[JStr "subscriptions"]]).
Definition useSubscriptionsByDevice (deviceId : Z) : query :=
  useQuery (qk.subscriptionsByDevice deviceId) (listSubscriptionsByDevice deviceId) (0 <? deviceId).
End Subscriptions.

Module Registrations.
Definition base : path := [Lit "registrations"].

Definition listRegistrations (filters : jval) : call := api_get base filters unwrapped.
Definition approveRegistration (id : Z) (payload : jval) : call :=
  api_post (base ++ [num id; Lit "approve"]) payload unwrapped.
Definition rejectRegistration (id : Z) (payload : jval) : call :=
  api_post (base ++ [num id; Lit "reject"]) payload unwrapped.
Definition assignRegistration (id : Z) (payload : jval) : call :=
  api_put (base ++ [num id; Lit "assign"]) payload unwrapped.
Definition completeInstall (id : Z) (payload : jval) : call :=
  api_post (base ++ [num id; Lit "complete-install"]) payload unwrapped.

Definition useRegistrations (filters : jval) : query :=
  useQuery (qk.registrations filters) (listRegistrations filters) true.

(** The three lists every decision on a registration invalidates. *)
Definition useInvalidate {V} : jval -> V -> list cache_op :=
  invalidates [[JStr "registrations"]; [JStr "customers"]; [JStr "subscriptions"]].

Definition useApproveRegistration : mutation (Z * jval) :=
  Mutation (fun '(id, payload) => approveRegistration id payload) useInvalidate.
Definition useRejectRegistration : mutation (Z * jval) :=
  Mutation (fun '(id, payload) => rejectRegistration id payload) useInvalidate.
Definition useAssignRegistration : mutation (Z * jval) :=
  Mutation (fun '(id, payload) => assignRegistration id payload) useInvalidate.
Definition useCompleteInstall : mutation (Z * jval) :=
  Mutation (fun '(id, payload) => completeInstall id payload) useInvalidate.
End Registrations.

Module Invoices.
Definition base : path := [Lit "invoices"].

Definition listInvoices (filters : jval) : call := api_get base filters unwrapped.
Definition getInvoice (id : Z) : call := api_get (base ++ [num id]) JUndef unwrapped.
Definition generateInvoice (payload : jval) : call :=
  api_post (base ++ [Lit "generate"]) payload unwrapped.
Definition cancelInvoice (id : Z) : call :=
  api_post (base ++ [num id; Lit "cancel"]) JUndef unwrapped.

Definition useInvoices (filters : jval) : query :=
  useQuery (qk.invoices filters) (listInvoices filters) true.
Definition useInvoice (id : Z) : query := useQuery (qk.invoice id) (getInvoice id) (0 <? id).
Definition useGenerateInvoice : mutation jval :=
  Mutation generateInvoice (invalidates [[JStr "invoices"]]).
Definition useCancelInvoice : mutation Z :=
  Mutation cancelInvoice (invalidates [[JStr "invoices"]; [JStr "payments"]]).
End Invoices.

Module Payments.
Definition base : path := [Lit "payments"].

Definition listPayments (filters : jval) : call := api_get base filters unwrapped.
Definition getPayment (id : Z) : call := api_get (base ++ [num id]) JUndef unwrapped.
Definition createPayment (payload : jval) : call := api_post base payload unwrapped.
Definition confirmPayment (id : Z) : call :=
  api_post (base ++ [num id; Lit "confirm"]) JUndef unwrapped.
Definition rejectPayment (id : Z) (reason : option string) : call :=
  api_post (base ++ [num id; Lit "reject"]) (obj [("reason", JStr (reason ?? ""))]) unwrapped.
Definition collectByCode (payload : jval) : call :=
  api_post (base ++ [Lit "collect"]) payload unwrapped.

Definition usePayments (filters : jval) : query :=
  useQuery (qk.payments filters) (listPayments filters) true.
Definition useInvoicePayments (invoiceId : Z) : query :=
  useQuery (qk.invoicePayments invoiceId)
    (listPayments (obj [("invoice_id", JNum invoiceId)])) (0 <? invoiceId).
Definition useCreatePayment : mutation jval :=
  Mutation createPayment (invalidates [[JStr "payments"]; [JStr "invoices"]]).
Definition useConfirmPayment : mutation Z :=
  Mutation confirmPayment
    (invalidates [[JStr "payments"]; [JStr "invoices"]; [JStr "subscriptions"]]).
Definition useRejectPayment : mutation (Z * option string) :=
  Mutation (fun '(id, reason) => rejectPayment id reason)
    (invalidates [[JStr "payments"]; [JStr "invoices"]]).
Definition useCollectByCode : mutation jval :=
  Mutation collectByCode
    (invalidates [[JStr "payments"]; [JStr "invoices"]; [JStr "subscriptions"]]).
End Payments.
