(* ===== verification/VoucherApi.v ===== *)
(** * Voucher services and hooks ([web/src/features/voucher/*/api])

    One Module per feature directory: the functions of [service.ts] and the hooks of
    [queries.ts]. *)
From S2P Require Import Prelude JsString JsValue ApiErrors Http QueryCache QueryKeys.

Module Generate.
Definition base (rid : Z) : path := device rid [Lit "hotspot"; Lit "vouchers"].

Definition listHotspotServers (routerId : Z) : call :=
  api_get (device routerId [Lit "hotspot"; Lit "servers"]) JUndef unwrapped.
Definition generateVoucher (routerId : Z) (params : jval) : call :=
  api_post (base routerId ++ [Lit "generate"]) params unwrapped.
Definition getCachedVouchers (routerId : Z) (gencode : string) : call :=
  api_post (base routerId ++ [Lit "cache"]) (obj [("gencode", JStr gencode)]) unwrapped.

Definition voucherSessionPrefix (routerId : Z) : key :=
  [JStr "voucher"; JStr "session"; JNum routerId].

Definition useHotspotServers (routerId : Z) : query :=
  useQuery [JStr "hotspot"; JStr "servers"; JNum routerId] (listHotspotServers routerId)
    (0 <? routerId).
Definition useCachedVouchers (routerId : Z) (gencode : string) : query :=
  useQuery (qk.voucherSession routerId gencode) (getCachedVouchers routerId gencode)
    ((0 <? routerId) && (0 <? Z.of_nat (String.length gencode))).

(** [data.gencode] of the response, as it goes into the key. *)
Definition gencode_of (data : jval) : string :=
  match get "gencode" data with JStr s => s | _ => "" end.

Definition useGenerateVoucher (routerId : Z) : mutation jval :=
  Mutation (generateVoucher routerId)
    (fun data _ => [SetData (qk.voucherSession routerId (gencode_of data)) data;
                    Invalidate (voucherSessionPrefix routerId)]).
End Generate.

Module PrintRender.
Definition voucherBase (rid : Z) : path := device rid [Lit "vouchers"].

Definition getPrintData (routerId : Z) (gencode : string) : call :=
  api_get (voucherBase routerId ++ [Lit "print-data"]) (obj [("gencode", JStr gencode)]) unwrapped.
Definition printVouchers (routerId : Z) (body : jval) : call :=
  api_post (voucherBase routerId ++ [Lit "print"]) body raw.
Definition renderTemplate (body : jval) : call :=
  api_post [Lit "templates"; Lit "render"] body raw.

Definition usePrintData (routerId : Z) (gencode : string) : query :=
  useQuery (qk.voucherPrintData routerId gencode) (getPrintData routerId gencode)
    ((0 <? routerId) && (0 <? Z.of_nat (String.length gencode))).
Definition usePrintVouchers (routerId : Z) : mutation jval :=
  Mutation (printVouchers routerId) (invalidates []).
Definition useRenderTemplate : mutation jval := Mutation renderTemplate (invalidates []).
End PrintRender.

Module QuickPrint.
Definition base (rid : Z) : path := device rid [Lit "quick-print"].

Definition listQuickPrintPackages (routerId : Z) : call :=
  api_get (base routerId) JUndef unwrapped.
Definition getQuickPrintPackage (routerId : Z) (name : string) : call :=
  api_get (base routerId ++ [enc name]) JUndef unwrapped.
Definition createQuickPrintPackage (routerId : Z) (body : jval) : call :=
  api_post (base routerId) body ignored.
Definition updateQuickPrintPackage (routerId : Z) (name : string) (body : jval) : call :=
  api_put (base routerId ++ [enc name]) body ignored.
Definition removeQuickPrintPackage (routerId : Z) (name : string) : call :=
  api_delete (base routerId ++ [enc name]) ignored.

Definition packagesPrefix (routerId : Z) : key :=
  [JStr "quick-print"; JStr "packages"; JNum routerId].

Definition useQuickPrintPackages (routerId : Z) : query :=
  useQuery (qk.quickPrintPackages routerId) (listQuickPrintPackages routerId) (0 <? routerId).
Definition useQuickPrintPackage (routerId : Z) (name : string) : query :=
  useQuery (qk.quickPrintPackage routerId name) (getQuickPrintPackage routerId name)
    ((0 <? routerId) && (0 <? Z.of_nat (String.length name))).
Definition useCreateQuickPrintPackage (routerId : Z) : mutation jval :=
  Mutation (createQuickPrintPackage routerId) (invalidates [packagesPrefix routerId]).
Definition useUpdateQuickPrintPackage (routerId : Z) : mutation (string * jval) :=
  Mutation (fun '(name, body) => updateQuickPrintPackage routerId name body)
    (invalidates [packagesPrefix routerId]).
Definition useRemoveQuickPrintPackage (routerId : Z) : mutation string :=
  Mutation (removeQuickPrintPackage routerId) (invalidates [packagesPrefix routerId]).
End QuickPrint.

Module Sales.
Definition reportsBase (rid : Z) : path := device rid [Lit "reports"].

(** [{ date, ...filters }], [{ from, to, ...filters }]. *)
Definition spread (fs : list (string * jval)) (filters : jval) : jval :=
  obj (fs ++ match filters with JObj gs => gs | _ => [] end).

Definition recordSale (routerId : Z) (params : jval) : call :=
  api_post (reportsBase routerId ++ [Lit "sales"]) params ignored.
Definition importSales (routerId : Z) : call :=
  api_post (reportsBase routerId ++ [Lit "import"]) JUndef unwrapped.
Definition getDailyReport (routerId : Z) (date : string) (filters : jval) : call :=
  api_get (reportsBase routerId ++ [Lit "daily"]) (spread [("date", JStr date)] filters) unwrapped.
Definition getMonthlyReport (routerId year month : Z) : call :=
  api_get (reportsBase routerId ++ [Lit "monthly"])
    (obj [("year", JNum year); ("month", JNum month)]) unwrapped.
Definition getResumeReport (routerId year : Z) : call :=
  api_get (reportsBase routerId ++ [Lit "resume"]) (obj [("year", JNum year)]) unwrapped.
Definition getDashboardSummary (routerId : Z) : call :=
  api_get (reportsBase routerId ++ [Lit "summary"]) JUndef unwrapped.
Definition exportSalesCSV (routerId : Z) (from to : string) (filters : jval) : call :=
  api_get (reportsBase routerId ++ [Lit "export"; Lit "csv"])
    (spread [("from", JStr from); ("to", JStr to)] filters) raw.
Definition exportSalesExcel (routerId : Z) (from to : string) (filters : jval) : call :=
  api_get (reportsBase routerId ++ [Lit "export"; Lit "excel"])
    (spread [("from", JStr from); ("to", JStr to)] filters) raw.

Record SalesListParams : Type := SalesParams {
  p_from : string; p_to : string; p_page : Z; p_page_size : Z; p_rest : list (string * jval);
}.

Definition sales_params (p : SalesListParams) : jval :=
  obj ([("from", JStr (p_from p)); ("to", JStr (p_to p));
        ("page", JNum (p_page p)); ("page_size", JNum (p_page_size p))] ++ p_rest p).

Definition listSales (routerId : Z) (params : SalesListParams) : call :=
  api_get (reportsBase routerId ++ [Lit "sales"]) (sales_params params) unwrapped.

Definition reportPrefix : key := [JStr "report"].
Definition voucherSessionPrefix (rid : Z) : key := [JStr "voucher"; JStr "session"; JNum rid].
Definition salesListPrefix (rid : Z) : key := [JStr "voucher"; JStr "sales"; JNum rid].

Definition invalidateReports {V} (routerId : Z) : jval -> V -> list cache_op :=
  invalidates [reportPrefix; voucherSessionPrefix routerId; salesListPrefix routerId].

Definition useDailyReport (routerId : Z) (date : string) (filters : jval) : query :=
  useQuery (qk.reportDaily routerId date filters) (getDailyReport routerId date filters)
    ((0 <? routerId) && (0 <? Z.of_nat (String.length date))).
Definition useMonthlyReport (routerId year month : Z) : query :=
  useQuery (qk.reportMonthly routerId year month) (getMonthlyReport routerId year month)
    ((0 <? routerId) && (0 <? year) && (1 <=? month) && (month <=? 12)).
Definition useResumeReport (routerId year : Z) : query :=
  useQuery (qk.reportResume routerId year) (getResumeReport routerId year)
    ((0 <? routerId) && (0 <? year)).
Definition useDashboardSummary (routerId : Z) : query :=
  useQuery (qk.reportSummary routerId) (getDashboardSummary routerId) (0 <? routerId).
Definition useSalesList (routerId : Z) (params : SalesListParams) : query :=
  useQuery (qk.salesList routerId (sales_params params)) (listSales routerId params)
    ((0 <? routerId) && (0 <? Z.of_nat (String.length (p_from params))) &&
     (0 <? Z.of_nat (String.length (p_to params))) && (0 <? p_page params) &&
     (0 <? p_page_size params)).
Definition useRecordSale (routerId : Z) : mutation jval :=
  Mutation (recordSale routerId) (invalidateReports routerId).
Definition useImportSales (routerId : Z) : mutation unit :=
  Mutation (fun _ => importSales routerId) (invalidateReports routerId).
End Sales.
