(* ===== verification/Admin.v ===== *)
(** * Administration services and hooks ([web/src/features/{auth,admin,routers,settings,
    whatsapp,notification-center,message-templates,notifications,audit-logs}/api])

    One Module per feature directory: the functions of [service.ts] and the hooks of
    [queries.ts].  [Auth] also holds the session effects of login and logout, on the
    store of AuthStore. *)
From S2P Require Import Prelude JsString JsValue ApiErrors AuthStore Http QueryCache QueryKeys.

Module AuthApi.
Definition login (payload : jval) : call := api_post [Lit "auth"; Lit "login"] payload unwrapped.
Definition refreshToken (payload : jval) : call :=
  api_post [Lit "auth"; Lit "refresh"] payload unwrapped.
Definition logout (refreshToken : option string) : call :=
  api_post [Lit "auth"; Lit "logout"]
    (match refreshToken with
     | Some s => if String.eqb s "" then obj [] else obj [("refresh_token", JStr s)]
     | None => obj []
     end) ignored.
Definition getMe : call := api_get [Lit "auth"; Lit "me"] JUndef unwrapped.

(** The session effects. *)
Definition hydrateSession (accessToken refreshToken : string) (user : Auth.AuthUser)
    (b : browser) (s : Auth.AuthState) : browser * Auth.AuthState :=
  let '(b, s) := Auth.setAccessToken accessToken b s in
  let '(b, s) := Auth.setRefreshToken refreshToken b s in
  Auth.setUser (Some user) b s.
Definition clearSession (b : browser) (s : Auth.AuthState) : browser * Auth.AuthState :=
  Auth.reset b s.

Definition useLogin : mutation jval :=
  Mutation login (fun data _ => [SetData qk.currentUser (get "user" data)]).
(** [onSettled]: run after a success and after a failure alike. *)
Definition useLogout : mutation (option string) :=
  Mutation logout (fun _ _ => [Remove [JStr "auth"; JStr "me"]]).
Definition useCurrentUser (hasToken : bool) : query := useQuery qk.currentUser getMe hasToken.
End AuthApi.

Module AdminUsers.
Definition base : path := [Lit "auth"; Lit "users"].

Definition listAdminUsers : call := api_get base JUndef unwrapped.
Definition getAdminUser (id : Z) : call := api_get (base ++ [num id]) JUndef unwrapped.
Definition createAdminUser (body : jval) : call := api_post base body unwrapped.
Definition updateAdminUser (id : Z) (body : jval) : call :=
  api_put (base ++ [num id]) body unwrapped.
Definition deleteAdminUser (id : Z) : call := api_delete (base ++ [num id]) ignored.
Definition batchDeleteAdminUsers (ids : list Z) : call :=
  api_post (base ++ [Lit "batch-delete"]) (obj [("ids", JArr (JNum <$> ids))])
    (unwrap_field "deleted").

(** [data.id] of the response. *)
Definition id_of (data : jval) : Z := match get "id" data with JNum n => n | _ => 0 end.

Definition useAdminUsers : query := useQuery qk.adminUsers listAdminUsers true.
Definition useAdminUser (id : Z) : query :=
  useQuery (qk.adminUser id) (getAdminUser id) (0 <? id).
Definition useCreateAdminUser : mutation jval :=
  Mutation createAdminUser
    (fun data _ => [SetData (qk.adminUser (id_of data)) data; Invalidate qk.adminUsers]).
Definition useUpdateAdminUser : mutation (Z * jval) :=
  Mutation (fun '(id, body) => updateAdminUser id body)
    (fun data _ => [SetData (qk.adminUser (id_of data)) data; Invalidate qk.adminUsers]).
Definition useDeleteAdminUser : mutation Z :=
  Mutation deleteAdminUser
    (fun _ id => [Remove (qk.adminUser id); Invalidate qk.adminUsers]).
Definition useBatchDeleteAdminUsers : mutation (list Z) :=
  Mutation batchDeleteAdminUsers (invalidates [qk.adminUsers]).
End AdminUsers.

Module Routers.
Definition base : path := [Lit "devices"].

Definition listRouters : call := api_get base JUndef unwrapped.
Definition getRouter (id : Z) : call := api_get (base ++ [num id]) JUndef unwrapped.
Definition createRouter (body : jval) : call := api_post base body unwrapped.
Definition updateRouter (id : Z) (body : jval) : call := api_put (base ++ [num id]) body unwrapped.
Definition deleteRouter (id : Z) : call := api_delete (base ++ [num id]) ignored.

Definition useRouters : query := useQuery qk.routers listRouters true.
Definition useRouter (id : Z) : query := useQuery (qk.router id) (getRouter id) (0 <? id).
Definition useCreateRouter : mutation jval :=
  Mutation createRouter
    (fun data _ => [SetData (qk.router (AdminUsers.id_of data)) data; Invalidate qk.routers]).
Definition useUpdateRouter : mutation (Z * jval) :=
  Mutation (fun '(id, body) => updateRouter id body)
    (fun data _ => [SetData (qk.router (AdminUsers.id_of data)) data; Invalidate qk.routers]).
Definition useDeleteRouter : mutation Z :=
  Mutation deleteRouter (fun _ id => [Remove (qk.router id); Invalidate qk.routers]).
End Routers.

Module Settings.
Definition listSettings : call := api_get [Lit "settings"] JUndef unwrapped.
Definition updateSetting (k value : string) : call :=
  api_put [Lit "settings"; enc k] (obj [("value", JStr value)]) ignored.
Definition testPaymentGateway : call :=
  api_post [Lit "settings"; Lit "payment-gateway"; Lit "test"] JUndef raw.

Definition useSystemSettings : query := useQuery qk.settings listSettings true.
Definition useUpdateSetting : mutation (string * string) :=
  Mutation (fun '(k, value) => updateSetting k value) (invalidates [qk.settings]).
Definition useTestPaymentGateway : mutation unit :=
  Mutation (fun _ => testPaymentGateway) (invalidates []).
End Settings.

Module Account.
Definition getMe : call := api_get [Lit "auth"; Lit "me"] JUndef unwrapped.
Definition updateMe (payload : jval) : call := api_put [Lit "auth"; Lit "me"] payload unwrapped.

Definition meKey : key := [JStr "me"].
Definition useMe : query := useQuery meKey getMe true.
Definition useUpdateMe : mutation jval := Mutation updateMe (invalidates [meKey]).
End Account.

(** [all.filter((s) => p(s.key))] on the unwrapped settings: [Throw] is the [TypeError] of
    a payload that is no list or holds a row without a text key. *)
Fixpoint filter_settings (p : string -> bool) (l : list jval) : result jval (list jval) :=
  match l with
  | [] => Ok []
  | s :: l' =>
      match get "key" s with
      | JStr k => rs ← filter_settings p l'; Ok (if p k then s :: rs else rs)
      | _ => Throw (JStr "TypeError")
      end
  end.

Definition read_settings (p : string -> bool) (body : jval) : result jval jval :=
  all ← unwrap body;
  match all with
  | JArr l => rs ← filter_settings p l; Ok (JArr rs)
  | _ => Throw (JStr "TypeError")
  end.

(** The [catch] of [getWhatsAppQR]: a 409 answer means there is no code to show. *)
Definition getWhatsAppQR_catch (err : jserror) : result jserror jval :=
  match err with
  | AxiosErr _ (Some _) (Some 409) => Ok JNull
  | _ => Throw err
  end.

Module WhatsApp.
Definition getWhatsAppStatus : call := api_get [Lit "whatsapp"; Lit "status"] JUndef unwrapped.
Definition getWhatsAppQR : call := api_get [Lit "whatsapp"; Lit "qr"] JUndef unwrapped.
Definition logoutWhatsApp : call := api_post [Lit "whatsapp"; Lit "logout"] JUndef ignored.
Definition sendWhatsAppTest (payload : jval) : call :=
  api_post [Lit "whatsapp"; Lit "test"] payload unwrapped.

Definition NOTIF_PREFIX : string := "notification.".
Definition getNotificationSettings : call :=
  api_get [Lit "settings"] JUndef (read_settings (startsWith NOTIF_PREFIX)).
Definition updateSetting (k value : string) : call :=
  api_put [Lit "settings"; Var k] (obj [("value", JStr value)]) ignored.

Definition useWhatsAppStatus : query := useQuery qk.whatsappStatus getWhatsAppStatus true.
Definition useWhatsAppQR (enabled : bool) : query := useQuery qk.whatsappQR getWhatsAppQR enabled.
Definition useLogoutWhatsApp : mutation unit :=
  Mutation (fun _ => logoutWhatsApp) (invalidates [[JStr "whatsapp"]]).
Definition useSendWhatsAppTest : mutation jval := Mutation sendWhatsAppTest (invalidates []).
Definition useNotificationSettings : query := useQuery qk.settings getNotificationSettings true.
Definition useUpdateSetting : mutation (string * string) :=
  Mutation (fun '(k, value) => updateSetting k value) (invalidates [[JStr "settings"]]).
End WhatsApp.

Module NotificationCenter.
Definition getWhatsAppStatus : call := api_get [Lit "whatsapp"; Lit "status"] JUndef unwrapped.
Definition getWhatsAppQR : call := api_get [Lit "whatsapp"; Lit "qr"] JUndef unwrapped.
Definition pairWhatsAppPhone (phone : string) : call :=
  api_post [Lit "whatsapp"; Lit "pair-phone"] (obj [("phone", JStr phone)]) unwrapped.
Definition logoutWhatsApp : call := api_post [Lit "whatsapp"; Lit "logout"] JUndef ignored.
Definition getWhatsAppContacts : call := api_get [Lit "whatsapp"; Lit "contacts"] JUndef unwrapped.
Definition getWhatsAppGroups : call := api_get [Lit "whatsapp"; Lit "groups"] JUndef unwrapped.
Definition sendWhatsAppTest (payload : jval) : call :=
  api_post [Lit "whatsapp"; Lit "test"] payload unwrapped.
Definition listNotifEvents : call := api_get [Lit "notification-events"] JUndef unwrapped.
Definition updateNotifEvent (event : string) (payload : jval) : call :=
  api_put [Lit "notification-events"; Var event] payload ignored.
Definition getNotifSettings : call :=
  api_get [Lit "settings"] JUndef (read_settings (fun k =>
    startsWith "notification." k && negb (startsWith "notification.event." k))).
Definition updateSetting (k value : string) : call :=
  api_put [Lit "settings"; Var k] (obj [("value", JStr value)]) ignored.
Definition sendTelegramTest (payload : jval) : call :=
  api_post [Lit "telegram"; Lit "test"] payload unwrapped.

Definition useWhatsAppStatus : query := useQuery qk.whatsappStatus getWhatsAppStatus true.
Definition useWhatsAppQR (enabled : bool) : query := useQuery qk.whatsappQR getWhatsAppQR enabled.
Definition usePairWhatsAppPhone : mutation string := Mutation pairWhatsAppPhone (invalidates []).
Definition useLogoutWhatsApp : mutation unit :=
  Mutation (fun _ => logoutWhatsApp) (invalidates [[JStr "whatsapp"]]).
Definition useWhatsAppContacts (enabled : bool) : query :=
  useQuery qk.whatsappContacts getWhatsAppContacts enabled.
Definition useWhatsAppGroups (enabled : bool) : query :=
  useQuery qk.whatsappGroups getWhatsAppGroups enabled.
Definition useSendWhatsAppTest : mutation jval := Mutation sendWhatsAppTest (invalidates []).
Definition useNotifEvents : query := useQuery qk.notifEvents listNotifEvents true.
Definition useUpdateNotifEvent : mutation (string * jval) :=
  Mutation (fun '(event, payload) => updateNotifEvent event payload) (invalidates [qk.notifEvents]).
Definition useNotifSettings : query :=
  useQuery (qk.settings ++ [JStr "notification-group"]) getNotifSettings true.
Definition useUpdateSetting : mutation (string * string) :=
  Mutation (fun '(k, value) => updateSetting k value) (invalidates [[JStr "settings"]]).
Definition useSendTelegramTest : mutation jval := Mutation sendTelegramTest (invalidates []).
End NotificationCenter.

Module MessageTemplates.
Definition base : path := [Lit "message-templates"].
Definition listMessageTemplates : call := api_get base JUndef unwrapped.
Definition updateMessageTemplate (slug : string) (payload : jval) : call :=
  api_put (base ++ [Var slug]) payload unwrapped.
Definition useMessageTemplates : query := useQuery qk.messageTemplates listMessageTemplates true.
Definition useUpdateMessageTemplate : mutation (string * jval) :=
  Mutation (fun '(slug, payload) => updateMessageTemplate slug payload)
    (invalidates [[JStr "message-templates"]]).
End MessageTemplates.

Module Notifications.
Definition listNotifications (filters : jval) : call :=
  api_get [Lit "notifications"] filters unwrapped.
Definition useNotifications (filters : jval) : query :=
  useQuery (qk.notificationsLog filters) (listNotifications filters) true.
End Notifications.

Module AuditLogs.
Definition listAuditLogs (filters : jval) : call := api_get [Lit "audit-logs"] filters unwrapped.
Definition useAuditLogs (filters : jval) : query :=
  useQuery (qk.auditLogs filters) (listAuditLogs filters) true.
End AuditLogs.
