(* ===== verification/PortalApi.v ===== *)
(** * Customer portal and public pages ([web/src/features/{customer-portal/*,
    public-register}/api])

    The portal's services use [portalApiClient]; login and the public registration use
    bare axios instances. *)
From S2P Require Import Prelude JsString JsValue ApiErrors Http QueryCache QueryKeys.

Definition portal_get (p : path) (params : jval) : call :=
  Call (Req PortalApi GET p params JUndef) unwrapped.
Definition portal_post (p : path) (body : jval) (rd : jval -> result jval jval) : call :=
  Call (Req PortalApi POST p JUndef body) rd.

Module PortalAuth.
Definition customerLogin (payload : jval) : call :=
  Call (Req PublicApi POST [Lit "customer"; Lit "login"] JUndef payload) unwrapped.
Definition useCustomerLogin : mutation jval := Mutation customerLogin (invalidates []).
End PortalAuth.

Module PortalHome.
Definition getPortalMe : call := portal_get [Lit "customer"; Lit "me"] JUndef.
Definition usePortalMe : query := useQuery qk.portalMe getPortalMe true.
End PortalHome.

Module PortalInvoices.
Definition listPortalInvoices (filters : jval) : call :=
  portal_get [Lit "customer"; Lit "invoices"] filters.
Definition getPortalInvoice (id : Z) : call :=
  portal_get [Lit "customer"; Lit "invoices"; num id] JUndef.
Definition initiateOnlinePayment (invoiceId : Z) : call :=
  portal_post [Lit "customer"; Lit "invoices"; num invoiceId; Lit "pay"] JUndef unwrapped.
Definition getPaymentGatewayStatus : call :=
  portal_get [Lit "customer"; Lit "payment-gateway"; Lit "status"] JUndef.
(** The body is the form data with the one field [file]. *)
Definition uploadProof (file : jval) : call :=
  portal_post [Lit "customer"; Lit "upload"] (obj [("file", file)]) unwrapped.
Definition createPortalPayment (invoiceId : Z) (input : jval) : call :=
  portal_post [Lit "customer"; Lit "invoices"; num invoiceId; Lit "pay"] input unwrapped.

Definition usePortalInvoices (filters : jval) : query :=
  useQuery (qk.portalInvoices filters) (listPortalInvoices filters) true.
Definition usePortalInvoice (id : Z) : query :=
  useQuery (qk.portalInvoice id) (getPortalInvoice id) (0 <? id).
Definition useInitiateOnlinePayment : mutation Z := Mutation initiateOnlinePayment (invalidates []).
Definition usePaymentGatewayStatus : query :=
  useQuery [JStr "portal"; JStr "payment-gateway"; JStr "status"] getPaymentGatewayStatus true.
Definition useUploadProof : mutation jval := Mutation uploadProof (invalidates []).
Definition useCreatePortalPayment : mutation (Z * jval) :=
  Mutation (fun '(invoiceId, input) => createPortalPayment invoiceId input) (invalidates []).
End PortalInvoices.

Module PortalPayments.
Definition listPortalPayments : call := portal_get [Lit "customer"; Lit "payments"] JUndef.
Definition usePortalPayments : query := useQuery qk.portalPayments listPortalPayments true.
End PortalPayments.

Module PortalProfile.
Definition getPortalProfile : call := portal_get [Lit "customer"; Lit "me"] JUndef.
Definition changePortalPassword (payload : jval) : call :=
  portal_post [Lit "customer"; Lit "change-password"] payload ignored.
Definition useChangePortalPassword : mutation jval :=
  Mutation changePortalPassword (invalidates [qk.portalMe]).
End PortalProfile.

Module PortalSubscriptions.
Definition listPortalSubscriptions : call := portal_get [Lit "customer"; Lit "subscriptions"] JUndef.
Definition getPortalSubscriptionStatus (id : Z) : call :=
  portal_get [Lit "customer"; Lit "subscriptions"; num id; Lit "status"] JUndef.
Definition usePortalSubscriptions : query :=
  useQuery qk.portalSubscriptions listPortalSubscriptions true.
Definition usePortalSubscriptionStatus (id : Z) : query :=
  useQuery (qk.portalSubscription id) (getPortalSubscriptionStatus id) (0 <? id).
End PortalSubscriptions.

Module PublicRegister.
(** [all.filter((p) => p.service_type === serviceType)] when a type is given. *)
Definition of_service_type (serviceType : option string) (all : jval) : result jval jval :=
  match serviceType with
  | None => Ok all
  | Some t =>
      if String.eqb t "" then Ok all
      else match all with
           | JArr l =>
               if existsb (fun p => match p with JUndef | JNull => true | _ => false end) l
               then Throw (JStr "TypeError")
               else Ok (JArr (filter (fun p => get "service_type" p = JStr t) l))
           | _ => Throw (JStr "TypeError")
           end
  end.

Definition getPublicPackages (serviceType : option string) : call :=
  Call (Req PublicApi GET [Lit "public"; Lit "packages"] JUndef JUndef)
    (fun body => all ← unwrap body; of_service_type serviceType all).
Definition submitRegistration (payload : jval) : call :=
  Call (Req PublicApi POST [Lit "public"; Lit "registrations"] JUndef payload) unwrapped.

Definition usePublicPackages : query :=
  useQuery (qk.publicPackages None) (getPublicPackages None) true.
Definition useSubmitRegistration : mutation jval := Mutation submitRegistration (invalidates []).
End PublicRegister.
