(* ===== verification/Hooks.v ===== *)
(** * All hooks of the client

    [query_hook] and [mutation_hook] enumerate the hooks of the feature modules with
    their arguments ([vars] are the variables of a mutation); [query_of],
    [mutation_call] and [mutation_ops] give what each hands to the query library.
    [direct_call] are the service functions the pages call without a hook. *)
From S2P Require Import Prelude JsString JsValue Http QueryCache QueryKeys.
From S2P Require Import Hotspot Ppp Device Billing VoucherApi Admin PortalApi.

Inductive query_hook : Type :=
| Q_HotspotActive_HotspotActive (routerId : Z)
| Q_HotspotBilling_HotspotDbProfiles (routerId : Z) (filters : jval)
| Q_HotspotBindings_HotspotBindings (routerId : Z)
| Q_HotspotCookies_HotspotCookies (routerId : Z)
| Q_HotspotHosts_HotspotHosts (routerId : Z)
| Q_HotspotInactive_HotspotInactive (routerId : Z)
| Q_HotspotInactive_HotspotInactiveCount (routerId : Z)
| Q_HotspotServers_HotspotServers (routerId : Z)
| Q_HotspotUsers_HotspotUsers (routerId : Z) (filters : jval)
| Q_HotspotUsers_HotspotUserCount (routerId : Z) (profile : option string)
| Q_HotspotUsers_HotspotUser (routerId : Z) (id : string)
| Q_HotspotProfiles_HotspotProfiles (routerId : Z)
| Q_HotspotProfiles_HotspotProfile (routerId : Z) (id : string)
| Q_PPPActive_PPPActive (routerId : Z)
| Q_PPPBilling_PPPDbProfiles (routerId : Z)
| Q_PPPProfiles_PPPProfiles (routerId : Z)
| Q_PPPSecrets_PPPSecrets (routerId : Z)
| Q_Network_Pools (routerId : Z)
| Q_Network_Queues (routerId : Z)
| Q_Network_DHCPLeases (routerId : Z)
| Q_Network_ArpByMac (routerId : Z) (mac : string)
| Q_TrafficApi_Interfaces (routerId : Z)
| Q_TrafficApi_Queues (routerId : Z)
| Q_TrafficApi_InterfaceHistory (routerId : Z) (range : option TrafficApi.HistoryRange)
| Q_TrafficApi_QueueHistory (routerId : Z) (range : option TrafficApi.HistoryRange)
| Q_System_SystemIdentity (rid : Z)
| Q_System_SystemResource (rid : Z)
| Q_System_SystemRouterboard (rid : Z)
| Q_System_SystemClock (rid : Z)
| Q_System_SystemLicense (rid : Z)
| Q_System_Scripts (rid : Z)
| Q_System_Schedulers (rid : Z)
| Q_LogApi_LogBacklog (routerId : Z)
| Q_Reports_SellingToday (rid : Z)
| Q_Reports_SellingSummary (rid : Z) (month : option string)
| Q_Reports_Selling (rid : Z) (month : option string)
| Q_Customers_Customers (filters : jval)
| Q_Subscriptions_Subscriptions (filters : jval)
| Q_Subscriptions_SubscriptionsByDevice (deviceId : Z)
| Q_Registrations_Registrations (filters : jval)
| Q_Invoices_Invoices (filters : jval)
| Q_Invoices_Invoice (id : Z)
| Q_Payments_Payments (filters : jval)
| Q_Payments_InvoicePayments (invoiceId : Z)
| Q_Generate_HotspotServers (routerId : Z)
| Q_Generate_CachedVouchers (routerId : Z) (gencode : string)
| Q_PrintRender_PrintData (routerId : Z) (gencode : string)
| Q_QuickPrint_QuickPrintPackages (routerId : Z)
| Q_QuickPrint_QuickPrintPackage (routerId : Z) (name : string)
| Q_Sales_DailyReport (routerId : Z) (date : string) (filters : jval)
| Q_Sales_MonthlyReport (routerId : Z) (year : Z) (month : Z)
| Q_Sales_ResumeReport (routerId : Z) (year : Z)
| Q_Sales_DashboardSummary (routerId : Z)
| Q_Sales_SalesList (routerId : Z) (params : Sales.SalesListParams)
| Q_AuthApi_CurrentUser (hasToken : bool)
| Q_AdminUsers_AdminUsers
| Q_AdminUsers_AdminUser (id : Z)
| Q_Routers_Routers
| Q_Routers_Router (id : Z)
| Q_Settings_SystemSettings
| Q_Account_Me
| Q_WhatsApp_WhatsAppStatus
| Q_WhatsApp_WhatsAppQR (enabled : bool)
| Q_WhatsApp_NotificationSettings
| Q_NotificationCenter_WhatsAppStatus
| Q_NotificationCenter_WhatsAppQR (enabled : bool)
| Q_NotificationCenter_WhatsAppContacts (enabled : bool)
| Q_NotificationCenter_WhatsAppGroups (enabled : bool)
| Q_NotificationCenter_NotifEvents
| Q_NotificationCenter_NotifSettings
| Q_MessageTemplates_MessageTemplates
| Q_Notifications_Notifications (filters : jval)
| Q_AuditLogs_AuditLogs (filters : jval)
| Q_PortalHome_PortalMe
| Q_PortalInvoices_PortalInvoices (filters : jval)
| Q_PortalInvoices_PortalInvoice (id : Z)
| Q_PortalInvoices_PaymentGatewayStatus
| Q_PortalPayments_PortalPayments
| Q_PortalSubscriptions_PortalSubscriptions
| Q_PortalSubscriptions_PortalSubscriptionStatus (id : Z)
| Q_PublicRegister_PublicPackages.

Definition query_of (h : query_hook) : query :=
  match h with
  | Q_HotspotActive_HotspotActive routerId => HotspotActive.useHotspotActive routerId
  | Q_HotspotBilling_HotspotDbProfiles routerId filters => HotspotBilling.useHotspotDbProfiles routerId filters
  | Q_HotspotBindings_HotspotBindings routerId => HotspotBindings.useHotspotBindings routerId
  | Q_HotspotCookies_HotspotCookies routerId => HotspotCookies.useHotspotCookies routerId
  | Q_HotspotHosts_HotspotHosts routerId => HotspotHosts.useHotspotHosts routerId
  | Q_HotspotInactive_HotspotInactive routerId => HotspotInactive.useHotspotInactive routerId
  | Q_HotspotInactive_HotspotInactiveCount routerId => HotspotInactive.useHotspotInactiveCount routerId
  | Q_HotspotServers_HotspotServers routerId => HotspotServers.useHotspotServers routerId
  | Q_HotspotUsers_HotspotUsers routerId filters => HotspotUsers.useHotspotUsers routerId filters
  | Q_HotspotUsers_HotspotUserCount routerId profile => HotspotUsers.useHotspotUserCount routerId profile
  | Q_HotspotUsers_HotspotUser routerId id => HotspotUsers.useHotspotUser routerId id
  | Q_HotspotProfiles_HotspotProfiles routerId => HotspotProfiles.useHotspotProfiles routerId
  | Q_HotspotProfiles_HotspotProfile routerId id => HotspotProfiles.useHotspotProfile routerId id
  | Q_PPPActive_PPPActive routerId => PPPActive.usePPPActive routerId
  | Q_PPPBilling_PPPDbProfiles routerId => PPPBilling.usePPPDbProfiles routerId
  | Q_PPPProfiles_PPPProfiles routerId => PPPProfiles.usePPPProfiles routerId
  | Q_PPPSecrets_PPPSecrets routerId => PPPSecrets.usePPPSecrets routerId
  | Q_Network_Pools routerId => Network.usePools routerId
  | Q_Network_Queues routerId => Network.useQueues routerId
  | Q_Network_DHCPLeases routerId => Network.useDHCPLeases routerId
  | Q_Network_ArpByMac routerId mac => Network.useArpByMac routerId mac
  | Q_TrafficApi_Interfaces routerId => TrafficApi.useInterfaces routerId
  | Q_TrafficApi_Queues routerId => TrafficApi.useQueues routerId
  | Q_TrafficApi_InterfaceHistory routerId range => TrafficApi.useInterfaceHistory routerId range
  | Q_TrafficApi_QueueHistory routerId range => TrafficApi.useQueueHistory routerId range
  | Q_System_SystemIdentity rid => System.useSystemIdentity rid
  | Q_System_SystemResource rid => System.useSystemResource rid
  | Q_System_SystemRouterboard rid => System.useSystemRouterboard rid
  | Q_System_SystemClock rid => System.useSystemClock rid
  | Q_System_SystemLicense rid => System.useSystemLicense rid
  | Q_System_Scripts rid => System.useScripts rid
  | Q_System_Schedulers rid => System.useSchedulers rid
  | Q_LogApi_LogBacklog routerId => LogApi.useLogBacklog routerId
  | Q_Reports_SellingToday rid => Reports.useSellingToday rid
  | Q_Reports_SellingSummary rid month => Reports.useSellingSummary rid month
  | Q_Reports_Selling rid month => Reports.useSelling rid month
  | Q_Customers_Customers filters => Customers.useCustomers filters
  | Q_Subscriptions_Subscriptions filters => Subscriptions.useSubscriptions filters
  | Q_Subscriptions_SubscriptionsByDevice deviceId => Subscriptions.useSubscriptionsByDevice deviceId
  | Q_Registrations_Registrations filters => Registrations.useRegistrations filters
  | Q_Invoices_Invoices filters => Invoices.useInvoices filters
  | Q_Invoices_Invoice id => Invoices.useInvoice id
  | Q_Payments_Payments filters => Payments.usePayments filters
  | Q_Payments_InvoicePayments invoiceId => Payments.useInvoicePayments invoiceId
  | Q_Generate_HotspotServers routerId => Generate.useHotspotServers routerId
  | Q_Generate_CachedVouchers routerId gencode => Generate.useCachedVouchers routerId gencode
  | Q_PrintRender_PrintData routerId gencode => PrintRender.usePrintData routerId gencode
  | Q_QuickPrint_QuickPrintPackages routerId => QuickPrint.useQuickPrintPackages routerId
  | Q_QuickPrint_QuickPrintPackage routerId name => QuickPrint.useQuickPrintPackage routerId name
  | Q_Sales_DailyReport routerId date filters => Sales.useDailyReport routerId date filters
  | Q_Sales_MonthlyReport routerId year month => Sales.useMonthlyReport routerId year month
  | Q_Sales_ResumeReport routerId year => Sales.useResumeReport routerId year
  | Q_Sales_DashboardSummary routerId => Sales.useDashboardSummary routerId
  | Q_Sales_SalesList routerId params => Sales.useSalesList routerId params
  | Q_AuthApi_CurrentUser hasToken => AuthApi.useCurrentUser hasToken
  | Q_AdminUsers_AdminUsers => AdminUsers.useAdminUsers
  | Q_AdminUsers_AdminUser id => AdminUsers.useAdminUser id
  | Q_Routers_Routers => Routers.useRouters
  | Q_Routers_Router id => Routers.useRouter id
  | Q_Settings_SystemSettings => Settings.useSystemSettings
  | Q_Account_Me => Account.useMe
  | Q_WhatsApp_WhatsAppStatus => WhatsApp.useWhatsAppStatus
  | Q_WhatsApp_WhatsAppQR enabled => WhatsApp.useWhatsAppQR enabled
  | Q_WhatsApp_NotificationSettings => WhatsApp.useNotificationSettings
  | Q_NotificationCenter_WhatsAppStatus => NotificationCenter.useWhatsAppStatus
  | Q_NotificationCenter_WhatsAppQR enabled => NotificationCenter.useWhatsAppQR enabled
  | Q_NotificationCenter_WhatsAppContacts enabled => NotificationCenter.useWhatsAppContacts enabled
  | Q_NotificationCenter_WhatsAppGroups enabled => NotificationCenter.useWhatsAppGroups enabled
  | Q_NotificationCenter_NotifEvents => NotificationCenter.useNotifEvents
  | Q_NotificationCenter_NotifSettings => NotificationCenter.useNotifSettings
  | Q_MessageTemplates_MessageTemplates => MessageTemplates.useMessageTemplates
  | Q_Notifications_Notifications filters => Notifications.useNotifications filters
  | Q_AuditLogs_AuditLogs filters => AuditLogs.useAuditLogs filters
  | Q_PortalHome_PortalMe => PortalHome.usePortalMe
  | Q_PortalInvoices_PortalInvoices filters => PortalInvoices.usePortalInvoices filters
  | Q_PortalInvoices_PortalInvoice id => PortalInvoices.usePortalInvoice id
  | Q_PortalInvoices_PaymentGatewayStatus => PortalInvoices.usePaymentGatewayStatus
  | Q_PortalPayments_PortalPayments => PortalPayments.usePortalPayments
  | Q_PortalSubscriptions_PortalSubscriptions => PortalSubscriptions.usePortalSubscriptions
  | Q_PortalSubscriptions_PortalSubscriptionStatus id => PortalSubscriptions.usePortalSubscriptionStatus id
  | Q_PublicRegister_PublicPackages => PublicRegister.usePublicPackages
  end.

Inductive mutation_hook : Type :=
| M_HotspotActive_RemoveHotspotActive (routerId : Z) (vars : string)
| M_HotspotActive_DisconnectHotspotUser (routerId : Z) (vars : string)
| M_HotspotBilling_CreateHotspotDbProfile (routerId : Z) (vars : jval)
| M_HotspotBilling_UpdateHotspotDbProfile (routerId : Z) (vars : Z * jval)
| M_HotspotBilling_RemoveHotspotDbProfile (routerId : Z) (vars : Z)
| M_HotspotBilling_SyncHotspotDbProfiles (routerId : Z) (vars : option string)
| M_HotspotBindings_AddIPBinding (routerId : Z) (vars : jval)
| M_HotspotBindings_UpdateIPBinding (routerId : Z) (vars : string * jval)
| M_HotspotBindings_RemoveIPBinding (routerId : Z) (vars : string)
| M_HotspotBindings_EnableIPBinding (routerId : Z) (vars : string)
| M_HotspotBindings_DisableIPBinding (routerId : Z) (vars : string)
| M_HotspotCookies_RemoveHotspotCookie (routerId : Z) (vars : string)
| M_HotspotHosts_RemoveHotspotHost (routerId : Z) (vars : string)
| M_HotspotUsers_AddHotspotUser (routerId : Z) (vars : jval)
| M_HotspotUsers_UpdateHotspotUser (routerId : Z) (vars : string * jval)
| M_HotspotUsers_RemoveHotspotUser (routerId : Z) (vars : string)
| M_HotspotUsers_ResetHotspotUserCounters (routerId : Z) (vars : string)
| M_HotspotProfiles_AddHotspotProfile (routerId : Z) (vars : jval)
| M_HotspotProfiles_UpdateHotspotProfile (routerId : Z) (vars : string * jval)
| M_HotspotProfiles_RemoveHotspotProfile (routerId : Z) (vars : string)
| M_HotspotProfiles_SyncHotspotProfiles (routerId : Z)
| M_PPPActive_DisconnectPPPActive (routerId : Z) (vars : string)
| M_PPPBilling_CreatePPPDbProfile (routerId : Z) (vars : jval)
| M_PPPBilling_UpdatePPPDbProfile (routerId : Z) (vars : Z * jval)
| M_PPPBilling_RemovePPPDbProfile (routerId : Z) (vars : Z)
| M_PPPBilling_SyncPPPDbProfiles (routerId : Z)
| M_PPPProfiles_AddPPPProfile (routerId : Z) (vars : jval)
| M_PPPProfiles_UpdatePPPProfile (routerId : Z) (vars : string * jval)
| M_PPPProfiles_RemovePPPProfile (routerId : Z) (vars : string)
| M_PPPSecrets_AddPPPSecret (routerId : Z) (vars : jval)
| M_PPPSecrets_UpdatePPPSecret (routerId : Z) (vars : string * jval)
| M_PPPSecrets_SetPPPSecretDisabled (routerId : Z) (vars : string * bool)
| M_PPPSecrets_RemovePPPSecret (routerId : Z) (vars : string)
| M_PPPSecrets_BatchRemovePPPSecrets (routerId : Z) (vars : list string)
| M_Network_CreatePool (routerId : Z) (vars : jval)
| M_Network_DeletePool (routerId : Z) (vars : string)
| M_Network_DeleteQueue (routerId : Z) (vars : string)
| M_Network_DeleteDHCPLease (routerId : Z) (vars : string)
| M_System_Reboot (rid : Z)
| M_System_Shutdown (rid : Z)
| M_System_CreateScript (rid : Z) (vars : jval)
| M_System_DeleteScript (rid : Z) (vars : string)
| M_System_CreateScheduler (rid : Z) (vars : jval)
| M_System_DeleteScheduler (rid : Z) (vars : string)
| M_Customers_CreateCustomer (vars : jval)
| M_Customers_UpdateCustomer (vars : Z * jval)
| M_Customers_RemoveCustomer (vars : Z)
| M_Customers_BatchRemoveCustomers (vars : list Z)
| M_Subscriptions_CreateSubscription (vars : jval)
| M_Subscriptions_UpdateSubscription (vars : Z * jval)
| M_Subscriptions_PatchSubscriptionStatus (vars : Z * string)
| M_Subscriptions_ReconcileSubscription (vars : Z)
| M_Subscriptions_RemoveSubscription (vars : Z)
| M_Subscriptions_BatchRemoveSubscriptions (vars : list Z)
| M_Registrations_ApproveRegistration (vars : Z * jval)
| M_Registrations_RejectRegistration (vars : Z * jval)
| M_Registrations_AssignRegistration (vars : Z * jval)
| M_Registrations_CompleteInstall (vars : Z * jval)
| M_Invoices_GenerateInvoice (vars : jval)
| M_Invoices_CancelInvoice (vars : Z)
| M_Payments_CreatePayment (vars : jval)
| M_Payments_ConfirmPayment (vars : Z)
| M_Payments_RejectPayment (vars : Z * option string)
| M_Payments_CollectByCode (vars : jval)
| M_Generate_GenerateVoucher (routerId : Z) (vars : jval)
| M_PrintRender_PrintVouchers (routerId : Z) (vars : jval)
| M_PrintRender_RenderTemplate (vars : jval)
| M_QuickPrint_CreateQuickPrintPackage (routerId : Z) (vars : jval)
| M_QuickPrint_UpdateQuickPrintPackage (routerId : Z) (vars : string * jval)
| M_QuickPrint_RemoveQuickPrintPackage (routerId : Z) (vars : string)
| M_Sales_RecordSale (routerId : Z) (vars : jval)
| M_Sales_ImportSales (routerId : Z)
| M_AuthApi_Login (vars : jval)
| M_AuthApi_Logout (vars : option string)
| M_AdminUsers_CreateAdminUser (vars : jval)
| M_AdminUsers_UpdateAdminUser (vars : Z * jval)
| M_AdminUsers_DeleteAdminUser (vars : Z)
| M_AdminUsers_BatchDeleteAdminUsers (vars : list Z)
| M_Routers_CreateRouter (vars : jval)
| M_Routers_UpdateRouter (vars : Z * jval)
| M_Routers_DeleteRouter (vars : Z)
| M_Settings_UpdateSetting (vars : string * string)
| M_Settings_TestPaymentGateway
| M_Account_UpdateMe (vars : jval)
| M_WhatsApp_LogoutWhatsApp
| M_WhatsApp_SendWhatsAppTest (vars : jval)
| M_WhatsApp_UpdateSetting (vars : string * string)
| M_NotificationCenter_PairWhatsAppPhone (vars : string)
| M_NotificationCenter_LogoutWhatsApp
| M_NotificationCenter_SendWhatsAppTest (vars : jval)
| M_NotificationCenter_UpdateNotifEvent (vars : string * jval)
| M_NotificationCenter_UpdateSetting (vars : string * string)
| M_NotificationCenter_SendTelegramTest (vars : jval)
| M_MessageTemplates_UpdateMessageTemplate (vars : string * jval)
| M_PortalAuth_CustomerLogin (vars : jval)
| M_PortalInvoices_InitiateOnlinePayment (vars : Z)
| M_PortalInvoices_UploadProof (vars : jval)
| M_PortalInvoices_CreatePortalPayment (vars : Z * jval)
| M_PortalProfile_ChangePortalPassword (vars : jval)
| M_PublicRegister_SubmitRegistration (vars : jval).

Definition mutation_call (h : mutation_hook) : call :=
  match h with
  | M_HotspotActive_RemoveHotspotActive routerId vars => mutationFn (HotspotActive.useRemoveHotspotActive routerId) vars
  | M_HotspotActive_DisconnectHotspotUser routerId vars => mutationFn (HotspotActive.useDisconnectHotspotUser routerId) vars
  | M_HotspotBilling_CreateHotspotDbProfile routerId vars => mutationFn (HotspotBilling.useCreateHotspotDbProfile routerId) vars
  | M_HotspotBilling_UpdateHotspotDbProfile routerId vars => mutationFn (HotspotBilling.useUpdateHotspotDbProfile routerId) vars
  | M_HotspotBilling_RemoveHotspotDbProfile routerId vars => mutationFn (HotspotBilling.useRemoveHotspotDbProfile routerId) vars
  | M_HotspotBilling_SyncHotspotDbProfiles routerId vars => mutationFn (HotspotBilling.useSyncHotspotDbProfiles routerId) vars
  | M_HotspotBindings_AddIPBinding routerId vars => mutationFn (HotspotBindings.useAddIPBinding routerId) vars
  | M_HotspotBindings_UpdateIPBinding routerId vars => mutationFn (HotspotBindings.useUpdateIPBinding routerId) vars
  | M_HotspotBindings_RemoveIPBinding routerId vars => mutationFn (HotspotBindings.useRemoveIPBinding routerId) vars
  | M_HotspotBindings_EnableIPBinding routerId vars => mutationFn (HotspotBindings.useEnableIPBinding routerId) vars
  | M_HotspotBindings_DisableIPBinding routerId vars => mutationFn (HotspotBindings.useDisableIPBinding routerId) vars
  | M_HotspotCookies_RemoveHotspotCookie routerId vars => mutationFn (HotspotCookies.useRemoveHotspotCookie routerId) vars
  | M_HotspotHosts_RemoveHotspotHost routerId vars => mutationFn (HotspotHosts.useRemoveHotspotHost routerId) vars
  | M_HotspotUsers_AddHotspotUser routerId vars => mutationFn (HotspotUsers.useAddHotspotUser routerId) vars
  | M_HotspotUsers_UpdateHotspotUser routerId vars => mutationFn (HotspotUsers.useUpdateHotspotUser routerId) vars
  | M_HotspotUsers_RemoveHotspotUser routerId vars => mutationFn (HotspotUsers.useRemoveHotspotUser routerId) vars
  | M_HotspotUsers_ResetHotspotUserCounters routerId vars => mutationFn (HotspotUsers.useResetHotspotUserCounters routerId) vars
  | M_HotspotProfiles_AddHotspotProfile routerId vars => mutationFn (HotspotProfiles.useAddHotspotProfile routerId) vars
  | M_HotspotProfiles_UpdateHotspotProfile routerId vars => mutationFn (HotspotProfiles.useUpdateHotspotProfile routerId) vars
  | M_HotspotProfiles_RemoveHotspotProfile routerId vars => mutationFn (HotspotProfiles.useRemoveHotspotProfile routerId) vars
  | M_HotspotProfiles_SyncHotspotProfiles routerId => mutationFn (HotspotProfiles.useSyncHotspotProfiles routerId) tt
  | M_PPPActive_DisconnectPPPActive routerId vars => mutationFn (PPPActive.useDisconnectPPPActive routerId) vars
  | M_PPPBilling_CreatePPPDbProfile routerId vars => mutationFn (PPPBilling.useCreatePPPDbProfile routerId) vars
  | M_PPPBilling_UpdatePPPDbProfile routerId vars => mutationFn (PPPBilling.useUpdatePPPDbProfile routerId) vars
  | M_PPPBilling_RemovePPPDbProfile routerId vars => mutationFn (PPPBilling.useRemovePPPDbProfile routerId) vars
  | M_PPPBilling_SyncPPPDbProfiles routerId => mutationFn (PPPBilling.useSyncPPPDbProfiles routerId) tt
  | M_PPPProfiles_AddPPPProfile routerId vars => mutationFn (PPPProfiles.useAddPPPProfile routerId) vars
  | M_PPPProfiles_UpdatePPPProfile routerId vars => mutationFn (PPPProfiles.useUpdatePPPProfile routerId) vars
  | M_PPPProfiles_RemovePPPProfile routerId vars => mutationFn (PPPProfiles.useRemovePPPProfile routerId) vars
  | M_PPPSecrets_AddPPPSecret routerId vars => mutationFn (PPPSecrets.useAddPPPSecret routerId) vars
  | M_PPPSecrets_UpdatePPPSecret routerId vars => mutationFn (PPPSecrets.useUpdatePPPSecret routerId) vars
  | M_PPPSecrets_SetPPPSecretDisabled routerId vars => mutationFn (PPPSecrets.useSetPPPSecretDisabled routerId) vars
  | M_PPPSecrets_RemovePPPSecret routerId vars => mutationFn (PPPSecrets.useRemovePPPSecret routerId) vars
  | M_PPPSecrets_BatchRemovePPPSecrets routerId vars => mutationFn (PPPSecrets.useBatchRemovePPPSecrets routerId) vars
  | M_Network_CreatePool routerId vars => mutationFn (Network.useCreatePool routerId) vars
  | M_Network_DeletePool routerId vars => mutationFn (Network.useDeletePool routerId) vars
  | M_Network_DeleteQueue routerId vars => mutationFn (Network.useDeleteQueue routerId) vars
  | M_Network_DeleteDHCPLease routerId vars => mutationFn (Network.useDeleteDHCPLease routerId) vars
  | M_System_Reboot rid => mutationFn (System.useReboot rid) tt
  | M_System_Shutdown rid => mutationFn (System.useShutdown rid) tt
  | M_System_CreateScript rid vars => mutationFn (System.useCreateScript rid) vars
  | M_System_DeleteScript rid vars => mutationFn (System.useDeleteScript rid) vars
  | M_System_CreateScheduler rid vars => mutationFn (System.useCreateScheduler rid) vars
  | M_System_DeleteScheduler rid vars => mutationFn (System.useDeleteScheduler rid) vars
  | M_Customers_CreateCustomer vars => mutationFn Customers.useCreateCustomer vars
  | M_Customers_UpdateCustomer vars => mutationFn Customers.useUpdateCustomer vars
  | M_Customers_RemoveCustomer vars => mutationFn Customers.useRemoveCustomer vars
  | M_Customers_BatchRemoveCustomers vars => mutationFn Customers.useBatchRemoveCustomers vars
  | M_Subscriptions_CreateSubscription vars => mutationFn Subscriptions.useCreateSubscription vars
  | M_Subscriptions_UpdateSubscription vars => mutationFn Subscriptions.useUpdateSubscription vars
  | M_Subscriptions_PatchSubscriptionStatus vars => mutationFn Subscriptions.usePatchSubscriptionStatus vars
  | M_Subscriptions_ReconcileSubscription vars => mutationFn Subscriptions.useReconcileSubscription vars
  | M_Subscriptions_RemoveSubscription vars => mutationFn Subscriptions.useRemoveSubscription vars
  | M_Subscriptions_BatchRemoveSubscriptions vars => mutationFn Subscriptions.useBatchRemoveSubscriptions vars
  | M_Registrations_ApproveRegistration vars => mutationFn Registrations.useApproveRegistration vars
  | M_Registrations_RejectRegistration vars => mutationFn Registrations.useRejectRegistration vars
  | M_Registrations_AssignRegistration vars => mutationFn Registrations.useAssignRegistration vars
  | M_Registrations_CompleteInstall vars => mutationFn Registrations.useCompleteInstall vars
  | M_Invoices_GenerateInvoice vars => mutationFn Invoices.useGenerateInvoice vars
  | M_Invoices_CancelInvoice vars => mutationFn Invoices.useCancelInvoice vars
  | M_Payments_CreatePayment vars => mutationFn Payments.useCreatePayment vars
  | M_Payments_ConfirmPayment vars => mutationFn Payments.useConfirmPayment vars
  | M_Payments_RejectPayment vars => mutationFn Payments.useRejectPayment vars
  | M_Payments_CollectByCode vars => mutationFn Payments.useCollectByCode vars
  | M_Generate_GenerateVoucher routerId vars => mutationFn (Generate.useGenerateVoucher routerId) vars
  | M_PrintRender_PrintVouchers routerId vars => mutationFn (PrintRender.usePrintVouchers routerId) vars
  | M_PrintRender_RenderTemplate vars => mutationFn PrintRender.useRenderTemplate vars
  | M_QuickPrint_CreateQuickPrintPackage routerId vars => mutationFn (QuickPrint.useCreateQuickPrintPackage routerId) vars
  | M_QuickPrint_UpdateQuickPrintPackage routerId vars => mutationFn (QuickPrint.useUpdateQuickPrintPackage routerId) vars
  | M_QuickPrint_RemoveQuickPrintPackage routerId vars => mutationFn (QuickPrint.useRemoveQuickPrintPackage routerId) vars
  | M_Sales_RecordSale routerId vars => mutationFn (Sales.useRecordSale routerId) vars
  | M_Sales_ImportSales routerId => mutationFn (Sales.useImportSales routerId) tt
  | M_AuthApi_Login vars => mutationFn AuthApi.useLogin vars
  | M_AuthApi_Logout vars => mutationFn AuthApi.useLogout vars
  | M_AdminUsers_CreateAdminUser vars => mutationFn AdminUsers.useCreateAdminUser vars
  | M_AdminUsers_UpdateAdminUser vars => mutationFn AdminUsers.useUpdateAdminUser vars
  | M_AdminUsers_DeleteAdminUser vars => mutationFn AdminUsers.useDeleteAdminUser vars
  | M_AdminUsers_BatchDeleteAdminUsers vars => mutationFn AdminUsers.useBatchDeleteAdminUsers vars
  | M_Routers_CreateRouter vars => mutationFn Routers.useCreateRouter vars
  | M_Routers_UpdateRouter vars => mutationFn Routers.useUpdateRouter vars
  | M_Routers_DeleteRouter vars => mutationFn Routers.useDeleteRouter vars
  | M_Settings_UpdateSetting vars => mutationFn Settings.useUpdateSetting vars
  | M_Settings_TestPaymentGateway => mutationFn Settings.useTestPaymentGateway tt
  | M_Account_UpdateMe vars => mutationFn Account.useUpdateMe vars
  | M_WhatsApp_LogoutWhatsApp => mutationFn WhatsApp.useLogoutWhatsApp tt
  | M_WhatsApp_SendWhatsAppTest vars => mutationFn WhatsApp.useSendWhatsAppTest vars
  | M_WhatsApp_UpdateSetting vars => mutationFn WhatsApp.useUpdateSetting vars
  | M_NotificationCenter_PairWhatsAppPhone vars => mutationFn NotificationCenter.usePairWhatsAppPhone vars
  | M_NotificationCenter_LogoutWhatsApp => mutationFn NotificationCenter.useLogoutWhatsApp tt
  | M_NotificationCenter_SendWhatsAppTest vars => mutationFn NotificationCenter.useSendWhatsAppTest vars
  | M_NotificationCenter_UpdateNotifEvent vars => mutationFn NotificationCenter.useUpdateNotifEvent vars
  | M_NotificationCenter_UpdateSetting vars => mutationFn NotificationCenter.useUpdateSetting vars
  | M_NotificationCenter_SendTelegramTest vars => mutationFn NotificationCenter.useSendTelegramTest vars
  | M_MessageTemplates_UpdateMessageTemplate vars => mutationFn MessageTemplates.useUpdateMessageTemplate vars
  | M_PortalAuth_CustomerLogin vars => mutationFn PortalAuth.useCustomerLogin vars
  | M_PortalInvoices_InitiateOnlinePayment vars => mutationFn PortalInvoices.useInitiateOnlinePayment vars
  | M_PortalInvoices_UploadProof vars => mutationFn PortalInvoices.useUploadProof vars
  | M_PortalInvoices_CreatePortalPayment vars => mutationFn PortalInvoices.useCreatePortalPayment vars
  | M_PortalProfile_ChangePortalPassword vars => mutationFn PortalProfile.useChangePortalPassword vars
  | M_PublicRegister_SubmitRegistration vars => mutationFn PublicRegister.useSubmitRegistration vars
  end.

Definition mutation_ops (h : mutation_hook) (data : jval) : list cache_op :=
  match h with
  | M_HotspotActive_RemoveHotspotActive routerId vars => onSuccess (HotspotActive.useRemoveHotspotActive routerId) data vars
  | M_HotspotActive_DisconnectHotspotUser routerId vars => onSuccess (HotspotActive.useDisconnectHotspotUser routerId) data vars
  | M_HotspotBilling_CreateHotspotDbProfile routerId vars => onSuccess (HotspotBilling.useCreateHotspotDbProfile routerId) data vars
  | M_HotspotBilling_UpdateHotspotDbProfile routerId vars => onSuccess (HotspotBilling.useUpdateHotspotDbProfile routerId) data vars
  | M_HotspotBilling_RemoveHotspotDbProfile routerId vars => onSuccess (HotspotBilling.useRemoveHotspotDbProfile routerId) data vars
  | M_HotspotBilling_SyncHotspotDbProfiles routerId vars => onSuccess (HotspotBilling.useSyncHotspotDbProfiles routerId) data vars
  | M_HotspotBindings_AddIPBinding routerId vars => onSuccess (HotspotBindings.useAddIPBinding routerId) data vars
  | M_HotspotBindings_UpdateIPBinding routerId vars => onSuccess (HotspotBindings.useUpdateIPBinding routerId) data vars
  | M_HotspotBindings_RemoveIPBinding routerId vars => onSuccess (HotspotBindings.useRemoveIPBinding routerId) data vars
  | M_HotspotBindings_EnableIPBinding routerId vars => onSuccess (HotspotBindings.useEnableIPBinding routerId) data vars
  | M_HotspotBindings_DisableIPBinding routerId vars => onSuccess (HotspotBindings.useDisableIPBinding routerId) data vars
  | M_HotspotCookies_RemoveHotspotCookie routerId vars => onSuccess (HotspotCookies.useRemoveHotspotCookie routerId) data vars
  | M_HotspotHosts_RemoveHotspotHost routerId vars => onSuccess (HotspotHosts.useRemoveHotspotHost routerId) data vars
  | M_HotspotUsers_AddHotspotUser routerId vars => onSuccess (HotspotUsers.useAddHotspotUser routerId) data vars
  | M_HotspotUsers_UpdateHotspotUser routerId vars => onSuccess (HotspotUsers.useUpdateHotspotUser routerId) data vars
  | M_HotspotUsers_RemoveHotspotUser routerId vars => onSuccess (HotspotUsers.useRemoveHotspotUser routerId) data vars
  | M_HotspotUsers_ResetHotspotUserCounters routerId vars => onSuccess (HotspotUsers.useResetHotspotUserCounters routerId) data vars
  | M_HotspotProfiles_AddHotspotProfile routerId vars => onSuccess (HotspotProfiles.useAddHotspotProfile routerId) data vars
  | M_HotspotProfiles_UpdateHotspotProfile routerId vars => onSuccess (HotspotProfiles.useUpdateHotspotProfile routerId) data vars
  | M_HotspotProfiles_RemoveHotspotProfile routerId vars => onSuccess (HotspotProfiles.useRemoveHotspotProfile routerId) data vars
  | M_HotspotProfiles_SyncHotspotProfiles routerId => onSuccess (HotspotProfiles.useSyncHotspotProfiles routerId) data tt
  | M_PPPActive_DisconnectPPPActive routerId vars => onSuccess (PPPActive.useDisconnectPPPActive routerId) data vars
  | M_PPPBilling_CreatePPPDbProfile routerId vars => onSuccess (PPPBilling.useCreatePPPDbProfile routerId) data vars
  | M_PPPBilling_UpdatePPPDbProfile routerId vars => onSuccess (PPPBilling.useUpdatePPPDbProfile routerId) data vars
  | M_PPPBilling_RemovePPPDbProfile routerId vars => onSuccess (PPPBilling.useRemovePPPDbProfile routerId) data vars
  | M_PPPBilling_SyncPPPDbProfiles routerId => onSuccess (PPPBilling.useSyncPPPDbProfiles routerId) data tt
  | M_PPPProfiles_AddPPPProfile routerId vars => onSuccess (PPPProfiles.useAddPPPProfile routerId) data vars
  | M_PPPProfiles_UpdatePPPProfile routerId vars => onSuccess (PPPProfiles.useUpdatePPPProfile routerId) data vars
  | M_PPPProfiles_RemovePPPProfile routerId vars => onSuccess (PPPProfiles.useRemovePPPProfile routerId) data vars
  | M_PPPSecrets_AddPPPSecret routerId vars => onSuccess (PPPSecrets.useAddPPPSecret routerId) data vars
  | M_PPPSecrets_UpdatePPPSecret routerId vars => onSuccess (PPPSecrets.useUpdatePPPSecret routerId) data vars
  | M_PPPSecrets_SetPPPSecretDisabled routerId vars => onSuccess (PPPSecrets.useSetPPPSecretDisabled routerId) data vars
  | M_PPPSecrets_RemovePPPSecret routerId vars => onSuccess (PPPSecrets.useRemovePPPSecret routerId) data vars
  | M_PPPSecrets_BatchRemovePPPSecrets routerId vars => onSuccess (PPPSecrets.useBatchRemovePPPSecrets routerId) data vars
  | M_Network_CreatePool routerId vars => onSuccess (Network.useCreatePool routerId) data vars
  | M_Network_DeletePool routerId vars => onSuccess (Network.useDeletePool routerId) data vars
  | M_Network_DeleteQueue routerId vars => onSuccess (Network.useDeleteQueue routerId) data vars
  | M_Network_DeleteDHCPLease routerId vars => onSuccess (Network.useDeleteDHCPLease routerId) data vars
  | M_System_Reboot rid => onSuccess (System.useReboot rid) data tt
  | M_System_Shutdown rid => onSuccess (System.useShutdown rid) data tt
  | M_System_CreateScript rid vars => onSuccess (System.useCreateScript rid) data vars
  | M_System_DeleteScript rid vars => onSuccess (System.useDeleteScript rid) data vars
  | M_System_CreateScheduler rid vars => onSuccess (System.useCreateScheduler rid) data vars
  | M_System_DeleteScheduler rid vars => onSuccess (System.useDeleteScheduler rid) data vars
  | M_Customers_CreateCustomer vars => onSuccess Customers.useCreateCustomer data vars
  | M_Customers_UpdateCustomer vars => onSuccess Customers.useUpdateCustomer data vars
  | M_Customers_RemoveCustomer vars => onSuccess Customers.useRemoveCustomer data vars
  | M_Customers_BatchRemoveCustomers vars => onSuccess Customers.useBatchRemoveCustomers data vars
  | M_Subscriptions_CreateSubscription vars => onSuccess Subscriptions.useCreateSubscription data vars
  | M_Subscriptions_UpdateSubscription vars => onSuccess Subscriptions.useUpdateSubscription data vars
  | M_Subscriptions_PatchSubscriptionStatus vars => onSuccess Subscriptions.usePatchSubscriptionStatus data vars
  | M_Subscriptions_ReconcileSubscription vars => onSuccess Subscriptions.useReconcileSubscription data vars
  | M_Subscriptions_RemoveSubscription vars => onSuccess Subscriptions.useRemoveSubscription data vars
  | M_Subscriptions_BatchRemoveSubscriptions vars => onSuccess Subscriptions.useBatchRemoveSubscriptions data vars
  | M_Registrations_ApproveRegistration vars => onSuccess Registrations.useApproveRegistration data vars
  | M_Registrations_RejectRegistration vars => onSuccess Registrations.useRejectRegistration data vars
  | M_Registrations_AssignRegistration vars => onSuccess Registrations.useAssignRegistration data vars
  | M_Registrations_CompleteInstall vars => onSuccess Registrations.useCompleteInstall data vars
  | M_Invoices_GenerateInvoice vars => onSuccess Invoices.useGenerateInvoice data vars
  | M_Invoices_CancelInvoice vars => onSuccess Invoices.useCancelInvoice data vars
  | M_Payments_CreatePayment vars => onSuccess Payments.useCreatePayment data vars
  | M_Payments_ConfirmPayment vars => onSuccess Payments.useConfirmPayment data vars
  | M_Payments_RejectPayment vars => onSuccess Payments.useRejectPayment data vars
  | M_Payments_CollectByCode vars => onSuccess Payments.useCollectByCode data vars
  | M_Generate_GenerateVoucher routerId vars => onSuccess (Generate.useGenerateVoucher routerId) data vars
  | M_PrintRender_PrintVouchers routerId vars => onSuccess (PrintRender.usePrintVouchers routerId) data vars
  | M_PrintRender_RenderTemplate vars => onSuccess PrintRender.useRenderTemplate data vars
  | M_QuickPrint_CreateQuickPrintPackage routerId vars => onSuccess (QuickPrint.useCreateQuickPrintPackage routerId) data vars
  | M_QuickPrint_UpdateQuickPrintPackage routerId vars => onSuccess (QuickPrint.useUpdateQuickPrintPackage routerId) data vars
  | M_QuickPrint_RemoveQuickPrintPackage routerId vars => onSuccess (QuickPrint.useRemoveQuickPrintPackage routerId) data vars
  | M_Sales_RecordSale routerId vars => onSuccess (Sales.useRecordSale routerId) data vars
  | M_Sales_ImportSales routerId => onSuccess (Sales.useImportSales routerId) data tt
  | M_AuthApi_Login vars => onSuccess AuthApi.useLogin data vars
  | M_AuthApi_Logout vars => onSuccess AuthApi.useLogout data vars
  | M_AdminUsers_CreateAdminUser vars => onSuccess AdminUsers.useCreateAdminUser data vars
  | M_AdminUsers_UpdateAdminUser vars => onSuccess AdminUsers.useUpdateAdminUser data vars
  | M_AdminUsers_DeleteAdminUser vars => onSuccess AdminUsers.useDeleteAdminUser data vars
  | M_AdminUsers_BatchDeleteAdminUsers vars => onSuccess AdminUsers.useBatchDeleteAdminUsers data vars
  | M_Routers_CreateRouter vars => onSuccess Routers.useCreateRouter data vars
  | M_Routers_UpdateRouter vars => onSuccess Routers.useUpdateRouter data vars
  | M_Routers_DeleteRouter vars => onSuccess Routers.useDeleteRouter data vars
  | M_Settings_UpdateSetting vars => onSuccess Settings.useUpdateSetting data vars
  | M_Settings_TestPaymentGateway => onSuccess Settings.useTestPaymentGateway data tt
  | M_Account_UpdateMe vars => onSuccess Account.useUpdateMe data vars
  | M_WhatsApp_LogoutWhatsApp => onSuccess WhatsApp.useLogoutWhatsApp data tt
  | M_WhatsApp_SendWhatsAppTest vars => onSuccess WhatsApp.useSendWhatsAppTest data vars
  | M_WhatsApp_UpdateSetting vars => onSuccess WhatsApp.useUpdateSetting data vars
  | M_NotificationCenter_PairWhatsAppPhone vars => onSuccess NotificationCenter.usePairWhatsAppPhone data vars
  | M_NotificationCenter_LogoutWhatsApp => onSuccess NotificationCenter.useLogoutWhatsApp data tt
  | M_NotificationCenter_SendWhatsAppTest vars => onSuccess NotificationCenter.useSendWhatsAppTest data vars
  | M_NotificationCenter_UpdateNotifEvent vars => onSuccess NotificationCenter.useUpdateNotifEvent data vars
  | M_NotificationCenter_UpdateSetting vars => onSuccess NotificationCenter.useUpdateSetting data vars
  | M_NotificationCenter_SendTelegramTest vars => onSuccess NotificationCenter.useSendTelegramTest data vars
  | M_MessageTemplates_UpdateMessageTemplate vars => onSuccess MessageTemplates.useUpdateMessageTemplate data vars
  | M_PortalAuth_CustomerLogin vars => onSuccess PortalAuth.useCustomerLogin data vars
  | M_PortalInvoices_InitiateOnlinePayment vars => onSuccess PortalInvoices.useInitiateOnlinePayment data vars
  | M_PortalInvoices_UploadProof vars => onSuccess PortalInvoices.useUploadProof data vars
  | M_PortalInvoices_CreatePortalPayment vars => onSuccess PortalInvoices.useCreatePortalPayment data vars
  | M_PortalProfile_ChangePortalPassword vars => onSuccess PortalProfile.useChangePortalPassword data vars
  | M_PublicRegister_SubmitRegistration vars => onSuccess PublicRegister.useSubmitRegistration data vars
  end.

(** Service functions the pages call directly. *)
Inductive direct_call : Type :=
| D_exportHotspotUsersCSV (routerId : Z) (profile : option string)
| D_revealHotspotUserPassword (routerId : Z) (id : string)
| D_revealPPPSecretPassword (routerId : Z) (id : string)
| D_revealPortalPassword (id : Z)
| D_resetPortalPassword (id : Z)
| D_revealSubscriptionPassword (id : Z)
| D_exportSalesCSV (routerId : Z) (from to : string) (filters : jval)
| D_exportSalesExcel (routerId : Z) (from to : string) (filters : jval).

Definition direct_of (h : direct_call) : call :=
  match h with
  | D_exportHotspotUsersCSV rid profile => HotspotUsers.exportHotspotUsersCSV rid profile
  | D_revealHotspotUserPassword rid id => HotspotUsers.revealHotspotUserPassword rid id
  | D_revealPPPSecretPassword rid id => PPPSecrets.revealPPPSecretPassword rid id
  | D_revealPortalPassword id => Customers.revealPortalPassword id
  | D_resetPortalPassword id => Customers.resetPortalPassword id
  | D_revealSubscriptionPassword id => Subscriptions.revealSubscriptionPassword id
  | D_exportSalesCSV rid from to filters => Sales.exportSalesCSV rid from to filters
  | D_exportSalesExcel rid from to filters => Sales.exportSalesExcel rid from to filters
  end.
