(* ===== verification/Contract.v ===== *)
(** * The contract between the client and the backend's routes

    Every request of the hooks is compared with the route table.  A template decides the
    matter whatever is interpolated: [covers] when a pattern fits every instance,
    [clashes] when it fits none. *)
From S2P Require Import Prelude JsString JsValue Http Routes QueryCache QueryKeys Hooks.

(** ** Templates and patterns *)

Fixpoint covers (p : list pseg) (t : path) : bool :=
  match p, t with
  | [], [] => true
  | L s :: p', Lit x :: t' => String.eqb s x && covers p' t'
  | P :: p', _ :: t' => covers p' t'
  | _, _ => false
  end.

Fixpoint clashes (p : list pseg) (t : path) : bool :=
  match p, t with
  | [], [] => false
  | L s :: p', Lit x :: t' => negb (String.eqb s x) || clashes p' t'
  | _ :: p', _ :: t' => clashes p' t'
  | _, _ => true
  end.

Definition template_served (m : method) (t : path) : bool :=
  existsb (fun r => bool_decide (r.1 = m) && covers r.2 t) api_routes.
Definition template_unserved (m : method) (t : path) : bool :=
  forallb (fun r => negb (bool_decide (r.1 = m)) || clashes r.2 t) api_routes.

Abbreviation segs_ok t := (Forall (fun g => seg_ok g = true) t).

Lemma covers_matches p t : segs_ok t -> covers p t = true ->
  pattern_matches p (map seg_text t) = true.
Proof.
  intros Ht. revert p. induction Ht as [|g t Hg Ht IH]; intros [|[s|] p] Hc; cbn in *; try done;
    try by destruct g.
  - destruct g as [x|x]; [|done]. b2p. cbn. subst. by rewrite String.eqb_refl, IH.
  - unfold seg_ok in Hg. b2p. rewrite IH by done. rewrite andb_true_r.
    by apply negb_true_iff, String.eqb_neq.
Qed.

Lemma clashes_matches p t : clashes p t = true -> pattern_matches p (map seg_text t) = false.
Proof.
  revert p. induction t as [|g t IH]; intros [|[s|] p] Hc; cbn in *; try done.
  - destruct g as [x|x]; cbn in *.
    + destruct (String.eqb s x); [by apply IH|done].
    + rewrite IH by done. by rewrite andb_false_r.
  - rewrite IH by done. by rewrite andb_false_r.
Qed.

Lemma served_template m t : segs_ok t -> template_served m t = true -> served m (url t) = true.
Proof.
  intros Ht (r & Hr & Hc)%existsb_exists. unfold served. rewrite split_url by done.
  apply existsb_exists. exists r. split; [done|]. unfold route_matches.
  apply andb_true_iff in Hc as [-> Hc]. by apply covers_matches.
Qed.

Lemma unserved_template m t : segs_ok t -> template_unserved m t = true -> served m (url t) = false.
Proof.
  intros Ht H. unfold template_unserved in H. rewrite forallb_forall in H. unfold served.
  rewrite split_url by done. apply not_true_iff_false. intros (r & Hr & Hm)%existsb_exists.
  specialize (H r Hr). unfold route_matches in Hm. apply andb_true_iff in Hm as [Hm Hp].
  rewrite Hm in H. cbn in H. by rewrite clashes_matches in Hp.
Qed.

(** ** The requests the backend does not serve *)

Inductive api_call : Type :=
| CQuery (h : query_hook)
| CMutation (h : mutation_hook)
| CDirect (h : direct_call).

Definition request_of (c : api_call) : request :=
  c_req (match c with
         | CQuery h => q_call (query_of h)
         | CMutation h => mutation_call h
         | CDirect h => direct_of h
         end).

Definition unserved (c : api_call) : bool :=
  match c with
  | CQuery (Q_HotspotInactive_HotspotInactive _)
  | CQuery (Q_HotspotInactive_HotspotInactiveCount _)
  | CQuery (Q_Generate_CachedVouchers _ _)
  | CQuery (Q_PrintRender_PrintData _ _)
  | CMutation (M_HotspotActive_DisconnectHotspotUser _ _)
  | CMutation (M_HotspotBindings_AddIPBinding _ _)
  | CMutation (M_HotspotBindings_UpdateIPBinding _ _)
  | CMutation (M_HotspotBindings_EnableIPBinding _ _)
  | CMutation (M_HotspotBindings_DisableIPBinding _ _)
  | CMutation (M_PrintRender_PrintVouchers _ _)
  | CMutation (M_PrintRender_RenderTemplate _)
  | CDirect (D_exportSalesCSV _ _ _ _)
  | CDirect (D_exportSalesExcel _ _ _ _) => true
  | _ => false
  end.

Lemma templates_decided c :
  (if unserved c then template_unserved else template_served)
    (r_method (request_of c)) (r_path (request_of c)) = true.
Proof.
  destruct c as [h|h|h]; destruct h;
    repeat match goal with vars : _ * _ |- _ => destruct vars end; vm_compute; reflexivity.
Qed.

(** C3: the contract with the backend.  Every request of the client whose interpolated
    segments are non-empty and free of slashes reaches a route the server registers,
    except exactly the thirteen listed ones: the inactive-user list and count, the
    cached vouchers and print data, the session disconnect, the creation, update,
    enabling and disabling of an IP binding, the server-side voucher printing and
    template rendering, and the CSV and Excel exports of the sales report.  Those get a
    404 whatever the arguments are. *)
Theorem client_backend_contract c :
  segs_ok (r_path (request_of c)) ->
  served (r_method (request_of c)) (url (r_path (request_of c))) = negb (unserved c).
Proof.
  intros Hok. pose proof (templates_decided c) as H.
  destruct (unserved c); cbn; [by apply unserved_template|by apply served_template].
Qed.

Lemma client_backend_contract_witness :
  served DELETE "/devices/3/hotspot/active/%2A1" = true /\
  served POST "/devices/3/hotspot/active/%2A1/disconnect" = false.
Proof.
  split.
  - refine (client_backend_contract (CMutation (M_HotspotActive_RemoveHotspotActive 3 "*1")) _).
    repeat constructor.
  - refine (client_backend_contract (CMutation (M_HotspotActive_DisconnectHotspotUser 3 "*1")) _).
    repeat constructor.
Defined.
