(* ===== verification/Invalidation.v ===== *)
(** * What the mutations invalidate

    Every successful mutation against every query of the collection it changes. *)
From S2P Require Import Prelude JsString JsValue Http QueryCache QueryKeys Hooks.
From S2P Require Import Hotspot Ppp Device Billing VoucherApi Admin PortalApi.

(** The collection a URL belongs to: the part of the path before identifiers and actions. *)
Definition two_level (s : string) : bool :=
  existsb (String.eqb s) ["hotspot"; "ppp"; "network"; "system"; "history"].

Definition collection (p : path) : path :=
  match p with
  | Lit root :: rest =>
      if String.eqb root "devices" then
        match rest with
        | _ :: Lit group :: _ => if two_level group then take 4 p else take 3 p
        | _ => take 1 p
        end
      else if String.eqb root "auth" || String.eqb root "customer"
              || String.eqb root "public" then take 2 p
      else take 1 p
  | _ => []
  end.

Definition mutation_request (m : mutation_hook) : request := c_req (mutation_call m).
Definition query_request (q : query_hook) : request := c_req (q_call (query_of q)).

(** Commands: they send, test, pair or render, and change no stored record. *)
Definition command (m : mutation_hook) : bool :=
  match m with
  | M_PrintRender_PrintVouchers _ _ | M_Settings_TestPaymentGateway
  | M_WhatsApp_SendWhatsAppTest _ | M_NotificationCenter_SendWhatsAppTest _
  | M_NotificationCenter_PairWhatsAppPhone _ => true
  | _ => false
  end.

(** The pairs where a mutation leaves the old data of the collection it changes in use. *)
Definition left_stale (m : mutation_hook) (q : query_hook) : bool :=
  match m, q with
  | (M_HotspotBilling_CreateHotspotDbProfile _ _ | M_HotspotBilling_UpdateHotspotDbProfile _ _
    | M_HotspotBilling_RemoveHotspotDbProfile _ _ | M_HotspotBilling_SyncHotspotDbProfiles _ _),
    (Q_HotspotProfiles_HotspotProfiles _ | Q_HotspotProfiles_HotspotProfile _ _)
  | (M_HotspotProfiles_AddHotspotProfile _ _ | M_HotspotProfiles_UpdateHotspotProfile _ _
    | M_HotspotProfiles_RemoveHotspotProfile _ _ | M_HotspotProfiles_SyncHotspotProfiles _),
    Q_HotspotBilling_HotspotDbProfiles _ _
  | (M_HotspotUsers_AddHotspotUser _ _ | M_HotspotUsers_UpdateHotspotUser _ _
    | M_HotspotUsers_RemoveHotspotUser _ _ | M_HotspotUsers_ResetHotspotUserCounters _ _),
    Q_HotspotUsers_HotspotUserCount _ _
  | M_Account_UpdateMe _, Q_AuthApi_CurrentUser _
  | (M_PortalInvoices_InitiateOnlinePayment _ | M_PortalInvoices_CreatePortalPayment _),
    (Q_PortalInvoices_PortalInvoices _ | Q_PortalInvoices_PortalInvoice _) => true
  | _, _ => false
  end.

Section Coverage.
Context `{QueryMatching}.

Ltac same_router Hc :=
  first [injection Hc as Hc; apply Z_to_string_inj in Hc; subst | injection Hc as -> | idtac].

Lemma same_collection_refreshed m q data :
  command m = false ->
  collection (r_path (mutation_request m)) = collection (r_path (query_request q)) ->
  refreshes (mutation_ops m data) (q_key (query_of q)) = negb (left_stale m q).
Proof.
  intros Hm Hc. destruct m; try discriminate Hm; clear Hm;
    repeat match goal with vars : _ * _ |- _ => destruct vars end.
  all: destruct q; cbn in Hc; try discriminate Hc; same_router Hc.
  all: cbn; unfold refreshes; cbn [existsb]; rewrite ?matches_scalar by reflexivity; cbn [key_prefix];
    cbn; rewrite ?Z.eqb_refl, ?orb_true_r; cbn; rewrite ?orb_true_r; reflexivity.
Qed.

(** C5: a successful mutation leaves no old copy of what it changed.  For every mutation
    that changes stored records and every query on the same collection of the same
    router, whatever the cache held, an entry that is still fresh afterwards is one the
    mutation itself wrote with [setQueryData]; the pairs of [left_stale] excepted. *)
Theorem mutations_refresh m q data c v :
  command m = false -> left_stale m q = false ->
  collection (r_path (mutation_request m)) = collection (r_path (query_request q)) ->
  Entry (q_key (query_of q)) v false ∈ apply_ops (mutation_ops m data) c ->
  SetData (q_key (query_of q)) v ∈ mutation_ops m data.
Proof.
  intros Hm Hs Hc [[_ Hr]|Hin]%apply_ops_fresh; [|done].
  rewrite (same_collection_refreshed m q) in Hr by done. by rewrite Hs in Hr.
Qed.

(** The excepted pairs are real: there the old copy stays in use.  Saving a hotspot
    profile in the billing screen leaves the profile lists of the hotspot screen (the
    same endpoint under another key) as they were, and the other way round; the user
    count survives every change of the users; a change of the own account leaves the
    cached identity; the portal's payment hooks leave the invoices to the page that calls
    them (the invoice page invalidates them itself after an uploaded proof). *)
Theorem left_stale_stays m q data c v :
  left_stale m q = true ->
  collection (r_path (mutation_request m)) = collection (r_path (query_request q)) ->
  Entry (q_key (query_of q)) v false ∈ c ->
  Entry (q_key (query_of q)) v false ∈ apply_ops (mutation_ops m data) c.
Proof.
  intros Hs Hc. assert (command m = false) as Hm by (by destruct m).
  apply apply_ops_kept.
  - rewrite (same_collection_refreshed m q) by done. by rewrite Hs.
  - intros w Hw. destruct m; try discriminate Hs;
      cbn in Hw; repeat (apply elem_of_cons in Hw as [Hw|Hw]; [discriminate|]); by apply not_elem_of_nil in Hw.
Qed.
End Coverage.

Definition stale_demo : list entry := [Entry (qk.hotspotUserCount 3 None) (JNum 40) false].

Lemma mutations_refresh_witness :
  Entry (qk.hotspotUsers 3 JUndef) (JArr []) false ∉
  apply_ops (mutation_ops (M_HotspotUsers_AddHotspotUser 3 (obj [])) JUndef)
    [Entry (qk.hotspotUsers 3 JUndef) (JArr []) false].
Proof.
  intros Hin. assert (SetData (qk.hotspotUsers 3 JUndef) (JArr []) ∈
    mutation_ops (M_HotspotUsers_AddHotspotUser 3 (obj [])) JUndef) as Hs.
  { exact (mutations_refresh (M_HotspotUsers_AddHotspotUser 3 (obj []))
      (Q_HotspotUsers_HotspotUsers 3 JUndef) JUndef _ _ eq_refl eq_refl eq_refl Hin). }
  apply list_elem_of_singleton in Hs. discriminate Hs.
Defined.

Lemma left_stale_stays_witness :
  Entry (qk.hotspotUserCount 3 None) (JNum 40) false ∈
  apply_ops (mutation_ops (M_HotspotUsers_AddHotspotUser 3 (obj [])) JUndef) stale_demo.
Proof.
  apply (left_stale_stays (M_HotspotUsers_AddHotspotUser 3 (obj []))
    (Q_HotspotUsers_HotspotUserCount 3 None) JUndef stale_demo (JNum 40) eq_refl eq_refl).
  by left.
Defined.
