(* ===== verification/TableUrl.v ===== *)
(** * Table state in the URL ([web/src/hooks/use-table-url-state.ts])

    The search parameters of the page are a map from keys to values; a key whose value is
    [undefined] reads like an absent key.  [useTableUrlState] is modelled by what it reads
    from the parameters (pagination, filters) and by its handlers, each of which is the
    update of its React state together with the function of the previous parameters it
    hands to [navigate].  Page numbers are integers; a fractional number typed into the
    URL is outside the model. *)
From S2P Require Import Prelude JsString JsValue.

Abbreviation search_record := (gmap string jval).

(** [search[key]]. *)
Definition read (search : search_record) (k : string) : jval := (search !! k) ?? JUndef.

(** [typeof raw === 'number' ? raw : d]. *)
Definition number_or (raw : jval) (d : Z) : Z := match raw with JNum n => n | _ => d end.

Inductive filter_type : Type := TString | TArray.

Record column_cfg : Type := Col {
  columnId : string;
  searchKey : string;
  type : option filter_type;
  serialize : jval -> jval;
  deserialize : jval -> jval;
}.

Record cfg : Type := Cfg {
  pageKey : string;
  pageSizeKey : string;
  defaultPage : Z;
  defaultPageSize : Z;
  globalFilterKey : string;
  globalFilterEnabled : bool;
  trimGlobal : bool;
  columnFiltersCfg : list column_cfg;
}.

(** [ColumnFiltersState]: a list of [{ id, value }]. *)
Abbreviation column_filters := (list (string * jval)).

Record pagination_state : Type := Page { pageIndex : Z; pageSize : Z }.

(** ** Reading *)

Definition nullish_or (v d : jval) : jval := match v with JUndef | JNull => d | _ => v end.

Definition collect (search : search_record) (c : column_cfg) : column_filters :=
  let raw := read search (searchKey c) in
  match type c with
  | Some TString =>
      match nullish_or (deserialize c raw) (JStr "") with
      | JStr value => if String.eqb (trim value) "" then [] else [(columnId c, JStr value)]
      | _ => []
      end
  | _ =>
      match nullish_or (deserialize c raw) (JArr []) with
      | JArr (x :: l) => [(columnId c, JArr (x :: l))]
      | _ => []
      end
  end.

Definition initialColumnFilters (cf : cfg) (search : search_record) : column_filters :=
  mbind (collect search) (columnFiltersCfg cf).

Definition pagination (cf : cfg) (search : search_record) : pagination_state :=
  let pageNum := number_or (read search (pageKey cf)) (defaultPage cf) in
  let pageSizeNum := number_or (read search (pageSizeKey cf)) (defaultPageSize cf) in
  Page (Z.max 0 (pageNum - 1)) pageSizeNum.

Definition initialGlobalFilter (cf : cfg) (search : search_record) : option string :=
  if negb (globalFilterEnabled cf) then None
  else match read search (globalFilterKey cf) with
       | JStr raw => Some raw
       | _ => Some ""
       end.

(** ** Handlers: the new React state and the parameters handed to [navigate] *)

Definition onPaginationChange (cf : cfg) (next : pagination_state) (prev : search_record)
  : search_record :=
  let nextPage := pageIndex next + 1 in
  <[pageSizeKey cf := if pageSize next =? defaultPageSize cf then JUndef else JNum (pageSize next)]>
  (<[pageKey cf := if nextPage <=? defaultPage cf then JUndef else JNum nextPage]> prev).

Definition onGlobalFilterChange (cf : cfg) (next : string) (prev : search_record)
  : string * search_record :=
  let value := if trimGlobal cf then trim next else next in
  (value, <[globalFilterKey cf := if String.eqb value "" then JUndef else JStr value]>
          (<[pageKey cf := JUndef]> prev)).

(** [next.find((f) => f.id === columnId)?.value]. *)
Definition found_value (next : column_filters) (id : string) : jval :=
  match List.find (fun f => String.eqb f.1 id) next with
  | Some f => f.2
  | None => JUndef
  end.

Definition patch_value (next : column_filters) (c : column_cfg) : jval :=
  match type c, found_value next (columnId c) with
  | Some TString, JStr value => if String.eqb (trim value) "" then JUndef else serialize c (JStr value)
  | Some TString, _ => JUndef
  | _, JArr (x :: l) => serialize c (JArr (x :: l))
  | _, _ => JUndef
  end.

Definition patch (cf : cfg) (next : column_filters) (prev : search_record) : search_record :=
  fold_left (fun s c => <[searchKey c := patch_value next c]> s) (columnFiltersCfg cf) prev.

Definition onColumnFiltersChange (cf : cfg) (next : column_filters) (prev : search_record)
  : column_filters * search_record :=
  (next, patch cf next (<[pageKey cf := JUndef]> prev)).

Inductive reset_to : Type := first | last_.

(** [None] is no navigation. *)
Definition ensurePageInRange (cf : cfg) (pageCount : Z) (resetTo : option reset_to)
    (search : search_record) : option search_record :=
  let pageNum := number_or (read search (pageKey cf)) (defaultPage cf) in
  if (0 <? pageCount) && (pageCount <? pageNum) then
    Some (<[pageKey cf := match resetTo with Some last_ => JNum pageCount | _ => JUndef end]> search)
  else None.

(** ** Laws *)

Definition all_keys (cf : cfg) : list string :=
  pageKey cf :: pageSizeKey cf :: globalFilterKey cf :: (searchKey <$> columnFiltersCfg cf).

(** The keys of a page are distinct, and so are the columns. *)
Definition cfg_ok (cf : cfg) : Prop :=
  NoDup (all_keys cf) /\ NoDup (columnId <$> columnFiltersCfg cf).

Lemma read_insert s k v : read (<[k := v]> s) k = v.
Proof. unfold read. by rewrite lookup_insert_eq. Qed.

Lemma read_insert_ne s k k' v : k <> k' -> read (<[k := v]> s) k' = read s k'.
Proof. intros H. unfold read. by rewrite lookup_insert_ne. Qed.

(** The page survives a reload.  The parameters written for a page change read back as
    that page and size (a page below the configured first page as the first page), no
    other parameter changes, and the first page with the default size leaves no
    parameter behind. *)
Theorem pagination_roundtrip cf next prev :
  cfg_ok cf -> 0 <= pageIndex next ->
  pagination cf (onPaginationChange cf next prev) =
    Page (Z.max (pageIndex next) (defaultPage cf - 1)) (pageSize next) /\
  (forall k, k <> pageKey cf -> k <> pageSizeKey cf ->
     read (onPaginationChange cf next prev) k = read prev k) /\
  (pageIndex next = 0 -> pageSize next = defaultPageSize cf -> 1 <= defaultPage cf ->
     read (onPaginationChange cf next prev) (pageKey cf) = JUndef /\
     read (onPaginationChange cf next prev) (pageSizeKey cf) = JUndef).
Proof.
  intros [[Hne _]%NoDup_cons _] Hi. unfold onPaginationChange, pagination.
  assert (pageSizeKey cf <> pageKey cf) as Hk by set_solver.
  rewrite !read_insert. rewrite !read_insert_ne, !read_insert by done.
  split_and!.
  - f_equal; zcases.
  - intros k H1 H2. by rewrite !read_insert_ne.
  - intros H1 H2 H3. rewrite H1, H2, Z.eqb_refl. split; [|done].
    by rewrite (proj2 (Z.leb_le _ _)) by lia.
Qed.

(** The search box survives a reload: the stored text is the (trimmed) text, an empty
    text leaves no parameter, the table goes back to its first page and nothing else
    changes. *)
Theorem global_filter_roundtrip cf next prev value search :
  cfg_ok cf -> globalFilterEnabled cf = true ->
  onGlobalFilterChange cf next prev = (value, search) ->
  value = (if trimGlobal cf then trim next else next) /\
  initialGlobalFilter cf search = Some value /\
  pageIndex (pagination cf search) = Z.max 0 (defaultPage cf - 1) /\
  (forall k, k <> pageKey cf -> k <> globalFilterKey cf -> read search k = read prev k).
Proof.
  intros [Hnd _] He [= <- <-]. apply NoDup_cons in Hnd as [Hne _].
  assert (globalFilterKey cf <> pageKey cf) as Hk by set_solver.
  split; [done|]. unfold initialGlobalFilter, pagination. rewrite He. cbn [negb pageIndex].
  rewrite read_insert, read_insert_ne, read_insert by done. split_and!; [|done|].
  - by destruct (String.eqb_spec (if trimGlobal cf then trim next else next) "") as [->|].
  - intros k H1 H2. by rewrite !read_insert_ne.
Qed.

(** A page beyond the end is brought back.  [ensurePageInRange] navigates exactly when
    there are pages and the current one is beyond them; afterwards the page is the last
    or the default one, which is in range when the default page is, a second call does
    nothing, and the other parameters are kept. *)
Theorem page_in_range cf pageCount resetTo search :
  let pageNum s := number_or (read s (pageKey cf)) (defaultPage cf) in
  match ensurePageInRange cf pageCount resetTo search with
  | None => pageCount <= 0 \/ pageNum search <= pageCount
  | Some search' =>
      0 < pageCount < pageNum search /\
      pageNum search' = match resetTo with Some last_ => pageCount | _ => defaultPage cf end /\
      (defaultPage cf <= pageCount ->
         pageNum search' <= pageCount /\ ensurePageInRange cf pageCount resetTo search' = None) /\
      (forall k, k <> pageKey cf -> read search' k = read search k)
  end.
Proof.
  intros pageNum. unfold ensurePageInRange. fold (pageNum search).
  destruct (_ && _) eqn:E; b2p.
  - set (s' := <[_ := _]> search).
    assert (pageNum s' = match resetTo with Some last_ => pageCount | _ => defaultPage cf end) as Hp.
    { unfold pageNum, s'. rewrite read_insert. by destruct resetTo as [[]|]. }
    split_and!; [done..| |].
    + intros Hd. rewrite Hp. split; [destruct resetTo as [[]|]; lia|].
      fold (pageNum s'). rewrite Hp.
      destruct (0 <? pageCount) eqn:E1, (pageCount <? _) eqn:E2; b2p; try done.
      destruct resetTo as [[]|]; lia.
    + intros k Hk. unfold s'. by rewrite read_insert_ne.
  - destruct E as [E|E]; b2p; [left|right]; done.
Qed.

(** ** Column filters *)

(** The optional transformers undo each other and keep an absent value absent. *)
Definition col_ok (c : column_cfg) : Prop :=
  (forall v, deserialize c (serialize c v) = v) /\
  (deserialize c JUndef = JUndef \/ deserialize c JUndef = JNull).

(** What is kept of the filters for a column: a text that is not blank, a list that is not
    empty. *)
Definition shown (next : column_filters) (c : column_cfg) : column_filters :=
  match type c, found_value next (columnId c) with
  | Some TString, JStr value => if String.eqb (trim value) "" then [] else [(columnId c, JStr value)]
  | Some TString, _ => []
  | _, JArr (x :: l) => [(columnId c, JArr (x :: l))]
  | _, _ => []
  end.

Lemma patch_other next cols s k :
  k ∉ searchKey <$> cols ->
  read (fold_left (fun s c => <[searchKey c := patch_value next c]> s) cols s) k = read s k.
Proof.
  revert s. induction cols as [|c cols IH]; intros s Hk; [done|].
  rewrite fmap_cons, not_elem_of_cons in Hk. cbn [fold_left]. rewrite IH by tauto.
  apply read_insert_ne. destruct Hk. congruence.
Qed.

Lemma patch_own next cols s c :
  NoDup (searchKey <$> cols) -> c ∈ cols ->
  read (fold_left (fun s c => <[searchKey c := patch_value next c]> s) cols s) (searchKey c) =
  patch_value next c.
Proof.
  revert s. induction cols as [|d cols IH]; intros s Hnd Hc; [by apply not_elem_of_nil in Hc|].
  rewrite fmap_cons, NoDup_cons in Hnd. destruct Hnd as [Hd Hnd]. cbn [fold_left].
  apply elem_of_cons in Hc as [->|Hc]; [|by apply IH].
  rewrite patch_other by done. apply read_insert.
Qed.

Lemma mbind_ext_in {A B} (f g : A -> list B) l :
  (forall x, x ∈ l -> f x = g x) -> l ≫= f = l ≫= g.
Proof.
  induction l as [|x l IH]; intros H; [done|].
  rewrite !bind_cons, (H x), IH; [done| |by left]. intros y Hy. apply H. by right.
Qed.

Lemma collect_patch next c s :
  col_ok c -> read s (searchKey c) = patch_value next c -> collect s c = shown next c.
Proof.
  intros [Hs Hu] Hr. unfold collect, shown. rewrite Hr. unfold patch_value.
  destruct (type c) as [[|]|], (found_value next (columnId c)) as [| | | | |t|[|x l]|];
    rewrite ?Hs; cbn; try done; try (by destruct Hu as [-> | ->]).
  destruct (String.eqb (trim t) "") eqn:E; [by destruct Hu as [-> | ->]|].
  rewrite Hs. cbn. by rewrite E.
Qed.

(** The column filters survive a reload.  After a change of the filters the parameters
    read back as exactly the filters of the configured columns that hold something (no
    blank text, no empty list), in the order of the configuration; the page parameter is
    gone, and the page size, the search text and every other parameter are as before. *)
Theorem column_filters_roundtrip cf next prev state search :
  cfg_ok cf -> Forall col_ok (columnFiltersCfg cf) ->
  onColumnFiltersChange cf next prev = (state, search) ->
  state = next /\
  initialColumnFilters cf search = mbind (shown next) (columnFiltersCfg cf) /\
  read search (pageKey cf) = JUndef /\
  (forall k, k <> pageKey cf -> k ∉ searchKey <$> columnFiltersCfg cf -> read search k = read prev k).
Proof.
  intros [Hnd _] Hcols [= <- <-]. unfold all_keys in Hnd.
  rewrite !NoDup_cons, !not_elem_of_cons in Hnd.
  destruct Hnd as ((_ & _ & Hp) & (_ & _) & _ & Hnd).
  split; [done|]. unfold patch. split_and!.
  - apply mbind_ext_in. intros c Hc. apply collect_patch.
    + rewrite Forall_forall in Hcols. by apply Hcols.
    + by apply patch_own.
  - rewrite patch_other by done. apply read_insert.
  - intros k Hk Hks. rewrite patch_other by done. by apply read_insert_ne.
Qed.

(** ** A concrete table *)

Definition users_cfg : cfg :=
  Cfg "page" "pageSize" 1 10 "filter" true true
    [Col "username" "username" (Some TString) id id; Col "status" "status" (Some TArray) id id].

Lemma users_cfg_ok : cfg_ok users_cfg /\ Forall col_ok (columnFiltersCfg users_cfg).
Proof.
  split; [split; vm_compute; apply (bool_decide_unpack _); vm_compute; done|].
  repeat constructor; by left.
Qed.

Lemma pagination_roundtrip_witness :
  pagination users_cfg (onPaginationChange users_cfg (Page 3 20) ∅) = Page 3 20.
Proof. exact (proj1 (pagination_roundtrip users_cfg (Page 3 20) ∅ (proj1 users_cfg_ok) ltac:(done))). Defined.

Lemma global_filter_roundtrip_witness :
  initialGlobalFilter users_cfg (onGlobalFilterChange users_cfg " andi " ∅).2 = Some "andi".
Proof.
  exact (proj1 (proj2 (global_filter_roundtrip users_cfg " andi " ∅ "andi" _
    (proj1 users_cfg_ok) eq_refl eq_refl))).
Defined.

Lemma column_filters_roundtrip_witness :
  initialColumnFilters users_cfg
    (onColumnFiltersChange users_cfg [("status", JArr [JStr "active"]); ("username", JStr " ")] ∅).2 =
  [("status", JArr [JStr "active"])].
Proof.
  exact (proj1 (proj2 (column_filters_roundtrip users_cfg
    [("status", JArr [JStr "active"]); ("username", JStr " ")] ∅ _ _
    (proj1 users_cfg_ok) (proj2 users_cfg_ok) eq_refl))).
Defined.
