(* ===== verification/Voucher.v ===== *)
(** * Voucher generation ([web/src/features/voucher/generate/data/{schema,data}.ts])

    [Math.random] is a stream of rationals in [0, 1): the state of a computation is the
    number of draws so far (the product of such a double and the size of an alphabet rounds
    to less than the size, so [draw] is exact).  [new Date()] is the date handed to [buildComment]. *)
From Stdlib Require Import QArith Qround.
From S2P Require Import Prelude JsString.
#[global] Open Scope Z_scope.
#[global] Open Scope list_scope.

Inductive UserType : Type := vc | up.
Inductive CharSet : Type := lower | upper | mixed | number | lower_number | upper_number | mixed_number.
Inductive DataLimitUnit : Type := MB | GB.

#[export] Instance UserType_eq_dec : EqDecision UserType.
Proof. solve_decision. Defined.

Definition userType_text (u : UserType) : string := match u with vc => "vc" | up => "up" end.

Record VoucherGenerateForm : Type := Form {
  qty : Z;
  server : string;
  profile : string;
  userType : UserType;
  nameLength : Z;
  charSet : CharSet;
  prefix : string;
  timeLimit : string;
  dataLimit : Z;
  dataLimitUnit : DataLimitUnit;
  comment : string;
}.

Record GeneratedVoucher : Type := Voucher {
  v_id : string;
  username : string;
  password : string;
  v_profile : string;
  v_comment : string;
}.

Definition CHARSETS (c : CharSet) : string :=
  match c with
  | lower => "abcdefghjkmnpqrstuvwxyz"
  | upper => "ABCDEFGHJKLMNPQRSTUVWXYZ"
  | mixed => "abcdefghjkmnpqrstuvwxyzABCDEFGHJKLMNPQRSTUVWXYZ"
  | number => "23456789"
  | lower_number => "abcdefghjkmnpqrstuvwxyz23456789"
  | upper_number => "ABCDEFGHJKLMNPQRSTUVWXYZ23456789"
  | mixed_number => "abcdefghjkmnpqrstuvwxyzABCDEFGHJKLMNPQRSTUVWXYZ23456789"
  end.

Definition dataLimitToBytes (value : Z) (unit : DataLimitUnit) : Z :=
  if value <=? 0 then 0
  else match unit with MB => value * 1048576 | GB => value * 1073741824 end.

Definition newline : string := String (char_of 10) "".

Definition vouchersToCsv (vouchers : list GeneratedVoucher) : string :=
  join newline ("username,password,profile" ::
    map (fun v => username v +:+ "," +:+ password v +:+ "," +:+ v_profile v) vouchers).

Record date : Type := Date { getFullYear : Z; getMonth : Z; getDate : Z }.

Definition todayStamp (d : date) : string :=
  padStart 2 "0" (Z_to_string (getMonth d + 1)) +:+ "." +:+
  padStart 2 "0" (Z_to_string (getDate d)) +:+ "." +:+
  str_drop 2 (Z_to_string (getFullYear d)).

Section Random.
(** The stream of [Math.random()]. *)
Variable random : nat -> Q.

(** [Math.floor(Math.random() * n)]. *)
Definition draw (k : nat) (n : Z) : Z := Qfloor (random k * inject_Z n).

(** The text and the number of draws after it; [charset[i]] is [""] out of range. *)
Fixpoint randomString (charset : string) (length : nat) (k : nat) : string * nat :=
  match length with
  | O => ("", k)
  | S l =>
      let c := match charAt charset (Z.to_nat (draw k (Z.of_nat (String.length charset)))) with
               | Some c => String c ""
               | None => "undefined"
               end in
      let '(out, k) := randomString charset l (S k) in
      (c +:+ out, k)
  end.

Definition buildComment (form : VoucherGenerateForm) (d : date) (k : nat) : string * nat :=
  let rand3 := Qfloor (inject_Z 100 + random k * inject_Z 900) in
  let tail := trim (comment form) in
  let tailPart := if String.eqb tail "" then "" else "-" +:+ tail in
  (userType_text (userType form) +:+ "-" +:+ Z_to_string rand3 +:+ "-" +:+ todayStamp d +:+ tailPart,
   S k).

Definition passLen (form : VoucherGenerateForm) : Z := Z.max 3 (Z.min 8 (nameLength form)).

(** The [while] loop: [fuel] is [maxIter - safetyCounter]. *)
Fixpoint batch_loop (form : VoucherGenerateForm) (cmt : string) (fuel : nat) (k : nat)
    (result : list GeneratedVoucher) : list GeneratedVoucher :=
  match fuel with
  | O => result
  | S fuel =>
      if Z.of_nat (length result) <? qty form then
        let '(core, k) := randomString (CHARSETS (charSet form)) (Z.to_nat (nameLength form)) k in
        let uname := prefix form +:+ core in
        if bool_decide (uname ∈ username <$> result) then batch_loop form cmt fuel k result
        else
          let '(pw, k) := match userType form with
                          | vc => (uname, k)
                          | up => randomString (CHARSETS number) (Z.to_nat (passLen form)) k
                          end in
          batch_loop form cmt fuel k
            (result ++ [Voucher (Z_to_string (Z.of_nat (length result) + 1)) uname pw (profile form) cmt])
      else result
  end.

Definition generateBatch (form : VoucherGenerateForm) (d : date) : list GeneratedVoucher :=
  let '(cmt, k) := buildComment form d 0 in
  batch_loop form cmt (Z.to_nat (qty form * 10)) k [].

(** ** What a batch promises *)

Hypothesis random_range : forall k, (0 <= random k)%Q /\ (random k < 1)%Q.

Lemma draw_range k n : 0 < n -> 0 <= draw k n < n.
Proof.
  intros Hn. destruct (random_range k) as [H0 H1]. unfold draw.
  assert (0 < inject_Z n)%Q as Hq by (unfold Qlt; cbn; lia).
  split.
  - change 0 with (Qfloor (inject_Z 0)). apply Qfloor_resp_le.
    apply Qmult_le_0_compat; [done|]. by apply Qlt_le_weak.
  - assert (random k * inject_Z n < inject_Z n)%Q as Hlt.
    { rewrite <- (Qmult_1_l (inject_Z n)) at 2. by apply Qmult_lt_compat_r. }
    pose proof (Qfloor_le (random k * inject_Z n)) as Hf.
    assert (inject_Z (Qfloor (random k * inject_Z n)) < inject_Z n)%Q as Hlt'
      by (eapply Qle_lt_trans; eauto).
    unfold Qlt in Hlt'. cbn [Qnum Qden inject_Z] in Hlt'. lia.
Qed.

(** A text over an alphabet. *)
Definition over (charset : string) (s : string) : bool :=
  str_forall (fun c => bool_decide (c ∈ String.list_ascii_of_string charset)) s.

Lemma charAt_in s i : (i < String.length s)%nat ->
  exists c, charAt s i = Some c /\ c ∈ String.list_ascii_of_string s.
Proof.
  unfold charAt. revert i. induction s as [|c s IH]; intros [|i] Hi; cbn in *; try lia.
  - exists c. split; [done|by left].
  - destruct (IH i) as (d & Hd & Hin); [lia|]. exists d. split; [done|by right].
Qed.

Lemma randomString_spec charset n k :
  charset <> "" ->
  String.length (randomString charset n k).1 = n /\ over charset (randomString charset n k).1 = true.
Proof.
  intros Hc. revert k. induction n as [|n IH]; intros k; [done|]. cbn [randomString].
  pose proof (draw_range k (Z.of_nat (String.length charset))) as Hd.
  destruct (charAt_in charset (Z.to_nat (draw k (Z.of_nat (String.length charset)))))
    as (c & -> & Hin); [destruct charset; [done|]; cbn [String.length] in *; lia|].
  specialize (IH (S k)). destruct (randomString charset n (S k)) as [out k'].
  cbn [fst] in IH |- *. destruct IH as [Hl Ho]. split; [cbn; by rewrite Hl|].
  unfold over in *. cbn [String.append str_forall]. rewrite Ho, andb_true_r.
  by apply bool_decide_eq_true.
Qed.

Lemma CHARSETS_nonempty c : CHARSETS c <> "".
Proof. by destruct c. Qed.

(** One voucher of a form. *)
Definition voucher_ok (form : VoucherGenerateForm) (cmt : string) (v : GeneratedVoucher) : Prop :=
  (exists core, username v = prefix form +:+ core /\
     String.length core = Z.to_nat (nameLength form) /\ over (CHARSETS (charSet form)) core = true) /\
  match userType form with
  | vc => password v = username v
  | up => 3 <= Z.of_nat (String.length (password v)) <= 8 /\ over (CHARSETS number) (password v) = true
  end /\
  v_profile v = profile form /\ v_comment v = cmt.

Definition batch_ok (form : VoucherGenerateForm) (cmt : string) (l : list GeneratedVoucher) : Prop :=
  NoDup (username <$> l) /\ Forall (voucher_ok form cmt) l /\
  (v_id <$> l) = (fun i => Z_to_string (Z.of_nat i + 1)) <$> seq 0 (length l) /\
  Z.of_nat (length l) <= Z.max 0 (qty form).

Lemma batch_ok_snoc form cmt l v :
  batch_ok form cmt l -> Z.of_nat (length l) < qty form ->
  username v ∉ username <$> l -> voucher_ok form cmt v ->
  v_id v = Z_to_string (Z.of_nat (length l) + 1) -> batch_ok form cmt (l ++ [v]).
Proof.
  intros (Hnd & Hall & Hid & Hlen) Hq Hu Hv Hi. unfold batch_ok.
  rewrite length_app, !fmap_app, seq_app, Hid, fmap_app. cbn [length fmap list_fmap seq].
  split_and!.
  - apply NoDup_app. split_and!; [done| |apply NoDup_singleton].
    intros x Hx Hx'. apply list_elem_of_singleton in Hx'. by subst.
  - apply Forall_app. by split; [|apply Forall_singleton].
  - by rewrite Hi.
  - lia.
Qed.

Lemma batch_loop_ok form cmt fuel k l :
  batch_ok form cmt l -> batch_ok form cmt (batch_loop form cmt fuel k l).
Proof.
  revert k l. induction fuel as [|fuel IH]; intros k l Hl; [done|]. cbn [batch_loop].
  destruct (_ <? qty form) eqn:Hq; [b2p|done].
  pose proof (randomString_spec (CHARSETS (charSet form)) (Z.to_nat (nameLength form)) k
    (CHARSETS_nonempty _)) as [Hcl Hco].
  destruct (randomString _ _ k) as [core k1]. cbn [fst] in *.
  case_bool_decide as Hin; [by apply IH|].
  set (pwk := match userType form with vc => _ | up => _ end).
  assert (match userType form with
          | vc => pwk.1 = prefix form +:+ core
          | up => 3 <= Z.of_nat (String.length pwk.1) <= 8 /\ over (CHARSETS number) pwk.1 = true
          end) as Hp.
  { subst pwk. destruct (userType form); [done|].
    destruct (randomString_spec (CHARSETS number) (Z.to_nat (passLen form)) k1) as [-> ->]; [done|].
    unfold passLen. split; [lia|done]. }
  destruct pwk as [pw k2]. cbn [fst] in Hp. apply IH.
  apply batch_ok_snoc; [done|done|done| |done].
  split_and!; [by exists core|by destruct (userType form)|done|done].
Qed.

(** C12: a generated batch is what the form asks for: at most [qty] vouchers, numbered from
    1, with pairwise different user names; every user name is the prefix followed by
    [nameLength] characters of the chosen set; the password is the user name for
    vouchers and otherwise three to eight digits from 2 to 9; profile and comment are
    the form's.  The loop ends after at most [10 * qty] draws of a name. *)
Theorem generateBatch_ok form d :
  batch_ok form (buildComment form d 0).1 (generateBatch form d).
Proof.
  unfold generateBatch. destruct (buildComment form d 0) as [cmt k]. cbn [fst].
  apply batch_loop_ok. split_and!; [constructor|constructor|done|cbn; lia].
Qed.

(** ** A batch is complete unless names collide *)

Lemma randomString_draws charset n k : (randomString charset n k).2 = (k + n)%nat.
Proof.
  revert k. induction n as [|n IH]; intros k; cbn [randomString]; [cbn; lia|].
  specialize (IH (S k)). destruct (randomString charset n (S k)). cbn in *. lia.
Qed.

(** The characters of the user name that is drawn from position [k] of the stream. *)
Definition core_at (form : VoucherGenerateForm) (k : nat) : string :=
  (randomString (CHARSETS (charSet form)) (Z.to_nat (nameLength form)) k).1.

Lemma batch_loop_full form cmt B fuel k l :
  (0 < Z.to_nat (nameLength form))%nat -> 0 <= qty form ->
  (forall i j, (1 <= i < j)%nat -> (j <= B)%nat -> core_at form i <> core_at form j) ->
  (1 <= k)%nat ->
  (forall u, u ∈ username <$> l -> exists i, (1 <= i < k)%nat /\ u = prefix form +:+ core_at form i) ->
  Z.of_nat (length l) <= qty form -> qty form - Z.of_nat (length l) <= Z.of_nat fuel ->
  (k + (Z.to_nat (qty form) - length l) * (Z.to_nat (nameLength form) + 8) <= B)%nat ->
  Z.of_nat (length (batch_loop form cmt fuel k l)) = qty form.
Proof.
  intros Hn Hq Hd. revert k l. induction fuel as [|fuel IH]; intros k l Hk Hl Hle Hf HB; [cbn; lia|].
  cbn [batch_loop]. destruct (_ <? qty form) eqn:E; b2p; [|lia].
  pose proof (randomString_draws (CHARSETS (charSet form)) (Z.to_nat (nameLength form)) k) as Hk1.
  assert ((randomString (CHARSETS (charSet form)) (Z.to_nat (nameLength form)) k).1 = core_at form k)
    as Hc by done.
  destruct (randomString (CHARSETS (charSet form)) _ k) as [core k1]. cbn [fst snd] in *. subst core k1.
  rewrite bool_decide_eq_false_2.
  2: { intros (i & Hi & Hu%app_str_inj_l)%Hl. symmetry in Hu. revert Hu. apply Hd; nia. }
  set (pwk := match userType form with vc => _ | up => _ end).
  assert (k < pwk.2 <= k + Z.to_nat (nameLength form) + 8)%nat as Hk2.
  { subst pwk. destruct (userType form); [cbn; lia|]. rewrite randomString_draws. unfold passLen. lia. }
  destruct pwk as [pw k2]. cbn [snd] in Hk2. apply IH; rewrite ?length_app; cbn [length]; try nia.
  intros u. rewrite fmap_app, elem_of_app. intros [(i & Hi & ->)%Hl|Hu%list_elem_of_singleton].
  - exists i. split; [lia|done].
  - exists k. split; [lia|done].
Qed.

(** The batch is complete: as long as no two of the name draws it can make coincide,
    exactly [qty] vouchers come out. *)
Theorem generateBatch_full form d :
  0 < nameLength form -> 0 <= qty form ->
  (forall i j, (1 <= i < j)%nat ->
     Z.of_nat j <= 1 + qty form * (nameLength form + 8) -> core_at form i <> core_at form j) ->
  Z.of_nat (length (generateBatch form d)) = qty form.
Proof.
  intros Hn Hq Hd. unfold generateBatch. destruct (buildComment form d 0) as [cmt k] eqn:E.
  injection E as _ <-.
  apply batch_loop_full with (B := (1 + Z.to_nat (qty form) * (Z.to_nat (nameLength form) + 8))%nat);
    cbn [length]; try nia.
  - intros i j Hij Hj. apply Hd; [done|]. nia.
  - intros u Hu. by apply not_elem_of_nil in Hu.
Qed.
End Random.

(** ** CSV *)

Definition csv_field (s : string) : bool :=
  str_forall (fun c => negb (Ascii.eqb c ",") && negb (Ascii.eqb c (char_of 10))) s.

Lemma csv_field_split s : csv_field s = true ->
  str_forall (fun c => negb (Ascii.eqb c ",")) s = true /\
  str_forall (fun c => negb (Ascii.eqb c (char_of 10))) s = true.
Proof.
  unfold csv_field. induction s as [|c s IH]; [done|]. cbn. intros H. b2p.
  destruct IH as [-> ->]; [done|]. split; rewrite andb_true_r; by apply negb_true_iff, Ascii.eqb_neq.
Qed.

(** The CSV of a batch reads back: when user names, passwords and profiles hold no comma
    and no line break (as generated ones never do, prefix and profile permitting), the
    lines after the heading, split at commas, are the vouchers' three fields in order. *)
Theorem csv_roundtrip vouchers :
  Forall (fun v => csv_field (username v) = true /\ csv_field (password v) = true /\
                   csv_field (v_profile v) = true) vouchers ->
  split newline (vouchersToCsv vouchers) =
    "username,password,profile" ::
    map (fun v => join "," [username v; password v; v_profile v]) vouchers /\
  map (split ",") (map (fun v => join "," [username v; password v; v_profile v]) vouchers) =
    map (fun v => [username v; password v; v_profile v]) vouchers.
Proof.
  intros Hall. split.
  - unfold vouchersToCsv, newline. apply split_join; [done|]. constructor; [reflexivity|].
    apply Forall_forall. intros x (v & <- & Hv%list_elem_of_In)%list_elem_of_In%in_map_iff.
    rewrite Forall_forall in Hall. destruct (Hall v Hv) as (H1 & H2 & H3). cbn [join].
    rewrite !str_forall_app. apply csv_field_split in H1 as [_ ->], H2 as [_ ->], H3 as [_ ->].
    reflexivity.
  - rewrite map_map. apply map_ext_in. intros v Hv%list_elem_of_In.
    rewrite Forall_forall in Hall. destruct (Hall v Hv) as (H1 & H2 & H3).
    apply split_join; [done|]. repeat constructor; by apply csv_field_split.
Qed.

(** ** A concrete batch *)

Definition demo_form : VoucherGenerateForm :=
  Form 1 "all" "1h" up 4 lower_number "v-" "0" 0 MB "".
Definition demo_random (k : nat) : Q := (Z.of_nat (k mod 31) # 31)%Q.

Lemma demo_random_range k : (0 <= demo_random k)%Q /\ (demo_random k < 1)%Q.
Proof.
  pose proof (Nat.mod_upper_bound k 31). unfold demo_random, Qle, Qlt. cbn [Qnum Qden]. split; lia.
Qed.

Lemma generateBatch_ok_witness :
  batch_ok demo_form (buildComment demo_random demo_form (Date 2025 0 5) 0).1
    (generateBatch demo_random demo_form (Date 2025 0 5)).
Proof. exact (generateBatch_ok demo_random demo_random_range demo_form (Date 2025 0 5)). Defined.

Definition demo_distinct : bool :=
  forallb (fun j => forallb (fun i => negb (String.eqb (core_at demo_random demo_form i)
                                                       (core_at demo_random demo_form j)))
                      (seq 1 (j - 1))) (seq 1 13).

Lemma generateBatch_full_witness :
  Z.of_nat (length (generateBatch demo_random demo_form (Date 2025 0 5))) = 1.
Proof.
  apply (generateBatch_full demo_random demo_form (Date 2025 0 5)); [done|done|].
  intros i j Hij Hj. cbn in Hj.
  assert (demo_distinct = true) as H by (vm_compute; reflexivity).
  unfold demo_distinct in H. rewrite forallb_forall in H. specialize (H j ltac:(apply in_seq; lia)).
  rewrite forallb_forall in H. specialize (H i ltac:(apply in_seq; lia)).
  by apply negb_true_iff, String.eqb_neq in H.
Defined.

Lemma csv_roundtrip_witness :
  split newline (vouchersToCsv [Voucher "1" "ab2" "345" "1h" "x"]) =
  ["username,password,profile"; "ab2,345,1h"].
Proof.
  exact (proj1 (csv_roundtrip [Voucher "1" "ab2" "345" "1h" "x"] ltac:(by repeat constructor))).
Defined.
