(* ===== verification/Presets.v ===== *)
(** * Quick-print presets ([web/src/features/voucher/print/{data/schema,lib/preset-mapping}.ts],
    [web/src/stores/quick-print-presets-meta-store.ts])

    The presets the cards show, the all-text packages of the backend, the mapping between
    them, and the store of the colours and labels the backend has no place for.  Numbers are
    integers, exact below 2^53 (the laws ask for that range); the store's object is a finite
    map, so names that are properties of [Object.prototype] are outside the model. *)
From S2P Require Import Prelude JsString Voucher.

Inductive PresetColor : Type :=
| blue | indigo | purple | pink | red | amber | green | teal | cyan | sky.

#[export] Instance PresetColor_eq_dec : EqDecision PresetColor.
Proof. solve_decision. Defined.

Record QuickPrintPreset : Type := Preset {
  id : string;
  name : string;
  package : string;
  server : string;
  userMode : UserType;
  userLength : Z;
  prefix : string;
  charSet : CharSet;
  profile : string;
  timeLimit : string;
  dataLimit : Z;
  dataLimitUnit : DataLimitUnit;
  validity : string;
  price : Z;
  sellingPrice : Z;
  lockUser : bool;
  color : PresetColor;
}.

Record QuickPrintPackage : Type := Package {
  p_name : string;
  p_server : string;
  user_mode : string;
  user_length : string;
  p_prefix : string;
  char_mode : string;
  p_profile : string;
  time_limit : string;
  data_limit : string;
  p_comment : string;
  p_validity : string;
  p_price : string;
  selling_price : string;
  lock_user : string;
}.

(** ** The meta store *)

Record PresetMeta : Type := Meta { m_color : PresetColor; packageLabel : string }.

Module MetaStore.
Abbreviation state := (gmap string PresetMeta).

Definition set (n : string) (meta : PresetMeta) (byName : state) : state := <[n := meta]> byName.

Definition rename (oldName newName : string) (byName : state) : state :=
  if String.eqb oldName newName then byName
  else match byName !! oldName with
       | None => byName
       | Some meta => <[newName := meta]> (delete oldName byName)
       end.

Definition remove (n : string) (byName : state) : state := delete n byName.
Definition clear (byName : state) : state := ∅.
End MetaStore.

(** ** The fallback colour *)

(** The UTF-16 code units of a (UTF-8) text, as [charCodeAt] sees them. *)
Definition utf16_of (n : Z) : list Z :=
  if n <? 65536 then [n] else [55296 + (n - 65536) / 1024; 56320 + (n - 65536) mod 1024].

Fixpoint utf16 (s : string) : list Z :=
  match s with
  | "" => []
  | String a s1 =>
      if code a <? 128 then code a :: utf16 s1
      else match s1 with
           | "" => [code a]
           | String b s2 =>
               if code a <? 224 then utf16_of ((code a - 192) * 64 + (code b - 128)) ++ utf16 s2
               else match s2 with
                    | "" => [code a; code b]
                    | String c s3 =>
                        if code a <? 240
                        then utf16_of ((code a - 224) * 4096 + (code b - 128) * 64 + (code c - 128))
                             ++ utf16 s3
                        else match s3 with
                             | "" => [code a; code b; code c]
                             | String d s4 =>
                                 utf16_of ((code a - 240) * 262144 + (code b - 128) * 4096 +
                                           (code c - 128) * 64 + (code d - 128)) ++ utf16 s4
                             end
                    end
           end
  end.

(** [x | 0]. *)
Definition int32 (x : Z) : Z := (x + 2 ^ 31) mod 2 ^ 32 - 2 ^ 31.

Definition COLOR_PALETTE : list PresetColor :=
  [blue; indigo; purple; pink; red; amber; green; teal; cyan; sky].

Definition hash (codes : list Z) : Z := fold_left (fun h c => int32 (h * 31 + c)) codes 0.

(** [None] is [undefined]. *)
Definition defaultColorFor (n : string) : option PresetColor :=
  COLOR_PALETTE !! Z.to_nat (Z.abs (hash (utf16 n)) mod Z.of_nat (length COLOR_PALETTE)).

(** ** The mapping *)

Definition char_modes : list (string * CharSet) :=
  [("lower", lower); ("upper", upper); ("mixed", mixed); ("number", number);
   ("lower_number", lower_number); ("upper_number", upper_number); ("mixed_number", mixed_number)].

Definition charSet_text (c : CharSet) : string :=
  match c with
  | lower => "lower" | upper => "upper" | mixed => "mixed" | number => "number"
  | lower_number => "lower_number" | upper_number => "upper_number" | mixed_number => "mixed_number"
  end.

Definition safeUserMode (s : string) : UserType :=
  if String.eqb s "vc" then vc else up.

Definition safeCharSet (s : string) : CharSet :=
  match List.find (fun p => String.eqb p.1 s) char_modes with
  | Some p => p.2
  | None => lower_number
  end.

Definition parseInt0 (s : string) : Z := parseInt10 s ?? 0.

(** [Math.round(n / d)] for [n >= 0]. *)
Definition round_div (n d : Z) : Z := (2 * n + d) / (2 * d).

Definition parseDataLimit (s : string) : Z * DataLimitUnit :=
  let trimmed := toUpperCase (trim s) in
  if endsWith "GB" trimmed then (parseInt0 (slice_to_neg 2 trimmed), GB)
  else if endsWith "MB" trimmed then (parseInt0 (slice_to_neg 2 trimmed), MB)
  else
    let bytes := parseInt0 trimmed in
    if 0 <? bytes then (round_div bytes 1048576, MB) else (0, MB).

(** [s || d]. *)
Definition or_text (s d : string) : string := if String.eqb s "" then d else s.

Definition apiToPreset (api : QuickPrintPackage) (meta : option PresetMeta) : option QuickPrintPreset :=
  let dl := parseDataLimit (data_limit api) in
  c ← match meta with Some m => Some (m_color m) | None => defaultColorFor (p_name api) end;
  Some {| id := p_name api;
          name := p_name api;
          package := match meta with Some m => packageLabel m | None => p_name api end;
          server := or_text (p_server api) "all";
          userMode := safeUserMode (user_mode api);
          userLength := (let n := parseInt0 (user_length api) in if n =? 0 then 5 else n);
          prefix := p_prefix api;
          charSet := safeCharSet (char_mode api);
          profile := p_profile api;
          timeLimit := or_text (time_limit api) "0";
          dataLimit := dl.1;
          dataLimitUnit := dl.2;
          validity := p_validity api;
          price := parseInt0 (p_price api);
          sellingPrice := parseInt0 (selling_price api);
          lockUser := String.eqb (lock_user api) "1" || String.eqb (toLowerCase (lock_user api)) "true";
          color := c |}.

Definition unit_text (u : DataLimitUnit) : string := match u with MB => "MB" | GB => "GB" end.

Definition presetToApi (preset : QuickPrintPreset) : QuickPrintPackage :=
  let dataLimitStr :=
    if 0 <? dataLimit preset
    then Z_to_string (dataLimit preset) +:+ unit_text (dataLimitUnit preset) else "" in
  {| p_name := name preset;
     p_server := server preset;
     user_mode := userType_text (userMode preset);
     user_length := Z_to_string (userLength preset);
     p_prefix := prefix preset;
     char_mode := charSet_text (charSet preset);
     p_profile := profile preset;
     time_limit := timeLimit preset;
     data_limit := dataLimitStr;
     p_comment := "";
     p_validity := validity preset;
     p_price := Z_to_string (price preset);
     selling_price := Z_to_string (sellingPrice preset);
     lock_user := if lockUser preset then "1" else "0" |}.

(** [useApiPresetsWithMeta]. *)
Definition apiPresetsWithMeta (apiPackages : option (list QuickPrintPackage))
    (byName : gmap string PresetMeta) : option (list QuickPrintPreset) :=
  match apiPackages with
  | None => Some []
  | Some l => mapM (fun p => apiToPreset p (byName !! p_name p)) l
  end.

(** ** Laws *)

Lemma int32_range x : - 2 ^ 31 <= int32 x < 2 ^ 31.
Proof. unfold int32. pose proof (Z.mod_pos_bound (x + 2 ^ 31) (2 ^ 32)). lia. Qed.

Lemma hash_range codes : - 2 ^ 31 <= hash codes < 2 ^ 31.
Proof.
  unfold hash. induction codes as [|c codes _] using rev_ind; [cbn; lia|].
  rewrite fold_left_app. apply int32_range.
Qed.

Lemma defaultColorFor_total n : is_Some (defaultColorFor n).
Proof.
  unfold defaultColorFor. apply lookup_lt_is_Some.
  pose proof (Z.mod_pos_bound (Z.abs (hash (utf16 n))) (Z.of_nat (length COLOR_PALETTE))).
  cbn [length COLOR_PALETTE] in *. lia.
Qed.

Lemma parseInt0_of n : 0 <= n -> parseInt0 (Z_to_string n) = n.
Proof. intros Hn. unfold parseInt0. by rewrite parseInt10_of. Qed.

Lemma upper_digits s : str_forall is_digit s = true -> toUpperCase s = s.
Proof.
  intros H. apply str_map_id. revert H. apply str_forall_impl. intros c. all_chars c.
Qed.

Lemma no_space_limit n u : 0 <= n -> trim (Z_to_string n +:+ unit_text u) = Z_to_string n +:+ unit_text u.
Proof.
  intros Hn. apply trim_nospace. rewrite str_forall_app. apply andb_true_iff. split; [|by destruct u].
  destruct (Z_to_string_nonneg n Hn) as (_ & H & _). revert H. apply str_forall_impl.
  intros c Hc. by destruct (digit_not_space c Hc) as (-> & _).
Qed.

Lemma parseDataLimit_of n u : 0 <= n -> parseDataLimit (Z_to_string n +:+ unit_text u) = (n, u).
Proof.
  intros Hn. unfold parseDataLimit. rewrite no_space_limit by done.
  unfold toUpperCase. rewrite str_map_app. fold toUpperCase.
  destruct (Z_to_string_nonneg n Hn) as (_ & H & _).
  change (str_map upper_char (Z_to_string n)) with (toUpperCase (Z_to_string n)).
  rewrite upper_digits by done.
  assert (toUpperCase (unit_text u) = unit_text u) as -> by (by destruct u).
  destruct u; cbn [unit_text].
  - replace (endsWith "GB" (Z_to_string n +:+ "MB")) with false.
    + rewrite endsWith_app. change 2%nat with (String.length "MB").
      rewrite slice_to_neg_app. by rewrite parseInt0_of.
    + unfold endsWith. change (String.length "GB") with (String.length "MB").
      by rewrite slice_from_neg_app.
  - rewrite endsWith_app. change 2%nat with (String.length "GB").
    rewrite slice_to_neg_app. by rewrite parseInt0_of.
Qed.

(** What the preset dialog can produce: a chosen server and time limit, a positive length,
    safe integers that are not negative, and MB as the unit of an absent limit. *)
Definition preset_ok (p : QuickPrintPreset) : Prop :=
  id p = name p /\ server p <> "" /\ timeLimit p <> "" /\ 0 < userLength p < 2 ^ 53 /\
  0 <= dataLimit p < 2 ^ 53 /\ (dataLimit p = 0 -> dataLimitUnit p = MB) /\
  0 <= price p < 2 ^ 53 /\ 0 <= sellingPrice p < 2 ^ 53.

(** The translation to texts and back, shared by the theorems on presets. *)
Lemma preset_shown p :
  preset_ok p -> apiToPreset (presetToApi p) (Some (Meta (color p) (package p))) = Some p.
Proof.
  intros (Hid & Hs & Ht & Hl & Hd & Hu & Hp & Hsp).
  destruct p as [pid nm pkg srv um ul pf cs pr tl dl du vd prc sp lk col].
  cbn [id name package server userMode userLength prefix charSet profile timeLimit dataLimit
    dataLimitUnit validity price sellingPrice lockUser color] in *. subst pid.
  unfold apiToPreset, presetToApi. cbn -[parseDataLimit Z_to_string parseInt0 safeCharSet safeUserMode].
  rewrite !parseInt0_of by lia. destruct (ul =? 0) eqn:E; b2p; [lia|].
  unfold or_text. rewrite (proj2 (String.eqb_neq _ _) Hs), (proj2 (String.eqb_neq _ _) Ht).
  assert (parseDataLimit (if 0 <? dl then Z_to_string dl +:+ unit_text du else "") = (dl, du)) as ->.
  { destruct (0 <? dl) eqn:E'; b2p; [apply parseDataLimit_of; lia|].
    assert (dl = 0) as -> by lia. by rewrite Hu. }
  assert (safeUserMode (userType_text um) = um) as -> by (by destruct um).
  assert (safeCharSet (charSet_text cs) = cs) as -> by (by destruct cs).
  by destruct lk.
Qed.

(** A preset saved to the backend and loaded again is the same preset: every field
    survives the translation to texts and back, with colour and label coming from the
    meta store. *)
Theorem preset_roundtrip p :
  preset_ok p -> apiToPreset (presetToApi p) (Some (Meta (color p) (package p))) = Some p.
Proof. apply preset_shown. Qed.

(** The fallback colour always exists: the 32-bit hash stays in range whatever the name
    is, so every preset without stored colour gets one of the ten colours, and loading
    the presets never fails. *)
Theorem presets_always_load apiPackages byName :
  is_Some (apiPresetsWithMeta apiPackages byName).
Proof.
  destruct apiPackages as [l|]; [|by eexists]. unfold apiPresetsWithMeta.
  apply mapM_is_Some, Forall_forall. intros p _. change (is_Some (apiToPreset p (byName !! p_name p))).
  unfold apiToPreset. destruct (byName !! p_name p) as [m|]; [by eexists|].
  destruct (defaultColorFor_total (p_name p)) as [c ->]. by eexists.
Qed.

(** The meta store follows renames: afterwards the new name has the old name's entry
    (or the store is unchanged when there was none), the old name has none, and every
    other name is untouched. *)
Theorem rename_moves oldName newName byName :
  let byName' := MetaStore.rename oldName newName byName in
  (oldName = newName \/ byName !! oldName = None -> byName' = byName) /\
  (oldName <> newName -> forall m, byName !! oldName = Some m ->
     byName' !! newName = Some m /\ byName' !! oldName = None /\
     forall k, k <> oldName -> k <> newName -> byName' !! k = byName !! k).
Proof.
  cbn zeta. unfold MetaStore.rename. destruct (String.eqb_spec oldName newName) as [->|Hne].
  - split; [done|]. intros H. done.
  - split.
    + intros [?|Hn]; [done|]. by rewrite Hn.
    + intros _ m Hm. rewrite Hm. split_and!.
      * by rewrite lookup_insert_eq.
      * by rewrite lookup_insert_ne, lookup_delete_eq.
      * intros k H1 H2. by rewrite lookup_insert_ne, lookup_delete_ne.
Qed.

Definition demo_preset : QuickPrintPreset :=
  Preset "5k" "5k" "5 ribu" "all" vc 6 "" lower_number "1d" "0" 2 GB "1d" 5000 6000 true teal.

Lemma preset_roundtrip_witness :
  apiToPreset (presetToApi demo_preset) (Some (Meta teal "5 ribu")) = Some demo_preset.
Proof. exact (preset_roundtrip demo_preset ltac:(split_and!; done)). Defined.

Lemma rename_moves_witness :
  let byName := {["5k" := Meta teal "5 ribu"; "10k" := Meta red "10 ribu"]} in
  MetaStore.rename "5k" "5rb" byName !! "5rb" = Some (Meta teal "5 ribu") /\
  MetaStore.rename "5k" "5rb" byName !! "5k" = None.
Proof.
  intros byName.
  destruct (proj2 (rename_moves "5k" "5rb" byName) ltac:(done) (Meta teal "5 ribu") eq_refl)
    as (H1 & H2 & _).
  exact (conj H1 H2).
Defined.
