(* ===== verification/Html.v ===== *)
(** * Printed vouchers ([web/src/features/voucher/print-render/templates/
    {html-builder,template-shared}.ts])

    The HTML document of a print job.  A template literal of the source is [t] of its text,
    with a backquote for every double quote.  [toLocaleString] of the current time is the
    argument [now]; amounts are integers. *)
From S2P Require Import Prelude JsString JsValue Voucher.

(** ** Template pieces *)

Definition dq : string := String (char_of 34) "".
Definition t (s : string) : string := replace_char "`" dq s.

(** The five replacements of [escapeHtml], in its order. *)
Definition escapeHtml (value : string) : string :=
  replace_char "'" "&#039;"
    (replace_char (char_of 34) "&quot;"
      (replace_char ">" "&gt;"
        (replace_char "<" "&lt;"
          (replace_char "&" "&amp;" value)))).

Definition qrImageUrl (data : string) (size : Z) : string :=
  "https://api.qrserver.com/v1/create-qr-code/?size=" +:+ Z_to_string size +:+ "x" +:+
  Z_to_string size +:+ "&data=" +:+ encodeURIComponent data.

(** [Intl.NumberFormat('id-ID')] on an integer: groups of three digits, with dots. *)
Fixpoint group3 (n : nat) (rev : string) : string :=
  match rev with
  | "" => ""
  | String c rev' =>
      match n with
      | O => String "." (String c (group3 2 rev'))
      | S n' => String c (group3 n' rev')
      end
  end.

Definition rupiah (n : Z) : string :=
  if n <? 0 then "-" +:+ String.rev (group3 3 (String.rev (Z_to_string (- n))))
  else String.rev (group3 3 (String.rev (Z_to_string n))).

Definition unit_word (unit : string) : option string :=
  if String.eqb unit "d" then Some "hari"
  else if String.eqb unit "h" then Some "jam"
  else if String.eqb unit "w" then Some "minggu"
  else if String.eqb unit "m" then Some "bulan"
  else None.

Definition humanizeValidity (v : string) : string :=
  let s := trim v in
  if String.eqb s "" then ""
  else
    let unit := slice_from_neg 1 s in
    let num := slice_to_neg 1 s in
    match unit_word unit with
    | Some w =>
        if negb (String.eqb num "") && str_forall is_digit num then num +:+ " " +:+ w else s
    | None => s
    end.

Inductive PrintTemplate : Type := default_ | small | thermal.

Record print_meta : Type := PrintMeta {
  profile : string;
  server : string;
  validity : string;
  sellingPrice : Z;
  note : option string;
  title : option string;
  hotspotName : option string;
  loginUrl : option string;
  timeLimit : option string;
  dataLimit : option string;
}.

Record PrintJob : Type := Job {
  template : PrintTemplate;
  vouchers : list GeneratedVoucher;
  meta : print_meta;
}.

(** [a || b]. *)
Definition or_else (a : option string) (b : string) : string :=
  match a with Some s => if String.eqb s "" then b else s | None => b end.

Definition display_name (m : print_meta) : string :=
  or_else (hotspotName m) (or_else (title m) (profile m)).

Definition isVoucher (v : GeneratedVoucher) : bool := String.eqb (username v) (password v).

Definition qr_data (v : GeneratedVoucher) : string :=
  if isVoucher v then username v else username v +:+ ":" +:+ password v.

Definition priceStr (m : print_meta) : string := "Rp " +:+ rupiah (sellingPrice m).

Definition SHARED_CSS : string := t "
  body {
    color: #000;
    background: #fff;
    font-size: 14px;
    font-family: 'Helvetica', Arial, sans-serif;
    margin: 0;
    padding: 8px;
    -webkit-print-color-adjust: exact;
    print-color-adjust: exact;
  }
  table.voucher {
    display: inline-block;
    border: 2px solid #000;
    margin: 2px;
    vertical-align: top;
    border-collapse: collapse;
  }
  table.voucher td, table.voucher th { padding: 2px 4px; }
  .num { float: right; display: inline-block; }
  .rotate { max-width: 15px; white-space: nowrap; vertical-align: bottom; padding-right: 5px; }
  .rotate > div { transform: rotate(-90deg); }
  .qrcode { height: 60px; width: 60px; }
  @page { size: auto; margin: 8mm 3mm 3mm 7mm; }
  @media print {
    body { padding: 0; }
    table { page-break-after: auto }
    tr { page-break-inside: avoid; page-break-after: auto }
    td { page-break-inside: avoid; page-break-after: auto }
  }
".

Definition wrapDocument (title css body : string) : string :=
  t "<!DOCTYPE html>
<html lang=`id`>
<head>
<meta charset=`utf-8` />
<title>" +:+
    escapeHtml title +:+
    t "</title>
<style>" +:+
    SHARED_CSS +:+
    css +:+
    t "</style>
</head>
<body>
" +:+
    body +:+
    t "
</body>
</html>".

Definition default_card (m : print_meta) (i : nat) (v : GeneratedVoucher) : string :=
  let priceStr := priceStr m in
  let validity := escapeHtml (humanizeValidity (validity m)) in
  let timeLimit := escapeHtml (timeLimit m ?? "") in
  let dataLimit := escapeHtml (dataLimit m ?? "") in
  let hotspotName := escapeHtml (display_name m) in
  let loginUrl := escapeHtml (loginUrl m ?? "") in
  let username := escapeHtml (Voucher.username v) in
  let password := escapeHtml (Voucher.password v) in
  let qr := escapeHtml (qrImageUrl (qr_data v) 60) in
  let creds := if isVoucher v then
    t "<td class=`vc`>" +:+
    username +:+
    t "</td>"
    else t "<td class=`up`>User: " +:+
    username +:+
    t "<br>Pass: " +:+
    password +:+
    t "</td>" in
  let loginRow := if negb (String.eqb loginUrl "") then
    t "<td colspan=`3` style=`font-size:10px;`>Login: http://" +:+
    loginUrl +:+
    t " <span class=`num`>[" +:+
    Z_to_string (Z.of_nat i + 1) +:+
    t "]</span></td>"
    else t "<td colspan=`3` style=`font-size:10px;`><span class=`num`>[" +:+
    Z_to_string (Z.of_nat i + 1) +:+
    t "]</span></td>" in
  t "
      <table class=`voucher` style=`width:230px;`>
        <tbody>
          <tr>
            <td style=`font-weight:bold;border-right:2px dashed #000;` class=`rotate` rowspan=`4`><div>" +:+
    escapeHtml priceStr +:+
    t "</div></td>
            <td style=`font-weight:bold;` colspan=`2`>" +:+
    hotspotName +:+
    t "</td>
            <td rowspan=`3`><img class=`qrcode` src=`" +:+
    qr +:+
    t "` alt=`qr`></td>
          </tr>
          <tr>" +:+
    creds +:+
    t "</tr>
          <tr>
            <td style=`font-size:10px;`>" +:+
    validity +:+
    t " " +:+
    timeLimit +:+
    t " " +:+
    dataLimit +:+
    t "</td>
          </tr>
          <tr>" +:+
    loginRow +:+
    t "</tr>
        </tbody>
      </table>".

Definition default_css : string := t "
    .vc { width:100%; font-weight:bold; font-size:18px; text-align:center; }
    .up { width:100%; font-weight:bold; font-size:13px; text-align:left; }
    .qrcode { height:60px; width:60px; }
  ".

Definition small_card (m : print_meta) (i : nat) (v : GeneratedVoucher) : string :=
  let priceStr := priceStr m in
  let validity := escapeHtml (humanizeValidity (validity m)) in
  let timeLimit := escapeHtml (timeLimit m ?? "") in
  let dataLimit := escapeHtml (dataLimit m ?? "") in
  let hotspotName := escapeHtml (display_name m) in
  let username := escapeHtml (Voucher.username v) in
  let password := escapeHtml (Voucher.password v) in
  let headRow := if isVoucher v then
    t "<td colspan=`2` style=`font-size:10px;`>Voucher</td>"
    else t "<td style=`font-size:10px;`>Username</td><td style=`font-size:10px;`>Password</td>" in
  let credRow := if isVoucher v then
    t "<td colspan=`2` style=`border:1px solid #000;font-weight:bold;`>" +:+
    username +:+
    t "</td>"
    else t "<td style=`border:1px solid #000;font-weight:bold;`>" +:+
    username +:+
    t "</td><td style=`border:1px solid #000;font-weight:bold;`>" +:+
    password +:+
    t "</td>" in
  t "
      <table class=`voucher` style=`width:140px;`>
        <thead>
          <tr>
            <th colspan=`2` style=`width:100%;text-align:left;font-size:12px;font-weight:bold;border-bottom:1px solid #000;`>" +:+
    hotspotName +:+
    t "<span class=`num`>" +:+
    Z_to_string (Z.of_nat i + 1) +:+
    t "</span></th>
          </tr>
        </thead>
        <tbody>
          <tr style=`font-size:10px;text-align:center;`>" +:+
    headRow +:+
    t "</tr>
          <tr style=`font-size:12px;text-align:center;`>" +:+
    credRow +:+
    t "</tr>
        </tbody>
        <tfoot>
          <tr style=`font-size:10px;text-align:center;`>
            <th colspan=`2`>" +:+
    validity +:+
    t " " +:+
    timeLimit +:+
    t " " +:+
    dataLimit +:+
    t " " +:+
    escapeHtml priceStr +:+
    t "</th>
          </tr>
        </tfoot>
      </table>".

Definition thermal_card (now : string) (m : print_meta) (v : GeneratedVoucher) : string :=
  let priceStr := priceStr m in
  let validity := escapeHtml (humanizeValidity (validity m)) in
  let timeLimit := escapeHtml (timeLimit m ?? "") in
  let dataLimit := escapeHtml (dataLimit m ?? "") in
  let hotspotName := escapeHtml (display_name m) in
  let loginUrl := escapeHtml (loginUrl m ?? "") in
  let stamp := escapeHtml now in
  let username := escapeHtml (Voucher.username v) in
  let password := escapeHtml (Voucher.password v) in
  let qr := escapeHtml (qrImageUrl (qr_data v) 100) in
  let comment := escapeHtml (v_comment v) in
  let credBlock := if isVoucher v then
    t "<tr><td style=`font-size:12px;`>Kode Voucher</td></tr>
           <tr><td style=`border:1px solid #000;font-weight:bold;font-size:16px;`>" +:+
    username +:+
    t "</td></tr>"
    else t "<tr><td style=`width:50%;`>Username</td><td>Password</td></tr>
           <tr style=`font-size:14px;`><td style=`border:1px solid #000;font-weight:bold;`>" +:+
    username +:+
    t "</td><td style=`border:1px solid #000;font-weight:bold;`>" +:+
    password +:+
    t "</td></tr>" in
  let loginRow := if negb (String.eqb loginUrl "") then
    t "<tr><td colspan=`2` style=`font-weight:bold;font-size:12px;`>Login: http://" +:+
    loginUrl +:+
    t "</td></tr>"
    else "" in
  t "
      <table class=`voucher` style=`width:180px;`>
        <tbody>
          <tr><td style=`text-align:center;font-size:14px;font-weight:bold;`>" +:+
    hotspotName +:+
    t "</td></tr>
          <tr><td style=`text-align:center;font-size:12px;border-bottom:1px solid #000;`><span>" +:+
    stamp +:+
    t "</span></td></tr>
          <tr>
            <td>
              <table style=`text-align:center;width:170px;font-size:12px;`>
                <tbody>
                  <tr><td><table style=`width:100%;`><tbody>" +:+
    credBlock +:+
    t "</tbody></table></td></tr>
                  <tr><td colspan=`2` style=`border-top:1px solid #000;font-weight:bold;font-size:14px;`>" +:+
    validity +:+
    t " " +:+
    timeLimit +:+
    t " " +:+
    dataLimit +:+
    t "</td></tr>
                  <tr><td><span class=`price`>" +:+
    escapeHtml priceStr +:+
    t "</span></td></tr>
                  <tr><td colspan=`2`><img class=`qrcode` style=`height:100px;width:100px;` src=`" +:+
    qr +:+
    t "` alt=`qr`><br>" +:+
    comment +:+
    t "</td></tr>
                  " +:+
    loginRow +:+
    t "
                </tbody>
              </table>
            </td>
          </tr>
        </tbody>
      </table>".

Definition thermal_css : string := t "
    .price { font-size: 20px; }
    .qrcode { height:100px; width:100px; }
  ".

(** [cards.join('')]. *)
Definition renderDefault (job : PrintJob) : string :=
  wrapDocument "Voucher — Default" default_css (join "" (imap (default_card (meta job)) (vouchers job))).
Definition renderSmall (job : PrintJob) : string :=
  wrapDocument "Voucher — Small" "" (join "" (imap (small_card (meta job)) (vouchers job))).
Definition renderThermal (now : string) (job : PrintJob) : string :=
  wrapDocument "Voucher — Thermal" thermal_css (join "" (map (thermal_card now (meta job)) (vouchers job))).

Definition buildPrintHtml (now : string) (job : PrintJob) : string :=
  match template job with
  | default_ => renderDefault job
  | small => renderSmall job
  | thermal => renderThermal now job
  end.

(** ** Escaping *)

(** The characters that open or close markup, in text and in quoted attributes. *)
Definition is_markup (c : ascii) : bool :=
  Ascii.eqb c "<" || Ascii.eqb c ">" || Ascii.eqb c (char_of 34) || Ascii.eqb c "'".

Fixpoint markup (s : string) : string :=
  match s with
  | "" => ""
  | String c s' => if is_markup c then String c (markup s') else markup s'
  end.

(** The five character references, read back as a browser does. *)
Definition references : list (string * ascii) :=
  [("amp;", "&"%char); ("lt;", "<"%char); ("gt;", ">"%char); ("quot;", char_of 34); ("#039;", "'"%char)].

Fixpoint decode (skip : nat) (s : string) : string :=
  match s with
  | "" => ""
  | String c s' =>
      match skip with
      | S k => decode k s'
      | O =>
          if Ascii.eqb c "&" then
            match List.find (fun r => startsWith r.1 s') references with
            | Some r => String r.2 (decode (String.length r.1) s')
            | None => String c (decode O s')
            end
          else String c (decode O s')
      end
  end.

Lemma escapeHtml_cons c s : escapeHtml (String c s) = escapeHtml (String c "") +:+ escapeHtml s.
Proof. change (String c s) with (String c "" +:+ s). unfold escapeHtml. by rewrite !replace_char_app. Qed.

Lemma markup_app a b : markup (a +:+ b) = markup a +:+ markup b.
Proof. induction a as [|c a IH]; [done|]. cbn. rewrite IH. by destruct (is_markup c). Qed.

Lemma markup_escape s : markup (escapeHtml s) = "".
Proof.
  induction s as [|c s IH]; [done|]. rewrite escapeHtml_cons, markup_app, IH. all_chars c.
Qed.

Lemma decode_skip a s : decode (String.length a) (a +:+ s) = decode 0 s.
Proof. induction a as [|c a IH]; [by destruct s|done]. Qed.

Lemma decode_escaped c x : decode 0 (escapeHtml (String c "") +:+ x) = String c (decode 0 x).
Proof. 
  destruct c as [[] [] [] [] [] [] [] []];
    match goal with |- context [escapeHtml ?s] =>
      let e := eval vm_compute in (escapeHtml s) in change (escapeHtml s) with e end;
    destruct x; reflexivity.
Qed.

(** Nothing is lost by escaping: a browser that reads the character references back
    shows exactly the text that was escaped. *)
Theorem escapeHtml_decodes s : decode 0 (escapeHtml s) = s.
Proof.
  induction s as [|c s IH]; [done|]. rewrite escapeHtml_cons.
  transitivity (String c (decode 0 (escapeHtml s))); [|by rewrite IH].
  apply decode_escaped.
Qed.

Lemma escapeHtml_nonempty s : String.eqb (escapeHtml s) "" = String.eqb s "".
Proof.
  destruct s as [|c s]; [done|]. rewrite escapeHtml_cons. cbn [String.eqb].
  assert (escapeHtml (String c "") <> "") as H by all_chars c.
  by destruct (escapeHtml (String c "")).
Qed.

Lemma markup_num n : markup (Z_to_string n) = "".
Proof.
  assert (forall s, str_forall is_digit s = true -> markup s = "") as H.
  { induction s as [|c s IH]; [done|]. cbn. intros H. b2p. rewrite IH by done.
    replace (is_markup c) with false; [done|]. revert H. clear. all_chars c. }
  destruct (decide (0 <= n)).
  - apply H. by apply Z_to_string_nonneg.
  - rewrite Z_to_string_neg by lia. cbn. apply H. apply Z_to_string_nonneg. lia.
Qed.

(** Two jobs of the same form: as many vouchers, of the same kinds, with the same template,
    and a login address in both or in neither. *)
Definition same_form (a b : PrintJob) : Prop :=
  template a = template b /\
  Forall2 (fun v w => isVoucher v = isVoucher w) (vouchers a) (vouchers b) /\
  String.eqb (loginUrl (meta a) ?? "") "" = String.eqb (loginUrl (meta b) ?? "") "".

(** Texts with the same markup: an equivalence that concatenation respects. *)
Definition same_markup (a b : string) : Prop := markup a = markup b.
#[local] Instance same_markup_equiv : Equivalence same_markup.
Proof. split; unfold same_markup; [intros a|intros a b|intros a b c]; congruence. Qed.
#[local] Instance app_same_markup : Proper (same_markup ==> same_markup ==> same_markup) String.append.
Proof. intros a a' Ha b b' Hb. unfold same_markup in *. by rewrite !markup_app, Ha, Hb. Qed.
Lemma same_escape a b : same_markup (escapeHtml a) (escapeHtml b).
Proof. unfold same_markup. by rewrite !markup_escape. Qed.
Lemma same_num a b : same_markup (Z_to_string a) (Z_to_string b).
Proof. unfold same_markup. by rewrite !markup_num. Qed.

Lemma same_app a a' b b' : same_markup a a' -> same_markup b b' -> same_markup (a +:+ b) (a' +:+ b').
Proof. intros Ha Hb. by rewrite Ha, Hb. Qed.
Lemma same_refl a : same_markup a a.
Proof. done. Qed.

(** Compare two renderings piece by piece: the same literal, or two escaped values. *)
Ltac pieces :=
  repeat lazymatch goal with
  | |- same_markup (escapeHtml _) (escapeHtml _) => apply same_escape
  | |- same_markup (Z_to_string _) (Z_to_string _) => apply same_num
  | |- same_markup (String.append _ _) (String.append _ _) => apply same_app
  | H : same_markup ?a ?b |- same_markup ?a ?b => exact H
  | |- same_markup ?a _ => exact (same_refl a)
  end.

Lemma default_card_markup m m' i v v' : isVoucher v = isVoucher v' ->
  String.eqb (loginUrl m ?? "") "" = String.eqb (loginUrl m' ?? "") "" ->
  same_markup (default_card m i v) (default_card m' i v').
Proof.
  intros Hv Hu. unfold default_card. cbv zeta. rewrite !escapeHtml_nonempty, Hu, Hv.
  destruct (isVoucher v'), (negb _); pieces.
Qed.

Lemma small_card_markup m m' i v v' : isVoucher v = isVoucher v' ->
  same_markup (small_card m i v) (small_card m' i v').
Proof.
  intros Hv. unfold small_card. cbv zeta. rewrite Hv. destruct (isVoucher v'); pieces.
Qed.

Lemma thermal_card_markup now now' m m' v v' : isVoucher v = isVoucher v' ->
  String.eqb (loginUrl m ?? "") "" = String.eqb (loginUrl m' ?? "") "" ->
  same_markup (thermal_card now m v) (thermal_card now' m' v').
Proof.
  intros Hv Hu. unfold thermal_card. cbv zeta. rewrite !escapeHtml_nonempty, Hu, Hv.
  destruct (isVoucher v'), (negb _); pieces.
Qed.

Lemma wrap_markup title css body body' : same_markup body body' ->
  same_markup (wrapDocument title css body) (wrapDocument title css body').
Proof.
  intros H. unfold wrapDocument. pieces.
Qed.

Lemma markup_join l l' : Forall2 same_markup l l' ->
  same_markup (join "" l) (join "" l').
Proof.
  induction 1 as [|a b l l' Hab Hl IH]; [done|].
  destruct Hl as [|c d l l' Hcd Hl]; [done|].
  change (join "" (a :: c :: l)) with (a +:+ ("" +:+ join "" (c :: l))).
  change (join "" (b :: d :: l')) with (b +:+ ("" +:+ join "" (d :: l'))).
  by do 2 (apply app_same_markup; [done|]).
Qed.

Lemma Forall2_imap {A} (f g : nat -> A -> string) (l l' : list A) (P : A -> A -> Prop) :
  Forall2 P l l' -> (forall i x y, P x y -> same_markup (f i x) (g i y)) ->
  Forall2 same_markup (imap f l) (imap g l').
Proof.
  intros H. revert f g. induction H as [|x y l l' Hxy Hl IH]; intros f g Hfg; cbn; constructor; [by apply Hfg|].
  apply IH. intros i a b. apply Hfg.
Qed.

(** C8: data cannot inject markup.  The sequence of angle brackets and quotes of the printed
    document depends only on the form of the job (template, number and kinds of the
    vouchers, whether there is a login address): whatever the user names, passwords,
    comments, profile, hotspot name, title, address, validity, limits, price and time
    are, they open, close and end no tag and no attribute. *)
Theorem print_markup_fixed now now' a b :
  same_form a b -> markup (buildPrintHtml now a) = markup (buildPrintHtml now' b).
Proof.
  intros (Ht & Hv & Hu). fold (same_markup (buildPrintHtml now a) (buildPrintHtml now' b)).
  unfold buildPrintHtml. rewrite Ht.
  destruct (template b); unfold renderDefault, renderSmall, renderThermal; apply wrap_markup, markup_join.
  - apply (Forall2_imap _ _ _ _ _ Hv). intros i v w Hvw. exact (default_card_markup _ _ _ _ _ Hvw Hu).
  - apply (Forall2_imap _ _ _ _ _ Hv). intros i v w Hvw. exact (small_card_markup _ _ _ _ _ Hvw).
  - induction Hv as [|v w l l' Hvw _ IH]; cbn; constructor; [exact (thermal_card_markup _ _ _ _ _ _ Hvw Hu)|exact IH].
Qed.

Definition plain_job : PrintJob :=
  Job small [Voucher "1" "a" "b" "p" ""] (PrintMeta "p" "s" "1d" 5000 None None None None None None).
Definition hostile_job : PrintJob :=
  Job small [Voucher "1" "<script>x()</script>" "' onload='" "p" ""]
    (PrintMeta "p" "s" "1d" 5000 None (Some "</th><b>") None None None None).

Lemma print_markup_fixed_witness :
  markup (buildPrintHtml "" hostile_job) = markup (buildPrintHtml "" plain_job).
Proof.
  apply (print_markup_fixed "" "" hostile_job plain_job).
  split; [|split]; [|apply Forall2_cons_2; [|apply Forall2_nil_2]|]; reflexivity.
Defined.
