(* ===== verification/Traffic.v ===== *)
(** * Live traffic ([web/src/features/traffic/{api/queries,data/data,data/schema}.ts])

    The accumulator behind the live grid: one event of the statistics stream updates the
    last counters of its interface or queue ([prevRef]) and its row ([entities]), whose
    rate is the difference of the counters over the time since the row's last event.  The
    clock is the argument [now], in milliseconds; counters and rates are exact rationals.
    A row is known by its name, a JSON string. *)
From S2P Require Import Prelude JsString JsValue JsNumber JsMap.
#[global] Open Scope list_scope.
#[global] Open Scope Z_scope.

Inductive LiveKind : Type := interfaces | parents | queues.

Record LiveSpark : Type := Spark { s_t : Z; s_rx : Qc; s_tx : Qc }.

Record LiveEntity : Type := Entity {
  key : jval;
  title : jval;
  subtitle : jval;
  running : bool;
  disabled : bool;
  rxBps : Qc;
  txBps : Qc;
  maxLimit : jval;
  parent : jval;
  spark : list LiveSpark;
}.

Record Extracted : Type := Extract {
  x_key : jval;
  x_title : jval;
  x_subtitle : jval;
  x_running : bool;
  x_disabled : bool;
  rxBytes : Qc;
  txBytes : Qc;
  x_maxLimit : jval;
  x_parent : jval;
}.

(** [routerId > 0 ? SSE_PATH[kind](routerId) : null]. *)
Definition SSE_PATH (k : LiveKind) (rid : Z) : string :=
  "/devices/" +:+ Z_to_string rid +:+
  match k with
  | interfaces => "/stream/network/interfaces/stats?interval=1s&type=ether"
  | parents => "/stream/network/queues/parents/stats?interval=1s"
  | queues => "/stream/network/queues/stats?interval=1s"
  end.

Definition live_path (k : LiveKind) (rid : Z) : option string :=
  if 0 <? rid then Some (SSE_PATH k rid) else None.

Definition SPARK_MAX : nat := 30.

(** [a || b]. *)
Definition jor (a b : jval) : jval := if truthy a then a else b.

(** "upload/download" as two counters; [s.split] of a truthy value that is no text throws. *)
Definition splitPair (s : jval) : result string (Qc * Qc) :=
  if negb (truthy s) then Ok (Qc_of 0, Qc_of 0)
  else match s with
       | JStr s =>
           let part (i : nat) := match JsString.split "/" s !! i with Some p => JStr p | None => JUndef end in
           Ok (Number_or_0 (part 0%nat), Number_or_0 (part 1%nat))
       | _ => Throw "TypeError"
       end.

Definition extract (kind : LiveKind) (e : jval) : result string (option Extracted) :=
  if negb (truthy (get "name" e)) then Ok None
  else
    match kind with
    | interfaces =>
        if negb (jval_eqb (get "type" e) (JStr "ether")) then Ok None
        else Ok (Some {| x_key := get "name" e;
                         x_title := get "name" e;
                         x_subtitle := get "type" e;
                         x_running := truthy (get "running" e);
                         x_disabled := truthy (get "disabled" e);
                         rxBytes := Number_or_0 (get "rx_byte" e);
                         txBytes := Number_or_0 (get "tx_byte" e);
                         x_maxLimit := JUndef;
                         x_parent := JUndef |})
    | _ =>
        '(up, down) ← splitPair (get "bytes" e);
        Ok (Some {| x_key := get "name" e;
                    x_title := get "name" e;
                    x_subtitle := jor (get "target" e) (JStr "");
                    x_running := negb (truthy (get "disabled" e));
                    x_disabled := truthy (get "disabled" e);
                    rxBytes := down;
                    txBytes := up;
                    x_maxLimit := get "max_limit" e;
                    x_parent := get "parent" e |})
    end.

(** The last counters of a row. *)
Record counters : Type := Counters { c_rx : Qc; c_tx : Qc; c_t : Z }.

Record live : Type := Live {
  prevRef : js_map jval counters;
  entities : js_map jval LiveEntity;
}.

Definition empty_live : live := Live [] [].

(** [(Math.max(0, b - a) * 8) / dt] with [dt = ms / 1000]. *)
Definition Qc_max0 (q : Qc) : Qc := if Qclt_le_dec q (Qc_of 0) then Qc_of 0 else q.
Definition rate (a b : Qc) (ms : Z) : Qc := (Qc_max0 (b - a) * Qc_of 8 / (Qc_of ms / Qc_of 1000))%Qc.

(** The rates of an event against the last counters of its row. *)
Definition rates (prev : option counters) (x : Extracted) (now : Z) : Qc * Qc :=
  match prev with
  | Some p =>
      if c_t p <? now
      then (rate (c_rx p) (rxBytes x) (now - c_t p), rate (c_tx p) (txBytes x) (now - c_t p))
      else (Qc_of 0, Qc_of 0)
  | None => (Qc_of 0, Qc_of 0)
  end.

Definition observe (x : Extracted) (now : Z) (st : live) : live :=
  let '(rx, tx) := rates (map_get (x_key x) (prevRef st)) x now in
  let ex := map_get (x_key x) (entities st) in
  let sp := last_n SPARK_MAX
              (match ex with Some e => spark e | None => [] end ++ [Spark now rx tx]) in
  Live (map_set (x_key x) (Counters (rxBytes x) (txBytes x) now) (prevRef st))
       (map_set (x_key x)
          {| key := x_key x; title := x_title x; subtitle := x_subtitle x;
             running := x_running x; disabled := x_disabled x; rxBps := rx; txBps := tx;
             maxLimit := x_maxLimit x; parent := x_parent x; spark := sp |}
          (entities st)).

(** [onEvent]; what [extract] throws is caught by the stream hook, and nothing changes. *)
Definition onEvent (kind : LiveKind) (now : Z) (raw : jval) (st : live) : live :=
  match extract kind raw with
  | Ok (Some x) => observe x now st
  | Ok None | Throw _ => st
  end.

(** [[...entities.values()]]. *)
Definition live_entities (st : live) : list LiveEntity := map_values (entities st).

Definition on_events (kind : LiveKind) (evs : list (Z * jval)) (st : live) : live :=
  fold_left (fun st e => onEvent kind e.1 e.2 st) evs st.

(** ** The telemetry of one interface *)

Record TrafficSample : Type := Sample {
  timestamp : Z;
  ts_rxBps : jval;
  ts_txBps : jval;
  ts_rxPps : jval;
  ts_txPps : jval;
}.

(** [a ?? b]. *)
Definition nullish (a b : jval) : jval := match a with JUndef | JNull => b | _ => a end.

Section Telemetry.
(** [new Date(x).getTime()]; [None] is [NaN]. *)
Variable getTime : jval -> option Z.

Definition telemetryToTrafficSample (now : Z) (event : jval) : TrafficSample :=
  let fields := get "fields" event in
  {| timestamp := match getTime (get "timestamp" event) with Some ts => ts | None => now end;
     ts_rxBps := nullish (get "rx_bits_per_second" fields) (JNum 0);
     ts_txBps := nullish (get "tx_bits_per_second" fields) (JNum 0);
     ts_rxPps := nullish (get "rx_packets_per_second" fields) (JNum 0);
     ts_txPps := nullish (get "tx_packets_per_second" fields) (JNum 0) |}.

(** A flat event, the form of [api/dto/network.go], always reads as silence. *)
Lemma flat_telemetry_silent now event : get "fields" event = JUndef ->
  let s := telemetryToTrafficSample now event in
  ts_rxBps s = JNum 0 /\ ts_txBps s = JNum 0 /\ ts_rxPps s = JNum 0 /\ ts_txPps s = JNum 0.
Proof. intros H. unfold telemetryToTrafficSample. by rewrite H. Qed.
End Telemetry.

Record NetInterface : Type := Net {
  n_id : jval;
  n_name : jval;
  n_type : jval;
  n_mtu : jval;
  n_macAddress : jval;
  n_running : bool;
  n_disabled : bool;
  n_comment : jval;
}.

Definition interfaceToNetInterface (record : jval) : NetInterface :=
  {| n_id := get ".id" record;
     n_name := nullish (get "name" record) (JStr "");
     n_type := nullish (get "type" record) (JStr "");
     n_mtu := nullish (get "mtu" record) (JStr "");
     n_macAddress := get "mac-address" record;
     n_running := jval_eqb (get "running" record) (JStr "true");
     n_disabled := jval_eqb (get "disabled" record) (JStr "true");
     n_comment := nullish (get "comment" record) (JStr "") |}.

(** ** Rates *)

Lemma Qc_max0_nonneg q : (Qc_of 0 <= Qc_max0 q)%Qc.
Proof. unfold Qc_max0. destruct (Qclt_le_dec q (Qc_of 0)); [apply Qcle_refl|done]. Qed.

Lemma Qc_of_pos n : 0 < n -> (Q2Qc 0 < Qc_of n)%Qc.
Proof. intros Hn. unfold Qclt, Qc_of. cbn. rewrite !Qred_correct. unfold Qlt. cbn. lia. Qed.

Definition seconds (ms : Z) : Qc := (Qc_of ms / Qc_of 1000)%Qc.

Lemma seconds_pos ms : 0 < ms -> (Q2Qc 0 < seconds ms)%Qc.
Proof.
  intros H%Qc_of_pos. unfold seconds, Qcdiv. rewrite <- (Qcmult_0_l (/ Qc_of 1000)).
  apply Qcmult_lt_compat_r; [done|exact H].
Qed.

(** The rate over [ms] milliseconds carries exactly the bits that were counted. *)
Lemma rate_bits a b ms : 0 < ms -> (rate a b ms * seconds ms = Qc_max0 (b - a) * Qc_of 8)%Qc.
Proof.
  intros H%seconds_pos. unfold rate. fold (seconds ms).
  rewrite Qcmult_comm. apply Qcmult_div_r. intros E. rewrite E in H. by apply Qclt_not_eq in H.
Qed.

Lemma rate_nonneg a b ms : 0 < ms -> (Qc_of 0 <= rate a b ms)%Qc.
Proof.
  intros H. apply (Qcmult_lt_0_le_reg_r _ _ (seconds ms)); [by apply seconds_pos|].
  rewrite rate_bits by done. change (Qc_of 0) with (Q2Qc 0). rewrite Qcmult_0_l.
  rewrite <- (Qcmult_0_l (Qc_of 8)). apply Qcmult_le_compat_r; [apply Qc_max0_nonneg|done].
Qed.

Lemma rates_nonneg prev x now :
  (Qc_of 0 <= (rates prev x now).1)%Qc /\ (Qc_of 0 <= (rates prev x now).2)%Qc.
Proof.
  unfold rates. destruct prev as [p|]; [|done].
  destruct (c_t p <? now) eqn:E; [|done]. b2p. split; apply rate_nonneg; lia.
Qed.

(** ** The accumulator *)

(** One row: its rates are the last point of its sparkline, which has at most 30 points,
    none of them negative. *)
Definition row_ok (e : jval * LiveEntity) : Prop :=
  key e.2 = e.1 /\ (length (spark e.2) <= SPARK_MAX)%nat /\
  (exists t, last (spark e.2) = Some (Spark t (rxBps e.2) (txBps e.2))) /\
  Forall (fun p => (Qc_of 0 <= s_rx p)%Qc /\ (Qc_of 0 <= s_tx p)%Qc) (spark e.2).

Definition live_ok (st : live) : Prop :=
  NoDup (entities st).*1 /\ (entities st).*1 = (prevRef st).*1 /\ Forall row_ok (entities st).

Lemma observe_ok x now st : live_ok st -> live_ok (observe x now st).
Proof.
  intros (Hnd & Hk & Hall). unfold observe.
  pose proof (rates_nonneg (map_get (x_key x) (prevRef st)) x now) as Hr.
  destruct (rates _ x now) as [rx tx]. cbn [fst snd] in Hr.
  split_and!; cbn [entities prevRef].
  - by apply map_set_NoDup.
  - by rewrite !map_set_keys, Hk.
  - apply map_set_Forall; [done|]. unfold row_ok. cbn [fst snd key spark rxBps txBps].
    split_and!; [done| | |].
    + rewrite last_n_length. lia.
    + exists now. apply last_n_app1. unfold SPARK_MAX. lia.
    + unfold last_n. apply Forall_drop, Forall_app. split; [|by constructor].
      destruct (map_get (x_key x) (entities st)) as [e|] eqn:E; [|constructor].
      apply map_get_Some_in in E. rewrite Forall_forall in Hall. by apply (Hall _ E).
Qed.

Lemma onEvent_ok kind now raw st : live_ok st -> live_ok (onEvent kind now raw st).
Proof.
  intros H. unfold onEvent. destruct (extract kind raw) as [[x|]|]; [by apply observe_ok|done|done].
Qed.

Lemma on_events_ok kind evs st : live_ok st -> live_ok (on_events kind evs st).
Proof.
  unfold on_events. revert st. induction evs as [|e evs IH]; intros st H; [done|].
  by apply IH, onEvent_ok.
Qed.

(** Events of other rows leave a row and its counters alone. *)
Lemma observe_other x now st k : x_key x <> k ->
  map_get k (prevRef (observe x now st)) = map_get k (prevRef st) /\
  map_get k (entities (observe x now st)) = map_get k (entities st).
Proof.
  intros Hne. unfold observe. destruct (rates _ x now) as [rx tx]. cbn [prevRef entities].
  by rewrite !map_get_set_ne.
Qed.

(** The row an event is for. *)
Definition event_key (kind : LiveKind) (raw : jval) : option jval :=
  match extract kind raw with Ok (Some x) => Some (x_key x) | _ => None end.

Lemma on_events_other kind evs st k :
  Forall (fun e => event_key kind e.2 <> Some k) evs ->
  map_get k (prevRef (on_events kind evs st)) = map_get k (prevRef st) /\
  map_get k (entities (on_events kind evs st)) = map_get k (entities st).
Proof.
  unfold on_events. intros H. revert st. induction H as [|[t raw] evs He _ IH]; intros st; [done|].
  cbn [fold_left fst snd]. destruct (IH (onEvent kind t raw st)) as [-> ->].
  unfold event_key, onEvent in *. cbn [snd] in He.
  destruct (extract kind raw) as [[x|]|]; [|done|done]. apply observe_other. congruence.
Qed.

(** The live grid stays well formed whatever the stream sends and whenever: one row per
    name, in the order the names were first seen, each with at most 30 sparkline points,
    no negative rate, and its displayed rates equal to the last point. *)
Theorem live_grid_ok kind evs :
  live_ok (on_events kind evs empty_live).
Proof. apply on_events_ok. split_and!; [constructor|done|constructor]. Qed.

(** C7: the displayed rate is exact: between two successive events of a row (with any events
    of other rows, unusable ones and ones that throw in between), rate times elapsed
    seconds is eight times the bytes counted, in both directions, and 0 when a counter
    went backwards (a reset); the new point is appended to the sparkline. *)
Theorem live_rate_exact kind evs evs' t t' raw raw' x x' st :
  extract kind raw = Ok (Some x) -> extract kind raw' = Ok (Some x') -> x_key x' = x_key x ->
  Forall (fun e => event_key kind e.2 <> Some (x_key x)) evs' -> t < t' ->
  st = on_events kind (evs ++ (t, raw) :: evs' ++ [(t', raw')]) empty_live ->
  exists e before, map_get (x_key x) (entities st) = Some e /\
    (rxBps e * seconds (t' - t) = Qc_max0 (rxBytes x' - rxBytes x) * Qc_of 8)%Qc /\
    (txBps e * seconds (t' - t) = Qc_max0 (txBytes x' - txBytes x) * Qc_of 8)%Qc /\
    spark e = last_n SPARK_MAX (before ++ [Spark t' (rxBps e) (txBps e)]).
Proof.
  intros Hx Hx' Hk Hevs Ht ->. unfold on_events. rewrite fold_left_app. cbn [fold_left].
  rewrite fold_left_app. cbn [fold_left fst snd].
  set (st0 := fold_left _ evs empty_live).
  set (st1 := onEvent kind t raw st0).
  destruct (on_events_other kind evs' st1 (x_key x) Hevs) as [Hp _].
  unfold on_events in Hp. set (st2 := fold_left _ evs' st1) in *.
  assert (map_get (x_key x) (prevRef st1) = Some (Counters (rxBytes x) (txBytes x) t)) as Hc.
  { unfold st1, onEvent. rewrite Hx. unfold observe. destruct (rates _ x t).
    apply map_get_set_eq. }
  unfold onEvent. rewrite Hx'. unfold observe. rewrite Hk, Hp, Hc. unfold rates. cbn [c_t c_rx c_tx].
  rewrite (proj2 (Z.ltb_lt t t') Ht). cbn [entities]. rewrite map_get_set_eq.
  eexists _, _. split; [reflexivity|]. cbn [rxBps txBps spark].
  split_and!; [apply rate_bits; lia|apply rate_bits; lia|reflexivity].
Qed.

Definition demo_event (n : Z) : jval :=
  JObj [("name", JStr "ether1"); ("type", JStr "ether"); ("rx_byte", JNum n); ("tx_byte", JNum 0);
        ("running", JBool true)].
Definition demo_other : jval :=
  JObj [("name", JStr "ether2"); ("type", JStr "ether"); ("rx_byte", JNum 7); ("tx_byte", JNum 7)].

Lemma live_rate_exact_witness :
  exists e, map_get (JStr "ether1") (entities (on_events interfaces
      [(0, demo_event 5); (1000, demo_event 100); (1500, demo_other); (3000, demo_event 350)] empty_live))
    = Some e /\ (rxBps e * seconds 2000)%Qc = Qc_of 2000.
Proof.
  destruct (live_rate_exact interfaces [(0, demo_event 5)] [(1500, demo_other)] 1000 3000
    (demo_event 100) (demo_event 350)
    (Extract (JStr "ether1") (JStr "ether1") (JStr "ether") true false (Qc_of 100) (Qc_of 0) JUndef JUndef)
    (Extract (JStr "ether1") (JStr "ether1") (JStr "ether") true false (Qc_of 350) (Qc_of 0) JUndef JUndef)
    _ eq_refl eq_refl eq_refl ltac:(by repeat constructor) ltac:(lia) eq_refl)
    as (e & before & He & Hr & _).
  exists e. split; [exact He|]. exact (eq_trans Hr ltac:(apply Qc_is_canon; reflexivity)).
Defined.
