(* ===== verification/Pages.v ===== *)
(** * Page buttons and initials ([web/src/lib/utils.ts])

    The buttons of a table's page bar, with an ellipsis for the pages left out, and the
    initials of a display name (an ASCII text: [slice] and indexing count characters). *)
From S2P Require Import Prelude JsString.

(** A button, or the text '...'. *)
Inductive page_item : Type := Page (n : Z) | Dots.

Definition maxVisiblePages : Z := 5.

Definition getPageNumbers (currentPage totalPages : Z) : list page_item :=
  if totalPages <=? maxVisiblePages then map Page (zrange 1 totalPages)
  else
    [Page 1] ++
    if currentPage <=? 3 then map Page (zrange 2 4) ++ [Dots; Page totalPages]
    else if totalPages - 2 <=? currentPage then
      [Dots] ++ map Page (zrange (totalPages - 3) totalPages)
    else
      [Dots] ++ map Page (zrange (currentPage - 1) (currentPage + 1)) ++ [Dots; Page totalPages].

(** [displayName.trim().split(/\s+/).filter(Boolean)]: the maximal runs of non-spaces. *)
Fixpoint words_from (cur : string) (s : string) : list string :=
  match s with
  | "" => if String.eqb cur "" then [] else [cur]
  | String c s' =>
      if is_space c then (if String.eqb cur "" then [] else [cur]) ++ words_from "" s'
      else words_from (cur +:+ String c "") s'
  end.
Definition words (s : string) : list string := words_from "" (trim s).

Definition head_text (s : string) : string :=
  match s with String c _ => String c "" | "" => "" end.

Definition getDisplayNameInitials (displayName : string) : string :=
  let parts := words displayName in
  match parts with
  | [] => "?"
  | [p] => toUpperCase (str_take 2 p)
  | p :: _ => toUpperCase (head_text p +:+ head_text (default "" (last parts)))
  end.

(** ** The page bar *)

(** What follows the button [a]: the next page, or an ellipsis that stands for at least
    one page; the bar ends at [total]. *)
Fixpoint follows (total a : Z) (l : list page_item) : Prop :=
  match l with
  | [] => a = total
  | Page b :: l' => b = a + 1 /\ follows total b l'
  | Dots :: Page b :: l' => a + 1 < b /\ follows total b l'
  | _ => False
  end.

Definition bar_ok (total : Z) (l : list page_item) : Prop :=
  match l with
  | Page a :: l' => a = 1 /\ follows total a l'
  | _ => False
  end.

Lemma zrange_cons a b : a <= b -> zrange a b = a :: zrange (a + 1) b.
Proof.
  intros H. unfold zrange. rewrite seqZ_cons by lia. f_equal. f_equal; lia.
Qed.

Lemma zrange_nil a b : b < a -> zrange a b = [].
Proof. intros H. unfold zrange. apply seqZ_nil. lia. Qed.

(** Unfolds a range of known length. *)
Ltac zrange_unroll := repeat rewrite zrange_cons by lia; rewrite ?zrange_nil by lia; cbn [map app].

Lemma follows_run n a : follows (a + Z.of_nat n) a (map Page (seqZ (a + 1) (Z.of_nat n))).
Proof.
  revert a. induction n as [|n IH]; intros a; [rewrite seqZ_nil by lia; cbn; lia|].
  rewrite seqZ_cons by lia. cbn [map follows]. split; [done|].
  replace (a + Z.of_nat (S n)) with (a + 1 + Z.of_nat n) by lia.
  replace (Z.pred (Z.of_nat (S n))) with (Z.of_nat n) by lia. apply IH.
Qed.

(** The page bar of a table: it starts at page 1 and ends at the last page, neighbouring
    buttons are consecutive pages, an ellipsis only ever stands for pages that are left out,
    the current page has a button, and there are at most seven items. *)
Theorem page_bar currentPage totalPages :
  1 <= totalPages ->
  bar_ok totalPages (getPageNumbers currentPage totalPages) /\
  (length (getPageNumbers currentPage totalPages) <= 7)%nat /\
  (1 <= currentPage <= totalPages -> Page currentPage ∈ getPageNumbers currentPage totalPages).
Proof.
  intros Ht. unfold getPageNumbers, maxVisiblePages.
  destruct (totalPages <=? 5) eqn:E5; b2p.
  - split_and!.
    + rewrite zrange_cons by lia. cbn [map bar_ok]. split; [done|].
      pose proof (follows_run (Z.to_nat (totalPages - 1)) 1) as H. rewrite Z2Nat.id in H by lia.
      unfold zrange. replace (1 + (totalPages - 1)) with totalPages in H by lia.
      by replace (totalPages - (1 + 1) + 1) with (totalPages - 1) by lia.
    + unfold zrange. rewrite length_map, length_seqZ. lia.
    + intros Hc. apply list_elem_of_fmap. exists currentPage. split; [done|]. by apply elem_of_zrange.
  - destruct (currentPage <=? 3) eqn:E3; [|destruct (totalPages - 2 <=? currentPage) eqn:En]; b2p.
    + zrange_unroll. split_and!; [cbn; lia|cbn; lia|].
      intros Hc. assert (currentPage = 1 \/ currentPage = 2 \/ currentPage = 3) as [->|[->| ->]] by lia;
        set_solver.
    + zrange_unroll.
      split_and!; [cbn; lia|cbn; lia|]. intros Hc.
      assert (currentPage = totalPages - 3 + 1 \/ currentPage = totalPages - 3 + 1 + 1 \/
              currentPage = totalPages - 3 + 1 + 1 + 1) as [->|[->| ->]] by lia; set_solver.
    + zrange_unroll.
      split_and!; [cbn; lia|cbn; lia|]. intros _.
      replace (currentPage - 1 + 1) with currentPage by lia. set_solver.
Qed.

Lemma page_bar_witness :
  1 <= 10 /\ bar_ok 10 [Page 1; Dots; Page 4; Page 5; Page 6; Dots; Page 10].
Proof. split; [lia|]. exact (proj1 (page_bar 5 10 ltac:(lia))). Defined.

Example initials_examples :
  getDisplayNameInitials "  Jane van  Doe " = "JD" /\ getDisplayNameInitials "root" = "RO" /\
  getDisplayNameInitials " " = "?".
Proof. repeat split. Qed.
