(* ===== verification/MobileNav.v ===== *)
(** * The mobile navigation bar ([web/src/context/mobile-nav-store.tsx])

    The list of the bar's items, as React state and as the JSON text in [localStorage].
    Each updater of the provider is a function on the list ([None]: the updater returned
    [prev] and nothing was persisted); [run] applies it and persists.  An item is a [jval],
    since [loadItems] trusts whatever array it finds; the items the program adds are the
    texts of [MobileNavItemId].  A failing [setItem] (full or blocked storage) is not
    modelled. *)
From S2P Require Import Prelude JsString JsValue AuthStore.

(** ** The code *)

Definition STORAGE_KEY : string := "mikhmon-mobile-nav".
Definition MAX_ITEMS : Z := 5.

Inductive MobileNavItemId : Type :=
| dashboard | hotspot | voucher | traffic | log | report | settings | help_center.

Definition id_text (i : MobileNavItemId) : string :=
  match i with
  | dashboard => "dashboard" | hotspot => "hotspot" | voucher => "voucher" | traffic => "traffic"
  | log => "log" | report => "report" | settings => "settings" | help_center => "help-center"
  end.

Definition item (i : MobileNavItemId) : jval := JStr (id_text i).

Definition DEFAULT_MOBILE_NAV_ITEMS : list jval :=
  [item dashboard; item hotspot; item voucher; item traffic; item settings].

(** [JSON.stringify] of a value that [JSON.parse] gave, or of an array of texts. *)
Fixpoint stringify (v : jval) : string :=
  match v with
  | JUndef | JNull => "null"
  | JBool b => if b then "true" else "false"
  | JNum n => Z_to_string n
  | JFrac s => s
  | JStr s => json_quote s
  | JArr l => "[" +:+ join "," (map stringify l) +:+ "]"
  | JObj fs => "{" +:+ join "," (map (fun f => json_quote f.1 +:+ ":" +:+ stringify f.2) fs) +:+ "}"
  end.

Definition loadItems (b : browser) : list jval :=
  match localStorage b !! STORAGE_KEY with
  | None => DEFAULT_MOBILE_NAV_ITEMS
  | Some raw =>
      if String.eqb raw "" then DEFAULT_MOBILE_NAV_ITEMS
      else match json_parse raw with
           | Some (JArr (x :: l)) => x :: l
           | _ => DEFAULT_MOBILE_NAV_ITEMS
           end
  end.

(** [xs.indexOf(x)]; [None] is -1. *)
Fixpoint index_of (x : jval) (l : list jval) : option nat :=
  match l with
  | [] => None
  | y :: l' => if jval_eqb x y then Some O else S <$> index_of x l'
  end.

(** [[next[i], next[j]] = [next[j], next[i]]], both indices in range. *)
Definition swap (i j : nat) (l : list jval) : list jval :=
  match l !! i, l !! j with
  | Some a, Some b => <[j := a]> (<[i := b]> l)
  | _, _ => l
  end.

(** [const [moved] = next.splice(from, 1); next.splice(to, 0, moved)]. *)
Definition splice_move (from to : nat) (l : list jval) : list jval :=
  match l !! from with
  | Some moved =>
      let rest := take from l ++ drop (S from) l in
      take to rest ++ moved :: drop to rest
  | None => l
  end.

Definition add (id : jval) (prev : list jval) : option (list jval) :=
  if existsb (jval_eqb id) prev || (MAX_ITEMS <=? Z.of_nat (length prev)) then None
  else Some (prev ++ [id]).

Definition remove (id : jval) (prev : list jval) : option (list jval) :=
  Some (List.filter (fun i => negb (jval_eqb i id)) prev).

Definition moveUp (id : jval) (prev : list jval) : option (list jval) :=
  match index_of id prev with
  | None | Some O => None
  | Some (S i) => Some (swap i (S i) prev)
  end.

Definition moveDown (id : jval) (prev : list jval) : option (list jval) :=
  match index_of id prev with
  | None => None
  | Some i => if (length prev <=? S i)%nat then None else Some (swap i (S i) prev)
  end.

Definition reorder (activeId overId : jval) (prev : list jval) : option (list jval) :=
  if jval_eqb activeId overId then None
  else match index_of activeId prev, index_of overId prev with
       | Some from, Some to => Some (splice_move from to prev)
       | _, _ => None
       end.

Definition reset (prev : list jval) : option (list jval) := Some DEFAULT_MOBILE_NAV_ITEMS.

Inductive action : Type :=
| Add (id : MobileNavItemId)
| Remove (id : MobileNavItemId)
| MoveUp (id : MobileNavItemId)
| MoveDown (id : MobileNavItemId)
| Reorder (activeId overId : MobileNavItemId)
| Reset.

Definition update (a : action) : list jval -> option (list jval) :=
  match a with
  | Add i => add (item i)
  | Remove i => remove (item i)
  | MoveUp i => moveUp (item i)
  | MoveDown i => moveDown (item i)
  | Reorder i j => reorder (item i) (item j)
  | Reset => reset
  end.

Definition persist (next : list jval) (b : browser) : browser :=
  setItem STORAGE_KEY (stringify (JArr next)) b.

Record state : Type := St { items : list jval; store : browser }.

Definition run1 (st : state) (a : action) : state :=
  match update a (items st) with
  | None => st
  | Some next => St next (persist next (store st))
  end.
Definition run (l : list action) (st : state) : state := foldl run1 st l.

(** The provider mounts. *)
Definition mount (b : browser) : state := St (loadItems b) b.

(** *** The bar itself ([components/layout/mobile-bottom-nav.tsx]) *)

(** [url] or [children]: the links an item leads to. *)
Definition NAV_ITEMS : list (jval * list string) :=
  [(item dashboard, ["/"]);
   (item hotspot, ["/hotspot/users"; "/hotspot/profiles"; "/hotspot/active"; "/hotspot/hosts"]);
   (item voucher, ["/voucher/generate"; "/voucher/print"; "/voucher/sales"]);
   (item traffic, ["/traffic"]);
   (item log, ["/log"]);
   (item report, ["/report/daily"; "/report/monthly"]);
   (item settings, ["/settings"; "/settings/account"; "/settings/appearance"; "/settings/display";
                    "/settings/notifications"]);
   (item help_center, ["/help-center"])].

Definition getItemById (id : jval) : option (jval * list string) :=
  List.find (fun i => jval_eqb i.1 id) NAV_ITEMS.

(** [items.map(getItemById).filter(Boolean)]. *)
Definition visibleItems (items : list jval) : list (jval * list string) := omap getItemById items.

Definition isItemActive (pathname : string) (i : jval * list string) : bool :=
  existsb (String.eqb pathname) i.2.

(** ** Lists *)

Lemma index_of_spec x l i : index_of x l = Some i -> l !! i = Some x.
Proof.
  revert i. induction l as [|y l IH]; intros i; cbn; [done|].
  destruct (jval_eqb x y) eqn:E.
  - intros [= <-]. apply jval_eqb_eq in E. by subst.
  - intros (j & Hj & ->)%fmap_Some. by apply IH.
Qed.

Lemma existsb_jval x l : existsb (jval_eqb x) l = true <-> x ∈ l.
Proof.
  rewrite existsb_exists. split.
  - intros (y & Hy & ->%jval_eqb_eq). by apply list_elem_of_In.
  - intros H. exists x. split; [by apply list_elem_of_In|apply jval_eqb_refl].
Qed.

Lemma remove_spec x l : List.filter (fun i => negb (jval_eqb i x)) l = filter (fun i => i <> x) l.
Proof.
  induction l as [|y l IH]; [done|]. cbn [List.filter]. rewrite filter_cons, IH.
  destruct (jval_eqb y x) eqn:E; cbn [negb].
  - apply jval_eqb_eq in E. by rewrite decide_False by (by intros ?).
  - rewrite decide_True; [done|]. intros ->. by rewrite jval_eqb_refl in E.
Qed.

(** Exchanging two entries, and moving one, permute the list. *)
Lemma swap_perm i j l : swap i j l ≡ₚ l.
Proof.
  unfold swap. destruct (l !! i) as [a|] eqn:Hi; [|done]. destruct (l !! j) as [b|] eqn:Hj; [|done].
  destruct (decide (i = j)) as [->|Hne].
  { rewrite list_insert_insert_eq, Hi in *. simplify_eq. by rewrite list_insert_id. }
  pose proof (lookup_lt_Some _ _ _ Hi). pose proof (lookup_lt_Some _ _ _ Hj).
  apply Permutation_inj. split; [by rewrite !length_insert|].
  exists (fun k => if decide (k = i) then j else if decide (k = j) then i else k). split.
  - intros x y. repeat destruct (decide _); congruence.
  - intros k. destruct (decide (k = i)) as [->|Hki]; [|destruct (decide (k = j)) as [->|Hkj]].
    + rewrite list_lookup_insert_ne by done. by rewrite list_lookup_insert_eq.
    + by rewrite list_lookup_insert_eq by (by rewrite length_insert).
    + by rewrite !list_lookup_insert_ne by done.
Qed.

Lemma splice_move_perm from to l : splice_move from to l ≡ₚ l.
Proof.
  unfold splice_move. destruct (l !! from) as [x|] eqn:Hx; [|done].
  set (rest := take from l ++ drop (S from) l).
  transitivity (x :: rest).
  - rewrite <- Permutation_middle, take_drop. done.
  - unfold rest. rewrite Permutation_middle. by rewrite (take_drop_middle l from x Hx).
Qed.

(** ** What the storage holds is what a reload reads *)

Lemma json_elems_texts l n : l <> [] -> (length l <= n)%nat ->
  json_elems (S n) (join "," (json_quote <$> l) +:+ "]") = Some (JStr <$> l, "").
Proof.
  revert n. induction l as [|s l IH]; intros n Hne Hn; [done|]. cbn [length] in Hn.
  destruct n as [|n]; [lia|]. destruct l as [|s' l].
  - cbn [fmap list_fmap join json_elems]. by rewrite json_val_quote.
  - change (join "," (json_quote <$> s :: s' :: l))
      with (json_quote s +:+ ("," +:+ join "," (json_quote <$> s' :: l))).
    rewrite <- app_str_assoc. remember (S n) as m eqn:Hm. cbn [json_elems].
    rewrite Hm at 1. rewrite json_val_quote.
    cbn [mbind option_bind fst snd String.append]. change (skip_ws (String "," ?x)) with (String "," x).
    cbn iota. change ("," =? "]")%char with false. change ("," =? ",")%char with true. cbn iota.
    rewrite Hm, IH; [done|done|cbn [length] in *; lia].
Qed.

Lemma json_quote_length s : (1 <= String.length (json_quote s))%nat.
Proof. unfold json_quote. cbn. lia. Qed.

Lemma texts_length l : (length l <= String.length (join "," (json_quote <$> l)))%nat.
Proof.
  induction l as [|s [|s' l] IH]; [done|cbn [fmap list_fmap join length]; apply json_quote_length|].
  change (join "," (json_quote <$> s :: s' :: l))
    with (json_quote s +:+ ("," +:+ join "," (json_quote <$> s' :: l))).
  rewrite !length_app_str. change (String.length ",") with 1%nat. cbn [length] in *. lia.
Qed.

Lemma json_parse_texts l : json_parse (stringify (JArr (JStr <$> l))) = Some (JArr (JStr <$> l)).
Proof.
  assert (map stringify (JStr <$> l) = json_quote <$> l) as E.
  { induction l as [|s l IH]; [done|]. cbn. f_equal. apply IH. }
  cbn [stringify]. rewrite E. destruct l as [|s l]; [reflexivity|]. clear E. revert l s.
  intros l s. set (tl := s :: l). pose proof (texts_length tl) as Hlen.
  assert (exists x, join "," (json_quote <$> tl) +:+ "]" = String dquote x) as [x Hx].
  { unfold tl. destruct l; unfold json_quote; cbn; eexists; reflexivity. }
  unfold json_parse. change ("[" +:+ ?x) with (String "[" x).
  assert ((S (String.length (String "[" (join "," (json_quote <$> tl) +:+ "]"))) * 2)%nat =
    S (S (S (String.length (join "," (json_quote <$> tl) +:+ "]")) * 2))) as -> by (cbn; lia).
  cbn [json_val]. change (skip_ws (String "[" ?x)) with (String "[" x). cbn iota.
  change ("[" =? dquote)%char with false. change ("[" =? "[")%char with true. cbn iota.
  rewrite Hx at 1. change (skip_ws (String dquote ?x)) with (String dquote x). cbn iota.
  change (dquote =? "]")%char with false. cbn iota. rewrite <- Hx.
  rewrite json_elems_texts; [done|done|]. rewrite length_app_str. lia.
Qed.

(** ** The bar's invariant *)

Definition known (v : jval) : Prop := exists i, v = item i.
Definition items_ok (l : list jval) : Prop :=
  NoDup l /\ Z.of_nat (length l) <= MAX_ITEMS /\ Forall known l.

(** A reload shows these items, or the default ones when none are left. *)
Definition persisted (st : state) : Prop :=
  loadItems (store st) = match items st with [] => DEFAULT_MOBILE_NAV_ITEMS | l => l end.

Lemma default_ok : items_ok DEFAULT_MOBILE_NAV_ITEMS.
Proof.
  split_and!; [|done|].
  - apply (bool_decide_eq_true (NoDup DEFAULT_MOBILE_NAV_ITEMS)). by vm_compute.
  - unfold DEFAULT_MOBILE_NAV_ITEMS. repeat constructor; by eexists.
Qed.

Lemma items_ok_perm l l' : l ≡ₚ l' -> items_ok l -> items_ok l'.
Proof. intros H (H1 & H2 & H3). unfold items_ok. by rewrite <- H. Qed.

(** The moves permute the bar. *)
Lemma move_perm a prev next :
  update a prev = Some next ->
  match a with MoveUp _ | MoveDown _ | Reorder _ _ => True | _ => False end -> next ≡ₚ prev.
Proof.
  intros Hu Ha. destruct a; try done; cbn [update] in Hu; unfold moveUp, moveDown, reorder in Hu;
    repeat case_match; simplify_eq; auto using swap_perm, splice_move_perm.
Qed.

Lemma update_ok a prev next : items_ok prev -> update a prev = Some next -> items_ok next.
Proof.
  intros Hok Hu. destruct a as [i|i|i|i|i j|];
    try (eapply items_ok_perm; [symmetry; exact (move_perm _ _ _ Hu I)|done]).
  - cbn in Hu. unfold add in Hu. destruct Hok as (Hnd & Hlen & Hall).
    destruct (existsb _ prev) eqn:E; [done|]. destruct (MAX_ITEMS <=? _) eqn:E'; [done|]. b2p.
    cbn in Hu. injection Hu as <-. split_and!.
    + apply NoDup_app. split_and!; [done| |apply NoDup_singleton].
      intros x Hx ->%list_elem_of_singleton. apply existsb_jval in Hx. congruence.
    + rewrite length_app. cbn [length]. unfold MAX_ITEMS in *. lia.
    + apply Forall_app. split; [done|]. constructor; [by exists i|constructor].
  - cbn in Hu. unfold remove in Hu. injection Hu as <-. destruct Hok as (Hnd & Hlen & Hall).
    rewrite remove_spec. split_and!; [by apply NoDup_filter| |].
    + pose proof (length_filter (fun i0 => i0 <> item i) prev). lia.
    + rewrite Forall_forall in *. intros x [_ Hx]%list_elem_of_filter. by apply Hall.
  - cbn [update] in Hu. unfold reset in Hu. injection Hu as <-. apply default_ok.
Qed.

Lemma known_texts l : Forall known l -> exists t, l = JStr <$> t.
Proof.
  induction 1 as [|v l [i ->] _ [t ->]]; [by exists []|]. by exists (id_text i :: t).
Qed.

Lemma persist_reload l b : Forall known l ->
  loadItems (persist l b) = match l with [] => DEFAULT_MOBILE_NAV_ITEMS | _ => l end.
Proof.
  intros [t ->]%known_texts. unfold loadItems, persist, setItem. cbn [localStorage].
  rewrite lookup_insert_eq. rewrite json_parse_texts.
  change (String.eqb (stringify (JArr ?x)) "") with false. by destruct t.
Qed.

Lemma run1_ok a st :
  items_ok (items st) -> persisted st -> items_ok (items (run1 st a)) /\ persisted (run1 st a).
Proof.
  intros Hok Hp. unfold run1. destruct (update a (items st)) as [next|] eqn:E; [|done].
  pose proof (update_ok _ _ _ Hok E) as Hn. split; [done|].
  unfold persisted. cbn [store items]. rewrite persist_reload by apply Hn. by destruct next.
Qed.

(** C15: the navigation bar keeps its shape through any sequence of edits: no item twice, at
    most five, only known ones; and the storage always holds what a reload would need to
    show the same bar (an emptied bar comes back with the default items).  It holds from
    every storage whose items are in order, in particular from none. *)
Theorem mobile_nav_kept b acts :
  items_ok (loadItems b) ->
  items_ok (items (run acts (mount b))) /\ persisted (run acts (mount b)).
Proof.
  intros Hb. assert (persisted (mount b)) as Hp.
  { unfold persisted, mount. cbn [store items]. destruct (loadItems b) as [|x l] eqn:E; [|done].
    revert E. unfold loadItems. by repeat case_match. }
  revert Hb Hp. change (loadItems b) with (items (mount b)). generalize (mount b).
  unfold run. induction acts as [|a acts IH]; intros st Hok Hp; [done|]. cbn [foldl].
  destruct (run1_ok a st Hok Hp). by apply IH.
Qed.

(** ** Dragging *)

Lemma filter_splice from to l x : l !! from = Some x -> NoDup l ->
  filter (fun i => i <> x) (splice_move from to l) = filter (fun i => i <> x) l.
Proof.
  intros Hx Hnd. unfold splice_move. rewrite Hx.
  assert (l = take from l ++ x :: drop (S from) l) as E by (symmetry; by apply take_drop_middle).
  set (rest := take from l ++ drop (S from) l).
  assert (filter (fun i => i <> x) l = filter (fun i => i <> x) rest) as ->.
  { rewrite E at 1. unfold rest. rewrite !filter_app, filter_cons, decide_False; [done|].
    intros H. by apply H. }
  rewrite filter_app, filter_cons, decide_False by (intros H; by apply H).
  by rewrite <- filter_app, take_drop.
Qed.

(** Dragging an item onto another one puts it exactly there: it takes the other item's
    position, and the rest of the bar keeps its order. *)
Theorem reorder_moves activeId overId prev next to :
  NoDup prev -> reorder activeId overId prev = Some next -> index_of overId prev = Some to ->
  next !! to = Some activeId /\
  filter (fun i => i <> activeId) next = filter (fun i => i <> activeId) prev.
Proof.
  intros Hnd Hr Hto. unfold reorder in Hr. destruct (jval_eqb activeId overId); [done|].
  destruct (index_of activeId prev) as [from|] eqn:Hf; [|done]. rewrite Hto in Hr.
  injection Hr as <-. apply index_of_spec in Hf, Hto. split; [|by apply filter_splice].
  pose proof (lookup_lt_Some _ _ _ Hf). pose proof (lookup_lt_Some _ _ _ Hto).
  unfold splice_move. rewrite Hf.
  rewrite lookup_app_r; rewrite length_take, length_app, length_take, length_drop; [|lia].
  by replace (to - to `min` (from `min` length prev + (length prev - S from)))%nat with O by lia.
Qed.

Lemma mobile_nav_kept_witness :
  persisted (run [Remove traffic; Add log; MoveUp log; Reorder log dashboard; Add report]
    (mount (Browser [] ∅))).
Proof.
  exact (proj2 (mobile_nav_kept (Browser [] ∅)
    [Remove traffic; Add log; MoveUp log; Reorder log dashboard; Add report] default_ok)).
Defined.

Lemma reorder_moves_witness :
  [item traffic; item dashboard; item hotspot; item voucher; item settings] !! 0%nat =
  Some (item traffic).
Proof.
  exact (proj1 (reorder_moves (item traffic) (item dashboard) DEFAULT_MOBILE_NAV_ITEMS _ 0
    (proj1 default_ok) eq_refl eq_refl)).
Defined.
