(* ===== verification/Nav.v ===== *)
(** * Navigation ([web/src/routes], [web/src/main.tsx], [web/src/components/layout])

    The route tree with the [beforeLoad] guards of its routes, the sidebar as
    [useSidebarData] shows it to a role, the links of the mobile bar, and where login,
    logout and failed requests navigate.  TanStack Router is a library: the model uses
    what its documentation states, that the [beforeLoad]s of the matched route and of its
    parents run from the root down and the first redirect thrown ends the navigation. *)
From S2P Require Import Prelude JsString JsValue AuthStore ApiErrors MobileNav.

(** ** Routes *)

(** The guards ([beforeLoad]) of the layout routes and of two retired pages. *)
Inductive guard : Type :=
| staff_session
| admin_role
| staff_role
| portal_session
| moved_to (to : string).

Inductive rseg : Type := L (s : string) | P.

Definition routes : list (list rseg * list guard) :=
  [([], []);
   ([L "admin"], [staff_session; admin_role]);
   ([L "registrations"], [staff_session; staff_role]);
   ([L "settings"], [staff_session]);
   ([L "portal"], [portal_session]);
   ([L "forgot-password"], []);
   ([L "otp"], []);
   ([L "sign-in"], []);
   ([L "sign-in-2"], []);
   ([L "401"], []);
   ([L "403"], []);
   ([L "404"], []);
   ([L "500"], []);
   ([L "503"], []);
   ([L "register"], []);
   ([L "dashboard"], [staff_session]);
   ([L "portal"; L "login"], []);
   ([L "errors"; P], [staff_session]);
   ([L "hotspot"; L "active"], [staff_session]);
   ([L "hotspot"; L "billing"], [staff_session]);
   ([L "hotspot"; L "hosts"], [staff_session]);
   ([L "hotspot"; L "profiles"], [staff_session]);
   ([L "hotspot"; L "users"], [staff_session]);
   ([L "ppp"; L "active"], [staff_session]);
   ([L "ppp"; L "billing"], [staff_session]);
   ([L "ppp"; L "profiles"], [staff_session]);
   ([L "ppp"; L "secrets"], [staff_session]);
   ([L "report"; L "daily"], [staff_session]);
   ([L "report"; L "monthly"], [staff_session]);
   ([L "settings"; L "account"], [staff_session]);
   ([L "settings"; L "appearance"], [staff_session]);
   ([L "settings"; L "backup"], [staff_session]);
   ([L "settings"; L "billing"], [staff_session]);
   ([L "settings"; L "display"], [staff_session]);
   ([L "settings"; L "general"], [staff_session]);
   ([L "settings"; L "notification-config"], [staff_session; moved_to "/settings/whatsapp"]);
   ([L "settings"; L "notifications"], [staff_session]);
   ([L "settings"; L "payment-gateway"], [staff_session]);
   ([L "settings"; L "telegram"], [staff_session]);
   ([L "settings"; L "whatsapp"], [staff_session]);
   ([L "subscriptions"; L "monitoring"], [staff_session]);
   ([L "voucher"; L "generate"], [staff_session]);
   ([L "voucher"; L "print"], [staff_session]);
   ([L "voucher"; L "sales"], [staff_session]);
   ([L "portal"; L "payments"], [portal_session]);
   ([L "portal"; L "profile"], [portal_session]);
   ([L "portal"; L "subscriptions"], [portal_session]);
   ([L "portal"; L "tickets"], [portal_session]);
   ([L "customers"], [staff_session]);
   ([L "help-center"], [staff_session]);
   ([L "hotspot"], [staff_session]);
   ([L "invoices"], [staff_session]);
   ([L "log"], [staff_session]);
   ([L "network"], [staff_session]);
   ([L "payments"], [staff_session]);
   ([L "pengguna"], [staff_session]);
   ([L "reports"], [staff_session]);
   ([L "subscriptions"], [staff_session]);
   ([L "system"], [staff_session]);
   ([L "tasks"], [staff_session]);
   ([L "traffic"], [staff_session]);
   ([L "users"], [staff_session]);
   ([L "voucher"], [staff_session]);
   ([L "portal"; L "invoices"; P], [portal_session]);
   ([L "admin"; L "audit-logs"], [staff_session; admin_role]);
   ([L "admin"; L "message-templates"], [staff_session; admin_role]);
   ([L "admin"; L "notification-center"], [staff_session; admin_role]);
   ([L "admin"; L "notifications"], [staff_session; admin_role]);
   ([L "admin"; L "routers"], [staff_session; admin_role]);
   ([L "admin"; L "users"], [staff_session; admin_role]);
   ([L "admin"; L "whatsapp"], [staff_session; admin_role; moved_to "/settings/whatsapp"]);
   ([L "portal"; L "invoices"], [portal_session])].

Record stores : Type := Stores { auth : Auth.AuthState; portal : Portal.PortalAuthState }.

(** [useAuthStore.getState().auth.user?.role]. *)
Definition role (s : stores) : jval :=
  match Auth.user (auth s) with Some u => Auth.role u | None => JUndef end.

Inductive redirect : Type := To (to : string) (search_redirect : option string).

(** *** The guards; [None]: the navigation passes. *)

Definition authenticated_beforeLoad (href : string) (s : stores) : option redirect :=
  if truthy (Auth.accessToken (auth s)) then None else Some (To "/sign-in" (Some href)).

Definition admin_beforeLoad (s : stores) : option redirect :=
  if jval_eqb (role s) (JStr "admin") then None else Some (To "/403" None).

Definition registrations_beforeLoad (s : stores) : option redirect :=
  if jval_eqb (role s) (JStr "admin") || jval_eqb (role s) (JStr "operator")
  then None else Some (To "/403" None).

Definition portal_beforeLoad (s : stores) : option redirect :=
  if String.eqb (Portal.customerToken (portal s)) "" then Some (To "/portal/login" None) else None.

Arguments authenticated_beforeLoad _ _ /.
Arguments admin_beforeLoad _ /.
Arguments registrations_beforeLoad _ /.
Arguments portal_beforeLoad _ /.

Definition beforeLoad (g : guard) (href : string) (s : stores) : option redirect :=
  match g with
  | staff_session => authenticated_beforeLoad href s
  | admin_role => admin_beforeLoad s
  | staff_role => registrations_beforeLoad s
  | portal_session => portal_beforeLoad s
  | moved_to t => Some (To t None)
  end.

Fixpoint guarded (gs : list guard) (href : string) (s : stores) : option redirect :=
  match gs with
  | [] => None
  | g :: gs' =>
      match beforeLoad g href s with
      | Some r => Some r
      | None => guarded gs' href s
      end
  end.

Fixpoint seg_match (r : list rseg) (p : list string) : bool :=
  match r, p with
  | [], [] => true
  | L s :: r', x :: p' => String.eqb s x && seg_match r' p'
  | P :: r', _ :: p' => seg_match r' p'
  | _, _ => false
  end.

(** The path of a link: what is before the query, cut at slashes, a slash at the end
    ignored. *)
Definition before_query (href : string) : string := default "" (head (split "?" href)).
Definition path_of (href : string) : list string :=
  List.filter (fun x => negb (String.eqb x "")) (split "/" (before_query href)).

Inductive outcome : Type := Enter | Redirected (r : redirect) | NotFound.

Definition navigate (href : string) (s : stores) : outcome :=
  match List.find (fun r => seg_match r.1 (path_of href)) routes with
  | None => NotFound
  | Some r => match guarded r.2 href s with Some t => Redirected t | None => Enter end
  end.

(** ** The sidebar ([components/layout/data/{sidebar-data,use-sidebar-data}.ts]) *)

Inductive nav_item : Type :=
| NavLink (title : string) (badge : option string) (url : string)
| NavCollapsible (title : string) (badge : option string) (items : list (string * string)).

Record nav_group : Type := Group { g_title : string; g_items : list nav_item }.

Definition sidebarData : list nav_group :=
  [Group "Main"
     [NavLink "Dashboard" None "/dashboard";
      NavCollapsible "Hotspot" None
       [("Users", "/hotspot/users");
        ("Profiles", "/hotspot/profiles");
        ("Billing", "/hotspot/billing");
        ("Active", "/hotspot/active")];
      NavCollapsible "PPP" None
       [("Secrets", "/ppp/secrets");
        ("Profiles", "/ppp/profiles");
        ("Active", "/ppp/active");
        ("Billing", "/ppp/billing")];
      NavCollapsible "Voucher" None
       [("Generate", "/voucher/generate");
        ("Print Queue", "/voucher/print");
        ("Sales", "/voucher/sales")]];
   Group "Billing"
     [NavLink "Customers" None "/customers";
      NavCollapsible "Subscriptions" None
       [("Management", "/subscriptions");
        ("Monitoring", "/subscriptions/monitoring")];
      NavLink "Invoices" None "/invoices";
      NavLink "Payments" None "/payments";
      NavLink "Registrations" None "/registrations";
      NavLink "Reports" None "/reports"];
   Group "Communications"
     [NavLink "Message Templates" None "/admin/message-templates";
      NavLink "Notifications" None "/admin/notifications"];
   Group "Monitor"
     [NavLink "Traffic" None "/traffic";
      NavLink "Network" None "/network";
      NavLink "System" None "/system";
      NavLink "Log" None "/log"];
   Group "Admin"
     [NavLink "Users" None "/admin/users";
      NavLink "Routers" None "/admin/routers";
      NavLink "Audit Logs" None "/admin/audit-logs"];
   Group "Other"
     [NavCollapsible "Settings" None
       [("Tampilan", "/settings/appearance");
        ("Umum", "/settings/general");
        ("Billing", "/settings/billing");
        ("WhatsApp", "/settings/whatsapp");
        ("Telegram", "/settings/telegram");
        ("Payment Gateway", "/settings/payment-gateway");
        ("Backup", "/settings/backup")]]].

Definition item_title (i : nav_item) : string :=
  match i with NavLink t _ _ | NavCollapsible t _ _ => t end.
Definition item_url (i : nav_item) : option string :=
  match i with NavLink _ _ u => Some u | NavCollapsible _ _ _ => None end.

(** [user?.role ?? 'admin']. *)
Definition currentRole (user : option Auth.AuthUser) : jval :=
  match user with Some u => nullish (Auth.role u) (JStr "admin") | None => JStr "admin" end.

(** The filter's callback. *)
Definition item_shown (r : jval) (i : nav_item) : bool :=
  match item_url i with
  | Some u =>
      negb (startsWith "/admin" u && negb (jval_eqb r (JStr "admin"))) &&
      negb (String.eqb u "/registrations" && jval_eqb r (JStr "viewer"))
  | None => true
  end.

(** The map's callback: the badge of the Hotspot entry. *)
Definition with_badge (group : string) (activeSessions : Z) (i : nav_item) : nav_item :=
  match i with
  | NavCollapsible t b l =>
      if String.eqb group "Main" && String.eqb t "Hotspot"
      then NavCollapsible t (if 0 <? activeSessions then Some (Z_to_string activeSessions) else None) l
      else i
  | NavLink _ _ _ => i
  end.

(** [navGroups] of [useSidebarData], for its [user]. *)
Definition navGroups (activeSessions : Z) (user : option Auth.AuthUser) : list nav_group :=
  List.filter (fun g => (0 <? length (g_items g))%nat)
    (map (fun g => Group (g_title g)
            (map (with_badge (g_title g) activeSessions)
               (List.filter (item_shown (currentRole user)) (g_items g))))
       sidebarData).

(** [currentUser || storedUser]: the answer of [/auth/me], once it has come, before the
    store's user. *)
Definition sidebar_user (currentUser storedUser : option Auth.AuthUser) : option Auth.AuthUser :=
  match currentUser with Some u => Some u | None => storedUser end.
Definition useSidebarData (activeSessions : Z) (currentUser storedUser : option Auth.AuthUser) : list nav_group :=
  navGroups activeSessions (sidebar_user currentUser storedUser).

Definition item_links (i : nav_item) : list string :=
  match i with NavLink _ _ u => [u] | NavCollapsible _ _ l => l.*2 end.
Definition links (gs : list nav_group) : list string :=
  mbind (fun g => mbind item_links (g_items g)) gs.

(** [checkIsActive] of [nav-group.tsx]. *)
Definition checkIsActive (href : string) (i : nav_item) (mainNav : bool) : bool :=
  match item_url i with Some u => String.eqb href u || String.eqb (before_query href) u | None => false end ||
  match i with NavCollapsible _ _ l => existsb (fun x => String.eqb x.2 href) l | _ => false end ||
  (mainNav &&
   match split "/" href !! 1%nat with
   | Some h => negb (String.eqb h "") &&
       match item_url i with Some u => bool_decide (split "/" u !! 1%nat = Some h) | None => false end
   | None => match item_url i with Some u => bool_decide (split "/" u !! 1%nat = None) | None => true end
   end).

(** ** Login and logout ([features/auth/sign-in], [components/sign-out-dialog.tsx]) *)

(** [targetPath] of [onSuccess] in [user-auth-form.tsx]. *)
Definition login_target (redirectTo : option string) (r : jval) : string :=
  let targetPath := match redirectTo with
                    | Some p => if String.eqb p "" then "/dashboard" else p
                    | None => "/dashboard"
                    end in
  let targetPath :=
    if includes "/admin" targetPath && negb (jval_eqb r (JStr "admin")) then "/dashboard"
    else targetPath in
  if includes "/registrations" targetPath && negb (jval_eqb r (JStr "admin")) &&
     negb (jval_eqb r (JStr "operator"))
  then "/dashboard" else targetPath.

(** [safeRedirect] of [handleSignOut]. *)
Definition logout_redirect (pathname href : string) : string :=
  let currentPath := if String.eqb pathname "" then href else pathname in
  if includes "/admin" currentPath then "/dashboard" else currentPath.

(** ** Failed requests ([main.tsx]) *)

Definition response_status (e : jserror) : option Z :=
  match e with AxiosErr _ _ st => st | _ => None end.

(** The [retry] option of the queries; [dev] is [import.meta.env.DEV], its negation [PROD]. *)
Definition retry (dev : bool) (failureCount : Z) (e : jserror) : bool :=
  if (0 <=? failureCount) && dev then false
  else if (3 <? failureCount) && negb dev then false
  else negb (isAxiosError e && bool_decide ((response_status e ?? 0) ∈ [401; 403])).

Inductive effect : Type :=
| Toast (text : string)
| Navigate (to : string) (search_redirect : option string).

(** [onError] of the query cache. *)
Definition query_onError (dev : bool) (href : string) (e : jserror) : list effect :=
  match e with
  | AxiosErr _ _ (Some 401) => [Toast "Session expired!"; Navigate "/sign-in" (Some href)]
  | AxiosErr _ _ (Some 500) =>
      Toast "Internal Server Error!" :: (if dev then [] else [Navigate "/500" None])
  | _ => []
  end.

(** [onError] of the mutations. *)
Definition mutation_onError (e : jserror) : list effect :=
  Toast (handleServerError e) ::
  match e with AxiosErr _ _ (Some 304) => [Toast "Content not modified!"] | _ => [] end.

(** How often a query that keeps failing is tried: TanStack Query asks [retry] with the
    number of failures before the current one. *)
Fixpoint attempts (fuel : nat) (dev : bool) (errs : Z -> jserror) (failureCount : Z) : Z :=
  match fuel with
  | O => 0
  | S f => 1 + (if retry dev failureCount (errs failureCount)
                then attempts f dev errs (failureCount + 1) else 0)
  end.
(** ** Laws of the guards *)

Fixpoint path_eqb (p q : list string) : bool :=
  match p, q with
  | [], [] => true
  | x :: p', y :: q' => String.eqb x y && path_eqb p' q'
  | _, _ => false
  end.

(** The pages anyone may see. *)
Definition public_pages : list (list string) :=
  [[]; ["forgot-password"]; ["otp"]; ["sign-in"]; ["sign-in-2"]; ["401"]; ["403"]; ["404"]; ["500"];
   ["503"]; ["register"]; ["portal"; "login"]].
Definition public (p : list string) : bool := existsb (path_eqb p) public_pages.

(** The guards that stand before a path. *)
Definition needs (p : list string) : list guard :=
  if public p then []
  else match p with
       | x :: _ =>
           if String.eqb x "portal" then [portal_session]
           else if String.eqb x "admin" then [staff_session; admin_role]
           else if String.eqb x "registrations" then [staff_session; staff_role]
           else [staff_session]
       | [] => []
       end.

(** The guards of a route, the redirects of retired pages aside. *)
Definition gates (gs : list guard) : list guard :=
  List.filter (fun g => match g with moved_to _ => false | _ => true end) gs.

Definition route_ok (r : list rseg * list guard) : Prop :=
  (forall p, seg_match r.1 p = true -> gates r.2 = needs p) /\
  Forall (fun g => match g with moved_to t => t = "/settings/whatsapp" | _ => True end) r.2.

Lemma routes_ok : Forall route_ok routes.
Proof.
  unfold routes. repeat apply Forall_cons_2; try apply Forall_nil_2.
  all: split; [|by repeat constructor].
  all: intros p; cbn [fst snd seg_match].
  all: repeat match goal with
       | |- context [match ?p with [] => _ | _ :: _ => _ end] => destruct p as [|? p]; try discriminate
       | |- (String.eqb _ _ && _)%bool = true -> _ =>
           let H := fresh in intros [H%String.eqb_eq Hm]%andb_true_iff; subst; revert Hm; cbn [seg_match]
       end; first [discriminate|intros _; reflexivity].
Qed.

Lemma navigate_route href s : match navigate href s with
  | NotFound => True
  | Enter => exists r, r ∈ routes /\ seg_match r.1 (path_of href) = true /\ guarded r.2 href s = None
  | Redirected t => exists r, r ∈ routes /\ seg_match r.1 (path_of href) = true /\ guarded r.2 href s = Some t
  end.
Proof.
  unfold navigate. destruct (List.find _ routes) as [r|] eqn:E; [|done].
  apply find_some in E as [Hin Hm]. apply list_elem_of_In in Hin.
  destruct (guarded r.2 href s) eqn:Hg; by exists r.
Qed.

Lemma guarded_pass gs href s g : guarded gs href s = None -> g ∈ gs -> beforeLoad g href s = None.
Proof.
  induction gs as [|g' gs IH]; cbn; intros H Hg; [by apply not_elem_of_nil in Hg|].
  destruct (beforeLoad g' href s) eqn:E; [done|].
  apply elem_of_cons in Hg as [->|Hg]; [done|by apply IH].
Qed.

Lemma guarded_stop gs href s t : guarded gs href s = Some t ->
  exists g, g ∈ gs /\ beforeLoad g href s = Some t.
Proof.
  induction gs as [|g gs IH]; cbn; [done|]. destruct (beforeLoad g href s) eqn:E.
  - intros [= <-]. exists g. split; [left|done].
  - intros (g' & ? & ?)%IH. exists g'. split; [by right|done].
Qed.

Lemma elem_of_gates g gs : g ∈ gates gs <-> g ∈ gs /\ match g with moved_to _ => False | _ => True end.
Proof.
  unfold gates. rewrite !list_elem_of_In, filter_In. by destruct g; naive_solver.
Qed.

Lemma needs_pass href s g : navigate href s = Enter -> g ∈ needs (path_of href) ->
  beforeLoad g href s = None.
Proof.
  intros He Hg. pose proof (navigate_route href s) as H. rewrite He in H.
  destruct H as (r & Hr & Hm & Hgs). pose proof routes_ok as Hok. rewrite Forall_forall in Hok.
  destruct (Hok r Hr) as [Hneeds _]. rewrite <- (Hneeds _ Hm) in Hg.
  apply elem_of_gates in Hg as [Hg _]. by eapply guarded_pass.
Qed.

(** C10: every page is behind its guards.  A navigation enters a page only when the page is
    one of the twelve public ones, or a portal page and the portal has a customer token,
    or a staff page and the store has an access token; and then the admin section only
    with the role admin and the registrations only with the role admin or operator. *)
Theorem guards_protect href s :
  navigate href s = Enter ->
  public (path_of href) = true \/
  (head (path_of href) = Some "portal" /\ Portal.customerToken (portal s) <> "") \/
  (truthy (Auth.accessToken (auth s)) = true /\ head (path_of href) <> Some "portal" /\
   (head (path_of href) = Some "admin" -> role s = JStr "admin") /\
   (head (path_of href) = Some "registrations" ->
      role s = JStr "admin" \/ role s = JStr "operator")).
Proof.
  intros He. pose proof (fun g => needs_pass href s g He) as Hn. unfold needs in Hn.
  destruct (public (path_of href)) eqn:Hpub; [by left|right].
  destruct (path_of href) as [|x p]; [done|]. cbn [head].
  repeat match type of Hn with context [String.eqb x ?k] => destruct (String.eqb_spec x k) as [->|?] end.
  - left. split; [done|]. specialize (Hn portal_session ltac:(by left)). cbn in Hn.
    destruct (String.eqb_spec (Portal.customerToken (portal s)) ""); [done|done].
  - right. pose proof (Hn staff_session ltac:(by left)) as H1. pose proof (Hn admin_role ltac:(right; left)) as H2.
    cbn in H1, H2. destruct (truthy _); [|done]. destruct (jval_eqb _ _) eqn:E; [|done].
    apply jval_eqb_eq in E. by split_and!.
  - right. pose proof (Hn staff_session ltac:(by left)) as H1. pose proof (Hn staff_role ltac:(right; left)) as H2.
    cbn in H1, H2. destruct (truthy _); [|done]. destruct (_ || _) eqn:E; [|done]. b2p.
    rewrite !jval_eqb_eq in E. by split_and!.
  - right. pose proof (Hn staff_session ltac:(by left)) as H1. cbn in H1.
    destruct (truthy _); [|done]. split_and!; [done|congruence..].
Qed.

(** ** The menus agree with the guards *)

(** What a navigation depends on. *)
Lemma navigate_ext href s s' :
  truthy (Auth.accessToken (auth s)) = truthy (Auth.accessToken (auth s')) -> role s = role s' ->
  Portal.customerToken (portal s) = Portal.customerToken (portal s') ->
  navigate href s = navigate href s'.
Proof.
  intros Ht Hr Hp. unfold navigate. destruct (List.find _ routes) as [r|]; [|done].
  assert (guarded r.2 href s = guarded r.2 href s') as ->; [|done].
  induction r.2 as [|g gs IH]; [done|]. cbn. rewrite IH.
  destruct g; cbn; rewrite ?Ht, ?Hr, ?Hp; done.
Qed.

Lemma links_badge n user : links (navGroups n user) = links (navGroups 0 user).
Proof.
  unfold navGroups. generalize sidebarData. intros gs. induction gs as [|g gs IH]; [done|].
  cbn [map List.filter g_items]. generalize (List.filter (item_shown (currentRole user)) (g_items g)).
  intros l. rewrite !length_map. destruct (0 <? length l)%nat; [|done]. unfold links in *. cbn [mbind list_bind g_items]. rewrite IH. f_equal.
  assert (forall m j, item_links (with_badge (g_title g) m j) = item_links j) as H.
  { intros m [t b u|t b k]; cbn; [done|]. by destruct (_ && _). }
  induction l as [|j l IH']; [done|]. cbn [map mbind list_bind]. by rewrite !H, IH'.
Qed.

Definition a_session (r : jval) (p : Portal.PortalAuthState) : stores :=
  Stores (Auth.AuthSt (Some {| Auth.id := JNum 0; Auth.username := JStr ""; Auth.role := r |})
            (JStr "t") "") p.

Definition outcome_is (enter : bool) (o : outcome) : bool :=
  match o with
  | Enter => enter
  | Redirected (To t None) => negb enter && String.eqb t "/403"
  | _ => false
  end.

Definition menu_check (r : jval) (p : Portal.PortalAuthState) : bool :=
  forallb (fun href => outcome_is
      (existsb (String.eqb href)
         (links (navGroups 0 (Some {| Auth.id := JNum 0; Auth.username := JStr ""; Auth.role := r |}))))
      (navigate href (a_session r p)))
    (links sidebarData) &&
  forallb (fun href => outcome_is true (navigate href (a_session r p))) (mbind snd NAV_ITEMS).

Lemma menu_checked r p : r ∈ [JStr "admin"; JStr "operator"; JStr "viewer"] -> menu_check r p = true.
Proof.
  intros H. repeat (apply elem_of_cons in H as [->|H]; [vm_compute; reflexivity|]).
  by apply not_elem_of_nil in H.
Qed.

Lemma outcome_is_enter b o : outcome_is b o = true ->
  (b = true <-> o = Enter) /\ (b = false -> o = Redirected (To "/403" None)).
Proof.
  destruct o as [|[t [|]]|], b; cbn; try done. intros ->%String.eqb_eq. done.
Qed.

(** The entries of a user's menu, of one of the three roles, are those the guards let in. *)
Lemma links_admitted n u s href :
  truthy (Auth.accessToken (auth s)) = true -> Auth.role u ∈ [JStr "admin"; JStr "operator"; JStr "viewer"] ->
  role s = Auth.role u -> href ∈ links sidebarData ->
  (href ∈ links (navGroups n (Some u)) <-> navigate href s = Enter) /\
  (href ∉ links (navGroups n (Some u)) -> navigate href s = Redirected (To "/403" None)).
Proof.
  intros Ht Hr Hu Hin. rewrite links_badge.
  rewrite (navigate_ext href s (a_session (Auth.role u) (portal s))); [|done|done|done].
  pose proof (menu_checked _ (portal s) Hr) as H. apply andb_true_iff in H as [H1 _]. rewrite forallb_forall in H1.
  apply list_elem_of_In in Hin. specialize (H1 href Hin). apply outcome_is_enter in H1 as [H1 H3].
  assert (links (navGroups 0 (Some u)) = links (navGroups 0
    (Some {| Auth.id := JNum 0; Auth.username := JStr ""; Auth.role := Auth.role u |}))) as -> by done.
  set (l := links (navGroups 0 _)) in *.
  assert (href ∈ l <-> existsb (String.eqb href) l = true) as Hl.
  { rewrite existsb_exists. split.
    - intros Hx. exists href. split; [by apply list_elem_of_In|apply String.eqb_refl].
    - intros (x & Hx & ->%String.eqb_eq). by apply list_elem_of_In. }
  rewrite Hl. split; [done|]. intros Hn. apply H3. by apply not_true_is_false.
Qed.

(** The store with another user in it. *)
Definition with_user (u : Auth.AuthUser) (s : stores) : stores :=
  Stores (Auth.AuthSt (Some u) (Auth.accessToken (auth s)) (Auth.refreshToken (auth s))) (portal s).

(** C32: the sidebar offers exactly what the guards admit, as long as both mean the same role.
    The sidebar goes by the answer of [/auth/me], and by the store's user only until it has
    come; the guards go by the store.  With one of the three roles, an entry is shown if and
    only if the guards would admit that user to the page: so before the answer, or when it
    has the role of the store, following an entry enters, and the hidden ones all end on
    the 403 page.  When the answer has another role, the two part: the sidebar shows what
    the new role may see while the guards act on the old one (an admin made viewer loses
    the admin entries but still enters by address; a viewer made admin is shown entries
    that end on the 403 page).  The links of the mobile bar, which are not filtered by
    role, all enter. *)
Theorem menus_match_guards n me u s href :
  Auth.user (auth s) = Some u -> truthy (Auth.accessToken (auth s)) = true ->
  let shown := links (useSidebarData n me (Auth.user (auth s))) in
  let roles := [JStr "admin"; JStr "operator"; JStr "viewer"] in
  Auth.role u ∈ roles -> (forall m, me = Some m -> Auth.role m ∈ roles) ->
  (href ∈ links sidebarData ->
     (href ∈ shown <-> navigate href (with_user (default u me) s) = Enter) /\
     ((forall m, me = Some m -> Auth.role m = Auth.role u) ->
        (href ∈ shown <-> navigate href s = Enter) /\
        (href ∉ shown -> navigate href s = Redirected (To "/403" None)))) /\
  (forall m, me = Some m -> Auth.role m = JStr "admin" -> Auth.role u = JStr "viewer" ->
     "/admin/users" ∈ shown /\ navigate "/admin/users" s = Redirected (To "/403" None)) /\
  (forall m, me = Some m -> Auth.role m = JStr "viewer" -> Auth.role u = JStr "admin" ->
     "/admin/users" ∉ shown /\ navigate "/admin/users" s = Enter) /\
  (href ∈ mbind snd NAV_ITEMS -> navigate href s = Enter).
Proof.
  intros Hu Ht shown roles Hr Hm.
  assert (role s = Auth.role u) as Hs by (unfold role; by rewrite Hu).
  assert (shown = links (navGroups n (Some (default u me)))) as ->.
  { subst shown. rewrite Hu. by destruct me. }
  assert (Auth.role (default u me) ∈ roles) as Hd by (destruct me; cbn; auto).
  assert ("/admin/users" ∈ links sidebarData) as Hin.
  { apply (bool_decide_eq_true ("/admin/users" ∈ links sidebarData)). by vm_compute. }
  split_and!.
  - intros Hh. split; [exact (proj1 (links_admitted n (default u me) (with_user (default u me) s) href Ht Hd eq_refl Hh))|].
    intros He. apply links_admitted; try done. rewrite Hs. destruct me as [m|]; [symmetry; by apply He|done].
  - intros m -> Em Eu. cbn [default]. split.
    + apply (links_admitted n m (with_user m s)); try done. rewrite (navigate_ext _ _ (a_session (JStr "admin") (portal s))); done.
    + rewrite (navigate_ext _ _ (a_session (JStr "viewer") (portal s))); [|done|by rewrite Hs|done]. by vm_compute.
  - intros m -> Em Eu. cbn [default]. split.
    + rewrite (proj1 (links_admitted n m (with_user m s) "/admin/users" Ht Hd eq_refl Hin)).
      rewrite (navigate_ext _ _ (a_session (JStr "viewer") (portal s))); done.
    + rewrite (navigate_ext _ _ (a_session (JStr "admin") (portal s))); [|done|by rewrite Hs|done]. by vm_compute.
  - intros Hl%list_elem_of_In. rewrite (navigate_ext href s (a_session (Auth.role u) (portal s))); [|done|done|done].
    pose proof (menu_checked _ (portal s) Hr) as H. apply andb_true_iff in H as [_ H]. rewrite forallb_forall in H.
    specialize (H href Hl). apply outcome_is_enter in H as [[H _] _]. by apply H.
Qed.

Definition viewer_session : stores := a_session (JStr "viewer") (Portal.PortalSt "" None).

Lemma menus_match_guards_witness : navigate "/registrations" viewer_session = Redirected (To "/403" None).
Proof.
  set (u := {| Auth.id := JNum 0; Auth.username := JStr ""; Auth.role := JStr "viewer" |}).
  destruct (menus_match_guards 3 (Some u) u viewer_session "/registrations" eq_refl eq_refl) as (H & _).
  - right; right; left.
  - intros m [= <-]. right; right; left.
  - apply H.
    + apply (bool_decide_eq_true ("/registrations" ∈ links sidebarData)). by vm_compute.
    + by intros m [= <-].
    + apply (bool_decide_eq_false ("/registrations" ∈ links _)). by vm_compute.
Defined.

Lemma guards_protect_witness :
  truthy (Auth.accessToken (auth viewer_session)) = true.
Proof.
  destruct (guards_protect "/customers" viewer_session eq_refl) as [H|[[H _]|[H _]]]; [done|done|exact H].
Defined.

(** ** Where login lands *)

Lemma split_char_cons c d s : split (String c "") (String d s) =
  if Ascii.eqb c d then "" :: split (String c "") s else cons_head (String d "") (split (String c "") s).
Proof.
  unfold split. cbn. destruct (ascii_dec c d) as [->|Hne].
  - rewrite Ascii.eqb_refl. by destruct s.
  - by rewrite (proj2 (Ascii.eqb_neq _ _) Hne).
Qed.

Lemma includes_here p s : String.prefix p s = true -> includes p s = true.
Proof. intros H. destruct s; cbn [includes]; by rewrite H. Qed.

Lemma includes_skip p c s : includes p s = true -> includes p (String c s) = true.
Proof. intros H. cbn [includes]. rewrite H. apply orb_true_r. Qed.

Lemma includes_app p a b : includes p a = true -> includes p (a +:+ b) = true.
Proof.
  induction a as [|c a IH]; intros H.
  - destruct p; [|done]. by destruct b.
  - cbn [includes] in H. apply orb_true_iff in H as [H|H].
    + apply includes_here. apply prefix_spec in H as [t Ht]. rewrite Ht, <- app_str_assoc. apply prefix_app.
    + apply includes_skip, IH, H.
Qed.

(** The head of a split is what stands before the first separator; the other parts stand
    behind one. *)
Lemma split_head_prefix c s : exists h l t, split (String c "") s = h :: l /\ s = h +:+ t.
Proof.
  induction s as [|d s (h & l & t & E & Hs)]; [by exists "", [], ""|].
  rewrite split_char_cons. destruct (Ascii.eqb c d); [by exists "", (split (String c "") s), (String d s)|].
  exists (String d h), l, t. rewrite E. split; [done|]. by rewrite Hs at 1.
Qed.

Lemma split_tail_includes c s x : x ∈ tail (split (String c "") s) -> includes (String c x) s = true.
Proof.
  induction s as [|d s IH]; [by intros ?%not_elem_of_nil|]. rewrite split_char_cons.
  destruct (split_head_prefix c s) as (h & l & t & E & Hs). rewrite E in *.
  destruct (Ascii.eqb_spec c d) as [->|Hne]; cbn [tail cons_head] in *.
  - intros [->|Hx]%elem_of_cons; [|by apply includes_skip, IH].
    apply includes_here. rewrite Hs at 1. change (String d (h +:+ t)) with (String d h +:+ t). apply prefix_app.
  - intros Hx. by apply includes_skip, IH.
Qed.

Lemma first_segment_includes href x : String.prefix "/" href = true ->
  head (path_of href) = Some x -> includes ("/" +:+ x) href = true.
Proof.
  intros Hp Hx. unfold path_of, before_query in Hx.
  destruct (split_head_prefix "?" href) as (b & l & t & E & Hb). rewrite E in Hx. cbn [head default] in Hx.
  rewrite Hb. apply includes_app. apply split_tail_includes.
  apply prefix_spec in Hp as [href' Hp]. cbn in Hp. unfold id in Hx.
  destruct b as [|c b].
  { rewrite Hp, split_char_cons in E. cbn in E. by destruct (split "?" href'). }
  rewrite Hb in Hp. injection Hp as -> _. rewrite split_char_cons in *.
  change (Ascii.eqb "/" "/") with true in *. cbn [tail List.filter String.eqb negb] in *.
  revert Hx. generalize (split "/" b). intros k. induction k as [|y k IH]; [done|]. cbn [List.filter].
  destruct (String.eqb_spec y "") as [->|Hy]; cbn [negb head]; [by intros ?; right; apply IH|].
  intros [= ->]. left.
Qed.

(** The page chosen after login is one the role may see. *)
Lemma login_target_role redirectTo r :
  (includes "/admin" (login_target redirectTo r) = true -> r = JStr "admin") /\
  (includes "/registrations" (login_target redirectTo r) = true -> r = JStr "admin" \/ r = JStr "operator").
Proof.
  unfold login_target. set (q := match redirectTo with Some p => _ | None => _ end). clearbody q.
  destruct (jval_eqb r (JStr "admin")) eqn:Ea; [apply jval_eqb_eq in Ea; by auto|].
  rewrite !andb_true_r. destruct (includes "/admin" q) eqn:E1.
  - cbn. by destruct (jval_eqb r (JStr "operator")).
  - destruct (jval_eqb r (JStr "operator")) eqn:Eo.
    + apply jval_eqb_eq in Eo. rewrite andb_false_r. split; [congruence|by auto].
    + rewrite andb_true_r. destruct (includes "/registrations" q) eqn:E2; [done|].
      split; congruence.
Qed.

Lemma login_target_root redirectTo r :
  match redirectTo with Some p => p = "" \/ String.prefix "/" p = true | None => True end ->
  String.prefix "/" (login_target redirectTo r) = true.
Proof.
  intros Hp. unfold login_target. destruct redirectTo as [p|]; [|by repeat case_match].
  destruct (String.eqb_spec p ""); [by repeat case_match|]. destruct Hp; [done|]. by repeat case_match.
Qed.

Lemma needs_role p g : g ∈ needs p ->
  match g with
  | admin_role => head p = Some "admin"
  | staff_role => head p = Some "registrations"
  | _ => True
  end.
Proof.
  unfold needs. destruct (public p); [by intros ?%not_elem_of_nil|]. destruct p as [|y q]; [by intros ?%not_elem_of_nil|].
  destruct (String.eqb_spec y "portal"), (String.eqb_spec y "admin"), (String.eqb_spec y "registrations");
    subst; intros H; destruct g; set_solver.
Qed.

(** Login never ends on a closed door.  Wherever the sign-in page was told to return to
    (a path from the root, or nothing), the page chosen after a successful login is not
    answered with the 403 page nor sent back to the sign-in page, whatever the role is. *)
Theorem login_lands redirectTo s x :
  match redirectTo with Some p => p = "" \/ String.prefix "/" p = true | None => True end ->
  truthy (Auth.accessToken (auth s)) = true ->
  navigate (login_target redirectTo (role s)) s <> Redirected (To "/403" x) /\
  navigate (login_target redirectTo (role s)) s <> Redirected (To "/sign-in" x).
Proof.
  intros Hp Ht. apply (login_target_root _ (role s)) in Hp.
  destruct (login_target_role redirectTo (role s)) as [Ha Hr].
  set (p := login_target redirectTo (role s)) in *.
  pose proof (navigate_route p s) as H. destruct (navigate p s) as [|t|]; [done| |done].
  destruct H as (r & Hin & Hm & Hg). apply guarded_stop in Hg as (g & Hg & Hstop).
  pose proof routes_ok as Hok. rewrite Forall_forall in Hok. destruct (Hok r Hin) as [Hneeds Hmoved].
  specialize (Hneeds _ Hm). rewrite Forall_forall in Hmoved. specialize (Hmoved g Hg).
  assert (forall y, head (path_of p) = Some y -> includes ("/" +:+ y) p = true) as Hy
    by (intros y; by apply first_segment_includes).
  destruct g as [| | | |to]; cbn in Hstop; rewrite ?Ht in Hstop; [done|..].
  - assert (head (path_of p) = Some "admin") as Hh.
    { apply (needs_role _ admin_role). rewrite <- Hneeds. by apply elem_of_gates. }
    by rewrite Ha in Hstop by (by apply Hy).
  - assert (head (path_of p) = Some "registrations") as Hh.
    { apply (needs_role _ staff_role). rewrite <- Hneeds. by apply elem_of_gates. }
    destruct Hr as [Hr|Hr]; [by apply Hy|..]; by rewrite Hr in Hstop.
  - destruct (String.eqb _ ""); [|done]. by injection Hstop as <-.
  - injection Hstop as <-. by subst.
Qed.

Lemma login_lands_witness :
  navigate (login_target (Some "/admin/users?page=2") (role viewer_session)) viewer_session <>
  Redirected (To "/403" None).
Proof.
  exact (proj1 (login_lands (Some "/admin/users?page=2") viewer_session None (or_intror eq_refl) eq_refl)).
Defined.

(** ** Retries *)

(** A failing query stops.  In development nothing is retried; in production a query
    that never succeeds is tried at most five times, and an answer of 401 or 403 is never
    tried again. *)
Theorem retries_bounded fuel dev errs :
  attempts fuel dev errs 0 <= (if dev then 1 else 5) /\
  (forall n m d st, (st = 401 \/ st = 403) -> errs n = AxiosErr m d (Some st) ->
     retry dev n (errs n) = false).
Proof.
  split.
  - assert (forall f n, 0 <= n <= 4 -> attempts f dev errs n <= (if dev then 1 else 5 - n)) as H.
    { induction f as [|f IH]; intros n Hn; cbn [attempts]; [destruct dev; lia|].
      destruct (retry dev n (errs n)) eqn:E; [|destruct dev; lia].
      unfold retry in E. destruct dev.
      - rewrite (proj2 (Z.leb_le 0 n)) in E by lia. done.
      - rewrite andb_false_r in E. destruct (3 <? n) eqn:E'; [done|]. b2p.
        specialize (IH (n + 1) ltac:(lia)). lia. }
    specialize (H fuel 0 ltac:(lia)). by destruct dev.
  - intros n m d st Hst E. unfold retry. rewrite E. do 2 (destruct (_ && _); [done|]).
    cbn. rewrite bool_decide_eq_true_2; [done|]. destruct Hst as [->| ->]; set_solver.
Qed.
