(* ===== verification/Prefs.v ===== *)
(** * Appearance preferences ([web/src/context/*-provider.tsx])

    Theme, accent, direction, font, layout and sidebar state: each is React state, a
    cookie, and for the first four an effect on the [<html>] element.  [page] is that
    state with the cookie jar and the element; [step] is one call of a setter, or a change
    of the system's colour scheme.  [mount] is a load of the page; [None] is the exception
    [classList.add] throws on an empty token or one with white space. *)
From S2P Require Import Prelude JsString Cookies.

(** ** The code *)

Definition DEFAULT_THEME : string := "system".
Definition DEFAULT_ACCENT : string := "accent-roslib".
Definition THEME_COOKIE_NAME : string := "vite-ui-theme".
Definition ACCENT_COOKIE_NAME : string := "vite-ui-accent".
Definition THEME_COOKIE_MAX_AGE : Z := 60 * 60 * 24 * 365.

Definition THEME_CLASSES : list string :=
  ["light"; "dark"; "blue"; "green"; "pink"; "roslib-dark"; "roslib-light"].
Definition ACCENT_CLASSES : list string :=
  ["accent-roslib"; "accent-tech"; "accent-sunset"; "accent-corporate"; "accent-natural"].

Definition fonts : list string := ["inter"; "manrope"; "system"].
Definition FONT_COOKIE_NAME : string := "font".
Definition FONT_COOKIE_MAX_AGE : Z := 60 * 60 * 24 * 365.

Definition DEFAULT_DIRECTION : string := "ltr".
Definition DIRECTION_COOKIE_NAME : string := "dir".
Definition DIRECTION_COOKIE_MAX_AGE : Z := 60 * 60 * 24 * 365.

Definition LAYOUT_COLLAPSIBLE_COOKIE_NAME : string := "layout_collapsible".
Definition LAYOUT_VARIANT_COOKIE_NAME : string := "layout_variant".
Definition LAYOUT_COOKIE_MAX_AGE : Z := 60 * 60 * 24 * 7.
Definition DEFAULT_VARIANT : string := "inset".
Definition DEFAULT_COLLAPSIBLE : string := "icon".

Definition SIDEBAR_COOKIE_NAME : string := "sidebar_state".
Definition SIDEBAR_COOKIE_MAX_AGE : Z := 60 * 60 * 24 * 7.

(** The types [Theme], [Direction], [Collapsible] and [Variant]. *)
Definition Theme : list string := "system" :: THEME_CLASSES.
Definition Direction : list string := ["ltr"; "rtl"].
Definition Collapsible : list string := ["offcanvas"; "icon"; "none"].
Definition Variant : list string := ["inset"; "sidebar"; "floating"].

Definition one_of (l : list string) (s : string) : bool := existsb (String.eqb s) l.

(** [dark] is whether [(prefers-color-scheme: dark)] matches. *)
Definition resolveThemeClass (dark : bool) (theme : string) : string :=
  if String.eqb theme "system" then (if dark then "dark" else "light") else theme.

Definition isAccent (value : option string) : bool :=
  match value with
  | None => false
  | Some v => negb (String.eqb v "") && one_of ACCENT_CLASSES v
  end.

(** *** [element.classList], a list of distinct tokens *)

Definition class_token (c : string) : bool :=
  negb (String.eqb c "") && str_forall (fun x => negb (is_space x)) c.

Definition class_remove (c : string) (l : list string) : list string := filter (fun x => x <> c) l.

Definition class_add (c : string) (l : list string) : option (list string) :=
  if class_token c then Some (if one_of l c then l else l ++ [c]) else None.

Definition applyTheme (currentTheme : string) (l : list string) : option (list string) :=
  class_add currentTheme (foldl (flip class_remove) l THEME_CLASSES).

Definition applyAccent (accent : string) (l : list string) : option (list string) :=
  class_add accent (foldl (flip class_remove) l ACCENT_CLASSES).

(** [classList.forEach((cls) => { if (cls.startsWith('font-')) classList.remove(cls) })]:
    the list is live, so the index moves on over the shortened list. *)
Fixpoint forEach_remove (fuel i : nat) (l : list string) : list string :=
  match fuel with
  | O => l
  | S fuel' =>
      match l !! i with
      | None => l
      | Some cls => forEach_remove fuel' (S i) (if startsWith "font-" cls then class_remove cls l else l)
      end
  end.

Definition applyFont (font : string) (l : list string) : option (list string) :=
  class_add ("font-" +:+ font) (forEach_remove (S (length l)) 0 l).

(** *** The state *)

Record page : Type := Page {
  cookies : jar;
  dark : bool;
  theme : string;
  resolvedTheme : string;
  accent : string;
  dir : string;
  font : string;
  collapsible : string;
  variant : string;
  open : bool;
  openMobile : bool;
  classes : list string;
  html_dir : string
}.

(** [getCookie(name) || fallback]. *)
Definition saved_or (name fallback : string) (j : jar) : string :=
  match getCookie name (Some j) with
  | Some v => if String.eqb v "" then fallback else v
  | None => fallback
  end.

Definition init_accent (j : jar) : string :=
  let stored := getCookie ACCENT_COOKIE_NAME (Some j) in
  if isAccent stored then stored ?? DEFAULT_ACCENT else DEFAULT_ACCENT.

Definition init_font (j : jar) : string :=
  match getCookie FONT_COOKIE_NAME (Some j) with
  | Some savedFont => if one_of fonts savedFont then savedFont else "inter"
  | None => "inter"
  end.

Definition defaultOpen (j : jar) : bool :=
  match getCookie SIDEBAR_COOKIE_NAME (Some j) with
  | Some v => negb (String.eqb v "false")
  | None => true
  end.

(** The effects of the first render run innermost provider first. *)
Definition mount (j : jar) (dark : bool) : option page :=
  let theme := saved_or THEME_COOKIE_NAME DEFAULT_THEME j in
  let accent := init_accent j in
  let font := init_font j in
  let dir := saved_or DIRECTION_COOKIE_NAME DEFAULT_DIRECTION j in
  let resolved := resolveThemeClass dark theme in
  l1 ← applyFont font [];
  l2 ← applyTheme resolved l1;
  l3 ← applyAccent accent l2;
  Some (Page j dark theme resolved accent dir font
    (saved_or LAYOUT_COLLAPSIBLE_COOKIE_NAME DEFAULT_COLLAPSIBLE j)
    (saved_or LAYOUT_VARIANT_COOKIE_NAME DEFAULT_VARIANT j)
    (defaultOpen j) false l3 dir).

Inductive action : Type :=
| SetTheme (t : string)
| SetAccent (a : string)
| ResetTheme
| SetDir (d : string)
| ResetDir
| SetFont (f : string)
| ResetFont
| SetCollapsible (c : string)
| SetVariant (v : string)
| ResetLayout
| SetOpen (b : bool)
| ToggleSidebar (isMobile : bool)
| SchemeChanges (b : bool).

Definition write_cookie (n v : string) (m : Z) (j : jar) : jar := setCookie n v m (Some j) ?? j.
Definition drop_cookie (n : string) (j : jar) : jar := removeCookie n (Some j) ?? j.

(** [_setTheme] and [_setAccent] with the effects of the render that follows: an effect
    runs when one of its dependencies changed. *)
Definition _setTheme (t : string) (p : page) : option page :=
  let r := resolveThemeClass (dark p) t in
  if String.eqb t (theme p) then Some p
  else l ← applyTheme r (classes p);
       Some (Page (cookies p) (dark p) t r (accent p) (dir p) (font p) (collapsible p) (variant p)
               (open p) (openMobile p) l (html_dir p)).

Definition _setAccent (a : string) (p : page) : option page :=
  if String.eqb a (accent p) then Some p
  else l ← applyAccent a (classes p);
       Some (Page (cookies p) (dark p) (theme p) (resolvedTheme p) a (dir p) (font p) (collapsible p)
               (variant p) (open p) (openMobile p) l (html_dir p)).

Definition _setFont (f : string) (p : page) : option page :=
  if String.eqb f (font p) then Some p
  else l ← applyFont f (classes p);
       Some (Page (cookies p) (dark p) (theme p) (resolvedTheme p) (accent p) (dir p) f
               (collapsible p) (variant p) (open p) (openMobile p) l (html_dir p)).

Definition _setDir (d : string) (p : page) : page :=
  Page (cookies p) (dark p) (theme p) (resolvedTheme p) (accent p) d (font p) (collapsible p)
    (variant p) (open p) (openMobile p) (classes p) d.

Definition with_layout (c v : string) (o om : bool) (p : page) : page :=
  Page (cookies p) (dark p) (theme p) (resolvedTheme p) (accent p) (dir p) (font p) c v o om
    (classes p) (html_dir p).

Definition with_cookies (f : jar -> jar) (p : page) : page :=
  Page (f (cookies p)) (dark p) (theme p) (resolvedTheme p) (accent p) (dir p) (font p)
    (collapsible p) (variant p) (open p) (openMobile p) (classes p) (html_dir p).

Definition setTheme (t : string) (p : page) : option page :=
  _setTheme t (with_cookies (write_cookie THEME_COOKIE_NAME t THEME_COOKIE_MAX_AGE) p).

Definition setAccent (a : string) (p : page) : option page :=
  _setAccent a (with_cookies (write_cookie ACCENT_COOKIE_NAME a THEME_COOKIE_MAX_AGE) p).

Definition resetTheme (p : page) : option page :=
  p1 ← _setTheme DEFAULT_THEME
         (with_cookies (fun j => drop_cookie ACCENT_COOKIE_NAME (drop_cookie THEME_COOKIE_NAME j)) p);
  _setAccent DEFAULT_ACCENT p1.

Definition setDir (d : string) (p : page) : page :=
  with_cookies (write_cookie DIRECTION_COOKIE_NAME d DIRECTION_COOKIE_MAX_AGE) (_setDir d p).
Definition resetDir (p : page) : page :=
  with_cookies (drop_cookie DIRECTION_COOKIE_NAME) (_setDir DEFAULT_DIRECTION p).

Definition setFont (f : string) (p : page) : option page :=
  _setFont f (with_cookies (write_cookie FONT_COOKIE_NAME f FONT_COOKIE_MAX_AGE) p).
Definition resetFont (p : page) : option page :=
  _setFont (default "" (head fonts)) (with_cookies (drop_cookie FONT_COOKIE_NAME) p).

Definition setCollapsible (c : string) (p : page) : page :=
  with_cookies (write_cookie LAYOUT_COLLAPSIBLE_COOKIE_NAME c LAYOUT_COOKIE_MAX_AGE)
    (with_layout c (variant p) (open p) (openMobile p) p).
Definition setVariant (v : string) (p : page) : page :=
  with_cookies (write_cookie LAYOUT_VARIANT_COOKIE_NAME v LAYOUT_COOKIE_MAX_AGE)
    (with_layout (collapsible p) v (open p) (openMobile p) p).
Definition resetLayout (p : page) : page := setVariant DEFAULT_VARIANT (setCollapsible DEFAULT_COLLAPSIBLE p).

(** [document.cookie = `sidebar_state=...; path=/; max-age=...`]. *)
Definition setOpen (o : bool) (p : page) : page :=
  with_cookies
    (cookie_assign (SIDEBAR_COOKIE_NAME +:+ "=" +:+ (if o then "true" else "false") +:+
       "; path=/; max-age=" +:+ Z_to_string SIDEBAR_COOKIE_MAX_AGE))
    (with_layout (collapsible p) (variant p) o (openMobile p) p).
Definition toggleSidebar (isMobile : bool) (p : page) : page :=
  if isMobile then with_layout (collapsible p) (variant p) (open p) (negb (openMobile p)) p
  else setOpen (negb (open p)) p.

(** The media query's [change] event. *)
Definition handleChange (b : bool) (p : page) : option page :=
  let p' l := Page (cookies p) b (theme p) (resolvedTheme p) (accent p) (dir p) (font p)
                (collapsible p) (variant p) (open p) (openMobile p) l (html_dir p) in
  if String.eqb (theme p) "system" then p' <$> applyTheme (resolveThemeClass b "system") (classes p)
  else Some (p' (classes p)).

Definition step (p : page) (a : action) : option page :=
  match a with
  | SetTheme t => setTheme t p
  | SetAccent a => setAccent a p
  | ResetTheme => resetTheme p
  | SetDir d => Some (setDir d p)
  | ResetDir => Some (resetDir p)
  | SetFont f => setFont f p
  | ResetFont => resetFont p
  | SetCollapsible c => Some (setCollapsible c p)
  | SetVariant v => Some (setVariant v p)
  | ResetLayout => Some (resetLayout p)
  | SetOpen b => Some (setOpen b p)
  | ToggleSidebar m => Some (toggleSidebar m p)
  | SchemeChanges b => handleChange b p
  end.

Fixpoint run (acts : list action) (p : page) : option page :=
  match acts with
  | [] => Some p
  | a :: acts' => p' ← step p a; run acts' p'
  end.

(** *** The controls that call the setters *)

(** [components/config-drawer.tsx]. *)
Definition handleReset : list action := [SetOpen true; ResetDir; ResetTheme; ResetLayout].

Definition layout_radio (p : page) : string := if open p then "default" else collapsible p.
Definition layout_onValueChange (v : string) : list action :=
  if String.eqb v "default" then [SetOpen true] else [SetOpen false; SetCollapsible v].
Definition layout_onReset : list action := [SetOpen true; SetCollapsible DEFAULT_COLLAPSIBLE].

(** [features/settings/appearance/appearance-form.tsx]. *)
Record AppearanceFormValues : Type := Appearance { f_theme : string; f_font : string; f_accent : string }.

Definition appearanceFormSchema (v : AppearanceFormValues) : bool :=
  one_of THEME_CLASSES (f_theme v) && one_of fonts (f_font v) && one_of ACCENT_CLASSES (f_accent v).

Definition appearance_defaultValues (p : page) : AppearanceFormValues :=
  Appearance (if String.eqb (theme p) "system" then "light" else theme p) (font p) (accent p).

Definition appearance_onSubmit (data : AppearanceFormValues) (p : page) : list action :=
  (if String.eqb (f_font data) (font p) then [] else [SetFont (f_font data)]) ++
  (if String.eqb (f_theme data) (theme p) then [] else [SetTheme (f_theme data)]) ++
  (if String.eqb (f_accent data) (accent p) then [] else [SetAccent (f_accent data)]).

(** ** Class lists *)

Lemma one_of_spec l s : one_of l s = true <-> s ∈ l.
Proof.
  unfold one_of. rewrite existsb_exists. split.
  - intros (x & Hx & ->%String.eqb_eq). by apply list_elem_of_In.
  - intros H%list_elem_of_In. exists s. by rewrite String.eqb_refl.
Qed.

(** A case for each element of a literal list. *)
Ltac each H :=
  repeat (apply elem_of_cons in H as [->|H]); try (by apply not_elem_of_nil in H).

Lemma class_remove_perm c l l' : l ≡ₚ l' -> class_remove c l ≡ₚ class_remove c l'.
Proof. unfold class_remove. by intros ->. Qed.

Lemma removes_perm ks l l' : l ≡ₚ l' ->
  foldl (flip class_remove) l ks ≡ₚ foldl (flip class_remove) l' ks.
Proof. revert l l'. induction ks as [|k ks IH]; intros l l' H; [done|]. by apply IH, class_remove_perm. Qed.

Lemma class_add_ok c l l0 : class_token c = true -> l ≡ₚ l0 -> c ∉ l0 ->
  exists l', class_add c l = Some l' /\ l' ≡ₚ c :: l0.
Proof.
  intros Hc Hl Hn. unfold class_add. rewrite Hc. destruct (one_of l c) eqn:E.
  - apply one_of_spec in E. by rewrite Hl in E.
  - eexists. split; [done|]. by rewrite Hl, Permutation_app_comm.
Qed.

Lemma class_remove_notin c l : c ∉ l -> class_remove c l = l.
Proof.
  intros H. unfold class_remove. induction l as [|x l IH]; [done|].
  apply not_elem_of_cons in H as [H1 H2]. rewrite filter_cons, decide_True by done. by rewrite IH.
Qed.

Lemma forEach_none fuel i l : Forall (fun c => startsWith "font-" c = false) l ->
  forEach_remove fuel i l = l.
Proof.
  revert i. induction fuel as [|fuel IH]; intros i H; [done|]. cbn [forEach_remove].
  destruct (l !! i) as [c|] eqn:E; [|done]. by rewrite (Forall_lookup_1 _ _ _ _ H E), IH.
Qed.

(** One font class in the list is found and removed, wherever it stands. *)
Lemma forEach_one fuel i x y f :
  Forall (fun c => startsWith "font-" c = false) (x ++ y) -> startsWith "font-" f = true ->
  (i <= length x)%nat -> (length x < i + fuel)%nat ->
  forEach_remove fuel i (x ++ f :: y) = x ++ y.
Proof.
  intros H Hf. revert i. induction fuel as [|fuel IH]; intros i Hi Hfuel; [lia|].
  cbn [forEach_remove]. destruct (decide (i = length x)) as [->|Hne].
  - rewrite list_lookup_middle by done. rewrite Hf.
    assert (forall z, z ⊆ x ++ y -> class_remove f z = z) as Hz.
    { intros z Hz. apply class_remove_notin. intros Hin%Hz.
      rewrite Forall_forall in H. rewrite (H _ Hin) in Hf. done. }
    unfold class_remove in *. rewrite filter_app, filter_cons, decide_False by (intros E; by apply E).
    rewrite !Hz by set_solver. by apply forEach_none.
  - rewrite lookup_app_l by lia. destruct (lookup_lt_is_Some_2 x i) as [c Hc]; [lia|].
    rewrite Hc. apply Forall_app in H as [Hx Hy].
    rewrite (Forall_lookup_1 _ _ _ _ Hx Hc). apply IH; lia.
Qed.

Section Classes.
Context (t a f : string).
Hypothesis Ht : t ∈ THEME_CLASSES.
Hypothesis Ha : a ∈ ACCENT_CLASSES.
Hypothesis Hf : f ∈ fonts.

Definition three (t a f : string) : list string := [t; a; "font-" +:+ f].

Lemma applyTheme_ok t' l : l ≡ₚ three t a f -> t' ∈ THEME_CLASSES ->
  exists l', applyTheme t' l = Some l' /\ l' ≡ₚ three t' a f.
Proof.
  intros Hl Ht'. apply class_add_ok.
  - by each Ht'.
  - rewrite (removes_perm _ _ _ Hl). by each Ht; each Ha; each Hf.
  - each Ht'; each Ha; each Hf; by apply (bool_decide_unpack (_ ∉ _)).
Qed.

Lemma applyAccent_ok a' l : l ≡ₚ three t a f -> a' ∈ ACCENT_CLASSES ->
  exists l', applyAccent a' l = Some l' /\ l' ≡ₚ three t a' f.
Proof.
  intros Hl Ha'. destruct (class_add_ok a' (foldl (flip class_remove) l ACCENT_CLASSES)
    [t; "font-" +:+ f]) as (l' & E & H).
  - by each Ha'.
  - rewrite (removes_perm _ _ _ Hl). by each Ht; each Ha; each Hf.
  - each Ht; each Ha'; each Hf; by apply (bool_decide_unpack (_ ∉ _)).
  - exists l'. split; [done|]. rewrite H. apply perm_swap.
Qed.

Lemma applyFont_ok f' l : l ≡ₚ three t a f -> f' ∈ fonts ->
  exists l', applyFont f' l = Some l' /\ l' ≡ₚ three t a f'.
Proof.
  intros Hl Hf'. assert ("font-" +:+ f ∈ l) as (x & y & ->)%list_elem_of_split
    by (rewrite Hl; unfold three; set_solver).
  assert (x ++ y ≡ₚ [t; a]) as Hxy.
  { apply (Permutation_cons_inv (a := "font-" +:+ f)). rewrite Permutation_middle, Hl. unfold three.
    apply Permutation_sym. change [t; a; "font-" +:+ f] with ([t; a] ++ ["font-" +:+ f]).
    by rewrite Permutation_app_comm. }
  unfold applyFont. rewrite forEach_one;
    [| |apply prefix_app|lia|rewrite length_app; lia].
  2: { rewrite Hxy. clear Hl Hxy. each Ht; each Ha; by repeat constructor. }
  destruct (class_add_ok ("font-" +:+ f') (x ++ y) [t; a]) as (l' & E & H).
  - by each Hf'.
  - done.
  - clear Hl Hxy. each Ht; each Ha; each Hf'; by apply (bool_decide_unpack (_ ∉ _)).
  - exists l'. split; [done|]. rewrite H. unfold three. by rewrite perm_swap, (perm_swap a).
Qed.
End Classes.

(** ** What is stored is what is shown *)

Definition typed (a : action) : bool :=
  match a with
  | SetTheme t => one_of Theme t
  | SetAccent x => one_of ACCENT_CLASSES x
  | SetDir d => one_of Direction d
  | SetFont f => one_of fonts f
  | SetCollapsible c => one_of Collapsible c
  | SetVariant v => one_of Variant v
  | _ => true
  end.

(** The preferences a load reads from the cookies, and those of a page. *)
Definition stored (j : jar) :=
  (saved_or THEME_COOKIE_NAME DEFAULT_THEME j, init_accent j, init_font j,
   saved_or DIRECTION_COOKIE_NAME DEFAULT_DIRECTION j,
   (saved_or LAYOUT_COLLAPSIBLE_COOKIE_NAME DEFAULT_COLLAPSIBLE j,
    saved_or LAYOUT_VARIANT_COOKIE_NAME DEFAULT_VARIANT j, defaultOpen j)).

Definition shown (p : page) :=
  (theme p, accent p, font p, dir p, (collapsible p, variant p, open p)).

Definition html_ok (p : page) : Prop :=
  classes p ≡ₚ three (resolveThemeClass (dark p) (theme p)) (accent p) (font p) /\
  html_dir p = dir p.

Definition page_ok (p : page) : Prop :=
  wf_jar (cookies p) /\ shown p = stored (cookies p) /\
  theme p ∈ Theme /\ accent p ∈ ACCENT_CLASSES /\ font p ∈ fonts /\ html_ok p.

Definition cookies_ok (j : jar) : Prop :=
  wf_jar j /\ saved_or THEME_COOKIE_NAME DEFAULT_THEME j ∈ Theme.

Lemma resolve_class d t : t ∈ Theme -> resolveThemeClass d t ∈ THEME_CLASSES.
Proof.
  intros H. each H; destruct d; vm_compute; repeat (apply list_elem_of_here || apply list_elem_of_further).
Qed.

Lemma init_accent_ok j : init_accent j ∈ ACCENT_CLASSES.
Proof.
  unfold init_accent. destruct (isAccent _) eqn:E; [|by apply list_elem_of_here].
  destruct (getCookie _ _) as [v|]; cbn in *; [|done]. apply andb_true_iff in E as [_ E].
  by apply one_of_spec.
Qed.

Lemma init_font_ok j : init_font j ∈ fonts.
Proof.
  unfold init_font. destruct (getCookie _ _) as [v|]; [|by apply list_elem_of_here].
  destruct (one_of fonts v) eqn:E; [by apply one_of_spec|by apply list_elem_of_here].
Qed.

Lemma html_three r a f : r ∈ THEME_CLASSES -> a ∈ ACCENT_CLASSES -> f ∈ fonts ->
  applyFont f [] = Some ["font-" +:+ f] /\
  applyTheme r ["font-" +:+ f] = Some ["font-" +:+ f; r] /\
  applyAccent a ["font-" +:+ f; r] = Some ["font-" +:+ f; r; a].
Proof. intros Hr Ha Hf. by each Hr; each Ha; each Hf. Qed.

Lemma mount_ok j d : cookies_ok j -> exists p, mount j d = Some p /\ page_ok p /\ cookies p = j /\ dark p = d.
Proof.
  intros [Hj Ht]. destruct (html_three _ _ _ (resolve_class d _ Ht) (init_accent_ok j) (init_font_ok j))
    as (E1 & E2 & E3).
  unfold mount. rewrite E1. cbn [mbind option_bind]. rewrite E2. cbn [mbind option_bind].
  rewrite E3. cbn [mbind option_bind]. eexists. split; [reflexivity|]. split; [|done].
  unfold page_ok, html_ok. cbn [cookies theme accent font classes dark dir html_dir].
  split_and!; try done; auto using init_accent_ok, init_font_ok.
  apply (Permutation_app_comm ["font-" +:+ init_font j] [_; init_accent j]).
Qed.

Lemma write_cookie_jar n v m j : wf_pair (n, v) = true -> 0 < m -> write_cookie n v m j = jar_set n v j.
Proof. intros. unfold write_cookie. by rewrite setCookie_jar. Qed.

Lemma drop_cookie_jar n j : wf_name n = true -> drop_cookie n j = jar_remove n j.
Proof. intros. unfold drop_cookie. by rewrite removeCookie_jar. Qed.

Lemma sidebar_cookie o j :
  cookie_assign (SIDEBAR_COOKIE_NAME +:+ "=" +:+ (if o : bool then "true" else "false") +:+
    "; path=/; max-age=" +:+ Z_to_string SIDEBAR_COOKIE_MAX_AGE) j =
  jar_set SIDEBAR_COOKIE_NAME (if o then "true" else "false") j.
Proof. by destruct o; rewrite cookie_assign_text. Qed.

(** The steps keep [page_ok]; each is a write of cookies and a change of the page. *)
Lemma _setTheme_ok t p : t ∈ Theme -> wf_jar (cookies p) ->
  theme p ∈ Theme -> accent p ∈ ACCENT_CLASSES -> font p ∈ fonts -> html_ok p ->
  stored (cookies p) = (t, accent p, font p, dir p, (collapsible p, variant p, open p)) ->
  exists p', _setTheme t p = Some p' /\ page_ok p'.
Proof.
  intros Ht Hj Hp Ha Hf [Hc Hd] Hs. unfold _setTheme. destruct (String.eqb t (theme p)) eqn:E.
  - apply String.eqb_eq in E. subst. exists p. by split_and!.
  - destruct (applyTheme_ok _ _ _ (resolve_class (dark p) _ Hp) Ha Hf (resolveThemeClass (dark p) t) _ Hc)
      as (l & -> & Hl); [by apply resolve_class|].
    eexists. split; [reflexivity|]. by split_and!.
Qed.

Lemma _setAccent_ok a p : a ∈ ACCENT_CLASSES -> wf_jar (cookies p) ->
  theme p ∈ Theme -> accent p ∈ ACCENT_CLASSES -> font p ∈ fonts -> html_ok p ->
  stored (cookies p) = (theme p, a, font p, dir p, (collapsible p, variant p, open p)) ->
  exists p', _setAccent a p = Some p' /\ page_ok p'.
Proof.
  intros Ha Hj Ht Hp Hf [Hc Hd] Hs. unfold _setAccent. destruct (String.eqb a (accent p)) eqn:E.
  - apply String.eqb_eq in E. subst. exists p. by split_and!.
  - destruct (applyAccent_ok _ _ _ (resolve_class (dark p) _ Ht) Hp Hf a _ Hc) as (l & -> & Hl); [done|].
    eexists. split; [reflexivity|]. by split_and!.
Qed.

Lemma _setFont_ok f p : f ∈ fonts -> wf_jar (cookies p) ->
  theme p ∈ Theme -> accent p ∈ ACCENT_CLASSES -> font p ∈ fonts -> html_ok p ->
  stored (cookies p) = (theme p, accent p, f, dir p, (collapsible p, variant p, open p)) ->
  exists p', _setFont f p = Some p' /\ page_ok p'.
Proof.
  intros Hf Hj Ht Ha Hp [Hc Hd] Hs. unfold _setFont. destruct (String.eqb f (font p)) eqn:E.
  - apply String.eqb_eq in E. subst. exists p. by split_and!.
  - destruct (applyFont_ok _ _ _ (resolve_class (dark p) _ Ht) Ha Hp f _ Hc) as (l & -> & Hl); [done|].
    eexists. split; [reflexivity|]. by split_and!.
Qed.

(** The stored preferences, as a function of what the cookies read. *)
Definition view (get : string -> option string) :=
  let or m d := match get m with Some w => if String.eqb w "" then d else w | None => d end in
  (or THEME_COOKIE_NAME DEFAULT_THEME,
   (if isAccent (get ACCENT_COOKIE_NAME) then get ACCENT_COOKIE_NAME ?? DEFAULT_ACCENT else DEFAULT_ACCENT),
   match get FONT_COOKIE_NAME with Some w => if one_of fonts w then w else "inter" | None => "inter" end,
   or DIRECTION_COOKIE_NAME DEFAULT_DIRECTION,
   (or LAYOUT_COLLAPSIBLE_COOKIE_NAME DEFAULT_COLLAPSIBLE,
    or LAYOUT_VARIANT_COOKIE_NAME DEFAULT_VARIANT,
    match get SIDEBAR_COOKIE_NAME with Some w => negb (String.eqb w "false") | None => true end)).

Lemma stored_view j : stored j = view (fun n => getCookie n (Some j)).
Proof. reflexivity. Qed.

Lemma stored_set n v j : wf_jar j -> wf_pair (n, v) = true ->
  wf_jar (jar_set n v j) /\
  stored (jar_set n v j) = view (fun m => if String.eqb m n then Some v else getCookie m (Some j)).
Proof.
  intros Hj Hw. split; [by apply wf_jar_set|]. rewrite stored_view. unfold view.
  rewrite !getCookie_lookup by (done || by apply wf_jar_set). by rewrite !jar_lookup_set.
Qed.

Lemma stored_remove n j : wf_jar j ->
  wf_jar (jar_remove n j) /\
  stored (jar_remove n j) = view (fun m => if String.eqb m n then None else getCookie m (Some j)).
Proof.
  intros Hj. split; [by apply wf_jar_remove|]. rewrite stored_view. unfold view.
  rewrite !getCookie_lookup by (done || by apply wf_jar_remove). by rewrite !jar_lookup_remove.
Qed.

Lemma write_ok n v m p : page_ok p -> wf_pair (n, v) = true -> 0 < m ->
  wf_jar (write_cookie n v m (cookies p)) /\
  stored (write_cookie n v m (cookies p)) =
  view (fun k => if String.eqb k n then Some v else getCookie k (Some (cookies p))).
Proof. intros [Hj _] Hw Hm. rewrite write_cookie_jar by done. by apply stored_set. Qed.

Lemma drop_ok n p : page_ok p -> wf_name n = true ->
  wf_jar (drop_cookie n (cookies p)) /\
  stored (drop_cookie n (cookies p)) =
  view (fun k => if String.eqb k n then None else getCookie k (Some (cookies p))).
Proof. intros [Hj _] Hw. rewrite drop_cookie_jar by done. by apply stored_remove. Qed.

Lemma typed_elem l s : one_of l s = true -> s ∈ l.
Proof. apply one_of_spec. Qed.

(** Reads the fields of a page from its cookies. *)
Ltac from_cookies Hs :=
  let E1 := fresh in let E2 := fresh in let E3 := fresh in let E4 := fresh in
  let E5 := fresh in let E6 := fresh in let E7 := fresh in
  injection Hs as E1 E2 E3 E4 E5 E6 E7; rewrite ?E1, ?E2, ?E3, ?E4, ?E5, ?E6, ?E7;
  clear E1 E2 E3 E4 E5 E6 E7.

Lemma setTheme_ok t p : t ∈ Theme -> page_ok p -> exists p', setTheme t p = Some p' /\ page_ok p'.
Proof.
  intros Ht Hp. assert (wf_pair (THEME_COOKIE_NAME, t) = true) as Hw by (by clear Hp; each Ht).
  destruct (write_ok _ _ THEME_COOKIE_MAX_AGE p Hp Hw eq_refl) as [Hj' Hs'].
  destruct Hp as (Hj & Hs & H1 & H2 & H3 & H4).
  apply _setTheme_ok; try done. cbn [with_cookies cookies dir collapsible variant open accent font].
  rewrite Hs'. from_cookies Hs. clear - Ht. by each Ht.
Qed.

Lemma setAccent_ok a p : a ∈ ACCENT_CLASSES -> page_ok p -> exists p', setAccent a p = Some p' /\ page_ok p'.
Proof.
  intros Ha Hp. assert (wf_pair (ACCENT_COOKIE_NAME, a) = true) as Hw by (by clear Hp; each Ha).
  destruct (write_ok _ _ THEME_COOKIE_MAX_AGE p Hp Hw eq_refl) as [Hj' Hs'].
  destruct Hp as (Hj & Hs & H1 & H2 & H3 & H4).
  apply _setAccent_ok; try done. cbn [with_cookies cookies dir collapsible variant open theme font].
  rewrite Hs'. from_cookies Hs. clear - Ha. by each Ha.
Qed.

Lemma setFont_ok f p : f ∈ fonts -> page_ok p -> exists p', setFont f p = Some p' /\ page_ok p'.
Proof.
  intros Hf Hp. assert (wf_pair (FONT_COOKIE_NAME, f) = true) as Hw by (by clear Hp; each Hf).
  destruct (write_ok _ _ FONT_COOKIE_MAX_AGE p Hp Hw eq_refl) as [Hj' Hs'].
  destruct Hp as (Hj & Hs & H1 & H2 & H3 & H4).
  apply _setFont_ok; try done. cbn [with_cookies cookies dir collapsible variant open theme accent].
  rewrite Hs'. from_cookies Hs. clear - Hf. by each Hf.
Qed.

Lemma resetFont_ok p : page_ok p -> exists p', resetFont p = Some p' /\ page_ok p'.
Proof.
  intros Hp. destruct (drop_ok FONT_COOKIE_NAME p Hp eq_refl) as [Hj' Hs'].
  destruct Hp as (Hj & Hs & H1 & H2 & H3 & H4).
  apply _setFont_ok; try done; [by apply list_elem_of_here|].
  cbn [with_cookies cookies dir collapsible variant open theme accent]. rewrite Hs'. by from_cookies Hs.
Qed.

Lemma resetTheme_ok p : page_ok p -> exists p', resetTheme p = Some p' /\ page_ok p'.
Proof.
  intros Hp. destruct Hp as (Hj & Hs & H1 & H2 & H3 & H4).
  set (j := drop_cookie ACCENT_COOKIE_NAME (drop_cookie THEME_COOKIE_NAME (cookies p))).
  assert (wf_jar j /\ stored j = view (fun k => if String.eqb k ACCENT_COOKIE_NAME then None else
    if String.eqb k THEME_COOKIE_NAME then None else getCookie k (Some (cookies p)))) as [Hj' Hs'].
  { unfold j. rewrite !drop_cookie_jar by done.
    pose proof (wf_jar_remove THEME_COOKIE_NAME _ Hj) as Hj1.
    split; [by apply wf_jar_remove|]. rewrite (proj2 (stored_remove _ _ Hj1)). unfold view.
    rewrite !getCookie_lookup by done. by rewrite !jar_lookup_remove. }
  unfold resetTheme. set (p0 := with_cookies _ p).
  (* the theme's effect first, on a page whose accent is not yet the default one *)
  assert (exists p1, _setTheme DEFAULT_THEME p0 = Some p1 /\ theme p1 = DEFAULT_THEME /\ html_ok p1 /\
    cookies p1 = j /\ accent p1 = accent p /\ font p1 = font p /\ dir p1 = dir p /\
    collapsible p1 = collapsible p /\ variant p1 = variant p /\ open p1 = open p)
    as (p1 & -> & E1 & Hh & E2 & E3 & E4 & E5 & E6 & E7 & E8).
  { unfold _setTheme. destruct (String.eqb _ _) eqn:E.
    - apply String.eqb_eq in E. exists p0. split; [reflexivity|]. split; [exact (eq_sym E)|]. split; [exact H4|].
      repeat split.
    - destruct H4 as [Hc Hd].
      destruct (applyTheme_ok _ _ _ (resolve_class (dark p) _ H1) H2 H3
        (resolveThemeClass (dark p) DEFAULT_THEME) _ Hc) as (l & El & Hl);
        [apply resolve_class, list_elem_of_here|].
      cbn [p0 with_cookies dark classes] in *. rewrite El. eexists. split; [reflexivity|]. by split_and!. }
  cbn [mbind option_bind]. apply _setAccent_ok; rewrite ?E1, ?E2, ?E3, ?E4, ?E5, ?E6, ?E7, ?E8;
    try done; [by apply list_elem_of_here|by apply list_elem_of_here|].
  rewrite Hs'. by from_cookies Hs.
Qed.

(** The setters without an effect on the class list. *)
Lemma setDir_ok d p : d ∈ Direction -> page_ok p -> page_ok (setDir d p).
Proof.
  intros Hd Hp. assert (wf_pair (DIRECTION_COOKIE_NAME, d) = true) as Hw by (by clear Hp; each Hd).
  destruct (write_ok _ _ DIRECTION_COOKIE_MAX_AGE p Hp Hw eq_refl) as [Hj' Hs'].
  destruct Hp as (Hj & Hs & H1 & H2 & H3 & H4 & H5). repeat (split; [done|]). split; [|by repeat split].
  cbn [setDir with_cookies _setDir cookies]. rewrite Hs'. unfold shown. cbn. from_cookies Hs.
  clear - Hd. by each Hd.
Qed.

Lemma resetDir_ok p : page_ok p -> page_ok (resetDir p).
Proof.
  intros Hp. destruct (drop_ok DIRECTION_COOKIE_NAME p Hp eq_refl) as [Hj' Hs'].
  destruct Hp as (Hj & Hs & H1 & H2 & H3 & H4 & H5). split; [done|]. split; [|by repeat split].
  cbn [resetDir with_cookies _setDir cookies]. rewrite Hs'. unfold shown. cbn. by from_cookies Hs.
Qed.

Lemma setCollapsible_ok c p : c ∈ Collapsible -> page_ok p -> page_ok (setCollapsible c p).
Proof.
  intros Hc Hp. assert (wf_pair (LAYOUT_COLLAPSIBLE_COOKIE_NAME, c) = true) as Hw by (by clear Hp; each Hc).
  destruct (write_ok _ _ LAYOUT_COOKIE_MAX_AGE p Hp Hw eq_refl) as [Hj' Hs'].
  destruct Hp as (Hj & Hs & H1 & H2 & H3 & H4 & H5). split; [done|]. split; [|by repeat split].
  cbn [setCollapsible with_cookies with_layout cookies]. rewrite Hs'. unfold shown. cbn. from_cookies Hs.
  clear - Hc. by each Hc.
Qed.

Lemma setVariant_ok v p : v ∈ Variant -> page_ok p -> page_ok (setVariant v p).
Proof.
  intros Hv Hp. assert (wf_pair (LAYOUT_VARIANT_COOKIE_NAME, v) = true) as Hw by (by clear Hp; each Hv).
  destruct (write_ok _ _ LAYOUT_COOKIE_MAX_AGE p Hp Hw eq_refl) as [Hj' Hs'].
  destruct Hp as (Hj & Hs & H1 & H2 & H3 & H4 & H5). split; [done|]. split; [|by repeat split].
  cbn [setVariant with_cookies with_layout cookies]. rewrite Hs'. unfold shown. cbn. from_cookies Hs.
  clear - Hv. by each Hv.
Qed.

Lemma setOpen_ok o p : page_ok p -> page_ok (setOpen o p).
Proof.
  intros Hp. pose proof Hp as (Hj & Hs & H1 & H2 & H3 & H4 & H5).
  assert (wf_pair (SIDEBAR_COOKIE_NAME, if o then "true" else "false") = true) as Hw by (by destruct o).
  destruct (stored_set _ _ _ Hj Hw) as [Hj' Hs']. unfold setOpen.
  unfold page_ok, with_cookies. cbn [cookies with_layout]. rewrite sidebar_cookie.
  split; [done|]. split; [|by repeat split]. rewrite Hs'. unfold shown. cbn. from_cookies Hs. by destruct o.
Qed.

Lemma handleChange_ok b p : page_ok p -> exists p', handleChange b p = Some p' /\ page_ok p'.
Proof.
  intros (Hj & Hs & H1 & H2 & H3 & H4 & H5). unfold handleChange. destruct (String.eqb _ _) eqn:E.
  - apply String.eqb_eq in E.
    destruct (applyTheme_ok _ _ _ (resolve_class (dark p) _ H1) H2 H3
      (resolveThemeClass b "system") _ H4) as (l & -> & Hl); [apply resolve_class, list_elem_of_here|].
    eexists. split; [reflexivity|]. split_and!; try done. cbn [html_ok classes].
    split; [|done]. cbn [classes theme dark accent font]. by rewrite E.
  - eexists. split; [reflexivity|]. repeat (split; [done|]). split; [|done]. cbn [classes theme dark].
    revert H4. unfold resolveThemeClass. by rewrite E.
Qed.

Lemma step_ok a p : typed a = true -> page_ok p -> exists p', step p a = Some p' /\ page_ok p'.
Proof.
  intros Ha Hp. destruct a; cbn [step typed] in *; try apply typed_elem in Ha;
    eauto using setTheme_ok, setAccent_ok, resetTheme_ok, setFont_ok, resetFont_ok, setDir_ok,
      resetDir_ok, setCollapsible_ok, setVariant_ok, setOpen_ok, handleChange_ok.
  - exists (resetLayout p). split; [reflexivity|].
    refine (setVariant_ok _ _ (list_elem_of_here _ _) (setCollapsible_ok _ _ _ Hp)). by apply one_of_spec.
  - eexists. split; [reflexivity|]. unfold toggleSidebar. case_match; [done|by apply setOpen_ok].
Qed.

Lemma run_ok acts p : Forall (fun a => typed a = true) acts -> page_ok p ->
  exists p', run acts p = Some p' /\ page_ok p'.
Proof.
  intros H. revert p. induction H as [|a acts Ha _ IH]; intros p Hp; [by exists p|].
  destruct (step_ok a p Ha Hp) as (p1 & E & Hp1). cbn [run]. rewrite E. by apply IH.
Qed.

(** C16: preferences survive a reload.  From cookies whose theme is one of the themes, no
    sequence of settings raises an error, and a reload afterwards shows the same theme,
    accent, font, direction, layout and sidebar as the page did, with the same classes on
    [<html>] up to order (exactly one theme, one accent and one font) and the same [dir]. *)
Theorem prefs_survive_reload j d acts :
  cookies_ok j -> Forall (fun a => typed a = true) acts ->
  exists p q r, mount j d = Some p /\ run acts p = Some q /\
    mount (cookies q) (dark q) = Some r /\ shown r = shown q /\
    classes r ≡ₚ classes q /\ html_dir r = html_dir q /\
    classes q ≡ₚ three (resolveThemeClass (dark q) (theme q)) (accent q) (font q).
Proof.
  intros Hj Ha. destruct (mount_ok j d Hj) as (p & Ep & Hp & _). destruct (run_ok acts p Ha Hp) as (q & Eq & Hq).
  destruct Hq as (Hjq & Hs & H1 & H2 & H3 & H4 & H5).
  assert (cookies_ok (cookies q)) as Hok.
  { split; [done|]. injection Hs as E _. by rewrite <- E. }
  destruct (mount_ok _ (dark q) Hok) as (r & Er & (_ & Hsr & _ & _ & _ & H6 & H7) & Hc & Hd).
  exists p, q, r. do 3 (split; [done|]). rewrite Hc, <- Hs in Hsr. split; [done|].
  injection Hsr as E1 E2 E3 E4 _ _ _. rewrite Hd, E1, E2, E3 in H6.
  split; [by rewrite H6, H4|]. split; [congruence|done].
Qed.

Lemma prefs_survive_reload_witness :
  exists p q r, mount [("font", "comic")] true = Some p /\
    run [SetTheme "blue"; SetDir "rtl"; SetFont "manrope"; SetTheme "system"; SchemeChanges false;
         ToggleSidebar false; SetAccent "accent-tech"] p = Some q /\
    mount (cookies q) (dark q) = Some r /\ shown r = shown q /\
    classes r ≡ₚ classes q /\ html_dir r = html_dir q /\
    classes q ≡ₚ three (resolveThemeClass (dark q) (theme q)) (accent q) (font q).
Proof.
  apply prefs_survive_reload; [|by repeat constructor].
  split; [split; [apply NoDup_singleton|by repeat constructor]|by apply one_of_spec].
Defined.

(** The appearance form does not know the theme [system]: saved untouched on a page
    that follows the system's scheme, it sets the theme [light]; on a page with any other
    theme it changes nothing. *)
Theorem appearance_untouched p :
  appearance_onSubmit (appearance_defaultValues p) p =
  if String.eqb (theme p) "system" then [SetTheme "light"] else [].
Proof.
  unfold appearance_onSubmit, appearance_defaultValues. cbn [f_theme f_font f_accent].
  rewrite !String.eqb_refl. destruct (String.eqb (theme p) "system") eqn:E.
  - apply String.eqb_eq in E. by rewrite E.
  - by rewrite String.eqb_refl.
Qed.
