(* ===== verification/Ui.v ===== *)
(** * What a handler of a page does

    A handler (a click, a form's submission) is a [prog]: it shows toasts and closes its
    dialog ([Emit]), and it awaits mutations, one ([Mutate]) or several at once
    ([MutateAll], [Promise.allSettled] over [mutateAsync] calls).  [exec] runs it against
    the answers of the server, [o n] being the answer to the [n]-th request.  A mutation is
    named by its hook of Hooks; what it sends is [Hooks.mutation_call].  The file models no
    file under [src/] except the idiom of the bulk dialogs, [settled_toast]. *)
From S2P Require Import Prelude JsString JsValue JsNumber ApiErrors Hooks.

(** A settled mutation: the data, or what was thrown. *)
Definition answer : Type := result jserror jval.

Definition fulfilled (a : answer) : bool := match a with Ok _ => true | Throw _ => false end.

Inductive toast_kind : Type := success | error | warning | info.

Inductive effect : Type :=
| Toast (kind : toast_kind) (message : string) (description : jval)
| Close                                  (** [close()], [onClose()], [onOpenChange(false)] *)
| SetState (name : string) (v : jval)    (** a React setter, [form.reset], [setValue('')] *)
| SetError (field : string) (message : jval)
| Navigate (to : string)
| Callback (name : string) (v : jval).   (** a function the page was given *)

Inductive prog : Type :=
| Return
| Emit (e : effect) (next : prog)
| Mutate (m : mutation_hook) (next : answer -> prog)
| MutateAll (ms : list mutation_hook) (next : list answer -> prog).

Inductive event : Type :=
| Did (e : effect)
| Sent (m : mutation_hook) (a : answer).

Fixpoint exec (o : nat -> answer) (n : nat) (p : prog) : list event :=
  match p with
  | Return => []
  | Emit e next => Did e :: exec o n next
  | Mutate m next => Sent m (o n) :: exec o (S n) (next (o n))
  | MutateAll ms next =>
      let rs := map o (seq n (length ms)) in
      zip_with Sent ms rs ++ exec o (n + length ms) (next rs)
  end.

Fixpoint emits (es : list effect) (next : prog) : prog :=
  match es with
  | [] => next
  | e :: es' => Emit e (emits es' next)
  end.

(** The requests and the toasts of a run. *)
Definition requests (tr : list event) : list mutation_hook :=
  omap (fun e => match e with Sent m _ => Some m | Did _ => None end) tr.
Definition toasts (tr : list event) : list (toast_kind * string) :=
  omap (fun e => match e with Did (Toast k m _) => Some (k, m) | _ => None end) tr.
Definition closes (tr : list event) : bool :=
  existsb (fun e => match e with Did Close => true | _ => false end) tr.

(** *** Readers of records and errors *)

(** A field whose type is [string], interpolated; a numeric id. *)
Definition text (k : string) (v : jval) : string := js_String (get k v).
Definition number (k : string) (v : jval) : Z := match get k v with JNum n => n | _ => 0 end.

(** [err instanceof Error ? err.message : String(err)]. *)
Definition message_or_String (e : jserror) : jval :=
  match e with
  | AxiosErr m _ _ | NativeErr m => JStr m
  | OtherErr v => JStr (js_String v)
  end.

(** [err.message]. *)
Definition message (e : jserror) : jval :=
  match e with
  | AxiosErr m _ _ | NativeErr m => JStr m
  | OtherErr v => get "message" v
  end.

Definition plural (n : Z) : string := if 1 <? n then "s" else "".

(** *** The toast after [Promise.allSettled] *)

(** [done] is the verb of a success, [failure] that of a failure, [noun] what was changed:
    [Removed 2 users], [Failed to remove 1 user], [Removed 1, failed 1 of 2 users]. *)
Definition settled_toast (done failure noun : string) (results : list answer) : effect :=
  let failed := Z.of_nat (length (List.filter (fun r => negb (fulfilled r)) results)) in
  let ok := Z.of_nat (length results) - failed in
  if failed =? 0 then Toast success (done +:+ " " +:+ Z_to_string ok +:+ " " +:+ noun +:+ plural ok) JUndef
  else if ok =? 0 then
    Toast error ("Failed to " +:+ failure +:+ " " +:+ Z_to_string failed +:+ " " +:+ noun +:+ plural failed) JUndef
  else Toast warning
    (done +:+ " " +:+ Z_to_string ok +:+ ", failed " +:+ Z_to_string failed +:+ " of " +:+
     Z_to_string (Z.of_nat (length results)) +:+ " " +:+ noun +:+ "s") JUndef.

(** *** Lemmas *)

Lemma requests_zip ms rs : length rs = length ms -> requests (zip_with Sent ms rs) = ms.
Proof.
  revert rs. induction ms as [|m ms IH]; intros [|r rs] H; try done. cbn in *.
  f_equal. apply IH. lia.
Qed.

Lemma toasts_zip ms rs : toasts (zip_with Sent ms rs) = [].
Proof. revert rs. induction ms as [|m ms IH]; intros [|r rs]; try done. apply IH. Qed.

Lemma requests_app t t' : requests (t ++ t') = requests t ++ requests t'.
Proof. apply omap_app. Qed.

Lemma toasts_app t t' : toasts (t ++ t') = toasts t ++ toasts t'.
Proof. apply omap_app. Qed.

Lemma closes_app t t' : closes (t ++ t') = closes t || closes t'.
Proof. apply existsb_app. Qed.

Lemma filter_all {A} (p : A -> bool) l : forallb p l = true -> List.filter (fun x => negb (p x)) l = [].
Proof. induction l as [|x l IH]; cbn; [done|]. intros [-> H]%andb_true_iff. cbn. by apply IH. Qed.

Lemma filter_split {A} (p : A -> bool) l :
  (length (List.filter (fun x => negb (p x)) l) + length (List.filter p l) = length l)%nat.
Proof. induction l as [|x l IH]; cbn; [done|]. destruct (p x); cbn; lia. Qed.

Lemma filter_none {A} (p : A -> bool) l : length (List.filter p l) = O <-> forallb (fun x => negb (p x)) l = true.
Proof. induction l as [|x l IH]; cbn; [done|]. destruct (p x); cbn; [done|apply IH]. Qed.

(** The kind of the toast says exactly whether all, none or some requests succeeded. *)
Lemma settled_kind done failure noun results :
  exists k m, settled_toast done failure noun results = Toast k m JUndef /\
    k = (if forallb fulfilled results then success
         else if forallb (fun r => negb (fulfilled r)) results then error else warning).
Proof.
  unfold settled_toast. pose proof (filter_split fulfilled results) as Hs.
  pose proof (filter_none fulfilled results) as Hn.
  pose proof (filter_none (fun r => negb (fulfilled r)) results) as Hf.
  set (f := length (List.filter (fun r => negb (fulfilled r)) results)) in *.
  assert (forallb (fun r => negb (negb (fulfilled r))) results = forallb fulfilled results) as E.
  { clear. induction results as [|r l IH]; cbn; [done|]. by rewrite negb_involutive, IH. }
  cbv beta in Hf. rewrite E in Hf. destruct (Z.of_nat f =? 0) eqn:E1; b2p.
  - rewrite (proj1 Hf) by lia. eauto.
  - destruct (forallb fulfilled results) eqn:E3; [pose proof (proj2 Hf eq_refl); lia|].
    destruct (_ =? 0) eqn:E2; b2p.
    + rewrite (proj1 Hn) by lia. eauto.
    + destruct (forallb (fun r => negb (fulfilled r)) results) eqn:E4; [|eauto].
      pose proof (proj2 Hn eq_refl). lia.
Qed.

(** The shape all bulk handlers share: one request per id, then one toast. *)
Lemma exec_bulk o n done failure noun ms :
  let tr := exec o n (MutateAll ms (fun rs => Emit (settled_toast done failure noun rs) (Emit Close Return))) in
  requests tr = ms /\ closes tr = true /\
  exists k m, toasts tr = [(k, m)] /\
    k = (let rs := map o (seq n (length ms)) in
         if forallb fulfilled rs then success
         else if forallb (fun r => negb (fulfilled r)) rs then error else warning).
Proof.
  intros tr. subst tr. cbn [exec].
  destruct (settled_kind done failure noun (map o (seq n (length ms)))) as (k & m & -> & Hk).
  rewrite requests_app, toasts_app, closes_app, requests_zip, toasts_zip
    by (by rewrite length_map, length_seq).
  cbn. rewrite app_nil_r, orb_true_r. split_and!; [done|done|]. by exists k, m.
Qed.
