(* ===== verification/DialogStores.v ===== *)
(** * The dialog stores ([features/*/store/*-dialog-store.ts])

    Every feature keeps which of its dialogs is open in a store of its own.  A Module per
    store translates its state, [open] and [close]; the class [DialogStore] states what the
    pages rely on, the abstract specification [spec] (closed, or open in a mode with a
    record and ids) says what that is, and [stores_refine] shows that every store
    implements it for every sequence of calls.  [shown] lists the dialogs a state shows
    (the components' [open] conditions), [openers] the calls the pages make; a record is a
    [jval].  Module [RowDialogs] is the older pattern of the customer and subscription
    pages: an [open] flag, a current row, and a timer that clears the row. *)
From S2P Require Import Prelude JsString JsValue JsNumber.

(** ** The specification *)

(** A dialog is closed, or open in a mode [m] for [q]: a record, ids, or both. *)
Inductive dialog (M Q : Type) : Type :=
| Closed
| Open (mode : M) (q : Q).
Arguments Closed {M Q}.
Arguments Open {M Q} mode q.

Inductive op (M P : Type) : Type :=
| DoOpen (mode : M) (p : P)
| DoClose.
Arguments DoOpen {M P} mode p.
Arguments DoClose {M P}.

(** What a store offers: [open] takes a [P], of which it keeps the [Q] that [keeps] names;
    [holds] is the state that stands for a dialog, every field of it. *)
Class DialogStore (S M P Q : Type) : Type := {
  s_init : S;
  s_open : M -> P -> S -> S;
  s_close : S -> S;
  keeps : P -> Q;
  holds : dialog M Q -> S
}.

Section Spec.
Context {S M P Q : Type} `{DialogStore S M P Q}.

Definition spec_step (d : dialog M Q) (o : op M P) : dialog M Q :=
  match o with
  | DoOpen m p => Open m (keeps p)
  | DoClose => Closed
  end.
Definition spec_run (ops : list (op M P)) : dialog M Q := foldl spec_step Closed ops.

Definition store_step (s : S) (o : op M P) : S :=
  match o with
  | DoOpen m p => s_open m p s
  | DoClose => s_close s
  end.
Definition store_run (ops : list (op M P)) : S := foldl store_step s_init ops.

(** The store implements the specification: whatever was opened and closed before, its
    whole state is the one that stands for the last call. *)
Definition refines : Prop := forall ops, store_run ops = holds (spec_run ops).
End Spec.
Arguments refines S M P Q {_}.

(** The simulation: from the state of any dialog, a call leads to the state of the next. *)
Class DialogStoreLaws (S M P Q : Type) `{DialogStore S M P Q} : Prop := {
  holds_init : s_init = holds Closed;
  open_holds d m p : s_open m p (holds d) = holds (Open m (keeps p));
  close_holds d : s_close (holds d) = holds Closed
}.

Lemma laws_refine {S M P Q} `{DialogStoreLaws S M P Q} : refines S M P Q.
Proof.
  intros ops. unfold store_run, spec_run. rewrite holds_init. generalize (@Closed M Q) as d.
  induction ops as [|o ops IH]; intros d; [done|]. cbn [foldl]. rewrite <- IH. f_equal.
  destruct o; [apply open_holds|apply close_holds].
Qed.

(** ** The stores *)

(** [mode]/[target]/[ids], the shape most stores have; a store without ids has [[]]. *)
Record state (M : Type) : Type := St { mode : option M; target : option jval; ids : list string }.
Arguments St {M} mode target ids.
Arguments mode {M} _.
Arguments target {M} _.
Arguments ids {M} _.

(** zustand's [set] merges: it writes the fields it is given and keeps the others. *)
Record partial (M : Type) : Type :=
  Partial { w_mode : option (option M); w_target : option (option jval); w_ids : option (list string) }.
Arguments Partial {M} w_mode w_target w_ids.
Arguments w_mode {M} _.
Arguments w_target {M} _.
Arguments w_ids {M} _.
Definition write {M} (w : partial M) (s : state M) : state M :=
  St (w_mode w ?? mode s) (w_target w ?? target s) (w_ids w ?? ids s).

Record payload : Type := Payload { p_target : option jval; p_ids : option (list string) }.

Module UsersDialog.
Inductive DialogMode : Type := add | edit | delete | multi_delete | password.
Definition initial : state DialogMode := St None None [].
Definition open (m : DialogMode) (p : option payload) (s : state DialogMode) : state DialogMode :=
  write (Partial (Some (Some m)) (Some (p ≫= p_target)) (Some ((p ≫= p_ids) ?? []))) s.
Definition close (s : state DialogMode) : state DialogMode := write (Partial (Some None) (Some None) (Some [])) s.
Definition shown (s : state DialogMode) : list string :=
  (if match mode s with Some add | Some edit => true | _ => false end then ["UserMutateDrawer"] else []) ++
  (if match mode s with Some delete | Some multi_delete => true | _ => false end then ["UserDeleteDialog"] else []) ++
  (match target s, mode s with Some _, Some password => ["PasswordRevealDialog"] | _, _ => [] end).
End UsersDialog.

Module ProfilesDialog.
Inductive DialogMode : Type := add | edit | delete | multi_delete.
Definition initial : state DialogMode := St None None [].
Definition open (m : DialogMode) (p : option payload) (s : state DialogMode) : state DialogMode :=
  write (Partial (Some (Some m)) (Some (p ≫= p_target)) (Some ((p ≫= p_ids) ?? []))) s.
Definition close (s : state DialogMode) : state DialogMode := write (Partial (Some None) (Some None) (Some [])) s.
Definition shown (s : state DialogMode) : list string :=
  (if match mode s with Some add | Some edit => true | _ => false end then ["ProfileMutateDrawer"] else []) ++
  (if match mode s with Some delete | Some multi_delete => true | _ => false end then ["ProfileDeleteDialog"] else []).
End ProfilesDialog.

Module ActiveDialog.
Inductive DialogMode : Type := disconnect | disconnect_many | disconnect_all.
Definition initial : state DialogMode := St None None [].
Definition open (m : DialogMode) (p : option payload) (s : state DialogMode) : state DialogMode :=
  write (Partial (Some (Some m)) (Some (p ≫= p_target)) (Some ((p ≫= p_ids) ?? []))) s.
Definition close (s : state DialogMode) : state DialogMode := write (Partial (Some None) (Some None) (Some [])) s.
Definition shown (s : state DialogMode) : list string :=
  match mode s with Some _ => ["DisconnectDialog"] | None => [] end.
End ActiveDialog.

Module SecretsDialog.
Inductive DialogMode : Type := add | edit | delete | multi_delete | password.
Definition initial : state DialogMode := St None None [].
Definition open (m : DialogMode) (t : option jval) (i : option (list string)) (s : state DialogMode) : state DialogMode :=
  write (Partial (Some (Some m)) (Some t) (Some (i ?? []))) s.
Definition close (s : state DialogMode) : state DialogMode := write (Partial (Some None) (Some None) (Some [])) s.
Definition shown (s : state DialogMode) : list string :=
  (if match mode s with Some add | Some edit => true | _ => false end then ["SecretMutateDrawer"] else []) ++
  (if match mode s with Some delete | Some multi_delete => true | _ => false end then ["SecretDeleteDialog"] else []) ++
  (match target s, mode s with Some _, Some password => ["PasswordRevealDialog"] | _, _ => [] end).
End SecretsDialog.

Module HostsDialog.
Inductive DialogMode : Type := bind | bind_many | delete | multi_delete.
Record HostsDialogState : Type := HSt { base : state DialogMode; bulk : gmap string jval }.
Definition initial : HostsDialogState := HSt (St None None []) ∅.
Definition write_hosts (w : partial DialogMode) (w_bulk : option (gmap string jval)) (s : HostsDialogState) : HostsDialogState :=
  HSt (write w (base s)) (w_bulk ?? bulk s).
(** [Object.fromEntries]: of two hosts with one id the later one stays. *)
Definition fromEntries (l : list jval) : gmap string jval :=
  foldl (fun m h => <[js_String (get "id" h) := h]> m) ∅ l.
Definition open (m : DialogMode) (p : option payload) (b : option (list jval)) (s : HostsDialogState) : HostsDialogState :=
  write_hosts (Partial (Some (Some m)) (Some (p ≫= p_target)) (Some ((p ≫= p_ids) ?? [])))
    (Some (fromEntries (b ?? []))) s.
Definition close (s : HostsDialogState) : HostsDialogState :=
  write_hosts (Partial (Some None) (Some None) (Some [])) (Some ∅) s.
Definition shown (s : HostsDialogState) : list string :=
  (if match mode (base s) with Some bind | Some bind_many => true | _ => false end then ["MakeBindingDialog"] else []) ++
  (if match mode (base s) with Some delete | Some multi_delete => true | _ => false end then ["HostDeleteDialog"] else []).
End HostsDialog.

(** [open: (mode, target) => set({ mode, target: target ?? null })]. *)
Definition two_fields {M} (m : M) (t : option jval) (s : state M) : state M :=
  write (Partial (Some (Some m)) (Some t) None) s.

Module HotspotBillingDialog.
Inductive DialogMode : Type := add | edit | delete.
Definition initial : state DialogMode := St None None [].
Definition open (m : DialogMode) (t : option jval) (s : state DialogMode) : state DialogMode := two_fields m t s.
Definition close (s : state DialogMode) : state DialogMode := write (Partial (Some None) (Some None) None) s.
Definition shown (s : state DialogMode) : list string :=
  if match mode s with Some add | Some edit => true | _ => false end then ["HotspotBillingMutateDrawer"] else [].
End HotspotBillingDialog.

Module DbProfilesDialog.
Inductive DialogMode : Type := add | edit | delete.
Definition initial : state DialogMode := St None None [].
Definition open (m : DialogMode) (t : option jval) (s : state DialogMode) : state DialogMode := two_fields m t s.
Definition close (s : state DialogMode) : state DialogMode := write (Partial (Some None) (Some None) None) s.
Definition shown (s : state DialogMode) : list string :=
  (if match mode s with Some add | Some edit => true | _ => false end then ["DbProfileMutateDrawer"] else []) ++
  (match mode s with Some delete => ["DbProfileDeleteDialog"] | _ => [] end).
End DbProfilesDialog.

Module PPPProfilesDialog.
Inductive DialogMode : Type := add | edit | delete.
Definition initial : state DialogMode := St None None [].
Definition open (m : DialogMode) (t : option jval) (s : state DialogMode) : state DialogMode := two_fields m t s.
Definition close (s : state DialogMode) : state DialogMode := write (Partial (Some None) (Some None) None) s.
Definition shown (s : state DialogMode) : list string :=
  (if match mode s with Some add | Some edit => true | _ => false end then ["ProfileMutateDrawer"] else []) ++
  (match mode s with Some delete => ["ProfileDeleteDialog"] | _ => [] end).
End PPPProfilesDialog.

Module PresetsDialog.
Inductive DialogMode : Type := add | edit | delete.
Definition initial : state DialogMode := St None None [].
Definition open (m : DialogMode) (p : option payload) (s : state DialogMode) : state DialogMode := two_fields m (p ≫= p_target) s.
Definition close (s : state DialogMode) : state DialogMode := write (Partial (Some None) (Some None) None) s.
Definition shown (s : state DialogMode) : list string :=
  (if match mode s with Some add | Some edit => true | _ => false end then ["PresetMutateDrawer"] else []) ++
  (match mode s with Some delete => ["PresetDeleteDialog"] | _ => [] end).
End PresetsDialog.

Module AdminUsersDialog.
Inductive DialogMode : Type := add | edit | delete.
Definition initial : state DialogMode := St None None [].
Definition open (m : DialogMode) (p : option payload) (s : state DialogMode) : state DialogMode := two_fields m (p ≫= p_target) s.
Definition close (s : state DialogMode) : state DialogMode := write (Partial (Some None) (Some None) None) s.
Definition shown (s : state DialogMode) : list string :=
  (if match mode s with Some add | Some edit => true | _ => false end then ["AdminUserMutateDialog"] else []) ++
  (match mode s with Some delete => ["AdminUserDeleteDialog"] | _ => [] end).
End AdminUsersDialog.

Module RoutersDialog.
Inductive Mode : Type := closed | create | edit | delete.
Record RoutersDialogState : Type := RSt { r_mode : Mode; selectedRouter : option jval }.
Definition initial : RoutersDialogState := RSt closed None.
Definition write_router (w_mode : option Mode) (w_selected : option (option jval)) (s : RoutersDialogState) : RoutersDialogState :=
  RSt (w_mode ?? r_mode s) (w_selected ?? selectedRouter s).
Definition open (m : Mode) (router : option jval) (s : RoutersDialogState) : RoutersDialogState :=
  write_router (Some m) (Some router) s.
Definition close (s : RoutersDialogState) : RoutersDialogState := write_router (Some closed) (Some None) s.
Definition shown (s : RoutersDialogState) : list string :=
  (if match r_mode s with create | edit => true | _ => false end then ["RoutersMutateDialog"] else []) ++
  (match r_mode s with delete => ["RoutersDeleteDialog"] | _ => [] end).
(** The modes the pages open. *)
Inductive opened : Type := o_create | o_edit | o_delete.
Definition to_Mode (o : opened) : Mode :=
  match o with o_create => create | o_edit => edit | o_delete => delete end.
Definition holds_router (d : dialog opened (option jval)) : RoutersDialogState :=
  match d with Closed => RSt closed None | Open o r => RSt (to_Mode o) r end.
End RoutersDialog.

Module RegistrationsDialog.
Inductive DialogMode : Type := approve | reject | assign | complete.
Definition initial : state DialogMode := St None None [].
Definition open (m : DialogMode) (t : jval) (s : state DialogMode) : state DialogMode := two_fields m (Some t) s.
Definition close (s : state DialogMode) : state DialogMode := write (Partial (Some None) (Some None) None) s.
Definition shown (s : state DialogMode) : list string :=
  (match mode s with Some approve => ["ApproveDialog"] | _ => [] end) ++
  (match mode s with Some reject => ["RejectDialog"] | _ => [] end) ++
  (match mode s with Some assign => ["AssignDialog"] | _ => [] end) ++
  (match mode s with Some complete => ["CompleteInstallDrawer"] | _ => [] end).
End RegistrationsDialog.

Module MessageTemplatesDialog.
Inductive DialogMode : Type := edit.
Definition initial : state DialogMode := St None None [].
Definition open (m : DialogMode) (t : jval) (s : state DialogMode) : state DialogMode := two_fields m (Some t) s.
Definition close (s : state DialogMode) : state DialogMode := write (Partial (Some None) (Some None) None) s.
Definition shown (s : state DialogMode) : list string :=
  match mode s with Some edit => ["TemplateEditDrawer"] | _ => [] end.
End MessageTemplatesDialog.

(** The two stores of a record alone, and the store of a kind alone. *)
Definition write_one {A} (w : option A) (s : A) : A := w ?? s.

Module AuditLogDialog.
Definition initial : option jval := None.
Definition open (t : jval) (s : option jval) : option jval := write_one (Some (Some t)) s.
Definition close (s : option jval) : option jval := write_one (Some None) s.
End AuditLogDialog.

Module NotificationDialog.
Definition initial : option jval := None.
Definition open (t : jval) (s : option jval) : option jval := write_one (Some (Some t)) s.
Definition close (s : option jval) : option jval := write_one (Some None) s.
End NotificationDialog.

Module SalesDialog.
Inductive SalesDialogKind : Type := record | import.
Definition initial : option SalesDialogKind := None.
Definition open (k : SalesDialogKind) (s : option SalesDialogKind) : option SalesDialogKind := write_one (Some (Some k)) s.
Definition close (s : option SalesDialogKind) : option SalesDialogKind := write_one (Some None) s.
Definition shown (s : option SalesDialogKind) : list string :=
  (match s with Some record => ["RecordSaleDialog"] | _ => [] end) ++
  (match s with Some import => ["ImportSalesDialog"] | _ => [] end).
End SalesDialog.

(** [usePrintStore]: the print job. *)
Module PrintStore.
Definition initial : option jval := None.
Definition open (job : jval) (s : option jval) : option jval := write_one (Some (Some job)) s.
Definition close (s : option jval) : option jval := write_one (Some None) s.
End PrintStore.

(** [useActiveRouterStore], without the [persist] middleware. *)
Module ActiveRouter.
Definition initial : option Z := None.
Definition setRouterId (id : option Z) : option Z := id.
Definition clear : option Z := None.
(** [useActiveRouterId() ?? 0], as the pages pass it to the hooks. *)
Definition useActiveRouterId (s : option Z) : option Z := s.
Definition router_or_0 (s : option Z) : Z := useActiveRouterId s ?? 0.
End ActiveRouter.

(** ** The instances *)

Definition with_ids {M} (d : dialog M (option jval * list string)) : state M :=
  match d with Closed => St None None [] | Open m q => St (Some m) q.1 q.2 end.
Definition without_ids {M} (d : dialog M (option jval)) : state M :=
  match d with Closed => St None None [] | Open m t => St (Some m) t [] end.
Definition record_only (d : dialog unit jval) : option jval :=
  match d with Closed => None | Open _ t => Some t end.

(** What is kept of a payload that may be absent, or lack a part. *)
Definition of_payload (p : option payload) : option jval * list string := (p ≫= p_target, (p ≫= p_ids) ?? []).

Ltac store_laws := split; [done|intros [] ? ?; reflexivity|intros []; reflexivity].

#[export] Instance users_store : DialogStore (state UsersDialog.DialogMode) UsersDialog.DialogMode (option payload) (option jval * list string) :=
  {| s_init := UsersDialog.initial; s_open m p s := UsersDialog.open m p s;
     s_close := UsersDialog.close; keeps := of_payload; holds := with_ids |}.
#[export] Instance users_laws : DialogStoreLaws (state UsersDialog.DialogMode) UsersDialog.DialogMode (option payload) (option jval * list string).
Proof. store_laws. Qed.

#[export] Instance profiles_store : DialogStore (state ProfilesDialog.DialogMode) ProfilesDialog.DialogMode (option payload) (option jval * list string) :=
  {| s_init := ProfilesDialog.initial; s_open m p s := ProfilesDialog.open m p s;
     s_close := ProfilesDialog.close; keeps := of_payload; holds := with_ids |}.
#[export] Instance profiles_laws : DialogStoreLaws (state ProfilesDialog.DialogMode) ProfilesDialog.DialogMode (option payload) (option jval * list string).
Proof. store_laws. Qed.

#[export] Instance active_store : DialogStore (state ActiveDialog.DialogMode) ActiveDialog.DialogMode (option payload) (option jval * list string) :=
  {| s_init := ActiveDialog.initial; s_open m p s := ActiveDialog.open m p s;
     s_close := ActiveDialog.close; keeps := of_payload; holds := with_ids |}.
#[export] Instance active_laws : DialogStoreLaws (state ActiveDialog.DialogMode) ActiveDialog.DialogMode (option payload) (option jval * list string).
Proof. store_laws. Qed.

#[export] Instance secrets_store : DialogStore (state SecretsDialog.DialogMode) SecretsDialog.DialogMode (option jval * option (list string)) (option jval * list string) :=
  {| s_init := SecretsDialog.initial; s_open m p s := SecretsDialog.open m p.1 p.2 s;
     s_close := SecretsDialog.close; keeps := (fun p => (p.1, p.2 ?? [])); holds := with_ids |}.
#[export] Instance secrets_laws : DialogStoreLaws (state SecretsDialog.DialogMode) SecretsDialog.DialogMode (option jval * option (list string)) (option jval * list string).
Proof. store_laws. Qed.

(** The hosts' store keeps the selected hosts by their ids. *)
#[export] Instance hosts_store : DialogStore (HostsDialog.HostsDialogState) HostsDialog.DialogMode (option payload * option (list jval)) (option jval * list string * gmap string jval) :=
  {| s_init := HostsDialog.initial; s_open m p s := HostsDialog.open m p.1 p.2 s;
     s_close := HostsDialog.close; keeps := (fun p => (of_payload p.1, HostsDialog.fromEntries (p.2 ?? []))); holds := (fun d =>
       match d with Closed => HostsDialog.HSt (St None None []) ∅ | Open m q => HostsDialog.HSt (St (Some m) q.1.1 q.1.2) q.2 end) |}.
#[export] Instance hosts_laws : DialogStoreLaws (HostsDialog.HostsDialogState) HostsDialog.DialogMode (option payload * option (list jval)) (option jval * list string * gmap string jval).
Proof. store_laws. Qed.

#[export] Instance hotspot_billing_store : DialogStore (state HotspotBillingDialog.DialogMode) HotspotBillingDialog.DialogMode (option jval) (option jval) :=
  {| s_init := HotspotBillingDialog.initial; s_open m p s := HotspotBillingDialog.open m p s;
     s_close := HotspotBillingDialog.close; keeps := id; holds := without_ids |}.
#[export] Instance hotspot_billing_laws : DialogStoreLaws (state HotspotBillingDialog.DialogMode) HotspotBillingDialog.DialogMode (option jval) (option jval).
Proof. store_laws. Qed.

#[export] Instance db_profiles_store : DialogStore (state DbProfilesDialog.DialogMode) DbProfilesDialog.DialogMode (option jval) (option jval) :=
  {| s_init := DbProfilesDialog.initial; s_open m p s := DbProfilesDialog.open m p s;
     s_close := DbProfilesDialog.close; keeps := id; holds := without_ids |}.
#[export] Instance db_profiles_laws : DialogStoreLaws (state DbProfilesDialog.DialogMode) DbProfilesDialog.DialogMode (option jval) (option jval).
Proof. store_laws. Qed.

#[export] Instance ppp_profiles_store : DialogStore (state PPPProfilesDialog.DialogMode) PPPProfilesDialog.DialogMode (option jval) (option jval) :=
  {| s_init := PPPProfilesDialog.initial; s_open m p s := PPPProfilesDialog.open m p s;
     s_close := PPPProfilesDialog.close; keeps := id; holds := without_ids |}.
#[export] Instance ppp_profiles_laws : DialogStoreLaws (state PPPProfilesDialog.DialogMode) PPPProfilesDialog.DialogMode (option jval) (option jval).
Proof. store_laws. Qed.

#[export] Instance presets_store : DialogStore (state PresetsDialog.DialogMode) PresetsDialog.DialogMode (option payload) (option jval) :=
  {| s_init := PresetsDialog.initial; s_open m p s := PresetsDialog.open m p s;
     s_close := PresetsDialog.close; keeps := (fun p => p ≫= p_target); holds := without_ids |}.
#[export] Instance presets_laws : DialogStoreLaws (state PresetsDialog.DialogMode) PresetsDialog.DialogMode (option payload) (option jval).
Proof. store_laws. Qed.

#[export] Instance admin_users_store : DialogStore (state AdminUsersDialog.DialogMode) AdminUsersDialog.DialogMode (option payload) (option jval) :=
  {| s_init := AdminUsersDialog.initial; s_open m p s := AdminUsersDialog.open m p s;
     s_close := AdminUsersDialog.close; keeps := (fun p => p ≫= p_target); holds := without_ids |}.
#[export] Instance admin_users_laws : DialogStoreLaws (state AdminUsersDialog.DialogMode) AdminUsersDialog.DialogMode (option payload) (option jval).
Proof. store_laws. Qed.

#[export] Instance registrations_store : DialogStore (state RegistrationsDialog.DialogMode) RegistrationsDialog.DialogMode (jval) (option jval) :=
  {| s_init := RegistrationsDialog.initial; s_open m p s := RegistrationsDialog.open m p s;
     s_close := RegistrationsDialog.close; keeps := Some; holds := without_ids |}.
#[export] Instance registrations_laws : DialogStoreLaws (state RegistrationsDialog.DialogMode) RegistrationsDialog.DialogMode (jval) (option jval).
Proof. store_laws. Qed.

#[export] Instance templates_store : DialogStore (state MessageTemplatesDialog.DialogMode) MessageTemplatesDialog.DialogMode (jval) (option jval) :=
  {| s_init := MessageTemplatesDialog.initial; s_open m p s := MessageTemplatesDialog.open m p s;
     s_close := MessageTemplatesDialog.close; keeps := Some; holds := without_ids |}.
#[export] Instance templates_laws : DialogStoreLaws (state MessageTemplatesDialog.DialogMode) MessageTemplatesDialog.DialogMode (jval) (option jval).
Proof. store_laws. Qed.

#[export] Instance routers_store : DialogStore (RoutersDialog.RoutersDialogState) RoutersDialog.opened (option jval) (option jval) :=
  {| s_init := RoutersDialog.initial; s_open m p s := RoutersDialog.open (RoutersDialog.to_Mode m) p s;
     s_close := RoutersDialog.close; keeps := id; holds := RoutersDialog.holds_router |}.
#[export] Instance routers_laws : DialogStoreLaws (RoutersDialog.RoutersDialogState) RoutersDialog.opened (option jval) (option jval).
Proof. store_laws. Qed.

#[export] Instance audit_log_store : DialogStore (option jval) unit (jval) (jval) :=
  {| s_init := AuditLogDialog.initial; s_open m p s := AuditLogDialog.open p s;
     s_close := AuditLogDialog.close; keeps := id; holds := record_only |}.
#[export] Instance audit_log_laws : DialogStoreLaws (option jval) unit (jval) (jval).
Proof. store_laws. Qed.

#[export] Instance notification_store : DialogStore (option jval) unit (jval) (jval) :=
  {| s_init := NotificationDialog.initial; s_open m p s := NotificationDialog.open p s;
     s_close := NotificationDialog.close; keeps := id; holds := record_only |}.
#[export] Instance notification_laws : DialogStoreLaws (option jval) unit (jval) (jval).
Proof. store_laws. Qed.

#[export] Instance print_store : DialogStore (option jval) unit (jval) (jval) :=
  {| s_init := PrintStore.initial; s_open m p s := PrintStore.open p s;
     s_close := PrintStore.close; keeps := id; holds := record_only |}.
#[export] Instance print_laws : DialogStoreLaws (option jval) unit (jval) (jval).
Proof. store_laws. Qed.

#[export] Instance sales_store : DialogStore (option SalesDialog.SalesDialogKind) SalesDialog.SalesDialogKind (unit) (unit) :=
  {| s_init := SalesDialog.initial; s_open m p s := SalesDialog.open m s;
     s_close := SalesDialog.close; keeps := id; holds := (fun d => match d with Closed => None | Open k _ => Some k end) |}.
#[export] Instance sales_laws : DialogStoreLaws (option SalesDialog.SalesDialogKind) SalesDialog.SalesDialogKind (unit) (unit).
Proof. store_laws. Qed.

(** Every dialog store implements the specification: after any sequence of [open] and
    [close] calls its whole state is the mode and the payload of the last [open], or empty
    after a [close]; no field of an earlier dialog stays behind. *)
Theorem stores_refine :
  @refines _ _ _ _ users_store /\ @refines _ _ _ _ profiles_store /\ @refines _ _ _ _ active_store /\
  @refines _ _ _ _ secrets_store /\ @refines _ _ _ _ hosts_store /\ @refines _ _ _ _ hotspot_billing_store /\
  @refines _ _ _ _ db_profiles_store /\ @refines _ _ _ _ ppp_profiles_store /\
  @refines _ _ _ _ presets_store /\ @refines _ _ _ _ admin_users_store /\
  @refines _ _ _ _ registrations_store /\ @refines _ _ _ _ templates_store /\
  @refines _ _ _ _ routers_store /\ @refines _ _ _ _ audit_log_store /\
  @refines _ _ _ _ notification_store /\ @refines _ _ _ _ print_store /\ @refines _ _ _ _ sales_store.
Proof.
  split_and!; [apply (laws_refine (H0:=users_laws))|apply (laws_refine (H0:=profiles_laws))|
    apply (laws_refine (H0:=active_laws))|apply (laws_refine (H0:=secrets_laws))|
    apply (laws_refine (H0:=hosts_laws))|apply (laws_refine (H0:=hotspot_billing_laws))|
    apply (laws_refine (H0:=db_profiles_laws))|apply (laws_refine (H0:=ppp_profiles_laws))|
    apply (laws_refine (H0:=presets_laws))|apply (laws_refine (H0:=admin_users_laws))|
    apply (laws_refine (H0:=registrations_laws))|apply (laws_refine (H0:=templates_laws))|
    apply (laws_refine (H0:=routers_laws))|apply (laws_refine (H0:=audit_log_laws))|
    apply (laws_refine (H0:=notification_laws))|apply (laws_refine (H0:=print_laws))|
    apply (laws_refine (H0:=sales_laws))].
Qed.

(** [bulk[id]] of the hosts' store is the selected host with that id. *)
Lemma fromEntries_lookup l h : NoDup (map (fun x => js_String (get "id" x)) l) -> h ∈ l ->
  HostsDialog.fromEntries l !! js_String (get "id" h) = Some h.
Proof.
  unfold HostsDialog.fromEntries. induction l as [|x l IH] using rev_ind; intros Hn Hh.
  - by apply not_elem_of_nil in Hh.
  - rewrite map_app in Hn. apply NoDup_app in Hn as (Hn & Hd & _). rewrite foldl_app. cbn [foldl].
    apply elem_of_app in Hh as [Hh| ->%list_elem_of_singleton].
    + rewrite lookup_insert_ne; [by apply IH|]. intros E. apply (Hd (js_String (get "id" h))).
      * rewrite list_elem_of_In. apply in_map_iff. exists h. by rewrite <- list_elem_of_In.
      * cbn. rewrite E. by apply list_elem_of_here.
    + apply lookup_insert_eq.
Qed.

Ltac state_cases s :=
  let m := fresh in let r := fresh in let i := fresh in
  destruct s as [m r i]; destruct m as [m|]; [destruct m|]; destruct r; vm_compute; lia.

(** What the pages open: the mode and whether a record goes with it. *)
Definition one_dialog (l : list string) : bool := match l with [_] => true | _ => false end.

(** Each call by which a page opens a dialog shows exactly one dialog, whatever was
    open before, a call of [close] leaves none, and no state at all shows two. *)
Theorem one_dialog_at_a_time t i su sp sa ss sh sr sg spr sad :
  forallb (fun m => one_dialog (UsersDialog.shown (UsersDialog.open m (Some (Payload (Some t) (Some i))) su)))
    [UsersDialog.edit; UsersDialog.delete; UsersDialog.password] &&
  forallb (fun s => one_dialog (UsersDialog.shown s))
    [UsersDialog.open UsersDialog.add None su; UsersDialog.open UsersDialog.multi_delete (Some (Payload None (Some i))) su] &&
  forallb (fun s => one_dialog (ProfilesDialog.shown s))
    [ProfilesDialog.open ProfilesDialog.add None sp;
     ProfilesDialog.open ProfilesDialog.edit (Some (Payload (Some t) None)) sp;
     ProfilesDialog.open ProfilesDialog.delete (Some (Payload (Some t) None)) sp;
     ProfilesDialog.open ProfilesDialog.multi_delete (Some (Payload None (Some i))) sp] &&
  forallb (fun s => one_dialog (ActiveDialog.shown s))
    [ActiveDialog.open ActiveDialog.disconnect (Some (Payload (Some t) None)) sa;
     ActiveDialog.open ActiveDialog.disconnect_many (Some (Payload None (Some i))) sa;
     ActiveDialog.open ActiveDialog.disconnect_all None sa] &&
  forallb (fun s => one_dialog (SecretsDialog.shown s))
    [SecretsDialog.open SecretsDialog.add None None ss; SecretsDialog.open SecretsDialog.edit (Some t) None ss;
     SecretsDialog.open SecretsDialog.password (Some t) None ss; SecretsDialog.open SecretsDialog.delete (Some t) None ss;
     SecretsDialog.open SecretsDialog.multi_delete None (Some i) ss] &&
  forallb (fun s => one_dialog (HostsDialog.shown s))
    [HostsDialog.open HostsDialog.bind None None sh;
     HostsDialog.open HostsDialog.bind (Some (Payload (Some t) None)) None sh;
     HostsDialog.open HostsDialog.bind_many (Some (Payload None (Some i))) (Some [t]) sh;
     HostsDialog.open HostsDialog.delete (Some (Payload (Some t) None)) None sh;
     HostsDialog.open HostsDialog.multi_delete (Some (Payload None (Some i))) None sh] &&
  forallb (fun m => one_dialog (RoutersDialog.shown (RoutersDialog.open m (Some t) sr)))
    [RoutersDialog.create; RoutersDialog.edit; RoutersDialog.delete] &&
  forallb (fun m => one_dialog (RegistrationsDialog.shown (RegistrationsDialog.open m t sg)))
    [RegistrationsDialog.approve; RegistrationsDialog.reject; RegistrationsDialog.assign;
     RegistrationsDialog.complete] &&
  forallb (fun m => one_dialog (PresetsDialog.shown (PresetsDialog.open m (Some (Payload (Some t) None)) spr)))
    [PresetsDialog.add; PresetsDialog.edit; PresetsDialog.delete] &&
  forallb (fun m => one_dialog (AdminUsersDialog.shown (AdminUsersDialog.open m (Some (Payload (Some t) None)) sad)))
    [AdminUsersDialog.add; AdminUsersDialog.edit; AdminUsersDialog.delete] = true /\
  (forall s, (length (UsersDialog.shown s) <= 1)%nat) /\ (forall s, (length (ProfilesDialog.shown s) <= 1)%nat) /\
  (forall s, (length (SecretsDialog.shown s) <= 1)%nat) /\ (forall s, (length (HostsDialog.shown s) <= 1)%nat) /\
  (forall s, (length (RegistrationsDialog.shown s) <= 1)%nat) /\ (forall s, (length (RoutersDialog.shown s) <= 1)%nat) /\
  UsersDialog.shown (UsersDialog.close su) = [] /\ SecretsDialog.shown (SecretsDialog.close ss) = [] /\
  HostsDialog.shown (HostsDialog.close sh) = [] /\ RoutersDialog.shown (RoutersDialog.close sr) = [].
Proof.
  split; [done|]. split_and!; try done; intros s.
  - state_cases s.
  - state_cases s.
  - state_cases s.
  - destruct s as [s b]. state_cases s.
  - state_cases s.
  - destruct s as [[] []]; vm_compute; lia.
Qed.

(** The store of the billing profiles has a mode [delete] for which no dialog exists; no
    page opens it. *)
Lemma hotspot_billing_delete_shows_nothing t s :
  HotspotBillingDialog.shown (HotspotBillingDialog.open HotspotBillingDialog.delete t s) = [].
Proof. done. Qed.

(** ** The customer and subscription pages *)

Module RowDialogs.

(** [CustomersDialogType] and [SubscriptionsDialogType]. *)
Inductive kind : Type := add | edit | status | password | delete.
#[export] Instance kind_eq_dec : EqDecision kind.
Proof. solve_decision. Defined.

(** [timers]: calls of [setTimeout(() => setCurrentRow(null), 500)] that have not fired. *)
Record state : Type := RSt { open : option kind; currentRow : option jval; timers : nat }.
Definition initial : state := RSt None None 0.

(** [useDialogState]: setting what is set already closes. *)
Definition setOpen (str : option kind) (prev : option kind) : option kind :=
  if decide (prev = str) then None else str.

Definition click_add (s : state) : state := RSt (setOpen (Some add) (open s)) (currentRow s) (timers s).
Definition click_row (k : kind) (r : jval) (s : state) : state :=
  RSt (setOpen (Some k) (open s)) (Some r) (timers s).
Definition onClose (s : state) : state := RSt (setOpen None (open s)) (currentRow s) (S (timers s)).
Definition timer_fires (s : state) : state := RSt (open s) None (Nat.pred (timers s)).

(** The drawer and the status dialog follow [open]; the others need the row as well. *)
Definition shown (s : state) : option kind :=
  match open s with
  | Some add => Some add
  | Some edit => Some edit
  | Some status => Some status
  | Some k => match currentRow s with Some _ => Some k | None => None end
  | None => None
  end.

(** The dialog has the record it is about. *)
Definition served (s : state) : Prop :=
  match open s with
  | None | Some add => True
  | Some k => shown s = Some k /\ is_Some (currentRow s)
  end.

(** The page while a user opens dialogs only when none is open and half a second has
    passed since the last one closed; [hasty] drops the second condition. *)
Inductive step (patient : bool) : state -> state -> Prop :=
| Add s : open s = None -> (patient = true -> timers s = O) -> step patient s (click_add s)
| Row k r s : k <> add -> open s = None -> (patient = true -> timers s = O) -> step patient s (click_row k r s)
| CloseIt s : is_Some (shown s) -> step patient s (onClose s)
| Fires s : (0 < timers s)%nat -> step patient s (timer_fires s).

Definition inv (s : state) : Prop := served s /\ (open s <> None -> timers s = O).

Lemma inv_step s s' : inv s -> step true s s' -> inv s'.
Proof.
  intros [Hs Ht] Hst. destruct Hst as [s Ho Hp|k r s Hk Ho Hp|s Hsh|s Hpos].
  - split; [|intros _; by apply Hp]. unfold served, click_add. cbn. by rewrite Ho.
  - split; [|intros _; by apply Hp]. unfold served, click_row, shown. cbn [open currentRow]. rewrite Ho.
    unfold setOpen. rewrite decide_False by done. destruct k; try done; split; by eauto.
  - unfold inv, served, onClose. cbn. unfold setOpen. by destruct (decide _).
  - unfold inv, served, timer_fires. cbn. destruct (open s) as [k|]; [|done].
    specialize (Ht ltac:(done)). lia.
Qed.

(** A user who waits for the row to be cleared before opening the next dialog always
    gets the dialog he asked for, with its row.  Without the wait it fails: the timer of
    the dialog closed before takes the row away, the delete dialog is gone while the page
    still counts it as open, and the next click on Delete only closes it. *)
Theorem row_dialogs_served :
  (forall s, rtc (step true) initial s -> served s) /\
  (forall a b : jval, exists s, rtc (step false) initial s /\
     open s = Some delete /\ shown s = None /\ ~ served s /\ shown (click_row delete b s) = None).
Proof.
  split.
  - intros s Hr. assert (inv initial) as Hi by done. revert Hi.
    induction Hr as [s|s1 s2 s3 H12 _ IH]; intros Hi; [apply Hi|]. apply IH. by eapply inv_step.
  - intros a b. exists (timer_fires (click_row delete b (onClose (click_row edit a initial)))). split.
    + eapply rtc_l; [by apply (Row _ edit a)|]. eapply rtc_l; [apply CloseIt; eexists; reflexivity|].
      eapply rtc_l; [by apply (Row _ delete b)|]. eapply rtc_l; [apply Fires; cbn; lia|]. apply rtc_refl.
    + cbn. split_and!; try done. by intros [? _].
Qed.
End RowDialogs.
