(* ===== verification/Actions.v ===== *)
(** * Confirmation dialogs and row actions

    The handlers behind the pages' delete, disconnect, status, approval and toggle
    controls, one Module per component, as programs of Ui over the stores of DialogStores
    and the mutations of Hooks.  [mutateAsync] in a [try] and [mutate] with its two
    callbacks are the same program; that a callback is skipped when its component is gone
    by then, and the toast of the global [onError] (Nav), are not modelled here. *)
From S2P Require Import Prelude JsString JsValue JsNumber ApiErrors Hooks Ui DialogStores.

Definition toast_error (m : string) (e : jserror) : effect := Toast error m (parseAPIError e).

(** A mutation with what follows its success and its failure. *)
Definition awaits (m : mutation_hook) (ok : jval -> list effect) (err : jserror -> list effect) : prog :=
  Mutate m (fun a => match a with Ok v => emits (ok v) Return | Throw e => emits (err e) Return end).

(** [Promise.allSettled(ids.map(remove))], the toast, and [close()]. *)
Definition fan_out (remove : string -> mutation_hook) (ids : list string) (done failure noun : string) : prog :=
  MutateAll (map remove ids) (fun rs => Emit (settled_toast done failure noun rs) (Emit Close Return)).

Definition quoted (k : string) (v : jval) : string := "'" +:+ text k v +:+ "'".

(** ** Delete and disconnect dialogs over a dialog store *)

Module UserDelete.
Import UsersDialog.
Definition handleConfirm (routerId : Z) (s : state DialogMode) : prog :=
  match mode s, target s with
  | Some delete, Some t =>
      awaits (M_HotspotUsers_RemoveHotspotUser routerId (text "id" t))
        (fun _ => [Toast success ("User " +:+ quoted "name" t +:+ " removed") JUndef; Close])
        (fun e => [Toast error "Failed to remove user" (message_or_String e); Close])
  | Some multi_delete, _ =>
      match ids s with
      | [] => Return
      | _ => fan_out (M_HotspotUsers_RemoveHotspotUser routerId) (ids s) "Removed" "remove" "user"
      end
  | _, _ => Return
  end.
End UserDelete.

Module ProfileDelete.
Import ProfilesDialog.
Definition handleConfirm (routerId : Z) (s : state DialogMode) : prog :=
  match mode s, target s with
  | Some delete, Some t =>
      awaits (M_HotspotProfiles_RemoveHotspotProfile routerId (text "id" t))
        (fun _ => [Toast success ("Profile " +:+ quoted "name" t +:+ " deleted") JUndef; Close])
        (fun e => [Toast error "Failed to delete profile" (message_or_String e); Close])
  | Some multi_delete, _ =>
      match ids s with
      | [] => Return
      | _ => fan_out (M_HotspotProfiles_RemoveHotspotProfile routerId) (ids s) "Deleted" "delete" "profile"
      end
  | _, _ => Return
  end.
End ProfileDelete.

Module HostDelete.
Import HostsDialog.
(** [target.macAddress || target.id]. *)
Definition host_label (t : jval) : string :=
  if truthy (get "macAddress" t) then text "macAddress" t else text "id" t.
Definition handleConfirm (routerId : Z) (s : HostsDialogState) : prog :=
  match mode (base s), target (base s) with
  | Some delete, Some t =>
      awaits (M_HotspotHosts_RemoveHotspotHost routerId (text "id" t))
        (fun _ => [Toast success ("Host " +:+ host_label t +:+ " removed") JUndef; Close])
        (fun e => [Toast error "Failed to remove host" (message_or_String e); Close])
  | Some multi_delete, _ =>
      match ids (base s) with
      | [] => Return
      | _ => fan_out (M_HotspotHosts_RemoveHotspotHost routerId) (ids (base s)) "Removed" "remove" "host"
      end
  | _, _ => Return
  end.
End HostDelete.

Module Disconnect.
Import ActiveDialog.
(** [activeQuery.data]: the cached list of sessions, when there is one. *)
Definition targetIds (s : state DialogMode) (activeQuery_data : option (list jval)) : list string :=
  match mode s with
  | Some disconnect_all => map (text ".id") (activeQuery_data ?? [])
  | _ => ids s
  end.
Definition handleConfirm (routerId : Z) (s : state DialogMode) (activeQuery_data : option (list jval)) : prog :=
  match mode s, target s with
  | Some disconnect, Some t =>
      awaits (M_HotspotActive_DisconnectHotspotUser routerId (text "id" t))
        (fun _ => [Toast success ((if truthy (get "user" t) then text "user" t else "session") +:+ " disconnected") JUndef;
                   Close])
        (fun e => [Toast error "Failed to disconnect" (message_or_String e); Close])
  | _, _ =>
      match targetIds s activeQuery_data with
      | [] => Emit Close Return
      | l => fan_out (M_HotspotActive_DisconnectHotspotUser routerId) l "Disconnected" "disconnect" "session"
      end
  end.
End Disconnect.

Module SecretDelete.
Import SecretsDialog.
Definition handleConfirm (routerId : Z) (s : state DialogMode) : prog :=
  match mode s, target s with
  | Some delete, Some t =>
      awaits (M_PPPSecrets_RemovePPPSecret routerId (text "id" t))
        (fun _ => [Toast success ("Secret " +:+ quoted "name" t +:+ " removed") JUndef; Close])
        (fun e => [toast_error "Failed to remove secret" e; Close])
  | Some multi_delete, _ =>
      match ids s with
      | [] => Return
      | l => awaits (M_PPPSecrets_BatchRemovePPPSecrets routerId l)
               (fun n => [Toast success ("Removed " +:+ js_String n +:+ " secret" +:+
                            match n with JNum k => plural k | _ => "" end) JUndef; Close])
               (fun e => [toast_error "Failed to remove secrets" e; Close])
      end
  | _, _ => Return
  end.
End SecretDelete.

Module DbProfileDelete.
Definition handleConfirm (routerId : Z) (target : option jval) : prog :=
  match target with
  | None => Return
  | Some t =>
      awaits (M_PPPBilling_RemovePPPDbProfile routerId (number "id" t))
        (fun _ => [Toast success ("Profile " +:+ quoted "name" t +:+ " removed") JUndef; Close])
        (fun e => [toast_error "Failed to remove profile" e; Close])
  end.
End DbProfileDelete.

Module PPPProfileDelete.
Definition handleConfirm (routerId : Z) (target : option jval) : prog :=
  match target with
  | None => Return
  | Some t =>
      awaits (M_PPPProfiles_RemovePPPProfile routerId (text "id" t))
        (fun _ => [Toast success ("Profile " +:+ quoted "name" t +:+ " removed") JUndef; Close])
        (fun e => [toast_error "Failed to remove profile" e; Close])
  end.
End PPPProfileDelete.

Module PresetDelete.
Definition handleConfirm (routerId : option Z) (target : option jval) : prog :=
  match target with
  | None => Emit Close Return
  | Some t =>
      match routerId with
      | None => Emit (Toast error "Select a router first" JUndef) Return
      | Some rid =>
          awaits (M_QuickPrint_RemoveQuickPrintPackage rid (text "name" t))
            (fun _ => [Callback "removeMeta" (get "name" t);
                       Toast success ("Preset " +:+ quoted "name" t +:+ " deleted") JUndef; Close])
            (fun e => [Toast error "Failed to delete preset" (message e)])
      end
  end.
End PresetDelete.

Module RoutersDelete.
Definition handleConfirm (selectedRouter : option jval) : prog :=
  match selectedRouter with
  | None => Return
  | Some r =>
      awaits (M_Routers_DeleteRouter (number "id" r))
        (fun _ => [Toast success ("Router " +:+ quoted "display_name" r +:+ " deleted") JUndef; Close])
        (fun e => [Toast error "Failed to delete router" (message e)])
  end.
End RoutersDelete.

Module AdminUserDelete.
(** The delete button is there unless the record is the signed-in account. *)
Definition isSelf (isOpen : bool) (target : option jval) (currentUserId : jval) : bool :=
  isOpen && match target with Some t => jval_eqb (get "id" t) currentUserId | None => false end.
Definition handleConfirm (target : option jval) : prog :=
  match target with
  | None => Return
  | Some t =>
      awaits (M_AdminUsers_DeleteAdminUser (number "id" t))
        (fun _ => [Toast success ("User " +:+ quoted "username" t +:+ " deleted") JUndef; Close])
        (fun e => [toast_error "Failed to delete user" e])
  end.
(** A click on the button, when it is rendered. *)
Definition click (isOpen : bool) (target : option jval) (currentUserId : jval) : prog :=
  if isSelf isOpen target currentUserId then Return else handleConfirm target.
End AdminUserDelete.

(** ** Deletions that ask for a typed text *)

Module CustomersDelete.
Definition handleDelete (value : string) (currentRow : jval) : prog :=
  if negb (jval_eqb (JStr (trim value)) (get "full_name" currentRow)) then Return
  else awaits (M_Customers_RemoveCustomer (number "id" currentRow))
         (fun _ => [Toast success ("Customer " +:+ quoted "full_name" currentRow +:+ " removed") JUndef;
                    Close; SetState "value" (JStr "")])
         (fun e => [toast_error "Failed to remove customer" e]).
End CustomersDelete.

Module SubscriptionsDelete.
Definition handleDelete (value : string) (currentRow : jval) : prog :=
  if negb (jval_eqb (JStr (trim value)) (get "mikrotik_username" currentRow)) then Return
  else awaits (M_Subscriptions_RemoveSubscription (number "id" currentRow))
         (fun _ => [Toast success "Subscription removed" JUndef; Close; SetState "value" (JStr "")])
         (fun e => [toast_error "Failed to remove" e]).
End SubscriptionsDelete.

Definition CONFIRM_WORD : string := "DELETE".

(** [rows.map((row) => Number(row.original.id)).filter(Boolean)], of numeric ids. *)
Definition selected_ids (rows : list jval) : list Z :=
  List.filter (fun n => negb (n =? 0)) (map (number "id") rows).

(** [deleted] is the count the server answered. *)
Definition counted (noun : string) (deleted : jval) : string :=
  "Deleted " +:+ js_String deleted +:+ " " +:+ noun +:+ match deleted with JNum k => plural k | _ => "" end.

Definition type_to_confirm : effect :=
  Toast error ("Please type " +:+ String dquote (CONFIRM_WORD +:+ String dquote " to confirm.")) JUndef.

Module CustomersMultiDelete.
Definition handleDelete (value : string) (selectedRows : list jval) : prog :=
  if negb (String.eqb (trim value) CONFIRM_WORD) then Emit type_to_confirm Return
  else match selected_ids selectedRows with
       | [] => Return
       | ids => Emit Close
           (awaits (M_Customers_BatchRemoveCustomers ids)
              (fun n => [SetState "value" (JStr ""); Callback "resetRowSelection" JUndef;
                         Toast success (counted "customer" n) JUndef])
              (fun e => [Toast error "Failed to delete customers" (message_or_String e)]))
       end.
End CustomersMultiDelete.

Module SubscriptionsMultiDelete.
Definition handleDelete (value : string) (selectedRows : list jval) : prog :=
  if negb (String.eqb (trim value) CONFIRM_WORD) then Emit type_to_confirm Return
  else match selected_ids selectedRows with
       | [] => Return
       | ids => Emit Close
           (awaits (M_Subscriptions_BatchRemoveSubscriptions ids)
              (fun n => [SetState "value" (JStr ""); Callback "resetRowSelection" JUndef;
                         Toast success (counted "subscription" n) JUndef])
              (fun e => [Toast error "Failed to delete subscriptions" (message_or_String e)]))
       end.
End SubscriptionsMultiDelete.

(** ** Subscriptions: status and reconciliation *)

Module Status.
Definition SUBSCRIPTION_STATUSES : list string :=
  ["pending_install"; "active"; "isolir"; "suspended"; "terminated"].

(** The label of each target status. *)
Definition STATUS_IMPACT : list (string * string) :=
  [("isolir", "Isolir"); ("suspended", "Suspend Keras"); ("active", "Aktifkan")].

Definition QUICK_ACTIONS : list (string * list string) :=
  [("active", ["isolir"; "suspended"]); ("isolir", ["active"; "suspended"]); ("suspended", ["active"]);
   ("pending_install", []); ("terminated", [])].

Fixpoint lookup {A} (k : string) (l : list (string * A)) : option A :=
  match l with
  | [] => None
  | (k', v) :: l' => if String.eqb k k' then Some v else lookup k l'
  end.

Definition currentStatus (currentRow : option jval) : string :=
  match currentRow with Some r => text "status" r | None => "" end.
Definition quickActions (currentRow : option jval) : list string :=
  lookup (currentStatus currentRow) QUICK_ACTIONS ?? [].

(** The buttons that are rendered: those with an entry in [STATUS_IMPACT]. *)
Definition quick_buttons (currentRow : option jval) : list string :=
  List.filter (fun t => match lookup t STATUS_IMPACT with Some _ => true | None => false end)
    (quickActions currentRow).

Definition handleQuickAction (currentRow : option jval) (targetStatus : string) : prog :=
  match currentRow with
  | None => Return
  | Some r =>
      awaits (M_Subscriptions_PatchSubscriptionStatus (number "id" r, targetStatus))
        (fun res => [Toast success ("Status diubah ke " +:+ targetStatus) (get "warning" res); Close])
        (fun e => [toast_error "Gagal mengubah status" e])
  end.

(** The select starts at the current status. *)
Definition initial_status (currentRow : option jval) : string :=
  match currentRow with Some r => text "status" r | None => "active" end.
Definition override_disabled (currentRow : option jval) (status : string) (isPending : bool) : bool :=
  isPending || String.eqb status (currentStatus currentRow).
Definition handleConfirm (currentRow : option jval) (status : string) : prog :=
  match currentRow with
  | None => Return
  | Some r =>
      awaits (M_Subscriptions_PatchSubscriptionStatus (number "id" r, status))
        (fun res => [Toast success "Status updated" (get "warning" res); Close])
        (fun e => [toast_error "Failed to update status" e])
  end.

Definition handleReconcile (sub : jval) : prog :=
  awaits (M_Subscriptions_ReconcileSubscription (number "id" sub))
    (fun res => [Toast success ("Reconciled " +:+ quoted "mikrotik_username" sub) (get "warning" res)])
    (fun e => [toast_error "Reconcile failed" e]).
End Status.

(** ** Registrations *)

Module RegistrationActions.
Section Registration.
(** [new Date(local).toISOString()], [None] for an invalid date: it depends on the time
    zone of the browser. *)
Context (parse_local : string -> option string).

Definition toISO (local : string) : jval :=
  if String.eqb local "" then JNull
  else match parse_local local with Some s => JStr s | None => JNull end.

Definition approve (target : option jval) (schedule : string) : prog :=
  match target with
  | None => Return
  | Some t =>
      awaits (M_Registrations_ApproveRegistration (number "id" t, JObj [("scheduled_at", toISO schedule)]))
        (fun _ => [Toast success ("Approved " +:+ quoted "full_name" t +:+ " — customer created") JUndef; Close])
        (fun e => [toast_error "Approve failed" e])
  end.

Definition reject (target : option jval) (reason : string) : prog :=
  match target with
  | None => Return
  | Some t =>
      if String.eqb (trim reason) "" then Emit (Toast error "A reason is required" JUndef) Return
      else awaits (M_Registrations_RejectRegistration (number "id" t, JObj [("reason", JStr (trim reason))]))
             (fun _ => [Toast success ("Rejected " +:+ quoted "full_name" t) JUndef; Close])
             (fun e => [toast_error "Reject failed" e])
  end.

Definition candidates (users : list jval) : list jval :=
  List.filter (fun u => jval_eqb (get "role" u) (JStr "operator") || jval_eqb (get "role" u) (JStr "admin")) users.

(** [Number(assignedTo)], the id as the select holds it. *)
Definition assign (target : option jval) (assignedTo schedule : string) : prog :=
  match target with
  | None => Return
  | Some t =>
      let id := Number_val assignedTo in
      if negb (truthy id) then Emit (Toast error "Pick a technician" JUndef) Return
      else awaits (M_Registrations_AssignRegistration
                     (number "id" t, JObj [("assigned_to", id); ("scheduled_at", toISO schedule)]))
             (fun _ => [Toast success "Technician assigned" JUndef; Close])
             (fun e => [toast_error "Assign failed" e])
  end.
End Registration.
End RegistrationActions.

(** ** Payments and invoices *)

Module PaymentActions.
Inductive mode : Type := confirm | reject.
Definition handleAction (m : mode) (payment : option jval) (reason : string) : prog :=
  match payment with
  | None => Return
  | Some p =>
      match m with
      | confirm =>
          awaits (M_Payments_ConfirmPayment (number "id" p))
            (fun _ => [Toast success ("Pembayaran #" +:+ text "id" p +:+ " dikonfirmasi") JUndef; Close])
            (fun e => [Toast error "Gagal konfirmasi" (message e)])
      | reject =>
          awaits (M_Payments_RejectPayment (number "id" p, if String.eqb reason "" then None else Some reason))
            (fun _ => [Toast success ("Pembayaran #" +:+ text "id" p +:+ " ditolak") JUndef; Close])
            (fun e => [Toast error "Gagal menolak" (message e)])
      end
  end.

Definition methodLabel (payment : option jval) : string :=
  match payment with
  | Some p => if jval_eqb (get "method" p) (JStr "cash") then "Tunai"
              else if jval_eqb (get "method" p) (JStr "transfer") then "Transfer"
              else if jval_eqb (get "method" p) (JStr "portal") then "Portal" else "Online"
  | None => "Online"
  end.
End PaymentActions.

Module InvoiceActions.
Definition status_is (inv : jval) (s : string) : bool := jval_eqb (get "status" inv) (JStr s).
Definition canCancel (inv : option jval) : bool :=
  match inv with Some i => status_is i "issued" || status_is i "draft" | None => false end.
Definition canPay (inv : option jval) : bool :=
  match inv with Some i => status_is i "issued" || status_is i "overdue" | None => false end.
Definition handleCancel (inv : option jval) : prog :=
  match inv with
  | None => Return
  | Some i =>
      awaits (M_Invoices_CancelInvoice (number "id" i))
        (fun _ => [Toast success ("Invoice " +:+ text "invoice_number" i +:+ " dibatalkan") JUndef; Close])
        (fun e => [Toast error "Gagal membatalkan invoice" (message e)])
  end.
End InvoiceActions.

(** ** Row actions of the hotspot and PPP tables *)

Module RowActions.
(** [features/hotspot/users]: the row is the view model, [enabledStatus] is derived from
    the router's [disabled]. *)
Definition user_toggle (routerId : Z) (user : jval) : prog :=
  let enabled := jval_eqb (get "enabledStatus" user) (JStr "enabled") in
  let next := if enabled then "true" else "false" in
  awaits (M_HotspotUsers_UpdateHotspotUser routerId (text "id" user, JObj [("disabled", JStr next)]))
    (fun _ => [Toast success (text "name" user +:+ if enabled then " disabled" else " enabled") JUndef])
    (fun e => [Toast error "Failed to update user" (message_or_String e)]).

Definition user_reset (routerId : Z) (user : jval) : prog :=
  awaits (M_HotspotUsers_ResetHotspotUserCounters routerId (text "id" user))
    (fun _ => [Toast success ("Counters reset for " +:+ text "name" user) JUndef])
    (fun e => [Toast error "Failed to reset counters" (message_or_String e)]).

Definition remove_session (routerId : Z) (session : jval) : prog :=
  awaits (M_HotspotActive_RemoveHotspotActive routerId (text "id" session))
    (fun _ => [Toast success ("Session for " +:+ text "user" session +:+ " removed")
                 (JStr "Cookie preserved — user can re-auth silently.")])
    (fun e => [Toast error "Failed to remove session" (message_or_String e)]).

Definition secret_toggle (routerId : Z) (secret : jval) : prog :=
  let nextDisabled := negb (truthy (get "disabled" secret)) in
  awaits (M_PPPSecrets_SetPPPSecretDisabled routerId (text "id" secret, nextDisabled))
    (fun _ => [Toast success (text "name" secret +:+ if nextDisabled then " disabled" else " enabled") JUndef])
    (fun e => [toast_error "Failed to update secret" e]).

Definition ppp_profile_toggle (routerId : Z) (profile : jval) : prog :=
  let nextDisabled := negb (truthy (get "disabled" profile)) in
  awaits (M_PPPProfiles_UpdatePPPProfile routerId (text "id" profile, JObj [("disabled", JBool nextDisabled)]))
    (fun _ => [Toast success (text "name" profile +:+ if nextDisabled then " disabled" else " enabled") JUndef])
    (fun e => [toast_error "Failed to update profile" e]).

Definition billing_toggle (routerId : Z) (profile : jval) : prog :=
  let nextActive := negb (truthy (get "active" profile)) in
  awaits (M_PPPBilling_UpdatePPPDbProfile routerId (number "id" profile, JObj [("active", JBool nextActive)]))
    (fun _ => [Toast success (text "name" profile +:+ if nextActive then " activated" else " deactivated") JUndef])
    (fun e => [toast_error "Failed to update profile" e]).

Definition ppp_disconnect (routerId : Z) (session : jval) : prog :=
  awaits (M_PPPActive_DisconnectPPPActive routerId (text "id" session))
    (fun _ => [Toast success ("Disconnected " +:+ quoted "name" session) JUndef; Close])
    (fun e => [toast_error "Failed to disconnect" e; Close]).

Definition hotspot_billing_remove (routerId : Z) (profile : jval) : prog :=
  awaits (M_HotspotBilling_RemoveHotspotDbProfile routerId (number "id" profile))
    (fun _ => [Toast success ("Profile " +:+ quoted "name" profile +:+ " removed") JUndef])
    (fun e => [toast_error "Failed to remove profile" e]).
End RowActions.

(** ** Synchronisation with the router *)

Module Sync.
Definition length_of (v : jval) : string := match v with JArr l => Z_to_string (Z.of_nat (length l)) | _ => "undefined" end.
Definition nonempty (v : jval) : bool := match v with JArr (_ :: _) => true | _ => false end.
Definition names (v : jval) : string := match v with JArr l => join ", " (map js_String l) | _ => "" end.

Definition orphanDetail (res : jval) : string :=
  if nonempty (get "orphan" res)
  then " · " +:+ length_of (get "orphan" res) +:+ " orphan (" +:+ names (get "orphan" res) +:+ ")" else "".
Definition counts (res : jval) : string :=
  length_of (get "synced" res) +:+ " synced · " +:+ length_of (get "created" res) +:+ " created".

Definition hotspot_profiles (routerId : Z) : prog :=
  awaits (M_HotspotProfiles_SyncHotspotProfiles routerId)
    (fun res => [Toast success "Profiles synced from RouterOS" (JStr (counts res +:+ orphanDetail res))])
    (fun e => [Toast error "Failed to sync profiles" (message_or_String e)]).

(** [finally]: the flag is cleared on both paths. *)
Definition hotspot_billing (routerId : Z) : prog :=
  Emit (SetState "syncing" (JBool true))
    (awaits (M_HotspotBilling_SyncHotspotDbProfiles routerId None)
       (fun res => [Toast success "Sync complete" (JStr (counts res +:+ orphanDetail res));
                    SetState "syncing" (JBool false)])
       (fun e => [toast_error "Sync failed" e; SetState "syncing" (JBool false)])).

Definition ppp_billing (routerId : Z) : prog :=
  Emit (SetState "syncing" (JBool true))
    (awaits (M_PPPBilling_SyncPPPDbProfiles routerId)
       (fun res => [Toast success "Sync complete"
                      (JStr (counts res +:+ " · " +:+ length_of (get "orphan" res) +:+ " orphan"));
                    SetState "syncing" (JBool false)])
       (fun e => [toast_error "Sync failed" e; SetState "syncing" (JBool false)])).
End Sync.

(** ** Network and system tabs, message templates *)

Module DeviceActions.
Definition pool_remove (routerId : Z) (row : jval) : prog :=
  awaits (M_Network_DeletePool routerId (text "id" row))
    (fun _ => [Toast success ("Pool " +:+ quoted "name" row +:+ " removed") JUndef])
    (fun e => [toast_error "Failed to remove pool" e]).
Definition queue_remove (routerId : Z) (row : jval) : prog :=
  awaits (M_Network_DeleteQueue routerId (text "id" row))
    (fun _ => [Toast success ("Queue " +:+ quoted "name" row +:+ " removed") JUndef])
    (fun e => [toast_error "Failed to remove queue" e]).
Definition lease_remove (routerId : Z) (row : jval) : prog :=
  awaits (M_Network_DeleteDHCPLease routerId (text "id" row))
    (fun _ => [Toast success "Lease removed" JUndef])
    (fun e => [toast_error "Failed to remove lease" e]).
Definition script_remove (rid : Z) (row : jval) : prog :=
  awaits (M_System_DeleteScript rid (text "id" row))
    (fun _ => [Toast success ("Script " +:+ quoted "name" row +:+ " removed") JUndef])
    (fun e => [toast_error "Failed to remove script" e]).
Definition scheduler_remove (rid : Z) (row : jval) : prog :=
  awaits (M_System_DeleteScheduler rid (text "id" row))
    (fun _ => [Toast success ("Scheduler " +:+ quoted "name" row +:+ " removed") JUndef])
    (fun e => [toast_error "Failed to remove scheduler" e]).
Definition reboot (rid : Z) : prog :=
  awaits (M_System_Reboot rid) (fun _ => [Toast success "Reboot issued" JUndef])
    (fun e => [toast_error "Failed to reboot" e]).
Definition shutdown (rid : Z) : prog :=
  awaits (M_System_Shutdown rid) (fun _ => [Toast success "Shutdown issued" JUndef])
    (fun e => [toast_error "Failed to shut down" e]).

(** [s.trim() || undefined]. *)
Definition trimmed_or_undef (s : string) : jval := if String.eqb (trim s) "" then JUndef else JStr (trim s).

Definition pool_add (routerId : Z) (name ranges nextPool : string) : prog :=
  if String.eqb (trim name) "" || String.eqb (trim ranges) ""
  then Emit (Toast error "Name and ranges are required" JUndef) Return
  else awaits (M_Network_CreatePool routerId
                 (JObj [("name", JStr (trim name)); ("ranges", JStr (trim ranges));
                        ("next_pool", trimmed_or_undef nextPool)]))
         (fun _ => [Toast success ("Pool '" +:+ name +:+ "' created") JUndef; SetState "name" (JStr "");
                    SetState "ranges" (JStr ""); SetState "nextPool" (JStr ""); Close])
         (fun e => [toast_error "Failed to create pool" e]).

Definition script_add (rid : Z) (name source : string) : prog :=
  if String.eqb (trim name) "" || String.eqb (trim source) ""
  then Emit (Toast error "Name and source are required" JUndef) Return
  else awaits (M_System_CreateScript rid (JObj [("name", JStr (trim name)); ("source", JStr (trim source))]))
         (fun _ => [Toast success ("Script '" +:+ name +:+ "' created") JUndef; SetState "name" (JStr "");
                    SetState "source" (JStr ""); Close])
         (fun e => [toast_error "Failed to create script" e]).

Definition scheduler_add (rid : Z) (name interval onEvent : string) : prog :=
  if String.eqb (trim name) "" then Emit (Toast error "Name is required" JUndef) Return
  else awaits (M_System_CreateScheduler rid
                 (JObj [("name", JStr (trim name)); ("interval", trimmed_or_undef interval);
                        ("on_event", trimmed_or_undef onEvent)]))
         (fun _ => [Toast success ("Scheduler '" +:+ name +:+ "' created") JUndef; SetState "name" (JStr "");
                    SetState "interval" (JStr ""); SetState "onEvent" (JStr ""); Close])
         (fun e => [toast_error "Failed to create scheduler" e]).

Definition template_submit (target : jval) (name body : string) (active : bool) : prog :=
  if String.eqb (trim name) "" || String.eqb (trim body) ""
  then Emit (Toast error "Name and body are required" JUndef) Return
  else awaits (M_MessageTemplates_UpdateMessageTemplate
                 (text "slug" target, JObj [("name", JStr (trim name)); ("body", JStr body); ("active", JBool active)]))
         (fun _ => [Toast success ("Template " +:+ quoted "slug" target +:+ " saved") JUndef; Close])
         (fun e => [toast_error "Failed to save template" e]).
End DeviceActions.

(** ** What the handlers guarantee *)

(** The bulk dialogs: one request per id, in the order of the selection, all of them sent
    whatever fails; one toast whose kind says whether all, none or some succeeded; and the
    dialog closes. *)
Definition accounts (p : prog) (ms : list mutation_hook) : Prop :=
  forall o n, let tr := exec o n p in
  let rs := map o (seq n (length ms)) in
  requests tr = ms /\ closes tr = true /\
  exists k m, toasts tr = [(k, m)] /\
    k = (if forallb fulfilled rs then success
         else if forallb (fun r => negb (fulfilled r)) rs then error else warning).

Lemma fan_out_accounts remove l d f noun : accounts (fan_out remove l d f noun) (map remove l).
Proof. intros o n. apply exec_bulk. Qed.

(** Deleting or disconnecting a selection accounts for every member of it: in each of
    the four dialogs that fan out, the requests are exactly one per selected id, and the
    toast's kind (success, error, warning) says whether all, none or some succeeded. *)
Theorem bulk_dialogs_account rid (i : string) (l : list string) (b : gmap string jval) t sessions :
  accounts (UserDelete.handleConfirm rid (St (Some UsersDialog.multi_delete) t (i :: l)))
    (map (M_HotspotUsers_RemoveHotspotUser rid) (i :: l)) /\
  accounts (ProfileDelete.handleConfirm rid (St (Some ProfilesDialog.multi_delete) t (i :: l)))
    (map (M_HotspotProfiles_RemoveHotspotProfile rid) (i :: l)) /\
  accounts (HostDelete.handleConfirm rid (HostsDialog.HSt (St (Some HostsDialog.multi_delete) t (i :: l)) b))
    (map (M_HotspotHosts_RemoveHotspotHost rid) (i :: l)) /\
  accounts (Disconnect.handleConfirm rid (St (Some ActiveDialog.disconnect_many) t (i :: l)) sessions)
    (map (M_HotspotActive_DisconnectHotspotUser rid) (i :: l)) /\
  (forall s ss, accounts (Disconnect.handleConfirm rid (St (Some ActiveDialog.disconnect_all) t []) (Some (s :: ss)))
    (map (fun x => M_HotspotActive_DisconnectHotspotUser rid (text ".id" x)) (s :: ss))).
Proof.
  split_and!; [apply fan_out_accounts|apply fan_out_accounts|apply fan_out_accounts| |].
  - destruct t; apply fan_out_accounts.
  - intros s ss. change (map (fun x => M_HotspotActive_DisconnectHotspotUser rid (text ".id" x)) (s :: ss))
      with (map (fun x => (fun y => M_HotspotActive_DisconnectHotspotUser rid y) (text ".id" x)) (s :: ss)).
    rewrite <- (map_map (text ".id")). destruct t; apply fan_out_accounts.
Qed.

(** A success toast appears only when something was sent and all of it was accepted, an
    error toast only when something sent failed or nothing was sent. *)
Definition all_ok (tr : list event) : bool :=
  forallb (fun e => match e with Sent _ a => fulfilled a | Did _ => true end) tr.

Definition honest_toast (tr : list event) (k : toast_kind) : bool :=
  match k with
  | success => all_ok tr && negb (match requests tr with [] => true | _ => false end)
  | error => negb (all_ok tr) || match requests tr with [] => true | _ => false end
  | warning | info => true
  end.

Definition honest (p : prog) : Prop :=
  forall o n, let tr := exec o n p in forallb (fun t => honest_toast tr t.1) (toasts tr) = true.

Definition kind_of (e : effect) : option toast_kind := match e with Toast k _ _ => Some k | _ => None end.
Definition only (k : toast_kind) (es : list effect) : Prop :=
  Forall (fun e => match kind_of e with Some k' => k' = k | None => True end) es.

Lemma exec_emits o n es : exec o n (emits es Return) = map Did es.
Proof. induction es as [|e es IH]; cbn; [done|by rewrite IH]. Qed.

Lemma all_ok_did es : all_ok (map Did es) = true.
Proof. by induction es. Qed.

Lemma requests_did es : requests (map Did es) = [].
Proof. induction es as [|e es IH]; [done|]. apply IH. Qed.

Lemma toasts_did k es : only k es -> Forall (fun t => t.1 = k) (toasts (map Did es)).
Proof.
  induction 1 as [|e es He _ IH]; [constructor|].
  destruct e; cbn in *; try exact IH. constructor; [exact He|exact IH].
Qed.

Lemma awaits_honest m ok err :
  (forall v, only success (ok v)) -> (forall e, only error (err e)) -> honest (awaits m ok err).
Proof.
  intros Hok Herr o n. unfold awaits. cbn [exec].
  destruct (o n) as [v|e]; rewrite exec_emits; cbn [toasts omap]; apply forallb_forall;
    intros [k msg] Hin%list_elem_of_In.
  - pose proof (proj1 (Forall_forall _ _) (toasts_did _ _ (Hok v)) _ Hin) as E. cbn in E. subst k.
    cbn. fold (all_ok (map Did (ok v))). by rewrite all_ok_did.
  - pose proof (proj1 (Forall_forall _ _) (toasts_did _ _ (Herr e)) _ Hin) as E. by cbn in E; subst k.
Qed.

Lemma fan_out_honest remove i l d f noun : honest (fan_out remove (i :: l) d f noun).
Proof.
  intros o n. destruct (fan_out_accounts remove (i :: l) d f noun o n) as (Hr & _ & k & m & Ht & Hk).
  cbn zeta in *. rewrite Ht. cbn [forallb fst]. rewrite andb_true_r. unfold honest_toast. rewrite Hr.
  assert (forall rs ms, length rs = length ms -> all_ok (zip_with Sent ms rs) = forallb fulfilled rs) as Hz.
  { clear. intros rs ms. revert rs. induction ms as [|x ms IH]; intros [|r rs] H; try done.
    cbn in *. by rewrite IH by lia. }
  assert (all_ok (exec o n (fan_out remove (i :: l) d f noun)) =
    forallb fulfilled (map o (seq n (length (map remove (i :: l)))))) as ->.
  { unfold fan_out. cbn [exec]. unfold all_ok. rewrite forallb_app. fold (all_ok (zip_with Sent
      (map remove (i :: l)) (map o (seq n (length (map remove (i :: l))))))).
    rewrite Hz by (by rewrite length_map, length_seq). by rewrite andb_true_r. }
  rewrite Hk. cbn [map length]. destruct (forallb fulfilled _) eqn:E1; [done|].
  by destruct (forallb (fun r => negb (fulfilled r)) _).
Qed.

Lemma emit_honest e : match kind_of e with Some success | Some warning => False | _ => True end ->
  honest (Emit e Return).
Proof. intros He o n. by destruct e as [[] | | | | |]. Qed.

Lemma return_honest : honest Return.
Proof. by intros o n. Qed.

Lemma emit_before e p : kind_of e = None -> honest p -> honest (Emit e p).
Proof.
  intros He Hp o n. specialize (Hp o n). cbn [exec]. cbn zeta in *.
  destruct e; try done; cbn [toasts omap]; exact Hp.
Qed.

#[local] Hint Resolve awaits_honest fan_out_honest emit_honest return_honest emit_before : honest.

Ltac honest :=
  repeat case_match; subst; try apply return_honest; try apply fan_out_honest;
  repeat (apply emit_before; [done|]); try (apply emit_honest; done);
  try (apply awaits_honest; intros ?; repeat constructor).

(** C19: the toasts tell the truth: in no run of any of these handlers, whatever the server
    answers, is there a success toast unless requests were sent and all of them accepted,
    nor an error toast although everything sent was accepted. *)
Theorem toasts_tell_the_truth rid (orid : option Z) parse (s1 : state UsersDialog.DialogMode)
    (s2 : state ProfilesDialog.DialogMode) s3 (s4 : state ActiveDialog.DialogMode) sessions
    (s5 : state SecretsDialog.DialogMode) (target : option jval) (row : jval) (rows : list jval)
    (open active : bool) (user : jval) (m : PaymentActions.mode) (a b c : string) :
  Forall honest
    [UserDelete.handleConfirm rid s1; ProfileDelete.handleConfirm rid s2; HostDelete.handleConfirm rid s3;
     Disconnect.handleConfirm rid s4 sessions; SecretDelete.handleConfirm rid s5;
     DbProfileDelete.handleConfirm rid target; PPPProfileDelete.handleConfirm rid target;
     PresetDelete.handleConfirm orid target; RoutersDelete.handleConfirm target;
     AdminUserDelete.click open target user; CustomersDelete.handleDelete a row;
     SubscriptionsDelete.handleDelete a row; CustomersMultiDelete.handleDelete a rows;
     SubscriptionsMultiDelete.handleDelete a rows; Status.handleQuickAction target a;
     Status.handleConfirm target a; Status.handleReconcile row;
     RegistrationActions.approve parse target a; RegistrationActions.reject target a;
     RegistrationActions.assign parse target a b; PaymentActions.handleAction m target a;
     InvoiceActions.handleCancel target; RowActions.user_toggle rid row; RowActions.user_reset rid row;
     RowActions.remove_session rid row; RowActions.secret_toggle rid row;
     RowActions.ppp_profile_toggle rid row; RowActions.billing_toggle rid row;
     RowActions.ppp_disconnect rid row; RowActions.hotspot_billing_remove rid row;
     Sync.hotspot_profiles rid; Sync.hotspot_billing rid; Sync.ppp_billing rid;
     DeviceActions.pool_remove rid row; DeviceActions.queue_remove rid row;
     DeviceActions.lease_remove rid row; DeviceActions.script_remove rid row;
     DeviceActions.scheduler_remove rid row; DeviceActions.reboot rid; DeviceActions.shutdown rid;
     DeviceActions.pool_add rid a b c; DeviceActions.script_add rid a b;
     DeviceActions.scheduler_add rid a b c; DeviceActions.template_submit row a b active].
Proof.
  repeat constructor; try (unfold UserDelete.handleConfirm, ProfileDelete.handleConfirm,
    HostDelete.handleConfirm, Disconnect.handleConfirm, SecretDelete.handleConfirm,
    DbProfileDelete.handleConfirm, PPPProfileDelete.handleConfirm, PresetDelete.handleConfirm,
    RoutersDelete.handleConfirm, AdminUserDelete.click, AdminUserDelete.handleConfirm,
    CustomersDelete.handleDelete, SubscriptionsDelete.handleDelete, CustomersMultiDelete.handleDelete,
    SubscriptionsMultiDelete.handleDelete, Status.handleQuickAction, Status.handleConfirm,
    RegistrationActions.approve, RegistrationActions.reject, RegistrationActions.assign,
    PaymentActions.handleAction, InvoiceActions.handleCancel, Sync.hotspot_billing, Sync.ppp_billing,
    DeviceActions.pool_add, DeviceActions.script_add, DeviceActions.scheduler_add,
    DeviceActions.template_submit); honest.
Qed.

(** Destructive actions are confirmed.  A customer or subscription is deleted only
    when its own name was typed, a selection only when the confirmation word was, and then
    exactly the selected records with a real id; the signed-in account is never deleted. *)
Theorem deletions_confirmed o n value row rows isOpen t user :
  (requests (exec o n (CustomersDelete.handleDelete value row)) <> [] ->
     get "full_name" row = JStr (trim value)) /\
  (requests (exec o n (SubscriptionsDelete.handleDelete value row)) <> [] ->
     get "mikrotik_username" row = JStr (trim value)) /\
  (forall m, m ∈ requests (exec o n (CustomersMultiDelete.handleDelete value rows)) ->
     trim value = CONFIRM_WORD /\ m = M_Customers_BatchRemoveCustomers (selected_ids rows) /\
     Forall (fun k => k <> 0) (selected_ids rows)) /\
  (forall m, m ∈ requests (exec o n (SubscriptionsMultiDelete.handleDelete value rows)) ->
     trim value = CONFIRM_WORD /\ m = M_Subscriptions_BatchRemoveSubscriptions (selected_ids rows) /\
     Forall (fun k => k <> 0) (selected_ids rows)) /\
  (get "id" t = user -> isOpen = true ->
     requests (exec o n (AdminUserDelete.click isOpen (Some t) user)) = []).
Proof.
  assert (Forall (fun k => k <> 0) (selected_ids rows)) as Hids.
  { unfold selected_ids. apply Forall_forall. intros k Hk%list_elem_of_In.
    apply filter_In in Hk as [_ Hk]. by apply negb_true_iff, Z.eqb_neq in Hk. }
  split_and!.
  - unfold CustomersDelete.handleDelete. destruct (jval_eqb _ _) eqn:E; [|done].
    intros _. by apply jval_eqb_eq in E.
  - unfold SubscriptionsDelete.handleDelete. destruct (jval_eqb _ _) eqn:E; [|done].
    intros _. by apply jval_eqb_eq in E.
  - intros m. unfold CustomersMultiDelete.handleDelete. destruct (String.eqb _ _) eqn:E; cbn [negb].
    + apply String.eqb_eq in E. destruct (selected_ids rows) as [|k ks]; [by intros ?%elem_of_nil|].
      cbn [exec requests omap awaits]. intros Hm. split; [done|]. split; [|done].
      destruct (o n); rewrite exec_emits in Hm; cbn in Hm;
        rewrite ?requests_did in Hm; by apply list_elem_of_singleton in Hm.
    + by intros ?%elem_of_nil.
  - intros m. unfold SubscriptionsMultiDelete.handleDelete. destruct (String.eqb _ _) eqn:E; cbn [negb].
    + apply String.eqb_eq in E. destruct (selected_ids rows) as [|k ks]; [by intros ?%elem_of_nil|].
      cbn [exec requests omap awaits]. intros Hm. split; [done|]. split; [|done].
      destruct (o n); rewrite exec_emits in Hm; cbn in Hm;
        rewrite ?requests_did in Hm; by apply list_elem_of_singleton in Hm.
    + by intros ?%elem_of_nil.
  - intros <- ->. unfold AdminUserDelete.click, AdminUserDelete.isSelf. cbn [andb].
    by rewrite (proj2 (jval_eqb_eq _ _) eq_refl).
Qed.

(** The status dialog offers only known statuses, each with its explanation and none
    of them the current one, and never overrides a status with itself. *)
Theorem status_actions_sound row :
  Forall (fun t => t ∈ Status.SUBSCRIPTION_STATUSES /\ t <> Status.currentStatus row /\
                   is_Some (Status.lookup t Status.STATUS_IMPACT)) (Status.quickActions row) /\
  Status.quick_buttons row = Status.quickActions row /\
  Status.override_disabled row (Status.currentStatus row) false = true.
Proof.
  unfold Status.override_disabled. rewrite String.eqb_refl. unfold Status.quick_buttons, Status.quickActions.
  generalize (Status.currentStatus row). intros s. cbn [Status.lookup Status.QUICK_ACTIONS].
  repeat match goal with |- context [String.eqb s ?k] => destruct (String.eqb_spec s k) as [->|?] end;
    (split; [|done]); cbn [default from_option id];
    repeat first [apply Forall_nil_2 | apply Forall_cons_2]; (split_and!;
      [by apply (bool_decide_unpack (_ ∈ _))|done|by eexists]).
Qed.

(** ** The dialogs and their stores *)

Lemma requests_awaits o n m ok err : requests (exec o n (awaits m ok err)) = [m].
Proof. unfold awaits. cbn [exec]. destruct (o n); rewrite exec_emits; apply (f_equal (cons m)), requests_did. Qed.
Lemma requests_fan_out o n remove l d f noun : requests (exec o n (fan_out remove l d f noun)) = map remove l.
Proof. exact (proj1 (fan_out_accounts remove l d f noun o n)). Qed.

#[local] Arguments awaits : simpl never.
#[local] Arguments fan_out : simpl never.
#[local] Arguments exec : simpl never.
#[local] Arguments requests : simpl never.

(** The button of a dialog, whatever was opened and closed before it: the state of the store
    is rewritten to the dialog of the last call. *)
Ltac last_dialog :=
  let ops := fresh "ops" in
  intros ops; rewrite (laws_refine ops); generalize (spec_run ops);
  intros [|m q]; [|destruct m]; repeat match goal with x : _ * _ |- _ => destruct x end; cbn;
  repeat case_match; try done; cbn; by rewrite ?requests_awaits, ?requests_fan_out.

(** C9: the buttons of the dialogs act on what their dialog was opened with last, whatever was
    opened, closed and left behind before: a removal or disconnection of one record asks for
    that record, one of a selection for the selected ids, one per request or in one batch,
    and after a close none of them asks for anything ("disconnect all" for the sessions
    listed). *)
Theorem confirmations_follow_last_open rid o n listed typed :
  (forall ops : list (op UsersDialog.DialogMode (option payload)),
     requests (exec o n (UserDelete.handleConfirm rid (store_run ops))) =
     match spec_run ops with
     | Open UsersDialog.delete (Some t, _) => [M_HotspotUsers_RemoveHotspotUser rid (text "id" t)]
     | Open UsersDialog.multi_delete (_, l) => map (M_HotspotUsers_RemoveHotspotUser rid) l
     | _ => []
     end) /\
  (forall ops : list (op ProfilesDialog.DialogMode (option payload)),
     requests (exec o n (ProfileDelete.handleConfirm rid (store_run ops))) =
     match spec_run ops with
     | Open ProfilesDialog.delete (Some t, _) => [M_HotspotProfiles_RemoveHotspotProfile rid (text "id" t)]
     | Open ProfilesDialog.multi_delete (_, l) => map (M_HotspotProfiles_RemoveHotspotProfile rid) l
     | _ => []
     end) /\
  (forall ops : list (op HostsDialog.DialogMode (option payload * option (list jval))),
     requests (exec o n (HostDelete.handleConfirm rid (store_run ops))) =
     match spec_run ops with
     | Open HostsDialog.delete (Some t, _, _) => [M_HotspotHosts_RemoveHotspotHost rid (text "id" t)]
     | Open HostsDialog.multi_delete (_, l, _) => map (M_HotspotHosts_RemoveHotspotHost rid) l
     | _ => []
     end) /\
  (forall ops : list (op ActiveDialog.DialogMode (option payload)),
     requests (exec o n (Disconnect.handleConfirm rid (store_run ops) listed)) =
     match spec_run ops with
     | Open ActiveDialog.disconnect (Some t, _) => [M_HotspotActive_DisconnectHotspotUser rid (text "id" t)]
     | Open ActiveDialog.disconnect_all _ =>
         map (M_HotspotActive_DisconnectHotspotUser rid) (map (text ".id") (listed ?? []))
     | Open _ (_, l) => map (M_HotspotActive_DisconnectHotspotUser rid) l
     | Closed => []
     end) /\
  (forall ops : list (op SecretsDialog.DialogMode (option jval * option (list string))),
     requests (exec o n (SecretDelete.handleConfirm rid (store_run ops))) =
     match spec_run ops with
     | Open SecretsDialog.delete (Some t, _) => [M_PPPSecrets_RemovePPPSecret rid (text "id" t)]
     | Open SecretsDialog.multi_delete (_, l) =>
         match l with [] => [] | _ => [M_PPPSecrets_BatchRemovePPPSecrets rid l] end
     | _ => []
     end) /\
  (forall ops : list (op PresetsDialog.DialogMode (option payload)),
     requests (exec o n (PresetDelete.handleConfirm (Some rid) (target (store_run ops)))) =
     match spec_run ops with Open _ (Some t) => [M_QuickPrint_RemoveQuickPrintPackage rid (text "name" t)] | _ => [] end) /\
  (forall ops : list (op RoutersDialog.opened (option jval)),
     requests (exec o n (RoutersDelete.handleConfirm (RoutersDialog.selectedRouter (store_run ops)))) =
     match spec_run ops with Open _ (Some r) => [M_Routers_DeleteRouter (number "id" r)] | _ => [] end) /\
  (forall ops : list (op DbProfilesDialog.DialogMode (option jval)),
     requests (exec o n (DbProfileDelete.handleConfirm rid (target (store_run ops)))) =
     match spec_run ops with Open _ (Some t) => [M_PPPBilling_RemovePPPDbProfile rid (number "id" t)] | _ => [] end) /\
  (forall ops : list (op PPPProfilesDialog.DialogMode (option jval)),
     requests (exec o n (PPPProfileDelete.handleConfirm rid (target (store_run ops)))) =
     match spec_run ops with Open _ (Some t) => [M_PPPProfiles_RemovePPPProfile rid (text "id" t)] | _ => [] end) /\
  (forall ops : list (op AdminUsersDialog.DialogMode (option payload)),
     requests (exec o n (AdminUserDelete.handleConfirm (target (store_run ops)))) =
     match spec_run ops with Open _ (Some t) => [M_AdminUsers_DeleteAdminUser (number "id" t)] | _ => [] end) /\
  (forall ops : list (op RegistrationsDialog.DialogMode jval),
     requests (exec o n (RegistrationActions.reject (target (store_run ops)) typed)) =
     match spec_run ops with
     | Open _ (Some t) =>
         if String.eqb (trim typed) "" then []
         else [M_Registrations_RejectRegistration (number "id" t, JObj [("reason", JStr (trim typed))])]
     | _ => []
     end).
Proof.
  split_and!; [last_dialog..|].
  unfold RegistrationActions.reject. destruct (String.eqb (trim typed) ""); last_dialog.
Qed.
