(* ===== verification/Wire.v ===== *)
(** * What the backend accepts ([src/api/dto/*.go])

    A handler of the backend decodes a request body into a struct and validates its binding
    tags ([c.ShouldBindJSON]).  [field] is one field of a struct: its JSON name, its Go
    type, whether it is a pointer, its rules; the definitions of Module [Dto] transcribe the
    structs the client's forms send to.  How gin decodes and validates is the interface
    [GinBinding], as the documentation of [encoding/json] and of the validator states it:
    a missing or null field stays zero (nil), a value of another type is an error, a rule
    is checked on the field's value, [omitempty] skips the rules of an absent value. *)
From S2P Require Import Prelude JsString JsValue Http.

(** ** Fields and rules *)

Inductive gotype : Type := GString | GBool | GInt | GUint | GTime | GAny | GStrings.

Inductive rule : Type :=
| Required
| OmitEmpty
| Min (n : Z)          (** length of a string, value of a number; [gte] is the same on numbers *)
| Max (n : Z)
| Gt (n : Z)
| OneOf (l : list string)
| Other (tag : string).   (** a rule no form of the client needs; never assumed to hold *)

Record gfield : Type := Fld { f_name : string; f_ptr : bool; f_type : gotype; f_rules : list rule }.

(** A body as [JSON.stringify] writes it: [undefined] fields are left out, [NaN] is null. *)
Definition absent (v : jval) : bool :=
  match v with JUndef | JNull => true | JFrac s => String.eqb s "NaN" | _ => false end.

Definition has_type (t : gotype) (v : jval) : bool :=
  match t, v with
  | GString, JStr _ | GBool, JBool _ | GAny, _ | GTime, JStr _ => true
  | GInt, JNum n => (- 2 ^ 63 <=? n) && (n <? 2 ^ 63)
  | GUint, JNum n => (0 <=? n) && (n <? 2 ^ 64)
  | GStrings, JArr l => forallb (fun x => match x with JStr _ => true | _ => false end) l
  | _, _ => false
  end.

(** The zero value of the field's type. *)
Definition is_zero_value (v : jval) : bool :=
  match v with
  | JStr s => String.eqb s ""
  | JBool b => negb b
  | JNum n => n =? 0
  | JArr l => match l with [] => true | _ => false end
  | _ => true
  end.

(** What [min] and [max] measure. *)
Definition measure (v : jval) : Z :=
  match v with
  | JStr s => Z.of_nat (String.length s)
  | JNum n => n
  | JArr l => Z.of_nat (length l)
  | _ => 0
  end.

Definition rule_ok (ptr : bool) (v : jval) (r : rule) : bool :=
  match r with
  | Required => if ptr then negb (absent v) else negb (is_zero_value v)
  | OmitEmpty => true
  | Min n => n <=? measure v
  | Max n => measure v <=? n
  | Gt n => n <? measure v
  | OneOf l => match v with JStr s => existsb (String.eqb s) l | _ => false end
  | Other _ => false
  end.

Definition omits (rs : list rule) : bool := existsb (fun r => match r with OmitEmpty => true | _ => false end) rs.

(** The value of an absent field is the zero value, on which the rules are checked unless
    they say [omitempty]; a nil pointer without [omitempty] only fails [required]. *)
Definition zero_of (t : gotype) : jval :=
  match t with
  | GString => JStr "" | GBool => JBool false | GInt | GUint => JNum 0
  | GTime | GAny => JNull | GStrings => JArr []
  end.

Definition field_ok (body : jval) (f : gfield) : bool :=
  let v := get (f_name f) body in
  if absent v then
    if omits (f_rules f) then true
    else if f_ptr f then forallb (fun r => match r with Required => false | _ => true end) (f_rules f)
    else forallb (rule_ok false (zero_of (f_type f))) (f_rules f)
  else has_type (f_type f) v &&
       ((negb (f_ptr f) && is_zero_value v && omits (f_rules f)) ||
        forallb (rule_ok (f_ptr f) v) (f_rules f)).

(** The interface to gin. *)
Class GinBinding : Type := {
  ShouldBindJSON : list gfield -> jval -> bool;
  ShouldBindJSON_spec fs body : ShouldBindJSON fs body = forallb (field_ok body) fs
}.

#[export] Instance documented_binding : GinBinding :=
  {| ShouldBindJSON := fun fs body => forallb (field_ok body) fs;
     ShouldBindJSON_spec := fun _ _ => eq_refl |}.

(** The keys a body sets, and whether the struct has a field for each of them: a key the
    struct does not have is ignored by the decoder. *)
Definition keys (body : jval) : list string :=
  match body with JObj fs => map fst (List.filter (fun f => negb (absent f.2)) fs) | _ => [] end.
Definition heard (fs : list gfield) (body : jval) : bool :=
  forallb (fun k => existsb (fun f => String.eqb (f_name f) k) fs) (keys body).

(** ** The structs *)

Definition str (n : string) (rs : list rule) : gfield := Fld n false GString rs.
Definition strp (n : string) (rs : list rule) : gfield := Fld n true GString (OmitEmpty :: rs).
(** A pointer without a binding tag. *)
Definition opt (n : string) (t : gotype) : gfield := Fld n true t [].
Definition int (n : string) (rs : list rule) : gfield := Fld n false GInt rs.
Definition intp (n : string) (rs : list rule) : gfield := Fld n true GInt (OmitEmpty :: rs).
Definition uint_req (n : string) : gfield := Fld n false GUint [Required; Gt 0].
Definition uintp (n : string) : gfield := Fld n true GUint [OmitEmpty; Gt 0].

Module Dto.
Definition CustomerCreateRequest : list gfield :=
  [str "full_name" [Required; Min 1; Max 200]; str "phone" [Required; Min 3; Max 20];
   str "address" [Max 2000]; str "area" [Max 100]; str "notes" [Max 2000];
   str "status" [OmitEmpty; OneOf ["aktif"; "nonaktif"]]].
Definition CustomerUpdateRequest : list gfield :=
  [strp "full_name" [Min 1; Max 200]; strp "phone" [Min 3; Max 20]; strp "address" [Max 2000];
   strp "area" [Max 100]; strp "notes" [Max 2000]; strp "status" [OneOf ["aktif"; "nonaktif"]]].

Definition SubscriptionCreateRequest : list gfield :=
  [uint_req "customer_id"; uint_req "device_id"; uintp "ppp_profile_id"; uintp "hotspot_profile_id";
   str "service_type" [Required; OneOf ["pppoe"; "hotspot"]];
   str "mikrotik_username" [Required; Min 1; Max 100]; str "mikrotik_password" [Required; Min 1; Max 200];
   intp "billing_day" [Min 1; Max 28]; str "notes" [Max 2000]].
Definition SubscriptionUpdateRequest : list gfield :=
  [uintp "ppp_profile_id"; uintp "hotspot_profile_id"; strp "mikrotik_password" [Min 1; Max 200];
   intp "billing_day" [Min 1; Max 28]; strp "notes" [Max 2000]].
Definition SubscriptionStatusPatchRequest : list gfield :=
  [str "status" [Required; OneOf ["pending_install"; "active"; "isolir"; "suspended"; "terminated"]]].

Definition RegistrationApproveRequest : list gfield := [opt "scheduled_at" GTime].
Definition RegistrationRejectRequest : list gfield := [str "reason" [Required; Min 1; Max 2000]].
Definition RegistrationAssignRequest : list gfield := [uint_req "assigned_to"; opt "scheduled_at" GTime].
Definition RegistrationCompleteInstallRequest : list gfield :=
  [uint_req "device_id"; str "service_type" [Required; OneOf ["pppoe"; "hotspot"]];
   uintp "ppp_profile_id"; uintp "hotspot_profile_id";
   str "mikrotik_username" [Required; Min 1; Max 100]; str "mikrotik_password" [Required; Min 1; Max 200];
   intp "billing_day" [Min 1; Max 28]].

(** The anonymous struct of [Invoices.Generate]. *)
Definition InvoiceGenerate : list gfield :=
  [uint_req "subscription_id"; uint_req "customer_id"; int "amount" [OmitEmpty; Gt 0];
   str "period_start" [Required]; int "due_days" [Min 0]].
Definition PaymentCreateRequest : list gfield :=
  [uint_req "invoice_id"; uint_req "customer_id"; int "amount" [Required; Gt 0];
   str "method" [Required; OneOf ["transfer"; "cash"]]; str "reference_number" [Max 100];
   str "proof_url" [Max 500]; str "bank_name" [Max 100]; str "idempotency_key" [Max 200]].
Definition PaymentCollectRequest : list gfield :=
  [str "code" [Required; Min 4; Max 32]; str "method" [OmitEmpty; OneOf ["cash"; "transfer"]]].
Definition RecordSaleParams : list gfield :=
  [str "username" [Required]; str "profile_name" []; int "price" []; str "validity" []; str "server" [];
   str "ip_address" []; str "mac_address" []; str "sold_at" []].

(** The profiles of the database. *)
Definition HotspotProfileCreateRequest : list gfield :=
  [str "name" [Required; Min 1; Max 100]; str "role" [Required; OneOf ["permanent"; "voucher"]];
   str "rate_limit" [Max 64]; str "address_pool" [Max 64]; int "shared_users" [Min 0];
   str "status_autorefresh" [Max 16]; str "parent_queue" [Max 64]; int "price_monthly" [Min 0];
   str "expiry_mode" [OmitEmpty; OneOf ["0"; "none"; "rem"; "ntf"; "remc"; "ntfc"]];
   str "validity" [Max 16]; int "price" [Min 0]; int "sell_price" [Min 0]; Fld "lock_mac" false GBool [];
   str "description" [Max 2000]; opt "active" GBool; opt "is_public" GBool].
Definition HotspotProfileUpdateRequest : list gfield :=
  [strp "name" [Min 1; Max 100]; strp "rate_limit" [Max 64]; strp "address_pool" [Max 64];
   intp "shared_users" [Min 0]; strp "status_autorefresh" [Max 16]; strp "parent_queue" [Max 64];
   intp "price_monthly" [Min 0]; strp "expiry_mode" [OneOf ["0"; "none"; "rem"; "ntf"; "remc"; "ntfc"]];
   strp "validity" [Max 16]; intp "price" [Min 0]; intp "sell_price" [Min 0]; opt "lock_mac" GBool;
   strp "description" [Max 2000]; opt "active" GBool; opt "is_public" GBool].
Definition PPPProfileCreateRequest : list gfield :=
  [str "name" [Required; Min 1; Max 100]; str "rate_limit" [Max 64]; str "local_address" [Max 64];
   str "remote_address" [Max 64]; str "session_timeout" [Max 32]; str "idle_timeout" [Max 32];
   str "parent_queue" [Max 64]; int "price_monthly" [Min 0]; str "description" [Max 2000];
   opt "active" GBool; opt "is_public" GBool].
Definition PPPProfileUpdateRequest : list gfield :=
  [strp "name" [Min 1; Max 100]; strp "rate_limit" [Max 64]; strp "local_address" [Max 64];
   strp "remote_address" [Max 64]; strp "session_timeout" [Max 32]; strp "idle_timeout" [Max 32];
   strp "parent_queue" [Max 64]; intp "price_monthly" [Min 0]; strp "description" [Max 2000];
   opt "active" GBool; opt "is_public" GBool].

(** The objects of the router. *)
Definition HotspotUserCreateRequest : list gfield :=
  [str "name" [Required; Min 1; Max 128]; str "password" [Max 128]; str "profile" []; str "server" [];
   opt "disabled" GBool; str "limit_uptime" []; int "limit_bytes_total" [Min 0];
   int "limit_bytes_in" [Min 0]; int "limit_bytes_out" [Min 0]; str "comment" []].
Definition HotspotUserUpdateRequest : list gfield :=
  [str "name" [Max 128]; str "password" [Max 128]; str "profile" []; str "server" []; opt "disabled" GBool;
   str "limit_uptime" []; opt "limit_bytes_total" GInt; opt "limit_bytes_in" GInt;
   opt "limit_bytes_out" GInt; opt "comment" GString; opt "mac_address" GString].
Definition PPPSecretCreateRequest : list gfield :=
  [str "name" [Required; Min 1; Max 128]; str "password" []; str "service" []; str "profile" [];
   str "local_address" []; str "remote_address" []; int "limit_bytes_in" []; int "limit_bytes_out" []].
Definition PPPSecretUpdateRequest : list gfield :=
  [str "name" []; str "password" []; str "service" []; str "profile" []; str "local_address" [];
   str "remote_address" []; opt "limit_bytes_in" GInt; opt "limit_bytes_out" GInt].
Definition SetBoolRequest : list gfield := [Fld "value" false GBool []].
Definition RouterPPPProfileCreateRequest : list gfield :=
  [str "name" [Required; Min 1; Max 128]; str "local_address" []; str "remote_address" []; str "rate_limit" [];
   str "session_timeout" []; str "idle_timeout" []; str "parent_queue" []; str "on_up" []; str "on_down" [];
   opt "disabled" GBool; str "comment" []].
Definition RouterPPPProfileUpdateRequest : list gfield :=
  [opt "name" GString; opt "local_address" GString; opt "remote_address" GString; opt "rate_limit" GString;
   opt "session_timeout" GString; opt "idle_timeout" GString; opt "parent_queue" GString;
   opt "on_up" GString; opt "on_down" GString; opt "disabled" GBool; opt "comment" GString].
Definition QuickPrintPackageDTO : list gfield :=
  [str "name" [Required; Min 1; Max 100]; str "server" []; str "user_mode" []; str "user_length" [];
   str "prefix" []; str "char_mode" []; str "profile" []; str "time_limit" []; str "data_limit" [];
   str "comment" []; str "validity" []; str "price" []; str "selling_price" []; str "lock_user" []].
Definition IPPoolCreateRequest : list gfield :=
  [str "name" [Required; Min 1; Max 128]; str "ranges" [Required; Min 1]; str "next_pool" []; str "comment" []].
Definition ScriptCreateRequest : list gfield :=
  [str "name" [Required; Min 1; Max 128]; str "source" [Required; Min 1]; str "comment" []; str "owner" [];
   str "policy" []].
Definition SchedulerCreateRequest : list gfield :=
  [str "name" [Required; Min 1; Max 128]; str "on_event" []; str "start_date" []; str "start_time" [];
   str "interval" []; opt "disabled" GBool; str "comment" []].

(** Devices, administrators, templates. *)
Definition DeviceCreateRequest : list gfield :=
  [str "display_name" [Required; Min 1; Max 128]; str "host" [Required]; int "port" [Required; Min 1; Max 65535];
   str "username" [Required]; str "password" [Required]; Fld "use_tls" false GBool [];
   str "expiry_check_interval" []].
Definition DeviceUpdateRequest : list gfield :=
  [str "display_name" []; str "host" []; opt "port" GInt; str "username" []; str "password" [];
   opt "use_tls" GBool; str "expiry_check_interval" []; opt "active" GBool].
Definition UserCreateRequest : list gfield :=
  [str "username" [Required; Min 3; Max 64]; str "email" [OmitEmpty; Other "email"]; str "password" [Required; Min 8];
   str "role" [Required; OneOf ["admin"; "operator"; "viewer"]]; opt "active" GBool].
Definition UserUpdateRequest : list gfield :=
  [opt "email" GString; strp "password" [Min 8]; strp "role" [OneOf ["admin"; "operator"; "viewer"]];
   opt "active" GBool].
Definition MessageTemplateUpdateRequest : list gfield :=
  [strp "name" [Min 1; Max 200]; strp "body" [Min 1]; opt "variables" GString; opt "active" GBool].
End Dto.
