(* ===== verification/Forms.v ===== *)
(** * Forms: what they share

    A form of the client is a record of texts, a zod schema that accepts or rejects it, the
    values it starts from, and the handler of an accepted submission.  zod is the interface
    [Zod], as its documentation states the checks the schemas use.  The conversions between
    a record's fields and the texts of a form are the idioms of the sources
    ([target?.x ?? ''], [Number(s) || undefined], [s.trim() || undefined]). *)
From Stdlib Require Import QArith.Qround.
From S2P Require Import Prelude JsString JsValue JsNumber Hooks Ui Actions.

Class Zod : Type := {
  (** [z.string().min(n)] *)
  string_min : Z -> string -> bool;
  string_min_spec n s : string_min n s = (n <=? Z.of_nat (String.length s));
  (** [z.enum(l)] *)
  enum : list string -> string -> bool;
  enum_spec l s : enum l s = true <-> s ∈ l
}.

Lemma existsb_spec l s : existsb (String.eqb s) l = true <-> s ∈ l.
Proof.
  rewrite existsb_exists. split.
  - intros (x & Hx & ->%String.eqb_eq). by apply list_elem_of_In.
  - intros H%list_elem_of_In. exists s. by rewrite String.eqb_refl.
Qed.

#[export] Instance documented_zod : Zod :=
  {| string_min n s := n <=? Z.of_nat (String.length s); string_min_spec _ _ := eq_refl;
     enum l s := existsb (String.eqb s) l; enum_spec := existsb_spec |}.

(** ** From a record to a text *)

(** [target?.k ?? d], of a text. *)
Definition field_or (k d : string) (target : option jval) : string :=
  match target with
  | Some r => match get k r with JUndef | JNull => d | v => js_String v end
  | None => d
  end.

(** [target?.k ? String(target.k) : d]. *)
Definition text_if (k d : string) (target : option jval) : string :=
  match target with
  | Some r => if truthy (get k r) then js_String (get k r) else d
  | None => d
  end.

(** [target?.k ? 'true' : 'false']. *)
Definition bool_text (k : string) (target : option jval) : string :=
  match target with
  | Some r => if truthy (get k r) then "true" else "false"
  | None => "false"
  end.

(** ** From a text to a payload *)

Definition trimmed (s : string) : jval := JStr (trim s).
Definition or_undef (s : string) : jval := if String.eqb s "" then JUndef else JStr s.
Definition trim_or_undef (s : string) : jval := or_undef (trim s).
Definition is_true (s : string) : jval := JBool (String.eqb s "true").

(** [if (s.trim()) payload[k] = s.trim()]. *)
Definition set_if_filled (k s : string) : list (string * jval) :=
  if String.eqb (trim s) "" then [] else [(k, trimmed s)].

(** [if (v !== old) body[k] = v]. *)
Definition changed (k : string) (old v : jval) : list (string * jval) :=
  if jval_eqb v old then [] else [(k, v)].

(** [Number(s) || undefined], [s ? Number(s) : undefined]. *)
Definition number_or_undef (s : string) : jval := if truthy (Number_val s) then Number_val s else JUndef.
Definition number_if (s : string) : jval := if String.eqb s "" then JUndef else Number_val s.

(** [Number.isFinite(n) && n > 0 ? Math.round(n) : 0]. *)
Definition round_positive (s : string) : Z :=
  match Number_str s with
  | Some q => if Qle_bool (this q) 0 then 0 else Qfloor (this q + (1 # 2))
  | None => 0
  end.

(** [Math.max(0, +s || 0)]. *)
Definition at_least_0 (s : string) : jval :=
  match Number_str s with
  | Some q => if Qle_bool (this q) 0 then JNum 0 else Number_val s
  | None => JNum 0
  end.

(** [handleSubmit]: the handler runs when the schema accepts; otherwise the form shows the
    messages. *)
Definition handleSubmit (accepted : bool) (onSubmit : prog) : prog := if accepted then onSubmit else Return.

(** ** Lemmas *)

Lemma string_min_nonempty `{Zod} s : string_min 1 s = negb (String.eqb s "").
Proof. rewrite string_min_spec. destruct s; [done|]. cbn [String.length]. by destruct (Z.leb_spec 1 (Z.of_nat (S (String.length s)))); [|lia]. Qed.

Lemma round_positive_nonneg s : 0 <= round_positive s.
Proof.
  unfold round_positive. destruct (Number_str s) as [q|]; [|lia].
  destruct (Qle_bool (this q) 0) eqn:E; [lia|].
  assert (0 <= this q + (1 # 2))%Q as H.
  { assert (0 < this q)%Q as Hq by (apply Qnot_le_lt; intros Hle%Qle_bool_iff; congruence).
    apply Qlt_le_weak in Hq. by apply (Qplus_le_compat 0 (this q) 0 (1 # 2)). }
  apply Qfloor_resp_le in H. exact H.
Qed.
