(* ===== verification/FormsBusiness.v ===== *)
(** * The business forms ([features/{customers,subscriptions,registrations,invoices,payments,voucher/sales}])

    One Module per form: the values (texts, as the inputs hold them), the schema, the
    initial values, the payload and the handler of a submission.  The theorems relate the
    payloads to what the backend accepts (Wire) and to the record an edit starts from. *)
From S2P Require Import Prelude JsString JsValue JsNumber ApiErrors Hooks Ui DialogStores Actions Wire Forms.

Inductive form_mode : Type := add | edit.

(** ** Customers ([customer-mutate-drawer.tsx]) *)

Module CustomerForm.
Section Form.
Context `{Zod}.

Record CustomerFormValues : Type :=
  Values { full_name : string; phone : string; area : string; address : string; notes : string; status : string }.

Definition customerSchema (v : CustomerFormValues) : bool :=
  string_min 1 (full_name v) && string_min 1 (phone v) && enum ["aktif"; "nonaktif"] (status v).

Definition defaultCustomer (target : option jval) : CustomerFormValues :=
  Values (field_or "full_name" "" target) (field_or "phone" "" target) (field_or "area" "" target)
    (field_or "address" "" target) (field_or "notes" "" target) (field_or "status" "aktif" target).

Definition initial (m : form_mode) (target : option jval) : CustomerFormValues :=
  defaultCustomer (match m with edit => target | add => None end).

Definition payload (v : CustomerFormValues) : jval :=
  JObj [("full_name", trimmed (full_name v)); ("phone", trimmed (phone v)); ("address", trimmed (address v));
        ("area", trimmed (area v)); ("notes", trimmed (notes v)); ("status", JStr (status v))].

Definition onSubmit (m : form_mode) (target : option jval) (v : CustomerFormValues) : prog :=
  match m with
  | edit =>
      match target with
      | None => Return
      | Some t =>
          awaits (M_Customers_UpdateCustomer (number "id" t, payload v))
            (fun _ => [Toast success ("Customer '" +:+ full_name v +:+ "' diperbarui") JUndef; Close])
            (fun e => [toast_error "Gagal memperbarui customer" e])
      end
  | add =>
      awaits (M_Customers_CreateCustomer (payload v))
        (fun created => [Toast success ("Customer " +:+ quoted "full_name" created +:+ " berhasil dibuat") JUndef;
                         SetState "createdCustomer" created; SetState "step" (JNum 2)])
        (fun e => [toast_error "Gagal membuat customer" e])
  end.

Definition submit (m : form_mode) (target : option jval) (v : CustomerFormValues) : prog :=
  handleSubmit (customerSchema v) (onSubmit m target v).
End Form.
End CustomerForm.

(** The second step, after a customer was created. *)
Module SubscriptionStep.
Section Form.
Context `{Zod}.

Record SubscriptionFormValues : Type :=
  Values { device_id : string; service_type : string; profile_id : string;
           mikrotik_username : string; mikrotik_password : string }.

Definition subscriptionSchema (v : SubscriptionFormValues) : bool :=
  string_min 1 (device_id v) && enum ["pppoe"; "hotspot"] (service_type v) && string_min 1 (profile_id v) &&
  string_min 1 (mikrotik_username v) && string_min 1 (mikrotik_password v).

Definition defaultValues : SubscriptionFormValues := Values "" "pppoe" "" "" "".

Definition profile_field (service_type : string) (profileId : jval) : string * jval :=
  if String.eqb service_type "pppoe" then ("ppp_profile_id", profileId) else ("hotspot_profile_id", profileId).

Definition payload (customer : jval) (v : SubscriptionFormValues) : jval :=
  JObj [("customer_id", get "id" customer); ("device_id", Number_val (device_id v));
        ("service_type", JStr (service_type v)); ("mikrotik_username", trimmed (mikrotik_username v));
        ("mikrotik_password", JStr (mikrotik_password v));
        profile_field (service_type v) (number_or_undef (profile_id v))].

Definition onSubmit (customer : jval) (v : SubscriptionFormValues) : prog :=
  awaits (M_Subscriptions_CreateSubscription (payload customer v))
    (fun res => [Toast success "Subscription berhasil dibuat" (get "warning" res); Close])
    (fun e => [toast_error "Gagal membuat subscription" e]).

Definition submit (customer : jval) (v : SubscriptionFormValues) : prog :=
  handleSubmit (subscriptionSchema v) (onSubmit customer v).
End Form.
End SubscriptionStep.

(** ** Subscriptions ([subscription-mutate-drawer.tsx]) *)

Module SubscriptionForm.
Section Form.
Context `{Zod}.

Record SubscriptionFormValues : Type :=
  Values { customer_id : string; device_id : string; service_type : string; user_mode : string;
           profile_id : string; mikrotik_username : string; mikrotik_password : string;
           billing_day : string; notes : string }.

Definition baseSchema (v : SubscriptionFormValues) : bool :=
  enum ["pppoe"; "hotspot"] (service_type v) && enum ["up"; "vc"] (user_mode v).

Definition usernameOnly (v : SubscriptionFormValues) : bool :=
  String.eqb (service_type v) "hotspot" && String.eqb (user_mode v) "vc".

Definition addSchema (v : SubscriptionFormValues) : bool :=
  baseSchema v && string_min 1 (customer_id v) && string_min 1 (device_id v) &&
  string_min 1 (mikrotik_username v) &&
  negb (negb (usernameOnly v) && String.eqb (mikrotik_password v) "").

Definition schema (m : form_mode) (v : SubscriptionFormValues) : bool :=
  match m with edit => baseSchema v | add => addSchema v end.

Definition defaultValues (target : option jval) (activeRouterId : option Z) : SubscriptionFormValues :=
  Values (match target with Some t => text "customer_id" t | None => "" end)
    (match target with
     | Some t => text "device_id" t
     | None => match activeRouterId with
               | Some r => if r =? 0 then "" else Z_to_string r
               | None => ""
               end
     end)
    (field_or "service_type" "pppoe" target) "up"
    (match target with
     | Some t => field_or "ppp_profile_id" (field_or "hotspot_profile_id" "" target) target
     | None => ""
     end)
    (field_or "mikrotik_username" "" target) "" (text_if "billing_day" "" target) (field_or "notes" "" target).

Definition initial (m : form_mode) (target : option jval) (activeRouterId : option Z) : SubscriptionFormValues :=
  defaultValues (match m with edit => target | add => None end) activeRouterId.

(** [chars[arr[i] % chars.length]], [arr] being what [crypto.getRandomValues] filled in. *)
Definition chars : string := "abcdefghijklmnopqrstuvwxyz0123456789".
Definition generateHotspotCode (arr : list Z) : string :=
  fold_right (fun a out => match charAt chars (Z.to_nat (a mod 36)) with
                           | Some c => String c out | None => out end) "" arr.

Definition password_of (v : SubscriptionFormValues) : string :=
  if usernameOnly v then trim (mikrotik_username v) else mikrotik_password v.

Definition create_payload (v : SubscriptionFormValues) : jval :=
  JObj [("customer_id", Number_val (customer_id v)); ("device_id", Number_val (device_id v));
        ("service_type", JStr (service_type v)); ("mikrotik_username", trimmed (mikrotik_username v));
        ("mikrotik_password", JStr (password_of v)); ("billing_day", number_if (billing_day v));
        ("notes", trim_or_undef (notes v));
        SubscriptionStep.profile_field (service_type v) (number_or_undef (profile_id v))].

(** The record's own service type decides which profile an edit sets. *)
Definition update_payload (target : jval) (v : SubscriptionFormValues) : jval :=
  JObj [("notes", trimmed (notes v)); ("mikrotik_password", trim_or_undef (mikrotik_password v));
        ("billing_day", number_if (billing_day v));
        SubscriptionStep.profile_field
          (match get "service_type" target with JStr s => s | _ => "" end) (number_or_undef (profile_id v))].

Definition onSubmit (m : form_mode) (target : option jval) (v : SubscriptionFormValues) : prog :=
  match m with
  | add =>
      awaits (M_Subscriptions_CreateSubscription (create_payload v))
        (fun res => [Toast success "Subscription dibuat" (get "warning" res); Close])
        (fun e => [toast_error "Gagal membuat subscription" e])
  | edit =>
      match target with
      | None => Return
      | Some t =>
          awaits (M_Subscriptions_UpdateSubscription (number "id" t, update_payload t v))
            (fun res => [Toast success "Subscription diperbarui" (get "warning" res); Close])
            (fun e => [toast_error "Gagal memperbarui subscription" e])
      end
  end.

Definition submit (m : form_mode) (target : option jval) (v : SubscriptionFormValues) : prog :=
  handleSubmit (schema m v) (onSubmit m target v).
End Form.
End SubscriptionForm.

(** ** Completing an installation ([complete-install-drawer.tsx]) *)

Module InstallForm.
Section Form.
Context `{Zod}.

Record InstallFormValues : Type :=
  Values { device_id : string; service_type : string; profile_id : string;
           mikrotik_username : string; mikrotik_password : string; billing_day : string }.

Definition installFormSchema (v : InstallFormValues) : bool :=
  string_min 1 (device_id v) && enum ["pppoe"; "hotspot"] (service_type v) && string_min 1 (profile_id v) &&
  string_min 1 (mikrotik_username v) && string_min 1 (mikrotik_password v).

Definition defaultServiceType (target : jval) : string :=
  if jval_eqb (get "service_type" target) (JStr "hotspot") then "hotspot" else "pppoe".

Definition defaultValues (target : jval) : InstallFormValues :=
  Values (text_if "device_id" "" (Some target)) (defaultServiceType target)
    (if String.eqb (defaultServiceType target) "pppoe" then text_if "ppp_profile_id" "" (Some target)
     else text_if "hotspot_profile_id" "" (Some target)) "" "" "".

Definition payload (v : InstallFormValues) : jval :=
  JObj ([("device_id", Number_val (device_id v)); ("service_type", JStr (service_type v));
         ("mikrotik_username", trimmed (mikrotik_username v));
         ("mikrotik_password", trimmed (mikrotik_password v));
         SubscriptionStep.profile_field (service_type v) (Number_val (profile_id v))] ++
        (if String.eqb (billing_day v) "" then [] else [("billing_day", Number_val (billing_day v))])).

Definition onSubmit (target : jval) (v : InstallFormValues) : prog :=
  awaits (M_Registrations_CompleteInstall (number "id" target, payload v))
    (fun _ => [Toast success "Installed — subscription + first invoice created" JUndef; Close])
    (fun e => [toast_error "Install failed" e]).

Definition submit (target : jval) (v : InstallFormValues) : prog :=
  handleSubmit (installFormSchema v) (onSubmit target v).
End Form.
End InstallForm.

(** ** Invoices and payments *)

(** [/^\d+$/.test(s)]. *)
Definition all_digits (s : string) : bool := negb (String.eqb s "") && str_forall is_digit s.

Module GenerateInvoice.
Section Form.
Context `{Zod}.
(** The day picked, as [format(d, 'yyyy-MM-dd')] writes it; the schema asks for one. *)
Record FormValues : Type := Values { subscription_id : string; amount : string; period_start : option string;
                                     due_days : string }.

Definition schema (v : FormValues) : bool :=
  string_min 1 (subscription_id v) &&
  (String.eqb (amount v) "" || (all_digits (amount v) && truthy (Number_val (amount v)))) &&
  match period_start v with Some _ => true | None => false end.

Definition defaultValues : FormValues := Values "" "" None "7".

(** [subs.find((s) => s.id === +values.subscription_id)?.customer_id ?? 0]. *)
Definition customer_of (subs : list jval) (v : FormValues) : jval :=
  match List.find (fun s => jval_eqb (get "id" s) (Number_val (subscription_id v))) subs with
  | Some s => match get "customer_id" s with JUndef | JNull => JNum 0 | c => c end
  | None => JNum 0
  end.

Definition payload (subs : list jval) (v : FormValues) : jval :=
  JObj [("subscription_id", Number_val (subscription_id v)); ("customer_id", customer_of subs v);
        ("amount", number_if (amount v)); ("period_start", JStr (period_start v ?? ""));
        ("due_days", number_if (due_days v))].

Definition onSubmit (subs : list jval) (v : FormValues) : prog :=
  awaits (M_Invoices_GenerateInvoice (payload subs v))
    (fun inv => [Toast success ("Invoice " +:+ text "invoice_number" inv +:+ " berhasil dibuat") JUndef;
                 Callback "form.reset" JUndef; Close])
    (fun e => [Toast error "Gagal membuat invoice" (message e)]).

Definition submit (subs : list jval) (v : FormValues) : prog := handleSubmit (schema v) (onSubmit subs v).
End Form.
End GenerateInvoice.

Module RecordPayment.
Section Form.
Context `{Zod}.
Record FormValues : Type := Values { method : string; amount : string; reference_number : string; bank_name : string }.

Definition schema (v : FormValues) : bool :=
  enum ["cash"; "transfer"] (method v) && all_digits (amount v) && truthy (Number_val (amount v)).

Definition defaultValues (defaultAmount : Z) : FormValues := Values "cash" (Z_to_string defaultAmount) "" "".

Definition payload (invoiceId customerId : Z) (v : FormValues) : jval :=
  JObj [("invoice_id", JNum invoiceId); ("customer_id", JNum customerId); ("amount", Number_val (amount v));
        ("method", JStr (method v)); ("reference_number", or_undef (reference_number v));
        ("bank_name", or_undef (bank_name v))].

Definition onSubmit (invoiceId customerId : Z) (invoiceNumber : string) (v : FormValues) : prog :=
  awaits (M_Payments_CreatePayment (payload invoiceId customerId v))
    (fun _ => [Toast success ("Pembayaran " +:+ (if String.eqb (method v) "cash" then "tunai" else "transfer") +:+
                 " " +:+ invoiceNumber +:+ " berhasil dicatat") JUndef; Callback "form.reset" JUndef; Close])
    (fun e => [Toast error "Gagal mencatat pembayaran" (message e)]).

Definition submit (invoiceId customerId : Z) (invoiceNumber : string) (v : FormValues) : prog :=
  handleSubmit (schema v) (onSubmit invoiceId customerId invoiceNumber v).
End Form.
End RecordPayment.

Module CollectByCode.
Section Form.
Context `{Zod}.
Definition schema (code : string) : bool := string_min 4 code.

Definition payload (code : string) : jval :=
  JObj [("code", JStr (toUpperCase (trim code))); ("method", JStr "cash")].

Definition onSubmit (code : string) : prog :=
  awaits (M_Payments_CollectByCode (payload code))
    (fun data => [SetState "result" data])
    (fun e => [SetError "code" (message e)]).
Definition submit (code : string) : prog := handleSubmit (schema code) (onSubmit code).

Definition handleClose : list effect :=
  [Callback "form.reset" JUndef; SetState "result" JNull; Callback "collectMutation.reset" JUndef; Close].
End Form.
End CollectByCode.

(** ** Recording a sale ([record-sale-dialog.tsx]) *)

Module RecordSale.
Record FormState : Type := Form { username : string; profile_name : string; server : string; price : string;
                                  sold_at : string }.
Definition EMPTY : FormState := Form "" "" "" "" "".

Section Form.
Context (parse_local : string -> option string).

Definition localToIso (value : string) : jval :=
  if String.eqb value "" then JUndef
  else match parse_local value with Some s => JStr s | None => JUndef end.

Definition payload (v : FormState) : jval :=
  JObj [("username", trimmed (username v)); ("profile_name", trim_or_undef (profile_name v));
        ("server", trim_or_undef (server v));
        ("price", if negb (String.eqb (trim (price v)) "") &&
                     match Number_str (price v) with Some _ => true | None => false end
                  then Number_val (price v) else JUndef);
        ("sold_at", localToIso (sold_at v))].

Definition handleClose : list effect := [SetState "form" JNull; Close].

Definition handleSubmit (routerId : option Z) (v : FormState) : prog :=
  match routerId with
  | None => Emit (Toast error "Select a router first" JUndef) Return
  | Some rid =>
      if String.eqb (trim (username v)) "" then Emit (Toast error "Username is required" JUndef) Return
      else awaits (M_Sales_RecordSale rid (payload v))
             (fun _ => [Toast success "Sale recorded" (trimmed (username v))] ++ handleClose)
             (fun e => [Toast error "Failed to record sale" (message e)])
  end.
End Form.
End RecordSale.
