(* ===== verification/FormsRouter.v ===== *)
(** * The router and administration forms
    ([features/{hotspot,ppp,voucher/print,routers,admin/users}])

    As FormsBusiness: one Module per form, with its values, schema, initial values, payload
    and the handler of a submission. *)
From S2P Require Import Prelude JsString JsValue JsNumber ApiErrors Hooks Ui DialogStores Actions.
From S2P Require Import Wire Forms FormsBusiness.

(** ** Billing profiles of the hotspot ([hotspot/billing/dialogs/mutate-drawer.tsx]) *)

Module HsDbProfileForm.
Section Form.
Context `{Zod}.

Record HsDbProfileFormValues : Type := Values {
  name : string; role : string; rate_limit : string; address_pool : string; shared_users : string;
  status_autorefresh : string; parent_queue : string; description : string; active : string;
  price_monthly : string; is_public : bool;
  expiry_mode : string; validity : string; price : string; sell_price : string; lock_mac : string
}.

Definition hsDbProfileSchema (v : HsDbProfileFormValues) : bool :=
  enum ["true"; "false"] (active v) && enum ["true"; "false"] (lock_mac v).
Definition addSchema (v : HsDbProfileFormValues) : bool := hsDbProfileSchema v && string_min 1 (name v).
Definition schema (m : form_mode) : HsDbProfileFormValues -> bool :=
  match m with edit => hsDbProfileSchema | add => addSchema end.

Definition defaultValues (t : option jval) : HsDbProfileFormValues :=
  Values (field_or "name" "" t) (field_or "role" "voucher" t) (field_or "rate_limit" "" t)
    (field_or "address_pool" "" t) (text_if "shared_users" "1" t) (field_or "status_autorefresh" "1m" t)
    (field_or "parent_queue" "" t) (field_or "description" "" t) (bool_text "active" t)
    (text_if "price_monthly" "" t)
    (match t with Some r => truthy (get "is_public" r) | None => false end)
    (field_or "expiry_mode" "0" t) (field_or "validity" "" t) (text_if "price" "" t)
    (text_if "sell_price" "" t) (bool_text "lock_mac" t).
Definition initial (m : form_mode) (t : option jval) : HsDbProfileFormValues :=
  defaultValues (match m with edit => t | add => None end).

(** [num(s) || 1], [s.trim() || '1m']. *)
Definition or_1 (n : Z) : Z := if n =? 0 then 1 else n.
Definition or_text (s d : string) : string := if String.eqb s "" then d else s.

Definition mikrotik (v : HsDbProfileFormValues) : list (string * jval) :=
  [("rate_limit", trimmed (rate_limit v)); ("address_pool", trimmed (address_pool v));
   ("shared_users", JNum (or_1 (round_positive (shared_users v))));
   ("status_autorefresh", JStr (or_text (trim (status_autorefresh v)) "1m"));
   ("parent_queue", trimmed (parent_queue v)); ("description", trimmed (description v));
   ("active", is_true (active v))].

Definition billing (v : HsDbProfileFormValues) : list (string * jval) :=
  if String.eqb (role v) "permanent"
  then [("price_monthly", JNum (round_positive (price_monthly v))); ("is_public", JBool (is_public v))]
  else [("expiry_mode", JStr (expiry_mode v)); ("validity", trimmed (validity v));
        ("price", JNum (round_positive (price v))); ("sell_price", JNum (round_positive (sell_price v)));
        ("lock_mac", is_true (lock_mac v))].

Definition create_payload (v : HsDbProfileFormValues) : jval :=
  JObj ([("name", trimmed (name v)); ("role", JStr (role v))] ++ mikrotik v ++ billing v).
Definition update_payload (v : HsDbProfileFormValues) : jval := JObj (mikrotik v ++ billing v).

Definition onSubmit (m : form_mode) (rid : Z) (target : option jval) (v : HsDbProfileFormValues) : prog :=
  match m with
  | add =>
      awaits (M_HotspotBilling_CreateHotspotDbProfile rid (create_payload v))
        (fun res => [Toast success ("Profile '" +:+ name v +:+ "' dibuat") (get "warning" res); Close])
        (fun e => [toast_error "Gagal membuat profile" e])
  | edit =>
      match target with
      | None => Return
      | Some t =>
          awaits (M_HotspotBilling_UpdateHotspotDbProfile rid (Ui.number "id" t, update_payload v))
            (fun res => [Toast success ("Profile '" +:+ name v +:+ "' diperbarui") (get "warning" res); Close])
            (fun e => [toast_error "Gagal memperbarui profile" e])
      end
  end.
Definition submit (m : form_mode) (rid : Z) (target : option jval) (v : HsDbProfileFormValues) : prog :=
  handleSubmit (schema m v) (onSubmit m rid target v).
End Form.
End HsDbProfileForm.

(** ** Billing profiles of PPP ([ppp/billing/dialogs/db-profile-mutate-drawer.tsx]) *)

Module DbProfileForm.
Section Form.
Context `{Zod}.

Record DbProfileFormValues : Type := Values {
  name : string; rate_limit : string; price_monthly : string; local_address : string; remote_address : string;
  session_timeout : string; idle_timeout : string; parent_queue : string; description : string;
  active : string; is_public : bool
}.

Definition dbProfileFormSchema (v : DbProfileFormValues) : bool := enum ["true"; "false"] (active v).
Definition addSchema (v : DbProfileFormValues) : bool := dbProfileFormSchema v && string_min 1 (name v).
Definition schema (m : form_mode) : DbProfileFormValues -> bool :=
  match m with edit => dbProfileFormSchema | add => addSchema end.

Definition defaultValues (t : option jval) : DbProfileFormValues :=
  Values (field_or "name" "" t) (field_or "rate_limit" "" t) (text_if "price_monthly" "" t)
    (field_or "local_address" "" t) (field_or "remote_address" "" t) (field_or "session_timeout" "" t)
    (field_or "idle_timeout" "" t) (field_or "parent_queue" "" t) (field_or "description" "" t)
    (bool_text "active" t) (match t with Some r => truthy (get "is_public" r) | None => false end).
Definition initial (m : form_mode) (t : option jval) : DbProfileFormValues :=
  defaultValues (match m with edit => t | add => None end).

Definition parsePrice : string -> Z := round_positive.

Definition common (v : DbProfileFormValues) : list (string * jval) :=
  [("rate_limit", trimmed (rate_limit v)); ("local_address", trimmed (local_address v));
   ("remote_address", trimmed (remote_address v)); ("session_timeout", trimmed (session_timeout v));
   ("idle_timeout", trimmed (idle_timeout v)); ("parent_queue", trimmed (parent_queue v));
   ("description", trimmed (description v)); ("price_monthly", JNum (parsePrice (price_monthly v)));
   ("active", is_true (active v)); ("is_public", JBool (is_public v))].

Definition create_payload (v : DbProfileFormValues) : jval := JObj (("name", trimmed (name v)) :: common v).
Definition update_payload (v : DbProfileFormValues) : jval := JObj (common v).

Definition onSubmit (m : form_mode) (rid : Z) (target : option jval) (v : DbProfileFormValues) : prog :=
  match m with
  | add =>
      awaits (M_PPPBilling_CreatePPPDbProfile rid (create_payload v))
        (fun res => [Toast success ("Profile '" +:+ name v +:+ "' dibuat") (get "warning" res); Close])
        (fun e => [toast_error "Gagal membuat profile" e])
  | edit =>
      match target with
      | None => Return
      | Some t =>
          awaits (M_PPPBilling_UpdatePPPDbProfile rid (Ui.number "id" t, update_payload v))
            (fun res => [Toast success ("Profile '" +:+ name v +:+ "' diperbarui") (get "warning" res); Close])
            (fun e => [toast_error "Gagal memperbarui profile" e])
      end
  end.
Definition submit (m : form_mode) (rid : Z) (target : option jval) (v : DbProfileFormValues) : prog :=
  handleSubmit (schema m v) (onSubmit m rid target v).
End Form.
End DbProfileForm.

(** ** PPP profiles of the router ([ppp/profiles/dialogs/profile-mutate-drawer.tsx]) *)

Module PPPProfileForm.
Section Form.
Context `{Zod}.

(** The optional texts always hold a text: the form starts from [defaultValues]. *)
Record ProfileFormValues : Type := Values {
  name : string; rate_limit : string; local_address : string; remote_address : string; session_timeout : string;
  idle_timeout : string; parent_queue : string; comment : string; disabled : string
}.

Definition profileFormSchema (v : ProfileFormValues) : bool :=
  string_min 1 (name v) && enum ["true"; "false"] (disabled v).

Definition defaultValues (t : option jval) : ProfileFormValues :=
  Values (field_or "name" "" t) (field_or "rate_limit" "" t) (field_or "local_address" "" t)
    (field_or "remote_address" "" t) (field_or "session_timeout" "" t) (field_or "idle_timeout" "" t)
    (field_or "parent_queue" "" t) (field_or "comment" "" t) (bool_text "disabled" t).
Definition initial (m : form_mode) (t : option jval) : ProfileFormValues :=
  defaultValues (match m with edit => t | add => None end).

Definition payload (v : ProfileFormValues) : jval :=
  JObj [("name", trimmed (name v)); ("local_address", trimmed (local_address v));
        ("remote_address", trimmed (remote_address v)); ("rate_limit", trim_or_undef (rate_limit v));
        ("session_timeout", trim_or_undef (session_timeout v)); ("idle_timeout", trim_or_undef (idle_timeout v));
        ("parent_queue", trim_or_undef (parent_queue v)); ("comment", trim_or_undef (comment v));
        ("disabled", is_true (disabled v))].

Definition onSubmit (m : form_mode) (rid : Z) (target : option jval) (v : ProfileFormValues) : prog :=
  match m with
  | add =>
      awaits (M_PPPProfiles_AddPPPProfile rid (payload v))
        (fun _ => [Toast success ("Profile '" +:+ name v +:+ "' berhasil ditambahkan") JUndef; Close])
        (fun e => [toast_error "Gagal menambahkan profile" e])
  | edit =>
      match target with
      | None => Return
      | Some t =>
          awaits (M_PPPProfiles_UpdatePPPProfile rid (Ui.text "id" t, payload v))
            (fun _ => [Toast success ("Profile '" +:+ name v +:+ "' berhasil diperbarui") JUndef; Close])
            (fun e => [toast_error "Gagal memperbarui profile" e])
      end
  end.
Definition submit (m : form_mode) (rid : Z) (target : option jval) (v : ProfileFormValues) : prog :=
  handleSubmit (profileFormSchema v) (onSubmit m rid target v).
End Form.
End PPPProfileForm.

(** ** Hotspot profiles ([hotspot/profiles/dialogs/profile-mutate-drawer.tsx]); the record
    is the view model of the table. *)

Module HotspotProfileForm.
Section Form.
Context `{Zod}.

Record HotspotProfileFormValues : Type := Values {
  name : string; role : string; rate_limit : string; shared_users : string; parent_queue : string;
  address_pool : string; validity : string; expire_mode : string; price : string; selling_price : string;
  lock_user : string; lock_server : string
}.

Definition addSchema (v : HotspotProfileFormValues) : bool := string_min 1 (name v).
Definition schema (m : form_mode) (v : HotspotProfileFormValues) : bool :=
  match m with edit => true | add => addSchema v end.

Definition lock_text (k : string) (t : option jval) : string :=
  match t with Some r => if truthy (get k r) then "enable" else "disable" | None => "disable" end.

Definition defaultValues (t : option jval) : HotspotProfileFormValues :=
  Values (field_or "name" "" t) (field_or "role" "voucher" t) (field_or "rateLimit" "1M/1M" t)
    (field_or "sharedUsers" "1" t) (field_or "parentQueue" "none" t) (field_or "addressPool" "" t)
    (field_or "validity" "1h" t) (field_or "expMode" "rem" t) (field_or "price" "0" t)
    (field_or "sellingPrice" "0" t) (lock_text "lockUser" t) (lock_text "lockServer" t).
Definition initial (m : form_mode) (t : option jval) : HotspotProfileFormValues :=
  defaultValues (match m with edit => t | add => None end).

Definition toNum : string -> jval := at_least_0.

Definition payload (v : HotspotProfileFormValues) : jval :=
  JObj [("name", trimmed (name v)); ("role", JStr (role v)); ("rate_limit", or_undef (rate_limit v));
        ("shared_users", or_undef (shared_users v)); ("parent_queue", or_undef (parent_queue v));
        ("address_pool", trimmed (address_pool v)); ("validity", or_undef (validity v));
        ("expire_mode", or_undef (expire_mode v)); ("price", toNum (price v));
        ("selling_price", toNum (selling_price v)); ("lock_user", or_undef (lock_user v));
        ("lock_server", or_undef (lock_server v))].

Definition onSubmit (m : form_mode) (rid : Z) (target : option jval) (v : HotspotProfileFormValues) : prog :=
  match m, target with
  | add, _ =>
      awaits (M_HotspotProfiles_AddHotspotProfile rid (payload v))
        (fun _ => [Toast success ("Profile '" +:+ name v +:+ "' ditambahkan") JUndef; Close])
        (fun e => [Toast error "Gagal menambahkan profile" (message_or_String e)])
  | edit, Some t =>
      awaits (M_HotspotProfiles_UpdateHotspotProfile rid (Ui.text "id" t, payload v))
        (fun _ => [Toast success ("Profile '" +:+ name v +:+ "' diperbarui") JUndef; Close])
        (fun e => [Toast error "Gagal memperbarui profile" (message_or_String e)])
  | edit, None => Return
  end.
Definition submit (m : form_mode) (rid : Z) (target : option jval) (v : HotspotProfileFormValues) : prog :=
  handleSubmit (schema m v) (onSubmit m rid target v).
End Form.
End HotspotProfileForm.

(** ** Hotspot users ([hotspot/users/dialogs/user-mutate-drawer.tsx]) *)

Module UserForm.
Section Form.
Context `{Zod}.

Record UserFormValues : Type := Values {
  name : string; password : string; profile : string; server : string; mac_address : string; comment : string;
  disabled : string
}.

Definition baseSchema (v : UserFormValues) : bool :=
  string_min 1 (name v) && enum ["true"; "false"] (disabled v).
Definition addSchema (v : UserFormValues) : bool := baseSchema v && string_min 1 (password v).
Definition schema (m : form_mode) : UserFormValues -> bool :=
  match m with edit => baseSchema | add => addSchema end.

Definition defaultValues (t : option jval) (profileFallback : string) : UserFormValues :=
  Values (field_or "name" "" t) (field_or "password" "" t) (field_or "profile" profileFallback t)
    (field_or "server" "all" t) (field_or "macAddress" "" t) (field_or "comment" "" t)
    (match t with
     | Some r => if jval_eqb (get "enabledStatus" r) (JStr "disabled") then "true" else "false"
     | None => "false"
     end).
Definition initial (m : form_mode) (t : option jval) (profileFallback : string) : UserFormValues :=
  defaultValues (match m with edit => t | add => None end) profileFallback.

Definition activeServers (servers : list jval) : list jval :=
  JObj [("name", JStr "all")] :: List.filter (fun s => negb (truthy (get "disabled" s))) servers.

Definition payload (v : UserFormValues) : jval :=
  JObj ([("name", trimmed (name v)); ("password", JStr (password v)); ("profile", JStr (profile v));
         ("server", JStr (server v)); ("disabled", JStr (disabled v))] ++
        (if String.eqb (trim (mac_address v)) "" then [] else [("mac-address", trimmed (mac_address v))]) ++
        (if String.eqb (trim (comment v)) "" then [] else [("comment", trimmed (comment v))])).

Definition onSubmit (m : form_mode) (rid : Z) (target : option jval) (v : UserFormValues) : prog :=
  match m, target with
  | add, _ =>
      awaits (M_HotspotUsers_AddHotspotUser rid (payload v))
        (fun _ => [Toast success ("User '" +:+ name v +:+ "' ditambahkan") JUndef; Close])
        (fun e => [Toast error "Gagal menambahkan user" (message_or_String e)])
  | edit, Some t =>
      awaits (M_HotspotUsers_UpdateHotspotUser rid (Ui.text "id" t, payload v))
        (fun _ => [Toast success ("User '" +:+ name v +:+ "' diperbarui") JUndef; Close])
        (fun e => [Toast error "Gagal memperbarui user" (message_or_String e)])
  | edit, None => Return
  end.
Definition submit (m : form_mode) (rid : Z) (target : option jval) (v : UserFormValues) : prog :=
  handleSubmit (schema m v) (onSubmit m rid target v).
End Form.
End UserForm.

(** ** PPP secrets ([ppp/secrets/dialogs/secret-mutate-drawer.tsx]) *)

Module SecretForm.
Section Form.
Context `{Zod}.

Record SecretFormValues : Type := Values {
  name : string; password : string; service : string; profile : string; local_address : string;
  remote_address : string; comment : string
}.

Definition baseSchema (v : SecretFormValues) : bool := string_min 1 (name v).
Definition addSchema (v : SecretFormValues) : bool := baseSchema v && string_min 1 (password v).
Definition schema (m : form_mode) : SecretFormValues -> bool :=
  match m with edit => baseSchema | add => addSchema end.

Definition defaultValues (t : option jval) : SecretFormValues :=
  Values (field_or "name" "" t) "" (field_or "service" "any" t) (field_or "profile" "" t)
    (field_or "local_address" "" t) (field_or "remote_address" "" t) (field_or "comment" "" t).
Definition initial (m : form_mode) (t : option jval) : SecretFormValues :=
  defaultValues (match m with edit => t | add => None end).

Definition payload (v : SecretFormValues) : jval :=
  JObj ([("name", trimmed (name v)); ("password", JStr (password v)); ("service", JStr (service v))] ++
        set_if_filled "profile" (profile v) ++ set_if_filled "local_address" (local_address v) ++
        set_if_filled "remote_address" (remote_address v)).

Definition patch (v : SecretFormValues) : jval :=
  JObj ([("name", trimmed (name v)); ("service", JStr (service v)); ("profile", trimmed (profile v));
         ("local_address", trimmed (local_address v)); ("remote_address", trimmed (remote_address v));
         ("comment", trimmed (comment v))] ++ set_if_filled "password" (password v)).

Definition onSubmit (m : form_mode) (rid : Z) (target : option jval) (v : SecretFormValues) : prog :=
  match m with
  | add =>
      awaits (M_PPPSecrets_AddPPPSecret rid (payload v))
        (fun _ => [Toast success ("Secret '" +:+ name v +:+ "' ditambahkan") JUndef; Close])
        (fun e => [toast_error "Gagal menambahkan secret" e])
  | edit =>
      match target with
      | None => Return
      | Some t =>
          awaits (M_PPPSecrets_UpdatePPPSecret rid (Ui.text "id" t, patch v))
            (fun _ => [Toast success ("Secret '" +:+ name v +:+ "' diperbarui") JUndef; Close])
            (fun e => [toast_error "Gagal memperbarui secret" e])
      end
  end.
Definition submit (m : form_mode) (rid : Z) (target : option jval) (v : SecretFormValues) : prog :=
  handleSubmit (schema m v) (onSubmit m rid target v).
End Form.
End SecretForm.

(** ** IP bindings made from hosts ([hotspot/hosts/dialogs/make-binding-dialog.tsx]) *)

Module BindingForm.
Section Form.
Context `{Zod}.

Record BindingFormValues : Type := Values {
  mac : string; address : string; toAddress : string; server : string; type : string; comment : string
}.

Definition bindingSchema (v : BindingFormValues) : bool := enum ["bypassed"; "regular"; "blocked"] (type v).
Definition singleSchema (v : BindingFormValues) : bool := bindingSchema v && string_min 1 (mac v).
Definition schema (isBulk : bool) : BindingFormValues -> bool := if isBulk then bindingSchema else singleSchema.

Definition initial (isBulk : bool) (target : option jval) : BindingFormValues :=
  let from k := if isBulk then "" else field_or k "" target in
  Values (from "macAddress") (from "address") (from "toAddress") (from "server") "bypassed" (from "comment").

(** [v !== '']. *)
Definition compactPayload (input : list (string * jval)) : jval :=
  JObj (List.filter (fun f => negb (jval_eqb f.2 (JStr ""))) input).

Definition single_payload (v : BindingFormValues) : jval :=
  compactPayload [("mac-address", trimmed (mac v)); ("address", trimmed (address v));
                  ("to-address", trimmed (toAddress v)); ("type", JStr (type v));
                  ("comment", JStr (comment v)); ("server", JStr (server v))].
Definition host_payload (v : BindingFormValues) (h : jval) : jval :=
  compactPayload [("mac-address", get "macAddress" h); ("address", get "address" h);
                  ("to-address", get "toAddress" h); ("type", JStr (type v));
                  ("comment", JStr (comment v)); ("server", get "server" h)].

(** [ids.map((id) => bulk[id]).filter(Boolean)]. *)
Definition targets (ids : list string) (bulk : gmap string jval) : list jval := omap (bulk !!.) ids.

Definition binding_toast (results : list answer) : effect :=
  let failed := Z.of_nat (length (List.filter (fun r => negb (fulfilled r)) results)) in
  let ok := Z.of_nat (length results) - failed in
  if failed =? 0 then Toast success ("Created " +:+ Z_to_string ok +:+ " IP binding" +:+ plural ok) JUndef
  else if ok =? 0 then
    Toast error ("Failed to create " +:+ Z_to_string failed +:+ " binding" +:+ plural failed) JUndef
  else Toast warning
    ("Created " +:+ Z_to_string ok +:+ ", failed " +:+ Z_to_string failed +:+ " of " +:+
     Z_to_string (Z.of_nat (length results)) +:+ " bindings") JUndef.

Definition onSubmit (isBulk : bool) (rid : Z) (ids : list string) (bulk : gmap string jval)
    (v : BindingFormValues) : prog :=
  if isBulk then
    match targets ids bulk with
    | [] => Emit (Toast error "No hosts selected" JUndef) Return
    | hosts =>
        MutateAll (M_HotspotBindings_AddIPBinding rid ∘ host_payload v <$> hosts)
          (fun rs => emits [binding_toast rs; Close] Return)
    end
  else
    awaits (M_HotspotBindings_AddIPBinding rid (single_payload v))
      (fun _ => [Toast success ("IP binding created for " +:+ mac v) JUndef; Close])
      (fun e => [Toast error "Failed to create binding" (message_or_String e)]).
Definition submit (isBulk : bool) (rid : Z) (ids : list string) (bulk : gmap string jval)
    (v : BindingFormValues) : prog :=
  handleSubmit (schema isBulk v) (onSubmit isBulk rid ids bulk v).
End Form.
End BindingForm.

(** ** Routers ([routers/dialogs/routers-mutate-dialog.tsx])

    No schema: the handler checks the draft itself, and an edit sends the fields that
    differ from the record. *)

Module RouterForm.

Record Draft : Type := Values {
  display_name : string; host : string; port : jval; username : string; password : string; use_tls : string
}.

(** [selectedRouter.port ?? 8728]. *)
Definition port_of (r : jval) : jval := match get "port" r with JUndef | JNull => JNum 8728 | p => p end.

Definition initial (m : form_mode) (selectedRouter : option jval) : Draft :=
  match m, selectedRouter with
  | edit, Some r =>
      Values (Ui.text "display_name" r) (Ui.text "host" r) (port_of r) (Ui.text "username" r) ""
        (bool_text "use_tls" (Some r))
  | _, _ => Values "" "" (JNum 8728) "admin" "" "false"
  end.

(** The [onChange] of the port: [Number(e.target.value)]. *)
Definition setPort (value : string) (d : Draft) : Draft :=
  Values (display_name d) (host d) (Number_val value) (username d) (password d) (use_tls d).

(** [!port || port < 1 || port > 65535], negated. *)
Definition port_ok (p : jval) : bool :=
  truthy p && match Number p with
              | Some q => Qle_bool 1 (this q) && Qle_bool (this q) 65535
              | None => true
              end.

Definition blank (s : string) : bool := String.eqb (trim s) "".

Definition invalid (m : form_mode) (d : Draft) : option string :=
  if blank (display_name d) then Some "Name is required"
  else if blank (host d) then Some "Host is required"
  else if negb (port_ok (port d)) then Some "Port must be between 1 and 65535"
  else if blank (username d) then Some "Username is required"
  else match m with
       | add => if String.eqb (password d) "" then Some "Password is required" else None
       | edit => None
       end.

Definition create_body (d : Draft) : jval :=
  JObj [("display_name", trimmed (display_name d)); ("host", trimmed (host d)); ("port", port d);
        ("username", trimmed (username d)); ("password", JStr (password d)); ("use_tls", is_true (use_tls d))].

Definition changes (r : jval) (d : Draft) : list (string * jval) :=
  changed "display_name" (get "display_name" r) (trimmed (display_name d)) ++
  changed "host" (get "host" r) (trimmed (host d)) ++
  changed "port" (port_of r) (port d) ++
  changed "username" (get "username" r) (trimmed (username d)) ++
  (if String.eqb (password d) "" then [] else [("password", JStr (password d))]) ++
  changed "use_tls" (JBool (truthy (get "use_tls" r))) (is_true (use_tls d)).

Definition handleSubmit (m : form_mode) (selectedRouter : option jval) (d : Draft) : prog :=
  match invalid m d with
  | Some msg => Emit (Toast error msg JUndef) Return
  | None =>
      match m with
      | add =>
          awaits (M_Routers_CreateRouter (create_body d))
            (fun _ => [Toast success ("Router '" +:+ trim (display_name d) +:+ "' added") JUndef; Close])
            (fun e => [toast_error "Failed to add router" e])
      | edit =>
          match selectedRouter with
          | None => Return
          | Some r =>
              match changes r d with
              | [] => emits [Toast info "No changes to save" JUndef; Close] Return
              | body =>
                  awaits (M_Routers_UpdateRouter (Ui.number "id" r, JObj body))
                    (fun _ => [Toast success ("Router " +:+ quoted "display_name" r +:+ " updated") JUndef; Close])
                    (fun e => [toast_error "Failed to update router" e])
              end
          end
      end
  end.
End RouterForm.

(** ** Staff accounts ([admin/users/dialogs/admin-user-mutate-dialog.tsx]) *)

Module AdminUserForm.

Record Draft : Type := Values { username : string; password : string; role : string; active : bool }.

Definition initial (m : form_mode) (target : option jval) : Draft :=
  match m, target with
  | edit, Some t => Values (Ui.text "username" t) "" (Ui.text "role" t) (truthy (get "active" t))
  | _, _ => Values "" "" "operator" true
  end.

Definition len (s : string) : Z := Z.of_nat (String.length s).

Definition invalid (m : form_mode) (d : Draft) : option string :=
  if String.eqb (trim (username d)) "" then Some "Username is required"
  else match m with
       | add => if len (password d) <? 8 then Some "Password must be at least 8 characters" else None
       | edit => if (0 <? len (password d)) && (len (password d) <? 8)
                 then Some "New password must be at least 8 characters (or leave blank)" else None
       end.

Definition create_body (d : Draft) : jval :=
  JObj [("username", trimmed (username d)); ("password", JStr (password d)); ("role", JStr (role d))].

Definition changes (t : jval) (d : Draft) : list (string * jval) :=
  changed "username" (get "username" t) (trimmed (username d)) ++
  (if 0 <? len (password d) then [("password", JStr (password d))] else []) ++
  changed "role" (get "role" t) (JStr (role d)) ++
  changed "active" (get "active" t) (JBool (active d)).

Definition handleSubmit (m : form_mode) (target : option jval) (d : Draft) : prog :=
  match invalid m d with
  | Some msg => Emit (Toast error msg JUndef) Return
  | None =>
      match m with
      | add =>
          awaits (M_AdminUsers_CreateAdminUser (create_body d))
            (fun _ => [Toast success ("User '" +:+ trim (username d) +:+ "' created") JUndef; Close])
            (fun e => [toast_error "Failed to create user" e])
      | edit =>
          match target with
          | None => Return
          | Some t =>
              match changes t d with
              | [] => emits [Toast info "No changes to save" JUndef; Close] Return
              | body =>
                  awaits (M_AdminUsers_UpdateAdminUser (Ui.number "id" t, JObj body))
                    (fun _ => [Toast success ("User '" +:+ trim (username d) +:+ "' updated") JUndef; Close])
                    (fun e => [toast_error "Failed to update user" e])
              end
          end
      end
  end.
End AdminUserForm.
