(* ===== verification/FormsPreset.v ===== *)
(** * The quick-print preset form
    ([features/voucher/print/dialogs/preset-mutate-drawer.tsx])

    The values of the form, what it sends, and what it does to the store of colours and
    labels; with Presets, the theorem that a preset saved here is the preset the cards
    show afterwards. *)
From S2P Require Import Prelude JsString JsValue JsNumber ApiErrors Hooks Ui DialogStores Actions Wire Forms.
From S2P Require Import FormsBusiness Voucher Presets.

Module PresetForm.
Section Form.
Context `{Zod}.

(** Every field of a preset but its id; the enums and numbers of the schema are the types
    of the fields. *)
Record PresetFormValues : Type := Values {
  name : string; package : string; color : PresetColor; server : string; profile : string; userMode : UserType;
  userLength : Z; charSet : CharSet; prefix : string; timeLimit : string; dataLimit : Z;
  dataLimitUnit : DataLimitUnit; validity : string; price : Z; sellingPrice : Z; lockUser : bool
}.

Definition presetFormSchema (v : PresetFormValues) : bool := string_min 1 (name v) && string_min 1 (package v).

Definition defaultValues (profileFallback : string) (target : option QuickPrintPreset) : PresetFormValues :=
  match target with
  | Some t =>
      Values (Presets.name t) (Presets.package t) (Presets.color t) (Presets.server t) (Presets.profile t)
        (Presets.userMode t) (Presets.userLength t) (Presets.charSet t) (Presets.prefix t) (Presets.timeLimit t)
        (Presets.dataLimit t) (Presets.dataLimitUnit t) (Presets.validity t) (Presets.price t)
        (Presets.sellingPrice t) (Presets.lockUser t)
  | None => Values "QPNew" "New Package" blue "all" profileFallback up 6 lower_number "" "1h" 0 MB "1h" 0 0 true
  end.
Definition initial (m : form_mode) (profileFallback : string) (t : option QuickPrintPreset) : PresetFormValues :=
  defaultValues profileFallback (match m with edit => t | add => None end).

(** [{ id: target?.id ?? '', ...values }]. *)
Definition draft (target : option QuickPrintPreset) (v : PresetFormValues) : QuickPrintPreset :=
  Preset (match target with Some t => Presets.id t | None => "" end) (name v) (package v) (server v) (userMode v)
    (userLength v) (prefix v) (charSet v) (profile v) (timeLimit v) (dataLimit v) (dataLimitUnit v)
    (validity v) (price v) (sellingPrice v) (lockUser v) (color v).

Definition apiBody (target : option QuickPrintPreset) (v : PresetFormValues) : QuickPrintPackage :=
  presetToApi (draft target v).

(** The package as JSON. *)
Definition package_json (p : QuickPrintPackage) : jval :=
  JObj [("name", JStr (p_name p)); ("server", JStr (p_server p)); ("user_mode", JStr (user_mode p));
        ("user_length", JStr (user_length p)); ("prefix", JStr (p_prefix p)); ("char_mode", JStr (char_mode p));
        ("profile", JStr (p_profile p)); ("time_limit", JStr (time_limit p));
        ("data_limit", JStr (data_limit p)); ("comment", JStr (p_comment p));
        ("validity", JStr (p_validity p)); ("price", JStr (p_price p));
        ("selling_price", JStr (selling_price p)); ("lock_user", JStr (lock_user p))].

(** Choosing a profile fills the validity and the prices it has. *)
Definition handleProfileChange (profiles : list jval) (n : string) (v : PresetFormValues) : PresetFormValues :=
  let v := Values (name v) (package v) (color v) (server v) n (userMode v) (userLength v) (charSet v) (prefix v)
             (timeLimit v) (dataLimit v) (dataLimitUnit v) (validity v) (price v) (sellingPrice v) (lockUser v) in
  match List.find (fun p => jval_eqb (get "name" p) (JStr n)) profiles with
  | None => v
  | Some p =>
      let num k old := if truthy (get k p) then (match Number_val (js_String (get k p)) with
                                                 | JNum z => z | _ => 0 end) else old in
      Values (name v) (package v) (color v) (server v) n (userMode v) (userLength v) (charSet v) (prefix v)
        (timeLimit v) (dataLimit v) (dataLimitUnit v)
        (if truthy (get "validity" p) then js_String (get "validity" p) else validity v)
        (num "price" (price v)) (num "selling_price" (sellingPrice v)) (lockUser v)
  end.

(** The calls on the store of colours and labels, in a success callback. *)
Inductive meta_call : Type :=
| setMeta (n : string) (m : PresetMeta)
| renameMeta (oldName newName : string).

Definition run_meta (c : meta_call) (byName : gmap string PresetMeta) : gmap string PresetMeta :=
  match c with
  | setMeta n m => MetaStore.set n m byName
  | renameMeta o n => MetaStore.rename o n byName
  end.

Definition meta (v : PresetFormValues) : PresetMeta := Meta (color v) (package v).

Definition on_saved (m : form_mode) (target : option QuickPrintPreset) (v : PresetFormValues) : list meta_call :=
  match m, target with
  | add, _ => [setMeta (name v) (meta v)]
  | edit, Some t =>
      (if String.eqb (Presets.name t) (name v) then [] else [renameMeta (Presets.name t) (name v)]) ++
      [setMeta (name v) (meta v)]
  | edit, None => []
  end.

(** The calls as effects of a run: they are made when the server accepted. *)
Definition meta_effect (c : meta_call) : effect :=
  match c with
  | setMeta n _ => Callback "setMeta" (JStr n)
  | renameMeta o n => Callback "renameMeta" (JArr [JStr o; JStr n])
  end.

Definition onSubmit (m : form_mode) (routerId : option Z) (target : option QuickPrintPreset)
    (v : PresetFormValues) : prog :=
  match routerId with
  | None => Emit (Toast Ui.error "Select a router first" JUndef) Return
  | Some rid =>
      let body := package_json (apiBody target v) in
      match m, target with
      | add, _ =>
          awaits (M_QuickPrint_CreateQuickPrintPackage rid body)
            (fun _ => map meta_effect (on_saved m target v) ++
                      [Toast success ("Preset '" +:+ name v +:+ "' ditambahkan") JUndef; Close])
            (fun e => [Toast Ui.error "Gagal menambahkan preset" (message e)])
      | edit, Some t =>
          awaits (M_QuickPrint_UpdateQuickPrintPackage rid (Presets.name t, body))
            (fun _ => map meta_effect (on_saved m target v) ++
                      [Toast success ("Preset '" +:+ name v +:+ "' diperbarui") JUndef; Close])
            (fun e => [Toast Ui.error "Gagal memperbarui preset" (message e)])
      | edit, None => Return
      end
  end.
Definition submit (m : form_mode) (routerId : option Z) (target : option QuickPrintPreset)
    (v : PresetFormValues) : prog :=
  handleSubmit (presetFormSchema v) (onSubmit m routerId target v).
End Form.

(** ** The preset shown afterwards *)

(** The amounts a browser's numbers hold exactly, none negative. *)
Definition amounts_ok (v : PresetFormValues) : Prop :=
  0 <= userLength v < 2 ^ 53 /\ 0 <= dataLimit v < 2 ^ 53 /\ 0 <= price v < 2 ^ 53 /\ 0 <= sellingPrice v < 2 ^ 53.

(** What the cards make of the values: a server, a time limit or a length left empty read as
    "all", "0" and 5, and no data limit is one in MB. *)
Definition as_shown (v : PresetFormValues) : PresetFormValues :=
  Values (name v) (package v) (color v) (or_text (server v) "all") (profile v) (userMode v)
    (if userLength v =? 0 then 5 else userLength v) (charSet v) (prefix v) (or_text (timeLimit v) "0") (dataLimit v)
    (if dataLimit v =? 0 then MB else dataLimitUnit v) (validity v) (price v) (sellingPrice v) (lockUser v).

Definition store_after (m : form_mode) (target : option QuickPrintPreset) (v : PresetFormValues)
    (byName : gmap string PresetMeta) : gmap string PresetMeta :=
  fold_left (fun s c => run_meta c s) (on_saved m target v) byName.

Lemma shown_as_shown t t' v m : amounts_ok v -> apiToPreset (apiBody t v) m = apiToPreset (apiBody t' (as_shown v)) m.
Proof.
  intros (Hl & Hd & Hp & Hsp). destruct v as [nm pk co sv pr um ul cs pf tl dl du va pc sp lk].
  cbn [userLength dataLimit price sellingPrice] in *. unfold apiBody, draft, as_shown, presetToApi, apiToPreset.
  cbn -[parseDataLimit Z_to_string parseInt0 safeCharSet safeUserMode or_text].
  rewrite !parseInt0_of by (destruct (ul =? 0); lia).
  assert (forall s d, d <> "" -> or_text (or_text s d) d = or_text s d) as Hor.
  { intros s d Hdn. unfold or_text. destruct (String.eqb s "") eqn:E; [|by rewrite E]. by rewrite (proj2 (String.eqb_neq _ _) Hdn). }
  rewrite !Hor by done.
  destruct (ul =? 0) eqn:E; cbn [Z.eqb]; rewrite ?E;
  destruct (Z.eqb_spec dl 0) as [->|_]; reflexivity.
Qed.

(** C14: what the cards show of a saved preset.  Saved in either mode, also under a new name, and
    with amounts that are not negative and below 2^53, a preset is shown with the values of
    the form once the list is loaded again, but for what was left empty: without a server,
    a time limit or a length the card says "all", "0" and 5, and the unit of no data limit
    is MB.  So it is shown exactly as entered when none of these is empty; the colour and
    the label are the entered ones in any case, and presets of other names keep theirs. *)
Theorem saved_preset_is_shown m target v byName :
  (m = edit -> is_Some target) -> amounts_ok v ->
  let byName' := store_after m target v byName in
  apiToPreset (apiBody target v) (byName' !! name v) =
    Some (draft (Some (Preset (name v) "" "" "" vc 0 "" lower "" "" 0 MB "" 0 0 false blue)) (as_shown v)) /\
  (server v <> "" -> timeLimit v <> "" -> userLength v <> 0 -> (dataLimit v = 0 -> dataLimitUnit v = MB) -> as_shown v = v) /\
  color (as_shown v) = color v /\ package (as_shown v) = package v /\
  forall k, k <> name v -> (forall t, target = Some t -> m = edit -> k <> Presets.name t) ->
    byName' !! k = byName !! k.
Proof.
  intros Hm Ha. cbn zeta.
  assert (store_after m target v byName !! name v = Some (meta v) /\
          forall k, k <> name v -> (forall t, target = Some t -> m = edit -> k <> Presets.name t) ->
          store_after m target v byName !! k = byName !! k) as [Hv Hk].
  { unfold store_after, on_saved. destruct m; cbn [fold_left run_meta].
    - unfold MetaStore.set. split; [by rewrite lookup_insert_eq|]. intros k Hk _. by rewrite lookup_insert_ne.
    - destruct (Hm eq_refl) as [t ->]. rewrite fold_left_app. cbn [fold_left run_meta]. unfold MetaStore.set.
      split; [by rewrite lookup_insert_eq|]. intros k Hk Hold. rewrite lookup_insert_ne by done.
      specialize (Hold t eq_refl eq_refl). destruct (String.eqb _ _); cbn [fold_left run_meta]; [done|].
      unfold MetaStore.rename. destruct (String.eqb _ _); [done|]. destruct (byName !! Presets.name t); [|done].
      by rewrite lookup_insert_ne, lookup_delete_ne by done. }
  split_and!; [|intros Hs Ht Hl Hu|done|done|exact Hk].
  - rewrite Hv. set (p0 := Preset (name v) "" "" "" vc 0 "" lower "" "" 0 MB "" 0 0 false blue).
    rewrite (shown_as_shown target (Some p0)) by done.
    change (meta v) with (Meta (Presets.color (draft (Some p0) (as_shown v))) (Presets.package (draft (Some p0) (as_shown v)))).
    apply preset_shown. destruct Ha as (Hl & Hd & Hp & Hsp). unfold preset_ok, or_text.
    cbn -[or_text]. split_and!; try done; try lia; try (unfold or_text; by destruct (String.eqb_spec (server v) ""));
      try (unfold or_text; by destruct (String.eqb_spec (timeLimit v) "")); try (destruct (Z.eqb_spec (userLength v) 0); lia).
    intros ->. done.
  - destruct v. cbn in *. unfold as_shown, or_text. cbn.
    rewrite (proj2 (String.eqb_neq _ _) Hs), (proj2 (String.eqb_neq _ _) Ht), (proj2 (Z.eqb_neq _ _) Hl).
    destruct (Z.eqb_spec dataLimit0 0) as [E|]; [by rewrite Hu|done].
Qed.

Definition demo_values : PresetFormValues :=
  Values "5rb" "5 ribu" teal "all" "1d" vc 6 lower_number "" "1d" 2 GB "1d" 5000 6000 true.

Lemma saved_preset_is_shown_witness :
  let byName' := store_after edit (Some demo_preset) demo_values {["10k" := Meta red "10 ribu"]} in
  apiToPreset (apiBody (Some demo_preset) demo_values) (byName' !! "5rb") =
    Some (draft (Some (Preset "5rb" "" "" "" vc 0 "" lower "" "" 0 MB "" 0 0 false blue)) demo_values) /\
  byName' !! "10k" = Some (Meta red "10 ribu").
Proof.
  destruct (saved_preset_is_shown edit (Some demo_preset) demo_values {["10k" := Meta red "10 ribu"]}
    ltac:(intros _; by eexists) ltac:(repeat split; done)) as (H1 & _ & _ & _ & H2).
  split; [exact H1|]. rewrite (H2 "10k" ltac:(done) ltac:(intros t [= <-] _; done)). reflexivity.
Defined.
End PresetForm.
