(* ===== verification/ViewModels.v ===== *)
(** * Rows of the router's tables
    ([features/hotspot/{_shared,users,active,hosts,profiles}], [features/routers/components/view-model.ts])

    The shared readers of RouterOS texts, the expiry written in a voucher's comment, and the
    view models the tables and dialogs work on; with the responses of the backend they are
    built from ([src/api/dto/hotspot.go]).  The local time zone is the parameter [to_utc],
    from local to UTC milliseconds.  View models are records of JSON values, as the forms
    take them; a [Date] is its time value. *)
From S2P Require Import Prelude JsString JsValue JsNumber Http ApiErrors Hooks Hotspot Ui DialogStores Actions.
From S2P Require Import JsDate Wire Forms FormsBusiness FormsRouter.

(** ** Readers ([_shared/format.ts]) *)

(** [s == null || s === '' ? 0 : Number.isFinite(n) ? n : 0]. *)
Definition parseRouterOSNumber (s : jval) : jval :=
  match s with
  | JUndef | JNull => JNum 0
  | JNum n => JNum n
  | _ => if jval_eqb (Number_val (js_String s)) (JFrac "NaN") then JNum 0 else Number_val (js_String s)
  end.

Definition routerOSBool (v : jval) : bool := jval_eqb v (JStr "true").

Definition formatUptime (s : jval) : jval := if truthy s then s else JStr "—".

(** ** Derived state ([_shared/derive.ts]) *)

Definition MONTH_INDEX : list (string * Z) :=
  [("jan", 0); ("feb", 1); ("mar", 2); ("apr", 3); ("may", 4); ("jun", 5);
   ("jul", 6); ("aug", 7); ("sep", 8); ("oct", 9); ("nov", 10); ("dec", 11)].

Fixpoint index_of (k : string) (l : list (string * Z)) : option Z :=
  match l with
  | [] => None
  | (k', v) :: l' => if String.eqb k k' then Some v else index_of k l'
  end.

(** The pieces of [EXPIRY_RE]. *)
Definition lit (c : ascii) (s : string) : option string :=
  match s with String c' r => if Ascii.eqb c c' then Some r else None | "" => None end.
Definition digits_between (lo hi : nat) (s : string) : option (Z * string) :=
  let '(ds, r) := span is_digit s in
  if ((lo <=? String.length ds) && (String.length ds <=? hi))%nat then Some (digits_val 0 ds, r) else None.
Definition spaces (s : string) : option string :=
  let '(ws, r) := span is_space s in if String.eqb ws "" then None else Some r.
Definition letters3 (s : string) : option (string * string) :=
  match s with
  | String a (String b (String c r)) =>
      if str_forall (fun x => is_lower x || is_upper x) (String a (String b (String c "")))
      then Some (String a (String b (String c "")), r) else None
  | _ => None
  end.

Section Expiry.
Context (to_utc : Z -> Z).

(** [EXPIRY_RE.exec(s)] and the date of its groups. *)
Definition expiry_of (s : string) : option Z :=
  m ← letters3 s; let '(mon, s) := (m : string * string) in
  s ← lit "/" s; d ← digits_between 1 2 s; let '(day, s) := (d : Z * string) in
  s ← lit "/" s; y ← digits_between 4 4 s; let '(year, s) := (y : Z * string) in
  s ← spaces s; h ← digits_between 1 2 s; let '(hour, s) := (h : Z * string) in
  s ← lit ":" s; mi ← digits_between 1 2 s; let '(minute, s) := (mi : Z * string) in
  s ← lit ":" s; se ← digits_between 1 2 s; let '(second, s) := (se : Z * string) in
  s ← spaces s;
  match s with
  | String c _ =>
      if existsb (Ascii.eqb (upper_char c)) ["N"; "X"]%char then
        month ← index_of (toLowerCase mon) MONTH_INDEX;
        Some (to_utc (local_time year month day hour minute second))
      else None
  | "" => None
  end.

Definition parseExpiryFromComment (comment : jval) : option Z :=
  match comment with
  | JStr s => if String.eqb s "" then None else expiry_of (trim s)
  | _ => None
  end.

(** [!onLogin ? false : onLogin.includes(':put ...')], the text being [:put (] followed by a
    double quote and a comma. *)
Definition monitor_signature : string := ":put (" +:+ String dquote ",".
Definition hasExpiredMonitor (onLogin : jval) : bool :=
  match onLogin with JStr s => includes monitor_signature s | _ => false end.

(** ** View models *)

(** [raw.k ?? '']. *)
Definition or_empty (k : string) (raw : jval) : jval :=
  match get k raw with JUndef | JNull => JStr "" | v => v end.

Definition toUserViewModel (raw : jval) (now : Z) : jval :=
  let expAt := parseExpiryFromComment (get "comment" raw) in
  JObj [("id", get "id" raw); ("name", or_empty "name" raw); ("password", or_empty "password" raw);
        ("profile", or_empty "profile" raw); ("macAddress", or_empty "mac-address" raw);
        ("server", or_empty "server" raw); ("uptime", or_empty "uptime" raw);
        ("bytesIn", parseRouterOSNumber (get "bytes-in" raw));
        ("bytesOut", parseRouterOSNumber (get "bytes-out" raw));
        ("enabledStatus", JStr (if routerOSBool (get "disabled" raw) then "disabled" else "enabled"));
        ("expiry", match expAt with
                   | Some t => JObj [("at", JNum t); ("isPast", JBool (t <? now))]
                   | None => JNull
                   end);
        ("comment", or_empty "comment" raw); ("raw", raw)].
End Expiry.

Definition toActiveViewModel (raw : jval) : jval :=
  JObj [("id", get ".id" raw); ("user", or_empty "user" raw); ("address", or_empty "address" raw);
        ("macAddress", or_empty "mac-address" raw); ("server", or_empty "server" raw);
        ("uptime", or_empty "uptime" raw); ("sessionTimeLeft", or_empty "session-time-left" raw);
        ("loginBy", or_empty "login-by" raw); ("comment", or_empty "comment" raw); ("raw", raw)].

Definition toHostViewModel (raw : jval) : jval :=
  JObj [("id", get ".id" raw); ("macAddress", or_empty "mac-address" raw); ("address", or_empty "address" raw);
        ("toAddress", or_empty "to-address" raw); ("server", or_empty "server" raw);
        ("authorized", JBool (routerOSBool (get "authorized" raw))); ("comment", or_empty "comment" raw);
        ("raw", raw)].

Definition toProfileViewModel (raw : jval) : jval :=
  JObj [("id", get "id" raw); ("name", get "name" raw); ("role", get "role" raw);
        ("rateLimit", or_empty "rate_limit" raw); ("sharedUsers", or_empty "shared_users" raw);
        ("addressPool", or_empty "address_pool" raw); ("parentQueue", or_empty "parent_queue" raw);
        ("validity", or_empty "validity" raw);
        ("expMode", if truthy (get "exp_mode" raw) then get "exp_mode" raw else JStr "none");
        ("price", parseRouterOSNumber (get "price" raw));
        ("sellingPrice", parseRouterOSNumber (get "selling_price" raw));
        ("lockUser", JBool (routerOSBool (get "lock_user" raw)));
        ("lockServer", JBool (routerOSBool (get "lock_server" raw)));
        ("noExpiry", match get "no_expiry" raw with JUndef | JNull => JBool false | v => v end);
        ("hasExpiredMonitor", JBool (hasExpiredMonitor (get "on_login" raw))); ("raw", raw)].

(** *** Routers *)

(** Whole minutes, hours, days and months since [dateStr], which [parse] reads. *)
Definition formatRelativeTime (parse : string -> option Z) (now : Z) (dateStr : jval) : string :=
  match dateStr with
  | JStr s =>
      if String.eqb s "" then "Never"
      else match parse s with
           | None => "NaN month ago"
           | Some last =>
               let diff := now - last in
               if diff <? 60000 then "Just now"
               else
                 let ago n unit := Z_to_string n +:+ " " +:+ unit +:+ plural n +:+ " ago" in
                 let minutes := diff / 60000 in
                 if minutes <? 60 then Z_to_string minutes +:+ " min ago"
                 else let hours := minutes / 60 in
                 if hours <? 24 then ago hours "hour"
                 else let days := hours / 24 in
                 if days <? 30 then ago days "day" else ago (days / 30) "month"
           end
  | _ => "Never"
  end.

Definition routerStatusConfig : list (string * string) :=
  [("connected", "Connected"); ("connecting", "Connecting"); ("unknown", "Unknown");
   ("disconnected", "Disconnected"); ("error", "Error")].

Definition statusLabel (status : jval) : string :=
  match status with
  | JStr s => match List.find (fun kv => String.eqb kv.1 s) routerStatusConfig with
              | Some kv => kv.2 | None => "Unknown" end
  | _ => "Unknown"
  end.

Definition toRouterViewModel (parse : string -> option Z) (now : Z) (router : jval) : jval :=
  JObj [("id", get "id" router); ("name", get "display_name" router); ("host", get "host" router);
        ("port", get "port" router); ("username", get "username" router); ("status", get "status" router);
        ("statusLabel", JStr (statusLabel (get "status" router)));
        ("lastSeenAt", JStr (formatRelativeTime parse now (get "last_seen" router)))].

(** ** The responses of the backend *)

(** [json:"k,omitempty"] of a string. *)
Definition omitempty (k s : string) : list (string * jval) := if String.eqb s "" then [] else [(k, JStr s)].

Record HotspotUserResponse : Type := UserResponse {
  u_id : string; u_name : string; u_profile : string; u_server : string; u_disabled : bool; u_comment : string;
  u_mac : string; u_address : string; u_email : string; u_routes : string; u_limit_uptime : string;
  u_limit_bytes_total : Z; u_limit_bytes_in : Z; u_limit_bytes_out : Z; u_bytes_in : Z; u_bytes_out : Z;
  u_uptime : string
}.
Definition user_json (u : HotspotUserResponse) : jval :=
  JObj ([("id", JStr (u_id u)); ("name", JStr (u_name u))] ++ omitempty "profile" (u_profile u) ++
        omitempty "server" (u_server u) ++ [("disabled", JBool (u_disabled u))] ++
        omitempty "comment" (u_comment u) ++ omitempty "mac_address" (u_mac u) ++
        omitempty "address" (u_address u) ++ omitempty "email" (u_email u) ++ omitempty "routes" (u_routes u) ++
        omitempty "limit_uptime" (u_limit_uptime u) ++
        [("limit_bytes_total", JNum (u_limit_bytes_total u)); ("limit_bytes_in", JNum (u_limit_bytes_in u));
         ("limit_bytes_out", JNum (u_limit_bytes_out u)); ("bytes_in", JNum (u_bytes_in u));
         ("bytes_out", JNum (u_bytes_out u))] ++ omitempty "uptime" (u_uptime u)).

Record HotspotActiveResponse : Type := ActiveResponse {
  a_id : string; a_user : string; a_address : string; a_mac : string; a_server : string; a_login_by : string;
  a_uptime : string; a_bytes_in : Z; a_bytes_out : Z; a_packets_in : Z; a_packets_out : Z; a_idle_time : string;
  a_session_time_left : string; a_keepalive_timeout : string; a_comment : string
}.
Definition active_json (a : HotspotActiveResponse) : jval :=
  JObj ([("id", JStr (a_id a)); ("user", JStr (a_user a))] ++ omitempty "address" (a_address a) ++
        omitempty "mac_address" (a_mac a) ++ omitempty "server" (a_server a) ++
        omitempty "login_by" (a_login_by a) ++ omitempty "uptime" (a_uptime a) ++
        [("bytes_in", JNum (a_bytes_in a)); ("bytes_out", JNum (a_bytes_out a));
         ("packets_in", JNum (a_packets_in a)); ("packets_out", JNum (a_packets_out a))] ++
        omitempty "idle_time" (a_idle_time a) ++ omitempty "session_time_left" (a_session_time_left a) ++
        omitempty "keepalive_timeout" (a_keepalive_timeout a) ++ omitempty "comment" (a_comment a)).

Record HotspotHostResponse : Type := HostResponse {
  h_id : string; h_mac : string; h_address : string; h_to_address : string; h_server : string;
  h_authorized : bool; h_bypassed : bool; h_dynamic : bool; h_dhcp : bool; h_uptime : string;
  h_idle_time : string; h_keepalive_timeout : string; h_bytes_in : Z; h_bytes_out : Z; h_comment : string
}.
Definition host_json (h : HotspotHostResponse) : jval :=
  JObj ([("id", JStr (h_id h))] ++ omitempty "mac_address" (h_mac h) ++ omitempty "address" (h_address h) ++
        omitempty "to_address" (h_to_address h) ++ omitempty "server" (h_server h) ++
        [("authorized", JBool (h_authorized h)); ("bypassed", JBool (h_bypassed h));
         ("dynamic", JBool (h_dynamic h)); ("dhcp", JBool (h_dhcp h))] ++ omitempty "uptime" (h_uptime h) ++
        omitempty "idle_time" (h_idle_time h) ++ omitempty "keepalive_timeout" (h_keepalive_timeout h) ++
        [("bytes_in", JNum (h_bytes_in h)); ("bytes_out", JNum (h_bytes_out h))] ++
        omitempty "comment" (h_comment h)).

(** ** Lemmas *)

(** Reading a key past fields that have other keys. *)
Lemma get_cons_ne k k' v fs : k <> k' -> get k (JObj ((k', v) :: fs)) = get k (JObj fs).
Proof. intros H. cbn. by rewrite (proj2 (String.eqb_neq _ _) H). Qed.

Lemma get_omit_ne k k' s fs : k <> k' -> get k (JObj (omitempty k' s ++ fs)) = get k (JObj fs).
Proof. intros H. unfold omitempty. destruct (String.eqb s ""); [done|]. by apply get_cons_ne. Qed.

Lemma get_omit_last k s : get k (JObj (omitempty k s)) = if String.eqb s "" then JUndef else JStr s.
Proof. unfold omitempty. destruct (String.eqb s ""); [done|]. cbn. by rewrite String.eqb_refl. Qed.

Lemma get_omit_eq k s fs : get k (JObj fs) = JUndef ->
  get k (JObj (omitempty k s ++ fs)) = if String.eqb s "" then JUndef else JStr s.
Proof.
  intros H. unfold omitempty. destruct (String.eqb s ""); [done|]. cbn. rewrite String.eqb_refl.
  cbn [get] in H. by rewrite H.
Qed.

Lemma or_empty_omit k s raw :
  get k raw = (if String.eqb s "" then JUndef else JStr s) -> or_empty k raw = JStr s.
Proof. intros H. unfold or_empty. rewrite H. destruct (String.eqb_spec s "") as [->|]; done. Qed.

Lemma or_empty_text k s raw : get k raw = JStr s -> or_empty k raw = JStr s.
Proof. intros H. unfold or_empty. by rewrite H. Qed.

Lemma get_omit_last_ne k k' s : k <> k' -> get k (JObj (omitempty k' s)) = JUndef.
Proof. intros H. rewrite <- (app_nil_r (omitempty k' s)). by rewrite get_omit_ne. Qed.

Lemma get_cons_eq k v fs : get k (JObj fs) = JUndef -> get k (JObj ((k, v) :: fs)) = v.
Proof. cbn. intros ->. by rewrite String.eqb_refl. Qed.

(** Reads a key of a response. *)
Ltac read_key :=
  unfold user_json, active_json, host_json; cbn [app];
  repeat first [rewrite get_cons_ne by done | rewrite get_omit_ne by done | rewrite get_omit_last_ne by done];
  try first [reflexivity
            | apply get_cons_eq; read_key
            | apply get_omit_eq; read_key
            | apply get_omit_last].

Ltac read_text := first [solve [read_key] | apply or_empty_text; solve [read_key] | apply or_empty_omit; solve [read_key]].

(** Reads a field of a model, down to the response's own fields. *)
Ltac column :=
  repeat (rewrite get_cons_ne by done); rewrite get_cons_eq by (repeat (rewrite get_cons_ne by done); reflexivity).
Ltac column_value :=
  first [read_text
        | match goal with |- context [get ?k (?json ?r)] =>
            let E := fresh in
            assert (get k (json r) = JUndef) as E by read_key; rewrite E; reflexivity end
        | unfold user_json, host_json; cbn [app];
          repeat first [rewrite get_cons_ne by done | rewrite get_omit_ne by done];
          rewrite get_cons_eq by read_key; reflexivity].

(** What the hotspot tables show of the backend's rows.  Name, profile, server, uptime and
    comment of a user, and user, address, server, uptime and comment of a session are
    shown as they are; but every user is shown as enabled, without MAC address, traffic or
    password, sessions and hosts have no id, MAC address or login method, and no host is
    shown as authorized: the models read RouterOS names and texts where the backend sends
    its own names and booleans. *)
Theorem hotspot_rows to_utc now u a h :
  let user := toUserViewModel to_utc (user_json u) now in
  let session := toActiveViewModel (active_json a) in
  let host := toHostViewModel (host_json h) in
  (get "id" user = JStr (u_id u) /\ get "name" user = JStr (u_name u) /\ get "profile" user = JStr (u_profile u) /\
   get "server" user = JStr (u_server u) /\ get "uptime" user = JStr (u_uptime u) /\
   get "comment" user = JStr (u_comment u)) /\
  (get "enabledStatus" user = JStr "enabled" /\ get "macAddress" user = JStr "" /\
   get "password" user = JStr "" /\ get "bytesIn" user = JNum 0 /\ get "bytesOut" user = JNum 0) /\
  (get "user" session = JStr (a_user a) /\ get "address" session = JStr (a_address a) /\
   get "server" session = JStr (a_server a) /\ get "uptime" session = JStr (a_uptime a) /\
   get "comment" session = JStr (a_comment a)) /\
  (get "id" session = JUndef /\ get "macAddress" session = JStr "" /\ get "loginBy" session = JStr "" /\
   get "sessionTimeLeft" session = JStr "") /\
  (get "address" host = JStr (h_address h) /\ get "server" host = JStr (h_server h) /\
   get "comment" host = JStr (h_comment h)) /\
  (get "id" host = JUndef /\ get "macAddress" host = JStr "" /\ get "toAddress" host = JStr "" /\
   get "authorized" host = JBool false).
Proof.
  cbn zeta. unfold toUserViewModel, toActiveViewModel, toHostViewModel.
  split_and!; column; column_value.
Qed.

(** So the actions on sessions and hosts do not reach the session or host they were
    clicked for: removing or disconnecting any session, disconnecting a selection or all of
    them, and deleting any host sends the id ["undefined"], the same for every row. *)
Theorem row_actions_lose_target o n rid a l t h bulk :
  let session := toActiveViewModel (active_json a) in
  let host := toHostViewModel (host_json h) in
  requests (exec o n (RowActions.remove_session rid session)) =
    [M_HotspotActive_RemoveHotspotActive rid "undefined"] /\
  requests (exec o n (Disconnect.handleConfirm rid (St (Some ActiveDialog.disconnect) (Some session) []) None)) =
    [M_HotspotActive_DisconnectHotspotUser rid "undefined"] /\
  requests (exec o n (Disconnect.handleConfirm rid (St (Some ActiveDialog.disconnect_all) t [])
                        (Some (map active_json l)))) =
    map (fun _ => M_HotspotActive_DisconnectHotspotUser rid "undefined") l /\
  requests (exec o n (HostDelete.handleConfirm rid
                        (HostsDialog.HSt (St (Some HostsDialog.delete) (Some host) []) bulk))) =
    [M_HotspotHosts_RemoveHotspotHost rid "undefined"].
Proof.
  cbn zeta.
  assert (text "id" (toActiveViewModel (active_json a)) = "undefined") as Ha.
  { unfold text, toActiveViewModel. assert (get ".id" (active_json a) = JUndef) as E by read_key. by rewrite E. }
  assert (text "id" (toHostViewModel (host_json h)) = "undefined") as Hh.
  { unfold text, toHostViewModel. assert (get ".id" (host_json h) = JUndef) as E by read_key. by rewrite E. }
  split_and!.
  - unfold RowActions.remove_session. rewrite Ha. cbn. by destruct (o n).
  - unfold Disconnect.handleConfirm. cbn [mode target]. rewrite Ha. cbn. by destruct (o n).
  - assert (map (text ".id") (map active_json l) = map (fun _ => "undefined") l) as Hl.
    { rewrite map_map. apply map_ext. intros x. unfold text.
      assert (get ".id" (active_json x) = JUndef) as E by read_key. by rewrite E. }
    unfold Disconnect.handleConfirm, Disconnect.targetIds. cbn [mode].
    change (Some (map active_json l) ?? []) with (map active_json l). rewrite Hl.
    destruct l as [|x l]; [by destruct t|]. destruct t; cbn [map];
      rewrite (proj1 (fan_out_accounts _ ("undefined" :: map (fun _ => "undefined") l) _ _ _ o n));
      cbn [map]; by rewrite map_map.
  - unfold HostDelete.handleConfirm. cbn -[toHostViewModel]. rewrite Hh. cbn. by destruct (o n).
Qed.

(** Editing a hotspot profile unlocks it.  However the profile was locked, the list's row
    says [enable] or [disable], the model reads only [true], and so the form opened on the
    row starts with the lock off: saving it untouched sends [lock_mac: false]. *)
Theorem profile_edit_unlocks rid id p row :
  HotspotProfiles.profile_row p = Ok row ->
  let v := HotspotProfileForm.initial edit (Some (toProfileViewModel row)) in
  get "lock_mac" (r_body (c_req (HotspotProfiles.updateHotspotProfile rid id (HotspotProfileForm.payload v)))) =
    JBool false.
Proof.
  intros H. cbn zeta.
  assert (get "lock_user" row = JStr (if truthy (get "lock_mac" p) then "enable" else "disable")) as Hrow.
  { destruct (HotspotProfiles.not_null p) eqn:Hn.
    - destruct (HotspotProfilesLaws.profile_row_fields p Hn) as (row' & H' & _ & _ & _ & _ & HH & _).
      rewrite H in H'. by simplify_eq.
    - unfold HotspotProfiles.profile_row in H. by rewrite Hn in H. }
  assert (get "lockUser" (toProfileViewModel row) = JBool false) as Hl.
  { unfold toProfileViewModel. column. rewrite Hrow. by destruct (truthy _). }
  destruct (HotspotProfilesLaws.payload_fields
    (get "role" (HotspotProfileForm.payload (HotspotProfileForm.initial edit (Some (toProfileViewModel row)))))
    (HotspotProfileForm.payload (HotspotProfileForm.initial edit (Some (toProfileViewModel row)))))
    as (_ & _ & _ & Hb & _).
  unfold HotspotProfiles.updateHotspotProfile, api_put. cbn [c_req r_body]. rewrite Hb.
  assert (get "lock_user" (HotspotProfileForm.payload (HotspotProfileForm.initial edit (Some (toProfileViewModel row))))
    = JStr "disable") as Hk.
  { unfold HotspotProfileForm.payload, HotspotProfileForm.initial, HotspotProfileForm.defaultValues,
      HotspotProfileForm.lock_text. rewrite Hl. cbn [truthy HotspotProfileForm.lock_user]. column. reflexivity. }
  unfold HotspotProfiles.lock_mac_field. by rewrite Hk.
Qed.

Lemma profile_edit_unlocks_witness :
  let locked := JObj [("id", JNum 3); ("name", JStr "1d"); ("lock_mac", JBool true)] in
  exists row, HotspotProfiles.profile_row locked = Ok row /\
    get "lock_mac" (r_body (c_req (HotspotProfiles.updateHotspotProfile 1 "3"
      (HotspotProfileForm.payload (HotspotProfileForm.initial edit (Some (toProfileViewModel row))))))) = JBool false.
Proof.
  intros locked. destruct (HotspotProfiles.profile_row locked) as [row|] eqn:E; [|discriminate E].
  exists row. split; [reflexivity|]. exact (profile_edit_unlocks 1 "3" locked row E).
Defined.

(** ** The expiry in a comment *)

Definition pad2 (n : Z) : string := padStart 2 "0" (Z_to_string n).
Definition month_name (m : Z) : string :=
  match nth_error MONTH_INDEX (Z.to_nat m) with Some kv => kv.1 | None => "" end.

(** The backend's stamp, [Jan/02/2006 15:04:05] in lower case
    ([src/workflows/generate_vouchers.go]). *)
Definition mikhmon_stamp (y m d h mi s : Z) : string :=
  month_name m +:+ "/" +:+ pad2 d +:+ "/" +:+ Z_to_string y +:+ " " +:+
  pad2 h +:+ ":" +:+ pad2 mi +:+ ":" +:+ pad2 s.

Definition stamp_range (y m d h mi s : Z) : Prop :=
  1900 <= y < 3000 /\ 0 <= m < 12 /\ 0 <= d < 100 /\ 0 <= h < 100 /\ 0 <= mi < 100 /\ 0 <= s < 100.

Definition reads_as (k : nat) (t : string) (n : Z) : bool :=
  str_forall is_digit t && (String.length t =? k)%nat && (digits_val 0 t =? n).

Lemma reads_range k f lo len n :
  forallb (fun i => reads_as k (f (lo + Z.of_nat i)) (lo + Z.of_nat i)) (seq 0 (Z.to_nat len)) = true ->
  lo <= n < lo + len -> reads_as k (f n) n = true.
Proof.
  intros H Hn. rewrite forallb_forall in H. specialize (H (Z.to_nat (n - lo))).
  replace (lo + Z.of_nat (Z.to_nat (n - lo))) with n in H by lia. apply H. apply in_seq. lia.
Qed.

Lemma pad2_reads n : 0 <= n < 100 -> reads_as 2 (pad2 n) n = true.
Proof. intros H. apply (reads_range 2 pad2 0 100); [vm_compute; reflexivity|lia]. Qed.

Lemma year_reads n : 1900 <= n < 3000 -> reads_as 4 (Z_to_string n) n = true.
Proof. intros H. apply (reads_range 4 Z_to_string 1900 1100); [vm_compute; reflexivity|lia]. Qed.

Lemma digits_between_reads lo hi k t n c r :
  reads_as k t n = true -> (lo <= k <= hi)%nat -> is_digit c = false ->
  digits_between lo hi (t +:+ String c r) = Some (n, String c r).
Proof.
  intros [[Hf <-%Nat.eqb_eq]%andb_true_iff Hv%Z.eqb_eq]%andb_true_iff Hk Hc.
  unfold digits_between. rewrite span_app by done.
  destruct (Nat.leb_spec lo (String.length t)); [|lia]. destruct (Nat.leb_spec (String.length t) hi); [|lia].
  cbn. by rewrite Hv.
Qed.

Lemma digits_between_end lo hi k t n :
  reads_as k t n = true -> (lo <= k <= hi)%nat -> digits_between lo hi t = Some (n, "").
Proof.
  intros [[Hf <-%Nat.eqb_eq]%andb_true_iff Hv%Z.eqb_eq]%andb_true_iff Hk.
  unfold digits_between. rewrite <- (app_str_nil_r t) at 1. rewrite span_app by done.
  destruct (Nat.leb_spec lo (String.length t)); [|lia]. destruct (Nat.leb_spec (String.length t) hi); [|lia].
  cbn. by rewrite Hv.
Qed.

Lemma month_cases m : 0 <= m < 12 -> exists a b c, month_name m = String a (String b (String c "")) /\
  str_forall (fun x => is_lower x || is_upper x) (month_name m) = true /\
  index_of (toLowerCase (month_name m)) MONTH_INDEX = Some m /\ is_space a = false.
Proof.
  intros H.
  assert (m = 0 \/ m = 1 \/ m = 2 \/ m = 3 \/ m = 4 \/ m = 5 \/ m = 6 \/ m = 7 \/ m = 8 \/ m = 9 \/ m = 10 \/ m = 11)
    as Hm by lia.
  destruct Hm as [-> | [-> | [-> | [-> | [-> | [-> | [-> | [-> | [-> | [-> | [-> | ->]]]]]]]]]]];
    repeat eexists; reflexivity.
Qed.

Lemma spaces_one r : from_option is_space false (first_char r) = false -> spaces (String " " r) = Some r.
Proof. intros H. unfold spaces. change (String " " r) with (" " +:+ r). by rewrite span_app. Qed.

Lemma digit_first k t n r : reads_as (S k) t n = true ->
  from_option is_space false (first_char (t +:+ r)) = false.
Proof.
  unfold reads_as. intros H. b2p. destruct t as [|c t]; [done|]. cbn in *. b2p.
  by apply digit_not_space.
Qed.

(** The stamp consumed, what is left decides. *)
Lemma expiry_of_stamp to_utc y m d h mi s rest :
  stamp_range y m d h mi s -> from_option is_digit false (first_char rest) = false ->
  expiry_of to_utc (mikhmon_stamp y m d h mi s +:+ rest) =
    match spaces rest with
    | Some (String c _) =>
        if existsb (Ascii.eqb (upper_char c)) ["N"; "X"]%char
        then Some (to_utc (local_time y m d h mi s)) else None
    | _ => None
    end.
Proof.
  intros (Hy & Hm & Hd & Hh & Hmi & Hs) Hr. unfold mikhmon_stamp.
  destruct (month_cases m Hm) as (a & b & c & E & Hl & Hi & _). rewrite E in *. clear E.
  repeat rewrite <- app_str_assoc. unfold expiry_of, letters3. cbn [String.append].
  rewrite Hl. cbn [option_bind mbind lit]. change (Ascii.eqb "/" "/") with true. cbn iota.
  cbn [option_bind mbind].
  rewrite (digits_between_reads 1 2 2 _ d) by first [done | lia | apply pad2_reads; lia].
  cbn [option_bind mbind lit]. change (Ascii.eqb "/" "/") with true. cbn [option_bind mbind].
  rewrite (digits_between_reads 4 4 4 _ y) by first [done | lia | apply year_reads; lia].
  cbn [option_bind mbind].
  rewrite spaces_one by (apply (digit_first 1 _ h), pad2_reads; lia).
  cbn [option_bind mbind].
  rewrite (digits_between_reads 1 2 2 _ h) by first [done | lia | apply pad2_reads; lia].
  cbn [option_bind mbind lit]. change (Ascii.eqb ":" ":") with true. cbn [option_bind mbind].
  rewrite (digits_between_reads 1 2 2 _ mi) by first [done | lia | apply pad2_reads; lia].
  cbn [option_bind mbind lit]. change (Ascii.eqb ":" ":") with true. cbn [option_bind mbind].
  assert (digits_between 1 2 (pad2 s +:+ rest) = Some (s, rest)) as ->.
  { destruct rest as [|r rest].
    - rewrite app_str_nil_r. apply (digits_between_end 1 2 2); [by apply pad2_reads|lia].
    - apply (digits_between_reads 1 2 2); [by apply pad2_reads|lia|exact Hr]. }
  cbn [option_bind mbind]. destruct (spaces rest) as [[|x r]|]; cbn [option_bind mbind]; try done.
  by rewrite Hi.
Qed.

Lemma first_char_app a b c : first_char a = Some c -> first_char (a +:+ b) = Some c.
Proof. by destruct a. Qed.

Lemma trim_ends a b c e : first_char a = Some c -> is_space c = false ->
  first_char (String.rev b) = Some e -> is_space e = false -> trim (a +:+ b) = a +:+ b.
Proof.
  intros Ha Hc Hb He. apply trim_tight. unfold tight.
  rewrite (first_char_app a b c Ha), rev_app_str, (first_char_app _ _ e Hb). by rewrite Hc, He.
Qed.

Lemma reads_last k t n : reads_as (S k) t n = true ->
  exists e, first_char (String.rev t) = Some e /\ is_space e = false.
Proof.
  intros [[Hf Hl%Nat.eqb_eq]%andb_true_iff _]%andb_true_iff.
  assert (str_forall is_digit (String.rev t) = true /\ t <> "") as [Hr Hne].
  { split; [|by destruct t]. clear Hl. induction t as [|c t IH]; [done|]. cbn in Hf.
    apply andb_true_iff in Hf as [Hc Hf]. rewrite rev_cons, str_forall_app, IH by done. cbn. by rewrite Hc. }
  destruct (String.rev t) as [|e r] eqn:E.
  - destruct t as [|c t]; [done|]. rewrite rev_cons in E. by destruct (String.rev t).
  - exists e. split; [done|]. cbn in Hr. apply andb_true_iff in Hr as [Hc _]. by apply digit_not_space.
Qed.

Lemma stamp_first y m d h mi s : 0 <= m < 12 ->
  exists c, first_char (mikhmon_stamp y m d h mi s) = Some c /\ is_space c = false.
Proof. intros H. destruct (month_cases m H) as (a & b & c & E & _ & _ & Ha). exists a. unfold mikhmon_stamp. by rewrite E. Qed.

Lemma stamp_last y m d h mi s : 0 <= s < 100 ->
  exists x e, mikhmon_stamp y m d h mi s = x +:+ pad2 s /\
    first_char (String.rev (pad2 s)) = Some e /\ is_space e = false.
Proof.
  intros H. destruct (reads_last 1 (pad2 s) s (pad2_reads s H)) as (e & He & Hs).
  exists (month_name m +:+ "/" +:+ pad2 d +:+ "/" +:+ Z_to_string y +:+ " " +:+ pad2 h +:+ ":" +:+ pad2 mi +:+ ":"), e.
  split; [|done]. unfold mikhmon_stamp. by rewrite <- !app_str_assoc.
Qed.

(** The expiry column shows exactly the dates of comments that go on with a flag: after
    the backend's stamp, a text that begins with [N] or [X] (in either case) gives the
    stamp's local time, whatever the date; any other text, and the stamp alone, which is
    what the backend writes on the vouchers it generates, gives no expiry. *)
Theorem expiry_comment_read to_utc y m d h mi s :
  stamp_range y m d h mi s ->
  parseExpiryFromComment to_utc (JStr (mikhmon_stamp y m d h mi s)) = None /\
  forall c rest e, is_space c = false -> first_char (String.rev (String c rest)) = Some e -> is_space e = false ->
    parseExpiryFromComment to_utc (JStr (mikhmon_stamp y m d h mi s +:+ " " +:+ String c rest)) =
      if existsb (Ascii.eqb c) ["N"; "n"; "X"; "x"]%char
      then Some (to_utc (local_time y m d h mi s)) else None.
Proof.
  intros R. pose proof R as (Hy & Hm & Hd & Hh & Hmi & Hs).
  destruct (stamp_first y m d h mi s Hm) as (a & Ha & Hsa).
  assert (mikhmon_stamp y m d h mi s <> "") as Hne by (intros E; by rewrite E in Ha). split.
  - unfold parseExpiryFromComment. rewrite (proj2 (String.eqb_neq _ _) Hne).
    destruct (stamp_last y m d h mi s Hs) as (x & e & E & He & Hse).
    assert (trim (mikhmon_stamp y m d h mi s) = mikhmon_stamp y m d h mi s) as ->.
    { apply trim_tight. unfold tight. rewrite Ha, E, rev_app_str, (first_char_app _ _ e He). by rewrite Hsa, Hse. }
    rewrite <- (app_str_nil_r (mikhmon_stamp y m d h mi s)). by rewrite expiry_of_stamp.
  - intros c rest e Hc He Hse. unfold parseExpiryFromComment.
    destruct (String.eqb_spec (mikhmon_stamp y m d h mi s +:+ " " +:+ String c rest) "") as [E|_].
    { by destruct (mikhmon_stamp y m d h mi s). }
    rewrite (trim_ends _ (" " +:+ String c rest) a e); [|done|done| |done].
    2: { rewrite rev_app_str. by apply first_char_app. }
    rewrite expiry_of_stamp by done. change (" " +:+ String c rest) with (String " " (String c rest)).
    rewrite spaces_one by done.
    assert (existsb (Ascii.eqb (upper_char c)) ["N"; "X"]%char = existsb (Ascii.eqb c) ["N"; "n"; "X"; "x"]%char) as ->;
      [|done].
    clear. destruct c as [[] [] [] [] [] [] [] []]; reflexivity.
Qed.

Lemma expiry_comment_read_witness :
  parseExpiryFromComment (fun t => t - 25200000) (JStr "jan/05/2026 15:04:05 N lantai 2") = Some 1767600245000 /\
  parseExpiryFromComment (fun t => t - 25200000) (JStr "jan/05/2026 15:04:05") = None.
Proof.
  destruct (expiry_comment_read (fun t => t - 25200000) 2026 0 5 15 4 5 ltac:(repeat split; done)) as [H1 H2].
  split; [exact (H2 "N"%char " lantai 2" "2"%char eq_refl eq_refl eq_refl)|exact H1].
Defined.
