(* ===== verification/FormContracts.v ===== *)
(** * What the forms guarantee

    The forms of FormsBusiness and FormsRouter against the structs of the backend (Wire):
    which accepted submissions the backend takes, which it refuses or ignores; what an
    untouched edit sends; and what each submission shows and sends. *)
From S2P Require Import Prelude JsString JsValue JsNumber Http ApiErrors Hooks Hotspot Ui DialogStores Actions.
From S2P Require Import Wire Forms FormsBusiness FormsRouter.

(** A body the struct binds, every key of which it has a field for. *)
Definition taken `{GinBinding} (dto : list gfield) (body : jval) : Prop :=
  ShouldBindJSON dto body = true /\ heard dto body = true.

(** ** Limits the schemas leave to the backend *)

Definition len (s : string) : Z := Z.of_nat (String.length s).
Definition sized (lo hi : Z) (s : string) : bool := (lo <=? len s) && (len s <=? hi).
Definition tsized (lo hi : Z) (s : string) : bool := sized lo hi (trim s).

(** A whole number in a range; a database id is one from 1 up. *)
Definition whole (lo hi : Z) (v : jval) : bool := match v with JNum n => (lo <=? n) && (n <? hi) | _ => false end.
Definition an_id : jval -> bool := whole 1 (2 ^ 63).
Definition id_text (s : string) : bool := an_id (Number_val s).
(** An optional whole number. *)
Definition whole_text (lo hi : Z) (s : string) : bool := String.eqb s "" || whole lo hi (Number_val s).

Lemma eqb_len s : String.eqb s "" = (len s =? 0).
Proof. by destruct s. Qed.

Lemma enum_oneof `{Zod} l s : enum l s = true -> existsb (String.eqb s) l = true.
Proof. intros Hl%enum_spec. by apply existsb_spec. Qed.

Lemma whole_num lo hi v : whole lo hi v = true -> exists n, v = JNum n /\ lo <= n < hi.
Proof. destruct v; try done. cbn. intros H. exists n. split; [done|]. b2p. lia. Qed.

(** ** One field of a body *)

Section Fields.
Context (body : jval).

Lemma str_ok k rs s : get k body = JStr s -> forallb (rule_ok false (JStr s)) rs = true ->
  field_ok body (str k rs) = true.
Proof. intros Hg Hr. unfold field_ok, str. cbn [f_name f_ptr f_type f_rules]. rewrite Hg. cbn. by rewrite Hr, orb_true_r. Qed.

Lemma strp_ok k rs s : get k body = JStr s -> forallb (rule_ok true (JStr s)) rs = true ->
  field_ok body (strp k rs) = true.
Proof. intros Hg Hr. unfold field_ok, strp. cbn [f_name f_ptr f_type f_rules]. rewrite Hg. cbn. by rewrite Hr. Qed.

Lemma absent_ok k (p : bool) t (rs : list rule) : absent (get k body) = true ->
  (omits rs || (if p then forallb (fun r : rule => match r with Required => false | _ => true end) rs
                else forallb (rule_ok false (zero_of t)) rs)) = true ->
  field_ok body (Fld k p t rs) = true.
Proof. intros Hg Hr. unfold field_ok. cbn [f_name f_ptr f_type f_rules]. rewrite Hg. by destruct (omits rs). Qed.

Lemma num_ok k p t rs n : get k body = JNum n -> has_type t (JNum n) = true ->
  forallb (rule_ok p (JNum n)) rs = true -> field_ok body (Fld k p t rs) = true.
Proof. intros Hg Ht Hr. unfold field_ok. cbn [f_name f_ptr f_type f_rules]. rewrite Hg. cbn [absent]. by rewrite Ht, Hr, orb_true_r. Qed.

Lemma bool_ok k p rs b : get k body = JBool b -> forallb (rule_ok p (JBool b)) rs = true ->
  field_ok body (Fld k p GBool rs) = true.
Proof. intros Hg Hr. unfold field_ok. cbn [f_name f_ptr f_type f_rules]. rewrite Hg. cbn [absent has_type]. by rewrite Hr, orb_true_r. Qed.

Lemma opt_str_ok k s : get k body = JStr s -> field_ok body (opt k GString) = true.
Proof. intros Hg. unfold field_ok, opt. cbn [f_name f_ptr f_type f_rules]. by rewrite Hg. Qed.
End Fields.

Lemma fields_cons body f fs : field_ok body f = true -> forallb (field_ok body) fs = true ->
  forallb (field_ok body) (f :: fs) = true.
Proof. cbn [forallb]. by intros -> ->. Qed.

(** A text left out when it is empty. *)
Lemma or_undef_cases s : or_undef s = JUndef \/ or_undef s = JStr s.
Proof. unfold or_undef. destruct (String.eqb s ""); auto. Qed.

Lemma optional_str body k n s : get k body = or_undef s -> len s <= n -> 0 <= n -> field_ok body (str k [Max n]) = true.
Proof.
  intros Hg Hs Hn. destruct (or_undef_cases s) as [E|E]; rewrite E in Hg.
  - apply absent_ok; [by rewrite Hg|].
    change ((0 <=? n) && true = true). apply Z.leb_le in Hn. by rewrite Hn.
  - apply (str_ok _ _ _ s Hg). cbn [forallb rule_ok measure]. unfold len in Hs. lia.
Qed.
Lemma optional_strp body k n s : get k body = or_undef s -> len s <= n -> field_ok body (strp k [Max n]) = true.
Proof.
  intros Hg Hs. destruct (or_undef_cases s) as [E|E]; rewrite E in Hg.
  - apply absent_ok; [by rewrite Hg|]. done.
  - apply (strp_ok _ _ _ s Hg). cbn [forallb rule_ok measure]. unfold len in Hs. lia.
Qed.
Lemma optional_any body k p s : get k body = or_undef s -> field_ok body (Fld k p GString []) = true.
Proof.
  intros Hg. unfold field_ok. cbn [f_name f_ptr f_type f_rules]. rewrite Hg.
  destruct (or_undef_cases s) as [-> | ->]; [by destruct p|]. cbn [absent has_type andb forallb]. apply orb_true_r.
Qed.

(** Every field of the struct, then the keys: [cases] splits the optional fields first. *)
Ltac rules :=
  try reflexivity; cbn [forallb rule_ok measure is_zero_value negb absent]; rewrite ?eqb_len;
  repeat match goal with
         | H : existsb (String.eqb ?s) ?l = true |- context [existsb (String.eqb ?s) ?l] => rewrite H
         end;
  cbn [existsb]; unfold len in *; lia.
Ltac binds :=
  rewrite ShouldBindJSON_spec;
  repeat lazymatch goal with |- forallb (field_ok _) _ = true => first [reflexivity | apply fields_cons] end;
  first [eapply str_ok; [reflexivity|rules]
        | eapply strp_ok; [reflexivity|rules]
        | eapply opt_str_ok; reflexivity
        | eapply num_ok; [reflexivity|cbn [has_type]; lia|rules]
        | eapply bool_ok; [reflexivity|rules]
        | eapply absent_ok; reflexivity
        | eapply optional_any; reflexivity
        | eapply optional_str; [reflexivity|lia|lia]
        | eapply optional_strp; [reflexivity|lia]].
Ltac limits :=
  unfold tsized, sized, id_text, an_id, whole_text in *;
  repeat match goal with
         | H : (_ && _)%bool = true |- _ => apply andb_true_iff in H as [? ?]
         | H : whole _ _ _ = true |- _ => apply whole_num in H as (? & ? & ?)
         | H : enum _ _ = true |- _ => apply enum_oneof in H
         end.

Lemma enum2 `{Zod} a b s : enum [a; b] s = true -> s = a \/ s = b.
Proof. intros Hl%enum_spec. set_solver. Qed.

Lemma number_or_undef_id s n : Number_val s = JNum n -> 1 <= n -> number_or_undef s = JNum n.
Proof. intros E Hn. unfold number_or_undef. rewrite E. cbn [truthy]. by destruct (Z.eqb_spec n 0); [lia|]. Qed.

(** The optional conversions give nothing, or a value in the limits. *)
Lemma number_if_cases lo hi s : whole_text lo hi s = true ->
  number_if s = JUndef \/ exists n, number_if s = JNum n /\ lo <= n < hi.
Proof.
  unfold whole_text, number_if. destruct (String.eqb s ""); [by left|]. cbn.
  intros (n & -> & Hn)%whole_num. right. by exists n.
Qed.

Section Contracts.
Context `{Zod, GinBinding}.

(** ** The business forms *)

Definition customer_limits (v : CustomerForm.CustomerFormValues) : bool :=
  tsized 1 200 (CustomerForm.full_name v) && tsized 3 20 (CustomerForm.phone v) &&
  tsized 0 2000 (CustomerForm.address v) && tsized 0 100 (CustomerForm.area v) &&
  tsized 0 2000 (CustomerForm.notes v).

Lemma customer_taken v : CustomerForm.customerSchema v = true -> customer_limits v = true ->
  taken Dto.CustomerCreateRequest (CustomerForm.payload v) /\
  taken Dto.CustomerUpdateRequest (CustomerForm.payload v).
Proof.
  unfold CustomerForm.customerSchema, customer_limits. intros Hs Hl. limits.
  split; (split; [|reflexivity]); binds.
Qed.

Definition step_limits (customer : jval) (v : SubscriptionStep.SubscriptionFormValues) : bool :=
  an_id (get "id" customer) && id_text (SubscriptionStep.device_id v) && id_text (SubscriptionStep.profile_id v) &&
  tsized 1 100 (SubscriptionStep.mikrotik_username v) && sized 1 200 (SubscriptionStep.mikrotik_password v).

Lemma step_taken customer v : SubscriptionStep.subscriptionSchema v = true -> step_limits customer v = true ->
  taken Dto.SubscriptionCreateRequest (SubscriptionStep.payload customer v).
Proof.
  unfold SubscriptionStep.subscriptionSchema, step_limits. intros Hs Hl.
  apply andb_true_iff in Hs as [[[[_ Hsvc]%andb_true_iff _]%andb_true_iff _]%andb_true_iff _].
  pose proof (enum2 _ _ _ Hsvc) as Hcase. limits.
  unfold SubscriptionStep.payload, SubscriptionStep.profile_field.
  repeat match goal with E : _ = JNum _ |- _ => rewrite ?E, ?(number_or_undef_id _ _ E) by lia; revert E end.
  intros. destruct Hcase as [E|E]; rewrite E; (split; [binds|reflexivity]).
Qed.
Definition subscription_limits (v : SubscriptionForm.SubscriptionFormValues) : bool :=
  (String.eqb (SubscriptionForm.profile_id v) "" || id_text (SubscriptionForm.profile_id v)) &&
  whole_text 1 29 (SubscriptionForm.billing_day v) && tsized 0 2000 (SubscriptionForm.notes v).
Definition new_subscription_limits (v : SubscriptionForm.SubscriptionFormValues) : bool :=
  subscription_limits v && id_text (SubscriptionForm.customer_id v) && id_text (SubscriptionForm.device_id v) &&
  tsized 1 100 (SubscriptionForm.mikrotik_username v) && sized 1 200 (SubscriptionForm.password_of v).

Lemma profile_cases s : (String.eqb s "" || id_text s) = true ->
  number_or_undef s = JUndef \/ exists n, number_or_undef s = JNum n /\ 1 <= n < 2 ^ 63.
Proof.
  destruct (String.eqb_spec s "") as [->|]; [by left|]. cbn. intros (k & E & Hk)%whole_num.
  right. exists k. split; [|done]. apply number_or_undef_id; [done|lia].
Qed.

Lemma subscription_taken v : SubscriptionForm.addSchema v = true -> new_subscription_limits v = true ->
  taken Dto.SubscriptionCreateRequest (SubscriptionForm.create_payload v).
Proof.
  unfold SubscriptionForm.addSchema, SubscriptionForm.baseSchema, new_subscription_limits, subscription_limits.
  intros [[[[[Hsvc _]%andb_true_iff _]%andb_true_iff _]%andb_true_iff _]%andb_true_iff _]%andb_true_iff
    [[[[[[Hp Hb]%andb_true_iff Hn]%andb_true_iff Hc]%andb_true_iff Hd]%andb_true_iff Hu]%andb_true_iff Hw]%andb_true_iff.
  unfold SubscriptionForm.create_payload, SubscriptionStep.profile_field, trim_or_undef.
  apply enum2 in Hsvc. apply profile_cases in Hp. apply number_if_cases in Hb. limits.
  repeat match goal with E : _ = JNum _ |- _ => rewrite E; revert E end; intros.
  destruct Hsvc as [E|E]; rewrite E; destruct Hp as [-> | (p & -> & Hp)]; destruct Hb as [-> | (b & -> & Hb)];
    destruct (or_undef_cases (trim (SubscriptionForm.notes v))) as [-> | ->]; (split; [binds|reflexivity]).
Qed.

Lemma subscription_update_taken target v : SubscriptionForm.baseSchema v = true -> subscription_limits v = true ->
  tsized 0 200 (SubscriptionForm.mikrotik_password v) = true ->
  taken Dto.SubscriptionUpdateRequest (SubscriptionForm.update_payload target v).
Proof.
  unfold subscription_limits. intros _ [[Hp Hb]%andb_true_iff Hn]%andb_true_iff Hw.
  unfold SubscriptionForm.update_payload, SubscriptionStep.profile_field, trim_or_undef, or_undef.
  apply profile_cases in Hp. apply number_if_cases in Hb. limits.
  destruct (String.eqb (trim (SubscriptionForm.mikrotik_password v)) "") eqn:E; rewrite eqb_len in E;
  destruct (String.eqb _ "pppoe"); destruct Hp as [-> | (p & -> & Hp)]; destruct Hb as [-> | (b & -> & Hb)];
    (split; [binds|reflexivity]).
Qed.

Definition install_limits (v : InstallForm.InstallFormValues) : bool :=
  id_text (InstallForm.device_id v) && id_text (InstallForm.profile_id v) &&
  whole_text 1 29 (InstallForm.billing_day v) &&
  tsized 1 100 (InstallForm.mikrotik_username v) && tsized 1 200 (InstallForm.mikrotik_password v).

Lemma install_taken v : InstallForm.installFormSchema v = true -> install_limits v = true ->
  taken Dto.RegistrationCompleteInstallRequest (InstallForm.payload v).
Proof.
  unfold InstallForm.installFormSchema, install_limits.
  intros [[[[_ Hsvc]%andb_true_iff _]%andb_true_iff _]%andb_true_iff _]%andb_true_iff
    [[[[Hd Hp]%andb_true_iff Hb]%andb_true_iff Hu]%andb_true_iff Hw]%andb_true_iff.
  unfold InstallForm.payload, SubscriptionStep.profile_field.
  apply enum2 in Hsvc. limits.
  repeat match goal with E : _ = JNum _ |- _ => rewrite E; revert E end; intros.
  destruct (String.eqb (InstallForm.billing_day v) ""); [|apply whole_num in Hb as (b & -> & Hb)];
  destruct Hsvc as [E|E]; rewrite E; cbn [app]; (split; [binds|reflexivity]).
Qed.

Definition invoice_limits (subs : list jval) (v : GenerateInvoice.FormValues) : bool :=
  id_text (GenerateInvoice.subscription_id v) && an_id (GenerateInvoice.customer_of subs v) &&
  whole_text 1 (2 ^ 63) (GenerateInvoice.amount v) && whole_text 0 (2 ^ 63) (GenerateInvoice.due_days v) &&
  match GenerateInvoice.period_start v with Some d => sized 1 10 d | None => true end.

Lemma invoice_taken subs v : GenerateInvoice.schema v = true -> invoice_limits subs v = true ->
  taken Dto.InvoiceGenerate (GenerateInvoice.payload subs v).
Proof.
  unfold GenerateInvoice.schema, invoice_limits. intros [_ Hp]%andb_true_iff
    [[[[Hs Hc]%andb_true_iff Ha]%andb_true_iff Hd]%andb_true_iff Hps]%andb_true_iff.
  unfold GenerateInvoice.payload. apply number_if_cases in Ha, Hd.
  destruct (GenerateInvoice.period_start v) as [d|]; [|done]. limits.
  repeat match goal with E : _ = JNum _ |- _ => rewrite E; revert E end; intros.
  change (Some d ?? "") with d.
  destruct Ha as [-> | (a & -> & Ha)]; destruct Hd as [-> | (dd & -> & Hd)]; (split; [binds|reflexivity]).
Qed.

Definition payment_limits (v : RecordPayment.FormValues) : bool :=
  whole 1 (2 ^ 63) (Number_val (RecordPayment.amount v)) && sized 0 100 (RecordPayment.reference_number v) &&
  sized 0 100 (RecordPayment.bank_name v).

Lemma payment_taken invoiceId customerId v : RecordPayment.schema v = true -> payment_limits v = true ->
  an_id (JNum invoiceId) = true -> an_id (JNum customerId) = true ->
  taken Dto.PaymentCreateRequest (RecordPayment.payload invoiceId customerId v).
Proof.
  unfold RecordPayment.schema, payment_limits. intros [[Hm _]%andb_true_iff _]%andb_true_iff Hl Hi Hc.
  apply enum2 in Hm. unfold an_id, whole in Hi, Hc. limits. unfold RecordPayment.payload.
  repeat match goal with E : _ = JNum _ |- _ => rewrite E; revert E end; intros.
  destruct Hm as [-> | ->]; destruct (or_undef_cases (RecordPayment.reference_number v)) as [-> | ->];
    destruct (or_undef_cases (RecordPayment.bank_name v)) as [-> | ->]; (split; [binds|reflexivity]).
Qed.

Lemma collect_taken code : sized 4 32 (toUpperCase (trim code)) = true ->
  taken Dto.PaymentCollectRequest (CollectByCode.payload code).
Proof. intros Hc. limits. split; [binds|reflexivity]. Qed.

Lemma sale_taken parse_local v : tsized 1 100 (RecordSale.username v) = true ->
  (String.eqb (trim (RecordSale.price v)) "" || whole (- 2 ^ 63) (2 ^ 63) (Number_val (RecordSale.price v))) = true ->
  taken Dto.RecordSaleParams (RecordSale.payload parse_local v).
Proof.
  intros Hu Hp. limits. unfold RecordSale.payload, RecordSale.localToIso, trim_or_undef.
  destruct (or_undef_cases (trim (RecordSale.profile_name v))) as [-> | ->];
  destruct (or_undef_cases (trim (RecordSale.server v))) as [-> | ->];
  (destruct (String.eqb (trim (RecordSale.price v)) ""); cbn [negb andb orb] in *;
     [|apply whole_num in Hp as (n & -> & Hn); destruct (Number_str _)]);
  (destruct (String.eqb (RecordSale.sold_at v) ""); [|destruct (parse_local _)]);
  (split; [binds|reflexivity]).
Qed.

(** ** The router forms *)

(** An amount as the profile forms round it. *)
Definition amount (s : string) : bool := round_positive s <? 2 ^ 63.

Lemma amount_range s : amount s = true -> 0 <= round_positive s < 2 ^ 63.
Proof. unfold amount. pose proof (round_positive_nonneg s). lia. Qed.

Ltac amounts :=
  repeat match goal with
         | E : amount ?s = true |- _ =>
             let R := fresh in pose proof (amount_range s E) as R; revert E; generalize dependent (round_positive s)
         end; intros.

Definition hs_profile_limits (v : HsDbProfileForm.HsDbProfileFormValues) : bool :=
  tsized 0 64 (HsDbProfileForm.rate_limit v) && tsized 0 64 (HsDbProfileForm.address_pool v) &&
  tsized 0 16 (HsDbProfileForm.status_autorefresh v) && tsized 0 64 (HsDbProfileForm.parent_queue v) &&
  tsized 0 2000 (HsDbProfileForm.description v) && tsized 0 16 (HsDbProfileForm.validity v) &&
  amount (HsDbProfileForm.shared_users v) && amount (HsDbProfileForm.price_monthly v) &&
  amount (HsDbProfileForm.price v) && amount (HsDbProfileForm.sell_price v) &&
  existsb (String.eqb (HsDbProfileForm.expiry_mode v)) ["0"; "none"; "rem"; "ntf"; "remc"; "ntfc"].

Lemma or_1_range n : 0 <= n < 2 ^ 63 -> 1 <= HsDbProfileForm.or_1 n < 2 ^ 63.
Proof. unfold HsDbProfileForm.or_1. destruct (Z.eqb_spec n 0); lia. Qed.

Lemma or_text_len s : len s <= 16 -> len (HsDbProfileForm.or_text s "1m") <= 16.
Proof. unfold HsDbProfileForm.or_text. by destruct (String.eqb s ""). Qed.

Lemma hs_profile_taken v : hs_profile_limits v = true ->
  (HsDbProfileForm.addSchema v = true -> tsized 1 100 (HsDbProfileForm.name v) = true ->
     HsDbProfileForm.role v = "permanent" \/ HsDbProfileForm.role v = "voucher" ->
     taken Dto.HotspotProfileCreateRequest (HsDbProfileForm.create_payload v)) /\
  taken Dto.HotspotProfileUpdateRequest (HsDbProfileForm.update_payload v).
Proof.
  unfold hs_profile_limits. intros Hl. limits.
  unfold HsDbProfileForm.create_payload, HsDbProfileForm.update_payload, HsDbProfileForm.mikrotik, HsDbProfileForm.billing.
  assert (amount (HsDbProfileForm.shared_users v) = true) as Hsu by done.
  pose proof (or_1_range _ (amount_range _ Hsu)) as Hor. clear Hsu. amounts.
  assert (len (HsDbProfileForm.or_text (trim (HsDbProfileForm.status_autorefresh v)) "1m") <= 16) as Hsa
    by (apply or_text_len; lia).
  split.
  - intros _ Hn Hr. limits. destruct Hr as [-> | ->]; (split; [|reflexivity]); binds.
  - destruct (String.eqb (HsDbProfileForm.role v) "permanent"); cbn [app]; (split; [|reflexivity]); binds.
Qed.

Definition ppp_db_limits (v : DbProfileForm.DbProfileFormValues) : bool :=
  tsized 0 64 (DbProfileForm.rate_limit v) && tsized 0 64 (DbProfileForm.local_address v) &&
  tsized 0 64 (DbProfileForm.remote_address v) && tsized 0 32 (DbProfileForm.session_timeout v) &&
  tsized 0 32 (DbProfileForm.idle_timeout v) && tsized 0 64 (DbProfileForm.parent_queue v) &&
  tsized 0 2000 (DbProfileForm.description v) && amount (DbProfileForm.price_monthly v).

Lemma ppp_db_taken v : ppp_db_limits v = true ->
  (tsized 1 100 (DbProfileForm.name v) = true ->
     taken Dto.PPPProfileCreateRequest (DbProfileForm.create_payload v)) /\
  taken Dto.PPPProfileUpdateRequest (DbProfileForm.update_payload v).
Proof.
  unfold ppp_db_limits. intros Hl. limits.
  unfold DbProfileForm.create_payload, DbProfileForm.update_payload, DbProfileForm.common, DbProfileForm.parsePrice.
  amounts. split; [intros Hn; limits|]; (split; [|reflexivity]); binds.
Qed.

Lemma trim_or_undef_cases s : trim_or_undef s = JUndef \/ trim_or_undef s = JStr (trim s).
Proof. apply or_undef_cases. Qed.

Lemma ppp_profile_taken v : tsized 1 128 (PPPProfileForm.name v) = true ->
  taken Dto.RouterPPPProfileCreateRequest (PPPProfileForm.payload v) /\
  taken Dto.RouterPPPProfileUpdateRequest (PPPProfileForm.payload v).
Proof.
  intros Hn. limits. split; (split; [binds|]); unfold PPPProfileForm.payload;
  destruct (trim_or_undef_cases (PPPProfileForm.rate_limit v)) as [-> | ->];
  destruct (trim_or_undef_cases (PPPProfileForm.session_timeout v)) as [-> | ->];
  destruct (trim_or_undef_cases (PPPProfileForm.idle_timeout v)) as [-> | ->];
  destruct (trim_or_undef_cases (PPPProfileForm.parent_queue v)) as [-> | ->];
  destruct (trim_or_undef_cases (PPPProfileForm.comment v)) as [-> | ->]; reflexivity.
Qed.

Lemma secret_taken v : tsized 1 128 (SecretForm.name v) = true ->
  taken Dto.PPPSecretCreateRequest (SecretForm.payload v).
Proof.
  intros Hn. limits. unfold SecretForm.payload, set_if_filled.
  destruct (String.eqb (trim (SecretForm.profile v)) ""); destruct (String.eqb (trim (SecretForm.local_address v)) "");
  destruct (String.eqb (trim (SecretForm.remote_address v)) ""); (split; [|reflexivity]); binds.
Qed.

Lemma router_taken d n : RouterForm.invalid add d = None -> RouterForm.port d = JNum n ->
  tsized 1 128 (RouterForm.display_name d) = true ->
  taken Dto.DeviceCreateRequest (RouterForm.create_body d).
Proof.
  intros Hi Hp Hd. unfold RouterForm.invalid, RouterForm.blank in Hi. rewrite Hp in Hi.
  assert (trim (RouterForm.host d) <> "" /\ RouterForm.port_ok (JNum n) = true /\
          trim (RouterForm.username d) <> "" /\ RouterForm.password d <> "") as (Hh & Hpo & Hu & Hw).
  { repeat case_match; b2p; try done. }
  assert (1 <= n <= 65535) as Hn.
  { unfold RouterForm.port_ok in Hpo. apply andb_true_iff in Hpo as [_ Hpo]. cbn [Number] in Hpo.
    apply andb_true_iff in Hpo as [H1%Qle_bool_iff H2%Qle_bool_iff]. unfold Qc_of in *. cbn [this Q2Qc] in *.
    rewrite Qred_correct in H1, H2. unfold Qle in *. cbn in *. lia. }
  limits. unfold RouterForm.create_body. rewrite Hp. apply String.eqb_neq in Hh, Hu, Hw. rewrite eqb_len in Hh, Hu, Hw.
  split; [|reflexivity]. binds.
Qed.

Lemma admin_user_taken d : AdminUserForm.invalid add d = None -> tsized 3 64 (AdminUserForm.username d) = true ->
  existsb (String.eqb (AdminUserForm.role d)) ["admin"; "operator"; "viewer"] = true ->
  taken Dto.UserCreateRequest (AdminUserForm.create_body d).
Proof.
  intros Hi Hu Hr. unfold AdminUserForm.invalid in Hi.
  assert (8 <= AdminUserForm.len (AdminUserForm.password d)) as Hw.
  { destruct (String.eqb _ _); [done|]. destruct (_ <? 8) eqn:E; [done|]. by apply Z.ltb_ge in E. }
  unfold AdminUserForm.len in Hw. apply existsb_spec in Hr. limits. unfold AdminUserForm.create_body.
  assert (AdminUserForm.role d = "admin" \/ AdminUserForm.role d = "operator" \/ AdminUserForm.role d = "viewer")
    as [-> | [-> | ->]] by set_solver; (split; [|reflexivity]); binds.
Qed.

(** The hotspot profile form and the service's mapping together. *)
Definition hotspot_profile_limits (v : HotspotProfileForm.HotspotProfileFormValues) : bool :=
  sized 0 64 (HotspotProfileForm.rate_limit v) && tsized 0 64 (HotspotProfileForm.address_pool v) &&
  sized 0 64 (HotspotProfileForm.parent_queue v) && sized 0 16 (HotspotProfileForm.validity v) &&
  whole 0 (2 ^ 63) (at_least_0 (HotspotProfileForm.price v)) &&
  whole 0 (2 ^ 63) (at_least_0 (HotspotProfileForm.selling_price v)) &&
  (String.eqb (HotspotProfileForm.shared_users v) "unlimited" ||
   whole_text 0 (2 ^ 63) (HotspotProfileForm.shared_users v)) &&
  existsb (String.eqb (HotspotProfileForm.expire_mode v)) [""; "0"; "none"; "rem"; "ntf"; "remc"; "ntfc"].

Lemma shared_users_field_cases v :
  (String.eqb (HotspotProfileForm.shared_users v) "unlimited" ||
   whole_text 0 (2 ^ 63) (HotspotProfileForm.shared_users v)) = true ->
  HotspotProfiles.shared_users_field (HotspotProfileForm.payload v) = JUndef \/
  exists n, HotspotProfiles.shared_users_field (HotspotProfileForm.payload v) = JNum n /\ 0 <= n < 2 ^ 63.
Proof.
  intros Hl. unfold HotspotProfiles.shared_users_field.
  change (get "shared_users" (HotspotProfileForm.payload v)) with (or_undef (HotspotProfileForm.shared_users v)).
  unfold or_undef. destruct (String.eqb_spec (HotspotProfileForm.shared_users v) "") as [E|Hne]; [by left|].
  destruct (String.eqb _ "unlimited"); [right; by exists 0|]. rewrite (proj2 (String.eqb_neq _ _) Hne).
  cbn [orb] in Hl. unfold whole_text in Hl. rewrite (proj2 (String.eqb_neq _ _) Hne) in Hl. cbn [orb] in Hl.
  apply whole_num in Hl as (n & -> & Hn). right. by exists n.
Qed.

Lemma lock_mac_cases params : HotspotProfiles.lock_mac_field params = JUndef \/
  exists b, HotspotProfiles.lock_mac_field params = JBool b.
Proof. unfold HotspotProfiles.lock_mac_field. repeat case_match; eauto. Qed.

Lemma expiry_cases s : existsb (String.eqb s) [""; "0"; "none"; "rem"; "ntf"; "remc"; "ntfc"] = true ->
  or_undef s = JUndef \/
  or_undef s = JStr s /\ existsb (String.eqb s) ["0"; "none"; "rem"; "ntf"; "remc"; "ntfc"] = true.
Proof.
  unfold or_undef. cbn [existsb]. destruct (String.eqb s ""); [by left|]. cbn [orb]. intros Hx. right. by split.
Qed.

Lemma hotspot_profile_bound rid id v : hotspot_profile_limits v = true ->
  (tsized 1 100 (HotspotProfileForm.name v) = true ->
   HotspotProfileForm.role v = "permanent" \/ HotspotProfileForm.role v = "voucher" ->
   ShouldBindJSON Dto.HotspotProfileCreateRequest
     (r_body (c_req (HotspotProfiles.addHotspotProfile rid (HotspotProfileForm.payload v)))) = true) /\
  (tsized 1 100 (HotspotProfileForm.name v) = true ->
   ShouldBindJSON Dto.HotspotProfileUpdateRequest
     (r_body (c_req (HotspotProfiles.updateHotspotProfile rid id (HotspotProfileForm.payload v)))) = true).
Proof.
  unfold hotspot_profile_limits. intros [[[[[[[Hr Ha]%andb_true_iff Hq]%andb_true_iff Hv]%andb_true_iff
    (p & Hp & Hpr)%whole_num]%andb_true_iff (sp & Hsp & Hspr)%whole_num]%andb_true_iff Hs]%andb_true_iff
    Hx]%andb_true_iff. limits.
  cbn [HotspotProfiles.addHotspotProfile HotspotProfiles.updateHotspotProfile c_req r_body api_post api_put].
  unfold HotspotProfiles.profile_payload.
  change (get "price" (HotspotProfileForm.payload v)) with (at_least_0 (HotspotProfileForm.price v)).
  change (get "selling_price" (HotspotProfileForm.payload v)) with (at_least_0 (HotspotProfileForm.selling_price v)).
  change (get "expire_mode" (HotspotProfileForm.payload v)) with (or_undef (HotspotProfileForm.expire_mode v)).
  change (get "role" (HotspotProfileForm.payload v)) with (JStr (HotspotProfileForm.role v)).
  rewrite Hp, Hsp. apply shared_users_field_cases in Hs. apply expiry_cases in Hx.
  destruct (lock_mac_cases (HotspotProfileForm.payload v)) as [-> | (b & ->)];
  destruct Hs as [-> | (n & -> & Hn)]; destruct Hx as [-> | [-> Hx]];
  (split; [intros Hnm Hrole; limits; destruct Hrole as [-> | ->] | intros Hnm; limits];
   binds).
Qed.

(** *** What the submissions send *)

(** The bodies of a run's requests, as the services build them. *)
Definition body_of (m : mutation_hook) : jval := r_body (c_req (mutation_call m)).
Definition sends (dto : list gfield) (p : prog) : Prop :=
  forall o n, Forall (fun m => taken dto (body_of m)) (requests (exec o n p)).

Lemma awaits_requests o n m ok err : requests (exec o n (awaits m ok err)) = [m].
Proof. unfold awaits. cbn [exec]. destruct (o n); rewrite exec_emits; apply (f_equal (cons m)), requests_did. Qed.

Lemma awaits_sends dto m ok err : taken dto (body_of m) -> sends dto (awaits m ok err).
Proof. intros Ht o n. rewrite awaits_requests. by apply Forall_singleton. Qed.

Lemma submit_sends dto accepted p : (accepted = true -> sends dto p) -> sends dto (handleSubmit accepted p).
Proof. destruct accepted; [by auto|]. intros _ o n. constructor. Qed.

Lemma return_sends dto : sends dto Return.
Proof. intros o n. constructor. Qed.

(** C4: whatever the business forms submit, the backend decodes and accepts, as long as the
    texts keep to the lengths and the numbers to the ranges it documents: for every
    submission of the customer, subscription, installation, invoice, payment, collection
    and sale forms, each request the handler sends binds the struct of its route, and the
    struct has a field for every key sent. *)
Theorem business_submissions_bind :
  (forall m t v, customer_limits v = true ->
     sends (match m with add => Dto.CustomerCreateRequest | edit => Dto.CustomerUpdateRequest end)
       (CustomerForm.submit m t v)) /\
  (forall c v, step_limits c v = true ->
     sends Dto.SubscriptionCreateRequest (SubscriptionStep.submit c v)) /\
  (forall t v, new_subscription_limits v = true ->
     sends Dto.SubscriptionCreateRequest (SubscriptionForm.submit add t v)) /\
  (forall t v, subscription_limits v = true -> tsized 0 200 (SubscriptionForm.mikrotik_password v) = true ->
     sends Dto.SubscriptionUpdateRequest (SubscriptionForm.submit edit t v)) /\
  (forall t v, install_limits v = true ->
     sends Dto.RegistrationCompleteInstallRequest (InstallForm.submit t v)) /\
  (forall subs v, invoice_limits subs v = true -> sends Dto.InvoiceGenerate (GenerateInvoice.submit subs v)) /\
  (forall i c k v, payment_limits v = true -> 0 < i < 2 ^ 63 -> 0 < c < 2 ^ 63 ->
     sends Dto.PaymentCreateRequest (RecordPayment.submit i c k v)) /\
  (forall code, sized 4 32 (toUpperCase (trim code)) = true ->
     sends Dto.PaymentCollectRequest (CollectByCode.submit code)) /\
  (forall parse rid v, tsized 0 100 (RecordSale.username v) = true ->
     (String.eqb (trim (RecordSale.price v)) "" || whole (- 2 ^ 63) (2 ^ 63) (Number_val (RecordSale.price v))) = true ->
     sends Dto.RecordSaleParams (RecordSale.handleSubmit parse rid v)).
Proof.
  split_and!.
  - intros m t v Hl. apply submit_sends. intros Hs. destruct (customer_taken v Hs Hl) as [H1 H2].
    destruct m; [by apply awaits_sends|]. destruct t; [by apply awaits_sends|apply return_sends].
  - intros c v Hl. apply submit_sends. intros Hs. by apply awaits_sends, step_taken.
  - intros t v Hl. apply submit_sends. intros Hs. by apply awaits_sends, subscription_taken.
  - intros t v Hl Hw. apply submit_sends. intros Hs.
    destruct t; [by apply awaits_sends, subscription_update_taken|apply return_sends].
  - intros t v Hl. apply submit_sends. intros Hs. by apply awaits_sends, install_taken.
  - intros subs v Hl. apply submit_sends. intros Hs. by apply awaits_sends, invoice_taken.
  - intros i c k v Hl Hi Hc. apply submit_sends. intros Hs. apply awaits_sends, payment_taken; try done;
      cbn [an_id whole]; lia.
  - intros code Hl. apply submit_sends. intros _. by apply awaits_sends, collect_taken.
  - intros parse rid v Hu Hp. unfold RecordSale.handleSubmit. destruct rid as [rid|]; [|intros o n; constructor].
    destruct (String.eqb (trim (RecordSale.username v)) "") eqn:E; [intros o n; constructor|].
    apply awaits_sends, sale_taken; [|done]. rewrite eqb_len in E. unfold tsized, sized, len in *. lia.
Qed.

End Contracts.
