(* ===== verification/FormEffects.v ===== *)
(** * What the router forms send, what the backend does not take, and what an untouched edit
      leaves alone

    The theorems on the forms of FormsRouter and the toggles of Actions, over the lemmas of
    FormContracts; then the edits that change nothing, and what every form shows. *)
From Stdlib Require Import QArith.Qround.
From S2P Require Import Prelude JsString JsValue JsNumber Http ApiErrors Hooks Hotspot Ppp Ui DialogStores Actions.
From S2P Require Import Wire Forms FormsBusiness FormsRouter FormContracts.
From S2P Require ViewModels.

Section Contracts.
Context `{Zod, GinBinding}.

Lemma wrong_type_refused dto body f : f ∈ dto -> field_ok body f = false -> ShouldBindJSON dto body = false.
Proof.
  intros Hf Hb. rewrite ShouldBindJSON_spec. apply not_true_iff_false. intros Ha.
  rewrite forallb_forall in Ha. apply list_elem_of_In in Hf. rewrite (Ha f Hf) in Hb. done.
Qed.

Definition all_refused (dto : list gfield) (p : prog) : Prop :=
  forall o n, Forall (fun m => ShouldBindJSON dto (body_of m) = false) (requests (exec o n p)).

Lemma awaits_refused dto m ok err : ShouldBindJSON dto (body_of m) = false -> all_refused dto (awaits m ok err).
Proof. intros Ht o n. rewrite awaits_requests. by apply Forall_singleton. Qed.

Lemma user_payload_disabled v : get "disabled" (UserForm.payload v) = JStr (UserForm.disabled v).
Proof.
  unfold UserForm.payload. destruct (String.eqb (trim (UserForm.mac_address v)) "");
    by destruct (String.eqb (trim (UserForm.comment v)) "").
Qed.

(** The edits that send what differs. *)
Lemma router_changes_taken r d n : RouterForm.port d = JNum n -> - 2 ^ 63 <= n < 2 ^ 63 ->
  taken Dto.DeviceUpdateRequest (JObj (RouterForm.changes r d)).
Proof.
  intros Hp Hn. unfold RouterForm.changes, changed, is_true, trimmed. rewrite Hp.
  repeat match goal with |- context [if ?c then _ else _] => destruct c end; (split; [|reflexivity]); binds.
Qed.

Lemma account_changes_bind t d : AdminUserForm.invalid edit d = None ->
  existsb (String.eqb (AdminUserForm.role d)) ["admin"; "operator"; "viewer"] = true ->
  ShouldBindJSON Dto.UserUpdateRequest (JObj (AdminUserForm.changes t d)) = true /\
  (get "username" t = JStr (trim (AdminUserForm.username d)) ->
   heard Dto.UserUpdateRequest (JObj (AdminUserForm.changes t d)) = true).
Proof.
  intros Hi Hr. unfold AdminUserForm.invalid in Hi. unfold AdminUserForm.changes, changed, trimmed.
  destruct (String.eqb _ ""); [done|].
  assert ((0 <? AdminUserForm.len (AdminUserForm.password d)) = true -> 8 <= AdminUserForm.len (AdminUserForm.password d)) as Hw.
  { intros E. rewrite E in Hi. cbn [andb] in Hi. destruct (_ <? 8) eqn:E8; [done|]. by apply Z.ltb_ge in E8. }
  unfold AdminUserForm.len in *. split.
  - destruct (0 <? _) eqn:E; [specialize (Hw eq_refl)|clear Hw];
    repeat match goal with |- context [if jval_eqb ?a ?b then _ else _] => destruct (jval_eqb a b) end; binds.
  - intros Hu. rewrite Hu, (proj2 (jval_eqb_eq _ _) eq_refl).
    repeat match goal with |- context [if ?c then _ else _] => destruct c end; reflexivity.
Qed.

Lemma secret_patch_binds v : ShouldBindJSON Dto.PPPSecretUpdateRequest (SecretForm.patch v) = true.
Proof. unfold SecretForm.patch, set_if_filled. destruct (String.eqb (trim (SecretForm.password v)) ""); binds. Qed.

Lemma user_requests_refused rid m t v :
  all_refused (match m with add => Dto.HotspotUserCreateRequest | edit => Dto.HotspotUserUpdateRequest end)
    (UserForm.submit m rid t v).
Proof.
  intros o n. unfold UserForm.submit, handleSubmit. destruct (UserForm.schema m v); [|constructor].
  destruct m; unfold UserForm.onSubmit; [|destruct t as [t|]; [|constructor]];
    apply awaits_refused; apply (wrong_type_refused _ _ (opt "disabled" GBool)); try (repeat first [apply list_elem_of_here | apply list_elem_of_further]; fail);
    unfold field_ok, opt; cbn [f_name]; change (get "disabled" (body_of _)) with (get "disabled" (UserForm.payload v));
    by rewrite user_payload_disabled.
Qed.

(** C11: what the router forms submit the backend decodes and accepts, within the lengths, ranges,
    roles and expiry modes it documents ([hs_profile_limits] and the like) and with a whole
    number as a router's port.  Each request binds the struct of its route, which has a field
    for every key sent: for the hotspot and PPP billing profiles, the PPP profiles and the
    routers, new or edited, and for new PPP secrets and staff accounts.  A hotspot profile
    binds behind the service's mapping; an edited secret and an edited account bind, an
    account's edit with a field for every key unless it renames the account.  The exception
    is the hotspot user form: no request of it is accepted, in either mode. *)
Theorem router_submissions_bind rid :
  (forall t v, hs_profile_limits v = true -> tsized 1 100 (HsDbProfileForm.name v) = true ->
     HsDbProfileForm.role v = "permanent" \/ HsDbProfileForm.role v = "voucher" ->
     sends Dto.HotspotProfileCreateRequest (HsDbProfileForm.submit add rid t v)) /\
  (forall t v, hs_profile_limits v = true ->
     sends Dto.HotspotProfileUpdateRequest (HsDbProfileForm.submit edit rid t v)) /\
  (forall t v, ppp_db_limits v = true -> tsized 1 100 (DbProfileForm.name v) = true ->
     sends Dto.PPPProfileCreateRequest (DbProfileForm.submit add rid t v)) /\
  (forall t v, ppp_db_limits v = true ->
     sends Dto.PPPProfileUpdateRequest (DbProfileForm.submit edit rid t v)) /\
  (forall m t v, tsized 1 128 (PPPProfileForm.name v) = true ->
     sends (match m with add => Dto.RouterPPPProfileCreateRequest | edit => Dto.RouterPPPProfileUpdateRequest end)
       (PPPProfileForm.submit m rid t v)) /\
  (forall t v, tsized 1 128 (SecretForm.name v) = true ->
     sends Dto.PPPSecretCreateRequest (SecretForm.submit add rid t v)) /\
  (forall t d n, RouterForm.port d = JNum n -> tsized 0 128 (RouterForm.display_name d) = true ->
     sends Dto.DeviceCreateRequest (RouterForm.handleSubmit add t d)) /\
  (forall t d, tsized 3 64 (AdminUserForm.username d) = true ->
     existsb (String.eqb (AdminUserForm.role d)) ["admin"; "operator"; "viewer"] = true ->
     sends Dto.UserCreateRequest (AdminUserForm.handleSubmit add t d)) /\
  (forall m t v o n, hotspot_profile_limits v = true -> tsized 1 100 (HotspotProfileForm.name v) = true ->
     HotspotProfileForm.role v = "permanent" \/ HotspotProfileForm.role v = "voucher" ->
     Forall (fun h => ShouldBindJSON (match m with add => Dto.HotspotProfileCreateRequest
                                      | edit => Dto.HotspotProfileUpdateRequest end) (body_of h) = true)
       (requests (exec o n (HotspotProfileForm.submit m rid t v)))) /\
  (forall t v o n, Forall (fun h => ShouldBindJSON Dto.PPPSecretUpdateRequest (body_of h) = true)
     (requests (exec o n (SecretForm.submit edit rid t v)))) /\
  (forall t d n, RouterForm.port d = JNum n -> - 2 ^ 63 <= n < 2 ^ 63 ->
     sends Dto.DeviceUpdateRequest (RouterForm.handleSubmit edit t d)) /\
  (forall t d o n, existsb (String.eqb (AdminUserForm.role d)) ["admin"; "operator"; "viewer"] = true ->
     Forall (fun h => ShouldBindJSON Dto.UserUpdateRequest (body_of h) = true)
       (requests (exec o n (AdminUserForm.handleSubmit edit (Some t) d))) /\
     (get "username" t = JStr (trim (AdminUserForm.username d)) ->
      sends Dto.UserUpdateRequest (AdminUserForm.handleSubmit edit (Some t) d))) /\
  (forall m t v, all_refused (match m with add => Dto.HotspotUserCreateRequest | edit => Dto.HotspotUserUpdateRequest end)
     (UserForm.submit m rid t v)).
Proof.
  split_and!.
  - intros t v Hl Hn Hr. apply submit_sends. intros Hs. apply awaits_sends. by apply hs_profile_taken.
  - intros t v Hl. apply submit_sends. intros Hs.
    destruct t; [by apply awaits_sends, hs_profile_taken|apply return_sends].
  - intros t v Hl Hn. apply submit_sends. intros Hs. apply awaits_sends. by apply ppp_db_taken.
  - intros t v Hl. apply submit_sends. intros Hs.
    destruct t; [by apply awaits_sends, ppp_db_taken|apply return_sends].
  - intros m t v Hn. apply submit_sends. intros Hs. destruct (ppp_profile_taken v Hn) as [H1 H2].
    destruct m; [by apply awaits_sends|]. destruct t; [by apply awaits_sends|apply return_sends].
  - intros t v Hn. apply submit_sends. intros Hs. by apply awaits_sends, secret_taken.
  - intros t d n Hp Hd. unfold RouterForm.handleSubmit.
    destruct (RouterForm.invalid add d) eqn:E; [intros o k; constructor|].
    apply awaits_sends, (router_taken d n); try done.
    unfold RouterForm.invalid, RouterForm.blank in E.
    destruct (String.eqb (trim (RouterForm.display_name d)) "") eqn:E1; [done|].
    rewrite eqb_len in E1. unfold tsized, sized, len in *. lia.
  - intros t d Hu Hr. unfold AdminUserForm.handleSubmit.
    destruct (AdminUserForm.invalid add d) eqn:E; [intros o k; constructor|].
    by apply awaits_sends, admin_user_taken.
  - intros m t v o n Hl Hn Hr. unfold HotspotProfileForm.submit, handleSubmit.
    destruct (HotspotProfileForm.schema m v); [|constructor].
    destruct m; unfold HotspotProfileForm.onSubmit.
    + rewrite awaits_requests. apply Forall_singleton.
      exact (proj1 (hotspot_profile_bound rid "" v Hl) Hn Hr).
    + destruct t as [t|]; [|constructor]. rewrite awaits_requests. apply Forall_singleton.
      exact (proj2 (hotspot_profile_bound rid (Ui.text "id" t) v Hl) Hn).
  - intros t v o n. unfold SecretForm.submit, handleSubmit. destruct (SecretForm.schema edit v); [|constructor].
    unfold SecretForm.onSubmit. destruct t as [t|]; [|constructor]. rewrite awaits_requests. apply Forall_singleton.
    apply secret_patch_binds.
  - intros t d n Hp Hn o k. unfold RouterForm.handleSubmit. destruct (RouterForm.invalid edit d); [constructor|].
    destruct t as [r|]; [|constructor]. pose proof (router_changes_taken r d n Hp Hn) as Ht.
    destruct (RouterForm.changes r d); [constructor|]. by apply awaits_sends.
  - intros t d o n Hr. unfold AdminUserForm.handleSubmit. destruct (AdminUserForm.invalid edit d) eqn:Ei; [by repeat constructor|].
    destruct (account_changes_bind t d Ei Hr) as [Hb Hh]. destruct (AdminUserForm.changes t d) as [|f fs]; [by repeat constructor|].
    split; [rewrite awaits_requests; by apply Forall_singleton|]. intros Hu. apply awaits_sends. split; [done|by apply Hh].
  - apply user_requests_refused.
Qed.

(** ** What is refused or ignored *)

(** The requests the backend does not take.  Every submission of the hotspot user form,
    in both modes, and the enable switch of its rows are refused, since [disabled] is sent
    as a text where the backend decodes a boolean.  The enable switch of a PPP secret is
    decoded, but its only key has no field there, so the backend reads the zero value and
    enables the secret in either direction.  An edited secret's comment and a renamed
    staff account's name are sent and ignored. *)
Theorem requests_not_taken rid row :
  (forall m t v, all_refused (match m with add => Dto.HotspotUserCreateRequest | edit => Dto.HotspotUserUpdateRequest end)
                   (UserForm.submit m rid t v)) /\
  all_refused Dto.HotspotUserUpdateRequest (RowActions.user_toggle rid row) /\
  (forall o n m, m ∈ requests (exec o n (RowActions.secret_toggle rid row)) ->
     ShouldBindJSON Dto.SetBoolRequest (body_of m) = true /\ get "value" (body_of m) = JUndef) /\
  (forall v, heard Dto.PPPSecretUpdateRequest (SecretForm.patch v) = false /\
             ShouldBindJSON Dto.PPPSecretUpdateRequest (SecretForm.patch v) = true) /\
  (forall t d, get "username" t <> JStr (trim (AdminUserForm.username d)) ->
     heard Dto.UserUpdateRequest (JObj (AdminUserForm.changes t d)) = false).
Proof.
  split_and!.
  - intros m t v. apply user_requests_refused.
  - apply awaits_refused, (wrong_type_refused _ _ (opt "disabled" GBool)); [set_solver|]. reflexivity.
  - intros o n m. unfold RowActions.secret_toggle. rewrite awaits_requests. intros ->%list_elem_of_singleton.
    rewrite ShouldBindJSON_spec. by split.
  - intros v. unfold SecretForm.patch, set_if_filled. destruct (String.eqb (trim (SecretForm.password v)) "");
      (split; [reflexivity|]); binds.
  - intros t d Hne. unfold AdminUserForm.changes, changed, heard, trimmed.
    destruct (jval_eqb _ (get "username" t)) eqn:E; [|done].
    apply jval_eqb_eq in E. by rewrite <- E in Hne.
Qed.
End Contracts.

(** ** Untouched edits *)

(** A record's optional text, without white space around it; its amount, flag, text. *)
Definition tidy_text (r : jval) (k : string) : Prop :=
  get k r = JUndef \/ get k r = JNull \/ exists s, get k r = JStr s /\ trim s = s.
Definition tidy_required (r : jval) (k : string) : Prop := exists s, get k r = JStr s /\ trim s = s.
Definition amount_field (r : jval) (k : string) : Prop := exists n, get k r = JNum n /\ 0 <= n < 2 ^ 53.
Definition flag (r : jval) (k : string) : Prop := exists b, get k r = JBool b.

(** A sent value that leaves the record as it is: the record's own value, or nothing for a
    value the record does not have. *)
Definition nothing (v : jval) : bool := match v with JUndef | JNull => true | JStr s => String.eqb s "" | _ => false end.
Definition same (v w : jval) : Prop := v = w \/ nothing v = true /\ nothing w = true.
(** A body that has each of the fields [ks] as [own] says, and no other. *)
Definition keeps_as (own : string -> jval) (ks : list string) (body : jval) : Prop :=
  Forall (fun k => same (get k body) (own k)) ks /\ forall k, k ∉ ks -> get k body = JUndef.
Definition keeps (r : jval) : list string -> jval -> Prop := keeps_as (fun k => get k r).

Lemma field_notin k fs : k ∉ map fst fs -> field k fs = JUndef.
Proof.
  induction fs as [|[k' v] fs IH]; [done|]. cbn. intros [Hk Hf]%not_elem_of_cons.
  rewrite (proj2 (String.eqb_neq _ _) Hk). by apply IH.
Qed.
Lemma field_in k v fs : NoDup (map fst fs) -> (k, v) ∈ fs -> field k fs = v.
Proof.
  induction fs as [|[k' v'] fs IH]; [by intros _ ?%not_elem_of_nil|]. cbn. intros [Hk Hn]%NoDup_cons Hin.
  apply elem_of_cons in Hin as [[= -> ->]|Hin].
  - by rewrite String.eqb_refl, field_notin.
  - assert (k ∈ map fst fs) as Hk' by (apply list_elem_of_fmap; by exists (k, v)).
    destruct (String.eqb_spec k k') as [->|_]; [done|]. by apply IH.
Qed.
Lemma keeps_fields own ks fs : NoDup (map fst fs) -> Forall (fun k => k ∈ map fst fs) ks ->
  Forall (fun kv => kv.1 ∈ ks /\ same kv.2 (own kv.1) \/ kv.2 = JUndef /\ kv.1 ∉ ks) fs -> keeps_as own ks (JObj fs).
Proof.
  intros Hn Hks Hf. split.
  - apply Forall_forall. intros k Hk. pose proof (proj1 (Forall_forall _ _) Hks k Hk) as Hin.
    apply list_elem_of_fmap in Hin as ([k' v] & -> & Hin). cbn [fst get] in *. rewrite (field_in k' v) by done.
    destruct (proj1 (Forall_forall _ _) Hf _ Hin) as [[_ H]|[_ H]]; done.
  - intros k Hk. cbn [get]. destruct (decide (k ∈ map fst fs)) as [Hin|]; [|by apply field_notin].
    apply list_elem_of_fmap in Hin as ([k' v] & -> & Hin). cbn [fst] in *. rewrite (field_in k' v) by done.
    destruct (proj1 (Forall_forall _ _) Hf _ Hin) as [[H _]|[H _]]; done.
Qed.

Lemma tidy_same r k : tidy_text r k -> same (trimmed (field_or k "" (Some r))) (get k r).
Proof.
  unfold trimmed, field_or. intros [E | [E | (s & E & Ht)]]; rewrite E; [by right|by right|].
  left. cbn. by rewrite Ht.
Qed.

Lemma tidy_or_undef r k : tidy_text r k -> same (trim_or_undef (field_or k "" (Some r))) (get k r).
Proof.
  unfold trim_or_undef, or_undef, field_or. intros [E | [E | (s & E & Ht)]]; rewrite E; [by right|by right|].
  cbn. rewrite Ht. destruct (String.eqb s "") eqn:Es; [by right|by left].
Qed.

Lemma required_field r k d : tidy_required r k -> get k r = JStr (field_or k d (Some r)) /\
  trim (field_or k d (Some r)) = field_or k d (Some r).
Proof. intros (s & E & Ht). unfold field_or. by rewrite E. Qed.

Lemma required_same r k d : tidy_required r k -> same (trimmed (field_or k d (Some r))) (get k r).
Proof. intros (E & Ht)%(required_field r k d). left. unfold trimmed. by rewrite Ht. Qed.

Lemma flag_same r k : flag r k -> same (is_true (bool_text k (Some r))) (get k r).
Proof. intros (b & E). left. unfold is_true, bool_text. rewrite E. by destruct b. Qed.

Lemma flag_truthy r k : flag r k -> same (JBool (truthy (get k r))) (get k r).
Proof. intros (b & E). left. by rewrite E. Qed.

Lemma round_positive_Z n : 0 <= n -> round_positive (Z_to_string n) = n.
Proof.
  intros Hn. unfold round_positive. rewrite Number_Z_to_string by done.
  unfold Qc_of. cbn [this Q2Qc]. rewrite (Qred_identity (inject_Z n)) by (cbn; apply Z.gcd_1_r).
  unfold Qle_bool, inject_Z. cbn [Qnum Qden]. destruct (Z.leb_spec (n * 1) (0 * 1)); [lia|].
  unfold Qplus, Qfloor. cbn [Qnum Qden]. rewrite Z.mul_1_r. change (Z.pos (1 * 2)) with 2.
  Z.to_euclidean_division_equations. lia.
Qed.

Lemma amount_same r k : amount_field r k -> same (JNum (round_positive (text_if k "" (Some r)))) (get k r).
Proof.
  intros (n & E & Hn). left. unfold text_if. rewrite E. cbn [truthy js_String].
  destruct (Z.eqb_spec n 0) as [->|Hne]; [done|]. cbn [negb]. by rewrite round_positive_Z by lia.
Qed.

Lemma raw_same r k d : tidy_required r k -> same (JStr (field_or k d (Some r))) (get k r).
Proof. intros (E & _)%(required_field r k d). by left. Qed.

#[local] Hint Resolve tidy_same tidy_or_undef required_same raw_same flag_same flag_truthy amount_same : untouched.

#[local] Arguments field_or : simpl never.
#[local] Arguments text_if : simpl never.
#[local] Arguments bool_text : simpl never.
#[local] Arguments trimmed : simpl never.
#[local] Arguments is_true : simpl never.
#[local] Arguments trim_or_undef : simpl never.
#[local] Arguments round_positive : simpl never.
#[local] Arguments get : simpl never.
#[local] Arguments trim : simpl never.

Ltac decided := apply (bool_decide_unpack _); vm_compute; exact I.
Ltac keep :=
  apply keeps_fields; [decided|repeat (apply Forall_cons; split; [decided|]); by apply Forall_nil|];
  repeat (apply Forall_cons; split; [cbn [fst snd]; first [left; split; [decided|first [eauto with untouched; fail|cbn; eauto with untouched; fail]] | right; split; [done|decided] | idtac]|]);
  try apply Forall_nil_2.

Definition texts (r : jval) (ks : list string) : Prop := Forall (tidy_text r) ks.
Definition required (r : jval) (ks : list string) : Prop := Forall (tidy_required r) ks.
Definition amounts (r : jval) (ks : list string) : Prop := Forall (amount_field r) ks.
Definition flags (r : jval) (ks : list string) : Prop := Forall (flag r) ks.

Ltac unfold_fields :=
  unfold texts, required, amounts, flags in *; rewrite ?Forall_cons in *; destruct_and?.

Lemma customer_untouched r : required r ["full_name"; "phone"; "status"] -> texts r ["address"; "area"; "notes"] ->
  keeps r ["full_name"; "phone"; "address"; "area"; "notes"; "status"]
    (CustomerForm.payload (CustomerForm.initial edit (Some r))).
Proof. intros. unfold_fields. keep. Qed.

Lemma ppp_db_untouched r : amounts r ["price_monthly"] -> flags r ["active"; "is_public"] ->
  texts r ["rate_limit"; "local_address"; "remote_address"; "session_timeout"; "idle_timeout"; "parent_queue";
           "description"] ->
  keeps r ["rate_limit"; "local_address"; "remote_address"; "session_timeout"; "idle_timeout"; "parent_queue";
           "description"; "price_monthly"; "active"; "is_public"]
    (DbProfileForm.update_payload (DbProfileForm.initial edit (Some r))).
Proof.
  intros. unfold_fields. unfold DbProfileForm.update_payload, DbProfileForm.common, DbProfileForm.parsePrice. keep.
Qed.

Lemma ppp_profile_untouched r : required r ["name"] -> flags r ["disabled"] ->
  texts r ["rate_limit"; "local_address"; "remote_address"; "session_timeout"; "idle_timeout"; "parent_queue";
           "comment"] ->
  keeps r ["name"; "rate_limit"; "local_address"; "remote_address"; "session_timeout"; "idle_timeout"; "parent_queue";
           "comment"; "disabled"]
    (PPPProfileForm.payload (PPPProfileForm.initial edit (Some r))).
Proof. intros. unfold_fields. keep. Qed.

Lemma secret_untouched r : required r ["name"; "service"] ->
  texts r ["profile"; "local_address"; "remote_address"; "comment"] ->
  keeps r ["name"; "service"; "profile"; "local_address"; "remote_address"; "comment"]
    (SecretForm.patch (SecretForm.initial edit (Some r))).
Proof. intros. unfold_fields. keep. Qed.

(** The fields of a hotspot billing profile, by its role; a limit of 0 users becomes 1. *)
Definition hs_fields (r : jval) : list string :=
  ["rate_limit"; "address_pool"; "shared_users"; "status_autorefresh"; "parent_queue"; "description"; "active"] ++
  (if jval_eqb (get "role" r) (JStr "permanent") then ["price_monthly"; "is_public"]
   else ["expiry_mode"; "validity"; "price"; "sell_price"; "lock_mac"]).
Definition at_least_one_user (r : jval) (k : string) : jval :=
  if String.eqb k "shared_users" && jval_eqb (get k r) (JNum 0) then JNum 1 else get k r.

Lemma hs_profile_untouched r : required r ["name"; "role"; "status_autorefresh"; "expiry_mode"] ->
  get "status_autorefresh" r <> JStr "" ->
  texts r ["rate_limit"; "address_pool"; "parent_queue"; "description"; "validity"] ->
  amounts r ["shared_users"; "price_monthly"; "price"; "sell_price"] ->
  flags r ["active"; "is_public"; "lock_mac"] ->
  keeps_as (at_least_one_user r) (hs_fields r) (HsDbProfileForm.update_payload (HsDbProfileForm.initial edit (Some r))).
Proof.
  intros. unfold_fields.
  assert (same (JNum (HsDbProfileForm.or_1 (round_positive (text_if "shared_users" "1" (Some r)))))
            (at_least_one_user r "shared_users")).
  { match goal with H : amount_field r "shared_users" |- _ => destruct H as (n & E & Hn) end.
    left. unfold text_if, at_least_one_user. rewrite E in *. cbn [truthy js_String].
    change (String.eqb "shared_users" "shared_users") with true. cbn [andb].
    destruct (Z.eqb_spec n 0) as [->|Hne]; [done|]. cbn [negb]. rewrite round_positive_Z by lia.
    unfold HsDbProfileForm.or_1. rewrite (proj2 (Z.eqb_neq n 0) Hne). destruct (jval_eqb (JNum n) (JNum 0)) eqn:E0; [|done].
    apply jval_eqb_eq in E0. congruence. }
  assert (same (JStr (HsDbProfileForm.or_text (trim (field_or "status_autorefresh" "1m" (Some r))) "1m"))
            (get "status_autorefresh" r)).
  { match goal with H : tidy_required r "status_autorefresh" |- _ =>
      destruct (required_field r _ "1m" H) as [E Ht] end.
    left. rewrite Ht, E. unfold HsDbProfileForm.or_text.
    destruct (String.eqb_spec (field_or "status_autorefresh" "1m" (Some r)) "") as [E'|]; [|done].
    rewrite E' in E. by rewrite E in *. }
  unfold HsDbProfileForm.update_payload, HsDbProfileForm.mikrotik, HsDbProfileForm.billing, hs_fields.
  match goal with H : tidy_required r "role" |- _ => destruct (required_field r _ "voucher" H) as [E _] end.
  change (HsDbProfileForm.role (HsDbProfileForm.initial edit (Some r))) with (field_or "role" "voucher" (Some r)).
  rewrite E. cbn [jval_eqb].
  destruct (String.eqb _ "permanent"); cbn [app]; keep.
Qed.

(** An id or a day, or none. *)
Definition id_or_none (r : jval) (k : string) : Prop :=
  get k r = JUndef \/ get k r = JNull \/ exists n, get k r = JNum n /\ 1 <= n.

Lemma id_text_same r k d : id_or_none r k -> d = "" \/ (exists n, get k r = JNum n) ->
  same (number_or_undef (field_or k d (Some r))) (get k r).
Proof.
  intros Hk Hd. unfold field_or. destruct Hk as [E | [E | (n & E & Hn)]]; rewrite E in *.
  - destruct Hd as [-> | [? ?]]; [by right|done].
  - destruct Hd as [-> | [? ?]]; [by right|done].
  - left. cbn [js_String]. apply number_or_undef_id; [apply Number_val_Z; lia|done].
Qed.

Lemma billing_day_same r : id_or_none r "billing_day" ->
  same (number_if (text_if "billing_day" "" (Some r))) (get "billing_day" r).
Proof.
  unfold text_if. intros [E | [E | (n & E & Hn)]]; rewrite E; [by right|by right|].
  cbn [truthy js_String]. destruct (Z.eqb_spec n 0) as [->|_]; [lia|]. cbn [negb]. left.
  unfold number_if. destruct (String.eqb_spec (Z_to_string n) "") as [E'|_].
  - pose proof (Number_val_Z n ltac:(lia)) as Hv. rewrite E' in Hv. cbn in Hv. injection Hv as <-. lia.
  - apply Number_val_Z. lia.
Qed.

Lemma subscription_untouched r router :
  texts r ["notes"] -> id_or_none r "billing_day" ->
  (get "service_type" r = JStr "pppoe" /\ id_or_none r "ppp_profile_id" /\ get "hotspot_profile_id" r = JUndef) \/
  (get "service_type" r = JStr "hotspot" /\ id_or_none r "hotspot_profile_id" /\ get "ppp_profile_id" r = JUndef) ->
  keeps r ["notes"; "billing_day"; if jval_eqb (get "service_type" r) (JStr "pppoe") then "ppp_profile_id" else "hotspot_profile_id"]
    (SubscriptionForm.update_payload r (SubscriptionForm.initial edit (Some r) router)).
Proof.
  intros Hn Hb Hp. unfold_fields. apply billing_day_same in Hb.
  unfold SubscriptionForm.update_payload, SubscriptionStep.profile_field.
  destruct Hp as [(-> & Hp & Ho) | (-> & Hp & Ho)]; cbn [jval_eqb]; keep.
  - left. split; [decided|]. cbn. apply id_text_same; [done|]. left. unfold field_or. by rewrite Ho.
  - left. split; [decided|]. cbn. unfold field_or at 1. rewrite Ho. apply id_text_same; [done|by left].
Qed.

Lemma changed_same k v : changed k v v = [].
Proof. unfold changed. by rewrite (proj2 (jval_eqb_eq v v) eq_refl). Qed.

Lemma required_text r k : tidy_required r k -> get k r = trimmed (Ui.text k r).
Proof. intros (s & E & Ht). unfold Ui.text, trimmed. rewrite E. cbn [js_String]. by rewrite Ht. Qed.

Lemma router_unchanged r : required r ["display_name"; "host"; "username"] ->
  RouterForm.changes r (RouterForm.initial edit (Some r)) = [].
Proof.
  intros. unfold_fields. unfold RouterForm.changes, RouterForm.initial. cbn.
  rewrite <- !required_text, !changed_same by done.
  unfold is_true, bool_text. destruct (truthy (get "use_tls" r)); by rewrite changed_same.
Qed.

Lemma admin_user_unchanged r : required r ["username"; "role"] -> flags r ["active"] ->
  AdminUserForm.changes r (AdminUserForm.initial edit (Some r)) = [].
Proof.
  intros. unfold_fields. unfold AdminUserForm.changes, AdminUserForm.initial. cbn.
  rewrite <- required_text, changed_same by done.
  match goal with H : tidy_required r "role" |- _ => destruct H as (s & E & _) end.
  match goal with H : flag r "active" |- _ => destruct H as (b & E') end.
  unfold Ui.text. rewrite E, E'. cbn [js_String]. rewrite changed_same. cbn [app].
  replace (truthy (JBool b)) with b by done. by rewrite changed_same.
Qed.

