(* ===== verification/FormRuns.v ===== *)
(** * What a submission shows

    Every form at once: what a submission sends, when the form closes and which toast it
    shows, the bulk form of the hosts' page included.  With witnesses for the theorems on
    the forms. *)
From S2P Require Import Prelude JsString JsValue JsNumber Http ApiErrors Hooks Ui DialogStores Actions.
From S2P Require Import Wire Forms FormsBusiness FormsRouter Voucher Presets FormsPreset FormContracts FormEffects.

(** The form is done: it closes, or goes on to its second step. *)
Definition ends (e : effect) : bool :=
  match e with Close => true | SetState k v => String.eqb k "step" && jval_eqb v (JNum 2) | _ => false end.
Definition finished (tr : list event) : bool := existsb (fun e => match e with Did e => ends e | Sent _ _ => false end) tr.

Lemma finished_did es : finished (map Did es) = existsb ends es.
Proof. induction es as [|e es IH]; [done|]. cbn. by rewrite <- IH. Qed.

(** One request at most, and what becomes of it is said: accepted, one success toast and the
    form is done; refused, one error toast and it stays open.  Nothing sent, no success
    toast. *)
Definition reports (p : prog) : Prop :=
  forall o n, let tr := exec o n p in
  match requests tr with
  | [] => Forall (fun t => t.1 <> success) (toasts tr)
  | [_] => (exists msg, toasts tr = [(if fulfilled (o n) then success else Ui.error, msg)]) /\ finished tr = fulfilled (o n)
  | _ => False
  end.

Lemma toasts_of_did es : toasts (map Did es) = omap (fun e => match e with Toast k m _ => Some (k, m) | _ => None end) es.
Proof. induction es as [|e es IH]; [done|]. cbn. unfold toasts in IH. destruct e; cbn; by rewrite IH. Qed.

Lemma awaits_reports m ok err :
  (forall v, exists msg, toasts (map Did (ok v)) = [(success, msg)]) ->
  (forall e, exists msg, toasts (map Did (err e)) = [(Ui.error, msg)]) ->
  (forall v, existsb ends (ok v) = true) -> (forall e, existsb ends (err e) = false) -> reports (awaits m ok err).
Proof.
  intros Hok Herr Hc Hn o n tr. assert (requests tr = [m]) as -> by apply awaits_requests.
  subst tr. unfold awaits. cbn [exec]. destruct (o n) as [v|e]; rewrite exec_emits; cbn [fulfilled].
  - split; [exact (Hok v)|]. specialize (Hc v). by rewrite <- finished_did in Hc.
  - split; [exact (Herr e)|]. specialize (Hn e). by rewrite <- finished_did in Hn.
Qed.
Lemma return_reports : reports Return.
Proof. intros o n. constructor. Qed.
Lemma emits_report es : Forall (fun e => kind_of e <> Some success) es -> reports (emits es Return).
Proof.
  intros Hes o n. rewrite exec_emits. cbn zeta. rewrite requests_did, toasts_of_did.
  induction Hes as [|e es He Hes IH]; [constructor|]. cbn. destruct e; try exact IH. constructor; [|exact IH].
  cbn in *. congruence.
Qed.
Lemma submit_reports accepted p : reports p -> reports (handleSubmit accepted p).
Proof. destruct accepted; [done|]. intros _. apply return_reports. Qed.

Lemma meta_calls_no_toast l : toasts (map Did (map PresetForm.meta_effect l)) = [].
Proof. induction l as [|c l IH]; [done|]. destruct c; exact IH. Qed.

Lemma saved_preset_reports l msg : toasts (map Did (map PresetForm.meta_effect l ++ [Toast success msg JUndef; Close])) = [(success, msg)] /\
  existsb ends (map PresetForm.meta_effect l ++ [Toast success msg JUndef; Close]) = true.
Proof.
  split.
  - rewrite map_app, toasts_app, meta_calls_no_toast. done.
  - rewrite existsb_app. apply orb_true_r.
Qed.

Section Runs.
Context `{Zod}.

Ltac reporting :=
  first [apply return_reports
        | first [apply (emits_report [_])|apply (emits_report [_; _])]; repeat constructor; done
        | apply awaits_reports; intros ?; first [by eexists | reflexivity | eexists; apply saved_preset_reports
                                                | apply saved_preset_reports; exact ""]].

(** The hosts bound in bulk: one request per selected host the page knows, then one toast. *)
Lemma binding_kind results :
  exists k m, BindingForm.binding_toast results = Toast k m JUndef /\
    k = (if forallb fulfilled results then success
         else if forallb (fun r => negb (fulfilled r)) results then Ui.error else warning).
Proof. destruct (settled_kind "Created" "create" "IP binding" results) as (k & m & E & Hk).
  unfold settled_toast in E. unfold BindingForm.binding_toast.
  destruct (_ =? 0); [|destruct (_ =? 0)]; injection E as <- _; eauto.
Qed.

Lemma bulk_accounts (f : jval -> mutation_hook) h l :
  accounts (MutateAll (f <$> h :: l) (fun rs => emits [BindingForm.binding_toast rs; Close] Return)) (map f (h :: l)).
Proof.
  intros o n tr rs. subst tr rs. cbn [exec].
  destruct (binding_kind (map o (seq n (length (map f (h :: l)))))) as (k & m & E & Hk).
  cbn [emits]. change (f <$> h :: l) with (map f (h :: l)). rewrite E.
  rewrite requests_app, toasts_app, closes_app, requests_zip, toasts_zip by (by rewrite length_map, length_seq).
  cbn [exec]. rewrite orb_comm. split_and!; [by rewrite app_nil_r|done|]. by exists k, m.
Qed.

(** C18: a submission says what became of it.  Seventeen of the eighteen forms, the binding form
    for one host among them, send at most one request, whatever was typed; accepted, they
    show one success toast and close (or go on to the second step); refused, one error toast
    and stay open; with nothing sent they claim no success.  The form that collects a payment
    by its code shows the answer in place, or the error at its field, without a toast.  The
    binding form for many hosts sends one request per host it knows, closes, and its one
    toast says whether all, none or some were accepted; without a host it shows an error. *)
Theorem submissions_well_behaved rid orid m t (r : jval) subs parse (i c : Z) (k code : string)
    cust step sub inst inv pay sale hs db pp hp us sec bind rt ad target pre :
  Forall reports
    [CustomerForm.submit m t cust; SubscriptionStep.submit r step; SubscriptionForm.submit m t sub;
     InstallForm.submit r inst; GenerateInvoice.submit subs inv; RecordPayment.submit i c k pay;
     RecordSale.handleSubmit parse orid sale; HsDbProfileForm.submit m rid t hs;
     DbProfileForm.submit m rid t db; PPPProfileForm.submit m rid t pp; HotspotProfileForm.submit m rid t hp;
     UserForm.submit m rid t us; SecretForm.submit m rid t sec; BindingForm.submit false rid [] ∅ bind;
     RouterForm.handleSubmit m t rt; AdminUserForm.handleSubmit m t ad; PresetForm.submit m orid target pre] /\
  (forall o n, exec o n (CollectByCode.submit code) =
     if CollectByCode.schema code
     then [Sent (M_Payments_CollectByCode (CollectByCode.payload code)) (o n);
           Did (match o n with Ok data => SetState "result" data | Throw e => SetError "code" (message e) end)]
     else []) /\
  (forall ids bulk, BindingForm.bindingSchema bind = true ->
     match BindingForm.targets ids bulk with
     | [] => BindingForm.submit true rid ids bulk bind = Emit (Toast Ui.error "No hosts selected" JUndef) Return
     | hosts => accounts (BindingForm.submit true rid ids bulk bind)
                  (map (M_HotspotBindings_AddIPBinding rid ∘ BindingForm.host_payload bind) hosts)
     end).
Proof.
  split_and!.
  - repeat (apply Forall_cons; split); try (by apply Forall_nil); try apply submit_reports;
      unfold CustomerForm.onSubmit, SubscriptionStep.onSubmit, SubscriptionForm.onSubmit, InstallForm.onSubmit,
        GenerateInvoice.onSubmit, RecordPayment.onSubmit, RecordSale.handleSubmit,
        HsDbProfileForm.onSubmit, DbProfileForm.onSubmit, PPPProfileForm.onSubmit, HotspotProfileForm.onSubmit,
        UserForm.onSubmit, SecretForm.onSubmit, BindingForm.onSubmit, RouterForm.handleSubmit,
        AdminUserForm.handleSubmit, PresetForm.onSubmit;
      repeat case_match; reporting.
  - intros o n. unfold CollectByCode.submit, handleSubmit. destruct (CollectByCode.schema code); [|done].
    unfold CollectByCode.onSubmit, awaits. cbn. by destruct (o n).
  - intros ids bulk Hs. unfold BindingForm.submit, handleSubmit, BindingForm.schema. rewrite Hs.
    destruct (BindingForm.targets ids bulk) as [|h l] eqn:E; unfold BindingForm.onSubmit; rewrite E; [done|].
    apply bulk_accounts.
Qed.
End Runs.

(** ** Witnesses *)

Definition demo_customer : CustomerForm.CustomerFormValues :=
  CustomerForm.Values " Budi " "0812345" "RT 3" "Jl. Mawar 1" "" "aktif".

Lemma business_submissions_bind_witness :
  sends Dto.CustomerCreateRequest (CustomerForm.submit add None demo_customer) /\
  length (requests (exec (fun _ => Ok JNull) 0 (CustomerForm.submit add None demo_customer))) = 1%nat.
Proof.
  split; [|reflexivity]. exact (proj1 business_submissions_bind add None demo_customer eq_refl).
Defined.

Definition demo_router : RouterForm.Draft := RouterForm.Values "Kantor" "10.0.0.1" (JNum 8728) "admin" "s3cret" "false".

Lemma router_submissions_bind_witness :
  sends Dto.DeviceCreateRequest (RouterForm.handleSubmit add None demo_router) /\
  length (requests (exec (fun _ => Ok JNull) 0 (RouterForm.handleSubmit add None demo_router))) = 1%nat.
Proof.
  split; [|reflexivity].
  destruct (router_submissions_bind 1) as (_ & _ & _ & _ & _ & _ & Hr & _).
  exact (Hr None demo_router 8728 eq_refl eq_refl).
Defined.

Lemma requests_not_taken_witness :
  let v := UserForm.Values "tamu" "rahasia" "1d" "all" "" "" "false" in
  all_refused Dto.HotspotUserCreateRequest (UserForm.submit add 1 None v) /\
  length (requests (exec (fun _ => Ok JNull) 0 (UserForm.submit add 1 None v))) = 1%nat.
Proof.
  intros v. split; [|reflexivity]. exact (proj1 (requests_not_taken 1 JUndef) add None v).
Defined.

Definition demo_record : jval :=
  JObj [("id", JNum 7); ("full_name", JStr "Budi"); ("phone", JStr "0812345"); ("area", JStr "RT 3");
        ("address", JStr "Jl. Mawar 1"); ("status", JStr "aktif")].

