(* ===== verification/Log.v ===== *)
(** * The log page ([features/log/{index.tsx,data/data.ts,components}])

    Reading log entries from the REST list and from the stream, filtering them, and the
    page's list: seeded from the list, extended by the stream, bounded.  What [Date.parse]
    makes of a text is the parameter [date_parse] ([None] for an invalid date); the time
    zone is the pair [to_utc], [from_utc] on milliseconds.  The stream's frames reach
    [onEvent] as Sse has it; [handle] there drops what [onEvent] throws at. *)
From S2P Require Import Prelude JsString JsValue JsNumber JsDate Http ViewModels.

Definition LOG_MAX_ENTRIES : nat := 500.

Definition LOG_TOPICS : list string :=
  ["hotspot"; "info"; "debug"; "warning"; "error"; "system"; "firewall"; "wireless"; "dhcp"; "pppoe"].

(** [time] is [None] for an invalid [Date]. *)
Record LogEntry : Type := Entry { id : string; time : option Z; topics : list string; message : string }.

Definition TOPIC_COLORS : list (string * string) :=
  [("hotspot", "bg-sky-500/10 text-sky-700 dark:text-sky-400");
   ("info", "bg-emerald-500/10 text-emerald-700 dark:text-emerald-400");
   ("debug", "bg-muted text-muted-foreground");
   ("warning", "bg-amber-500/10 text-amber-700 dark:text-amber-400");
   ("error", "bg-red-500/10 text-red-700 dark:text-red-400");
   ("system", "bg-violet-500/10 text-violet-700 dark:text-violet-400");
   ("firewall", "bg-rose-500/10 text-rose-700 dark:text-rose-400");
   ("wireless", "bg-indigo-500/10 text-indigo-700 dark:text-indigo-400");
   ("dhcp", "bg-teal-500/10 text-teal-700 dark:text-teal-400");
   ("pppoe", "bg-fuchsia-500/10 text-fuchsia-700 dark:text-fuchsia-400")].

Definition topicColor (topic : string) : string :=
  match List.find (fun kv => String.eqb kv.1 topic) TOPIC_COLORS with
  | Some kv => kv.2
  | None => "bg-muted text-muted-foreground"
  end.

(** ** Filtering *)

Definition shown (term : string) (selectedTopics : list string) (e : LogEntry) : bool :=
  if (0 <? length selectedTopics)%nat && negb (existsb (fun t => existsb (String.eqb t) selectedTopics) (topics e))
  then false
  else negb (negb (String.eqb term "") && negb (includes term (toLowerCase (message e)))).

Definition filterLogs (entries : list LogEntry) (search : string) (selectedTopics : list string) : list LogEntry :=
  let term := toLowerCase (trim search) in List.filter (shown term selectedTopics) entries.

(** The toolbar's [toggle]. *)
Definition toggle (topic : string) (selectedTopics : list string) : list string :=
  if existsb (String.eqb topic) selectedTopics
  then List.filter (fun t => negb (String.eqb t topic)) selectedTopics
  else selectedTopics ++ [topic].

(** ** Times *)

(** [Number(s)] truncated to a whole number; [None] is [NaN]. *)
Definition whole_number (s : string) : option Z :=
  q ← Number_str s; Some (Z.quot (Qnum (this q)) (Zpos (Qden (this q)))).

Section Times.
Context (date_parse : string -> option Z) (to_utc from_utc : Z -> Z).

(** [Number(parts[i]) || 0]. *)
Definition part_or_0 (parts : list string) (i : nat) : Z :=
  match nth_error parts i with
  | Some s => match whole_number s with Some n => n | None => 0 end
  | None => 0
  end.

Definition parseLogTime (now : Z) (timeStr : string) : option Z :=
  match date_parse timeStr with
  | Some t => Some t
  | None =>
      let parts := JsString.split " " timeStr in
      let datePart := match nth_error parts 0 with Some s => s | None => "" end in
      let timePart := match nth_error parts 1 with Some s => s | None => "" end in
      let mp := JsString.split "/" datePart in
      let clock := JsString.split ":" timePart in
      let month := match nth_error mp 0 with
                   | Some s => index_of (toLowerCase s) MONTH_INDEX ?? 0
                   | None => 0
                   end in
      match nth_error mp 1 with
      | None => None                                  (** [+undefined] is [NaN] *)
      | Some dayStr =>
          day ← whole_number dayStr;
          let year := year_of (from_utc now) in
          let local := local_time year month day (part_or_0 clock 0) (part_or_0 clock 1) (part_or_0 clock 2) in
          let d := to_utc local in
          if 86400000 <? d - now then Some (to_utc (setFullYear (year_of local - 1) local)) else Some d
      end
  end.

(** [s.split(',').map((t) => t.trim()).filter(Boolean)]. *)
Definition topic_list (s : string) : list string :=
  List.filter (fun t => negb (String.eqb t "")) (map trim (JsString.split "," s)).

(** A property of a value, which throws on [undefined] and [null]; a text method, which
    throws on what is no text. *)
Definition prop (k : string) (v : jval) : result jval jval :=
  match v with JUndef | JNull => Throw (JStr "TypeError") | _ => Ok (get k v) end.
Definition as_text (v : jval) : result jval string :=
  match v with JStr s => Ok s | _ => Throw (JStr "TypeError") end.

(** The module's counter [_id] is threaded: its new value comes with the entry.  It is
    incremented before the first field is read. *)
Definition sseLogToLogEntry (now : Z) (counter : Z) (event : jval) : result jval LogEntry * Z :=
  match event with
  | JUndef | JNull => (Throw (JStr "TypeError"), counter)
  | _ =>
      let fields := get "fields" event in
      (ts ← prop "time" fields;
       tp ← prop "topics" fields;
       tp ← as_text tp;
       msg ← prop "message" fields;
       Ok (Entry ("sse-" +:+ Z_to_string (counter + 1)) (parseLogTime now (js_String ts)) (topic_list tp) (js_String msg)),
       counter + 1)
  end.

Definition text_or_empty (k : string) (v : jval) : string :=
  match get k v with JUndef | JNull => "" | w => js_String w end.

Definition restLogToLogEntry (now : Z) (counter : Z) (r : jval) : LogEntry * Z :=
  let has_id := truthy (get "id" r) in
  (Entry (if has_id then js_String (get "id" r) else "rest-" +:+ Z_to_string (counter + 1))
     (parseLogTime now (text_or_empty "time" r)) (topic_list (text_or_empty "topics" r))
     (js_String (get "message" r)),
   if has_id then counter else counter + 1).

Fixpoint backlog_entries (now counter : Z) (rs : list jval) : list LogEntry * Z :=
  match rs with
  | [] => ([], counter)
  | r :: rs' =>
      let '(e, c) := restLogToLogEntry now counter r in
      let '(es, c) := backlog_entries now c rs' in (e :: es, c)
  end.

(** ** The page *)

(** [version] stands for the identity of the cached list, [seededData] for the one the page
    was last seeded from. *)
Record LogPage : Type := Page { entries : list LogEntry; seeded : option nat; paused : bool; counter : Z }.
Definition initial_page : LogPage := Page [] None false 0.

Inductive page_event : Type :=
| Backlog (version : nat) (data : list jval) (now : Z)   (** a render with this data in the cache *)
| Frame (event : jval) (now : Z)
| TogglePause
| Clear.

Definition on_event (e : page_event) (p : LogPage) : LogPage :=
  match e with
  | Backlog version data now =>
      if match seeded p with Some v => Nat.eqb v version | None => false end then p
      else let '(es, c) := backlog_entries now (counter p) data in
           Page (firstn LOG_MAX_ENTRIES es) (Some version) (paused p) c
  | Frame event now =>
      match sseLogToLogEntry now (counter p) event with
      | (Throw _, c) => Page (entries p) (seeded p) (paused p) c
      | (Ok entry, c) =>
          if paused p then Page (entries p) (seeded p) (paused p) c
          else
            let next := entry :: entries p in
            Page (if (LOG_MAX_ENTRIES <? length next)%nat then firstn LOG_MAX_ENTRIES next else next)
              (seeded p) (paused p) c
      end
  | TogglePause => Page (entries p) (seeded p) (negb (paused p)) (counter p)
  | Clear => Page [] (seeded p) (paused p) (counter p)
  end.

Inductive page_step : LogPage -> LogPage -> Prop :=
| Event e p : page_step p (on_event e p).

(** [formatLogTime]: [Intl.DateTimeFormat] throws on an invalid date. *)
Definition renders (e : LogEntry) : bool := match time e with Some _ => true | None => false end.
End Times.

(** The events of the stream as the backend sends them ([dto.LogEvent]). *)
Record LogEventResponse : Type := LogEvent { l_id : string; l_time : string; l_topics : string; l_message : string }.
Definition event_json (e : LogEventResponse) : jval :=
  JObj [("id", JStr (l_id e)); ("time", JStr (l_time e)); ("topics", JStr (l_topics e)); ("message", JStr (l_message e))].

(** ** Theorems *)

Section Laws.
Context (date_parse : string -> option Z) (to_utc from_utc : Z -> Z).
#[local] Notation on_event := (on_event date_parse to_utc from_utc).
#[local] Notation page_step := (page_step date_parse to_utc from_utc).

(** An event the page can read: it has [fields], and their topics are a text. *)
Definition readable (event : jval) : bool :=
  match get "fields" event with
  | JUndef | JNull => false
  | fields => match get "topics" fields with JStr _ => true | _ => false end
  end.

(** The entry of a readable event; any other one is dropped. *)
Lemma read_entry now c event : let fields := get "fields" event in
  match (sseLogToLogEntry date_parse to_utc from_utc now c event).1 with
  | Ok e => readable event = true /\
      e = Entry (id e) (parseLogTime date_parse to_utc from_utc now (js_String (get "time" fields)))
            (topic_list (js_String (get "topics" fields))) (js_String (get "message" fields))
  | Throw _ => readable event = false
  end.
Proof.
  cbv zeta. unfold readable, sseLogToLogEntry. destruct event; try done; cbn [fst];
    match goal with |- context [get "fields" ?v] => destruct (get "fields" v) as [| | | | | | |] eqn:E end;
    try done; cbn [prop mbind result_bind]; destruct (get "topics" _); done.
Qed.

Lemma page_bound p : reachable (fun p => p = initial_page) page_step p -> (length (entries p) <= LOG_MAX_ENTRIES)%nat.
Proof.
  revert p. apply (reachable_invariant _ _ (fun p => (length (entries p) <= LOG_MAX_ENTRIES)%nat)).
  - intros p ->. cbn. lia.
  - intros p p' Hp Hs. destruct Hs as [[version data now|event now| |] q]; cbn [on_event].
    + destruct (match seeded q with Some v => _ | None => false end); [done|].
      destruct (backlog_entries _ _ _ _ _ _) as [es c]. cbn [entries]. apply firstn_le_length.
    + destruct (sseLogToLogEntry _ _ _ _ _ _) as [[e|] c]; [|done]. destruct (paused q); [done|].
      cbn [entries]. destruct (Nat.ltb_spec LOG_MAX_ENTRIES (length (e :: entries q))); [apply firstn_le_length|done].
    + done.
    + cbn. lia.
Qed.


(** The live log never shows anything of this backend: its events have no [fields], so
    reading one throws, the stream's handler drops the frame, and the list stays as it is,
    whatever the event. *)
Theorem live_log_silent e now p :
  entries (on_event (Frame (event_json e) now) p) = entries p.
Proof. reflexivity. Qed.

(** An entry without a date part, as the router prints the entries of the day, has no valid
    time, on which the table's formatter throws. *)
Theorem clock_times_invalid now s : date_parse s = None -> str_forall (fun c => negb (c =? "/")%char) s = true ->
  parseLogTime date_parse to_utc from_utc now s = None.
Proof.
  intros Hd Hs. unfold parseLogTime. rewrite Hd.
  assert (forall x, x ∈ JsString.split " " s -> str_forall (fun c => negb (c =? "/")%char) x = true) as Hx.
  { intros x Hx. rewrite <- (join_split " " s) in Hs. revert Hs Hx. generalize (JsString.split " " s). clear.
    intros l. induction l as [|y l IH]; [by intros _ ?%elem_of_nil|].
    destruct l as [|z l].
    - cbn. intros Hs ->%list_elem_of_singleton. done.
    - intros Hs. cbn [join] in Hs. rewrite !str_forall_app in Hs. b2p.
      intros [->|Hx]%elem_of_cons; [done|]. by apply IH. }
  set (dp := match nth_error (JsString.split " " s) 0 with Some s => s | None => "" end).
  assert (str_forall (fun c => negb (c =? "/")%char) dp = true) as Hdp.
  { subst dp. destruct (nth_error (JsString.split " " s) 0) as [x|] eqn:E; [|done].
    apply Hx. apply list_elem_of_In. by apply nth_error_In in E. }
  assert (JsString.split "/" dp = [dp]) as -> by (by apply split_free_all). done.
Qed.
End Laws.

(** Filtering keeps exactly the entries that have one of the selected topics (any entry
    when none is selected) and whose message contains the search text, both in lower case,
    and keeps their order. *)
Theorem filterLogs_spec l search selected e :
  (e ∈ filterLogs l search selected <->
   e ∈ l /\ (selected = [] \/ exists t, t ∈ topics e /\ t ∈ selected) /\
   (toLowerCase (trim search) = "" \/ includes (toLowerCase (trim search)) (toLowerCase (message e)) = true)) /\
  sublist (filterLogs l search selected) l.
Proof.
  split.
  - unfold filterLogs. rewrite !list_elem_of_In, filter_In. unfold shown.
    assert ((0 <? length selected)%nat && negb (existsb (fun t => existsb (String.eqb t) selected) (topics e)) = false
      <-> (selected = [] \/ exists t, t ∈ topics e /\ t ∈ selected)) as Ht.
    { destruct selected as [|s ss]; [cbn; split; auto|]. cbn [length Nat.ltb Nat.leb andb].
      rewrite negb_false_iff, existsb_exists. split.
      - intros (t & H1 & (x & H2 & ->%String.eqb_eq)%existsb_exists). right. exists x. by rewrite !list_elem_of_In.
      - intros [?|(t & H1 & H2)]; [done|]. exists t. rewrite list_elem_of_In in H1. split; [done|].
        apply existsb_exists. exists t. rewrite list_elem_of_In in H2. split; [done|apply String.eqb_refl]. }
    destruct (_ && _) eqn:E.
    + split; [by intros [_ ?]|]. intros (_ & Hs & _). by apply Ht in Hs.
    + rewrite negb_true_iff, andb_false_iff, !negb_false_iff, String.eqb_eq. rewrite <- Ht. tauto.
  - unfold filterLogs. generalize (shown (toLowerCase (trim search)) selected). clear. intros f.
    induction l as [|x l IH]; [constructor|]. cbn. destruct (f x); by constructor.
Qed.

Definition demo_parse (_ : string) : option Z := None.
Definition demo_frame : jval :=
  JObj [("fields", JObj [("time", JStr "apr/30 10:11:12"); ("topics", JStr "hotspot, info"); ("message", JStr "login")])].

