(* ===== verification/Format.v ===== *)
(** * Numbers, durations and dates as text
    ([lib/format.ts], [features/{report,hotspot,customer-portal}/_shared/format.ts])

    Quantities are integers (counters, milliseconds, minutes); quotients are exact
    rationals.  A quotient by a power of 1024 is exact in a double as well; by a power of
    1000 the code rounds once more before [toFixed] does.  The functions that only call
    [Intl] ([formatIDR], [formatNumber], [formatDateTime], [formatDate], [formatTime],
    [formatPeriod], [formatIDDate]) are not modelled. *)
From Stdlib Require Import QArith.Qround.
From S2P Require Import Prelude JsString JsValue JsNumber JsDate ViewModels Log.

(** [x.toFixed(f)] of the quotient [n / d]: the nearest decimal, the larger of two. *)
Definition scaled (f : nat) (n d : Z) : Z := (2 * n * 10 ^ Z.of_nat f + d) / (2 * d).
Definition toFixed (f : nat) (n d : Z) : string :=
  let k := scaled f n d in
  let p := 10 ^ Z.of_nat f in
  Z_to_string (k / p) +:+ "." +:+ padStart f "0" (Z_to_string (k mod p)).

(** ** [lib/format.ts] *)

Definition formatBytes (bytes : Z) : string :=
  if bytes <? 1024 then Z_to_string bytes +:+ " B"
  else if bytes <? 1048576 then toFixed 1 bytes 1024 +:+ " KB"
  else if bytes <? 1073741824 then toFixed 1 bytes 1048576 +:+ " MB"
  else if bytes <? 1099511627776 then toFixed 2 bytes 1073741824 +:+ " GB"
  else toFixed 2 bytes 1099511627776 +:+ " TB".

Definition formatBitsPerSecond (bps : Z) : string :=
  if bps <? 1000 then Z_to_string bps +:+ " bps"
  else if bps <? 1000000 then toFixed 1 bps 1000 +:+ " Kbps"
  else if bps <? 1000000000 then toFixed 1 bps 1000000 +:+ " Mbps"
  else toFixed 2 bps 1000000000 +:+ " Gbps".

Definition formatPacketsPerSecond (pps : Z) : string :=
  if pps <? 1000 then Z_to_string pps +:+ " p/s"
  else if pps <? 1000000 then toFixed 1 pps 1000 +:+ " Kp/s"
  else toFixed 1 pps 1000000 +:+ " Mp/s".

(** [Math.round(n / d)]. *)
Definition round_quot (n d : Z) : Z := (2 * n + d) / (2 * d).

Definition formatRelativeTime (date now : Z) : string :=
  let diffSec := round_quot (now - date) 1000 in
  if diffSec <? 5 then "just now"
  else if diffSec <? 60 then Z_to_string diffSec +:+ "s ago"
  else let diffMin := round_quot diffSec 60 in
  if diffMin <? 60 then Z_to_string diffMin +:+ "m ago"
  else let diffHr := round_quot diffMin 60 in
  if diffHr <? 24 then Z_to_string diffHr +:+ "h ago"
  else let diffDay := round_quot diffHr 24 in
  if diffDay <? 30 then Z_to_string diffDay +:+ "d ago"
  else let diffMon := round_quot diffDay 30 in
  if diffMon <? 12 then Z_to_string diffMon +:+ "mo ago"
  else Z_to_string (round_quot diffMon 12) +:+ "y ago".

(** The days, hours and minutes of a duration, and its text. *)
Definition duration_parts (totalMinutes : Z) : Z * Z * Z :=
  (totalMinutes / (60 * 24), totalMinutes mod (60 * 24) / 60, totalMinutes mod 60).
Definition formatDuration (totalMinutes : Z) : string :=
  if totalMinutes <=? 0 then "0m"
  else
    let '(days, hours, minutes) := duration_parts totalMinutes in
    if 0 <? days then Z_to_string days +:+ "d " +:+ Z_to_string hours +:+ "h " +:+ Z_to_string minutes +:+ "m"
    else if 0 <? hours then Z_to_string hours +:+ "h " +:+ Z_to_string minutes +:+ "m"
    else Z_to_string minutes +:+ "m".

(** ** [hotspot/_shared/format.ts] *)

(** [Math.min(4, Math.floor(Math.log10(n) / 3))] of a whole number from 1 up. *)
Definition unit_index (n : Z) : nat :=
  if n <? 1000 then 0 else if n <? 1000000 then 1 else if n <? 1000000000 then 2
  else if n <? 1000000000000 then 3 else 4.
Definition hotspot_formatBytes (n : Z) : string :=
  if n <=? 0 then "0 B"
  else
    let i := unit_index n in
    toFixed (if (i <=? 2)%nat then 2 else 1) n (1000 ^ Z.of_nat i) +:+ " " +:+
    match nth_error ["B"; "KB"; "MB"; "GB"; "TB"] i with Some u => u | None => "undefined" end.

(** ** [report/_shared/format.ts] *)

Definition MONTH_NAMES : list string :=
  ["January"; "February"; "March"; "April"; "May"; "June"; "July"; "August"; "September"; "October"; "November";
   "December"].
Definition SHORT_MONTH_NAMES : list string :=
  ["Jan"; "Feb"; "Mar"; "Apr"; "May"; "Jun"; "Jul"; "Aug"; "Sep"; "Oct"; "Nov"; "Dec"].

(** From the local time in milliseconds. *)
Definition dateToDailyParam (local : Z) : string :=
  let '(y, m, d) := civil_from_days (local / 86400000) in
  Z_to_string y +:+ "-" +:+ padStart 2 "0" (Z_to_string (m + 1)) +:+ "-" +:+ padStart 2 "0" (Z_to_string d).

(** [new Date(year, month + 1, 0).getDate()]. *)
Definition daysInMonth (year month : Z) : Z :=
  (civil_from_days (local_time year (month + 1) 0 0 0 0 / 86400000)).2.

(** ** [customer-portal/_shared/format.ts] *)

Definition lookup_status (table : list (string * (string * string))) (s : string) : string * string :=
  match List.find (fun kv => String.eqb kv.1 s) table with Some kv => kv.2 | None => (s, "secondary") end.

Definition invoiceStatusMap : list (string * (string * string)) :=
  [("issued", ("Belum Bayar", "idle")); ("overdue", ("Terlambat", "expired")); ("paid", ("Lunas", "online"));
   ("draft", ("Draft", "offline")); ("cancelled", ("Batal", "offline"))].
Definition subStatusMap : list (string * (string * string)) :=
  [("active", ("Aktif", "online")); ("isolir", ("Terisolir", "idle")); ("suspended", ("Diblokir", "expired"));
   ("pending_install", ("Menunggu Pemasangan", "offline")); ("terminated", ("Berhenti", "offline"))].
Definition paymentStatusMap : list (string * (string * string)) :=
  [("pending", ("Menunggu", "idle")); ("confirmed", ("Terkonfirmasi", "online")); ("rejected", ("Ditolak", "expired"))].
Definition paymentMethodMap : list (string * string) :=
  [("cash", "Tunai"); ("transfer", "Transfer Bank"); ("portal", "Upload Bukti"); ("gateway", "Online Gateway")].

Definition invoiceStatus : string -> string * string := lookup_status invoiceStatusMap.
Definition subStatus : string -> string * string := lookup_status subStatusMap.
Definition paymentStatus : string -> string * string := lookup_status paymentStatusMap.
Definition paymentMethod (m : string) : string :=
  match List.find (fun kv => String.eqb kv.1 m) paymentMethodMap with Some kv => kv.2 | None => m end.

(** Within three days, and not yet past. *)
Definition isDueSoon (due now : Z) : bool :=
  let diffMs := due - now in (0 <? diffMs) && (diffMs <? 3 * 24 * 60 * 60 * 1000).

(** ** Theorems *)

Lemma daysInMonth_cycle : forallb (fun y => forallb (fun m =>
  (civil_from_days (MakeDay y (m + 1) 0)).2 =? month_length y m) (seqZ 0 12)) (seqZ 0 400) = true.
Proof. vm_compute. reflexivity. Qed.

(** The number of days of a month is the Gregorian calendar's: what the report pages get
    from day 0 of the next month is 28 or 29, 30 or 31 by the leap-year rule, for every
    year from 100 on. *)
Theorem daysInMonth_gregorian y m : 100 <= y -> 0 <= m < 12 -> daysInMonth y m = month_length y m.
Proof.
  intros Hy Hm. unfold daysInMonth, local_time.
  destruct ((0 <=? y) && (y <=? 99)) eqn:E; [b2p; lia|].
  replace (1000 * (86400 * MakeDay y (m + 1) 0 + 3600 * 0 + 60 * 0 + 0)) with (MakeDay y (m + 1) 0 * 86400000) by lia.
  rewrite Z.div_mul by done.
  assert (y = y mod 400 + 400 * (y / 400)) as Ey by (Z.to_euclidean_division_equations; lia).
  assert (MakeDay y (m + 1) 0 = MakeDay (y mod 400) (m + 1) 0 + 146097 * (y / 400)) as ->.
  { unfold MakeDay. rewrite Ey at 1.
    replace (y mod 400 + 400 * (y / 400) + (m + 1) / 12) with (y mod 400 + (m + 1) / 12 + 400 * (y / 400)) by lia.
    rewrite days_from_civil_400. lia. }
  rewrite civil_from_days_400. pose proof (range_check _ 0 400 daysInMonth_cycle (y mod 400)) as Hc.
  cbn beta in Hc. specialize (Hc ltac:(pose proof (Z.mod_pos_bound y 400); lia)).
  apply (range_check _ 0 12) with (x := m) in Hc; [|lia]. apply Z.eqb_eq in Hc.
  destruct (civil_from_days (MakeDay (y mod 400) (m + 1) 0)) as [[y' m'] d']. cbn [snd] in *. rewrite Hc.
  unfold month_length, leap.
  assert ((y mod 400) mod 4 = y mod 4 /\ (y mod 400) mod 100 = y mod 100 /\ (y mod 400) mod 400 = y mod 400) as (-> & -> & ->);
    [|done].
  repeat split; Z.to_euclidean_division_equations; lia.
Qed.

Lemma daysInMonth_gregorian_witness : daysInMonth 2024 1 = 29 /\ daysInMonth 2100 1 = 28.
Proof.
  split; [exact (daysInMonth_gregorian 2024 1 ltac:(lia) ltac:(lia))
         |exact (daysInMonth_gregorian 2100 1 ltac:(lia) ltac:(lia))].
Defined.

(** A duration's parts make up the duration, each below the next unit. *)
Lemma duration_exact n : 0 <= n -> let '(d, h, m) := duration_parts n in
  n = d * 1440 + h * 60 + m /\ 0 <= h < 24 /\ 0 <= m < 60 /\ 0 <= d.
Proof. intros Hn. unfold duration_parts. Z.to_euclidean_division_equations. lia. Qed.

(** What [toFixed] prints is within half a unit of its last place. *)
Lemma scaled_close f n d : 0 < d -> 2 * Z.abs (scaled f n d * d - n * 10 ^ Z.of_nat f) <= d.
Proof.
  intros Hd. unfold scaled. rewrite <- Z.mul_assoc. generalize (n * 10 ^ Z.of_nat f) as k. intros k.
  pose proof (Z.div_mod (2 * k + d) (2 * d) ltac:(lia)) as Hq.
  pose proof (Z.mod_pos_bound (2 * k + d) (2 * d) ltac:(lia)) as Hr. nia.
Qed.

Example formats :
  formatBytes 1536 = "1.5 KB" /\ formatBitsPerSecond 12345678 = "12.3 Mbps" /\ formatDuration 1501 = "1d 1h 1m" /\
  hotspot_formatBytes 2500000 = "2.50 MB" /\ dateToDailyParam 1767600245000 = "2026-01-05".
Proof. vm_compute. repeat split. Qed.
