(* ===== verification/Sales.v ===== *)
(** * Voucher sales ([features/voucher/sales/index.tsx] and its components)

    The page keeps a date range, a page, filters and a debounced search text, mirrors them
    in the URL, starts from the URL, and lists what one query returns.  A date is its local
    time (JsDate).  A render is [render]: the filter key is compared with the one of the
    last render and the page number reset; the effects then write the URL.  Events are what
    the controls and the debounce timer do, one render each.  The router's own encoding of
    the search parameters is the library's; [validateSearch] is the route's schema. *)
From S2P Require Import Prelude JsString JsValue JsNumber JsDate Http ApiErrors Hooks VoucherApi Ui ViewModels Forms.

(** ** Dates as text *)

(** [dateToYmd], also [dateToParam] of the daily report. *)
Definition dateToYmd (date : Z) : string :=
  let '(y, m, d) := civil date in
  Z_to_string y +:+ "-" +:+ padStart 2 "0" (Z_to_string (m + 1)) +:+ "-" +:+ padStart 2 "0" (Z_to_string d).

(** The groups of [/^(\d{4})-(\d{2})-(\d{2})$/]. *)
Definition ymd_groups (value : string) : option (Z * Z * Z) :=
  y ← digits_between 4 4 value; let '(year, s) := (y : Z * string) in
  s ← lit "-" s; m ← digits_between 2 2 s; let '(month, s) := (m : Z * string) in
  s ← lit "-" s; d ← digits_between 2 2 s; let '(day, s) := (d : Z * string) in
  if String.eqb s "" then Some (year, month, day) else None.

Definition ymdToDate (value : option string) (fallback : Z) : Z :=
  match value with
  | None => fallback
  | Some s =>
      if String.eqb s "" then fallback
      else match ymd_groups s with
           | None => fallback
           | Some (y, m, d) => new_Date y (m - 1) d
           end
  end.

Definition startOfDay (d : Z) : Z := let '(y, m, dd) := civil d in new_Date y m dd.
Definition addDays (d days : Z) : Z := let '(y, m, dd) := civil d in new_Date y m (dd + days).

(** ** The search parameters *)

Record VoucherSalesSearch : Type := Search {
  s_from : option string; s_to : option string; s_page : option Z; s_page_size : option Z;
  s_search : option string; s_profile : option string; s_server : option string
}.

(** [salesSearchSchema.parse] on parsed parameters; [None] is the error it throws.
    [z.coerce.number().int()] is [Number(v)], which must be whole. *)
Definition opt_string (v : jval) : option (option string) :=
  match v with JUndef => Some None | JStr s => Some (Some s) | _ => None end.
Definition coerce_int (lo : Z) (hi : option Z) (v : jval) : option (option Z) :=
  match v with
  | JUndef => Some None
  | _ =>
      let n := match v with JNum n => JNum n | JNull => JNum 0 | JBool b => JNum (if b then 1 else 0)
               | JStr s => Number_val s | _ => JFrac "NaN" end in
      match n with
      | JNum n => if (lo <=? n) && match hi with Some h => n <=? h | None => true end then Some (Some n) else None
      | _ => None
      end
  end.
Definition validateSearch (search : jval) : option VoucherSalesSearch :=
  f ← opt_string (get "from" search); t ← opt_string (get "to" search);
  p ← coerce_int 1 None (get "page" search); ps ← coerce_int 1 (Some 200) (get "page_size" search);
  q ← opt_string (get "search" search); pr ← opt_string (get "profile" search);
  sv ← opt_string (get "server" search);
  Some (Search f t p ps q pr sv).

(** ** The page's state *)

Definition DEFAULT_PAGE_SIZE : Z := 25.
Definition PAGE_SIZE_OPTIONS : list Z := [25; 50; 100].

Record SalesPage : Type := Page {
  from : Z; to : Z; page : Z; pageSize : Z;
  search_ : string; debouncedSearch : string; profile : string; server : string;
  selectedSale : option jval; prevFilterKey : string
}.

Definition filterKey (s : SalesPage) : string :=
  debouncedSearch s +:+ "|" +:+ profile s +:+ "|" +:+ server s +:+ "|" +:+ dateToYmd (from s) +:+ "|" +:+
  dateToYmd (to s) +:+ "|" +:+ Z_to_string (pageSize s).

Definition initial_page_size (size : option Z) : Z :=
  if existsb (Z.eqb (size ?? DEFAULT_PAGE_SIZE)) PAGE_SIZE_OPTIONS then size ?? DEFAULT_PAGE_SIZE
  else DEFAULT_PAGE_SIZE.

(** The first render; [now] is the moment of it, local. *)
Definition mount (now : Z) (search : VoucherSalesSearch) : SalesPage :=
  let today := startOfDay now in
  let s := Page (ymdToDate (s_from search) (addDays today (- 6))) (ymdToDate (s_to search) today)
             (s_page search ?? 1) (initial_page_size (s_page_size search))
             (s_search search ?? "") (s_search search ?? "") (s_profile search ?? "all") (s_server search ?? "all")
             None "" in
  Page (from s) (to s) (page s) (pageSize s) (search_ s) (debouncedSearch s) (profile s) (server s) None (filterKey s).

(** The state derived during a render. *)
Definition render (s : SalesPage) : SalesPage :=
  if String.eqb (filterKey s) (prevFilterKey s) then s
  else Page (from s) (to s) 1 (pageSize s) (search_ s) (debouncedSearch s) (profile s) (server s)
         (selectedSale s) (filterKey s).

(** [x || undefined] and [x === 'all' ? undefined : x]. *)
Definition some_text (s : string) : option string := if String.eqb s "" then None else Some s.
Definition unless_all (s : string) : option string := if String.eqb s "all" then None else Some s.
Definition opt_val (o : option string) : jval := match o with Some s => JStr s | None => JUndef end.

(** What the sync effect navigates to, and the parameters of the query. *)
Definition url (s : SalesPage) : VoucherSalesSearch :=
  Search (Some (dateToYmd (from s))) (Some (dateToYmd (to s))) (Some (page s)) (Some (pageSize s))
    (some_text (debouncedSearch s)) (unless_all (profile s)) (unless_all (server s)).
Definition params (s : SalesPage) : Sales.SalesListParams :=
  Sales.SalesParams (dateToYmd (from s)) (dateToYmd (to s)) (page s) (pageSize s)
    [("search", opt_val (some_text (debouncedSearch s))); ("profile", opt_val (unless_all (profile s)));
     ("server", opt_val (unless_all (server s)))].

Definition listQuery (routerId : option Z) (s : SalesPage) : QueryCache.query :=
  Sales.useSalesList (routerId ?? 0) (params s).

(** ** Events *)

Inductive sales_event : Type :=
| PickRange (f t : Z)
| Type_ (text : string)          (** a change of the search field; the timer is restarted *)
| Debounced                      (** 300 ms without a change *)
| PickProfile (p : string)
| PickServer (v : string)
| PickPageSize (n : Z)
| Prev (total : Z) | Next (total : Z)
| Reset
| SelectSale (sale : option jval).

(** [SalesPagination]. *)
Definition pageCount (pageSize total : Z) : Z :=
  let safeSize := if pageSize =? 0 then 1 else pageSize in Z.max 1 ((total + safeSize - 1) / safeSize).
Definition canPrev (s : SalesPage) : bool := 1 <? page s.
Definition canNext (s : SalesPage) (total : Z) : bool := page s <? pageCount (pageSize s) total.
Definition startRow (s : SalesPage) (total : Z) : Z := if total =? 0 then 0 else (page s - 1) * pageSize s + 1.
Definition endRow (s : SalesPage) (total : Z) : Z := Z.min (page s * pageSize s) total.

Definition with_page (n : Z) (s : SalesPage) : SalesPage :=
  Page (from s) (to s) n (pageSize s) (search_ s) (debouncedSearch s) (profile s) (server s) (selectedSale s)
    (prevFilterKey s).

Definition on_event (e : sales_event) (s : SalesPage) : SalesPage :=
  let '(Page f t p ps q d pr sv sel k) := s in
  match e with
  | PickRange f' t' => Page (startOfDay f') (startOfDay t') p ps q d pr sv sel k
  | Type_ x => Page f t p ps x d pr sv sel k
  | Debounced => Page f t p ps q q pr sv sel k
  | PickProfile x => Page f t p ps q d x sv sel k
  | PickServer x => Page f t p ps q d pr x sel k
  | PickPageSize n => if existsb (Z.eqb n) PAGE_SIZE_OPTIONS then Page f t p n q d pr sv sel k else s
  | Prev _ => if canPrev s then with_page (p - 1) s else s
  | Next total => if canNext s total then with_page (p + 1) s else s
  | Reset => Page f t p ps "" d "all" "all" sel k
  | SelectSale x => Page f t p ps q d pr sv x k
  end.

Definition step (e : sales_event) (s : SalesPage) : SalesPage := render (on_event e s).
Definition run (es : list sales_event) (s : SalesPage) : SalesPage := foldl (fun s e => step e s) s es.

(** ** Filter options, the import dialog and the export menu *)

(** [Array.from(set).sort()]: each name once, in order. *)
Fixpoint insert_name (x : string) (l : list string) : list string :=
  match l with
  | [] => [x]
  | y :: l' => match String.compare x y with
               | Lt => x :: l
               | Eq => l
               | Gt => y :: insert_name x l'
               end
  end.
Definition sorted_set (l : list string) : list string := fold_right insert_name [] l.

(** The names on the page that are not empty, and the chosen one. *)
Definition options_of (k : string) (items : list jval) (chosen : string) : list string :=
  sorted_set (List.filter (fun x => negb (String.eqb x "")) (map (text k) items) ++
              (if String.eqb chosen "all" then [] else [chosen])).
Definition profileOptions (items : list jval) (s : SalesPage) : list string :=
  options_of "profile_name" items (profile s).
Definition serverOptions (items : list jval) (s : SalesPage) : list string := options_of "server" items (server s).
Definition hasFilters (s : SalesPage) : bool :=
  (0 <? Z.of_nat (String.length (search_ s))) || negb (String.eqb (profile s) "all") ||
  negb (String.eqb (server s) "all").

Module ImportSales.
(** [handleImport]; the result panel is the state [result]. *)
Definition counts (res : jval) : string :=
  Z_to_string (number "imported" res) +:+ "/" +:+ Z_to_string (number "total" res) +:+ " imported".
Definition handleImport (routerId : option Z) : prog :=
  match routerId with
  | None => Emit (Toast error "Select a router first" JUndef) Return
  | Some r =>
      Mutate (M_Sales_ImportSales r) (fun a =>
        match a with
        | Ok res =>
            Emit (SetState "result" res)
              (Emit (if 0 <? number "errors" res
                     then Toast warning "Import finished with errors"
                            (JStr (counts res +:+ " · " +:+ Z_to_string (number "errors" res) +:+ " errors"))
                     else Toast success "Import finished" (JStr (counts res))) Return)
        | Throw err => Emit (Toast error "Import failed" (message err)) Return
        end)
  end.
Definition handleClose (isPending : bool) : prog :=
  if isPending then Return else Emit (SetState "result" JNull) (Emit Close Return).
End ImportSales.

Module Exports.
Definition slug_char (c : ascii) : bool := is_lower c || is_digit c.

(** [s.replace(/[^a-z0-9]+/g, '-')]: [dash] says that a dash was just written. *)
Fixpoint dashed (dash : bool) (s : string) : string :=
  match s with
  | "" => ""
  | String c s' =>
      if slug_char c then String c (dashed false s')
      else if dash then dashed true s' else String "-" (dashed true s')
  end.
(** [.replace(/^-+|-+$/g, '')]. *)
Fixpoint drop_dashes (s : string) : string :=
  match s with String "-" s' => drop_dashes s' | _ => s end.
Definition strip_dashes (s : string) : string := String.rev (drop_dashes (String.rev (drop_dashes s))).

Definition slugifyRouterName (name : option string) : string :=
  match name with
  | None => "router"
  | Some n =>
      if String.eqb n "" then "router"
      else let s := strip_dashes (dashed false (toLowerCase n)) in if String.eqb s "" then "router" else s
  end.

Record SaleFilters : Type := Filters { e_profile : option string; e_server : option string; e_search : option string }.
Definition filters_of (s : SalesPage) : SaleFilters :=
  Filters (unless_all (profile s)) (unless_all (server s)) (some_text (debouncedSearch s)).

Definition filled (o : option string) : list string :=
  match o with Some s => if String.eqb s "" then [] else [s] | None => [] end.
Definition filterStem (f : SaleFilters) : string :=
  String.concat "-" (filled (e_profile f) ++ filled (e_server f) ++ filled (e_search f)).
Definition baseStem (slug from to : string) (f : SaleFilters) : string :=
  let rangeStem := if String.eqb from to then from else from +:+ "_" +:+ to in
  if String.eqb (filterStem f) "" then "sales-" +:+ slug +:+ "-" +:+ rangeStem
  else "sales-" +:+ slug +:+ "-" +:+ rangeStem +:+ "-" +:+ filterStem f.

(** What [runDownload] does with the fetcher's answer: [Callback] is the download. *)
Definition runDownload (kind filename : string) (fetched : answer) : list effect :=
  [SetState "pending" (JStr kind)] ++
  match fetched with
  | Ok blob => [Callback filename blob; Toast success (toUpperCase kind +:+ " downloaded") (JStr filename)]
  | Throw (AxiosErr m _ _) | Throw (NativeErr m) => [Toast error "Export failed" (JStr m)]
  | Throw (OtherErr _) => [Toast error "Export failed" (JStr ("Failed to export " +:+ kind))]
  end ++ [SetState "pending" JNull].

Definition filters_json (f : SaleFilters) : jval :=
  JObj [("search", opt_val (e_search f)); ("profile", opt_val (e_profile f)); ("server", opt_val (e_server f))].
Definition handleCsv (routerId : Z) (slug : string) (s : SalesPage) : call * string :=
  (Sales.exportSalesCSV routerId (dateToYmd (from s)) (dateToYmd (to s)) (filters_json (filters_of s)),
   baseStem slug (dateToYmd (from s)) (dateToYmd (to s)) (filters_of s) +:+ ".csv").
Definition handleExcel (routerId : Z) (slug : string) (s : SalesPage) : call * string :=
  (Sales.exportSalesExcel routerId (dateToYmd (from s)) (dateToYmd (to s)) (filters_json (filters_of s)),
   baseStem slug (dateToYmd (from s)) (dateToYmd (to s)) (filters_of s) +:+ ".xlsx").
End Exports.

(** ** Theorems *)

#[local] Arguments civil : simpl never.
#[local] Arguments dateToYmd : simpl never.
#[local] Arguments filterKey : simpl never.
#[local] Arguments startOfDay : simpl never.

(** Days the page can show: whole days of the years that have four digits. *)
Definition year4 (d : Z) : bool := (1000 <=? getFullYear d) && (getFullYear d <=? 9999).
Definition whole_day (d : Z) : Prop := d mod 86400000 = 0 /\ year4 d = true.

Lemma year4_reads n : 1000 <= n < 10000 -> reads_as 4 (Z_to_string n) n = true.
Proof. apply (forall_from_spec (fun n => reads_as 4 (Z_to_string n) n) (Z.to_nat 9000) 1000). by vm_compute. Qed.

Lemma civil_valid d : let '(y, m, dd) := civil d in valid_civil y m dd = true.
Proof. unfold civil. pose proof (civil_of_days (d / 86400000)) as H. destruct (civil_from_days _) as [[y m] dd]. apply H. Qed.

Lemma month_length_le y m : 28 <= month_length y m <= 31.
Proof. unfold month_length. repeat case_match; lia. Qed.

Lemma startOfDay_whole d : year4 d = true -> startOfDay d = d / 86400000 * 86400000 /\ whole_day (startOfDay d).
Proof.
  intros Hy. assert (startOfDay d = d / 86400000 * 86400000) as E.
  { unfold startOfDay, year4, getFullYear in *. pose proof (civil_new_Date d) as H.
    destruct (civil d) as [[y m] dd]. cbn in Hy. b2p. apply H. lia. }
  split; [done|]. split; [rewrite E; apply Z.mod_mul; lia|].
  unfold year4, getFullYear, civil in *. rewrite E, Z.div_mul by lia. done.
Qed.

(** The text of a day and the day it is read as. *)
Lemma ymd_roundtrip d fallback : year4 d = true ->
  ymdToDate (Some (dateToYmd d)) fallback = startOfDay d /\ String.length (dateToYmd d) = 10%nat.
Proof.
  intros Hy. pose proof (civil_valid d) as Hv. unfold dateToYmd, startOfDay, year4, getFullYear in *.
  destruct (civil d) as [[y m] dd]. cbn in Hy. unfold valid_civil in Hv. b2p.
  pose proof (month_length_le y m).
  pose proof (year4_reads y ltac:(lia)) as Ry. pose proof (pad2_reads (m + 1) ltac:(lia)) as Rm.
  pose proof (pad2_reads dd ltac:(lia)) as Rd. unfold pad2 in *.
  set (ys := Z_to_string y) in *. set (ms := padStart 2 "0" (Z_to_string (m + 1))) in *.
  set (ds := padStart 2 "0" (Z_to_string dd)) in *.
  assert (String.length (ys +:+ "-" +:+ ms +:+ "-" +:+ ds) = 10%nat) as Hl.
  { unfold reads_as in *. b2p. rewrite !length_app_str. cbn. lia. }
  split; [|done]. unfold ymdToDate.
  destruct (String.eqb (ys +:+ _) "") eqn:E; [b2p; by rewrite E in Hl|].
  unfold ymd_groups. change ("-" +:+ ms +:+ "-" +:+ ds) with (String "-" (ms +:+ String "-" ds)).
  rewrite (digits_between_reads 4 4 4 ys y) by (done || lia). cbn.
  rewrite (digits_between_reads 2 2 2 ms (m + 1)) by (done || lia). cbn.
  rewrite (digits_between_end 2 2 2 ds dd) by (done || lia). cbn. by replace (m + 1 - 1) with m by lia.
Qed.

Lemma ymd_length d : whole_day d -> String.length (dateToYmd d) = 10%nat.
Proof. intros [_ Hy]. apply (ymd_roundtrip d 0 Hy). Qed.

Lemma whole_day_same d d' : whole_day d -> whole_day d' -> dateToYmd d = dateToYmd d' -> d = d'.
Proof.
  intros [Hd Hy] [Hd' Hy'] E.
  destruct (ymd_roundtrip d 0 Hy) as [E1 _], (ymd_roundtrip d' 0 Hy') as [E2 _].
  rewrite E, E2 in E1. destruct (startOfDay_whole d Hy) as [F1 _], (startOfDay_whole d' Hy') as [F2 _].
  rewrite F1, F2 in E1. Z.to_euclidean_division_equations. lia.
Qed.

(** *** Reachable pages *)

(** The events' days are days of four-digit years. *)
Definition event_ok (e : sales_event) : bool := match e with PickRange f t => year4 f && year4 t | _ => true end.

Record sales_ok (s : SalesPage) : Prop := {
  ok_from : whole_day (from s); ok_to : whole_day (to s);
  ok_size : pageSize s ∈ PAGE_SIZE_OPTIONS; ok_page : 1 <= page s; ok_key : prevFilterKey s = filterKey s
}.

Lemma sales_render_ok s : whole_day (from s) -> whole_day (to s) -> pageSize s ∈ PAGE_SIZE_OPTIONS ->
  1 <= page s -> sales_ok (render s).
Proof.
  intros H1 H2 H3 H4. unfold render. destruct (String.eqb _ _) eqn:E; b2p.
  - by constructor; [..|symmetry].
  - constructor; try done; cbn; lia.
Qed.

Lemma existsb_option n : existsb (Z.eqb n) PAGE_SIZE_OPTIONS = true -> n ∈ PAGE_SIZE_OPTIONS.
Proof. intros (x & Hx%list_elem_of_In & ->%Z.eqb_eq)%existsb_exists. done. Qed.

Lemma sales_step_ok e s : event_ok e = true -> sales_ok s -> sales_ok (step e s).
Proof.
  intros He [H1 H2 H3 H4 H5]. destruct s as [f t p ps q d pr sv sel k]. cbn in *.
  unfold step. destruct e; cbn -[startOfDay canPrev canNext existsb]; try (by apply sales_render_ok).
  - cbn in He. b2p. by apply sales_render_ok; [apply startOfDay_whole..| |].
  - destruct (existsb (Z.eqb n) PAGE_SIZE_OPTIONS) eqn:E; [|by apply sales_render_ok].
    apply sales_render_ok; try done. by apply existsb_option.
  - destruct (canPrev _) eqn:E; [|by apply sales_render_ok]. apply sales_render_ok; try done.
    unfold canPrev in E. cbn in *. b2p. lia.
  - destruct (canNext _ _); apply sales_render_ok; try done. cbn. lia.
Qed.

Lemma sales_run_ok es s : forallb event_ok es = true -> sales_ok s -> sales_ok (run es s).
Proof.
  revert s. induction es as [|e es IH]; intros s; [done|]. cbn. intros [He Hes]%andb_true_iff Hs.
  apply IH; [done|]. by apply sales_step_ok.
Qed.

Lemma initial_page_size_option o : initial_page_size o ∈ PAGE_SIZE_OPTIONS.
Proof.
  unfold initial_page_size. destruct (existsb (Z.eqb (o ?? DEFAULT_PAGE_SIZE)) PAGE_SIZE_OPTIONS) eqn:E.
  - by apply existsb_option.
  - by apply list_elem_of_here.
Qed.

(** The first page of parameters the route accepts. *)
Lemma sales_mount_ok now raw u : validateSearch raw = Some u ->
  whole_day (from (mount now u)) -> whole_day (to (mount now u)) -> sales_ok (mount now u).
Proof.
  intros Hu Hf Ht. constructor; try done.
  - apply initial_page_size_option.
  - assert (match s_page u with Some n => 1 <= n | None => True end) as Hp.
    { unfold validateSearch in Hu. repeat (match goal with H : (mbind _ ?o) = Some _ |- _ => destruct o eqn:?; [cbn in H|done] end).
      simplify_eq/=. case_match; [|done]. subst.
      match goal with H : coerce_int 1 None ?v = _ |- _ => revert H; unfold coerce_int end.
      destruct (get "page" raw); try done; repeat case_match; intros; simplify_eq; b2p; lia. }
    unfold mount. cbn. destruct (s_page u); cbn; lia.
Qed.

(** *** Reloading the page *)

Definition opt_num (o : option Z) : jval := match o with Some n => JNum n | None => JUndef end.
(** The parameters as the router gives them to the route. *)
Definition search_json (u : VoucherSalesSearch) : jval :=
  JObj [("from", opt_val (s_from u)); ("to", opt_val (s_to u)); ("page", opt_num (s_page u));
        ("page_size", opt_num (s_page_size u)); ("search", opt_val (s_search u));
        ("profile", opt_val (s_profile u)); ("server", opt_val (s_server u))].

Lemma validateSearch_url s : sales_ok s -> validateSearch (search_json (url s)) = Some (url s).
Proof.
  intros [_ _ Hps Hp _]. unfold validateSearch, search_json, url. cbn -[dateToYmd].
  assert (forall o, opt_string (opt_val o) = Some o) as Ho by (by intros []).
  rewrite !Ho. cbn.
  assert (pageSize s <= 200 /\ 1 <= pageSize s) as [H1 H2].
  { repeat (apply elem_of_cons in Hps as [->|Hps]; [lia|]). by apply not_elem_of_nil in Hps. }
  destruct (Z.leb_spec 1 (page s)); [|lia]. destruct (Z.leb_spec 1 (pageSize s)); [|lia].
  by destruct (Z.leb_spec (pageSize s) 200); [|lia].
Qed.

Lemma whole_day_start d : whole_day d -> startOfDay d = d.
Proof. intros [Hd Hy]. destruct (startOfDay_whole d Hy) as [-> _]. Z.to_euclidean_division_equations. lia. Qed.

Lemma mount_url now s : sales_ok s ->
  let s' := mount now (url s) in
  s' = Page (from s) (to s) (page s) (pageSize s) (debouncedSearch s) (debouncedSearch s) (profile s) (server s)
         None (filterKey s).
Proof.
  intros [Hf Ht Hps Hp _]. destruct s as [f t p ps q d pr sv sel k]. cbn in *.
  unfold mount, url. cbn -[ymdToDate initial_page_size].
  rewrite !(proj1 (ymd_roundtrip _ _ (proj2 Hf))), !(proj1 (ymd_roundtrip _ _ (proj2 Ht))).
  rewrite (whole_day_start f Hf), (whole_day_start t Ht).
  assert (initial_page_size (Some ps) = ps) as ->.
  { repeat (apply elem_of_cons in Hps as [->|Hps]; [done|]). by apply not_elem_of_nil in Hps. }
  assert (forall x, some_text x ?? "" = x) as Hx by (intros []; done).
  assert (forall x, unless_all x ?? "all" = x) as Hy.
  { intros x. unfold unless_all. destruct (String.eqb_spec x "all") as [->|]; done. }
  by rewrite Hx, !Hy.
Qed.

(** *** The filter key *)

Definition criteria (s : SalesPage) : string * string * string * Z * Z * Z :=
  (debouncedSearch s, profile s, server s, from s, to s, pageSize s).

Lemma all_all x y : x +:+ "|" +:+ y = "all|all" -> x = "all" /\ y = "all".
Proof.
  do 8 (destruct x as [|? x]; [cbn; intros H; simplify_eq; try done|]).
  cbn. intros H. simplify_eq.
Qed.

#[local] Arguments String.append : simpl never.

(** The key is one text, and names may contain its separator; no event makes two different
    choices of filters share a key all the same. *)
Lemma filterKey_event e s : event_ok e = true -> sales_ok s ->
  filterKey (on_event e s) = filterKey s -> criteria (on_event e s) = criteria s.
Proof.
  intros He [Hf Ht Hps _ _]. destruct s as [f t p ps q d pr sv sel k].
  cbn [from to pageSize] in *.
  unfold filterKey, criteria. destruct e; cbn -[startOfDay canPrev canNext existsb]; try done.
  - cbn in He. b2p. intros HK. do 6 apply app_str_inj_l in HK.
    destruct (startOfDay_whole f0 ltac:(done)) as [_ Wf], (startOfDay_whole t0 ltac:(done)) as [_ Wt].
    apply app_str_inj_len in HK as [H1 H2];
      [|by rewrite (ymd_length _ Wf), (ymd_length _ Hf)].
    apply app_str_inj_l in H2. apply app_str_inj_r in H2.
    by rewrite (whole_day_same _ _ Wf Hf H1), (whole_day_same _ _ Wt Ht H2).
  - by intros ->%app_str_inj_r.
  - intros HK. do 2 apply app_str_inj_l in HK. by apply app_str_inj_r in HK as ->.
  - intros HK. do 4 apply app_str_inj_l in HK. by apply app_str_inj_r in HK as ->.
  - destruct (existsb (Z.eqb n) PAGE_SIZE_OPTIONS); [|done]. intros HK. cbn in HK.
    do 10 apply app_str_inj_l in HK. by apply Z_to_string_inj in HK as ->.
  - by destruct (canPrev _).
  - by destruct (canNext _ _).
  - intros HK. do 2 apply app_str_inj_l in HK.
    rewrite !(app_str_assoc pr), !(app_str_assoc (pr +:+ "|")) in HK.
    symmetry in HK. change ("all" +:+ "|" +:+ "all" +:+ ?x) with ("all|all" +:+ x) in HK.
    apply app_str_inj_r in HK. rewrite <- app_str_assoc in HK. by apply all_all in HK as [-> ->].
Qed.

(** ** Pages of the list *)

(** Every record of the list is shown on exactly one of the pages the buttons lead through. *)
Lemma one_page size total r : 0 < size -> 1 <= r <= total ->
  exists p, (1 <= p <= pageCount size total /\ (p - 1) * size + 1 <= r <= Z.min (p * size) total) /\
    forall p', (p' - 1) * size + 1 <= r <= Z.min (p' * size) total -> p' = p.
Proof.
  intros Hs Hr. unfold pageCount. destruct (Z.eqb_spec size 0); [lia|].
  exists ((r - 1) / size + 1).
  pose proof (Z.div_mod (r - 1) size ltac:(lia)) as E. pose proof (Z.mod_pos_bound (r - 1) size ltac:(lia)) as B.
  assert (0 <= (r - 1) / size) by (apply Z.div_pos; lia).
  assert ((r - 1) / size + 1 <= (total + size - 1) / size).
  { replace ((r - 1) / size + 1) with ((r - 1 + 1 * size) / size) by (rewrite Z.div_add; lia).
    apply Z.div_le_mono; lia. }
  split; [split; [lia|nia]|]. intros p' Hp. nia.
Qed.

(** ** The options of the filters *)

Lemma compare_refl x : String.compare x x = Eq.
Proof. induction x as [|c x IH]; cbn; [done|]. unfold Ascii.compare. by rewrite N.compare_refl. Qed.

Lemma insert_name_elem x y l : x ∈ insert_name y l <-> x = y \/ x ∈ l.
Proof.
  induction l as [|z l IH]; cbn [insert_name]; [by rewrite elem_of_cons|].
  destruct (String.compare y z) eqn:E.
  - apply String.compare_eq_iff in E as ->. rewrite elem_of_cons. tauto.
  - by rewrite (elem_of_cons (z :: l)).
  - rewrite !elem_of_cons, IH. tauto.
Qed.

Lemma compare_lt_trans x y z : String.compare x y = Lt -> String.compare y z = Lt -> String.compare x z = Lt.
Proof.
  revert y z. induction x as [|a x IH]; intros [|b y] [|c z]; cbn; try done.
  destruct (Ascii.compare a b) eqn:E1; try done; destruct (Ascii.compare b c) eqn:E2; try done;
    unfold Ascii.compare in *.
  - apply N.compare_eq_iff in E1, E2. rewrite E1, E2, N.compare_refl. apply IH.
  - apply N.compare_eq_iff in E1. by rewrite E1, E2.
  - apply N.compare_eq_iff in E2. by rewrite <- E2, E1.
  - intros _ _. assert (N.compare (N_of_ascii a) (N_of_ascii c) = Lt) as ->; [|done].
    apply N.compare_lt_iff. eapply N.lt_trans; by apply N.compare_lt_iff.
Qed.

Fixpoint ascending (l : list string) : Prop :=
  match l with
  | x :: (y :: _) as l' => String.compare x y = Lt /\ ascending l'
  | _ => True
  end.

Lemma insert_name_ascending x l : ascending l -> ascending (insert_name x l).
Proof.
  induction l as [|y l IH]; cbn [insert_name]; [done|]. intros Hl.
  destruct (String.compare x y) eqn:E; [done|done|].
  assert (String.compare y x = Lt) as E' by (by rewrite String.compare_antisym, E).
  destruct l as [|z l]; [by repeat split|]. destruct Hl as [Hyz Hl]. specialize (IH Hl).
  cbn [insert_name] in *. destruct (String.compare x z); by split.
Qed.

Lemma ascending_NoDup l : ascending l -> NoDup l.
Proof.
  induction l as [|x l IH]; [constructor|]. intros Hl.
  assert (ascending l /\ Forall (fun y => String.compare x y = Lt) l) as [Ha Hf].
  { clear IH. revert x Hl. induction l as [|y l IH]; intros x Hl; [done|]. destruct Hl as [Hxy Hl].
    split; [done|]. constructor; [done|]. destruct (IH y Hl) as [_ Hf].
    eapply Forall_impl; [exact Hf|]. intros z. by apply compare_lt_trans. }
  constructor; [|by apply IH]. intros Hx. rewrite Forall_forall in Hf.
  specialize (Hf x Hx). by rewrite compare_refl in Hf.
Qed.

Lemma sorted_set_spec l : ascending (sorted_set l) /\ forall x, x ∈ sorted_set l <-> x ∈ l.
Proof.
  induction l as [|y l [Ha He]]; cbn; [done|]. split; [by apply insert_name_ascending|].
  intros x. by rewrite insert_name_elem, He, elem_of_cons.
Qed.

Lemma options_offered k items chosen :
  NoDup (options_of k items chosen) /\
  forall x, x ∈ options_of k items chosen <->
    (x <> "" /\ exists r, r ∈ items /\ text k r = x) \/ (x = chosen /\ chosen <> "all").
Proof.
  unfold options_of. destruct (sorted_set_spec (List.filter (fun x => negb (String.eqb x "")) (map (text k) items) ++
    (if String.eqb chosen "all" then [] else [chosen]))) as [Ha He].
  split; [by apply ascending_NoDup|]. intros x. rewrite He, elem_of_app, list_elem_of_In, filter_In, in_map_iff.
  rewrite negb_true_iff, String.eqb_neq.
  assert (forall r, In r items <-> r ∈ items) as Hi by (intros r; by rewrite list_elem_of_In).
  setoid_rewrite Hi. clear Ha He Hi. destruct (String.eqb_spec chosen "all") as [E|Hc].
  - rewrite E, elem_of_nil. split; [intros [[(r & <- & Hr) Hx]|[]]; eauto|].
    intros [[Hx (r & Hr & <-)]|[_ []]]; eauto 7.
  - rewrite list_elem_of_singleton. split.
    + intros [[(r & <- & Hr) Hx]| ->]; eauto.
    + intros [[Hx (r & Hr & <-)]|[-> _]]; eauto 7.
Qed.

(** ** The name of an exported file *)

Definition slug_or_dash (c : ascii) : bool := Exports.slug_char c || Ascii.eqb c "-".

Lemma dashed_chars s b : str_forall slug_or_dash (Exports.dashed b s) = true.
Proof.
  revert b. induction s as [|c s IH]; intros b; cbn; [done|].
  destruct (Exports.slug_char c) eqn:E; cbn; [unfold slug_or_dash; by rewrite E, IH|].
  destruct b; [apply IH|]. cbn. apply IH.
Qed.

Lemma drop_dashes_spec s :
  (str_forall slug_or_dash s = true -> str_forall slug_or_dash (Exports.drop_dashes s) = true) /\
  forall c, first_char (Exports.drop_dashes s) = Some c -> c <> "-"%char.
Proof.
  induction s as [|c s [IH1 IH2]]; [by split|]. cbn [Exports.drop_dashes].
  destruct (Ascii.ascii_dec c "-") as [->|Hc].
  - split; [|exact IH2]. cbn. exact IH1.
  - assert (Exports.drop_dashes (String c s) = String c s) as E.
    { destruct c as [[] [] [] [] [] [] [] []]; try reflexivity. by exfalso. }
    cbn [Exports.drop_dashes] in E. rewrite E. split; [done|]. by intros c' [= <-].
Qed.

Lemma drop_dashes_app s : exists t, s = t +:+ Exports.drop_dashes s.
Proof.
  induction s as [|c s [t IH]]; [by exists ""|]. destruct (Ascii.ascii_dec c "-") as [->|Hc].
  - exists (String "-" t). change (String "-" s = String "-" (t +:+ Exports.drop_dashes s)). by rewrite <- IH.
  - exists "". destruct c as [[] [] [] [] [] [] [] []]; try reflexivity. by exfalso.
Qed.

(** A file name's slug: lower-case letters, digits and dashes, never empty, with no dash at
    either end, whatever the router is called. *)
Lemma slug_shape name :
  let s := Exports.slugifyRouterName name in
  str_forall slug_or_dash s = true /\ s <> "" /\
  (forall c, first_char s = Some c -> c <> "-"%char) /\
  (forall c, first_char (String.rev s) = Some c -> c <> "-"%char).
Proof.
  assert (str_forall slug_or_dash "router" = true /\ "router" <> "" /\
    (forall c, first_char "router" = Some c -> c <> "-"%char) /\
    (forall c, first_char (String.rev "router") = Some c -> c <> "-"%char)) as Hd
    by (split_and!; [done|done|by intros c [= <-]..]).
  unfold Exports.slugifyRouterName. destruct name as [n|]; [|exact Hd].
  destruct (String.eqb n ""); [exact Hd|].
  set (d := Exports.dashed false (toLowerCase n)). cbv zeta.
  destruct (String.eqb_spec (Exports.strip_dashes d) "") as [E|E]; [exact Hd|].
  unfold Exports.strip_dashes in *. set (a := Exports.drop_dashes d) in *.
  destruct (drop_dashes_spec d) as [F1 F2]. destruct (drop_dashes_spec (String.rev a)) as [G1 G2].
  split_and!; [|done| |].
  - rewrite str_forall_rev. apply G1. rewrite str_forall_rev. apply F1, dashed_chars.
  - intros c Hc. destruct (drop_dashes_app (String.rev a)) as [t Ht].
    apply F2. fold a. rewrite <- (rev_rev a), Ht, rev_app_str.
    destruct (String.rev (Exports.drop_dashes (String.rev a))) as [|c' r]; [done|exact Hc].
  - by rewrite rev_rev.
Qed.

(** *** Properties of the page *)

Section Page.
Context (now : Z) (raw : jval) (u : VoucherSalesSearch) (es : list sales_event).
Context (Hu : validateSearch raw = Some u) (Hf : whole_day (from (mount now u))) (Ht : whole_day (to (mount now u)))
  (Hes : forallb event_ok es = true).
Notation s := (run es (mount now u)).

Lemma page_reached : sales_ok s.
Proof. apply sales_run_ok; [done|]. by apply (sales_mount_ok now raw). Qed.

(** C21: the sales page is in its URL.  Opened on any parameters the route accepts and used in
    any way, the URL it has written is accepted by the route, and a page opened on it, at
    any later time, asks for the same list (range, page, size and filters), stays on the
    same page, and writes the same URL. *)
Theorem sales_reload now' :
  validateSearch (search_json (url s)) = Some (url s) /\
  params (render (mount now' (url s))) = params s /\
  url (render (mount now' (url s))) = url s.
Proof.
  pose proof page_reached as Hs. split; [by apply validateSearch_url|].
  rewrite (mount_url now' s Hs). unfold render. cbn [prevFilterKey]. 
  rewrite (proj2 (String.eqb_eq _ _)) by done. split; reflexivity.
Qed.

(** The list never shows a page of other filters: an event after which the search text,
    a filter, the range or the page size is another one shows page 1, and every other
    event leaves the page alone but for the two buttons; although the filters are compared
    as one text with separators that names may contain. *)
Theorem sales_page_follows e : event_ok e = true ->
  page (step e s) =
    if decide (criteria (step e s) = criteria s)
    then match e with
         | Prev _ => if canPrev s then page s - 1 else page s
         | Next total => if canNext s total then page s + 1 else page s
         | _ => page s
         end
    else 1.
Proof.
  intros He. pose proof page_reached as Hs. pose proof (filterKey_event e _ He Hs) as Hk.
  destruct Hs as [_ _ _ _ Hp]. revert Hp Hk. generalize s as x. intros x Hp Hk. clear Hf Ht Hes.
  assert (prevFilterKey (on_event e x) = prevFilterKey x) as Hq.
  { destruct x. destruct e; cbn; try done; by case_match. }
  assert (criteria (step e x) = criteria (on_event e x)) as Hc by (unfold step, render; by case_match).
  assert (page (on_event e x) = match e with Prev _ => if canPrev x then page x - 1 else page x
    | Next total => if canNext x total then page x + 1 else page x | _ => page x end) as Hpg.
  { destruct x. destruct e; cbn -[existsb canPrev canNext]; try done; by case_match. }
  unfold step in *. unfold render in *. rewrite Hq, Hp in *.
  destruct (String.eqb_spec (filterKey (on_event e x)) (filterKey x)) as [E|E].
  - by rewrite decide_True by auto.
  - rewrite Hc. destruct (decide _) as [Ec|]; [|done]. exfalso. apply E. unfold filterKey, criteria in *.
    by injection Ec as -> -> -> -> -> ->.
Qed.

(** On every page reached, the rows of all pages are a partition of the list: each record
    from 1 to the total is within the shown range of exactly one page, and that page is one
    the buttons lead to. *)
Theorem sales_rows_partition total r : 1 <= r <= total ->
  exists p, 1 <= p <= pageCount (pageSize s) total /\
    forall q, startRow (with_page q s) total <= r <= endRow (with_page q s) total <-> q = p.
Proof.
  intros Hr. pose proof page_reached as [_ _ Hps _ _].
  assert (0 < pageSize s) as Hpos.
  { revert Hps. generalize (pageSize s). intros n Hps.
    repeat (apply elem_of_cons in Hps as [->|Hps]; [lia|]). by apply not_elem_of_nil in Hps. }
  destruct (one_page (pageSize s) total r Hpos Hr) as (p & [Hp Hrow] & Huniq). exists p.
  split; [done|]. intros q. unfold startRow, endRow. destruct (Z.eqb_spec total 0); [lia|].
  change (page (with_page q s)) with q. change (pageSize (with_page q s)) with (pageSize s).
  split; [apply Huniq|by intros ->].
Qed.
End Page.

Definition demo_search : jval := JObj [("from", JStr "2026-01-05"); ("page", JStr "3"); ("profile", JStr "a|b")].
Definition demo_u : VoucherSalesSearch := Search (Some "2026-01-05") None (Some 3) None None (Some "a|b") None.
Definition demo_events : list sales_event := [Type_ "x|y"; Debounced; Next 100; PickServer "s|1"].

Lemma demo_days : whole_day (from (mount 1767600245000 demo_u)) /\ whole_day (to (mount 1767600245000 demo_u)).
Proof. by repeat split; vm_compute. Qed.

Lemma sales_reload_witness :
  params (render (mount 0 (url (run demo_events (mount 1767600245000 demo_u))))) =
    params (run demo_events (mount 1767600245000 demo_u)).
Proof.
  exact (proj1 (proj2 (sales_reload 1767600245000 demo_search demo_u demo_events eq_refl (proj1 demo_days)
    (proj2 demo_days) eq_refl 0))).
Defined.

Lemma sales_page_follows_witness :
  page (step (PickProfile "c") (run demo_events (mount 1767600245000 demo_u))) = 1.
Proof.
  rewrite (sales_page_follows 1767600245000 demo_search demo_u demo_events eq_refl (proj1 demo_days)
    (proj2 demo_days) eq_refl (PickProfile "c") eq_refl). vm_compute. reflexivity.
Defined.

Lemma sales_rows_partition_witness :
  exists p, 1 <= p <= pageCount 25 60 /\
    forall q, startRow (with_page q (mount 1767600245000 demo_u)) 60 <= 51 <=
      endRow (with_page q (mount 1767600245000 demo_u)) 60 <-> q = p.
Proof.
  exact (sales_rows_partition 1767600245000 demo_search demo_u [] eq_refl (proj1 demo_days)
    (proj2 demo_days) eq_refl 60 51 ltac:(lia)).
Defined.
