(* ===== verification/Reports.v ===== *)
(** * Daily and monthly sales reports ([features/report/{daily,monthly}])

    What the report pages compute from the backend's answers: the day picker and its URL, the
    filters of the day's sales, the month as a dense grid of days, the year as twelve
    months, the best day, the range that is exported and the day a click opens.  Dates are
    local times (JsDate); a text is read as a date by [date_parse], which gives UTC
    milliseconds, and [from_utc] is the time zone. *)
From S2P Require Import Prelude JsString JsValue JsNumber JsDate Http ApiErrors Hooks QueryCache VoucherApi Ui ViewModels.
From S2P Require Import Format Sales.

(** ** The daily report *)

Record VoucherSale : Type := Sale {
  username : string; profile_name : string; mac_address : string; ip_address : string; server : string;
  selling_price : Z
}.
Record DailyFiltersState : Type := DailyFilters { search : string; f_profile : string; f_server : string }.
Definition EMPTY_FILTERS : DailyFiltersState := DailyFilters "" "all" "all".

Definition daily_shown (filters : DailyFiltersState) (s : VoucherSale) : bool :=
  let term := toLowerCase (trim (search filters)) in
  if negb (String.eqb (f_profile filters) "all") && negb (String.eqb (profile_name s) (f_profile filters)) then false
  else if negb (String.eqb (f_server filters) "all") && negb (String.eqb (server s) (f_server filters)) then false
  else if negb (String.eqb term "") then
    let haystack := toLowerCase (String.concat " " [username s; profile_name s; mac_address s; ip_address s; server s]) in
    includes term haystack
  else true.
Definition applyDailyFilters (sales : list VoucherSale) (filters : DailyFiltersState) : list VoucherSale :=
  List.filter (daily_shown filters) sales.

Fixpoint sumZ (l : list Z) : Z := match l with [] => 0 | x :: l => x + sumZ l end.
(** [filtered.reduce((sum, s) => sum + s.selling_price, 0)]. *)
Definition filteredTotal (filtered : list VoucherSale) : Z :=
  fold_left (fun sum s => sum + selling_price s) filtered 0.

(** [DailySummaryCards]: the average, and whether the totals of the day are shown too. *)
Definition avg (filteredCount filteredTotal : Z) : Z :=
  if 0 <? filteredCount then round_quot filteredTotal filteredCount else 0.
Definition isFiltered (count filteredCount : Z) : bool := negb (filteredCount =? count).

(** [DailySalesTable]: the options come from all sales of the day. *)
Definition profiles (sales : list VoucherSale) : list string := sorted_set (map profile_name sales).
Definition servers (sales : list VoucherSale) : list string := sorted_set (map server sales).

(** The cards: title, value and subtitle; [Intl]'s formats are parameters. *)
Section Cards.
Context (formatIDR formatDay : Z -> string).
Definition daily_tiles (total count filteredCount filteredTotal : Z) : list (string * string * string) :=
  let filt := isFiltered count filteredCount in
  [("Sales Count", Z_to_string filteredCount,
    if filt then "of " +:+ Z_to_string count +:+ " on date" else "vouchers sold");
   ("Total Revenue", formatIDR filteredTotal,
    if filt then "of " +:+ formatIDR total +:+ " on date" else "after selling price");
   ("Avg Per Voucher", formatIDR (avg filteredCount filteredTotal), "across selection")].
Definition monthly_tiles (count total : Z) (bestDate : option Z) (bestTotal : Z) : list (string * string * string) :=
  [("Total Sales", Z_to_string count, "vouchers sold this month");
   ("Total Revenue", formatIDR total, "after selling price");
   ("Best Day", match bestDate with Some d => formatDay d | None => "—" end,
    match bestDate with Some _ => formatIDR bestTotal | None => "no sales" end)].
End Cards.

(** [_shared/format.ts]: the names of the months, and the year's chart. *)
Definition MONTH_NAMES : list string :=
  ["January"; "February"; "March"; "April"; "May"; "June"; "July"; "August"; "September"; "October"; "November"; "December"].
Definition SHORT_MONTH_NAMES : list string :=
  ["Jan"; "Feb"; "Mar"; "Apr"; "May"; "Jun"; "Jul"; "Aug"; "Sep"; "Oct"; "Nov"; "Dec"].

Section Dates.
Context (date_parse : string -> option Z) (from_utc : Z -> Z).

(** [parseDateParam]; [now] is local. *)
Definition parseDateParam (value : option string) (now : Z) : Z :=
  match value with
  | Some s => match date_parse s with Some t => startOfDay (from_utc t) | None => startOfDay now end
  | None => startOfDay now
  end.

Definition reportQuery (routerId : option Z) (date : Z) : query :=
  Sales.useDailyReport (routerId ?? 0) (dateToYmd date) JUndef.

(** [handleDateChange]: the day shown and the [date] parameter written. *)
Definition handleDateChange (next : Z) : Z * string := let start := startOfDay next in (start, dateToYmd start).

(** The picker's arrows: [setDate] keeps the time of day. *)
Definition shiftDay (date delta : Z) : Z :=
  let '(y, m, d) := civil date in 86400000 * MakeDay y m (d + delta) + date mod 86400000.
Definition isToday (date now : Z) : bool := startOfDay date =? startOfDay now.
Definition isFuture (date now : Z) : bool := startOfDay now <=? startOfDay date.

Inductive day_event : Type := Before | After | Pick (d : Z) | Today.
Definition pick_day (e : day_event) (date now : Z) : Z :=
  match e with
  | Before => (handleDateChange (shiftDay date (- 1))).1
  | After => if isFuture date now then date else (handleDateChange (shiftDay date 1)).1
  | Pick d => if startOfDay now <? d then date else (handleDateChange d).1
  | Today => (handleDateChange (startOfDay now)).1
  end.

(** [DailyExportMenu]. *)
Definition daily_csv (routerId : Z) (slug date : string) : call * string :=
  (Sales.exportSalesCSV routerId date date JUndef, "daily-" +:+ slug +:+ "-" +:+ date +:+ ".csv").
Definition daily_excel (routerId : Z) (slug date : string) : call * string :=
  (Sales.exportSalesExcel routerId date date JUndef, "daily-" +:+ slug +:+ "-" +:+ date +:+ ".xlsx").

(** ** The monthly report *)

Record DailySummaryRow : Type := Entry { e_date : string; e_count : Z; e_sum : Z }.
Record MonthlyChartRow : Type := Row { r_date : Z; r_count : Z; r_total : Z }.

Definition empty_month (year monthIndex : Z) : list MonthlyChartRow :=
  map (fun day => Row (new_Date year monthIndex day) 0 0) (seqZ 1 (daysInMonth year monthIndex)).

(** The day an entry is counted on; [None] for an invalid date. *)
Definition entry_day (e : DailySummaryRow) : option Z :=
  match date_parse (e_date e) with Some t => Some (getDate (from_utc t)) | None => None end.
Definition add_entry (rows : list MonthlyChartRow) (e : DailySummaryRow) : list MonthlyChartRow :=
  match entry_day e with
  | Some day =>
      if day <? 1 then rows
      else alter (fun r => Row (r_date r) (r_count r + e_count e) (r_total r + e_sum e)) (Z.to_nat (day - 1)) rows
  | None => rows
  end.
Definition densifyMonth (year monthIndex : Z) (daily : list DailySummaryRow) : list MonthlyChartRow :=
  fold_left add_entry daily (empty_month year monthIndex).

Record ResumeRow : Type := Resume { y_month : Z; y_count : Z; y_sum : Z }.
Record YearlySummaryRow : Type := Yearly { y_index : Z; y_c : Z; y_total : Z }.
Definition padYearly (rows : list ResumeRow) : list YearlySummaryRow :=
  fold_left (fun out r =>
    let idx := y_month r - 1 in
    if (0 <=? idx) && (idx <? 12) then <[Z.to_nat idx := Yearly idx (y_count r) (y_sum r)]> out else out)
    rows (map (fun m => Yearly m 0 0) (seqZ 0 12)).

Definition bestDay (rows : list MonthlyChartRow) : option Z * Z :=
  let best := fold_left (fun best r => match best with
                | None => Some r
                | Some b => if r_total b <? r_total r then Some r else Some b
                end) rows None in
  match best with
  | Some b => (if 0 <? r_total b then Some (r_date b) else None, r_total b)
  | None => (None, 0)
  end.

Definition monthlyQuery (routerId : option Z) (year month : Z) : query :=
  Sales.useMonthlyReport (routerId ?? 0) year (month + 1).
Definition resumeQuery (routerId : option Z) (year : Z) : query := Sales.useResumeReport (routerId ?? 0) year.

(** [drillToDaily] from a row of the table, which is only for days with sales. *)
Definition drillToDaily (date : Z) : string := dateToDailyParam date.
Definition select_day (row : MonthlyChartRow) : option string :=
  if r_count row =? 0 then None else Some (drillToDaily (r_date row)).

(** The first and the last day, for the export. *)
Definition fromIso (year month : Z) : string := dateToDailyParam (new_Date year month 1).
Definition toIso (year month : Z) : string := dateToDailyParam (new_Date year month (daysInMonth year month)).
Definition periodStem (year month : Z) : string :=
  Z_to_string year +:+ "-" +:+ padStart 2 "0" (Z_to_string (month + 1)).
Definition monthly_csv (routerId : Z) (slug : string) (year month : Z) : call * string :=
  (Sales.exportSalesCSV routerId (fromIso year month) (toIso year month) JUndef,
   "monthly-" +:+ slug +:+ "-" +:+ periodStem year month +:+ ".csv").
Definition monthly_excel (routerId : Z) (slug : string) (year month : Z) : call * string :=
  (Sales.exportSalesExcel routerId (fromIso year month) (toIso year month) JUndef,
   "monthly-" +:+ slug +:+ "-" +:+ periodStem year month +:+ ".xlsx").

(** [MonthlyPeriodPicker]. *)
Definition shift (year month delta : Z) : Z * Z :=
  let next := new_Date year (month + delta) 1 in (getFullYear next, getMonth next).
Definition month_isFuture (year month now : Z) : bool :=
  new_Date (getFullYear now) (getMonth now) 1 <=? new_Date year month 1.

Definition month_isCurrent (year month now : Z) : bool := (year =? getFullYear now) && (month =? getMonth now).
Definition years (now : Z) : list Z := map (fun i => getFullYear now - i) (seqZ 0 6).

(** The picker's controls and a click on a month of the year's chart. *)
Inductive month_event : Type := Previous | Next | SelectMonth (m : Z) | SelectYear (y : Z) | ThisMonth | Bar (m : Z).
Definition pick_month (e : month_event) (year month now : Z) : Z * Z :=
  match e with
  | Previous => shift year month (- 1)
  | Next => if month_isFuture year month now then (year, month) else shift year month 1
  | SelectMonth m => if (0 <=? m) && (m <? 12) then (year, m) else (year, month)
  | SelectYear y => if existsb (Z.eqb y) (years now) then (y, month) else (year, month)
  | ThisMonth => (getFullYear now, getMonth now)
  | Bar m => if existsb (fun r => y_index r =? m) (padYearly []) then (year, m) else (year, month)
  end.

(** The labels of the value axis of both charts. *)
Definition compactIDR (value : Z) : string :=
  if value =? 0 then "0"
  else if 1000000 <=? value then toFixed 1 value 1000000 +:+ "M"
  else if 1000 <=? value then Z_to_string (round_quot value 1000) +:+ "K"
  else Z_to_string value.
End Dates.

(** ** Theorems *)

#[local] Arguments civil : simpl never.
#[local] Arguments dateToYmd : simpl never.
#[local] Arguments startOfDay : simpl never.
#[local] Arguments new_Date : simpl never.

(** *** Dense months *)

Section Dense.
Context (date_parse : string -> option Z) (from_utc : Z -> Z).
Notation entry_day := (entry_day date_parse from_utc).
Notation densifyMonth := (densifyMonth date_parse from_utc).

(** The sum of a field over the entries of one day. *)
Definition on_day (f : DailySummaryRow -> Z) (daily : list DailySummaryRow) (day : Z) : Z :=
  sumZ (map f (List.filter (fun e => bool_decide (entry_day e = Some day)) daily)).

Definition filled_row (daily : list DailySummaryRow) (day : Z) (r : MonthlyChartRow) : MonthlyChartRow :=
  Row (r_date r) (r_count r + on_day e_count daily day) (r_total r + on_day e_sum daily day).

Lemma add_entries_lookup daily rows (k : nat) :
  fold_left (add_entry date_parse from_utc) daily rows !! k = filled_row daily (Z.of_nat k + 1) <$> rows !! k.
Proof.
  revert rows. induction daily as [|e daily IH]; intros rows; cbn [fold_left].
  - destruct (rows !! k) as [[d c t]|]; [|done]. unfold filled_row, on_day. cbn. by rewrite !Z.add_0_r.
  - rewrite IH. unfold add_entry, filled_row, on_day. cbn [List.filter]. destruct (entry_day e) as [day|] eqn:E; [|done].
    destruct (Z.ltb_spec day 1) as [Hd|Hd].
    + rewrite bool_decide_eq_false_2; [done|]. intros [= ->]. lia.
    + destruct (Z.eq_dec day (Z.of_nat k + 1)) as [->|Hne].
      * rewrite bool_decide_eq_true_2 by done. replace (Z.to_nat (Z.of_nat k + 1 - 1)) with k by lia.
        rewrite list_lookup_alter_eq. destruct (rows !! k) as [[d c t]|]; [|done]. cbn. do 2 f_equal; lia.
      * rewrite bool_decide_eq_false_2 by congruence. by rewrite list_lookup_alter_ne by lia.
Qed.

Lemma add_entries_length daily rows : length (fold_left (add_entry date_parse from_utc) daily rows) = length rows.
Proof.
  revert rows. induction daily as [|e daily IH]; intros rows; cbn; [done|]. rewrite IH. unfold add_entry.
  destruct (entry_day e); [|done]. case_match; [done|]. apply length_alter.
Qed.

Lemma sum_alter_total (g : MonthlyChartRow -> MonthlyChartRow) x k rows :
  (forall r, r_total (g r) = r_total r + x) -> (k < length rows)%nat ->
  sumZ (map r_total (alter g k rows)) = sumZ (map r_total rows) + x.
Proof.
  intros Hg. revert k. induction rows as [|r rows IH]; intros [|k] Hk; cbn in *; try lia.
  - rewrite Hg. lia.
  - change (list_alter g k rows) with (alter g k rows). rewrite IH by lia. lia.
Qed.

Lemma add_entries_total daily rows :
  Forall (fun e => exists day, entry_day e = Some day /\ 1 <= day <= Z.of_nat (length rows)) daily ->
  sumZ (map r_total (fold_left (add_entry date_parse from_utc) daily rows)) =
    sumZ (map r_total rows) + sumZ (map e_sum daily).
Proof.
  revert rows. induction daily as [|e daily IH]; intros rows H; cbn [fold_left map]; [cbn; lia|].
  apply Forall_cons in H as [(day & Hday & Hr) H]. rewrite IH.
  - unfold add_entry. rewrite Hday. destruct (Z.ltb_spec day 1); [lia|].
    rewrite (sum_alter_total _ (e_sum e)) by (done || lia). cbn. lia.
  - unfold add_entry. rewrite Hday. case_match; [done|]. by rewrite length_alter.
Qed.

Lemma seqZ_lookup_some n (k : nat) : 0 <= Z.of_nat k < n -> seqZ 1 n !! k = Some (Z.of_nat k + 1).
Proof. intros H. apply lookup_seqZ. lia. Qed.

Lemma empty_month_spec y m : 100 <= y -> 0 <= m < 12 ->
  Z.of_nat (length (empty_month y m)) = month_length y m /\
  (forall k : nat, Z.of_nat k < month_length y m ->
     empty_month y m !! k = Some (Row (new_Date y m (Z.of_nat k + 1)) 0 0)) /\
  sumZ (map r_total (empty_month y m)) = 0.
Proof.
  intros Hy Hm. unfold empty_month. rewrite daysInMonth_gregorian by done.
  pose proof (month_length_le y m). split_and!.
  - rewrite length_map, length_seqZ. lia.
  - intros k Hk. rewrite list_lookup_fmap, seqZ_lookup_some by lia. done.
  - generalize (seqZ 1 (month_length y m)). intros l. induction l as [|x l IH]; cbn; [done|]. exact IH.
Qed.
End Dense.

(** *** Days and time zones *)

Definition day_ms : Z := 86400000.

Lemma civil_day d d' : d / day_ms = d' / day_ms -> civil d = civil d'.
Proof. unfold civil, day_ms. by intros ->. Qed.

(** The day of a date, without unfolding the date. *)
Lemma getDate_civil x y m d : civil x = (y, m, d) -> getDate x = d.
Proof. unfold getDate. by intros ->. Qed.
Lemma getDate_same x x' : civil x = civil x' -> getDate x = getDate x'.
Proof. unfold getDate. by intros ->. Qed.

Lemma startOfDay_same x x' : civil x = civil x' -> startOfDay x = startOfDay x'.
Proof. unfold startOfDay. by intros ->. Qed.

Lemma startOfDay_floor d : 100 <= getFullYear d -> startOfDay d = d / day_ms * day_ms.
Proof.
  unfold getFullYear, startOfDay. pose proof (civil_new_Date d) as H.
  destruct (civil d) as [[y m] dd]. exact H.
Qed.

Lemma new_Date_whole y m d : 1000 <= y <= 9999 -> valid_civil y m d = true -> whole_day (new_Date y m d).
Proof.
  intros Hy Hv. split.
  - unfold new_Date, local_time. case_match; Z.to_euclidean_division_equations; lia.
  - unfold year4, getFullYear. rewrite new_Date_civil by (done || lia). cbn. b2p. lia.
Qed.

Lemma new_Date_month y m d : 0 <= m < 12 -> 100 <= y -> new_Date y m d = new_Date y m 1 + (d - 1) * day_ms.
Proof.
  intros Hm Hy. unfold new_Date, local_time, MakeDay, day_ms. destruct ((0 <=? y) && (y <=? 99)) eqn:E; [b2p; lia|]. lia.
Qed.

(** The client's time zone against UTC: [east] of it the UTC midnight of a date is within
    that date, [west] of it within the one before. *)
Definition east (from_utc : Z -> Z) : Prop := forall t, t <= from_utc t < t + day_ms.
Definition west (from_utc : Z -> Z) : Prop := forall t, t - day_ms <= from_utc t < t.

Lemma drill_ymd d : drillToDaily d = dateToYmd d.
Proof. unfold drillToDaily, dateToDailyParam, dateToYmd, civil. reflexivity. Qed.

Section Zones.
Context (date_parse : string -> option Z) (from_utc : Z -> Z).
(** A text with only a date is midnight UTC (ECMAScript's date-only forms). *)
Hypothesis date_only : forall d, whole_day d -> date_parse (dateToYmd d) = Some d.

Lemma parse_day_east d now : east from_utc -> whole_day d -> parseDateParam date_parse from_utc (Some (dateToYmd d)) now = d.
Proof.
  intros He Hd. unfold parseDateParam. rewrite date_only by done. specialize (He d).
  assert (from_utc d / day_ms = d / day_ms) as E by (destruct Hd; unfold day_ms in *; Z.to_euclidean_division_equations; lia).
  rewrite <- (whole_day_start d Hd) at 2. by apply startOfDay_same, civil_day.
Qed.

Lemma parse_day_west d now : west from_utc -> whole_day d -> whole_day (d - day_ms) ->
  parseDateParam date_parse from_utc (Some (dateToYmd d)) now = d - day_ms.
Proof.
  intros Hw Hd Hp. unfold parseDateParam. rewrite date_only by done. specialize (Hw d).
  assert (from_utc d / day_ms = (d - day_ms) / day_ms) as E
    by (destruct Hd; unfold day_ms in *; Z.to_euclidean_division_equations; lia).
  rewrite <- (whole_day_start (d - day_ms) Hp). by apply startOfDay_same, civil_day.
Qed.
End Zones.

(** *** The monthly report *)

Section Month.
Context (date_parse : string -> option Z) (from_utc : Z -> Z).
Hypothesis date_only : forall d, whole_day d -> date_parse (dateToYmd d) = Some d.
Context (y m : Z) (Hy : 1000 <= y <= 9999) (Hm : 0 <= m < 12).

(** The backend's rows: one of the days of the month each. *)
Definition of_day (d : Z) (e : DailySummaryRow) : bool := String.eqb (e_date e) (dateToYmd (new_Date y m d)).
Definition in_month (e : DailySummaryRow) : Prop := exists d, valid_civil y m d = true /\ of_day d e = true.
Definition total_of (f : DailySummaryRow -> Z) (daily : list DailySummaryRow) (d : Z) : Z :=
  sumZ (map f (List.filter (of_day d) daily)).

Lemma valid_day d : valid_civil y m d = true <-> 1 <= d <= month_length y m.
Proof. unfold valid_civil. rewrite !andb_true_iff, !Z.leb_le, Z.ltb_lt. lia. Qed.

Lemma same_day d d' : valid_civil y m d = true -> valid_civil y m d' = true ->
  dateToYmd (new_Date y m d) = dateToYmd (new_Date y m d') -> d = d'.
Proof.
  intros Hd Hd' E. apply whole_day_same in E; try (by apply new_Date_whole).
  apply (f_equal civil) in E. rewrite !new_Date_civil in E by (done || lia). congruence.
Qed.

Lemma entry_day_of e d : valid_civil y m d = true -> of_day d e = true ->
  entry_day date_parse from_utc e = Some (getDate (from_utc (new_Date y m d))).
Proof.
  intros Hd He. unfold of_day in He. b2p. unfold entry_day. rewrite He. by rewrite date_only by (by apply new_Date_whole).
Qed.

Lemma entry_day_east e d : east from_utc -> valid_civil y m d = true -> of_day d e = true ->
  entry_day date_parse from_utc e = Some d.
Proof.
  intros Hz Hd He. rewrite (entry_day_of e d) by done. specialize (Hz (new_Date y m d)).
  destruct (new_Date_whole y m d Hy Hd) as [H0 _].
  assert (from_utc (new_Date y m d) / day_ms = new_Date y m d / day_ms) as E
    by (unfold day_ms in *; Z.to_euclidean_division_equations; lia).
  f_equal. apply (getDate_civil _ y m). rewrite (civil_day _ _ E). apply new_Date_civil; [lia|done].
Qed.

Lemma entry_day_west e d : west from_utc -> valid_civil y m d = true -> of_day d e = true ->
  entry_day date_parse from_utc e = Some (getDate (new_Date y m d - day_ms)).
Proof.
  intros Hz Hd He. rewrite (entry_day_of e d) by done. specialize (Hz (new_Date y m d)).
  destruct (new_Date_whole y m d Hy Hd) as [H0 _].
  assert (from_utc (new_Date y m d) / day_ms = (new_Date y m d - day_ms) / day_ms) as E
    by (unfold day_ms in *; Z.to_euclidean_division_equations; lia).
  f_equal. by apply getDate_same, civil_day.
Qed.

(** The day before one of the month that is not its first. *)
Lemma day_before d : valid_civil y m d = true -> valid_civil y m (d + 1) = true ->
  new_Date y m (d + 1) - day_ms = new_Date y m d.
Proof. intros _ _. rewrite (new_Date_month y m (d + 1)), (new_Date_month y m d) by lia. unfold day_ms. lia. Qed.

(** The sums of the entries counted on a row, when those are the entries of one date. *)
Lemma on_day_of f daily day d : (forall e, e ∈ daily -> (entry_day date_parse from_utc e = Some day <-> of_day d e = true)) ->
  on_day date_parse from_utc f daily day = total_of f daily d.
Proof.
  intros H. unfold on_day, total_of. do 2 f_equal. apply List.filter_ext_in. intros e He%list_elem_of_In.
  specialize (H e He). destruct (of_day d e).
  - apply bool_decide_eq_true_2. by apply H.
  - apply bool_decide_eq_false_2. intros E. by apply H in E.
Qed.

Lemma row_of f_rows daily d : f_rows = densifyMonth date_parse from_utc y m daily -> valid_civil y m d = true ->
  f_rows !! Z.to_nat (d - 1) = Some (filled_row date_parse from_utc daily d (Row (new_Date y m d) 0 0)).
Proof.
  intros -> Hd%valid_day. unfold densifyMonth. rewrite add_entries_lookup.
  destruct (empty_month_spec y m ltac:(lia) Hm) as (_ & Hk & _).
  rewrite Hk by lia. cbn. by replace (Z.of_nat (Z.to_nat (d - 1)) + 1) with d by lia.
Qed.

(** The monthly report of a client in UTC or east of it, for backend rows of the month's
    days: one row for each day of the month, in order, each with exactly the sales and the
    revenue of that day's entries; the rows add up to the month's revenue; and the text a
    click on a row puts in the URL opens the daily report on that row's day. *)
Theorem monthly_rows_exact daily now : east from_utc -> Forall in_month daily ->
  let rows := densifyMonth date_parse from_utc y m daily in
  Z.of_nat (length rows) = month_length y m /\
  (forall d, 1 <= d <= month_length y m ->
     rows !! Z.to_nat (d - 1) =
       Some (Row (new_Date y m d) (total_of e_count daily d) (total_of e_sum daily d)) /\
     parseDateParam date_parse from_utc (Some (drillToDaily (new_Date y m d))) now = new_Date y m d) /\
  sumZ (map r_total rows) = sumZ (map e_sum daily).
Proof.
  intros Hz Hd rows. destruct (empty_month_spec y m ltac:(lia) Hm) as (Hl & _ & H0). split_and!.
  - unfold rows, densifyMonth. by rewrite add_entries_length.
  - intros d Hv%valid_day. rewrite (row_of rows daily d) by done. split.
    + unfold filled_row. cbn. rewrite !(on_day_of _ _ d d); [done|..]; intros e He; (split; [|by apply entry_day_east]).
      all: rewrite Forall_forall in Hd; destruct (Hd e He) as (d' & Hv' & He'); rewrite (entry_day_east e d') by done.
      all: by intros [= <-].
    + rewrite drill_ymd. by apply parse_day_east; [..|apply new_Date_whole].
  - unfold rows, densifyMonth. rewrite add_entries_total, H0; [lia|].
    eapply Forall_impl; [exact Hd|]. intros e (d & Hv & He). exists d. split; [by apply entry_day_east|].
    rewrite Hl. by apply valid_day.
Qed.

Lemma west_date d d' : valid_civil y m d = true -> valid_civil y m (d + 1) = true ->
  getDate (new_Date y m 1 - day_ms) <> d -> valid_civil y m d' = true ->
  getDate (new_Date y m d' - day_ms) = d <-> d' = d + 1.
Proof.
  intros Hv Hv' Hn Hd'. split.
  - intros E. destruct (Z.eq_dec d' 1) as [->|]; [done|].
    assert (valid_civil y m (d' - 1) = true) as Hp by (apply valid_day in Hd'; apply valid_day; lia).
    rewrite <- (Z.sub_add 1 d') in E, Hd'. rewrite day_before in E by done.
    rewrite (getDate_civil _ y m (d' - 1)) in E by (apply new_Date_civil; lia || done). lia.
  - intros ->. rewrite day_before by done. apply (getDate_civil _ y m), new_Date_civil; [lia|done].
Qed.

Lemma west_entries f daily d : west from_utc -> Forall in_month daily ->
  valid_civil y m d = true -> valid_civil y m (d + 1) = true -> getDate (new_Date y m 1 - day_ms) <> d ->
  on_day date_parse from_utc f daily d = total_of f daily (d + 1).
Proof.
  intros Hz Hd Hv Hv' Hn. apply on_day_of. intros e He. rewrite Forall_forall in Hd.
  destruct (Hd e He) as (d' & Hv2 & He'). rewrite (entry_day_west e d') by done. split.
  - intros [= E]. by apply (west_date d d') in E as ->.
  - intros E. f_equal. apply west_date; try done. unfold of_day in *. b2p. apply same_day; [done..|congruence].
Qed.

(** West of UTC the same rows are a day off: a row with a successor in the month shows the
    sales of that successor (unless it is also where the entries of the first, read as the
    last day of the month before, are counted), and a click on it opens the day before
    it. *)
Theorem monthly_rows_west daily d now : west from_utc -> Forall in_month daily ->
  1 <= d < month_length y m -> getDate (new_Date y m 1 - day_ms) <> d ->
  densifyMonth date_parse from_utc y m daily !! Z.to_nat (d - 1) =
    Some (Row (new_Date y m d) (total_of e_count daily (d + 1)) (total_of e_sum daily (d + 1))) /\
  parseDateParam date_parse from_utc (Some (drillToDaily (new_Date y m (d + 1)))) now = new_Date y m d.
Proof.
  intros Hz Hd Hr Hn. assert (valid_civil y m d = true) as Hv by (apply valid_day; lia).
  assert (valid_civil y m (d + 1) = true) as Hv' by (apply valid_day; lia). split.
  - rewrite (row_of _ daily d eq_refl Hv). unfold filled_row. by rewrite !west_entries.
  - rewrite drill_ymd, <- (day_before d Hv Hv'). apply parse_day_west; [done..|by apply new_Date_whole|].
    rewrite day_before by done. by apply new_Date_whole.
Qed.
End Month.

(** *** Best day, year and picker *)

Definition better (best : option MonthlyChartRow) (r : MonthlyChartRow) : option MonthlyChartRow :=
  match best with None => Some r | Some b => if r_total b <? r_total r then Some r else Some b end.

Lemma better_best rows b :
  exists r, fold_left better rows (Some b) = Some r /\ (r = b \/ r ∈ rows) /\
    r_total b <= r_total r /\ forall x, x ∈ rows -> r_total x <= r_total r.
Proof.
  revert b. induction rows as [|x rows IH]; intros b; cbn [fold_left].
  - exists b. split_and!; [done|by left|lia|]. intros x Hx. by apply elem_of_nil in Hx.
  - unfold better at 2. destruct (Z.ltb_spec (r_total b) (r_total x)).
    + destruct (IH x) as (r & -> & Hr & Hle & Hall). exists r. split_and!; [done| |lia|].
      * right. rewrite elem_of_cons. tauto.
      * intros z [->|Hz]%elem_of_cons; [done|]. by apply Hall.
    + destruct (IH b) as (r & -> & Hr & Hle & Hall). exists r. split_and!; [done| |done|].
      * rewrite elem_of_cons. tauto.
      * intros z [->|Hz]%elem_of_cons; [lia|]. by apply Hall.
Qed.

(** The best-day card shows a day of the month with the highest revenue, and no day when
    no day has any. *)
Theorem best_day_highest rows : rows <> [] ->
  exists r, r ∈ rows /\ (forall x, x ∈ rows -> r_total x <= r_total r) /\
    bestDay rows = (if 0 <? r_total r then Some (r_date r) else None, r_total r).
Proof.
  intros Hn. destruct rows as [|r0 rows]; [done|].
  destruct (better_best rows r0) as (r & E & Hr & H0 & Hall). exists r. split_and!.
  - rewrite elem_of_cons. tauto.
  - intros x [->|Hx]%elem_of_cons; [done|]. by apply Hall.
  - unfold bestDay. cbn [fold_left]. change (fold_left _ rows (Some r0)) with (fold_left better rows (Some r0)).
    by rewrite E.
Qed.

(** The last row of a month in the backend's answer. *)
Definition last_of (mo : Z) (rows : list ResumeRow) : option ResumeRow :=
  last (List.filter (fun r => y_month r =? mo) rows).

Lemma pad_lookup rows out (k : nat) : length out = 12%nat -> (k < 12)%nat ->
  fold_left (fun out r => let idx := y_month r - 1 in
    if (0 <=? idx) && (idx <? 12) then <[Z.to_nat idx := Yearly idx (y_count r) (y_sum r)]> out else out) rows out !! k =
  match last_of (Z.of_nat k + 1) rows with
  | Some r => Some (Yearly (Z.of_nat k) (y_count r) (y_sum r))
  | None => out !! k
  end.
Proof.
  intros Hl Hk. revert out Hl. induction rows as [|r rows IH] using rev_ind; intros out Hl; [done|].
  rewrite fold_left_app. cbn [fold_left]. unfold last_of. rewrite List.filter_app. cbn [List.filter].
  specialize (IH out Hl). set (acc := fold_left _ rows out) in *.
  assert (length acc = 12%nat) as Ha.
  { unfold acc. clear -Hl. revert out Hl. induction rows as [|r rows IH]; intros out Hl; [done|]. cbn [fold_left].
    apply IH. cbv zeta. case_match; [by rewrite length_insert|done]. }
  cbv zeta. destruct (Z.eqb_spec (y_month r) (Z.of_nat k + 1)) as [->|Hne].
  - rewrite last_snoc. replace (Z.of_nat k + 1 - 1) with (Z.of_nat k) by lia.
    destruct (Z.leb_spec 0 (Z.of_nat k)), (Z.ltb_spec (Z.of_nat k) 12); try lia. cbn.
    rewrite Nat2Z.id. apply list_lookup_insert_eq. lia.
  - rewrite app_nil_r. destruct (_ && _) eqn:E; [|exact IH]. b2p. rewrite list_lookup_insert_ne by lia. exact IH.
Qed.

(** The year's chart has the twelve months in order, each with the backend's last row for
    it, or zeros. *)
Theorem year_grid rows :
  length (padYearly rows) = 12%nat /\
  forall k : nat, (k < 12)%nat -> padYearly rows !! k = Some
    (match last_of (Z.of_nat k + 1) rows with
     | Some r => Yearly (Z.of_nat k) (y_count r) (y_sum r)
     | None => Yearly (Z.of_nat k) 0 0
     end).
Proof.
  assert (forall k : nat, (k < 12)%nat -> padYearly rows !! k = Some
    (match last_of (Z.of_nat k + 1) rows with
     | Some r => Yearly (Z.of_nat k) (y_count r) (y_sum r) | None => Yearly (Z.of_nat k) 0 0 end)) as H.
  { intros k Hk. unfold padYearly. rewrite pad_lookup by done. destruct (last_of _ _); [done|].
    rewrite list_lookup_fmap, lookup_seqZ_lt by lia. done. }
  split; [|done]. unfold padYearly.
  cut (length (map (fun m => Yearly m 0 0) (seqZ 0 12)) = 12%nat); [|done].
  generalize (map (fun m => Yearly m 0 0) (seqZ 0 12)). clear H. induction rows as [|r rows IH]; intros out Hl; [done|].
  cbn [fold_left]. apply IH. case_match; [by rewrite length_insert|done].
Qed.

(** *** Pickers *)

Lemma shiftDay_days date delta : shiftDay date delta = date + delta * day_ms.
Proof.
  unfold shiftDay, civil, day_ms. pose proof (civil_of_days (date / 86400000)) as H.
  destruct (civil_from_days _) as [[y m] d]. destruct H as [Hv Hd].
  unfold MakeDay. unfold valid_civil in Hv. b2p. rewrite Z.div_small, Z.mod_small by lia.
  replace (y + 0) with y by lia. unfold days_from_civil in *. Z.to_euclidean_division_equations. lia.
Qed.

(** The day shown never moves past today and stays a whole day; the arrows move it by
    exactly one day, and "Today" shows today. *)
Theorem day_picker_bounded e date now :
  100 <= getFullYear now ->
  100 <= getFullYear (date - day_ms) -> 100 <= getFullYear date -> 100 <= getFullYear (date + day_ms) ->
  (forall d, e = Pick d -> 100 <= getFullYear d) ->
  date mod day_ms = 0 -> date <= startOfDay now ->
  let date' := pick_day e date now in
  date' <= startOfDay now /\ date' mod day_ms = 0 /\
  match e with
  | Before => date' = date - day_ms
  | After => date' = Z.min (date + day_ms) (startOfDay now)
  | Today => date' = startOfDay now
  | Pick d => d <= startOfDay now -> date' = d / day_ms * day_ms
  end.
Proof.
  intros Hn Hb Hd Ha Hp Hw Ht. pose proof (startOfDay_floor now Hn) as En. unfold pick_day, handleDateChange.
  rewrite !shiftDay_days. cbn [fst].
  assert (startOfDay (startOfDay now) = startOfDay now) as Ei.
  { apply startOfDay_same, civil_day. rewrite En. by rewrite Z.div_mul. }
  destruct e as [| |d|]; cbn zeta.
  - change (-1 * day_ms) with (- day_ms). rewrite Z.add_opp_r, startOfDay_floor by done.
    unfold day_ms in *. Z.to_euclidean_division_equations. lia.
  - unfold isFuture. rewrite (startOfDay_floor date Hd) in *.
    destruct (Z.leb_spec (startOfDay now) (date / day_ms * day_ms)); [unfold day_ms in *; Z.to_euclidean_division_equations; lia|].
    assert (startOfDay (date + 1 * day_ms) = date + day_ms) as ->; [|unfold day_ms in *; Z.to_euclidean_division_equations; lia].
    rewrite Z.mul_1_l, startOfDay_floor by done. unfold day_ms in *. Z.to_euclidean_division_equations. lia.
  - specialize (Hp d eq_refl). destruct (Z.ltb_spec (startOfDay now) d); [split_and!; lia|].
    rewrite startOfDay_floor by done. unfold day_ms in *. Z.to_euclidean_division_equations. lia.
  - rewrite Ei. split_and!; [lia| |done]. rewrite En. apply Z.mod_mul. done.
Qed.

Lemma first_of_month y m : 100 <= y - 1 -> -12 <= m < 24 ->
  let k := 12 * y + m in shift y m 0 = (k / 12, k mod 12).
Proof.
  intros Hy Hm k. unfold shift. cbv zeta. rewrite Z.add_0_r.
  assert (new_Date y m 1 = new_Date (k / 12) (k mod 12) 1) as ->.
  { assert (k / 12 = y + m / 12 /\ k mod 12 = m mod 12) as [E1 E2] by (unfold k; Z.to_euclidean_division_equations; lia).
    unfold new_Date, local_time. assert (100 <= y + m / 12) by (Z.to_euclidean_division_equations; lia).
    rewrite E1, E2. destruct (_ && _) eqn:F; [b2p; lia|]. destruct (_ && _) eqn:G in |- *; [b2p; lia|].
    assert (MakeDay y m 1 = MakeDay (y + m / 12) (m mod 12) 1) as ->; [|done].
    unfold MakeDay. pose proof (Z.mod_pos_bound m 12 ltac:(lia)). rewrite (Z.mod_small (m mod 12)), (Z.div_small (m mod 12)) by lia.
    by rewrite Z.add_0_r. }
  unfold getFullYear, getMonth. rewrite new_Date_civil; [reflexivity|unfold k; Z.to_euclidean_division_equations; lia|].
  unfold valid_civil. pose proof (month_length_le (k / 12) (k mod 12)). pose proof (Z.mod_pos_bound k 12 ltac:(lia)).
  rewrite !andb_true_iff, !Z.leb_le, Z.ltb_lt. lia.
Qed.

Lemma shift_spec y m delta : 100 <= y - 1 -> 0 <= m < 12 -> -12 <= delta <= 12 ->
  shift y m delta = ((12 * y + m + delta) / 12, (12 * y + m + delta) mod 12).
Proof.
  intros Hy Hm Hd. pose proof (first_of_month y (m + delta) Hy ltac:(lia)) as E. cbv zeta in E.
  rewrite Z.add_assoc in E. rewrite <- E. unfold shift. cbv zeta. by rewrite Z.add_0_r.
Qed.

(** The first of month number [k], counted from January of year 0. *)
Definition first_of (k : Z) : Z := new_Date (k / 12) (k mod 12) 1.

Lemma era_split y m d : days_from_civil y m d =
  let y' := if m <=? 2 then y - 1 else y in
  365 * y' + y' / 4 - y' / 100 + y' / 400 + (153 * (if m <=? 2 then m + 9 else m - 3) + 2) / 5 + d - 1 - 719468.
Proof.
  unfold days_from_civil. cbv zeta. generalize (if m <=? 2 then y - 1 else y). intros y'.
  generalize ((153 * (if m <=? 2 then m + 9 else m - 3) + 2) / 5). intros c. Z.to_euclidean_division_equations. lia.
Qed.

Lemma first_of_next k : 1200 <= k -> first_of k < first_of (k + 1).
Proof.
  intros Hk. unfold first_of, new_Date, local_time.
  assert (100 <= k / 12 /\ 100 <= (k + 1) / 12) as [H1 H2] by (Z.to_euclidean_division_equations; lia).
  destruct (_ && _) eqn:F; [b2p; lia|]. destruct (_ && _) eqn:G in |- *; [b2p; lia|].
  rewrite !MakeDay_days by (apply Z.mod_pos_bound; lia). rewrite !era_split. cbv zeta.
  pose proof (Z.mod_pos_bound k 12 ltac:(lia)) as Hm. set (y := k / 12) in *. set (m := k mod 12) in *.
  assert ((m = 11 /\ (k + 1) / 12 = y + 1 /\ (k + 1) mod 12 = 0) \/ (m < 11 /\ (k + 1) / 12 = y /\ (k + 1) mod 12 = m + 1))
    as [(-> & -> & ->)|(Hm' & -> & ->)] by (unfold y, m; Z.to_euclidean_division_equations; lia).
  - change (11 + 1 <=? 2) with false. change (0 + 1 <=? 2) with true. cbv iota. rewrite Z.add_simpl_r.
    Z.to_euclidean_division_equations. lia.
  - clearbody y m. destruct (Z.leb_spec (m + 1) 2), (Z.leb_spec (m + 1 + 1) 2); try lia;
      Z.to_euclidean_division_equations; lia.
Qed.

Lemma first_of_mono j k : 1200 <= j -> j <= k -> first_of j <= first_of k.
Proof.
  intros Hj Hk. replace k with (j + Z.of_nat (Z.to_nat (k - j))) by lia. induction (Z.to_nat (k - j)) as [|n IH].
  - rewrite Z.add_0_r. lia.
  - pose proof (first_of_next (j + Z.of_nat n) ltac:(lia)). replace (j + Z.of_nat (S n)) with (j + Z.of_nat n + 1) by lia. lia.
Qed.

Lemma getMonth_range d : 0 <= getMonth d < 12.
Proof. unfold getMonth. pose proof (civil_valid d) as H. destruct (civil d) as [[y m] dd]. cbn. unfold valid_civil in H. b2p. lia. Qed.

Lemma isFuture_index y m now : 100 <= y -> 0 <= m < 12 -> 100 <= getFullYear now ->
  month_isFuture y m now = negb (12 * y + m <? 12 * getFullYear now + getMonth now).
Proof.
  intros Hy Hm Hn. unfold month_isFuture. pose proof (getMonth_range now).
  assert (forall y m, 0 <= m < 12 -> new_Date y m 1 = first_of (12 * y + m)) as E.
  { intros y' m' H'. unfold first_of. f_equal; Z.to_euclidean_division_equations; lia. }
  rewrite !E by done. set (a := 12 * y + m). set (b := 12 * getFullYear now + getMonth now).
  destruct (Z.ltb_spec a b); cbn.
  - apply Z.leb_gt. pose proof (first_of_next a ltac:(lia)). pose proof (first_of_mono (a + 1) b). lia.
  - apply Z.leb_le. apply first_of_mono; lia.
Qed.

Lemma bars i : existsb (fun r => y_index r =? i) (padYearly []) = true <-> 0 <= i < 12.
Proof.
  unfold padYearly. cbn [fold_left]. rewrite existsb_exists. split.
  - intros (r & (x & <- & Hx%list_elem_of_In%elem_of_seqZ)%in_map_iff & Hi%Z.eqb_eq). cbn in Hi. lia.
  - intros Hi. exists (Yearly i 0 0). split; [|apply Z.eqb_refl]. apply in_map_iff. exists i.
    split; [done|]. by apply list_elem_of_In, elem_of_seqZ.
Qed.

(** The month shown is a month of the calendar.  The arrows move it by one month, across
    the ends of the year, and never past the current month; only the two menus can choose a
    month after it. *)
Theorem month_picker_steps e y m now : 101 <= y -> 0 <= m < 12 -> 100 <= getFullYear now ->
  let index p := 12 * fst p + snd p in
  let p := pick_month e y m now in
  let current := 12 * getFullYear now + getMonth now in
  0 <= p.2 < 12 /\
  match e with
  | Previous => index p = index (y, m) - 1
  | Next => index p = if index (y, m) <? current then index (y, m) + 1 else index (y, m)
  | SelectMonth i => 0 <= i < 12 -> p = (y, i)
  | SelectYear y' => getFullYear now - 5 <= y' <= getFullYear now -> p = (y', m)
  | ThisMonth => index p = current
  | Bar i => 0 <= i < 12 -> p = (y, i)
  end.
Proof.
  intros Hy Hm Hn index p current. pose proof (getMonth_range now).
  destruct e as [| |i|y'| |i]; unfold p, pick_month; clear p.
  - rewrite shift_spec by lia. unfold index. cbn [fst snd].
    split; [apply Z.mod_pos_bound; lia|]. rewrite <- Z.div_mod by lia. lia.
  - rewrite isFuture_index by lia. unfold index, current. cbn [fst snd]. rewrite negb_if.
    destruct (_ <? _); cbn [fst snd]; [|lia]. rewrite shift_spec by lia. cbn [fst snd].
    split; [apply Z.mod_pos_bound; lia|]. rewrite <- Z.div_mod by lia. lia.
  - destruct (_ && _) eqn:E; b2p; cbn; [split; [lia|done]|split; [done|lia]].
  - destruct (existsb _ _) eqn:E; cbn; (split; [done|]); [done|]. intros Hr. exfalso.
    assert (existsb (Z.eqb y') (years now) = true) as H'; [|congruence].
    apply existsb_exists. exists y'. split; [|apply Z.eqb_refl]. apply in_map_iff. exists (getFullYear now - y').
    split; [lia|]. apply list_elem_of_In, elem_of_seqZ. lia.
  - cbn. done.
  - destruct (existsb _ _) eqn:E; cbn.
    + apply bars in E. split; [done|done].
    + split; [done|]. intros Hi%bars. congruence.
Qed.

(** *** The day's sales *)

Lemma filteredTotal_sum l : filteredTotal l = sumZ (map selling_price l).
Proof.
  unfold filteredTotal. cut (forall a, fold_left (fun sum s => sum + selling_price s) l a = a + sumZ (map selling_price l)).
  { intros H. rewrite H. lia. }
  induction l as [|s l IH]; intros a; cbn; [lia|]. rewrite IH. lia.
Qed.

Definition part {A} (key : A -> string) (f : A -> Z) (l : list A) (k : string) : Z :=
  sumZ (map f (List.filter (fun x => String.eqb (key x) k) l)).

Lemma part_cons {A} key f (x : A) l k : part key f (x :: l) k = (if String.eqb (key x) k then f x else 0) + part key f l k.
Proof. unfold part. cbn [List.filter]. by destruct (String.eqb (key x) k). Qed.

Lemma totals_by_key {A} (key : A -> string) (f : A -> Z) l ks : NoDup ks -> Forall (fun x => key x ∈ ks) l ->
  sumZ (map (part key f l) ks) = sumZ (map f l).
Proof.
  intros Hn. induction l as [|x l IH]; intros Hl.
  - clear. induction ks as [|k ks IH]; cbn in *; lia.
  - apply Forall_cons in Hl as [Hx Hl]. cbn [map sumZ]. rewrite <- IH by done. clear IH Hl.
    revert Hn Hx. induction ks as [|k ks IH]; [by intros _ ?%elem_of_nil|]. intros [Hk Hn]%NoDup_cons Hx.
    cbn [map sumZ]. rewrite part_cons. destruct (String.eqb_spec (key x) k) as [<-|Hne].
    + assert (map (part key f (x :: l)) ks = map (part key f l) ks) as ->; [|lia].
      apply map_ext_in. intros k' Hk'%list_elem_of_In. rewrite part_cons.
      destruct (String.eqb_spec (key x) k') as [E|]; [|done]. by rewrite E in Hk.
    + apply elem_of_cons in Hx as [|Hx]; [done|]. specialize (IH Hn Hx). lia.
Qed.

Lemma only_profile p sales : p <> "all" ->
  applyDailyFilters sales (DailyFilters "" p "all") = List.filter (fun s => String.eqb (profile_name s) p) sales.
Proof.
  intros Hp. apply List.filter_ext_in. intros s _. unfold daily_shown. cbn [search f_profile f_server].
  destruct (String.eqb_spec p "all"); [done|]. by destruct (String.eqb (profile_name s) p).
Qed.

Lemma no_filters sales : applyDailyFilters sales EMPTY_FILTERS = sales.
Proof. unfold applyDailyFilters. induction sales as [|s l IH]; [done|]. cbn [List.filter]. rewrite IH. done. Qed.

(** The profile menu splits the day: without filters the cards count all sales of the day,
    and the revenues shown for the profiles the menu offers, each chosen alone, add up to
    the day's revenue.  (No profile may be called "all", which is the menu's word for no
    filter.) *)
Theorem profile_totals_add_up sales : Forall (fun s => profile_name s <> "all") sales ->
  applyDailyFilters sales EMPTY_FILTERS = sales /\
  sumZ (map (fun p => filteredTotal (applyDailyFilters sales (DailyFilters "" p "all"))) (profiles sales)) =
    filteredTotal sales.
Proof.
  intros Hs. split; [apply no_filters|]. unfold profiles.
  destruct (sorted_set_spec (map profile_name sales)) as [Ha He].
  rewrite filteredTotal_sum, <- (totals_by_key profile_name selling_price sales (sorted_set (map profile_name sales))).
  - f_equal. apply map_ext_in. intros p Hp%list_elem_of_In%He. rewrite filteredTotal_sum, only_profile; [done|].
    apply list_elem_of_fmap in Hp as (s & -> & Hin). rewrite Forall_forall in Hs. by apply Hs.
  - by apply ascending_NoDup.
  - apply Forall_forall. intros s Hin. apply He. apply list_elem_of_fmap. by exists s.
Qed.

(** *** Witnesses *)

(** Midnight UTC of a date-only text. *)
Definition utc_midnight (s : string) : option Z := Some (ymdToDate (Some s) 0).

Lemma utc_midnight_date d : whole_day d -> utc_midnight (dateToYmd d) = Some d.
Proof. intros Hd. unfold utc_midnight. f_equal. rewrite (proj1 (ymd_roundtrip d 0 (proj2 Hd))). by apply whole_day_start. Qed.

Definition february : list DailySummaryRow :=
  [Entry "2024-02-01" 2 10000; Entry "2024-02-29" 1 5000; Entry "2024-02-10" 3 7000].
Definition jakarta (t : Z) : Z := t + 25200000.
Definition new_york (t : Z) : Z := t - 18000000.

Lemma february_in_month : Forall (in_month 2024 1) february.
Proof. constructor; [by exists 1|]. constructor; [by exists 29|]. constructor; [by exists 10|constructor]. Qed.

Lemma monthly_rows_exact_witness :
  let rows := densifyMonth utc_midnight jakarta 2024 1 february in
  Z.of_nat (length rows) = 29 /\ r_total <$> rows !! 9%nat = Some 7000 /\ sumZ (map r_total rows) = 22000.
Proof.
  intros rows. assert (1 <= 10 <= month_length 2024 1) as H10 by (vm_compute; split; discriminate).
  destruct (monthly_rows_exact utc_midnight jakarta utc_midnight_date 2024 1 ltac:(lia) ltac:(lia) february 0
    ltac:(intros t; unfold jakarta, day_ms; lia) february_in_month) as (Hl & Hr & Ht).
  fold rows in Hl, Hr, Ht. destruct (Hr 10 H10) as [E _]. clearbody rows.
  split; [exact Hl|split; [|exact Ht]].
  change (Z.to_nat (10 - 1)) with 9%nat in E. rewrite E. reflexivity.
Defined.

Lemma monthly_rows_west_witness :
  r_total <$> densifyMonth utc_midnight new_york 2024 1 february !! 8%nat = Some 7000.
Proof.
  destruct (monthly_rows_west utc_midnight new_york utc_midnight_date 2024 1 ltac:(lia) ltac:(lia) february 9 0
    ltac:(intros t; unfold new_york, day_ms; lia) february_in_month ltac:(vm_compute; done) ltac:(vm_compute; done)) as [E _].
  change (Z.to_nat (9 - 1)) with 8%nat in E. rewrite E. reflexivity.
Defined.

Lemma best_day_highest_witness :
  exists r, r ∈ densifyMonth utc_midnight jakarta 2024 1 february /\ r_total r = 10000 /\
    bestDay (densifyMonth utc_midnight jakarta 2024 1 february) = (Some (r_date r), 10000).
Proof.
  destruct (best_day_highest (densifyMonth utc_midnight jakarta 2024 1 february) ltac:(vm_compute; done)) as (r & Hr & _ & E).
  exists r. assert (r_total r = 10000) as H by (apply (f_equal snd) in E; cbn [snd] in E; rewrite <- E; vm_compute; reflexivity).
  split_and!; [done|done|]. rewrite E, H. done.
Defined.

Lemma day_picker_bounded_witness :
  pick_day After (new_Date 2024 1 28) (new_Date 2024 1 29 + 1000) <= startOfDay (new_Date 2024 1 29 + 1000).
Proof.
  refine (proj1 (day_picker_bounded After (new_Date 2024 1 28) (new_Date 2024 1 29 + 1000) _ _ _ _ _ _ _));
    try (intros ? [=]); vm_compute; first [reflexivity|discriminate].
Defined.

Lemma month_picker_steps_witness : pick_month Previous 2024 0 (new_Date 2024 1 29) = (2023, 11).
Proof.
  destruct (month_picker_steps Previous 2024 0 (new_Date 2024 1 29) ltac:(lia) ltac:(lia) ltac:(by vm_compute)) as [_ H].
  vm_compute in H. reflexivity.
Defined.

Lemma profile_totals_add_up_witness :
  filteredTotal (applyDailyFilters [Sale "u" "daily" "m" "i" "s" 5000; Sale "v" "weekly" "m" "i" "s" 20000; Sale "w" "daily" "m" "i" "s" 5000] (DailyFilters "" "daily" "all"))
  = filteredTotal [Sale "u" "daily" "m" "i" "s" 5000; Sale "v" "weekly" "m" "i" "s" 20000; Sale "w" "daily" "m" "i" "s" 5000] - 20000.
Proof.
  rewrite <- (proj2 (profile_totals_add_up [Sale "u" "daily" "m" "i" "s" 5000; Sale "v" "weekly" "m" "i" "s" 20000; Sale "w" "daily" "m" "i" "s" 5000]
    ltac:(repeat constructor; done))). reflexivity.
Defined.
