(* ===== verification/VoucherForm.v ===== *)
(** * Generating and printing vouchers
    ([features/voucher/generate/{index.tsx,components}], [features/voucher/print/components/quick-print-card.tsx],
    the printing of [features/hotspot/users/index.tsx])

    The generate form (its inputs, its default profile, its request), the batch the page
    shows, the CSV and the print jobs made from it, the quick-print cards and the printing
    of hotspot users.  A number typed into an input is the value JSON carries (JsNumber);
    the print jobs are Html's. *)
From S2P Require Import Prelude JsString JsValue JsNumber Http ApiErrors Hooks Hotspot Ui DialogStores Actions ViewModels.
From S2P Require Import Wire Forms FormContracts Html Presets Voucher.

(** ** The generate form ([voucher-generate-form.tsx]) *)

Definition userTypeOptions : list (string * UserType) :=
  [("User & Password", up); ("Username Only (Voucher)", vc)].
Definition charSetOptions : list (string * CharSet) :=
  [("Huruf Kecil (abcd)", lower); ("Huruf Besar (ABCD)", upper); ("Huruf Besar+Kecil (aBcD)", mixed);
   ("Angka Saja (1234)", number); ("Angka+Huruf Kecil (5ab2c)", lower_number);
   ("Angka+Huruf Besar (5AB2C)", upper_number); ("Angka+Besar+Kecil (5aB2C)", mixed_number)].
Definition nameLengthOptions : list (string * Z) := map (fun n => (Z_to_string n, n)) [4; 5; 6; 7; 8; 10; 12].
Definition dataLimitUnitOptions : list (string * DataLimitUnit) := [("MB", MB); ("GB", GB)].

Definition defaultGenerateForm : VoucherGenerateForm := Form 1 "all" "" up 6 lower_number "" "0" 0 MB "".

(** What the inputs hold. *)
Record FormValues : Type := Values {
  f_qty : jval; f_server : string; f_profile : string; f_userType : UserType; f_nameLength : Z; f_charSet : CharSet;
  f_prefix : string; f_timeLimit : string; f_dataLimit : jval; f_dataLimitUnit : DataLimitUnit; f_comment : string
}.
Definition defaultValues : FormValues :=
  let d := defaultGenerateForm in
  Values (JNum (qty d)) (server d) (profile d) (userType d) (nameLength d) (charSet d) (prefix d) (timeLimit d)
    (JNum (dataLimit d)) (dataLimitUnit d) (comment d).

(** [voucherGenerateFormSchema]: what [handleSubmit] hands on. *)
Definition voucherGenerateFormSchema (v : FormValues) : option VoucherGenerateForm :=
  match f_qty v, f_dataLimit v with
  | JNum q, JNum d =>
      if (1 <=? q) && (q <=? 500) && (4 <=? f_nameLength v) && (f_nameLength v <=? 32) && (0 <=? d)
      then Some (Form q (f_server v) (f_profile v) (f_userType v) (f_nameLength v) (f_charSet v) (f_prefix v)
                   (f_timeLimit v) d (f_dataLimitUnit v) (f_comment v))
      else None
  | _, _ => None
  end.

(** [Math.max(1, Math.min(500, +e.target.value || 1))]. *)
Definition qty_change (text : string) : jval :=
  match Number_str text with
  | Some q => if Qle_bool (this q) 0 then JNum 1 else if Qle_bool (this q) 1 then JNum 1
              else if Qle_bool 500 (this q) then JNum 500 else Number_val text
  | None => JNum 1
  end.

(** The panel: the values, the two queries' data, and the number of profiles the effect that
    chooses the first one last ran for. *)
Record Panel : Type := Pan { values : FormValues; profiles : list jval; servers : list jval; effect_for : Z }.

Definition activeServers (servers : list jval) : list string :=
  "all" :: map (text "name") (List.filter (fun s => negb (truthy (get "disabled" s))) servers).

Definition set_profile (n : string) (v : FormValues) : FormValues :=
  Values (f_qty v) (f_server v) n (f_userType v) (f_nameLength v) (f_charSet v) (f_prefix v) (f_timeLimit v)
    (f_dataLimit v) (f_dataLimitUnit v) (f_comment v).
Definition select_first (profiles : list jval) (v : FormValues) : FormValues :=
  match profiles with
  | p :: _ => if String.eqb (f_profile v) "" then set_profile (text "name" p) v else v
  | [] => v
  end.

Inductive input : Type :=
| TypeQty (s : string) | PickServer (s : string) | PickProfile (s : string) | PickMode (u : UserType)
| PickLength (n : Z) | PickChars (c : CharSet) | TypePrefix (s : string) | TypeTime (s : string)
| TypeLimit (s : string) | PickUnit (u : DataLimitUnit) | TypeComment (s : string) | Reset
| Profiles (l : list jval) | Servers (l : list jval).

Definition change (e : input) (p : Panel) : FormValues :=
  let v := values p in
  let '(Values q s pr m n c px t d u cm) := v in
  match e with
  | TypeQty s' => Values (qty_change s') s pr m n c px t d u cm
  | PickServer s' => if bool_decide (s' ∈ activeServers (servers p)) then Values q s' pr m n c px t d u cm else v
  | PickProfile s' => if bool_decide (s' ∈ map (text "name") (profiles p)) then set_profile s' v else v
  | PickMode m' => Values q s pr m' n c px t d u cm
  | PickLength n' => if bool_decide (n' ∈ map snd nameLengthOptions) then Values q s pr m n' c px t d u cm else v
  | PickChars c' => Values q s pr m n c' px t d u cm
  | TypePrefix s' => Values q s pr m n c s' t d u cm
  | TypeTime s' => Values q s pr m n c px s' d u cm
  | TypeLimit s' => Values q s pr m n c px t (at_least_0 s') u cm
  | PickUnit u' => Values q s pr m n c px t d u' cm
  | TypeComment s' => Values q s pr m n c px t d u s'
  | Reset => defaultValues
  | Profiles _ | Servers _ => v
  end.

Definition panel_step (p : Panel) (e : input) : Panel :=
  match e with
  | Profiles l =>
      let n := Z.of_nat (length l) in
      if n =? effect_for p then Pan (values p) l (servers p) n
      else Pan (select_first l (values p)) l (servers p) n
  | Servers l => Pan (values p) (profiles p) l (effect_for p)
  | _ => Pan (change e p) (profiles p) (servers p) (effect_for p)
  end.
(** [useForm] and the first run of the effect, over what the cache has. *)
Definition mount (profiles servers : list jval) : Panel :=
  Pan (select_first profiles defaultValues) profiles servers (Z.of_nat (length profiles)).
Definition panel_run : list input -> Panel -> Panel := fold_left panel_step.

Definition formToBackendParams (form : VoucherGenerateForm) : jval :=
  let dataLimit := dataLimitToBytes (dataLimit form) (dataLimitUnit form) in
  JObj [("batch_size", JNum (qty form));
        ("server", if String.eqb (server form) "all" then JUndef else JStr (server form));
        ("user_mode", JStr (userType_text (userType form)));
        ("length", JNum (nameLength form));
        ("prefix", or_undef (prefix form));
        ("charset", JStr (charSet_text (charSet form)));
        ("profile", JStr (profile form));
        ("time_limit", if negb (String.eqb (timeLimit form) "") && negb (String.eqb (timeLimit form) "0")
                       then JStr (timeLimit form) else JUndef);
        ("data_limit", if 0 <? dataLimit then JNum dataLimit else JUndef);
        ("comment", or_undef (comment form))].

(** The vouchers of an answer: [data.vouchers.map((v, i) => ...)]. *)
Definition vouchers_of (data : jval) : list jval := match get "vouchers" data with JArr l => l | _ => [] end.
Definition enriched (cm : string) (data : jval) : list GeneratedVoucher :=
  imap (fun i v => Voucher (text "gencode" data +:+ "-" +:+ Z_to_string (Z.of_nat i + 1)) (text "username" v)
                     (text "password" v) (text "profile" data) cm) (vouchers_of data).
Definition voucher_json (v : GeneratedVoucher) : jval :=
  JObj [("id", JStr (v_id v)); ("username", JStr (username v)); ("password", JStr (password v));
        ("profile", JStr (v_profile v)); ("comment", JStr (v_comment v))].

Definition generated_toast (data : jval) : effect :=
  Toast success ("Generated " +:+ js_String (get "count" data) +:+ " voucher" +:+ plural (Ui.number "count" data))
    (JStr ("Profile: " +:+ text "profile" data +:+ " · Gencode: " +:+ text "gencode" data)).

Definition onSubmit (routerId : Z) (values : VoucherGenerateForm) : prog :=
  awaits (M_Generate_GenerateVoucher routerId (formToBackendParams values))
    (fun data => [Callback "onSuccess" (JArr [JArr (map voucher_json (enriched (comment values) data));
                                              get "profile" data; JStr (server values)]);
                  generated_toast data])
    (fun e => [Toast error "Failed to generate vouchers" (message e)]).
Definition submit (routerId : Z) (v : FormValues) : prog :=
  match voucherGenerateFormSchema v with
  | Some form => if routerId =? 0 then Return else onSubmit routerId form
  | None => Return
  end.

(** ** The page and its result table ([index.tsx], [voucher-result-table.tsx]) *)

Record Page : Type := Result { p_vouchers : list GeneratedVoucher; resultProfile : string; resultServer : string }.
Definition empty_page : Page := Result [] "" "".
(** [onSuccess] of the panel. *)
Definition answered (form : VoucherGenerateForm) (a : answer) (s : Page) : Page :=
  match a with
  | Ok data => Result (enriched (comment form) data) (text "profile" data) (server form)
  | Throw _ => s
  end.

Definition settingValue (settings : list jval) (k : string) : string :=
  match List.find (fun s => jval_eqb (get "key" s) (JStr k)) settings with
  | Some s => match get "value" s with JUndef | JNull => "" | v => js_String v end
  | None => ""
  end.
Definition or_str (a b : string) : string := if String.eqb a "" then b else a.
Definition profileItem (profiles : list jval) (n : string) : option jval :=
  List.find (fun p => jval_eqb (get "name" p) (JStr n)) profiles.
(** [profileItem?.validity ?? '—'], [parseRouterOSNumber(profileItem?.selling_price)]. *)
Definition item_validity (p : option jval) : string := field_or "validity" "—" p.
Definition item_price (p : option jval) : Z :=
  match p with
  | Some p => match parseRouterOSNumber (get "selling_price" p) with JNum n => n | _ => 0 end
  | None => 0
  end.

(** The job both tables print. *)
Definition table_job (template : PrintTemplate) (vouchers : list GeneratedVoucher) (profile server : string)
    (profiles settings : list jval) : PrintJob :=
  let item := profileItem profiles profile in
  Job template vouchers
    (PrintMeta profile server (item_validity item) (item_price item) None None
       (Some (or_str (settingValue settings "general.company_name") profile))
       (Some (settingValue settings "general.hotspot_login_url")) None None).
Definition handlePrint (template : PrintTemplate) (s : Page) (profiles settings : list jval) : option PrintJob :=
  match p_vouchers s with
  | [] => None
  | _ => Some (table_job template (p_vouchers s) (resultProfile s) (resultServer s) profiles settings)
  end.

(** The clipboard's text and the toast. *)
Definition handleCopyAll (s : Page) : string * effect :=
  (vouchersToCsv (p_vouchers s),
   Toast success ("Copied " +:+ Z_to_string (Z.of_nat (length (p_vouchers s))) +:+ " vouchers to clipboard") JUndef).

(** ** Quick-print cards ([quick-print-card.tsx]) *)

Definition SAMPLE_QTY : Z := 5.
Definition dataLimitBytes (preset : QuickPrintPreset) : Z :=
  if Presets.dataLimit preset <=? 0 then 0
  else match Presets.dataLimitUnit preset with
       | GB => Presets.dataLimit preset * 1073741824
       | MB => Presets.dataLimit preset * 1048576
       end.
Definition quick_params (preset : QuickPrintPreset) : jval :=
  JObj [("batch_size", JNum SAMPLE_QTY);
        ("server", if String.eqb (Presets.server preset) "all" then JUndef else JStr (Presets.server preset));
        ("user_mode", JStr (userType_text (userMode preset)));
        ("length", JNum (userLength preset));
        ("prefix", or_undef (Presets.prefix preset));
        ("charset", JStr (charSet_text (Presets.charSet preset)));
        ("profile", JStr (Presets.profile preset));
        ("time_limit", or_undef (Presets.timeLimit preset));
        ("data_limit", if dataLimitBytes preset =? 0 then JUndef else JNum (dataLimitBytes preset));
        ("comment", JStr (Presets.name preset))].
Definition quick_job (preset : QuickPrintPreset) (settings : list jval) (data : jval) : PrintJob :=
  Job default_ (enriched (Presets.name preset) data)
    (PrintMeta (Presets.profile preset) (Presets.server preset) (Presets.validity preset) (Presets.sellingPrice preset)
       None (Some (package preset))
       (Some (or_str (settingValue settings "general.company_name") (package preset)))
       (Some (settingValue settings "general.hotspot_login_url"))
       (Some (if String.eqb (Presets.timeLimit preset) "0" then "" else Presets.timeLimit preset)) None).
Definition handleOpen (routerId : option Z) (preset : QuickPrintPreset) : prog :=
  match routerId with
  | None => Emit (Toast error "Select a router first" JUndef) Return
  | Some rid =>
      awaits (M_Generate_GenerateVoucher rid (quick_params preset))
        (fun data => [Callback "openPrint" (JArr (map voucher_json (enriched (Presets.name preset) data)))])
        (fun e => [Toast error "Failed to generate batch" (message e)])
  end.

(** ** Printing hotspot users ([features/hotspot/users/index.tsx]) *)

Definition user_voucher (u : jval) : GeneratedVoucher :=
  Voucher (text "id" u) (text "name" u) (text "password" u) (text "profile" u) (text "comment" u).
Definition users_handlePrint (users : list jval) (template : PrintTemplate) (profiles settings : list jval) : option PrintJob :=
  match users with
  | [] => None
  | u :: _ => Some (table_job template (map user_voucher users) (field_or "profile" "Mixed" (Some u))
                      (field_or "server" "all" (Some u)) profiles settings)
  end.

(** ** The backend's answers ([src/api/handler/hotspot_voucher.go]) *)

Definition created_json (v : string * string * string) : jval :=
  JObj [("id", JStr v.1.1); ("username", JStr v.1.2); ("password", JStr v.2)].
Definition full_answer (gencode profile : string) (created : list (string * string * string)) : jval :=
  JObj [("vouchers", JArr (map created_json created)); ("count", JNum (Z.of_nat (length created)));
        ("gencode", JStr gencode); ("profile", JStr profile)].
(** When a voucher fails: the ones before it, without gencode and profile, with status 207. *)
Definition partial_answer (reason : string) (created : list (string * string * string)) : jval :=
  JObj [("vouchers", JArr (map created_json created)); ("count", JNum (Z.of_nat (length created)));
        ("gencode", JStr ""); ("profile", JStr ""); ("partial", JBool true); ("error", JStr reason)].

(** ** Theorems *)

(** *** The panel's inputs *)

Definition whole_or_fraction (lo : Z) (hi : option Z) (v : jval) : Prop :=
  (exists n, v = JNum n /\ lo <= n /\ match hi with Some h => n <= h | None => True end) \/ exists s, v = JFrac s.

Lemma whole_ok lo hi n : lo <= n -> match hi with Some h => n <= h | None => True end -> whole_or_fraction lo hi (JNum n).
Proof. intros H1 H2. left. by exists n. Qed.

Record values_ok (v : FormValues) : Prop := {
  ok_qty : whole_or_fraction 1 (Some 500) (f_qty v);
  ok_length : f_nameLength v ∈ map snd nameLengthOptions;
  ok_limit : whole_or_fraction 0 None (f_dataLimit v)
}.

Lemma Number_val_cases s : (exists q, Number_str s = Some q /\
    ((exists n, this q = (n # 1)%Q /\ Number_val s = JNum n) \/ exists x, Number_val s = JFrac x)) \/ Number_str s = None.
Proof.
  unfold Number_val. destruct (Number_str s) as [q|]; [left|by right]. exists q. split; [done|].
  destruct (Pos.eqb_spec (Qden (this q)) 1) as [E|E]; [left|right; by eexists].
  exists (Qnum (this q)). split; [|done]. destruct (this q) as [n d]. cbn in *. by subst.
Qed.

Lemma qty_change_ok s : whole_or_fraction 1 (Some 500) (qty_change s).
Proof.
  unfold qty_change. assert (whole_or_fraction 1 (Some 500) (JNum 1)) as H1 by (apply whole_ok; lia).
  destruct (Number_val_cases s) as [(q & Hq & H)|H]; [|by rewrite H]. rewrite Hq.
  destruct (Qle_bool (this q) 0); [done|]. destruct (Qle_bool (this q) 1) eqn:E1; [done|].
  destruct (Qle_bool 500 (this q)) eqn:E5; [apply whole_ok; lia|].
  destruct H as [(n & En & ->)|[x ->]]; [|right; by eexists].
  rewrite En in E1, E5. unfold Qle_bool in E1, E5. cbn in E1, E5. apply whole_ok; lia.
Qed.

Lemma at_least_0_ok s : whole_or_fraction 0 None (at_least_0 s).
Proof.
  unfold at_least_0. destruct (Number_val_cases s) as [(q & Hq & H)|H].
  - rewrite Hq. destruct (Qle_bool (this q) 0) eqn:E; [apply whole_ok; [lia|done]|].
    destruct H as [(n & En & ->)|[x ->]]; [|right; by eexists].
    rewrite En in E. unfold Qle_bool in E. cbn in E. apply whole_ok; [lia|done].
  - rewrite H. by apply whole_ok.
Qed.

Lemma default_values_ok : values_ok defaultValues.
Proof. constructor; [apply whole_ok; cbn; lia| |by apply whole_ok]. cbn -[nameLengthOptions]. unfold nameLengthOptions. cbn. set_solver. Qed.

Lemma select_first_ok l v : values_ok v -> values_ok (select_first l v).
Proof. intros [H1 H2 H3]. unfold select_first. destruct l; [done|]. case_match; done. Qed.

Lemma panel_step_ok p e : values_ok (values p) -> values_ok (values (panel_step p e)).
Proof.
  intros H. destruct p as [[q s pr m n c px t d u cm] ps ss k]. pose proof H as [H1 H2 H3]. cbn in *.
  destruct e; cbn -[qty_change at_least_0 defaultValues activeServers nameLengthOptions select_first]; try done;
    try (by constructor); try (case_match; [|done]; try done; by constructor).
  - constructor; cbn; [apply qty_change_ok|done..].
  - destruct (bool_decide _) eqn:E; [|done]. b2p. by constructor.
  - constructor; cbn; [done..|apply at_least_0_ok].
  - apply default_values_ok.
  - case_match; [done|]. by apply select_first_ok.
Qed.

Lemma panel_ok es ps ss : values_ok (values (panel_run es (mount ps ss))).
Proof.
  unfold panel_run. assert (values_ok (values (mount ps ss))) as H by apply select_first_ok, default_values_ok.
  revert H. generalize (mount ps ss). induction es as [|e es IH]; intros p Hp; [done|].
  apply IH. by apply panel_step_ok.
Qed.

(** *** What the backend takes *)

(** [dto.VoucherGenerateRequest]. *)
Definition VoucherGenerateRequest : list gfield :=
  [str "server" []; str "user_mode" [OmitEmpty; OneOf ["up"; "vc"]]; int "length" [Required; Min 4; Max 32];
   str "prefix" [Max 16]; str "charset" [Required]; str "profile" [Required; Min 1; Max 128];
   str "time_limit" []; int "data_limit" [OmitEmpty; Min 0]; str "comment" [Max 128]; str "validity" [];
   int "price" [OmitEmpty; Min 0]; int "sell_price" [OmitEmpty; Min 0]; Fld "lock_to_mac" false GBool [];
   int "batch_size" [Required; Min 1; Max 1000]].

Definition optional_text (n : Z) (v : jval) : Prop := v = JUndef \/ exists s, v = JStr s /\ len s <= n.
Definition optional_size (v : jval) : Prop := v = JUndef \/ exists n, v = JNum n /\ 0 < n < 2 ^ 63.

Lemma or_undef_text n s : len s <= n -> optional_text n (or_undef s).
Proof. intros Hs. destruct (or_undef_cases s) as [-> | ->]; [by left|right; by exists s]. Qed.

Lemma free_text v : (v = JUndef \/ exists s, v = JStr s) -> exists n, optional_text n v.
Proof. intros [->|[s ->]]; [exists 0; by left|exists (len s); right; by exists s]. Qed.

Section Binding.
Context `{GinBinding}.

Lemma text_field body k n m v : get k body = v -> optional_text n v -> 0 <= n ->
  field_ok body (str k (if m : bool then [Max n] else [])) = true.
Proof.
  intros Hg [->|(s & -> & Hs)] Hn.
  - apply absent_ok; [by rewrite Hg|]. destruct m; cbn; [|done]. rewrite andb_true_r. by apply Z.leb_le.
  - apply (str_ok _ _ _ s Hg). destruct m; [|done]. cbn. unfold len in Hs. rewrite andb_true_r. by apply Z.leb_le.
Qed.

Lemma size_field body k v : get k body = v -> optional_size v -> field_ok body (int k [OmitEmpty; Min 0]) = true.
Proof.
  intros Hg [->|(n & -> & Hn)]; [by apply absent_ok; [rewrite Hg|]|].
  apply (num_ok _ _ _ _ _ n Hg); cbn; lia.
Qed.

Lemma optional_text_pos n v : optional_text n v -> optional_text (Z.max n 0) v.
Proof. intros [->|(s & -> & Hs)]; [by left|right; exists s; split; [done|lia]]. Qed.

Lemma generate_body_taken q srv u n px c pf tl dl cm k1 k2 :
  1 <= q <= 1000 -> 4 <= n <= 32 -> sized 1 128 pf = true ->
  optional_text k1 srv -> optional_text 16 px -> optional_text k2 tl -> optional_size dl -> optional_text 128 cm ->
  taken VoucherGenerateRequest
    (JObj [("batch_size", JNum q); ("server", srv); ("user_mode", JStr (userType_text u)); ("length", JNum n);
           ("prefix", px); ("charset", JStr (charSet_text c)); ("profile", JStr pf); ("time_limit", tl);
           ("data_limit", dl); ("comment", cm)]).
Proof.
  intros Hq Hn Hpf Hs%optional_text_pos Hp Ht%optional_text_pos Hd Hc. limits. split.
  - rewrite ShouldBindJSON_spec. set (body := JObj _).
    repeat lazymatch goal with |- forallb (field_ok _) _ = true => first [reflexivity | apply fields_cons] end;
      first [eapply num_ok; [reflexivity|cbn [has_type]; lia|rules] | eapply absent_ok; reflexivity
            | eapply size_field; [reflexivity|exact Hd]
            | eapply (text_field body _ _ false); [reflexivity|eassumption|lia]
            | eapply (text_field body _ _ true); [reflexivity|eassumption|lia]
            | eapply str_ok; [reflexivity|]].
    + by destruct u.
    + by destruct c.
    + rules.
  - destruct Hs as [->|(s1 & -> & _)], Hp as [->|(s2 & -> & _)], Ht as [->|(s3 & -> & _)], Hd as [->|(d & -> & _)],
      Hc as [->|(s4 & -> & _)]; reflexivity.
Qed.
End Binding.

Section Submissions.
Context `{GinBinding}.

Definition is_whole (v : jval) : bool := match v with JNum _ => true | _ => false end.
(** What the schemas leave to the backend: the lengths of the texts, and a card's user length. *)
Definition texts_ok (profile prefix comment : string) : bool :=
  sized 1 128 profile && sized 0 16 prefix && sized 0 128 comment.
Definition generate_limits (v : FormValues) : bool := texts_ok (f_profile v) (f_prefix v) (f_comment v).
Definition quick_limits (p : QuickPrintPreset) : bool :=
  texts_ok (Presets.profile p) (Presets.prefix p) (Presets.name p) && (4 <=? userLength p) && (userLength p <=? 32).
(** The bytes of the data limit fit the backend's 64-bit integer. *)
Definition bytes_fit (v : FormValues) : bool :=
  match f_dataLimit v with JNum d => dataLimitToBytes d (f_dataLimitUnit v) <? 2 ^ 63 | _ => true end.

(** What binding says of a text and of the length. *)
Lemma bound_rules dto body f v : ShouldBindJSON dto body = true -> f ∈ dto -> get (f_name f) body = v -> absent v = false ->
  f_ptr f = false -> omits (f_rules f) = false -> forallb (rule_ok false v) (f_rules f) = true.
Proof.
  rewrite ShouldBindJSON_spec, forallb_forall. intros Ha Hin%list_elem_of_In Hg Hv Hp Ho. specialize (Ha f Hin).
  unfold field_ok in Ha. rewrite Hg, Hv, Hp, Ho in Ha. rewrite andb_false_r in Ha. cbn [negb orb] in Ha.
  by apply andb_true_iff in Ha as [_ Ha].
Qed.

Lemma bound_texts body pf px cm n : ShouldBindJSON VoucherGenerateRequest body = true ->
  get "profile" body = JStr pf -> get "prefix" body = or_undef px ->
  get "comment" body = or_undef cm \/ get "comment" body = JStr cm -> get "length" body = JNum n ->
  texts_ok pf px cm = true /\ 4 <= n <= 32.
Proof.
  intros Ha Hpf Hpx Hcm Hn.
  assert (forall k m s, str k [Max m] ∈ VoucherGenerateRequest -> 0 <= m ->
    get k body = or_undef s \/ get k body = JStr s -> sized 0 m s = true) as Htext.
  { intros k m s Hin Hm Hk. assert (get k body = JStr s \/ s = "") as [Hg| ->]; [| |unfold sized, len; apply andb_true_iff; split; [done|by apply Z.leb_le]].
    - destruct Hk as [Hk|Hk]; [|by left]. unfold or_undef in Hk. destruct (String.eqb_spec s ""); [by right|by left].
    - pose proof (bound_rules _ _ (str k [Max m]) (JStr s) Ha Hin Hg eq_refl eq_refl eq_refl) as Hr. cbn in Hr.
      unfold sized, len. b2p. apply andb_true_iff. split; apply Z.leb_le; lia. }
  pose proof (bound_rules _ _ (str "profile" [Required; Min 1; Max 128]) (JStr pf) Ha ltac:(unfold VoucherGenerateRequest; set_solver) Hpf eq_refl eq_refl eq_refl) as Hr.
  pose proof (bound_rules _ _ (int "length" [Required; Min 4; Max 32]) (JNum n) Ha ltac:(unfold VoucherGenerateRequest; set_solver) Hn eq_refl eq_refl eq_refl) as Hl.
  cbn in Hr, Hl. b2p. split; [|lia]. unfold texts_ok.
  rewrite (Htext "prefix" 16 px), (Htext "comment" 128 cm) by (unfold VoucherGenerateRequest; (set_solver || lia || by left || done)).
  unfold sized, len. rewrite !andb_true_r. apply andb_true_iff. split; apply Z.leb_le; lia.
Qed.

Lemma schema_reached es ps ss : let v := values (panel_run es (mount ps ss)) in
  is_whole (f_qty v) = true -> is_whole (f_dataLimit v) = true ->
  exists q d, f_qty v = JNum q /\ f_dataLimit v = JNum d /\ 1 <= q <= 500 /\ 0 <= d /\ 4 <= f_nameLength v <= 12 /\
    voucherGenerateFormSchema v = Some (Form q (f_server v) (f_profile v) (f_userType v) (f_nameLength v) (f_charSet v)
      (f_prefix v) (f_timeLimit v) d (f_dataLimitUnit v) (f_comment v)).
Proof.
  cbv zeta. destruct (panel_ok es ps ss) as [Hq Hl Hd]. generalize dependent (values (panel_run es (mount ps ss))).
  intros v [(q & Eq & Hq & Hq')|[x E]] Hl Hd; rewrite ?E; [|done].
  destruct Hd as [(d & Ed & Hd & _)|[x E]]; rewrite ?E; [|done]. intros _ _.
  assert (4 <= f_nameLength v <= 12) as Hn.
  { unfold nameLengthOptions in Hl. cbn in Hl. rewrite !elem_of_cons, elem_of_nil in Hl. lia. }
  exists q, d. split_and!; try done; try lia. unfold voucherGenerateFormSchema. rewrite Eq, Ed.
  destruct (_ && _) eqn:E; [done|]. b2p. lia.
Qed.

(** Both bodies: bound exactly within the limits, and without a key the struct lacks. *)
Lemma generate_body_exact q srv u n px c pf tl dl cm cm' k1 k2 :
  1 <= q <= 1000 -> - 2 ^ 63 <= n < 2 ^ 63 -> optional_text k1 srv -> optional_text k2 tl -> optional_size dl ->
  cm' = or_undef cm \/ cm' = JStr cm ->
  let body := JObj [("batch_size", JNum q); ("server", srv); ("user_mode", JStr (userType_text u)); ("length", JNum n);
     ("prefix", or_undef px); ("charset", JStr (charSet_text c)); ("profile", JStr pf); ("time_limit", tl);
     ("data_limit", dl); ("comment", cm')] in
  heard VoucherGenerateRequest body = true /\
  ShouldBindJSON VoucherGenerateRequest body = texts_ok pf px cm && (4 <=? n) && (n <=? 32).
Proof.
  intros Hq Hn Hs Ht Hd Hc body. split.
  - subst body. destruct Hs as [->|(s1 & -> & _)], (or_undef_cases px) as [->| ->], Ht as [->|(s3 & -> & _)], Hd as [->|(d & -> & _)];
      destruct Hc as [->| ->]; try destruct (or_undef_cases cm) as [->| ->]; reflexivity.
  - destruct (texts_ok pf px cm && (4 <=? n) && (n <=? 32)) eqn:E.
    + unfold texts_ok in E. b2p. limits. apply (generate_body_taken _ _ _ _ _ _ _ _ _ _ k1 k2); try done; unfold sized; try lia.
      * apply or_undef_text. lia.
      * destruct Hc as [->| ->]; [apply or_undef_text; lia|]. right. exists cm. split; [done|lia].
    + apply not_true_iff_false. intros Ha.
      destruct (bound_texts body pf px cm n Ha eq_refl eq_refl Hc eq_refl) as [H1 H2]. rewrite H1 in E. cbn in E. lia.
Qed.


(** *** A form without a profile *)

Definition keeps_profile (k : Z) (e : input) : bool :=
  match e with PickProfile _ => false | Profiles l => Z.of_nat (length l) =? k | _ => true end.

Lemma profile_kept es p : f_profile (values p) = "" -> forallb (keeps_profile (effect_for p)) es = true ->
  f_profile (values (panel_run es p)) = "" /\ effect_for (panel_run es p) = effect_for p.
Proof.
  revert p. induction es as [|e es IH]; intros p Hp; [done|]. cbn [forallb]. intros [He Hes]%andb_true_iff.
  assert (f_profile (values (panel_step p e)) = "" /\ effect_for (panel_step p e) = effect_for p) as [H1 H2].
  { destruct p as [[q s pr m n c px t d u cm] ps ss k]. cbn in Hp. subst pr.
    destruct e; cbn -[qty_change at_least_0 defaultValues activeServers nameLengthOptions select_first] in *;
      try done; try (case_match; done). by rewrite He; b2p. }
  cbn [panel_run fold_left]. rewrite <- H2 in Hes. rewrite <- H2. by apply IH.
Qed.

Lemma reset_profile p : f_profile (values (panel_step p Reset)) = "".
Proof. by destruct p as [[] ? ? ?]. Qed.

(** "Reset" leaves the form without a profile, although it chose the first one when it
    opened: until a profile is picked by hand, or a refetch brings another number of
    profiles, every submission the schema accepts is one the backend refuses. *)
Theorem reset_loses_profile es1 es2 p ps ss rid form :
  text "name" p <> "" ->
  let before := panel_run es1 (mount (p :: ps) ss) in
  let v := values (panel_run (Reset :: es2) before) in
  forallb (keeps_profile (effect_for before)) es2 = true -> voucherGenerateFormSchema v = Some form ->
  f_profile (values (mount (p :: ps) ss)) <> "" /\ f_profile v = "" /\
  ShouldBindJSON VoucherGenerateRequest (body_of (M_Generate_GenerateVoucher rid (formToBackendParams form))) = false.
Proof.
  intros Hp before v Hes Hv. assert (f_profile v = "") as E by exact (proj1 (profile_kept es2 (panel_step before Reset) (reset_profile before) Hes)).
  split_and!; [done|done|]. unfold voucherGenerateFormSchema in Hv. destruct (f_qty v), (f_dataLimit v); try done.
  case_match; [|done]. injection Hv as <-. rewrite ShouldBindJSON_spec.
  apply not_true_is_false. intros Ha. rewrite forallb_forall in Ha.
  specialize (Ha (str "profile" [Required; Min 1; Max 128]) ltac:(cbn; tauto)).
  unfold field_ok in Ha. cbn -[or_undef] in Ha. by rewrite E in Ha.
Qed.
End Submissions.

(** *** From the answer to the page and the printer *)

Lemma enriched_length cm data : length (enriched cm data) = length (vouchers_of data).
Proof. apply length_imap. Qed.

Lemma enriched_full cm g p created : enriched cm (full_answer g p created) =
  imap (fun i v => Voucher (g +:+ "-" +:+ Z_to_string (Z.of_nat i + 1)) v.1.2 v.2 p cm) created.
Proof. unfold enriched, full_answer, vouchers_of. cbn. by rewrite imap_fmap. Qed.

Lemma numbered_NoDup {A} (mk : nat -> A -> GeneratedVoucher) g l :
  (forall i x, v_id (mk i x) = g +:+ "-" +:+ Z_to_string (Z.of_nat i + 1)) -> NoDup (map v_id (imap mk l)).
Proof.
  intros Hid. apply NoDup_alt. intros i j x Hi Hj. rewrite !list_lookup_fmap, !list_lookup_imap in Hi, Hj.
  destruct (l !! i), (l !! j); cbn in *; try done. rewrite Hid in Hi, Hj. injection Hi as <-. injection Hj as Hj.
  apply app_str_inj_l in Hj. injection Hj as Hj. apply Z_to_string_inj in Hj. lia.
Qed.

(** The price of a row of the profile list is the backend's. *)
Lemma item_price_row raw row n : HotspotProfiles.profile_row raw = Ok row -> get "sell_price" raw = JNum n -> 0 <= n ->
  item_price (Some row) = n.
Proof.
  intros Hr Hs Hn. unfold HotspotProfiles.profile_row in Hr. destruct (HotspotProfiles.not_null raw); [|done].
  injection Hr as <-. unfold item_price. rewrite Hs. cbn -[get].
  match goal with |- context [get "selling_price" ?o] => change (get "selling_price" o) with (JStr (Z_to_string n)) end.
  unfold parseRouterOSNumber. cbn [js_String]. rewrite Number_val_Z by done. done.
Qed.

(** The backend's two answers for the vouchers [created], with the profile name and the
    price the page then knows: the complete one, for a profile of the list sold at [n], and
    the one of status 207, which names no profile (and no profile of the list is nameless). *)
Inductive batch_answer (profiles : list jval) (created : list (string * string * string)) : jval -> string -> Z -> Prop :=
| batch_full g p row raw n : profileItem profiles p = Some row -> HotspotProfiles.profile_row raw = Ok row ->
    get "sell_price" raw = JNum n -> 0 <= n -> batch_answer profiles created (full_answer g p created) p n
| batch_partial reason : profileItem profiles "" = None ->
    batch_answer profiles created (partial_answer reason created) "" 0.

Lemma batch_vouchers profiles created data p n cm : batch_answer profiles created data p n ->
  enriched cm data = imap (fun i v => Voucher (text "gencode" data +:+ "-" +:+ Z_to_string (Z.of_nat i + 1)) v.1.2 v.2 p cm) created.
Proof. destruct 1; unfold enriched, vouchers_of; cbn; by rewrite imap_fmap. Qed.

Lemma batch_names profiles created data p n cm : batch_answer profiles created data p n ->
  map (fun v => (username v, password v, v_profile v)) (enriched cm data) = map (fun v => (v.1.2, v.2, p)) created.
Proof.
  intros H. rewrite (batch_vouchers _ _ _ _ _ _ H), fmap_imap. apply (imap_const (fun v => (v.1.2, v.2, p))).
Qed.

Lemma batch_price profiles created data p n : batch_answer profiles created data p n ->
  text "profile" data = p /\ item_price (profileItem profiles p) = n.
Proof.
  destruct 1 as [g p row raw n Hp Hr Hs Hn|reason Hp]; rewrite Hp; split; try done. by apply (item_price_row raw).
Qed.

(** A line of three fields without comma or line break splits into them. *)
Lemma csv_line (f : string * string * string) :
  csv_field f.1.1 = true -> csv_field f.1.2 = true -> csv_field f.2 = true ->
  str_forall (fun c => negb (Ascii.eqb c (char_of 10))) (f.1.1 +:+ "," +:+ f.1.2 +:+ "," +:+ f.2) = true /\
  JsString.split "," (f.1.1 +:+ "," +:+ f.1.2 +:+ "," +:+ f.2) = [f.1.1; f.1.2; f.2].
Proof.
  intros [H1 N1]%csv_field_split [H2 N2]%csv_field_split [H3 N3]%csv_field_split. split.
  - rewrite !str_forall_app, N1, N2, N3. reflexivity.
  - change (JsString.split "," (join "," [f.1.1; f.1.2; f.2]) = [f.1.1; f.1.2; f.2]).
    apply split_join; [done|]. repeat constructor; done.
Qed.

Lemma csv_reads_back (fs : list (string * string * string)) :
  Forall (fun f => csv_field f.1.1 = true /\ csv_field f.1.2 = true /\ csv_field f.2 = true) fs ->
  map (JsString.split ",") (JsString.split newline (join newline ("username,password,profile" ::
    map (fun f => f.1.1 +:+ "," +:+ f.1.2 +:+ "," +:+ f.2) fs))) =
  ["username"; "password"; "profile"] :: map (fun f => [f.1.1; f.1.2; f.2]) fs.
Proof.
  intros Hf. unfold newline. rewrite split_join; [|done|].
  - change (["username"; "password"; "profile"] ::
      map (JsString.split ",") (map (fun f : string * string * string => f.1.1 +:+ "," +:+ f.1.2 +:+ "," +:+ f.2) fs) =
      ["username"; "password"; "profile"] :: map (fun f => [f.1.1; f.1.2; f.2]) fs).
    f_equal. rewrite map_map. induction Hf as [|f fs (H1 & H2 & H3) _ IH]; [done|]. cbn [map]. rewrite IH.
    by rewrite (proj2 (csv_line f H1 H2 H3)).
  - constructor; [reflexivity|]. induction Hf as [|f fs (H1 & H2 & H3) _ IH]; [constructor|].
    constructor; [by apply csv_line|done].
Qed.

(** The lines of the CSV, field by field. *)
Lemma csv_lines vs : vouchersToCsv vs = join newline ("username,password,profile" ::
  map (fun f => f.1.1 +:+ "," +:+ f.1.2 +:+ "," +:+ f.2) (map (fun v => (username v, password v, v_profile v)) vs)).
Proof. unfold vouchersToCsv. by rewrite map_map. Qed.


(** A batch that fails half-way is reported as generated: the answer with status 207 carries
    the reason, but the form shows only the success message, for the vouchers that were
    made, and prints them without a profile, a price or a validity (no profile has an
    empty name). *)
Theorem partial_batch_shown_as_done rid form reason created o n s t profiles settings :
  o n = Ok (partial_answer reason created) -> created <> [] -> profileItem profiles "" = None ->
  let page := answered form (o n) s in
  toasts (exec o n (onSubmit rid form)) =
    [(success, "Generated " +:+ Z_to_string (Z.of_nat (length created)) +:+ " voucher" +:+
               plural (Z.of_nat (length created)))] /\
  Forall (fun v => v_profile v = "") (p_vouchers page) /\
  exists job, handlePrint t page profiles settings = Some job /\ length (vouchers job) = length created /\
    Html.profile (meta job) = "" /\ Html.sellingPrice (meta job) = 0 /\ Html.validity (meta job) = "—".
Proof.
  intros Ho Hc Hp page. unfold page. rewrite Ho. split_and!.
  - unfold onSubmit, awaits. cbn [exec]. rewrite Ho. reflexivity.
  - cbn [answered p_vouchers]. apply Forall_forall. by intros v (i & x & -> & _)%elem_of_lookup_imap.
  - unfold handlePrint, answered. cbn [p_vouchers]. destruct (enriched (comment form) _) as [|v l] eqn:E.
    { apply (f_equal length) in E. rewrite enriched_length in E. cbn in E. rewrite length_map in E. by destruct created. }
    eexists. split; [reflexivity|]. rewrite <- E. cbn -[enriched]. rewrite Hp. split_and!; try done.
    rewrite enriched_length. cbn. apply length_map.
Qed.

(** ** Witnesses *)

Definition vip : jval := JObj [("id", JNum 7); ("name", JStr "vip"); ("sell_price", JNum 5000); ("validity", JStr "7d")].
Definition vip_row : jval := match HotspotProfiles.profile_row vip with Ok r => r | Throw _ => JNull end.


Lemma reset_loses_profile_witness :
  f_profile (values (panel_run [Reset; TypeQty "3"; Profiles [vip]] (mount [vip] []))) = "".
Proof.
  exact (proj1 (proj2 (reset_loses_profile [] [TypeQty "3"; Profiles [vip]] vip [] [] 3
    (Form 3 "all" "" up 6 lower_number "" "0" 0 MB "") ltac:(done) ltac:(reflexivity) ltac:(vm_compute; reflexivity)))).
Defined.


Lemma partial_batch_shown_as_done_witness :
  toasts (exec (fun _ => Ok (partial_answer "no such profile" [("*1", "ab2", "345")])) 0 (onSubmit 3 defaultGenerateForm))
  = [(success, "Generated 1 voucher")].
Proof.
  exact (proj1 (partial_batch_shown_as_done 3 defaultGenerateForm "no such profile" [("*1", "ab2", "345")]
    (fun _ => Ok (partial_answer "no such profile" [("*1", "ab2", "345")])) 0 empty_page small [vip_row] []
    eq_refl ltac:(done) eq_refl)).
Defined.
