(* ===== verification/Portal.v ===== *)
(** * The customer portal's pages ([features/customer-portal])

    Status badges, login, the home page and the invoice list, the page of one invoice with
    its three ways to pay, and the profile's password form.  Sending a proof of payment is
    a state machine: the form stays open while the file is uploaded and the payment is
    recorded, the texts of the payment are those of the click, and the callbacks of a
    page that was left do not run (as TanStack Query documents for [mutate]'s callbacks). *)
From S2P Require Import Prelude JsString JsValue JsNumber ApiErrors Http QueryCache QueryKeys ApiClient AuthStore Hooks Ui Actions.
From S2P Require Import Wire Forms FormContracts Presets.
From S2P Require Nav.

(** ** Badges ([_shared/format.ts]) *)

Record StatusInfo : Type := Info { label : string; variant : string }.
Definition info_of (m : list (string * StatusInfo)) (s : string) : StatusInfo :=
  match List.find (fun e => String.eqb e.1 s) m with Some e => e.2 | None => Info s "secondary" end.
Definition invoiceStatusMap : list (string * StatusInfo) :=
  [("issued", Info "Belum Bayar" "idle"); ("overdue", Info "Terlambat" "expired"); ("paid", Info "Lunas" "online");
   ("draft", Info "Draft" "offline"); ("cancelled", Info "Batal" "offline")].
Definition subStatusMap : list (string * StatusInfo) :=
  [("active", Info "Aktif" "online"); ("isolir", Info "Terisolir" "idle"); ("suspended", Info "Diblokir" "expired");
   ("pending_install", Info "Menunggu Pemasangan" "offline"); ("terminated", Info "Berhenti" "offline")].
Definition paymentStatusMap : list (string * StatusInfo) :=
  [("pending", Info "Menunggu" "idle"); ("confirmed", Info "Terkonfirmasi" "online"); ("rejected", Info "Ditolak" "expired")].
Definition paymentMethodMap : list (string * string) :=
  [("cash", "Tunai"); ("transfer", "Transfer Bank"); ("portal", "Upload Bukti"); ("gateway", "Online Gateway")].
Definition invoiceStatus : string -> StatusInfo := info_of invoiceStatusMap.
Definition subStatus : string -> StatusInfo := info_of subStatusMap.
Definition paymentStatus : string -> StatusInfo := info_of paymentStatusMap.
Definition paymentMethod (m : string) : string :=
  match List.find (fun e => String.eqb e.1 m) paymentMethodMap with Some e => e.2 | None => m end.

(** [isDueSoon], on milliseconds. *)
Definition isDueSoon (due now : Z) : bool := (0 <? due - now) && (due - now <? 3 * 24 * 60 * 60 * 1000).

(** ** Login ([auth/index.tsx]) *)

Module Login.
Definition WRONG : string := "Nomor HP atau password salah.".
Definition handleSubmit (phone password : string) : prog :=
  Emit (SetState "error" (JStr ""))
    (awaits (M_PortalAuth_CustomerLogin (JObj [("phone", JStr phone); ("password", JStr password)]))
       (fun data => [Callback "setToken" (get "access_token" data);
                     Toast success ("Selamat datang, " +:+ text "full_name" (get "customer" data) +:+ "!") JUndef;
                     Navigate "/portal"])
       (fun _ => [SetState "error" (JStr WRONG)])).
(** The store after the answer. *)
Definition logged_in (a : answer) (s : browser * Portal.PortalAuthState) : browser * Portal.PortalAuthState :=
  match a with
  | Ok data => Portal.setToken (text "access_token" data) s.1 s.2
  | Throw _ => s
  end.
End Login.

(** ** Home and list ([home/index.tsx], [invoices/invoice-list.tsx]) *)

Definition status_of (i : jval) : string := text "status" i.

Module Home.
Definition allUnpaid (unpaidInvoices overdueInvoices : list jval) : list jval := overdueInvoices ++ unpaidInvoices.
Definition topInvoice (unpaidInvoices overdueInvoices : list jval) : option jval :=
  head (allUnpaid unpaidInvoices overdueInvoices).
Definition heading (n : Z) : string :=
  if 1 <? n then Z_to_string n +:+ " Tagihan Belum Lunas" else "Tagihan Belum Lunas".
(** The badge of the link to the invoices. *)
Definition badge (n : Z) : option string := if 0 <? n then Some (Z_to_string n +:+ " belum lunas") else None.
End Home.

Module InvoiceList.
Definition FILTERS : list (string * string) :=
  [("Semua", "all"); ("Belum Bayar", "issued"); ("Terlambat", "overdue"); ("Lunas", "paid")].
Definition displayed (activeFilter : string) (allInvoices issuedInvoices overdueInvoices paidInvoices : list jval) : list jval :=
  if String.eqb activeFilter "all" then allInvoices
  else if String.eqb activeFilter "issued" then issuedInvoices
  else if String.eqb activeFilter "overdue" then overdueInvoices
  else if String.eqb activeFilter "paid" then paidInvoices
  else allInvoices.
Definition unpaidCount (issuedInvoices overdueInvoices : list jval) : Z :=
  Z.of_nat (length issuedInvoices) + Z.of_nat (length overdueInvoices).
Definition empty_text (activeFilter : string) : string :=
  if String.eqb activeFilter "paid" then "Belum ada pembayaran" else "Semua tagihan sudah lunas 🎉".
End InvoiceList.

(** ** One invoice ([invoices/invoice-detail.tsx]) *)

Module Detail.

(** [payment_code?.match(/.{1,4}/g)?.join(' ') ?? ''], of a code without line breaks. *)
Fixpoint groups4 (fuel : nat) (s : string) : list string :=
  match fuel with
  | O => []
  | S fuel => if String.eqb s "" then [] else str_take 4 s :: groups4 fuel (str_drop 4 s)
  end.
Definition formattedCode (code : option string) : string :=
  match code with Some c => join " " (groups4 (String.length c) c) | None => "" end.

Definition invoicePayments (payments : list jval) (invoiceId : Z) : list jval :=
  List.filter (fun p => jval_eqb (get "invoice_id" p) (JNum invoiceId)) payments.
Definition with_status (s : string) (payments : list jval) (invoiceId : Z) : option jval :=
  List.find (fun p => jval_eqb (get "status" p) (JStr s)) (invoicePayments payments invoiceId).
Definition pendingPayment : list jval -> Z -> option jval := with_status "pending".
Definition rejectedPayment : list jval -> Z -> option jval := with_status "rejected".
Definition isUnpaid (invoice : jval) : bool :=
  String.eqb (status_of invoice) "issued" || String.eqb (status_of invoice) "overdue".

(** What the page shows. *)
Inductive way : Type := GatewayLoading | PayOnline | ManualProof.
Inductive view : Type :=
| Loading
| NotFound
| Paid
| Pending (bank reference : string) (proof : option string)
| Unpaid (rejection : option string) (w : way) (cash : option (string * string))
| Nothing.

Definition or_dash (k : string) (p : jval) : string := if truthy (get k p) then text k p else "—".
Definition optional (k : string) (p : jval) : option string := if truthy (get k p) then Some (text k p) else None.

(** The data of the three queries: [None] while a query has none. *)
Record data : Type := Data {
  isInvoiceLoading : bool; isPaymentsLoading : bool; isGatewayLoading : bool;
  invoice : option jval; payments : list jval; gatewayEnabled : bool
}.
Definition page (invoiceId : Z) (d : data) : view :=
  if isInvoiceLoading d || isPaymentsLoading d then Loading
  else match invoice d with
  | None => NotFound
  | Some i =>
      if String.eqb (status_of i) "paid" then Paid
      else match pendingPayment (payments d) invoiceId with
      | Some p => Pending (or_dash "bank_name" p) (or_dash "reference_number" p) (optional "proof_url" p)
      | None =>
          if isUnpaid i then
            Unpaid ((fun r => if truthy (get "rejection_reason" r) then text "rejection_reason" r
                              else "Bukti transfer tidak valid/jelas") <$> rejectedPayment (payments d) invoiceId)
              (if isGatewayLoading d then GatewayLoading else if gatewayEnabled d then PayOnline else ManualProof)
              (qr ← optional "qr_content" i; code ← optional "payment_code" i; Some (qr, formattedCode (Some code)))
          else Nothing
      end
  end.

(** [src] of the proof's image. *)
Definition proof_src (VITE_API_URL : option string) (token proofUrl : string) : string :=
  String.rev (drop_slashes (String.rev (VITE_API_URL ?? "http://localhost:8080"))) +:+ proofUrl +:+ "?access_token=" +:+ encodeURIComponent token.

(** [handleCopy]: whether the clipboard took the text. *)
Definition handleCopy (code : option string) (taken : bool) : list effect :=
  match code with
  | None => []
  | Some c =>
      if String.eqb c "" then []
      else if taken then [SetState "copied" (JBool true); Toast success "Kode disalin!" JUndef]
      else [Toast error "Gagal menyalin kode" JUndef]
  end.

Definition pay_error (e : jserror) : effect :=
  let msg := match e with AxiosErr m _ _ | NativeErr m => m | OtherErr _ => "Gagal membuat link pembayaran. Coba lagi." end in
  if includes "503" msg || includes "SERVICE_UNAVAILABLE" msg then
    Toast error "Pembayaran online belum tersedia. Silakan bayar via kasir atau transfer." JUndef
  else if includes "CONFLICT" msg || includes "lunas" msg then Toast info "Tagihan ini sudah lunas." JUndef
  else Toast error msg JUndef.
Definition handlePayOnline (invoiceId : Z) : prog :=
  awaits (M_PortalInvoices_InitiateOnlinePayment invoiceId)
    (fun result => [Toast success "Mengarahkan ke halaman pembayaran..." JUndef;
                    Callback "window.open" (get "invoice_url" result)])
    (fun e => [pay_error e]).

(** *** Sending a proof *)

(** [isUploading] and [isSubmitting]; an upload under way holds the texts of the click. *)
Inductive phase : Type := Idle | Uploading (bank reference : string) | Submitting.

Record state : Type := Form {
  bankName : string; referenceNumber : string; selectedFile : option jval; previewUrl : option nat;
  sending : phase; mounted : bool;
  urls : list nat;        (** object URLs that were not revoked *)
  next : nat
}.
Definition initial : state := Form "" "" None None Idle true [] 0.

Inductive output : Type := Request (m : mutation_hook) | Show (e : effect) | InvalidateQueries (k : key).

Inductive event : Type :=
| TypeBank (s : string) | TypeReference (s : string) | PickFile (f : jval) | handleClearFile
| handleUploadAndSubmit | Uploaded (a : answer) | Recorded (a : answer) | Leave.

(** [err.message || err], in a text. *)
Definition error_text (e : jserror) : string :=
  match e with
  | AxiosErr m _ _ => if String.eqb m "" then "AxiosError" else m
  | NativeErr m => if String.eqb m "" then "Error" else m
  | OtherErr v => js_String (if truthy (get "message" v) then get "message" v else v)
  end.

Definition step (invoiceId : Z) (e : event) (s : state) : state * list output :=
  let '(Form b r f u ph m us n) := s in
  match e with
  | TypeBank b' => (if m then Form b' r f u ph m us n else s, [])
  | TypeReference r' => (if m then Form b r' f u ph m us n else s, [])
  | PickFile x =>
      (* the input is there while there is no preview *)
      match u with
      | None => (if m then Form b r (Some x) (Some n) ph m (n :: us) (S n) else s, [])
      | Some _ => (s, [])
      end
  | handleClearFile =>
      match u with
      | Some k => (if m then Form b r None None ph m (List.filter (fun j => negb (Nat.eqb j k)) us) n else s, [])
      | None => (s, [])
      end
  | handleUploadAndSubmit =>
      match ph, f with
      | Idle, Some x =>
          if negb m || String.eqb (trim b) "" then (s, [])
          else (Form b r f u (Uploading b r) m us n, [Request (M_PortalInvoices_UploadProof x)])
      | _, _ => (s, [])
      end
  | Uploaded a =>
      match ph with
      | Uploading b0 r0 =>
          if m then
            match a with
            | Ok res =>
                (Form b r f u Submitting m us n,
                 [Request (M_PortalInvoices_CreatePortalPayment
                    (invoiceId, JObj [("proof_url", get "url" res); ("bank_name", JStr b0);
                                      ("reference_number", JStr r0)]))])
            | Throw e =>
                (Form b r f u Idle m us n,
                 [Show (Toast error ("Gagal mengunggah file bukti transfer: " +:+ error_text e) JUndef)])
            end
          else (Form b r f u Idle m us n, [])
      | _ => (s, [])
      end
  | Recorded a =>
      match ph with
      | Submitting =>
          if m then
            match a with
            | Ok _ =>
                (Form "" "" None None Idle m us n,
                 [Show (Toast success "Bukti pembayaran berhasil dikirim untuk verifikasi admin" JUndef);
                  InvalidateQueries (qk.portalInvoice invoiceId); InvalidateQueries (qk.portalInvoices JUndef);
                  InvalidateQueries qk.portalPayments])
            | Throw e =>
                (Form b r f u Idle m us n,
                 [Show (Toast error ("Gagal mengirim data pembayaran: " +:+ error_text e) JUndef)])
            end
          else (Form b r f u Idle m us n, [])
      | _ => (s, [])
      end
  | Leave => (Form b r f u ph false us n, [])
  end.

Fixpoint run (invoiceId : Z) (es : list event) (s : state) : state * list output :=
  match es with
  | [] => (s, [])
  | e :: es' =>
      let '(s1, o1) := step invoiceId e s in
      let '(s2, o2) := run invoiceId es' s1 in (s2, o1 ++ o2)
  end.

(** [disabled] of the button. *)
Definition button_disabled (s : state) : bool :=
  match sending s with Idle => false | _ => true end ||
  String.eqb (trim (bankName s)) "" || match selectedFile s with None => true | Some _ => false end.
End Detail.

(** ** The profile ([profile/index.tsx]) *)

Module Profile.
Definition js_length (s : string) : Z := Z.of_nat (length (utf16 s)).

Definition handlePasswordSubmit (oldPw newPw confirmPw : string) : prog :=
  Emit (SetState "pwError" (JStr ""))
    (if js_length newPw <? 8 then Emit (SetState "pwError" (JStr "Password baru minimal 8 karakter.")) Return
     else if negb (String.eqb newPw confirmPw) then
       Emit (SetState "pwError" (JStr "Konfirmasi password tidak cocok.")) Return
     else
       awaits (M_PortalProfile_ChangePortalPassword
                 (JObj [("old_password", JStr oldPw); ("new_password", JStr newPw)]))
         (fun _ => [Toast success "Password berhasil diperbarui" JUndef; SetState "showPasswordSheet" (JBool false);
                    SetState "oldPw" (JStr ""); SetState "newPw" (JStr ""); SetState "confirmPw" (JStr "")])
         (fun _ => [SetState "pwError" (JStr "Password lama salah atau terjadi kesalahan.")])).

(** Of a name in ASCII. *)
Definition initials (full_name : option string) : string :=
  match full_name with
  | None => "?"
  | Some n => toUpperCase (join "" (map (str_take 1) (firstn 2 (JsString.split " " n))))
  end.
Definition handleLogout (s : browser * Portal.PortalAuthState) : browser * Portal.PortalAuthState :=
  Portal.reset s.1 s.2.
End Profile.

(** ** Theorems *)

(** *** Sending a proof *)

Module DetailLaws.
Import Detail.

Definition reqs (o : list output) : list mutation_hook := omap (fun x => match x with Request m => Some m | _ => None end) o.

Lemma reqs_app o o' : reqs (o ++ o') = reqs o ++ reqs o'.
Proof. apply omap_app. Qed.

Lemma run_app i es es' s : run i (es ++ es') s =
  ((run i es' (run i es s).1).1, (run i es s).2 ++ (run i es' (run i es s).1).2).
Proof.
  revert s. induction es as [|e es IH]; intros s; cbn [run app fst snd].
  - by destruct (run i es' s).
  - destruct (step i e s) as [s1 o1]. rewrite IH. destruct (run i es s1) as [s2 o2]. cbn. by rewrite app_assoc.
Qed.

Lemma run_one i e s : run i [e] s = step i e s.
Proof. cbn. destruct (step i e s). by rewrite app_nil_r. Qed.

Lemma run_snoc i es e s : run i (es ++ [e]) s =
  ((step i e (run i es s).1).1, (run i es s).2 ++ (step i e (run i es s).1).2).
Proof. rewrite run_app, run_one. done. Qed.

(** What one step can send. *)
Lemma step_sends i e s : reqs (step i e s).2 = [] \/
  (exists f, e = handleUploadAndSubmit /\ sending s = Idle /\ selectedFile s = Some f /\ mounted s = true /\
     trim (bankName s) <> "" /\ reqs (step i e s).2 = [M_PortalInvoices_UploadProof f] /\
     sending (step i e s).1 = Uploading (bankName s) (referenceNumber s)) \/
  (exists res b r, e = Uploaded (Ok res) /\ sending s = Uploading b r /\ mounted s = true /\
     reqs (step i e s).2 = [M_PortalInvoices_CreatePortalPayment
       (i, JObj [("proof_url", get "url" res); ("bank_name", JStr b); ("reference_number", JStr r)])] /\
     sending (step i e s).1 = Submitting).
Proof.
  destruct s as [b r f u ph m us n]. destruct e; cbn; try (by left); try (by destruct u; left).
  - destruct ph, f, m; cbn; try (by left). destruct (String.eqb (trim b) "") eqn:E; [by left|]. b2p.
    right; left. eexists. done.
  - destruct ph, m; cbn; try (by left). destruct a; cbn; [|by left]. right; right. by eexists _, _, _.
  - destruct ph, m; cbn; try (by left). destruct a; by left.
Qed.

(** The upload under way is the one of the last click. *)
Definition of_click (i : Z) (es : list event) (b r : string) : Prop :=
  exists es0 es' f, es = es0 ++ handleUploadAndSubmit :: es' /\
    let s0 := (run i es0 initial).1 in
    bankName s0 = b /\ referenceNumber s0 = r /\ selectedFile s0 = Some f /\ trim b <> "" /\
    reqs (run i es0 initial).2 ++ [M_PortalInvoices_UploadProof f] = reqs (run i es initial).2.

Lemma uploading_of_click i es b r : sending (run i es initial).1 = Uploading b r -> of_click i es b r.
Proof.
  induction es as [|e es IH] using rev_ind; [done|]. rewrite run_snoc. cbn [fst snd].
  set (s := (run i es initial).1) in *. intros Hs.
  destruct (step_sends i e s) as [Hq|[(f & -> & Hi & Hf & _ & Ht & Hq & Hs')|(res & b0 & r0 & _ & _ & _ & _ & Hs')]].
  - assert (sending s = Uploading b r) as Hp.
    { destruct s as [b1 r1 f u ph m us n]. destruct e; cbn in *; try done; repeat case_match; cbn in *; try done; congruence. }
    destruct (IH Hp) as (es0 & es' & f & -> & H1 & H2 & H3 & H4 & H5).
    exists es0, (es' ++ [e]), f. split_and!; try done; [by rewrite <- app_assoc|].
    rewrite run_snoc. cbn [snd]. fold s. by rewrite (reqs_app _ (step i e s).2), Hq, app_nil_r.
  - rewrite Hs' in Hs. injection Hs as <- <-. exists es, [], f. split_and!; try done.
    rewrite run_snoc. cbn [snd]. fold s. by rewrite reqs_app, Hq.
  - by rewrite Hs' in Hs.
Qed.

(** C25: a payment is only recorded for a proof that was uploaded, once, and says what the form
    said when the button was clicked: whatever the customer types, picks and clicks while
    requests are under way, each payment request is sent at a successful answer to the
    upload before it, with the address of that answer and the bank (not blank) and
    reference of the click that uploaded the file. *)
Theorem payment_follows_upload i es e p :
  let s := (run i es initial).1 in
  In (M_PortalInvoices_CreatePortalPayment p) (reqs (step i e s).2) ->
  exists res b r, e = Uploaded (Ok res) /\ of_click i es b r /\
    reqs (step i e s).2 = [M_PortalInvoices_CreatePortalPayment p] /\
    p = (i, JObj [("proof_url", get "url" res); ("bank_name", JStr b); ("reference_number", JStr r)]).
Proof.
  intros s Hin. destruct (step_sends i e s) as [Hq|[(f & _ & _ & _ & _ & _ & Hq & _)|(res & b & r & -> & Hs & _ & Hq & _)]];
    rewrite Hq in Hin; cbn in Hin; try tauto.
  - destruct Hin as [H|[]]. discriminate.
  - destruct Hin as [H|[]]. injection H as <-. exists res, b, r. split_and!; try done. by apply uploading_of_click.
Qed.

(** The answers a run takes in. *)
Definition consumes (e : event) (s : state) : nat :=
  match e, sending s with Uploaded _, Uploading _ _ | Recorded _, Submitting => 1 | _, _ => 0 end.
Fixpoint consumed (i : Z) (es : list event) (s : state) : nat :=
  match es with [] => 0 | e :: es => consumes e s + consumed i es (step i e s).1 end.
Definition in_flight (s : state) : nat := match sending s with Idle => 0 | _ => 1 end.

Lemma step_flight i e s : (length (reqs (step i e s).2) + in_flight s = consumes e s + in_flight (step i e s).1)%nat.
Proof.
  destruct s as [b r f u ph m us n]. unfold in_flight, consumes. destruct e; cbn; try (by destruct m); try (by destruct u, m).
  - destruct ph, f; try done. cbn. by destruct (negb m || String.eqb (trim b) "").
  - destruct ph; try done. destruct m; [by destruct a|done].
  - destruct ph; try done. destruct m; [by destruct a|done].
Qed.

(** A file and its preview come and go together. *)
Definition paired (s : state) : Prop := selectedFile s = None <-> previewUrl s = None.
Lemma step_paired i e s : paired s -> paired (step i e s).1.
Proof.
  unfold paired. destruct s as [b r f u ph m us n]. destruct e; cbn; try done; try (by destruct m); intros Hp.
  - destruct u; [done|]. by destruct m.
  - destruct u; [|done]. by destruct m.
  - destruct ph, f; try done. cbn. by destruct (_ || _).
  - destruct ph; try done. destruct m; [by destruct a|done].
  - destruct ph; try done. destruct m; [by destruct a|done].
Qed.

(** C26: at most one request is under way: after any run, the requests sent are the answers
    that came in, plus one exactly while the form is uploading or recording; the button
    is enabled only when none is; and a failure leaves the texts and the file, so the
    same click can be tried again. *)
Theorem proof_one_at_a_time i es :
  let s := (run i es initial).1 in
  length (reqs (run i es initial).2) = (consumed i es initial + in_flight s)%nat /\
  (selectedFile s = None <-> previewUrl s = None) /\
  (button_disabled s = false -> mounted s = true ->
     exists f, reqs (step i handleUploadAndSubmit s).2 = [M_PortalInvoices_UploadProof f]) /\
  (forall e e', e = Uploaded (Throw e') \/ e = Recorded (Throw e') ->
     let s' := (step i e s).1 in
     (bankName s', referenceNumber s', selectedFile s', previewUrl s') =
       (bankName s, referenceNumber s, selectedFile s, previewUrl s) /\ reqs (step i e s).2 = []).
Proof.
  intros s. unfold s. clear s. split_and!.
  - cut (forall s, (length (reqs (run i es s).2) + in_flight s = consumed i es s + in_flight (run i es s).1)%nat).
    { intros H. specialize (H initial). cbn in H. lia. }
    induction es as [|e es IH]; intros s; [done|]. cbn [run consumed]. pose proof (step_flight i e s) as Hf.
    destruct (step i e s) as [s1 o1]. specialize (IH s1). destruct (run i es s1) as [s2 o2]. cbn [fst snd] in *.
    rewrite reqs_app, length_app. lia.
  - assert (paired initial) as H by done. revert H. generalize initial. induction es as [|e es IH]; intros s Hs; [done|].
    cbn [run]. pose proof (step_paired i e s Hs) as H1. destruct (step i e s) as [s1 o1]. specialize (IH s1 H1).
    by destruct (run i es s1).
  - generalize (run i es initial).1. intros [b r f u ph m us n]. unfold button_disabled. cbn.
    destruct ph; try done. cbn. destruct (String.eqb (trim b) "") eqn:Et; [done|]. destruct f; [|done]. cbn.
    intros _ ->. cbn. by eexists.
  - generalize (run i es initial).1. intros [b r f u ph m us n] e e' [-> | ->]; cbn; destruct ph; cbn; try done; by destruct m.
Qed.

(** A page that was left sends and shows nothing more: in particular an upload that ends
    after the customer went away is not recorded as a payment. *)
Theorem left_page_silent i es es' : (run i (es ++ Leave :: es') initial).2 = (run i es initial).2.
Proof.
  rewrite run_app. cbn [snd run]. set (s := (run i es initial).1).
  assert (forall s, mounted s = false -> (run i es' s).2 = []) as H.
  { clear. induction es' as [|e es' IH]; intros s Hm; [done|]. cbn [run].
    assert ((step i e s).2 = [] /\ mounted (step i e s).1 = false) as [H1 H2].
    { destruct s as [b r f u ph m us n]. cbn in Hm. subst m. destruct e; cbn; try done; try (by destruct u).
      - by destruct ph, f.
      - by destruct ph.
      - by destruct ph. }
    destruct (step i e s) as [s1 o1]. cbn in *. subst o1. specialize (IH s1 H2). destruct (run i es' s1). done. }
  assert ((step i Leave s).2 = [] /\ mounted (step i Leave s).1 = false) as [H1 H2] by (by destruct s).
  destruct (step i Leave s) as [s1 o1]. cbn in *. subst o1. specialize (H s1 H2). destruct (run i es' s1). cbn in *.
  subst. by rewrite app_nil_r.
Qed.

(** *** What the page offers *)

(** The record the backend makes before it asks the gateway ([InitiatePayment]): pending,
    with the address of the checkout, without bank, reference and proof. *)
Definition gateway_payment (id invoiceId customerId amount : Z) (invoice_url : string) : jval :=
  JObj [("id", JNum id); ("invoice_id", JNum invoiceId); ("customer_id", JNum customerId); ("amount", JNum amount);
        ("method", JStr "gateway"); ("status", JStr "pending"); ("gateway_name", JStr "xendit");
        ("invoice_url", JStr invoice_url)].

(** A checkout that was opened once closes every way to pay: from the moment its pending
    record is in the list of payments, an unpaid invoice without an older pending payment
    is shown as waiting for a proof that was never sent, with neither the online button,
    nor the upload, nor the cash code, nor the address of the checkout. *)
Theorem open_checkout_hides_ways id invoiceId customerId amount url ps ps' i g :
  pendingPayment ps invoiceId = None -> isUnpaid i = true ->
  page invoiceId (Data false false false (Some i) (ps ++ gateway_payment id invoiceId customerId amount url :: ps') g) =
    Pending "—" "—" None.
Proof.
  intros Hps Hi. unfold page. cbn [isInvoiceLoading isPaymentsLoading orb invoice payments].
  assert (String.eqb (status_of i) "paid" = false) as ->.
  { unfold isUnpaid in Hi. apply orb_true_iff in Hi as [H|H]; b2p; by rewrite H. }
  set (p := gateway_payment id invoiceId customerId amount url).
  assert (pendingPayment (ps ++ p :: ps') invoiceId = Some p) as ->; [|done].
  unfold pendingPayment, with_status, invoicePayments in *. rewrite List.filter_app. cbn [List.filter].
  assert (jval_eqb (get "invoice_id" p) (JNum invoiceId) = true) as -> by exact (Z.eqb_refl invoiceId).
  revert Hps. generalize (List.filter (fun p => jval_eqb (get "invoice_id" p) (JNum invoiceId)) ps). intros l.
  induction l as [|x l IH]; cbn [app List.find].
  - intros _. done.
  - destruct (jval_eqb (get "status" x) (JStr "pending")); [done|exact IH].
Qed.

(** The three places that tell unpaid invoices apart agree, over the answers the backend
    gives for the three filters: the home page's list and the list page's badge count
    exactly the invoices whose own page offers a payment, overdue ones first. *)
Theorem unpaid_everywhere all :
  let by_status s := List.filter (fun i => String.eqb (status_of i) s) all in
  let unpaid := Home.allUnpaid (by_status "issued") (by_status "overdue") in
  Z.of_nat (length unpaid) = InvoiceList.unpaidCount (by_status "issued") (by_status "overdue") /\
  (forall i, i ∈ unpaid <-> i ∈ all /\ isUnpaid i = true) /\
  length unpaid = length (List.filter isUnpaid all) /\
  (forall i, Home.topInvoice (by_status "issued") (by_status "overdue") = Some i ->
     status_of i = "overdue" \/ by_status "overdue" = []).
Proof.
  intros by_status unpaid. unfold unpaid, Home.allUnpaid, InvoiceList.unpaidCount. split_and!.
  - rewrite length_app. lia.
  - intros i. rewrite elem_of_app. unfold by_status, isUnpaid. rewrite !list_elem_of_In, !filter_In, orb_true_iff. tauto.
  - rewrite length_app. unfold by_status. induction all as [|x l IH]; [done|]. cbn [List.filter]. unfold isUnpaid at 1.
    destruct (String.eqb_spec (status_of x) "overdue") as [E|_], (String.eqb_spec (status_of x) "issued") as [E'|_];
      cbn [length orb] in *; try lia. congruence.
  - intros i Hi. unfold Home.topInvoice, Home.allUnpaid in Hi. destruct (by_status "overdue") as [|x l] eqn:E; [by right|left].
    cbn in Hi. injection Hi as <-. assert (In x (by_status "overdue")) as Hx by (rewrite E; by left).
    unfold by_status in Hx. apply filter_In in Hx as [_ Hx]. by b2p.
Qed.

Lemma take_drop n s : str_take n s +:+ str_drop n s = s.
Proof. revert s. induction n as [|n IH]; intros [|c s]; cbn; try done. by rewrite IH. Qed.
Lemma take_length n s : String.length (str_take n s) = Nat.min n (String.length s).
Proof. revert s. induction n as [|n IH]; intros [|c s]; cbn; try done. by rewrite IH. Qed.
Lemma drop_length n s : String.length (str_drop n s) = (String.length s - n)%nat.
Proof. revert s. induction n as [|n IH]; intros [|c s]; cbn; try done. Qed.
Lemma join_empty_cons x l : join "" (x :: l) = x +:+ join "" l.
Proof. destruct l; [cbn; by rewrite app_str_nil_r|done]. Qed.

(** The spaced code is the code: the groups of four make it up. *)
Theorem code_groups c fuel : (String.length c <= fuel)%nat ->
  join "" (groups4 fuel c) = c /\ Forall (fun g => (1 <= String.length g <= 4)%nat) (groups4 fuel c).
Proof.
  revert c. induction fuel as [|fuel IH]; intros c Hl; [destruct c; [done|cbn in Hl; lia]|].
  cbn [groups4]. destruct (String.eqb_spec c "") as [->|Hc]; [done|].
  destruct (IH (str_drop 4 c)) as [H1 H2].
  { rewrite drop_length. destruct c; [done|]. cbn in *. lia. }
  split.
  - rewrite join_empty_cons, H1. apply take_drop.
  - constructor; [|done]. rewrite take_length. destruct c; [done|]. cbn [String.length]. lia.
Qed.

(** What axios rejects with when the server answers with an error status. *)
Definition http_error (status : Z) (body : jval) : jserror :=
  AxiosErr ("Request failed with status code " +:+ Z_to_string status) (Some body) (Some status).

(** Of the backend's refusals of an online payment only 503 is told apart: a paid or
    cancelled invoice (409, code CONFLICT) is announced as a bare status, since the portal's
    client passes the error of axios on and its message does not carry the envelope. *)
Theorem pay_refusals status body : 400 <= status < 600 ->
  pay_error (http_error status body) =
    if status =? 503
    then Toast error "Pembayaran online belum tersedia. Silakan bayar via kasir atau transfer." JUndef
    else Toast error ("Request failed with status code " +:+ Z_to_string status) JUndef.
Proof.
  intros Hs. unfold pay_error, http_error.
  assert (forall_from (fun n => let m := "Request failed with status code " +:+ Z_to_string n in
    Bool.eqb (includes "503" m || includes "SERVICE_UNAVAILABLE" m) (n =? 503) &&
    negb (includes "CONFLICT" m || includes "lunas" m)) 200 400 = true) as H by by vm_compute.
  pose proof (forall_from_spec _ _ _ H status ltac:(lia)) as E. cbv beta zeta in E.
  apply andb_true_iff in E as [E1%eqb_prop E2%negb_true_iff]. rewrite E1, E2. by destruct (status =? 503).
Qed.
End DetailLaws.

(** *** Password and login *)

(** [dto.ChangePasswordRequest]. *)
Definition ChangePasswordRequest : list gfield :=
  [str "old_password" [Required; Min 1; Max 128]; str "new_password" [Required; Min 8; Max 128]].

(** The password sheet sends exactly the passwords of at least eight characters that were
    typed twice alike, one request each, and the backend takes it when both keep to its
    lengths; any refusal is shown in the sheet, which closes only on success. *)
Theorem password_sheet `{GinBinding} o n oldPw newPw confirmPw :
  let tr := exec o n (Profile.handlePasswordSubmit oldPw newPw confirmPw) in
  let body := JObj [("old_password", JStr oldPw); ("new_password", JStr newPw)] in
  requests tr = (if (8 <=? Profile.js_length newPw) && String.eqb newPw confirmPw
                 then [M_PortalProfile_ChangePortalPassword body] else []) /\
  (sized 1 128 oldPw = true -> sized 8 128 newPw = true -> taken ChangePasswordRequest body) /\
  (In (Did (SetState "showPasswordSheet" (JBool false))) tr <->
     requests tr <> [] /\ fulfilled (o n) = true).
Proof.
  cbv zeta. split_and!.
  - unfold Profile.handlePasswordSubmit. cbn [exec]. rewrite Z.ltb_antisym.
    destruct (8 <=? Profile.js_length newPw); [|done]. cbn [negb andb].
    destruct (String.eqb newPw confirmPw); [|done]. cbn. by destruct (o n).
  - intros Ho Hn. limits. split; [|reflexivity]. binds.
  - unfold Profile.handlePasswordSubmit. cbn [exec]. destruct (Profile.js_length newPw <? 8).
    { cbn. split; [intros [H1|[H1|[]]]; discriminate|tauto]. }
    destruct (String.eqb newPw confirmPw).
    + unfold awaits. cbn. destruct (o n); cbn; split; try tauto; try done.
      all: intros [?|[?|[?|[]]]] || intros [? ?]; try discriminate; try done.
    + cbn. split; [intros [H1|[H1|[]]]; discriminate|tauto].
Qed.

(** Logging in asks once.  With a token the portal's guard lets the customer in, on the page
    the handler goes to, and a reload still knows the session; a refusal changes nothing
    and goes nowhere; after logging out the guard sends back to the login page. *)
Theorem portal_login phone password o n b s staff :
  let tr := exec o n (Login.handleSubmit phone password) in
  let r := Login.logged_in (o n) (b, s) in
  requests tr = [M_PortalAuth_CustomerLogin (JObj [("phone", JStr phone); ("password", JStr password)])] /\
  (In (Did (Navigate "/portal")) tr <-> fulfilled (o n) = true) /\
  (forall data, o n = Ok data -> text "access_token" data <> "" ->
     Nav.portal_beforeLoad (Nav.Stores staff r.2) = None /\ Portal.init r.1 = r.2) /\
  (forall e, o n = Throw e -> r = (b, s) /\ toasts tr = []) /\
  Nav.portal_beforeLoad (Nav.Stores staff (Profile.handleLogout r).2) = Some (Nav.To "/portal/login" None).
Proof.
  cbv zeta. unfold Login.handleSubmit, Login.logged_in, awaits. cbn [exec].
  split_and!.
  - by destruct (o n).
  - destruct (o n); cbn; split; try done; [tauto|]. intros [?|[?|[?|[]]]]; discriminate.
  - intros data -> Ht. split; [|apply PortalLaws.init_setToken].
    unfold Nav.portal_beforeLoad. cbn. by destruct (String.eqb_spec (text "access_token" data) "").
  - by intros e ->.
  - by destruct (o n).
Qed.

(** *** Witnesses *)

Definition receipt : jval := JObj [("name", JStr "bukti.png")].
Definition uploaded : jval := JObj [("url", JStr "/uploads/1.png")].

Lemma payment_follows_upload_witness :
  DetailLaws.of_click 7 [Detail.PickFile receipt; Detail.TypeBank "BCA"; Detail.handleUploadAndSubmit; Detail.TypeBank "BRI"] "BCA" "".
Proof.
  destruct (DetailLaws.payment_follows_upload 7
    [Detail.PickFile receipt; Detail.TypeBank "BCA"; Detail.handleUploadAndSubmit; Detail.TypeBank "BRI"]
    (Detail.Uploaded (Ok uploaded))
    (7, JObj [("proof_url", JStr "/uploads/1.png"); ("bank_name", JStr "BCA"); ("reference_number", JStr "")])
    ltac:(left; reflexivity)) as (res & b & r & _ & Hc & _ & E).
  injection E as _ <- <-. exact Hc.
Defined.

Lemma proof_one_at_a_time_witness :
  length (DetailLaws.reqs (Detail.run 7 [Detail.PickFile receipt; Detail.TypeBank "BCA"; Detail.handleUploadAndSubmit;
    Detail.handleUploadAndSubmit] Detail.initial).2) = 1%nat.
Proof.
  rewrite (proj1 (DetailLaws.proof_one_at_a_time 7 [Detail.PickFile receipt; Detail.TypeBank "BCA";
    Detail.handleUploadAndSubmit; Detail.handleUploadAndSubmit])). reflexivity.
Defined.

Lemma open_checkout_hides_ways_witness :
  Detail.page 7 (Detail.Data false false false (Some (JObj [("status", JStr "issued")]))
    [DetailLaws.gateway_payment 1 7 2 150000 "https://checkout.xendit.co/web/1"] true) = Detail.Pending "—" "—" None.
Proof.
  exact (DetailLaws.open_checkout_hides_ways 1 7 2 150000 "https://checkout.xendit.co/web/1" [] []
    (JObj [("status", JStr "issued")]) true eq_refl eq_refl).
Defined.

Lemma code_groups_witness : Detail.formattedCode (Some "ABCD2345EF") = "ABCD 2345 EF" /\
  join "" (Detail.groups4 10 "ABCD2345EF") = "ABCD2345EF".
Proof. split; [reflexivity|]. apply (DetailLaws.code_groups "ABCD2345EF" 10). cbn. lia. Defined.

Lemma pay_refusals_witness :
  Detail.pay_error (DetailLaws.http_error 409 (JObj [("error", JObj [("code", JStr "CONFLICT")])])) =
    Toast error "Request failed with status code 409" JUndef.
Proof. rewrite DetailLaws.pay_refusals by lia. reflexivity. Defined.

Lemma portal_login_witness :
  Nav.portal_beforeLoad (Nav.Stores (Auth.AuthSt None (JStr "") "") (Login.logged_in (Ok (JObj [("access_token", JStr "t")])) (Browser [] ∅, Portal.init (Browser [] ∅))).2) = None.
Proof.
  exact (proj1 (proj1 (proj2 (proj2 (portal_login "0812" "secret" (fun _ => Ok (JObj [("access_token", JStr "t")])) 0
    (Browser [] ∅) (Portal.init (Browser [] ∅)) (Auth.AuthSt None (JStr "") "")))) _ eq_refl ltac:(done))).
Defined.
