(* ===== verification/Settings.v ===== *)
(** * System settings ([features/settings])

    Five forms (general, billing, notifications, backup, payment gateway) edit one table of
    texts, [system_settings].  They share a mechanism, the class [SettingsForm]: the inputs
    are reset from the listed settings, a schema checks them, and each setting is sent by a
    request of its own.  The server's side is the table, its seeds, the masking of secrets
    and the way the jobs read numbers ([store/migrate.go], [store/setting_store.go],
    [api/handler/settings.go]).  When several requests are made by one hook, TanStack Query
    runs the callbacks given to [mutate] for the latest call only: that is the class
    [MutateCallbacks]. *)
From S2P Require Import Prelude JsString JsValue JsNumber ApiErrors Http QueryCache QueryKeys ApiClient Hooks Ui Forms Presets.
From S2P Require Html.

(** ** The server *)

Record SystemSetting : Type := Setting { key : string; value : string; value_type : string; group_name : string }.

Definition seedSystemSettings : list SystemSetting :=
  [Setting "billing.default_billing_day" "1" "int" "billing";
   Setting "billing.invoice_due_days" "7" "int" "billing";
   Setting "billing.isolir_after_days" "3" "int" "billing";
   Setting "billing.hard_suspend_after_days" "14" "int" "billing";
   Setting "billing.isolir_profile_name" "isolir" "string" "billing";
   Setting "notification.wa_enabled" "false" "bool" "notification";
   Setting "notification.admin_phone" "" "string" "notification";
   Setting "general.company_name" "" "string" "general";
   Setting "general.hotspot_login_url" "" "string" "general";
   Setting "portal.url" "http://localhost:5173/portal" "string" "general";
   Setting "payment.xendit_enabled" "false" "bool" "payment_gateway";
   Setting "payment.xendit_secret_key" "" "secret" "payment_gateway";
   Setting "payment.xendit_webhook_token" "" "secret" "payment_gateway";
   Setting "payment.xendit_invoice_duration" "86400" "int" "payment_gateway";
   Setting "payment.app_url" "" "string" "payment_gateway";
   Setting "backup.enabled" "false" "bool" "backup";
   Setting "backup.path" "./backups" "string" "backup";
   Setting "backup.retention_days" "7" "int" "backup";
   Setting "notification.telegram_enabled" "false" "bool" "notification";
   Setting "notification.telegram_bot_token" "" "secret" "notification";
   Setting "notification.telegram_chat_id" "" "string" "notification";
   Setting "notification.event.invoice_issued.targets" "wa_admin" "string" "notification";
   Setting "notification.event.invoice_reminder.targets" "wa_admin" "string" "notification";
   Setting "notification.event.service_isolir.targets" "wa_admin" "string" "notification";
   Setting "notification.event.service_suspend.targets" "wa_admin" "string" "notification";
   Setting "notification.event.payment_received.targets" "wa_admin" "string" "notification";
   Setting "notification.event.registration_approved.targets" "wa_admin" "string" "notification"].

Definition find_key (k : string) (db : list SystemSetting) : option SystemSetting :=
  List.find (fun s => String.eqb (key s) k) db.

(** [FirstOrCreate], seed by seed. *)
Definition first_or_create (db : list SystemSetting) (s : SystemSetting) : list SystemSetting :=
  match find_key (key s) db with Some _ => db | None => db ++ [s] end.
Definition seed (db : list SystemSetting) : list SystemSetting := fold_left first_or_create seedSystemSettings db.

(** [Set]: [None] is [ErrSettingNotFound], answered with 404. *)
Definition with_value (v : string) (s : SystemSetting) : SystemSetting := Setting (key s) v (value_type s) (group_name s).
Definition Set_ (db : list SystemSetting) (k v : string) : option (list SystemSetting) :=
  match find_key k db with
  | Some _ => Some (map (fun s => if String.eqb (key s) k then with_value v s else s) db)
  | None => None
  end.

Definition maskSecret (val : string) : string := if String.eqb (trim val) "" then "" else "••••••••".
Definition list_item (s : SystemSetting) : SystemSetting :=
  if String.eqb (value_type s) "secret" then with_value (maskSecret (value s)) s else s.
(** [List], whose order nothing below depends on. *)
Definition List_ (db : list SystemSetting) : list SystemSetting := map list_item db.

(** [strconv.Atoi], on 64-bit integers. *)
Definition Atoi (s : string) : option Z :=
  let read (sign : Z) (t : string) :=
    if String.eqb t "" || negb (str_forall is_digit t) then None
    else let n := sign * digits_val 0 t in
         if (- 2 ^ 63 <=? n) && (n <? 2 ^ 63) then Some n else None in
  match s with
  | String c t => if Ascii.eqb c "-" then read (-1) t else if Ascii.eqb c "+" then read 1 t else read 1 s
  | EmptyString => None
  end.
Definition settingInt (db : list SystemSetting) (k : string) (def : Z) : Z :=
  match find_key k db with
  | Some s => match Atoi (value s) with Some n => n | None => def end
  | None => def
  end.

(** ** The forms *)

(** [for (const s of settings) map[s.key] = s.value]. *)
Definition to_map (settings : list SystemSetting) : gmap string string :=
  fold_left (fun m s => <[key s := value s]> m) settings ∅.

Definition isMasked (v : string) : bool := startsWith "••" v.
(** [isMasked(map[k] ?? '') ? '' : (map[k] ?? '')]. *)
Definition unmasked (m : gmap string string) (k : string) : string :=
  if isMasked (m !! k ?? "") then "" else m !! k ?? "".
(** [map[k] === 'true'], [v ? 'true' : 'false']. *)
Definition on (m : gmap string string) (k : string) : bool :=
  match m !! k with Some v => String.eqb v "true" | None => false end.
Definition bool_value (b : bool) : string := if b then "true" else "false".

(** [/^\d+$/], and [+v >= n]. *)
Definition all_digits (s : string) : bool := negb (String.eqb s "") && str_forall is_digit s.
Definition at_least (n : Z) (s : string) : bool :=
  match Number_str s with Some q => Qle_bool (inject_Z n) (this q) | None => false end.
Definition at_most (n : Z) (s : string) : bool :=
  match Number_str s with Some q => Qle_bool (this q) (inject_Z n) | None => false end.

(** What the handlers of one submission count. *)
Record closure : Type := Closure { entries : list (string * string); finished : nat; failed : bool }.

(** [onSuccess] and [onError] of one update. *)
Definition count_success (msg : string) (c : closure) : closure * list effect :=
  let d := S (finished c) in
  (Closure (entries c) d (failed c), if Nat.eqb d (length (entries c)) then [Toast success msg JUndef] else []).
Definition error_of_key (prefix : string) (k : string) (c : closure) : closure * list effect :=
  (c, [Toast error (prefix +:+ " " +:+ Html.dq +:+ k +:+ Html.dq) JUndef]).

Class SettingsForm (V : Type) : Type := {
  defaultValues : V;
  reset : gmap string string -> V;
  schema : V -> bool;
  updates : V -> list (string * string);
  onSuccess : closure -> closure * list effect;
  onError : string -> closure -> closure * list effect }.

Module General.
Record FormValues : Type := Values { company_name : string; hotspot_login_url : string }.
Definition general_success (c : closure) : closure * list effect :=
  let d := S (finished c) in
  (Closure (entries c) d (failed c),
   if Nat.eqb d (length (entries c)) && negb (failed c)
   then [Toast success "Pengaturan umum berhasil disimpan." JUndef] else []).
Definition general_error (_ : string) (c : closure) : closure * list effect :=
  if failed c then (c, [])
  else (Closure (entries c) (finished c) true, [Toast error "Gagal menyimpan pengaturan." JUndef]).
Definition general_defaults : FormValues := Values "" "".
Definition general_reset (m : gmap string string) : FormValues :=
  Values (m !! "general.company_name" ?? "") (m !! "general.hotspot_login_url" ?? "").
Definition general_schema (v : FormValues) : bool :=
  (Z.of_nat (length (utf16 (company_name v))) <=? 100) && (Z.of_nat (length (utf16 (hotspot_login_url v))) <=? 255).
Definition general_updates (v : FormValues) : list (string * string) :=
  [("general.company_name", company_name v); ("general.hotspot_login_url", hotspot_login_url v)].
#[global] Instance form : SettingsForm FormValues :=
  { defaultValues := general_defaults; reset := general_reset; schema := general_schema; updates := general_updates;
    onSuccess := general_success; onError := general_error }.
End General.

Module Billing.
Record FormValues : Type := Values {
  default_billing_day : string; invoice_due_days : string; isolir_after_days : string;
  hard_suspend_after_days : string; isolir_profile_name : string }.
Definition billing_defaults : FormValues := Values "1" "7" "3" "14" "isolir".
Definition billing_reset (m : gmap string string) : FormValues :=
  Values (m !! "billing.default_billing_day" ?? "1") (m !! "billing.invoice_due_days" ?? "7")
    (m !! "billing.isolir_after_days" ?? "3") (m !! "billing.hard_suspend_after_days" ?? "14")
    (m !! "billing.isolir_profile_name" ?? "isolir").
Definition billing_schema (v : FormValues) : bool :=
  (all_digits (default_billing_day v) && (at_least 1 (default_billing_day v) && at_most 28 (default_billing_day v))) &&
  (all_digits (invoice_due_days v) && at_least 1 (invoice_due_days v)) &&
  (all_digits (isolir_after_days v) && at_least 0 (isolir_after_days v)) &&
  (all_digits (hard_suspend_after_days v) && at_least 1 (hard_suspend_after_days v)) &&
  negb (String.eqb (isolir_profile_name v) "").
Definition billing_updates (v : FormValues) : list (string * string) :=
  [("billing.default_billing_day", default_billing_day v); ("billing.invoice_due_days", invoice_due_days v);
   ("billing.isolir_after_days", isolir_after_days v); ("billing.hard_suspend_after_days", hard_suspend_after_days v);
   ("billing.isolir_profile_name", isolir_profile_name v)].
#[global] Instance form : SettingsForm FormValues :=
  { defaultValues := billing_defaults; reset := billing_reset; schema := billing_schema; updates := billing_updates;
    onSuccess := count_success "Konfigurasi billing berhasil disimpan."; onError := error_of_key "Gagal menyimpan" }.
End Billing.

Module Notification.
Record FormValues : Type := Values {
  wa_enabled : bool; admin_phone : string; telegram_enabled : bool; telegram_bot_token : string;
  telegram_chat_id : string }.
Definition notification_defaults : FormValues := Values false "" false "" "".
Definition notification_reset (m : gmap string string) : FormValues :=
  Values (on m "notification.wa_enabled") (m !! "notification.admin_phone" ?? "")
    (on m "notification.telegram_enabled") (unmasked m "notification.telegram_bot_token")
    (m !! "notification.telegram_chat_id" ?? "").
Definition notification_updates (v : FormValues) : list (string * string) :=
  [("notification.wa_enabled", bool_value (wa_enabled v)); ("notification.admin_phone", admin_phone v);
   ("notification.telegram_enabled", bool_value (telegram_enabled v));
   ("notification.telegram_chat_id", telegram_chat_id v)] ++
  (if String.eqb (trim (telegram_bot_token v)) "" then []
   else [("notification.telegram_bot_token", telegram_bot_token v)]).
#[global] Instance form : SettingsForm FormValues :=
  { defaultValues := notification_defaults; reset := notification_reset; schema := fun _ => true;
    updates := notification_updates;
    onSuccess := count_success "Konfigurasi notifikasi berhasil disimpan."; onError := error_of_key "Gagal menyimpan" }.
End Notification.

Module Backup.
Record FormValues : Type := Values { enabled : bool; path : string; retention_days : string }.
Definition backup_defaults : FormValues := Values false "./backups" "7".
Definition backup_reset (m : gmap string string) : FormValues :=
  Values (on m "backup.enabled") (m !! "backup.path" ?? "./backups") (m !! "backup.retention_days" ?? "7").
Definition backup_schema (v : FormValues) : bool :=
  negb (String.eqb (path v) "") && (all_digits (retention_days v) && at_least 1 (retention_days v)).
Definition backup_updates (v : FormValues) : list (string * string) :=
  [("backup.enabled", bool_value (enabled v)); ("backup.path", path v); ("backup.retention_days", retention_days v)].
#[global] Instance form : SettingsForm FormValues :=
  { defaultValues := backup_defaults; reset := backup_reset; schema := backup_schema; updates := backup_updates;
    onSuccess := count_success "Konfigurasi backup berhasil disimpan."; onError := error_of_key "Gagal menyimpan" }.
End Backup.

Module PaymentGateway.
Record FormValues : Type := Values {
  xendit_enabled : bool; xendit_secret_key : string; xendit_webhook_token : string;
  xendit_invoice_duration : string; app_url : string }.
Definition XENDIT_KEYS : list string :=
  ["payment.xendit_enabled"; "payment.xendit_secret_key"; "payment.xendit_webhook_token";
   "payment.xendit_invoice_duration"; "payment.app_url"].
Definition gateway_defaults : FormValues := Values false "" "" "86400" "".
Definition gateway_reset (m : gmap string string) : FormValues :=
  Values (on m "payment.xendit_enabled") (unmasked m "payment.xendit_secret_key")
    (unmasked m "payment.xendit_webhook_token")
    (match m !! "payment.xendit_invoice_duration" with
     | Some d => if String.eqb d "" then "86400" else d
     | None => "86400"
     end) (m !! "payment.app_url" ?? "").
Definition gateway_schema (v : FormValues) : bool :=
  (all_digits (xendit_invoice_duration v) && at_least 300 (xendit_invoice_duration v)) &&
  (String.eqb (app_url v) "" || (startsWith "http://" (app_url v) || startsWith "https://" (app_url v))).
Definition gateway_updates (v : FormValues) : list (string * string) :=
  [("payment.xendit_enabled", bool_value (xendit_enabled v));
   ("payment.xendit_invoice_duration", xendit_invoice_duration v); ("payment.app_url", app_url v)] ++
  (if String.eqb (trim (xendit_secret_key v)) "" then [] else [("payment.xendit_secret_key", xendit_secret_key v)]) ++
  (if String.eqb (trim (xendit_webhook_token v)) "" then [] else [("payment.xendit_webhook_token", xendit_webhook_token v)]).
#[global] Instance form : SettingsForm FormValues :=
  { defaultValues := gateway_defaults;
    reset := fun m => gateway_reset (filter (fun e => e.1 ∈ XENDIT_KEYS) m);
    schema := gateway_schema; updates := gateway_updates;
    onSuccess := fun c =>
      let '(c', es) := count_success "Konfigurasi payment gateway berhasil disimpan." c in
      (c', if Nat.eqb (finished c') (length (entries c')) then es ++ [SetState "testStatus" (JStr "idle")] else es);
    onError := error_of_key "Gagal menyimpan pengaturan" }.

Definition isConfigured (settings : list SystemSetting) : bool :=
  existsb (fun s => String.eqb (key s) "payment.xendit_secret_key" && isMasked (value s)) settings.
Definition getSecretPlaceholder (settings : list SystemSetting) (k : string) : string :=
  match find_key k settings with
  | Some s => if isMasked (value s) then "••••••••  (tersimpan, kosongkan untuk tidak mengubah)" else ""
  | None => ""
  end.
Definition handleTestConnection : prog :=
  Emit (SetState "testStatus" (JStr "idle")) (Emit (SetState "testMessage" (JStr ""))
    (Mutate M_Settings_TestPaymentGateway (fun a =>
       match a with
       | Ok result =>
           emits [SetState "testStatus" (JStr (if truthy (get "success" result) then "success" else "error"));
                  SetState "testMessage" (get "message" result)] Return
       | Throw _ =>
           emits [SetState "testStatus" (JStr "error");
                  SetState "testMessage" (JStr "Gagal menghubungi server. Coba lagi.")] Return
       end))).
End PaymentGateway.

(** ** Saving *)

(** Whether the callbacks given to the [k]-th call of a hook's [mutate] run when it settles
    after [calls] calls, the component being mounted. *)
Class MutateCallbacks : Type := callbacks_run : nat -> nat -> bool.
(** Documented for consecutive mutations: only those of the latest call. *)
Class LatestOnly `{MutateCallbacks} : Prop := {
  latest_runs : forall k, callbacks_run (S k) k = true;
  earlier_silent : forall n k, (S k < n)%nat -> callbacks_run n k = false }.

Record call_of : Type := Call { owner : nat; entry : string * string; settled : bool }.
Record page : Type := Page { closures : list closure; calls : list call_of; mounted : bool }.
Definition opened : page := Page [] [] true.

Inductive output : Type := Request (m : mutation_hook) | Cache (op : cache_op) | Show (e : effect).

Section Saving.
Context {V : Type} `{SettingsForm V} `{MutateCallbacks}.

Inductive action : Type := Submit (v : V) | Settle (k : nat) (a : answer) | Leave.

(** [isPending] of the hook: the latest call. *)
Definition isSaving (p : page) : bool := match last (calls p) with Some c => negb (settled c) | None => false end.

(** The hook's own [onSuccess]. *)
Definition refreshed (u : string * string) (a : answer) : list output :=
  match a with Ok d => map Cache (mutation_ops (M_Settings_UpdateSetting u) d) | Throw _ => [] end.

Definition step (p : page) (e : action) : page * list output :=
  match e with
  | Submit v =>
      if negb (mounted p) || isSaving p || negb (schema v) then (p, [])
      else
        let us := updates v in
        (Page (closures p ++ [Closure us 0 false])
           (calls p ++ map (fun u => Call (length (closures p)) u false) us) true,
         map (fun u => Request (M_Settings_UpdateSetting u)) us)
  | Settle k a =>
      match calls p !! k with
      | Some (Call i u false) =>
          let calls' := <[k := Call i u true]> (calls p) in
          let cache := refreshed u a in
          match closures p !! i with
          | Some c =>
              if mounted p && callbacks_run (length (calls p)) k then
                let '(c', es) := match a with Ok _ => onSuccess c | Throw _ => onError u.1 c end in
                (Page (<[i := c']> (closures p)) calls' (mounted p), cache ++ map Show es)
              else (Page (closures p) calls' (mounted p), cache)
          | None => (p, [])
          end
      | _ => (p, [])
      end
  | Leave => (Page (closures p) (calls p) false, [])
  end.

Fixpoint run (p : page) (es : list action) : page * list output :=
  match es with
  | [] => (p, [])
  | e :: es' => let '(p1, o1) := step p e in let '(p2, o2) := run p1 es' in (p2, o1 ++ o2)
  end.
End Saving.

(** ** The table *)

Definition save (us : list (string * string)) (db : list SystemSetting) : option (list SystemSetting) :=
  fold_left (fun d u => match d with Some db => Set_ db u.1 u.2 | None => None end) us (Some db).

(** Every seed's key is there with the seed's type. *)
Definition seeded (db : list SystemSetting) : bool :=
  forallb (fun s => match find_key (key s) db with
                    | Some s' => String.eqb (value_type s') (value_type s)
                    | None => false
                    end) seedSystemSettings.
Definition is_secret (k : string) : bool :=
  existsb (fun s => String.eqb (key s) k && String.eqb (value_type s) "secret") seedSystemSettings.
Fixpoint assoc (k : string) (us : list (string * string)) : option string :=
  match us with [] => None | u :: us' => if String.eqb u.1 k then Some u.2 else assoc k us' end.

Lemma find_key_key k db s : find_key k db = Some s -> key s = k.
Proof. intros H. apply find_some in H as [_ H]. by apply String.eqb_eq in H. Qed.

Lemma find_key_app k db db' : find_key k (db ++ db') = match find_key k db with Some s => Some s | None => find_key k db' end.
Proof. induction db as [|s db IH]; cbn; [done|]. by destruct (String.eqb (key s) k). Qed.

Lemma find_key_List k db : find_key k (List_ db) = list_item <$> find_key k db.
Proof.
  unfold find_key, List_. induction db as [|s db IH]; cbn; [done|].
  assert (key (list_item s) = key s) as -> by (unfold list_item; by case_match). by destruct (String.eqb (key s) k).
Qed.

Lemma keys_List db : map key (List_ db) = map key db.
Proof. unfold List_. rewrite map_map. apply map_ext. intros s. unfold list_item. by case_match. Qed.

Lemma find_key_None k db : find_key k db = None <-> k ∉ map key db.
Proof.
  unfold find_key. induction db as [|s db IH]; cbn; [split; [intros _ H; inversion H|done]|].
  rewrite not_elem_of_cons. destruct (String.eqb_spec (key s) k) as [->|Hn]; [split; [done|tauto]|]. rewrite IH.
  split; [intros ?; split; congruence|tauto].
Qed.

Lemma to_map_lookup db k : NoDup (map key db) -> to_map db !! k = value <$> find_key k db.
Proof.
  unfold to_map. assert (forall m : gmap string string, NoDup (map key db) ->
    fold_left (fun m s => <[key s := value s]> m) db m !! k = match find_key k db with Some s => Some (value s) | None => m !! k end) as H.
  { induction db as [|s db IH]; intros m Hn; [done|]. cbn in *. apply NoDup_cons in Hn as [Hs Hn]. rewrite IH by done.
    destruct (String.eqb_spec (key s) k) as [<-|Hk].
    - rewrite (proj2 (find_key_None _ _) Hs). by rewrite lookup_insert_eq.
    - change (List.find _ db) with (find_key k db). case_match; [done|]. by rewrite lookup_insert_ne. }
  intros Hn. rewrite H by done. case_match; cbn; [done|]. by rewrite lookup_empty.
Qed.

Lemma Set_spec db k v s : find_key k db = Some s ->
  exists db', Set_ db k v = Some db' /\ map key db' = map key db /\
    forall k', find_key k' db' = if String.eqb k k' then with_value v <$> find_key k' db else find_key k' db.
Proof.
  intros Hs. unfold Set_. rewrite Hs. eexists. split; [done|]. clear Hs. split.
  - rewrite map_map. apply map_ext. intros s'. by case_match.
  - intros k'. unfold find_key. induction db as [|s' db IH]; cbn; [by case_match|].
    destruct (String.eqb_spec (key s') k) as [E|E]; cbn; destruct (String.eqb_spec (key s') k') as [E'|E'].
    + subst. by rewrite String.eqb_refl.
    + exact IH.
    + destruct (String.eqb_spec k k'); [congruence|done].
    + exact IH.
Qed.

Lemma assoc_None k us : assoc k us = None <-> k ∉ us.*1.
Proof.
  induction us as [|u us IH]; cbn; [split; [intros _ H; inversion H|done]|].
  rewrite not_elem_of_cons. destruct (String.eqb_spec u.1 k) as [->|Hn]; [split; [done|tauto]|]. rewrite IH.
  split; [intros ?; split; congruence|tauto].
Qed.

Lemma assoc_Some k v us : NoDup us.*1 -> assoc k us = Some v <-> (k, v) ∈ us.
Proof.
  induction us as [|u us IH]; cbn; [intros _; split; [done|intros H; inversion H]|].
  intros [Hu Hn]%NoDup_cons. rewrite elem_of_cons. destruct (String.eqb_spec u.1 k) as [E|E].
  - split; [intros [= <-]; left; subst; by destruct u|]. intros [<-|H]; [done|]. destruct Hu. subst k.
    apply list_elem_of_fmap. by exists (u.1, v).
  - rewrite (IH Hn). split; [tauto|]. intros [<-|H]; [done|exact H].
Qed.

Lemma assoc_perm us us' k : NoDup us.*1 -> us ≡ₚ us' -> assoc k us = assoc k us'.
Proof.
  intros Hn Hp. assert (NoDup us'.*1) as Hn' by (by rewrite <- Hp).
  apply option_eq. intros v. rewrite !assoc_Some by done. by rewrite Hp.
Qed.

Lemma save_spec us db : NoDup us.*1 -> Forall (fun k => find_key k db <> None) us.*1 ->
  exists db', save us db = Some db' /\ map key db' = map key db /\
    forall k, find_key k db' = match assoc k us with Some v => with_value v <$> find_key k db | None => find_key k db end.
Proof.
  unfold save. revert db. induction us as [|u us IH]; intros db Hn Hf; [by exists db|]. cbn in *.
  apply NoDup_cons in Hn as [Hu Hn]. apply Forall_cons in Hf as [Hk Hf].
  destruct (find_key u.1 db) as [s|] eqn:Es; [|done]. destruct (Set_spec db u.1 u.2 s Es) as (db1 & -> & Hm & H1).
  destruct (IH db1 Hn) as (db' & -> & Hm' & H').
  { eapply Forall_impl; [exact Hf|]. intros k Hd E. apply Hd. rewrite H1 in E. case_match; [by apply fmap_None in E|done]. }
  exists db'. split; [done|]. split; [congruence|]. intros k. rewrite H', H1.
  destruct (String.eqb_spec u.1 k) as [<-|E]; [|by case_match].
  by rewrite (proj2 (assoc_None _ _) Hu).
Qed.

Lemma seeded_key db s : seeded db = true -> s ∈ seedSystemSettings ->
  exists s', find_key (key s) db = Some s' /\ value_type s' = value_type s.
Proof.
  unfold seeded. rewrite forallb_forall. intros H Hs. apply list_elem_of_In in Hs. specialize (H s Hs).
  destruct (find_key (key s) db) as [s'|]; [|done]. apply String.eqb_eq in H. by exists s'.
Qed.

(** What the browser sees of a setting. *)
Definition shown (k v : string) : string := if is_secret k then maskSecret v else v.

Lemma seed_type_unique s : s ∈ seedSystemSettings -> String.eqb (value_type s) "secret" = is_secret (key s).
Proof.
  assert (forallb (fun s => Bool.eqb (String.eqb (value_type s) "secret") (is_secret (key s))) seedSystemSettings = true) as H
    by (vm_compute; done).
  rewrite forallb_forall in H. intros Hs%list_elem_of_In. apply Bool.eqb_prop. by apply H.
Qed.

Lemma seen db k : NoDup (map key db) -> seeded db = true -> k ∈ map key seedSystemSettings ->
  exists s, find_key k db = Some s /\ to_map (List_ db) !! k = Some (shown k (value s)).
Proof.
  intros Hn Hd (s & Hk & Hs)%list_elem_of_fmap. subst k.
  destruct (seeded_key db s Hd Hs) as (s' & Hf & Ht). exists s'. split; [done|].
  rewrite to_map_lookup by (by rewrite keys_List). rewrite find_key_List, Hf. cbn. unfold list_item, shown.
  rewrite Ht, (seed_type_unique s Hs). by destruct (is_secret (key s)).
Qed.

(** ** What every form promises *)

Lemma unmasked_secret m k w : m !! k = Some (maskSecret w) -> unmasked m k = "".
Proof. unfold unmasked, maskSecret. intros ->. cbn. by destruct (String.eqb (trim w) ""). Qed.

Lemma on_bool m k b : m !! k = Some (bool_value b) -> on m k = b.
Proof. unfold on. intros ->. by destruct b. Qed.

(** [hide] blanks the secrets of a form. *)
Class SettingsFormLaws (V : Type) `{SettingsForm V} (hide : V -> V) : Prop := {
  updates_two : forall v, (2 <= length (updates v))%nat;
  updates_distinct : forall v, NoDup (updates v).*1;
  updates_seeded : forall v k, k ∈ (updates v).*1 -> k ∈ map key seedSystemSettings;
  updates_hide : forall v k, k ∈ (updates (hide v)).*1 -> is_secret k = false;
  reset_saved : forall m v, schema v = true ->
    (forall k w, assoc k (updates v) = Some w -> m !! k = Some (shown k w)) ->
    (forall k, is_secret k = true -> exists w, m !! k = Some (maskSecret w)) -> reset m = hide v;
  reset_hides : forall m, (forall k, is_secret k = true -> exists w, m !! k = Some (maskSecret w)) ->
    hide (reset m) = reset m;
  success_counts : forall c, entries (onSuccess c).1 = entries c /\ finished (onSuccess c).1 = S (finished c) /\
    (S (finished c) <> length (entries c) -> (onSuccess c).2 = []);
  error_tells : forall k c, entries (onError k c).1 = entries c /\ finished (onError k c).1 = finished c /\
    Forall (fun e => exists m, e = Toast error m JUndef) (onError k c).2 }.

Definition hide_notification (v : Notification.FormValues) : Notification.FormValues :=
  let '(Notification.Values wa p tg _ c) := v in Notification.Values wa p tg "" c.
Definition hide_gateway (v : PaymentGateway.FormValues) : PaymentGateway.FormValues :=
  let '(PaymentGateway.Values e _ _ d u) := v in PaymentGateway.Values e "" "" d u.

Lemma count_success_counts msg c : entries (count_success msg c).1 = entries c /\
  finished (count_success msg c).1 = S (finished c) /\
  (S (finished c) <> length (entries c) -> (count_success msg c).2 = []).
Proof. unfold count_success. cbn -[Nat.eqb]. split_and!; try done. intros Hn. by rewrite (proj2 (Nat.eqb_neq _ _) Hn). Qed.

Lemma error_of_key_tells p k c : entries (error_of_key p k c).1 = entries c /\
  finished (error_of_key p k c).1 = finished c /\
  Forall (fun e => exists m, e = Toast error m JUndef) (error_of_key p k c).2.
Proof. cbn. split_and!; try done. constructor; [by eexists|done]. Qed.

(** The key, the optional secrets and the inputs of a form are closed but for its values. *)
Ltac distinct_keys := apply (bool_decide_unpack _); vm_compute; done.
Ltac each_key Hk := set_unfold in Hk; destruct_or?; subst; first [done | distinct_keys].

#[export] Instance general_laws : SettingsFormLaws General.FormValues (fun v => v).
Proof.
  split.
  - cbn. lia.
  - intros v. cbn. distinct_keys.
  - intros v k Hk. cbn in Hk. each_key Hk.
  - intros v k Hk. cbn in Hk. each_key Hk.
  - intros m [c h] _ Hm _. cbn. unfold General.general_reset. cbn in Hm.
    by rewrite (Hm "general.company_name" _ eq_refl), (Hm "general.hotspot_login_url" _ eq_refl).
  - done.
  - intros [us d f]. cbn -[Nat.eqb]. split_and!; try done. intros Hn. by rewrite (proj2 (Nat.eqb_neq _ _) Hn).
  - intros k [us d f]. cbn. unfold General.general_error. cbn. destruct f; cbn; split_and!; try done.
    constructor; [by eexists|done].
Qed.

#[export] Instance billing_laws : SettingsFormLaws Billing.FormValues (fun v => v).
Proof.
  split.
  - cbn. lia.
  - intros v. cbn. distinct_keys.
  - intros v k Hk. cbn in Hk. each_key Hk.
  - intros v k Hk. cbn in Hk. each_key Hk.
  - intros m [a b c d e] _ Hm _. cbn. unfold Billing.billing_reset. cbn in Hm.
    by rewrite (Hm "billing.default_billing_day" _ eq_refl), (Hm "billing.invoice_due_days" _ eq_refl),
      (Hm "billing.isolir_after_days" _ eq_refl), (Hm "billing.hard_suspend_after_days" _ eq_refl),
      (Hm "billing.isolir_profile_name" _ eq_refl).
  - done.
  - apply count_success_counts.
  - apply error_of_key_tells.
Qed.

#[export] Instance backup_laws : SettingsFormLaws Backup.FormValues (fun v => v).
Proof.
  split.
  - cbn. lia.
  - intros v. cbn. distinct_keys.
  - intros v k Hk. cbn in Hk. each_key Hk.
  - intros v k Hk. cbn in Hk. each_key Hk.
  - intros m [a b c] _ Hm _. cbn. unfold Backup.backup_reset. cbn in Hm.
    rewrite (on_bool m "backup.enabled" a) by (by rewrite (Hm "backup.enabled" _ eq_refl)).
    by rewrite (Hm "backup.path" _ eq_refl), (Hm "backup.retention_days" _ eq_refl).
  - done.
  - apply count_success_counts.
  - apply error_of_key_tells.
Qed.

#[export] Instance notification_laws : SettingsFormLaws Notification.FormValues hide_notification.
Proof.
  split.
  - intros v. cbn. lia.
  - intros v. cbn. unfold Notification.notification_updates. case_match; cbn; distinct_keys.
  - intros v k Hk. cbn in Hk. unfold Notification.notification_updates in Hk. case_match; cbn in Hk; each_key Hk.
  - intros [a b c d e] k Hk. cbn in Hk. each_key Hk.
  - intros m [a b c d e] _ Hm Hs. cbn. unfold Notification.notification_reset. cbn -[app] in Hm.
    rewrite (on_bool m "notification.wa_enabled" a) by (by rewrite (Hm "notification.wa_enabled" _ eq_refl)).
    rewrite (on_bool m "notification.telegram_enabled" c) by (by rewrite (Hm "notification.telegram_enabled" _ eq_refl)).
    rewrite (Hm "notification.admin_phone" _ eq_refl), (Hm "notification.telegram_chat_id" _ eq_refl).
    destruct (Hs "notification.telegram_bot_token" eq_refl) as [w Hw]. by rewrite (unmasked_secret _ _ _ Hw).
  - intros m Hs. cbn. unfold Notification.notification_reset. cbn.
    destruct (Hs "notification.telegram_bot_token" eq_refl) as [w Hw]. by rewrite (unmasked_secret _ _ _ Hw).
  - apply count_success_counts.
  - apply error_of_key_tells.
Qed.

Lemma gateway_lookup (m : gmap string string) k : bool_decide (k ∈ PaymentGateway.XENDIT_KEYS) = true ->
  filter (fun e => e.1 ∈ PaymentGateway.XENDIT_KEYS) m !! k = m !! k.
Proof.
  intros Hk. apply bool_decide_eq_true in Hk. apply option_eq. intros v. rewrite map_lookup_filter_Some. cbn. tauto.
Qed.

#[export] Instance gateway_laws : SettingsFormLaws PaymentGateway.FormValues hide_gateway.
Proof.
  split.
  - intros v. cbn. lia.
  - intros v. cbn. unfold PaymentGateway.gateway_updates. repeat case_match; cbn; distinct_keys.
  - intros v k Hk. cbn in Hk. unfold PaymentGateway.gateway_updates in Hk. repeat case_match; cbn in Hk; each_key Hk.
  - intros [a b c d e] k Hk. cbn in Hk. each_key Hk.
  - intros m0 [a b c d e] Hv Hm0 Hs0. cbn [reset PaymentGateway.form].
    set (m := filter _ m0).
    assert (forall k, bool_decide (k ∈ PaymentGateway.XENDIT_KEYS) = true -> m !! k = m0 !! k) as E by (apply gateway_lookup).
    cbn -[app] in Hm0. unfold PaymentGateway.gateway_reset.
    rewrite (on_bool m "payment.xendit_enabled" a) by (rewrite E by done; by rewrite (Hm0 "payment.xendit_enabled" _ eq_refl)).
    rewrite (E "payment.xendit_invoice_duration" eq_refl), (E "payment.app_url" eq_refl).
    rewrite (Hm0 "payment.xendit_invoice_duration" _ eq_refl), (Hm0 "payment.app_url" _ eq_refl).
    destruct (Hs0 "payment.xendit_secret_key" eq_refl) as [w1 H1], (Hs0 "payment.xendit_webhook_token" eq_refl) as [w2 H2].
    rewrite (unmasked_secret m "payment.xendit_secret_key" w1), (unmasked_secret m "payment.xendit_webhook_token" w2)
      by (by rewrite E).
    cbn in Hv. unfold PaymentGateway.gateway_schema, all_digits in Hv. cbn in Hv. cbn.
    by destruct (String.eqb_spec d "") as [->|Hd].
  - intros m0 Hs0. cbn -[filter]. unfold PaymentGateway.gateway_reset. cbn -[filter].
    destruct (Hs0 "payment.xendit_secret_key" eq_refl) as [w1 H1], (Hs0 "payment.xendit_webhook_token" eq_refl) as [w2 H2].
    by rewrite (unmasked_secret _ "payment.xendit_secret_key" w1), (unmasked_secret _ "payment.xendit_webhook_token" w2)
      by (by rewrite gateway_lookup).
  - intros c. cbn -[count_success]. destruct (count_success_counts "Konfigurasi payment gateway berhasil disimpan." c) as (H1 & H2 & H3).
    destruct (count_success _ c) as [c' es]. cbn in *. split_and!; try done.
    intros Hn. rewrite H3 by done. rewrite H1, H2. by rewrite (proj2 (Nat.eqb_neq _ _) Hn).
  - apply error_of_key_tells.
Qed.

(** ** Theorems *)

Definition shows_saved (db : list SystemSetting) (V : Type) `{SettingsForm V} (hide : V -> V) : Prop :=
  forall v us, schema v = true -> us ≡ₚ updates v ->
    exists db', save us db = Some db' /\
      (forall k, find_key k db' = match assoc k (updates v) with
                                  | Some w => with_value w <$> find_key k db | None => find_key k db end) /\
      reset (to_map (List_ db')) = hide v.

Section Laws.
Context {V : Type} `{SettingsFormLaws V hide}.

Lemma updates_shown m (Hm : forall k, is_secret k = true -> exists w, m !! k = Some (maskSecret w)) :
  forall k, k ∈ (updates (reset m)).*1 -> is_secret k = false.
Proof. intros k. rewrite <- (reset_hides m Hm). apply updates_hide. Qed.

Lemma secret_listed db k : NoDup (map key db) -> seeded db = true -> is_secret k = true ->
  exists w, to_map (List_ db) !! k = Some (maskSecret w).
Proof.
  intros Hn Hd Hk. assert (k ∈ map key seedSystemSettings) as Hi.
  { unfold is_secret in Hk. apply existsb_exists in Hk as (s & Hs & Hk). b2p. subst k.
    apply list_elem_of_fmap. exists s. split; [done|]. by apply list_elem_of_In. }
  destruct (seen db k Hn Hd Hi) as (s & _ & ->). unfold shown. rewrite Hk. by eexists.
Qed.

Lemma seeded_types db db' : seeded db = true ->
  (forall k, value_type <$> find_key k db' = value_type <$> find_key k db) -> seeded db' = true.
Proof.
  unfold seeded. rewrite !forallb_forall. intros Hd Ht s Hs. specialize (Hd s Hs). specialize (Ht (key s)).
  destruct (find_key (key s) db), (find_key (key s) db'); try done. cbn in Ht. by injection Ht as ->.
Qed.

Lemma saved_is_shown db : NoDup (map key db) -> seeded db = true -> shows_saved db V hide.
Proof.
  intros Hn Hd v us Hv Hp. assert (NoDup us.*1) as Hu by (rewrite Hp; apply updates_distinct).
  assert (forall k, k ∈ (updates v).*1 -> exists s, find_key k db = Some s) as Hf.
  { intros k Hk. destruct (seen db k Hn Hd (updates_seeded v k Hk)) as (s & Hs & _). by exists s. }
  destruct (save_spec us db Hu) as (db' & Hs & Hm & Hk).
  { apply Forall_forall. intros k Hk. rewrite Hp in Hk. by destruct (Hf k Hk) as [s ->]. }
  exists db'. split; [done|]. assert (forall k, find_key k db' = match assoc k (updates v) with
     | Some w => with_value w <$> find_key k db | None => find_key k db end) as Hk'.
  { intros k. rewrite Hk. by rewrite (assoc_perm us (updates v) k Hu Hp). }
  split; [done|]. assert (NoDup (map key db')) as Hn' by congruence.
  assert (seeded db' = true) as Hd'.
  { apply (seeded_types db); [done|]. intros k. rewrite Hk'. case_match; [|done]. by destruct (find_key k db). }
  apply reset_saved; [done| |by intros k; apply secret_listed].
  intros k w Hw. assert (k ∈ (updates v).*1) as Hi.
  { destruct (decide (k ∈ (updates v).*1)) as [Hi|Hi]; [done|]. apply assoc_None in Hi. congruence. }
  destruct (seen db' k Hn' Hd' (updates_seeded v k Hi)) as (s & Hs' & ->).
  rewrite Hk', Hw in Hs'. destruct (find_key k db) as [s0|]; [|done]. cbn in Hs'. by injection Hs' as <-.
Qed.
End Laws.

(** *** What was saved is shown *)

(** C28: over a table that has the seeds, each of the five forms saves what it was given: in
    whatever order the server handles the requests none of them is refused with 404, the
    settings of the form become the submitted values and no other setting changes (a
    secret left blank keeps what was stored), and the form that is then reset from the
    listed settings shows the submitted values, the secrets blank. *)
Theorem saved_settings_shown db : NoDup (map key db) -> seeded db = true ->
  shows_saved db General.FormValues (fun v => v) /\ shows_saved db Billing.FormValues (fun v => v) /\
  shows_saved db Backup.FormValues (fun v => v) /\ shows_saved db Notification.FormValues hide_notification /\
  shows_saved db PaymentGateway.FormValues hide_gateway.
Proof. intros Hn Hd. split_and!; by apply saved_is_shown. Qed.

(** *** Secrets *)

Definition same_but_secrets (s s' : SystemSetting) : Prop :=
  key s = key s' /\ value_type s = value_type s' /\ group_name s = group_name s' /\
  if String.eqb (value_type s) "secret" then (trim (value s) = "" <-> trim (value s') = "") else value s = value s'.

Lemma list_item_same s s' : same_but_secrets s s' -> list_item s = list_item s'.
Proof.
  destruct s as [k v t g], s' as [k' v' t' g']. unfold same_but_secrets, list_item. cbn. intros (-> & -> & -> & Hv).
  destruct (String.eqb t' "secret"); [|by rewrite Hv]. unfold with_value, maskSecret. cbn.
  destruct (String.eqb_spec (trim v) ""), (String.eqb_spec (trim v') ""); try done; tauto.
Qed.

Lemma find_key_elem db s : NoDup (map key db) -> s ∈ db -> find_key (key s) db = Some s.
Proof.
  unfold find_key. induction db as [|s' db IH]; intros Hn Hs; [inversion Hs|]. cbn in *. apply NoDup_cons in Hn as [Hk Hn].
  apply elem_of_cons in Hs as [->|Hs]; [by rewrite String.eqb_refl|].
  destruct (String.eqb_spec (key s') (key s)) as [E|E]; [|by apply IH].
  destruct Hk. rewrite E. apply list_elem_of_fmap. by exists s.
Qed.

Lemma isMasked_maskSecret w : isMasked (maskSecret w) = negb (String.eqb (trim w) "").
Proof. unfold maskSecret. by destruct (String.eqb (trim w) ""). Qed.

(** C29: the stored secrets never reach the browser: two tables that differ in secrets only
    (both blank or both not) are listed alike; the badge and the placeholder tell exactly
    whether a key is stored; and a form saved as it was shown sends no secret, so it
    cannot overwrite one with its mask. *)
Theorem secrets_stay_hidden db : NoDup (map key db) -> seeded db = true ->
  (forall db', Forall2 same_but_secrets db db' -> List_ db = List_ db') /\
  (PaymentGateway.isConfigured (List_ db) = true <->
   exists s, find_key "payment.xendit_secret_key" db = Some s /\ trim (value s) <> "") /\
  (forall k s, is_secret k = true -> find_key k db = Some s ->
     (PaymentGateway.getSecretPlaceholder (List_ db) k = "" <-> trim (value s) = "")) /\
  let m := to_map (List_ db) in
  forall k, k ∈ (PaymentGateway.gateway_updates (reset m)).*1 \/ k ∈ (Notification.notification_updates (reset m)).*1 \/
            k ∈ (General.general_updates (reset m)).*1 \/ k ∈ (Billing.billing_updates (reset m)).*1 \/
            k ∈ (Backup.backup_updates (reset m)).*1 -> is_secret k = false.
Proof.
  intros Hn Hd. assert (forall k, is_secret k = true -> exists w, to_map (List_ db) !! k = Some (maskSecret w)) as Hm
    by (intros k; by apply secret_listed).
  assert (forall k s, is_secret k = true -> find_key k db = Some s -> find_key k (List_ db) = Some (with_value (maskSecret (value s)) s)) as Hi.
  { intros k s Hk Hs. rewrite find_key_List, Hs. cbn. unfold list_item.
    assert (k ∈ map key seedSystemSettings) as Hin.
    { unfold is_secret in Hk. apply existsb_exists in Hk as (s0 & Hs0 & Hk). b2p. subst k.
      apply list_elem_of_fmap. exists s0. split; [done|]. by apply list_elem_of_In. }
    apply list_elem_of_fmap in Hin as (s0 & -> & Hs0). destruct (seeded_key db s0 Hd Hs0) as (s' & Hs' & Ht).
    rewrite Hs in Hs'. injection Hs' as <-. rewrite Ht, (seed_type_unique s0 Hs0), Hk. done. }
  split_and!.
  - clear. intros db' Hf. unfold List_. induction Hf as [|s s' db db' Hs _ IH]; [done|]. cbn.
    rewrite (list_item_same s s' Hs). f_equal. apply IH.
  - unfold PaymentGateway.isConfigured. rewrite existsb_exists. split.
    + intros (s & Hs & Hk). b2p. apply list_elem_of_In in Hs. pose proof (find_key_elem (List_ db) s) as Hf.
      rewrite keys_List in Hf. specialize (Hf Hn Hs). rewrite H in Hf. pose proof Hf as Hf'.
      rewrite find_key_List in Hf'. destruct (find_key "payment.xendit_secret_key" db) as [s0|] eqn:E; [|done].
      rewrite (Hi "payment.xendit_secret_key" s0 eq_refl E) in Hf. injection Hf as <-. cbn in *. rewrite isMasked_maskSecret in H0.
      exists s0. split; [done|]. by b2p.
    + intros (s & Hs & Hv). specialize (Hi "payment.xendit_secret_key" s eq_refl Hs). pose proof (find_some _ _ Hi) as [Hin Hk].
      eexists. split; [exact Hin|]. rewrite Hk. cbn. rewrite isMasked_maskSecret. by destruct (String.eqb_spec (trim (value s)) "").
  - intros k s Hk Hs. unfold PaymentGateway.getSecretPlaceholder. rewrite (Hi k s Hk Hs). cbn. rewrite isMasked_maskSecret.
    by destruct (String.eqb_spec (trim (value s)) "").
  - intros m k Hk. destruct_or! Hk.
    + exact (updates_shown (V:=PaymentGateway.FormValues) m Hm k Hk).
    + exact (updates_shown (V:=Notification.FormValues) m Hm k Hk).
    + exact (updates_shown (V:=General.FormValues) m Hm k Hk).
    + exact (updates_shown (V:=Billing.FormValues) m Hm k Hk).
    + exact (updates_shown (V:=Backup.FormValues) m Hm k Hk).
Qed.

(** *** Numbers *)

Lemma digits_not_space s : str_forall is_digit s = true -> str_forall (fun c => negb (is_space c)) s = true.
Proof. apply str_forall_impl. intros c Hc. by destruct (digit_not_space c Hc) as (-> & _). Qed.

Lemma Number_digits s : all_digits s = true -> Number_str s = Some (Qc_of (digits_val 0 s)).
Proof.
  unfold all_digits. intros H. b2p. unfold Number_str. rewrite trim_nospace by (by apply digits_not_space).
  destruct (String.eqb_spec s "") as [->|_]; [done|]. unfold decimal, read_sign.
  assert (span is_digit s = (s, "")) as Hs.
  { rewrite <- (app_str_nil_r s) at 1. by apply span_app. }
  destruct s as [|c s]; [done|]. pose proof H0 as Hc. cbn in Hc. b2p. destruct (digit_not_space c H1) as (_ & -> & ->).
  rewrite Hs, app_str_nil_r. cbn [String.eqb read_exponent String.length Z.of_nat]. unfold scale10.
  replace (0 <=? 0 - 0) with true by done. f_equal. f_equal. rewrite Z.mul_1_l. cbn -[digits_val Z.mul]. by rewrite Z.mul_1_r.
Qed.

Lemma Qle_Qc_of n m : Qle_bool (inject_Z n) (this (Qc_of m)) = (n <=? m) /\ Qle_bool (this (Qc_of m)) (inject_Z n) = (m <=? n).
Proof.
  unfold Qc_of. split; apply eq_true_iff_eq; rewrite Qle_bool_iff, Z.leb_le; cbn [this Q2Qc]; rewrite Qred_correct;
    unfold Qle, inject_Z; cbn; lia.
Qed.

Lemma at_least_digits n s : all_digits s = true -> at_least n s = (n <=? digits_val 0 s).
Proof. intros Hs. unfold at_least. rewrite (Number_digits s Hs). apply Qle_Qc_of. Qed.
Lemma at_most_digits n s : all_digits s = true -> at_most n s = (digits_val 0 s <=? n).
Proof. intros Hs. unfold at_most. rewrite (Number_digits s Hs). apply Qle_Qc_of. Qed.

Lemma digits_nonneg s a : 0 <= a -> str_forall is_digit s = true -> 0 <= digits_val a s.
Proof.
  revert a. induction s as [|c s IH]; intros a Ha; [done|]. cbn. intros H. b2p. rewrite H. apply IH; [|done].
  unfold is_digit, in_range in H. b2p. lia.
Qed.

Lemma Atoi_digits s : all_digits s = true -> Atoi s = if digits_val 0 s <? 2 ^ 63 then Some (digits_val 0 s) else None.
Proof.
  intros H. unfold all_digits in H. b2p. pose proof (digits_nonneg s 0 ltac:(lia) H0) as Hp. unfold Atoi.
  destruct s as [|c s]; [done|]. pose proof H0 as Hc. cbn in Hc. b2p. destruct (digit_not_space c H1) as (_ & -> & ->).
  rewrite H0. cbn [negb orb String.eqb]. rewrite Z.mul_1_l.
  replace (- 2 ^ 63 <=? digits_val 0 (String c s)) with true by (symmetry; b2p; lia). done.
Qed.

(** The numbers the billing, backup and gateway forms save are what the server's jobs read:
    an accepted text is read as the number it spells, within the bounds of its field, up to
    2^63; a longer one is stored all the same, and the job falls back to its default. *)
Theorem settings_numbers_read db k s def :
  value <$> find_key k db = Some s ->
  let n := digits_val 0 s in
  (all_digits s = true -> settingInt db k def = if n <? 2 ^ 63 then n else def) /\
  (forall b, Billing.billing_schema b = true ->
     (s = Billing.default_billing_day b -> settingInt db k def = n /\ 1 <= n <= 28) /\
     (s = Billing.invoice_due_days b \/ s = Billing.hard_suspend_after_days b -> 1 <= n /\ all_digits s = true) /\
     (s = Billing.isolir_after_days b -> 0 <= n /\ all_digits s = true)) /\
  (forall b, Backup.backup_schema b = true -> s = Backup.retention_days b -> 1 <= n /\ all_digits s = true) /\
  (forall g, PaymentGateway.gateway_schema g = true -> s = PaymentGateway.xendit_invoice_duration g ->
     300 <= n /\ all_digits s = true).
Proof.
  intros Hs n. assert (all_digits s = true -> settingInt db k def = if n <? 2 ^ 63 then n else def) as Hread.
  { intros Hd. unfold settingInt. destruct (find_key k db) as [x|]; [|done]. injection Hs as ->.
    rewrite (Atoi_digits s Hd). fold n. by destruct (n <? 2 ^ 63). }
  split_and!; [done| | |].
  - intros [a b c d e]. unfold Billing.billing_schema. cbn. intros Hb. b2p.
    split_and!.
    + intros ->. rewrite at_least_digits, at_most_digits in * by done. b2p. rewrite Hread by done. unfold n.
      destruct (_ <? 2 ^ 63) eqn:E; b2p; lia.
    + intros [-> | ->]; rewrite at_least_digits in * by done; b2p; split; done || lia.
    + intros ->. rewrite at_least_digits in * by done. b2p. split; done || lia.
  - intros [a b c]. unfold Backup.backup_schema. cbn. intros Hb ->. b2p. rewrite at_least_digits in * by done. b2p. split; done || lia.
  - intros [a b c d e]. unfold PaymentGateway.gateway_schema. cbn. intros Hb ->. b2p.
    rewrite at_least_digits in * by done. b2p. split; done || lia.
Qed.

(** *** Saving several settings at once *)

Section Unconfirmed.
Context {V : Type} `{SettingsFormLaws V hide} `{LatestOnly}.

(** A closure has counted at most one success, none while the latest call is open; the
    latest call is the last entry of its closure. *)
Record counted (p : page) : Prop := {
  at_most_one : forall i c, closures p !! i = Some c -> (2 <= length (entries c))%nat /\ (finished c <= 1)%nat;
  latest_call : forall c, last (calls p) = Some c ->
    exists cl, closures p !! owner c = Some cl /\ last (entries cl) = Some (entry c) /\
               (settled c = false -> finished cl = 0%nat) }.

Lemma counted_opened : counted opened.
Proof. split; done. Qed.

Lemma last_map {A B} (f : A -> B) l : last (map f l) = f <$> last l.
Proof. induction l as [|x l IH]; [done|]. destruct l; [done|exact IH]. Qed.

Lemma last_lookup_S {A} (l : list A) k x : l !! k = Some x -> S k = length l -> last l = Some x.
Proof. intros Hx Hl. rewrite last_lookup. by replace (pred (length l)) with k by lia. Qed.

Lemma counted_submit p v : counted p ->
  counted (Page (closures p ++ [Closure (updates v) 0 false])
             (calls p ++ map (fun u => Call (length (closures p)) u false) (updates v)) true).
Proof.
  intros [Hone Hlat]. pose proof (updates_two v) as Ht. split; cbn.
  - intros i c [Hc|[_ Hc]]%lookup_app_Some; [by eapply Hone|].
    apply list_lookup_singleton_Some in Hc as [_ <-]. cbn. split; [done|lia].
  - intros c Hc. rewrite last_app, last_map in Hc.
    destruct (last (updates v)) as [u|] eqn:Eu; cbn in Hc; [injection Hc as <-|apply last_None in Eu; rewrite Eu in Ht; cbn in Ht; lia].
    exists (Closure (updates v) 0 false). cbn. split_and!; [|done|done].
    rewrite lookup_app_r by lia. by rewrite Nat.sub_diag.
Qed.

Lemma Show_cache x ops : ~ In (Show x) (map Cache ops).
Proof. rewrite in_map_iff. intros (o & Ho & _). discriminate. Qed.
Lemma Show_request x us : ~ In (Show x) (map (fun u => Request (M_Settings_UpdateSetting u)) us).
Proof. rewrite in_map_iff. intros (o & Ho & _). discriminate. Qed.

Lemma lookup_closed (p : page) k c d : calls p !! k = Some c -> last (<[k := d]> (calls p)) =
  if Nat.eqb (S k) (length (calls p)) then Some d else last (calls p).
Proof.
  intros Hk. pose proof (lookup_lt_Some _ _ _ Hk) as Hl. rewrite !last_lookup, length_insert.
  destruct (Nat.eqb_spec (S k) (length (calls p))) as [E|E].
  - replace (pred (length (calls p))) with k by lia. by apply list_lookup_insert_eq.
  - apply list_lookup_insert_ne. lia.
Qed.

Lemma step_counted p e : counted p ->
  counted (step p e).1 /\
  (forall x, In (Show x) (step p e).2 ->
     exists k e' m, e = Settle k (Throw e') /\ S k = length (calls p) /\ x = Toast error m JUndef).
Proof.
  intros Hp. destruct e as [v|k a|]; cbn [step].
  - destruct (_ || _); cbn; [split; [done|tauto]|]. split; [by apply counted_submit|]. by intros x Hx%Show_request.
  - destruct (calls p !! k) as [[i u []]|] eqn:Ek; [by split|..|by split].
    destruct (closures p !! i) as [c|] eqn:Ec; [|by split].
    assert (forall x, ~ In (Show x) (refreshed u a)) as Hc by (intros x; unfold refreshed; destruct a; [apply Show_cache|tauto]).
    cbv zeta. generalize dependent (refreshed u a). intros cache Hc.
    destruct (mounted p && callbacks_run (length (calls p)) k) eqn:Er.
    + apply andb_prop in Er as [_ Er]. assert (S k = length (calls p)) as Hk.
      { pose proof (lookup_lt_Some _ _ _ Ek). destruct (decide (S k = length (calls p))) as [|Hn]; [done|].
        rewrite earlier_silent in Er by lia. done. }
      destruct Hp as [Hone Hlat]. destruct (Hlat _ (last_lookup_S _ _ _ Ek Hk)) as (cl & Hcl & Hlast & Hzero). cbn in *.
      rewrite Ec in Hcl. injection Hcl as <-. specialize (Hzero eq_refl). destruct (Hone i c Ec) as [Htwo _].
      assert (forall c', entries c' = entries c -> (finished c' <= 1)%nat ->
        counted (Page (<[i:=c']> (closures p)) (<[k:=Call i u true]> (calls p)) (mounted p))) as Hcount.
      { intros c' He Hf. split; cbn.
        - intros j d. destruct (decide (i = j)) as [<-|Hj].
          + rewrite list_lookup_insert_eq by (by eapply lookup_lt_Some). intros [= <-]. by rewrite He.
          + rewrite list_lookup_insert_ne by done. apply Hone.
        - intros d. rewrite (lookup_closed p k _ _ Ek). rewrite (proj2 (Nat.eqb_eq _ _) Hk). intros [= <-]. cbn.
          exists c'. rewrite list_lookup_insert_eq by (by eapply lookup_lt_Some). rewrite He. by split_and!. }
      destruct a as [d|e'].
      * destruct (success_counts c) as (He & Hf & Hs). rewrite Hzero in Hf, Hs.
        destruct (onSuccess c) as [c' es]. cbn in *. rewrite Hs by lia. split; [apply Hcount; [done|lia]|].
        rewrite app_nil_r. intros x Hx. by apply Hc in Hx.
      * destruct (error_tells u.1 c) as (He & Hf & Hs). destruct (onError u.1 c) as [c' es]. cbn in *.
        split; [apply Hcount; [done|lia]|]. intros x [Hx|Hx]%in_app_iff; [by apply Hc in Hx|].
        apply in_map_iff in Hx as (y & [= <-] & Hy). rewrite Forall_forall in Hs. apply list_elem_of_In in Hy.
        destruct (Hs y Hy) as [m ->]. by exists k, e', m.
    + split; [|intros x Hx; by apply Hc in Hx]. destruct Hp as [Hone Hlat]. split; cbn; [done|].
      intros d. rewrite (lookup_closed p k _ _ Ek). destruct (Nat.eqb_spec (S k) (length (calls p))) as [Hk|]; [|apply Hlat].
      intros [= <-]. cbn. destruct (Hlat _ (last_lookup_S _ _ _ Ek Hk)) as (cl & Hcl & Hl & _). by exists cl.
  - split; [|done]. destruct Hp as [Hone Hlat]. by split.
Qed.

Lemma run_counted es p : counted p -> counted (run p es).1 /\
  forall x, In (Show x) (run p es).2 -> exists m, x = Toast error m JUndef.
Proof.
  revert p. induction es as [|e es IH]; intros p Hp; [by split|]. cbn.
  destruct (step_counted p e Hp) as [Hone Hs]. destruct (step p e) as [p1 o1]. cbn in *.
  destruct (IH p1 Hone) as [Hlat Hr]. destruct (run p1 es) as [p2 o2]. cbn in *. split; [done|].
  intros x [Hx|Hx]%in_app_iff; [|by apply Hr]. destruct (Hs x Hx) as (_ & _ & m & _ & _ & ->). by exists m.
Qed.

Lemma never_confirmed es :
  (forall x, In (Show x) (run opened es).2 -> exists m, x = Toast error m JUndef) /\
  (forall k a x, In (Show x) (step (run opened es).1 (Settle k a)).2 -> S k = length (calls (run opened es).1) /\ fulfilled a = false).
Proof.
  destruct (run_counted es opened counted_opened) as [Hp Hs]. split; [done|]. intros k a x Hx.
  destruct (step_counted _ (Settle k a) Hp) as [_ Hshow]. by destruct (Hshow x Hx) as (k' & e' & m & [= -> ->] & Hk & _).
Qed.
End Unconfirmed.

Definition unconfirmed (V : Type) `{SettingsForm V} `{MutateCallbacks} : Prop := forall es : list action,
  (forall x, In (Show x) (run opened es).2 -> exists m, x = Toast error m JUndef) /\
  (forall k a x, In (Show x) (step (run opened es).1 (Settle k a)).2 ->
     S k = length (calls (run opened es).1) /\ fulfilled a = false).

(** What the five forms show of a save: nothing that confirms it, ever, since the success
    toast waits for the callbacks of every request and only those of the last one run; and
    of the refusals only that of the last request, so a setting the server refused before
    it is lost without a word. *)
Theorem saves_unconfirmed `{LatestOnly} :
  unconfirmed General.FormValues /\ unconfirmed Billing.FormValues /\ unconfirmed Backup.FormValues /\
  unconfirmed Notification.FormValues /\ unconfirmed PaymentGateway.FormValues.
Proof. split_and!; intros es; apply never_confirmed. Qed.

(** *** The gateway's test *)

(** [TestPaymentGateway], when no key is stored and when it reached the gateway. *)
Definition NO_KEY : string := "Secret key belum dikonfigurasi. Isi Payment Gateway Settings terlebih dahulu.".
Definition test_answer (db : list SystemSetting) (ping : option string) : answer :=
  match find_key "payment.xendit_secret_key" db with
  | Some s =>
      if String.eqb (trim (value s)) "" then
        Throw (AxiosErr "Request failed with status code 422"
                 (Some (JObj [("success", JBool false); ("message", JStr NO_KEY)])) (Some 422))
      else match ping with
           | Some e => Ok (JObj [("success", JBool false); ("message", JStr ("Koneksi gagal: " +:+ e))])
           | None => Ok (JObj [("success", JBool true); ("message", JStr "Koneksi ke Xendit berhasil.")])
           end
  | None => Throw (AxiosErr "Request failed with status code 422"
                 (Some (JObj [("success", JBool false); ("message", JStr NO_KEY)])) (Some 422))
  end.
Definition last_set (n : string) (tr : list event) : option jval :=
  last (omap (fun e => match e with Did (SetState m v) => if String.eqb m n then Some v else None | _ => None end) tr).

(** The test of the connection asks once and shows success exactly when a key is stored and
    the gateway answers; a gateway's refusal is shown with its reason, but the reason "no
    key is stored" is shown as an unreachable server. *)
Theorem gateway_test_told db ping o n : o n = test_answer db ping ->
  let tr := exec o n PaymentGateway.handleTestConnection in
  let stored := match find_key "payment.xendit_secret_key" db with
                | Some s => negb (String.eqb (trim (value s)) "") | None => false end in
  requests tr = [M_Settings_TestPaymentGateway] /\
  last_set "testStatus" tr = Some (JStr (if stored && match ping with None => true | Some _ => false end then "success" else "error")) /\
  last_set "testMessage" tr = Some (JStr (if stored then match ping with
                                                        | Some e => "Koneksi gagal: " +:+ e
                                                        | None => "Koneksi ke Xendit berhasil."
                                                        end else "Gagal menghubungi server. Coba lagi.")).
Proof.
  intros Ho tr stored. subst tr stored. unfold PaymentGateway.handleTestConnection. cbn [exec]. rewrite Ho. unfold test_answer.
  destruct (find_key _ db) as [s|]; [|done]. destruct (String.eqb (trim (value s)) ""); [done|]. by destruct ping.
Qed.

(** ** Witnesses *)

Definition fresh : list SystemSetting := seed [].
Definition latest (calls k : nat) : bool := Nat.eqb (S k) calls.
#[local] Instance latest_callbacks : MutateCallbacks := latest.
#[local] Instance latest_only : LatestOnly.
Proof.
  split; unfold callbacks_run, latest_callbacks, latest.
  - intros k. apply Nat.eqb_refl.
  - intros n k Hk. apply Nat.eqb_neq. lia.
Qed.
Definition gateway_values : PaymentGateway.FormValues :=
  PaymentGateway.Values true "xnd_development_1" "" "3600" "https://isp.example.com".

Lemma fresh_distinct : NoDup (map key fresh).
Proof. apply (bool_decide_unpack _). vm_compute. done. Qed.

Lemma saved_settings_shown_witness :
  seeded fresh = true /\ schema gateway_values = true /\
  (exists db', save (updates gateway_values) fresh = Some db' /\ reset (to_map (List_ db')) = hide_gateway gateway_values) /\
  (exists db', save (updates gateway_values) fresh = Some db' /\
     value <$> find_key "payment.xendit_secret_key" db' = Some "xnd_development_1").
Proof.
  assert (seeded fresh = true) as Hd by (vm_compute; done).
  destruct (saved_settings_shown fresh fresh_distinct Hd) as (_ & _ & _ & _ & H).
  destruct (H gateway_values (updates gateway_values) eq_refl (reflexivity _)) as (db' & Hs & Hk & Hr).
  split; [exact Hd|]. split; [reflexivity|]. split; exists db'; (split; [exact Hs|]); [exact Hr|].
  rewrite (Hk "payment.xendit_secret_key"). reflexivity.
Defined.

Lemma secrets_stay_hidden_witness :
  NoDup (map key fresh) /\ PaymentGateway.isConfigured (List_ fresh) = false.
Proof.
  split; [exact fresh_distinct|]. apply not_true_iff_false. intros Hc.
  destruct (secrets_stay_hidden fresh fresh_distinct eq_refl) as (_ & [H _] & _).
  destruct (H Hc) as (s & Hs & Hv). vm_compute in Hs. injection Hs as <-. by apply Hv.
Defined.

Lemma settings_numbers_read_witness :
  value <$> find_key "payment.xendit_invoice_duration" fresh = Some "86400" /\
  settingInt fresh "payment.xendit_invoice_duration" 0 = 86400.
Proof.
  split; [reflexivity|].
  destruct (settings_numbers_read fresh "payment.xendit_invoice_duration" "86400" 0 eq_refl) as [H _]. exact (H eq_refl).
Defined.

Lemma saves_unconfirmed_witness :
  toasts (omap (fun o => match o with Show e => Some (Did e) | _ => None end)
    (run opened [Submit (General.Values "ISP" ""); Settle 0 (Throw (NativeErr "x")); Settle 1 (Ok JNull)]).2) = [] /\
  unconfirmed General.FormValues.
Proof. split; [reflexivity|]. exact (proj1 saves_unconfirmed). Defined.

Lemma gateway_test_told_witness :
  last_set "testMessage" (exec (fun _ => test_answer fresh None) 0 PaymentGateway.handleTestConnection) =
    Some (JStr "Gagal menghubungi server. Coba lagi.").
Proof. exact (proj2 (proj2 (gateway_test_told fresh None (fun _ => test_answer fresh None) 0 eq_refl))). Defined.
