(* ===== verification/Notify.v ===== *)
(** * Notification channels ([features/notification-center], [features/whatsapp])

    Recipient tokens and their picker, the table that routes events to recipients, the
    cards that edit the notification settings, the test messages, and the dialog that pairs
    a phone.  The settings themselves are the table of Settings; an event's recipients are
    one more setting, comma separated ([api/handler/notification_events.go]). *)
From stdpp Require Import sorting.
From S2P Require Import Prelude JsString JsValue JsNumber ApiErrors Http QueryCache QueryKeys ApiClient Hooks Ui Actions.
From S2P Require Import Wire Forms FormContracts Settings.

(** ** Recipients ([api/schema.ts]) *)

Inductive TargetToken : Type := wa_admin | tg_admin | wa_group (jid : string) | wa_number (phone : string).

Definition parseToken (t : string) : TargetToken :=
  if String.eqb t "wa_admin" then wa_admin
  else if String.eqb t "tg_admin" then tg_admin
  else if startsWith "wa_group:" t then wa_group (str_drop 9 t)
  else if startsWith "wa_number:" t then wa_number (str_drop 10 t)
  else wa_admin.

Definition tokenToString (t : TargetToken) : string :=
  match t with
  | wa_admin => "wa_admin"
  | tg_admin => "tg_admin"
  | wa_group jid => "wa_group:" +:+ jid
  | wa_number phone => "wa_number:" +:+ phone
  end.

(** A group of the list: its jid and name. *)
Definition tokenLabel (t : TargetToken) (groups : list (string * string)) : string :=
  match t with
  | wa_admin => "Admin WA"
  | tg_admin => "Admin Telegram"
  | wa_group jid =>
      match List.find (fun g => String.eqb g.1 jid) groups with
      | Some g => "Grup: " +:+ g.2
      | None => "Grup: " +:+ jid
      end
  | wa_number phone => "Nomor: " +:+ phone
  end.

(** ** The picker ([event-target-picker.tsx]) *)

Module Picker.
Definition FIXED_OPTIONS : list (TargetToken * string) :=
  [(wa_admin, "Admin WA (nomor admin)"); (tg_admin, "Admin Telegram (chat ID)")].

Definition has (value : list string) (s : string) : bool := existsb (String.eqb s) value.
Definition without (value : list string) (s : string) : list string := List.filter (fun v => negb (String.eqb v s)) value.

(** What a click offers [onChange], from [value]; [None]: it is not called. *)
Definition toggleToken (value : list string) (t : TargetToken) : list string :=
  let s := tokenToString t in if has value s then without value s else value ++ [s].
Definition addManualPhone (value : list string) (manualPhone : string) : option (list string) :=
  let phone := trim manualPhone in
  if String.eqb phone "" then None
  else let token := tokenToString (wa_number phone) in if has value token then None else Some (value ++ [token]).
Definition removeToken (value : list string) (s : string) : list string := without value s.
(** The cross of the chip of [s]. *)
Definition remove_chip (value : list string) (s : string) : list string :=
  removeToken value (tokenToString (parseToken s)).

Inductive click : Type := Toggle (t : TargetToken) | AddPhone (s : string) | RemoveChip (s : string).
(** What the popover and the chips allow. *)
Definition offered (connected : bool) (groups : list (string * string)) (value : list string) (c : click) : bool :=
  match c with
  | Toggle (wa_group j) => connected && existsb (fun g => String.eqb g.1 j) groups
  | Toggle (wa_number _) => false
  | Toggle _ => true
  | AddPhone _ => true
  | RemoveChip s => has value s
  end.
Definition pick (value : list string) (c : click) : list string :=
  match c with
  | Toggle t => toggleToken value t
  | AddPhone s => addManualPhone value s ?? value
  | RemoveChip s => remove_chip value s
  end.
End Picker.

(** ** The server's side *)

(** [parseTargets], [strings.Join]. *)
Definition parseTargets (v : string) : list string :=
  if String.eqb (trim v) "" then []
  else List.filter (fun t => negb (String.eqb t "")) (map trim (JsString.split "," v)).
Definition joinTargets (targets : list string) : string := join "," targets.
Definition settingKey (event : string) : string := "notification.event." +:+ event +:+ ".targets".
Definition notifEventDefs : list string :=
  ["invoice_issued"; "invoice_reminder"; "service_isolir"; "service_suspend"; "payment_received"; "registration_approved"].

(** [SetOrCreate]. *)
Definition SetOrCreate (db : list SystemSetting) (k v : string) : list SystemSetting :=
  match Set_ db k v with Some db' => db' | None => db ++ [Setting k v "string" "notification"] end.
(** [List] and [Update] of the events; [None] is the 404 of an unknown event. *)
Definition event_targets (db : list SystemSetting) (event : string) : list string :=
  match find_key (settingKey event) db with Some s => parseTargets (value s) | None => [] end.
Definition update_event (db : list SystemSetting) (event : string) (targets : list string) : option (list SystemSetting) :=
  if existsb (String.eqb event) notifEventDefs
  then Some (SetOrCreate db (settingKey event) (joinTargets targets)) else None.

(** ** The routing table ([event-routing-table.tsx]) *)

Module Routing.
Record Config : Type := Cfg { event : string; targets : list string }.
Record state : Type := St {
  configs : list Config;                    (** [query.data ?? []] *)
  drafts : gmap string (list string);
  saving : option string;
  calls : list (string * bool) }.           (** the event of each call of [mutate], and whether it settled *)
Definition opened (configs : list Config) : state := St configs ∅ None [].

Definition getTargets (s : state) (cfg : Config) : list string := drafts s !! event cfg ?? targets cfg.
Definition sort (l : list string) : list string := merge_sort String.le l.
Definition isDirty (s : state) (cfg : Config) : bool :=
  match drafts s !! event cfg with
  | Some d => negb (bool_decide (sort d = sort (targets cfg)))
  | None => false
  end.
(** [d.sort()] sorts the draft itself: rendering the rows sorts the drafts they have. *)
Definition render (s : state) : state :=
  St (configs s) (fold_left (fun m cfg => alter sort (event cfg) m) (configs s) (drafts s)) (saving s) (calls s).

Inductive action : Type :=
| SetTargets (event : string) (targets : list string)
| Save (event : string)
| Settle (k : nat) (a : answer)
| Listed (configs : list Config).

Inductive output : Type := Request (m : mutation_hook) | Cache (op : cache_op) | Show (e : effect).

Section Steps.
Context `{MutateCallbacks}.
Definition cfg_of (s : state) (e : string) : option Config := List.find (fun c => String.eqb (event c) e) (configs s).
Definition payload_of (targets : list string) : jval := JObj [("targets", JArr (map JStr targets))].
Definition act (s : state) (a : action) : state * list output :=
  match a with
  | SetTargets e t => (St (configs s) (<[e := t]> (drafts s)) (saving s) (calls s), [])
  | Save e =>
      match cfg_of s e with
      | Some cfg =>
          if isDirty s cfg && negb (bool_decide (saving s = Some e)) then
            let targets := drafts s !! e ?? [] in
            (St (configs s) (drafts s) (Some e) (calls s ++ [(e, false)]),
             [Request (M_NotificationCenter_UpdateNotifEvent (e, payload_of targets))])
          else (s, [])
      | None => (s, [])
      end
  | Settle k a =>
      match calls s !! k with
      | Some (e, false) =>
          let calls' := <[k := (e, true)]> (calls s) in
          let cache := match a with
                       | Ok d => map Cache (mutation_ops (M_NotificationCenter_UpdateNotifEvent (e, JUndef)) d)
                       | Throw _ => [] end in
          if callbacks_run (length (calls s)) k then
            match a with
            | Ok _ => (St (configs s) (delete e (drafts s)) None calls', cache ++ [Show (Toast success "Konfigurasi disimpan" JUndef)])
            | Throw err => (St (configs s) (drafts s) None calls', [Show (toast_error "Gagal menyimpan" err)])
            end
          else (St (configs s) (drafts s) (saving s) calls', cache)
      | _ => (s, [])
      end
  | Listed c => (St c (drafts s) (saving s) (calls s), [])
  end.
Definition step (s : state) (a : action) : state * list output := let '(s', o) := act s a in (render s', o).
Fixpoint run (s : state) (es : list action) : state * list output :=
  match es with
  | [] => (s, [])
  | e :: es' => let '(s1, o1) := step s e in let '(s2, o2) := run s1 es' in (s2, o1 ++ o2)
  end.
End Steps.
End Routing.

(** ** The cards that edit settings *)

(** [settings.find((s) => s.key === k)] and an update only when the value differs. *)
Definition differing (settings : list SystemSetting) (k new : string) : list (string * string) :=
  match find_key k settings with
  | Some s => if String.eqb new (value s) then [] else [(k, new)]
  | None => []
  end.
Definition value_or (d : string) (settings : list SystemSetting) (k : string) : string :=
  match find_key k settings with Some s => value s | None => d end.

(** [Promise.all(ops).then(...).catch(...)], the requests settling in the order [order]. *)
Definition first_rejection (order : list nat) (rs : list answer) : option jserror :=
  head (omap (fun i => match rs !! i with Some (Throw e) => Some e | _ => None end) order).
Definition save_ops (hook : string * string -> mutation_hook) (nothing failed : string) (saved : list effect)
    (order : list nat) (ops : list (string * string)) : prog :=
  match ops with
  | [] => Emit (Toast info nothing JUndef) Return
  | _ =>
      MutateAll (map hook ops) (fun rs =>
        match first_rejection order rs with
        | None => emits saved Return
        | Some err => Emit (toast_error failed err) Return
        end)
  end.

(** [WaSettingsCard]: [null] is "as listed". *)
Module WaCard.
Record Draft : Type := Drafted { enabled : option bool; phone : option string }.
Definition untouched : Draft := Drafted None None.
Definition currentEnabled (settings : list SystemSetting) (d : Draft) : bool :=
  enabled d ?? String.eqb (value_or "" settings "notification.wa_enabled") "true".
Definition currentPhone (settings : list SystemSetting) (d : Draft) : string :=
  phone d ?? value_or "" settings "notification.admin_phone".
Definition ops (settings : list SystemSetting) (d : Draft) : list (string * string) :=
  differing settings "notification.wa_enabled" (bool_value (currentEnabled settings d)) ++
  differing settings "notification.admin_phone" (currentPhone settings d).
Definition save (order : list nat) (settings : list SystemSetting) (d : Draft) : prog :=
  save_ops M_NotificationCenter_UpdateSetting "Tidak ada perubahan" "Gagal menyimpan"
    [Toast success "Pengaturan disimpan" JUndef; SetState "enabled" JNull; SetState "phone" JNull] order (ops settings d).
End WaCard.

(** [TelegramConfigCard]. *)
Module TelegramCard.
Record Draft : Type := Drafted { enabled : option bool; token : option string; chatID : option string }.
Definition untouched : Draft := Drafted None None None.
Definition currentEnabled (settings : list SystemSetting) (d : Draft) : bool :=
  enabled d ?? String.eqb (value_or "" settings "notification.telegram_enabled") "true".
Definition currentChatID (settings : list SystemSetting) (d : Draft) : string :=
  chatID d ?? value_or "" settings "notification.telegram_chat_id".
Definition TOKEN : string := "notification.telegram_bot_token".
Definition token_ops (d : Draft) : list (string * string) :=
  let tokenVal := trim (token d ?? "") in if String.eqb tokenVal "" then [] else [(TOKEN, tokenVal)].
Definition ops (settings : list SystemSetting) (d : Draft) : list (string * string) :=
  differing settings "notification.telegram_enabled" (bool_value (currentEnabled settings d)) ++
  token_ops d ++ differing settings "notification.telegram_chat_id" (currentChatID settings d).
Definition tokenPlaceholder (settings : list SystemSetting) : string :=
  if isMasked (value_or "" settings TOKEN) then "•••••••• (tersimpan — kosongkan untuk tidak mengubah)"
  else "1234567890:ABCdefGhIJKlmNoPQRsTUVwxYZ".
Definition save (order : list nat) (settings : list SystemSetting) (d : Draft) : prog :=
  save_ops M_NotificationCenter_UpdateSetting "Tidak ada perubahan" "Gagal menyimpan"
    [Toast success "Konfigurasi Telegram disimpan" JUndef; SetState "enabled" JNull; SetState "token" JNull;
     SetState "chatID" JNull] order (ops settings d).
(** "Konfigurasi tampak lengkap". *)
Definition complete (settings : list SystemSetting) (d : Draft) : bool :=
  currentEnabled settings d &&
  (negb (String.eqb (value_or "" settings TOKEN) "") || negb (String.eqb (token d ?? "") "")) &&
  negb (String.eqb (currentChatID settings d) "").
End TelegramCard.

(** [NotificationSettingsForm] of the WhatsApp page, whose state starts from the settings. *)
Module SettingsCard.
Record state : Type := St { enabled : bool; phone : string }.
Definition initial (settings : list SystemSetting) : state :=
  St (String.eqb (value_or "" settings "notification.wa_enabled") "true") (value_or "" settings "notification.admin_phone").
Definition ops (settings : list SystemSetting) (s : state) : list (string * string) :=
  differing settings "notification.wa_enabled" (bool_value (enabled s)) ++
  differing settings "notification.admin_phone" (trim (phone s)).
Definition save (order : list nat) (settings : list SystemSetting) (s : state) : prog :=
  save_ops M_WhatsApp_UpdateSetting "Nothing to save" "Failed to save settings" [Toast success "Settings saved" JUndef]
    order (ops settings s).
End SettingsCard.

(** ** Test messages and logging out *)

Definition blank (s : string) : bool := String.eqb (trim s) "".
Definition send_test (hook : jval -> mutation_hook) (required sent failed : string) (phone message : string) : prog :=
  if blank phone || blank message then Emit (Toast error required JUndef) Return
  else awaits (hook (JObj [("phone", trimmed phone); ("message", trimmed message)]))
         (fun _ => [Toast success sent JUndef]) (fun err => [toast_error failed err]).
Definition WaTestCard_send : string -> string -> prog :=
  send_test M_NotificationCenter_SendWhatsAppTest "Nomor dan pesan wajib diisi" "Pesan uji terkirim" "Gagal mengirim".
Definition TestMessageCard_send : string -> string -> prog :=
  send_test M_WhatsApp_SendWhatsAppTest "Phone and message are required" "Test message sent" "Failed to send".
Definition TelegramTestCard_send (message : string) : prog :=
  if blank message then Emit (Toast error "Pesan wajib diisi" JUndef) Return
  else awaits (M_NotificationCenter_SendTelegramTest (JObj [("message", trimmed message)]))
         (fun _ => [Toast success "Pesan uji terkirim ke Telegram" JUndef]) (fun err => [toast_error "Gagal mengirim" err]).

Definition TabWhatsApp_logout : prog :=
  awaits M_NotificationCenter_LogoutWhatsApp (fun _ => [Toast success "Berhasil logout" JUndef])
    (fun err => [Toast error (js_String (parseAPIError err)) JUndef]).
Definition ConnectionCard_logout : prog :=
  awaits M_WhatsApp_LogoutWhatsApp (fun _ => [Toast success "Logged out" JUndef]) (fun err => [toast_error "Logout failed" err]).

(** ** Pairing a phone ([wa-connect-modal.tsx]) *)

Module Connect.
Inductive Method : Type := qr | by_phone.
Record state : Type := St {
  is_open : bool; connected : bool; method : Method; phone : string; pairCode : string;
  calls : list (string * option answer) }.  (** the calls of [pairMut.mutate] and their answers *)
Definition mounted : state := St false false qr "" "" [].

Definition handleLogout : prog :=
  awaits M_NotificationCenter_LogoutWhatsApp (fun _ => [Toast success "Berhasil logout dari WhatsApp" JUndef])
    (fun err => [toast_error "Gagal logout" err]).

Inductive action : Type :=
| OpenChange (open : bool) | Status (connected : bool) | TypePhone (s : string) | GetCode | Switch
| Settle (k : nat) (a : answer).

Definition isPending (s : state) : bool := match last (calls s) with Some (_, None) => true | _ => false end.
(** The query that fetches the QR code. *)
Definition qr_enabled (s : state) : bool := is_open s && negb (connected s).

Section Steps.
Context `{MutateCallbacks}.
Definition step (s : state) (a : action) : state * list mutation_hook :=
  let '(St o c m p pc cs) := s in
  match a with
  | OpenChange true => (St true c m p pc cs, [])
  | OpenChange false => (St false c qr "" "" cs, [])
  | Status c' => (St o c' m p pc cs, [])
  | TypePhone p' => match m with by_phone => if o && negb c then (St o c m p' pc cs, []) else (s, []) | qr => (s, []) end
  | GetCode =>
      match m with
      | by_phone =>
          if o && negb c && negb (String.eqb p "") && negb (isPending s)
          then (St o c m p pc (cs ++ [(p, None)]), [M_NotificationCenter_PairWhatsAppPhone p]) else (s, [])
      | qr => (s, [])
      end
  | Switch => if o && negb c then (St o c (match m with qr => by_phone | by_phone => qr end) p "" cs, []) else (s, [])
  | Settle k a =>
      match cs !! k with
      | Some (p0, None) =>
          let cs' := <[k := (p0, Some a)]> cs in
          match a with
          | Ok res => if callbacks_run (length cs) k then (St o c m p (text "code" res) cs', []) else (St o c m p pc cs', [])
          | Throw _ => (St o c m p pc cs', [])
          end
      | _ => (s, [])
      end
  end.
Fixpoint run (s : state) (es : list action) : state * list mutation_hook :=
  match es with
  | [] => (s, [])
  | e :: es' => let '(s1, o1) := step s e in let '(s2, o2) := run s1 es' in (s2, o1 ++ o2)
  end.
End Steps.

(** The code that is on the screen. *)
Definition shown_code (s : state) : option string :=
  match method s with
  | by_phone => if is_open s && negb (connected s) && negb (String.eqb (pairCode s) "") then Some (pairCode s) else None
  | qr => None
  end.
End Connect.

(** ** Theorems *)

(** *** Recipients *)

Lemma group_prefix j : startsWith "wa_group:" ("wa_group:" +:+ j) = true.
Proof. apply prefix_app. Qed.
Lemma number_prefix p : startsWith "wa_number:" ("wa_number:" +:+ p) = true.
Proof. apply prefix_app. Qed.

Lemma parse_tokenToString t : parseToken (tokenToString t) = t.
Proof. destruct t as [| |j|p]; [done|done|..]; unfold parseToken, tokenToString; by rewrite ?group_prefix, ?number_prefix. Qed.

(** The texts [tokenToString] writes. *)
Definition known (s : string) : bool :=
  String.eqb s "wa_admin" || String.eqb s "tg_admin" || startsWith "wa_group:" s || startsWith "wa_number:" s.

Lemma tokenToString_known t : known (tokenToString t) = true.
Proof. destruct t as [| |j|p]; [done|done|..]; unfold known, tokenToString; by rewrite ?group_prefix, ?number_prefix, ?orb_true_r. Qed.

Lemma tokenToString_parse s : tokenToString (parseToken s) = s <-> known s = true.
Proof.
  split; [intros <-; apply tokenToString_known|]. unfold known, parseToken.
  destruct (String.eqb_spec s "wa_admin") as [->|H1]; [done|]. destruct (String.eqb_spec s "tg_admin") as [->|H2]; [done|].
  cbn [orb]. destruct (startsWith "wa_group:" s) eqn:E1.
  { intros _. apply prefix_spec in E1 as [t ->]. reflexivity. }
  destruct (startsWith "wa_number:" s) eqn:E2; [|done]. intros _. apply prefix_spec in E2 as [t ->].
  reflexivity.
Qed.

Lemma has_spec value s : Picker.has value s = true <-> s ∈ value.
Proof. unfold Picker.has. rewrite existsb_exists, list_elem_of_In. setoid_rewrite String.eqb_eq. naive_solver. Qed.

Lemma without_spec value s x : x ∈ Picker.without value s <-> x ∈ value /\ x <> s.
Proof.
  unfold Picker.without. rewrite !list_elem_of_In, filter_In. by rewrite negb_true_iff, String.eqb_neq.
Qed.

Lemma NoDup_filter' {A} (f : A -> bool) l : NoDup l -> NoDup (List.filter f l).
Proof. intros H. apply NoDup_ListNoDup, List.NoDup_filter. by apply NoDup_ListNoDup. Qed.

Lemma NoDup_snoc_new {A} (l : list A) x : NoDup l -> x ∉ l -> NoDup (l ++ [x]).
Proof.
  intros Hl Hx. apply NoDup_app. split; [done|]. split; [|apply NoDup_singleton].
  intros y Hy [= ->]%list_elem_of_singleton. done.
Qed.

(** Recipients are sets: whatever is picked, no recipient is chosen twice and every choice
    the picker writes is read back as the choice it was; a second click on an option takes
    the first one back; and a chip's cross removes its recipient, except a stored text the
    page does not know, which is shown as the admin: its cross removes the admin. *)
Theorem recipients_picked value c : NoDup value ->
  (forall t, parseToken (tokenToString t) = t) /\
  NoDup (Picker.pick value c) /\
  (forall s, s ∈ Picker.pick value c -> s ∈ value \/ exists t, s = tokenToString t) /\
  (forall t, tokenToString t ∉ value -> Picker.toggleToken (Picker.toggleToken value t) t = value) /\
  (forall s, known s = true -> forall x, x ∈ Picker.remove_chip value s <-> x ∈ value /\ x <> s) /\
  (forall s, known s = false -> s ∈ value -> s ∈ Picker.remove_chip value s /\ "wa_admin" ∉ Picker.remove_chip value s).
Proof.
  intros Hn. split_and!.
  - apply parse_tokenToString.
  - destruct c as [t|s|s]; cbn.
    + unfold Picker.toggleToken. destruct (Picker.has value (tokenToString t)) eqn:E; [by apply NoDup_filter'|].
      apply NoDup_snoc_new; [done|]. rewrite <- has_spec. by rewrite E.
    + unfold Picker.addManualPhone. destruct (String.eqb (trim s) ""); [done|]. case_match eqn:E; [done|].
      apply NoDup_snoc_new; [done|]. rewrite <- has_spec. by rewrite E.
    + by apply NoDup_filter'.
  - intros s. destruct c as [t|p|p]; cbn.
    + unfold Picker.toggleToken. case_match; [rewrite without_spec; tauto|].
      rewrite elem_of_app, list_elem_of_singleton. intros [Hs| ->]; [by left|right; by exists t].
    + unfold Picker.addManualPhone. destruct (String.eqb (trim p) ""); [by left|]. case_match; [by left|]. cbn.
      rewrite elem_of_app, list_elem_of_singleton. intros [Hs| ->]; [by left|right; by exists (wa_number (trim p))].
    + unfold Picker.remove_chip, Picker.removeToken. rewrite without_spec. tauto.
  - intros t Ht. unfold Picker.toggleToken. destruct (Picker.has value (tokenToString t)) eqn:E; [by apply has_spec in E|].
    replace (Picker.has (value ++ [tokenToString t]) (tokenToString t)) with true
      by (symmetry; apply has_spec; rewrite elem_of_app, list_elem_of_singleton; auto).
    unfold Picker.without. rewrite List.filter_app. cbn. rewrite String.eqb_refl. cbn. rewrite app_nil_r.
    clear -Ht. induction value as [|x l IH]; [done|]. rewrite not_elem_of_cons in Ht. cbn.
    destruct (String.eqb_spec x (tokenToString t)); [by subst; tauto|]. cbn. f_equal. tauto.
  - intros s Hs x. unfold Picker.remove_chip, Picker.removeToken. rewrite (proj2 (tokenToString_parse s) Hs). apply without_spec.
  - intros s Hs Hv. assert (parseToken s = wa_admin) as E.
    { unfold known in Hs. unfold parseToken.
      apply orb_false_iff in Hs as [Hs H4]. apply orb_false_iff in Hs as [Hs H3]. apply orb_false_iff in Hs as [H1 H2].
      by rewrite H1, H2, H3, H4. }
    unfold Picker.remove_chip, Picker.removeToken. rewrite E, !without_spec. cbn. split; [split; [done|]|tauto].
    intros ->. done.
Qed.

(** *** Routing *)

(** What survives the comma-separated setting. *)
Definition storable (t : string) : bool :=
  negb (String.eqb t "") && tight t && str_forall (fun c => negb (Ascii.eqb c ",")) t.

Lemma storable_trim t : storable t = true -> trim t = t.
Proof. unfold storable. intros H. b2p. by apply trim_tight. Qed.

Lemma trimStart_empty s : trimStart s = "" -> str_forall is_space s = true.
Proof. induction s as [|c s IH]; [done|]. cbn. destruct (is_space c); [exact IH|done]. Qed.

Lemma trim_first c s : is_space c = false -> trim (String c s) <> "".
Proof.
  intros Hc E. unfold trim, trimEnd in E. rewrite (trimStart_id (String c s)) in E by (cbn; by rewrite Hc).
  apply (f_equal String.rev) in E. rewrite rev_rev in E. apply trimStart_empty in E.
  rewrite str_forall_rev in E. cbn in E. by rewrite Hc in E.
Qed.

Lemma storable_first t : storable t = true -> exists c t', t = String c t' /\ is_space c = false.
Proof.
  unfold storable, tight. destruct t as [|c t']; [done|]. intros H. b2p. exists c, t'. split; [done|].
  cbn [first_char] in H1. destruct (first_char (String.rev (String c t'))) eqn:E; [by b2p|].
  rewrite rev_cons in E. by destruct (String.rev t').
Qed.

Lemma parse_join l : Forall (fun t => storable t = true) l -> parseTargets (joinTargets l) = l.
Proof.
  intros Hl. unfold parseTargets, joinTargets. destruct l as [|t l]; [done|].
  assert (trim (join "," (t :: l)) <> "") as Hb.
  { apply Forall_cons in Hl as [Ht _]. destruct (storable_first t Ht) as (c & t' & -> & Hc).
    destruct l; cbn; by apply trim_first. }
  destruct (String.eqb_spec (trim (join "," (t :: l))) ""); [done|].
  change "," with (String "," "") at 1 2. rewrite split_join; [|done|].
  2: { eapply Forall_impl; [exact Hl|]. unfold storable. intros x H. by b2p. }
  clear -Hl. induction Hl as [|x m Hx Hl IH]; [done|]. cbn. rewrite (storable_trim x Hx).
  unfold storable in Hx. destruct (String.eqb x ""); [done|]. cbn. by rewrite IH.
Qed.

Lemma SetOrCreate_spec db k v k' : value <$> find_key k' (SetOrCreate db k v) =
  if String.eqb k k' then Some v else value <$> find_key k' db.
Proof.
  unfold SetOrCreate. destruct (find_key k db) as [s|] eqn:E.
  - destruct (Set_spec db k v s E) as (db' & -> & _ & H). rewrite H.
    destruct (String.eqb_spec k k') as [<-|]; [by rewrite E|done].
  - unfold Set_. rewrite E, find_key_app. cbn. destruct (String.eqb_spec k k') as [<-|]; [by rewrite E|].
    by destruct (find_key k' db).
Qed.

Lemma settingKey_inj e e' : settingKey e = settingKey e' -> e = e'.
Proof. unfold settingKey. intros H. apply app_str_inj_l in H. by apply app_str_inj_r in H. Qed.

Lemma trimStart_first s c t : trimStart s = String c t -> is_space c = false.
Proof. induction s as [|d s IH]; [done|]. cbn. destruct (is_space d) eqn:E; [exact IH|]. by intros [= <- _]. Qed.

Lemma storable_phone p : trim p <> "" -> str_forall (fun c => negb (Ascii.eqb c ",")) (trim p) = true ->
  storable ("wa_number:" +:+ trim p) = true.
Proof.
  intros Hn Hc. unfold storable. rewrite str_forall_app, Hc, andb_true_r. cbn [String.append String.eqb str_forall].
  unfold tight. change (first_char _) with (Some "w"%char) at 1. cbn [negb andb Ascii.eqb Bool.eqb].
  assert (String.rev ("wa_number:" +:+ trim p) = trimStart (String.rev (trimStart p)) +:+ String.rev "wa_number:") as E.
  { rewrite rev_app_str. unfold trim, trimEnd. by rewrite rev_rev. }
  change (String "w" _) with ("wa_number:" +:+ trim p). rewrite E.
  destruct (trimStart (String.rev (trimStart p))) as [|c t] eqn:Et.
  { unfold trim, trimEnd in Hn. by rewrite Et in Hn. }
  cbn [String.append first_char]. by rewrite (trimStart_first _ _ _ Et).
Qed.

(** What a list of recipients is read back as can be stored again. *)
Lemma trimStart_suffix s : exists p, s = p +:+ trimStart s.
Proof.
  induction s as [|c s [p IH]]; [by exists ""|]. cbn. destruct (is_space c); [|by exists ""].
  exists (String c p). cbn. by rewrite <- IH.
Qed.

Lemma trimStart_head s : from_option (fun c => negb (is_space c)) true (first_char (trimStart s)) = true.
Proof. destruct (trimStart s) as [|c t] eqn:E; [done|]. cbn. by rewrite (trimStart_first _ _ _ E). Qed.

Lemma trim_is_tight s : tight (trim s) = true.
Proof.
  pose proof (trimStart_head s) as Hu. unfold trim, trimEnd. generalize dependent (trimStart s). intros u Hu.
  unfold tight. rewrite rev_rev. pose proof (trimStart_head (String.rev u)) as Hw.
  destruct (trimStart_suffix (String.rev u)) as [p Hp]. apply (f_equal String.rev) in Hp.
  rewrite rev_rev, rev_app_str in Hp. rewrite Hp in Hu.
  destruct (String.rev (trimStart (String.rev u))) as [|c t]; [done|]. cbn [first_char].
  destruct (first_char (trimStart (String.rev u))) as [d|]; [|done]. cbn in Hu, Hw. by rewrite Hu, Hw.
Qed.

Lemma trimStart_forall p s : str_forall p s = true -> str_forall p (trimStart s) = true.
Proof. destruct (trimStart_suffix s) as [q E]. rewrite E at 1. rewrite str_forall_app. by intros [_ H]%andb_true_iff. Qed.

Lemma trim_forall p s : str_forall p s = true -> str_forall p (trim s) = true.
Proof. intros H. unfold trim, trimEnd. rewrite str_forall_rev. apply trimStart_forall. rewrite str_forall_rev. by apply trimStart_forall. Qed.

Lemma split_pieces c s : Forall (fun x => str_forall (fun d => negb (Ascii.eqb d c)) x = true) (JsString.split (String c "") s).
Proof.
  induction s as [|d s IH]; [by repeat constructor|]. unfold JsString.split in *. cbn [split_go].
  destruct (String.prefix (String c "") (String d s)) eqn:E; [by constructor|].
  assert (Ascii.eqb d c = false) as Hd.
  { apply Ascii.eqb_neq. intros ->. cbn in E. by destruct (Ascii.ascii_dec c c), s. }
  destruct IH; cbn; (constructor; [|done]); cbn; by rewrite Hd.
Qed.

Lemma parse_storable v : Forall (fun t => storable t = true) (parseTargets v).
Proof.
  unfold parseTargets. destruct (String.eqb (trim v) ""); [done|]. change "," with (String "," "").
  induction (split_pieces "," v) as [|x l Hx _ IH]; [done|]. cbn. destruct (String.eqb (trim x) "") eqn:E; [done|].
  constructor; [|done]. unfold storable. rewrite E, trim_is_tight. by apply trim_forall.
Qed.

(** C30: saving the recipients of an event leaves every other event and every other setting
    alone, and the list gives the recipients back as they were saved, in their order, if
    and only if none of them holds a comma, is blank or begins or ends with a space. A phone
    typed into the picker without a comma is such; with one it is not. *)
Theorem routing_roundtrip db e ts : existsb (String.eqb e) notifEventDefs = true ->
  exists db', update_event db e ts = Some db' /\
    (event_targets db' e = ts <-> Forall (fun t => storable t = true) ts) /\
    (forall e', e' <> e -> event_targets db' e' = event_targets db e') /\
    (forall k, k <> settingKey e -> value <$> find_key k db' = value <$> find_key k db) /\
    (forall value' p, Forall (fun t => storable t = true) value' -> str_forall (fun c => negb (Ascii.eqb c ",")) (trim p) = true ->
       Forall (fun t => storable t = true) (Picker.pick value' (Picker.AddPhone p))).
Proof.
  intros He. unfold update_event. rewrite He. eexists. split; [done|].
  assert (forall e' d, event_targets d e' = match value <$> find_key (settingKey e') d with Some v => parseTargets v | None => [] end) as Hev.
  { intros e' d. unfold event_targets. by destruct (find_key (settingKey e') d). }
  split_and!.
  - rewrite Hev, SetOrCreate_spec, String.eqb_refl. split; [intros <-; apply parse_storable|apply parse_join].
  - intros e' Hn. rewrite !Hev, SetOrCreate_spec. destruct (String.eqb_spec (settingKey e) (settingKey e')) as [E|]; [|done].
    by apply settingKey_inj in E.
  - intros k Hk. rewrite SetOrCreate_spec. by destruct (String.eqb_spec (settingKey e) k).
  - intros value' p Hv Hp. cbn. unfold Picker.addManualPhone. destruct (String.eqb_spec (trim p) "") as [|Hn]; [done|].
    case_match; [done|]. cbn. apply Forall_app. split; [done|]. constructor; [|done].
    by apply storable_phone.
Qed.

Section RoutingLaws.
Import Routing.
Context `{LatestOnly}.

Lemma sort_idem l : sort (sort l) = sort l.
Proof.
  apply (Sorted_unique String.le); try apply (Sorted_merge_sort String.le). apply merge_sort_Permutation.
Qed.

Lemma sort_perm l l' : sort l = sort l' <-> l ≡ₚ l'.
Proof.
  split; intros E.
  - rewrite <- (merge_sort_Permutation String.le l), <- (merge_sort_Permutation String.le l'). unfold sort in E. by rewrite E.
  - apply (Sorted_unique String.le); try apply (Sorted_merge_sort String.le). unfold sort. by rewrite !merge_sort_Permutation.
Qed.

Lemma render_draft s e : drafts (render s) !! e =
  if bool_decide (e ∈ map event (configs s)) then sort <$> drafts s !! e else drafts s !! e.
Proof.
  unfold render. cbn. generalize (drafts s) as m. induction (configs s) as [|c cs IH]; intros m; [done|]. cbn [fold_left map].
  rewrite IH. destruct (decide (e = event c)) as [->|Hn].
  - rewrite lookup_alter_eq. rewrite (bool_decide_eq_true_2 (event c ∈ _ :: _)) by (by left).
    case_bool_decide; [|done]. destruct (m !! event c); [|done]. cbn. by rewrite sort_idem.
  - rewrite lookup_alter_ne by done. rewrite (bool_decide_ext (e ∈ event c :: map event cs) (e ∈ map event cs)); [done|].
    rewrite elem_of_cons. tauto.
Qed.

(** The drafts of the listed rows are sorted; a row is being saved exactly while the latest
    call is open. *)
Record coherent (s : state) : Prop := {
  rows_sorted : forall e d, e ∈ map event (configs s) -> drafts s !! e = Some d -> sort d = d;
  saving_last : forall e, saving s = Some e <-> last (calls s) = Some (e, false) }.

Lemma render_coherent s : (forall e, saving s = Some e <-> last (calls s) = Some (e, false)) -> coherent (render s).
Proof.
  intros Hs. split; [|exact Hs]. intros e d He. rewrite render_draft. cbn in He. rewrite bool_decide_eq_true_2 by done.
  destruct (drafts s !! e); [|done]. intros [= <-]. apply sort_idem.
Qed.

Lemma last_closed (l : list (string * bool)) k e b : l !! k = Some (e, b) ->
  last (<[k := (e, true)]> l) = if Nat.eqb (S k) (length l) then Some (e, true) else last l.
Proof.
  intros Hk. pose proof (lookup_lt_Some _ _ _ Hk). rewrite !last_lookup, length_insert.
  destruct (Nat.eqb_spec (S k) (length l)).
  - replace (pred (length l)) with k by lia. by apply list_lookup_insert_eq.
  - apply list_lookup_insert_ne. lia.
Qed.

Lemma step_coherent s a : coherent s -> coherent (step s a).1.
Proof.
  intros [Hr Hs]. unfold step. destruct (act s a) as [s' o] eqn:E. cbn. apply render_coherent.
  destruct a as [e t|e|k a|c]; cbn in E.
  - injection E as <- _. exact Hs.
  - destruct (cfg_of s e); [|by injection E as <- _]. destruct (isDirty s c && _); injection E as <- _; [|exact Hs].
    cbn. intros e'. rewrite last_snoc. naive_solver.
  - destruct (calls s !! k) as [[e []]|] eqn:Ek; [by injection E as <- _| |by injection E as <- _].
    pose proof (lookup_lt_Some _ _ _ Ek) as Hl.
    destruct (decide (S k = length (calls s))) as [Hk|Hk].
    + rewrite <- Hk, latest_runs in E. destruct a; injection E as <- _; cbn; intros e'; rewrite (last_closed _ _ _ _ Ek);
        rewrite (proj2 (Nat.eqb_eq _ _) Hk); done.
    + rewrite earlier_silent in E by lia. injection E as <- _. cbn. intros e'. rewrite (last_closed _ _ _ _ Ek).
      rewrite (proj2 (Nat.eqb_neq _ _) Hk). apply Hs.
  - injection E as <- _. exact Hs.
Qed.

Lemma run_coherent es s : coherent s -> coherent (run s es).1.
Proof.
  revert s. induction es as [|e es IH]; intros s Hs; [done|]. cbn. pose proof (step_coherent s e Hs) as H1.
  destruct (step s e) as [s1 o1]. specialize (IH s1 H1). by destruct (run s1 es).
Qed.

Lemma opened_coherent cs : coherent (opened cs).
Proof. split; [done|]. by split. Qed.

Lemma cfg_of_event s e c : cfg_of s e = Some c -> e ∈ map event (configs s) /\ event c = e.
Proof.
  unfold cfg_of. intros Hc. apply find_some in Hc as [Hin He]. apply String.eqb_eq in He. split; [|done].
  apply list_elem_of_fmap. exists c. split; [done|]. by apply list_elem_of_In.
Qed.

(** The table saves changes, and only those: after any run, a click on save sends one
    request exactly when the row is listed, its draft holds other recipients than the
    list (not only in another order), and the row is not being saved; the request holds
    the recipients of the draft, sorted; the answer to the latest request takes the draft
    away when it succeeds and keeps it otherwise; and a draft equal to what the list gives
    back is no change any more. *)
Theorem routing_saves_changes cs es e : let s := (run (opened cs) es).1 in
  (forall m, In (Request m) (step s (Save e)).2 <->
     exists cfg d, cfg_of s e = Some cfg /\ drafts s !! e = Some d /\ ~ d ≡ₚ targets cfg /\ saving s <> Some e /\
       m = M_NotificationCenter_UpdateNotifEvent (e, payload_of (sort d))) /\
  (saving s = Some e <-> last (calls s) = Some (e, false)) /\
  (forall k a, calls s !! k = Some (e, false) -> S k = length (calls s) ->
     drafts (step s (Settle k a)).1 !! e = (if fulfilled a then None else drafts s !! e) /\ saving (step s (Settle k a)).1 = None) /\
  (forall cfg d, cfg_of s e = Some cfg -> drafts s !! e = Some d -> d ≡ₚ targets cfg -> isDirty s cfg = false).
Proof.
  intros s. pose proof (run_coherent es (opened cs) (opened_coherent cs)) as [Hr Hs]. fold s in Hr, Hs. split_and!.
  - intros m. unfold step. cbn [act]. destruct (cfg_of s e) as [cfg|] eqn:Ec.
    2: { cbn. split; [done|]. by intros (? & ? & ? & _). }
    destruct (cfg_of_event s e cfg Ec) as [Hin He]. unfold isDirty. rewrite He. destruct (drafts s !! e) as [d|] eqn:Ed.
    2: { cbn. split; [done|]. by intros (? & ? & _ & ? & _). }
    pose proof (Hr e d Hin Ed) as Hd. case_bool_decide as Hp; cbn.
    { split; [done|]. intros (? & ? & [= <-] & [= <-] & Hn & _). by apply sort_perm in Hp. }
    case_bool_decide as Hv; cbn.
    { split; [done|]. intros (? & ? & _ & _ & _ & Hn & _). done. }
    split.
    + intros [[= <-]|[]]. exists cfg, d. split_and!; try done; [by rewrite <- sort_perm|by rewrite Hd].
    + intros (? & ? & [= <-] & [= <-] & _ & _ & ->). left. by rewrite Hd.
  - apply Hs.
  - intros k a Hk Hl. unfold step. cbn [act]. rewrite Hk. rewrite <- Hl, latest_runs. destruct a; cbn [fst]; rewrite render_draft; cbn.
    + rewrite lookup_delete_eq. split; [|done]. by case_match.
    + split; [|done]. case_bool_decide as Hin; [|done]. destruct (drafts s !! e) as [d|] eqn:Ed; [|done]. cbn.
      by rewrite (Hr e d Hin Ed).
  - intros cfg d Ec Ed Hp. destruct (cfg_of_event s e cfg Ec) as [_ He]. unfold isDirty. rewrite He, Ed.
    by rewrite bool_decide_eq_true_2 by (by apply sort_perm).
Qed.
End RoutingLaws.

(** *** The cards *)

Section CardLaws.
Context (db db' : list SystemSetting) (us : list (string * string)).
Context (Hn : NoDup (map key db)) (Hd : seeded db = true) (Hu : NoDup us.*1) (Hs : Settings.save us db = Some db').

Lemma listed_after k : k ∈ map key seedSystemSettings -> is_secret k = false ->
  exists s, find_key k (List_ db) = Some s /\
  exists s', find_key k (List_ db') = Some s' /\ value s' = assoc k us ?? value s.
Proof.
  intros Hk Hsec. destruct (seen db k Hn Hd Hk) as (s & Hf & _).
  assert (Forall (fun k => find_key k db <> None) us.*1) as Hall.
  { clear -Hs. revert db Hs. unfold Settings.save. induction us as [|u us' IH]; intros db Hs; [constructor|]. cbn in Hs.
    destruct (Set_ db u.1 u.2) as [d|] eqn:E; [|exfalso; clear -Hs; induction us'; done].
    unfold Set_ in E. destruct (find_key u.1 db) as [s|] eqn:Ef; [|done]. constructor; [by rewrite Ef|].
    specialize (IH d Hs). eapply Forall_impl; [exact IH|]. cbn. intros k Hk Hx. apply Hk.
    injection E as <-. clear -Hx. unfold find_key in *. induction db as [|x l IHl]; [done|]. cbn in *.
    destruct (String.eqb (key x) u.1); cbn; destruct (String.eqb (key x) k); try done; by apply IHl. }
  destruct (save_spec us db Hu Hall) as (d & Hs' & _ & Hf'). rewrite Hs in Hs'. injection Hs' as <-.
  assert (forall x y, value_type x = value_type y -> value_type x <> "secret" -> list_item x = x) as Hitem.
  { intros x _ _ Hx. unfold list_item. by destruct (String.eqb_spec (value_type x) "secret"). }
  assert (value_type s <> "secret") as Hty.
  { apply list_elem_of_fmap in Hk as (s0 & -> & Hs0). destruct (seeded_key db s0 Hd Hs0) as (s' & Hs' & Ht).
    rewrite Hf in Hs'. injection Hs' as <-. rewrite Ht. intros E. rewrite <- (seed_type_unique s0 Hs0), E in Hsec. done. }
  exists s. rewrite !find_key_List, Hf, Hf'. cbn. rewrite (Hitem s s eq_refl Hty). split; [done|].
  destruct (assoc k us) as [w|]; cbn; rewrite Hf; cbn; eexists; (split; [reflexivity|]).
  - rewrite (Hitem (with_value w s) s eq_refl Hty). done.
  - by rewrite (Hitem s s eq_refl Hty).
Qed.

Lemma value_after d k : k ∈ map key seedSystemSettings -> is_secret k = false ->
  value_or d (List_ db') k = assoc k us ?? value_or d (List_ db) k.
Proof. intros Hk Hsec. destruct (listed_after k Hk Hsec) as (s & E & s' & E' & Hv). unfold value_or. by rewrite E, E'. Qed.

Lemma differing_after k new : k ∈ map key seedSystemSettings -> is_secret k = false ->
  (forall w, (k, w) ∈ us -> w = new) ->
  differing (List_ db') k new = List.filter (fun op => negb (bool_decide (op ∈ us))) (differing (List_ db) k new).
Proof.
  intros Hk Hsec Hw. destruct (listed_after k Hk Hsec) as (s & E & s' & E' & Hv). unfold differing. rewrite E, E', Hv.
  destruct (assoc k us) as [w|] eqn:Ea; cbn.
  - apply (assoc_Some _ _ _ Hu) in Ea. pose proof (Hw w Ea). subst w. rewrite String.eqb_refl.
    destruct (String.eqb new (value s)); [done|]. cbn. by rewrite bool_decide_eq_true_2.
  - destruct (String.eqb new (value s)); [done|]. cbn. rewrite bool_decide_eq_false_2; [done|].
    intros Hin. apply (assoc_Some _ _ _ Hu) in Hin. congruence.
Qed.
End CardLaws.

Definition keep (us : list (string * string)) (op : string * string) : bool := negb (bool_decide (op ∈ us)).

Lemma differing_keys settings k new : Forall (fun op => op = (k, new)) (differing settings k new) /\
  (length (differing settings k new) <= 1)%nat.
Proof. unfold differing. repeat case_match; split; cbn; try lia; repeat constructor. Qed.

Lemma differing_in settings k new op : op ∈ differing settings k new -> op = (k, new).
Proof. intros H. exact (proj1 (Forall_forall _ _) (proj1 (differing_keys settings k new)) op H). Qed.

Lemma sub_in {A} (P : A -> bool) us ops x : us ≡ₚ List.filter P ops -> x ∈ us -> x ∈ ops.
Proof. intros -> Hx. apply list_elem_of_In, filter_In in Hx as [Hx _]. by apply list_elem_of_In. Qed.

Lemma sub_NoDup (P : string * string -> bool) us ops : us ≡ₚ List.filter P ops -> NoDup ops.*1 -> NoDup us.*1.
Proof.
  intros ->. induction ops as [|op ops IH]; [done|]. cbn. intros [Hop Ho]%NoDup_cons. destruct (P op); [|by apply IH].
  cbn. constructor; [|by apply IH]. intros Hin. apply Hop. apply list_elem_of_fmap in Hin as (x & -> & Hx).
  apply list_elem_of_fmap. exists x. split; [done|]. apply list_elem_of_In, filter_In in Hx as [Hx _]. by apply list_elem_of_In.
Qed.

Lemma NoDup_differing settings k new rest : NoDup rest.*1 -> k ∉ rest.*1 -> NoDup (differing settings k new ++ rest).*1.
Proof. intros Hr Hk. unfold differing. destruct (find_key k settings); [|done]. case_match; [done|]. cbn. by constructor. Qed.

Lemma not_in_differing settings k k' new : k <> k' -> k ∉ (differing settings k' new).*1.
Proof. intros Hk (op & -> & Hop)%list_elem_of_fmap. apply differing_in in Hop as ->. done. Qed.

Lemma bool_value_true b : String.eqb (bool_value b) "true" = b.
Proof. by destruct b. Qed.

(** One setting of a card: [cur settings] is what the card shows for it, which a draft
    fixes and which otherwise follows the list. *)
Lemma shown_after db db' us d k (k_in : k ∈ map key seedSystemSettings) (k_open : is_secret k = false) new
    (draft : option string) :
  NoDup (map key db) -> seeded db = true -> NoDup us.*1 -> Settings.save us db = Some db' ->
  (forall w, (k, w) ∈ us -> w = new) -> new = draft ?? value_or d (List_ db) k ->
  draft ?? value_or d (List_ db') k = new.
Proof.
  intros Hn Hd Hu Hs Hw Hnew. destruct draft as [v|]; [done|]. cbn in *.
  rewrite (value_after db db' us Hn Hd Hu Hs d k k_in k_open). destruct (assoc k us) as [w|] eqn:Ea; cbn; [|done].
  apply (assoc_Some _ _ _ Hu) in Ea. by apply Hw.
Qed.

(** Saving the WhatsApp card: it sends one update for each setting whose value differs from
    the list, and nothing when none does.  Whichever of the updates the server takes, a
    second click sends exactly the others; when it took them all, the card cleared of its
    drafts shows what was entered. *)
Theorem wa_card_saves db d P us : NoDup (map key db) -> seeded db = true ->
  us ≡ₚ List.filter P (WaCard.ops (List_ db) d) ->
  exists db', Settings.save us db = Some db' /\
    WaCard.ops (List_ db') d = List.filter (keep us) (WaCard.ops (List_ db) d) /\
    (us ≡ₚ WaCard.ops (List_ db) d ->
       WaCard.currentEnabled (List_ db') WaCard.untouched = WaCard.currentEnabled (List_ db) d /\
       WaCard.currentPhone (List_ db') WaCard.untouched = WaCard.currentPhone (List_ db) d).
Proof.
  set (e := WaCard.currentEnabled (List_ db) d). set (p := WaCard.currentPhone (List_ db) d).
  set (ke := "notification.wa_enabled"). set (kp := "notification.admin_phone").
  intros Hn Hd Hus. assert (NoDup (WaCard.ops (List_ db) d).*1) as Ho.
  { unfold WaCard.ops. apply NoDup_differing; [|by apply not_in_differing].
    rewrite <- (app_nil_r (differing _ kp _)). apply NoDup_differing; [constructor|by intros ?%elem_of_nil]. }
  pose proof (sub_NoDup P us _ Hus Ho) as Hu.
  assert (ke ∈ map key seedSystemSettings) as Ie by distinct_keys. assert (kp ∈ map key seedSystemSettings) as Ip by distinct_keys.
  assert (forall k w, (k, w) ∈ us -> (k = ke /\ w = bool_value e) \/ (k = kp /\ w = p)) as Hin.
  { intros k w Hx%(sub_in P us _ _ Hus). unfold WaCard.ops in Hx.
    apply elem_of_app in Hx as [Hx|Hx]; apply differing_in in Hx; injection Hx as -> ->; auto. }
  destruct (save_spec us db Hu) as (db' & Hs & _).
  { apply Forall_forall. intros k (op & -> & Hop)%list_elem_of_fmap. destruct op as [k w]. cbn.
    destruct (Hin k w Hop) as [[-> _]|[-> _]]; [destruct (seen db ke Hn Hd Ie) as (s & -> & _)|destruct (seen db kp Hn Hd Ip) as (s & -> & _)]; done. }
  exists db'. split; [done|].
  assert (forall w, (ke, w) ∈ us -> w = bool_value e) as We by (intros w Hw; by destruct (Hin _ _ Hw) as [[_ ?]|[? _]]).
  assert (forall w, (kp, w) ∈ us -> w = p) as Wp by (intros w Hw; by destruct (Hin _ _ Hw) as [[? _]|[_ ?]]).
  assert (WaCard.currentPhone (List_ db') d = p) as Ep by (by apply (shown_after db db' us "" kp Ip eq_refl p (WaCard.phone d))).
  assert (WaCard.currentEnabled (List_ db') d = e) as Ee.
  { unfold e, WaCard.currentEnabled. destruct (WaCard.enabled d) as [b|] eqn:Eb; [done|]. cbn. fold ke.
    rewrite (value_after db db' us Hn Hd Hu Hs "" ke Ie eq_refl). destruct (assoc ke us) as [w|] eqn:Ea; cbn; [|done].
    apply (assoc_Some _ _ _ Hu) in Ea. rewrite (We w Ea), bool_value_true. unfold e, WaCard.currentEnabled. by rewrite Eb. }
  split.
  - unfold WaCard.ops. rewrite Ee, Ep, List.filter_app. fold ke kp e p. f_equal; by apply differing_after.
  - intros Hall. assert (forall k new, differing (List_ db) k new ⊆ us -> k ∈ map key seedSystemSettings -> is_secret k = false ->
      (forall w, (k, w) ∈ us -> w = new) -> value_or "" (List_ db') k = new) as Hval.
    { intros k new Hsub Ik Sk Wk. rewrite (value_after db db' us Hn Hd Hu Hs "" k Ik Sk).
      destruct (assoc k us) as [w|] eqn:Ea; cbn; [apply (assoc_Some _ _ _ Hu) in Ea; by apply Wk|].
      apply assoc_None in Ea. destruct (seen db k Hn Hd Ik) as (s & Hf & _). unfold value_or, differing in *.
      rewrite find_key_List, Hf in *. cbn in *. destruct (String.eqb_spec new (value (list_item s))) as [->|]; [done|].
      destruct Ea. apply list_elem_of_fmap. exists (k, new). split; [done|]. apply Hsub. by left. }
    unfold WaCard.ops in Hall. fold ke kp e p in Hall. split.
    + unfold WaCard.currentEnabled at 1. cbn. fold ke. rewrite (Hval ke (bool_value e)); [apply bool_value_true| |done|done|done].
      intros x Hx. rewrite Hall. apply elem_of_app. by left.
    + unfold WaCard.currentPhone at 1. cbn. fold kp. apply Hval; [|done|done|done]. intros x Hx. rewrite Hall. apply elem_of_app. by right.
Qed.

Lemma first_rejection_None order rs : order ≡ₚ seq 0 (length rs) ->
  first_rejection order rs = None <-> forallb fulfilled rs = true.
Proof.
  intros Ho. unfold first_rejection. rewrite head_None, forallb_forall. split.
  - intros Hnil r Hr. apply list_elem_of_In, list_elem_of_lookup in Hr as [i Hi]. destruct r as [v|e]; [done|].
    assert (e ∈ omap (fun i => match rs !! i with Some (Throw e) => Some e | _ => None end) order) as He.
    { apply list_elem_of_omap. exists i. split; [|cbv beta; unfold answer in *; by rewrite Hi]. rewrite Ho. apply elem_of_seq.
      apply lookup_lt_Some in Hi. lia. }
    rewrite Hnil in He. by apply elem_of_nil in He.
  - intros Hall. destruct (omap _ order) as [|e l] eqn:E; [done|].
    assert (e ∈ omap (fun i => match rs !! i with Some (Throw e) => Some e | _ => None end) order) as He by (rewrite E; by left).
    apply list_elem_of_omap in He as (i & _ & Hi). destruct (rs !! i) as [[v|e']|] eqn:Er; [done| |done].
    apply list_elem_of_lookup_2, list_elem_of_In in Er. by apply Hall in Er.
Qed.

Lemma no_effect_sent e ms rs : ~ In (Did e) (zip_with Sent ms rs).
Proof. revert rs. induction ms as [|m ms IH]; intros [|r rs]; cbn; try tauto. intros [|Hi]; [discriminate|by apply (IH rs)]. Qed.

(** What a card's save does, in whatever order its requests settle: one request per
    differing setting; the success toast, and the drafts cleared, exactly when all of them
    were taken; one error otherwise, the drafts kept; and without a difference no request. *)
Theorem cards_tell hook nothing failed msg sets order ops o n :
  order ≡ₚ seq 0 (length ops) -> Forall (fun e => exists k v, e = SetState k v) sets ->
  let saved := Toast success msg JUndef :: sets in
  let tr := exec o n (save_ops hook nothing failed saved order ops) in
  requests tr = map hook ops /\
  toasts tr = (match ops with
               | [] => [(info, nothing)]
               | _ => if forallb fulfilled (map o (seq n (length ops))) then [(success, msg)] else [(error, failed)]
               end) /\
  (sets <> [] -> (forall e, e ∈ sets -> In (Did e) tr) <->
     ops <> [] /\ forallb fulfilled (map o (seq n (length ops))) = true).
Proof.
  intros Ho Hsets saved tr. subst saved tr. destruct ops as [|op ops]; cbn [save_ops].
  { split_and!; try done. intros Hne. split; [|tauto]. intros Hall. destruct sets as [|e sets]; [done|].
    apply Forall_cons in Hsets as [(k & v & ->) _]. specialize (Hall (SetState k v) ltac:(by left)). cbn in Hall.
    destruct Hall as [|[]]; discriminate. }
  set (ms := map hook (op :: ops)). set (rs := map o (seq n (length (op :: ops)))). cbn [exec].
  assert (length ms = length (op :: ops)) as Hl by (unfold ms; by rewrite length_map).
  rewrite Hl. fold rs. assert (length rs = length ms) as Hrs by (unfold rs; by rewrite length_map, length_seq, Hl).
  rewrite requests_app, toasts_app, requests_zip, toasts_zip by done.
  assert (forall es, requests (exec o (n + length (op :: ops)) (emits es Return)) = []) as Hq
    by (induction es as [|e es IH]; [done|exact IH]).
  assert (forall sets, Forall (fun e => exists k v, e = SetState k v) sets ->
    toasts (exec o (n + length (op :: ops)) (emits sets Return)) = []) as Ht.
  { intros l Hl'. induction Hl' as [|e l (k & v & ->) _ IH]; [done|exact IH]. }
  pose proof (first_rejection_None order rs) as Hf. rewrite Hrs, Hl in Hf. specialize (Hf Ho).
  assert (forall e, ~ In (Did e) (zip_with Sent ms rs)) as Hz by (intros e; apply no_effect_sent).
  clearbody ms rs.
  destruct (first_rejection order rs) as [err|] eqn:E.
  - assert (forallb fulfilled rs = false) as Ef by (apply not_true_iff_false; rewrite <- Hf; done). rewrite Ef. cbn.
    split_and!; [by rewrite app_nil_r|done|]. intros Hne. split; [|by intros [_ ?]].
    intros Hall. destruct sets as [|e sets]; [done|]. apply Forall_cons in Hsets as [(k & v & ->) _].
    specialize (Hall (SetState k v) ltac:(by left)). apply in_app_iff in Hall as [Hi|[Hi|[]]]; [by apply Hz in Hi|discriminate].
  - assert (forallb fulfilled rs = true) as Ef by (by apply Hf). rewrite Ef. cbn [emits exec].
    split_and!.
    + cbn. rewrite Hq. by rewrite app_nil_r.
    + cbn. by rewrite Ht.
    + intros Hne. split; [done|]. intros _ e He. apply in_app_iff. right. right. clear -He. revert n.
      induction sets as [|x sets IH]; intros n; [by apply elem_of_nil in He|].
      apply elem_of_cons in He as [->|He]; [by left|right; by apply IH].
Qed.

(** The Telegram token: one that was typed is stored trimmed and shown by its mask only; a
    blank input sends none and leaves the stored one. *)
Theorem telegram_token_kept db d P us : NoDup (map key db) -> seeded db = true ->
  us ≡ₚ List.filter P (TelegramCard.ops (List_ db) d) -> (forall op, op.1 = TelegramCard.TOKEN -> P op = true) ->
  exists db', Settings.save us db = Some db' /\
    value <$> find_key TelegramCard.TOKEN db' =
      (if blank (TelegramCard.token d ?? "") then value <$> find_key TelegramCard.TOKEN db
       else Some (trim (TelegramCard.token d ?? ""))) /\
    (value_or "" (List_ db') TelegramCard.TOKEN = "" \/ isMasked (value_or "" (List_ db') TelegramCard.TOKEN) = true).
Proof.
  intros Hn Hd Hus HP. set (T := TelegramCard.TOKEN) in *.
  set (ke := "notification.telegram_enabled"). set (kc := "notification.telegram_chat_id").
  assert (NoDup (TelegramCard.ops (List_ db) d).*1) as Ho.
  { unfold TelegramCard.ops, TelegramCard.token_ops. fold ke kc T.
    assert (NoDup (differing (List_ db) kc (TelegramCard.currentChatID (List_ db) d)).*1) as H1.
    { rewrite <- (app_nil_r (differing _ kc _)). apply NoDup_differing; [constructor|by intros ?%elem_of_nil]. }
    apply NoDup_differing.
    - case_match; [exact H1|]. cbn. constructor; [by apply not_in_differing|exact H1].
    - rewrite fmap_app, elem_of_app. intros [Hx|Hx]; [|by apply not_in_differing in Hx].
      case_match; [by apply elem_of_nil in Hx|]. cbn in Hx. by apply list_elem_of_singleton in Hx. }
  pose proof (sub_NoDup P us _ Hus Ho) as Hu.
  assert (forall op, op ∈ TelegramCard.ops (List_ db) d -> op.1 ∈ map key seedSystemSettings) as Hseed.
  { intros op. unfold TelegramCard.ops, TelegramCard.token_ops. rewrite !elem_of_app. intros [Hx|[Hx|Hx]].
    - apply differing_in in Hx as ->. distinct_keys.
    - case_match; [by apply elem_of_nil in Hx|]. apply list_elem_of_singleton in Hx as ->. distinct_keys.
    - apply differing_in in Hx as ->. distinct_keys. }
  destruct (save_spec us db Hu) as (db' & Hs & Hm & Hf).
  { apply Forall_forall. intros k (op & -> & Hop)%list_elem_of_fmap.
    destruct (seen db op.1 Hn Hd (Hseed op (sub_in P us _ _ Hus Hop))) as (s & -> & _). done. }
  exists db'. split; [done|]. destruct (seen db T Hn Hd ltac:(distinct_keys)) as (s & Es & _).
  assert (forall w, (T, w) ∈ us <-> (T, w) ∈ TelegramCard.token_ops d) as HT.
  { intros w. rewrite Hus, list_elem_of_In, filter_In, <- list_elem_of_In. rewrite (HP (T, w) eq_refl).
    unfold TelegramCard.ops. fold ke kc. rewrite !elem_of_app. split; [|tauto]. intros [[Hx|[Hx|Hx]] _]; [|done|].
    - by apply differing_in in Hx.
    - by apply differing_in in Hx. }
  assert (value <$> find_key T db' = (if blank (TelegramCard.token d ?? "") then value <$> find_key T db
       else Some (trim (TelegramCard.token d ?? "")))) as Hval.
  { rewrite Hf. unfold TelegramCard.token_ops in HT. fold T in HT. unfold blank.
    destruct (String.eqb (trim (TelegramCard.token d ?? "")) "") eqn:Eb.
    - destruct (assoc T us) as [w|] eqn:Ea; [|done]. apply (assoc_Some _ _ _ Hu), HT, elem_of_nil in Ea as [].
    - rewrite (proj2 (assoc_Some T (trim (TelegramCard.token d ?? "")) us Hu)); [by rewrite Es|]. apply HT. by left. }
  split; [exact Hval|].
  assert (exists s', find_key T db' = Some s' /\ value_type s' = "secret") as (s' & Es' & Et).
  { assert (value_type s = "secret") as Ets.
    { assert (T ∈ map key seedSystemSettings) as Hin by distinct_keys. apply list_elem_of_fmap in Hin as (s0 & Ek & Hs0).
      destruct (seeded_key db s0 Hd Hs0) as (s1 & H1 & H2). rewrite <- Ek, Es in H1. injection H1 as <-.
      rewrite H2. pose proof (seed_type_unique s0 Hs0) as H3. rewrite <- Ek in H3. by apply String.eqb_eq. }
    rewrite Hf, Es. destruct (assoc T us); cbn; eexists; (split; [reflexivity|done]). }
  unfold value_or. rewrite find_key_List, Es'. cbn. unfold list_item. rewrite Et. cbn. rewrite isMasked_maskSecret.
  unfold maskSecret. destruct (String.eqb (trim (value s')) ""); [by left|by right].
Qed.

(** *** Test messages *)

(** [dto.WhatsAppTestRequest], [dto.TelegramTestRequest]. *)
Definition WhatsAppTestRequest : list gfield :=
  [str "phone" [Required; Min 3; Max 20]; str "message" [Required; Min 1; Max 1000]].
Definition TelegramTestRequest : list gfield := [str "message" [Required; Min 1]].

(** A test message goes out exactly when its texts are not blank, trimmed; the backend then
    takes it if the number has 3 to 20 characters and the message at most 1000 (Telegram
    any), limits that the cards leave to it; and the toast is the answer's. *)
Theorem test_messages_bind `{GinBinding} o n phone message :
  let body := JObj [("phone", trimmed phone); ("message", trimmed message)] in
  let tbody := JObj [("message", trimmed message)] in
  requests (exec o n (WaTestCard_send phone message)) =
    (if blank phone || blank message then [] else [M_NotificationCenter_SendWhatsAppTest body]) /\
  requests (exec o n (TestMessageCard_send phone message)) =
    (if blank phone || blank message then [] else [M_WhatsApp_SendWhatsAppTest body]) /\
  requests (exec o n (TelegramTestCard_send message)) =
    (if blank message then [] else [M_NotificationCenter_SendTelegramTest tbody]) /\
  (tsized 3 20 phone = true -> tsized 1 1000 message = true -> taken WhatsAppTestRequest body) /\
  (blank message = false -> taken TelegramTestRequest tbody) /\
  (forall k m, In (Did (Toast k m JUndef)) (exec o n (WaTestCard_send phone message)) -> k = success ->
     blank phone = false /\ blank message = false /\ fulfilled (o n) = true).
Proof.
  cbv zeta. unfold WaTestCard_send, TestMessageCard_send, send_test, TelegramTestCard_send, awaits. split_and!.
  - destruct (blank phone || blank message); [done|]. cbn. by destruct (o n).
  - destruct (blank phone || blank message); [done|]. cbn. by destruct (o n).
  - destruct (blank message); [done|]. cbn. by destruct (o n).
  - intros Hp Hm. limits. unfold taken, trimmed. split; [|reflexivity]. binds.
  - unfold blank. rewrite eqb_len. intros Hm. b2p. unfold taken, trimmed. split; [|reflexivity].
    assert (0 <= len (trim message)) by (unfold len; lia). binds.
  - intros k m Hi ->. destruct (blank phone); [by destruct Hi as [|[]]|]. destruct (blank message); [by destruct Hi as [|[]]|].
    cbn in Hi. split_and!; [done|done|]. destruct (o n) as [v|e]; [done|]. cbn in Hi. by destruct Hi as [|[|[]]].
Qed.

(** *** Pairing *)

Section PairingLaws.
Import Connect.
Context `{LatestOnly}.

Record paired (s : state) : Prop := {
  only_last_open : forall k p, calls s !! k = Some (p, None) -> S k = length (calls s);
  phones : forall k p a, calls s !! k = Some (p, a) -> p <> "";
  code_of : pairCode s <> "" -> exists k p res, calls s !! k = Some (p, Some (Ok res)) /\ text "code" res = pairCode s /\
    forall j p' res', (k < j)%nat -> calls s !! j <> Some (p', Some (Ok res')) }.

Lemma paired_mounted : paired mounted.
Proof. by split. Qed.

(** Only the calls and the code matter. *)
Lemma paired_same s o c m p : paired s -> paired (St o c m p (pairCode s) (calls s)).
Proof. intros [H1 H2 H3]. by split. Qed.
Lemma paired_cleared s o c m p : paired s -> paired (St o c m p "" (calls s)).
Proof. intros [H1 H2 H3]. by split. Qed.

Lemma isPending_false s : paired s -> isPending s = false -> forall k p, calls s !! k <> Some (p, None).
Proof.
  intros Hs Hp k p Hk. pose proof (only_last_open s Hs k p Hk) as Hl. unfold isPending in Hp.
  rewrite (last_lookup_S _ _ _ Hk Hl) in Hp. done.
Qed.

Lemma paired_ask s : paired s -> isPending s = false -> phone s <> "" ->
  paired (St (is_open s) (connected s) (method s) (phone s) (pairCode s) (calls s ++ [(phone s, None)])).
Proof.
  intros Hs Hp Hne. pose proof (isPending_false s Hs Hp) as Hno. destruct Hs as [H1 H2 H3]. split; cbn.
  - intros k p [Hk|[Hl Hk]]%lookup_app_Some; [by apply Hno in Hk|]. rewrite length_app. cbn.
    apply list_lookup_singleton_Some in Hk as [Hk _]. lia.
  - intros k p a [Hk|[_ Hk]]%lookup_app_Some; [by eapply H2|]. by apply list_lookup_singleton_Some in Hk as [_ [= <- _]].
  - intros Hc. destruct (H3 Hc) as (k & p & res & Hk & Ht & Hl). exists k, p, res. split_and!; [by apply lookup_app_l_Some|done|].
    intros j p' res' Hj [Hx|[_ Hx]]%lookup_app_Some; [by eapply Hl|]. by apply list_lookup_singleton_Some in Hx as [_ ?].
Qed.

Lemma paired_settle s k p0 a : paired s -> calls s !! k = Some (p0, None) ->
  paired (St (is_open s) (connected s) (method s) (phone s)
            (match a with Ok res => text "code" res | Throw _ => pairCode s end) (<[k := (p0, Some a)]> (calls s))).
Proof.
  intros [H1 H2 H3] Hk. pose proof (H1 k p0 Hk) as Hl.
  assert (forall j x, <[k := (p0, Some a)]> (calls s) !! j = Some x -> (j = k /\ x = (p0, Some a)) \/ (j <> k /\ calls s !! j = Some x)) as Hj.
  { intros j x Hx. apply list_lookup_insert_Some in Hx as [(-> & <- & _)|[Hn Hx]]; [by left|right]. by split. }
  split; cbn.
  - intros j p Hx. rewrite length_insert. destruct (Hj _ _ Hx) as [[_ ?]|[_ Hx']]; [done|by eapply H1].
  - intros j p b Hx. destruct (Hj _ _ Hx) as [[_ [= -> _]]|[_ Hx']]; [by eapply H2|by eapply H2].
  - intros Hc. destruct a as [res|e].
    + exists k, p0, res. split_and!; [apply list_lookup_insert_eq; by eapply lookup_lt_Some|done|].
      intros j p' res' Hlt Hx. destruct (Hj _ _ Hx) as [[-> _]|[_ Hx']]; [lia|]. apply lookup_lt_Some in Hx'.
      change (j < length (calls s))%nat in Hx'. lia.
    + destruct (H3 Hc) as (k' & p & res & Hk' & Ht & Hlat). exists k', p, res.
      assert (k' <> k).
      { intros ->. assert (Some (p, Some (Ok res)) = Some (p0, None)) by (etransitivity; [symmetry; exact Hk'|exact Hk]). done. }
      split_and!; [by rewrite list_lookup_insert_ne|done|].
      intros j p' res' Hlt Hx. destruct (Hj _ _ Hx) as [[_ ?]|[_ Hx']]; [done|by eapply Hlat].
Qed.

Definition asked (s : state) : list mutation_hook := map (fun c => M_NotificationCenter_PairWhatsAppPhone c.1) (calls s).

Lemma step_pairing s a : paired s -> paired (step s a).1 /\ asked (step s a).1 = asked s ++ (step s a).2.
Proof.
  intros Hs. assert (asked s = asked s ++ []) as Hnil by (by rewrite app_nil_r).
  destruct s as [o c m p pc cs]. destruct a as [[]|c'|p'| | |k a]; cbn [step].
  - split; [exact (paired_same _ true c m p Hs)|exact Hnil].
  - split; [exact (paired_cleared _ false c qr "" Hs)|exact Hnil].
  - split; [exact (paired_same _ o c' m p Hs)|exact Hnil].
  - destruct m; [by split|]. destruct (o && negb c); [|by split]. split; [exact (paired_same _ o c by_phone p' Hs)|exact Hnil].
  - destruct m; [by split|]. destruct (isPending _) eqn:Ep; [rewrite andb_false_r; by split|].
    destruct (String.eqb_spec p "") as [->|Hp]; [rewrite andb_false_r; by split|]. destruct (o && negb c); [|by split].
    cbn. split; [exact (paired_ask _ Hs Ep Hp)|]. unfold asked. cbn. by rewrite map_app.
  - destruct (o && negb c); [|by split]. split; [exact (paired_cleared _ o c _ p Hs)|exact Hnil].
  - destruct (cs !! k) as [[p0 [a0|]]|] eqn:Ek; [by split| |by split].
    pose proof (only_last_open _ Hs k p0 Ek) as Hl. cbn in Hl.
    pose proof (paired_settle _ k p0 a Hs Ek) as Hset. cbn in Hset.
    assert (forall x, map (fun c => M_NotificationCenter_PairWhatsAppPhone c.1) (<[k:=(p0, x)]> cs) =
      map (fun c => M_NotificationCenter_PairWhatsAppPhone c.1) cs) as Hask.
    { intros x. clear -Ek. revert k Ek. induction cs as [|y cs IH]; intros [|k] Ek; try done; cbn in *.
      - by injection Ek as ->.
      - f_equal. by apply IH. }
    rewrite <- Hl, latest_runs. destruct a; (split; [exact Hset|]); unfold asked; cbn; by rewrite Hask, app_nil_r.
Qed.

Lemma run_pairing es s : paired s -> paired (run s es).1 /\ asked (run s es).1 = asked s ++ (run s es).2.
Proof.
  revert s. induction es as [|e es IH]; intros s Hs; [split; [done|by rewrite app_nil_r]|]. cbn.
  destruct (step_pairing s e Hs) as [H1 H2]. destruct (step s e) as [s1 o1]. cbn in *. destruct (IH s1 H1) as [H3 H4].
  destruct (run s1 es) as [s2 o2]. cbn in *. split; [done|]. by rewrite H4, H2, app_assoc.
Qed.

(** Pairing by phone: the dialog asks for one code at a time, and for a number only; the
    code on the screen is the one the server gave last, and nothing but closing, switching
    or an answer changes it.  (It stays while another number is typed.) *)
Theorem pairing_codes es : let s := (run mounted es).1 in
  (run mounted es).2 = asked s /\
  (forall k p, calls s !! k = Some (p, None) -> S k = length (calls s)) /\
  (forall k p a, calls s !! k = Some (p, a) -> p <> "") /\
  (forall c, shown_code s = Some c -> exists k p res, calls s !! k = Some (p, Some (Ok res)) /\ text "code" res = c /\
     forall j p' res', (k < j)%nat -> calls s !! j <> Some (p', Some (Ok res'))) /\
  (forall c p, shown_code s = Some c -> shown_code (step s (TypePhone p)).1 = Some c).
Proof.
  intros s. destruct (run_pairing es mounted paired_mounted) as [Hs Ha]. fold s in Hs, Ha. split_and!.
  - by rewrite Ha.
  - apply Hs.
  - apply Hs.
  - intros c Hc. unfold shown_code in Hc. destruct (method s); [done|]. destruct (is_open s && negb (connected s)); [|done].
    cbn in Hc. destruct (String.eqb_spec (pairCode s) ""); [done|]. injection Hc as <-. by apply code_of.
  - intros c p Hc. destruct s as [o cn m p0 pc cs]. unfold shown_code in *. cbn in *. destruct m; [done|].
    cbn. destruct (o && negb cn) eqn:Eo; [|done]. cbn. by rewrite Eo.
Qed.
End PairingLaws.

(** ** Witnesses *)

#[local] Instance latest_callbacks : MutateCallbacks := latest.
#[local] Instance latest_only : LatestOnly.
Proof.
  split; unfold callbacks_run, latest_callbacks, latest.
  - intros k. apply Nat.eqb_refl.
  - intros n k Hk. apply Nat.eqb_neq. lia.
Qed.

Lemma recipients_picked_witness :
  NoDup ["wa_admin"; "sms:1"] /\ "sms:1" ∈ Picker.remove_chip ["wa_admin"; "sms:1"] "sms:1" /\
  "wa_admin" ∉ Picker.remove_chip ["wa_admin"; "sms:1"] "sms:1".
Proof.
  assert (NoDup ["wa_admin"; "sms:1"]) as Hn by distinct_keys.
  destruct (recipients_picked ["wa_admin"; "sms:1"] (Picker.AddPhone "") Hn) as (_ & _ & _ & _ & _ & H).
  split; [exact Hn|]. exact (H "sms:1" eq_refl ltac:(by right; left)).
Defined.

Lemma routing_roundtrip_witness :
  exists db', update_event fresh "invoice_issued" ["wa_group:1@g.us"; "tg_admin"] = Some db' /\
    event_targets db' "invoice_issued" = ["wa_group:1@g.us"; "tg_admin"].
Proof.
  destruct (routing_roundtrip fresh "invoice_issued" ["wa_group:1@g.us"; "tg_admin"] eq_refl) as (db' & H1 & H2 & _).
  exists db'. split; [exact H1|]. apply H2. by repeat constructor.
Defined.

(** A phone with a comma comes back as two recipients, one of them unknown. *)
Example phone_with_comma : exists db', update_event fresh "invoice_issued" ["wa_number:1,2"] = Some db' /\
  event_targets db' "invoice_issued" = ["wa_number:1"; "2"].
Proof. eexists. split; [reflexivity|]. vm_compute. reflexivity. Qed.

Lemma routing_saves_changes_witness :
  In (Routing.Request (M_NotificationCenter_UpdateNotifEvent ("a", Routing.payload_of ["tg_admin"; "wa_admin"])))
    (Routing.step (Routing.run (Routing.opened [Routing.Cfg "a" ["wa_admin"]])
                     [Routing.SetTargets "a" ["wa_admin"; "tg_admin"]]).1 (Routing.Save "a")).2.
Proof.
  apply (proj1 (routing_saves_changes [Routing.Cfg "a" ["wa_admin"]] [Routing.SetTargets "a" ["wa_admin"; "tg_admin"]] "a")).
  exists (Routing.Cfg "a" ["wa_admin"]), ["tg_admin"; "wa_admin"]. split_and!; try (vm_compute; done).
  intros Hp%Permutation_length. done.
Defined.

Definition edited : WaCard.Draft := WaCard.Drafted (Some true) (Some "628").

Lemma wa_card_saves_witness :
  seeded fresh = true /\
  exists db', Settings.save (WaCard.ops (List_ fresh) edited) fresh = Some db' /\ WaCard.ops (List_ db') edited = [].
Proof.
  assert (seeded fresh = true) as Hd by (vm_compute; done).
  destruct (wa_card_saves fresh edited (fun _ => true) (WaCard.ops (List_ fresh) edited) fresh_distinct Hd ltac:(vm_compute; reflexivity))
    as (db' & Hs & Ho & _).
  split; [exact Hd|]. exists db'. split; [exact Hs|]. rewrite Ho. vm_compute. reflexivity.
Defined.

Lemma telegram_token_kept_witness :
  exists db', Settings.save (TelegramCard.ops (List_ fresh) (TelegramCard.Drafted None (Some " 1:ab ") None)) fresh = Some db' /\
    value <$> find_key TelegramCard.TOKEN db' = Some "1:ab".
Proof.
  destruct (telegram_token_kept fresh (TelegramCard.Drafted None (Some " 1:ab ") None) (fun _ => true)
    (TelegramCard.ops (List_ fresh) (TelegramCard.Drafted None (Some " 1:ab ") None)) fresh_distinct eq_refl
    ltac:(vm_compute; reflexivity) (fun _ _ => eq_refl)) as (db' & Hs & Hv & _).
  exists db'. split; [exact Hs|]. rewrite Hv. vm_compute. reflexivity.
Defined.

Lemma cards_tell_witness :
  toasts (exec (fun _ => Ok JNull) 0 (WaCard.save [1%nat; 0%nat] (List_ fresh) edited)) = [(success, "Pengaturan disimpan")].
Proof.
  exact (proj1 (proj2 (cards_tell M_NotificationCenter_UpdateSetting "Tidak ada perubahan" "Gagal menyimpan"
    "Pengaturan disimpan" [SetState "enabled" JNull; SetState "phone" JNull] [1%nat; 0%nat]
    (WaCard.ops (List_ fresh) edited) (fun _ => Ok JNull) 0 (perm_swap 0%nat 1%nat [])
    ltac:(repeat constructor; by eexists _, _)))).
Defined.

Lemma pairing_codes_witness :
  Connect.shown_code (Connect.run Connect.mounted
    [Connect.OpenChange true; Connect.Switch; Connect.TypePhone "628"; Connect.GetCode;
     Connect.Settle 0 (Ok (JObj [("code", JStr "AB12")])); Connect.TypePhone "629"]).1 = Some "AB12".
Proof.
  exact (proj2 (proj2 (proj2 (proj2 (pairing_codes [Connect.OpenChange true; Connect.Switch; Connect.TypePhone "628"; Connect.GetCode;
     Connect.Settle 0 (Ok (JObj [("code", JStr "AB12")]))])))) "AB12" "629" eq_refl).
Defined.
