(* ===== verification/Account.v ===== *)
(** * The user's own pages ([features/settings/{account,profile,display}])

    Changing the own e-mail address and password, the profile form, which updates the user
    through the administration's service, and the editor of the mobile navigation bar,
    which shows and changes the list of MobileNav. *)
From S2P Require Import Prelude JsString JsValue JsNumber ApiErrors AuthStore Http QueryCache QueryKeys ApiClient Hooks Ui Actions.
From S2P Require Import Wire Forms FormContracts Presets.
From S2P Require MobileNav Portal.

Definition js_length (s : string) : Z := Z.of_nat (length (utf16 s)).

(** ** The account form ([account-form.tsx]) *)

Module AccountForm.
Record FormValues : Type := Values {
  email : string; current_password : string; new_password : string; confirm_password : string }.
Definition defaultValues : FormValues := Values "" "" "" "".
(** [me?.email ?? ''], and the reset when [me] arrives. *)
Definition email_of (me : jval) : string := match get "email" me with JUndef | JNull => "" | v => js_String v end.
Definition reset (me : jval) : FormValues := Values (email_of me) "" "" "".

(** [is_email] is what [z.string().email()] accepts. *)
Definition schema (is_email : string -> bool) (v : FormValues) : bool :=
  (is_email (email v) || String.eqb (email v) "") &&
  (String.eqb (new_password v) "" || negb (String.eqb (current_password v) "")) &&
  (String.eqb (new_password v) "" || String.eqb (new_password v) (confirm_password v)) &&
  (String.eqb (new_password v) "" || (8 <=? js_length (new_password v))).

Definition payload (me : jval) (v : FormValues) : list (string * jval) :=
  (if String.eqb (email v) (email_of me) then [] else [("email", or_undef (email v))]) ++
  (if String.eqb (new_password v) "" then []
   else [("current_password", JStr (current_password v)); ("new_password", JStr (new_password v))]).

Definition WRONG : string := "Password lama salah.".
Definition refused (e : jserror) : effect :=
  let msg := match e with AxiosErr m _ _ | NativeErr m => m | OtherErr _ => "Terjadi kesalahan." end in
  if includes "invalid" (toLowerCase msg) || includes "credentials" (toLowerCase msg)
  then SetError "current_password" (JStr WRONG)
  else Toast error "Gagal memperbarui profil." (JStr msg).

(** The values after a success: [payload.email ?? me?.email ?? '']. *)
Definition saved (me : jval) (v : FormValues) : FormValues :=
  Values (match get "email" (JObj (payload me v)) with JStr e => e | _ => email_of me end) "" "" "".
Definition form_value (v : FormValues) : jval :=
  JObj [("email", JStr (email v)); ("current_password", JStr (current_password v));
        ("new_password", JStr (new_password v)); ("confirm_password", JStr (confirm_password v))].

Definition onSubmit (me : jval) (v : FormValues) : prog :=
  let p := JObj (payload me v) in
  if negb (truthy (get "email" p)) && negb (truthy (get "new_password" p))
  then Emit (Toast info "Tidak ada perubahan yang perlu disimpan." JUndef) Return
  else awaits (M_Account_UpdateMe p)
         (fun _ => [Toast success "Profil berhasil diperbarui." JUndef; SetState "form" (form_value (saved me v));
                    SetState "showPasswordSection" (JBool false)])
         (fun e => [refused e]).
Definition submit (is_email : string -> bool) (me : jval) (v : FormValues) : prog :=
  Forms.handleSubmit (schema is_email v) (onSubmit me v).

(** "Ubah Password" and "Batal": hiding the section clears it. *)
Definition toggle (s : bool * FormValues) : bool * FormValues :=
  (negb s.1, if s.1 then Values (email s.2) "" "" "" else s.2).
End AccountForm.

(** ** The profile form ([profile-form.tsx]) *)

Module ProfileForm.
Record FormValues : Type := Values { username : string; password : string; confirmPassword : string }.
Definition user_name (user : option jval) : string :=
  match user with
  | Some u => match get "username" u with JUndef | JNull => "" | v => js_String v end
  | None => ""
  end.
Definition defaultValues (user : option jval) : FormValues := Values (user_name user) "" "".
(** The effect on [user?.username]. *)
Definition set_username (user : option jval) (v : FormValues) : FormValues :=
  if String.eqb (user_name user) "" then v else Values (user_name user) (password v) (confirmPassword v).
Definition profileFormSchema (v : FormValues) : bool :=
  (2 <=? js_length (username v)) && (js_length (username v) <=? 64) &&
  (String.eqb (password v) "" || (6 <=? js_length (password v))) &&
  (String.eqb (password v) "" || String.eqb (password v) (confirmPassword v)).

Definition payload (user : jval) (v : FormValues) : list (string * jval) :=
  (if jval_eqb (trimmed (username v)) (get "username" user) then [] else [("username", trimmed (username v))]) ++
  (if negb (String.eqb (password v) "") && (6 <=? js_length (trim (password v)))
   then [("password", trimmed (password v))] else []).

Definition onSubmit (user : option jval) (v : FormValues) : prog :=
  match user with
  | Some u =>
      if truthy (get "id" u) then
        match payload u v with
        | [] => Emit (Toast info "Tidak ada perubahan profil yang disimpan." JUndef) Return
        | body =>
            awaits (M_AdminUsers_UpdateAdminUser (Ui.number "id" u, JObj body))
              (fun _ => [Toast success "Profil berhasil diperbarui" JUndef; SetState "password" (JStr "");
                         SetState "confirmPassword" (JStr "")])
              (fun e => [toast_error "Gagal memperbarui profil" e])
        end
      else Emit (Toast error "Tidak dapat mengidentifikasi ID pengguna saat ini." JUndef) Return
  | None => Emit (Toast error "Tidak dapat mengidentifikasi ID pengguna saat ini." JUndef) Return
  end.
Definition submit (user : option jval) (v : FormValues) : prog :=
  Forms.handleSubmit (profileFormSchema v) (onSubmit user v).
End ProfileForm.

(** ** The editor of the navigation bar ([display-form.tsx]) *)

Module DisplayForm.
Import MobileNav.
Definition AVAILABLE_ITEMS : list MobileNavItemId :=
  [dashboard; hotspot; voucher; traffic; log; report; settings; help_center].
(** [ITEM_BY_ID.get(id)]. *)
Definition ITEM_BY_ID (id : jval) : option MobileNavItemId :=
  List.find (fun i => jval_eqb (item i) id) AVAILABLE_ITEMS.

Record view : Type := View { selectedItems : list MobileNavItemId; availableItems : list MobileNavItemId; isFull : bool }.
Definition shown (items : list jval) : view :=
  View (omap ITEM_BY_ID items)
    (List.filter (fun i => negb (existsb (jval_eqb (item i)) items)) AVAILABLE_ITEMS)
    (MAX_ITEMS <=? Z.of_nat (length items)).

Inductive gesture : Type :=
| Check (i : MobileNavItemId)                                  (** the checkbox of an available item *)
| Cross (i : MobileNavItemId)                                  (** the cross of a selected item *)
| DragEnd (active : MobileNavItemId) (over : option MobileNavItemId)
| ResetClick.

(** What is on the page, and what it calls. *)
Definition possible (v : view) (g : gesture) : bool :=
  match g with
  | Check i => existsb (fun j => jval_eqb (item i) (item j)) (availableItems v) && negb (isFull v)
  | Cross i => existsb (fun j => jval_eqb (item i) (item j)) (selectedItems v)
  | DragEnd i _ => existsb (fun j => jval_eqb (item i) (item j)) (selectedItems v)
  | ResetClick => true
  end.
Definition handleDragEnd (active : MobileNavItemId) (over : option MobileNavItemId) : option action :=
  match over with
  | Some o => if jval_eqb (item active) (item o) then None else Some (Reorder active o)
  | None => None
  end.
Definition call (g : gesture) : option action :=
  match g with
  | Check i => Some (Add i)
  | Cross i => Some (Remove i)
  | DragEnd a o => handleDragEnd a o
  | ResetClick => Some Reset
  end.
Definition perform (st : MobileNav.state) (g : gesture) : MobileNav.state :=
  if possible (shown (items st)) g
  then match call g with Some a => run1 st a | None => st end
  else st.
End DisplayForm.

(** ** Theorems *)

(** *** The account form *)

(** The account form asks for exactly the changes: nothing when the e-mail is the stored one
    (or was cleared, which the form cannot express) and no password was entered; otherwise
    one request, whose password is at least eight characters long, was confirmed and comes
    with the old one; after a success the form shows the new e-mail and no password; and
    a form as it was reset asks for nothing. *)
Theorem account_changes is_email me v o n : AccountForm.schema is_email v = true ->
  let tr := exec o n (AccountForm.submit is_email me v) in
  let same_email := String.eqb (AccountForm.email v) (AccountForm.email_of me) || String.eqb (AccountForm.email v) "" in
  let no_password := String.eqb (AccountForm.new_password v) "" in
  requests tr = (if same_email && no_password then [] else [M_Account_UpdateMe (JObj (AccountForm.payload me v))]) /\
  (no_password = false -> 8 <= js_length (AccountForm.new_password v) /\ AccountForm.current_password v <> "" /\
     AccountForm.new_password v = AccountForm.confirm_password v /\
     get "new_password" (JObj (AccountForm.payload me v)) = JStr (AccountForm.new_password v)) /\
  AccountForm.saved me v = AccountForm.Values (if String.eqb (AccountForm.email v) "" then AccountForm.email_of me else AccountForm.email v) "" "" "" /\
  (In (Did (SetState "form" (AccountForm.form_value (AccountForm.saved me v)))) tr <-> requests tr <> [] /\ fulfilled (o n) = true) /\
  requests (exec o n (AccountForm.submit is_email me (AccountForm.reset me))) = [].
Proof.
  intros Hs. cbv zeta. unfold AccountForm.submit, Forms.handleSubmit. rewrite Hs.
  assert (AccountForm.saved me v = AccountForm.Values (if String.eqb (AccountForm.email v) "" then AccountForm.email_of me else AccountForm.email v) "" "" "") as Hsaved.
  { unfold AccountForm.saved. f_equal. unfold AccountForm.payload.
    destruct (String.eqb_spec (AccountForm.email v) (AccountForm.email_of me)) as [<-|Hne]; cbn [app].
    - destruct (String.eqb (AccountForm.new_password v) ""); cbn; by destruct (String.eqb_spec (AccountForm.email v) "") as [->|].
    - unfold or_undef. destruct (String.eqb (AccountForm.new_password v) ""); cbn; by destruct (String.eqb (AccountForm.email v) ""). }
  assert (negb (truthy (get "email" (JObj (AccountForm.payload me v)))) && negb (truthy (get "new_password" (JObj (AccountForm.payload me v)))) =
    (String.eqb (AccountForm.email v) (AccountForm.email_of me) || String.eqb (AccountForm.email v) "") && String.eqb (AccountForm.new_password v) "") as Hc.
  { unfold AccountForm.payload. destruct (String.eqb (AccountForm.email v) (AccountForm.email_of me)),
      (String.eqb (AccountForm.new_password v) "") eqn:Ep; cbn; unfold or_undef;
      destruct (String.eqb (AccountForm.email v) "") eqn:Ee; cbn; rewrite ?Ee, ?Ep; done. }
  unfold AccountForm.schema in Hs.
  set (c := (String.eqb (AccountForm.email v) (AccountForm.email_of me) || String.eqb (AccountForm.email v) "") && String.eqb (AccountForm.new_password v) "") in *.
  clearbody c. split_and!.
  - unfold AccountForm.onSubmit. rewrite Hc. destruct c; [done|]. unfold awaits. cbn. by destruct (o n).
  - intros Hp. assert (get "new_password" (JObj (AccountForm.payload me v)) = JStr (AccountForm.new_password v)) as Hg.
    { unfold AccountForm.payload. rewrite Hp. by destruct (String.eqb (AccountForm.email v) (AccountForm.email_of me)). }
    rewrite Hp in Hs. cbn in Hs. b2p. by split_and!.
  - exact Hsaved.
  - unfold AccountForm.onSubmit. rewrite Hc. destruct c.
    + cbn. split; [by intros [|[]]|by intros [? _]].
    + unfold awaits. cbn [exec]. destruct (o n); cbn [emits exec requests omap fulfilled].
      * split; [by split|]. intros _. right. right. by left.
      * split; [|by intros [_ ?]]. intros [|[Hx|[]]]; [done|]. unfold AccountForm.refused in Hx. by case_match.
  - destruct (AccountForm.schema is_email (AccountForm.reset me)); [|done]. unfold AccountForm.onSubmit, AccountForm.payload. cbn.
    by rewrite String.eqb_refl.
Qed.

(** A wrong old password is never named as such: the form looks for "invalid" or
    "credentials" in the message of the error, but the client passes the error of axios on,
    whose message is the bare status; so every refusal of the server ends in the general
    toast. *)
Theorem wrong_password_untold is_email me v o n status body :
  AccountForm.schema is_email v = true -> 400 <= status < 600 ->
  o n = Throw (Portal.DetailLaws.http_error status body) ->
  let tr := exec o n (AccountForm.submit is_email me v) in
  requests tr <> [] ->
  tr = [Sent (M_Account_UpdateMe (JObj (AccountForm.payload me v))) (o n);
        Did (Toast error "Gagal memperbarui profil." (JStr ("Request failed with status code " +:+ Z_to_string status)))].
Proof.
  intros Hs Hst Ho. cbv zeta. unfold AccountForm.submit, Forms.handleSubmit. rewrite Hs.
  unfold AccountForm.onSubmit. destruct (negb _ && negb _); [done|]. intros _. unfold awaits. cbn [exec]. rewrite Ho.
  unfold Portal.DetailLaws.http_error. cbn [emits exec]. unfold AccountForm.refused.
  assert (forall_from (fun n => let m := toLowerCase ("Request failed with status code " +:+ Z_to_string n) in
    negb (includes "invalid" m || includes "credentials" m)) 200 400 = true) as H by by vm_compute.
  pose proof (forall_from_spec _ _ _ H status ltac:(lia)) as E. cbv beta zeta in E. apply negb_true_iff in E. by rewrite E.
Qed.

(** *** The profile form *)

(** A new user name is announced as saved and never is: the request the profile form sends
    for it binds, but the backend's struct has no field for its only key.  And a password
    of six or seven characters, which the form accepts, is refused. *)
Theorem profile_name_unheard `{GinBinding} u v o n :
  ProfileForm.profileFormSchema v = true -> truthy (get "id" u) = true ->
  (get "username" u <> trimmed (ProfileForm.username v) -> ProfileForm.password v = "" ->
   let body := JObj [("username", trimmed (ProfileForm.username v))] in
   let tr := exec o n (ProfileForm.submit (Some u) v) in
   requests tr = [M_AdminUsers_UpdateAdminUser (Ui.number "id" u, body)] /\
   ShouldBindJSON Dto.UserUpdateRequest body = true /\
   List.filter (fun k => existsb (fun f => String.eqb (f_name f) k) Dto.UserUpdateRequest) (keys body) = [] /\
   (fulfilled (o n) = true -> toasts tr = [(success, "Profil berhasil diperbarui")])) /\
  (ProfileForm.password v <> "" -> len (trim (ProfileForm.password v)) < 8 ->
   forall body, In (M_AdminUsers_UpdateAdminUser (Ui.number "id" u, body)) (requests (exec o n (ProfileForm.submit (Some u) v))) ->
     get "password" body <> JUndef -> ShouldBindJSON Dto.UserUpdateRequest body = false).
Proof.
  intros Hs Hid. unfold ProfileForm.submit, Forms.handleSubmit. rewrite Hs. unfold ProfileForm.onSubmit. rewrite Hid. split.
  - intros Hn Hp. cbv zeta. unfold ProfileForm.payload. rewrite Hp. cbn [String.eqb negb andb].
    destruct (jval_eqb (trimmed (ProfileForm.username v)) (get "username" u)) eqn:E; [apply jval_eqb_eq in E; congruence|].
    cbn [app]. unfold awaits. cbn [exec]. split_and!.
    + by destruct (o n).
    + rewrite ShouldBindJSON_spec. reflexivity.
    + reflexivity.
    + by destruct (o n).
  - intros Hp Hl body Hin Hget. rewrite ShouldBindJSON_spec.
    assert (get "password" body = trimmed (ProfileForm.password v)) as E.
    { destruct (ProfileForm.payload u v) as [|f fs] eqn:Ef; [done|]. unfold awaits in Hin. cbn [exec] in Hin.
      assert (body = JObj (f :: fs)) as ->.
      { destruct (o n); cbn in Hin; destruct Hin as [[= <-]|[]]; done. }
      rewrite <- Ef in Hget |- *. unfold ProfileForm.payload in *.
      destruct (jval_eqb _ _); destruct (negb (String.eqb (ProfileForm.password v) "") && _); cbn in *; done. }
    cbn [forallb Dto.UserUpdateRequest]. unfold field_ok at 2. cbn [f_name f_ptr f_type f_rules strp]. rewrite E. unfold trimmed.
    cbn [absent has_type andb negb orb forallb rule_ok measure]. unfold len in Hl.
    replace (8 <=? Z.of_nat (String.length (trim (ProfileForm.password v)))) with false by (symmetry; b2p; lia).
    by rewrite andb_false_r.
Qed.

(** *** The editor of the navigation bar *)

Section Editor.
Import MobileNav DisplayForm.

Lemma item_inj i j : item i = item j -> i = j.
Proof. destruct i, j; done. Qed.
#[local] Instance MobileNavItemId_dec : EqDecision MobileNavItemId.
Proof. solve_decision. Defined.

Lemma all_available i : i ∈ AVAILABLE_ITEMS.
Proof. apply (bool_decide_unpack _). by destruct i. Qed.

Lemma ITEM_BY_ID_item i : ITEM_BY_ID (item i) = Some i.
Proof. by destruct i. Qed.

Lemma known_items l : Forall known l -> exists t, l = map item t.
Proof. induction 1 as [|v l [i ->] _ [t ->]]; [by exists []|]. by exists (i :: t). Qed.

Lemma selected_items t : omap ITEM_BY_ID (map item t) = t.
Proof. induction t as [|i t IH]; [done|]. cbn [map omap list_omap]. rewrite ITEM_BY_ID_item. by rewrite IH. Qed.

Lemma exists_item i t : existsb (jval_eqb (item i)) (map item t) = true <-> i ∈ t.
Proof.
  rewrite existsb_jval, list_elem_of_fmap. split; [|by exists i]. intros (j & Hj & Hin). by apply item_inj in Hj as ->.
Qed.

Lemma exists_item' i t : existsb (fun j => jval_eqb (item i) (item j)) t = true <-> i ∈ t.
Proof. rewrite <- exists_item. induction t as [|j t IH]; [done|]. cbn. by rewrite !orb_true_iff, IH. Qed.

(** The editor and the bar agree: over a bar in order the two lists of the editor partition
    the eight items, the selected ones in the bar's order; whatever is clicked and dragged,
    the bar stays in order; checking an available item appends it, a cross removes exactly
    its item, a drag only reorders; and an available item can be checked exactly while the
    bar is not full. *)
Theorem display_form_edits st g : items_ok (items st) ->
  let v := shown (items st) in
  map item (selectedItems v) = items st /\
  selectedItems v ++ availableItems v ≡ₚ AVAILABLE_ITEMS /\
  items_ok (items (perform st g)) /\
  match g with
  | Check i => possible v g = true <-> i ∈ availableItems v /\ items (perform st g) = items st ++ [item i]
  | Cross i => items (perform st g) = List.filter (fun x => negb (jval_eqb x (item i))) (items st)
  | DragEnd _ _ => items (perform st g) ≡ₚ items st
  | ResetClick => items (perform st g) = DEFAULT_MOBILE_NAV_ITEMS
  end.
Proof.
  destruct st as [l b]. cbn [items]. intros Hok. pose proof Hok as (Hnd & Hlen & Hk). destruct (known_items l Hk) as [t ->].
  cbv zeta. unfold shown. cbn [selectedItems availableItems isFull]. rewrite selected_items.
  assert (NoDup t) as Ht by (by eapply NoDup_fmap_1).
  assert (forall i, i ∈ List.filter (fun i => negb (existsb (jval_eqb (item i)) (map item t))) AVAILABLE_ITEMS <-> i ∉ t) as Hav.
  { intros i. rewrite list_elem_of_In, filter_In, <- list_elem_of_In, negb_true_iff, <- not_true_iff_false, exists_item.
    pose proof (all_available i). tauto. }
  split_and!; [done| |..].
  - apply NoDup_Permutation.
    + apply NoDup_app. split_and!; [done| |by apply NoDup_ListNoDup, List.NoDup_filter, NoDup_ListNoDup, (bool_decide_unpack _)].
      intros i Hi Hi'. by apply Hav in Hi'.
    + apply (bool_decide_unpack _). done.
    + intros i. rewrite elem_of_app, Hav. pose proof (all_available i). destruct (decide (i ∈ t)); tauto.
  - unfold perform. destruct (possible _ g); [|done]. destruct (call g) as [a|]; [|done]. unfold run1. cbn [items].
    destruct (update a (map item t)) eqn:E; [|done]. cbn [items]. by eapply update_ok.
  - destruct g as [i|i|i j|]; unfold perform; cbn [items possible call shown selectedItems availableItems isFull].
    + set (av := List.filter _ AVAILABLE_ITEMS). split.
      * intros Hp. rewrite Hp. apply andb_true_iff in Hp as [Hin Hf]. apply exists_item' in Hin. split; [done|].
        unfold run1. cbn [update items]. unfold add. apply negb_true_iff in Hf. rewrite Hf.
        assert (existsb (jval_eqb (item i)) (map item t) = false) as ->; [|done].
        apply not_true_iff_false. rewrite exists_item. by apply Hav.
      * intros [Hin He]. destruct (existsb _ av && _) eqn:Ep; [done|]. cbn in He.
        apply (f_equal length) in He. rewrite length_app in He. cbn in He. lia.
    + rewrite selected_items. destruct (existsb _ t) eqn:E; [done|]. cbn [items].
      assert (i ∉ t) as Hi by (rewrite <- exists_item'; by rewrite E). clear -Hi.
      induction t as [|j t IH]; [done|]. rewrite not_elem_of_cons in Hi. cbn -[jval_eqb].
      destruct (jval_eqb (item j) (item i)) eqn:Ej; [apply jval_eqb_eq, item_inj in Ej; subst; tauto|]. cbn -[jval_eqb]. f_equal. apply IH. tauto.
    + rewrite selected_items. destruct (existsb _ t); [|done]. unfold handleDragEnd. destruct j as [j|]; [|done].
      destruct (jval_eqb (item i) (item j)); [done|]. unfold run1. cbn [items].
      destruct (update (Reorder i j) (map item t)) as [n|] eqn:E; [|done]. exact (move_perm _ _ _ E I).
    + done.
Qed.
End Editor.

(** ** Witnesses *)

Definition example_me : jval := JObj [("id", JNum 1); ("username", JStr "admin"); ("email", JStr "a@b.id")].
Definition new_password : AccountForm.FormValues := AccountForm.Values "a@b.id" "old-secret" "new-secret" "new-secret".

Lemma account_changes_witness :
  AccountForm.schema (fun _ => true) new_password = true /\
  requests (exec (fun _ => Ok JNull) 0 (AccountForm.submit (fun _ => true) example_me new_password)) =
    [M_Account_UpdateMe (JObj [("current_password", JStr "old-secret"); ("new_password", JStr "new-secret")])].
Proof.
  assert (AccountForm.schema (fun _ => true) new_password = true) as Hs by reflexivity.
  split; [exact Hs|]. exact (proj1 (account_changes (fun _ => true) example_me new_password (fun _ => Ok JNull) 0 Hs)).
Defined.

Definition wrong : answer := Throw (Portal.DetailLaws.http_error 401 JNull).
Lemma wrong_password_untold_witness :
  toasts (exec (fun _ => wrong) 0 (AccountForm.submit (fun _ => true) example_me new_password)) =
    [(error, "Gagal memperbarui profil.")].
Proof.
  rewrite (wrong_password_untold (fun _ => true) example_me new_password (fun _ => wrong) 0 401 JNull eq_refl ltac:(lia) eq_refl ltac:(discriminate)).
  reflexivity.
Defined.

Lemma profile_name_unheard_witness :
  toasts (exec (fun _ => Ok JNull) 0 (ProfileForm.submit (Some example_me) (ProfileForm.Values "boss" "" ""))) =
    [(success, "Profil berhasil diperbarui")].
Proof.
  destruct (profile_name_unheard example_me (ProfileForm.Values "boss" "" "") (fun _ => Ok JNull) 0 eq_refl eq_refl) as [H _].
  exact (proj2 (proj2 (proj2 (H ltac:(discriminate) eq_refl))) eq_refl).
Defined.

Lemma display_form_edits_witness :
  MobileNav.items_ok MobileNav.DEFAULT_MOBILE_NAV_ITEMS /\
  DisplayForm.isFull (DisplayForm.shown MobileNav.DEFAULT_MOBILE_NAV_ITEMS) = true /\
  map MobileNav.item (DisplayForm.selectedItems (DisplayForm.shown MobileNav.DEFAULT_MOBILE_NAV_ITEMS)) =
    MobileNav.DEFAULT_MOBILE_NAV_ITEMS.
Proof.
  split; [exact MobileNav.default_ok|]. split; [reflexivity|].
  exact (proj1 (display_form_edits (MobileNav.St MobileNav.DEFAULT_MOBILE_NAV_ITEMS (Browser [] ∅)) DisplayForm.ResetClick MobileNav.default_ok)).
Defined.
