(* ===== verification/DataTable.v ===== *)
(** * The data tables' shared parts ([web/src/components/data-table])

    Toolbar, faceted filter, page bar, bulk-action bar, column header and column menu, over
    the table instance of TanStack Table.  That library is a parameter: the class
    [ReactTable] holds the calls the components make with what its documentation says of
    them (a row's id is its index in the data unless the table gives ids of its own, which
    no table here does; the filters in force decide which rows are shown; a cleared value
    removes its filter).  A table is described by its columns ([column]: accessor, filter,
    sorting, the texts of a cell), its state is [table_state], and [table_step] runs what a
    user does to it and what a refetch does.

    [toolbar_refines]: whatever was typed and clicked, the rows shown are those of the
    query the toolbar displays.  [bulk_lemma] and [bulk_by_position]: the rows a bulk action
    takes are the shown rows whose position was ticked last, in the data of the moment. *)
From stdpp Require Import sorting.
From S2P Require Import Prelude JsString JsValue JsNumber Ui Pages TableUrl.

(** ** Columns *)

Record column : Type := Column {
  col_id : string;
  accessor : option (jval -> jval);                  (** [accessorKey], [accessorFn] *)
  filterFn : option (jval -> jval -> bool);          (** the record, the filter's value *)
  enableSorting : bool;
  enableHiding : bool;
  title : string;                                    (** of the header *)
  cell : jval -> list string }.                      (** the texts shown, tooltips included *)

(** [value.includes(x)]: of an array its members, of a string its substrings. *)
Definition js_includes (value x : jval) : bool :=
  match value with
  | JArr l => existsb (jval_eqb x) l
  | JStr s => includes (js_String x) s
  | _ => false
  end.

(** [filterFn: (row, id, value) => value.includes(row.getValue(id))]. *)
Definition includes_filter (acc : jval -> jval) : option (jval -> jval -> bool) :=
  Some (fun row value => js_includes value (acc row)).

(** [row.original.k || '—'] *)
Definition or_else (d : string) (v : jval) : string := if truthy v then js_String v else d.
Definition or_dash (k : string) (row : jval) : list string := [or_else "—" (get k row)].

(** The checkbox column every selectable table starts with. *)
Definition select_column : column := Column "select" None None false false "Select all" (fun _ => ["Select row"]).

(** ** The table library *)

(** [column.getFilterValue()]. *)
Definition getFilterValue (c : string) (fs : column_filters) : jval := found_value fs c.

(** Values that remove their filter. *)
Definition cleared (v : jval) : bool :=
  match v with JUndef => true | JStr s => String.eqb s "" | _ => false end.

Section Accepts.
Context (autoFilter : jval -> jval -> jval -> bool).
(** Whether a column's filter keeps a row; [first] is the first record. *)
Definition filter_keeps (c : column) (first row value : jval) : bool :=
  match filterFn c, accessor c with
  | Some f, _ => f row value
  | None, Some acc => autoFilter (acc first) (acc row) value
  | None, None => true
  end.
(** Only a filter in force decides. *)
Definition in_force (value : jval) (keeps : jval -> bool) : bool :=
  match value with JUndef => true | v => keeps v end.
Definition column_accepts (fs : column_filters) (first row : jval) (c : column) : bool :=
  in_force (getFilterValue (col_id c) fs) (filter_keeps c first row).
Definition accepts (cols : list column) (fs : column_filters) (first row : jval) : bool :=
  forallb (column_accepts fs first row) cols.
End Accepts.

Class ReactTable : Type := {
  rowId : nat -> string;
  autoFilter : jval -> jval -> jval -> bool;         (** of the first row's value *)
  setFilterValue : string -> jval -> column_filters -> column_filters;
  getFilteredRowModel : list column -> column_filters -> string -> list jval -> list (string * jval);
  getRowModel : list column -> column_filters -> string -> jval -> Z * Z -> list jval -> list (string * jval) }.

Class ReactTableLaws `{ReactTable} : Prop := {
  rowId_inj i j : rowId i = rowId j -> i = j;
  autoFilter_string a v f : autoFilter (JStr a) (JStr v) (JStr f) = includes (toLowerCase f) (toLowerCase v);
  setFilterValue_same c v fs :
    getFilterValue c (setFilterValue c v fs) = if cleared v then JUndef else v;
  setFilterValue_other c c' v fs :
    c' <> c -> getFilterValue c' (setFilterValue c v fs) = getFilterValue c' fs;
  getFilteredRowModel_spec cols fs rows :
    getFilteredRowModel cols fs "" rows =
    List.filter (fun r => accepts autoFilter cols fs (default JUndef (head rows)) r.2)
      (imap (fun i r => (rowId i, r)) rows);
  getRowModel_shown cols fs g sorting page rows r :
    r ∈ getRowModel cols fs g sorting page rows -> r ∈ getFilteredRowModel cols fs g rows }.

Section Table.
Context `{ReactTable}.

Definition rows_of (l : list (string * jval)) : list jval := map snd l.

(** [getFilteredSelectedRowModel()]. *)
Definition getFilteredSelectedRowModel (cols : list column) (fs : column_filters) (g : string)
    (sel : gset string) (rows : list jval) : list (string * jval) :=
  List.filter (fun r => bool_decide (r.1 ∈ sel)) (getFilteredRowModel cols fs g rows).

(** [row.toggleSelected(value)], [toggleAllPageRowsSelected(value)]. *)
Definition toggleSelected (id : string) (value : bool) (sel : gset string) : gset string :=
  if value then {[id]} ∪ sel else sel ∖ {[id]}.
Definition toggleAll (ids : list string) (value : bool) (sel : gset string) : gset string :=
  if value then list_to_set ids ∪ sel else sel ∖ list_to_set ids.

(** ** Toolbar ([toolbar.tsx]) *)

(** [{ columnId, title, options }]. *)
Record facet : Type := Facet {
  columnId : string;
  facet_title : string;
  options : list (string * string) }.                (** label, value *)

Definition isFiltered (fs : column_filters) (globalFilter : string) : bool :=
  (0 <? Z.of_nat (length fs)) || negb (String.eqb globalFilter "").

(** The search box: of one column, or of the whole table. *)
Definition search_value (searchKey : option string) (fs : column_filters) (globalFilter : string) : jval :=
  match searchKey with
  | Some k => nullish_or (getFilterValue k fs) (JStr "")
  | None => JStr globalFilter
  end.
Definition on_search (searchKey : option string) (s : string) (st : column_filters * string)
  : column_filters * string :=
  match searchKey with
  | Some k => (setFilterValue k (JStr s) st.1, st.2)
  | None => (st.1, s)
  end.

(** The facets of columns the table has. *)
Definition shown_facets (cols : list column) (filters : list facet) : list facet :=
  List.filter (fun f => existsb (fun c => String.eqb (col_id c) (columnId f)) cols) filters.

(** Reset: the filters a table starts with are none. *)
Definition reset : column_filters * string := ([], "").

(** ** Faceted filter ([faceted-filter.tsx]) *)

Definition set_add (l : list jval) (x : jval) : list jval := if decide (x ∈ l) then l else l ++ [x].

(** [new Set(value)]: members in the order of their first occurrence; of a string its
    characters. *)
Definition new_Set (value : jval) : list jval :=
  match value with
  | JArr l => foldl set_add [] l
  | JStr s => foldl set_add [] (map (fun c => JStr (String c "")) (String.list_ascii_of_string s))
  | _ => []
  end.

Definition selectedValues (c : string) (fs : column_filters) : list jval := new_Set (getFilterValue c fs).

Definition isSelected (c v : string) (fs : column_filters) : bool := bool_decide (JStr v ∈ selectedValues c fs).

(** [filterValues.length ? filterValues : undefined]. *)
Definition filterValues (l : list jval) : jval := match l with [] => JUndef | _ => JArr l end.

Definition onSelect (c v : string) (fs : column_filters) : column_filters :=
  let sel := selectedValues c fs in
  let sel' := if isSelected c v fs then List.filter (fun x => negb (jval_eqb x (JStr v))) sel else sel ++ [JStr v] in
  setFilterValue c (filterValues sel') fs.

Definition clear_filters (c : string) (fs : column_filters) : column_filters := setFilterValue c JUndef fs.

(** The badges of the button: a count above two, else the labels of what is chosen. *)
Definition badges (f : facet) (fs : column_filters) : list string :=
  let sel := selectedValues (columnId f) fs in
  if (2 <? length sel)%nat then [Z_to_string (Z.of_nat (length sel)) +:+ " selected"]
  else map fst (List.filter (fun o => bool_decide (JStr o.2 ∈ sel)) (options f)).

(** The options read off the records, as the tables build them: the values that are not
    empty, each once, sorted. *)
Definition distinct (values : list jval) : list string :=
  map js_String (foldl set_add [] (List.filter truthy values)).
Definition option_list (values : list jval) : list (string * string) :=
  map (fun v => (v, v)) (merge_sort String.le (distinct values)).

(** ** State and steps of a table *)

Record table_state : Type := TableState {
  data : list jval;
  rowSelection : gset string;
  columnFilters : column_filters;
  globalFilter : string;
  sorting : jval;
  page : Z * Z;                                      (** [pageIndex], [pageSize] *)
  columnVisibility : gmap string bool }.

Definition opened (d : list jval) (visibility : gmap string bool) (pageSize : Z) : table_state :=
  TableState d ∅ [] "" (JArr []) (0, pageSize) visibility.

Inductive table_event : Type :=
| Search (c s : string)                              (** a search box of the column [c] *)
| SearchAll (s : string)
| Choose (c v : string)                              (** an option of a facet *)
| ClearFacet (c : string)
| Reset
| Tick (id : string) (value : bool)
| TickPage (value : bool)
| ClearSelection
| Sort (order : jval)
| Paginate (p : Z * Z)
| Visible (c : string) (value : bool)
| Refetched (d : list jval).

Definition with_filters (s : table_state) (fs : column_filters) : table_state :=
  TableState (data s) (rowSelection s) fs (globalFilter s) (sorting s) (page s) (columnVisibility s).
Definition with_selection (s : table_state) (sel : gset string) : table_state :=
  TableState (data s) sel (columnFilters s) (globalFilter s) (sorting s) (page s) (columnVisibility s).
Definition with_data (s : table_state) (d : list jval) : table_state :=
  TableState d (rowSelection s) (columnFilters s) (globalFilter s) (sorting s) (page s) (columnVisibility s).

Section Cols.
Variable cols : list column.

Definition shown_rows (s : table_state) : list jval := 
  rows_of (getFilteredRowModel cols (columnFilters s) (globalFilter s) (data s)).
Definition page_ids (s : table_state) : list string :=
  map fst (getRowModel cols (columnFilters s) (globalFilter s) (sorting s) (page s) (data s)).
(** The records a bulk action takes. *)
Definition selected_rows (s : table_state) : list jval :=
  rows_of (getFilteredSelectedRowModel cols (columnFilters s) (globalFilter s) (rowSelection s) (data s)).
Definition selectedCount (s : table_state) : Z := Z.of_nat (length (selected_rows s)).

Definition table_step (s : table_state) (e : table_event) : table_state :=
  match e with
  | Search c t => with_filters s (setFilterValue c (JStr t) (columnFilters s))
  | SearchAll t => TableState (data s) (rowSelection s) (columnFilters s) t (sorting s) (page s) (columnVisibility s)
  | Choose c v => with_filters s (onSelect c v (columnFilters s))
  | ClearFacet c => with_filters s (clear_filters c (columnFilters s))
  | Reset => TableState (data s) (rowSelection s) reset.1 reset.2 (sorting s) (page s) (columnVisibility s)
  | Tick id value => with_selection s (toggleSelected id value (rowSelection s))
  | TickPage value => with_selection s (toggleAll (page_ids s) value (rowSelection s))
  | ClearSelection => with_selection s ∅
  | Sort order => TableState (data s) (rowSelection s) (columnFilters s) (globalFilter s) order (page s) (columnVisibility s)
  | Paginate p => TableState (data s) (rowSelection s) (columnFilters s) (globalFilter s) (sorting s) p (columnVisibility s)
  | Visible c value =>
      TableState (data s) (rowSelection s) (columnFilters s) (globalFilter s) (sorting s) (page s)
        (<[c := value]> (columnVisibility s))
  | Refetched d => with_data s d
  end.
Definition table_run (s : table_state) (es : list table_event) : table_state := foldl table_step s es.
End Cols.
End Table.

(** ** Page bar ([pagination.tsx]) *)

Module PageBar.
Inductive control : Type := First | Previous | Number (pageNumber : Z) | Next | Last.
Definition page_sizes : list Z := [10; 20; 30; 40; 50].

Definition currentPage (pageIndex : Z) : Z := pageIndex + 1.
(** The page a control goes to. *)
Definition target (pageIndex pageCount : Z) (c : control) : Z :=
  match c with
  | First => 0
  | Previous => pageIndex - 1
  | Number n => n - 1
  | Next => pageIndex + 1
  | Last => pageCount - 1
  end.
(** The controls that are not disabled. *)
Definition enabled (pageIndex pageCount : Z) : list control :=
  (if 0 <? pageIndex then [First; Previous] else []) ++
  omap (fun p => match p with Pages.Page n => Some (Number n) | Pages.Dots => None end)
    (getPageNumbers (currentPage pageIndex) pageCount) ++
  (if pageIndex <? pageCount - 1 then [Next; Last] else []).
Definition caption (pageIndex pageCount : Z) : string :=
  "Page " +:+ Z_to_string (currentPage pageIndex) +:+ " of " +:+ Z_to_string pageCount.
(** [table.setPageSize(Number(value))] for the text of an option. *)
Definition onValueChange (value : string) : option Z := parseInt10 value.
End PageBar.

(** ** Bulk-action bar ([bulk-actions.tsx]) *)

Module BulkBar.
Definition label (selectedCount : Z) (entityName : string) : string :=
  "Bulk actions for " +:+ Z_to_string selectedCount +:+ " selected " +:+ entityName +:+ plural selectedCount.
Definition announced (selectedCount : Z) (entityName : string) : string :=
  Z_to_string selectedCount +:+ " " +:+ entityName +:+ plural selectedCount +:+
  " selected. Bulk actions toolbar is available.".

Inductive key : Type := ArrowRight | ArrowLeft | Home | End_ | Escape | OtherKey.
Record outcome : Type := Outcome { focused : option Z; prevented : bool; cleared_selection : bool }.

(** [buttons[i]?.focus()]. *)
Definition focus_at (n i : Z) : option Z := if (0 <=? i) && (i <? n) then Some i else None.

(** [n] buttons, the [currentIndex]-th in focus (-1: none of them); [dropdown]: the key
    comes from the trigger or the content of a menu. *)
Definition handleKeyDown (n currentIndex : Z) (dropdown : bool) (k : key) : outcome :=
  match k with
  | ArrowRight => Outcome (focus_at n ((currentIndex + 1) mod n)) true false
  | ArrowLeft => Outcome (focus_at n (if currentIndex =? 0 then n - 1 else currentIndex - 1)) true false
  | Home => Outcome (focus_at n 0) true false
  | End_ => Outcome (focus_at n (n - 1)) true false
  | Escape => if dropdown then Outcome None false false else Outcome None true true
  | OtherKey => Outcome None false false
  end.

(** The announcement to screen readers: the effect of a new count queues the text and
    starts a timer; its clean-up stops the timer of the count before. *)
Record state : Type := St {
  count : Z; announcement : string; microtasks : list string; timer : bool }.
Definition mounted : state := St 0 "" [] false.
Inductive step (entityName : string) : state -> state -> Prop :=
| Counted s n : count s <> n ->
    step entityName s (St n (announcement s)
      (microtasks s ++ (if 0 <? n then [announced n entityName] else [])) (0 <? n))
| Microtask s m ms : microtasks s = m :: ms -> step entityName s (St (count s) m ms (timer s))
| Timeout s : timer s = true -> microtasks s = [] -> step entityName s (St (count s) "" [] false).
(** The bar is on the page only while something is selected. *)
Definition spoken (s : state) : option string := if count s =? 0 then None else Some (announcement s).
End BulkBar.

(** ** Column menu, header and cards *)

(** The columns of the View menu: those with a value that may be hidden. *)
Definition view_options (cols : list column) : list string :=
  map col_id (List.filter (fun c => match accessor c with Some _ => enableHiding c | None => false end) cols).

Inductive header_item : Type := Asc | Desc | Hide.
Definition header_menu (c : column) : list header_item :=
  match accessor c, enableSorting c with
  | Some _, true => [Asc; Desc] ++ (if enableHiding c then [Hide] else [])
  | _, _ => []
  end.

(** A card of the mobile view: its first line, the line below, the labelled details. *)
Record card : Type := Card {
  primary : list string;
  meta : list string;
  details : list (string * string) }.

(** ** What a toolbar promises *)

(** The query a toolbar displays: the text in each search box, the values ticked in each
    facet. *)
Record query : Type := Query { texts : gmap string string; chosen : gmap string (gset string) }.
Definition no_query : query := Query ∅ ∅.
Definition text_in (q : query) (c : string) : string := texts q !! c ?? "".
Definition chosen_in (q : query) (c : string) : gset string := chosen q !! c ?? ∅.
Definition toggled (v : string) (vs : gset string) : gset string :=
  if decide (v ∈ vs) then vs ∖ {[v]} else {[v]} ∪ vs.

Definition query_step (q : query) (e : table_event) : query :=
  match e with
  | Search c s => Query (<[c := s]> (texts q)) (chosen q)
  | Choose c v => Query (texts q) (<[c := toggled v (chosen_in q c)]> (chosen q))
  | ClearFacet c => Query (texts q) (<[c := ∅]> (chosen q))
  | Reset => no_query
  | _ => q
  end.
Definition query_run (q : query) (l : list table_event) : query := foldl query_step q l.

(** What a table can be searched by: the columns with a search box and the text each is
    compared with, the columns with a facet and the value each is compared with, and what
    the records have to satisfy for that. *)
Record searchable : Type := Searchable {
  text_cols : list (string * (jval -> string));
  facet_cols : list (string * (jval -> jval));
  valid : jval -> bool }.

Definition contains (needle hay : string) : bool := includes (toLowerCase needle) (toLowerCase hay).
Definition query_matches (S : searchable) (q : query) (row : jval) : bool :=
  forallb (fun t => contains (text_in q t.1) (t.2 row)) (text_cols S) &&
  forallb (fun f => bool_decide (chosen_in q f.1 = ∅) ||
             match f.2 row with JStr v => bool_decide (v ∈ chosen_in q f.1) | _ => false end) (facet_cols S).

Definition toolbar_event (S : searchable) (e : table_event) : Prop :=
  match e with
  | Search c _ => c ∈ map fst (text_cols S)
  | Choose c _ | ClearFacet c => c ∈ map fst (facet_cols S)
  | SearchAll _ => False
  | Refetched d => Forall (fun r => valid S r = true) d
  | _ => True
  end.

(** *** Sets of values *)

Lemma set_add_fresh l x : x ∉ l -> set_add l x = l ++ [x].
Proof. intros Hx. unfold set_add. by rewrite decide_False. Qed.

Lemma foldl_set_add l acc : NoDup (acc ++ l) -> foldl set_add acc l = acc ++ l.
Proof.
  revert acc. induction l as [|x l IH]; intros acc Hl; cbn; [by rewrite app_nil_r|].
  rewrite set_add_fresh.
  - rewrite IH; rewrite <- app_assoc; done.
  - apply NoDup_app in Hl as (_ & Hd & _). intros Hx. apply (Hd x Hx). constructor.
Qed.

Lemma new_Set_NoDup l : NoDup l -> new_Set (JArr l) = l.
Proof. intros Hl. cbn. by rewrite foldl_set_add. Qed.

Lemma set_add_elem l acc x : x ∈ foldl set_add acc l <-> x ∈ acc \/ x ∈ l.
Proof.
  revert acc. induction l as [|y l IH]; intros acc; cbn; [set_solver|].
  rewrite IH. unfold set_add. destruct (decide (y ∈ acc)); set_solver.
Qed.

Lemma set_add_NoDup l acc : NoDup acc -> NoDup (foldl set_add acc l).
Proof.
  revert acc. induction l as [|y l IH]; intros acc Ha; cbn; [done|]. apply IH.
  unfold set_add. destruct (decide (y ∈ acc)); [done|]. apply NoDup_app. split; [done|].
  split; [|apply NoDup_singleton]. set_solver.
Qed.

Lemma new_Set_filterValues l : NoDup l -> new_Set (filterValues l) = l.
Proof. destruct l; [done|]. apply new_Set_NoDup. Qed.

Lemma not_cleared_values l : cleared (filterValues l) = match l with [] => true | _ => false end.
Proof. by destruct l. Qed.

Lemma contains_nothing t : contains "" t = true.
Proof. unfold contains. cbn. by destruct (toLowerCase t). Qed.

Lemma js_includes_values l x : js_includes (JArr l) x = bool_decide (x ∈ l).
Proof.
  cbn. induction l as [|y l IH]; [done|]. cbn. rewrite IH. destruct (jval_eqb x y) eqn:E.
  - apply jval_eqb_eq in E as ->. symmetry. apply bool_decide_eq_true. constructor.
  - assert (x <> y) by (intros ->; by rewrite jval_eqb_refl in E). apply bool_decide_ext. set_solver.
Qed.

Lemma filter_imap {A B} (f : nat -> A -> B) (p : B -> bool) (p' : A -> bool) l :
  (forall i x, x ∈ l -> p (f i x) = p' x) ->
  forall g : B -> A, (forall i x, g (f i x) = x) -> map g (List.filter p (imap f l)) = List.filter p' l.
Proof.
  revert f. induction l as [|x l IH]; intros f Hp g Hg; [done|]. cbn. rewrite Hp by constructor.
  destruct (p' x); cbn; rewrite ?Hg; rewrite (IH (f ∘ S)); try done; intros; apply Hp + apply Hg; by constructor.
Qed.

Lemma filter_and {A} (p p' : A -> bool) l :
  List.filter p (List.filter p' l) = List.filter (fun x => p' x && p x) l.
Proof. induction l as [|x l IH]; [done|]. cbn. destruct (p' x); cbn; rewrite IH; done. Qed.

Section Promise.
Context `{ReactTableLaws}.

(** How a column filters is what its search box or facet says. *)
Definition filters_as_said (S : searchable) (col : column) : Prop :=
  (forall txt, (col_id col, txt) ∈ text_cols S ->
     forall first row s, valid S first = true -> valid S row = true -> s <> "" ->
     filter_keeps autoFilter col first row (JStr s) = contains s (txt row)) /\
  (forall val, (col_id col, val) ∈ facet_cols S ->
     exists f, filterFn col = Some f /\ forall row v, f row v = js_includes v (val row)).

Class ToolbarOk (cols : list column) (S : searchable) : Prop := {
  boxes_apart : forall c, c ∈ map fst (text_cols S) -> c ∉ map fst (facet_cols S);
  boxes_in : forall c, c ∈ map fst (text_cols S) ++ map fst (facet_cols S) -> c ∈ map col_id cols;
  boxes_filter : Forall (filters_as_said S) cols }.

Lemma getFilterValue_set c v fs : cleared v = false -> getFilterValue c (setFilterValue c v fs) = v.
Proof. intros Hv. by rewrite setFilterValue_same, Hv. Qed.

(** A column's filter holds exactly what the query has for it. *)
Definition holds_text (fs : column_filters) (q : query) (c : string) : Prop :=
  getFilterValue c fs = if String.eqb (text_in q c) "" then JUndef else JStr (text_in q c).
Definition holds_choice (fs : column_filters) (q : query) (c : string) : Prop :=
  exists l, NoDup l /\ getFilterValue c fs = filterValues l /\
    forall x, x ∈ l <-> exists v, x = JStr v /\ v ∈ chosen_in q c.
Record holds (S : searchable) (fs : column_filters) (q : query) : Prop := {
  h_text c : c ∈ map fst (text_cols S) -> holds_text fs q c;
  h_choice c : c ∈ map fst (facet_cols S) -> holds_choice fs q c;
  h_other c : c ∉ map fst (text_cols S) -> c ∉ map fst (facet_cols S) -> getFilterValue c fs = JUndef }.

Lemma holds_nothing S : holds S [] no_query.
Proof.
  split; [done| |done]. intros c _. exists []. split_and!; [constructor|done|].
  intros x. split; [by intros ?%elem_of_nil|]. intros (v & _ & Hv). unfold chosen_in in Hv.
  cbn in Hv. rewrite lookup_empty in Hv. set_solver.
Qed.

Lemma text_in_insert q c c' s : text_in (Query (<[c := s]> (texts q)) (chosen q)) c' =
  if decide (c = c') then s else text_in q c'.
Proof.
  unfold text_in. cbn. destruct (decide (c = c')) as [->|Hc]; [by rewrite lookup_insert_eq|].
  by rewrite lookup_insert_ne.
Qed.

Lemma chosen_in_insert q c c' s : chosen_in (Query (texts q) (<[c := s]> (chosen q))) c' =
  if decide (c = c') then s else chosen_in q c'.
Proof.
  unfold chosen_in. cbn. destruct (decide (c = c')) as [->|Hc]; [by rewrite lookup_insert_eq|].
  by rewrite lookup_insert_ne.
Qed.

Lemma holds_choice_other fs fs' q q' c : getFilterValue c fs' = getFilterValue c fs ->
  chosen_in q' c = chosen_in q c -> holds_choice fs q c -> holds_choice fs' q' c.
Proof. intros Hf Hq (l & Hl & Hv & Hx). exists l. by rewrite Hf, Hq. Qed.

Lemma onSelect_holds fs q c v : holds_choice fs q c ->
  holds_choice (onSelect c v fs) (Query (texts q) (<[c := toggled v (chosen_in q c)]> (chosen q))) c.
Proof.
  intros (l & Hl & Hv & Hx). unfold onSelect, isSelected, selectedValues. rewrite Hv, new_Set_filterValues by done.
  unfold holds_choice. rewrite chosen_in_insert, decide_True by done. unfold toggled.
  assert (JStr v ∈ l <-> v ∈ chosen_in q c) as Hm.
  { rewrite Hx. split; [by intros (w & [= ->] & Hw)|by exists v]. }
  case_bool_decide as Hin.
  - rewrite decide_True by by apply Hm.
    exists (List.filter (fun x => negb (jval_eqb x (JStr v))) l). split_and!.
    + apply NoDup_ListNoDup, List.NoDup_filter. by apply NoDup_ListNoDup.
    + rewrite setFilterValue_same, not_cleared_values. by destruct (List.filter _ l).
    + intros x. rewrite list_elem_of_In, filter_In, <- list_elem_of_In, Hx, negb_true_iff. split.
      * intros [(w & -> & Hw) Hne]. exists w. split; [done|]. apply elem_of_difference. split; [done|].
        intros ->%elem_of_singleton. by rewrite jval_eqb_refl in Hne.
      * intros (w & -> & [Hw Hne]%elem_of_difference). split; [by exists w|].
        apply not_true_iff_false. intros [= ->]%jval_eqb_eq. set_solver.
  - rewrite decide_False by (intros E; by apply Hin, Hm). exists (l ++ [JStr v]). split_and!.
    + apply NoDup_app. split; [done|]. split; [set_solver|apply NoDup_singleton].
    + rewrite setFilterValue_same, not_cleared_values. by destruct l.
    + intros x. rewrite elem_of_app, Hx, list_elem_of_singleton. split.
      * intros [(w & -> & Hw)| ->]; [exists w|exists v]; set_solver.
      * intros (w & -> & [->%elem_of_singleton|Hw]%elem_of_union); [by right|left; by exists w].
Qed.

Lemma query_step_holds cols S st q e : ToolbarOk cols S -> toolbar_event S e ->
  holds S (columnFilters st) q -> holds S (columnFilters (table_step cols st e)) (query_step q e).
Proof.
  intros [Hap _ _] He Hh. destruct e as [c s| |c v|c| | | | | | | |]; cbn in *; try done; try exact Hh;
    [| | |apply holds_nothing]; destruct Hh as [Ht Hc Ho].
  - assert (c ∉ map fst (facet_cols S)) as Hf by by apply Hap. split.
    + intros c' Hc'. unfold holds_text. rewrite text_in_insert. destruct (decide (c = c')) as [->|Hne].
      * rewrite setFilterValue_same. cbn. by destruct (String.eqb s "").
      * rewrite setFilterValue_other by done. by apply Ht.
    + intros c' Hc'. assert (c' <> c) by (intros ->; done).
      by eapply holds_choice_other; [by apply setFilterValue_other| |apply Hc].
    + intros c' H1 H2. rewrite setFilterValue_other by (intros ->; done). by apply Ho.
  - split.
    + intros c' Hc'. assert (c' <> c) by (intros ->; by apply (Hap c)).
      unfold holds_text, onSelect. rewrite setFilterValue_other by done. by apply Ht.
    + intros c' Hc'. destruct (decide (c = c')) as [->|Hne]; [by apply onSelect_holds, Hc|].
      eapply holds_choice_other; [| |by apply (Hc c')].
      * by apply setFilterValue_other.
      * by rewrite chosen_in_insert, decide_False.
    + intros c' H1 H2. unfold onSelect. rewrite setFilterValue_other by (intros ->; done). by apply Ho.
  - split.
    + intros c' Hc'. assert (c' <> c) by (intros ->; by apply (Hap c)).
      unfold holds_text, clear_filters. rewrite setFilterValue_other by done. by apply Ht.
    + intros c' Hc'. destruct (decide (c = c')) as [->|Hne].
      * exists []. split_and!; [constructor|unfold clear_filters; by rewrite setFilterValue_same|].
        intros x. rewrite chosen_in_insert, decide_True by done. split; [by intros ?%elem_of_nil|].
        intros (w & _ & Hw). set_solver.
      * eapply holds_choice_other; [| |by apply (Hc c')].
        -- by apply setFilterValue_other.
        -- by rewrite chosen_in_insert, decide_False.
    + intros c' H1 H2. unfold clear_filters. rewrite setFilterValue_other by (intros ->; done). by apply Ho.
Qed.

(** One column's filter and the part of the query about it. *)
Lemma choice_accepts fs q c x : holds_choice fs q c ->
  in_force (getFilterValue c fs) (fun v => js_includes v x) =
  bool_decide (chosen_in q c = ∅) || match x with JStr v => bool_decide (v ∈ chosen_in q c) | _ => false end.
Proof.
  intros (l & _ & Hv & Hx). rewrite Hv. destruct l as [|y l]; cbn [filterValues].
  - rewrite bool_decide_true; [done|]. apply set_eq. intros v. split; [|set_solver].
    intros Hin. exfalso. eapply not_elem_of_nil. apply Hx. by exists v.
  - cbn [in_force]. rewrite js_includes_values, (bool_decide_false (chosen_in q c = ∅)).
    2: { intros E. destruct (proj1 (Hx y)) as (w & _ & Hw); [constructor|]. rewrite E in Hw. set_solver. }
    cbn [orb]. destruct x; try (apply bool_decide_eq_false; intros (w & ? & _)%Hx; done).
    apply bool_decide_ext. rewrite Hx. split; [by intros (w & [= ->] & ?)|by exists s].
Qed.

Lemma column_accepts_iff S fs q first row col : filters_as_said S col -> holds S fs q ->
  (forall c, c ∈ map fst (text_cols S) -> c ∉ map fst (facet_cols S)) ->
  valid S first = true -> valid S row = true ->
  column_accepts autoFilter fs first row col = true <->
  (forall txt, (col_id col, txt) ∈ text_cols S -> contains (text_in q (col_id col)) (txt row) = true) /\
  (forall val, (col_id col, val) ∈ facet_cols S ->
     bool_decide (chosen_in q (col_id col) = ∅) ||
     match val row with JStr v => bool_decide (v ∈ chosen_in q (col_id col)) | _ => false end = true).
Proof.
  intros [Ht Hf] [H1 H2 H3] Hap Hvf Hvr. set (c := col_id col) in *. unfold column_accepts. fold c.
  assert (forall {A} (x : A) l, (c, x) ∈ l -> c ∈ map fst l) as Hin.
  { intros A x l Hx. apply list_elem_of_fmap. by exists (c, x). }
  destruct (decide (c ∈ map fst (text_cols S))) as [Hc|Hc].
  - specialize (H1 c Hc). unfold holds_text in H1.
    assert ((forall txt, (c, txt) ∈ text_cols S -> contains (text_in q c) (txt row) = true) <->
            in_force (getFilterValue c fs) (filter_keeps autoFilter col first row) = true) as E.
    { rewrite H1. destruct (String.eqb (text_in q c) "") eqn:E; b2p; cbn [in_force].
      - rewrite E. split; [done|]. intros _ txt _. apply contains_nothing.
      - apply list_elem_of_fmap in Hc as ([c' txt] & Hc' & Hx). cbn in Hc'. subst c'. split.
        + intros Hall. by rewrite (Ht txt Hx first row) by done; apply Hall.
        + intros Ha txt' Hx'. by rewrite (Ht txt' Hx' first row) in Ha by done. }
    rewrite <- E. split; [intros Ha; split; [done|]|by intros [Ha _]].
    intros val Hv. exfalso. by apply (Hap c Hc), (Hin _ val).
  - destruct (decide (c ∈ map fst (facet_cols S))) as [Hfc|Hfc].
    + pose proof (fun x => choice_accepts fs q c x (H2 c Hfc)) as Hch.
      apply list_elem_of_fmap in Hfc as ([c' val] & Hc' & Hx). cbn in Hc'. subst c'.
      assert (forall val', (c, val') ∈ facet_cols S ->
        in_force (getFilterValue c fs) (filter_keeps autoFilter col first row) =
        in_force (getFilterValue c fs) (fun v => js_includes v (val' row))) as E.
      { intros val' Hv'. destruct (Hf val' Hv') as (f & Hcol & Hff). unfold filter_keeps. rewrite Hcol.
        by destruct (getFilterValue c fs); cbn; rewrite ?Hff. }
      split.
      * intros Ha. split; [intros txt Htx; by destruct Hc; apply (Hin _ txt)|].
        intros val' Hv'. by rewrite <- Hch, <- E.
      * intros [_ Ha]. by rewrite (E val Hx), Hch, Ha.
    + rewrite H3 by done. split; [|done]. intros _. split; intros x Hx; exfalso; [apply Hc|apply Hfc]; by apply (Hin _ x).
Qed.

Lemma accepts_iff cols S fs q first row : ToolbarOk cols S -> holds S fs q ->
  valid S first = true -> valid S row = true ->
  accepts autoFilter cols fs first row = query_matches S q row.
Proof.
  intros [Hap Hin Hok] Hh Hvf Hvr. apply eq_true_iff_eq. unfold accepts, query_matches.
  rewrite andb_true_iff, !forallb_forall. rewrite Forall_forall in Hok.
  assert (forall {A} (c : string) (l : list (string * A)) x, (c, x) ∈ l -> c ∈ map fst l) as Hk.
  { intros A c l x Hx. apply list_elem_of_fmap. by exists (c, x). }
  split.
  - intros Ha. split.
    + intros [c txt] Hx%list_elem_of_In. cbn.
      destruct (proj1 (list_elem_of_fmap _ _ _) (Hin c ltac:(apply elem_of_app; left; by eapply Hk)))
        as (col & -> & Hcol).
      apply (column_accepts_iff S fs q first row col); [by apply Hok|done..| |done].
      apply Ha. by apply list_elem_of_In.
    + intros [c val] Hx%list_elem_of_In. cbn.
      destruct (proj1 (list_elem_of_fmap _ _ _) (Hin c ltac:(apply elem_of_app; right; by eapply Hk)))
        as (col & -> & Hcol).
      apply (column_accepts_iff S fs q first row col); [by apply Hok|done..| |done].
      apply Ha. by apply list_elem_of_In.
  - intros [Ht Hf] col Hcol%list_elem_of_In. apply (column_accepts_iff S fs q); [by apply Hok|done..|].
    split; intros x Hx; [by apply (Ht (_, x)), list_elem_of_In|by apply (Hf (_, x)), list_elem_of_In].
Qed.

Lemma shown_rows_spec cols S s q : ToolbarOk cols S -> holds S (columnFilters s) q ->
  globalFilter s = "" -> Forall (fun r => valid S r = true) (data s) ->
  shown_rows cols s = List.filter (query_matches S q) (data s).
Proof.
  intros Hok Hh Hg Hv. unfold shown_rows, rows_of. rewrite Hg, getFilteredRowModel_spec.
  destruct (data s) as [|r0 d] eqn:E; [done|]. rewrite <- E in *. rewrite Forall_forall in Hv.
  apply filter_imap; [|done]. intros i x Hx. cbn.
  apply accepts_iff; [done|done| |by apply Hv]. rewrite E. apply Hv. rewrite E. constructor.
Qed.

Lemma toolbar_run cols S l s q : ToolbarOk cols S -> Forall (toolbar_event S) l ->
  holds S (columnFilters s) q -> globalFilter s = "" -> Forall (fun r => valid S r = true) (data s) ->
  let s' := table_run cols s l in
  holds S (columnFilters s') (query_run q l) /\ globalFilter s' = "" /\
  Forall (fun r => valid S r = true) (data s').
Proof.
  intros Hok Hl. revert s q. induction Hl as [|e l He Hl IH]; intros s q Hh Hg Hd; [done|]. cbn.
  apply IH; [by apply query_step_holds|by destruct e|by destruct e].
Qed.

(** Whatever was typed and clicked in a toolbar, and however often the list was refetched
    meanwhile, the rows shown are the records that match the query on display. *)
Lemma toolbar_shows cols S d visibility n l : ToolbarOk cols S -> Forall (toolbar_event S) l ->
  Forall (fun r => valid S r = true) d ->
  let s := table_run cols (opened d visibility n) l in
  shown_rows cols s = List.filter (query_matches S (query_run no_query l)) (data s).
Proof.
  intros Hok Hl Hd. cbn zeta.
  destruct (toolbar_run cols S l (opened d visibility n) no_query Hok Hl (holds_nothing S) eq_refl Hd)
    as (H1 & H2 & H3). by apply shown_rows_spec.
Qed.

(** *** Selections are kept by position *)

Lemma filter_imap_zip {A} (p : string * A -> bool) (l : list A) k :
  List.filter p (imap (fun i r => (rowId (k + i)%nat, r)) l) =
  map (fun ir => (rowId ir.1, ir.2))
    (List.filter (fun ir => p (rowId ir.1, ir.2)) (zip (seq k (length l)) l)).
Proof.
  revert k. induction l as [|x l IH]; intros k; [done|]. cbn [imap length seq zip_with List.filter fst snd].
  replace (imap ((fun i r => (rowId (k + i)%nat, r)) ∘ S) l) with (imap (fun i r => (rowId (S k + i)%nat, r)) l).
  2: { apply imap_ext. intros i y _. cbn. by rewrite Nat.add_succ_r. }
  rewrite Nat.add_0_r, IH. by destruct (p (rowId k, x)).
Qed.

(** The records with their positions. *)
Definition positioned (d : list jval) : list (nat * jval) := zip (seq 0 (length d)) d.

(** The positions whose rows are ticked. *)
Definition ticked (s : table_state) (i : nat) : bool := bool_decide (rowId i ∈ rowSelection s).

(** A bulk action takes the records that match the query and stand where a row was ticked:
    not the records that stood there when it was. *)
Lemma bulk_lemma cols S s q : ToolbarOk cols S -> holds S (columnFilters s) q ->
  globalFilter s = "" -> Forall (fun r => valid S r = true) (data s) ->
  selected_rows cols s =
  map snd (List.filter (fun ir => query_matches S q ir.2 && ticked s ir.1) (positioned (data s))).
Proof.
  intros Hok Hh Hg Hv. unfold selected_rows, rows_of, getFilteredSelectedRowModel.
  rewrite Hg, getFilteredRowModel_spec, filter_and.
  rewrite (filter_imap_zip _ (data s) 0). rewrite map_map. cbn [snd].
  fold (positioned (data s)). f_equal. apply filter_ext_in. intros [i r] Hir. cbn.
  destruct (data s) as [|r0 d] eqn:E; [done|]. rewrite Forall_forall in Hv.
  rewrite (accepts_iff cols S _ q); [|done|done|apply Hv; constructor|].
  - done.
  - apply Hv. apply list_elem_of_In in Hir. by apply elem_of_zip_r in Hir.
Qed.
End Promise.

(** What the last tick on a position said. *)
Definition tick_said `{ReactTable} (i : nat) (b : bool) (e : table_event) : bool :=
  match e with
  | Tick id v => if String.eqb id (rowId i) then v else b
  | ClearSelection => false
  | _ => b
  end.
Definition last_ticked `{ReactTable} (l : list table_event) (i : nat) : bool := foldl (tick_said i) false l.
Definition single_ticks (e : table_event) : bool := match e with TickPage _ => false | _ => true end.
Definition refetch (e : table_event) : bool := match e with Refetched _ => true | _ => false end.

Section Ticks.
Context `{ReactTable}.

Lemma last_ticked_run cols l s : forallb single_ticks l = true -> rowSelection s = ∅ ->
  forall i, ticked (table_run cols s l) i = last_ticked l i.
Proof.
  intros Hl Hs i. unfold last_ticked, table_run.
  assert (ticked s i = false) as Hi by (unfold ticked; rewrite Hs; by apply bool_decide_eq_false).
  clear Hs. revert s Hi. generalize false as b. revert Hl. induction l as [|e l IH]; intros Hl b s Hi; [done|].
  cbn in *. apply andb_true_iff in Hl as [He Hl]. apply IH; [done|].
  destruct e as [| | | | |id v|v| | | | |]; try done; cbn.
  - unfold ticked in *. cbn. destruct (String.eqb id (rowId i)) eqn:E; b2p.
    + subst id. destruct v; cbn; [apply bool_decide_eq_true|apply bool_decide_eq_false]; set_solver.
    + rewrite <- Hi. apply bool_decide_ext. destruct v; cbn; set_solver.
Qed.

Lemma data_kept cols l s : existsb refetch l = false -> data (table_run cols s l) = data s.
Proof.
  revert s. induction l as [|e l IH]; intros s Hl; [done|]. cbn in *. apply orb_false_iff in Hl as [He Hl].
  unfold table_run in *. rewrite IH by done. by destruct e.
Qed.

Lemma data_forall (P : jval -> Prop) cols l s : Forall P (data s) ->
  Forall (fun e => match e with Refetched d => Forall P d | _ => True end) l ->
  Forall P (data (table_run cols s l)).
Proof.
  intros Hs Hl. revert s Hs. induction Hl as [|e l He Hl IH]; intros s Hs; [done|]. apply IH. by destruct e.
Qed.

Lemma query_nothing S r : query_matches S no_query r = true.
Proof.
  unfold query_matches. apply andb_true_iff. split; apply forallb_forall; intros [c f] _; cbn.
  - unfold text_in. cbn. rewrite lookup_empty. apply contains_nothing.
  - unfold chosen_in. cbn. by rewrite lookup_empty.
Qed.

(** From an opened table: the rows a bulk action takes are those that match the query on
    display and stand, in the records of the moment, where a row was ticked last. *)
Lemma bulk_by_position `{!ReactTableLaws} cols S d visibility n l : ToolbarOk cols S ->
  Forall (toolbar_event S) l -> Forall (fun r => valid S r = true) d -> forallb single_ticks l = true ->
  let s := table_run cols (opened d visibility n) l in
  selected_rows cols s =
  map snd (List.filter (fun ir => query_matches S (query_run no_query l) ir.2 && last_ticked l ir.1)
             (positioned (data s))).
Proof.
  intros Hok Hl Hd Ht s.
  destruct (toolbar_run cols S l (opened d visibility n) no_query Hok Hl (holds_nothing S) eq_refl Hd)
    as (H1 & H2 & H3).
  rewrite (bulk_lemma cols S s (query_run no_query l)) by done. f_equal.
  apply filter_ext_in. intros [i r] _. cbn. f_equal. by apply last_ticked_run.
Qed.

Lemma selected_in_data `{!ReactTableLaws} cols s r : globalFilter s = "" -> r ∈ selected_rows cols s -> r ∈ data s.
Proof.
  intros Hg. unfold selected_rows, rows_of, getFilteredSelectedRowModel. rewrite Hg, getFilteredRowModel_spec.
  intros ([i x] & -> & Hx)%list_elem_of_fmap. apply list_elem_of_In, filter_In in Hx as [Hx _].
  apply filter_In in Hx as [Hx _]. apply list_elem_of_In, elem_of_lookup_imap in Hx as (k & y & [= -> ->] & Hy).
  cbn. by eapply list_elem_of_lookup_2.
Qed.
End Ticks.

(** *** The options of a facet *)

Lemma text_elem l v : Forall (fun x => exists s, x = JStr s) l -> v ∈ map js_String l <-> JStr v ∈ l.
Proof.
  intros Hl. rewrite Forall_forall in Hl. split.
  - intros (x & -> & Hx)%list_elem_of_fmap. destruct (Hl x Hx) as [s ->]. done.
  - intros Hv. apply list_elem_of_fmap. by exists (JStr v).
Qed.

(** The options a table derives from its records: each value that is not empty once, in
    order. *)
Lemma option_list_values values : Forall (fun x => exists s, x = JStr s) values ->
  NoDup (map snd (option_list values)) /\ Sorted String.le (map snd (option_list values)) /\
  forall v, v ∈ map snd (option_list values) <-> v <> "" /\ JStr v ∈ values.
Proof.
  intros Hv. assert (map snd (option_list values) = merge_sort String.le (distinct values)) as ->.
  { unfold option_list. rewrite map_map. cbn. apply map_id. }
  remember (foldl set_add [] (List.filter truthy values)) as l eqn:El.
  assert (Forall (fun x => exists s, x = JStr s) l) as Hl.
  { apply Forall_forall. intros x Hx. rewrite El in Hx. apply set_add_elem in Hx as [Hx|Hx]; [by apply not_elem_of_nil in Hx|].
    apply list_elem_of_In, filter_In in Hx as [Hx _]. rewrite Forall_forall in Hv. by apply Hv, list_elem_of_In. }
  split_and!.
  - rewrite (merge_sort_Permutation String.le). unfold distinct. rewrite <- El.
    assert (NoDup l) as Hn by (rewrite El; apply set_add_NoDup; constructor). clear El.
    induction Hn as [|x l Hx Hn IH]; [constructor|]. inversion Hl as [|? ? [s ->] Hl']; subst. cbn.
    constructor; [|by apply IH]. by rewrite text_elem.
  - apply Sorted_merge_sort. intros x y. apply String.le_total || apply _.
  - intros v. rewrite (merge_sort_Permutation String.le). unfold distinct. rewrite <- El. rewrite text_elem by done.
    rewrite El, set_add_elem, (list_elem_of_In (List.filter truthy values)), filter_In, <- list_elem_of_In. split.
    + intros [Hx|[Hx Ht]]; [by apply not_elem_of_nil in Hx|]. split; [|done]. intros ->. done.
    + intros [Hne Hx]. right. split; [done|]. cbn. by destruct v.
Qed.

(** *** Page bar and bulk-action bar *)

Section Bars.
Import PageBar BulkBar.

(** No control of the page bar that can be clicked leaves the table's pages, every page has
    a way to it, and each page size offered is read back as itself. *)
Lemma page_bar_lemma pageIndex pageCount : 0 <= pageIndex < pageCount ->
  Forall (fun c => 0 <= target pageIndex pageCount c < pageCount) (enabled pageIndex pageCount) /\
  Number (currentPage pageIndex) ∈ enabled pageIndex pageCount /\
  (0 < pageIndex -> Previous ∈ enabled pageIndex pageCount) /\
  (pageIndex < pageCount - 1 -> Next ∈ enabled pageIndex pageCount) /\
  Forall (fun n => onValueChange (Z_to_string n) = Some n) page_sizes.
Proof.
  intros Hp. destruct (page_bar (currentPage pageIndex) pageCount ltac:(lia)) as (_ & _ & Hin).
  unfold enabled. split_and!.
  - apply Forall_app. split; [destruct (0 <? pageIndex) eqn:E; b2p; repeat constructor; cbn; lia|].
    apply Forall_app. split; [|destruct (pageIndex <? pageCount - 1) eqn:E; b2p; repeat constructor; cbn; lia].
    apply Forall_forall. intros c ([n|] & Hn & [= <-])%list_elem_of_omap. cbn. unfold currentPage in *.
    unfold getPageNumbers, maxVisiblePages in Hn.
    repeat match type of Hn with
    | _ ∈ _ ++ _ => apply elem_of_app in Hn as [Hn|Hn]
    | _ ∈ (if ?b then _ else _) => let E := fresh in destruct b eqn:E; b2p
    | _ ∈ _ :: _ => apply elem_of_cons in Hn as [Hn|Hn]
    | _ ∈ [] => by apply not_elem_of_nil in Hn
    | _ ∈ map _ _ => apply list_elem_of_fmap in Hn as (m & [= ->] & Hn%elem_of_zrange)
    | _ = _ => try discriminate Hn; injection Hn as Hn
    end; lia.
  - apply elem_of_app. right. apply elem_of_app. left. apply list_elem_of_omap.
    exists (Pages.Page (currentPage pageIndex)). split; [|done]. apply Hin. unfold currentPage. lia.
  - intros H0. apply elem_of_app. left. rewrite (proj2 (Z.ltb_lt _ _)) by lia. set_solver.
  - intros H0. apply elem_of_app. right. apply elem_of_app. right. rewrite (proj2 (Z.ltb_lt _ _)) by lia. set_solver.
  - repeat constructor.
Qed.

Lemma focus_in n i : 0 <= i < n -> focus_at n i = Some i.
Proof. intros Hi. unfold focus_at. by rewrite (proj2 (Z.leb_le _ _)), (proj2 (Z.ltb_lt _ _)) by lia. Qed.

(** The arrow keys walk round the buttons of the bar, one undoing the other, Home and End
    go to its ends; Escape clears the selection unless it closes a menu of the bar. *)
Lemma bulk_keys_lemma n i d : 0 <= i < n ->
  (forall k j, focused (handleKeyDown n i d k) = Some j -> 0 <= j < n) /\
  (exists j, focused (handleKeyDown n i d ArrowRight) = Some j /\ focused (handleKeyDown n j d ArrowLeft) = Some i) /\
  (exists j, focused (handleKeyDown n i d ArrowLeft) = Some j /\ focused (handleKeyDown n j d ArrowRight) = Some i) /\
  focused (handleKeyDown n i d Home) = Some 0 /\ focused (handleKeyDown n i d End_) = Some (n - 1) /\
  (forall k, cleared_selection (handleKeyDown n i d k) = true <-> k = Escape /\ d = false).
Proof.
  intros Hi. split_and!.
  - intros k j. destruct k, d; cbn; try done; unfold focus_at; case_match eqn:E; try done; intros [= <-]; b2p; lia.
  - exists ((i + 1) mod n). cbn. pose proof (Z.mod_pos_bound (i + 1) n). rewrite focus_in by lia. split; [done|].
    destruct (decide (i = n - 1)) as [->|Hne].
    + replace (n - 1 + 1) with n by lia. rewrite Z.mod_same by lia. cbn. by rewrite focus_in by lia.
    + rewrite Z.mod_small by lia. rewrite (proj2 (Z.eqb_neq _ _)) by lia. rewrite focus_in by lia. f_equal. lia.
  - cbn. destruct (i =? 0) eqn:E; b2p.
    + subst. exists (n - 1). rewrite focus_in by lia. split; [done|]. replace (n - 1 + 1) with n by lia.
      rewrite Z.mod_same by lia. by rewrite focus_in by lia.
    + exists (i - 1). rewrite focus_in by lia. split; [done|]. replace (i - 1 + 1) with i by lia.
      rewrite Z.mod_small by lia. by rewrite focus_in by lia.
  - cbn. by rewrite focus_in by lia.
  - cbn. by rewrite focus_in by lia.
  - intros k. destruct k, d; cbn; split; try done; by intros [? ?].
Qed.

(** What is read out is the count of the moment, or nothing. *)
Inductive reachable (entityName : string) : state -> Prop :=
| Reach_mounted : reachable entityName mounted
| Reach_step s s' : reachable entityName s -> step entityName s s' -> reachable entityName s'.

Definition announces (entityName : string) (s : state) : Prop :=
  match last (microtasks s) with
  | Some m => m = announced (count s) entityName \/ count s <= 0
  | None => count s <= 0 \/ announcement s = "" \/ announcement s = announced (count s) entityName
  end.

Lemma announces_step entityName s s' : step entityName s s' -> announces entityName s -> announces entityName s'.
Proof.
  intros Hs Ha. destruct Hs as [s n Hn|s m ms Hm|s Ht Hm]; unfold announces in *; cbn.
  - destruct (0 <? n) eqn:E; b2p; [rewrite last_snoc; by left|]. rewrite app_nil_r.
    destruct (last (microtasks s)); [right; lia|left; lia].
  - rewrite Hm in Ha. destruct ms as [|m' ms]; [cbn in *; tauto|]. rewrite last_cons_cons in Ha.
    destruct (last (m' :: ms)) eqn:E; [done|by apply last_None in E].
  - by right; left.
Qed.

Lemma announces_always entityName s : reachable entityName s -> announces entityName s.
Proof. induction 1 as [|s s' _ IH Hs]; [by left|by eapply announces_step]. Qed.

Lemma spoken_lemma entityName s t : reachable entityName s -> 0 < count s -> microtasks s = [] ->
  spoken s = Some t -> t = "" \/ t = announced (count s) entityName.
Proof.
  intros Hr Hc Hm. apply announces_always in Hr. unfold announces in Hr. rewrite Hm in Hr. cbn in Hr.
  unfold spoken. rewrite (proj2 (Z.eqb_neq _ _)) by lia. intros [= <-]. destruct Hr as [|[|]]; [lia|by left|by right].
Qed.
End Bars.

(** ** The library as documented *)

Definition drop_filter (c : string) (fs : column_filters) : column_filters :=
  List.filter (fun f => negb (String.eqb f.1 c)) fs.

Definition documented_filtered (cols : list column) (fs : column_filters) (rows : list jval) : list (string * jval) :=
  let auto := fun _ v f => match v, f with JStr v, JStr f => contains f v | _, _ => jval_eqb v f end in
  List.filter (fun r => accepts auto cols fs (default JUndef (head rows)) r.2)
    (imap (fun i r => (Z_to_string (Z.of_nat i), r)) rows).

Definition documented_table : ReactTable := {|
  rowId i := Z_to_string (Z.of_nat i);
  autoFilter _ v f := match v, f with JStr v, JStr f => contains f v | _, _ => jval_eqb v f end;
  setFilterValue c v fs := if cleared v then drop_filter c fs else drop_filter c fs ++ [(c, v)];
  getFilteredRowModel cols fs _ rows := documented_filtered cols fs rows;
  getRowModel cols fs _ _ p rows :=
    take (Z.to_nat p.2) (drop (Z.to_nat (p.1 * p.2)) (documented_filtered cols fs rows)) |}.

Lemma found_dropped c c' fs : getFilterValue c (drop_filter c' fs) =
  if String.eqb c c' then JUndef else getFilterValue c fs.
Proof.
  unfold getFilterValue, found_value, drop_filter. induction fs as [|[k v] fs IH]; cbn [List.filter List.find fst].
  - by destruct (String.eqb c c').
  - destruct (String.eqb k c') eqn:Ek; cbn [negb List.find fst]; b2p.
    + subst k. rewrite IH. destruct (String.eqb c c') eqn:E; b2p; [done|].
      rewrite (proj2 (String.eqb_neq c' c)) by done. done.
    + destruct (String.eqb k c) eqn:E; b2p; [|exact IH]. subst k.
      by rewrite (proj2 (String.eqb_neq c c')).
Qed.

Lemma found_app c fs k v : getFilterValue c (fs ++ [(k, v)]) =
  match List.find (fun f => String.eqb f.1 c) fs with
  | Some f => f.2
  | None => if String.eqb k c then v else JUndef
  end.
Proof.
  unfold getFilterValue, found_value. induction fs as [|[k' v'] fs IH]; cbn.
  - by destruct (String.eqb k c).
  - by destruct (String.eqb k' c).
Qed.

Lemma find_dropped c fs : List.find (fun f => String.eqb f.1 c) (drop_filter c fs) = None.
Proof.
  induction fs as [|[k v] fs IH]; [done|]. cbn. destruct (String.eqb k c) eqn:E; cbn; [done|]. by rewrite E.
Qed.

Lemma documented_laws : @ReactTableLaws documented_table.
Proof.
  constructor; cbn.
  - intros i j E. apply Z_to_string_inj in E. lia.
  - done.
  - intros c v fs. destruct (cleared v) eqn:E; [by rewrite found_dropped, String.eqb_refl|].
    by rewrite found_app, find_dropped, String.eqb_refl.
  - intros c c' v fs Hc. destruct (cleared v) eqn:E.
    + rewrite found_dropped. by rewrite (proj2 (String.eqb_neq _ _)).
    + rewrite found_app, (proj2 (String.eqb_neq c c')) by done.
      transitivity (getFilterValue c' (drop_filter c fs)); [done|]. rewrite found_dropped.
      by rewrite (proj2 (String.eqb_neq _ _)).
  - done.
  - intros cols fs g s p rows r Hr. rewrite <- (take_drop (Z.to_nat (p.1 * p.2)) (documented_filtered _ _ _)).
    apply elem_of_app. right. rewrite <- (take_drop (Z.to_nat p.2) (drop _ _)). apply elem_of_app. by left.
Qed.
