(* ===== verification/HotspotTables.v ===== *)
(** * The hotspot tables ([features/hotspot/{users,profiles,active,hosts}])

    One Module per table: its columns ([columns.tsx]), the facets of its toolbar, the cards
    of the mobile view and what its bulk buttons do ([hotspot-*-table.tsx]); [Users] also has
    the page's counts and what it hands to the printer ([users/index.tsx]).  The records are
    the view models of ViewModels; texts made by [Intl] are parameters.

    [users_removed_by_position] follows a selection of users to the requests it ends in,
    [refetch_retargets] is what becomes of it when the list is refetched, and
    [selections_of_backend_rows] what the tables of sessions and hosts make of the backend's
    rows. *)
From S2P Require Import Prelude JsString JsValue JsNumber Http ApiErrors Hooks Hotspot Ui DialogStores Actions.
From S2P Require Import Format JsDate Wire ViewModels TableUrl DataTable.

(** The ids of the selected records. *)
Definition selected_texts (k : string) (rows : list jval) : list string := map (text k) rows.

Definition key_column (k t : string) : column := Column k (Some (get k)) None true true t (or_dash k).

Module Users.
Import UsersDialog.
Section Users.
(** [dateFmt.format] and [at.toLocaleDateString()]. *)
Context (dateFmt toLocaleDateString : jval -> string).

Definition dot (row : jval) : string :=
  if jval_eqb (get "enabledStatus" row) (JStr "enabled") then "Enabled" else "Disabled".

(** [value?.toLowerCase().includes(...)] of a text, else [false]. *)
Definition comment_filter (row value : jval) : bool :=
  match get "comment" row with
  | JStr v => includes (toLowerCase (js_String value)) (toLowerCase v)
  | _ => false
  end.

Definition traffic (row : jval) : list string :=
  let bytesIn := number "bytesIn" row in
  let bytesOut := number "bytesOut" row in
  if bytesIn + bytesOut =? 0 then ["—"]
  else ["↓" +:+ hotspot_formatBytes bytesIn; "↑" +:+ hotspot_formatBytes bytesOut].

Definition expiry_cell (row : jval) : list string :=
  match get "expiry" row with
  | JNull | JUndef => ["—"]
  | exp => dateFmt (get "at" exp) :: if truthy (get "isPast" exp) then ["Expired"] else []
  end.
Definition expiry_time (row : jval) : jval :=
  match get "at" (get "expiry" row) with JUndef | JNull => JNum 0 | t => t end.

Definition columns : list column :=
  [select_column;
   Column "enabledStatus" (Some (get "enabledStatus")) (includes_filter (get "enabledStatus")) false false ""
     (fun r => [text "enabledStatus" r]);
   Column "name" (Some (get "name")) None true false "Username" (fun r => [dot r; text "name" r]);
   Column "profile" (Some (get "profile")) (includes_filter (get "profile")) true true "Profile" (or_dash "profile");
   key_column "macAddress" "MAC Address";
   Column "server" (Some (get "server")) (includes_filter (get "server")) true true "Server" (or_dash "server");
   key_column "uptime" "Uptime";
   Column "expiry" (Some expiry_time) None true true "Expiry" expiry_cell;
   Column "bytesTotal" (Some (fun r => JNum (number "bytesIn" r + number "bytesOut" r))) None true true "Traffic" traffic;
   Column "comment" (Some (get "comment")) (Some comment_filter) true true "Comment"
     (fun r => text "comment" r :: or_dash "comment" r);
   Column "actions" None None true true "" (fun _ => [])].

Definition ENABLED_OPTIONS : list (string * string) := [("Enabled", "enabled"); ("Disabled", "disabled")].
Definition profileOptions (data : list jval) : list (string * string) := option_list (map (get "profile") data).
Definition serverOptions (data : list jval) : list (string * string) := option_list (map (get "server") data).
Definition filters (data : list jval) : list facet :=
  [Facet "enabledStatus" "Status" ENABLED_OPTIONS;
   Facet "profile" "Profile" (profileOptions data);
   Facet "server" "Server" (serverOptions data)].
Definition searchKey : option string := Some "name".

Definition initial (data : list jval) : table_state := opened data {["enabledStatus" := false]} 10.

Definition details (user : jval) : list (string * string) :=
  [("MAC", or_else "—" (get "macAddress" user)); ("Server", or_else "—" (get "server" user));
   ("Uptime", or_else "—" (get "uptime" user));
   ("Expiry", match get "expiry" user with
              | JNull | JUndef => "—"
              | exp => join " " (toLocaleDateString (get "at" exp) ::
                                 if truthy (get "isPast" exp) then ["Expired"] else [])
              end);
   ("Traffic", let bytesIn := number "bytesIn" user in
               let bytesOut := number "bytesOut" user in
               if 0 <? bytesIn + bytesOut
               then "↓" +:+ hotspot_formatBytes bytesIn +:+ " ↑" +:+ hotspot_formatBytes bytesOut
               else "—")].
Definition mobile (user : jval) : card :=
  Card [dot user; text "name" user] (or_dash "profile" user) (details user).

Section Actions.
Context `{ReactTable}.

(** Remove (n): the dialog opens on the ids, and the selection is let go. *)
Definition remove (d : state DialogMode) (s : table_state) : state DialogMode * table_state :=
  (open multi_delete (Some (Payload None (Some (selected_texts "id" (selected_rows columns s))))) d,
   with_selection s ∅).

(** Print (n): the rows shown, whatever page they are on. *)
Definition print_button (s : table_state) : string :=
  "Print (" +:+ Z_to_string (Z.of_nat (length (shown_rows columns s))) +:+ ")".
Definition print_rows (s : table_state) : list jval := shown_rows columns s.
End Actions.
End Users.

(** *** The page *)

Definition totalCount (rows : list jval) : Z := Z.of_nat (length rows).
Definition disabledCount (rows : list jval) : Z :=
  Z.of_nat (length (List.filter (fun u => jval_eqb (get "enabledStatus" u) (JStr "disabled")) rows)).
Definition expiredCount (rows : list jval) : Z :=
  Z.of_nat (length (List.filter (fun u => truthy (get "isPast" (get "expiry" u))) rows)).

(** [{ id, username, password, profile, comment }]. *)
Definition voucher (u : jval) : jval :=
  JObj [("id", get "id" u); ("username", get "name" u); ("password", get "password" u);
        ("profile", get "profile" u); ("comment", get "comment" u)].

Definition nullish (v d : jval) : jval := match v with JUndef | JNull => d | _ => v end.

(** What is printed above every voucher: of the first user and of its profile. *)
Definition print_meta (settingValue : string -> string) (profiles : list jval) (first : jval) : jval :=
  let profile := nullish (get "profile" first) (JStr "Mixed") in
  let item := default JUndef (List.find (fun p => jval_eqb (get "name" p) profile) profiles) in
  JObj [("profile", profile); ("server", nullish (get "server" first) (JStr "all"));
        ("validity", nullish (get "validity" item) (JStr "—"));
        ("sellingPrice", parseRouterOSNumber (get "selling_price" item));
        ("hotspotName", if String.eqb (settingValue "general.company_name") "" then profile
                        else JStr (settingValue "general.company_name"));
        ("loginUrl", JStr (settingValue "general.hotspot_login_url"))].

Definition handlePrint (settingValue : string -> string) (profiles users : list jval) (template : string)
  : option jval :=
  match users with
  | [] => None
  | u :: _ => Some (JObj [("template", JStr template); ("vouchers", JArr (map voucher users));
                          ("meta", print_meta settingValue profiles u)])
  end.
End Users.

Module Profiles.
Import ProfilesDialog.
Section Profiles.
Context (formatIDR : jval -> string).

Definition expModeLabels : list (string * string) :=
  [("rem", "Remove"); ("ntf", "Notice"); ("remc", "Remove & Record"); ("ntfc", "Notice & Record"); ("none", "None")].
Definition labelForExpMode (value : jval) : string :=
  match List.find (fun l => jval_eqb value (JStr l.1)) expModeLabels with
  | Some l => l.2
  | None => or_else "—" value
  end.
Definition expModeOptions : list (string * string) := map (fun l => (l.2, l.1)) expModeLabels.
Definition monitorOptions : list (string * string) := [("Active", "true"); ("Inactive", "false")].

Definition monitor_of (r : jval) : jval := JStr (js_String (get "hasExpiredMonitor" r)).
Definition tick (k : string) (r : jval) : string := if truthy (get k r) then "✓" else "—".

Definition columns : list column :=
  [select_column;
   Column "name" (Some (get "name")) None true false "Name"
     (fun r => [if truthy (get "hasExpiredMonitor" r) then "Monitor active" else "Monitor inactive"; text "name" r]);
   key_column "sharedUsers" "Shared";
   key_column "rateLimit" "Rate Limit";
   Column "expMode" (Some (get "expMode")) (includes_filter (get "expMode")) true true "Exp Mode"
     (fun r => [labelForExpMode (get "expMode" r)]);
   key_column "validity" "Validity";
   Column "price" (Some (get "price")) None true true "Price" (fun r => [formatIDR (get "price" r)]);
   Column "sellingPrice" (Some (get "sellingPrice")) None true true "Selling Price"
     (fun r => [formatIDR (get "sellingPrice" r)]);
   Column "lockUser" (Some (get "lockUser")) None true true "Lock User" (fun r => [tick "lockUser" r]);
   Column "hasExpiredMonitor" (Some monitor_of) (includes_filter monitor_of) true true "Monitor"
     (fun r => [if truthy (get "hasExpiredMonitor" r) then "Active" else "Inactive"]);
   Column "actions" None None true true "" (fun _ => [])].

Definition filters : list facet :=
  [Facet "expMode" "Exp Mode" expModeOptions; Facet "hasExpiredMonitor" "Monitor" monitorOptions].
Definition searchKey : option string := Some "name".
Definition initial (data : list jval) : table_state := opened data ∅ 10.

Definition mobile (profile : jval) : card :=
  Card [text "name" profile; labelForExpMode (get "expMode" profile)]
    [or_else "—" (get "rateLimit" profile); "·"; or_else "—" (get "validity" profile)]
    [("Price", formatIDR (get "price" profile)); ("Selling", formatIDR (get "sellingPrice" profile));
     ("Shared", or_else "—" (get "sharedUsers" profile)); ("Lock User", tick "lockUser" profile)].

Definition remove `{ReactTable} (d : state DialogMode) (s : table_state) : state DialogMode * table_state :=
  (open multi_delete (Some (Payload None (Some (selected_texts "id" (selected_rows columns s))))) d,
   with_selection s ∅).
End Profiles.
End Profiles.

Module Active.
Import ActiveDialog.
Definition columns : list column :=
  [select_column;
   Column "server" (Some (get "server")) (includes_filter (get "server")) true true "Server" (or_dash "server");
   Column "user" (Some (get "user")) None true false "User" (or_dash "user");
   key_column "address" "Address";
   key_column "macAddress" "MAC";
   key_column "uptime" "Uptime";
   key_column "sessionTimeLeft" "Time Left";
   Column "loginBy" (Some (get "loginBy")) (includes_filter (get "loginBy")) true true "Login By" (or_dash "loginBy");
   Column "actions" None None true true "" (fun _ => [])].

Definition serverOptions (data : list jval) : list (string * string) := option_list (map (get "server") data).
Definition loginByOptions (data : list jval) : list (string * string) := option_list (map (get "loginBy") data).
Definition filters (data : list jval) : list facet :=
  [Facet "server" "Server" (serverOptions data); Facet "loginBy" "Login By" (loginByOptions data)].
Definition searchPlaceholder : string := "Search user or address...".
Definition searchKey : option string := Some "user".
Definition initial (data : list jval) : table_state := opened data ∅ 10.

Definition mobile (s : jval) : card :=
  Card [or_else "—" (get "user" s); or_else "—" (get "server" s)] (or_dash "address" s)
    [("MAC", or_else "—" (get "macAddress" s)); ("Uptime", or_else "—" (get "uptime" s));
     ("Time Left", or_else "—" (get "sessionTimeLeft" s)); ("Login By", or_else "—" (get "loginBy" s))].

Definition disconnect_selected `{ReactTable} (d : state DialogMode) (s : table_state) : state DialogMode * table_state :=
  (open disconnect_many (Some (Payload None (Some (selected_texts "id" (selected_rows columns s))))) d,
   with_selection s ∅).
End Active.

Module Hosts.
Import HostsDialog.
Definition authorized_of (r : jval) : jval := JStr (js_String (get "authorized" r)).
Definition columns : list column :=
  [select_column;
   Column "authorized" (Some authorized_of) (includes_filter authorized_of) false true "Authorized"
     (fun r => [if truthy (get "authorized" r) then "authorized" else "—"]);
   Column "macAddress" (Some (get "macAddress")) None true false "MAC Address" (or_dash "macAddress");
   key_column "address" "Address";
   key_column "toAddress" "To Address";
   Column "server" (Some (get "server")) (includes_filter (get "server")) true true "Server" (or_dash "server");
   key_column "comment" "Comment";
   Column "actions" None None true true "" (fun _ => [])].

Inductive HostFilter : Type := all | authorized | unauthorized.
Definition FILTER_TABS : list (HostFilter * string) :=
  [(all, "All"); (authorized, "Authorized"); (unauthorized, "Unauthorized")].
Definition filteredData (f : HostFilter) (data : list jval) : list jval :=
  match f with
  | authorized => List.filter (fun h => truthy (get "authorized" h)) data
  | unauthorized => List.filter (fun h => negb (truthy (get "authorized" h))) data
  | all => data
  end.

(** The tab, the hosts of the page, and the table on those the tab lets through. *)
Record hosts_state : Type := HostsState { hostFilter : HostFilter; hosts : list jval; table : table_state }.
Definition initial (d : list jval) : hosts_state := HostsState all d (opened d ∅ 10).

Definition serverOptions (s : hosts_state) : list (string * string) := option_list (map (get "server") (data (table s))).
Definition filters (s : hosts_state) : list facet := [Facet "server" "Server" (serverOptions s)].
Definition searchPlaceholder : string := "Search MAC or address...".
Definition searchKey : option string := Some "macAddress".

Definition mobile (host : jval) : card :=
  Card [or_else "—" (get "macAddress" host); if truthy (get "authorized" host) then "auth" else "—"]
    (or_dash "address" host)
    [("Server", or_else "—" (get "server" host)); ("To Address", or_else "—" (get "toAddress" host));
     ("Comment", or_else "—" (get "comment" host))].

Inductive hosts_event : Type :=
| Tab (f : HostFilter)
| Loaded (d : list jval)
| OnTable (e : table_event).

Section Actions.
Context `{ReactTable}.
Definition hosts_step (s : hosts_state) (e : hosts_event) : hosts_state :=
  match e with
  | Tab f => HostsState f (hosts s) (with_data (table s) (filteredData f (hosts s)))
  | Loaded d => HostsState (hostFilter s) d (with_data (table s) (filteredData (hostFilter s) d))
  | OnTable e => HostsState (hostFilter s) (hosts s) (table_step columns (table s) e)
  end.
Definition hosts_run (s : hosts_state) (l : list hosts_event) : hosts_state := foldl hosts_step s l.

Definition let_go (s : hosts_state) : hosts_state := HostsState (hostFilter s) (hosts s) (with_selection (table s) ∅).
Definition bind_selected (d : HostsDialogState) (s : hosts_state) : HostsDialogState * hosts_state :=
  let selected := selected_rows columns (table s) in
  (open bind_many (Some (Payload None (Some (selected_texts "id" selected)))) (Some selected) d, let_go s).
Definition remove (d : HostsDialogState) (s : hosts_state) : HostsDialogState * hosts_state :=
  (open multi_delete (Some (Payload None (Some (selected_texts "id" (selected_rows columns (table s)))))) None d,
   let_go s).
End Actions.
End Hosts.

(** ** What the toolbars search *)

Definition is_text (k : string) (r : jval) : bool := match get k r with JStr _ => true | _ => false end.

Definition users_search : searchable :=
  Searchable [("name", text "name"); ("comment", text "comment")]
    [("enabledStatus", get "enabledStatus"); ("profile", get "profile"); ("server", get "server")]
    (fun r => is_text "name" r && is_text "comment" r).
Definition profiles_search : searchable :=
  Searchable [("name", text "name")]
    [("expMode", get "expMode"); ("hasExpiredMonitor", Profiles.monitor_of)] (is_text "name").
Definition active_search : searchable :=
  Searchable [("user", text "user")] [("server", get "server"); ("loginBy", get "loginBy")] (is_text "user").
Definition hosts_search : searchable :=
  Searchable [("macAddress", text "macAddress")] [("server", get "server")] (is_text "macAddress").

Lemma is_text_elim k r : is_text k r = true -> exists s, get k r = JStr s /\ text k r = s.
Proof. unfold is_text, text. destruct (get k r); try done. intros _. by eexists. Qed.

Ltac one_of H :=
  cbn in H;
  repeat match type of H with
  | _ ∈ _ :: _ => apply elem_of_cons in H as [H|H]
  | _ ∈ [] => by apply not_elem_of_nil in H
  end.

(** A column with a search box of its own kind of filter, a column with a facet. *)
Lemma auto_box `{ReactTableLaws} k (V : jval -> bool) col : filterFn col = None -> accessor col = Some (get k) ->
  (forall r, V r = true -> is_text k r = true) ->
  forall first row s, V first = true -> V row = true ->
  filter_keeps autoFilter col first row (JStr s) = contains s (text k row).
Proof.
  intros Hf Ha HV first row s Hv1 Hv2. unfold filter_keeps. rewrite Hf, Ha.
  destruct (is_text_elim k first) as (a & -> & _); [by apply HV|].
  destruct (is_text_elim k row) as (b & -> & ->); [by apply HV|]. apply autoFilter_string.
Qed.

Ltac toolbar_ok :=
  constructor;
  [ intros c Hc Hf; one_of Hc; subst; one_of Hf; discriminate
  | intros c Hc; one_of Hc; subst; apply (bool_decide_unpack _); vm_compute; exact I
  | repeat (apply Forall_cons_2; [split|]); try apply Forall_nil_2;
    intros f Hf; one_of Hf; try discriminate Hf; injection Hf as ->;
    [> first [ eexists; split; [reflexivity|done]
             | intros first row s Hv1 Hv2 _; eapply auto_box; [reflexivity|reflexivity| |exact Hv1|exact Hv2];
               intros r Hr; first [exact Hr | apply (andb_prop (is_text _ r) (is_text _ r)) in Hr; apply Hr]
             | idtac ] ..] ].

#[export] Instance users_toolbar `{ReactTableLaws} dateFmt : ToolbarOk (Users.columns dateFmt) users_search.
Proof.
  toolbar_ok. intros first row s _ Hv _. unfold users_search in Hv. cbn [valid] in Hv.
  apply andb_true_iff in Hv as [_ Hv]. destruct (is_text_elim _ _ Hv) as (b & E & _).
  unfold filter_keeps. cbn [filterFn]. unfold Users.comment_filter. cbn. unfold text. by rewrite E.
Qed.

#[export] Instance profiles_toolbar `{ReactTableLaws} formatIDR : ToolbarOk (Profiles.columns formatIDR) profiles_search.
Proof. toolbar_ok. Qed.

#[export] Instance active_toolbar `{ReactTableLaws} : ToolbarOk Active.columns active_search.
Proof. toolbar_ok. Qed.

#[export] Instance hosts_toolbar `{ReactTableLaws} : ToolbarOk Hosts.columns hosts_search.
Proof. toolbar_ok. Qed.

(** *** The backend's records can be searched *)

Lemma is_text_intro k r s : get k r = JStr s -> is_text k r = true.
Proof. intros E. unfold is_text. by rewrite E. Qed.

(** What the rows made of the backend's answers hold. *)
Lemma user_name_row to_utc now u : get "name" (toUserViewModel to_utc (user_json u) now) = JStr (u_name u).
Proof. unfold toUserViewModel. column; column_value. Qed.
Lemma user_comment_row to_utc now u : get "comment" (toUserViewModel to_utc (user_json u) now) = JStr (u_comment u).
Proof. unfold toUserViewModel. column; column_value. Qed.
Lemma user_id_row to_utc now u : get "id" (toUserViewModel to_utc (user_json u) now) = JStr (u_id u).
Proof. unfold toUserViewModel. column; column_value. Qed.
Lemma session_id_row a : get "id" (toActiveViewModel (active_json a)) = JUndef.
Proof. unfold toActiveViewModel. column; column_value. Qed.
Lemma session_user_row a : get "user" (toActiveViewModel (active_json a)) = JStr (a_user a).
Proof. unfold toActiveViewModel. column; column_value. Qed.
Lemma host_mac_row h : get "macAddress" (toHostViewModel (host_json h)) = JStr "".
Proof. unfold toHostViewModel. column; column_value. Qed.
Lemma host_id_row h : get "id" (toHostViewModel (host_json h)) = JUndef.
Proof. unfold toHostViewModel. column; column_value. Qed.
Lemma host_authorized_row h : get "authorized" (toHostViewModel (host_json h)) = JBool false.
Proof. unfold toHostViewModel. column; column_value. Qed.

Lemma user_row_valid to_utc now u : valid users_search (toUserViewModel to_utc (user_json u) now) = true.
Proof.
  unfold users_search. cbn [valid].
  by rewrite (is_text_intro _ _ _ (user_name_row _ _ _)), (is_text_intro _ _ _ (user_comment_row _ _ _)).
Qed.

(** ** Theorems *)

Section Laws.
Context `{ReactTableLaws}.

(** A toolbar shows what it says.  Whatever is typed into the search boxes of the hotspot
    users, ticked in the facets, cleared or reset, with rows ticked, pages turned and the list
    refetched in between: the rows shown are exactly the users whose name and comment contain
    the texts typed, whatever the case, and whose status, profile and server are among those
    ticked; the print button counts and hands over just these; and every profile and server
    offered by a facet is one some user has, every one a user has is offered. *)
Theorem users_toolbar_shows dateFmt (d : list jval) l :
  Forall (fun r => valid users_search r = true) d -> Forall (toolbar_event users_search) l ->
  Forall (fun r => is_text "profile" r = true) (data (table_run (Users.columns dateFmt) (Users.initial d) l)) ->
  let s := table_run (Users.columns dateFmt) (Users.initial d) l in
  let q := query_run no_query l in
  shown_rows (Users.columns dateFmt) s = List.filter (query_matches users_search q) (data s) /\
  Users.print_rows dateFmt s = List.filter (query_matches users_search q) (data s) /\
  (forall r, query_matches users_search q r = true <->
     contains (text_in q "name") (text "name" r) = true /\ contains (text_in q "comment") (text "comment" r) = true /\
     forall k, k ∈ ["enabledStatus"; "profile"; "server"] ->
       chosen_in q k = ∅ \/ exists v, get k r = JStr v /\ v ∈ chosen_in q k) /\
  (forall v, v ∈ map snd (Users.profileOptions (data s)) <-> v <> "" /\ exists r, r ∈ data s /\ get "profile" r = JStr v).
Proof.
  intros Hd Hl Hp s q.
  assert (shown_rows (Users.columns dateFmt) s = List.filter (query_matches users_search q) (data s)) as Hs
    by (apply toolbar_shows; [apply _|done|done]).
  split_and!; [done|done| |].
  - intros r. unfold query_matches. cbn [users_search text_cols facet_cols forallb fst snd].
    rewrite !andb_true_r, !andb_true_iff, !orb_true_iff, !bool_decide_eq_true.
    assert (forall k, chosen_in q k = ∅ \/ (match get k r with JStr v => bool_decide (v ∈ chosen_in q k) | _ => false end) = true
      <-> (chosen_in q k = ∅ \/ exists v, get k r = JStr v /\ v ∈ chosen_in q k)) as E.
    { intros k. destruct (get k r) as [| | | | |v| |]; split; intros [E|E]; auto; try done;
        try (destruct E as (? & ? & ?); discriminate).
      - right. exists v. split; [done|]. by apply bool_decide_eq_true in E.
      - right. destruct E as (? & [= ->] & ?). by apply bool_decide_eq_true. }
    rewrite !E. clear E. split.
    + intros Ha. destruct_and! Ha. split_and!; [done|done|]. intros k Hk.
      repeat (apply elem_of_cons in Hk as [->|Hk]; [done|]). by apply not_elem_of_nil in Hk.
    + intros (H1 & H2 & H3). split_and!; try done; apply H3; set_solver.
  - intros v. unfold Users.profileOptions.
    rewrite (proj2 (proj2 (option_list_values (map (get "profile") (data s)) ltac:(
      apply Forall_map; eapply Forall_impl; [exact Hp|]; intros r Hr; cbn;
      destruct (is_text_elim _ _ Hr) as (x & -> & _); by exists x)))).
    rewrite list_elem_of_fmap. split; intros [? (r & H1 & H2)]; (split; [done|]); by exists r.
Qed.

(** *** Bulk removal *)

(** The requests of a removal dialog opened on a list of ids are one per id. *)
Lemma user_removals rid d l o n :
  requests (exec o n (UserDelete.handleConfirm rid (UsersDialog.open UsersDialog.multi_delete (Some (Payload None (Some l))) d))) =
  map (M_HotspotUsers_RemoveHotspotUser rid) l.
Proof. destruct l as [|i l]; [done|]. exact (proj1 (fan_out_accounts _ (i :: l) _ _ _ o n)). Qed.

Lemma session_disconnects rid d l o n sessions :
  requests (exec o n (Disconnect.handleConfirm rid
    (ActiveDialog.open ActiveDialog.disconnect_many (Some (Payload None (Some l))) d) sessions)) =
  map (M_HotspotActive_DisconnectHotspotUser rid) l.
Proof. destruct l as [|i l]; [done|]. exact (proj1 (fan_out_accounts _ (i :: l) _ _ _ o n)). Qed.

Lemma users_bulk dateFmt d l :
  Forall (fun r => valid users_search r = true) d -> Forall (toolbar_event users_search) l ->
  forallb single_ticks l = true ->
  selected_rows (Users.columns dateFmt) (table_run (Users.columns dateFmt) (Users.initial d) l) =
  map snd (List.filter (fun ir => query_matches users_search (query_run no_query l) ir.2 && last_ticked l ir.1)
    (positioned (data (table_run (Users.columns dateFmt) (Users.initial d) l)))).
Proof. intros Hd Hl Ht. apply (bulk_by_position _ users_search d); done || apply _. Qed.

(** C36: removing a selection of users, from the first tick to the requests, over rows whose
    name and comment are texts and which are ticked one at a time.  Confirming sends
    one removal for each user that matches the query on display and stands, in the list of
    that moment, at a position last ticked on; nothing else is sent, and the selection is let
    go.  So as long as the list was not refetched these are the users that were ticked. *)
Theorem users_removed_by_position dateFmt rid before (d : list jval) l o n :
  Forall (fun r => valid users_search r = true) d -> Forall (toolbar_event users_search) l ->
  forallb single_ticks l = true ->
  let s := table_run (Users.columns dateFmt) (Users.initial d) l in
  let dialog := Users.remove dateFmt before s in
  requests (exec o n (UserDelete.handleConfirm rid dialog.1)) =
    map (fun ir => M_HotspotUsers_RemoveHotspotUser rid (text "id" ir.2))
      (List.filter (fun ir => query_matches users_search (query_run no_query l) ir.2 && last_ticked l ir.1)
         (positioned (data s))) /\
  rowSelection dialog.2 = ∅ /\ data dialog.2 = data s /\
  (existsb refetch l = false -> data s = d).
Proof.
  intros Hd Hl Ht s dialog.
  split_and!; [|done|done|intros Hr; by apply (data_kept _ l (Users.initial d))].
  subst dialog s. unfold Users.remove, selected_texts. cbn [fst].
  rewrite user_removals, users_bulk by done. rewrite !map_map. reflexivity.
Qed.

(** A selection stays at its positions when the records move.  A user is ticked, the list
    is refetched after that user is gone (expired, or removed elsewhere), and the selection is
    removed: what is deleted is the user that moved into the gap, which nobody ticked. *)
Theorem refetch_retargets dateFmt rid before (a b : jval) o n :
  valid users_search a = true -> valid users_search b = true ->
  let s := table_run (Users.columns dateFmt) (Users.initial [a; b]) [Tick (rowId 0) true] in
  let s' := table_step (Users.columns dateFmt) s (Refetched [b]) in
  selected_rows (Users.columns dateFmt) s = [a] /\
  requests (exec o n (UserDelete.handleConfirm rid (Users.remove dateFmt before s').1)) =
    [M_HotspotUsers_RemoveHotspotUser rid (text "id" b)].
Proof.
  intros Ha Hb s s'.
  assert (s' = table_run (Users.columns dateFmt) (Users.initial [a; b]) [Tick (rowId 0) true; Refetched [b]]) as -> by done.
  assert (String.eqb (rowId 0) (rowId 1) = false) as Hne by (apply String.eqb_neq; intros E%rowId_inj; lia).
  unfold Users.remove, selected_texts. cbn [fst]. rewrite user_removals. subst s.
  rewrite !users_bulk by (done || (repeat constructor; done)).
  change (query_run no_query _) with no_query. cbn. rewrite !query_nothing, Hne, String.eqb_refl. done.
Qed.

(** On the rows the backend sends, selections of sessions and the tabs of the hosts page
    do not work.  Whatever is searched, ticked and refetched on the sessions page, every
    session of a selection that is disconnected is asked for by the id ["undefined"]; and
    whatever hosts there are, the tab Authorized is empty and Unauthorized lists them all. *)
Theorem selections_of_backend_rows rid before (sessions : list HotspotActiveResponse) (hs : list HotspotHostResponse) l o n cache :
  Forall (toolbar_event active_search) l ->
  Forall (fun e => match e with Refetched d => exists rs, d = map (fun a => toActiveViewModel (active_json a)) rs
                   | _ => True end) l ->
  let s := table_run Active.columns (Active.initial (map (fun a => toActiveViewModel (active_json a)) sessions)) l in
  let asked := requests (exec o n (Disconnect.handleConfirm rid (Active.disconnect_selected before s).1 cache)) in
  Forall (fun m => m = M_HotspotActive_DisconnectHotspotUser rid "undefined") asked /\
  Z.of_nat (length asked) = selectedCount Active.columns s /\
  Hosts.filteredData Hosts.authorized (map (fun h => toHostViewModel (host_json h)) hs) = [] /\
  Hosts.filteredData Hosts.unauthorized (map (fun h => toHostViewModel (host_json h)) hs) =
    map (fun h => toHostViewModel (host_json h)) hs.
Proof.
  intros Hl Hb s asked. set (rows := map (fun a => toActiveViewModel (active_json a))) in *.
  assert (forall rs, Forall (fun r => valid active_search r = true) (rows rs)) as Hv.
  { intros rs. apply Forall_forall. intros r (a & -> & _)%list_elem_of_fmap.
    by apply (is_text_intro _ _ _ (session_user_row a)). }
  assert (Forall (fun r => get "id" r = JUndef) (data s)) as Hid.
  { apply data_forall.
    - apply Forall_forall. intros r (a & -> & _)%list_elem_of_fmap. apply session_id_row.
    - eapply Forall_impl; [exact Hb|]. intros [| | | | | | | | | | |d]; try done. intros (rs & ->).
      apply Forall_forall. intros r (a & -> & _)%list_elem_of_fmap. apply session_id_row. }
  destruct (toolbar_run Active.columns active_search l (Active.initial (rows sessions)) no_query
    ltac:(apply _) Hl (holds_nothing _) eq_refl (Hv sessions)) as (_ & Hg & _). fold s in Hg.
  assert (asked = map (fun r => M_HotspotActive_DisconnectHotspotUser rid (text "id" r)) (selected_rows Active.columns s)) as ->.
  { subst asked. unfold Active.disconnect_selected, selected_texts. cbn [fst]. by rewrite session_disconnects, map_map. }
  split_and!.
  - apply Forall_map, Forall_forall. intros r Hr. apply selected_in_data in Hr; [|done].
    rewrite Forall_forall in Hid. cbn. unfold text. by rewrite (Hid r Hr).
  - unfold selectedCount. by rewrite length_map.
  - unfold Hosts.filteredData. induction hs as [|h hs IH]; [done|]. cbn [map List.filter].
    rewrite host_authorized_row. exact IH.
  - unfold Hosts.filteredData. induction hs as [|h hs IH]; [done|]. cbn [map List.filter].
    rewrite host_authorized_row. cbn [truthy negb]. by rewrite IH.
Qed.
End Laws.

(** ** Witnesses *)

#[local] Existing Instance documented_table.
#[local] Existing Instance documented_laws.

Definition a_user (id name profile : string) : jval :=
  JObj [("id", JStr id); ("name", JStr name); ("profile", JStr profile); ("comment", JStr "vc-1")].
Definition two_users : list jval := [a_user "*1" "budi" "1h"; a_user "*2" "sari" "1d"].
Definition no_answer (n : nat) : answer := Ok JNull.

Lemma users_toolbar_shows_witness :
  let cols := Users.columns (fun _ => "") in
  let s := table_run cols (Users.initial two_users) [Search "name" "BUD"; Choose "profile" "1h"; Tick "1" true] in
  shown_rows cols s = [a_user "*1" "budi" "1h"].
Proof.
  cbn zeta. etransitivity; [|vm_compute; reflexivity].
  apply (users_toolbar_shows (fun _ => "") two_users).
  - repeat constructor.
  - repeat constructor; cbn; set_solver.
  - repeat constructor.
Defined.

Lemma users_removed_by_position_witness :
  let cols := Users.columns (fun _ => "") in
  let s := table_run cols (Users.initial two_users) [Tick "0" true; Tick "1" true; Tick "0" false] in
  requests (exec no_answer 0 (UserDelete.handleConfirm 7 (Users.remove (fun _ => "") UsersDialog.initial s).1)) =
  [M_HotspotUsers_RemoveHotspotUser 7 "*2"].
Proof.
  destruct (users_removed_by_position (fun _ => "") 7 UsersDialog.initial two_users [Tick "0" true; Tick "1" true; Tick "0" false] no_answer 0)
    as (H1 & _); [repeat constructor..|done|].
  etransitivity; [exact H1|vm_compute; reflexivity].
Defined.

Lemma refetch_retargets_witness :
  let cols := Users.columns (fun _ => "") in
  let a := a_user "*1" "budi" "1h" in
  let b := a_user "*2" "sari" "1d" in
  let s := table_run cols (Users.initial [a; b]) [Tick (rowId 0) true] in
  let s' := table_step cols s (Refetched [b]) in
  selected_rows cols s = [a] /\
  requests (exec no_answer 0 (UserDelete.handleConfirm 7 (Users.remove (fun _ => "") UsersDialog.initial s').1)) =
    [M_HotspotUsers_RemoveHotspotUser 7 (text "id" b)] /\ text "id" a = "*1" /\ text "id" b = "*2".
Proof.
  destruct (refetch_retargets (fun _ => "") 7 UsersDialog.initial (a_user "*1" "budi" "1h") (a_user "*2" "sari" "1d") no_answer 0)
    as [H1 H2]; [reflexivity..|].
  split; [exact H1|]. split; [exact H2|]. by split.
Defined.

Lemma selections_of_backend_rows_witness :
  let a := ActiveResponse "*A" "budi" "10.0.0.2" "" "" "" "" 0 0 0 0 "" "" "" "" in
  let s := table_run Active.columns (Active.initial [toActiveViewModel (active_json a)]) [Tick "0" true] in
  let asked := requests (exec no_answer 0 (Disconnect.handleConfirm 7 (Active.disconnect_selected ActiveDialog.initial s).1 None)) in
  Forall (fun m => m = M_HotspotActive_DisconnectHotspotUser 7 "undefined") asked /\ length asked = 1%nat.
Proof.
  destruct (selections_of_backend_rows 7 ActiveDialog.initial [ActiveResponse "*A" "budi" "10.0.0.2" "" "" "" "" 0 0 0 0 "" "" "" ""] []
    [Tick "0" true] no_answer 0 None) as (H1 & H2 & _); [repeat constructor..|].
  split; [exact H1|]. vm_compute. reflexivity.
Defined.
