(* ===== verification/ListTables.v ===== *)
(** * The other tables ([features/{ppp,customers,subscriptions,invoices,payments,...}])

    Columns, facets, cards and bulk buttons of the PPP tables, of customers and subscriptions
    (whose filters live in the URL, see TableUrl), of the subscription monitor, and of the
    lists shown with [SimpleDataTable]: invoices, payments, notifications, audit logs,
    registrations, message templates, hotspot billing; and the columns of the routers table.
    Each searchable table has its [ToolbarOk] instance, except the audit logs: their search
    box and a facet share one column ([audit_search_backwards]). *)
From S2P Require Import Prelude JsString JsValue JsNumber Http ApiErrors Hooks Ui DialogStores Actions.
From S2P Require Import Format JsDate Wire ViewModels TableUrl DataTable HotspotTables.

(** A column with a facet on its own key, a plain one, one that shows its value as it is. *)
Definition facet_column (k t : string) (c : jval -> list string) : column :=
  Column k (Some (get k)) (includes_filter (get k)) true true t c.
Definition shows (k : string) (row : jval) : list string := [text k row].
Definition text_column (k t : string) : column := Column k (Some (get k)) None true true t (shows k).
Definition actions_column : column := Column "actions" None None true true "" (fun _ => []).

(** [(id) => map.get(id) ?? `#${id}`] of the map of the customers' names; of two customers
    with one id the later stays. *)
Definition customerName (customers : list jval) (id : jval) : string :=
  match last (List.filter (fun c => jval_eqb (get "id" c) id) customers) with
  | Some c => text "full_name" c
  | None => "#" +:+ js_String id
  end.

(** ** PPP *)

Definition STATUS_OPTIONS : list (string * string) := [("Enabled", "enabled"); ("Disabled", "disabled")].
Definition status_of (row : jval) : jval := JStr (if truthy (get "disabled" row) then "disabled" else "enabled").
Definition dot_of (row : jval) : string := if truthy (get "disabled" row) then "Disabled" else "Enabled".

Module Secrets.
Import SecretsDialog.
Definition columns : list column :=
  [select_column;
   Column "status" (Some status_of) (includes_filter status_of) false false "" (fun r => [js_String (status_of r)]);
   Column "name" (Some (get "name")) None true false "Username" (fun r => [dot_of r; text "name" r]);
   facet_column "profile" "Profile" (or_dash "profile");
   Column "service" (Some (get "service")) None true true "Service" (fun r => [or_else "any" (get "service" r)]);
   key_column "remote_address" "Remote Address";
   key_column "last_caller_id" "Last Caller";
   actions_column].
Definition profileOptions (data : list jval) : list (string * string) := option_list (map (get "profile") data).
Definition filters (data : list jval) : list facet :=
  [Facet "status" "Status" STATUS_OPTIONS; Facet "profile" "Profile" (profileOptions data)].
Definition searchKey : option string := Some "name".
Definition initial (data : list jval) : table_state := opened data {["status" := false]} 10.
Definition mobile (s : jval) : card :=
  Card [dot_of s; text "name" s] (or_dash "profile" s)
    [("Service", or_else "any" (get "service" s)); ("Remote", or_else "—" (get "remote_address" s));
     ("Last Caller", or_else "—" (get "last_caller_id" s))].
(** [handleDelete]: the selection stays while the dialog is open. *)
Definition handleDelete `{ReactTable} (d : state DialogMode) (s : table_state) : state DialogMode :=
  open multi_delete None (Some (selected_texts "id" (selected_rows columns s))) d.
End Secrets.

Module PPPProfiles.
Definition columns : list column :=
  [Column "status" (Some status_of) (includes_filter status_of) false true "" (fun r => [js_String (status_of r)]);
   Column "name" (Some (get "name")) None true false "Name" (fun r => [dot_of r; text "name" r]);
   key_column "rate_limit" "Rate Limit";
   key_column "local_address" "Local";
   key_column "remote_address" "Remote";
   key_column "parent_queue" "Parent Queue";
   actions_column].
Definition filters : list facet := [Facet "status" "Status" STATUS_OPTIONS].
Definition searchKey : option string := Some "name".
Definition initial (data : list jval) : table_state := opened data {["status" := false]} 10.
Definition mobile (p : jval) : card :=
  Card [dot_of p; text "name" p] (or_dash "rate_limit" p)
    [("Local", or_else "—" (get "local_address" p)); ("Remote", or_else "—" (get "remote_address" p));
     ("Parent Queue", or_else "—" (get "parent_queue" p))].
End PPPProfiles.

Module PPPActive.
Definition columns : list column :=
  [Column "name" (Some (get "name")) None true false "Username" (shows "name");
   key_column "service" "Service";
   key_column "address" "Address";
   key_column "caller_id" "Caller ID";
   key_column "uptime" "Uptime";
   actions_column].
Definition searchKey : option string := Some "name".
Definition initial (data : list jval) : table_state := opened data ∅ 10.
Definition mobile (s : jval) : card :=
  Card (shows "name" s) (or_dash "address" s)
    [("Service", or_else "—" (get "service" s)); ("Caller ID", or_else "—" (get "caller_id" s));
     ("Uptime", or_else "—" (get "uptime" s))].
End PPPActive.

Module PPPBilling.
Section PPPBilling.
Context (formatIDR : jval -> string).
Definition active_of (row : jval) : string := if truthy (get "active" row) then "active" else "inactive".
(** [price_monthly > 0 ? formatIDR(price_monthly) : '—'] *)
Definition price (row : jval) : string :=
  if 0 <? number "price_monthly" row then formatIDR (get "price_monthly" row) else "—".
Definition described (row : jval) : list string :=
  text "name" row :: if truthy (get "description" row) then [text "description" row] else [].
Definition columns : list column :=
  [Column "status" (Some (fun r => JStr (active_of r))) (includes_filter (fun r => JStr (active_of r))) false true "Status"
     (fun r => ["●"; active_of r]);
   Column "name" (Some (get "name")) None true false "Name" described;
   key_column "rate_limit" "Rate Limit";
   Column "price_monthly" (Some (get "price_monthly")) None true true "Price / mo" (fun r => [price r]);
   key_column "parent_queue" "Parent Queue";
   actions_column].
Definition STATUS_OPTIONS : list (string * string) := [("Active", "active"); ("Inactive", "inactive")].
Definition filters : list facet := [Facet "status" "Status" STATUS_OPTIONS].
Definition searchKey : option string := Some "name".
Definition initial (data : list jval) : table_state := opened data ∅ 10.
Definition mobile (p : jval) : card :=
  Card [text "name" p; active_of p] (or_dash "rate_limit" p)
    [("Price / mo", price p); ("Parent Queue", or_else "—" (get "parent_queue" p))].
End PPPBilling.
End PPPBilling.

(** ** Customers and subscriptions *)

Module Customers.
Definition columns : list column :=
  [select_column;
   text_column "full_name" "Name";
   text_column "phone" "Phone";
   facet_column "area" "Area" (or_dash "area");
   facet_column "status" "Status" (shows "status");
   actions_column].
Definition areaOptions (data : list jval) : list (string * string) := option_list (map (get "area") data).
Definition filters (data : list jval) : list facet :=
  [Facet "status" "Status" [("Aktif", "aktif"); ("Nonaktif", "nonaktif")]; Facet "area" "Area" (areaOptions data)].
Definition searchKey : option string := Some "full_name".
(** What the table keeps in the URL. *)
Definition url : cfg :=
  Cfg "page" "pageSize" 1 10 "filter" false true
    [Col "full_name" "full_name" (Some TString) id id; Col "status" "status" (Some TArray) id id;
     Col "area" "area" (Some TArray) id id].
Definition mobile (c : jval) : card :=
  Card [text "full_name" c; text "status" c] (or_dash "phone" c)
    [("Area", or_else "—" (get "area" c)); ("Address", or_else "—" (get "address" c))].
Section Actions.
Context `{ReactTable}.
(** The dialog of the bulk bar reads the selection when it is confirmed. *)
Definition multi_delete (s : table_state) (value : string) : prog :=
  CustomersMultiDelete.handleDelete value (selected_rows columns s).
Definition multi_delete_title (s : table_state) : string :=
  "Delete " +:+ Z_to_string (selectedCount columns s) +:+ " " +:+
  (if 1 <? selectedCount columns s then "customers" else "customer").
End Actions.
End Customers.

Module Subscriptions.
Section Subscriptions.
Context (customers : list jval).
Definition columns : list column :=
  [select_column;
   Column "mikrotik_username" (Some (get "mikrotik_username")) None true true "Username"
     (fun r => [text "mikrotik_username" r; customerName customers (get "customer_id" r)]);
   facet_column "service_type" "Service" (shows "service_type");
   facet_column "status" "Status" (shows "status");
   Column "sync_status" (Some (get "sync_status")) None true true "Sync"
     (fun r => text "sync_notes" r :: or_dash "sync_status" r);
   actions_column].
Definition filters : list facet :=
  [Facet "service_type" "Service" [("PPPoE", "pppoe"); ("Hotspot", "hotspot")];
   Facet "status" "Status" [("Active", "active"); ("Pending", "pending_install"); ("Isolir", "isolir");
                            ("Suspended", "suspended"); ("Terminated", "terminated")]].
Definition searchKey : option string := Some "mikrotik_username".
Definition url : cfg :=
  Cfg "page" "pageSize" 1 10 "filter" false true
    [Col "mikrotik_username" "mikrotik_username" (Some TString) id id;
     Col "service_type" "service_type" (Some TArray) id id; Col "status" "status" (Some TArray) id id].
Definition mobile (sub : jval) : card :=
  Card [text "mikrotik_username" sub; text "status" sub] [customerName customers (get "customer_id" sub)]
    [("Service", text "service_type" sub); ("Sync Status", or_else "—" (get "sync_status" sub))].
Definition multi_delete `{ReactTable} (s : table_state) (value : string) : prog :=
  SubscriptionsMultiDelete.handleDelete value (selected_rows columns s).
End Subscriptions.
End Subscriptions.

(** ** The subscription monitor ([index-monitoring.tsx]) *)

Module Monitor.
(** [Math.floor(Math.log(bytes) / Math.log(1024))] of a whole number from 1 up to 2^50, and
    [parseFloat(x.toFixed(1))], which drops a final [.0]. *)
Definition unit_of (bytes : Z) : Z := Z.log2 bytes / 10.
Definition drop_zero (s : string) : string := if endsWith ".0" s then slice_to_neg 2 s else s.
Definition sizes : list string := ["B"; "KB"; "MB"; "GB"].
Definition formatBytes (bytes : Z) : string :=
  if bytes =? 0 then "0B"
  else
    let i := unit_of bytes in
    drop_zero (toFixed 1 bytes (1024 ^ i)) +:+ (nth_error sizes (Z.to_nat i) ?? "undefined").

Definition online (item : jval) : bool := negb (jval_eqb (get "session" item) JNull).
Definition sub (item : jval) : jval := get "subscription" item.

Definition SessionCell (item : jval) : list string :=
  let s := get "session" item in
  if truthy s then
    [or_else "—" (get "uptime" s)] ++
    (if truthy (get "address" s) then [text "address" s] else []) ++
    (if truthy (get "caller_id" s) then [text "caller_id" s] else []) ++
    (match get "bytes_in" s, get "bytes_out" s with
     | JUndef, JUndef => []
     | _, _ => ["↓" +:+ formatBytes (number "bytes_in" s) +:+ " ↑" +:+ formatBytes (number "bytes_out" s)]
     end)
  else ["offline"].

Definition DriftBadge (item : jval) : list string :=
  let drift := get "router_drift" item in
  if negb (truthy drift) then []
  else ["⚠"; if jval_eqb drift (JStr "online_while_suspended") then "online/suspended"
             else if jval_eqb drift (JStr "online_while_terminated") then "online/terminated"
             else js_String drift].

Section Columns.
Context (customers : list jval).
Definition username (item : jval) : string := text "mikrotik_username" (sub item).
Definition columns : list column :=
  [Column "online" None None true true "Online" (fun _ => []);
   Column "identity" (Some (fun r => get "mikrotik_username" (sub r)))
     (Some (fun r v => includes (toLowerCase (js_String v)) (toLowerCase (username r)))) true true "Username / Pelanggan"
     (fun r => [username r; customerName customers (get "customer_id" (sub r))]);
   Column "service_type" (Some (fun r => get "service_type" (sub r))) (includes_filter (fun r => get "service_type" (sub r)))
     true true "Service" (fun r => [text "service_type" (sub r)]);
   Column "status" (Some (fun r => get "status" (sub r))) (includes_filter (fun r => get "status" (sub r)))
     true true "DB Status" (fun r => [text "status" (sub r)]);
   Column "session" None None true true "Sesi Aktif" SessionCell;
   Column "drift" None None true true "Drift" DriftBadge;
   Column "sync" (Some (fun r => get "sync_status" (sub r))) None true true "Sync"
     (fun r => text "sync_notes" (sub r) :: or_dash "sync_status" (sub r));
   actions_column].
End Columns.

(** The badges of the page. *)
Definition onlineCount (data : list jval) : Z := Z.of_nat (length (List.filter online data)).
Definition offlineCount (data : list jval) : Z := Z.of_nat (length data) - onlineCount data.
Definition driftCount (data : list jval) : Z :=
  Z.of_nat (length (List.filter (fun d => negb (jval_eqb (get "router_drift" d) (JStr ""))) data)).
Definition page_badges (data : list jval) : list string :=
  [Z_to_string (onlineCount data) +:+ " online"; Z_to_string (offlineCount data) +:+ " offline"] ++
  (if 0 <? driftCount data then ["⚠ " +:+ Z_to_string (driftCount data) +:+ " drift"] else []).

(** The two selects: each replaces its own filter and keeps the other. *)
Definition status_choices : list string := [""; "active"; "isolir"; "suspended"; "terminated"; "pending_install"].
Definition service_choices : list string := [""; "pppoe"; "hotspot"].
Definition select_filter (column val : string) (prev : column_filters) : column_filters :=
  List.filter (fun f => negb (String.eqb f.1 column)) prev ++
  (if String.eqb val "" then [] else [(column, JArr [JStr val])]).

Inductive select_event : Type := SelectStatus (v : string) | SelectService (v : string).
Definition select_step (fs : column_filters) (e : select_event) : column_filters :=
  match e with
  | SelectStatus v => select_filter "status" v fs
  | SelectService v => select_filter "service_type" v fs
  end.
Definition select_run (l : list select_event) : column_filters := foldl select_step [] l.
End Monitor.

(** ** The lists of [SimpleDataTable] *)

(** [labels[v] ?? v]. *)
Definition label_or (labels : list (string * string)) (v : jval) : string :=
  match List.find (fun l => jval_eqb v (JStr l.1)) labels with Some l => l.2 | None => js_String v end.
(** [searchKey || filters]: whether there is a toolbar. *)
Definition has_toolbar (searchKey : option string) (filters : option (list facet)) : bool :=
  match searchKey, filters with None, None => false | _, _ => true end.
Definition simple (data : list jval) (pageSize : Z) : table_state := opened data ∅ pageSize.

Module Invoices.
Section Invoices.
(** [format(new Date(s), 'd MMM yy')] of date-fns, and [formatIDR]. *)
Context (format formatIDR : jval -> string) (customers : list jval).
Definition fmtDate (s : jval) : string := if truthy s then format s else "—".
Definition InvoiceStatusBadge : list (string * string) :=
  [("draft", "Draft"); ("issued", "Belum Bayar"); ("paid", "Lunas"); ("overdue", "Terlambat"); ("cancelled", "Dibatalkan")].
Definition customer_filter (row value : jval) : bool :=
  includes (toLowerCase (js_String value)) (toLowerCase (customerName customers (get "customer_id" row))).
Definition columns : list column :=
  [text_column "invoice_number" "No. Invoice";
   Column "customer" (Some (get "customer_id")) (Some customer_filter) true true "Pelanggan"
     (fun r => [customerName customers (get "customer_id" r)]);
   Column "amount" (Some (get "amount")) None true true "Jumlah" (fun r => [formatIDR (get "amount" r)]);
   Column "period_start" (Some (get "period_start")) None true true "Periode" (fun r => [fmtDate (get "period_start" r)]);
   Column "due_date" (Some (get "due_date")) None true true "Jatuh Tempo" (fun r => [fmtDate (get "due_date" r)]);
   facet_column "status" "Status" (fun r => [label_or InvoiceStatusBadge (get "status" r)]);
   actions_column].
Definition filters : list facet :=
  [Facet "status" "Status" [("Belum Bayar", "issued"); ("Terlambat", "overdue"); ("Lunas", "paid");
                            ("Draft", "draft"); ("Dibatalkan", "cancelled")]].
Definition searchKey : option string := Some "customer".
(** The row's menu. *)
Definition row_menu (inv : jval) : list string :=
  "Lihat Detail" ::
  if jval_eqb (get "status" inv) (JStr "issued") || jval_eqb (get "status" inv) (JStr "overdue")
  then ["Catat Pembayaran"] else [].

(** What is asked of the server: the selects above the table. *)
Definition list_filters (customerId month : string) (year : Z) : jval :=
  JObj ((if String.eqb customerId "all" then [] else [("customer_id", Number_val customerId)]) ++
        (if String.eqb month "all" then [] else [("year", JNum year); ("month", Number_val month)])).
End Invoices.
End Invoices.

Module Payments.
Section Payments.
Context (format formatIDR : jval -> string) (customers : list jval).
Definition fmtDate (s : jval) : string := if truthy s then format s else "—".
Definition methodLabel (method : jval) : string :=
  label_or [("cash", "Tunai"); ("transfer", "Transfer"); ("portal", "Portal"); ("gateway", "Online")] method.
Definition PaymentStatusBadge : list (string * string) :=
  [("pending", "Pending"); ("confirmed", "Dikonfirmasi"); ("rejected", "Ditolak")].
(** The link of a proof carries the session's token. *)
Definition proof_href (API_BASE token : string) (proofUrl : jval) : string :=
  API_BASE +:+ js_String proofUrl +:+ "?access_token=" +:+ encodeURIComponent token.
Definition columns : list column :=
  [Column "id" (Some (get "id")) None true true "#" (fun r => ["#" +:+ text "id" r]);
   Column "invoice_id" (Some (get "invoice_id")) None true true "Invoice" (fun r => ["#" +:+ text "invoice_id" r]);
   Column "customer" (Some (get "customer_id")) None true true "Pelanggan"
     (fun r => [customerName customers (get "customer_id" r)]);
   Column "amount" (Some (get "amount")) None true true "Jumlah" (fun r => [formatIDR (get "amount" r)]);
   facet_column "method" "Metode" (fun r => [methodLabel (get "method" r)]);
   facet_column "status" "Status" (fun r => [label_or PaymentStatusBadge (get "status" r)]);
   Column "proof" None None true true "Bukti" (fun r => [if truthy (get "proof_url" r) then "Lihat" else "—"]);
   Column "created_at" (Some (get "created_at")) None true true "Tanggal" (fun r => [fmtDate (get "created_at" r)]);
   actions_column].
Definition filters : list facet :=
  [Facet "status" "Status" [("Pending", "pending"); ("Dikonfirmasi", "confirmed"); ("Ditolak", "rejected")];
   Facet "method" "Metode" [("Tunai", "cash"); ("Transfer", "transfer"); ("Portal", "portal"); ("Online", "gateway")]].
Definition row_buttons (p : jval) : list string :=
  if jval_eqb (get "status" p) (JStr "pending") then ["Konfirmasi"; "Tolak"] else [].
End Payments.
End Payments.

Module Notifications.
Section Notifications.
Context (formatDateTime : jval -> string).
Definition columns : list column :=
  [Column "created_at" (Some (get "created_at")) None true true "When" (fun r => [formatDateTime (get "created_at" r)]);
   facet_column "template_slug" "Template" (shows "template_slug");
   text_column "recipient_phone" "Recipient";
   facet_column "status" "Status" (shows "status");
   text_column "retry_count" "Retries";
   actions_column].
Definition statusVariant (status : string) : string :=
  if String.eqb status "sent" then "online" else if String.eqb status "failed" then "expired"
  else if String.eqb status "pending" then "idle" else "offline".
Definition templateOptions (data : list jval) : list (string * string) := option_list (map (get "template_slug") data).
Definition filters (data : list jval) : list facet :=
  [Facet "status" "Status" [("Sent", "sent"); ("Pending", "pending"); ("Failed", "failed")];
   Facet "template_slug" "Template" (templateOptions data)].
Definition searchKey : option string := Some "recipient_phone".
End Notifications.
End Notifications.

Module AuditLogs.
Section AuditLogs.
Context (formatDateTime : jval -> string).
Definition columns : list column :=
  [Column "created_at" (Some (get "created_at")) None true true "When" (fun r => [formatDateTime (get "created_at" r)]);
   facet_column "action" "Action" (shows "action");
   facet_column "entity_type" "Entity"
     (fun r => text "entity_type" r :: if truthy (get "entity_id" r) then ["#" +:+ text "entity_id" r] else []);
   Column "user_id" (Some (get "user_id")) None false true "User"
     (fun r => [if truthy (get "user_id" r) then "#" +:+ text "user_id" r else "system"]);
   actions_column].
Definition actionOptions (data : list jval) : list (string * string) := option_list (map (get "action") data).
Definition entityOptions (data : list jval) : list (string * string) := option_list (map (get "entity_type") data).
Definition filters (data : list jval) : list facet :=
  [Facet "action" "Action" (actionOptions data); Facet "entity_type" "Entity" (entityOptions data)].
Definition searchKey : option string := Some "entity_type".
End AuditLogs.
End AuditLogs.

Module Registrations.
Section Registrations.
Context (formatDate : jval -> string).
Definition columns : list column :=
  [text_column "full_name" "Name";
   text_column "phone" "Phone";
   key_column "area" "Area";
   key_column "service_type" "Service";
   facet_column "status" "Status" (shows "status");
   Column "created_at" (Some (get "created_at")) None true true "Submitted" (fun r => [formatDate (get "created_at" r)]);
   actions_column].
Definition regStatusVariant (status : string) : string :=
  if String.eqb status "approved" then "online" else if String.eqb status "rejected" then "expired"
  else if String.eqb status "cancelled" then "offline" else "idle".
(** The row's buttons: what may be done next to a registration. *)
Definition row_buttons (reg : jval) : list string :=
  (if jval_eqb (get "status" reg) (JStr "pending") then ["approve"; "reject"] else []) ++
  (if jval_eqb (get "status" reg) (JStr "approved") then ["assign"; "complete"] else []).
Definition filters : list facet :=
  [Facet "status" "Status" [("Pending", "pending"); ("Approved", "approved"); ("Rejected", "rejected");
                            ("Cancelled", "cancelled")]].
Definition searchKey : option string := Some "full_name".
Definition pending (data : list jval) : Z :=
  Z.of_nat (length (List.filter (fun r => jval_eqb (get "status" r) (JStr "pending")) data)).
End Registrations.
End Registrations.

Module MessageTemplates.
Definition active_filter (row value : jval) : bool := js_includes value (JStr (text "active" row)).
Definition columns : list column :=
  [text_column "slug" "Slug";
   text_column "name" "Name";
   Column "body" (Some (get "body")) None false true "Preview" (shows "body");
   Column "active" (Some (get "active")) (Some active_filter) true true "Status"
     (fun r => [if truthy (get "active" r) then "active" else "inactive"]);
   actions_column].
Definition filters : list facet := [Facet "active" "Status" [("Active", "true"); ("Inactive", "false")]].
Definition searchKey : option string := Some "name".
End MessageTemplates.

Module HotspotBilling.
Section HotspotBilling.
Context (formatIDR : jval -> string).
Definition permanent (p : jval) : bool := jval_eqb (get "role" p) (JStr "permanent").
Definition price (p : jval) : string :=
  let value := (if permanent p then get "price_monthly" p else get "sell_price" p) in
  let value := match value with JUndef | JNull => JNum 0 | v => v end in
  if match value with JNum n => 0 <? n | _ => false end
  then formatIDR value +:+ (if permanent p then "/mo" else "") else "—".
Definition columns : list column :=
  [Column "name" (Some (get "name")) None true true "Name" PPPBilling.described;
   facet_column "role" "Role" (shows "role");
   key_column "rate_limit" "Rate Limit";
   Column "price" None None true true "Price" (fun r => [price r]);
   actions_column].
Definition filters : list facet := [Facet "role" "Role" [("Voucher", "voucher"); ("Permanent", "permanent")]].
Definition searchKey : option string := Some "name".
End HotspotBilling.
End HotspotBilling.

Module Routers.
Section Routers.
Context (parse : string -> option Z) (now : Z).
Definition columns : list column :=
  [Column "display_name" (Some (get "display_name")) None true true "Name" (shows "display_name");
   Column "address" None None true true "Address" (fun r => [text "host" r +:+ ":" +:+ text "port" r]);
   text_column "username" "Username";
   Column "status" (Some (get "status")) None true true "Status" (fun r => [label_or routerStatusConfig (get "status" r)]);
   Column "lastSeenAt" None None true true "Last Seen" (fun r => [text "lastSeenAt" (toRouterViewModel parse now r)]);
   actions_column].
End Routers.
End Routers.

(** ** What the toolbars search *)

Definition text_search (k : string) (facets : list (string * (jval -> jval))) : searchable :=
  Searchable [(k, text k)] facets (is_text k).

(** A page's table: its columns, the column of its search box, its facets. *)
Record page_table : Type := PageTable {
  p_columns : list column;
  p_searchKey : option string;
  p_filters : list jval -> list facet;
  p_search : searchable }.

Section Pages.
Context (formatIDR format formatDateTime formatDate : jval -> string) (customers : list jval).

Definition invoices_search : searchable :=
  Searchable [("customer", fun r => customerName customers (get "customer_id" r))] [("status", get "status")]
    (fun _ => true).

Definition page_tables : list page_table :=
  [PageTable (Profiles.columns formatIDR) Profiles.searchKey (fun _ => Profiles.filters) profiles_search;
   PageTable Active.columns Active.searchKey Active.filters active_search;
   PageTable Secrets.columns Secrets.searchKey Secrets.filters
     (text_search "name" [("status", status_of); ("profile", get "profile")]);
   PageTable PPPProfiles.columns PPPProfiles.searchKey (fun _ => PPPProfiles.filters)
     (text_search "name" [("status", status_of)]);
   PageTable PPPActive.columns PPPActive.searchKey (fun _ => []) (text_search "name" []);
   PageTable (PPPBilling.columns formatIDR) PPPBilling.searchKey (fun _ => PPPBilling.filters)
     (text_search "name" [("status", fun r => JStr (PPPBilling.active_of r))]);
   PageTable Customers.columns Customers.searchKey Customers.filters
     (text_search "full_name" [("status", get "status"); ("area", get "area")]);
   PageTable (Subscriptions.columns customers) Subscriptions.searchKey (fun _ => Subscriptions.filters)
     (text_search "mikrotik_username" [("service_type", get "service_type"); ("status", get "status")]);
   PageTable (Invoices.columns format formatIDR customers) Invoices.searchKey (fun _ => Invoices.filters) invoices_search;
   PageTable (Notifications.columns formatDateTime) Notifications.searchKey Notifications.filters
     (text_search "recipient_phone" [("status", get "status"); ("template_slug", get "template_slug")]);
   PageTable (Registrations.columns formatDate) Registrations.searchKey (fun _ => Registrations.filters)
     (text_search "full_name" [("status", get "status")]);
   PageTable MessageTemplates.columns MessageTemplates.searchKey (fun _ => MessageTemplates.filters)
     (text_search "name" [("active", fun r => JStr (text "active" r))]);
   PageTable (HotspotBilling.columns formatIDR) HotspotBilling.searchKey (fun _ => HotspotBilling.filters)
     (text_search "name" [("role", get "role")])].

(** The search box and the facets of a page are those of its [searchable]. *)
Definition as_built (t : page_table) : Prop :=
  Some <$> map fst (text_cols (p_search t)) = [p_searchKey t] /\
  (forall d, map columnId (p_filters t d) = map fst (facet_cols (p_search t))).

Lemma page_tables_built : Forall as_built page_tables.
Proof. repeat constructor. Qed.

Section Ok.
Context `{ReactTableLaws}.

Ltac custom_box := intros first row s Hv1 Hv2 _; unfold filter_keeps; cbn; done.

Lemma page_tables_ok : Forall (fun t => ToolbarOk (p_columns t) (p_search t)) page_tables.
Proof.
  unfold page_tables. repeat (apply Forall_cons_2; [try apply _|]); try apply Forall_nil_2;
    cbn [p_columns p_search]; toolbar_ok; custom_box.
Qed.
End Ok.
End Pages.

(** ** Theorems *)

Section Laws.
Context `{ReactTableLaws}.

(** C34: the toolbars of thirteen lists show what they say.  On each of these pages (hotspot
    profiles and sessions, the four PPP tables, customers, subscriptions, invoices,
    notifications, registrations, message templates, hotspot billing) the search box and the
    facets are those of the page's query, and whatever is typed, ticked, cleared or reset,
    with refetches in between, the rows shown are exactly the records that match it. *)
Theorem toolbars_show formatIDR format formatDateTime formatDate customers t d n visibility l :
  t ∈ page_tables formatIDR format formatDateTime formatDate customers ->
  Forall (toolbar_event (p_search t)) l -> Forall (fun r => valid (p_search t) r = true) d ->
  as_built t /\
  let s := table_run (p_columns t) (opened d visibility n) l in
  shown_rows (p_columns t) s = List.filter (query_matches (p_search t) (query_run no_query l)) (data s).
Proof.
  intros Ht Hl Hd.
  pose proof (proj1 (Forall_forall _ _) (page_tables_built formatIDR format formatDateTime formatDate customers) t Ht).
  pose proof (proj1 (Forall_forall _ _) (page_tables_ok formatIDR format formatDateTime formatDate customers) t Ht).
  split; [done|]. by apply toolbar_shows.
Qed.

(** *** Audit logs *)

(** The search box of the audit logs and a facet share the column [entity_type], so both are
    read by a filter made for the facet's lists.  A text typed keeps the entries whose entity
    is contained in it, not those that contain it: typing part of a name hides the entity
    sought.  The facet takes the text for the list of its characters. *)
Theorem audit_search_backwards fmt d visibility n s :
  s <> "" -> Forall (fun r => is_text "entity_type" r = true) d ->
  let st := table_run (AuditLogs.columns fmt) (opened d visibility n) [Search "entity_type" s] in
  shown_rows (AuditLogs.columns fmt) st = List.filter (fun r => includes (text "entity_type" r) s) d /\
  selectedValues "entity_type" (columnFilters st) =
    foldl set_add [] (map (fun c => JStr (String c "")) (String.list_ascii_of_string s)).
Proof.
  intros Hs Hd st.
  assert (forall c, getFilterValue c (columnFilters st) =
    if String.eqb c "entity_type" then JStr s else JUndef) as Hf.
  { intros c. cbn. destruct (String.eqb c "entity_type") eqn:E; b2p.
    - subst c. apply getFilterValue_set. cbn. by apply String.eqb_neq.
    - by rewrite setFilterValue_other. }
  split; [|by unfold selectedValues; rewrite Hf].
  unfold shown_rows, rows_of. change (globalFilter st) with "". change (data st) with d.
  rewrite getFilteredRowModel_spec.
  apply filter_imap; [|done]. intros i r Hr. cbn [snd]. rewrite Forall_forall in Hd.
  destruct (is_text_elim _ _ (Hd r Hr)) as (e & He & Ht).
  unfold accepts, column_accepts, AuditLogs.columns. cbn [forallb col_id facet_column actions_column].
  rewrite !Hf. cbn -[includes]. by rewrite He, Ht, !andb_true_r.
Qed.

(** *** Bulk deletion of customers *)

Lemma customer_batch value (r : jval) o n : trim value = CONFIRM_WORD -> number "id" r <> 0 ->
  requests (exec o n (CustomersMultiDelete.handleDelete value [r])) = [M_Customers_BatchRemoveCustomers [number "id" r]].
Proof.
  intros Hv Hr. unfold CustomersMultiDelete.handleDelete, selected_ids. rewrite Hv, String.eqb_refl. cbn [negb map List.filter].
  rewrite (proj2 (Z.eqb_neq _ _) Hr). cbn. destruct (o n); cbn; done.
Qed.

Definition customers_search : searchable := text_search "full_name" [("status", get "status"); ("area", get "area")].

#[export] Instance customers_toolbar : ToolbarOk Customers.columns customers_search.
Proof. toolbar_ok. Qed.

Lemma customers_bulk d visibility k l :
  Forall (fun r => valid customers_search r = true) d -> Forall (toolbar_event customers_search) l ->
  forallb single_ticks l = true ->
  selected_rows Customers.columns (table_run Customers.columns (opened d visibility k) l) =
  map snd (List.filter (fun ir => query_matches customers_search (query_run no_query l) ir.2 && last_ticked l ir.1)
    (positioned (data (table_run Customers.columns (opened d visibility k) l)))).
Proof. intros Hd Hl Ht. apply (bulk_by_position _ customers_search d); done || apply _. Qed.

(** The customers a bulk deletion deletes are decided when it is confirmed.  One customer
    is ticked and the dialog opened; while DELETE is typed the list is refetched with a new
    customer first.  The dialog's title still counts one customer, and confirming deletes the
    new one. *)
Theorem customers_deleted_at_confirm (a b : jval) visibility k o n value :
  valid customers_search a = true -> valid customers_search b = true -> number "id" b <> 0 ->
  trim value = CONFIRM_WORD ->
  let s := table_run Customers.columns (opened [a] visibility k) [Tick (rowId 0) true] in
  let s' := table_step Customers.columns s (Refetched [b; a]) in
  selected_rows Customers.columns s = [a] /\
  Customers.multi_delete_title s = "Delete 1 customer" /\ Customers.multi_delete_title s' = "Delete 1 customer" /\
  requests (exec o n (Customers.multi_delete s' value)) = [M_Customers_BatchRemoveCustomers [number "id" b]].
Proof.
  intros Ha Hb Hid Hv s s'.
  assert (String.eqb (rowId 0) (rowId 1) = false) as Hne by (apply String.eqb_neq; intros E%rowId_inj; lia).
  assert (selected_rows Customers.columns s = [a]) as Es.
  { subst s. rewrite customers_bulk by (repeat constructor; done). cbn. by rewrite query_nothing, String.eqb_refl. }
  assert (selected_rows Customers.columns s' = [b]) as Es'.
  { change s' with (table_run Customers.columns (opened [a] visibility k) [Tick (rowId 0) true; Refetched [b; a]]).
    rewrite customers_bulk by (repeat constructor; done). cbn. by rewrite !query_nothing, Hne, String.eqb_refl. }
  unfold Customers.multi_delete_title, Customers.multi_delete, selectedCount. rewrite Es, Es'.
  split_and!; [done..|by apply customer_batch].
Qed.
End Laws.

(** *** Facets, cells and cards *)

(** The cell of a column, by the column's id. *)
Definition cell_of (cols : list column) (c : string) (row : jval) : list string :=
  match List.find (fun k => String.eqb (col_id k) c) cols with Some k => cell k row | None => [] end.

(** A facet names its values as the table shows them: a row with the status, method,
    expiry mode or monitor state of an option has just the option's label in its cell. *)
Theorem facet_labels_shown format formatIDR customers row :
  (forall label v, (label, v) ∈ [("Belum Bayar", "issued"); ("Terlambat", "overdue"); ("Lunas", "paid");
                                 ("Draft", "draft"); ("Dibatalkan", "cancelled")] ->
     get "status" row = JStr v -> cell_of (Invoices.columns format formatIDR customers) "status" row = [label]) /\
  (forall f o, f ∈ Payments.filters -> o ∈ options f -> get (columnId f) row = JStr o.2 ->
     cell_of (Payments.columns format formatIDR customers) (columnId f) row = [o.1]) /\
  (forall o, o ∈ Profiles.expModeOptions -> get "expMode" row = JStr o.2 ->
     cell_of (Profiles.columns formatIDR) "expMode" row = [o.1]) /\
  (forall o, o ∈ Profiles.monitorOptions -> Profiles.monitor_of row = JStr o.2 ->
     (exists b, get "hasExpiredMonitor" row = JBool b) ->
     cell_of (Profiles.columns formatIDR) "hasExpiredMonitor" row = [o.1]).
Proof.
  split_and!.
  - intros label v Ho E. one_of Ho; injection Ho as -> ->; cbn; rewrite E; done.
  - intros f o Hf Ho E. unfold Payments.filters in Hf. one_of Hf; subst f; one_of Ho; subst o; cbn in *; rewrite E; done.
  - intros o Ho E. unfold Profiles.expModeOptions, Profiles.expModeLabels in Ho.
    one_of Ho; subst o; cbn in *; rewrite E; done.
  - intros o Ho E (b & Hb). unfold Profiles.monitor_of in E. rewrite Hb in E. cbn. rewrite Hb.
    unfold Profiles.monitorOptions in Ho.
    one_of Ho; subst o; destruct b; cbn in *; done.
Qed.

(** The details of a card and the columns they stand for. *)
Definition agrees (cols : list column) (c : card) (row : jval) (pairs : list (string * string)) : Prop :=
  Forall (fun p => exists t, (p.1, t) ∈ details c /\ cell_of cols p.2 row = [t]) pairs.

(** The mobile view shows what the table shows.  On every page with cards each labelled
    detail is the text of the cell of its column, for every record. *)
Theorem cards_show_columns dateFmt toLocaleDateString formatIDR row :
  agrees (Users.columns dateFmt) (Users.mobile toLocaleDateString row) row
    [("MAC", "macAddress"); ("Server", "server"); ("Uptime", "uptime")] /\
  agrees (Profiles.columns formatIDR) (Profiles.mobile formatIDR row) row
    [("Price", "price"); ("Selling", "sellingPrice"); ("Shared", "sharedUsers"); ("Lock User", "lockUser")] /\
  agrees Active.columns (Active.mobile row) row
    [("MAC", "macAddress"); ("Uptime", "uptime"); ("Time Left", "sessionTimeLeft"); ("Login By", "loginBy")] /\
  agrees Hosts.columns (Hosts.mobile row) row
    [("Server", "server"); ("To Address", "toAddress"); ("Comment", "comment")] /\
  agrees Secrets.columns (Secrets.mobile row) row
    [("Service", "service"); ("Remote", "remote_address"); ("Last Caller", "last_caller_id")] /\
  agrees PPPProfiles.columns (PPPProfiles.mobile row) row
    [("Local", "local_address"); ("Remote", "remote_address"); ("Parent Queue", "parent_queue")] /\
  agrees PPPActive.columns (PPPActive.mobile row) row
    [("Service", "service"); ("Caller ID", "caller_id"); ("Uptime", "uptime")] /\
  agrees (PPPBilling.columns formatIDR) (PPPBilling.mobile formatIDR row) row
    [("Price / mo", "price_monthly"); ("Parent Queue", "parent_queue")] /\
  agrees Customers.columns (Customers.mobile row) row [("Area", "area")].
Proof.
  split_and!; repeat (apply Forall_cons_2; [eexists; split; [|reflexivity]; cbn; repeat (apply list_elem_of_here || apply list_elem_of_further)|]);
    apply Forall_nil_2.
Qed.

(** The columns that only serve a facet.  Their cells are never meant to be shown: the users'
    and the secrets' cannot be, the View menu of the PPP profiles offers theirs. *)
Theorem filter_only_columns dateFmt :
  "enabledStatus" ∉ view_options (Users.columns dateFmt) /\
  "status" ∉ view_options Secrets.columns /\
  "status" ∈ view_options PPPProfiles.columns /\
  columnVisibility (PPPProfiles.initial []) !! "status" = Some false.
Proof.
  split_and!; [| |apply (bool_decide_unpack _); vm_compute; exact I|done];
    apply (bool_decide_unpack _); vm_compute; exact I.
Qed.

(** *** The monitor *)

Section Monitoring.
Context `{ReactTableLaws}.
Import Monitor.

(** What a select was last set to. *)
Definition last_status (l : list select_event) : string :=
  foldl (fun v e => match e with SelectStatus w => w | _ => v end) "" l.
Definition last_service (l : list select_event) : string :=
  foldl (fun v e => match e with SelectService w => w | _ => v end) "" l.
Definition choice_filter (v : string) : jval := if String.eqb v "" then JUndef else JArr [JStr v].

Lemma select_filter_own c v fs : getFilterValue c (select_filter c v fs) = choice_filter v.
Proof.
  unfold select_filter, choice_filter. fold (drop_filter c fs). destruct (String.eqb v "") eqn:E.
  - by rewrite app_nil_r, found_dropped, String.eqb_refl.
  - by rewrite found_app, find_dropped, String.eqb_refl.
Qed.

Lemma select_filter_other c c' v fs : c' <> c -> getFilterValue c' (select_filter c v fs) = getFilterValue c' fs.
Proof.
  intros Hc. unfold select_filter. fold (drop_filter c fs).
  transitivity (getFilterValue c' (drop_filter c fs)).
  2: { rewrite found_dropped. by rewrite (proj2 (String.eqb_neq _ _)). }
  destruct (String.eqb v ""); [by rewrite app_nil_r|]. rewrite found_app.
  by rewrite (proj2 (String.eqb_neq c c')) by done.
Qed.

Lemma select_run_holds l c : getFilterValue c (select_run l) =
  if String.eqb c "status" then choice_filter (last_status l)
  else if String.eqb c "service_type" then choice_filter (last_service l) else JUndef.
Proof.
  induction l as [|e l IH] using rev_ind.
  - cbn. by destruct (String.eqb c "status"), (String.eqb c "service_type").
  - unfold select_run, last_status, last_service in *. rewrite !foldl_app. cbn [foldl].
    destruct e as [v|v]; cbn [select_step].
    + destruct (String.eqb c "status") eqn:E; b2p; [subst c; apply select_filter_own|].
      rewrite select_filter_other by done. by rewrite IH.
    + destruct (String.eqb c "status") eqn:E; b2p; [subst c; by rewrite select_filter_other by done|].
      destruct (String.eqb c "service_type") eqn:E2; b2p; [subst c; apply select_filter_own|].
      rewrite select_filter_other by done. by rewrite IH.
Qed.

(** The monitor counts and filters what it lists.  The online and offline badges add up to
    all subscriptions and the online ones are those with a session; whatever the two selects
    were set to before, the rows shown are those with the status and the service of their last
    settings, an empty setting letting all through. *)
Theorem monitor_filters customers (d : list jval) l :
  onlineCount d + offlineCount d = Z.of_nat (length d) /\ 0 <= offlineCount d /\
  rows_of (getFilteredRowModel (columns customers) (select_run l) "" d) =
    List.filter (fun r => (String.eqb (last_status l) "" || jval_eqb (get "status" (sub r)) (JStr (last_status l))) &&
                     (String.eqb (last_service l) "" || jval_eqb (get "service_type" (sub r)) (JStr (last_service l)))) d.
Proof.
  assert ((length (List.filter online d) <= length d)%nat) as Hlen.
  { induction d as [|x d IH]; [done|]. cbn. destruct (online x); cbn; lia. }
  split_and!; [unfold offlineCount; lia|unfold offlineCount, onlineCount; lia|].
  unfold rows_of. rewrite getFilteredRowModel_spec. apply filter_imap; [|done]. intros i r _. cbn [snd].
  unfold accepts, column_accepts, columns. cbn [forallb col_id actions_column].
  rewrite !select_run_holds. cbn [String.eqb Ascii.eqb Bool.eqb in_force andb].
  unfold choice_filter. destruct (String.eqb (last_status l) "") eqn:E1, (String.eqb (last_service l) "") eqn:E2;
    cbn -[jval_eqb get]; rewrite ?orb_false_r, ?andb_true_r; first [done|apply andb_comm].
Qed.

(** Traffic from a terabyte up has no unit.  Below 1024 GB a count of bytes is shown as at
    most 1024.0 of one of the four units; from there on the unit's name is [undefined]. *)
Theorem monitor_traffic bytes : 0 < bytes < 2 ^ 50 ->
  exists u, formatBytes bytes = drop_zero (toFixed 1 bytes (1024 ^ unit_of bytes)) +:+ u /\
    1024 ^ unit_of bytes <= bytes < 1024 * 1024 ^ unit_of bytes /\
    (bytes < 2 ^ 40 -> u ∈ sizes) /\ (2 ^ 40 <= bytes -> u = "undefined").
Proof.
  intros Hb. exists (nth_error sizes (Z.to_nat (unit_of bytes)) ?? "undefined").
  unfold formatBytes. rewrite (proj2 (Z.eqb_neq _ _)) by lia. split; [done|].
  pose proof (Z.log2_spec bytes ltac:(lia)) as Hl. pose proof (Z.log2_nonneg bytes) as Hn.
  unfold unit_of. set (g := Z.log2 bytes) in *. change 1024 with (2 ^ 10).
  rewrite <- (Z.pow_mul_r 2 10) by (try lia; apply Z.div_pos; lia). rewrite <- Z.pow_add_r by (try lia; pose proof (Z.div_pos g 10); lia).
  pose proof (Z.div_mod g 10 ltac:(lia)) as Hdm. pose proof (Z.mod_pos_bound g 10 ltac:(lia)) as Hm.
  pose proof (Z.div_pos g 10 ltac:(lia) ltac:(lia)) as Hq.
  assert (2 ^ (10 * (g / 10)) <= 2 ^ g) by (apply Z.pow_le_mono_r; lia).
  assert (2 ^ Z.succ g <= 2 ^ (10 + 10 * (g / 10))) by (apply Z.pow_le_mono_r; lia).
  split; [lia|]. split.
  - intros Hs. assert (g < 40) by (apply (Z.pow_lt_mono_r_iff 2); lia).
    assert (g / 10 = 0 \/ g / 10 = 1 \/ g / 10 = 2 \/ g / 10 = 3) as [->|[->|[->| ->]]] by lia;
      apply (bool_decide_unpack _); vm_compute; exact I.
  - intros Hs. assert (40 <= g) by (apply Z.log2_le_pow2 in Hs; lia).
    assert (g < 50) by (apply (Z.pow_lt_mono_r_iff 2); lia).
    assert (g / 10 = 4) as -> by lia. done.
Qed.
End Monitoring.

(** *** Filters in the URL *)

Section Reload.
Context `{ReactTableLaws}.

Definition subscriptions_search : searchable :=
  text_search "mikrotik_username" [("service_type", get "service_type"); ("status", get "status")].

#[export] Instance subscriptions_toolbar customers : ToolbarOk (Subscriptions.columns customers) subscriptions_search.
Proof. toolbar_ok. Qed.

(** A table of one search box [a] and two facets [b] and [c], kept in the URL under the
    columns' names. *)
Definition three_cfg (a b c : string) : cfg :=
  Cfg "page" "pageSize" 1 10 "filter" false true
    [Col a a (Some TString) id id; Col b b (Some TArray) id id; Col c c (Some TArray) id id].

(** [value.trim() !== ''], as the URL keeps a text. *)
Definition keepable (s : string) : Prop := s = "" \/ trim s <> "".

Definition entry (c : string) (v : jval) : column_filters := match v with JUndef => [] | v => [(c, v)] end.

Lemma entry_app x c v rest : getFilterValue x (entry c v ++ rest) =
  if String.eqb c x then match v with JUndef => getFilterValue x rest | v => v end else getFilterValue x rest.
Proof.
  unfold getFilterValue, found_value. destruct v; cbn [entry app List.find fst]; by destruct (String.eqb c x).
Qed.

Lemma shown_text fs q c : holds_text fs q c -> keepable (text_in q c) ->
  shown fs (Col c c (Some TString) id id) = entry c (getFilterValue c fs).
Proof.
  intros Ht Hk. unfold shown. cbn [type TableUrl.columnId]. fold (getFilterValue c fs). rewrite Ht.
  destruct (String.eqb (text_in q c) "") eqn:E; b2p; [done|]. cbn [entry].
  destruct Hk as [Hk|Hk]; [done|]. by rewrite (proj2 (String.eqb_neq _ _)).
Qed.

Lemma shown_choice fs q c : holds_choice fs q c ->
  shown fs (Col c c (Some TArray) id id) = entry c (getFilterValue c fs).
Proof.
  intros (l & _ & Hv & _). unfold shown. cbn [type TableUrl.columnId]. fold (getFilterValue c fs). rewrite Hv. by destruct l.
Qed.

(** Reading the URL back gives every column the filter it had. *)
Lemma reload_same S a b c q fs prev :
  map fst (text_cols S) = [a] -> (forall x, x ∈ map fst (facet_cols S) <-> x ∈ [b; c]) ->
  cfg_ok (three_cfg a b c) -> holds S fs q -> keepable (text_in q a) ->
  forall x, getFilterValue x (initialColumnFilters (three_cfg a b c) (onColumnFiltersChange (three_cfg a b c) fs prev).2) =
            getFilterValue x fs.
Proof.
  intros Ht Hf Hok Hh Hk x.
  destruct (column_filters_roundtrip (three_cfg a b c) fs prev fs
    (onColumnFiltersChange (three_cfg a b c) fs prev).2) as (_ & E & _); [exact Hok| |reflexivity|].
  { repeat constructor; by left. }
  rewrite E. cbn [three_cfg columnFiltersCfg]. clear E.
  destruct Hh as [H1 H2 H3]. cbn [mbind list_bind].
  rewrite (shown_text fs q), !(shown_choice fs q).
  2,3: apply H2, Hf; set_solver. 2: apply H1; rewrite Ht; set_solver. 2: done.
  rewrite !entry_app. destruct Hok as [_ Hnd]. cbn in Hnd. apply NoDup_cons in Hnd as [Ha Hnd].
  apply NoDup_cons in Hnd as [Hb _].
  assert (x <> a -> x <> b -> x <> c -> getFilterValue x fs = JUndef) as Hx.
  { intros Hxa Hxb Hxc. apply H3; [rewrite Ht; set_solver|]. rewrite Hf. set_solver. }
  destruct (String.eqb a x) eqn:Ea; b2p.
  - subst x. rewrite (proj2 (String.eqb_neq b a)), (proj2 (String.eqb_neq c a)) by set_solver.
    by destruct (getFilterValue a fs).
  - destruct (String.eqb b x) eqn:Eb; b2p.
    + subst x. rewrite (proj2 (String.eqb_neq c b)) by set_solver. by destruct (getFilterValue b fs).
    + destruct (String.eqb c x) eqn:Ec; b2p; [subst x; by destruct (getFilterValue c fs)|].
      symmetry. apply Hx; congruence.
Qed.

Lemma holds_same S fs fs' q : (forall x, getFilterValue x fs' = getFilterValue x fs) -> holds S fs q -> holds S fs' q.
Proof.
  intros E [H1 H2 H3]. split.
  - intros c Hc. unfold holds_text. rewrite E. by apply H1.
  - intros c Hc. destruct (H2 c Hc) as (l & Hl). exists l. by rewrite E.
  - intros c Hc Hc'. rewrite E. by apply H3.
Qed.

(** A customer or subscription list survives a reload.  Whatever was typed and ticked in
    its toolbar, writing the filters to the URL and opening the page at that URL shows the
    same rows of the same records, unless the text typed is blank. *)
Theorem lists_survive_reload customers (d : list jval) visibility n l prev k :
  (Forall (toolbar_event customers_search) l -> Forall (fun r => valid customers_search r = true) d ->
   keepable (text_in (query_run no_query l) "full_name") -> existsb refetch l = false ->
   let s := table_run Customers.columns (opened d visibility n) l in
   let search := (onColumnFiltersChange Customers.url (columnFilters s) prev).2 in
   shown_rows Customers.columns (with_filters (opened d visibility k) (initialColumnFilters Customers.url search)) =
   shown_rows Customers.columns s) /\
  (Forall (toolbar_event subscriptions_search) l -> Forall (fun r => valid subscriptions_search r = true) d ->
   keepable (text_in (query_run no_query l) "mikrotik_username") -> existsb refetch l = false ->
   let s := table_run (Subscriptions.columns customers) (opened d visibility n) l in
   let search := (onColumnFiltersChange Subscriptions.url (columnFilters s) prev).2 in
   shown_rows (Subscriptions.columns customers) (with_filters (opened d visibility k) (initialColumnFilters Subscriptions.url search)) =
   shown_rows (Subscriptions.columns customers) s).
Proof.
  split; intros Hl Hd Hk Hr s search.
  - destruct (toolbar_run Customers.columns customers_search l (opened d visibility n) no_query
      ltac:(apply _) Hl (holds_nothing _) eq_refl Hd) as (Hh & Hg & _). fold s in Hh, Hg.
    rewrite (shown_rows_spec _ customers_search s (query_run no_query l)) by (done || apply _ || (unfold s; by rewrite data_kept)).
    rewrite (shown_rows_spec _ customers_search _ (query_run no_query l)); try done; [|apply _|].
    + unfold s. by rewrite data_kept.
    + eapply holds_same; [|exact Hh]. cbn [with_filters columnFilters].
      apply (reload_same customers_search "full_name" "status" "area" (query_run no_query l)); try done.
      split; apply (bool_decide_unpack _); vm_compute; exact I.
  - destruct (toolbar_run (Subscriptions.columns customers) subscriptions_search l (opened d visibility n) no_query
      ltac:(apply _) Hl (holds_nothing _) eq_refl Hd) as (Hh & Hg & _). fold s in Hh, Hg.
    rewrite (shown_rows_spec _ subscriptions_search s (query_run no_query l)) by (done || apply _ || (unfold s; by rewrite data_kept)).
    rewrite (shown_rows_spec _ subscriptions_search _ (query_run no_query l)); try done; [|apply _|].
    + unfold s. by rewrite data_kept.
    + eapply holds_same; [|exact Hh]. cbn [with_filters columnFilters].
      apply (reload_same subscriptions_search "mikrotik_username" "service_type" "status" (query_run no_query l)); try done.
      split; apply (bool_decide_unpack _); vm_compute; exact I.
Qed.
End Reload.

(** ** Witnesses *)

#[local] Existing Instance documented_table.
#[local] Existing Instance documented_laws.

Definition a_customer (id : Z) (name area : string) : jval :=
  JObj [("id", JNum id); ("full_name", JStr name); ("area", JStr area); ("status", JStr "aktif")].
Definition two_customers : list jval := [a_customer 4 "Budi" "Utara"; a_customer 9 "Sari" "Selatan"].
Definition no_text (_ : jval) : string := "".

Lemma toolbars_show_witness :
  let t := PageTable Customers.columns Customers.searchKey Customers.filters customers_search in
  as_built t /\
  shown_rows Customers.columns (table_run Customers.columns (opened two_customers ∅ 10) [Choose "area" "Utara"]) =
    [a_customer 4 "Budi" "Utara"].
Proof.
  destruct (toolbars_show no_text no_text no_text no_text []
    (PageTable Customers.columns Customers.searchKey Customers.filters customers_search) two_customers 10 ∅
    [Choose "area" "Utara"]) as [H1 H2].
  - do 6 apply list_elem_of_further. apply list_elem_of_here.
  - repeat constructor.
  - repeat constructor.
  - split; [exact H1|]. etransitivity; [exact H2|vm_compute; reflexivity].
Defined.

Lemma audit_search_backwards_witness :
  let cols := AuditLogs.columns no_text in
  let d := [JObj [("entity_type", JStr "invoice")]; JObj [("entity_type", JStr "in")]] in
  shown_rows cols (table_run cols (opened d ∅ 20) [Search "entity_type" "inv"]) = [JObj [("entity_type", JStr "in")]].
Proof.
  destruct (audit_search_backwards no_text
    [JObj [("entity_type", JStr "invoice")]; JObj [("entity_type", JStr "in")]] ∅ 20 "inv") as [H1 _];
    [done|repeat constructor|]. etransitivity; [exact H1|vm_compute; reflexivity].
Defined.

Lemma customers_deleted_at_confirm_witness :
  let a := a_customer 4 "Budi" "Utara" in
  let b := a_customer 9 "Sari" "Selatan" in
  let s := table_run Customers.columns (opened [a] ∅ 10) [Tick (rowId 0) true] in
  let s' := table_step Customers.columns s (Refetched [b; a]) in
  selected_rows Customers.columns s = [a] /\
  requests (exec no_answer 0 (Customers.multi_delete s' " DELETE")) = [M_Customers_BatchRemoveCustomers [9]].
Proof.
  destruct (customers_deleted_at_confirm (a_customer 4 "Budi" "Utara") (a_customer 9 "Sari" "Selatan") ∅ 10 no_answer 0 " DELETE")
    as (H1 & _ & _ & H2); [reflexivity|reflexivity|done|reflexivity|]. split; [exact H1|exact H2].
Defined.

Lemma monitor_traffic_witness :
  Monitor.formatBytes 1649267441664 = "1.5undefined" /\ Monitor.formatBytes 1610612736 = "1.5GB".
Proof.
  destruct (monitor_traffic 1649267441664 ltac:(lia)) as (u & E & _ & _ & Hu).
  rewrite E, (Hu ltac:(lia)). by split.
Defined.

Lemma lists_survive_reload_witness :
  let s := table_run Customers.columns (opened two_customers ∅ 10) [Search "full_name" "sa"; Choose "status" "aktif"] in
  let search := (onColumnFiltersChange Customers.url (columnFilters s) ∅).2 in
  shown_rows Customers.columns (with_filters (opened two_customers ∅ 10) (initialColumnFilters Customers.url search)) =
  [a_customer 9 "Sari" "Selatan"].
Proof.
  destruct (lists_survive_reload [] two_customers ∅ 10 [Search "full_name" "sa"; Choose "status" "aktif"] ∅ 10) as [H1 _].
  etransitivity; [apply H1|vm_compute; reflexivity].
  - repeat constructor; cbn; set_solver.
  - repeat constructor.
  - by right.
  - done.
Defined.
