(* ===== verification/DateInput.v ===== *)
(** * Dates typed by hand ([components/ui/date-input.tsx])

    The three boxes of a date (month, day, year) as a state machine: what a keystroke, an
    arrow, a leave of a box does to what the boxes show and which date the owner of the
    input hears.  A box holds what the program's state holds: a number, possibly [NaN] or
    no integer, or a text, which an emptied box is.  The setters of [Date] and the weekday
    are here too; what a date is, JsDate says. *)
From S2P Require Import Prelude JsString JsValue JsNumber JsDate.

(** ** Dates that may be invalid *)

(** A [Date]: its local time, [None] when it is invalid. *)
Notation jsdate := (option Z).

Definition day_of (t : Z) : Z := t / 86400000.
Definition getDay (t : Z) : Z := (day_of t + 4) mod 7.
(** [d.setHours(h, mi, s, ms)], [d.setDate(date)], [d.setMonth(month)]. *)
Definition setHours (h mi s ms t : Z) : Z := 86400000 * day_of t + 3600000 * h + 60000 * mi + 1000 * s + ms.
Definition setDate (dt t : Z) : Z :=
  let '(y, m, _) := civil t in 86400000 * MakeDay y m dt + t mod 86400000.
Definition setMonth (month t : Z) : Z :=
  let '(y, _, d) := civil t in 86400000 * MakeDay y month d + t mod 86400000.

(** The arguments of [new Date(y, m, d)] lose their fraction; [NaN] makes the date invalid,
    and so does a time more than 8.64e15 ms from the epoch, measured here on the local
    time. *)
Definition truncate (q : Qc) : Z := Z.quot (Qnum (this q)) (Zpos (Qden (this q))).
Definition TimeClip (t : Z) : jsdate := if Z.abs t <=? 8640000000000000 then Some t else None.
Definition Date_of (y m d : option Qc) : jsdate :=
  y' ← y; m' ← m; d' ← d; TimeClip (new_Date (truncate y') (truncate m') (truncate d')).

(** ** The boxes *)

Inductive part : Type := Num (q : option Qc) | Str (s : string).
Record DateParts : Type := Parts { day : part; month : part; year : part }.
Inductive box : Type := Day | Month | Year.

Definition int (z : Z) : part := Num (Some (Qc_of z)).
Definition to_number (p : part) : option Qc := match p with Num q => q | Str s => Number_str s end.
(** [p === z], [p + 1] and [p - 1]: a text grows by a digit, and counts down as a number. *)
Definition is_num (p : part) (z : Z) : bool :=
  match p with Num (Some q) => Qc_eq_bool q (Qc_of z) | _ => false end.
Definition plus1 (p : part) : part :=
  match p with Num q => Num (q ← q; Some (q + Qc_of 1)%Qc) | Str s => Str (s +:+ "1") end.
Definition minus1 (p : part) : part := Num (q ← to_number p; Some (q - Qc_of 1)%Qc).
(** [p % 12 + 1]. *)
Definition next_month (p : part) : part :=
  Num (q ← to_number p; Some (q - Qc_of (12 * truncate (q / Qc_of 12)) + Qc_of 1)%Qc).

Definition part_of (f : box) (d : DateParts) : part :=
  match f with Day => day d | Month => month d | Year => year d end.
Definition set_part (f : box) (p : part) (d : DateParts) : DateParts :=
  match f with
  | Day => Parts p (month d) (year d)
  | Month => Parts (day d) p (year d)
  | Year => Parts (day d) (month d) p
  end.

(** The parts of a date; those of an invalid one are [NaN]. *)
Definition parts_of (v : jsdate) : DateParts :=
  match v with
  | Some t => Parts (int (getDate t)) (int (getMonth t + 1)) (int (getFullYear t))
  | None => Parts (Num None) (Num None) (Num None)
  end.
(** [value ? new Date(value) : new Date()]. *)
Definition shown_parts (value : option jsdate) (now : Z) : DateParts := parts_of (value ?? Some now).

(** [new Date(d.year, d.month - 1, d.day)]. *)
Definition date_of_parts (d : DateParts) : jsdate :=
  Date_of (to_number (year d)) (to_number (minus1 (month d))) (to_number (day d)).

(** [new Date(year, month, 0).getDate()]: the length of the month the parts name. *)
Definition last_day (d : DateParts) : option Z :=
  t ← Date_of (to_number (year d)) (to_number (month d)) (Some (Qc_of 0)); Some (getDate t).
Definition number_of (z : option Z) : part := Num (Qc_of <$> z).

(** ** Validation *)

Definition outside (lo hi : Z) (q : option Qc) : bool :=
  match q with
  | Some q => negb (Qle_bool (Qc_of lo) q) || negb (Qle_bool q (Qc_of hi))
  | None => false
  end.

Definition validateDate (date : DateParts) (field : box) (value : option Qc) : bool :=
  let '(lo, hi) := match field with Day => (1, 31) | Month => (1, 12) | Year => (1000, 9999) end in
  if outside lo hi value then false
  else
    let newDate := set_part field (Num value) date in
    match date_of_parts newDate with
    | Some d => is_num (year newDate) (getFullYear d) && is_num (month newDate) (getMonth d + 1) && is_num (day newDate) (getDate d)
    | None => false
    end.

(** ** The component *)

Record date_input : Type := Input { shown : DateParts; initialDate : DateParts }.

Definition mount (value : option jsdate) (now : Z) : date_input :=
  Input (shown_parts value now) (shown_parts value now).
(** The effect on [value]: a new date of the owner's fills the boxes. *)
Definition value_changed (value : option jsdate) (now : Z) (c : date_input) : date_input :=
  Input (shown_parts value now) (initialDate c).

Definition typed (text : string) : part := if String.eqb text "" then Str "" else Num (Number_str text).

(** The boxes after a change, and the date [onChange] is called with. *)
Definition handleInputChange (field : box) (text : string) (c : date_input) : date_input * option jsdate :=
  let newValue := typed text in
  let isValid := match newValue with Num v => validateDate (shown c) field v | Str _ => false end in
  let newDate := set_part field newValue (shown c) in
  (Input newDate (initialDate c), if isValid then Some (date_of_parts newDate) else None).

Definition handleBlur (field : box) (text : string) (c : date_input) : date_input :=
  if String.eqb text "" then Input (initialDate c) (initialDate c)
  else
    let newValue := Number_str text in
    if negb (validateDate (shown c) field newValue) then Input (initialDate c) (initialDate c)
    else Input (shown c) (set_part field (Num newValue) (shown c)).

(** ** Arrows *)

Definition arrow_up (field : box) (d : DateParts) : DateParts :=
  match field with
  | Day =>
      if match last_day d with Some l => is_num (day d) l | None => false end then
        let newDate := Parts (int 1) (next_month (month d)) (year d) in
        if is_num (month newDate) 1 then set_part Year (plus1 (year newDate)) newDate else newDate
      else set_part Day (plus1 (day d)) d
  | Month =>
      if is_num (month d) 12 then Parts (day d) (int 1) (plus1 (year d))
      else set_part Month (plus1 (month d)) d
  | Year => set_part Year (plus1 (year d)) d
  end.

Definition arrow_down (field : box) (d : DateParts) : DateParts :=
  match field with
  | Day =>
      if is_num (day d) 1 then
        let m := set_part Month (minus1 (month d)) d in
        let n := if is_num (month m) 0 then Parts (day m) (int 12) (minus1 (year m)) else m in
        set_part Day (number_of (last_day n)) n
      else set_part Day (minus1 (day d)) d
  | Month =>
      if is_num (month d) 1 then Parts (day d) (int 12) (minus1 (year d))
      else set_part Month (minus1 (month d)) d
  | Year => set_part Year (minus1 (year d)) d
  end.



(** ** Keys *)

Record key_event : Type := KeyEvent
  { key : string; metaKey : bool; ctrlKey : bool; selectionStart : Z; selectionEnd : Z; length_of_value : Z }.
Record key_effect : Type := Effect { prevented : bool; heard : option jsdate; focused : option box; boxes : DateParts }.

Definition one_digit (k : string) : bool := (String.length k =? 1)%nat && str_forall is_digit k.
Definition allowed_keys : list string :=
  ["ArrowUp"; "ArrowDown"; "ArrowLeft"; "ArrowRight"; "Delete"; "Tab"; "Backspace"; "Enter"].

Definition everything_selected (e : key_event) : bool :=
  (selectionStart e =? 0) && (selectionEnd e =? length_of_value e).

Definition handleKeyDown (field : box) (e : key_event) (d : DateParts) : key_effect :=
  if metaKey e || ctrlKey e then Effect false None None d
  else if negb (one_digit (key e)) && negb (existsb (String.eqb (key e)) allowed_keys) then Effect true None None d
  else if String.eqb (key e) "ArrowUp" then
    let newDate := arrow_up field d in Effect true (Some (date_of_parts newDate)) None newDate
  else if String.eqb (key e) "ArrowDown" then
    let newDate := arrow_down field d in Effect true (Some (date_of_parts newDate)) None newDate
  else if String.eqb (key e) "ArrowRight" then
    if (selectionStart e =? length_of_value e) || everything_selected e then
      Effect true None (match field with Month => Some Day | Day => Some Year | Year => None end) d
    else Effect false None None d
  else if String.eqb (key e) "ArrowLeft" then
    if (selectionStart e =? 0) || everything_selected e then
      Effect true None (match field with Day => Some Month | Year => Some Day | Month => None end) d
    else Effect false None None d
  else Effect false None None d.

(** The boxes from left to right, with [maxLength]. *)
Definition layout : list (box * Z) := [(Month, 2); (Day, 2); (Year, 4)].

(** ** The component with its owner *)

(** The owner keeps the date it hears and hands it back as [value]; it may also set another
    one ([Owner]). *)
Inductive input_event : Type :=
| Type_ (field : box) (text : string) | Leave (field : box) (text : string)
| Press (field : box) (e : key_event) | Owner (v : jsdate).

Definition hear (v : option jsdate) (now : Z) (s : jsdate * date_input) : jsdate * date_input :=
  match v with Some v => (v, value_changed (Some v) now s.2) | None => s end.

Definition input_step (now : Z) (s : jsdate * date_input) (e : input_event) : jsdate * date_input :=
  match e with
  | Type_ f text => let '(c, v) := handleInputChange f text s.2 in hear v now (s.1, c)
  | Leave f text => (s.1, handleBlur f text s.2)
  | Press f k =>
      let out := handleKeyDown f k (shown s.2) in hear (heard out) now (s.1, Input (boxes out) (initialDate s.2))
  | Owner v => hear (Some v) now s
  end.

(** ** The calendar, month by month *)

Definition DAY : Z := 86400000.
Definition startOfDay (t : Z) : Z := DAY * day_of t.

Lemma MakeDay_plus y m d k : MakeDay y m (d + k) = MakeDay y m d + k.
Proof. unfold MakeDay. lia. Qed.

Lemma MakeDay_year y m d k : MakeDay y (m + 12 * k) d = MakeDay (y + k) m d.
Proof.
  unfold MakeDay. rewrite (Z.mul_comm 12 k), Z.div_add, Z.mod_add by done.
  do 3 f_equal. lia.
Qed.

Lemma MakeDay_400 y m d k : MakeDay (y + 400 * k) m d = MakeDay y m d + 146097 * k.
Proof.
  unfold MakeDay. replace (y + 400 * k + m / 12) with (y + m / 12 + 400 * k) by lia.
  rewrite days_from_civil_400. lia.
Qed.

Lemma month_ends : forall_from (fun y => forall_from (fun m =>
  MakeDay y (m + 1) 1 =? MakeDay y m 1 + month_length y m) 12 0) 400 0 = true.
Proof. vm_compute. reflexivity. Qed.

(** The month after starts when the month is over. *)
Lemma month_end y m : 0 <= m < 12 -> MakeDay y (m + 1) 1 = MakeDay y m 1 + month_length y m.
Proof.
  intros Hm. replace y with (y mod 400 + 400 * (y / 400)) by (pose proof (Z.div_mod y 400); lia).
  rewrite !MakeDay_400, month_length_400.
  pose proof (forall_from_spec _ _ _ month_ends (y mod 400) ltac:(pose proof (Z.mod_pos_bound y 400); lia)) as H.
  apply forall_from_spec with (x := m) in H; [|lia]. b2p. lia.
Qed.

Lemma month_length_bounds y m : 28 <= month_length y m <= 31.
Proof. unfold month_length. repeat case_match; lia. Qed.

Lemma civil_local n r : 0 <= r < DAY -> civil (DAY * n + r) = civil_from_days n.
Proof. intros Hr. unfold civil. f_equal. unfold DAY in *. euclid. Qed.

Lemma civil_midnight n : civil (DAY * n) = civil_from_days n.
Proof. rewrite <- (Z.add_0_r (DAY * n)). by apply civil_local. Qed.

(** A date that exists, from its day and back. *)
Lemma MakeDay_civil y m d : valid_civil y m d = true -> civil_from_days (MakeDay y m d) = (y, m, d).
Proof. intros Hv. rewrite MakeDay_days by (unfold valid_civil in Hv; b2p; lia). by apply days_of_civil. Qed.

Lemma civil_of_local t : let '(y, m, d) := civil t in valid_civil y m d = true /\ MakeDay y m d = day_of t.
Proof.
  unfold civil. pose proof (civil_of_days (t / 86400000)) as H. destruct (civil_from_days _) as [[y m] d].
  destruct H as [Hv Hd]. split; [done|]. rewrite MakeDay_days by (unfold valid_civil in Hv; b2p; lia). done.
Qed.

Lemma new_Date_day y m d : 100 <= y -> new_Date y m d = DAY * MakeDay y m d.
Proof. intros Hy. unfold new_Date, local_time, DAY. destruct ((0 <=? y) && (y <=? 99)) eqn:E; b2p; lia. Qed.

Lemma TimeClip_day y m d : 100 <= y <= 20000 -> -100 <= m <= 100 -> -1000 <= d <= 1000 ->
  TimeClip (new_Date y m d) = Some (new_Date y m d).
Proof.
  intros Hy Hm Hd. unfold TimeClip. rewrite new_Date_day by lia. unfold DAY, MakeDay, days_from_civil.
  assert (-9 <= m / 12 <= 9) as Hq by euclid. set (q := m / 12) in *.
  assert (1 <= m mod 12 + 1 <= 12) as Hr by euclid. set (r := m mod 12 + 1) in *.
  destruct (Z.leb_spec (Z.abs (86400000 * ((if r <=? 2 then y + q - 1 else y + q) / 400 * 146097 +
    ((if r <=? 2 then y + q - 1 else y + q) mod 400 * 365 + (if r <=? 2 then y + q - 1 else y + q) mod 400 / 4 -
     (if r <=? 2 then y + q - 1 else y + q) mod 400 / 100 + ((153 * (if r <=? 2 then r + 9 else r - 3) + 2) / 5 + 1 - 1)) - 719468 + d - 1))) 8640000000000000); [done|].
  exfalso. assert (exists Y, (if r <=? 2 then y + q - 1 else y + q) = Y /\ 0 <= Y <= 20100) as (Y & EY & HY)
    by (eexists; split; [done|]; case_match; lia). rewrite EY in *.
  assert (exists R, (if r <=? 2 then r + 9 else r - 3) = R /\ 0 <= R <= 11) as (R & ER & HR)
    by (eexists; split; [done|]; case_match; b2p; lia). rewrite ER in *.
  euclid.
Qed.

(** ** Numbers of the boxes *)

Lemma bind_Some_eq {A B} (f : A -> option B) x : (Some x ≫= f) = f x.
Proof. reflexivity. Qed.

Lemma truncate_int z : truncate (Qc_of z) = z.
Proof.
  unfold truncate, Qc_of, Q2Qc. cbn [this]. rewrite Qred_identity by (cbn; apply Z.gcd_1_r).
  cbn. by rewrite Z.quot_1_r.
Qed.

Lemma Qc_of_plus a b : (Qc_of a + Qc_of b)%Qc = Qc_of (a + b).
Proof. apply Qc_is_canon. cbn. rewrite !Qred_correct. unfold inject_Z, Qeq. cbn. lia. Qed.

Lemma Qc_of_minus a b : (Qc_of a - Qc_of b)%Qc = Qc_of (a - b).
Proof. apply Qc_is_canon. cbn. rewrite !Qred_correct. unfold inject_Z, Qeq. cbn. lia. Qed.

Lemma Qc_of_inj a b : Qc_of a = Qc_of b -> a = b.
Proof. intros H. apply (f_equal truncate) in H. by rewrite !truncate_int in H. Qed.

Lemma is_num_spec p z : is_num p z = true <-> p = int z.
Proof.
  unfold is_num, int. split.
  - destruct p as [[q|]|]; try done. intros H. by apply Qc_eq_bool_correct in H as ->.
  - intros ->. destruct (Qc_eq_bool _ _) eqn:E; [done|]. unfold Qc_eq_bool in E. by destruct (Qc_eq_dec _ _).
Qed.

Lemma is_num_int a b : is_num (int a) b = (a =? b).
Proof.
  destruct (Z.eqb_spec a b) as [->|Hn]; [by apply is_num_spec|].
  destruct (is_num (int a) b) eqn:E; [|done]. apply is_num_spec in E. by assert (Qc_of a = Qc_of b) as ?%Qc_of_inj by (unfold int in E; congruence).
Qed.

Lemma int_inj a b : int a = int b -> a = b.
Proof. intros H. apply is_num_spec in H. rewrite is_num_int in H. by b2p. Qed.

Lemma plus1_int z : plus1 (int z) = int (z + 1).
Proof. unfold plus1, int. cbn. by rewrite Qc_of_plus. Qed.

Lemma minus1_int z : minus1 (int z) = int (z - 1).
Proof. unfold minus1, int. cbn. by rewrite Qc_of_minus. Qed.

Lemma next_months : forallb (fun m => is_num (next_month (int m)) (m mod 12 + 1)) (seqZ 1 12) = true.
Proof. vm_compute. reflexivity. Qed.

Lemma next_month_int m : 1 <= m <= 12 -> next_month (int m) = int (m mod 12 + 1).
Proof. intros Hm. apply is_num_spec. exact (range_check _ _ _ next_months m ltac:(lia)). Qed.

(** The boxes of a civil date, [m] from 0. *)
Definition int_parts (y m d : Z) : DateParts := Parts (int d) (int (m + 1)) (int y).

Lemma parts_of_civil t : parts_of (Some t) = let '(y, m, d) := civil t in int_parts y m d.
Proof. unfold parts_of, getDate, getMonth, getFullYear. by destruct (civil t) as [[y m] d]. Qed.

Lemma date_of_int_parts y m d : date_of_parts (int_parts y m d) = TimeClip (new_Date y m d).
Proof.
  unfold date_of_parts, int_parts. cbn [year month day]. rewrite minus1_int. cbn [to_number int].
  unfold int. cbn -[Qc_of truncate]. rewrite !truncate_int. do 2 f_equal. lia.
Qed.

(** A date of a year of three digits or more, as the boxes hold it. *)
Lemma date_of_civil y m d : 100 <= y <= 20000 -> valid_civil y m d = true ->
  date_of_parts (int_parts y m d) = Some (new_Date y m d) /\ parts_of (Some (new_Date y m d)) = int_parts y m d.
Proof.
  intros Hy Hv. split.
  - rewrite date_of_int_parts. apply TimeClip_day; [done|unfold valid_civil in Hv; b2p; lia|].
    pose proof (month_length_bounds y m). unfold valid_civil in Hv; b2p; lia.
  - rewrite parts_of_civil, new_Date_civil by (done || lia). done.
Qed.

(** Day 0 of the month after is the month's last. *)
Lemma last_day_civil y m d : 100 <= y <= 20000 -> 0 <= m < 12 ->
  last_day (int_parts y m d) = Some (month_length y m).
Proof.
  intros Hy Hm. unfold last_day, int_parts. cbn [year month].
  unfold int. cbn -[Qc_of truncate getDate]. rewrite !truncate_int.
  assert (getDate (new_Date y (m + 1) 0) = month_length y m) as Hl; [|rewrite TimeClip_day by lia; rewrite bind_Some_eq; by rewrite Hl].
  pose proof (month_end y m Hm) as He. pose proof (month_length_bounds y m).
  rewrite new_Date_day by lia.
  replace (MakeDay y (m + 1) 0) with (MakeDay y m (month_length y m)) by (unfold MakeDay in *; lia).
  unfold getDate. rewrite civil_midnight, MakeDay_civil; [done|].
  unfold valid_civil. rewrite !andb_true_iff, !Z.leb_le, Z.ltb_lt. lia.
Qed.

(** ** The day after and the day before *)

Lemma valid_civilP y m d : valid_civil y m d = true <-> 0 <= m < 12 /\ 1 <= d <= month_length y m.
Proof. unfold valid_civil. rewrite !andb_true_iff, !Z.leb_le, Z.ltb_lt. lia. Qed.

Lemma following_day y m d : valid_civil y m d = true ->
  civil_from_days (MakeDay y m d + 1) =
    if d =? month_length y m then (if m =? 11 then (y + 1, 0, 1) else (y, m + 1, 1)) else (y, m, d + 1).
Proof.
  rewrite valid_civilP. intros [Hm Hd]. destruct (Z.eqb_spec d (month_length y m)) as [E|E].
  - assert (MakeDay y m d + 1 = MakeDay y (m + 1) 1) as -> by (rewrite month_end, E by done; unfold MakeDay; lia).
    destruct (Z.eqb_spec m 11) as [->|].
    + change (11 + 1) with (0 + 12 * 1). rewrite MakeDay_year. apply MakeDay_civil, valid_civilP.
      pose proof (month_length_bounds (y + 1) 0). lia.
    + apply MakeDay_civil, valid_civilP. pose proof (month_length_bounds y (m + 1)). lia.
  - rewrite <- MakeDay_plus. apply MakeDay_civil, valid_civilP. lia.
Qed.

Lemma previous_day y m d : valid_civil y m d = true ->
  civil_from_days (MakeDay y m d - 1) =
    if d =? 1 then (if m =? 0 then (y - 1, 11, 31) else (y, m - 1, month_length y (m - 1))) else (y, m, d - 1).
Proof.
  rewrite valid_civilP. intros [Hm Hd]. destruct (Z.eqb_spec d 1) as [->|E].
  - destruct (Z.eqb_spec m 0) as [->|].
    + assert (MakeDay y 0 1 - 1 = MakeDay (y - 1) 11 31) as ->.
      { pose proof (month_end (y - 1) 11 ltac:(lia)) as H. change (11 + 1) with (0 + 12 * 1) in H.
        rewrite MakeDay_year in H. replace (y - 1 + 1) with y in H by lia. change (month_length (y - 1) 11) with 31 in H.
        unfold MakeDay in *. lia. }
      by apply MakeDay_civil, valid_civilP.
    + assert (MakeDay y m 1 - 1 = MakeDay y (m - 1) (month_length y (m - 1))) as ->.
      { pose proof (month_end y (m - 1) ltac:(lia)) as H. replace (m - 1 + 1) with m in H by lia.
        unfold MakeDay in *. lia. }
      apply MakeDay_civil, valid_civilP. pose proof (month_length_bounds y (m - 1)). lia.
  - unfold Z.sub at 1. rewrite <- MakeDay_plus. apply MakeDay_civil, valid_civilP. lia.
Qed.

Definition boxes_of (c : Z * Z * Z) : DateParts := let '(y, m, d) := c in int_parts y m d.

Lemma arrow_up_day y m d : 100 <= y <= 20000 -> valid_civil y m d = true ->
  arrow_up Day (int_parts y m d) = boxes_of (civil_from_days (MakeDay y m d + 1)).
Proof.
  intros Hy Hv. rewrite following_day by done. apply valid_civilP in Hv. unfold arrow_up.
  rewrite last_day_civil by lia. unfold int_parts. cbn [day month year set_part]. rewrite is_num_int.
  destruct (d =? _); [|by rewrite plus1_int].
  rewrite next_month_int, is_num_int, plus1_int by lia.
  destruct (Z.eqb_spec m 11) as [->|]; [done|].
  rewrite Z.mod_small by lia. destruct (Z.eqb_spec (m + 1 + 1) 1); [lia|done].
Qed.

Lemma arrow_down_day y m d : 101 <= y <= 20000 -> valid_civil y m d = true ->
  arrow_down Day (int_parts y m d) = boxes_of (civil_from_days (MakeDay y m d - 1)).
Proof.
  intros Hy Hv. rewrite previous_day by done. apply valid_civilP in Hv. unfold arrow_down, int_parts.
  cbn [day month year set_part]. rewrite !is_num_int, !minus1_int, is_num_int.
  destruct (d =? 1); [|done].
  destruct (Z.eqb_spec m 0) as [->|].
  - change (0 + 1 - 1 =? 0) with true. cbv iota zeta.
    assert (Parts (int d) (int 12) (int (y - 1)) = int_parts (y - 1) 11 d) as -> by done.
    by rewrite last_day_civil by lia.
  - destruct (Z.eqb_spec (m + 1 - 1) 0); [lia|].
    assert (Parts (int d) (int (m + 1 - 1)) (int y) = int_parts y (m - 1) d) as ->
      by (unfold int_parts; by replace (m + 1 - 1) with (m - 1 + 1) by lia).
    by rewrite last_day_civil by lia.
Qed.

Lemma boxes_of_day n : 100 <= (civil_from_days n).1.1 <= 20000 ->
  date_of_parts (boxes_of (civil_from_days n)) = Some (DAY * n) /\
  boxes_of (civil_from_days n) = parts_of (Some (DAY * n)).
Proof.
  intros Hy. rewrite parts_of_civil, civil_midnight. pose proof (civil_of_local (DAY * n)) as H. rewrite civil_midnight in H.
  destruct (civil_from_days n) as [[y m] d]. destruct H as [Hv Hd]. cbn [fst boxes_of] in *. split; [|done].
  rewrite (proj1 (date_of_civil y m d Hy Hv)). f_equal. rewrite new_Date_day, Hd by lia.
  f_equal. unfold day_of, DAY. euclid.
Qed.

(** The arrows on the day box are a calendar: for every date of a year from 101 to 19999,
    the up arrow calls [onChange] with midnight of the next day, the down arrow with
    midnight of the day before, over the ends of months, years and leap years, and the
    boxes show that day at once; both keep the key from the browser. *)
Theorem day_arrows t from to_ len : 101 <= getFullYear t <= 19999 ->
  let press k := handleKeyDown Day (KeyEvent k false false from to_ len) (parts_of (Some t)) in
  let next := startOfDay t + DAY in let previous := startOfDay t - DAY in
  press "ArrowUp" = Effect true (Some (Some next)) None (parts_of (Some next)) /\
  press "ArrowDown" = Effect true (Some (Some previous)) None (parts_of (Some previous)).
Proof.
  intros Hy press next previous. unfold press. rewrite parts_of_civil. unfold getFullYear in Hy.
  pose proof (civil_of_local t) as H. destruct (civil t) as [[y m] d]. destruct H as [Hv Hd]. cbn [fst] in Hy.
  assert (next = DAY * (MakeDay y m d + 1)) as -> by (subst next; rewrite Hd; unfold startOfDay; lia).
  assert (previous = DAY * (MakeDay y m d - 1)) as -> by (subst previous; rewrite Hd; unfold startOfDay; lia).
  change (handleKeyDown Day (KeyEvent "ArrowUp" false false from to_ len)) with
    (fun p => Effect true (Some (date_of_parts (arrow_up Day p))) None (arrow_up Day p)).
  change (handleKeyDown Day (KeyEvent "ArrowDown" false false from to_ len)) with
    (fun p => Effect true (Some (date_of_parts (arrow_down Day p))) None (arrow_down Day p)).
  cbv beta. rewrite arrow_up_day, arrow_down_day by (done || lia). split.
  - destruct (boxes_of_day (MakeDay y m d + 1)) as [-> ->]; [|done]. rewrite following_day by done. repeat case_match; cbn; lia.
  - destruct (boxes_of_day (MakeDay y m d - 1)) as [-> ->]; [|done]. rewrite previous_day by done. repeat case_match; cbn; lia.
Qed.

Lemma day_arrows_witness : let t := new_Date 2024 1 28 in
  let press k t := handleKeyDown Day (KeyEvent k false false 0 2 2) (parts_of (Some t)) in
  heard (press "ArrowUp" t) = Some (Some (new_Date 2024 1 29)) /\
  heard (press "ArrowDown" (new_Date 2023 0 1)) = Some (Some (new_Date 2022 11 31)).
Proof.
  cbv zeta. split.
  - destruct (day_arrows (new_Date 2024 1 28) 0 2 2 ltac:(vm_compute; done)) as [-> _]. vm_compute. reflexivity.
  - destruct (day_arrows (new_Date 2023 0 1) 0 2 2 ltac:(vm_compute; done)) as [_ ->]. vm_compute. reflexivity.
Defined.

Definition month_after (y m : Z) : Z * Z := if m =? 11 then (y + 1, 0) else (y, m + 1).

(** The up arrow on the month box keeps the day, and a day the next month lacks spills
    over: the boxes show the next month for a moment, but [onChange] gets a date in the
    month after it, which the owner hands back.  From 31 January the arrow goes to 2 or 3
    March; February is never reached. *)
Theorem month_arrow_spills t from to_ len : 100 <= getFullYear t <= 19999 ->
  let out := handleKeyDown Month (KeyEvent "ArrowUp" false false from to_ len) (parts_of (Some t)) in
  let d := getDate t in
  let next := month_after (getFullYear t) (getMonth t) in
  let over := d - month_length next.1 next.2 in
  boxes out = int_parts next.1 next.2 d /\
  exists t', heard out = Some (Some t') /\
    (getFullYear t', getMonth t', getDate t') =
      (if 0 <? over then (next.1, next.2 + 1, over) else (next.1, next.2, d)).
Proof.
  intros Hy out d next over. subst out d over next. unfold month_after, getFullYear, getMonth, getDate in *. rewrite parts_of_civil.
  pose proof (civil_of_local t) as H. destruct (civil t) as [[y0 m0] d]. destruct H as [Hv _]. cbn [fst snd] in *.
  change (handleKeyDown Month (KeyEvent "ArrowUp" false false from to_ len)) with
    (fun p => Effect true (Some (date_of_parts (arrow_up Month p))) None (arrow_up Month p)).
  cbv beta. cbn [boxes heard].
  assert (arrow_up Month (int_parts y0 m0 d) =
    if m0 =? 11 then int_parts (y0 + 1) 0 d else int_parts y0 (m0 + 1) d) as ->.
  { unfold arrow_up, int_parts. cbn [day month year set_part]. rewrite is_num_int, !plus1_int.
    destruct (Z.eqb_spec m0 11) as [->|]; [done|]. destruct (Z.eqb_spec (m0 + 1) 12); [lia|done]. }
  apply valid_civilP in Hv. pose proof (month_length_bounds y0 m0).
  assert (exists y m, (if m0 =? 11 then (y0 + 1, 0) else (y0, m0 + 1)) = (y, m) /\
    (if m0 =? 11 then int_parts (y0 + 1) 0 d else int_parts y0 (m0 + 1) d) = int_parts y m d /\
    100 <= y <= 20000 /\ 0 <= m < 12 /\ (m = 11 -> month_length y m = 31)) as (y & m & -> & -> & Hy' & Hm & H11).
  { destruct (Z.eqb_spec m0 11); [exists (y0 + 1), 0|exists y0, (m0 + 1)]; split_and!; try done || lia. by intros ->. }
  cbn [fst snd]. split; [done|]. pose proof (month_length_bounds y m).
  exists (new_Date y m d). rewrite date_of_int_parts, TimeClip_day by lia. split; [done|].
  rewrite <- !surjective_pairing, new_Date_day, civil_midnight by lia.
  destruct (Z.ltb_spec 0 (d - month_length y m)).
  - assert (MakeDay y m d = MakeDay y (m + 1) (d - month_length y m)) as ->
      by (pose proof (month_end y m Hm); unfold MakeDay in *; lia).
    apply MakeDay_civil, valid_civilP. pose proof (month_length_bounds y (m + 1)). lia.
  - apply MakeDay_civil, valid_civilP. lia.
Qed.

Lemma month_arrow_spills_witness :
  let out := handleKeyDown Month (KeyEvent "ArrowUp" false false 0 2 2) (parts_of (Some (new_Date 2025 0 31))) in
  exists t', heard out = Some (Some t') /\ (getFullYear t', getMonth t', getDate t') = (2025, 2, 3).
Proof.
  destruct (month_arrow_spills (new_Date 2025 0 31) 0 2 2 ltac:(vm_compute; done)) as [_ (t' & Hh & Hc)].
  exists t'. split; [exact Hh|]. rewrite Hc. vm_compute. reflexivity.
Defined.

(** ** Typing *)

Lemma validateDate_spec d f v : validateDate d f v = true <->
  let '(lo, hi) := match f with Day => (1, 31) | Month => (1, 12) | Year => (1000, 9999) end in
  outside lo hi v = false /\
  exists t, date_of_parts (set_part f (Num v) d) = Some t /\ parts_of (Some t) = set_part f (Num v) d.
Proof.
  unfold validateDate. destruct (match f with Day => _ | Month => _ | Year => _ end) as [lo hi].
  destruct (outside lo hi v); [split; [done|by intros []]|].
  generalize (set_part f (Num v) d). intros p. destruct (date_of_parts p) as [t|]; [|split; [done|by intros (_ & t & H & _)]].
  rewrite !andb_true_iff, !is_num_spec. split.
  - intros [[Hy Hm] Hd]. split; [done|]. exists t. split; [done|]. unfold parts_of. rewrite <- Hy, <- Hm, <- Hd. by destruct p.
  - intros (_ & t' & [= <-] & <-). done.
Qed.

(** Whatever is typed into a box, [onChange] is called only with a date that exists and
    whose parts are the numbers in the boxes, the typed one within its bounds: handing the
    date back leaves the boxes as typed.  Anything else changes the boxes alone. *)
Theorem typed_date_is_shown f text c now :
  let '(c', v) := handleInputChange f text c in
  shown c' = set_part f (typed text) (shown c) /\ initialDate c' = initialDate c /\
  match v with
  | Some v => (exists t, v = Some t /\ parts_of (Some t) = shown c') /\
              value_changed (Some v) now c' = c' /\ validateDate (shown c) f (Number_str text) = true
  | None => text = "" \/ validateDate (shown c) f (Number_str text) = false
  end.
Proof.
  unfold handleInputChange, typed. cbv zeta. destruct (String.eqb_spec text "") as [->|Ht]; [by auto|].
  split; [done|]. split; [done|]. destruct (validateDate _ _ _) eqn:E; [|by right].
  pose proof (proj1 (validateDate_spec _ _ _) E) as H. cbv zeta in H.
  destruct (match f with Day => _ | Month => _ | Year => _ end) as [lo hi]. destruct H as (_ & t & Ht' & Hp).
  rewrite Ht'. split; [by eauto|]. split; [|done]. unfold value_changed.
  assert (shown_parts (Some (Some t)) now = parts_of (Some t)) as -> by done. by rewrite Hp.
Qed.

(** Typing a whole number that completes a date the calendar has calls [onChange] with it:
    the day, the month from 1, or a year of four digits. *)
Theorem typed_number_heard y m d f n c :
  1000 <= y <= 9999 -> valid_civil y m d = true ->
  set_part f (int n) (shown c) = int_parts y m d -> 0 <= n ->
  (handleInputChange f (Z_to_string n) c).2 = Some (Some (new_Date y m d)).
Proof.
  intros Hy Hv Hp Hn. unfold handleInputChange, typed.
  destruct (String.eqb_spec (Z_to_string n) "") as [E|_].
  { destruct (Z_to_string_nonneg n Hn) as (Hs & _). by rewrite E in Hs. }
  rewrite Number_Z_to_string by done. fold (int n). cbv zeta. cbn [int].
  destruct (date_of_civil y m d ltac:(lia) Hv) as [Hd Hs].
  assert (validateDate (shown c) f (Some (Qc_of n)) = true) as ->; [|by rewrite Hp, Hd].
  apply validateDate_spec. fold (int n). rewrite Hp.
  assert (outside (match f with Day | Month => 1 | Year => 1000 end)
    (match f with Day => 31 | Month => 12 | Year => 9999 end) (Some (Qc_of n)) = false) as Ho.
  { apply valid_civilP in Hv. pose proof (month_length_bounds y m).
    assert (exists lo hi, lo <= n <= hi /\ lo = (match f with Day | Month => 1 | Year => 1000 end) /\
      hi = (match f with Day => 31 | Month => 12 | Year => 9999 end)) as (lo & hi & Hb & <- & <-).
    { destruct f; do 2 eexists; (split; [|done]); unfold int_parts in Hp; injection Hp; intros;
        repeat match goal with H : Qred (inject_Z ?a) = Qred (inject_Z ?b) |- _ =>
          assert (a = b) by (apply Qc_of_inj, Qc_is_canon; cbn; by rewrite H); clear H end; lia. }
    unfold outside. apply orb_false_iff. rewrite !negb_false_iff, !Qle_bool_iff. cbn. rewrite !Qred_correct.
    unfold inject_Z, Qle. cbn. lia. }
  destruct f; (split; [exact Ho|by eauto]).
Qed.

Lemma typed_number_heard_witness :
  (handleInputChange Day (Z_to_string 29) (mount (Some (Some (new_Date 2024 1 2))) 0)).2 = Some (Some (new_Date 2024 1 29)).
Proof. exact (typed_number_heard 2024 1 29 Day 29 (mount (Some (Some (new_Date 2024 1 2))) 0) ltac:(lia) eq_refl ltac:(vm_compute; reflexivity) ltac:(lia)). Defined.

Definition leaves (e : input_event) : bool := match e with Leave _ _ => true | _ => false end.

Lemma initialDate_kept now s e : leaves e = false -> initialDate (input_step now s e).2 = initialDate s.2.
Proof.
  destruct e as [f text|f text|f k|v]; try done; intros _; cbn [input_step].
  - unfold handleInputChange. by repeat case_match.
  - unfold hear. by case_match.
Qed.

(** The date the boxes fall back to is the one they first showed, or the one they had when
    a box was last left in order: typing, arrows and a new [value] of the owner do not
    touch it.  So a box left empty after them shows that old date, while the owner keeps
    the date it heard or set last, and is not told. *)
Theorem emptied_box_shows_old_date now s es f :
  forallb (fun e => negb (leaves e)) es = true ->
  let before := fold_left (input_step now) es s in
  let after := fold_left (input_step now) [Type_ f ""; Leave f ""] before in
  shown after.2 = initialDate s.2 /\ initialDate after.2 = initialDate s.2 /\ after.1 = before.1.
Proof.
  intros He before after.
  assert (initialDate before.2 = initialDate s.2) as <-.
  { subst before after. revert s He. induction es as [|e es IH]; intros s He; [done|]. cbn in *. b2p.
    rewrite IH by done. apply initialDate_kept. by destruct (leaves e). }
  subst after. by destruct before as [v c].
Qed.

Lemma emptied_box_shows_old_date_witness :
  let s := (Some (new_Date 2025 5 15), mount (Some (Some (new_Date 2025 5 15))) 0) in
  let after := fold_left (input_step 0) [Owner (Some (new_Date 2025 4 1)); Type_ Day ""; Leave Day ""] s in
  after.1 = Some (new_Date 2025 4 1) /\ shown after.2 = parts_of (Some (new_Date 2025 5 15)).
Proof.
  intros s after.
  destruct (emptied_box_shows_old_date 0 s [Owner (Some (new_Date 2025 4 1))] Day eq_refl) as (H1 & _ & H2).
  split; [exact H2|exact H1].
Defined.
