(* ===== verification/DateRange.v ===== *)
(** * The date range picker ([components/date-range-picker.tsx])

    Its state, its presets and what each of its controls does, with the effects React runs
    after a change; the callback [onUpdate] is the output of a step.  [new Date()] is the
    [now] of the step; what [new Date(text)] and [toLocaleDateString] make of a date are
    parameters.  Two dates compare as their local times do, which differs from the order of
    the moments only within the hour a clock change repeats.  No page of the repository
    mounts the picker; it is modelled for what it promises to one that would. *)
From S2P Require Import Prelude JsString JsNumber JsDate DateInput.

Record DateRange : Type := Range { from : jsdate; to : option jsdate }.
#[export] Instance DateRange_eq_dec : EqDecision DateRange.
Proof. solve_decision. Defined.
Record Preset : Type := P { name : string; label : string }.

Definition PRESETS : list Preset :=
  [P "today" "Today"; P "yesterday" "Yesterday"; P "last7" "Last 7 days"; P "last14" "Last 14 days";
   P "last30" "Last 30 days"; P "thisWeek" "This Week"; P "lastWeek" "Last Week";
   P "thisMonth" "This Month"; P "lastMonth" "Last Month"].

(** A property that is a [Date] or a text. *)
Inductive date_prop : Type := ADate (d : jsdate) | AText (s : string).
(** [p ? ... : ...] *)
Definition given (p : option date_prop) : option date_prop :=
  match p with Some (AText s) => if String.eqb s "" then None else p | _ => p end.

(** Dates as operands: [<] and [===] are false on an invalid one. *)
Definition before (a b : jsdate) : bool := match a, b with Some a, Some b => a <? b | _, _ => false end.
Definition same_time (a b : jsdate) : bool := match a, b with Some a, Some b => a =? b | _, _ => false end.

Definition startOfHours : Z -> Z := setHours 0 0 0 0.
Definition endOfHours : Z -> Z := setHours 23 59 59 999.
(** [new Date(d.getFullYear() + dy, d.getMonth(), d.getDate() + dd)]. *)
Definition shifted (dy dd : Z) (d : jsdate) : jsdate :=
  t ← d; TimeClip (new_Date (getFullYear t + dy) (getMonth t) (getDate t + dd)).

Definition getDateAdjustedForTimezone (p : date_prop) : jsdate :=
  match p with
  | AText s =>
      let part i := Qc_of <$> ((JsString.split "-" s !! i) ≫= parseInt10) in
      Date_of (part O) (part 1%nat ≫= fun m => Some (m - Qc_of 1)%Qc) (part 2%nat)
  | ADate d => d
  end.

(** ** Presets *)

(** [None]: the call throws. *)
Definition getPresetRange (presetName : string) (now : Z) : option (Z * Z) :=
  match List.find (fun p => String.eqb (name p) presetName) PRESETS with
  | None => None
  | Some preset =>
      let first := getDate now - getDay now in
      let n := name preset in
      Some (if String.eqb n "today" then (startOfHours now, endOfHours now)
      else if String.eqb n "yesterday" then
        (startOfHours (setDate (getDate now - 1) now), endOfHours (setDate (getDate now - 1) now))
      else if String.eqb n "last7" then (startOfHours (setDate (getDate now - 6) now), endOfHours now)
      else if String.eqb n "last14" then (startOfHours (setDate (getDate now - 13) now), endOfHours now)
      else if String.eqb n "last30" then (startOfHours (setDate (getDate now - 29) now), endOfHours now)
      else if String.eqb n "thisWeek" then (startOfHours (setDate first now), endOfHours now)
      else if String.eqb n "lastWeek" then
        (startOfHours (setDate (getDate now - 7 - getDay now) now),
         endOfHours (setDate (getDate now - getDay now - 1) now))
      else if String.eqb n "thisMonth" then (startOfHours (setDate 1 now), endOfHours now)
      else if String.eqb n "lastMonth" then
        (startOfHours (setDate 1 (setMonth (getMonth now - 1) now)), endOfHours (setDate 0 now))
      else (now, now))
  end.

(** The comparison of [checkPreset]: on the days alone; [range.to ?? 0] is the epoch, whose
    local time is [epoch]. *)
Definition matches_preset (epoch : Z) (range : DateRange) (now : Z) (preset : Preset) : bool :=
  match getPresetRange (name preset) now with
  | None => false
  | Some (pf, pt) =>
      same_time (startOfHours <$> from range) (Some (startOfHours pf)) &&
      same_time (startOfHours <$> (to range ?? Some epoch)) (Some (startOfHours pt))
  end.

Definition checkPreset (epoch : Z) (range : DateRange) (now : Z) : option string :=
  name <$> List.find (matches_preset epoch range now) PRESETS.

(** ** The component *)

Record props : Type := Props
  { initialDateFrom : option date_prop; initialDateTo : option date_prop;
    initialCompareFrom : option date_prop; initialCompareTo : option date_prop; showCompare : bool }.

Record picker : Type := Picker
  { isOpen : bool; range : DateRange; rangeCompare : option DateRange;
    openedRange : option DateRange; openedRangeCompare : option DateRange; selectedPreset : option string }.

Definition areRangesEqual (a b : option DateRange) : bool :=
  match a, b with
  | Some a, Some b =>
      same_time (from a) (from b) &&
      match to a, to b with Some x, Some y => same_time x y | _, _ => true end
  | None, None => true
  | _, _ => false
  end.

(** The default of [initialDateFrom] is the midnight of the render. *)
Definition from_prop (p : props) (now : Z) : date_prop := initialDateFrom p ?? ADate (Some (startOfHours now)).

(** The range shown at first and after [resetValues]. *)
Definition initial_range (p : props) (now : Z) : DateRange :=
  let f := getDateAdjustedForTimezone (from_prop p now) in
  Range f (Some (match given (initialDateTo p) with Some t => getDateAdjustedForTimezone t | None => f end)).

Definition reset_compare (p : props) : option DateRange :=
  match given (initialCompareFrom p) with
  | None => None
  | Some f =>
      Some (Range (getDateAdjustedForTimezone f)
        (Some (match given (initialCompareTo p) with
               | Some t => getDateAdjustedForTimezone t
               | None => getDateAdjustedForTimezone f
               end)))
  end.

Section Picker.
(** [new Date(text)], and the local time of moment 0. *)
Context (Date_parse : string -> jsdate) (epoch : Z).

Definition parsed_midnight (p : date_prop) : jsdate :=
  startOfHours <$> match p with ADate d => d | AText s => Date_parse s end.

Definition initial_compare (p : props) : option DateRange :=
  match given (initialCompareFrom p) with
  | None => None
  | Some f =>
      Some (Range (parsed_midnight f)
        (Some (match given (initialCompareTo p) with Some t => parsed_midnight t | None => parsed_midnight f end)))
  end.

(** [setRange] with the effect on [range]. *)
Definition setRange (r : DateRange) (now : Z) (s : picker) : picker :=
  Picker (isOpen s) r (rangeCompare s) (openedRange s) (openedRangeCompare s) (checkPreset epoch r now).
Definition setRangeCompare (r : option DateRange) (s : picker) : picker :=
  Picker (isOpen s) (range s) r (openedRange s) (openedRangeCompare s) (selectedPreset s).
(** [setIsOpen] with the effect on [isOpen], which React runs when the value changed. *)
Definition setIsOpen (open : bool) (s : picker) : picker :=
  if open && negb (isOpen s)
  then Picker open (range s) (rangeCompare s) (Some (range s)) (rangeCompare s) (selectedPreset s)
  else Picker open (range s) (rangeCompare s) (openedRange s) (openedRangeCompare s) (selectedPreset s).

Definition mount_picker (p : props) (now : Z) : picker :=
  let r := initial_range p now in Picker false r (initial_compare p) None None (checkPreset epoch r now).

Definition resetValues (p : props) (now : Z) (s : picker) : picker :=
  setRangeCompare (reset_compare p) (setRange (initial_range p now) now s).

Definition year_before (r : DateRange) : DateRange := Range (shifted (- 1) 0 (from r)) (shifted (- 1) 0 <$> to r).

(** [None] when the preset's name is unknown. *)
Definition setPreset (preset : string) (now : Z) (s : picker) : option picker :=
  match getPresetRange preset now with
  | None => None
  | Some (f, t) =>
      let r := Range (Some f) (Some (Some t)) in
      let s' := setRange r now s in
      Some (match rangeCompare s with Some _ => setRangeCompare (Some (year_before r)) s' | None => s' end)
  end.

(** The switch. *)
Definition compare_of (r : DateRange) : DateRange :=
  Range (shifted 0 (- 365) (from r)) (Some (match to r with Some t => shifted (- 1) 0 t | None => shifted (- 1) 0 (from r) end)).

Definition setCompareMode (checked : bool) (now : Z) (s : picker) : picker :=
  if checked then
    let s' := match to (range s) with
              | None => setRange (Range (from (range s)) (Some (from (range s)))) now s
              | Some _ => s
              end in
    setRangeCompare (Some (compare_of (range s))) s'
  else setRangeCompare None s.

(** The date boxes. *)
Definition setFrom (date : jsdate) (r : DateRange) : DateRange :=
  Range date (Some (match to r with None => date | Some t => if before t date then date else t end)).
Definition setTo (date : jsdate) (r : DateRange) : DateRange :=
  Range (if before date (from r) then date else from r) (Some date).

(** The calendar, and the two buttons. *)
Definition onSelect (value : option (option jsdate * option jsdate)) (now : Z) (s : picker) : picker :=
  match value with Some (Some f, t) => setRange (Range f t) now s | _ => s end.
Definition onCancel (p : props) (now : Z) (s : picker) : picker := resetValues p now (setIsOpen false s).
Definition onUpdateClick (s : picker) : picker * list (DateRange * option DateRange) :=
  (setIsOpen false s,
   if negb (areRangesEqual (Some (range s)) (openedRange s)) ||
      negb (areRangesEqual (rangeCompare s) (openedRangeCompare s))
   then [(range s, rangeCompare s)] else []).

Inductive picker_event : Type :=
| OnOpenChange (open : bool) | PresetChosen (preset : string) | CompareSwitched (checked : bool)
| FromTyped (date : jsdate) | ToTyped (date : jsdate)
| CompareFromTyped (date : jsdate) | CompareToTyped (date : jsdate)
| Selected (value : option (option jsdate * option jsdate))
| CancelClicked | UpdateClicked.

Definition picker_step (p : props) (now : Z) (s : picker) (e : picker_event)
    : option (picker * list (DateRange * option DateRange)) :=
  match e with
  | OnOpenChange open => Some (setIsOpen open (if open then s else resetValues p now s), [])
  | PresetChosen preset => s' ← setPreset preset now s; Some (s', [])
  | CompareSwitched checked => Some (setCompareMode checked now s, [])
  | FromTyped date => Some (setRange (setFrom date (range s)) now s, [])
  | ToTyped date => Some (setRange (setTo date (range s)) now s, [])
  | CompareFromTyped date =>
      Some (setRangeCompare (Some (match rangeCompare s with
                                   | Some r => setFrom date r
                                   | None => Range date (Some (Some now))
                                   end)) s, [])
  | CompareToTyped date => Some (setRangeCompare (setTo date <$> rangeCompare s) s, [])
  | Selected value =>
      Some (onSelect value now s, [])
  | CancelClicked => Some (onCancel p now s, [])
  | UpdateClicked => Some (onUpdateClick s)
  end.

(** Handlers in order, each at its time; what [onUpdate] got. *)
Fixpoint picker_run (p : props) (s : picker) (es : list (Z * picker_event))
    : option (picker * list (DateRange * option DateRange)) :=
  match es with
  | [] => Some (s, [])
  | (now, e) :: es =>
      '(s', us) ← picker_step p now s e; '(s'', us') ← picker_run p s' es; Some (s'', us ++ us')
  end.
End Picker.

(** ** What is shown *)

Section Shown.
Context (toLocaleDateString : string -> jsdate -> string).

Definition formatDate (date : jsdate) (locale : option string) : string :=
  toLocaleDateString (locale ?? "en-us") date.
Definition show_range (locale : string) (r : DateRange) : string :=
  formatDate (from r) (Some locale) +:+ match to r with Some t => " - " +:+ formatDate t (Some locale) | None => "" end.
(** The trigger: the range, and the one it is compared with. *)
Definition trigger (locale : string) (s : picker) : string * option string :=
  (show_range locale (range s), (fun r => "vs. " +:+ show_range locale r) <$> rangeCompare s).
End Shown.

Definition small_screen (innerWidth : Z) : bool := innerWidth <? 960.
Definition numberOfMonths (isSmallScreen : bool) : Z := if isSmallScreen then 1 else 2.
Definition defaultMonth (isSmallScreen : bool) (now : Z) : Z :=
  setMonth (getMonth now - if isSmallScreen then 0 else 1) now.
(** The preset buttons of a wide screen, the chosen one without pointer events. *)
Definition preset_buttons (isSmallScreen : bool) (s : picker) : list (string * bool) :=
  if isSmallScreen then []
  else map (fun p => (label p, match selectedPreset s with Some n => String.eqb n (name p) | None => false end)) PRESETS.

(** ** Days of a preset *)

Lemma startOfHours_day t : startOfHours t = DAY * day_of t.
Proof. unfold startOfHours, setHours, DAY. lia. Qed.
Lemma endOfHours_day t : endOfHours t = DAY * day_of t + (DAY - 1).
Proof. unfold endOfHours, setHours, DAY. lia. Qed.

Lemma setDate_day dt t : let '(y, m, d) := civil t in day_of (setDate dt t) = day_of t + (dt - d).
Proof.
  pose proof (civil_of_local t) as H. unfold setDate. destruct (civil t) as [[y m] d]. destruct H as [_ Hd].
  assert (MakeDay y m dt = day_of t + (dt - d)) as -> by (rewrite <- Hd; unfold MakeDay; lia).
  unfold day_of. euclid.
Qed.

Lemma setDate_any dt t : day_of (setDate dt t) = day_of t - getDate t + dt.
Proof. pose proof (setDate_day dt t) as H. unfold getDate. destruct (civil t) as [[y m] d]. cbn [snd]. lia. Qed.

Lemma setDate_of_month k t : day_of (setDate k t) = MakeDay (getFullYear t) (getMonth t) 1 + (k - 1).
Proof.
  pose proof (setDate_day k t) as H. pose proof (civil_of_local t) as Hc. unfold getFullYear, getMonth.
  destruct (civil t) as [[y m] d]. destruct Hc as [_ Hd]. cbn [fst snd]. rewrite H, <- Hd. unfold MakeDay. lia.
Qed.

(** The days, from the first to the last, a preset stands for on a day of the given number,
    week day (Sunday is 0) and date: the last days counted back from today, the week from
    its Sunday, the month from its first. *)
Definition preset_days (n : string) (today weekday date : Z) (length_before : Z) : option (Z * Z) :=
  if String.eqb n "today" then Some (today, today)
  else if String.eqb n "yesterday" then Some (today - 1, today - 1)
  else if String.eqb n "last7" then Some (today - 6, today)
  else if String.eqb n "last14" then Some (today - 13, today)
  else if String.eqb n "last30" then Some (today - 29, today)
  else if String.eqb n "thisWeek" then Some (today - weekday, today)
  else if String.eqb n "lastWeek" then Some (today - weekday - 7, today - weekday - 1)
  else if String.eqb n "thisMonth" then Some (today - date + 1, today)
  else if String.eqb n "lastMonth" then
    Some (today - date + 1 - (if date <=? length_before then length_before else 0), today - date)
  else None.

(** The length of the month before the one of [t]. *)
Definition length_before (t : Z) : Z :=
  if getMonth t =? 0 then 31 else month_length (getFullYear t) (getMonth t - 1).

Lemma month_before y m : 0 <= m < 12 -> exists y' m',
  (forall d, MakeDay y (m - 1) d = MakeDay y' m' d) /\ 0 <= m' < 12 /\
  (if m =? 0 then 31 else month_length y (m - 1)) = month_length y' m' /\
  MakeDay y m 1 = MakeDay y' m' 1 + month_length y' m'.
Proof.
  intros Hm. destruct (Z.eqb_spec m 0) as [->|].
  - exists (y - 1), 11. split_and!; [|lia|lia|done|].
    + intros d. change (0 - 1) with (11 + 12 * (-1)). by rewrite MakeDay_year.
    + pose proof (month_end (y - 1) 11 ltac:(lia)) as H. change (11 + 1) with (0 + 12 * 1) in H. rewrite MakeDay_year in H.
      by replace (y - 1 + 1) with y in H by lia.
  - exists y, (m - 1). split_and!; [done|lia|lia|done|]. pose proof (month_end y (m - 1) ltac:(lia)) as H.
    by replace (m - 1 + 1) with m in H by lia.
Qed.

Lemma lastMonth_start t : day_of (setDate 1 (setMonth (getMonth t - 1) t)) =
  day_of t - getDate t + 1 - (if getDate t <=? length_before t then length_before t else 0).
Proof.
  rewrite setDate_of_month. unfold setMonth, getDate, length_before, getMonth, getFullYear.
  pose proof (civil_of_local t) as H. destruct (civil t) as [[y m] d]. destruct H as [Hv Hd]. cbn [fst snd].
  apply valid_civilP in Hv. rewrite <- Hd.
  rewrite civil_local by (unfold DAY; apply Z.mod_pos_bound; lia).
  destruct (month_before y m ltac:(lia)) as (y' & m' & Hp & Hm & -> & H1). rewrite Hp.
  pose proof (month_length_bounds y' m'). pose proof (month_length_bounds y m).
  assert (MakeDay y m d = MakeDay y m 1 + d - 1) as Ed by (unfold MakeDay; lia).
  destruct (Z.leb_spec d (month_length y' m')).
  - rewrite MakeDay_civil by (apply valid_civilP; lia). cbn [fst snd]. lia.
  - assert (MakeDay y' m' d = MakeDay y m (d - month_length y' m')) as -> by (unfold MakeDay in *; lia).
    rewrite MakeDay_civil by (apply valid_civilP; lia). cbn [fst snd]. lia.
Qed.

Definition whole_days (ab : Z * Z) : Z * Z := (DAY * ab.1, DAY * ab.2 + (DAY - 1)).
Definition days_of_preset (n : string) (now : Z) : option (Z * Z) :=
  preset_days n (day_of now) (getDay now) (getDate now) (length_before now).

(** Every preset is the days [preset_days] has for it, from the first one's midnight to the
    last one's last millisecond, whatever the month, the year and the time of day; a name
    that is no preset's throws.  [preset_days] has one that is not the last month: on a
    date the month before does not have (29 to 31 March of a common year, say), [setMonth]
    spills over and "Last Month" starts with the current month. *)
Theorem presets_exact n now : getPresetRange n now = whole_days <$> days_of_preset n now.
Proof.
  unfold getPresetRange, days_of_preset.
  destruct (List.find _ PRESETS) as [p|] eqn:E.
  - apply List.find_some in E as [Hin Hn]. apply String.eqb_eq in Hn. subst n.
    assert (forall a b, whole_days <$> Some (a, b) = Some (DAY * a, DAY * b + (DAY - 1))) as Hw by done.
    repeat (destruct Hin as [<-|Hin]; [unfold name at 1; unfold preset_days, name; cbn [String.eqb Ascii.eqb Bool.eqb];
      rewrite ?Hw, !startOfHours_day, !endOfHours_day; f_equal; f_equal; f_equal;
      rewrite ?lastMonth_start, ?setDate_any; try f_equal; lia|]). done.
  - cbn [PRESETS List.find name] in E. unfold preset_days. rewrite !(String.eqb_sym n).
    repeat (destruct (String.eqb _ n); [done|]). done.
Qed.

Lemma presets_exact_march :
  getPresetRange "lastMonth" (new_Date 2025 2 31) = Some (new_Date 2025 2 1, new_Date 2025 2 1 - 1).
Proof. vm_compute. reflexivity. Qed.

Lemma length_before_pos t : 0 < length_before t.
Proof. unfold length_before. case_match; [lia|]. pose proof (month_length_bounds (getFullYear t) (getMonth t - 1)). lia. Qed.

Lemma getDate_pos t : 1 <= getDate t.
Proof.
  unfold getDate. pose proof (civil_of_local t) as H. destruct (civil t) as [[y m] d].
  destruct H as [Hv%valid_civilP _]. cbn [snd]. lia.
Qed.

(** A preset's range is in order, its start before its end, unless it is the last month on
    a date which that month does not have: then the range starts after it has ended. *)
Lemma preset_order n now f t : getPresetRange n now = Some (f, t) ->
  (f <= t <-> ~ (n = "lastMonth" /\ length_before now < getDate now)).
Proof.
  rewrite presets_exact. unfold days_of_preset, preset_days.
  pose proof (length_before_pos now). pose proof (getDate_pos now).
  assert (0 <= getDay now) by (apply Z.mod_pos_bound; lia).
  repeat match goal with
  | |- context [String.eqb n ?s] => destruct (String.eqb_spec n s) as [->|?];
      [intros [= <- <-]; cbn [whole_days fst snd]; unfold DAY|]
  end.
  all: try (split; [intros _ [? ?]; done|lia]).
  - destruct (Z.leb_spec (getDate now) (length_before now)); split; [intros ? [? ?]; lia|lia|lia|].
    intros Hn. exfalso. apply Hn. split; [done|lia].
  - done.
Qed.

(** ** Order *)

(** A range of dates that exist, in order where it is closed. *)
Definition ordered (r : DateRange) : Prop :=
  match from r, to r with
  | Some f, None => True
  | Some f, Some (Some t) => f <= t
  | _, _ => False
  end.

(** What the controls may hand in: dates that exist, from the calendar in order; and no
    "Last Month" on a date last month lacks. *)
Definition event_ok (now : Z) (e : picker_event) : Prop :=
  match e with
  | PresetChosen n => n ∈ map name PRESETS /\ ~ (n = "lastMonth" /\ length_before now < getDate now)
  | FromTyped date | ToTyped date => date <> None
  | Selected (Some (Some f, t)) => ordered (Range f t)
  | _ => True
  end.

Lemma setFrom_ordered date r : ordered r -> date <> None -> ordered (setFrom date r).
Proof.
  unfold ordered, setFrom. destruct date as [d|]; [|done]. cbn [from to].
  destruct (from r), (to r) as [[t|]|]; cbn; try done || lia. intros _ _. destruct (Z.ltb_spec t d); lia.
Qed.

Lemma setTo_ordered date r : ordered r -> date <> None -> ordered (setTo date r).
Proof.
  unfold ordered, setTo. destruct date as [d|]; [|done]. cbn [from to].
  destruct (from r) as [f|]; [|by destruct (to r)]. intros _ _. cbn. destruct (Z.ltb_spec d f); lia.
Qed.

Section Runs.
Context (epoch : Z) (p : props).
Context (Hp : forall now, ordered (initial_range p now)).

Lemma range_setPreset n now s s' : setPreset epoch n now s = Some s' ->
  exists f t, getPresetRange n now = Some (f, t) /\ range s' = Range (Some f) (Some (Some t)) /\
    selectedPreset s' = checkPreset epoch (range s') now /\
    rangeCompare s' = (if rangeCompare s then Some (year_before (range s')) else None).
Proof.
  unfold setPreset. destruct (getPresetRange n now) as [[f t]|]; [|done]. intros [= <-].
  exists f, t. split; [done|]. by destruct s as [? ? [?|] ? ? ?].
Qed.

Lemma range_setIsOpen open s : range (setIsOpen open s) = range s.
Proof. unfold setIsOpen. by case_match. Qed.

Lemma step_ordered now s e s' us : event_ok now e -> ordered (range s) ->
  picker_step epoch p now s e = Some (s', us) ->
  ordered (range s') /\ Forall (fun u => ordered u.1) us.
Proof.
  intros He Hr. destruct e as [open|n|checked|d|d|d|d|v| |]; cbn [picker_step].
  - intros [= <- <-]. split; [|constructor]. rewrite range_setIsOpen. by destruct open; [|apply Hp].
  - destruct (setPreset epoch n now s) as [s1|] eqn:E; [|done]. intros [= <- <-]. split; [|constructor].
    apply range_setPreset in E as (f & t & Hg & -> & _). unfold ordered. cbn [from to].
    by apply (preset_order n now f t Hg), He.
  - intros [= <- <-]. split; [|constructor]. unfold setCompareMode. destruct checked; [|done].
    destruct (to (range s)) as [t|] eqn:Et; [done|]. cbn. unfold ordered in *. rewrite Et in Hr. cbn. destruct (from (range s)); [lia|done].
  - intros [= <- <-]. split; [|constructor]. by apply setFrom_ordered.
  - intros [= <- <-]. split; [|constructor]. by apply setTo_ordered.
  - intros [= <- <-]. split; [done|constructor].
  - intros [= <- <-]. split; [done|constructor].
  - intros [= <- <-]. split; [|constructor]. by destruct v as [[[f|] t]|].
  - intros [= <- <-]. split; [apply Hp|constructor].
  - unfold onUpdateClick. intros [= <- <-]. rewrite range_setIsOpen. split; [done|]. case_match; [|constructor]. by constructor; [|constructor].
Qed.

Lemma step_defined now s e : event_ok now e -> exists s' us, picker_step epoch p now s e = Some (s', us).
Proof.
  intros He. destruct e as [open|n|checked|d|d|d|d|v| |]; cbn [picker_step]; try (by eauto).
  destruct He as [Hn _]. unfold setPreset. rewrite presets_exact.
  apply list_elem_of_In in Hn. repeat (destruct Hn as [<-|Hn]; [cbn; by eauto|]). done.
Qed.

Lemma run_ordered es : forall s, Forall (fun e => event_ok e.1 e.2) es -> ordered (range s) ->
  exists s' us, picker_run epoch p s es = Some (s', us) /\ ordered (range s') /\ Forall (fun u => ordered u.1) us.
Proof.
  induction es as [|[now e] es IH]; intros s Hes Hr; cbn [picker_run]; [by eauto|].
  apply Forall_cons in Hes as [He Hes]. destruct (step_defined now s e He) as (s1 & u1 & E1).
  destruct (step_ordered now s e s1 u1 He Hr E1) as [Hr1 Hu1].
  destruct (IH s1 Hes Hr1) as (s2 & u2 & E2 & Hr2 & Hu2). rewrite E1. cbn. rewrite E2. cbn.
  exists s2, (u1 ++ u2). split; [done|]. split; [done|]. by apply Forall_app.
Qed.
End Runs.

Definition no_props : props := Props None None None None true.

Lemma no_props_ordered now : ordered (initial_range no_props now).
Proof. cbn. lia. Qed.

(** "Last Month" on 31 March 2025 is a range that ends before it starts, and Update hands
    it on. *)
Lemma last_month_out_of_order :
  let at_ := new_Date 2025 2 31 in
  exists s us, picker_run 0 no_props (mount_picker (fun _ => None) 0 no_props at_)
    [(at_, OnOpenChange true); (at_, PresetChosen "lastMonth"); (at_, UpdateClicked)] =
      Some (s, [(Range (Some (new_Date 2025 2 1)) (Some (Some (new_Date 2025 2 1 - 1))), us)]).
Proof. cbv zeta. do 2 eexists. vm_compute. reflexivity. Qed.

(** ** Update *)

Lemma same_time_spec a b : same_time a b = true <-> exists t, a = Some t /\ b = Some t.
Proof.
  unfold same_time. destruct a as [x|], b as [y|]; try (split; [done|by intros (? & ? & ?)]).
  rewrite Z.eqb_eq. split; [intros ->; eauto|by intros (t & [= ->] & [= ->])].
Qed.

(** Closed ranges of dates that exist. *)
Definition closed (r : DateRange) : Prop := exists f t, r = Range (Some f) (Some (Some t)).

Lemma areRangesEqual_closed a b : closed a -> closed b -> areRangesEqual (Some a) (Some b) = true <-> a = b.
Proof.
  intros (f & t & ->) (f' & t' & ->). cbn. rewrite andb_true_iff, !Z.eqb_eq. split; [by intros [-> ->]|by intros [= -> ->]].
Qed.

Lemma opened_on_open epoch p now s : isOpen s = false ->
  exists s', picker_step epoch p now s (OnOpenChange true) = Some (s', []) /\ isOpen s' = true /\
    openedRange s' = Some (range s) /\ openedRangeCompare s' = rangeCompare s /\
    range s' = range s /\ rangeCompare s' = rangeCompare s.
Proof. intros Ho. cbn. unfold setIsOpen. rewrite Ho. eexists. by split. Qed.

Definition edits (e : picker_event) : bool :=
  match e with OnOpenChange _ | CancelClicked | UpdateClicked => false | _ => true end.

Lemma opened_kept epoch p now s e s' us : edits e = true -> picker_step epoch p now s e = Some (s', us) ->
  us = [] /\ openedRange s' = openedRange s /\ openedRangeCompare s' = openedRangeCompare s.
Proof.
  destruct e as [open|n|checked|d|d|d|d|v| |]; try done; intros _; cbn [picker_step].
  - unfold setPreset. destruct (getPresetRange n now) as [[f t]|]; [|done]. intros [= <- <-]. by destruct (rangeCompare s).
  - intros [= <- <-]. unfold setCompareMode. by destruct checked, (to (range s)).
  - by intros [= <- <-].
  - by intros [= <- <-].
  - by intros [= <- <-].
  - by intros [= <- <-].
  - intros [= <- <-]. by destruct v as [[[f|] t]|].
Qed.

Lemma opened_kept_run epoch p es : forall s s' us, forallb (fun e => edits e.2) es = true ->
  picker_run epoch p s es = Some (s', us) ->
  us = [] /\ openedRange s' = openedRange s /\ openedRangeCompare s' = openedRangeCompare s.
Proof.
  induction es as [|[now e] es IH]; intros s s' us He; cbn [picker_run]; [by intros [= <- <-]|].
  cbn in He. b2p. destruct (picker_step epoch p now s e) as [[s1 u1]|] eqn:E1; [|done]. cbn.
  destruct (picker_run epoch p s1 es) as [[s2 u2]|] eqn:E2; [|done]. cbn. intros [= <- <-].
  destruct (opened_kept epoch p now s e s1 u1 ltac:(done) E1) as (-> & H1 & H2).
  destruct (IH s1 s2 u2 ltac:(done) E2) as (-> & -> & ->). done.
Qed.

(** Update tells the owner exactly of a change since the picker was opened: whatever was
    edited in between, where the ranges shown then and now are closed, [onUpdate] is called
    once with both ranges if one of them differs, and not otherwise. *)
Theorem update_heard_iff_changed epoch p now now' s0 es s1 us1 :
  isOpen s0 = false -> forallb (fun e => edits e.2) es = true ->
  picker_run epoch p s0 ((now, OnOpenChange true) :: es) = Some (s1, us1) ->
  closed (range s0) -> closed (range s1) ->
  (forall r, r ∈ [rangeCompare s0; rangeCompare s1] -> match r with Some r => closed r | None => True end) ->
  exists s2 us2, picker_step epoch p now' s1 UpdateClicked = Some (s2, us2) /\ isOpen s2 = false /\
    us2 = (if decide (range s1 = range s0 /\ rangeCompare s1 = rangeCompare s0)
           then [] else [(range s1, rangeCompare s1)]) /\ us1 = [].
Proof.
  intros Ho He. cbn [picker_run]. destruct (opened_on_open epoch p now s0 Ho) as (s & -> & Hs & Hr & Hrc & _ & _). cbn.
  destruct (picker_run epoch p s es) as [[s' us]|] eqn:E; [|done]. cbn. intros [= <- <-] Hc0 Hc1 Hcc.
  destruct (opened_kept_run epoch p es s s' us He E) as (-> & H1 & H2).
  eexists _, (if negb (areRangesEqual (Some (range s')) (openedRange s')) ||
                 negb (areRangesEqual (rangeCompare s') (openedRangeCompare s')) then [(range s', rangeCompare s')] else []).
  split; [done|]. split; [by unfold setIsOpen|]. split; [|done]. rewrite H1, H2, Hr, Hrc.
  pose proof (areRangesEqual_closed _ _ Hc1 Hc0) as Hra.
  assert (areRangesEqual (rangeCompare s') (rangeCompare s0) = true <-> rangeCompare s' = rangeCompare s0) as Hcm.
  { pose proof (Hcc (rangeCompare s0) ltac:(by left)) as Ha. pose proof (Hcc (rangeCompare s') ltac:(right; by left)) as Hb.
    destruct (rangeCompare s') as [a|], (rangeCompare s0) as [b|]; try done.
    rewrite areRangesEqual_closed by done. split; [by intros ->|by intros [= ->]]. }
  destruct (decide _) as [[Ha Hb]|Hn].
  - apply Hra in Ha. apply Hcm in Hb. by rewrite Ha, Hb.
  - destruct (areRangesEqual (Some (range s')) _) eqn:Ea; [|done].
    destruct (areRangesEqual (rangeCompare s') _) eqn:Eb; [|done]. exfalso. apply Hn. by split; [apply Hra|apply Hcm].
Qed.

Lemma update_heard_iff_changed_witness :
  let s0 := mount_picker (fun _ => None) 0 no_props (new_Date 2025 5 18) in
  exists s1 s2, picker_run 0 no_props s0 [(0, OnOpenChange true); (0, ToTyped (Some (new_Date 2025 5 20)))] = Some (s1, []) /\
    picker_step 0 no_props 0 s1 UpdateClicked =
      Some (s2, [(Range (Some (new_Date 2025 5 18)) (Some (Some (new_Date 2025 5 20))), None)]).
Proof.
  intros s0. destruct (picker_run 0 no_props s0 [(0, OnOpenChange true); (0, ToTyped (Some (new_Date 2025 5 20)))])
    as [[s1 us1]|] eqn:E; [|vm_compute in E; discriminate E].
  assert (range s1 = Range (Some (new_Date 2025 5 18)) (Some (Some (new_Date 2025 5 20))) /\ rangeCompare s1 = None /\
          range s0 = Range (Some (new_Date 2025 5 18)) (Some (Some (new_Date 2025 5 18)))) as (E1 & E2 & E3)
    by (clear -E; vm_compute in E; injection E as <- <-; by vm_compute).
  destruct (update_heard_iff_changed 0 no_props 0 0 s0 [(0, ToTyped (Some (new_Date 2025 5 20)))] s1 us1)
    as (s2 & us2 & Hs & _ & Hu & ->); [reflexivity|reflexivity|exact E|by do 2 eexists|by do 2 eexists| |].
  - rewrite E2. intros r Hr. change (rangeCompare s0) with (@None DateRange) in Hr. set_unfold in Hr. by destruct Hr as [->|[->|[]]].
  - exists s1, s2. split; [done|]. rewrite Hs, Hu, E1, E2, E3.
    rewrite decide_False; [done|]. intros [H _]. vm_compute in H. discriminate H.
Defined.

(** A half-open choice is lost: with the same first day, a range the calendar has not
    closed yet counts as equal to any, so Update closes the picker and tells nobody. *)
Lemma half_open_not_heard epoch p now s f t :
  openedRange s = Some (Range (Some f) t) -> range s = Range (Some f) None ->
  openedRangeCompare s = None -> rangeCompare s = None ->
  exists s', picker_step epoch p now s UpdateClicked = Some (s', []).
Proof. intros H1 H2 H3 H4. cbn. unfold onUpdateClick. rewrite H1, H2, H3, H4. cbn. rewrite Z.eqb_refl. by eexists. Qed.

(** Dismissing forgets: whatever the picker shows, also a range Update has handed to the
    owner, closing it from outside or by Cancel goes back to the initial ranges and tells
    nobody. *)
Lemma dismiss_forgets epoch p now s e : e = OnOpenChange false \/ e = CancelClicked ->
  exists s', picker_step epoch p now s e = Some (s', []) /\
    range s' = initial_range p now /\ rangeCompare s' = reset_compare p /\ isOpen s' = false.
Proof.
  intros [-> | ->].
  - exists (setIsOpen false (resetValues epoch p now s)). by repeat split.
  - exists (resetValues epoch p now (setIsOpen false s)). by repeat split.
Qed.

(** ** Presets that light up *)

Lemma same_time_refl t : same_time (Some t) (Some t) = true.
Proof. cbn. apply Z.eqb_refl. Qed.

Lemma DAY_inj a b : DAY * a = DAY * b -> a = b.
Proof. unfold DAY. lia. Qed.

Lemma startOfHours_days a b : startOfHours (whole_days (a, b)).1 = DAY * a /\ startOfHours (whole_days (a, b)).2 = DAY * b.
Proof. rewrite !startOfHours_day. cbn [whole_days fst snd]. unfold day_of, DAY. split; f_equal; euclid. Qed.

(** A preset matches a preset's range when it stands for the same days. *)
Lemma matches_days epoch q n now f t : getPresetRange n now = Some (f, t) ->
  matches_preset epoch (Range (Some f) (Some (Some t))) now q = true <-> days_of_preset (name q) now = days_of_preset n now.
Proof.
  unfold matches_preset. rewrite !presets_exact. destruct (days_of_preset n now) as [[a b]|]; [|done].
  intros [= <- <-]. change (DAY * a) with (whole_days (a, b)).1. change (DAY * b + (DAY - 1)) with (whole_days (a, b)).2.
  destruct (days_of_preset (name q) now) as [[a' b']|]; [|done].
  change (whole_days <$> Some (a', b')) with (Some (whole_days (a', b'))). destruct (whole_days (a', b')) as [f' t'] eqn:E.
  assert (f' = (whole_days (a', b')).1 /\ t' = (whole_days (a', b')).2) as [-> ->] by by rewrite E.
  cbn [from to fmap option_fmap option_map default from_option id same_time].
  destruct (startOfHours_days a b) as [-> ->], (startOfHours_days a' b') as [-> ->].
  rewrite andb_true_iff, !Z.eqb_eq. split; [by intros [->%DAY_inj ->%DAY_inj]|by intros [= -> ->]].
Qed.

(** The button lit after a preset was chosen is the first one with the same days, which may
    be another than the one clicked ("Today" on a Sunday lights up for "This Week"); a
    comparison that was on becomes the same days a year before. *)
Theorem preset_lights_up epoch n now s s' : setPreset epoch n now s = Some s' ->
  exists q, selectedPreset s' = Some q /\ days_of_preset q now = days_of_preset n now /\
    rangeCompare s' = (if rangeCompare s then Some (year_before (range s')) else None).
Proof.
  intros H. apply range_setPreset in H as (f & t & Hg & Hr & Hs & Hc). rewrite Hs, Hr. unfold checkPreset.
  destruct (List.find _ PRESETS) as [q|] eqn:E.
  - apply List.find_some in E as [_ Hq]. exists (name q). split; [done|]. split; [by apply (matches_days epoch q n now f t Hg)|].
    by rewrite Hc, Hr.
  - exfalso. pose proof Hg as Hg'. unfold getPresetRange in Hg'.
    destruct (List.find (fun p => String.eqb (name p) n) PRESETS) as [q|] eqn:Eq; [|discriminate Hg'].
    apply List.find_some in Eq as [Hin Hn]. apply String.eqb_eq in Hn.
    pose proof (List.find_none _ _ E q Hin) as Hf. rewrite (proj2 (matches_days epoch q n now f t Hg)) in Hf; [done|by rewrite Hn].
Qed.

Lemma preset_lights_up_witness :
  let sunday := new_Date 2025 5 15 in
  exists s', setPreset 0 "thisWeek" sunday (mount_picker (fun _ => None) 0 no_props sunday) = Some s' /\
    selectedPreset s' = Some "today" /\ days_of_preset "today" sunday = days_of_preset "thisWeek" sunday.
Proof.
  intros sunday. destruct (setPreset 0 "thisWeek" sunday (mount_picker (fun _ => None) 0 no_props sunday)) as [s'|] eqn:E;
    [|vm_compute in E; discriminate E].
  exists s'. split; [done|].
  destruct (preset_lights_up 0 "thisWeek" sunday _ s' E) as (q & Hq & Hd & _).
  assert (selectedPreset s' = Some "today") as Ht by (vm_compute in E; injection E as <-; reflexivity).
  split; [done|]. rewrite Hq in Ht. injection Ht as ->. exact Hd.
Defined.

(** ** The comparison *)

Lemma year_lengths : forall_from (fun y => forall_from (fun m =>
  MakeDay y m 1 - MakeDay (y - 1) m 1 =? 365 + (if leap (if m <=? 1 then y - 1 else y) then 1 else 0)) 12 0) 400 0 = true.
Proof. vm_compute. reflexivity. Qed.

Lemma year_length y m d : 0 <= m < 12 ->
  MakeDay y m d - MakeDay (y - 1) m d = 365 + (if leap (if m <=? 1 then y - 1 else y) then 1 else 0).
Proof.
  intros Hm. assert (MakeDay y m d - MakeDay (y - 1) m d = MakeDay y m 1 - MakeDay (y - 1) m 1) as -> by (unfold MakeDay; lia).
  pose proof (forall_from_spec _ _ _ year_lengths (y mod 400) ltac:(pose proof (Z.mod_pos_bound y 400); lia)) as H.
  apply forall_from_spec with (x := m) in H; [|lia]. b2p.
  replace y with (y mod 400 + 400 * (y / 400)) by (pose proof (Z.div_mod y 400); lia).
  replace (y mod 400 + 400 * (y / 400) - 1) with (y mod 400 - 1 + 400 * (y / 400)) by lia.
  rewrite !MakeDay_400.
  assert (leap (if m <=? 1 then y mod 400 - 1 + 400 * (y / 400) else y mod 400 + 400 * (y / 400)) =
          leap (if m <=? 1 then y mod 400 - 1 else y mod 400)) as -> by (destruct (m <=? 1); apply leap_400).
  lia.
Qed.

(** Switching the comparison on for one day compares it with the day 365 days before up to
    its date a year before.  Those are the same day, unless a 29 February lies in the year
    between (for a date from March on, of the same year; before, of the year before): then
    the comparison starts a day after it ends. *)
Theorem comparison_of_a_day y m d : 101 <= y <= 19999 -> valid_civil y m d = true ->
  let today := Some (new_Date y m d) in
  let leaps := leap (if m <=? 1 then y - 1 else y) in
  exists f t, compare_of (Range today (Some today)) = Range (Some f) (Some (Some t)) /\
    f = t + (if leaps then DAY else 0).
Proof.
  intros Hy Hv today leaps. pose proof (new_Date_civil y m d ltac:(lia) Hv) as Hc. apply valid_civilP in Hv.
  pose proof (month_length_bounds y m).
  exists (new_Date y m (d - 365)), (new_Date (y - 1) m d). split.
  - unfold compare_of, today, shifted. cbn [from to mbind option_bind]. unfold getFullYear, getMonth, getDate. rewrite Hc. cbn [fst snd].
    rewrite Z.add_0_r, Z.add_0_r. rewrite !TimeClip_day by lia. done.
  - rewrite !new_Date_day by lia. pose proof (year_length y m d ltac:(lia)) as Hl.
    assert (MakeDay y m (d - 365) = MakeDay y m d - 365) as -> by (unfold MakeDay; lia).
    subst leaps. unfold DAY. case_match; lia.
Qed.

Lemma comparison_of_a_day_witness :
  exists f t, compare_of (Range (Some (new_Date 2024 2 1)) (Some (Some (new_Date 2024 2 1)))) = Range (Some f) (Some (Some t)) /\ f = t + DAY.
Proof. exact (comparison_of_a_day 2024 2 1 ltac:(lia) eq_refl). Defined.

(** ** The order of the ranges, in a run *)

(** Switching the comparison on when the range is one day. *)
Lemma compare_switched epoch p now s y m d : 101 <= y <= 19999 -> valid_civil y m d = true ->
  range s = Range (Some (new_Date y m d)) (Some (Some (new_Date y m d))) ->
  exists s' f t, picker_step epoch p now s (CompareSwitched true) = Some (s', []) /\
    range s' = range s /\ rangeCompare s' = Some (Range (Some f) (Some (Some t))) /\
    f = t + (if leap (if m <=? 1 then y - 1 else y) then DAY else 0).
Proof.
  intros Hy Hv Hr. destruct (comparison_of_a_day y m d Hy Hv) as (f & t & Hc & Hf).
  cbn [picker_step setCompareMode]. rewrite Hr. cbn [to]. rewrite Hc. eexists _, f, t. by split_and!.
Qed.

(** C38: the ranges of the picker, for initial dates in order, through any events at any times
    that hand in dates that exist (from the calendar in order). No handler throws. The main
    range, and the main range of every report to [onUpdate], starts before it ends or has no
    end yet, provided "Last Month" was not chosen on a date last month lacks; of all the
    presets this is the one that breaks the order, on those dates. The comparison range is
    not kept in order: switched on for a single day it starts with the day 365 days before
    and ends with the date a year before, which is a day earlier when a 29 February lies
    between. *)
Theorem range_stays_in_order Date_parse epoch p now0 es :
  (forall now, ordered (initial_range p now)) -> Forall (fun e => event_ok e.1 e.2) es ->
  exists s us, picker_run epoch p (mount_picker Date_parse epoch p now0) es = Some (s, us) /\
    ordered (range s) /\ Forall (fun u => ordered u.1) us /\
    (forall now n, n ∈ map name PRESETS -> exists s', picker_step epoch p now s (PresetChosen n) = Some (s', []) /\
       (ordered (range s') <-> ~ (n = "lastMonth" /\ length_before now < getDate now))) /\
    (forall now y m d, 101 <= y <= 19999 -> valid_civil y m d = true ->
       range s = Range (Some (new_Date y m d)) (Some (Some (new_Date y m d))) ->
       exists s' f t, picker_step epoch p now s (CompareSwitched true) = Some (s', []) /\
         range s' = range s /\ rangeCompare s' = Some (Range (Some f) (Some (Some t))) /\
         f = t + (if leap (if m <=? 1 then y - 1 else y) then DAY else 0)).
Proof.
  intros Hp Hes. destruct (run_ordered epoch p Hp es (mount_picker Date_parse epoch p now0) Hes (Hp now0))
    as (s & us & E & Hs & Hus).
  exists s, us. split; [exact E|]. split; [exact Hs|]. split; [exact Hus|].
  split; [|intros now y m d; exact (compare_switched epoch p now s y m d)].
  intros now n Hn. cbn [picker_step]. unfold setPreset. pose proof Hn as Hin. rewrite presets_exact.
  destruct (days_of_preset n now) as [[f t]|] eqn:Ed.
  - cbn [fmap option_fmap option_map mbind option_bind]. destruct (whole_days (f, t)) as [f' t'] eqn:Ew.
    eexists. split; [reflexivity|]. assert (forall r c, range (match c with Some _ => setRangeCompare (Some (year_before r)) (setRange epoch r now s)
      | None => setRange epoch r now s end) = r) as -> by (by intros r [?|]).
    apply preset_order. by rewrite presets_exact, Ed, <- Ew.
  - exfalso. unfold days_of_preset in Ed. apply list_elem_of_In in Hin. repeat (destruct Hin as [<-|Hin]; [discriminate Ed|]). done.
Qed.

Lemma range_stays_in_order_witness :
  let at_ := new_Date 2025 5 18 in
  let es := [(at_, OnOpenChange true); (at_, PresetChosen "lastWeek"); (at_, ToTyped (Some (new_Date 2025 4 1)));
             (at_, UpdateClicked)] in
  exists s us, picker_run 0 no_props (mount_picker (fun _ => None) 0 no_props at_) es = Some (s, us) /\
    ordered (range s) /\ Forall (fun u => ordered u.1) us.
Proof.
  intros at_ es.
  destruct (range_stays_in_order (fun _ => None) 0 no_props at_ es no_props_ordered) as (s & us & H1 & H2 & H3 & _).
  - apply Forall_cons; split; [exact I|]. apply Forall_cons; split; [|apply Forall_cons; split; [intros H; discriminate H|]].
    + split; [apply list_elem_of_In; do 6 right; by left|intros [H _]; discriminate H].
    + apply Forall_cons; split; [exact I|]. apply Forall_nil. exact I.
  - exists s, us. split; [exact H1|]. split; [exact H2|exact H3].
Defined.
