(* ===== verification/Register.v ===== *)
(** * The public registration form ([features/public-register/index.tsx])

    The form a visitor applies with, without an account: the service, a package for PPPoE,
    the contact data; what is asked for before anything is sent, what is sent, and what the
    answer does.  The packages and the answers are the backend's; the request itself is
    [PublicRegister.submitRegistration] of PortalApi. *)
From S2P Require Import Prelude JsString JsValue JsNumber Http ApiErrors PortalApi Hooks Ui.

Inductive ServiceType : Type := pppoe | hotspot.
#[export] Instance ServiceType_eq_dec : EqDecision ServiceType.
Proof. solve_decision. Defined.
Definition service_name (s : ServiceType) : string := match s with pppoe => "pppoe" | hotspot => "hotspot" end.

Record PublicPackage : Type := Package
  { id : Z; service_type : ServiceType; name : string; price : Z; rate_limit : string; description : string;
    device_id : Z }.

(** ** State *)

Record texts : Type := Texts { fullName : string; phone : string; address : string; area : string; notes : string }.

(** [packages] is [packagesQuery.data]; [isPending] is the mutation's. *)
Record register : Type := Register
  { packages : option (list PublicPackage); service : ServiceType; packageId : option Z; contact : texts;
    doneId : option jval; isPending : bool }.

Definition initial : register := Register None pppoe None (Texts "" "" "" "" "") None false.

Definition all_packages (s : register) : list PublicPackage := packages s ?? [].
Definition pppoePackages (s : register) : list PublicPackage :=
  List.filter (fun p => bool_decide (service_type p = pppoe)) (all_packages s).
Definition selectedPkg (s : register) : option PublicPackage :=
  List.find (fun p => match packageId s with Some i => id p =? i | None => false end) (all_packages s).

(** ** Submitting *)

Definition blank (s : string) : bool := String.eqb (trim s) "".
(** [s.trim() || undefined] *)
Definition optional (s : string) : jval := if blank s then JUndef else JStr (trim s).

Definition payload (s : register) : jval :=
  let c := contact s in
  JObj ([("full_name", JStr (trim (fullName c))); ("phone", JStr (trim (phone c)));
         ("address", JStr (trim (address c))); ("area", optional (area c)); ("notes", optional (notes c));
         ("service_type", JStr (service_name (service s)))] ++
        match service s, selectedPkg s with
        | pppoe, Some p => [("ppp_profile_id", JNum (id p)); ("device_id", JNum (device_id p))]
        | _, _ => []
        end).

Inductive output : Type := Show (e : effect) | Request (m : mutation_hook) | OnSuccess (id : jval).

Definition complaint (s : register) : option string :=
  let c := contact s in
  if blank (fullName c) || blank (phone c) || blank (address c) then Some "Nama, nomor HP, dan alamat wajib diisi"
  else if bool_decide (service s = pppoe) && (0 <? Z.of_nat (length (pppoePackages s))) &&
          match selectedPkg s with None => true | Some _ => false end
       then Some "Silakan pilih paket PPPoE terlebih dahulu"
  else None.

Definition with_pending (b : bool) (s : register) : register :=
  Register (packages s) (service s) (packageId s) (contact s) (doneId s) b.

(** A disabled button submits no form. *)
Definition submit (s : register) : register * list output :=
  if isPending s then (s, [])
  else match complaint s with
       | Some m => (s, [Show (Toast error m JUndef)])
       | None => (with_pending true s, [Request (M_PublicRegister_SubmitRegistration (payload s))])
       end.

(** [useState<number | null>] given what the answer has. *)
Definition state_of (v : jval) : option jval := match v with JNull => None | _ => Some v end.

Definition settle (a : answer) (s : register) : register * list output :=
  match a with
  | Ok res =>
      (Register (packages s) (service s) (packageId s) (contact s) (state_of (get "id" res)) false,
       [OnSuccess (get "id" res)])
  | Throw e => (with_pending false s, [Show (Toast error "Gagal mengirim pendaftaran" (parseAPIError e))])
  end.

(** ** Events *)

Inductive field : Type := FullName | Phone | Address | Area | Notes.
Definition typed (f : field) (v : string) (c : texts) : texts :=
  let '(Texts n p a r o) := c in
  match f with
  | FullName => Texts v p a r o | Phone => Texts n v a r o | Address => Texts n p v r o
  | Area => Texts n p a v o | Notes => Texts n p a r v
  end.

Definition selectService (t : ServiceType) (s : register) : register :=
  Register (packages s) t None (contact s) (doneId s) (isPending s).

Inductive event : Type :=
| Loaded (l : list PublicPackage) | ServiceClicked (t : ServiceType) | PackageClicked (i : Z)
| Typed (f : field) (v : string) | Submitted | Answered (a : answer).

(** Once registered, the form is gone. *)
Definition step (e : event) (s : register) : register * list output :=
  match e, doneId s with
  | Loaded l, _ => (Register (Some l) (service s) (packageId s) (contact s) (doneId s) (isPending s), [])
  | _, Some _ => (s, [])
  | ServiceClicked t, None => (selectService t s, [])
  | PackageClicked i, None =>
      if bool_decide (service s = pppoe) && existsb (fun p => id p =? i) (pppoePackages s)
      then (Register (packages s) (service s) (Some i) (contact s) None (isPending s), [])
      else (s, [])
  | Typed f v, None =>
      (Register (packages s) (service s) (packageId s) (typed f v (contact s)) None (isPending s), [])
  | Submitted, None => submit s
  | Answered a, None => if isPending s then settle a s else (s, [])
  end.

Fixpoint run (es : list event) (s : register) : register * list output :=
  match es with
  | [] => (s, [])
  | e :: es => let '(s1, o1) := step e s in let '(s2, o2) := run es s1 in (s2, o1 ++ o2)
  end.

(** ** What is shown *)

Inductive package_section : Type :=
| NoSection | Loading | NoPackages | Cards (l : list (PublicPackage * bool)).

(** The cards, the chosen one marked; [isLoading] is that nothing was fetched yet. *)
Definition package_cards (isLoading : bool) (s : register) : package_section :=
  match service s with
  | hotspot => NoSection
  | pppoe =>
      if isLoading then Loading
      else match pppoePackages s with
           | [] => NoPackages
           | l => Cards (map (fun p => (p, match packageId s with Some i => id p =? i | None => false end)) l)
           end
  end.

Section Cards.
Context (formatIDR : Z -> string).
(** The texts of [PackageCard]. *)
Definition card_texts (p : PublicPackage) : list string :=
  [name p; formatIDR (price p) +:+ "/bln"] ++
  (if String.eqb (rate_limit p) "" then [] else [rate_limit p]) ++
  (if String.eqb (description p) "" then [] else [description p]).
End Cards.

Definition success_text (i : jval) : string :=
  "Terima kasih. Pengajuan Anda (No. #" +:+ js_String i +:+ ") sedang ditinjau admin. Kami akan menghubungi Anda via WhatsApp untuk penjadwalan pemasangan.".

Inductive panel : Type := SuccessPanel (i : jval) | Form.
Definition RegisterForm_shows (s : register) : panel := match doneId s with Some i => SuccessPanel i | None => Form end.

(** The page around the form keeps the id its [onSuccess] heard. *)
Fixpoint page_doneId (heard : option jval) (os : list output) : option jval :=
  match os with [] => heard | OnSuccess i :: os => page_doneId (state_of i) os | _ :: os => page_doneId heard os end.
Definition PublicRegister_shows (os : list output) : panel :=
  match page_doneId None os with Some i => SuccessPanel i | None => Form end.

(** ** Theorems *)

Definition reqs (o : list output) : list jval :=
  omap (fun x => match x with Request (M_PublicRegister_SubmitRegistration v) => Some v | _ => None end) o.
Lemma reqs_cat o o' : reqs (o ++ o') = reqs o ++ reqs o'.
Proof. apply omap_app. Qed.

Lemma run_cat es es' s : run (es ++ es') s = ((run es' (run es s).1).1, (run es s).2 ++ (run es' (run es s).1).2).
Proof.
  revert s. induction es as [|e es IH]; intros s; cbn [run app fst snd].
  - by destruct (run es' s).
  - destruct (step e s) as [s1 o1]. rewrite IH. destruct (run es s1) as [s2 o2]. cbn. by rewrite app_assoc.
Qed.

Lemma run_last es e s : run (es ++ [e]) s = ((step e (run es s).1).1, (run es s).2 ++ (step e (run es s).1).2).
Proof. rewrite run_cat. cbn [run]. destruct (step e (run es s).1). by rewrite app_nil_r. Qed.

(** Only a form submitted in order sends, one request. *)
Lemma form_sends e s v : v ∈ reqs (step e s).2 ->
  e = Submitted /\ doneId s = None /\ isPending s = false /\ complaint s = None /\
  reqs (step e s).2 = [payload s] /\ v = payload s.
Proof.
  unfold step. destruct e, (doneId s); try (by rewrite elem_of_nil); cbn.
  - case_match; by rewrite elem_of_nil.
  - unfold submit. destruct (isPending s); [by rewrite elem_of_nil|]. destruct (complaint s); cbn; [by rewrite elem_of_nil|].
    by intros ->%list_elem_of_singleton.
  - destruct (isPending s); cbn; [|by rewrite elem_of_nil]. destruct a; by rewrite elem_of_nil.
Qed.

(** The id of a PPPoE package whose card was on the screen and was clicked, after the last
    click on a service. *)
Definition clicked (es : list event) (i : Z) : Prop :=
  exists es1 es2, es = es1 ++ PackageClicked i :: es2 /\ (forall t, ServiceClicked t ∉ es2) /\
    let s := (run es1 initial).1 in service s = pppoe /\ exists p, p ∈ pppoePackages s /\ id p = i.

(** What [List.find] finds is the first element of its kind. *)
Lemma find_first {A} (f : A -> bool) l x : List.find f l = Some x ->
  exists l1 l2, l = l1 ++ x :: l2 /\ f x = true /\ forall y, y ∈ l1 -> f y = false.
Proof.
  induction l as [|y l IH]; [done|]. cbn. destruct (f y) eqn:E.
  - intros [= ->]. exists [], l. split_and!; [done|done|by intros y ?%elem_of_nil].
  - intros (l1 & l2 & -> & Hx & H)%IH. exists (y :: l1), l2. split_and!; [done|done|].
    by intros z [->|Hz]%elem_of_cons; [|apply H].
Qed.

Lemma doneId_kept e s : doneId (step e s).1 = None -> doneId s = None.
Proof. unfold step. destruct e; destruct (doneId s) eqn:E; cbn; try done; by rewrite E. Qed.

Lemma packageId_clicked es i :
  doneId (run es initial).1 = None -> packageId (run es initial).1 = Some i -> clicked es i.
Proof.
  induction es as [|e es IH] using rev_ind; [done|]. rewrite run_last. cbn [fst]. set (s := (run es initial).1) in *.
  intros Hd Hi. pose proof (doneId_kept e s Hd) as Hd0.
  assert ((e = PackageClicked i /\ service s = pppoe /\ exists p, p ∈ pppoePackages s /\ id p = i) \/
          (packageId s = Some i /\ forall t, e <> ServiceClicked t)) as [[-> Hp]|[Hs Hn]].
  { unfold step in Hi. rewrite Hd0 in Hi. destruct e; cbn in Hi; try (right; split; [done|by intros]); try done.
    - destruct (_ && _) eqn:E; cbn in Hi; [left|right; by split]. injection Hi as ->.
      apply andb_true_iff in E as [E1%bool_decide_eq_true (p & Hp & He)%existsb_exists]. split; [done|]. split; [done|].
      exists p. split; [by apply list_elem_of_In|by b2p].
    - unfold submit in Hi. destruct (isPending s), (complaint s); cbn in Hi; right; by split.
    - destruct (isPending s); cbn in Hi; [destruct a; cbn in Hi|]; right; by split. }
  - exists es, []. split; [done|]. split; [intros t; apply not_elem_of_nil|exact Hp].
  - destruct (IH Hd0 Hs) as (es1 & es2 & -> & H2 & H3). exists es1, (es2 ++ [e]). split; [by rewrite <- app_assoc|].
    split; [|done]. intros t [H|H%list_elem_of_singleton]%elem_of_app; [by apply (H2 t)|by apply (Hn t)].
Qed.

(** C40: every registration sent has a name, a phone number and an address that are not blank,
    cut at both ends. For hotspot it names no package. For PPPoE it names the id of a PPPoE
    package whose card the visitor clicked after the last change of service, with the
    router of the first package, of either service, listed under that id at the moment of
    sending (the list may have been fetched again since the click); or it names none, only
    where no PPPoE package was listed. *)
Theorem registration_complete es e v :
  let s := (run es initial).1 in
  v ∈ reqs (step e s).2 ->
  e = Submitted /\
  (forall k f, (k, f) ∈ [("full_name", fullName); ("phone", phone); ("address", address)] ->
     get k v = JStr (trim (f (contact s))) /\ trim (f (contact s)) <> "") /\
  match service s with
  | hotspot => get "ppp_profile_id" v = JUndef /\ get "device_id" v = JUndef
  | pppoe =>
      (exists i p, clicked es i /\
         (exists l1 l2, all_packages s = l1 ++ p :: l2 /\ id p = i /\ forall q, q ∈ l1 -> id q <> i) /\
         get "ppp_profile_id" v = JNum i /\ get "device_id" v = JNum (device_id p)) \/
      (pppoePackages s = [] /\ get "ppp_profile_id" v = JUndef /\ get "device_id" v = JUndef)
  end.
Proof.
  intros s Hv. destruct (form_sends e s v Hv) as (-> & Hd & _ & Hc & _ & ->). split; [done|].
  unfold complaint in Hc. destruct (blank (fullName _) || blank (phone _) || blank (address _)) eqn:Eb; [done|].
  unfold blank in Eb. b2p. split.
  - intros k f Hk. apply list_elem_of_In in Hk. destruct Hk as [[= <- <-]|[[= <- <-]|[[= <- <-]|[]]]]; (split; [|assumption]);
    unfold payload; destruct (service s), (selectedPkg s); reflexivity.
  - assert (forall i, packageId s = Some i -> clicked es i) as Hcl by (intros i; by apply packageId_clicked).
    unfold payload. destruct (service s); [|by split].
    destruct (selectedPkg s) as [p|] eqn:Ep.
    + left. unfold selectedPkg in Ep. apply find_first in Ep as (l1 & l2 & Hl & Hi & Hb).
      destruct (packageId s) as [i|] eqn:Ei; [|done]. b2p. exists (id p), p. split; [apply Hcl; congruence|]. split; [|done].
      exists l1, l2. split_and!; [done|done|]. intros q Hq. specialize (Hb q Hq). apply Z.eqb_neq in Hb. congruence.
    + right. split; [|by split]. destruct (pppoePackages s) as [|q l]; [done|]. exfalso. by rewrite bool_decide_eq_true_2 in Hc.
Qed.

Lemma run_done es s i : doneId s = Some i -> doneId (run es s).1 = Some i /\ (run es s).2 = [].
Proof.
  revert s. induction es as [|e es IH]; intros s Hd; [done|]. cbn [run].
  assert (doneId (step e s).1 = Some i /\ (step e s).2 = []) as [H1 H2] by (unfold step; rewrite Hd; by destruct e).
  destruct (step e s) as [s1 o1]. cbn in H1, H2. subst o1. destruct (IH s1 H1) as [H3 H4]. by destruct (run es s1).
Qed.

Lemma page_last heard os i : page_doneId heard (os ++ [OnSuccess i]) = state_of i.
Proof. revert heard. induction os as [|o os IH]; intros heard; [done|]. destruct o; apply IH. Qed.

(** Once a registration is accepted under an id that is no null, nothing more is sent,
    whatever follows, and the form and the page around it show that id. *)
Theorem registered_once es res es' :
  let s := (run es initial).1 in
  isPending s = true -> doneId s = None -> get "id" res <> JNull ->
  let out := run (es ++ Answered (Ok res) :: es') initial in
  reqs out.2 = reqs (run es initial).2 /\
  RegisterForm_shows out.1 = SuccessPanel (get "id" res) /\ PublicRegister_shows out.2 = SuccessPanel (get "id" res).
Proof.
  intros s Hp Hd Hr out. subst out. rewrite run_cat. cbn [run]. fold s.
  assert (step (Answered (Ok res)) s =
    (Register (packages s) (service s) (packageId s) (contact s) (Some (get "id" res)) false, [OnSuccess (get "id" res)])) as ->.
  { unfold step. rewrite Hd, Hp. cbn. assert (state_of (get "id" res) = Some (get "id" res)) as -> by (by destruct (get "id" res)). done. }
  destruct (run_done es' (Register (packages s) (service s) (packageId s) (contact s) (Some (get "id" res)) false) (get "id" res) eq_refl)
    as [H1 H2]. destruct (run es' _) as [s' o']. cbn in H1, H2. subst o'. cbn [fst snd app]. split_and!.
  - rewrite reqs_cat. by rewrite app_nil_r.
  - unfold RegisterForm_shows. by rewrite H1.
  - unfold PublicRegister_shows. rewrite page_last. by destruct (get "id" res).
Qed.

Lemma registration_complete_witness :
  let p := Package 7 pppoe "10 Mbps" 150000 "10M/10M" "" 2 in
  let es := [Loaded [p]; Typed FullName " Budi "; Typed Phone "0812"; Typed Address "Jl. Mawar"; PackageClicked 7] in
  exists v, reqs (step Submitted (run es initial).1).2 = [v] /\ get "full_name" v = JStr "Budi" /\
    get "ppp_profile_id" v = JNum 7.
Proof.
  intros p es. eexists. split; [vm_compute; reflexivity|].
  match goal with |- get _ ?v = _ /\ _ =>
    destruct (registration_complete es Submitted v) as (_ & Hk & Hpk); [vm_compute; by left|] end.
  split.
  - destruct (Hk "full_name" fullName) as [H _]; [by left|]. exact H.
  - destruct Hpk as [(i & q & _ & (l1 & l2 & Hl & Hi & _) & H & _)|[H _]]; [|done].
    change ([p] = l1 ++ q :: l2) in Hl. destruct l1 as [|x [|y l1]]; try discriminate Hl.
    injection Hl as <- _. rewrite H, <- Hi. reflexivity.
Defined.

Lemma registered_once_witness :
  let p := Package 7 pppoe "10 Mbps" 150000 "10M/10M" "" 2 in
  let es := [Loaded [p]; Typed FullName "Budi"; Typed Phone "0812"; Typed Address "Jl. Mawar"; ServiceClicked hotspot; Submitted] in
  RegisterForm_shows (run (es ++ [Answered (Ok (JObj [("id", JNum 5)])); Submitted]) initial).1 = SuccessPanel (JNum 5).
Proof.
  intros p es. destruct (registered_once es (JObj [("id", JNum 5)]) [Submitted]) as (_ & H & _); [reflexivity|reflexivity|discriminate|exact H].
Defined.

(** The package sent is looked up by its id among the packages of both services, which are
    numbered apart: a PPPoE package that is no longer listed can turn into the hotspot
    package of its number, and the registration names that one's router. *)
Lemma package_of_other_service :
  let ppp := Package 7 pppoe "10 Mbps" 150000 "" "" 2 in
  let other := Package 8 pppoe "20 Mbps" 250000 "" "" 2 in
  let hs := Package 7 hotspot "RT-RW" 500000 "" "" 9 in
  let s := (run [Loaded [ppp; other; hs]; PackageClicked 7; Loaded [other; hs];
                 Typed FullName "Budi"; Typed Phone "0812"; Typed Address "Jl. Mawar"] initial).1 in
  match reqs (step Submitted s).2 with
  | [v] => get "ppp_profile_id" v = JNum 7 /\ get "device_id" v = JNum 9
  | _ => False
  end.
Proof. vm_compute. done. Qed.
