(* ===== verification/FormFields.v ===== *)
(** * What the business forms show ([features/{customers,subscriptions,registrations,invoices,payments}])

    For each form of FormsBusiness: its heading, the fields on the screen with their labels,
    controls, choices and whether they can be changed, as a function of the mode and of what
    is filled in; and the changes that do more than set their field.  Beside them the
    relation that says a form sends what it shows: two fillings that agree on the fields one
    can change send the same request ([reads_screen]). *)
From S2P Require Import Prelude JsString JsValue JsNumber Hooks Ui Wire Forms FormsBusiness.

(** ** Fields *)

(** A choice of a [Select]: what it stands for, its text, whether it can be chosen. *)
Record item : Type := Item { i_value : string; i_text : string; i_enabled : bool }.
Definition plain (l : list (string * string)) : list item := map (fun o => Item o.1 o.2 true) l.

Inductive control : Type :=
| Input (type : string) (min max : option Z)
| Textarea (rows : Z)
| Select (items : list item)
| InputCombobox (options : list (string * string)) (isLoading : bool)
| PasswordInput (placeholder : string)
| Switch
| DatePicker
| Swatches (l : list string)
| Skeleton.

Record form_field : Type := Field { key : string; label : string; widget : control; enabled : bool }.
Definition text_field (k l : string) : form_field := Field k l (Input "text" None None) true.
Definition number_field (k l : string) (min max : option Z) : form_field := Field k l (Input "number" min max) true.

(** The heading with its description, and the two buttons under the fields with whether they
    can be clicked. *)
Record heading : Type := Heading { title : string; subtitle : option string }.
Record buttons : Type := Buttons { cancel : string; cancel_on : bool; confirm : string; confirm_on : bool }.

(** What can be changed on the screen: a skeleton stands for a field that is loading. *)
Definition editable (fs : list form_field) : list string :=
  key <$> List.filter (fun f => enabled f && match widget f with Skeleton => false | _ => true end) fs.

Fixpoint value_of (k : string) (form : list (string * jval)) : option jval :=
  match form with
  | [] => None
  | (k', v) :: form => if String.eqb k k' then Some v else value_of k form
  end.

(** Two fillings the form can hold ([ok]) that agree on what can be changed, and on
    [unseen], send the same. *)
Definition reads_screen {V R : Type} (ok : V -> Prop) (form : V -> list (string * jval)) (fields : V -> list form_field)
    (unseen : list string) (send : V -> option R) : Prop :=
  forall v w, ok v -> ok w -> Forall (fun k => value_of k (form v) = value_of k (form w)) (editable (fields v) ++ unseen) -> send v = send w.

(** The request of an accepted submission. *)
Definition accepted {V R : Type} (schema : V -> bool) (payload : V -> R) (v : V) : option R :=
  if schema v then Some (payload v) else None.

(** Choices from records, by their id. *)
Definition id_items (name : string) (l : list jval) : list item :=
  map (fun r => Item (text "id" r) (text name r) true) l.

(** ** Customers, in two steps *)

Module CustomerFields.
Import CustomerForm.

Definition head (m : form_mode) : heading :=
  match m with
  | add => Heading "Add Customer" None
  | edit => Heading "Edit Customer" (Some "Update data kontak dan status pelanggan.")
  end.
Definition foot (m : form_mode) (isPending : bool) : buttons := Buttons "Cancel" (negb isPending) (match m with add => "Buat Customer" | edit => "Save Changes" end) (negb isPending).
Definition fields : list form_field :=
  [text_field "full_name" "Full Name"; Field "phone" "Phone" (Input "tel" None None) true; text_field "area" "Area";
   Field "address" "Address" (Textarea 2) true; Field "notes" "Notes" (Textarea 2) true;
   Field "status" "Status" (Select (plain [("aktif", "Aktif"); ("nonaktif", "Nonaktif")])) true].
Definition form (v : CustomerFormValues) : list (string * jval) :=
  [("full_name", JStr (full_name v)); ("phone", JStr (phone v)); ("area", JStr (area v)); ("address", JStr (address v));
   ("notes", JStr (notes v)); ("status", JStr (status v))].
Definition send `{Zod} : CustomerFormValues -> option jval := accepted customerSchema payload.

(** The two circles of [StepIndicator]: the first is ticked once passed. *)
Definition StepIndicator (step : Z) : list (string * string) :=
  [(if step =? 1 then "1" else "✓", "Informasi Customer"); ("2", "Buat Subscription")].
End CustomerFields.

Module StepFields.
Import SubscriptionStep.

Definition service_items : list item := plain [("pppoe", "PPPoE"); ("hotspot", "Hotspot")].
(** [Number(form.watch('device_id')) || 0] *)
Definition no_device (device_id : string) : bool := negb (truthy (Number_val device_id)).

Definition head : heading := Heading "Buat Subscription" None.
Definition foot (isPending : bool) : buttons := Buttons "Lewati" (negb isPending) "Buat Subscription" (negb isPending).
(** The profiles are those of the chosen device and service. *)
Definition profile_items (service_type : string) (noDevice : bool) (ppp hotspot : list jval) : list item :=
  match (if String.eqb service_type "pppoe" then ppp else hotspot) with
  | [] => [Item "__none" (if noDevice then "Pilih device terlebih dahulu" else "Belum ada profile untuk device ini") false]
  | l => id_items "name" l
  end.
Definition fields (routers ppp hotspot : list jval) (v : SubscriptionFormValues) : list form_field :=
  [Field "device_id" "Device / Router" (Select (id_items "display_name" routers)) true;
   Field "service_type" "Service Type" (Select service_items) true;
   Field "profile_id" "Billing Profile"
     (Select (profile_items (service_type v) (no_device (device_id v)) ppp hotspot)) (negb (no_device (device_id v)));
   text_field "mikrotik_username" "MikroTik Username"; text_field "mikrotik_password" "MikroTik Password"].
Definition form (v : SubscriptionFormValues) : list (string * jval) :=
  [("device_id", JStr (device_id v)); ("service_type", JStr (service_type v)); ("profile_id", JStr (profile_id v));
   ("mikrotik_username", JStr (mikrotik_username v)); ("mikrotik_password", JStr (mikrotik_password v))].
Definition send `{Zod} (customer : jval) : SubscriptionFormValues -> option jval :=
  accepted subscriptionSchema (payload customer).

(** Another service drops the profile; another device does not. *)
Definition change_service (t : string) (v : SubscriptionFormValues) : SubscriptionFormValues :=
  Values (device_id v) t "" (mikrotik_username v) (mikrotik_password v).
Definition change_device (d : string) (v : SubscriptionFormValues) : SubscriptionFormValues :=
  Values d (service_type v) (profile_id v) (mikrotik_username v) (mikrotik_password v).
End StepFields.

(** ** Subscriptions *)

Module SubscriptionFields.
Import SubscriptionForm.

Definition description : string := "Links a customer to a device profile and provisions the MikroTik secret/user.".
Definition head (m : form_mode) : heading :=
  match m with
  | add => Heading "New Subscription" (Some description)
  | edit => Heading "Edit Subscription" (Some description)
  end.
Definition foot (m : form_mode) (isPending : bool) : buttons := Buttons "Cancel" (negb isPending) (match m with add => "Create" | edit => "Save Changes" end) (negb isPending).
Definition is_edit (m : form_mode) : bool := match m with edit => true | add => false end.

Definition USER_MODE_OPTIONS : list (string * string) :=
  [("up", "User & Password"); ("vc", "Username Only (Voucher)")].

(** Without an active router a new subscription is not asked for at all. *)
Definition no_router (m : form_mode) (activeRouterId : option Z) : bool :=
  match m, activeRouterId with
  | add, Some r => r =? 0
  | add, None => true
  | edit, _ => false
  end.

Definition profileOptions (service_type : string) (ppp hotspot : list jval) : list item :=
  id_items "name" (if String.eqb service_type "pppoe" then ppp else hotspot).
Definition who (m : form_mode) (customers routers : list jval) (v : SubscriptionFormValues) : list form_field :=
  let e := is_edit m in
  [Field "customer_id" "Customer" (Select (id_items "full_name" customers)) (negb e)] ++
  (if e then [Field "device_id" "Device" (Select (id_items "display_name" routers)) (negb e)] else []) ++
  [Field "service_type" "Service Type" (Select StepFields.service_items) (negb e)] ++
  (if negb e && String.eqb (service_type v) "hotspot"
   then [Field "user_mode" "User Mode" (Select (plain USER_MODE_OPTIONS)) true] else []).
Definition what (m : form_mode) (ppp hotspot : list jval) (v : SubscriptionFormValues) : list form_field :=
  [Field "profile_id" "Billing Profile"
     (Select (match profileOptions (service_type v) ppp hotspot with
              | [] => [Item "__none" "No profiles for this device" false]
              | l => l
              end)) (negb (StepFields.no_device (device_id v)))] ++
  (if usernameOnly v
   then [Field "mikrotik_username" "Username / Kode" (Input "text" None None) (negb (is_edit m))]
   else [Field "mikrotik_username" "MikroTik Username" (Input "text" None None) (negb (is_edit m));
         text_field "mikrotik_password" (if is_edit m then "Password (blank = keep)" else "MikroTik Password")]) ++
  [number_field "billing_day" "Tanggal Tagih (1–28, opsional)" (Some 1) (Some 28);
   Field "notes" "Notes" (Textarea 2) true].
Definition fields (m : form_mode) (customers routers ppp hotspot : list jval) (v : SubscriptionFormValues)
    : list form_field := who m customers routers v ++ what m ppp hotspot v.

Definition form (v : SubscriptionFormValues) : list (string * jval) :=
  [("customer_id", JStr (customer_id v)); ("device_id", JStr (device_id v)); ("service_type", JStr (service_type v));
   ("user_mode", JStr (user_mode v)); ("profile_id", JStr (profile_id v));
   ("mikrotik_username", JStr (mikrotik_username v)); ("mikrotik_password", JStr (mikrotik_password v));
   ("billing_day", JStr (billing_day v)); ("notes", JStr (notes v))].
Definition send `{Zod} (m : form_mode) (target : jval) : SubscriptionFormValues -> option jval :=
  accepted (schema m) (match m with add => create_payload | edit => update_payload target end).

(** The service drops the profile, and PPPoE takes the user mode back. *)
Definition change_service (t : string) (v : SubscriptionFormValues) : SubscriptionFormValues :=
  Values (customer_id v) (device_id v) t (if String.eqb t "pppoe" then "up" else user_mode v) ""
    (mikrotik_username v) (mikrotik_password v) (billing_day v) (notes v).
Definition change_mode (u : string) (v : SubscriptionFormValues) : SubscriptionFormValues :=
  Values (customer_id v) (device_id v) (service_type v) u (profile_id v)
    (mikrotik_username v) (mikrotik_password v) (billing_day v) (notes v).
(** The [Generate] button of the voucher mode. *)
Definition generate (arr : list Z) (v : SubscriptionFormValues) : SubscriptionFormValues :=
  Values (customer_id v) (device_id v) (service_type v) (user_mode v) (profile_id v)
    (generateHotspotCode arr) (mikrotik_password v) (billing_day v) (notes v).
End SubscriptionFields.

(** ** Completing an installation *)

Module InstallFields.
Import InstallForm.

Definition head (target : jval) : heading :=
  Heading "Complete installation"
    (Some ("Provision '" +:+ text "full_name" target +:+
           "' → creates an active subscription (synced to the router) + first invoice.")).
Definition foot (isPending : bool) : buttons := Buttons "Cancel" (negb isPending) "Install" (negb isPending).
Definition hotspotPermanent (hotspot : list jval) : list jval :=
  List.filter (fun p => jval_eqb (get "role" p) (JStr "permanent")) hotspot.
Definition fields (routers ppp hotspot : list jval) (v : InstallFormValues) : list form_field :=
  [Field "device_id" "Device / Router" (Select (id_items "display_name" routers)) true;
   Field "service_type" "Service type" (Select StepFields.service_items) true;
   Field "profile_id" "Package"
     (Select (id_items "name" (if String.eqb (service_type v) "pppoe" then ppp else hotspotPermanent hotspot)))
     (negb (StepFields.no_device (device_id v)));
   text_field "mikrotik_username" "MikroTik Username"; text_field "mikrotik_password" "MikroTik Password";
   number_field "billing_day" "Billing day (optional, 1–28)" (Some 1) (Some 28)].
Definition form (v : InstallFormValues) : list (string * jval) :=
  [("device_id", JStr (device_id v)); ("service_type", JStr (service_type v)); ("profile_id", JStr (profile_id v));
   ("mikrotik_username", JStr (mikrotik_username v)); ("mikrotik_password", JStr (mikrotik_password v));
   ("billing_day", JStr (billing_day v))].
Definition send `{Zod} : InstallFormValues -> option jval := accepted installFormSchema payload.

Definition change_service (t : string) (v : InstallFormValues) : InstallFormValues :=
  Values (device_id v) t "" (mikrotik_username v) (mikrotik_password v) (billing_day v).
Definition change_device (d : string) (v : InstallFormValues) : InstallFormValues :=
  Values d (service_type v) (profile_id v) (mikrotik_username v) (mikrotik_password v) (billing_day v).
End InstallFields.

(** ** Invoices and payments *)

Module InvoiceFields.
Import GenerateInvoice.

Definition head : heading := Heading "Buat Invoice" None.
Definition foot (isPending : bool) : buttons := Buttons "Batal" true "Buat Invoice" (negb isPending).
(** [customerMap.get(s.customer_id) ?? `#${s.customer_id}`] and what follows it. *)
Definition subscription_text (customers : list jval) (s : jval) : string :=
  (match List.find (fun c => jval_eqb (get "id" c) (get "customer_id" s)) (rev customers) with
   | Some c => text "full_name" c
   | None => "#" +:+ text "customer_id" s
   end) +:+ " — " +:+ text "mikrotik_username" s +:+
  "(" +:+ (if jval_eqb (get "service_type" s) (JStr "pppoe") then "PPPoE" else "Hotspot") +:+ ")".
Definition fields (isLoading : bool) (subs customers : list jval) : list form_field :=
  [Field "subscription_id" "Pelanggan / Langganan"
     (if isLoading then Skeleton
      else Select (match subs with
                   | [] => [Item "__none" "Belum ada langganan aktif" false]
                   | _ => map (fun s => Item (text "id" s) (subscription_text customers s) true) subs
                   end)) true;
   number_field "amount" "Jumlah (Rp)" (Some 1) None;
   Field "period_start" "Mulai Periode" DatePicker true;
   number_field "due_days" "Jatuh Tempo (hari)" (Some 1) (Some 90)].
Definition form (v : FormValues) : list (string * jval) :=
  [("subscription_id", JStr (subscription_id v)); ("amount", JStr (amount v));
   ("period_start", match period_start v with Some d => JStr d | None => JNull end); ("due_days", JStr (due_days v))].
Definition send `{Zod} (subs : list jval) : FormValues -> option jval := accepted schema (payload subs).
End InvoiceFields.

Module PaymentFields.
Import RecordPayment.

Section Head.
Context (formatIDR : Z -> string).
Definition head (invoiceNumber : string) (defaultAmount : Z) : heading :=
  Heading "Catat Pembayaran" (Some ("Invoice " +:+ invoiceNumber +:+ " — " +:+ formatIDR defaultAmount)).
End Head.
Definition foot (isPending : bool) : buttons := Buttons "Batal" (negb isPending) "Simpan & Konfirmasi" (negb isPending).
(** The bank and the reference are asked for a transfer only. *)
Definition fields (v : FormValues) : list form_field :=
  [Field "method" "Metode Pembayaran"
     (Select (plain [("cash", "Tunai (Cash) — langsung dikonfirmasi"); ("transfer", "Transfer Bank — langsung dikonfirmasi")]))
     true;
   number_field "amount" "Jumlah (Rp)" (Some 1) None] ++
  (if String.eqb (method v) "transfer"
   then [text_field "bank_name" "Nama Bank"; text_field "reference_number" "No. Referensi"] else []).
Definition form (v : FormValues) : list (string * jval) :=
  [("method", JStr (method v)); ("amount", JStr (amount v)); ("bank_name", JStr (bank_name v));
   ("reference_number", JStr (reference_number v))].
Definition send `{Zod} (invoiceId customerId : Z) : FormValues -> option jval :=
  accepted schema (payload invoiceId customerId).
End PaymentFields.

(** ** Theorems *)

Lemma Forall_cons_inv {A} (P : A -> Prop) x l : Forall P (x :: l) -> P x /\ Forall P l.
Proof. apply Forall_cons. Qed.

(** Agreement on the screen, field by field. *)
Ltac agree H :=
  cbn in H; repeat (let E := fresh "E" in apply Forall_cons_inv in H as [E H]; cbn in E; try injection E as E; subst);
  clear H.

Section Business.
Context `{Zod}.

Lemma customer_reads :
  reads_screen (fun _ => True) CustomerFields.form (fun _ => CustomerFields.fields) [] CustomerFields.send.
Proof. intros [? ? ? ? ? ?] [? ? ? ? ? ?] _ _ Hf. agree Hf. reflexivity. Qed.

Lemma step_reads customer routers ppp hotspot :
  reads_screen (fun _ => True) StepFields.form (StepFields.fields routers ppp hotspot) ["profile_id"] (StepFields.send customer).
Proof.
  intros [? ? ? ? ?] [? ? ? ? ?] _ _ Hf. unfold editable, StepFields.fields in Hf.
  destruct (StepFields.no_device _); agree Hf; reflexivity.
Qed.

(** The choices of the two enumerations. *)
Definition known_mode (v : SubscriptionForm.SubscriptionFormValues) : Prop :=
  SubscriptionForm.user_mode v ∈ ["up"; "vc"] /\ SubscriptionForm.service_type v ∈ ["pppoe"; "hotspot"].
(** What an edit keeps besides: it starts with user and password, and does not ask. *)
Definition known_edit (v : SubscriptionForm.SubscriptionFormValues) : Prop :=
  SubscriptionForm.user_mode v = "up" /\ SubscriptionForm.service_type v ∈ ["pppoe"; "hotspot"].

Lemma baseSchema_known v : known_mode v -> SubscriptionForm.baseSchema v = true.
Proof. intros [H1 H2]. unfold SubscriptionForm.baseSchema. by rewrite (proj2 (enum_spec _ _) H1), (proj2 (enum_spec _ _) H2). Qed.

Lemma add_reads target customers routers ppp hotspot :
  reads_screen known_mode SubscriptionFields.form (SubscriptionFields.fields add customers routers ppp hotspot)
    ["device_id"; "profile_id"] (SubscriptionFields.send add target).
Proof.
  intros [c1 d1 s1 u1 p1 n1 w1 b1 t1] [c2 d2 s2 u2 p2 n2 w2 b2 t2] Ok1 Ok2 Hf.
  unfold SubscriptionFields.send, accepted, SubscriptionForm.schema, SubscriptionForm.addSchema.
  rewrite !baseSchema_known by done.
  unfold editable, SubscriptionFields.fields, SubscriptionFields.who, SubscriptionFields.what, SubscriptionForm.usernameOnly in Hf.
  cbn [SubscriptionForm.service_type SubscriptionForm.user_mode SubscriptionForm.device_id SubscriptionFields.is_edit negb andb] in Hf.
  destruct (String.eqb s1 "hotspot") eqn:Es, (String.eqb u1 "vc") eqn:Eu, (StepFields.no_device d1); agree Hf;
    unfold SubscriptionForm.create_payload, SubscriptionForm.password_of, SubscriptionForm.usernameOnly;
    cbn [SubscriptionForm.service_type SubscriptionForm.user_mode]; rewrite ?Es, ?Eu; reflexivity.
Qed.

Lemma edit_reads target customers routers ppp hotspot :
  reads_screen known_edit SubscriptionFields.form (SubscriptionFields.fields edit customers routers ppp hotspot)
    ["profile_id"] (SubscriptionFields.send edit target).
Proof.
  intros [c1 d1 s1 u1 p1 n1 w1 b1 t1] [c2 d2 s2 u2 p2 n2 w2 b2 t2] [U1 S1] [U2 S2] Hf. cbn in U1, U2. subst u1 u2.
  unfold SubscriptionFields.send, accepted, SubscriptionForm.schema.
  rewrite !baseSchema_known by (split; [by left|done]).
  unfold editable, SubscriptionFields.fields, SubscriptionFields.who, SubscriptionFields.what, SubscriptionForm.usernameOnly in Hf.
  cbn [SubscriptionForm.service_type SubscriptionForm.user_mode SubscriptionForm.device_id SubscriptionFields.is_edit negb andb] in Hf.
  rewrite andb_false_r in Hf. destruct (StepFields.no_device d1); agree Hf; reflexivity.
Qed.

Lemma install_reads routers ppp hotspot :
  reads_screen (fun _ => True) InstallFields.form (InstallFields.fields routers ppp hotspot) ["profile_id"] InstallFields.send.
Proof.
  intros [? ? ? ? ? ?] [? ? ? ? ? ?] _ _ Hf. unfold editable, InstallFields.fields in Hf.
  destruct (StepFields.no_device _); agree Hf; reflexivity.
Qed.

Lemma invoice_reads isLoading subs customers :
  reads_screen (fun _ => True) InvoiceFields.form (fun _ => InvoiceFields.fields isLoading subs customers)
    (if isLoading then ["subscription_id"] else []) (InvoiceFields.send subs).
Proof.
  intros [? ? p1 ?] [? ? p2 ?] _ _ Hf.
  destruct isLoading, p1, p2; agree Hf; try done; reflexivity.
Qed.

Lemma payment_reads invoiceId customerId :
  reads_screen (fun _ => True) PaymentFields.form PaymentFields.fields ["bank_name"; "reference_number"]
    (PaymentFields.send invoiceId customerId).
Proof.
  intros [m1 ? ? ?] [? ? ? ?] _ _ Hf. unfold editable, PaymentFields.fields in Hf. cbn [RecordPayment.method] in Hf.
  destruct (String.eqb m1 "transfer"); agree Hf; reflexivity.
Qed.
End Business.

(** ** What the changes leave behind *)

(** Another service asks for its profile again: none is held over, and where a profile is
    required nothing can be sent before one is chosen. *)
Lemma service_change_asks_again `{Zod} t (v : SubscriptionStep.SubscriptionFormValues) (w : InstallForm.InstallFormValues)
    (u : SubscriptionForm.SubscriptionFormValues) customer :
  StepFields.send customer (StepFields.change_service t v) = None /\
  InstallFields.send (InstallFields.change_service t w) = None /\
  SubscriptionForm.profile_id (SubscriptionFields.change_service t u) = "" /\
  (t = "pppoe" -> SubscriptionForm.usernameOnly (SubscriptionFields.change_service t u) = false).
Proof.
  unfold StepFields.send, InstallFields.send, accepted, SubscriptionStep.subscriptionSchema, InstallForm.installFormSchema.
  cbn [StepFields.change_service InstallFields.change_service SubscriptionStep.device_id SubscriptionStep.service_type
    SubscriptionStep.profile_id InstallForm.device_id InstallForm.service_type InstallForm.profile_id].
  rewrite !(string_min_nonempty ""), !andb_false_r. split_and!; try done. by intros ->.
Qed.

(** Another device keeps the profile of the one before: a filled form stays ready, the
    request names the new device and the old device's profile, and the menu has no entry
    for it, so it looks empty. *)
Theorem device_change_keeps_profile `{Zod} customer v d :
  StepFields.send customer v <> None -> d <> "" ->
  exists body, StepFields.send customer (StepFields.change_device d v) = Some body /\
    get "device_id" body = Number_val d /\
    get (if String.eqb (SubscriptionStep.service_type v) "pppoe" then "ppp_profile_id" else "hotspot_profile_id") body =
      number_or_undef (SubscriptionStep.profile_id v).
Proof.
  destruct v as [d0 t p n w]. unfold StepFields.send, accepted, SubscriptionStep.subscriptionSchema.
  cbn [StepFields.change_device SubscriptionStep.device_id SubscriptionStep.service_type SubscriptionStep.profile_id
    SubscriptionStep.mikrotik_username SubscriptionStep.mikrotik_password].
  intros Hs Hd. rewrite (string_min_nonempty d), (proj2 (String.eqb_neq d "") Hd). cbn [negb andb].
  destruct (string_min 1 d0); [|done]. cbn [andb] in Hs.
  destruct (enum _ t && string_min 1 p && string_min 1 n && string_min 1 w); [|done].
  eexists. split; [reflexivity|]. unfold SubscriptionStep.payload, SubscriptionStep.profile_field, StepFields.change_device.
  cbn [SubscriptionStep.device_id SubscriptionStep.service_type SubscriptionStep.profile_id
    SubscriptionStep.mikrotik_username SubscriptionStep.mikrotik_password].
  destruct (String.eqb t "pppoe"); split; reflexivity.
Qed.

Lemma device_change_keeps_profile_witness :
  let v := SubscriptionStep.Values "1" "pppoe" "7" "budi" "x" in
  exists body, StepFields.send JNull (StepFields.change_device "2" v) = Some body /\
    get "device_id" body = JNum 2 /\ get "ppp_profile_id" body = JNum 7.
Proof. intros v. apply (device_change_keeps_profile JNull v "2"); discriminate. Defined.

(** A payment in cash still carries what was filled in for a transfer before the method was
    changed back: the fields are gone from the screen, their texts are not. *)
Lemma cash_payment_names_bank :
  exists v w, PaymentFields.fields v = PaymentFields.fields w /\
    Forall (fun k => value_of k (PaymentFields.form v) = value_of k (PaymentFields.form w)) (editable (PaymentFields.fields v)) /\
    PaymentFields.send 1 2 v <> PaymentFields.send 1 2 w.
Proof.
  exists (RecordPayment.Values "cash" "5000" "" ""), (RecordPayment.Values "cash" "5000" "TRX-1" "BCA").
  split; [done|]. split; [by repeat constructor|]. vm_compute. discriminate.
Qed.
