(* ===== verification/FormFieldsRouter.v ===== *)
(** * What the router and administration forms show
    ([features/{hotspot,ppp,voucher/print,routers,admin/users}])

    As FormFields: for each form of FormsRouter and FormsPreset its heading, its fields and
    the changes that do more than set their field; and the theorem over all the forms, that
    a request is made of what can be seen and changed on the screen ([requests_on_screen]). *)
From S2P Require Import Prelude JsString JsValue JsNumber Hooks Ui Wire Forms FormsBusiness FormsRouter.
From S2P Require Import Voucher Presets FormsPreset FormFields.

Definition is_edit (m : form_mode) : bool := match m with edit => true | add => false end.

(** [(pools ?? []).map((p) => ({ label: p.name, value: p.name }))], label first, and with the
    choice of none before it. *)
Definition pool_options (pools : list jval) : list (string * string) :=
  map (fun p => (text "name" p, text "name" p)) pools.
Definition addressPoolOptions (pools : list jval) : list (string * string) :=
  ("(Tanpa Pool / None)", "") :: pool_options pools.

Definition active_items : list item := plain [("true", "Active"); ("false", "Inactive")].
Definition disabled_items : list item := plain [("false", "Enabled"); ("true", "Disabled")].
Definition names (l : list jval) : list item := map (fun s => Item (text "name" s) (text "name" s) true) l.

(** ** Billing profiles of the hotspot *)

Module HsDbProfileFields.
Import HsDbProfileForm.

Definition EXPIRY_MODES : list (string * string) :=
  [("0", "No expiry"); ("rem", "Remove on expiry"); ("ntf", "Notify on expiry"); ("remc", "Remove + record");
   ("ntfc", "Notify + record")].
Definition head (m : form_mode) : heading :=
  Heading (match m with add => "Add Hotspot Profile" | edit => "Edit Hotspot Profile" end)
    (Some "DB-backed hotspot plan · synced to RouterOS best-effort").
Definition foot (m : form_mode) (isPending : bool) : buttons := Buttons "Cancel" (negb isPending) (match m with add => "Create Profile" | edit => "Save Changes" end) (negb isPending).
Definition plan (m : form_mode) : list form_field :=
  [Field "name" "Name" (Input "text" None None) (negb (is_edit m));
   Field "role" "Role" (Select (plain [("voucher", "Voucher"); ("permanent", "Permanent")])) (negb (is_edit m));
   text_field "rate_limit" "Rate Limit (rx/tx)"].
(** Of the role. *)
Definition sale (v : HsDbProfileFormValues) : list form_field :=
  if String.eqb (role v) "permanent"
  then [number_field "price_monthly" "Price / bulan (IDR)" (Some 0) None; Field "is_public" "Public package" Switch true]
  else [Field "expiry_mode" "Expiry Mode" (Select (plain EXPIRY_MODES)) true; text_field "validity" "Validity";
        number_field "price" "Cost (IDR)" (Some 0) None; number_field "sell_price" "Sell Price (IDR)" (Some 0) None;
        Field "lock_mac" "Lock to MAC" (Select (plain [("false", "No"); ("true", "Yes")])) true].
Definition router (pools : list jval) (poolsLoading : bool) : list form_field :=
  [Field "address_pool" "Address Pool" (InputCombobox (addressPoolOptions pools) poolsLoading) true;
   number_field "shared_users" "Shared Users" (Some 1) None; text_field "status_autorefresh" "Status Autorefresh";
   text_field "parent_queue" "Parent Queue"; Field "description" "Description" (Textarea 2) true;
   Field "active" "Status" (Select active_items) true].
Definition fields (m : form_mode) (pools : list jval) (poolsLoading : bool) (v : HsDbProfileFormValues) : list form_field :=
  plan m ++ sale v ++ router pools poolsLoading.
Definition form (v : HsDbProfileFormValues) : list (string * jval) :=
  [("name", JStr (name v)); ("role", JStr (role v)); ("rate_limit", JStr (rate_limit v));
   ("address_pool", JStr (address_pool v)); ("shared_users", JStr (shared_users v));
   ("status_autorefresh", JStr (status_autorefresh v)); ("parent_queue", JStr (parent_queue v));
   ("description", JStr (description v)); ("active", JStr (active v)); ("price_monthly", JStr (price_monthly v));
   ("is_public", JBool (is_public v)); ("expiry_mode", JStr (expiry_mode v)); ("validity", JStr (validity v));
   ("price", JStr (price v)); ("sell_price", JStr (sell_price v)); ("lock_mac", JStr (lock_mac v))].
Definition send `{Zod} (m : form_mode) : HsDbProfileFormValues -> option jval :=
  accepted (schema m) (match m with add => create_payload | edit => update_payload end).
End HsDbProfileFields.

(** ** Billing profiles of PPP *)

Module DbProfileFields.
Import DbProfileForm.

Definition head (m : form_mode) : heading :=
  Heading (match m with add => "Add Billing Profile" | edit => "Edit Billing Profile" end)
    (Some "DB-backed PPP plan · synced to RouterOS best-effort").
Definition foot (m : form_mode) (isPending : bool) : buttons := Buttons "Cancel" (negb isPending) (match m with add => "Create Profile" | edit => "Save Changes" end) (negb isPending).
Definition plan (m : form_mode) (pools : list jval) (poolsLoading : bool) : list form_field :=
  [Field "name" "Name" (Input "text" None None) (negb (is_edit m)); text_field "rate_limit" "Rate Limit (rx/tx)";
   number_field "price_monthly" "Price / bulan (IDR)" (Some 0) None;
   Field "local_address" "Local Address" (InputCombobox (addressPoolOptions pools) poolsLoading) true;
   Field "remote_address" "Remote Address" (InputCombobox (addressPoolOptions pools) poolsLoading) true].
Definition rest : list form_field :=
  [text_field "session_timeout" "Session Timeout"; text_field "idle_timeout" "Idle Timeout";
   text_field "parent_queue" "Parent Queue"; Field "description" "Description" (Textarea 2) true;
   Field "active" "Status" (Select active_items) true; Field "is_public" "Public package" Switch true].
Definition fields (m : form_mode) (pools : list jval) (poolsLoading : bool) : list form_field :=
  plan m pools poolsLoading ++ rest.
Definition form (v : DbProfileFormValues) : list (string * jval) :=
  [("name", JStr (name v)); ("rate_limit", JStr (rate_limit v)); ("price_monthly", JStr (price_monthly v));
   ("local_address", JStr (local_address v)); ("remote_address", JStr (remote_address v));
   ("session_timeout", JStr (session_timeout v)); ("idle_timeout", JStr (idle_timeout v));
   ("parent_queue", JStr (parent_queue v)); ("description", JStr (description v)); ("active", JStr (active v));
   ("is_public", JBool (is_public v))].
Definition send `{Zod} (m : form_mode) : DbProfileFormValues -> option jval :=
  accepted (schema m) (match m with add => create_payload | edit => update_payload end).
End DbProfileFields.

(** ** PPP profiles of the router *)

Module PPPProfileFields.
Import PPPProfileForm.

Definition head (m : form_mode) : heading :=
  Heading (match m with add => "Tambah PPP Profile" | edit => "Edit PPP Profile" end)
    (Some "RouterOS /ppp/profile · addresses · rate limit").
Definition foot (m : form_mode) (isPending : bool) : buttons := Buttons "Batal" (negb isPending) (match m with add => "Tambah Profile" | edit => "Simpan Perubahan" end) (negb isPending).
Definition addressing (pools : list jval) (poolsLoading : bool) : list form_field :=
  [text_field "name" "Name"; text_field "rate_limit" "Rate Limit";
   Field "local_address" "Local Address" (InputCombobox (addressPoolOptions pools) poolsLoading) true;
   Field "remote_address" "Remote Address" (InputCombobox (addressPoolOptions pools) poolsLoading) true].
Definition rest : list form_field :=
  [text_field "session_timeout" "Session Timeout"; text_field "idle_timeout" "Idle Timeout";
   text_field "parent_queue" "Parent Queue"; Field "disabled" "Status" (Select disabled_items) true;
   Field "comment" "Comment" (Textarea 2) true].
Definition fields (pools : list jval) (poolsLoading : bool) : list form_field := addressing pools poolsLoading ++ rest.
Definition form (v : ProfileFormValues) : list (string * jval) :=
  [("name", JStr (name v)); ("rate_limit", JStr (rate_limit v)); ("local_address", JStr (local_address v));
   ("remote_address", JStr (remote_address v)); ("session_timeout", JStr (session_timeout v));
   ("idle_timeout", JStr (idle_timeout v)); ("parent_queue", JStr (parent_queue v)); ("comment", JStr (comment v));
   ("disabled", JStr (disabled v))].
Definition send `{Zod} : ProfileFormValues -> option jval := accepted profileFormSchema payload.
End PPPProfileFields.

(** ** Hotspot profiles of the router *)

Module HotspotProfileFields.
Import HotspotProfileForm.

Definition SHARED_OPTIONS : list string := ["1"; "2"; "3"; "5"; "10"; "unlimited"].
Definition PARENT_QUEUE_OPTIONS : list string := ["none"; "global"; "hs-parent"].
Definition expModeItems : list (string * string) :=
  [("rem", "Remove"); ("ntf", "Notice"); ("remc", "Remove & Record"); ("ntfc", "Notice & Record"); ("none", "None")].
Definition same (l : list string) : list item := map (fun o => Item o o true) l.
Definition lock_items : list item := plain [("enable", "Enable"); ("disable", "Disable")].
Definition head (m : form_mode) : heading :=
  Heading (match m with add => "Add Profile" | edit => "Edit Profile" end)
    (Some "Hotspot user profile · pricing · rate-limit").
Definition foot (m : form_mode) (isPending : bool) : buttons := Buttons "Cancel" (negb isPending) (match m with add => "Add Profile" | edit => "Save Changes" end) (negb isPending).
Definition pricing (m : form_mode) : list form_field :=
  [Field "name" "Name" (Input "text" None None) (negb (is_edit m));
   Field "role" "Role Profil" (Select (plain [("voucher", "Voucher (Expiry)"); ("permanent", "Permanent (Bulanan)")])) true;
   text_field "rate_limit" "Rate Limit"; text_field "validity" "Validity"; number_field "price" "Price" (Some 0) None;
   number_field "selling_price" "Selling Price" (Some 0) None].
Definition limits (pools : list jval) (poolsLoading : bool) : list form_field :=
  [Field "shared_users" "Shared Users" (Select (same SHARED_OPTIONS)) true;
   Field "expire_mode" "Exp Mode" (Select (plain expModeItems)) true;
   Field "address_pool" "Address Pool" (InputCombobox (addressPoolOptions pools) poolsLoading) true;
   Field "parent_queue" "Parent Queue" (Select (same PARENT_QUEUE_OPTIONS)) true;
   Field "lock_user" "Lock User" (Select lock_items) true; Field "lock_server" "Lock Server" (Select lock_items) true].
Definition fields (m : form_mode) (pools : list jval) (poolsLoading : bool) : list form_field :=
  pricing m ++ limits pools poolsLoading.
Definition form (v : HotspotProfileFormValues) : list (string * jval) :=
  [("name", JStr (name v)); ("role", JStr (role v)); ("rate_limit", JStr (rate_limit v));
   ("shared_users", JStr (shared_users v)); ("parent_queue", JStr (parent_queue v)); ("address_pool", JStr (address_pool v));
   ("validity", JStr (validity v)); ("expire_mode", JStr (expire_mode v)); ("price", JStr (price v));
   ("selling_price", JStr (selling_price v)); ("lock_user", JStr (lock_user v)); ("lock_server", JStr (lock_server v))].
Definition send `{Zod} (m : form_mode) : HotspotProfileFormValues -> option jval := accepted (schema m) payload.
End HotspotProfileFields.

(** ** Hotspot users *)

Module UserFields.
Import UserForm.

Definition head (m : form_mode) : heading :=
  Heading (match m with add => "Add Hotspot User" | edit => "Edit Hotspot User" end)
    (Some "Single hotspot user · credentials · profile").
Definition foot (m : form_mode) (isPending : bool) : buttons := Buttons "Cancel" (negb isPending) (match m with add => "Add User" | edit => "Save Changes" end) (negb isPending).
Definition profile_items (profiles : list jval) : list item :=
  match profiles with
  | [] => [Item "__none" "No profiles available" false]
  | _ => map (fun p => Item (text "name" p)
                (text "name" p +:+ if truthy (get "validity" p) then " · " +:+ text "validity" p else "") true) profiles
  end.
Definition fields (profiles servers : list jval) (serversLoading : bool) : list form_field :=
  [text_field "name" "Username"; text_field "password" "Password";
   Field "profile" "Profile" (Select (profile_items profiles)) true;
   Field "server" "Server" (if serversLoading then Skeleton else Select (names (activeServers servers))) true;
   text_field "mac_address" "MAC Address"; Field "disabled" "Status" (Select disabled_items) true;
   Field "comment" "Comment" (Textarea 2) true].
Definition form (v : UserFormValues) : list (string * jval) :=
  [("name", JStr (name v)); ("password", JStr (password v)); ("profile", JStr (profile v)); ("server", JStr (server v));
   ("mac_address", JStr (mac_address v)); ("comment", JStr (comment v)); ("disabled", JStr (disabled v))].
Definition send `{Zod} (m : form_mode) : UserFormValues -> option jval := accepted (schema m) payload.
(** The address is typed in capitals. *)
Definition change_mac (typed : string) (v : UserFormValues) : UserFormValues :=
  Values (name v) (password v) (profile v) (server v) (toUpperCase typed) (comment v) (disabled v).
End UserFields.

(** ** PPP secrets *)

Module SecretFields.
Import SecretForm.

Definition PPP_SERVICES : list string := ["any"; "pppoe"; "pptp"; "l2tp"; "ovpn"; "sstp"].
Definition head (m : form_mode) : heading :=
  Heading (match m with add => "Add PPP Secret" | edit => "Edit PPP Secret" end)
    (Some "PPPoE / PPP credential · profile · addresses").
Definition foot (m : form_mode) (isPending : bool) : buttons := Buttons "Cancel" (negb isPending) (match m with add => "Add Secret" | edit => "Save Changes" end) (negb isPending).
Definition fields (m : form_mode) (pools : list jval) (poolsLoading : bool) : list form_field :=
  [text_field "name" "Username";
   text_field "password" (if is_edit m then "Password (kosongkan = tetap)" else "Password");
   Field "service" "Service" (Select (HotspotProfileFields.same PPP_SERVICES)) true; text_field "profile" "Profile";
   Field "local_address" "Local Address" (InputCombobox (pool_options pools) poolsLoading) true;
   Field "remote_address" "Remote Address" (InputCombobox (pool_options pools) poolsLoading) true] ++
  (if is_edit m then [Field "comment" "Comment" (Textarea 2) true] else []).
Definition form (v : SecretFormValues) : list (string * jval) :=
  [("name", JStr (name v)); ("password", JStr (password v)); ("service", JStr (service v)); ("profile", JStr (profile v));
   ("local_address", JStr (local_address v)); ("remote_address", JStr (remote_address v)); ("comment", JStr (comment v))].
Definition send `{Zod} (m : form_mode) : SecretFormValues -> option jval :=
  accepted (schema m) (match m with add => payload | edit => patch end).
End SecretFields.

(** ** IP bindings *)

Module BindingFields.
Import BindingForm.

Definition TYPES : list (string * string) := [("bypassed", "Bypassed"); ("regular", "Regular"); ("blocked", "Blocked")].
Definition head (isBulk : bool) (ids : list string) : heading :=
  if isBulk
  then Heading ("Make IP Binding for " +:+ Z_to_string (Z.of_nat (length ids)) +:+ " hosts")
         (Some "A binding will be created for each selected host with the chosen type.")
  else Heading "Make IP Binding" (Some "Bind this host so it skips hotspot login.").
Definition foot (isPending : bool) : buttons := Buttons "Cancel" (negb isPending) "Create Binding" (negb isPending).
(** The hosts listed in place of the fields, fifty at most, and the rest counted. *)
Definition listed (bulkSelection : list jval) : list string :=
  map (fun h => text "macAddress" h +:+ " · " +:+ text "address" h) (firstn 50 bulkSelection) ++
  (if 50 <? Z.of_nat (length bulkSelection)
   then ["+" +:+ Z_to_string (Z.of_nat (length bulkSelection) - 50) +:+ " more…"] else []).
Definition fields (isBulk : bool) : list form_field :=
  (if isBulk then []
   else [text_field "mac" "MAC Address"; text_field "address" "Address"; text_field "toAddress" "To Address";
         text_field "server" "Server"]) ++
  [Field "type" "Type" (Select (plain TYPES)) true; Field "comment" "Comment" (Textarea 2) true].
Definition form (v : BindingFormValues) : list (string * jval) :=
  [("mac", JStr (mac v)); ("address", JStr (address v)); ("toAddress", JStr (toAddress v)); ("server", JStr (server v));
   ("type", JStr (type v)); ("comment", JStr (comment v))].
(** One body, or the bodies for the hosts. *)
Definition send `{Zod} (isBulk : bool) (hosts : list jval) : BindingFormValues -> option jval :=
  accepted (schema isBulk) (fun v => if isBulk then JArr (map (host_payload v) hosts) else single_payload v).
Definition change_mac (typed : string) (v : BindingFormValues) : BindingFormValues :=
  Values (toUpperCase typed) (address v) (toAddress v) (server v) (type v) (comment v).
End BindingFields.

(** ** Routers and staff accounts *)

Module RouterFields.
Import RouterForm.

Definition head (m : form_mode) (selectedRouter : option jval) : heading :=
  match m with
  | add => Heading "Add Router" (Some "Add a new MikroTik router. The connection is tested before saving.")
  | edit => Heading ("Edit '" +:+ field_or "display_name" "undefined" selectedRouter +:+ "'")
              (Some "Update router details. Leave password blank to keep the current one.")
  end.
Definition foot (m : form_mode) (isPending : bool) : buttons := Buttons "Cancel" (negb isPending) (match m with add => "Add Router" | edit => "Save changes" end) (negb isPending).
Definition fields (m : form_mode) (isPending : bool) : list form_field :=
  let on := negb isPending in
  [Field "display_name" "Name" (Input "text" None None) on; Field "host" "Host" (Input "text" None None) on;
   Field "port" "Port" (Input "number" (Some 1) (Some 65535)) on; Field "username" "Username" (Input "text" None None) on;
   Field "password" (if is_edit m then "Password(optional — blank to keep)" else "Password") (Input "password" None None) on;
   Field "use_tls" "Use TLS" (Select (plain [("false", "No (api 8728)"); ("true", "Yes (api-ssl 8729)")])) true].
Definition form (d : Draft) : list (string * jval) :=
  [("display_name", JStr (display_name d)); ("host", JStr (host d)); ("port", port d); ("username", JStr (username d));
   ("password", JStr (password d)); ("use_tls", JStr (use_tls d))].
Definition send (m : form_mode) (selectedRouter : jval) (d : Draft) : option jval :=
  match invalid m d with
  | Some _ => None
  | None => match m with
            | add => Some (create_body d)
            | edit => match changes selectedRouter d with [] => None | body => Some (JObj body) end
            end
  end.
End RouterFields.

Module AdminUserFields.
Import AdminUserForm.

Definition head (m : form_mode) (target : option jval) : heading :=
  match m with
  | add => Heading "Add admin user" (Some "Create a new admin or staff account. Username must be unique.")
  | edit => Heading ("Edit '" +:+ field_or "username" "undefined" target +:+ "'")
              (Some "Update account details. Leave password blank to keep the current one.")
  end.
Definition foot (m : form_mode) (isPending : bool) : buttons := Buttons "Cancel" (negb isPending) (match m with add => "Create user" | edit => "Save changes" end) (negb isPending).
Definition role_items : list item :=
  plain [("admin", "Admin — full access"); ("operator", "Operator — manage & assign"); ("viewer", "Viewer — read-only")].
Definition fields (m : form_mode) (isPending : bool) : list form_field :=
  let on := negb isPending in
  [Field "username" "Username" (Input "text" None None) on;
   Field "password" (if is_edit m then "New password(optional)" else "Password") (Input "password" None None) on;
   Field "role" "Role" (Select role_items) on] ++
  (if is_edit m then [Field "active" "Active" Switch on] else []).
Definition form (d : Draft) : list (string * jval) :=
  [("username", JStr (username d)); ("password", JStr (password d)); ("role", JStr (role d)); ("active", JBool (active d))].
Definition send (m : form_mode) (target : jval) (d : Draft) : option jval :=
  match invalid m d with
  | Some _ => None
  | None => match m with
            | add => Some (create_body d)
            | edit => match changes target d with [] => None | body => Some (JObj body) end
            end
  end.
End AdminUserFields.

(** ** Quick-print presets *)

Module PresetFields.
Import PresetForm.

Definition color_text (c : PresetColor) : string :=
  match c with
  | blue => "blue" | indigo => "indigo" | purple => "purple" | pink => "pink" | red => "red" | amber => "amber"
  | green => "green" | teal => "teal" | cyan => "cyan" | sky => "sky"
  end.
Definition COLOR_OPTIONS : list PresetColor := [blue; indigo; purple; pink; red; amber; green; teal; cyan; sky].
Definition CHAR_SETS : list (CharSet * string) :=
  [(lower, "Huruf Kecil (abcd)"); (upper, "Huruf Besar (ABCD)"); (mixed, "Huruf Besar+Kecil (aBcD)");
   (number, "Angka Saja (1234)"); (lower_number, "Angka+Huruf Kecil (5ab2c)"); (upper_number, "Angka+Huruf Besar (5AB2C)");
   (mixed_number, "Angka+Besar+Kecil (5aB2C)")].
Definition USER_LENGTHS : list Z := [4; 5; 6; 7; 8; 10; 12].
Definition DATA_UNITS : list DataLimitUnit := [MB; GB].
Definition head (m : form_mode) : heading :=
  Heading (match m with add => "Add Quick-Print Preset" | edit => "Edit Preset" end)
    (Some "Configure how a one-tap print batch is generated.").
Definition foot (m : form_mode) (isPending : bool) : buttons := Buttons "Cancel" (negb isPending) (match m with add => "Add Preset" | edit => "Save Changes" end) (negb isPending).
Definition look (profiles servers : list jval) (serversLoading : bool) : list form_field :=
  [text_field "name" "Internal Name"; text_field "package" "Display Label";
   Field "color" "Color" (Swatches (color_text <$> COLOR_OPTIONS)) true;
   Field "server" "Server" (if serversLoading then Skeleton else Select (names (UserForm.activeServers servers))) true;
   Field "profile" "Profile"
     (Select (map (fun p => Item (text "name" p) (text "name" p +:+ " · " +:+ text "validity" p) true) profiles)) true].
Definition code : list form_field :=
  [Field "userMode" "User Mode" (Select (plain [("up", "User & Password"); ("vc", "Voucher Code")])) true;
   Field "userLength" "User Length" (Select (HotspotProfileFields.same (Z_to_string <$> USER_LENGTHS))) true;
   Field "charSet" "Char Set" (Select (map (fun c => Item (charSet_text c.1) c.2 true) CHAR_SETS)) true;
   text_field "prefix" "Prefix"].
Definition limits : list form_field :=
  [text_field "timeLimit" "Time Limit"; number_field "dataLimit" "Data Limit" (Some 0) None;
   Field "dataLimitUnit" "Unit" (Select (HotspotProfileFields.same (unit_text <$> DATA_UNITS))) true;
   Field "lockUser" "Lock User" Switch true].
Definition fields (profiles servers : list jval) (serversLoading : bool) : list form_field :=
  look profiles servers serversLoading ++ code ++ limits.
Definition form (v : PresetFormValues) : list (string * jval) :=
  [("name", JStr (name v)); ("package", JStr (package v)); ("color", JStr (color_text (color v)));
   ("server", JStr (server v)); ("profile", JStr (profile v)); ("userMode", JStr (userType_text (userMode v)));
   ("userLength", JNum (userLength v)); ("charSet", JStr (charSet_text (charSet v))); ("prefix", JStr (prefix v));
   ("timeLimit", JStr (timeLimit v)); ("dataLimit", JNum (dataLimit v)); ("dataLimitUnit", JStr (unit_text (dataLimitUnit v)));
   ("validity", JStr (validity v)); ("price", JNum (price v)); ("sellingPrice", JNum (sellingPrice v));
   ("lockUser", JBool (lockUser v))].
Definition send `{Zod} (target : option QuickPrintPreset) : PresetFormValues -> option jval :=
  accepted presetFormSchema (fun v => package_json (apiBody target v)).
(** [Math.max(0, Number.parseInt(text || '0', 10))]; [None] is [NaN]. *)
Definition dataLimit_change (typed : string) : option Z :=
  n ← parseInt10 (if String.eqb typed "" then "0" else typed); Some (Z.max 0 n).
End PresetFields.

(** ** Theorems *)

Section Router.
Context `{Zod}.

(** The lock is one of its two choices, shown or not. *)
Definition known_lock (v : HsDbProfileForm.HsDbProfileFormValues) : Prop := HsDbProfileForm.lock_mac v ∈ ["true"; "false"].

Lemma hs_db_reads m pools loading :
  reads_screen known_lock HsDbProfileFields.form (HsDbProfileFields.fields m pools loading)
    (match m with add => [] | edit => ["role"] end) (HsDbProfileFields.send m).
Proof.
  intros [? r ? ? ? ? ? ? ? ? ? ? ? ? ? ?] [? ? ? ? ? ? ? ? ? ? ? ? ? ? ? ?] Ok1 Ok2 Hf.
  unfold editable, HsDbProfileFields.fields, HsDbProfileFields.sale in Hf. cbn [HsDbProfileForm.role] in Hf.
  apply enum_spec in Ok1, Ok2. cbn [HsDbProfileForm.lock_mac] in Ok1, Ok2.
  unfold HsDbProfileFields.send, accepted, HsDbProfileForm.schema, HsDbProfileForm.addSchema, HsDbProfileForm.hsDbProfileSchema,
      HsDbProfileForm.create_payload, HsDbProfileForm.update_payload, HsDbProfileForm.billing.
  destruct (String.eqb r "permanent") eqn:E, m; agree Hf;
    cbn [HsDbProfileForm.role HsDbProfileForm.lock_mac HsDbProfileForm.active HsDbProfileForm.name]; rewrite ?E, ?Ok1, ?Ok2; reflexivity.
Qed.

Lemma db_reads m pools loading :
  reads_screen (fun _ => True) DbProfileFields.form (fun _ => DbProfileFields.fields m pools loading) []
    (DbProfileFields.send m).
Proof.
  intros [? ? ? ? ? ? ? ? ? ? ?] [? ? ? ? ? ? ? ? ? ? ?] _ _ Hf. destruct m; agree Hf; reflexivity.
Qed.

Lemma ppp_profile_reads pools loading :
  reads_screen (fun _ => True) PPPProfileFields.form (fun _ => PPPProfileFields.fields pools loading) []
    PPPProfileFields.send.
Proof. intros [? ? ? ? ? ? ? ? ?] [? ? ? ? ? ? ? ? ?] _ _ Hf. agree Hf. reflexivity. Qed.

Lemma hotspot_profile_reads m pools loading :
  reads_screen (fun _ => True) HotspotProfileFields.form (fun _ => HotspotProfileFields.fields m pools loading)
    (match m with add => [] | edit => ["name"] end) (HotspotProfileFields.send m).
Proof.
  intros [? ? ? ? ? ? ? ? ? ? ? ?] [? ? ? ? ? ? ? ? ? ? ? ?] _ _ Hf. destruct m; agree Hf; reflexivity.
Qed.

Lemma user_reads m profiles servers loading :
  reads_screen (fun _ => True) UserFields.form (fun _ => UserFields.fields profiles servers loading)
    (if loading then ["server"] else []) (UserFields.send m).
Proof.
  intros [? ? ? ? ? ? ?] [? ? ? ? ? ? ?] _ _ Hf. destruct loading; agree Hf; reflexivity.
Qed.

Lemma secret_reads m pools loading :
  reads_screen (fun _ => True) SecretFields.form (fun _ => SecretFields.fields m pools loading) [] (SecretFields.send m).
Proof.
  intros [? ? ? ? ? ? ?] [? ? ? ? ? ? ?] _ _ Hf. destruct m; agree Hf; reflexivity.
Qed.

Lemma binding_reads isBulk hosts :
  reads_screen (fun _ => True) BindingFields.form (fun _ => BindingFields.fields isBulk) [] (BindingFields.send isBulk hosts).
Proof.
  intros [? ? ? ? ? ?] [? ? ? ? ? ?] _ _ Hf. destruct isBulk; agree Hf; reflexivity.
Qed.

Lemma router_reads m r :
  reads_screen (fun _ => True) RouterFields.form (fun _ => RouterFields.fields m false) [] (RouterFields.send m r).
Proof. intros [? ? ? ? ? ?] [? ? ? ? ? ?] _ _ Hf. destruct m; agree Hf; reflexivity. Qed.

Lemma admin_user_reads m t :
  reads_screen (fun _ => True) AdminUserFields.form (fun _ => AdminUserFields.fields m false) [] (AdminUserFields.send m t).
Proof. intros [? ? ? ?] [? ? ? ?] _ _ Hf. destruct m; agree Hf; reflexivity. Qed.

Lemma color_text_inj a b : PresetFields.color_text a = PresetFields.color_text b -> a = b.
Proof. by destruct a, b. Qed.
Lemma charSet_text_inj a b : charSet_text a = charSet_text b -> a = b.
Proof. by destruct a, b. Qed.
Lemma userType_text_inj a b : userType_text a = userType_text b -> a = b.
Proof. by destruct a, b. Qed.
Lemma unit_text_inj a b : unit_text a = unit_text b -> a = b.
Proof. by destruct a, b. Qed.

Lemma preset_reads target profiles servers loading :
  reads_screen (fun _ => True) PresetFields.form (fun _ => PresetFields.fields profiles servers loading)
    (["validity"; "price"; "sellingPrice"] ++ if loading then ["server"] else []) (PresetFields.send target).
Proof.
  intros [? ? ? ? ? ? ? ? ? ? ? ? ? ? ? ?] [? ? ? ? ? ? ? ? ? ? ? ? ? ? ? ?] _ _ Hf. destruct loading; agree Hf;
    repeat match goal with
    | E : _ = _ |- _ => first [apply color_text_inj in E | apply charSet_text_inj in E | apply userType_text_inj in E
                              | apply unit_text_inj in E]; subst
    end; reflexivity.
Qed.
End Router.

(** C27: what the forms send is made of what their users see and can change: for each of the
    sixteen forms, two fillings that agree on the fields shown and enabled send the same
    request, but for the fields listed: the active router's device and a profile whose menu
    is off without a device, a menu still loading, what an edit shows locked (the role of a
    plan, the name of a profile), the prices a preset takes from its profile, and the bank
    and reference of a payment, which [cash_payment_names_bank] shows are sent unseen. *)
Theorem requests_on_screen `{Zod} m (customer target : jval) (customers routers ppp hotspot subs profiles servers pools hosts : list jval)
    (loading isBulk : bool) (invoiceId customerId : Z) (preset : option QuickPrintPreset) :
  reads_screen (fun _ => True) CustomerFields.form (fun _ => CustomerFields.fields) [] CustomerFields.send /\
  reads_screen (fun _ => True) StepFields.form (StepFields.fields routers ppp hotspot) ["profile_id"] (StepFields.send customer) /\
  reads_screen known_mode SubscriptionFields.form (SubscriptionFields.fields add customers routers ppp hotspot)
    ["device_id"; "profile_id"] (SubscriptionFields.send add target) /\
  reads_screen known_edit SubscriptionFields.form (SubscriptionFields.fields edit customers routers ppp hotspot)
    ["profile_id"] (SubscriptionFields.send edit target) /\
  reads_screen (fun _ => True) InstallFields.form (InstallFields.fields routers ppp hotspot) ["profile_id"] InstallFields.send /\
  reads_screen (fun _ => True) InvoiceFields.form (fun _ => InvoiceFields.fields loading subs customers)
    (if loading then ["subscription_id"] else []) (InvoiceFields.send subs) /\
  reads_screen (fun _ => True) PaymentFields.form PaymentFields.fields ["bank_name"; "reference_number"]
    (PaymentFields.send invoiceId customerId) /\
  reads_screen known_lock HsDbProfileFields.form (HsDbProfileFields.fields m pools loading)
    (match m with add => [] | edit => ["role"] end) (HsDbProfileFields.send m) /\
  reads_screen (fun _ => True) DbProfileFields.form (fun _ => DbProfileFields.fields m pools loading) [] (DbProfileFields.send m) /\
  reads_screen (fun _ => True) PPPProfileFields.form (fun _ => PPPProfileFields.fields pools loading) [] PPPProfileFields.send /\
  reads_screen (fun _ => True) HotspotProfileFields.form (fun _ => HotspotProfileFields.fields m pools loading)
    (match m with add => [] | edit => ["name"] end) (HotspotProfileFields.send m) /\
  reads_screen (fun _ => True) UserFields.form (fun _ => UserFields.fields profiles servers loading)
    (if loading then ["server"] else []) (UserFields.send m) /\
  reads_screen (fun _ => True) SecretFields.form (fun _ => SecretFields.fields m pools loading) [] (SecretFields.send m) /\
  reads_screen (fun _ => True) BindingFields.form (fun _ => BindingFields.fields isBulk) [] (BindingFields.send isBulk hosts) /\
  reads_screen (fun _ => True) RouterFields.form (fun _ => RouterFields.fields m false) [] (RouterFields.send m target) /\
  reads_screen (fun _ => True) AdminUserFields.form (fun _ => AdminUserFields.fields m false) [] (AdminUserFields.send m target) /\
  reads_screen (fun _ => True) PresetFields.form (fun _ => PresetFields.fields profiles servers loading)
    (["validity"; "price"; "sellingPrice"] ++ if loading then ["server"] else []) (PresetFields.send preset).
Proof.
  split_and!.
  - apply customer_reads.
  - apply step_reads.
  - apply add_reads.
  - apply edit_reads.
  - apply install_reads.
  - apply invoice_reads.
  - apply payment_reads.
  - apply hs_db_reads.
  - apply db_reads.
  - apply ppp_profile_reads.
  - apply hotspot_profile_reads.
  - apply user_reads.
  - apply secret_reads.
  - apply binding_reads.
  - apply router_reads.
  - apply admin_user_reads.
  - apply preset_reads.
Qed.

(** A secret being added shows no comment: two fillings that differ in it send the same. *)
Lemma requests_on_screen_witness :
  let v c := SecretForm.Values "budi" "rahasia" "pppoe" "default" "" "" c in
  SecretFields.send add (v "seen?") = SecretFields.send add (v "") /\ SecretFields.send add (v "") <> None.
Proof.
  intros v. split; [|by vm_compute].
  apply (requests_on_screen add JNull JNull [] [] [] [] [] [] [] [] [] false false 1 2 None); [done|done|].
  by repeat constructor.
Defined.
