(* ===== verification/Shell.v ===== *)
(** * The application shell ([components/layout], [components/command-menu.tsx],
    [components/{profile-dropdown,sign-out-dialog,search}.tsx], [context/search-provider.tsx])

    What surrounds every page: the router switcher, which keeps the active router among
    those the backend lists; the sidebar's groups with the marks of the current page; the
    command menu over all the sidebar's links; the keyboard
    shortcuts, those that are shown and those that are heard; the user's menus and signing
    out.  The routers and the user are records of the backend. *)
From S2P Require Import Prelude JsString JsValue JsNumber AuthStore DialogStores Hooks Ui.
From S2P Require Nav Admin Forms.

(** ** The router switcher ([components/layout/router-switcher.tsx]) *)

Module Switcher.
Import ActiveRouter.

Definition statusDotClass (status : string) : option string :=
  if String.eqb status "connected" then Some "bg-emerald-500"
  else if String.eqb status "connecting" then Some "bg-blue-500"
  else if String.eqb status "unknown" then Some "bg-zinc-400"
  else if String.eqb status "disconnected" then Some "bg-amber-500"
  else if String.eqb status "error" then Some "bg-red-500" else None.

(** [s.charAt(0).toUpperCase() + s.slice(1)]. *)
Definition capital (s : string) : string := toUpperCase (str_take 1 s) +:+ str_drop 1 s.
Definition statusLabel (r : jval) : string :=
  text "host" r +:+ ":" +:+ text "port" r +:+ " — " +:+ capital (text "status" r).

(** [routers.some((r) => r.id === routerId)], [routers?.find(...)]. *)
Definition has_id (i : Z) (r : jval) : bool := jval_eqb (get "id" r) (JNum i).
Definition listed (i : Z) (routers : list jval) : bool := existsb (has_id i) routers.
Definition active (routerId : option Z) (routers : option (list jval)) : option jval :=
  match routerId, routers with Some i, Some l => List.find (has_id i) l | _, _ => None end.

(** The effect: what it sees is the render's [routerId], so at most one of its two
    conditions holds. *)
Definition choose (routerId : option Z) (routers : option (list jval)) : option Z :=
  match routers with
  | Some (r :: l) =>
      match routerId with
      | None => setRouterId (Some (number "id" r))
      | Some i => if listed i (r :: l) then routerId else setRouterId (Some (number "id" r))
      end
  | _ => routerId
  end.

(** The store and the query's data.  An event changes one of them; the render that follows
    runs the effect, since its dependencies changed, and again after the effect's own
    change. *)
Record switcher : Type := Switch { routerId : option Z; routers : option (list jval) }.
Inductive event : Type :=
| Listed (l : list jval)     (** the list arrives, or again, every 30 seconds *)
| Click (i : nat)            (** the [i]-th entry of the menu *)
| Cleared.                   (** [clear()] *)

Definition render (s : switcher) : switcher :=
  let once r := choose r (routers s) in Switch (once (once (routerId s))) (routers s).
Definition step (s : switcher) (e : event) : switcher :=
  render (match e with
          | Listed l => Switch (routerId s) (Some l)
          | Click i =>
              match (routers s ?? []) !! i with
              | Some r => Switch (setRouterId (Some (number "id" r))) (routers s)
              | None => s
              end
          | Cleared => Switch clear (routers s)
          end).
(** [restored] is what the persisted store had. *)
Definition mount (restored : option Z) : switcher := render (Switch restored None).
Definition run : list event -> switcher -> switcher := fold_left step.

(** What the sidebar shows: [isLoading] and [isError] are the query's. *)
Inductive view : Type :=
| Loading                                          (** Loading…, Fetching routers; disabled *)
| FailedToLoad                                     (** Failed to load, Click to retry *)
| NoRouters                                        (** No routers, Contact your admin to add one; disabled *)
| Menu (title subtitle : string) (entries : list (Z * string * option string * option string)).

Definition entry (index : nat) (r : jval) : Z * string * option string * option string :=
  (number "id" r, text "display_name" r, statusDotClass (text "status" r),
   if (index <? 9)%nat then Some ("⌘" +:+ Z_to_string (Z.of_nat index + 1)) else None).
Definition shown (isLoading isError : bool) (s : switcher) : view :=
  if isLoading then Loading
  else if isError then FailedToLoad
  else match routers s with
       | None | Some [] => NoRouters
       | Some l =>
           let a := active (routerId s) (Some l) in
           Menu (match a with
                 | Some r => match get "display_name" r with JUndef | JNull => "Select router" | v => js_String v end
                 | None => "Select router"
                 end)
             (match a with Some r => statusLabel r | None => "No router selected" end)
             (imap entry l)
       end.
End Switcher.

(** ** The command menu ([components/command-menu.tsx], [context/search-provider.tsx]) *)

Module CommandMenu.
Inductive command : Type := Go (to : string) | SetTheme (t : string).

(** An entry: its group, the [value] the search compares, what is shown, what it runs. *)
Record entry : Type := Entry { heading : string; value : string; label : list string; runs : command }.

Definition nav_entries (group : string) (i : Nav.nav_item) : list entry :=
  match i with
  | Nav.NavLink t _ u => [Entry group t [t] (Go u)]
  | Nav.NavCollapsible t _ l => map (fun x => Entry group (t +:+ "-" +:+ x.2) [t; x.1] (Go x.2)) l
  end.
(** An entry without a [value] is searched by its text. *)
Definition theme_entries : list entry :=
  [Entry "Theme" "Light" ["Light"] (SetTheme "light"); Entry "Theme" "Dark" ["Dark"] (SetTheme "dark");
   Entry "Theme" "System" ["System"] (SetTheme "system")].
Definition entries : list entry :=
  mbind (fun g => mbind (nav_entries (Nav.g_title g)) (Nav.g_items g)) Nav.sidebarData ++ theme_entries.

Inductive effect : Type := SetOpen (b : bool) | Run (c : command).
Definition runCommand (c : command) : list effect := [SetOpen false; Run c].

(** [open] of the provider, toggled by the shortcut, set by the search button and by the
    dialog. *)
Definition down (open : bool) : bool := negb open.
Definition search_click (open : bool) : bool := true.

(** The search of the command library: it compares the [value] only, and finds nothing
    with a letter the [value] lacks. *)
Class CommandFilter : Type := {
  matches : string -> string -> bool;
  matches_letters v q : matches v q = true ->
    Forall (fun c => c ∈ String.list_ascii_of_string (toLowerCase v)) (String.list_ascii_of_string (toLowerCase q))
}.
Definition found `{CommandFilter} (q : string) : list entry := List.filter (fun e => matches (value e) q) entries.
End CommandMenu.

(** ** Keyboard shortcuts *)

Module Shortcuts.
Record key_event : Type := Key { key : string; meta : bool; ctrl : bool; shift : bool }.
Inductive action : Type :=
| ToggleSidebar | ToggleSearch | GoTo (to : string) | SignOutDialog | ChooseRouter (index : Z).

(** The two listeners: [handleKeyDown] of the sidebar, [down] of the search provider. *)
Definition SIDEBAR_KEYBOARD_SHORTCUT : string := "b".
Definition handleKeyDown (e : key_event) : option action :=
  if String.eqb (key e) SIDEBAR_KEYBOARD_SHORTCUT && (meta e || ctrl e) then Some ToggleSidebar else None.
Definition down (e : key_event) : option action :=
  if String.eqb (key e) "k" && (meta e || ctrl e) then Some ToggleSearch else None.
Definition heard (e : key_event) : list action := omap (fun h => h e) [handleKeyDown; down].

(** The shortcuts written on the page, with what they stand next to: the search button, the
    profile menu, the entries of the router switcher. *)
Definition search_kbd : key_event * action := (Key "k" true false false, ToggleSearch).
Definition profile_shortcuts : list (key_event * action) :=
  [(Key "P" true false true, GoTo "/settings"); (Key "b" true false false, GoTo "/settings/billing");
   (Key "s" true false false, GoTo "/settings/general"); (Key "Q" true false true, SignOutDialog)].
Definition router_shortcuts : list (key_event * action) :=
  map (fun i => (Key (Z_to_string (i + 1)) true false false, ChooseRouter i)) [0; 1; 2; 3; 4; 5; 6; 7; 8].
Definition written : list (key_event * action) := search_kbd :: profile_shortcuts ++ router_shortcuts.
End Shortcuts.

(** ** The groups of the sidebar ([components/layout/nav-group.tsx]) *)

Module SidebarMenu.
Import Nav.

(** The link of an item or of a line under it: title, address, whether it is marked. *)
Definition line : Type := (string * string * bool)%type.
Inductive entry : Type :=
| SidebarMenuLink (badge : option string) (l : line)
| SidebarMenuCollapsible (title : string) (badge : option string) (defaultOpen : bool) (lines : list line)
| SidebarMenuCollapsedDropdown (title : string) (badge : option string) (isActive : bool) (heading : string) (lines : list line).

Definition line_of (href : string) (x : string * string) : line := (x.1, x.2, checkIsActive href (NavLink x.1 None x.2) false).
(** [state] is ["expanded"] or ["collapsed"]. *)
Definition entry_of (state : string) (isMobile : bool) (href : string) (item : nav_item) : entry :=
  match item with
  | NavLink t b u => SidebarMenuLink b (line_of href (t, u))
  | NavCollapsible t b l =>
      if String.eqb state "collapsed" && negb isMobile
      then SidebarMenuCollapsedDropdown t b (checkIsActive href item false)
             (t +:+ " " +:+ match b with Some b => "(" +:+ b +:+ ")" | None => "" end) (map (line_of href) l)
      else SidebarMenuCollapsible t b (checkIsActive href item true) (map (line_of href) l)
  end.
Definition NavGroup (state : string) (isMobile : bool) (href : string) (g : nav_group) : string * list entry :=
  (g_title g, map (entry_of state isMobile href) (g_items g)).

Definition lines_of (e : entry) : list line :=
  match e with
  | SidebarMenuLink _ l => [l]
  | SidebarMenuCollapsible _ _ _ ls | SidebarMenuCollapsedDropdown _ _ _ _ ls => ls
  end.
(** Whether a group of lines stands open at first, or its closed button is marked. *)
Definition leads (e : entry) : option bool :=
  match e with
  | SidebarMenuLink _ _ => None
  | SidebarMenuCollapsible _ _ o _ => Some o
  | SidebarMenuCollapsedDropdown _ _ o _ _ => Some o
  end.
(** The addresses the whole sidebar marks. *)
Definition marked (state : string) (isMobile : bool) (href : string) (gs : list nav_group) : list string :=
  mbind (fun g => mbind (fun e => map (fun l => l.1.2) (List.filter snd (lines_of e))) (NavGroup state isMobile href g).2) gs.
End SidebarMenu.

(** ** The user's menus ([components/profile-dropdown.tsx], [components/layout/nav-user.tsx]) *)

Module UserMenus.
(** [currentUser || storedUser]: the answer of [/auth/me], or the store's user. *)
Definition either (currentUser storedUser : option jval) : option jval :=
  match currentUser with Some u => if truthy u then Some u else storedUser | None => storedUser end.
Definition avatar (user : option jval) : string :=
  match user with Some u => toUpperCase (str_take 1 (text "username" u)) | None => "?" end.
Inductive label : Type := Pulse | SignedIn (name role : string) | NotSignedIn.
Definition profile_label (userLoading : bool) (user : option jval) : label :=
  match user with
  | Some u => SignedIn (text "username" u) ("Role: " +:+ text "role" u)
  | None => if userLoading then Pulse else NotSignedIn
  end.
(** The links of the two menus; after them, "Sign out" opens the dialog. *)
Definition profile_links : list (string * string) :=
  [("Profil Saya", "/settings"); ("Billing Config", "/settings/billing");
   ("Pengaturan Sistem", "/settings/general"); ("Tampilan", "/settings/appearance")].

Record NavUserProps : Type := NavUser { name : string; email : string; role : string }.
Definition initials (u : NavUserProps) : string :=
  if String.eqb (name u) "" then "U" else toUpperCase (str_take 1 (name u)).
Definition second_line (u : NavUserProps) : string :=
  if String.eqb (role u) "" then email u else "Role: " +:+ role u.
Definition nav_user_links : list (string * string) :=
  [("Profil Saya", "/settings"); ("Pengaturan Sistem", "/settings/general"); ("Tampilan", "/settings/appearance")].
End UserMenus.

(** ** Signing out ([components/sign-out-dialog.tsx]) *)

Module SignOut.
(** [session] is the browser's storage and the store; [me] the cached answer of [/auth/me];
    [waiting] counts the logout requests without an answer. *)
Record app : Type := App { session : browser * Auth.AuthState; me : option jval; waiting : nat }.

(** The confirmation, the answer to a logout (a success or a failure: [onSettled]), and a
    login from the sign-in page. *)
Inductive event : Type :=
| SignOutClick
| LogoutSettled
| LoggedIn (accessToken refreshToken : string) (user : Auth.AuthUser) (view : jval).

(** [logoutMutation.mutate(refreshToken || undefined)], then the navigation, with the page
    to come back to. *)
Definition sends (s : app) : option string :=
  let t := Auth.refreshToken (session s).2 in if String.eqb t "" then None else Some t.
Definition goes (pathname href : string) : Nav.redirect := Nav.To "/sign-in" (Some (Nav.logout_redirect pathname href)).
Definition handleSignOut (s : app) : app := App (session s) (me s) (S (waiting s)).
Definition onSettled (s : app) : app :=
  App (Admin.AuthApi.clearSession (session s).1 (session s).2) None (pred (waiting s)).
Definition step (s : app) (e : event) : app :=
  match e with
  | SignOutClick => handleSignOut s
  | LogoutSettled => if (waiting s =? 0)%nat then s else onSettled s
  | LoggedIn a r u v =>
      App (Admin.AuthApi.hydrateSession a r u (session s).1 (session s).2) (Some v) (waiting s)
  end.
Definition run : list event -> app -> app := fold_left step.
Definition anonymous (s : app) : Prop := (session s).2 = Auth.AuthSt None (JStr "") "" /\ me s = None.
End SignOut.

(** ** Theorems *)

(** Records of the list have a numeric id. *)
Definition is_router (r : jval) : Prop := exists n, get "id" r = JNum n.

Section SwitcherLaws.
Import Switcher ActiveRouter.

Lemma has_own_id r : is_router r -> has_id (number "id" r) r = true.
Proof. intros [n E]. unfold has_id, number. rewrite E. by apply jval_eqb_eq. Qed.

Lemma choose_listed r0 r l : is_router r ->
  exists i, choose r0 (Some (r :: l)) = Some i /\ listed i (r :: l) = true.
Proof.
  intros Hr. assert (listed (number "id" r) (r :: l) = true) as H by (unfold listed; cbn; by rewrite has_own_id).
  cbn [choose]. destruct r0 as [i|]; [|by eexists]. destruct (listed i (r :: l)) eqn:E; by eexists.
Qed.

Lemma choose_kept i r l : listed i (r :: l) = true -> choose (Some i) (Some (r :: l)) = Some i.
Proof. cbn [choose]. by intros ->. Qed.

Lemma choose_idem r0 d : match d with Some (r :: _) => is_router r | _ => True end ->
  choose (choose r0 d) d = choose r0 d.
Proof.
  destruct d as [[|r l]|]; [done| |done]. intros Hr.
  destruct (choose_listed r0 r l Hr) as (i & -> & H). by apply choose_kept.
Qed.

Definition data_ok (d : option (list jval)) : Prop := Forall is_router (d ?? []).
Definition settled (s : switcher) : Prop :=
  data_ok (routers s) /\ forall r l, routers s = Some (r :: l) ->
    exists i, routerId s = Some i /\ listed i (r :: l) = true.

Lemma render_settled s : data_ok (routers s) -> settled (render s).
Proof.
  intros H. split; [done|]. cbn [render routers routerId]. intros r l E. rewrite E in *.
  apply Forall_cons in H as [Hr _]. rewrite choose_idem by done. by apply choose_listed.
Qed.

Definition event_ok (e : event) : Prop := match e with Listed l => Forall is_router l | _ => True end.

Lemma run_settled restored es : Forall event_ok es -> settled (run es (mount restored)).
Proof.
  intros H. assert (settled (mount restored)) as H0 by by apply render_settled, Forall_nil.
  revert H0. generalize (mount restored). induction H as [|e es He _ IH]; [done|]. intros s Hs. apply IH.
  destruct e as [l|i|]; apply render_settled; cbn [routers]; [done| |apply Hs].
  by destruct (_ !! i); apply Hs.
Qed.

(** C22: the active router is one of those the backend lists: after any run of lists arriving,
    clicks and clearings, from whatever the browser had kept, if the last list is not empty
    the active router is in it and the menu shows its name; the effect has nothing left to
    do; a router still listed stays, a click takes the router clicked, and one that has left
    the list gives way to the first. *)
Theorem active_router_listed restored es : Forall event_ok es ->
  let s := run es (mount restored) in
  render s = s /\
  (forall r l, routers s = Some (r :: l) -> exists a, active (routerId s) (routers s) = Some a /\ a ∈ r :: l /\
     routerId s = Some (number "id" a)) /\
  (forall r l, Forall is_router (r :: l) ->
     routerId (step s (Listed (r :: l))) =
       match routerId s with
       | Some i => if listed i (r :: l) then Some i else Some (number "id" r)
       | None => Some (number "id" r)
       end) /\
  (forall i r, (routers s ?? []) !! i = Some r -> routerId (step s (Click i)) = Some (number "id" r)).
Proof.
  intros He s. pose proof (run_settled restored es He) as [Hd Hs]. fold s in Hd, Hs. split_and!.
  - unfold render. destruct s as [i d]. cbn [routers routerId] in *. f_equal.
    destruct d as [[|r l]|]; [done| |done]. destruct (Hs r l eq_refl) as (j & -> & Hj). by rewrite !choose_kept.
  - intros r l E. destruct (Hs r l E) as (i & -> & Hi). rewrite E in *. unfold active.
    destruct (List.find (has_id i) (r :: l)) as [a|] eqn:Ef.
    + exists a. apply find_some in Ef as [Hin Ha]. split_and!; [done|by apply list_elem_of_In|].
      apply jval_eqb_eq in Ha. unfold number. by rewrite Ha.
    + unfold listed in Hi. apply existsb_exists in Hi as (x & Hx & Hb).
      by rewrite (find_none _ _ Ef x Hx) in Hb.
  - intros r l Hf. apply Forall_cons in Hf as [Hr _]. cbn [step render routerId routers]. rewrite choose_idem by done.
    cbn [choose]. by destruct (routerId s).
  - intros i r Hi. unfold step. rewrite Hi. cbn [render routerId routers setRouterId].
    destruct (routers s) as [[|r0 l]|] eqn:E; [done| |done].
    assert (is_router r) as Hr by (eapply Forall_lookup in Hd; [apply Hd|apply Hi]).
    assert (listed (number "id" r) (r0 :: l) = true) as Hl; [|by unfold choose, setRouterId; rewrite !Hl].
    apply existsb_exists; exists r.
    split; [by apply list_elem_of_In, list_elem_of_lookup; exists i|by apply has_own_id].
Qed.
End SwitcherLaws.

(** A list that has become empty leaves the router that is gone active. *)
Lemma empty_list_keeps_router i : Switcher.routerId (Switcher.step (Switcher.mount (Some i)) (Switcher.Listed [])) = Some i.
Proof. done. Qed.

(** After a refetch has failed the routers listed before cannot be chosen. *)
Lemma failed_refetch_hides_menu s : Switcher.shown false true s = Switcher.FailedToLoad.
Proof. done. Qed.

Section Menu.
Import CommandMenu.

Lemma nav_entries_go : omap (fun e => match runs e with Go u => Some u | SetTheme _ => None end) entries =
  Nav.links Nav.sidebarData.
Proof. by vm_compute. Qed.

Lemma entries_distinct : NoDup (filter (fun v => v <> "System") (map value entries)).
Proof. apply (bool_decide_unpack _). by vm_compute. Qed.

Definition letters (s : string) : list ascii := String.list_ascii_of_string (toLowerCase s).
Lemma found_none `{CommandFilter} q :
  forallb (fun e => negb (bool_decide (Forall (fun c => c ∈ letters (value e)) (letters q)))) entries = true ->
  found q = [].
Proof.
  unfold found. generalize entries. induction l as [|e l IH]; [done|]. cbn. intros [He Hl]%andb_true_iff.
  rewrite (IH Hl). destruct (matches (value e) q) eqn:E; [|done]. rewrite bool_decide_eq_true_2 in He; [done|by apply matches_letters].
Qed.

(** The command menu lists every link of the sidebar, for every role: those the sidebar
    hides from a role it still offers, and they end on the 403 page; each of its entries
    has a [value] of its own, but for the page and the theme "System", which share one; and
    the settings page shown as "Tampilan" is not found by that name. *)
Theorem command_menu_unfiltered `{CommandFilter} n u s :
  Auth.user (Nav.auth s) = Some u -> truthy (Auth.accessToken (Nav.auth s)) = true ->
  Auth.role u ∈ [JStr "admin"; JStr "operator"; JStr "viewer"] ->
  NoDup (filter (fun v => v <> "System") (map value entries)) /\
  map runs (List.filter (fun e => String.eqb (value e) "System") entries) = [Go "/system"; SetTheme "system"] /\
  (forall e to, e ∈ entries -> runs e = Go to ->
     (to ∈ Nav.links (Nav.navGroups n (Some u)) -> Nav.navigate to s = Nav.Enter) /\
     (to ∉ Nav.links (Nav.navGroups n (Some u)) -> Nav.navigate to s = Nav.Redirected (Nav.To "/403" None))) /\
  found "Tampilan" = [].
Proof.
  intros Hu Ht Hr. split_and!; [apply entries_distinct|done| |].
  - intros e to He Hgo. rewrite Nav.links_badge.
    rewrite (Nav.navigate_ext to s (Nav.a_session (Auth.role u) (Nav.portal s)));
      [|done|by unfold Nav.role; rewrite Hu|done].
    pose proof (Nav.menu_checked _ (Nav.portal s) Hr) as H1. apply andb_true_iff in H1 as [H1 _].
    rewrite forallb_forall in H1.
    assert (to ∈ Nav.links Nav.sidebarData) as Hin.
    { rewrite <- nav_entries_go. apply list_elem_of_omap. exists e. by rewrite Hgo. }
    apply list_elem_of_In in Hin. specialize (H1 to Hin). apply Nav.outcome_is_enter in H1 as [H1 H3].
    change (Nav.navGroups 0 (Some u)) with
      (Nav.navGroups 0 (Some {| Auth.id := JNum 0; Auth.username := JStr ""; Auth.role := Auth.role u |})).
    rewrite Forms.existsb_spec in H1. split; [by apply H1|]. intros Hb. apply H3, not_true_is_false. by rewrite Forms.existsb_spec.
  - apply found_none. by vm_compute.
Qed.
End Menu.

Section Keys.
Import Shortcuts.

Lemma heard_spec e a : a ∈ heard e <-> (meta e || ctrl e) = true /\
  ((key e = "b" /\ a = ToggleSidebar) \/ (key e = "k" /\ a = ToggleSearch)).
Proof.
  destruct e as [k m c sh]. unfold heard, handleKeyDown, down, SIDEBAR_KEYBOARD_SHORTCUT.
  cbn. destruct (String.eqb_spec k "b"), (String.eqb_spec k "k"), (m || c); cbn; set_solver.
Qed.

(** Of the fourteen shortcuts written on the page only the search's does what it stands
    for: ⌘B, written next to the billing settings, moves the sidebar, and the others, those
    of the router switcher among them, are not listened for. *)
Theorem written_shortcuts ke a : (ke, a) ∈ written ->
  (ke, a) = search_kbd /\ heard ke = [ToggleSearch] \/
  key ke = "b" /\ a = GoTo "/settings/billing" /\ heard ke = [ToggleSidebar] \/
  (ke, a) <> search_kbd /\ heard ke = [].
Proof.
  intros H.
  repeat (apply elem_of_cons in H as [[= -> ->]|H]; [vm_compute; (by left) || (by right; left) || (by right; right)|]).
  by apply not_elem_of_nil in H.
Qed.
End Keys.

Section Menu.
Import Nav SidebarMenu.

Lemma marked_links state isMobile href gs :
  marked state isMobile href gs = List.filter (fun u => String.eqb href u || String.eqb (before_query href) u) (links gs).
Proof.
  assert (forall l, map (fun x : line => x.1.2) (List.filter snd (map (line_of href) l)) =
    List.filter (fun u => String.eqb href u || String.eqb (before_query href) u) l.*2) as Hl.
  { induction l as [|x l IH]; [done|]. cbn [map List.filter fmap list_fmap]. rewrite <- IH. unfold line_of at 1. cbn [snd].
    unfold checkIsActive. cbn [item_url]. rewrite !orb_false_r. by destruct (_ || _). }
  unfold marked, links. induction gs as [|g gs IH]; [done|]. cbn [mbind list_bind]. rewrite List.filter_app, <- IH. f_equal.
  unfold NavGroup. cbn [snd]. induction (g_items g) as [|i l IH']; [done|].
  cbn [map mbind list_bind]. rewrite List.filter_app, <- IH'. f_equal.
  destruct i as [t b u|t b k]; [exact (Hl [(t, u)])|]. cbn [entry_of]. by destruct (_ && _); apply Hl.
Qed.

(** What the proofs need of the sidebar's addresses. *)
Definition address (u : string) : bool :=
  startsWith "/" u && str_forall (fun d => negb (d =? "?")%char) u.
Lemma addresses n user : NoDup (links (navGroups n user)) /\ Forall (fun u => address u = true) (links (navGroups n user)).
Proof.
  rewrite links_badge.
  unfold navGroups, item_shown. generalize (currentRole user). intros r.
  destruct (jval_eqb r (JStr "admin")), (jval_eqb r (JStr "viewer"));
    (split; [apply (bool_decide_unpack _); vm_compute; exact I|]);
    apply Forall_forall; intros u Hu%list_elem_of_In; revert u Hu; apply forallb_forall; vm_compute; reflexivity.
Qed.

Lemma filter_this (l : list string) to : NoDup l -> to ∈ l -> List.filter (String.eqb to) l = [to].
Proof.
  induction l as [|x l IH]; [by intros _ ?%not_elem_of_nil|]. intros [Hx Hn]%NoDup_cons Hto. cbn [List.filter].
  destruct (String.eqb_spec to x) as [<-|Hne].
  - f_equal. clear IH Hn Hto. induction l as [|y l IH]; [done|]. cbn [List.filter].
    destruct (String.eqb_spec to y) as [->|]; [destruct Hx; left|]. apply IH. intros ?. destruct Hx. by right.
  - apply IH; [done|]. by apply elem_of_cons in Hto as [->|?].
Qed.

(** On each page the sidebar links to, with or without a query, exactly that link is marked,
    open or collapsed, for every role.  A group that holds the link is opened at first,
    or its button marked, only when the address has no query: a page with filters in its
    address, loaded anew, is marked inside a closed group. *)
Theorem menu_marks_page n user to q state isMobile :
  to ∈ links (navGroups n user) -> q = "" \/ startsWith "?" q = true ->
  let href := to +:+ q in
  marked state isMobile href (navGroups n user) = [to] /\
  (forall g item, g ∈ navGroups n user -> item ∈ g_items g -> to ∈ item_links item ->
     match leads (entry_of state isMobile href item) with
     | None => item_url item = Some to
     | Some open => open = String.eqb q ""
     end).
Proof.
  intros Hto Hq href. destruct (addresses n user) as [Hn Ha].
  pose proof (proj1 (Forall_forall _ _) Ha) as Hall.
  assert (before_query href = to) as Hb.
  { pose proof (Hall to Hto) as E. apply andb_true_iff in E as [_ E]. unfold before_query, href.
    destruct Hq as [->|(x & ->)%prefix_spec]; [rewrite app_str_nil_r, split_free_all by done; done|].
    rewrite split_free, split_sep by done. cbn. apply app_str_nil_r. }
  assert (forall u, u ∈ links (navGroups n user) -> String.eqb href u || String.eqb (before_query href) u = String.eqb to u) as Hu.
  { intros u Hin. rewrite Hb. destruct (String.eqb_spec to u) as [->|Hne]; [apply orb_true_r|].
    rewrite orb_false_r. apply String.eqb_neq. intros E. pose proof (Hall u Hin) as F. apply andb_true_iff in F as [_ F].
    apply Hne. rewrite <- Hb, E. unfold before_query. by rewrite split_free_all. }
  split.
  - rewrite marked_links. rewrite <- (filter_this _ to Hn Hto). apply filter_ext_in. intros u Hin%list_elem_of_In. by apply Hu.
  - intros g item Hg Hi Hl. destruct item as [t b u|t b l]; cbn [entry_of leads].
    { cbn in Hl. apply list_elem_of_singleton in Hl as ->. done. }
    assert (existsb (fun x => String.eqb x.2 href) l = String.eqb q "") as He.
    { destruct (String.eqb_spec q "") as [->|Hne].
      - apply existsb_exists. apply list_elem_of_fmap in Hl as (x & -> & Hx). exists x.
        split; [by apply list_elem_of_In|]. unfold href. rewrite app_str_nil_r. apply String.eqb_refl.
      - apply not_true_iff_false. intros (x & Hx%list_elem_of_In & E)%existsb_exists. apply String.eqb_eq in E.
        assert (x.2 ∈ links (navGroups n user)) as Hin.
        { unfold links. apply list_elem_of_bind. exists g. split; [|done]. apply list_elem_of_bind. eexists. split; [|exact Hi].
          cbn. apply list_elem_of_fmap. by exists x. }
        pose proof (Hu _ Hin) as F. rewrite E in F. rewrite String.eqb_refl in F. cbn in F. symmetry in F. apply String.eqb_eq in F.
        apply Hne. unfold href in F. rewrite <- (app_str_nil_r to) in F at 1. by apply String.app_inj in F. }
    destruct (String.eqb state "collapsed" && negb isMobile); cbn [leads]; unfold checkIsActive; cbn [item_url]; rewrite He.
    + by rewrite orb_false_r.
    + assert (exists h, JsString.split "/" href !! 1%nat = Some h) as [h ->].
      { pose proof (Hall to Hto) as E. apply andb_true_iff in E as [(x & Hx)%prefix_spec _]. unfold href. rewrite Hx.
        change (("/" +:+ x) +:+ q) with ("/" +:+ (x +:+ q)). rewrite split_sep by done. cbn.
        destruct (JsString.split "/" (x +:+ q)) as [|h l'] eqn:Es; [by apply split_nonnil in Es|]. by exists h. }
      by rewrite andb_false_r, !orb_false_r.
Qed.
End Menu.

Section Leaving.
Import SignOut.

(** Signing out: the confirmation leaves the session as it is, whatever the comment says; it
    ends when the logout is answered, well or badly; and an answer that comes after somebody
    signed in again ends the new session. *)
Theorem sign_out_on_answer s e :
  (session (handleSignOut s) = session s /\ me (handleSignOut s) = me s) /\
  (waiting s <> O -> anonymous (step s LogoutSettled)) /\
  (forall a r u v, e = LoggedIn a r u v ->
     ~ anonymous (step s e) /\
     (session (run [LogoutSettled; e] (handleSignOut s))).2 = Auth.AuthSt (Some u) (JStr a) r /\
     anonymous (run [e; LogoutSettled] (handleSignOut s))).
Proof.
  split; [done|split].
  - intros Hw. cbn [step]. destruct (Nat.eqb_spec (waiting s) 0); [done|]. by destruct s as [[b st] m w].
  - intros a r u v ->. destruct s as [[b st] m w]. split_and!; [by intros [? ?]|done|done].
Qed.
End Leaving.

(** A filter by letters, the least the search does. *)
#[export] Instance by_letters : CommandMenu.CommandFilter.
Proof.
  refine {| CommandMenu.matches v q := bool_decide (Forall (fun c => c ∈ letters v) (letters q)) |}.
  intros v q H. by apply bool_decide_eq_true in H.
Defined.

Definition router (id : Z) (name status : string) : jval :=
  JObj [("id", JNum id); ("display_name", JStr name); ("host", JStr "10.0.0.1"); ("port", JNum 8728); ("status", JStr status)].

Lemma active_router_listed_witness :
  let a := router 1 "Pusat" "connected" in let b := router 2 "Cabang" "error" in
  let es := [Switcher.Listed [a; b]; Switcher.Click 1; Switcher.Cleared; Switcher.Click 1] in
  let s := Switcher.run es (Switcher.mount (Some 9)) in
  Switcher.render s = s /\ Switcher.routerId (Switcher.step s (Switcher.Listed [a])) = Some 1 /\
  Switcher.shown false false s =
    Switcher.Menu "Cabang" "10.0.0.1:8728 — Error"
      [(1, "Pusat", Some "bg-emerald-500", Some "⌘1"); (2, "Cabang", Some "bg-red-500", Some "⌘2")].
Proof.
  intros a b es s. assert (is_router a) as Ha by (by exists 1). assert (is_router b) as Hb by (by exists 2).
  destruct (active_router_listed (Some 9) es) as (H1 & _ & H3 & _); [by repeat constructor|].
  split; [exact H1|]. split; [|by vm_compute]. etransitivity; [apply (H3 a []); by repeat constructor|]. by vm_compute.
Defined.

Lemma command_menu_unfiltered_witness :
  Nav.navigate "/admin/users" Nav.viewer_session = Nav.Redirected (Nav.To "/403" None).
Proof.
  destruct (command_menu_unfiltered 0 {| Auth.id := JNum 0; Auth.username := JStr ""; Auth.role := JStr "viewer" |}
    Nav.viewer_session) as (_ & _ & H & _); [done|done|set_solver|].
  refine (proj2 (H (CommandMenu.Entry "Admin" "Users" ["Users"] (CommandMenu.Go "/admin/users")) "/admin/users" _ eq_refl) _).
  - apply list_elem_of_In. vm_compute. tauto.
  - rewrite <- Forms.existsb_spec. vm_compute. discriminate.
Defined.

Lemma sign_out_on_answer_witness :
  let u := {| Auth.id := JNum 2; Auth.username := JStr "siti"; Auth.role := JStr "operator" |} in
  let s := SignOut.App (Browser [] ∅, Auth.AuthSt None (JStr "a.b.c") "r") None 0 in
  SignOut.anonymous (SignOut.run [SignOut.LoggedIn "x.y.z" "q" u JNull; SignOut.LogoutSettled] (SignOut.handleSignOut s)).
Proof.
  intros u s. destruct (sign_out_on_answer s (SignOut.LoggedIn "x.y.z" "q" u JNull)) as (_ & _ & H).
  destruct (H "x.y.z" "q" u JNull eq_refl) as (_ & _ & H'). exact H'.
Defined.

Lemma menu_marks_page_witness :
  let gs := Nav.navGroups 0 None in
  SidebarMenu.marked "expanded" false "/voucher/sales?page=2" gs = ["/voucher/sales"] /\
  SidebarMenu.leads (SidebarMenu.entry_of "expanded" false "/voucher/sales?page=2"
    (Nav.NavCollapsible "Voucher" None [("Generate", "/voucher/generate"); ("Print Queue", "/voucher/print"); ("Sales", "/voucher/sales")])) = Some false.
Proof.
  split; [|reflexivity].
  refine (proj1 (menu_marks_page 0 None "/voucher/sales" "?page=2" "expanded" false _ (or_intror eq_refl))).
  apply (bool_decide_unpack _). vm_compute. exact I.
Defined.
