(* ===== verification/Reveal.v ===== *)
(** * Showing a stored password ([components/password-reveal-dialog.tsx], [components/password-input.tsx])

    The dialog reads a customer's, a secret's or a user's password when it opens, and can
    have a customer's generated anew.  Reading is a query, generating a bare call whose
    answer is written over the query's data: the two can be on the wire at once.  The model
    is a step relation on the open dialog and the server's password, one step per request
    sent, served or answered.  Of TanStack Query it uses what is documented: a query has at
    most one fetch under way, asked for when the dialog opens and when the window is focused
    again; [setQueryData] replaces the data and leaves the fetch alone; an answered fetch
    replaces the data, a failed one keeps it. *)
From S2P Require Import Prelude JsString JsValue ApiErrors Hooks Ui Actions.

(** A request without an answer: not served yet, or served, with the answer under way. *)
Inductive request (A : Type) : Type := Asked | Served (r : result jserror A).
Arguments Asked {_}. Arguments Served {_} _.

(** [data], [isError] and the fetch are the query's; [resetting] the request of
    [handleReset], whose button is disabled meanwhile; [stored] is the server's password. *)
Record dialog : Type := Dialog
  { data : option string; isError : bool; fetch : option (request string); resetting : option (request string);
    clipboard : option string; stored : string }.

Definition initial (pw : string) : dialog := Dialog None false (Some Asked) None None pw.

(** [isFetching], [query.data ?? ''], and what the field shows. *)
Definition loading (s : dialog) : bool := match fetch s with Some _ => true | None => false end.
Definition value (s : dialog) : string := data s ?? "".
Definition field (s : dialog) : string := if loading s then "Memuat…" else value s.
Definition copy_enabled (s : dialog) : bool := negb (loading s || String.eqb (value s) "").
Definition empty_note (s : dialog) : bool := negb (loading s) && negb (isError s) && String.eqb (value s) "".
Definition reset_enabled (s : dialog) : bool := match resetting s with Some _ => false | None => true end.

Inductive event : Type :=
| Refetch                              (** the window is focused again *)
| ServeReveal (r : option jserror)     (** the server reads, or refuses *)
| RevealAnswered
| ResetClick
| ServeReset (r : result jserror string)   (** the server stores a new password, or refuses *)
| ResetAnswered
| CopyClick (written : bool).          (** whether the clipboard lets itself be written *)

Definition with_query (d : option string) (e : bool) (f : option (request string)) (s : dialog) : dialog :=
  Dialog d e f (resetting s) (clipboard s) (stored s).
Definition with_reset (r : option (request string)) (pw : string) (s : dialog) : dialog :=
  Dialog (data s) (isError s) (fetch s) r (clipboard s) pw.

Definition handleCopy (written : bool) (s : dialog) : dialog * list effect :=
  if String.eqb (value s) "" then (s, [])
  else if written
       then (Dialog (data s) (isError s) (fetch s) (resetting s) (Some (value s)) (stored s),
             [Toast success "Password disalin" JUndef])
       else (s, [Toast error "Gagal menyalin" JUndef]).
(** The end of [handleReset]: [setQueryData], or the toast of a failure. *)
Definition reset_answered (r : result jserror string) (s : dialog) : dialog * list effect :=
  match r with
  | Ok pw => (Dialog (Some pw) false (fetch s) None (clipboard s) (stored s), [Toast success "Password baru dibuat" JUndef])
  | Throw e => (with_reset None (stored s) s, [toast_error "Gagal reset password" e])
  end.

Definition step (s : dialog) (e : event) : dialog * list effect :=
  match e with
  | Refetch =>
      (if loading s then s
       else with_query (data s) (match data s with None => false | Some _ => isError s end) (Some Asked) s, [])
  | ServeReveal r =>
      (match fetch s with
       | Some Asked => with_query (data s) (isError s)
                         (Some (Served (match r with None => Ok (stored s) | Some e => Throw e end))) s
       | _ => s
       end, [])
  | RevealAnswered =>
      (match fetch s with
       | Some (Served (Ok v)) => with_query (Some v) false None s
       | Some (Served (Throw _)) => with_query (data s) true None s
       | _ => s
       end, [])
  | ResetClick => (if reset_enabled s then with_reset (Some Asked) (stored s) s else s, [])
  | ServeReset r =>
      (match resetting s with
       | Some Asked => with_reset (Some (Served r)) (match r with Ok pw => pw | Throw _ => stored s end) s
       | _ => s
       end, [])
  | ResetAnswered => match resetting s with Some (Served r) => reset_answered r s | _ => (s, []) end
  | CopyClick written => if copy_enabled s then handleCopy written s else (s, [])
  end.

Inductive steps : dialog -> list event -> dialog -> Prop :=
| steps_nil s : steps s [] s
| steps_cons s e es s' : steps (step s e).1 es s' -> steps s (e :: es) s'.

(** The eye of [PasswordInput]. *)
Definition input_type (showPassword : bool) : string := if showPassword then "text" else "password".
Definition eye_label (showPassword : bool) : string := if showPassword then "Hide password" else "Show password".

(** ** Theorems *)

(** The two requests one after the other: no reset asked for during a fetch, no fetch
    during a reset. *)
Definition in_turn (s : dialog) (e : event) : Prop :=
  match e with
  | ResetClick => fetch s = None
  | Refetch => resetting s = None
  | _ => True
  end.
Inductive turns : dialog -> list event -> Prop :=
| turns_nil s : turns s []
| turns_cons s e es : in_turn s e -> turns (step s e).1 es -> turns s (e :: es).

Record in_step (s : dialog) : Prop := {
  one_request : fetch s = None \/ resetting s = None;
  fetch_current v : fetch s = Some (Served (Ok v)) -> v = stored s;
  reset_current v : resetting s = Some (Served (Ok v)) -> v = stored s;
  data_current v : (forall w, resetting s <> Some (Served (Ok w))) -> data s = Some v -> v = stored s }.

Lemma initial_in_step pw : in_step (initial pw).
Proof. split; cbn; try done. by right. Qed.

Lemma step_in_step s e : in_step s -> in_turn s e -> in_step (step s e).1.
Proof.
  intros [H1 H2 H3 H4] He. destruct s as [d er f r cl pw]. cbn in *.
  destruct e as [|o| | |o| |w]; cbn in *.
  - destruct f as [[|]|]; split; cbn in *; naive_solver.
  - destruct f as [[|]|], o; split; cbn in *; naive_solver.
  - destruct f as [[|[v|x]]|]; split; cbn in *; naive_solver.
  - destruct r as [[|]|]; split; cbn in *; naive_solver.
  - destruct r as [[|]|], o; split; cbn in *; naive_solver.
  - destruct r as [[|[v|x]]|]; split; cbn in *; naive_solver.
  - unfold copy_enabled, handleCopy. cbn. destruct (negb _); [|by split]. destruct (String.eqb _ _); [by split|].
    by destruct w; split.
Qed.

Lemma turns_in_step s es s' : steps s es s' -> turns s es -> in_step s -> in_step s'.
Proof.
  induction 1 as [|s e es s' _ IH]; [done|]. intros Ht Hs. inversion Ht as [|? ? ? Hi Hr]; subst.
  by apply IH, step_in_step.
Qed.


(** Without a reset the events always take turns: the two dialogs that have no reset button
    show the stored password. *)
Lemma no_reset_turns es : (forall e, e ∈ es -> e <> ResetClick) -> forall s, resetting s = None -> turns s es.
Proof.
  induction es as [|e es IH]; intros He s Hr; [constructor|]. constructor.
  - destruct e; cbn; try done. destruct (He ResetClick); [by left|done].
  - apply IH; [intros x Hx; apply He; by right|].
    destruct e; cbn; rewrite ?Hr; try done.
    + by destruct (loading s).
    + by destruct (fetch s) as [[|]|].
    + by destruct (fetch s) as [[|[|]]|].
    + destruct (He ResetClick); [by left|done].
    + destruct (copy_enabled s); [|done]. unfold handleCopy. destruct (String.eqb _ _); [done|].
      by destruct written.
Qed.

(** Nothing makes them take turns: a read served before the reset and answered after it puts
    the old password back, under the toast that a new one was made, and it is the one that
    is copied. *)
Lemma late_read_shows_old_password old new : old <> "" ->
  exists s, steps (initial old)
      [ServeReveal None; ResetClick; ServeReset (Ok new); ResetAnswered; RevealAnswered; CopyClick true] s /\
    stored s = new /\ field s = old /\ clipboard s = Some old.
Proof.
  intros Ho. eexists. split; [repeat econstructor|]. cbn [step]. unfold copy_enabled, handleCopy. cbn.
  by rewrite (proj2 (String.eqb_neq old "") Ho).
Qed.

