(* ===== verification/Combobox.v ===== *)
(** * A text field with suggestions ([components/input-combobox.tsx])

    The field of pools and queues in the router forms: any text can be typed, a menu lists
    the options that contain it.  The state is the component's, the owner's [value] and
    whether the input has the focus; the owner is a form field, which stores what it hears.
    The menu's library hands the trimmed value of the option chosen ([onSelect]). *)
From S2P Require Import Prelude JsString JsValue.

(** Label and value, as [FormFields.InputCombobox] lists them. *)
Definition InputComboboxOption : Type := (string * string)%type.

Record props : Type := Props
  { options : list InputComboboxOption; isLoading : bool; disabled : bool; emptyText : option string }.
Record combobox : Type := Box { is_open : bool; inputValue : string; value : string; focused : bool }.
Definition mount (v : string) : combobox := Box false v v false.

(** [useEffect(() => setInputValue(value), [value])], after the owner's [value] changed. *)
Definition hear (v : string) (s : combobox) : combobox :=
  Box (is_open s) (if String.eqb v (value s) then inputValue s else v) v (focused s).
Definition setInputValue (v : string) (s : combobox) : combobox := Box (is_open s) v (value s) (focused s).
Definition setOpen (o : bool) (s : combobox) : combobox := Box o (inputValue s) (value s) (focused s).
(** [focus()] runs [onFocus] if the input had not the focus. *)
Definition onFocus (s : combobox) : combobox :=
  if focused s then s else Box true (inputValue s) (value s) true.

Definition filteredOptions (p : props) (inputValue : string) : list InputComboboxOption :=
  if String.eqb inputValue "" then options p
  else let lower := toLowerCase inputValue in
       List.filter (fun o => includes lower (toLowerCase o.1) || includes lower (toLowerCase o.2)) (options p).

Definition handleInputChange (v : string) (s : combobox) : combobox := setOpen true (hear v (setInputValue v s)).
Definition handleSelect (selectedValue : string) (s : combobox) : combobox :=
  onFocus (setOpen false (hear selectedValue (setInputValue selectedValue s))).
Definition handleClear (s : combobox) : combobox := setOpen false (hear "" (setInputValue "" s)).
Definition handleInputKeyDown (key : string) (s : combobox) : combobox :=
  if String.eqb key "Escape" then setOpen false s
  else if String.eqb key "ArrowDown" || String.eqb key "ArrowUp" then setOpen true s else s.
Definition isSelected (optionValue : string) (s : combobox) : bool := String.eqb optionValue (value s).

Definition off (p : props) : bool := disabled p || isLoading p.
(** [emptyText ? emptyText : ...]. *)
Definition resolvedEmptyText (p : props) (s : combobox) : string :=
  let quote := String dquote "" in
  let own := emptyText p ?? "" in
  if negb (String.eqb own "") then own
  else if String.eqb (inputValue s) "" then "Tidak ada pilihan tersedia"
  else "Gunakan " +:+ quote +:+ inputValue s +:+ quote +:+ " sebagai nilai custom".

(** What the menu shows. *)
Inductive menu : Type := Loading | Empty (text : string) | Items (l : list (InputComboboxOption * bool)).
Definition shown (p : props) (s : combobox) : menu :=
  if isLoading p then Loading
  else match filteredOptions p (inputValue s) with
       | [] => Empty (resolvedEmptyText p s)
       | l => Items (map (fun o => (o, isSelected o.2 s)) l)
       end.

Inductive event : Type :=
| Focus | Blur
| Type_ (v : string)
| KeyDown (key : string)
| Choose (o : InputComboboxOption)
| ClickClear
| ClickToggle
| OpenChange (b : bool)      (** the popover's, on Escape or a click outside *)
| Set_ (v : string).         (** the owner sets the value: a reset of the form *)

(** Each event where it can happen. *)
Definition step (p : props) (s : combobox) (e : event) : combobox :=
  match e with
  | Focus => if off p then s else onFocus s
  | Blur => Box (is_open s) (inputValue s) (value s) false
  | Type_ v => if off p then s else handleInputChange v s
  | KeyDown k => if off p then s else handleInputKeyDown k s
  | Choose o => if is_open s && negb (isLoading p) && bool_decide (o ∈ filteredOptions p (inputValue s))
                then handleSelect (trim o.2) s else s
  | ClickClear => if negb (String.eqb (inputValue s) "") && negb (off p) then handleClear s else s
  | ClickToggle => if off p then s else setOpen (negb (is_open s)) s
  | OpenChange b => setOpen b s
  | Set_ v => hear v s
  end.
Definition run (p : props) : list event -> combobox -> combobox := fold_left (step p).

(** ** Theorems *)

Lemma hear_shown v s : inputValue s = v \/ inputValue s = value s -> inputValue (hear v s) = v.
Proof. unfold hear. cbn. destruct (String.eqb_spec v (value s)) as [->|]; [|done]. by intros [?|?]. Qed.

Lemma step_shown p s e : inputValue s = value s -> inputValue (step p s e) = value (step p s e).
Proof.
  intros H. destruct e as [| |v|k|o| | |b|v]; cbn [step]; try done.
  - destruct (off p); [done|]. by unfold onFocus; destruct (focused s).
  - destruct (off p); [done|]. apply (hear_shown v (setInputValue v s)). by left.
  - destruct (off p); [done|]. unfold handleInputKeyDown. by repeat case_match.
  - destruct (_ && _); [|done]. unfold handleSelect, onFocus.
    assert (inputValue (hear (trim o.2) (setInputValue (trim o.2) s)) = trim o.2) as Hh by (apply hear_shown; by left).
    by destruct (focused _).
  - destruct (_ && _); [|done]. apply (hear_shown "" (setInputValue "" s)). by left.
  - by destruct (off p).
  - apply hear_shown. by right.
Qed.

Lemma shown_value p es v : inputValue (run p es (mount v)) = value (run p es (mount v)).
Proof.
  assert (inputValue (mount v) = value (mount v)) as H by done. revert H. generalize (mount v).
  induction es as [|e es IH]; [done|]. intros s Hs. by apply IH, step_shown.
Qed.

Lemma filtered_spec p v o : o ∈ filteredOptions p v <->
  o ∈ options p /\ (v = "" \/ includes (toLowerCase v) (toLowerCase o.1) = true \/ includes (toLowerCase v) (toLowerCase o.2) = true).
Proof.
  unfold filteredOptions. destruct (String.eqb_spec v "") as [->|Hv]; [naive_solver|].
  rewrite list_elem_of_In, filter_In, orb_true_iff, <- list_elem_of_In. naive_solver.
Qed.

(** What the box shows is what its form has, after any run of typing, choosing, clearing
    and resets: any text typed is the value at once, a choice is the option's trimmed value
    and "" after a clearing; the menu lists the options whose label or value contains what
    is shown, ignoring case, with the value's own marked, and is empty exactly if none
    does. *)
Theorem combobox_shows_value p es v : let s := run p es (mount v) in
  inputValue s = value s /\
  (off p = false -> forall t, value (step p s (Type_ t)) = t) /\
  (forall o, is_open s = true -> isLoading p = false -> o ∈ filteredOptions p (value s) ->
     value (step p s (Choose o)) = trim o.2) /\
  (off p = false -> value (step p s ClickClear) = "") /\
  (isLoading p = false ->
     match shown p s with
     | Loading => False
     | Empty _ => forall o, o ∈ options p -> value s <> "" /\
         includes (toLowerCase (value s)) (toLowerCase o.1) = false /\ includes (toLowerCase (value s)) (toLowerCase o.2) = false
     | Items l => forall o b, (o, b) ∈ l <->
         (o ∈ options p /\ (value s = "" \/ includes (toLowerCase (value s)) (toLowerCase o.1) = true \/
            includes (toLowerCase (value s)) (toLowerCase o.2) = true)) /\ b = String.eqb o.2 (value s)
     end).
Proof.
  intros s. assert (inputValue s = value s) as Hs by apply shown_value. split_and!; [done|..].
  - intros H t. cbn [step]. by rewrite H.
  - intros o Ho Hl Hin. cbn [step]. rewrite Ho, Hl, Hs, bool_decide_eq_true_2 by done. cbn.
    unfold handleSelect, onFocus. by destruct (focused _).
  - intros H. cbn [step]. rewrite H. destruct (String.eqb_spec (inputValue s) "") as [E|]; cbn [negb andb]; [congruence|done].
  - intros Hl. unfold shown. rewrite Hl, Hs. pose proof (filtered_spec p (value s)) as Hf.
    destruct (filteredOptions p (value s)) as [|x l] eqn:E.
    + intros o Ho. assert (~ (value s = "" \/ includes (toLowerCase (value s)) (toLowerCase o.1) = true \/
        includes (toLowerCase (value s)) (toLowerCase o.2) = true)) as Hn by (intros Hx; by apply (not_elem_of_nil o), Hf).
      split_and!; [naive_solver|apply not_true_is_false; naive_solver..].
    + intros o b. rewrite <- Hf, list_elem_of_fmap. unfold isSelected. split.
      * intros (y & [= -> ->] & Hy). done.
      * intros [Ho ->]. by exists o.
Qed.

(** The choice made, or the text a form was filled with, filters the menu: the other options
    are not listed before the text is cleared, the option of none, whose value is empty,
    among them. *)
Lemma chosen_hides_others : exists p s o, shown p s = Items [(("pool-a", "pool-a"), true)] /\
  s = mount "pool-a" /\ o ∈ options p /\ o.2 = "pool-b" /\ step p (setOpen true s) (Choose o) = setOpen true s.
Proof.
  exists (Props [("(Tanpa Pool / None)", ""); ("pool-a", "pool-a"); ("pool-b", "pool-b")] false false None), (mount "pool-a"),
    ("pool-b", "pool-b"). split_and!; [by vm_compute|done|set_solver|done|]. cbn [step].
  rewrite bool_decide_eq_false_2; [done|]. vm_compute. set_solver.
Qed.

(** A click on an option that takes the focus from the input opens the menu again: the
    choice closes it, the focus given back opens it. *)
Lemma choice_reopens p s o : is_open s = true -> isLoading p = false -> o ∈ filteredOptions p (inputValue s) ->
  is_open (step p s (Choose o)) = negb (focused s).
Proof.
  intros Ho Hl Hin. cbn [step]. rewrite Ho, Hl, bool_decide_eq_true_2 by done. cbn.
  unfold handleSelect, onFocus. cbn. by destruct (focused s).
Qed.

Lemma combobox_shows_value_witness :
  let p := Props [("pool-a", "pool-a"); ("pool-b", "pool-b")] false false None in
  let s := run p [Focus; Type_ "POOL"] (mount "") in
  inputValue s = value s /\ value (step p s (Choose ("pool-b", "pool-b"))) = "pool-b".
Proof.
  intros p s. destruct (combobox_shows_value p [Focus; Type_ "POOL"] "") as (H1 & _ & H3 & _).
  split; [exact H1|]. refine (H3 ("pool-b", "pool-b") eq_refl eq_refl _). vm_compute. right. left.
Defined.
