(* ===== verification/PageFields.v ===== *)
(** * What the pages with one form show ([features/voucher/generate], [features/settings])

    As FormFields, for the forms that are pages of their own: voucher generation, the five
    forms of system settings, the own account and profile; and the editor of the mobile
    bar.  Beside the fields, the browser's own check of number and address boxes, which
    runs before the form's schema: a form that is not [noValidate] is not submitted while a
    box has a value out of its bounds. *)
From S2P Require Import Prelude JsString JsValue JsNumber Hooks Ui Forms FormFields FormFieldsRouter.
From S2P Require Presets.
From S2P Require Voucher VoucherForm Settings Account MobileNav Format.

(** ** The browser's check *)

Section Native.
Variable is_url is_email : string -> bool.    (** the browser's address parsers *)

(** An empty box passes, none being [required]; a text that is no number leaves the box
    empty; the step is 1, from bounds that are whole. *)
Definition whole (q : Qc) : bool := Pos.eqb (Qden (this q)) 1.
Definition native (c : control) (s : string) : bool :=
  match c with
  | Input type min max =>
      if String.eqb s "" then true
      else if String.eqb type "number"
      then match Number_str s with
           | Some q =>
               match min with Some n => Qle_bool (inject_Z n) (this q) | None => true end &&
               match max with Some n => Qle_bool (this q) (inject_Z n) | None => true end && whole q
           | None => true
           end
      else if String.eqb type "url" then is_url s
      else if String.eqb type "email" then is_email s
      else true
  | _ => true
  end.
Definition browser_lets (fields : list form_field) (form : list (string * jval)) : bool :=
  forallb (fun f => match value_of (key f) form with Some (JStr s) => native (widget f) s | _ => true end) fields.
End Native.

(** ** Voucher generation ([voucher-generate-form.tsx]) *)

Module VoucherFields.
Import Voucher Presets VoucherForm.

Section Fields.
Variable formatIDR : jval -> string.    (** [Intl] *)

Definition foot (routerId : Z) (isPending : bool) : buttons :=
  Buttons "Reset" (negb isPending) (if isPending then "Generating…" else "Generate") (negb (isPending || (routerId =? 0))).
Definition profile_item (p : jval) : item :=
  Item (text "name" p)
    (text "name" p +:+ (if truthy (get "sell_price" p) then formatIDR (get "sell_price" p) else "") +:+
     (if truthy (get "validity" p) then " · " +:+ text "validity" p else "")) true.
Definition profile_items (profiles : list jval) : list item :=
  match profiles with
  | [] => [Item "__none" "Belum ada profile voucher di router ini" false]
  | _ => map profile_item profiles
  end.
(** Options as [VoucherForm] has them: label first. *)
Definition choices {A} (text_of : A -> string) (l : list (string * A)) : list item :=
  map (fun o => Item (text_of o.2) o.1 true) l.
Definition batch (profiles servers : list jval) (profilesLoading serversLoading : bool) : list form_field :=
  [number_field "qty" "Quantity" (Some 1) (Some 500);
   Field "server" "Server"
     (if serversLoading then Skeleton else Select (HotspotProfileFields.same (activeServers servers))) true;
   Field "profile" "Profile" (if profilesLoading then Skeleton else Select (profile_items profiles)) true].
Definition code : list form_field :=
  [Field "userType" "User Mode" (Select (choices userType_text userTypeOptions)) true;
   Field "nameLength" "Name Length" (Select (choices Z_to_string nameLengthOptions)) true;
   Field "charSet" "Char Set" (Select (choices charSet_text charSetOptions)) true; FormFields.text_field "prefix" "Prefix"].
Definition limits : list form_field :=
  [FormFields.text_field "timeLimit" "Time Limit"; number_field "dataLimit" "Data Limit" (Some 0) None;
   Field "dataLimitUnit" "" (Select (choices unit_text dataLimitUnitOptions)) true; FormFields.text_field "comment" "Comment"].
Definition fields (profiles servers : list jval) (profilesLoading serversLoading : bool) : list form_field :=
  batch profiles servers profilesLoading serversLoading ++ code ++ limits.
End Fields.

Definition form (v : FormValues) : list (string * jval) :=
  [("qty", f_qty v); ("server", JStr (f_server v)); ("profile", JStr (f_profile v));
   ("userType", JStr (userType_text (f_userType v))); ("nameLength", JNum (f_nameLength v));
   ("charSet", JStr (charSet_text (f_charSet v))); ("prefix", JStr (f_prefix v)); ("timeLimit", JStr (f_timeLimit v));
   ("dataLimit", f_dataLimit v); ("dataLimitUnit", JStr (unit_text (f_dataLimitUnit v))); ("comment", JStr (f_comment v))].
Definition send (v : FormValues) : option jval := formToBackendParams <$> voucherGenerateFormSchema v.
End VoucherFields.

(** ** System settings *)

Definition save_button (label : string) (isSaving : bool) : string * bool := (label, negb isSaving).
(** Settings are sent one by one: what a submission sends is the list of them. *)
Definition setting_text (k : string) (v : string) : string * jval := (k, JStr v).

Module GeneralFields.
Import Settings.General.
Definition save : bool -> string * bool := save_button "Simpan".
Definition fields : list form_field :=
  [text_field "company_name" "Nama Perusahaan"; text_field "hotspot_login_url" "URL Login Hotspot"].
Definition form (v : FormValues) : list (string * jval) :=
  [setting_text "company_name" (company_name v); setting_text "hotspot_login_url" (hotspot_login_url v)].
Definition send : FormValues -> option (list (string * string)) := accepted general_schema general_updates.
End GeneralFields.

Module BillingFields.
Import Settings.Billing.
Definition save : bool -> string * bool := save_button "Simpan".
Definition fields : list form_field :=
  [number_field "default_billing_day" "Tanggal Tagihan Default" (Some 1) (Some 28);
   number_field "invoice_due_days" "Jatuh Tempo Invoice (hari)" (Some 1) None;
   number_field "isolir_after_days" "Isolir Setelah (hari)" (Some 0) None;
   number_field "hard_suspend_after_days" "Suspend Penuh Setelah (hari)" (Some 1) None;
   text_field "isolir_profile_name" "Nama Profil Isolir"].
Definition form (v : FormValues) : list (string * jval) :=
  [setting_text "default_billing_day" (default_billing_day v); setting_text "invoice_due_days" (invoice_due_days v);
   setting_text "isolir_after_days" (isolir_after_days v);
   setting_text "hard_suspend_after_days" (hard_suspend_after_days v);
   setting_text "isolir_profile_name" (isolir_profile_name v)].
Definition send : FormValues -> option (list (string * string)) := accepted billing_schema billing_updates.
End BillingFields.

Module NotificationFields.
Import Settings.Notification.
Definition save : bool -> string * bool := save_button "Simpan".
Definition getBotTokenPlaceholder (settings : list Settings.SystemSetting) : string :=
  match Settings.find_key "notification.telegram_bot_token" settings with
  | Some s => if Settings.isMasked (Settings.value s) then "••••••••  (tersimpan, kosongkan untuk tidak mengubah)"
              else "1234567890:ABCdefGhIJKlmNoPQRsTUVwxYZ"
  | None => "1234567890:ABCdefGhIJKlmNoPQRsTUVwxYZ"
  end.
Definition fields (settings : list Settings.SystemSetting) : list form_field :=
  [Field "wa_enabled" "Aktifkan WhatsApp" Switch true; text_field "admin_phone" "Nomor Admin";
   Field "telegram_enabled" "Aktifkan Telegram" Switch true;
   Field "telegram_bot_token" "Bot Token" (PasswordInput (getBotTokenPlaceholder settings)) true;
   text_field "telegram_chat_id" "Chat ID"].
Definition form (v : FormValues) : list (string * jval) :=
  [("wa_enabled", JBool (wa_enabled v)); setting_text "admin_phone" (admin_phone v);
   ("telegram_enabled", JBool (telegram_enabled v)); setting_text "telegram_bot_token" (telegram_bot_token v);
   setting_text "telegram_chat_id" (telegram_chat_id v)].
Definition send : FormValues -> option (list (string * string)) := accepted (fun _ => true) notification_updates.
End NotificationFields.

Module BackupFields.
Import Settings.Backup.
Definition save : bool -> string * bool := save_button "Simpan".
Definition fields : list form_field :=
  [Field "enabled" "Aktifkan Backup Otomatis" Switch true; text_field "path" "Direktori Output Backup";
   number_field "retention_days" "Retensi Backup (hari)" (Some 1) None].
Definition form (v : FormValues) : list (string * jval) :=
  [("enabled", JBool (enabled v)); setting_text "path" (path v); setting_text "retention_days" (retention_days v)].
Definition send : FormValues -> option (list (string * string)) := accepted backup_schema backup_updates.
End BackupFields.

Module GatewayFields.
Import Settings.PaymentGateway.
Definition save : bool -> string * bool := save_button "Simpan Pengaturan".
Definition test_button (isTesting isSaving : bool) : string * bool := ("Test Koneksi Xendit", negb (isTesting || isSaving)).
Definition badge (settings : list Settings.SystemSetting) : string :=
  if isConfigured settings then "Terkonfigurasi" else "Belum Dikonfigurasi".
Definition placeholder (settings : list Settings.SystemSetting) (k d : string) : string :=
  let p := getSecretPlaceholder settings k in if String.eqb p "" then d else p.
Definition fields (settings : list Settings.SystemSetting) : list form_field :=
  [Field "xendit_enabled" "Aktifkan Xendit" Switch true;
   Field "xendit_secret_key" "API Secret Key"
     (PasswordInput (placeholder settings "payment.xendit_secret_key" "xnd_production_xxxxx...")) true;
   Field "xendit_webhook_token" "X-CALLBACK-TOKEN"
     (PasswordInput (placeholder settings "payment.xendit_webhook_token" "Token dari Xendit Settings → Webhooks")) true;
   number_field "xendit_invoice_duration" "Durasi Link Pembayaran (detik)" (Some 300) (Some 86400);
   Field "app_url" "URL Publik Aplikasi" (Input "url" None None) true].
Definition form (v : FormValues) : list (string * jval) :=
  [("xendit_enabled", JBool (xendit_enabled v)); setting_text "xendit_secret_key" (xendit_secret_key v);
   setting_text "xendit_webhook_token" (xendit_webhook_token v);
   setting_text "xendit_invoice_duration" (xendit_invoice_duration v); setting_text "app_url" (app_url v)].
Definition send : FormValues -> option (list (string * string)) := accepted gateway_schema gateway_updates.
(** The address to register with the gateway, as the page prints it. *)
Definition webhook_url (v : FormValues) : string :=
  (if String.eqb (app_url v) "" then "https://isp.example.com" else app_url v) +:+ "/api/v1/public/webhooks/xendit".
(** The alert after a test: whether it shows, and whether as a success. *)
Definition alert (testStatus : string) : option bool :=
  if String.eqb testStatus "idle" then None else Some (String.eqb testStatus "success").
End GatewayFields.

(** ** The own account and profile *)

Module AccountFields.
Import Account.AccountForm.
Definition save : bool -> string * bool := save_button "Simpan Perubahan".
(** The name and role above the fields: [me?.username], [me?.role]. *)
Definition identity (me : jval) : jval * jval := (get "username" me, get "role" me).
Definition toggle_label (showPasswordSection : bool) : string := if showPasswordSection then "Batal" else "Ubah Password".
Definition fields (showPasswordSection : bool) : list form_field :=
  Field "email" "Email" (Input "email" None None) true ::
  (if showPasswordSection
   then [Field "current_password" "Password Lama" (PasswordInput "Password saat ini") true;
         Field "new_password" "Password Baru" (PasswordInput "Minimal 8 karakter") true;
         Field "confirm_password" "Konfirmasi Password Baru" (PasswordInput "Ulangi password baru") true]
   else []).
Definition form (s : bool * FormValues) : list (string * jval) :=
  [("email", JStr (email s.2)); ("current_password", JStr (current_password s.2));
   ("new_password", JStr (new_password s.2)); ("confirm_password", JStr (confirm_password s.2))].
Definition send (is_email : string -> bool) (me : jval) (s : bool * FormValues) : option (list (string * jval)) :=
  body ← accepted (schema is_email) (payload me) s.2;
  if truthy (get "email" (JObj body)) || truthy (get "new_password" (JObj body)) then Some body else None.

(** What happens to the section and the values: typing in a field that is shown, the button,
    an accepted submission, and [me] arriving. *)
Inductive event : Type := TypeEmail (s : string) | TypeCurrent (s : string) | TypeNew (s : string) | TypeConfirm (s : string)
| Toggle | Saved (me : jval) | Loaded (me : jval).
Definition step (s : bool * FormValues) (e : event) : bool * FormValues :=
  let '(Values m c n k) := s.2 in
  match e with
  | TypeEmail t => (s.1, Values t c n k)
  | TypeCurrent t => if s.1 then (s.1, Values m t n k) else s
  | TypeNew t => if s.1 then (s.1, Values m c t k) else s
  | TypeConfirm t => if s.1 then (s.1, Values m c n t) else s
  | Toggle => toggle s
  | Saved me => (false, saved me s.2)
  | Loaded me => (s.1, reset me)
  end.
Definition run : list event -> bool * FormValues -> bool * FormValues := fold_left step.
Definition start : bool * FormValues := (false, defaultValues).
End AccountFields.

Module ProfileFields.
Import Account.ProfileForm.
Definition busy (isLoading isPending : bool) : bool := isLoading || isPending.
Definition save (isLoading isPending : bool) : string * bool := ("Simpan Perubahan", negb (busy isLoading isPending)).
(** [user?.id ?? '-'] and the others. *)
Definition or_dash (k : string) (user : option jval) : string :=
  match user with
  | Some u => match get k u with JUndef | JNull => "-" | v => js_String v end
  | None => "-"
  end.
Definition details (user : option jval) : list (string * string) :=
  [("User ID", or_dash "id" user); ("Username", or_dash "username" user); ("Role Hak Akses", or_dash "role" user);
   ("Status Akun", "Aktif")].
Definition fields (isLoading isPending : bool) : list form_field :=
  let on := negb (busy isLoading isPending) in
  [Field "username" "Username" (Input "text" None None) on; Field "password" "Password Baru" (Input "password" None None) on;
   Field "confirmPassword" "Konfirmasi Password Baru" (Input "password" None None) on].
Definition form (v : FormValues) : list (string * jval) :=
  [("username", JStr (username v)); ("password", JStr (password v)); ("confirmPassword", JStr (confirmPassword v))].
Definition send (user : jval) (v : FormValues) : option (list (string * jval)) :=
  body ← accepted profileFormSchema (payload user) v;
  if truthy (get "id" user) then match body with [] => None | _ => Some body end else None.
End ProfileFields.

(** ** The mobile bar's editor ([display-form.tsx]) *)

Module DisplayPage.
Import MobileNav Account.DisplayForm.
Definition title (i : MobileNavItemId) : string :=
  match i with
  | dashboard => "Dashboard" | hotspot => "Hotspot" | voucher => "Voucher" | traffic => "Traffic" | log => "Log"
  | report => "Report" | settings => "Settings" | help_center => "Help Center"
  end.
Definition children (i : MobileNavItemId) : list string :=
  match i with
  | hotspot => ["Users"; "Profiles"; "Active"; "Hosts"]
  | voucher => ["Generate"; "Print Queue"]
  | report => ["Daily"; "Monthly"]
  | settings => ["Profile"; "Account"; "Appearance"; "Display"; "Notifications"]
  | _ => []
  end.
(** A row of the selection, of the items left with whether it can be ticked, and the notes. *)
Record page : Type := Page
  { count : string; selected : list (string * list string); available : list (string * bool); notes : list string }.
Definition page_of (items : list jval) : page :=
  let v := shown items in
  Page (Z_to_string (Z.of_nat (length items)) +:+ "/" +:+ Z_to_string MAX_ITEMS)
    (map (fun i => (title i, children i)) (selectedItems v))
    (map (fun i => (title i, negb (isFull v))) (availableItems v))
    ((match selectedItems v with [] => ["No items selected. Pick from the list below."] | _ => [] end) ++
     (match availableItems v with [] => ["All items are already in the bottom nav."] | _ => [] end) ++
     (if isFull v && match availableItems v with [] => false | _ => true end
      then ["Remove an item from the selected list to add a new one."] else [])).
(** The row drawn under the pointer, while one is dragged. *)
Definition handleDragStart (active : MobileNavItemId) : option MobileNavItemId := Some active.
Definition handleDragCancel : option MobileNavItemId := None.
Definition overlay (activeId : option MobileNavItemId) : option string :=
  i ← activeId; title <$> ITEM_BY_ID (item i).
End DisplayPage.

(** ** Theorems *)

Lemma voucher_reads formatIDR profiles servers pl sl :
  reads_screen (fun _ => True) VoucherFields.form (fun _ => VoucherFields.fields formatIDR profiles servers pl sl)
    ((if sl then ["server"] else []) ++ if pl then ["profile"] else []) VoucherFields.send.
Proof.
  intros [? ? ? ? ? ? ? ? ? ? ?] [? ? ? ? ? ? ? ? ? ? ?] _ _ Hf. destruct pl, sl; agree Hf;
    repeat match goal with
    | E : _ = _ |- _ => first [apply charSet_text_inj in E | apply userType_text_inj in E | apply unit_text_inj in E]; subst
    end; reflexivity.
Qed.

Lemma general_reads : reads_screen (fun _ => True) GeneralFields.form (fun _ => GeneralFields.fields) [] GeneralFields.send.
Proof. intros [? ?] [? ?] _ _ Hf. agree Hf. reflexivity. Qed.
Lemma billing_reads : reads_screen (fun _ => True) BillingFields.form (fun _ => BillingFields.fields) [] BillingFields.send.
Proof. intros [? ? ? ? ?] [? ? ? ? ?] _ _ Hf. agree Hf. reflexivity. Qed.
Lemma notification_reads l :
  reads_screen (fun _ => True) NotificationFields.form (fun _ => NotificationFields.fields l) [] NotificationFields.send.
Proof. intros [? ? ? ? ?] [? ? ? ? ?] _ _ Hf. agree Hf. reflexivity. Qed.
Lemma backup_reads : reads_screen (fun _ => True) BackupFields.form (fun _ => BackupFields.fields) [] BackupFields.send.
Proof. intros [? ? ?] [? ? ?] _ _ Hf. agree Hf. reflexivity. Qed.
Lemma gateway_reads l :
  reads_screen (fun _ => True) GatewayFields.form (fun _ => GatewayFields.fields l) [] GatewayFields.send.
Proof. intros [? ? ? ? ?] [? ? ? ? ?] _ _ Hf. agree Hf. reflexivity. Qed.

(** While the section is hidden its fields are empty. *)
Definition cleared (s : bool * Account.AccountForm.FormValues) : Prop :=
  s.1 = false -> s.2 = Account.AccountForm.Values (Account.AccountForm.email s.2) "" "" "".

Lemma account_cleared es : cleared (AccountFields.run es AccountFields.start).
Proof.
  assert (cleared AccountFields.start) as H by done. revert H. generalize AccountFields.start.
  induction es as [|e es IH]; [done|]. intros [b [m c n k]] Hs. apply IH. unfold cleared in *.
  destruct e; cbn in *; destruct b; cbn in *; try done; intros _; by injection (Hs eq_refl) as -> -> ->.
Qed.

Lemma account_reads is_email me b :
  reads_screen (fun v => cleared (b, v)) (fun v => AccountFields.form (b, v)) (fun _ => AccountFields.fields b) []
    (fun v => AccountFields.send is_email me (b, v)).
Proof.
  intros [? ? ? ?] [? ? ? ?] H1 H2 Hf. unfold cleared in *. cbn in H1, H2. destruct b; [by agree Hf|].
  injection (H1 eq_refl) as -> -> ->. injection (H2 eq_refl) as -> -> ->. by agree Hf.
Qed.

Lemma profile_reads user :
  reads_screen (fun _ => True) ProfileFields.form (fun _ => ProfileFields.fields false false) [] (ProfileFields.send user).
Proof. intros [? ? ?] [? ? ?] _ _ Hf. by agree Hf. Qed.

(** *** The browser's check against the schemas *)

Lemma whole_Qc_of n : whole (Qc_of n) = true.
Proof.
  unfold whole, Qc_of. cbn [this Q2Qc]. apply Pos.eqb_eq.
  assert (Qred (inject_Z n) = inject_Z n) as E by apply Qred_identity, Z.gcd_1_r.
  by rewrite E.
Qed.

Lemma native_digits is_url is_email s min max : Settings.all_digits s = true ->
  native is_url is_email (Input "number" min max) s =
    match min with Some n => n <=? digits_val 0 s | None => true end && match max with Some n => digits_val 0 s <=? n | None => true end.
Proof.
  intros H. unfold native. destruct (String.eqb_spec s "") as [->|_]; [done|]. cbn [String.eqb Ascii.eqb Bool.eqb].
  rewrite (Settings.Number_digits s H), whole_Qc_of, andb_true_r.
  f_equal; [destruct min|destruct max]; done || apply Settings.Qle_Qc_of.
Qed.

Lemma native_text is_url is_email s : native is_url is_email (Input "text" None None) s = true.
Proof. unfold native. by destruct (String.eqb s ""). Qed.

Lemma native_password is_url is_email p s : native is_url is_email (PasswordInput p) s = true.
Proof. done. Qed.

(** The browser's check against the schemas: a billing or a backup form the schema accepts is never
    held back by the browser, so the messages the user sees are the schema's; the gateway's
    schema accepts a duration of any length, and it is the browser's bound that keeps a saved
    one between five minutes and a day, which is what the server reads. *)
Theorem browser_and_schemas is_url is_email settings db k def (g : Settings.PaymentGateway.FormValues) :
  (forall b, Settings.Billing.billing_schema b = true ->
     browser_lets is_url is_email BillingFields.fields (BillingFields.form b) = true) /\
  (forall b, Settings.Backup.backup_schema b = true ->
     browser_lets is_url is_email BackupFields.fields (BackupFields.form b) = true) /\
  (Settings.PaymentGateway.gateway_schema g = true ->
     let n := digits_val 0 (Settings.PaymentGateway.xendit_invoice_duration g) in
     let a := Settings.PaymentGateway.app_url g in
     browser_lets is_url is_email (GatewayFields.fields settings) (GatewayFields.form g) =
       (n <=? 86400) && (String.eqb a "" || is_url a) /\
     (browser_lets is_url is_email (GatewayFields.fields settings) (GatewayFields.form g) = true ->
      Settings.value <$> Settings.find_key k db = Some (Settings.PaymentGateway.xendit_invoice_duration g) ->
      300 <= Settings.settingInt db k def <= 86400)).
Proof.
  split_and!.
  - intros [a b c d e]. unfold Settings.Billing.billing_schema. cbn -[native]. intros H. b2p.
    rewrite !native_digits, native_text by done. rewrite !Settings.at_least_digits, ?Settings.at_most_digits in * by done. lia.
  - intros [a b c]. unfold Settings.Backup.backup_schema. cbn -[native]. intros H. b2p.
    rewrite native_digits, native_text by done. rewrite Settings.at_least_digits in * by done. lia.
  - destruct g as [on key token d url]. unfold Settings.PaymentGateway.gateway_schema. cbn -[native]. intros H. b2p.
    clear H0. rewrite Settings.at_least_digits in * by done.
    assert (native is_url is_email (Input "url" None None) url = String.eqb url "" || is_url url) as Hu.
    { unfold native. by destruct (String.eqb_spec url "") as [->|]. }
    rewrite native_digits, !native_password, Hu, H1, !andb_true_r by done. cbn [andb].
    split; [done|]. intros [Hb _]%andb_true_iff Hs.
    unfold Settings.settingInt. destruct (Settings.find_key k db) as [x|]; [|done]. injection Hs as ->.
    rewrite Settings.Atoi_digits by done. destruct (_ <? 2 ^ 63) eqn:E; lia.
Qed.

(** The address printed to register is the public address with the path appended: a slash
    typed at its end, which the schema accepts, is doubled. *)
Lemma webhook_slash_doubled : let g a := Settings.PaymentGateway.Values true "" "" "86400" a in
  Settings.PaymentGateway.gateway_schema (g "https://isp.id/") = true /\
  GatewayFields.webhook_url (g "https://isp.id/") = "https://isp.id//api/v1/public/webhooks/xendit".
Proof. by vm_compute. Qed.

(** As [FormFieldsRouter.requests_on_screen], for the forms that are pages: what is sent is
    made of what is shown and can be changed.  For the account form it takes the reachable
    fillings: hiding the password section empties it ([account_cleared]). *)
Theorem pages_send_what_they_show formatIDR profiles servers (pl sl : bool) settings is_email me user es :
  reads_screen (fun _ => True) VoucherFields.form (fun _ => VoucherFields.fields formatIDR profiles servers pl sl)
    ((if sl then ["server"] else []) ++ if pl then ["profile"] else []) VoucherFields.send /\
  reads_screen (fun _ => True) GeneralFields.form (fun _ => GeneralFields.fields) [] GeneralFields.send /\
  reads_screen (fun _ => True) BillingFields.form (fun _ => BillingFields.fields) [] BillingFields.send /\
  reads_screen (fun _ => True) NotificationFields.form (fun _ => NotificationFields.fields settings) [] NotificationFields.send /\
  reads_screen (fun _ => True) BackupFields.form (fun _ => BackupFields.fields) [] BackupFields.send /\
  reads_screen (fun _ => True) GatewayFields.form (fun _ => GatewayFields.fields settings) [] GatewayFields.send /\
  reads_screen (fun _ => True) ProfileFields.form (fun _ => ProfileFields.fields false false) [] (ProfileFields.send user) /\
  (forall b, reads_screen (fun v => cleared (b, v)) (fun v => AccountFields.form (b, v)) (fun _ => AccountFields.fields b) []
     (fun v => AccountFields.send is_email me (b, v))) /\
  cleared (AccountFields.run es AccountFields.start).
Proof.
  split_and!; [apply voucher_reads|apply general_reads|apply billing_reads|apply notification_reads|apply backup_reads|
    apply gateway_reads|apply profile_reads|intros b; apply account_reads|apply account_cleared].
Qed.

Lemma browser_and_schemas_witness :
  let g := Settings.PaymentGateway.Values true "" "" "3600" "https://isp.id" in
  let db := [Settings.Setting "payment.xendit_invoice_duration" "3600" "int" "payment_gateway"] in
  300 <= Settings.settingInt db "payment.xendit_invoice_duration" 86400 <= 86400.
Proof.
  intros g db.
  destruct (browser_and_schemas (startsWith "https://") (includes "@") [] db "payment.xendit_invoice_duration" 86400 g)
    as (_ & _ & H). refine (proj2 (H _) _ _); vm_compute; reflexivity.
Defined.
