(* ===== verification/Overview.v ===== *)
(** * The overview pages ([features/{dashboard,voucher,hotspot}/index.tsx])

    The cards, tables and buttons of the three pages as functions of what their queries
    have, and the server's side of the numbers: the sales table with its limit, its order
    and its filters ([store/transaction_store.go]) and the totals of the two handlers
    ([api/handler/report.go]).  [formatIDR] and the date format are [Intl]'s, parameters. *)
From S2P Require Import Prelude JsString JsValue JsNumber Hooks Ui ViewModels.
From S2P Require Hotspot.

(** A card: title, value, subtitle and link. *)
Record card : Type := Card { title : string; value : string; subtitle : string; to : string }.

(** [q.data ?? []] of a query of a list, its length. *)
Definition rows (data : option jval) : list jval := match data with Some (JArr l) => l | _ => [] end.
Definition count_of (data : option jval) : string := Z_to_string (Z.of_nat (length (rows data))).
(** [data?.k ?? 0]. *)
Definition number_of (k : string) (data : option jval) : jval :=
  match data with
  | Some d => match get k d with JUndef | JNull => JNum 0 | v => v end
  | None => JNum 0
  end.

(** ** The dashboard ([features/dashboard/index.tsx]) *)

Module Dashboard.
Section Page.
Variable formatIDR : jval -> string.

(** What the six queries have; [routerId] is [useActiveRouterId() ?? 0]. *)
Record queries : Type := Queries
  { routerId : Z; users : option jval; active : option jval; today : option jval; summary : option jval;
    customers : option jval; subscriptions : option jval }.

Definition todaysSales (q : queries) : list jval := rows (get "transactions" <$> today q).
Definition todaysRevenue (q : queries) : Z := fold_left (fun sum t => sum + Ui.number "sell_price" t) (todaysSales q) 0.
Definition sales_today (q : queries) : string := Z_to_string (Z.of_nat (length (todaysSales q))) +:+ " sales today".
Definition with_router (q : queries) (s : string) : string := if routerId q =? 0 then "—" else s.

Definition kpiStats (q : queries) : list card :=
  [Card "Active" (with_router q (count_of (active q))) "Live hotspot sessions" "";
   Card "Hotspot Users" (with_router q (count_of (users q))) "On selected router" "";
   Card "Income Today" (with_router q (formatIDR (JNum (todaysRevenue q)))) (sales_today q) "";
   Card "Customers" (count_of (customers q)) "Registered" "";
   Card "Subscriptions" (count_of (subscriptions q)) "PPPoE + hotspot" ""].

(** The rows of the card "This Month", Voucher sales summary. *)
Definition thisMonth (q : queries) : list (string * string) :=
  [("Sales count", with_router q (js_String (number_of "count" (summary q))));
   ("Revenue", with_router q (formatIDR (number_of "total_sell_price" (summary q))));
   ("Profit", with_router q (formatIDR (number_of "profit" (summary q))))].

Inductive recent : Type := Note (text : string) | Sales (l : list (string * string * string)).
Definition recent_heading (q : queries) : string :=
  if routerId q =? 0 then "Select a router to view sales" else sales_today q.
Definition recentSales (q : queries) : recent :=
  match todaysSales q with
  | [] => Note (if routerId q =? 0 then "No router selected." else "No sales today.")
  | l => Sales (map (fun t => (text "username" t,
                               (if truthy (get "profile" t) then text "profile" t else "—") +:+ " · " +:+ text "sale_time" t,
                               formatIDR (get "sell_price" t))) (take 8 l))
  end.
End Page.

(** What the page asks for, [answer] being the cache: the summary is that of no particular
    month. *)
Definition useQueries (activeRouterId : option Z) (answer : query_hook -> option jval) : queries :=
  let routerId := activeRouterId ?? 0 in
  Queries routerId (answer (Q_HotspotUsers_HotspotUsers routerId JUndef)) (answer (Q_HotspotActive_HotspotActive routerId))
    (answer (Q_Reports_SellingToday routerId)) (answer (Q_Reports_SellingSummary routerId None))
    (answer (Q_Customers_Customers JUndef)) (answer (Q_Subscriptions_Subscriptions JUndef)).
End Dashboard.

(** ** The voucher overview ([features/voucher/index.tsx]) *)

Module VoucherOverview.
Section Page.
Variable formatIDR : jval -> string.
Variable dateFormat : jval -> string.

Definition RECENT_SALES_LIMIT : nat := 10.
(** A query's data and flags. *)
Record query_state : Type := Q { data : option jval; isLoading : bool; isError : bool; isFetching : bool }.
Record queries : Type := Queries { routerId : option Z; summary : query_state; daily : query_state; presets : query_state }.
Definition useQueries (routerId : option Z) (today : string) (answer : query_hook -> query_state) : queries :=
  Queries routerId (answer (Q_Sales_DashboardSummary (routerId ?? 0)))
    (answer (Q_Sales_DailyReport (routerId ?? 0) today JUndef)) (answer (Q_QuickPrint_QuickPrintPackages (routerId ?? 0))).

Definition recent (q : queries) : list jval := take RECENT_SALES_LIMIT (rows (get "sales" <$> data (daily q))).
Definition presetCount (q : queries) : string := count_of (data (presets q)).
Definition fetching (q : queries) : bool := isFetching (summary q) || isFetching (daily q) || isFetching (presets q).
Definition one (d : option jval) : bool :=
  match d with Some v => jval_eqb (get "today_count" v) (JNum 1) | None => false end.
Definition kpis (q : queries) : list card :=
  let s := data (summary q) in
  [Card "Today's Sales" (js_String (number_of "today_count" s)) (formatIDR (number_of "today_sum" s)) "/voucher/generate";
   Card "This Month" (js_String (number_of "month_count" s)) (formatIDR (number_of "month_sum" s)) "/report/monthly";
   Card "Today Revenue" (formatIDR (number_of "today_sum" s))
     (js_String (number_of "today_count" s) +:+ " voucher" +:+ (if one s then "" else "s")) "/report/daily";
   Card "Quick Presets" (presetCount q) "configured" "/voucher/print"].
Definition actions : list (string * string) :=
  [("Generate Vouchers", "/voucher/generate"); ("Quick Print Presets", "/voucher/print"); ("Sales History", "/voucher/sales");
   ("View Reports", "/report/daily")].
Definition handleRefresh : list effect :=
  [Callback "refetch" (JStr "summary"); Callback "refetch" (JStr "daily"); Callback "refetch" (JStr "presets");
   Toast info "Refreshing voucher data…" JUndef].
Definition note (q : queries) : string :=
  if isLoading (daily q) then "Loading today’s sales…"
  else "Today’s sales — showing latest " +:+ Z_to_string (Z.of_nat (length (recent q))).
Inductive table : Type := Failed | Empty (text : string) | Rows (l : list (list string)).
Definition sale_row (sale : jval) : list string :=
  [dateFormat (get "sold_at" sale); text "username" sale; text "profile_name" sale; formatIDR (get "selling_price" sale);
   text "server" sale].
Definition sales_table (q : queries) : table :=
  if isError (daily q) then Failed
  else match recent q with
       | [] => Empty (if isLoading (daily q) then "Loading…" else "No recent sales.")
       | l => Rows (map sale_row l)
       end.
(** [None] is the page that asks to choose a router. *)
Definition page (q : queries) : option (list card * table) :=
  match routerId q with None => None | Some _ => Some (kpis q, sales_table q) end.
End Page.
End VoucherOverview.

(** ** The hotspot overview ([features/hotspot/index.tsx]) *)

Module HotspotOverview.
Section Page.
Variable to_utc : Z -> Z.

Record stats : Type := Stats
  { userCount : nat; disabledCount : nat; expiredCount : nat; profileCount : nat; monitorCount : nat; activeCount : nat;
    hostCount : nat; authorizedHosts : nat }.
Definition counts (p : jval -> bool) (l : list jval) : nat := length (List.filter p l).
Definition expired (now : Z) (u : jval) : bool :=
  match parseExpiryFromComment to_utc (get "comment" u) with Some exp => exp <? now | None => false end.
Definition stats_of (now : Z) (users profiles active hosts : list jval) : stats :=
  Stats (length users) (counts (fun u => routerOSBool (get "disabled" u)) users) (counts (expired now) users)
    (length profiles) (counts (fun p => hasExpiredMonitor (get "on_login" p)) profiles) (length active)
    (length hosts) (counts (fun h => routerOSBool (get "authorized" h)) hosts).

(** The label of the live feed. *)
Definition live_label (status : string) : string :=
  if String.eqb status "open" then "live" else if String.eqb status "connecting" then "connecting" else "snapshot".
Definition nat_text (n : nat) : string := Z_to_string (Z.of_nat n).
Definition kpis (s : stats) (status : string) : list card :=
  [Card "Hotspot Users" (nat_text (userCount s))
     (nat_text (disabledCount s) +:+ " disabled · " +:+ nat_text (expiredCount s) +:+ " expired") "/hotspot/users";
   Card "Profiles" (nat_text (profileCount s)) (nat_text (monitorCount s) +:+ " monitor active") "/hotspot/profiles";
   Card "Active Sessions" (nat_text (activeCount s)) (live_label status) "/hotspot/active";
   Card "Hosts" (nat_text (hostCount s)) (nat_text (authorizedHosts s) +:+ " authorized") "/hotspot/hosts"].
Definition handleRefresh : list effect :=
  map (fun k => Callback "refetch" (JStr k)) ["users"; "profiles"; "active"; "hosts"] ++
  [Toast info "Refreshing hotspot resources…" JUndef].
(** "Setup Expired Monitor". *)
Definition setup_click : list effect :=
  [Toast info "Coming soon" (JStr "Bulk monitor setup wiring lands in Phase 8.")].
End Page.
End HotspotOverview.

(** ** The server's numbers *)

Module Sales.
(** [model.Transaction]; the table is the list of its rows, newest first ([created_at desc]). *)
Record Transaction : Type := Transaction_ {
  ID : Z; DeviceID : Z; SaleDate : string; SaleTime : string; SaleMonth : string; Username : string; Price : Z;
  SellPrice : Z; IP : string; MAC : string; Validity : string; Profile : string; Comment : string; CreatedAt : string }.

Definition defaultTransactionLimit : nat := 500.
Definition ListByDevice (txs : list Transaction) (deviceID : Z) (month : string) : list Transaction :=
  take defaultTransactionLimit
    (List.filter (fun t => (DeviceID t =? deviceID) && (String.eqb month "" || String.eqb (SaleMonth t) month)) txs).
Definition ListByDeviceDate (txs : list Transaction) (deviceID : Z) (date : string) : list Transaction :=
  take defaultTransactionLimit (List.filter (fun t => (DeviceID t =? deviceID) && String.eqb (SaleDate t) date) txs).

Definition FromModelTransaction (t : Transaction) : jval :=
  JObj ([("id", JNum (ID t)); ("sale_date", JStr (SaleDate t)); ("sale_time", JStr (SaleTime t));
         ("sale_month", JStr (SaleMonth t)); ("username", JStr (Username t)); ("price", JNum (Price t));
         ("sell_price", JNum (SellPrice t))] ++ omitempty "ip" (IP t) ++ omitempty "mac" (MAC t) ++
        omitempty "validity" (Validity t) ++ omitempty "profile" (Profile t) ++ omitempty "comment" (Comment t) ++
        [("created_at", JStr (CreatedAt t))]).
Definition sum_of (f : Transaction -> Z) (l : list Transaction) : Z := fold_left (fun n t => n + f t) l 0.

Fixpoint bump (k : string) (l : list (string * Z)) : list (string * Z) :=
  match l with
  | [] => [(k, 1)]
  | (k', n) :: l => if String.eqb k k' then (k', n + 1) :: l else (k', n) :: bump k l
  end.
Definition ByProfile (l : list Transaction) : list (string * Z) :=
  fold_left (fun m t => if String.eqb (Profile t) "" then m else bump (Profile t) m) l [].
Definition aggregate (l : list Transaction) : list (string * jval) :=
  [("count", JNum (Z.of_nat (length l))); ("total_price", JNum (sum_of Price l));
   ("total_sell_price", JNum (sum_of SellPrice l)); ("profit", JNum (sum_of SellPrice l - sum_of Price l))] ++
  match ByProfile l with [] => [] | m => [("by_profile", JObj (map (fun e => (e.1, JNum e.2)) m))] end.

(** The handlers; a parameter that is not sent reads as the empty text. *)
Definition Query (v : option string) : string := v ?? "".
Definition SellingSummary (txs : list Transaction) (deviceID : Z) (month : option string) (includeTx : bool) : jval :=
  let l := ListByDevice txs deviceID (toLowerCase (Query month)) in
  JObj (aggregate l ++ (if includeTx then match l with [] => [] | _ => [("transactions", JArr (map FromModelTransaction l))] end else [])).
Definition SellingToday (txs : list Transaction) (deviceID : Z) (today : string) : jval :=
  let l := ListByDeviceDate txs deviceID today in
  JObj [("date", JStr today); ("count", JNum (Z.of_nat (length l))); ("transactions", JArr (map FromModelTransaction l))].
Definition Summary (txs : list Transaction) (deviceID : Z) (today monthKey : string) : jval :=
  let d := ListByDeviceDate txs deviceID today in let m := ListByDevice txs deviceID monthKey in
  JObj [("today_count", JNum (Z.of_nat (length d))); ("today_sum", JNum (sum_of SellPrice d));
        ("month_count", JNum (Z.of_nat (length m))); ("month_sum", JNum (sum_of SellPrice m))].

(** The report routes; [others] answers the rest of the queries. *)
Definition serve (txs : list Transaction) (today monthKey : string) (others : query_hook -> option jval) (h : query_hook) :
    option jval :=
  match h with
  | Q_Reports_SellingToday rid => Some (SellingToday txs rid today)
  | Q_Reports_SellingSummary rid month => Some (SellingSummary txs rid month true)
  | Q_Sales_DashboardSummary rid => Some (Summary txs rid today monthKey)
  | h => others h
  end.
End Sales.

(** ** Theorems *)

Lemma sale_price t : get "sell_price" (Sales.FromModelTransaction t) = JNum (Sales.SellPrice t).
Proof. unfold Sales.FromModelTransaction. cbn [app]. read_key. Qed.

Lemma sum_fold l n :
  fold_left (fun s t => s + Ui.number "sell_price" t) (map Sales.FromModelTransaction l) n =
  fold_left (fun s t => s + Sales.SellPrice t) l n.
Proof.
  revert n. induction l as [|t l IH]; [done|]. intros n. cbn [map fold_left]. rewrite IH.
  unfold Ui.number. by rewrite sale_price.
Qed.

(** C37: two cards called "This Month", over one table of sales. What the dashboard asks the
    backend for is the summary of no month: its card shows the totals of all the sales of
    the router, of whatever month, or of the newest five hundred when there are more. The
    card of the voucher overview shows those of the month (its newest five hundred). On
    today the two pages agree: the same income and the same count. *)
Theorem this_month_cards formatIDR txs dev today iso month others (flags : option jval -> VoucherOverview.query_state) :
  dev <> 0 -> (forall d, VoucherOverview.data (flags d) = d) ->
  let server := Sales.serve txs today month others in
  let q := Dashboard.useQueries (Some dev) server in
  let v := VoucherOverview.useQueries (Some dev) iso (fun h => flags (server h)) in
  let newest l := take 500 l in
  let all := newest (List.filter (fun t => Sales.DeviceID t =? dev) txs) in
  let of_month := newest (List.filter (fun t => (Sales.DeviceID t =? dev) &&
                                                (String.eqb month "" || String.eqb (Sales.SaleMonth t) month)) txs) in
  let of_day := newest (List.filter (fun t => (Sales.DeviceID t =? dev) && String.eqb (Sales.SaleDate t) today) txs) in
  let count l := Z_to_string (Z.of_nat (length l)) in
  let sells l := formatIDR (JNum (Sales.sum_of Sales.SellPrice l)) in
  Dashboard.thisMonth formatIDR q =
    [("Sales count", count all); ("Revenue", sells all);
     ("Profit", formatIDR (JNum (Sales.sum_of Sales.SellPrice all - Sales.sum_of Sales.Price all)))] /\
  VoucherOverview.kpis formatIDR v !! 1%nat = Some (Card "This Month" (count of_month) (sells of_month) "/report/monthly") /\
  Dashboard.kpiStats formatIDR q !! 2%nat = Some (Card "Income Today" (sells of_day) (count of_day +:+ " sales today") "") /\
  VoucherOverview.kpis formatIDR v !! 0%nat = Some (Card "Today's Sales" (count of_day) (sells of_day) "/voucher/generate").
Proof.
  intros Hd Hf server q v newest all of_month of_day count sells.
  assert (Sales.ListByDevice txs dev "" = all) as Hall.
  { unfold Sales.ListByDevice, all, newest. f_equal. apply filter_ext. intros t. cbn. by rewrite andb_true_r. }
  assert (forall s, Dashboard.with_router q s = s) as Hw.
  { intros s. unfold Dashboard.with_router. cbn. by rewrite (proj2 (Z.eqb_neq dev 0) Hd). }
  assert (Dashboard.summary q = Some (Sales.SellingSummary txs dev None true)) as Hs by done.
  assert (Dashboard.today q = Some (Sales.SellingToday txs dev today)) as Ht by done.
  assert (VoucherOverview.data (VoucherOverview.summary v) = Some (Sales.Summary txs dev today month)) as Hv by apply Hf.
  clearbody q v.
  split_and!.
  - unfold Dashboard.thisMonth. rewrite Hs, !Hw. unfold Sales.SellingSummary. cbn [Sales.Query default toLowerCase].
    change (toLowerCase "") with "". rewrite Hall.
    clear Hall. clearbody all. unfold Sales.aggregate. by destruct (Sales.ByProfile all), all.
  - unfold VoucherOverview.kpis. rewrite Hv. done.
  - unfold Dashboard.kpiStats. cbn [lookup list_lookup]. rewrite Hw. unfold Dashboard.sales_today, Dashboard.todaysRevenue, Dashboard.todaysSales.
    rewrite Ht. cbn. by rewrite length_map, sum_fold.
  - unfold VoucherOverview.kpis. rewrite Hv. done.
Qed.

Lemma counts_none p l : (forall x, x ∈ l -> p x = false) -> HotspotOverview.counts p l = O.
Proof.
  unfold HotspotOverview.counts. induction l as [|x l IH]; [done|]. intros H. cbn. rewrite H by left.
  apply IH. intros y Hy. apply H. by right.
Qed.
Lemma disabled_flag u : get "disabled" (user_json u) = JBool (u_disabled u).
Proof. read_key. Qed.
Lemma authorized_flag h : get "authorized" (host_json h) = JBool (h_authorized h).
Proof. read_key. Qed.

(** Over what the backend sends the hotspot overview cannot count: flags are booleans and
    it compares with the text 'true', and a profile's script is not sent; so no user is
    ever disabled, no host authorized and no monitor active, however many are. *)
Theorem hotspot_overview_counts to_utc now us ps rs active hs :
  Forall2 (fun p r => get "on_login" p = JUndef /\ Hotspot.HotspotProfiles.profile_row p = Ok r) ps rs ->
  let s := HotspotOverview.stats_of to_utc now (map user_json us) rs active (map host_json hs) in
  HotspotOverview.userCount s = length us /\ HotspotOverview.hostCount s = length hs /\
  HotspotOverview.profileCount s = length ps /\
  HotspotOverview.disabledCount s = O /\ HotspotOverview.authorizedHosts s = O /\ HotspotOverview.monitorCount s = O.
Proof.
  intros Hp s. cbn. rewrite !length_map. split_and!; [done|done|by apply Forall2_length in Hp|..].
  - apply counts_none. intros u (x & -> & _)%list_elem_of_fmap. rewrite disabled_flag. by destruct (u_disabled x).
  - apply counts_none. intros h (x & -> & _)%list_elem_of_fmap. rewrite authorized_flag. by destruct (h_authorized x).
  - apply counts_none. intros r Hr. apply list_elem_of_lookup in Hr as [i Hr].
    destruct (Forall2_lookup_r _ _ _ _ _ Hp Hr) as (p & _ & Ho & Hrow). unfold Hotspot.HotspotProfiles.profile_row in Hrow.
    destruct (_ p); [|done]. injection Hrow as <-. cbn. by rewrite Ho.
Qed.

Definition old_sale : Sales.Transaction :=
  Sales.Transaction_ 1 3 "may/30/2026" "10:00:00" "may2026" "abc12" 2000 3000 "" "" "1d" "vip" "" "2026-05-30T10:00:00+07:00".

(** A sale of May on the cards of June. *)
Lemma this_month_cards_witness :
  let server := Sales.serve [old_sale] "jun/04/2026" "jun2026" (fun _ => None) in
  Dashboard.thisMonth js_String (Dashboard.useQueries (Some 3) server) =
    [("Sales count", "1"); ("Revenue", "3000"); ("Profit", "1000")] /\
  VoucherOverview.kpis js_String (VoucherOverview.useQueries (Some 3) "2026-06-04"
      (fun h => VoucherOverview.Q (server h) false false false)) !! 1%nat =
    Some (Card "This Month" "0" "0" "/report/monthly").
Proof.
  intros server.
  destruct (this_month_cards js_String [old_sale] 3 "jun/04/2026" "2026-06-04" "jun2026" (fun _ => None)
    (fun d => VoucherOverview.Q d false false false)) as (H1 & H2 & _); [done|done|].
  split; [etransitivity; [exact H1|]; by vm_compute|etransitivity; [exact H2|]; by vm_compute].
Defined.
