(* ===== verification/ConfigDrawer.v ===== *)
(** * The theme drawer and the appearance page ([components/config-drawer.tsx],
    [features/settings/appearance/appearance-form.tsx])

    What the controls over Prefs show and set: the drawer's four groups of choices with
    their small reset buttons and the button that resets all, and the tables of themes and
    accents of the appearance page with the pictures drawn from them. *)
From S2P Require Import Prelude JsString Cookies Prefs.

(** ** The drawer *)

(** [ThemeConfig], [SidebarConfig], [LayoutConfig], [DirConfig]. *)
Inductive section : Type := ThemeConfig | SidebarConfig | LayoutConfig | DirConfig.
#[export] Instance section_eq_dec : EqDecision section.
Proof. solve_decision. Defined.

Definition title (s : section) : string :=
  match s with ThemeConfig => "Theme" | SidebarConfig => "Sidebar" | LayoutConfig => "Layout" | DirConfig => "Direction" end.
(** Value and label. *)
Definition items (s : section) : list (string * string) :=
  match s with
  | ThemeConfig => [("system", "System"); ("light", "Light"); ("dark", "Dark")]
  | SidebarConfig => [("inset", "Inset"); ("floating", "Floating"); ("sidebar", "Sidebar")]
  | LayoutConfig => [("default", "Default"); ("icon", "Compact"); ("offcanvas", "Full layout")]
  | DirConfig => [("ltr", "Left to Right"); ("rtl", "Right to Left")]
  end.
(** [value] of the radio group. *)
Definition checked (s : section) (p : page) : string :=
  match s with
  | ThemeConfig => theme p
  | SidebarConfig => variant p
  | LayoutConfig => layout_radio p
  | DirConfig => dir p
  end.
Definition initial (s : section) : string :=
  match s with
  | ThemeConfig => DEFAULT_THEME
  | SidebarConfig => DEFAULT_VARIANT
  | LayoutConfig => "default"
  | DirConfig => DEFAULT_DIRECTION
  end.
Definition showReset (s : section) (p : page) : bool := negb (String.eqb (checked s p) (initial s)).
Definition onValueChange (s : section) (v : string) : list action :=
  match s with
  | ThemeConfig => [SetTheme v]
  | SidebarConfig => [SetVariant v]
  | LayoutConfig => layout_onValueChange v
  | DirConfig => [SetDir v]
  end.
Definition onReset (s : section) : list action :=
  match s with
  | ThemeConfig => [SetTheme DEFAULT_THEME]
  | SidebarConfig => [SetVariant DEFAULT_VARIANT]
  | LayoutConfig => layout_onReset
  | DirConfig => [SetDir DEFAULT_DIRECTION]
  end.
(** A choice of [RadioGroupItem]: its accessible name, and whether it has the check mark. *)
Definition radio_item (s : section) (p : page) (i : string * string) : string * bool :=
  ("Select " +:+ toLowerCase i.2, String.eqb (checked s p) i.1).
(** The sidebar's and the layout's groups are hidden on a narrow screen. *)
Definition hidden_on_mobile (s : section) : bool := match s with SidebarConfig | LayoutConfig => true | _ => false end.
Definition drawer : list section := [ThemeConfig; SidebarConfig; LayoutConfig; DirConfig].

(** ** The appearance page *)

(** Label, background, card, bar and sidebar colours. *)
Record preview : Type := Preview { label : string; bg : string; card : string; bar : string; sidebar : string }.
Definition themePreviews : list (string * preview) :=
  [("light", Preview "Light" "#ecedef" "#ffffff" "#ecedef" "#ffffff");
   ("dark", Preview "Dark" "#020617" "#1e293b" "#475569" "#0f172a");
   ("blue", Preview "Ocean Blue" "#e0f2fe" "#ffffff" "#bae6fd" "#0369a1");
   ("green", Preview "Forest Green" "#d1fae5" "#ffffff" "#a7f3d0" "#065f46");
   ("pink", Preview "Rose Pink" "#fce7f3" "#ffffff" "#fbcfe8" "#9d174d");
   ("roslib-dark", Preview "Roslib Dark" "#0B1220" "#131D36" "#22D3EE" "#0E162A");
   ("roslib-light", Preview "Roslib Light" "#F4F6FB" "#FFFFFF" "#8B5CF6" "#FFFFFF")].
Definition accentPreviews : list (string * (string * list string)) :=
  [("accent-roslib", ("Roslib", ["#22D3EE"; "#8B5CF6"; "#A3E635"]));
   ("accent-tech", ("Tech", ["#3B82F6"; "#06B6D4"; "#10B981"]));
   ("accent-sunset", ("Sunset", ["#F97316"; "#FACC15"; "#EF4444"]));
   ("accent-corporate", ("Corporate", ["#1E40AF"; "#0EA5E9"; "#64748B"]));
   ("accent-natural", ("Natural", ["#84CC16"; "#14B8A6"; "#E7E5E4"]))].
Definition preview_of {A} (key : string) (l : list (string * A)) : option A :=
  snd <$> List.find (fun e => String.eqb e.1 key) l.

(** The picture of a theme: a sheet with three cards, two bars in the first, a dot and a bar
    in the others; that of an accent: its colours, and their list as its title. *)
Inductive shape : Type := Sheet (background : string) (cards : list shape) | Card (background : string) (inside : list shape) | Bar (c : string) | Dot (c : string).
Definition ThemePreview (p : preview) : shape :=
  Sheet (bg p)
    [Card (card p) [Bar (bar p); Bar (bar p)]; Card (card p) [Dot (sidebar p); Bar (bar p)];
     Card (card p) [Dot (sidebar p); Bar (bar p)]].
Definition accent_title (colors : list string) : string := join " · " colors.

(** The three fields: the fonts by name, the themes and accents by label. *)
Record choices : Type := Choices
  { font_options : list (string * string); theme_options : list (string * string); accent_options : list (string * string) }.
Definition AppearanceForm : choices :=
  Choices (map (fun f => (f, f)) fonts)
    (map (fun k => (k, from_option label "" (preview_of k themePreviews))) THEME_CLASSES)
    (map (fun k => (k, from_option fst "" (preview_of k accentPreviews))) ACCENT_CLASSES).

(** ** Theorems *)

(** What an action does to what is shown. *)
Definition after (a : action) (v : string * string * string * string * (string * string * bool)) :
    string * string * string * string * (string * string * bool) :=
  let '(t, ac, f, d, (c, vr, o)) := v in
  match a with
  | SetTheme t' => (t', ac, f, d, (c, vr, o))
  | SetAccent a' => (t, a', f, d, (c, vr, o))
  | ResetTheme => (DEFAULT_THEME, DEFAULT_ACCENT, f, d, (c, vr, o))
  | SetDir d' => (t, ac, f, d', (c, vr, o))
  | ResetDir => (t, ac, f, DEFAULT_DIRECTION, (c, vr, o))
  | SetFont f' => (t, ac, f', d, (c, vr, o))
  | ResetFont => (t, ac, "inter", d, (c, vr, o))
  | SetCollapsible c' => (t, ac, f, d, (c', vr, o))
  | SetVariant v' => (t, ac, f, d, (c, v', o))
  | ResetLayout => (t, ac, f, d, (DEFAULT_COLLAPSIBLE, DEFAULT_VARIANT, o))
  | SetOpen b => (t, ac, f, d, (c, vr, b))
  | ToggleSidebar m => (t, ac, f, d, (c, vr, if m then o else negb o))
  | SchemeChanges _ => v
  end.

Lemma _setTheme_shown t p p' : _setTheme t p = Some p' -> shown p' = after (SetTheme t) (shown p).
Proof.
  unfold _setTheme. destruct (String.eqb_spec t (theme p)) as [->|_]; [by intros [= <-]|].
  destruct (applyTheme _ _); [|done]. by intros [= <-].
Qed.
Lemma _setAccent_shown a p p' : _setAccent a p = Some p' -> shown p' = after (SetAccent a) (shown p).
Proof.
  unfold _setAccent. destruct (String.eqb_spec a (accent p)) as [->|_]; [by intros [= <-]|].
  destruct (applyAccent _ _); [|done]. by intros [= <-].
Qed.
Lemma _setFont_shown f p p' : _setFont f p = Some p' -> shown p' = after (SetFont f) (shown p).
Proof.
  unfold _setFont. destruct (String.eqb_spec f (font p)) as [->|_]; [by intros [= <-]|].
  destruct (applyFont _ _); [|done]. by intros [= <-].
Qed.

Lemma drawer_step_shown a p p' : step p a = Some p' -> shown p' = after a (shown p).
Proof.
  destruct a; cbn [step]; intros H.
  - by apply _setTheme_shown in H.
  - by apply _setAccent_shown in H.
  - unfold resetTheme in H. destruct (_setTheme _ _) as [q|] eqn:E; [|done].
    apply _setTheme_shown in E. apply _setAccent_shown in H. by rewrite H, E.
  - by injection H as <-.
  - by injection H as <-.
  - by apply _setFont_shown in H.
  - by apply _setFont_shown in H.
  - by injection H as <-.
  - by injection H as <-.
  - by injection H as <-.
  - by injection H as <-.
  - injection H as <-. by destruct isMobile.
  - unfold handleChange in H. destruct (String.eqb _ _); [|by injection H as <-].
    destruct (applyTheme _ _); [|done]. by injection H as <-.
Qed.

Lemma run_shown acts p p' : run acts p = Some p' -> shown p' = fold_left (fun v a => after a v) acts (shown p).
Proof.
  revert p. induction acts as [|a acts IH]; intros p; cbn [run fold_left]; [by intros [= <-]|].
  destruct (step p a) as [q|] eqn:E; [|done]. intros H. cbn in H. by rewrite (IH _ H), (drawer_step_shown _ _ _ E).
Qed.

Definition checked_of (s : section) (v : string * string * string * string * (string * string * bool)) : string :=
  let '(t, _, _, d, (c, vr, o)) := v in
  match s with ThemeConfig => t | SidebarConfig => vr | LayoutConfig => if o : bool then "default" else c | DirConfig => d end.
Lemma checked_shown s p : checked s p = checked_of s (shown p).
Proof. by destruct s. Qed.

Lemma items_typed s v : v ∈ map fst (items s) -> Forall (fun a => typed a = true) (onValueChange s v).
Proof. destruct s; intros H; each H; by repeat constructor. Qed.

(** The drawer shows what is chosen in it: a click on a choice of any group raises no error,
    leaves that choice checked and the other groups as they were, shows the group's reset
    button exactly if the choice is not the initial one, and survives a reload; the reset
    button of a group brings it to its initial choice; and the button that resets all brings
    every group there, so that no reset button is left. *)
Theorem drawer_shows_choice p : page_ok p ->
  (forall s v, v ∈ map fst (items s) -> exists q, run (onValueChange s v) p = Some q /\ page_ok q /\
     checked s q = v /\ (forall s', s' <> s -> checked s' q = checked s' p) /\
     showReset s q = negb (String.eqb v (initial s))) /\
  (forall s, exists q, run (onReset s) p = Some q /\ page_ok q /\ showReset s q = false) /\
  (exists q, run handleReset p = Some q /\ page_ok q /\ forall s, checked s q = initial s /\ showReset s q = false).
Proof.
  intros Hp. split_and!.
  - intros s v Hv. destruct (run_ok _ p (items_typed s v Hv) Hp) as (q & E & Hq). exists q.
    apply run_shown in E as Es.
    assert (checked s q = v) as Hc.
    { rewrite checked_shown, Es. destruct s; each Hv; reflexivity. }
    split_and!; [done|done|done| |by unfold showReset; rewrite Hc].
    intros s' Hs. rewrite !checked_shown, Es. destruct s, s'; try done; each Hv; reflexivity.
  - intros s. destruct (run_ok (onReset s) p) as (q & E & Hq); [destruct s; repeat constructor|done|].
    exists q. apply run_shown in E as Es. split_and!; [done|done|]. unfold showReset. rewrite checked_shown, Es. destruct s; reflexivity.
  - destruct (run_ok handleReset p) as (q & E & Hq); [by repeat constructor|done|]. exists q. apply run_shown in E as Es.
    split_and!; [done|done|]. intros s. unfold showReset. rewrite checked_shown, Es. destruct s; split; reflexivity.
Qed.

(** Each theme and each accent the form accepts has its preview, and no other. *)
Lemma previews_complete : map fst themePreviews = THEME_CLASSES /\ map fst accentPreviews = ACCENT_CLASSES.
Proof. done. Qed.

Lemma drawer_shows_choice_witness :
  exists p q, mount [] false = Some p /\ run (onValueChange LayoutConfig "icon") p = Some q /\
    checked LayoutConfig q = "icon" /\ checked ThemeConfig q = checked ThemeConfig p.
Proof.
  destruct (mount_ok [] false) as (p & E & Hp & _); [split; [split; constructor|left]|].
  destruct (drawer_shows_choice p Hp) as (H & _). destruct (H LayoutConfig "icon") as (q & Eq & _ & H1 & H2 & _).
  - right. left.
  - exists p, q. split_and!; [exact E|exact Eq|exact H1|by apply H2].
Defined.
