(* ===== verification/PortalPages.v ===== *)
(** * What the customer portal shows ([features/customer-portal])

    The screens of the portal: home, the invoice list, one invoice with its ways to pay, the
    payments, the subscriptions, the tickets, the account with its password sheet, the login
    page and the tab bar.  A screen is a function of what the queries have and of the page's
    own state; Portal holds the handlers.  [formatIDR] and the two date formats are
    [Intl]'s, parameters; a list whose query has no data is empty, as the code has it. *)
From S2P Require Import Prelude JsString JsValue JsNumber AuthStore Hooks Ui.
From S2P Require Nav Format Actions Portal.

(** A query's data and [isLoading]: a query that failed has neither. *)
Record query : Type := Query { data : option jval; isLoading : bool }.
Definition rows (q : query) : list jval := match data q with Some (JArr l) => l | _ => [] end.
Definition nat_text (n : nat) : string := Z_to_string (Z.of_nat n).

(** A box with what it holds; the browser submits no form while a [required] box is empty or
    its button is disabled. *)
Record box : Type := Box { id : string; label : string; type : string; value : string; required : bool }.
Record button : Type := Button { caption : string; on : bool }.
Definition submits (bs : list box) (b : button) : bool :=
  forallb (fun x => negb (required x) || negb (String.eqb (value x) "")) bs && on b.
Definition secret_type (shown : bool) : string := if shown then "text" else "password".

(** A label with its value ([InfoRow]) and a badge. *)
Definition row : Type := (string * string)%type.
Definition badge : Type := Portal.StatusInfo.

Section Dates.
Variable mediumDate monthYear : jval -> string.

(** [formatIDDate] and [formatPeriod] of [_shared/format.ts]. *)
Definition formatIDDate (iso : jval) : string := if truthy iso then mediumDate iso else "—".
Definition formatPeriod (start end_ : jval) : string :=
  let fmtS := monthYear start in
  let fmtE := monthYear end_ in
  if String.eqb fmtS fmtE then fmtS else fmtS +:+ " – " +:+ fmtE.
End Dates.

(** ** Login ([auth/index.tsx]) *)

Definition login_boxes (phone password : string) (showPassword : bool) : list box :=
  [Box "phone" "Nomor HP" "tel" phone true; Box "password" "Password" (secret_type showPassword) password true].
Definition login_button (isPending : bool) : button := Button "Masuk" (negb isPending).

(** ** Home ([home/index.tsx]) *)

Module Home.
Inductive service : Type := Wait | Service (name : string) (st : badge) | NoService.
Inductive bill : Type :=
| WaitBill
| Bill (heading : string) (st : badge) (amount due : string) (button to : string)
| AllPaid (title text : string).

Record screen : Type := Screen
  { greeting : option (string * option string);   (** [None] while it loads *)
    status : service; hero : bill;
    plan : option (string * option string); quick : list (string * string * option string) }.

Section Page.
Variable formatIDR : jval -> string.
Variable mediumDate monthYear : jval -> string.
Notation formatIDDate := (formatIDDate mediumDate).
Notation formatPeriod := (formatPeriod monthYear).
Definition greeting_of (me : query) : option (string * option string) :=
  if isLoading me then None
  else match data me with
  | None => Some ("—", None)
  | Some m =>
      Some (match get "full_name" m with JUndef | JNull => "—" | v => js_String v end,
            if truthy (get "status" m)
            then Some (if jval_eqb (get "status" m) (JStr "active") then "Aktif" else text "status" m) else None)
  end.
Definition service_of (subs : query) : service :=
  if isLoading subs then Wait
  else match rows subs with
  | s :: _ => Service (if truthy (get "mikrotik_username" s) then text "mikrotik_username" s else "—")
                (Portal.subStatus (text "status" s))
  | [] => NoService
  end.
Definition hero_of (issued overdue : query) : bill :=
  if isLoading issued then WaitBill
  else match Portal.Home.topInvoice (rows issued) (rows overdue) with
  | Some i =>
      Bill (Portal.Home.heading (Z.of_nat (length (Portal.Home.allUnpaid (rows issued) (rows overdue)))))
        (Portal.invoiceStatus (text "status" i)) (formatIDR (get "amount" i))
        ("Jatuh tempo: " +:+ formatIDDate (get "due_date" i)) "Lihat & Tunjukkan Kode Bayar" "/portal/invoices"
  | None => AllPaid "Tidak ada tagihan" "Semua tagihan Anda sudah lunas"
  end.
Definition kind_of (sub : jval) : string :=
  if jval_eqb (get "service_type" sub) (JStr "pppoe") then "PPPoE" else "Hotspot".
Definition plan_of (subs : query) : option (string * option string) :=
  match rows subs with
  | s :: _ => Some (kind_of s +:+ " · " +:+ text "mikrotik_username" s,
                    if truthy (get "next_invoice_date" s)
                    then Some ("Tagihan berikutnya: " +:+ formatIDDate (get "next_invoice_date" s)) else None)
  | [] => None
  end.
Definition quick_links (n : nat) : list (string * string * option string) :=
  [("Tagihan", "/portal/invoices", Portal.Home.badge (Z.of_nat n)); ("Riwayat Bayar", "/portal/payments", None)].

Definition screen_of (me subs issued overdue : query) : screen :=
  Screen (greeting_of me) (service_of subs) (hero_of issued overdue) (plan_of subs)
    (quick_links (length (Portal.Home.allUnpaid (rows issued) (rows overdue)))).
(** The links of the page. *)
Definition links : list string := ["/portal/invoices"; "/portal/subscriptions"; "/portal/invoices"; "/portal/payments"].
End Page.
End Home.

(** ** The invoice list ([invoices/invoice-list.tsx]) *)

Module InvoiceList.
Record chip : Type := Chip { name : string; chosen : bool; count : option string }.
Definition chips (activeFilter : string) (issued overdue : query) : list chip :=
  map (fun f => Chip f.1 (String.eqb activeFilter f.2)
         (if String.eqb f.2 "all" && (0 <? Portal.InvoiceList.unpaidCount (rows issued) (rows overdue))
          then Some (Z_to_string (Portal.InvoiceList.unpaidCount (rows issued) (rows overdue))) else None))
    Portal.InvoiceList.FILTERS.

(** A card of the list is a link. *)
Record card : Type := Card { to : string; number : string; st : badge; period : string; amount : string; struck : bool; when : string }.
Section Page.
Variable formatIDR : jval -> string.
Variable mediumDate monthYear : jval -> string.
Notation formatIDDate := (formatIDDate mediumDate).
Notation formatPeriod := (formatPeriod monthYear).
Definition InvoiceCard (i : jval) : card :=
  let paid := jval_eqb (get "status" i) (JStr "paid") in
  Card ("/portal/invoices/" +:+ text "id" i) (text "invoice_number" i) (Portal.invoiceStatus (text "status" i))
    (formatPeriod (get "period_start" i) (get "period_end" i)) (formatIDR (get "amount" i)) paid
    (if paid then "Lunas " +:+ formatIDDate (get "paid_at" i) else "Jatuh tempo " +:+ formatIDDate (get "due_date" i)).

Inductive body : Type := Skeletons (n : nat) | Empty (title text : string) | Cards (l : list card).
Definition body_of (activeFilter : string) (all issued overdue paid : query) : body :=
  if isLoading all then Skeletons 3
  else match Portal.InvoiceList.displayed activeFilter (rows all) (rows issued) (rows overdue) (rows paid) with
  | [] => Empty "Tidak ada tagihan" (Portal.InvoiceList.empty_text activeFilter)
  | l => Cards (map InvoiceCard l)
  end.
End Page.
End InvoiceList.

(** ** Payments ([payments/payment-history.tsx]) *)

Module Payments.
Record card : Type := Card { stripe : string; amount : string; st : badge; how : string; of_invoice : string }.
Section Page.
Variable formatIDR : jval -> string.
Variable mediumDate monthYear : jval -> string.
Notation formatIDDate := (formatIDDate mediumDate).
Notation formatPeriod := (formatPeriod monthYear).
Definition card_of (pay : jval) : card :=
  let s := get "status" pay in
  Card (if jval_eqb s (JStr "confirmed") then "bg-emerald-500"
        else if jval_eqb s (JStr "rejected") then "bg-destructive" else "bg-amber-400")
    (formatIDR (get "amount" pay)) (Portal.paymentStatus (text "status" pay))
    (Portal.paymentMethod (text "method" pay) +:+
     (if truthy (get "confirmed_at" pay) then " · " +:+ formatIDDate (get "confirmed_at" pay) else ""))
    ("Invoice #" +:+ text "invoice_id" pay).
Inductive body : Type := Skeletons (n : nat) | Empty (title text : string) | Cards (l : list card).
Definition body_of (payments : query) : body :=
  if isLoading payments then Skeletons 4
  else match rows payments with
  | [] => Empty "Belum ada pembayaran" "Riwayat pembayaran Anda akan muncul di sini"
  | l => Cards (map card_of l)
  end.
End Page.
End Payments.

(** ** Subscriptions ([subscriptions/index.tsx]) *)

Module Subscriptions.
Record card : Type := Card { title : string; st : badge; info : list row; syncing : bool; warning : option string }.
Section Page.
Variable formatIDR : jval -> string.
Variable mediumDate monthYear : jval -> string.
Notation formatIDDate := (formatIDDate mediumDate).
Notation formatPeriod := (formatPeriod monthYear).
Definition info_of (sub : jval) : list row :=
  [("Username", text "mikrotik_username" sub); ("Tipe Koneksi", Home.kind_of sub);
   ("Tagihan Berikutnya", if truthy (get "next_invoice_date" sub) then formatIDDate (get "next_invoice_date" sub) else "—")] ++
  (if 0 <? number "billing_day" sub then [("Hari Tagih", "Tgl " +:+ text "billing_day" sub)] else []) ++
  (if truthy (get "activated_at" sub) then [("Aktif Sejak", formatIDDate (get "activated_at" sub))] else []).
Definition warning_of (status : string) : option string :=
  if String.eqb status "isolir"
  then Some "Layanan diisolir karena tagihan belum dibayar. Segera lunasi tagihan agar layanan aktif kembali."
  else if String.eqb status "suspended" then Some "Layanan diblokir. Hubungi admin untuk informasi lebih lanjut."
  else None.
Definition card_of (sub : jval) : card :=
  Card (Home.kind_of sub) (Portal.subStatus (text "status" sub)) (info_of sub)
    (truthy (get "sync_status" sub) && negb (jval_eqb (get "sync_status" sub) (JStr "synced")))
    (warning_of (text "status" sub)).
Inductive body : Type := Skeletons (n : nat) | Empty (title text : string) | Cards (l : list card).
Definition body_of (subs : query) : body :=
  if isLoading subs then Skeletons 2
  else match rows subs with
  | [] => Empty "Tidak ada langganan" "Hubungi admin untuk informasi lebih lanjut"
  | l => Cards (map card_of l)
  end.
(** The notes under the cards. *)
Definition notes (subs : query) : list string :=
  "Untuk perubahan paket atau informasi lebih lanjut, hubungi admin Anda." ::
  match rows subs with
  | [] => []
  | _ => ["Tagihan dihasilkan otomatis setiap bulan sesuai tanggal tagih paket Anda."]
  end.
End Page.
End Subscriptions.

(** ** Tickets ([tickets/index.tsx]): a page over two written-in examples *)

Module Tickets.
Record ticket : Type := Ticket { code : string; title : string; preview : string; status : string; createdAt : string; replyCount : Z }.
Definition MOCK_TICKETS : list ticket :=
  [Ticket "TKT-001" "Koneksi internet lambat di sore hari"
     "Setiap sore sekitar jam 4-8 malam, koneksi internet saya sangat lambat..." "in_progress" "3 Jun 2026" 2;
   Ticket "TKT-002" "Router tidak bisa connect"
     "Router saya tidak bisa terkoneksi ke internet sejak tadi pagi..." "resolved" "28 Mei 2026" 5].
Definition statusMap : list (string * badge) :=
  [("open", Portal.Info "Menunggu" "idle"); ("in_progress", Portal.Info "Diproses" "default");
   ("resolved", Portal.Info "Selesai" "online")].
Definition FILTERS : list (string * string) := [("Semua", "all"); ("Terbuka", "open"); ("Selesai", "resolved")].
Definition displayed (filter : string) (l : list ticket) : list ticket :=
  List.filter (fun t => if String.eqb filter "all" then true
                        else if String.eqb filter "open" then negb (String.eqb (status t) "resolved")
                        else String.eqb (status t) "resolved") l.
End Tickets.

(** ** The tab bar ([_shared/bottom-tab-bar.tsx]) *)

Module TabBar.
Record tab : Type := Tab { href : string; name : string; exact : bool }.
Definition tabs : list tab :=
  [Tab "/portal" "Beranda" true; Tab "/portal/invoices" "Tagihan" false; Tab "/portal/subscriptions" "Langganan" false;
   Tab "/portal/profile" "Akun" false].
Definition active (pathname : string) (t : tab) : bool :=
  if exact t then String.eqb pathname (href t) else startsWith (href t) pathname.
Definition count_of (unpaidCount : Z) (t : tab) : option string :=
  if String.eqb (name t) "Tagihan" && (0 <? unpaidCount)
  then Some (if 9 <? unpaidCount then "9+" else Z_to_string unpaidCount) else None.
(** Name, whether it is lit, and the number on it. *)
Definition bar (pathname : string) (issued overdue : query) : list (string * bool * option string) :=
  map (fun t => (name t, active pathname t, count_of (Portal.InvoiceList.unpaidCount (rows issued) (rows overdue)) t)) tabs.
End TabBar.

(** ** One invoice ([invoices/invoice-detail.tsx]) *)

Module Detail.
Import Portal.Detail.

(** The file box: an invitation to choose one, or the chosen one with a button to drop it. *)
Inductive chooser : Type :=
| Choose (invitation hint accept : string)
| Chosen (image : bool) (file_name size : string).

Inductive panel : Type :=
| Summary (number : string) (st : badge) (amount : string) (info : list row)
| PaidPanel (title when : string)
| WaitingPanel (title : string) (info : list row) (proof : option string)
| RejectedPanel (title reason : string)
| GatewaySkeleton
| OnlinePanel (title : string) (b : button)
| ManualPanel (amount : string) (boxes : list box) (file : chooser) (b : button)
| CashPanel (title qr code : string) (copy : string).

Inductive screen : Type := Skeletons | Missing (text : string) | Panels (l : list panel).

Section Page.
Variable formatIDR : jval -> string.
Variable mediumDate monthYear : jval -> string.
Notation formatIDDate := (formatIDDate mediumDate).
Notation formatPeriod := (formatPeriod monthYear).
Variable VITE_API_URL : option string.
Variable token : string.    (** [customerToken] *)

Definition summary_of (i : jval) : panel :=
  Summary (text "invoice_number" i) (Portal.invoiceStatus (Portal.status_of i)) (formatIDR (get "amount" i))
    ([("Periode", formatPeriod (get "period_start" i) (get "period_end" i));
      ("Jatuh Tempo", formatIDDate (get "due_date" i))] ++
     (if truthy (get "paid_at" i) then [("Tanggal Lunas", formatIDDate (get "paid_at" i))] else []) ++
     (if truthy (get "notes" i) then [("Catatan", text "notes" i)] else [])).
Definition waiting_of (p : jval) : panel :=
  WaitingPanel "Menunggu Konfirmasi"
    [("Bank Pengirim", or_dash "bank_name" p); ("No. Referensi", or_dash "reference_number" p);
     ("Jumlah", formatIDR (get "amount" p))]
    (if truthy (get "proof_url" p) then Some (proof_src VITE_API_URL token (text "proof_url" p)) else None).
Definition rejected_of (rejectedPayment : option jval) : list panel :=
  match rejectedPayment with
  | Some r => [RejectedPanel "Pembayaran Sebelumnya Ditolak"
                 (if truthy (get "rejection_reason" r) then text "rejection_reason" r
                  else "Bukti transfer tidak valid/jelas")]
  | None => []
  end.

Definition online_of (isInitiating : bool) : panel :=
  OnlinePanel "Bayar Online" (Button (if isInitiating then "Menyiapkan pembayaran..." else "Bayar Sekarang") (negb isInitiating)).
Definition chooser_of (s : state) : chooser :=
  match previewUrl s with
  | None => Choose "Klik untuk pilih berkas" "PNG, JPG, JPEG atau PDF (maks. 5MB)" "image/*,.pdf"
  | Some _ =>
      match selectedFile s with
      | Some f => Chosen (startsWith "image/" (text "type" f)) (text "name" f)
                    (Format.toFixed 2 (number "size" f) 1048576 +:+ " MB")
      | None => Chosen false "" ""
      end
  end.
Definition send_of (s : state) : button :=
  Button (match sending s with
          | Uploading _ _ => "Mengunggah file..."
          | Submitting => "Mengirim data..."
          | Idle => "Kirim Bukti Pembayaran"
          end) (negb (button_disabled s)).
Definition manual_of (i : jval) (s : state) : panel :=
  ManualPanel (formatIDR (get "amount" i))
    [Box "bank-name" "Nama Bank / Dompet Pengirim" "text" (bankName s) false;
     Box "ref-number" "Nomor Referensi / ID Transaksi" "text" (referenceNumber s) false]
    (chooser_of s) (send_of s).
Definition cash_of (i : jval) (copied : bool) : list panel :=
  if truthy (get "qr_content" i) && truthy (get "payment_code" i)
  then [CashPanel "Bayar via Kasir (Tunai)" (text "qr_content" i) (formattedCode (Some (text "payment_code" i)))
          (if copied then "Tersalin!" else "Salin Kode")]
  else [].

(** What is under the summary. *)
Definition ways (invoiceId : Z) (d : data) (i : jval) (isInitiating copied : bool) (s : state) : list panel :=
  if String.eqb (Portal.status_of i) "paid"
  then [PaidPanel "Tagihan Lunas" ("Dibayar pada " +:+ formatIDDate (get "paid_at" i))]
  else match pendingPayment (payments d) invoiceId with
  | Some p => [waiting_of p]
  | None =>
      if isUnpaid i then
        rejected_of (rejectedPayment (payments d) invoiceId) ++
        [if isGatewayLoading d then GatewaySkeleton
         else if gatewayEnabled d then online_of isInitiating else manual_of i s] ++
        cash_of i copied
      else []
  end.
Definition screen_of (invoiceId : Z) (d : data) (isInitiating copied : bool) (s : state) : screen :=
  if isInvoiceLoading d || isPaymentsLoading d then Skeletons
  else match invoice d with
  | None => Missing "Tagihan tidak ditemukan"
  | Some i => Panels (summary_of i :: ways invoiceId d i isInitiating copied s)
  end.
End Page.
End Detail.

(** ** The account ([profile/index.tsx]) *)

Module Profile.
Definition dash (s : string) : string := if String.eqb s "" then "—" else s.
Definition field_or_empty (k : string) (me : query) : string :=
  match data me with
  | Some m => match get k m with JUndef | JNull => "" | v => js_String v end
  | None => ""
  end.
(** [None] while the customer's data loads. *)
Definition info (me : query) : option (list row) :=
  if isLoading me then None
  else Some [("Nama Lengkap", dash (field_or_empty "full_name" me)); ("Nomor HP", dash (field_or_empty "phone" me));
             ("Alamat", dash (field_or_empty "address" me)); ("Area", dash (field_or_empty "area" me))].
(** The dark mode switch: how it stands, and the theme a click sets. *)
Definition dark_checked (theme : string) : bool := String.eqb theme "dark".
Definition onCheckedChange (v : bool) : string := if v then "dark" else "light".

(** *** The password sheet: the page's state *)

Record sheet : Type := Sheet
  { showPasswordSheet : bool; oldPw : string; newPw : string; confirmPw : string; showOld : bool; showNew : bool;
    pwError : string; isPending : bool }.
Definition initial : sheet := Sheet false "" "" "" false false "" false.

Definition boxes (s : sheet) : list box :=
  [Box "old-pw" "Password Lama" (secret_type (showOld s)) (oldPw s) true;
   Box "new-pw" "Password Baru (min. 8 karakter)" (secret_type (showNew s)) (newPw s) true;
   Box "confirm-pw" "Konfirmasi Password Baru" "password" (confirmPw s) true].
Definition save (s : sheet) : button :=
  Button (if isPending s then "Menyimpan…" else "Simpan Password") (negb (isPending s)).

(** What the customer does, and the answer to the request under way. *)
Inductive event : Type :=
| Open | Close | TypeOld (v : string) | TypeNew (v : string) | TypeConfirm (v : string) | ToggleOld | ToggleNew
| Submit | Answered (a : answer).

Definition set_error (e : string) (s : sheet) : sheet :=
  Sheet (showPasswordSheet s) (oldPw s) (newPw s) (confirmPw s) (showOld s) (showNew s) e (isPending s).

(** The sheet's controls are there while it is open. *)
Definition step (e : event) (s : sheet) : sheet * list mutation_hook :=
  let '(Sheet op o n c so sn err pend) := s in
  match e with
  | Open => (Sheet true o n c so sn err pend, [])
  | Answered a =>
      if pend then
        match a with
        | Ok _ => (Sheet false "" "" "" so sn err false, [])
        | Throw _ => (Sheet op o n c so sn "Password lama salah atau terjadi kesalahan." false, [])
        end
      else (s, [])
  | _ =>
      if negb op then (s, [])
      else match e with
      | Close => (Sheet false o n c so sn err pend, [])
      | TypeOld v => (Sheet op v n c so sn err pend, [])
      | TypeNew v => (Sheet op o v c so sn err pend, [])
      | TypeConfirm v => (Sheet op o n v so sn err pend, [])
      | ToggleOld => (Sheet op o n c (negb so) sn err pend, [])
      | ToggleNew => (Sheet op o n c so (negb sn) err pend, [])
      | Submit =>
          if submits (boxes s) (save s) then
            if Portal.Profile.js_length n <? 8 then (set_error "Password baru minimal 8 karakter." s, [])
            else if negb (String.eqb n c) then (set_error "Konfirmasi password tidak cocok." s, [])
            else (Sheet op o n c so sn "" true,
                  [M_PortalProfile_ChangePortalPassword (JObj [("old_password", JStr o); ("new_password", JStr n)])])
          else (s, [])
      | _ => (s, [])
      end
  end.
Fixpoint run (es : list event) (s : sheet) : sheet * list mutation_hook :=
  match es with
  | [] => (s, [])
  | e :: es' =>
      let '(s1, o1) := step e s in
      let '(s2, o2) := run es' s1 in (s2, o1 ++ o2)
  end.
End Profile.

(** ** Theorems *)

(** *** Claims about what is owed *)

Definition answered (l : list jval) : query := Query (Some (JArr l)) false.
(** A query that failed: no data, and nothing loading. *)
Definition failed : query := Query None false.
Definition owed (i : jval) : bool := Portal.Detail.isUnpaid i.
Definition by_status (all : list jval) (s : string) : list jval :=
  List.filter (fun i => String.eqb (Portal.status_of i) s) all.

Lemma unpaid_none all : by_status all "overdue" ++ by_status all "issued" = [] <-> forall i, In i all -> owed i = false.
Proof.
  unfold by_status, owed, Portal.Detail.isUnpaid. induction all as [|x l IH]; cbn; [done|].
  destruct (String.eqb (Portal.status_of x) "overdue") eqn:E1, (String.eqb (Portal.status_of x) "issued") eqn:E2; cbn.
  - split; [done|]. intros H. specialize (H x (or_introl eq_refl)). rewrite E1, E2 in H. done.
  - split; [done|]. intros H. specialize (H x (or_introl eq_refl)). rewrite E1, E2 in H. done.
  - split.
    + intros [_ H]%app_eq_nil. done.
    + intros H. specialize (H x (or_introl eq_refl)). rewrite E1, E2 in H. done.
  - rewrite IH. split.
    + intros H i [<-|Hi]; [by rewrite E1, E2|by apply H].
    + intros H i Hi. apply H. by right.
Qed.

(** The list a tab shows. *)
Definition tab_query (filter : string) (all issued overdue paid : query) : query :=
  if String.eqb filter "issued" then issued else if String.eqb filter "overdue" then overdue
  else if String.eqb filter "paid" then paid else all.

Lemma displayed_tab filter all issued overdue paid :
  Portal.InvoiceList.displayed filter (rows all) (rows issued) (rows overdue) (rows paid) =
  rows (tab_query filter all issued overdue paid).
Proof. unfold Portal.InvoiceList.displayed, tab_query. destruct (String.eqb_spec filter "all") as [->|]; [done|]. by repeat case_match. Qed.

Lemma by_status_none all s : by_status all s = [] <-> forall i, In i all -> Portal.status_of i <> s.
Proof.
  unfold by_status. induction all as [|x l IH]; cbn; [done|]. destruct (String.eqb_spec (Portal.status_of x) s) as [E|E].
  - split; [done|]. intros H. destruct (H x (or_introl eq_refl) E).
  - rewrite IH. split; [by intros H i [<-|Hi]; [|apply H]|by intros H i Hi; apply H; right].
Qed.


(** *** The invoice's page *)

Section DetailLaws.
Import Portal.Detail.
Variable formatIDR : jval -> string.
Variable mediumDate monthYear : jval -> string.

(** What a screen says, as Portal's page has it. *)
Definition ways_view (l : list Detail.panel) : view :=
  let rejection := head (omap (fun p => match p with Detail.RejectedPanel _ r => Some r | _ => None end) l) in
  let cash := head (omap (fun p => match p with Detail.CashPanel _ q c _ => Some (q, c) | _ => None end) l) in
  let offers := omap (fun p => match p with Detail.GatewaySkeleton => Some GatewayLoading | Detail.OnlinePanel _ _ => Some PayOnline
                               | Detail.ManualPanel _ _ _ _ => Some ManualProof | _ => None end) l in
  match l with
  | [] => Nothing
  | Detail.PaidPanel _ _ :: _ => Paid
  | Detail.WaitingPanel _ [(_, b); (_, r); _] proof :: _ => Pending b r proof
  | _ => match offers with w :: _ => Unpaid rejection w cash | [] => Nothing end
  end.
Definition screen_view (s : Detail.screen) : view :=
  match s with
  | Detail.Skeletons => Loading
  | Detail.Missing _ => NotFound
  | Detail.Panels (_ :: l) => ways_view l
  | Detail.Panels [] => Nothing
  end.
Definition with_src (src : string -> string) (v : view) : view :=
  match v with Pending b r proof => Pending b r (src <$> proof) | _ => v end.

(** The screen is the page Portal describes: one panel per way to pay, whatever the
    form holds and whichever request is under way; a proof is shown from the backend's
    address with the customer's token. *)
Theorem screen_shows_page url token i d isInitiating copied s :
  screen_view (Detail.screen_of formatIDR mediumDate monthYear url token i d isInitiating copied s) =
    with_src (proof_src url token) (page i d).
Proof.
  unfold Detail.screen_of, page. destruct (isInvoiceLoading d || isPaymentsLoading d); [done|].
  destruct (invoice d) as [inv|]; [|done]. unfold Detail.ways. cbn [screen_view].
  destruct (String.eqb (Portal.status_of inv) "paid"); [done|].
  destruct (pendingPayment (payments d) i) as [p|].
  { cbn. unfold optional. by destruct (truthy (get "proof_url" p)). }
  destruct (isUnpaid inv); [|done].
  unfold Detail.rejected_of, Detail.cash_of, optional.
  destruct (rejectedPayment (payments d) i), (isGatewayLoading d), (gatewayEnabled d),
    (truthy (get "qr_content" inv)), (truthy (get "payment_code" inv)); reflexivity.
Qed.

Lemma run_paired i es s : Portal.DetailLaws.paired s -> Portal.DetailLaws.paired (run i es s).1.
Proof.
  revert s. induction es as [|e es IH]; intros s Hs; [done|]. cbn [run].
  pose proof (Portal.DetailLaws.step_paired i e s Hs) as H1. destruct (step i e s) as [s1 o1]. specialize (IH s1 H1).
  by destruct (run i es s1).
Qed.

(** The controls of the proof form are those that do something.  After any run on the page,
    the file box invites exactly when a picked file would be taken, and otherwise shows the
    chosen file's name beside a button that drops it; the send button is enabled exactly
    when a click sends the file, and its caption tells which request is under way. *)
Theorem controls_live i es :
  let s := (run i es initial).1 in
  mounted s = true ->
  (forall f, match Detail.chooser_of s with
   | Detail.Choose _ _ _ => selectedFile (step i (PickFile f) s).1 = Some f /\ (step i handleClearFile s).1 = s
   | Detail.Chosen _ name _ =>
       (step i (PickFile f) s).1 = s /\ (exists g, selectedFile s = Some g /\ name = text "name" g) /\
       selectedFile (step i handleClearFile s).1 = None /\ previewUrl (step i handleClearFile s).1 = None
   end) /\
  (on (Detail.send_of s) = true <->
   exists f, selectedFile s = Some f /\ Portal.DetailLaws.reqs (step i handleUploadAndSubmit s).2 = [M_PortalInvoices_UploadProof f]) /\
  (on (Detail.send_of s) = false -> step i handleUploadAndSubmit s = (s, [])) /\
  (caption (Detail.send_of s) = "Kirim Bukti Pembayaran" <-> Portal.DetailLaws.in_flight s = O).
Proof.
  intros s Hm.
  assert (Portal.DetailLaws.paired s) as Hp by (by apply run_paired).
  clearbody s. destruct s as [b r f u ph m us n]. unfold Portal.DetailLaws.paired in Hp. cbn in Hm, Hp. subst m. split_and!.
  - intros g. unfold Detail.chooser_of. cbn [previewUrl selectedFile]. destruct u as [k|]; [|done].
    destruct f as [f|]; [|by discriminate (proj1 Hp eq_refl)]. cbn. split_and!; try done. by exists f.
  - unfold Detail.send_of, button_disabled. cbn. destruct ph, f as [f|]; cbn; try (by split; [done|intros (? & ? & ?)]).
    + destruct (String.eqb (trim b) ""); cbn; split; try done; [by intros (? & ? & ?)|]. by exists f.
    + rewrite orb_true_r. by split; [done|intros (? & ? & ?)].
  - unfold Detail.send_of, button_disabled. cbn. destruct ph, f as [f|]; cbn; try done. by destruct (String.eqb (trim b) "").
  - by destruct ph.
Qed.
End DetailLaws.

(** *** The tab bar *)

Definition lit (pathname : string) : list string :=
  TabBar.name <$> List.filter (TabBar.active pathname) TabBar.tabs.

Ltac lit_cases :=
  unfold lit, TabBar.tabs, TabBar.active; cbn [List.filter TabBar.exact TabBar.href].

Lemma not_prefix p q s : String.prefix p s = true -> String.prefix p q = false -> String.prefix q p = false -> String.prefix q s = false.
Proof.
  revert q s. induction p as [|a p IH]; intros [|c q] [|d s]; cbn; try done.
  destruct (ascii_dec a d) as [->|]; [|done]. destruct (ascii_dec c d) as [->|]; [|done].
  destruct (ascii_dec d d); [|done]. apply IH.
Qed.

(** At most one tab is lit, on every page; on the pages the router has under [/portal] it is
    the tab that leads there, with every invoice under the invoices' tab, and none on the
    payments and the tickets; the number on the invoices' tab is that of what is owed,
    cut at nine. *)
Theorem tab_bar_lit pathname invoiceId issued overdue :
  (length (lit pathname) <= 1)%nat /\
  lit ("/portal/invoices/" +:+ invoiceId) = ["Tagihan"] /\
  map (fun r => match r.1 with [Nav.L "portal"; Nav.L x] => (x, lit ("/portal/" +:+ x)) | _ => ("", lit "/portal") end)
    (List.filter (fun r => match r.1 with Nav.L "portal" :: l => forallb (fun x => match x with Nav.L _ => true | Nav.P => false end) l | _ => false end) Nav.routes) =
    [("", ["Beranda"]); ("login", []); ("payments", []); ("profile", ["Akun"]); ("subscriptions", ["Langganan"]);
     ("tickets", []); ("invoices", ["Tagihan"])] /\
  omap snd (TabBar.bar pathname issued overdue) =
    let n := Z.of_nat (length (rows issued) + length (rows overdue)) in
    if n =? 0 then [] else if n <=? 9 then [Z_to_string n] else ["9+"].
Proof.
  split_and!.
  - lit_cases. destruct (String.eqb_spec pathname "/portal") as [->|_]; [cbn; lia|].
    unfold startsWith.
    destruct (String.prefix "/portal/invoices" pathname) eqn:E1.
    { rewrite (not_prefix _ "/portal/subscriptions" _ E1), (not_prefix _ "/portal/profile" _ E1) by reflexivity. cbn. lia. }
    destruct (String.prefix "/portal/subscriptions" pathname) eqn:E2.
    { rewrite (not_prefix _ "/portal/profile" _ E2) by reflexivity. cbn. lia. }
    destruct (String.prefix "/portal/profile" pathname); cbn; lia.
  - reflexivity.
  - reflexivity.
  - unfold TabBar.bar, TabBar.count_of, Portal.InvoiceList.unpaidCount. cbn -[Z.ltb Z.leb Z.eqb Z_to_string Z.of_nat].
    rewrite Nat2Z.inj_add. zcases; done.
Qed.

(** With a customer's token every link of the home page, of the tab bar and of the
    invoices' cards enters the page it names; none of them leads to the tickets. *)
Lemma invoice_path n : 0 <= n -> Nav.path_of ("/portal/invoices/" +:+ Z_to_string n) = ["portal"; "invoices"; Z_to_string n].
Proof.
  intros Hn. unfold Nav.path_of, Nav.before_query.
  assert (JsString.split "?" ("/portal/invoices/" +:+ Z_to_string n) = ["/portal/invoices/" +:+ Z_to_string n]) as ->.
  { apply split_free_all. cbn. rewrite ?Z_to_string_no; done. }
  cbn [head default]. change (Datatypes.id ?x) with x.
  change ("/portal/invoices/" +:+ Z_to_string n) with ("/" +:+ ("portal" +:+ ("/" +:+ ("invoices" +:+ ("/" +:+ Z_to_string n))))).
  rewrite split_sep, split_free, split_sep, split_free, split_sep, split_free_all by (reflexivity || discriminate || (apply Z_to_string_no; done)).
  cbn. assert (Z_to_string n <> "") as H by (intros E; pose proof (proj1 (Z_to_string_nonneg n Hn)) as Hd; rewrite E in Hd; discriminate).
  by destruct (String.eqb_spec (Z_to_string n) "").
Qed.

Theorem portal_links_enter (s : Nav.stores) i n :
  Portal.customerToken (Nav.portal s) <> "" -> get "id" i = JNum n -> 0 <= n ->
  forall formatIDR mediumDate monthYear to,
  In to (Home.links ++ map TabBar.href TabBar.tabs ++ [InvoiceList.to (InvoiceList.InvoiceCard formatIDR mediumDate monthYear i)]) ->
  Nav.navigate to s = Nav.Enter /\ Nav.path_of to <> ["portal"; "tickets"].
Proof.
  intros Ht Hi Hn formatIDR mediumDate monthYear to Hto.
  assert (Nav.portal_beforeLoad s = None) as Hg.
  { unfold Nav.portal_beforeLoad. by destruct (String.eqb_spec (Portal.customerToken (Nav.portal s)) ""). }
  cbn [In app map TabBar.tabs TabBar.href Home.links] in Hto.
  repeat destruct Hto as [<-|Hto]; try (split; [unfold Nav.navigate; cbn -[Nav.portal_beforeLoad]; by rewrite Hg|discriminate]); [|done].
  unfold InvoiceList.InvoiceCard. cbn [InvoiceList.to]. unfold text. rewrite Hi. cbn [js_String].
  split; [|by rewrite invoice_path]. unfold Nav.navigate. rewrite (invoice_path _ Hn). cbn -[Nav.portal_beforeLoad]. by rewrite Hg.
Qed.

(** *** The password sheet *)

Module SheetLaws.
Import Profile.

(** What a setter of the page does. *)
Definition set_state (e : effect) (s : sheet) : sheet :=
  let '(Sheet op o n c so sn err pend) := s in
  match e with
  | SetState "pwError" (JStr v) => Sheet op o n c so sn v pend
  | SetState "showPasswordSheet" (JBool v) => Sheet v o n c so sn err pend
  | SetState "oldPw" (JStr v) => Sheet op v n c so sn err pend
  | SetState "newPw" (JStr v) => Sheet op o v c so sn err pend
  | SetState "confirmPw" (JStr v) => Sheet op o n v so sn err pend
  | _ => s
  end.
Definition apply_all (tr : list Ui.event) (s : sheet) : sheet :=
  fold_left (fun s e => match e with Did e => set_state e s | Sent _ _ => s end) tr s.

(** The sheet runs Portal's handler: a click on the button of an open, filled sheet and the
    answer send what the handler sends and set what it sets. *)
Theorem sheet_runs_handler o k s :
  showPasswordSheet s = true -> submits (boxes s) (save s) = true ->
  let tr := exec o k (Portal.Profile.handlePasswordSubmit (oldPw s) (newPw s) (confirmPw s)) in
  run [Submit; Answered (o k)] s = (apply_all tr s, requests tr).
Proof.
  destruct s as [op ol nw cf so sn err pend]. cbn [showPasswordSheet oldPw newPw confirmPw]. intros -> Hs.
  assert (pend = false) as ->.
  { destruct pend; [|done]. unfold submits in Hs. rewrite andb_false_r in Hs. done. }
  cbv zeta. unfold Portal.Profile.handlePasswordSubmit. cbn [exec]. cbn [run step negb]. rewrite Hs.
  destruct (Portal.Profile.js_length nw <? 8); [done|].
  destruct (String.eqb nw cf); cbn [negb]; [|done].
  unfold Actions.awaits. cbn. by destruct (o k).
Qed.

(** The answers a run takes in. *)
Definition consumes (e : event) (s : sheet) : nat :=
  match e with Answered _ => if isPending s then 1 else 0 | _ => 0 end.
Fixpoint consumed (es : list event) (s : sheet) : nat :=
  match es with [] => 0 | e :: es => consumes e s + consumed es (step e s).1 end.
Definition waiting (s : sheet) : nat := if isPending s then 1 else 0.

(** A request the sheet may send. *)
Definition proper (m : mutation_hook) : Prop :=
  exists o n, m = M_PortalProfile_ChangePortalPassword (JObj [("old_password", JStr o); ("new_password", JStr n)]) /\
    o <> "" /\ 8 <= Portal.Profile.js_length n.

Lemma step_sheet e s : (length (step e s).2 + waiting s = consumes e s + waiting (step e s).1)%nat /\ Forall proper (step e s).2.
Proof.
  destruct s as [op o n c so sn err pend]. unfold waiting, consumes.
  destruct e; cbn [step]; try (destruct op; cbn; (split; [done|constructor])).
  - destruct op; [|by split; [|constructor]]. cbn [negb].
    destruct (submits (boxes (Sheet true o n c so sn err pend)) (save (Sheet true o n c so sn err pend))) eqn:Hs; [|by split; [|constructor]].
    destruct (Portal.Profile.js_length n <? 8) eqn:Hl; [by split; [|constructor]|].
    destruct (negb (String.eqb n c)); [by split; [|constructor]|].
    unfold submits in Hs. cbn [boxes save forallb required value on isPending negb orb oldPw newPw confirmPw] in Hs.
    b2p. destruct pend; [discriminate|]. cbn. split; [done|]. constructor; [|constructor].
    exists o, n. split_and!; try done; lia.
  - destruct pend; cbn; [|by split; [|constructor]]. destruct a; by split; [|constructor].
Qed.

(** One password change at a time.  After any use of the sheet, the requests sent are the
    answers that came, plus one while the button waits; each carries an old password that
    is not empty and a new one of at least eight characters; a success closes the sheet
    and clears the three boxes, a refusal keeps them and says so.  Closing the sheet keeps
    what was typed: opened again it is as it was, passwords, error and all. *)
Theorem sheet_one_at_a_time es :
  let s := (run es initial).1 in
  length (run es initial).2 = (consumed es initial + waiting s)%nat /\
  Forall proper (run es initial).2 /\
  (isPending s = true -> forall a,
     let s' := (step (Answered a) s).1 in
     match a with
     | Ok _ => s' = Sheet false "" "" "" (showOld s) (showNew s) (pwError s) false
     | Throw _ => s' = Sheet (showPasswordSheet s) (oldPw s) (newPw s) (confirmPw s) (showOld s) (showNew s)
                         "Password lama salah atau terjadi kesalahan." false
     end) /\
  (showPasswordSheet s = true -> run [Close; Open] s = (s, [])).
Proof.
  intros s. split_and!.
  - cut (forall s, (length (run es s).2 + waiting s = consumed es s + waiting (run es s).1)%nat).
    { intros H. specialize (H initial). cbn in H. unfold s. lia. }
    clear s. induction es as [|e es IH]; intros s; [done|]. cbn [run consumed]. pose proof (proj1 (step_sheet e s)) as He.
    destruct (step e s) as [s1 o1]. specialize (IH s1). destruct (run es s1) as [s2 o2]. cbn [fst snd] in *.
    rewrite length_app. lia.
  - clear s. generalize initial. induction es as [|e es IH]; intros s; [constructor|]. cbn [run].
    pose proof (proj2 (step_sheet e s)) as He. destruct (step e s) as [s1 o1]. specialize (IH s1).
    destruct (run es s1) as [s2 o2]. by apply Forall_app.
  - clearbody s. destruct s. cbn. intros -> a. by destruct a.
  - clearbody s. destruct s. cbn. by intros ->.
Qed.
End SheetLaws.

(** *** Witnesses *)

Definition late : jval := JObj [("id", JNum 7); ("status", JStr "overdue"); ("amount", JNum 150000)].
Definition no_date (_ : jval) : string := "-".


Lemma controls_live_witness :
  on (Detail.send_of (Portal.Detail.run 7 [Portal.Detail.PickFile late; Portal.Detail.TypeBank "BCA"] Portal.Detail.initial).1) = true /\
  exists f, Portal.DetailLaws.reqs (Portal.Detail.step 7 Portal.Detail.handleUploadAndSubmit
    (Portal.Detail.run 7 [Portal.Detail.PickFile late; Portal.Detail.TypeBank "BCA"] Portal.Detail.initial).1).2 =
    [M_PortalInvoices_UploadProof f].
Proof.
  split; [reflexivity|].
  destruct (controls_live 7 [Portal.Detail.PickFile late; Portal.Detail.TypeBank "BCA"] eq_refl) as (_ & H & _).
  destruct (proj1 H eq_refl) as (f & _ & E). exists f. exact E.
Defined.
