(* ===== verification/DeviceTabs.v ===== *)
(** * The system and network pages ([features/system], [features/network])

    The tabs over one router: the cards of the overview, the tables of pools, queues,
    leases, scripts and schedulers, the ARP lookup, and the dialogs that add a pool, a script
    or a scheduler.  A dialog is a state machine around its handler of Actions: [advance] runs
    the handler up to the request it awaits, the answer runs the rest; what is typed,
    closed and opened in between is interleaved with both. *)
From S2P Require Import Prelude JsString JsValue JsNumber Http ApiErrors Hooks Ui DialogStores Actions.
From S2P Require Import Format DataTable HotspotTables ListTables.
From S2P Require Device AuthStore.

(** ** Handlers that wait ([mutate] with callbacks) *)

(** What a handler does before it waits, and what it waits for: requests and the rest of
    the handler. *)
Definition waiting_for : Type := (list mutation_hook * (list answer -> prog))%type.
Fixpoint advance (p : prog) : list effect * option waiting_for :=
  match p with
  | Return => ([], None)
  | Emit e next => let '(es, w) := advance next in (e :: es, w)
  | Mutate m next => ([], Some ([m], fun rs => match rs with r :: _ => next r | [] => Return end))
  | MutateAll ms next => ([], Some (ms, next))
  end.

(** ** The dialogs that add ([AddPoolDialog], [AddScriptDialog], [AddSchedulerDialog]) *)

Module AddDialog.
(** [fields]: the page's names of the boxes with what they hold. *)
Record dialog : Type := Dialog { is_open : bool; fields : list (string * string); pending : option waiting_for }.
Definition value_of (k : string) (fs : list (string * string)) : string :=
  match List.find (fun f => String.eqb f.1 k) fs with Some f => f.2 | None => "" end.
Definition set_field (k v : string) (fs : list (string * string)) : list (string * string) :=
  map (fun f => if String.eqb f.1 k then (f.1, v) else f) fs.
Definition isPending (d : dialog) : bool := match pending d with Some _ => true | None => false end.

(** A setter or [onClose] of the page; toasts change nothing of it. *)
Definition apply_effect (d : dialog) (e : effect) : dialog :=
  match e with
  | SetState k (JStr v) => Dialog (is_open d) (set_field k v (fields d)) (pending d)
  | Close => Dialog false (fields d) (pending d)
  | _ => d
  end.
Definition apply_all (es : list effect) (d : dialog) : dialog := fold_left apply_effect es d.

Section Machine.
(** [handleSubmit], given the boxes. *)
Variable handleSubmit : list (string * string) -> prog.

Inductive event : Type := Open | Cancel | Type_ (k v : string) | Submit | Answered (rs : list answer).
Inductive output : Type := Request (m : mutation_hook) | Show (e : effect).

(** Runs a handler from [d]: applies what it does at once, waits if it waits. *)
Definition start (p : prog) (d : dialog) : dialog * list output :=
  let '(es, w) := advance p in
  let d' := apply_all es d in
  (Dialog (is_open d') (fields d') w, map Show es ++ match w with Some (ms, _) => map Request ms | None => [] end).

Definition step (e : event) (d : dialog) : dialog * list output :=
  match e with
  | Open => (Dialog true (fields d) (pending d), [])
  | Cancel => (Dialog false (fields d) (pending d), [])
  | Type_ k v => if is_open d then (Dialog true (set_field k v (fields d)) (pending d), []) else (d, [])
  | Submit =>
      (* the button is disabled while a request waits *)
      if is_open d && negb (isPending d) then start (handleSubmit (fields d)) d else (d, [])
  | Answered rs =>
      match pending d with
      | Some (ms, k) =>
          if (length rs =? length ms)%nat then start (k rs) (Dialog (is_open d) (fields d) None) else (d, [])
      | None => (d, [])
      end
  end.
Fixpoint run (es : list event) (d : dialog) : dialog * list output :=
  match es with
  | [] => (d, [])
  | e :: es' =>
      let '(d1, o1) := step e d in
      let '(d2, o2) := run es' d1 in (d2, o1 ++ o2)
  end.
End Machine.

Definition initial (names : list string) : dialog := Dialog false (map (fun k => (k, "")) names) None.

(** The three of them. *)
Definition pool_names : list string := ["name"; "ranges"; "nextPool"].
Definition pool_submit (routerId : Z) (fs : list (string * string)) : prog :=
  DeviceActions.pool_add routerId (value_of "name" fs) (value_of "ranges" fs) (value_of "nextPool" fs).
Definition script_names : list string := ["name"; "source"].
Definition script_submit (routerId : Z) (fs : list (string * string)) : prog :=
  DeviceActions.script_add routerId (value_of "name" fs) (value_of "source" fs).
Definition scheduler_names : list string := ["name"; "interval"; "onEvent"].
Definition scheduler_submit (routerId : Z) (fs : list (string * string)) : prog :=
  DeviceActions.scheduler_add routerId (value_of "name" fs) (value_of "interval" fs) (value_of "onEvent" fs).

(** What a dialog has on the screen: title, text, labels of the boxes, the two buttons with
    whether the second is enabled. *)
Record screen : Type := Screen { title : string; text_ : string; labels : list (string * string); buttons : string * (string * bool) }.
Definition pool_screen (d : dialog) : screen :=
  Screen "Add IP Pool" "Create a RouterOS /ip/pool used by PPP / hotspot profiles."
    [("name", "Name"); ("ranges", "Ranges"); ("nextPool", "Next Pool (optional)")] ("Cancel", ("Create", negb (isPending d))).
Definition script_screen (d : dialog) : screen :=
  Screen "Add Script" "Create a RouterOS /system/script entry." [("name", "Name"); ("source", "Source")]
    ("Cancel", ("Create", negb (isPending d))).
Definition scheduler_screen (d : dialog) : screen :=
  Screen "Add Scheduler" "Create a RouterOS /system/scheduler entry."
    [("name", "Name"); ("interval", "Interval"); ("onEvent", "On Event")] ("Cancel", ("Create", negb (isPending d))).
End AddDialog.

(** ** The tables *)

Definition enabled_cell (row : jval) : list string := [if truthy (get "disabled" row) then "disabled" else "enabled"].
Definition plain_column (k t : string) (c : jval -> list string) : column := Column k None None true true t c.

Definition pool_columns : list column :=
  [text_column "name" "Name"; key_column "ranges" "Ranges";
   plain_column "usage" "Usage" (fun r => [text "used" r +:+ "/" +:+ text "total" r +:+ " (" +:+ text "available" r +:+ " free)"]);
   actions_column].
Definition queue_columns : list column :=
  [text_column "name" "Name"; key_column "target" "Target"; key_column "max_limit" "Max Limit";
   plain_column "status" "Status" enabled_cell; actions_column].
Definition lease_columns : list column :=
  [key_column "address" "Address"; key_column "mac_address" "MAC"; key_column "host_name" "Host";
   plain_column "status" "Status" (fun r => [if truthy (get "status" r) then text "status" r else "unknown"]); actions_column].
Definition script_columns : list column :=
  [text_column "name" "Name"; key_column "owner" "Owner"; text_column "run_count" "Runs"; actions_column].
Definition scheduler_columns : list column :=
  [text_column "name" "Name"; key_column "interval" "Interval"; key_column "next_run" "Next Run";
   plain_column "status" "Status" enabled_cell; actions_column].
Definition arp_columns : list column :=
  [key_column "address" "Address"; key_column "mac_address" "MAC"; key_column "interface" "Interface";
   plain_column "dynamic" "Type" (fun r => [if truthy (get "dynamic" r) then "dynamic" else "static"])].

(** The confirmation of a row's removal: title and text. *)
Definition pool_confirm (row : jval) : string * string :=
  ("Remove IP pool?", "Pool '" +:+ text "name" row +:+ "' will be removed from RouterOS.").
Definition queue_confirm (row : jval) : string * string :=
  ("Remove queue?", "Queue '" +:+ text "name" row +:+ "' will be removed from RouterOS.").
Definition lease_confirm (row : jval) : string * string :=
  ("Remove DHCP lease?",
   "Lease for " +:+ (if truthy (get "address" row) then text "address" row else text "mac_address" row) +:+ " will be removed.").
Definition script_confirm (row : jval) : string * string :=
  ("Remove script?", "Script '" +:+ text "name" row +:+ "' will be removed from RouterOS.").
Definition scheduler_confirm (row : jval) : string * string :=
  ("Remove scheduler?", "Scheduler '" +:+ text "name" row +:+ "' will be removed from RouterOS.").

(** ** The ARP lookup *)

Module Arp.
Record tab : Type := Tab { input : string; mac : string }.
Inductive event : Type := Change (v : string) | handleSearch.
(** Of text in ASCII. *)
Definition step (t : tab) (e : event) : tab :=
  match e with
  | Change v => Tab (toUpperCase v) (mac t)
  | handleSearch => Tab (input t) (trim (input t))
  end.
Definition run : list event -> tab -> tab := fold_left step.
Definition initial : tab := Tab "" "".
Inductive view : Type := Hint (text : string) | Results (rows : list jval) (emptyMessage : string).
Definition shown (t : tab) (data : option (list jval)) (isFetching : bool) : view :=
  if String.eqb (mac t) "" then Hint "Enter a MAC address to look up its ARP entry."
  else Results (data ?? []) (if isFetching then "Searching…" else "No ARP entries for that MAC.").
(** The query the tab mounts. *)
Definition asks (routerId : Z) (t : tab) : query_hook := Q_Network_ArpByMac routerId (mac t).
End Arp.

(** ** The overview ([overview-tab.tsx]) *)

Module SystemOverview.
(** [data?.k] in a [Row]: [value ?? '—']. *)
Definition field (k : string) (d : option jval) : string :=
  match d with
  | Some v => match get k v with JUndef | JNull => "—" | x => js_String x end
  | None => "—"
  end.
Definition used (total free : string) (r : jval) : Z := number total r - number free r.
Definition used_of (total free : string) (r : option jval) : string :=
  match r with
  | Some r => formatBytes (used total free r) +:+ " / " +:+ formatBytes (number total r)
  | None => "—"
  end.
Definition card : Type := (string * list (string * string))%type.
Definition cards (identity resource routerboard clock license : option jval) : list card :=
  [(match identity with Some v => match get "name" v with JUndef | JNull => "Identity" | x => js_String x end | None => "Identity" end,
    [("Board", field "board_name" resource); ("Platform", field "platform" resource); ("Version", field "version" resource);
     ("Architecture", field "architecture_name" resource); ("Uptime", field "uptime" resource)]);
   ("Resource",
    [("CPU load", match resource with Some r => text "cpu_load" r +:+ "%" | None => "—" end); ("CPU", field "cpu" resource);
     ("Memory", used_of "total_memory" "free_memory" resource); ("Disk", used_of "total_hdd_space" "free_hdd_space" resource)]);
   ("Routerboard",
    [("Model", field "model" routerboard); ("Serial", field "serial_number" routerboard);
     ("Firmware", field "current_firmware" routerboard); ("Upgrade", field "upgrade_firmware" routerboard)]);
   ("Clock",
    [("Date", field "date" clock); ("Time", field "time" clock); ("Timezone", field "time_zone_name" clock);
     ("GMT offset", field "gmt_offset" clock)]);
   ("License",
    [("Software ID", field "software_id" license); ("Level", field "n_level" license); ("Features", field "features" license)])].
(** The card "Power": button, title of its confirmation, what the confirmation runs. *)
Definition power (role : jval) (routerId : Z) : list (string * string * prog) :=
  if jval_eqb role (JStr "admin")
  then [("Reboot", "Reboot router?", DeviceActions.reboot routerId);
        ("Shutdown", "Shut down router?", DeviceActions.shutdown routerId)]
  else [].
End SystemOverview.

(** ** The two pages *)

Definition network_tabs : list (string * string) :=
  [("pools", "IP Pools"); ("queues", "Queues"); ("dhcp", "DHCP Leases"); ("arp", "ARP")].
Definition system_tabs : list (string * string) :=
  [("overview", "Overview"); ("scripts", "Scripts"); ("schedulers", "Schedulers")].
(** [None] is the page that asks to choose a router; otherwise the tabs, the first one open. *)
Definition page (tabs : list (string * string)) (routerId : option Z) : option (list (string * string)) :=
  match routerId with Some _ => Some tabs | None => None end.

(** ** Theorems *)

(** *** The dialogs *)

Section Machine.
Import AddDialog.

(** [advance] cuts a run of the handler where it waits. *)
Lemma exec_advance o n p :
  exec o n p = map Did (advance p).1 ++
    match (advance p).2 with
    | None => []
    | Some (ms, k) => let rs := map o (seq n (length ms)) in zip_with Sent ms rs ++ exec o (n + length ms) (k rs)
    end.
Proof.
  revert n. induction p as [|e p IH|m k IH|ms k IH]; intros n; cbn [exec advance].
  - done.
  - rewrite IH. by destruct (advance p) as [es w].
  - cbn. by rewrite Nat.add_1_r.
  - done.
Qed.

Lemma apply_pending es a f w : apply_all es (Dialog a f w) =
  Dialog (is_open (apply_all es (Dialog a f None))) (fields (apply_all es (Dialog a f None))) w.
Proof.
  revert a f. induction es as [|e es IH]; intros a f; [done|]. unfold apply_all in *. cbn [fold_left].
  destruct e as [| |k v| | |]; cbn [apply_effect is_open fields pending]; try apply IH. destruct v; apply IH.
Qed.

(** A handler that waits once at most. *)
Definition waits_once (p : prog) : Prop :=
  match (advance p).2 with Some (ms, k) => forall rs, length rs = length ms -> (advance (k rs)).2 = None | None => True end.
Definition outputs_of (tr : list Ui.event) : list output :=
  map (fun e => match e with Did e => Show e | Sent m _ => Request m end) tr.
Definition effects_of (tr : list Ui.event) : list effect :=
  omap (fun e => match e with Did e => Some e | Sent _ _ => None end) tr.
(** The events that run a handler to its end. *)
Definition click (o : nat -> answer) (n : nat) (p : prog) : list event :=
  Submit :: match (advance p).2 with Some (ms, _) => [Answered (map o (seq n (length ms)))] | None => [] end.

Lemma effects_did es tr : effects_of (map Did es ++ tr) = es ++ effects_of tr.
Proof. induction es as [|e es IH]; cbn; [done|]. by rewrite <- IH. Qed.
Lemma outputs_did es tr : outputs_of (map Did es ++ tr) = map Show es ++ outputs_of tr.
Proof. unfold outputs_of. by rewrite map_app, map_map. Qed.
Lemma effects_sent ms rs tr : effects_of (zip_with Sent ms rs ++ tr) = effects_of tr.
Proof. revert rs. induction ms as [|m ms IH]; intros [|r rs]; try done. apply IH. Qed.
Lemma outputs_sent ms rs tr : length rs = length ms ->
  outputs_of (zip_with Sent ms rs ++ tr) = map Request ms ++ outputs_of tr.
Proof. revert rs. induction ms as [|m ms IH]; intros [|r rs] H; try done. cbn. f_equal. apply IH. by injection H. Qed.

(** The machine runs the handler: a click on the button of an open dialog, with the answers
    to what it sends, sends, shows and sets what the handler does. *)
Theorem dialog_runs_handler submit o n d :
  is_open d = true -> pending d = None -> waits_once (submit (fields d)) ->
  let p := submit (fields d) in
  run submit (click o n p) d = (apply_all (effects_of (exec o n p)) d, outputs_of (exec o n p)).
Proof.
  destruct d as [a f w]. cbn [is_open fields pending]. intros -> -> Hw. set (p := submit f) in *.
  rewrite exec_advance, effects_did, outputs_did. unfold click, waits_once in *.
  destruct (advance p) as [es [[ms k]|]] eqn:Ep; cbn [fst snd] in *.
  - set (rs := map o (seq n (length ms))). assert (length rs = length ms) as Hl by (unfold rs; by rewrite length_map, length_seq).
    specialize (Hw rs Hl). cbn [run step is_open isPending pending andb negb fields]. fold p.
    unfold start. rewrite Ep. cbn [pending is_open fields]. rewrite Hl, Nat.eqb_refl.
    rewrite exec_advance. destruct (advance (k rs)) as [es' w'] eqn:Ek. cbn [fst snd] in *. subst w'.
    rewrite effects_sent, effects_did, (outputs_sent ms rs) by done. rewrite outputs_did. cbn [effects_of outputs_of omap map].
    rewrite !app_nil_r, <- !app_assoc. f_equal.
    unfold apply_all. rewrite fold_left_app. fold (apply_all es (Dialog true f None)).
    assert (pending (apply_all es (Dialog true f None)) = None) as Hp by (by rewrite apply_pending).
    destruct (apply_all es (Dialog true f None)) as [a1 f1 w1]. cbn in Hp. subst w1. cbn [is_open fields].
    fold (apply_all es' (Dialog a1 f1 None)). by rewrite (apply_pending es' a1 f1 None).
  - cbn [run step is_open isPending pending andb negb fields]. fold p. unfold start. rewrite Ep.
    cbn. rewrite !app_nil_r. f_equal. by rewrite (apply_pending es true f None).
Qed.

(** What the three handlers share: nothing but toasts at once; one request; on its success
    every box cleared and the dialog closed; on a failure one toast. *)
Definition is_toast (e : effect) : bool := match e with Toast _ _ _ => true | _ => false end.
Class AddForm (submit : list (string * string) -> prog) (names : list string) : Prop := {
  now_toasts fs : forallb is_toast (advance (submit fs)).1 = true;
  one_request fs ms k : (advance (submit fs)).2 = Some (ms, k) ->
    length ms = 1%nat /\
    (forall r : answer, exists t, is_toast t = true /\ advance (k [r]) =
       (t :: if fulfilled r then map (fun x => SetState x (JStr "")) names ++ [Close] else [], None)) }.

Ltac add_form :=
  constructor;
  [ intros fs; repeat case_match; done
  | intros fs ms k; repeat (case_match; try discriminate); cbn; intros [= <- <-];
    split; [done|intros [v|e]; eexists; (split; [|reflexivity]); done] ].

#[export] Instance pool_form rid : AddForm (pool_submit rid) pool_names.
Proof. unfold pool_submit, DeviceActions.pool_add. add_form. Qed.
#[export] Instance script_form rid : AddForm (script_submit rid) script_names.
Proof. unfold script_submit, DeviceActions.script_add. add_form. Qed.
#[export] Instance scheduler_form rid : AddForm (scheduler_submit rid) scheduler_names.
Proof. unfold scheduler_submit, DeviceActions.scheduler_add. add_form. Qed.

Lemma apply_toasts es d : forallb is_toast es = true -> apply_all es d = d.
Proof.
  revert d. induction es as [|e es IH]; intros d; [done|]. cbn [forallb]. intros [He H]%andb_true_iff.
  unfold apply_all in *. cbn [fold_left]. destruct e; try done. by apply IH.
Qed.

Lemma set_field_names k v fs : map fst (set_field k v fs) = map fst fs.
Proof. unfold set_field. rewrite map_map. apply map_ext. intros f. by destruct (String.eqb f.1 k). Qed.

Lemma clear_fields ks a fs w :
  apply_all (map (fun x => SetState x (JStr "")) ks ++ [Close]) (Dialog a fs w) =
  Dialog false (map (fun f => if existsb (String.eqb f.1) ks then (f.1, "") else f) fs) w.
Proof.
  revert fs. induction ks as [|k ks IH]; intros fs; unfold apply_all in *.
  - cbn. f_equal. symmetry. apply map_id.
  - cbn [map app fold_left apply_effect is_open fields pending]. rewrite IH. f_equal. unfold set_field. rewrite map_map.
    apply map_ext. intros f. cbn [existsb]. destruct (String.eqb f.1 k) eqn:E; cbn [orb fst].
    + by destruct (existsb _ _).
    + done.
Qed.

Lemma all_cleared fs : map (fun f : string * string => if existsb (String.eqb f.1) (map fst fs) then (f.1, "") else f) fs =
  map (fun k => (k, "")) (map fst fs).
Proof.
  rewrite map_map. apply map_ext_in. intros f Hf.
  assert (existsb (String.eqb f.1) (map fst fs) = true) as ->; [|done].
  apply existsb_exists. exists f.1. split; [by apply in_map|apply String.eqb_refl].
Qed.

Section AnyForm.
Context (submit : list (string * string) -> prog) (names : list string) `{!AddForm submit names}.

(** In every state the boxes are the dialog's, and a wait is one of the handler's. *)
Record sound (d : dialog) : Prop := {
  s_names : map fst (fields d) = names;
  s_wait : forall ms k, pending d = Some (ms, k) -> exists fs, (advance (submit fs)).2 = Some (ms, k) }.

Definition requests_of (o : list output) : list mutation_hook := omap (fun x => match x with Request m => Some m | Show _ => None end) o.
Definition consumes (e : event) (d : dialog) : nat :=
  match e, pending d with Answered rs, Some (ms, _) => if (length rs =? length ms)%nat then 1 else 0 | _, _ => 0 end.
Fixpoint consumed (es : list event) (d : dialog) : nat :=
  match es with [] => 0 | e :: es => consumes e d + consumed es (step submit e d).1 end.
Definition in_flight (d : dialog) : nat := if isPending d then 1 else 0.

Lemma requests_of_show es l : requests_of (map Show es ++ l) = requests_of l.
Proof. induction es as [|e es IH]; [done|]. apply IH. Qed.
Lemma requests_of_app l l' : requests_of (l ++ l') = requests_of l ++ requests_of l'.
Proof. apply omap_app. Qed.

Lemma answered_step d ms k (r : answer) : sound d -> pending d = Some (ms, k) ->
  exists t, is_toast t = true /\ step submit (Answered [r]) d =
    (if fulfilled r then Dialog false (map (fun x => (x, "")) names) None else Dialog (is_open d) (fields d) None,
     map Show (t :: if fulfilled r then map (fun x => SetState x (JStr "")) names ++ [Close] else [])).
Proof.
  intros [Hn Hw] Hp. destruct (Hw _ _ Hp) as (fs & Hfs). destruct (one_request fs ms k Hfs) as (Hl & Hr).
  cbn [step]. rewrite Hp, Hl. cbn [length Nat.eqb]. unfold start. destruct (Hr r) as (t & Ht & ->). exists t. split; [done|].
  rewrite app_nil_r. change (apply_all (?x :: ?l) ?d) with (apply_all l (apply_all [x] d)).
  rewrite (apply_toasts [t]) by (cbn; by rewrite Ht). destruct r as [v|e]; cbn [fulfilled]; [|done].
  rewrite clear_fields. cbn [is_open fields]. do 2 f_equal. rewrite <- Hn. apply all_cleared.
Qed.

Lemma step_sound e d : sound d -> sound (step submit e d).1 /\
  (length (requests_of (step submit e d).2) + in_flight d = consumes e d + in_flight (step submit e d).1)%nat.
Proof.
  intros Hs. pose proof Hs as [Hn Hw]. destruct e as [| |k v| |rs].
  - done.
  - done.
  - cbn [step]. destruct (is_open d) eqn:Eo; [|done]. split; [|done].
    constructor; cbn [fst fields pending]; [by rewrite set_field_names|done].
  - cbn [step]. destruct (is_open d && negb (isPending d)) eqn:E; [|done].
    apply andb_true_iff in E as [_ E]. unfold isPending in E. destruct (pending d) eqn:Ep; [done|]. clear E.
    unfold start. pose proof (now_toasts (fields d)) as Ht. pose proof (one_request (fields d)) as Hone.
    destruct (advance (submit (fields d))) as [es w] eqn:Ea. cbn [fst snd] in *. rewrite apply_toasts by done. split.
    + constructor; cbn [fst fields pending]; [done|]. intros ms k ->. exists (fields d). by rewrite Ea.
    + rewrite requests_of_show. unfold in_flight, isPending, consumes. rewrite Ep. cbn [fst snd pending].
      destruct w as [[ms k]|]; [|done]. destruct (Hone _ _ eq_refl) as [Hl _]. destruct ms as [|m [|]]; done.
  - destruct (pending d) as [[ms k]|] eqn:Ep; [|unfold consumes; cbn [step]; rewrite Ep; done].
    destruct (Hw _ _ eq_refl) as (fs & Hfs). destruct (one_request fs ms k Hfs) as (Hl & _).
    destruct (length rs =? length ms)%nat eqn:El; [|unfold consumes; cbn [step]; rewrite Ep, El; done].
    apply Nat.eqb_eq in El. rewrite Hl in El. destruct rs as [|r [|]]; try discriminate.
    pose proof (answered_step d ms k r Hs Ep) as Ha. unfold consumes. rewrite Ep, Hl. cbn [length Nat.eqb].
    assert (in_flight d = 1%nat) as -> by (unfold in_flight, isPending; by rewrite Ep).
    destruct Ha as (t & _ & ->). cbn [fst snd]. rewrite <- (app_nil_r (map Show _)), requests_of_show.
    split; [|by destruct (fulfilled r)]. destruct (fulfilled r); constructor; cbn; try done. by rewrite map_map, map_id.
Qed.

Lemma run_sound es d : sound d -> sound (run submit es d).1 /\
  (length (requests_of (run submit es d).2) + in_flight d = consumed es d + in_flight (run submit es d).1)%nat.
Proof.
  revert d. induction es as [|e es IH]; intros d Hd; [done|]. cbn [run consumed].
  destruct (step_sound e d Hd) as [H1 H2]. destruct (step submit e d) as [d1 o1]. cbn [fst snd] in *.
  destruct (IH d1 H1) as [H3 H4]. destruct (run submit es d1) as [d2 o2]. cbn [fst snd] in *. split; [done|].
  rewrite requests_of_app, length_app. lia.
Qed.

Lemma initial_sound : sound (initial names).
Proof. constructor; cbn; [|done]. by rewrite map_map, map_id. Qed.
End AnyForm.
End Machine.

(** Adding a pool, a script or a scheduler.  However the dialog is opened, closed, filled
    and submitted: one request is under way at most; closing keeps what was typed; a refusal
    keeps it too and says so; and a success clears the boxes and closes the dialog, also
    when it was closed and opened again for the next entry in between. *)
Theorem add_dialogs rid submit names es :
  (submit, names) ∈ [(AddDialog.pool_submit rid, AddDialog.pool_names); (AddDialog.script_submit rid, AddDialog.script_names);
                     (AddDialog.scheduler_submit rid, AddDialog.scheduler_names)] ->
  let d := (AddDialog.run submit es (AddDialog.initial names)).1 in
  length (requests_of (AddDialog.run submit es (AddDialog.initial names)).2) =
    (consumed submit es (AddDialog.initial names) + in_flight d)%nat /\
  AddDialog.run submit [AddDialog.Cancel; AddDialog.Open] d = (AddDialog.Dialog true (AddDialog.fields d) (AddDialog.pending d), []) /\
  (in_flight d = 1%nat -> forall r : answer,
     (AddDialog.step submit (AddDialog.Answered [r]) d).1 =
       if fulfilled r then AddDialog.initial names else AddDialog.Dialog (AddDialog.is_open d) (AddDialog.fields d) None).
Proof.
  intros Hin d.
  assert (AddForm submit names) as Hf by (one_of Hin; injection Hin as -> ->; apply _).
  destruct (run_sound submit names es (AddDialog.initial names) (initial_sound submit names)) as [Hs Hl]. fold d in Hs, Hl.
  split_and!.
  - change (in_flight (AddDialog.initial names)) with 0%nat in Hl. by rewrite Nat.add_0_r in Hl.
  - done.
  - intros Hw r. unfold in_flight, AddDialog.isPending in Hw. destruct (AddDialog.pending d) as [[ms k]|] eqn:Ep; [|done].
    destruct (answered_step submit names d ms k r Hs Ep) as (t & _ & ->). cbn [fst]. by destruct (fulfilled r).
Qed.

(** *** The tables *)

Definition device_tables : list page_table :=
  [PageTable pool_columns (Some "name") (fun _ => []) (text_search "name" []);
   PageTable queue_columns (Some "name") (fun _ => []) (text_search "name" []);
   PageTable lease_columns (Some "address") (fun _ => []) (text_search "address" []);
   PageTable script_columns (Some "name") (fun _ => []) (text_search "name" []);
   PageTable scheduler_columns (Some "name") (fun _ => []) (text_search "name" [])].

Section Tables.
Context `{ReactTableLaws}.

Lemma device_tables_ok : Forall (fun t => ToolbarOk (p_columns t) (p_search t)) device_tables.
Proof. unfold device_tables. repeat (apply Forall_cons_2; [cbn [p_columns p_search]; toolbar_ok|]); apply Forall_nil_2. Qed.

(** The search boxes of the five tables show exactly the records that contain what was
    typed, refetches in between; for the leases as long as each has an address, which the
    backend leaves out of a lease without one. *)
Theorem device_tables_show t d n visibility l :
  t ∈ device_tables -> Forall (toolbar_event (p_search t)) l -> Forall (fun r => valid (p_search t) r = true) d ->
  as_built t /\
  let s := table_run (p_columns t) (opened d visibility n) l in
  shown_rows (p_columns t) s = List.filter (query_matches (p_search t) (query_run no_query l)) (data s).
Proof.
  intros Ht Hl Hd. pose proof (proj1 (Forall_forall _ _) device_tables_ok t Ht).
  split; [unfold device_tables in Ht; one_of Ht; subst t; by constructor|]. by apply toolbar_shows.
Qed.
End Tables.

(** *** The ARP lookup *)

(** The text of the box after some events. *)
Definition typed (es : list Arp.event) : string :=
  foldl (fun s e => match e with Arp.Change v => toUpperCase v | Arp.handleSearch => s end) "" es.
Definition no_search (es : list Arp.event) : Prop := Forall (fun e => e <> Arp.handleSearch) es.

Lemma arp_run es : Arp.input (Arp.run es Arp.initial) = typed es.
Proof.
  unfold Arp.run, typed. change "" with (Arp.input Arp.initial) at 1. generalize Arp.initial.
  induction es as [|e es IH]; intros t; [done|]. cbn [fold_left foldl]. rewrite IH. by destruct e.
Qed.

Lemma arp_kept es t : no_search es -> Arp.mac (Arp.run es t) = Arp.mac t.
Proof.
  revert t. induction es as [|e es IH]; intros t Hn; [done|]. apply Forall_cons in Hn as [He Hn].
  unfold Arp.run in *. cbn [fold_left]. rewrite IH by done. by destruct e.
Qed.

(** The lookup asks for the text of the last search, in capitals and trimmed; typing on
    changes neither the query nor the rows; and the tab asks the backend exactly while it
    shows a table and a router is chosen. *)
Theorem arp_asks_last_search es es' rid data fetching :
  no_search es' ->
  let t := Arp.run (es ++ Arp.handleSearch :: es') Arp.initial in
  Arp.asks rid t = Q_Network_ArpByMac rid (trim (typed es)) /\
  (no_search es -> Arp.mac (Arp.run es Arp.initial) = "") /\
  (Arp.shown t data fetching = Arp.Hint "Enter a MAC address to look up its ARP entry." <-> trim (typed es) = "").
Proof.
  intros Hn t.
  assert (Arp.mac t = trim (typed es)) as Hm.
  { unfold t, Arp.run. rewrite fold_left_app. cbn [fold_left]. rewrite arp_kept by done. cbn. by rewrite <- arp_run. }
  split_and!.
  - unfold Arp.asks. by rewrite Hm.
  - intros Hes. by rewrite arp_kept.
  - unfold Arp.shown. rewrite Hm. by destruct (String.eqb_spec (trim (typed es)) "").
Qed.

(** *** The overview *)

(** The power buttons are an administrator's; each sends its one request after its
    confirmation and tells how it went. *)
Theorem power_buttons role rid o n :
  (jval_eqb role (JStr "admin") = false -> SystemOverview.power role rid = []) /\
  (jval_eqb role (JStr "admin") = true ->
   map (fun b => (requests (exec o n b.2), toasts (exec o n b.2))) (SystemOverview.power role rid) =
     [([M_System_Reboot rid], [if fulfilled (o n) then (success, "Reboot issued") else (error, "Failed to reboot")]);
      ([M_System_Shutdown rid], [if fulfilled (o n) then (success, "Shutdown issued") else (error, "Failed to shut down")])]).
Proof.
  unfold SystemOverview.power. split; intros ->; [done|]. cbn. unfold toast_error. by destruct (o n).
Qed.

(** *** Witnesses *)

#[local] Existing Instance documented_table.
#[local] Existing Instance documented_laws.

Definition a_pool (name : string) : jval := JObj [("id", JStr "*1"); ("name", JStr name)].

Lemma add_dialogs_witness :
  let es := [AddDialog.Open; AddDialog.Type_ "name" "a"; AddDialog.Type_ "ranges" "10.0.0.2-10.0.0.9"; AddDialog.Submit;
             AddDialog.Cancel; AddDialog.Open; AddDialog.Type_ "name" "b"] in
  let d := (AddDialog.run (AddDialog.pool_submit 1) es (AddDialog.initial AddDialog.pool_names)).1 in
  AddDialog.value_of "name" (AddDialog.fields d) = "b" /\
  (AddDialog.step (AddDialog.pool_submit 1) (AddDialog.Answered [Ok JNull]) d).1 = AddDialog.initial AddDialog.pool_names.
Proof.
  intros es. split; [reflexivity|].
  exact (proj2 (proj2 (add_dialogs 1 (AddDialog.pool_submit 1) AddDialog.pool_names es ltac:(apply list_elem_of_here))) eq_refl (Ok JNull)).
Defined.

Lemma device_tables_show_witness :
  shown_rows pool_columns (table_run pool_columns (opened [a_pool "hs-pool"; a_pool "ppp"] ∅ 10) [Search "name" "HS"]) =
    [a_pool "hs-pool"].
Proof.
  destruct (device_tables_show (PageTable pool_columns (Some "name") (fun _ => []) (text_search "name" []))
    [a_pool "hs-pool"; a_pool "ppp"] 10 ∅ [Search "name" "HS"]) as [_ E].
  - apply list_elem_of_here.
  - repeat constructor.
  - repeat constructor.
  - etransitivity; [exact E|vm_compute; reflexivity].
Defined.
