(* ===== verification/NotifyPages.v ===== *)
(** * What the notification pages show ([features/whatsapp/index.tsx],
    [features/notification-center/{tab-whatsapp,tab-telegram}.tsx])

    The cards of the WhatsApp page and of the two tabs of the notification centre: the
    connection with its QR code as a state machine, the settings cards and the test
    messages with what can be changed on them.  Their requests are Notify's.  The router
    mounts the two tabs; no route mounts the older WhatsApp page. *)
From S2P Require Import Prelude JsString JsValue JsNumber ApiErrors Hooks Ui.
From S2P Require Import Settings Notify.

(** A box or switch: name, what it shows, whether it can be changed. *)
Record control : Type := Control { name : string; shows : string; enabled : bool }.
Record button : Type := Button { caption : string; on : bool }.

(** ** The connection of the WhatsApp page ([ConnectionCard]) *)

Module Connection.
(** [status]: the data of the status query; [pairing] is the page's own state; [logout]:
    the mutation waits. *)
Record card : Type := Card { status : option jval; pairing : bool; logout : bool }.
Definition mounted : card := Card None false false.
Definition connected (c : card) : bool := match status c with Some s => truthy (get "connected" s) | None => false end.
(** [useWhatsAppQR(pairing && !connected)]: fetched while enabled, every twenty seconds. *)
Definition qr_enabled (c : card) : bool := pairing c && negb (connected c).

Inductive event : Type :=
| Status (s : jval)            (** the status query's poll *)
| Connect                      (** the button of that name *)
| Logout
| LoggedOut (a : answer).
Inductive output : Type := Request (m : mutation_hook) | Show (e : effect).

Definition step (e : event) (c : card) : card * list output :=
  match e with
  | Status s => (Card (Some s) (pairing c) (logout c), [])
  | Connect => (if connected c || pairing c then c else Card (status c) true (logout c), [])
  | Logout => if connected c && negb (logout c) then (Card (status c) (pairing c) true, [Request M_WhatsApp_LogoutWhatsApp]) else (c, [])
  | LoggedOut a =>
      if logout c
      then (Card (status c) (pairing c) false,
            [Show match a with Ok _ => Toast success "Logged out" JUndef | Throw e => Actions.toast_error "Logout failed" e end])
      else (c, [])
  end.
Fixpoint run (es : list event) (c : card) : card * list output :=
  match es with
  | [] => (c, [])
  | e :: es' =>
      let '(c1, o1) := step e c in
      let '(c2, o2) := run es' c1 in (c2, o1 ++ o2)
  end.

Inductive body : Type := Online | QrLoading | QrCode (code : string) | QrNote (text : string) | ClickConnect.
(** The QR query: loading, its data, its error. *)
Record qr : Type := Qr { isLoading : bool; code : option string; error_ : option jserror }.
Definition body_of (c : card) (q : qr) : body :=
  if connected c then Online
  else if pairing c then
    if isLoading q then QrLoading
    else match code q with
    | Some k => if String.eqb k "" then QrNote (match error_ q with Some e => js_String (parseAPIError e) | None => "Waiting for QR…" end)
                else QrCode k
    | None => QrNote (match error_ q with Some e => js_String (parseAPIError e) | None => "Waiting for QR…" end)
    end
  else ClickConnect.
Definition badge (c : card) : string := if connected c then "connected" else "disconnected".
Definition description (c : card) : string :=
  if connected c
  then "Paired as " +:+ match status c with Some s => if truthy (get "jid" s) then text "jid" s else "unknown" | None => "unknown" end
  else "Not paired. Scan the QR with WhatsApp → Linked devices.".
Definition foot (c : card) : button :=
  if connected c then Button "Logout" (negb (logout c))
  else if pairing c then Button "Refresh QR" true
  else Button "Connect" true.
End Connection.

(** ** Its settings and test cards *)

Module WhatsAppPage.
(** [None] while the settings are not there; else [NotificationSettingsForm]. *)
Definition settings_form (isLoading : bool) (settings : option (list SystemSetting)) (s : SettingsCard.state) (isPending : bool)
  : option (list control * button) :=
  if isLoading then None
  else match settings with
  | None => None
  | Some l =>
      Some ([Control "Enable WhatsApp" (bool_value (SettingsCard.enabled s))
               (bool_decide (is_Some (find_key "notification.wa_enabled" l)));
             Control "Admin phone" (SettingsCard.phone s) (bool_decide (is_Some (find_key "notification.admin_phone" l)))],
            Button "Save" (negb isPending))
  end.
Definition test_card (phone message : string) (isPending : bool) : list control * button :=
  ([Control "Phone" phone true; Control "Message" message true], Button "Send" (negb isPending)).
End WhatsAppPage.

(** ** The WhatsApp tab *)

Module WhatsAppTab.
(** Badge, description, note and the buttons under the card. *)
Definition connection (status : option jval) (groups : option (list jval)) (logoutPending : bool)
  : string * string * string * list button :=
  let connected := match status with Some s => truthy (get "connected" s) | None => false end in
  let jid := match status with Some s => match get "jid" s with JUndef | JNull => "" | v => js_String v end | None => "" end in
  if connected
  then ("Connected", "Terpasang sebagai " +:+ (if String.eqb jid "" then "unknown" else jid), "Gateway aktif " +:+ jid,
        [Button "Cabut Perangkat" (negb logoutPending);
         Button (Z_to_string (Z.of_nat (length (groups ?? []))) +:+ " grup") true])
  else ("Disconnected", "Belum terpasang. Klik Connect untuk scan QR.",
        "Koneksi belum aktif. Notifikasi WA tidak akan terkirim.", [Button "Hubungkan" true]).
(** [settings] is [settingsQuery.data ?? []]. *)
Definition settings_card (isLoading : bool) (settings : list SystemSetting) (d : WaCard.Draft) (isPending : bool) : list control * button :=
  ([Control "Aktifkan WhatsApp" (bool_value (WaCard.currentEnabled settings d))
      (bool_decide (is_Some (find_key "notification.wa_enabled" settings)) && negb isLoading);
    Control "Nomor Admin (format: 628xxx)" (WaCard.currentPhone settings d)
      (bool_decide (is_Some (find_key "notification.admin_phone" settings)) && negb isLoading)],
   Button "Simpan" (negb isPending)).
Definition INITIAL_MESSAGE : string := "Ini adalah pesan uji dari Rosmon. 🔔".
Definition test_card (connected : bool) (phone message : string) (isPending : bool) : list control * button * option string :=
  ([Control "Nomor tujuan (format: 628xxx)" phone connected; Control "Pesan" message connected],
   Button "Kirim Test" (connected && negb isPending),
   if connected then None else Some "WhatsApp belum terhubung — hubungkan terlebih dahulu.").
End WhatsAppTab.

(** ** The Telegram tab *)

Module TelegramTab.
Definition config_card (isLoading : bool) (settings : list SystemSetting) (d : TelegramCard.Draft) (isPending : bool) : list control * button :=
  ([Control "Aktifkan Telegram" (bool_value (TelegramCard.currentEnabled settings d))
      (bool_decide (is_Some (find_key "notification.telegram_enabled" settings)) && negb isLoading);
    Control "Bot Token" (TelegramCard.token d ?? "") (negb isLoading);
    Control "Chat ID" (TelegramCard.currentChatID settings d) (negb isLoading)],
   Button "Simpan" (negb isPending)).
Definition complete_note (settings : list SystemSetting) (d : TelegramCard.Draft) : option string :=
  if TelegramCard.complete settings d then Some "Konfigurasi tampak lengkap — coba test kirim." else None.
Definition INITIAL_MESSAGE : string := "Ini adalah pesan uji dari Rosmon via Telegram. 🔔".
Definition test_card (message : string) (isPending : bool) : list control * button :=
  ([Control "Pesan" message true], Button "Kirim ke Telegram" (negb isPending)).

(** What is typed and clicked on the card; a control that is disabled takes nothing. *)
Inductive event : Type := setEnabled (v : bool) | setToken (s : string) | setChatID (s : string).
Definition can (isLoading : bool) (settings : list SystemSetting) (e : event) : bool :=
  match e with
  | setEnabled _ => bool_decide (is_Some (find_key "notification.telegram_enabled" settings)) && negb isLoading
  | setToken _ | setChatID _ => negb isLoading
  end.
Definition step (isLoading : bool) (settings : list SystemSetting) (d : TelegramCard.Draft) (e : event) : TelegramCard.Draft :=
  if can isLoading settings e then
    match e with
    | setEnabled v => TelegramCard.Drafted (Some v) (TelegramCard.token d) (TelegramCard.chatID d)
    | setToken s => TelegramCard.Drafted (TelegramCard.enabled d) (Some s) (TelegramCard.chatID d)
    | setChatID s => TelegramCard.Drafted (TelegramCard.enabled d) (TelegramCard.token d) (Some s)
    end
  else d.
Definition run (isLoading : bool) (settings : list SystemSetting) : list event -> TelegramCard.Draft -> TelegramCard.Draft :=
  fold_left (step isLoading settings).
End TelegramTab.

(** ** Theorems *)

(** *** The connection *)

Lemma pairing_step e c : Connection.pairing c = true -> Connection.pairing (Connection.step e c).1 = true.
Proof. destruct c as [s p l]. cbn. intros ->. destruct e; cbn; try done; repeat case_match; done. Qed.

Lemma pairing_run es c : Connection.pairing c = true -> Connection.pairing (Connection.run es c).1 = true.
Proof.
  revert c. induction es as [|e es IH]; intros c Hc; [done|]. cbn [Connection.run].
  pose proof (pairing_step e c Hc) as H1. destruct (Connection.step e c) as [c1 o1]. specialize (IH c1 H1).
  by destruct (Connection.run es c1).
Qed.

(** The QR code is asked for from the first click on "Connect" and for as long as the page
    stays: never before; afterwards whenever the phone is not connected, so also after a
    logout, where nobody asked for a new code and the button "Connect" does not come back. *)
Theorem qr_starts_again es es' q :
  let c := (Connection.run es Connection.mounted).1 in
  let c' := (Connection.run (es ++ Connection.Connect :: es') Connection.mounted).1 in
  (~ In Connection.Connect es -> Connection.qr_enabled c = false /\ Connection.body_of c q <> Connection.QrLoading) /\
  (Connection.connected c = false ->
     Connection.qr_enabled c' = negb (Connection.connected c') /\
     Connection.body_of c' q <> Connection.ClickConnect /\ caption (Connection.foot c') <> "Connect").
Proof.
  intros c c'. split.
  - intros Hn. assert (Connection.pairing c = false) as Hp.
    { unfold c. assert (Connection.pairing Connection.mounted = false) as H by done. revert Hn H. generalize Connection.mounted.
      induction es as [|e es IH]; intros s Hn Hs; [done|]. cbn [Connection.run].
      assert (Connection.pairing (Connection.step e s).1 = false) as H1.
      { destruct s as [st p l]. cbn in Hs. subst p. destruct e; cbn; try done; repeat case_match; try done. destruct Hn. by left. }
      destruct (Connection.step e s) as [s1 o1]. specialize (IH s1 ltac:(intros ?; apply Hn; by right) H1).
      by destruct (Connection.run es s1). }
    unfold Connection.qr_enabled, Connection.body_of. rewrite Hp. split; [done|]. by destruct (Connection.connected c).
  - intros Hc. assert (Connection.pairing c' = true) as Hp.
    { unfold c'. assert (forall s, Connection.connected (Connection.run es s).1 = false ->
        Connection.pairing (Connection.run (es ++ Connection.Connect :: es') s).1 = true) as H; [|by apply H].
      clear. induction es as [|e es IH]; intros s.
      - cbn [app Connection.run fst]. intros Hs.
        assert (Connection.pairing (Connection.step Connection.Connect s).1 = true) as H1.
        { destruct s as [st p l]. cbn [Connection.step fst]. rewrite Hs. by destruct p. }
        destruct (Connection.step Connection.Connect s) as [s1 o1]. pose proof (pairing_run es' s1 H1) as H2.
        by destruct (Connection.run es' s1).
      - cbn [app Connection.run]. destruct (Connection.step e s) as [s1 o1]. specialize (IH s1).
        destruct (Connection.run es s1), (Connection.run (es ++ _) s1). exact IH. }
    unfold Connection.qr_enabled, Connection.body_of, Connection.foot. rewrite Hp. split; [done|].
    split; destruct (Connection.connected c'); try done; repeat case_match; done.
Qed.

(** *** The settings cards *)

Lemma bool_value_inj a b : bool_value a = bool_value b -> a = b.
Proof. by destruct a, b. Qed.

(** The three settings cards send what they show: two states of a card whose controls show
    the same make the same updates. *)
Theorem cards_send_shown l p q isLoading :
  (forall d d' : WaCard.Draft, WhatsAppTab.settings_card isLoading l d p = WhatsAppTab.settings_card isLoading l d' q ->
     WaCard.ops l d = WaCard.ops l d') /\
  (forall d d' : TelegramCard.Draft, TelegramTab.config_card isLoading l d p = TelegramTab.config_card isLoading l d' q ->
     TelegramCard.ops l d = TelegramCard.ops l d') /\
  (forall s s' : SettingsCard.state,
     WhatsAppPage.settings_form false (Some l) s p = WhatsAppPage.settings_form false (Some l) s' q ->
     SettingsCard.ops l s = SettingsCard.ops l s').
Proof.
  split_and!.
  - intros d d' [= Ha Hb _]. apply bool_value_inj in Ha. unfold WaCard.ops. by rewrite Ha, Hb.
  - intros d d' [= Ha Hb Hc _]. apply bool_value_inj in Ha. unfold TelegramCard.ops, TelegramCard.token_ops. by rewrite Ha, Hb, Hc.
  - intros s s' [= Ha Hb _]. apply bool_value_inj in Ha. unfold SettingsCard.ops. by rewrite Ha, Hb.
Qed.

Definition CHAT : string := "notification.telegram_chat_id".

Lemma differing_lists l k v w : In (k, w) (differing l k v) <-> exists s, find_key k l = Some s /\ v <> value s /\ w = v.
Proof.
  unfold differing. destruct (find_key k l) as [s|]; [|by split; [intros []|intros (s & ? & _)]].
  destruct (String.eqb_spec v (value s)) as [E|E].
  - split; [intros []|]. intros (s' & [= <-] & H & _). by destruct H.
  - split; [intros [[= <-]|[]]; by exists s|]. intros (s' & _ & _ & ->). by left.
Qed.

(** Whatever is typed on the Telegram card, the chat ID is sent exactly when a listed setting
    has another value; the switch of a setting that is not listed cannot be changed.  The
    chat ID's box can, though: when the settings did not come it takes and shows a text
    that is never sent, and saving says that nothing changed. *)
Theorem telegram_chat_sent isLoading l es :
  let d := TelegramTab.run isLoading l es TelegramCard.untouched in
  (forall v, In (CHAT, v) (TelegramCard.ops l d) <->
     exists s, find_key CHAT l = Some s /\ TelegramCard.currentChatID l d <> value s /\ v = TelegramCard.currentChatID l d) /\
  (is_Some (TelegramCard.enabled d) -> is_Some (find_key "notification.telegram_enabled" l)) /\
  (forall x, let d' := TelegramTab.run false [] [TelegramTab.setChatID x] TelegramCard.untouched in
     TelegramCard.currentChatID [] d' = x /\
     forall order o n, toasts (exec o n (TelegramCard.save order [] d')) = [(info, "Tidak ada perubahan")] /\
                       requests (exec o n (TelegramCard.save order [] d')) = []).
Proof.
  intros d. split_and!; [| |done].
  - intros v. unfold TelegramCard.ops. rewrite !in_app_iff. split.
    + intros [H|[H|H]].
      * unfold differing in H. repeat case_match; try done. destruct H as [[= ]|[]].
      * unfold TelegramCard.token_ops in H. destruct (String.eqb _ _); [done|]. destruct H as [[= ]|[]].
      * by apply differing_lists in H.
    + intros H. right; right. by apply differing_lists.
  - unfold d. assert (is_Some (TelegramCard.enabled TelegramCard.untouched) -> is_Some (find_key "notification.telegram_enabled" l)) as H
      by (intros [? [=]]).
    revert H. generalize TelegramCard.untouched. unfold TelegramTab.run.
    induction es as [|e es IH]; intros s Hs; [done|]. cbn [fold_left]. apply IH. unfold TelegramTab.step.
    destruct (TelegramTab.can isLoading l e) eqn:E; [|done]. destruct e; cbn in E |- *; try done.
    apply andb_true_iff in E as [E _]. by apply bool_decide_eq_true in E.
Qed.

(** *** Witnesses *)

Definition paired : jval := JObj [("connected", JBool true); ("jid", JStr "628123@s.whatsapp.net")].
Definition unpaired : jval := JObj [("connected", JBool false)].

Lemma qr_starts_again_witness :
  let es := [Connection.Status paired; Connection.Logout; Connection.LoggedOut (Ok JNull); Connection.Status unpaired] in
  let c := (Connection.run (Connection.Connect :: es) Connection.mounted).1 in
  Connection.connected c = false /\ Connection.qr_enabled c = true.
Proof.
  split; [reflexivity|].
  exact (proj1 (proj2 (qr_starts_again []
    [Connection.Status paired; Connection.Logout; Connection.LoggedOut (Ok JNull); Connection.Status unpaired]
    (Connection.Qr true None None)) eq_refl)).
Defined.
