(* ===== verification/StaffDialogs.v ===== *)
(** * Registrations, one invoice, the day's sales
    ([features/registrations/dialogs/registration-action-dialogs.tsx],
    [features/invoices/components/invoice-detail-dialog.tsx],
    [features/report/daily/components/daily-sales-table.tsx])

    The three dialogs that decide on a registration, with the state they keep from one
    applicant to the next; the dialog of an invoice against the backend's cancellation
    ([api/handler/invoices.go]); the table of a day with its filters. *)
From S2P Require Import Prelude JsString JsValue JsNumber ApiErrors Hooks Ui DialogStores Actions Forms FormsBusiness DeviceTabs.
From S2P Require ListTables Reports.

(** ** Deciding on a registration *)

Module Registration.
Import RegistrationsDialog.

(** The store and what the three components hold: they are mounted with the page, not with
    the dialog.  [waits]: the mutations under way with their callbacks. *)
Record page : Type := Page
  { store : state DialogMode; schedule : string; reason : string; assignedTo : string; installSchedule : string;
    waits : list (DialogMode * (list answer -> prog)) }.
Definition mounted : page := Page initial "" "" "" "" [].

Definition same (m m' : DialogMode) : bool :=
  match m, m' with approve, approve | reject, reject | assign, assign | complete, complete => true | _, _ => false end.
Definition isPending (m : DialogMode) (p : page) : bool := existsb (fun w => same m w.1) (waits p).
Definition opened (m : DialogMode) (p : page) : bool := match mode (store p) with Some m' => same m m' | None => false end.

Inductive event : Type :=
| Open (m : DialogMode) (t : jval)      (** a row's menu, behind no dialog *)
| Cancel
| setSchedule (s : string) | setReason (s : string) | setAssignedTo (s : string) | setInstallSchedule (s : string)
| Confirm
| Answered (m : DialogMode) (a : answer).
Inductive output : Type := Request (m : mutation_hook) | Show (e : effect).

Section Steps.
Variable parse_local : string -> option string.

(** [confirm] of the dialog that is open. *)
Definition confirm (m : DialogMode) (p : page) : prog :=
  match m with
  | approve => RegistrationActions.approve parse_local (target (store p)) (schedule p)
  | reject => RegistrationActions.reject (target (store p)) (reason p)
  | assign => RegistrationActions.assign parse_local (target (store p)) (assignedTo p) (installSchedule p)
  | complete => Return
  end.
Definition with_store (s : state DialogMode) (p : page) : page :=
  Page s (schedule p) (reason p) (assignedTo p) (installSchedule p) (waits p).
Definition with_waits (w : list (DialogMode * (list answer -> prog))) (p : page) : page :=
  Page (store p) (schedule p) (reason p) (assignedTo p) (installSchedule p) w.
(** [close()] among the effects. *)
Definition closing (es : list effect) : bool := existsb (fun e => match e with Close => true | _ => false end) es.

Definition step (e : event) (p : page) : page * list output :=
  match e with
  | Open m t => match mode (store p) with None => (with_store (open m t (store p)) p, []) | Some _ => (p, []) end
  | Cancel => (with_store (close (store p)) p, [])
  | setSchedule v => if opened approve p then (Page (store p) v (reason p) (assignedTo p) (installSchedule p) (waits p), []) else (p, [])
  | setReason v => if opened reject p then (Page (store p) (schedule p) v (assignedTo p) (installSchedule p) (waits p), []) else (p, [])
  | setAssignedTo v => if opened assign p then (Page (store p) (schedule p) (reason p) v (installSchedule p) (waits p), []) else (p, [])
  | setInstallSchedule v => if opened assign p then (Page (store p) (schedule p) (reason p) (assignedTo p) v (waits p), []) else (p, [])
  | Confirm =>
      match mode (store p) with
      | None => (p, [])
      | Some m =>
          if isPending m p then (p, [])
          else match advance (confirm m p) with
          | (es, Some (ms, k)) => (with_waits (waits p ++ [(m, k)]) p, map Show es ++ map Request ms)
          | (es, None) => (p, map Show es)
          end
      end
  | Answered m a =>
      match List.find (fun w => same m w.1) (waits p) with
      | None => (p, [])
      | Some w =>
          let es := (advance (w.2 [a])).1 in
          let p' := with_waits (List.filter (fun w => negb (same m w.1)) (waits p)) p in
          (if closing es then with_store (close (store p')) p' else p', map Show es)
      end
  end.
Fixpoint run (es : list event) (p : page) : page * list output :=
  match es with
  | [] => (p, [])
  | e :: es' =>
      let '(p1, o1) := step e p in
      let '(p2, o2) := run es' p1 in (p2, o1 ++ o2)
  end.
End Steps.

(** What a dialog shows: title, text, boxes with what they hold, choices of the technician's
    select, the buttons. *)
Record screen : Type := Screen
  { title : string; description : string; boxes : list (string * string); choices : list (string * string);
    buttons : string * (string * bool) }.
Definition screen_of (users : list jval) (p : page) : option screen :=
  match mode (store p), target (store p) with
  | Some approve, Some t =>
      Some (Screen "Approve registration"
        ("Creates (or links) a customer for '" +:+ text "full_name" t +:+ "' and sends a confirmation. Set an optional install schedule.")
        [("Scheduled at (optional)", schedule p)] [] ("Cancel", ("Approve", negb (isPending approve p))))
  | Some reject, Some _ =>
      Some (Screen "Reject registration" "The applicant is notified with the reason below." [("Reason", reason p)] []
        ("Cancel", ("Reject", negb (isPending reject p))))
  | Some assign, Some t =>
      Some (Screen "Assign technician" ("Assign an operator to install '" +:+ text "full_name" t +:+ "'.")
        [("Technician", assignedTo p); ("Scheduled at (optional)", installSchedule p)]
        (map (fun u => (text "id" u, text "username" u +:+ " (" +:+ text "role" u +:+ ")")) (RegistrationActions.candidates users))
        ("Cancel", ("Assign", negb (isPending assign p))))
  | _, _ => None
  end.
End Registration.

(** ** One invoice *)

Module InvoiceDetail.
Import InvoiceActions.
Section Screen.
Variable formatIDR format : jval -> string.

Definition fmtDate (s : jval) : string := if truthy s then format s else "—".
Definition method_labels : list (string * string) :=
  [("cash", "Tunai"); ("transfer", "Transfer"); ("portal", "Portal"); ("gateway", "Online")].
Definition payment_status (v : jval) : string :=
  if jval_eqb v (JStr "confirmed") then "Dikonfirmasi" else if jval_eqb v (JStr "rejected") then "Ditolak" else "Pending".
(** A line of the history: method, date, amount, status. *)
Definition payment_line (p : jval) : list string :=
  [ListTables.label_or method_labels (get "method" p);
   if truthy (get "confirmed_at" p) then fmtDate (get "confirmed_at" p) else fmtDate (get "created_at" p);
   formatIDR (get "amount" p); payment_status (get "status" p)].

Inductive button : Type := RecordPayment | CancelInvoice (enabled : bool) | CloseDialog.
Record detail : Type := Detail
  { badge : string; amount : string; info : list (string * string); code : option string; history : list (list string);
    actions : list button }.
Inductive view : Type := Skeletons | Missing (text : string) | Shown (d : detail).

(** [customersQuery.data?.find(c => c.id === inv.customer_id)]. *)
Definition customer_of (customers : list jval) (inv : jval) : string :=
  match List.find (fun c => jval_eqb (get "id" c) (get "customer_id" inv)) customers with
  | Some c => match get "full_name" c with JUndef | JNull => "#" +:+ text "customer_id" inv | v => js_String v end
  | None => "#" +:+ text "customer_id" inv
  end.
Definition detail_of (customers payments : list jval) (isPending : bool) (inv : jval) : detail :=
  Detail (ListTables.label_or ListTables.Invoices.InvoiceStatusBadge (get "status" inv)) (formatIDR (get "amount" inv))
    ([("Pelanggan", customer_of customers inv);
      ("Periode", fmtDate (get "period_start" inv) +:+ " – " +:+ fmtDate (get "period_end" inv));
      ("Jatuh Tempo", fmtDate (get "due_date" inv))] ++
     (if truthy (get "paid_at" inv) then [("Dibayar", fmtDate (get "paid_at" inv))] else []) ++
     (if truthy (get "notes" inv) then [("Catatan", text "notes" inv)] else []))
    (if truthy (get "payment_code" inv) && canPay (Some inv) then Some (text "payment_code" inv) else None)
    (map payment_line payments)
    ((if canPay (Some inv) then [RecordPayment] else []) ++ (if canCancel (Some inv) then [CancelInvoice (negb isPending)] else []) ++
     [CloseDialog]).
Definition title (isLoading : bool) (inv : option jval) : string :=
  if isLoading then "Memuat..."
  else match inv with
  | Some i => match get "invoice_number" i with JUndef | JNull => "Detail Invoice" | v => js_String v end
  | None => "Detail Invoice"
  end.
Definition view_of (isLoading : bool) (inv : option jval) (customers payments : list jval) (isPending : bool) : view :=
  if isLoading then Skeletons
  else match inv with
  | None => Missing "Invoice tidak ditemukan."
  | Some i => Shown (detail_of customers payments isPending i)
  end.
End Screen.

(** [copyCode]: the clipboard's promise is not awaited. *)
Definition copyCode (inv : option jval) : list effect :=
  match inv with
  | Some i =>
      if truthy (get "payment_code" i)
      then [Callback "navigator.clipboard.writeText" (get "payment_code" i); Toast success "Kode bayar disalin" JUndef] else []
  | None => []
  end.

(** [showRecordPayment] and what sets it: the button, and the payment dialog's [onOpenChange]. *)
Inductive event : Type := ClickRecordPayment | onOpenChange (o : bool).
Definition step (_ : bool) (e : event) : bool := match e with ClickRecordPayment => true | onOpenChange o => o end.
(** The properties the payment dialog is mounted with. *)
Record payment_props : Type :=
  PaymentProps { invoiceId : Z; customerId : Z; defaultAmount : Z; invoiceNumber : string }.
Definition payment_dialog (inv : option jval) (showRecordPayment : bool) : option payment_props :=
  match inv with
  | Some i =>
      if showRecordPayment
      then Some (PaymentProps (number "id" i) (number "customer_id" i) (number "amount" i) (text "invoice_number" i)) else None
  | None => None
  end.
(** Its form submitted as it opens. *)
Definition paid_untouched `{Zod} (d : payment_props) : prog :=
  RecordPayment.submit (invoiceId d) (customerId d) (invoiceNumber d) (RecordPayment.defaultValues (defaultAmount d)).

(** The backend's [Cancel]: refused for a paid invoice, otherwise the status is set. *)
Definition Cancel (inv : jval) : result string jval :=
  if status_is inv "paid" then Throw "CONFLICT"
  else match inv with
  | JObj fs => Ok (JObj (map (fun f => if String.eqb f.1 "status" then ("status", JStr "cancelled") else f) fs))
  | v => Ok v
  end.
End InvoiceDetail.

(** ** The day's sales *)

Module DailyTable.
Import Reports.
Inductive event : Type := setSearch (s : string) | setProfile (s : string) | setServer (s : string) | Reset.
Definition step (f : DailyFiltersState) (e : event) : DailyFiltersState :=
  match e with
  | setSearch s => DailyFilters s (f_profile f) (f_server f)
  | setProfile s => DailyFilters (search f) s (f_server f)
  | setServer s => DailyFilters (search f) (f_profile f) s
  | Reset => EMPTY_FILTERS
  end.
Definition run : list event -> DailyFiltersState -> DailyFiltersState := fold_left step.
(** Whether the button "Reset" is there. *)
Definition reset_shown (f : DailyFiltersState) : bool :=
  negb (String.eqb (search f) "") || negb (String.eqb (f_profile f) "all") || negb (String.eqb (f_server f) "all").
Definition profile_items (sales : list VoucherSale) : list (string * string) :=
  ("all", "All profiles") :: map (fun p => (p, p)) (profiles sales).
Definition server_items (sales : list VoucherSale) : list (string * string) :=
  ("all", "All servers") :: map (fun p => (p, p)) (servers sales).

(** A sale with the two fields only the table shows. *)
Record listed : Type := Listed { sale : VoucherSale; sold_at : jval; validity : string }.
Section Table.
Variable formatIDR : Z -> string.
Variable timeFormatter : jval -> string.
Definition headers : list string := ["Time"; "Username"; "Profile"; "Price"; "Validity"; "Server"; "IP"; "MAC"].
Definition table_row (l : listed) : list string :=
  [timeFormatter (sold_at l); username (sale l); profile_name (sale l); formatIDR (selling_price (sale l)); validity l;
   server (sale l); ip_address (sale l); mac_address (sale l)].
(** The narrow view: three lines of two texts. *)
Definition mobile_card (l : listed) : list (string * string) :=
  [(username (sale l), formatIDR (selling_price (sale l)));
   (timeFormatter (sold_at l) +:+ " · " +:+ server (sale l), profile_name (sale l));
   (ip_address (sale l) +:+ " · " +:+ mac_address (sale l), "")].
Inductive body : Type := Empty (text : string) | Rows (l : list (list string)).
Definition table_body (filtered : list listed) : body :=
  match filtered with [] => Empty "No sales for the current filter." | l => Rows (map table_row l) end.
End Table.
End DailyTable.

(** ** Theorems *)

(** *** Registrations *)

Section Deciding.
Import Registration RegistrationsDialog.
Variable parse_local : string -> option string.
Notation step := (step parse_local).
Notation run := (run parse_local).

(** The boxes change by typing only: not by closing, deciding or opening the next. *)
Lemma boxes_kept e p :
  ((forall v, e <> setSchedule v) -> schedule (step e p).1 = schedule p) /\
  ((forall v, e <> setReason v) -> reason (step e p).1 = reason p) /\
  ((forall v, e <> setAssignedTo v) -> assignedTo (step e p).1 = assignedTo p) /\
  ((forall v, e <> setInstallSchedule v) -> installSchedule (step e p).1 = installSchedule p).
Proof.
  destruct e; split_and!; intros H; cbn [step]; try (by destruct (H v)); try (by destruct (H s)); try done;
    repeat case_match; try done; cbn; case_match; done.
Qed.

(** Opening a dialog and confirming it at once. *)
Lemma open_confirm m t p : mode (store p) = None -> isPending m p = false ->
  (run [Open m t; Confirm] p).2 =
    map Show (advance (confirm parse_local m (with_store (RegistrationsDialog.open m t (store p)) p))).1 ++
    match (advance (confirm parse_local m (with_store (RegistrationsDialog.open m t (store p)) p))).2 with
    | Some (ms, _) => map Request ms | None => [] end.
Proof.
  intros Hm Hp. cbn [run Registration.step]. rewrite Hm. cbn [Registration.step].
  change (mode (store (with_store (RegistrationsDialog.open m t (store p)) p))) with (Some m). cbn iota.
  change (isPending m (with_store (RegistrationsDialog.open m t (store p)) p)) with (isPending m p). rewrite Hp.
  destruct (advance _) as [es [[ms k]|]]; cbn; by rewrite ?app_nil_r.
Qed.

Definition requests_sent (o : list output) : list mutation_hook :=
  omap (fun x => match x with Request m => Some m | Show _ => None end) o.

(** What was typed for one applicant is sent for the next.  When a registration is opened and
    confirmed without typing, it is rejected with the reason, approved with the schedule, and
    assigned to the technician that the boxes still hold ([boxes_kept]: only typing changes
    them); after a rejection of [a] for [r], two clicks reject [t] for [r]. *)
Theorem registration_texts_carried t p :
  mode (store p) = None ->
  (isPending reject p = false -> trim (reason p) <> "" ->
   (run [Open reject t; Confirm] p).2 =
     [Request (M_Registrations_RejectRegistration (number "id" t, JObj [("reason", JStr (trim (reason p)))]))]) /\
  (isPending approve p = false ->
   (run [Open approve t; Confirm] p).2 =
     [Request (M_Registrations_ApproveRegistration
        (number "id" t, JObj [("scheduled_at", RegistrationActions.toISO parse_local (schedule p))]))]) /\
  (isPending assign p = false -> truthy (Number_val (assignedTo p)) = true ->
   (run [Open assign t; Confirm] p).2 =
     [Request (M_Registrations_AssignRegistration
        (number "id" t, JObj [("assigned_to", Number_val (assignedTo p));
                              ("scheduled_at", RegistrationActions.toISO parse_local (installSchedule p))]))]) /\
  (forall a r v, trim r <> "" ->
   requests_sent (run ([Open reject a; setReason r; Confirm; Answered reject (Ok v)] ++ [Open reject t; Confirm]) mounted).2 =
     map (fun x => M_Registrations_RejectRegistration (number "id" x, JObj [("reason", JStr (trim r))])) [a; t]).
Proof.
  intros Hm. split_and!; [intros Hp Hr|intros Hp|intros Hp Ha|].
  1-3: rewrite open_confirm by done; unfold RegistrationActions.reject, RegistrationActions.approve, RegistrationActions.assign; cbn.
  - by rewrite (proj2 (String.eqb_neq _ _) Hr).
  - done.
  - by rewrite Ha.
  - intros a r v Hr. cbn. rewrite (proj2 (String.eqb_neq _ _) Hr). cbn. by rewrite (proj2 (String.eqb_neq _ _) Hr).
Qed.

(** A request is about the registration whose dialog is open; and an answer that comes after
    its dialog was closed closes the dialog that is open then, another applicant's. *)
Theorem registration_targets p a b r v :
  (forall m, In (Request m) (step Confirm p).2 -> exists t, target (store p) = Some t /\
     match m with
     | M_Registrations_ApproveRegistration (i, _) | M_Registrations_RejectRegistration (i, _)
     | M_Registrations_AssignRegistration (i, _) => i = number "id" t
     | _ => False
     end) /\
  (trim r <> "" ->
   let p' := (run [Open reject a; setReason r; Confirm; Cancel; Open approve b] mounted).1 in
   mode (store p') = Some approve /\ target (store p') = Some b /\
   mode (store (step (Answered reject (Ok v)) p').1) = None).
Proof.
  split.
  - intros m. cbn [step]. destruct (mode (store p)) as [d|]; [|by intros []]. destruct (isPending d p); [by intros []|].
    destruct d; cbn [confirm]; unfold RegistrationActions.approve, RegistrationActions.reject, RegistrationActions.assign, awaits;
      [| | |by intros []]; (destruct (target (store p)) as [t|]; [|by intros []]); cbn; intros Hin;
      repeat match type of Hin with context [if ?c then _ else _] => destruct c end; cbn in Hin;
      destruct Hin as [Hin|Hin]; try done; try (destruct Hin as [Hin|Hin]; try done); injection Hin as <-; by exists t.
  - intros Hr p'. unfold p'. cbn. rewrite (proj2 (String.eqb_neq _ _) Hr). done.
Qed.
End Deciding.

(** *** One invoice *)

Section Invoice.
Import InvoiceActions InvoiceDetail.
Variable formatIDR format : jval -> string.

(** The dialog offers what the invoice allows: a payment, with its code, for what is owed;
    a cancellation for what is issued or a draft, which the backend then carries out and
    after which neither is offered.  An overdue invoice can be paid only, although the
    backend would cancel it. *)
Theorem invoice_actions customers payments isPending inv fs : inv = JObj fs ->
  let d := detail_of formatIDR format customers payments isPending inv in
  (In RecordPayment (actions d) <-> status_is inv "issued" = true \/ status_is inv "overdue" = true) /\
  (is_Some (code d) -> In RecordPayment (actions d)) /\
  (In (CancelInvoice (negb isPending)) (actions d) -> exists inv', InvoiceDetail.Cancel inv = Ok inv' /\
     canCancel (Some inv') = false /\ canPay (Some inv') = false) /\
  (status_is inv "overdue" = true -> ~ In (CancelInvoice (negb isPending)) (actions d) /\ exists inv', InvoiceDetail.Cancel inv = Ok inv').
Proof.
  intros -> d.
  assert (forall s s', s <> s' -> status_is (JObj fs) s = true -> status_is (JObj fs) s' = false) as Hone.
  { unfold status_is. intros s s' Hs H. apply jval_eqb_eq in H. rewrite H. cbn. by apply String.eqb_neq. }
  unfold d, detail_of, InvoiceDetail.Cancel, canPay, canCancel. cbn [actions code]. split_and!.
  - destruct (status_is (JObj fs) "issued"), (status_is (JObj fs) "overdue"), (status_is (JObj fs) "draft"); cbn; split; naive_solver.
  - destruct (truthy _ && (status_is (JObj fs) "issued" || status_is (JObj fs) "overdue")) eqn:E; [|by intros [? ?]].
    apply andb_true_iff in E as [_ E]. rewrite E. intros _. by left.
  - destruct (status_is (JObj fs) "paid") eqn:Ep.
    + rewrite (Hone "paid" "issued"), (Hone "paid" "draft") by done. destruct (status_is (JObj fs) "overdue"); cbn [orb app In]; naive_solver.
    + intros Hin. eexists. split; [done|].
      set (g := fun f : string * jval => if String.eqb f.1 "status" then ("status", JStr "cancelled") else f).
      assert (forall l, get "status" (JObj (map g l)) = JStr "cancelled" \/ get "status" (JObj (map g l)) = JUndef) as Hg.
      { intros l. cbn [get]. induction l as [|[k w] l IH]; [by right|]. cbn [map]. unfold g at 1 3. cbn [fst].
        destruct (String.eqb k "status") eqn:E; cbn [field]; [|rewrite String.eqb_sym, E; exact IH].
        left. change (String.eqb "status" "status") with true. cbn iota. by destruct IH as [-> | ->]. }
      unfold status_is. by destruct (Hg fs) as [-> | ->].
  - intros Ho. rewrite (Hone "overdue" "issued"), (Hone "overdue" "draft"), (Hone "overdue" "paid"), Ho by done. cbn.
    split; [intros [[=]|[[=]|[]]]|by eexists].
Qed.

(** The payment offered for an invoice records, left as it opens, the whole amount in cash for
    this invoice and its customer; and the payment dialog is there only over an invoice. *)
Theorem invoice_payment `{Zod} inv show e :
  payment_dialog None show = None /\
  payment_dialog inv (InvoiceDetail.step show (onOpenChange false)) = None /\
  (forall d, payment_dialog inv (InvoiceDetail.step show e) = Some d -> 0 < defaultAmount d ->
   exists i, inv = Some i /\ exists k,
     advance (paid_untouched d) =
       ([], Some ([M_Payments_CreatePayment
         (JObj [("invoice_id", JNum (number "id" i)); ("customer_id", JNum (number "customer_id" i));
                ("amount", JNum (number "amount" i)); ("method", JStr "cash");
                ("reference_number", JUndef); ("bank_name", JUndef)])], k))).
Proof.
  split_and!; [done|by destruct inv|]. intros d. destruct inv as [i|]; [|done]. cbn. case_match; [|done].
  intros [= <-] Hp. cbn in Hp. exists i. split; [done|]. unfold paid_untouched, RecordPayment.submit, handleSubmit.
  assert (RecordPayment.schema (RecordPayment.defaultValues (number "amount" i)) = true) as Hs.
  { unfold RecordPayment.schema, all_digits. cbn [RecordPayment.method RecordPayment.amount RecordPayment.defaultValues].
    rewrite (proj2 (enum_spec _ _)), Number_val_Z by (lia || set_solver). cbn [andb].
    destruct (Z_to_string_nonneg (number "amount" i) ltac:(lia)) as (Hd & Ha & _).
    destruct (Z_to_string (number "amount" i)); [done|]. rewrite Ha. cbn. destruct (number "amount" i); done. }
  cbn [invoiceId customerId invoiceNumber defaultAmount]. rewrite Hs. eexists. unfold RecordPayment.onSubmit, RecordPayment.payload.
  cbn [RecordPayment.method RecordPayment.amount RecordPayment.reference_number RecordPayment.bank_name RecordPayment.defaultValues].
  by rewrite Number_val_Z by lia.
Qed.
End Invoice.

(** *** The day's sales *)

(** "Reset" is offered exactly when a filter may hide a sale, and shows every sale again. *)
Theorem daily_reset sales es :
  let f := DailyTable.run es Reports.EMPTY_FILTERS in
  (DailyTable.reset_shown f = false -> f = Reports.EMPTY_FILTERS) /\
  Reports.applyDailyFilters sales (DailyTable.step f DailyTable.Reset) = sales /\
  (DailyTable.reset_shown f = false -> Reports.applyDailyFilters sales f = sales).
Proof.
  intros f.
  assert (Reports.applyDailyFilters sales Reports.EMPTY_FILTERS = sales) as Ha.
  { unfold Reports.applyDailyFilters. induction sales as [|x l IH]; [done|]. cbn. by rewrite IH. }
  assert (DailyTable.reset_shown f = false -> f = Reports.EMPTY_FILTERS) as Hf.
  { unfold DailyTable.reset_shown. destruct f as [a b c]. cbn. intros H. b2p. by subst. }
  split_and!; [done|exact Ha|]. intros H. by rewrite (Hf H).
Qed.

(** *** Witnesses *)

Definition applicant (id : Z) (name : string) : jval := JObj [("id", JNum id); ("full_name", JStr name)].
Definition no_parse (_ : string) : option string := None.

Lemma registration_texts_carried_witness :
  let p := (Registration.run no_parse [Registration.Open RegistrationsDialog.reject (applicant 4 "Budi");
    Registration.setReason "Area belum tercover"; Registration.Confirm;
    Registration.Answered RegistrationsDialog.reject (Ok JNull)] Registration.mounted).1 in
  mode (Registration.store p) = None /\ Registration.reason p = "Area belum tercover" /\
  (Registration.run no_parse [Registration.Open RegistrationsDialog.reject (applicant 9 "Sari"); Registration.Confirm] p).2 =
    [Registration.Request (M_Registrations_RejectRegistration (9, JObj [("reason", JStr "Area belum tercover")]))].
Proof.
  intros p. split_and!; [reflexivity|reflexivity|].
  exact (proj1 (registration_texts_carried no_parse (applicant 9 "Sari") p eq_refl) eq_refl ltac:(discriminate)).
Defined.

